(* ===== verification/_CoqProject ===== *)
-Q . S2P
Prelude.v
RingBuffer.v
BlockingRing.v
Ring2D.v
Bytes.v
Text.v
Streams.v
Logger.v
Ptc.v
Crc.v
PtcClient.v
PtcConfig.v
TcpClient.v
TcpSsl.v
PtcOpen.v
Pcap.v
PcapSource.v
Floats.v
Ticks.v
LidarTypes.v
Walk.v
PcapSaver.v
PacketLoss.v
GeneralParser.v
Decoder.v
Calendar.v
ProtocolV1_4.v
LidarTime.v
FaultMessage.v
Firetimes1_4.v
Udp1_4.v
Points.v
Spinning.v
Udp3_2.v
Udp7_2.v
Udp4_3.v
Sections.v
Udp4_7.v
EtCorrections.v
EtPackets.v
Udp2_4.v
Udp2_5.v
Udp2_6.v
UdpParser.v
SocketSource.v
Lidar.v
DriverParam.v
LidarInit.v
LidarEnd.v
Sdk.v
Gpu.v
GpuSpinning.v
GpuEt.v
GpuAt.v
GpuParser.v
SdkGpu.v
SdkLife.v
