(* ===== verification/Prelude.v ===== *)
(** * Hesai LiDAR SDK 2.0: a verification development

    ** The program

    The SDK receives the UDP packets of a Hesai lidar (from a socket or from
    a recorded capture), recognises the protocol, splits the stream of packets
    into frames (one turn of the lidar each), computes the coordinates of the
    points, and hands every frame to a callback of the application.  Beside
    that it speaks PTC, a request/answer protocol over TCP, to configure the
    device and to fetch its calibration.

    The parts call each other as follows (paths below [src/libhesai/] and
    [src/driver/]):
    - [HesaiLidarSdk::Run] (hesai_lidar_sdk.hpp) takes packets from the queue
      of [Lidar], has them decoded, ends the frames and calls back;
    - [Lidar] (Lidar/lidar.cc) runs the receiving thread, the parser thread
      and the handle threads around its queues, and loads the calibration;
    - [UdpParser] (UdpParser/src/udp_parser.cc) chooses the concrete parser
      by the packet, by a version or by a name, and delegates to it;
    - the concrete parsers derive from [GeneralParser];
    - [Source] is the interface of [SocketSource] and [PcapSource];
      [PcapSaver] writes what [PcapSource] reads, over a [BlockingRing];
    - [PtcClient] builds requests with the PTC parsers and sends them with
      [TcpClient].

    ** The files

    - Prelude: faults, results, machine words ([u8] ... [u64], [i32]),
      arrays with checked access, loops over results, the shared tactics.
      Every definition that indexes memory answers [Err] when it leaves it,
      so a theorem that an operation answers [Ok] is a safety theorem.
    - RingBuffer (Container/src/ring.cc): the ring as an array with a begin
      index, refining a bounded double-ended list ([ring_refines_deque]).
    - BlockingRing (Container/src/blocking_ring.cc): threads around the ring
      as a step relation with a mutex, a condition variable, [notify_one]
      and spurious wake-ups.  FIFO and absence of faults for any number of
      threads; no lost wake-up for one producer and one consumer.
    - Ring2D (Container/src/ring_2dex.cc and ring_2d_shared.cc): the ring of rows
      into a table of cells, which refines a list of rows as long as the width
      does not change ([append_batch_appends]), and the one whose cells are in
      shared memory.  The library does not use them.
    - Logger (Logger/src/logger.cc): the lines, the levels and targets, and the
      writing thread with its mutex and its condition variable as turns.
    - Ticks (src/plat_utils.cc and auto_tick_count.cc): what is made of the answers
      of the clocks, stop watches, the time stamp, the file of angles.
    - Bytes (endian.h and the casts of packed structures), Text (the parts of
      the C and C++ libraries that parse numbers and split lines).
    - Ptc (PtcParser/), Crc (PtcClient, [CRCInit] and [CRCCalc]), PtcClient
      (PtcClient/src/ptc_client.cc: [QueryCommand], the getters and setters),
      PtcConfig (the setters that take addresses), TcpClient and TcpSsl
      (PtcClient/src/tcp_client.cc and tcp_ssl_client.cc, over classes of the
      socket calls and of the OpenSSL calls), PtcOpen (the constructor of
      [PtcClient], the thread that connects, the destructor).
    - Pcap (the record formats), PcapSource and PcapSaver
      (Lidar's sources): reading any file safely, recording and playing back.
    - Streams ([std::stringstream] and the file streams as far as the loaders
      use them), Floats (binary32 and binary64 arithmetic as [spec_float] with
      its rounding), LidarTypes (lidar_types.h: packets, points, frames).
    - PacketLoss and GeneralParser (UdpParser/src/general_parser.cc): the loss
      counters, and the base class with the correction file.
    - Decoder: the interface of a concrete parser, a type class [Decoder] of
      its virtual functions with the laws [DecoderLaws] that its clients rely
      on; UdpParser, Lidar and Sdk are proved against that interface.
    - Walk (the loops over blocks and channels that every decoder has, with
      what they leave and when they end) and Points (the end of the loop over
      the points).
    - the decoders, one file each (UdpParser/src/, UdpProtocol/): Udp1_4 with
      ProtocolV1_4 and Firetimes1_4; Spinning (P40, P64, 3.1 and 6.1, which
      differ in a format); Udp3_2 (QT), Udp4_3 (AT), Udp4_7 (ATX), Udp7_2 (FT);
      EtPackets and EtCorrections (what the ET decoders share) with Udp2_4,
      Udp2_5 and Udp2_6.  Sections has the parts of the packets of 1.4, 3.2, 4.3 and
      4.7 that no decoder reads, and the sizes of whole packets.  Calendar has [mktime]
      and the time zone, LidarTime the time stamps of the tails,
      FaultMessage the fault messages of 4.3 and 4.7.  Udp1_4, Spinning,
      Udp2_4, Udp2_5, Udp2_6, Udp4_7 and Udp7_2 satisfy the laws of Decoder.
    - UdpParser, SocketSource, Lidar, Sdk: the parts of the same names.
    - DriverParam (driver_param.h), LidarInit ([Lidar::Init], [InitSetPtc] and
      the calls around calibrations and recordings, over classes of the source's
      constructors and of the PTC client's calls), LidarEnd ([Lidar::~Lidar] while
      the threads of the lidar run, with the calls it makes into other parts as
      turns that may not come) and SdkLife ([Init], [Start],
      [Stop] of the SDK, with the lidar as an object on the heap and [Stop] one
      statement at a time; [Init] of the SDK with a device).
    - Gpu, GpuSpinning, GpuEt, GpuAt, GpuParser, SdkGpu (UdpParserGpu/ and
      hesai_lidar_sdk_gpu.cuh): the decoders that compute the points on a CUDA
      device.  Gpu has what they share: the device as an argument [Cuda] (which
      calls succeed, in which order the threads of a launch run), the buffers,
      the base class, and the skeleton of [ComputeXYZI] with a launch as a fold
      over the threads.  The next three have the loaders and the kernels of the
      decoders, GpuParser chooses one of them, SdkGpu is the loop of the
      application that uses it, over the [Sdk] and [Lidar] of the others.

    A definition has the name of the function it translates; the fields of a
    record have the names of the members they model.  A member function
    becomes a function from the object (and what it reads from outside: the
    clock, the system's answers) to the changed object; a loop becomes a
    structural recursion on the number of its turns, or takes fuel, with a
    theorem that the fuel given is enough.  Threads are turns: one turn is
    what a thread does between two visits of its queue, and the theorems of
    Lidar and Sdk quantify over every sequence of turns.

    ** The theorems

    - conservation and order of packets through the whole pipeline, and when
      the wait for a frame ends (not after a frame that overflowed):
      [sdk_conserves], [wait_ends], [packets_computed_once], [receive_classification];
    - the decoders: each channel of a packet becomes exactly its point, with
      the offsets inside the packet ([..._packet_points]); where a frame ends
      ([..._frame_split], [one_frame_per_turn]); the time stamp is the
      calendar's, up to the change of the zone's standard time ([lidar_time_calendar]); what is refused and what is trusted;
    - calibration files: what was written is what is loaded
      ([..._roundtrip], [correction_text_loads]), what a refused file leaves, which files overrun;
    - the containers refine lists; the threads around them lose nothing;
    - PTC: requests encode and decode, an answer is received however TCP cuts
      it, any answer is handled without leaving the buffers; the table-driven
      CRC is the bit-by-bit one;
    - descriptors: [TcpClient] leaks none but descriptor 0, nor does a [PtcClient]
      from its constructor to its destructor, and they fault only at a descriptor
      too large for [select] ([tcp_no_leak], [ptc_client_lifetime],
      [descriptor_zero_kept], [large_descriptor_faults]); the
      thread connects as soon as the lidar lets it ([ptc_open_connects]); what a
      failed connection under TLS looks like ([ssl_failed_connection_is_open]);
    - starting and stopping: what the flags of [Init] promise
      ([init_flags_sound]), which packets it takes ([init_consumes_first_packet]),
      that [Run] has a parser ([run_has_parser]); the destructor of a lidar waits
      for every thread before it deletes what the thread uses, and ends if the calls
      it makes return ([destructor_safe], [destructor_ends]); what [Stop] does when
      the other threads take their turns between its statements ([stop_cases]);
    - the log: the lines reach the file in the order of the calls, none lost or
      written twice ([log_lines_in_order]), and all of them while the logger runs
      ([log_drains]); how long they may be ([log_line_bound]); what [Stop] and a
      second [Start] do ([stop_can_hang], [restart_writes_nothing]);
    - files: any capture is read safely and the reading ends; recording and
      playing back gives the packets; correction and firetime files load
      exactly their numbers;
    - the device: the order of the threads does not matter
      ([gpu_order_irrelevant]); a decoder of the device writes the points of
      the decoder of the CPU up to the coordinates, which round differently
      ([gpu_agrees_with_cpu], [gpu_et_agrees_with_cpu], ...), and loads the same
      calibration ([gpu_text_same_angles], [gpu_et_same_calibration]); what a
      refused frame leaves ([gpu_refused], [gpu_refusal_hidden]);
    - where the code does not do what it means to, a theorem states what it
      does (a lost wake-up with several producers, a stale counter after an
      overflow, late packets counted as losses, and others).

    ** Bounds and fuel

    Integers have their width and wrap around.  The receiving loops of
    [QueryCommand] take fuel: each turn consumes a segment the peer sent, and
    [query_total] gives the amount that is enough.  Reading a capture takes at
    most one call per sixteen bytes ([pcap_receive_terminates]).  Queues and
    frames have the code's capacities ([kPacketBufferSize] 36000,
    [kMaxPacketNumPerFrame] 5000).

    ** Not modelled

    The tools, tests and drivers, which call the library; [SetThreadPriority],
    which asks the system for a priority and logs the answer; the members that
    only print a packet; the branches for Windows.  The memory of a device has no
    value before it is written: an element nothing has written is not in its map, and
    the members of a point that a kernel leaves alone are taken from [zero_point]
    there.  The functions of libm ([sin], [cos], [tan], [atan],
    [asin], [sqrt]) are arguments of the definitions that call them. *)

From stdpp Require Export base tactics list numbers option gmap strings.
From Stdlib Require Export Lia.
#[export] Set Default Goal Selector "!".
Local Open Scope Z_scope.

(** ** Faults and results

    A C++ operation either returns or leaves the defined behaviour of the
    program; the second case is a value here. *)

Inductive fault : Set :=
| AssertFailure   (* an [assert] whose condition is false *)
| OutOfBounds     (* an access outside an array, a vector or a packet buffer *)
| Uninitialised   (* a read of memory no statement has written *)
| NullPointer     (* a member access through a null pointer *)
| Thrown          (* a standard-library exception leaves the function *)
| BadConversion   (* a floating-point value that the integer type cannot hold *)
| Overflow        (* a signed operation whose result the type cannot hold *)
| BadShift        (* a shift by a negative amount *)
| DivisionByZero  (* an integer division by zero *)
| NoReturn        (* the end of a function that owes its caller a value *)
| NoProgress      (* a loop that cannot terminate *)
| Exited          (* a call of [exit] or [abort] *)
| UseAfterFree.   (* a member access through a pointer to a deleted object *)

Inductive result (A : Type) : Type :=
| Ok (a : A)
| Err (f : fault).
Arguments Ok {A} a.
Arguments Err {A} f.

#[export] Instance fault_eq_dec : EqDecision fault.
Proof. solve_decision. Defined.

#[export] Instance result_eq_dec `{EqDecision A} : EqDecision (result A).
Proof. solve_decision. Defined.

#[export] Instance result_ret : MRet result := fun A a => Ok a.

#[export] Instance result_bind : MBind result := fun A B k m =>
  match m with Ok a => k a | Err f => Err f end.

#[export] Instance result_fmap : FMap result := fun A B k m =>
  match m with Ok a => Ok (k a) | Err f => Err f end.

(** [assert(b)] with assertions compiled in. *)
Definition assert_ (b : bool) : result unit :=
  if b then Ok tt else Err AssertFailure.

Definition of_option {A} (f : fault) (o : option A) : result A :=
  match o with Some a => Ok a | None => Err f end.

Definition is_ok {A} (r : result A) : bool :=
  match r with Ok _ => true | Err _ => false end.

(** Left fold whose step may fault. *)
Fixpoint foldM {A B} (f : B -> A -> result B) (b : B) (l : list A) : result B :=
  match l with
  | [] => Ok b
  | a :: l => b' ← f b a; foldM f b' l
  end.

(** ** Machine integers: a w-bit value is a [Z], wrapped where C++ wraps *)

Definition u8 (z : Z) : Z := z mod 2 ^ 8.
Definition u16 (z : Z) : Z := z mod 2 ^ 16.
Definition u32 (z : Z) : Z := z mod 2 ^ 32.
Definition u64 (z : Z) : Z := z mod 2 ^ 64.
Definition i8 (z : Z) : Z := (z + 2 ^ 7) mod 2 ^ 8 - 2 ^ 7.
Definition i16 (z : Z) : Z := (z + 2 ^ 15) mod 2 ^ 16 - 2 ^ 15.
Definition i32 (z : Z) : Z := (z + 2 ^ 31) mod 2 ^ 32 - 2 ^ 31.

(** The result of an operation of type [int], which must fit. *)
Definition int_ok (z : Z) : result Z := if (- 2 ^ 31 <=? z) && (z <? 2 ^ 31) then Ok z else Err Overflow.

(** A byte, and lists of them. *)
Definition is_u8 (z : Z) : Prop := 0 <= z < 2 ^ 8.
Definition is_u16 (z : Z) : Prop := 0 <= z < 2 ^ 16.
Definition is_u32 (z : Z) : Prop := 0 <= z < 2 ^ 32.
Definition is_u64 (z : Z) : Prop := 0 <= z < 2 ^ 64.

(** ** Arrays: a list of fixed length, indexed by a machine integer *)

Definition arr_get {A} (l : list A) (i : Z) : result A :=
  if decide (0 <= i) then of_option OutOfBounds (l !! Z.to_nat i) else Err OutOfBounds.

Definition arr_set {A} (l : list A) (i : Z) (x : A) : result (list A) :=
  if decide (0 <= i < Z.of_nat (length l)) then Ok (<[Z.to_nat i := x]> l) else Err OutOfBounds.

(** The sub-list [l[off .. off+len)], or a fault when it leaves the list. *)
Definition arr_slice {A} (l : list A) (off len : Z) : result (list A) :=
  if decide (0 <= off /\ 0 <= len /\ off + len <= Z.of_nat (length l))
  then Ok (take (Z.to_nat len) (drop (Z.to_nat off) l)) else Err OutOfBounds.

(** [memcpy(l + off, src, n)] of [n] source bytes into an array. *)
Definition arr_blit {A} (l : list A) (off : Z) (src : list A) : result (list A) :=
  if decide (0 <= off /\ off + Z.of_nat (length src) <= Z.of_nat (length l))
  then Ok (take (Z.to_nat off) l ++ src ++ drop (Z.to_nat off + length src) l)
  else Err OutOfBounds.

(** [std::vector::resize(n)]: keeps the prefix, value-initialises the rest. *)
Definition vec_resize {A} (d : A) (n : Z) (l : list A) : list A :=
  take (Z.to_nat n) l ++ replicate (Z.to_nat n - length l) d.

(** ** Tactics *)

(** Splits the binds of a hypothesis [m ≫= k = Ok v]. *)
Ltac inv_ok :=
  repeat match goal with
  | H : Ok _ = Ok _ |- _ => injection H as H; try subst
  | H : Err _ = Err _ |- _ => injection H as H; try subst
  | H : Err _ = Ok _ |- _ => discriminate H
  | H : Ok _ = Err _ |- _ => discriminate H
  | H : (?m ≫= ?k) = Ok _ |- _ =>
      let E := fresh "E" in destruct m eqn:E; cbn [mbind result_bind] in H
  | H : context [assert_ ?b] |- _ =>
      let E := fresh "E" in destruct b eqn:E; cbn [assert_] in H
  end.

(** Decides the boolean comparisons in a goal. *)
Ltac cases_bool :=
  repeat match goal with
  | |- context [Z.eqb ?a ?b] => destruct (Z.eqb_spec a b)
  | |- context [Z.ltb ?a ?b] => destruct (Z.ltb_spec a b)
  | |- context [Z.leb ?a ?b] => destruct (Z.leb_spec a b)
  end.

(** Linear arithmetic after unfolding the widths. *)
Ltac width := unfold u8, u16, u32, u64, i16, i32, is_u8, is_u16, is_u32, is_u64 in *.

(** Removes a wrap-around that cannot happen. *)
Ltac nowrap := rewrite ?Z.mod_small by lia.

Create HintDb sdk discriminated.
Create Rewrite HintDb sdk_rw.

(** ** Results *)

Lemma bind_ok {A B} (m : result A) (k : A -> result B) v :
  m ≫= k = Ok v <-> exists a, m = Ok a /\ k a = Ok v.
Proof.
  destruct m; cbn; split.
  - eauto.
  - intros (? & [= ->] & ?); done.
  - done.
  - intros (? & [=] & _).
Qed.

#[export] Instance Ok_inj {A} : Inj (=) (=) (@Ok A).
Proof. by intros x y [= ->]. Qed.

Lemma bind_Ok_l {A B} (a : A) (k : A -> result B) : Ok a ≫= k = k a.
Proof. done. Qed.

Lemma bind_Err_l {A B} f (k : A -> result B) : Err f ≫= k = Err f.
Proof. done. Qed.

Lemma bind_assoc {A B C} (m : result A) (k : A -> result B) (h : B -> result C) :
  (m ≫= k) ≫= h = m ≫= (fun a => k a ≫= h).
Proof. by destruct m. Qed.

Lemma foldM_app {A B} (f : B -> A -> result B) b l1 l2 :
  foldM f b (l1 ++ l2) = b' ← foldM f b l1; foldM f b' l2.
Proof.
  revert b; induction l1 as [|a l1 IH]; intros b; cbn; [done|].
  destruct (f b a); cbn; [apply IH | done].
Qed.

Lemma foldM_ext {A B} (f g : B -> A -> result B) l b :
  (forall b a, a ∈ l -> f b a = g b a) -> foldM f b l = foldM g b l.
Proof.
  revert b. induction l as [|a l IH]; intros b H; cbn [foldM]; [done|].
  rewrite H by by left. destruct (g b a); cbn; [|done]. apply IH. intros; apply H; by right.
Qed.

Lemma seqZ_snoc n : seqZ 0 (Z.of_nat (S n)) = seqZ 0 (Z.of_nat n) ++ [Z.of_nat n].
Proof. rewrite Nat2Z.inj_succ, <-Z.add_1_r, seqZ_app by lia. by rewrite Z.add_0_l. Qed.

Lemma foldM_snoc {A B} (f : B -> A -> result B) b l a :
  foldM f b (l ++ [a]) = (b' ← foldM f b l; f b' a).
Proof. rewrite foldM_app. destruct (foldM f b l); cbn; [|done]. by destruct (f _ a). Qed.

Lemma foldM_total {A B} (f : B -> A -> result B) l b :
  (forall b a, a ∈ l -> is_ok (f b a) = true) -> is_ok (foldM f b l) = true.
Proof.
  revert b. induction l as [|a l IH]; intros b H; [done|]. cbn [foldM].
  pose proof (H b a ltac:(by left)) as Ha. destruct (f b a); [|done]. apply IH. intros; apply H; by right.
Qed.

(** A run that ends has passed every element. *)
Lemma foldM_elem {A B} (f : B -> A -> result B) l b b' a :
  foldM f b l = Ok b' -> a ∈ l -> exists x, is_ok (f x a) = true.
Proof.
  revert b. induction l as [|c l IH]; intros b E Ha; [by apply not_elem_of_nil in Ha|]. cbn [foldM] in E.
  destruct (f b c) as [x|] eqn:Ec; [|done]. apply elem_of_cons in Ha as [->|Ha]; [exists b; by rewrite Ec|by eapply IH].
Qed.

(** An invariant of the step is an invariant of the fold. *)
Lemma foldM_invariant {A B} (P : B -> Prop) (f : B -> A -> result B) l :
  (forall b a b', a ∈ l -> P b -> f b a = Ok b' -> P b') ->
  forall b b', P b -> foldM f b l = Ok b' -> P b'.
Proof.
  induction l as [|a l IH]; intros Hf b b' Hb; cbn.
  - by intros [= <-].
  - rewrite bind_ok. intros (b1 & E & H).
    eapply IH; [|eapply Hf; [left|exact Hb|exact E]|exact H].
    intros; eapply Hf; eauto; by right.
Qed.

#[export] Hint Rewrite @bind_Ok_l @bind_Err_l @bind_assoc @foldM_app : sdk_rw.

(** ** Arrays *)

Lemma arr_get_ok {A} (l : list A) i x :
  arr_get l i = Ok x <-> 0 <= i /\ l !! Z.to_nat i = Some x.
Proof.
  unfold arr_get, of_option. case_decide.
  - destruct (l !! Z.to_nat i) eqn:E; naive_solver.
  - naive_solver lia.
Qed.

Lemma arr_get_in {A} (l : list A) i :
  0 <= i < Z.of_nat (length l) -> exists x, arr_get l i = Ok x.
Proof.
  intros H. destruct (lookup_lt_is_Some_2 l (Z.to_nat i)) as [x Hx]; [lia|].
  exists x. apply arr_get_ok. split; [lia|done].
Qed.

Lemma arr_get_out {A} (l : list A) i :
  ~ (0 <= i < Z.of_nat (length l)) -> arr_get l i = Err OutOfBounds.
Proof.
  intros H. unfold arr_get. case_decide; [|done].
  rewrite lookup_ge_None_2; [done|lia].
Qed.

Lemma arr_set_ok {A} (l : list A) i x :
  0 <= i < Z.of_nat (length l) -> arr_set l i x = Ok (<[Z.to_nat i := x]> l).
Proof. intros H. unfold arr_set. by rewrite decide_True. Qed.

Lemma arr_set_inv {A} (l l' : list A) i x :
  arr_set l i x = Ok l' -> 0 <= i < Z.of_nat (length l) /\ l' = <[Z.to_nat i := x]> l.
Proof. unfold arr_set. case_decide; naive_solver. Qed.

Lemma arr_slice_ok {A} (l : list A) off len :
  0 <= off -> 0 <= len -> off + len <= Z.of_nat (length l) ->
  arr_slice l off len = Ok (take (Z.to_nat len) (drop (Z.to_nat off) l)).
Proof. intros. unfold arr_slice. by rewrite decide_True. Qed.

Lemma arr_slice_app {A} (l1 l2 l3 : list A) off len :
  off = Z.of_nat (length l1) -> len = Z.of_nat (length l2) ->
  arr_slice (l1 ++ l2 ++ l3) off len = Ok l2.
Proof.
  intros -> ->. rewrite arr_slice_ok by (rewrite ?length_app; lia).
  f_equal. rewrite !Nat2Z.id, drop_app_length. by rewrite take_app_length.
Qed.

Lemma arr_blit_ok {A} (l : list A) off src :
  0 <= off -> off + Z.of_nat (length src) <= Z.of_nat (length l) ->
  arr_blit l off src = Ok (take (Z.to_nat off) l ++ src ++ drop (Z.to_nat off + length src) l).
Proof. intros. unfold arr_blit. by rewrite decide_True. Qed.

Lemma arr_blit_length {A} (l : list A) off src l' :
  arr_blit l off src = Ok l' -> length l' = length l.
Proof.
  unfold arr_blit. case_decide; [|done]. intros [= <-].
  rewrite !length_app, length_take, length_drop. lia.
Qed.

Lemma vec_resize_length {A} (d : A) n l : 0 <= n -> length (vec_resize d n l) = Z.to_nat n.
Proof. intros. unfold vec_resize. rewrite length_app, length_take, length_replicate. lia. Qed.

#[export] Hint Resolve arr_get_in arr_set_ok arr_slice_ok : sdk.
