(* ===== verification/RingBuffer.v ===== *)
(** * RingBuffer: the fixed-capacity double-ended queue

    [Ring<T, N>] of Container/include/ring.h and Container/src/ring.cc: an
    array of [N] slots, the index [_begin] of the first element and the number
    [_size] of elements, each a 64-bit [size_t].  The abstract specification
    is a list of at most [N] elements; [ring_step_refines] shows that every
    operation computes the list operation, and that an operation whose
    [assert] fails is exactly one whose precondition on the list fails. *)

From S2P Require Import Prelude.
Local Open Scope Z_scope.

(** ** The class *)

Module Ring.

Record ring (T : Type) : Type := mk_ring {
  _ring : list T;
  _begin : Z;
  _size : Z;
}.
Arguments mk_ring {T} _ _ _.
Arguments _ring {T} _.
Arguments _begin {T} _.
Arguments _size {T} _.

Section Ring.
Context {T : Type}.
(** [T()], and the template argument [N]. *)
Variable T0 : T.
Variable N : Z.

Definition ring_new : ring T := mk_ring (replicate (Z.to_nat N) T0) 0 0.

Definition size (r : ring T) : Z := _size r.
Definition empty (r : ring T) : bool := _size r =? 0.
Definition not_empty (r : ring T) : bool := negb (empty r).
Definition full (r : ring T) : bool := N <=? _size r.
Definition not_full (r : ring T) : bool := negb (full r).

(** The slot [steps % N] an [ItemIterator] points at. *)
Definition iter_deref (r : ring T) (steps : Z) : result T := arr_get (_ring r) (steps mod N).

(** [begin()] is [_begin] steps, [end()] is [_begin + _size]. *)
Definition iter_range (r : ring T) : list Z := seqZ (_begin r) (_size r).

(** for (auto& item : *this) item = T(); _size = 0; _begin = 0; *)
Definition clear (r : ring T) : result (ring T) :=
  data ← foldM (fun d steps => arr_set d (steps mod N) T0) (_ring r) (iter_range r);
  Ok (mk_ring data 0 0).

Definition eff_clear (r : ring T) : ring T := mk_ring (_ring r) 0 0.

Definition push_back (item : T) (r : ring T) : result (ring T) :=
  _ ← assert_ (negb (full r));
  data ← arr_set (_ring r) (u64 (_begin r + _size r) mod N) item;
  Ok (mk_ring data (_begin r) (u64 (_size r + 1))).

(** [emplace_back(args...)] stores [T(args...)]. *)
Definition emplace_back (item : T) (r : ring T) : result (ring T) :=
  _ ← assert_ (negb (full r));
  data ← arr_set (_ring r) (u64 (_begin r + _size r) mod N) item;
  Ok (mk_ring data (_begin r) (u64 (_size r + 1))).

Definition peek_back (r : ring T) : result T :=
  _ ← assert_ (negb (empty r));
  arr_get (_ring r) (u64 (_begin r + _size r - 1) mod N).

(** [std::swap] leaves a default [T] in the slot. *)
Definition pop_back (r : ring T) : result (T * ring T) :=
  _ ← assert_ (negb (empty r));
  let s := u64 (_size r - 1) in
  let i := u64 (_begin r + s) mod N in
  item ← arr_get (_ring r) i;
  data ← arr_set (_ring r) i T0;
  Ok (item, mk_ring data (_begin r) s).

(** No [assert]: on an empty ring [_size] wraps around. *)
Definition eff_pop_back (r : ring T) : ring T :=
  mk_ring (_ring r) (_begin r) (u64 (_size r - 1)).

Definition push_front (item : T) (r : ring T) : result (ring T) :=
  _ ← assert_ (negb (full r));
  let b := u64 (_begin r + N - 1) mod N in
  data ← arr_set (_ring r) b item;
  Ok (mk_ring data b (u64 (_size r + 1))).

Definition peek_front (r : ring T) : result T :=
  _ ← assert_ (negb (empty r));
  arr_get (_ring r) (_begin r).

Definition pop_front (r : ring T) : result (T * ring T) :=
  _ ← assert_ (negb (empty r));
  let s := u64 (_size r - 1) in
  item ← arr_get (_ring r) (_begin r);
  data ← arr_set (_ring r) (_begin r) T0;
  Ok (item, mk_ring data (u64 (_begin r + 1) mod N) s).

Definition eff_pop_front (r : ring T) : ring T :=
  mk_ring (_ring r) (u64 (_begin r + 1) mod N) (u64 (_size r - 1)).

(** operator[] *)
Definition index (r : ring T) (i : Z) : result T :=
  _ ← assert_ (i <? size r);
  arr_get (_ring r) (u64 (_begin r + i) mod N).

(** ** The specification: a bounded list *)

Inductive ring_op : Type :=
| PushBack (x : T) | EmplaceBack (x : T) | PushFront (x : T)
| PopBack | PopFront | PeekBack | PeekFront
| EffPopBack | EffPopFront | Index (i : Z) | Clear | EffClear.

(** What an operation does to the list of elements: the new list and the value
    returned, a failed [assert], or nothing promised. *)
Inductive outcome : Type :=
| Returns (l : list T) (v : option T)
| Asserts
| Unspecified.

Definition spec_step (l : list T) (op : ring_op) : outcome :=
  match op with
  | PushBack x | EmplaceBack x =>
      if decide (Z.of_nat (length l) < N) then Returns (l ++ [x]) None else Asserts
  | PushFront x =>
      if decide (Z.of_nat (length l) < N) then Returns (x :: l) None else Asserts
  | PopBack =>
      match last l with Some x => Returns (removelast l) (Some x) | None => Asserts end
  | PopFront => match l with x :: l' => Returns l' (Some x) | [] => Asserts end
  | PeekBack => match last l with Some x => Returns l (Some x) | None => Asserts end
  | PeekFront => match l with x :: _ => Returns l (Some x) | [] => Asserts end
  | EffPopBack => match l with _ :: _ => Returns (removelast l) None | [] => Unspecified end
  | EffPopFront => match l with _ :: l' => Returns l' None | [] => Unspecified end
  | Index i =>
      if decide (0 <= i) then
        match l !! Z.to_nat i with Some x => Returns l (Some x) | None => Asserts end
      else Unspecified
  | Clear | EffClear => Returns [] None
  end.

(** The same alphabet run on the ring. *)
Definition ring_step (r : ring T) (op : ring_op) : result (ring T * option T) :=
  match op with
  | PushBack x => r' ← push_back x r; Ok (r', None)
  | EmplaceBack x => r' ← emplace_back x r; Ok (r', None)
  | PushFront x => r' ← push_front x r; Ok (r', None)
  | PopBack => '(x, r') ← pop_back r; Ok (r', Some x)
  | PopFront => '(x, r') ← pop_front r; Ok (r', Some x)
  | PeekBack => x ← peek_back r; Ok (r, Some x)
  | PeekFront => x ← peek_front r; Ok (r, Some x)
  | EffPopBack => Ok (eff_pop_back r, None)
  | EffPopFront => Ok (eff_pop_front r, None)
  | Index i => x ← index r i; Ok (r, Some x)
  | Clear => r' ← clear r; Ok (r', None)
  | EffClear => Ok (eff_clear r, None)
  end.

(** The elements of a ring, first to last. *)
Definition view (r : ring T) : list T :=
  (fun k => default T0 (_ring r !! Z.to_nat ((_begin r + k) mod N))) <$> seqZ 0 (_size r).

(** Well-formedness: the array has [N] slots and both counters are in range. *)
Definition wf (r : ring T) : Prop :=
  Z.of_nat (length (_ring r)) = N /\ 0 <= _begin r < N /\ 0 <= _size r <= N.

Definition run_ring (r : ring T) (ops : list ring_op) : result (ring T) :=
  foldM (fun r op => '(r', _) ← ring_step r op; Ok r') r ops.

(** A run of the specification with every precondition met. *)
Fixpoint run_spec (l : list T) (ops : list ring_op) : option (list T) :=
  match ops with
  | [] => Some l
  | op :: ops => match spec_step l op with Returns l' _ => run_spec l' ops | _ => None end
  end.

(** ** Lemmas *)

(** A [size_t] computation over the ring never wraps. *)
Hypothesis N_range : 0 < N < 2 ^ 62.

Lemma ring_new_wf : wf ring_new.
Proof. unfold wf, ring_new; cbn. rewrite length_replicate. lia. Qed.

Lemma view_new : view ring_new = [].
Proof. done. Qed.

Lemma view_length r : 0 <= _size r -> Z.of_nat (length (view r)) = _size r.
Proof. intros. unfold view. rewrite length_fmap, length_seqZ. lia. Qed.

Lemma view_lookup r k :
  0 <= k < _size r ->
  view r !! Z.to_nat k = Some (default T0 (_ring r !! Z.to_nat ((_begin r + k) mod N))).
Proof.
  intros H. unfold view. rewrite list_lookup_fmap, lookup_seqZ_lt by lia.
  by rewrite Z.add_0_l, Z2Nat.id by lia.
Qed.

Lemma slot_in r k : wf r -> 0 <= (_begin r + k) mod N < Z.of_nat (length (_ring r)).
Proof. intros (Hl & _ & _). rewrite Hl. apply Z.mod_pos_bound; lia. Qed.

Lemma slot_get r k :
  wf r -> 0 <= k < _size r ->
  exists x, view r !! Z.to_nat k = Some x /\ arr_get (_ring r) ((_begin r + k) mod N) = Ok x.
Proof.
  intros Hwf Hk. destruct (arr_get_in (_ring r) ((_begin r + k) mod N)) as [x Hx].
  { by apply slot_in. }
  exists x. rewrite view_lookup by done. split; [|done].
  apply arr_get_ok in Hx as [_ ->]. done.
Qed.

(** Two lists agree when they have the same length and the same elements. *)
Lemma view_ext r l :
  0 <= _size r -> Z.of_nat (length l) = _size r ->
  (forall k, 0 <= k < _size r -> view r !! Z.to_nat k = l !! Z.to_nat k) -> view r = l.
Proof.
  intros H Hl Hk. pose proof (view_length r H).
  apply list_eq_same_length with (n := length l); [done|lia|].
  intros i x y Hi Hx Hy. specialize (Hk (Z.of_nat i)).
  rewrite Nat2Z.id in Hk. rewrite Hk in Hx by lia. congruence.
Qed.

Lemma mod_wrap a : 0 <= a < 2 * N -> a mod N = if decide (a < N) then a else a - N.
Proof.
  intros H. case_decide.
  - apply Z.mod_small; lia.
  - rewrite <-(Z.mod_small (a - N) N) by lia.
    replace a with (a - N + 1 * N) at 1 by lia. apply Z.mod_add; lia.
Qed.

Lemma mod_inj b j k :
  0 <= b < N -> 0 <= j < N -> 0 <= k < N -> (b + j) mod N = (b + k) mod N -> j = k.
Proof. intros Hb Hj Hk. rewrite !mod_wrap by lia. repeat case_decide; lia. Qed.

Lemma u64_ring a : 0 <= a < 2 * N -> u64 a = a.
Proof. intros. unfold u64. apply Z.mod_small. lia. Qed.

Lemma lookup_write (d : list T) i j x :
  0 <= i < Z.of_nat (length d) -> 0 <= j ->
  default T0 (<[Z.to_nat i := x]> d !! Z.to_nat j)
  = if decide (i = j) then x else default T0 (d !! Z.to_nat j).
Proof.
  intros Hi Hj. case_decide as H.
  - subst. by rewrite list_lookup_insert_eq by lia.
  - by rewrite list_lookup_insert_ne by lia.
Qed.

(** Normalises the [size_t] computations of an operation. *)
Ltac ring_norm :=
  rewrite ?u64_ring by lia;
  repeat match goal with
  | |- context [(?a mod N)] => rewrite (mod_wrap a) by lia
  end.

(** Every element of a view is a slot of the array. *)
Lemma view_lookup_write r i x k :
  wf r -> 0 <= i < N -> 0 <= k < N ->
  default T0 (<[Z.to_nat i := x]> (_ring r) !! Z.to_nat ((_begin r + k) mod N))
  = if decide (i = (_begin r + k) mod N) then x
    else default T0 (_ring r !! Z.to_nat ((_begin r + k) mod N)).
Proof.
  intros (Hl & Hb & Hs) Hi Hk. apply lookup_write; [lia|].
  apply Z.mod_pos_bound; lia.
Qed.

Lemma push_back_ok x r :
  wf r -> _size r < N ->
  exists r', push_back x r = Ok r' /\ wf r' /\ view r' = view r ++ [x].
Proof.
  intros Hwf Hs. pose proof Hwf as (Hl & Hb & Hz).
  pose proof (slot_in r (_size r) Hwf) as Hi.
  unfold push_back, full. destruct (Z.leb_spec N (_size r)); [lia|]; cbn.
  rewrite !u64_ring by lia. rewrite arr_set_ok by done.
  eexists; split; [reflexivity|]; split.
  { repeat split; cbn; rewrite ?length_insert; lia. }
  pose proof (view_length r). apply view_ext; cbn; [lia|rewrite length_app; cbn; lia|].
  intros k Hk. rewrite view_lookup by (cbn; lia). cbn.
  rewrite view_lookup_write by (done || lia). case_decide as D.
  - apply mod_inj in D; [|lia..]. subst k.
    rewrite lookup_app_r by lia. replace (_ - _)%nat with 0%nat by lia. done.
  - rewrite lookup_app_l; [rewrite view_lookup; [done|]|]; [|assert (k <> _size r) by congruence; lia].
    assert (k <> _size r) by congruence. lia.
Qed.

Lemma push_front_ok x r :
  wf r -> _size r < N ->
  exists r', push_front x r = Ok r' /\ wf r' /\ view r' = x :: view r.
Proof.
  intros Hwf Hs. pose proof Hwf as (Hl & Hb & Hz).
  unfold push_front, full. destruct (Z.leb_spec N (_size r)); [lia|]; cbn.
  rewrite !u64_ring by lia.
  assert (0 <= (_begin r + N - 1) mod N < N) as Hi by (apply Z.mod_pos_bound; lia).
  rewrite arr_set_ok by lia.
  eexists; split; [reflexivity|]; split.
  { repeat split; cbn; rewrite ?length_insert; lia. }
  pose proof (view_length r). apply view_ext; cbn; [lia|cbn; lia|].
  intros k Hk. rewrite view_lookup by (cbn; lia). cbn.
  set (b := (_begin r + N - 1) mod N) in *.
  assert (b = if decide (_begin r = 0) then N - 1 else _begin r - 1) as Hbb.
  { unfold b. rewrite mod_wrap by lia. repeat case_decide; lia. }
  rewrite lookup_write; [|lia|apply Z.mod_pos_bound; lia].
  destruct (decide (k = 0)) as [->|Hk0].
  - rewrite decide_True; [done|]. rewrite mod_wrap by lia. repeat case_decide; lia.
  - rewrite decide_False.
    2: { rewrite mod_wrap by lia. repeat case_decide; lia. }
    replace (Z.to_nat k) with (S (Z.to_nat (k - 1))) by lia. cbn.
    rewrite view_lookup by lia. do 3 f_equal. rewrite !mod_wrap by lia.
    f_equal. repeat case_decide; lia.
Qed.

Lemma peek_back_ok r :
  wf r -> 0 < _size r -> exists x, peek_back r = Ok x /\ last (view r) = Some x.
Proof.
  intros Hwf Hs. pose proof Hwf as (Hl & Hb & Hz). pose proof (view_length r).
  destruct (slot_get r (_size r - 1) Hwf) as (x & Hv & Hg); [lia|].
  exists x. unfold peek_back, empty. destruct (Z.eqb_spec (_size r) 0); [lia|]; cbn.
  rewrite u64_ring by lia. rewrite <-Z.add_sub_assoc. split; [done|].
  rewrite last_lookup. rewrite <-Hv. f_equal. lia.
Qed.

Lemma peek_front_ok r :
  wf r -> 0 < _size r -> exists x, peek_front r = Ok x /\ head (view r) = Some x.
Proof.
  intros Hwf Hs. pose proof Hwf as (Hl & Hb & Hz).
  destruct (slot_get r 0 Hwf) as (x & Hv & Hg); [lia|].
  exists x. unfold peek_front, empty. destruct (Z.eqb_spec (_size r) 0); [lia|]; cbn.
  rewrite Z.add_0_r, Z.mod_small in Hg by lia. split; [done|].
  by destruct (view r).
Qed.

(** Dropping the last element keeps the others; the slot may be overwritten. *)
Lemma view_drop_last r d :
  wf r -> 0 < _size r ->
  d = _ring r \/ d = <[Z.to_nat ((_begin r + (_size r - 1)) mod N) := T0]> (_ring r) ->
  wf (mk_ring d (_begin r) (_size r - 1)) /\
  view (mk_ring d (_begin r) (_size r - 1)) = removelast (view r).
Proof.
  intros Hwf Hs Hd. pose proof Hwf as (Hl & Hb & Hz). pose proof (view_length r).
  split; [repeat split; cbn; try lia; destruct Hd; subst d; rewrite ?length_insert; lia|].
  assert (removelast (view r) = take (Z.to_nat (_size r - 1)) (view r)) as ->.
  { rewrite removelast_firstn_len. f_equal. lia. }
  apply view_ext; cbn; [lia|rewrite length_take; lia|].
  intros k Hk. rewrite lookup_take_lt by lia. rewrite !view_lookup by (cbn; lia). cbn.
  destruct Hd as [->| ->]; [done|].
  rewrite view_lookup_write; [|done|apply Z.mod_pos_bound; lia|lia].
  rewrite decide_False; [done|]. intros D. apply mod_inj in D; lia.
Qed.

Lemma view_drop_first r d :
  wf r -> 0 < _size r ->
  d = _ring r \/ d = <[Z.to_nat (_begin r) := T0]> (_ring r) ->
  wf (mk_ring d ((_begin r + 1) mod N) (_size r - 1)) /\
  view (mk_ring d ((_begin r + 1) mod N) (_size r - 1)) = tail (view r).
Proof.
  intros Hwf Hs Hd. pose proof Hwf as (Hl & Hb & Hz). pose proof (view_length r).
  assert (0 <= (_begin r + 1) mod N < N) by (apply Z.mod_pos_bound; lia).
  split; [repeat split; cbn; try lia; destruct Hd; subst d; rewrite ?length_insert; lia|].
  apply view_ext; cbn; [lia|rewrite length_tl; lia|].
  intros k Hk. rewrite lookup_tail. replace (S (Z.to_nat k)) with (Z.to_nat (k + 1)) by lia.
  rewrite !view_lookup by (cbn; lia). cbn.
  assert (((_begin r + 1) mod N + k) mod N = (_begin r + (k + 1)) mod N) as ->.
  { rewrite Z.add_mod_idemp_l by lia. f_equal. lia. }
  destruct Hd as [->| ->]; [done|].
  rewrite view_lookup_write by (done || lia).
  rewrite decide_False; [done|]. intros D.
  assert ((_begin r + 0) mod N = _begin r) as E0 by (rewrite Z.add_0_r; apply Z.mod_small; lia).
  rewrite <-E0 in D at 1. apply mod_inj in D; lia.
Qed.

Lemma index_ok r i :
  wf r -> 0 <= i < _size r -> exists x, index r i = Ok x /\ view r !! Z.to_nat i = Some x.
Proof.
  intros Hwf Hi. pose proof Hwf as (Hl & Hb & Hz).
  destruct (slot_get r i Hwf Hi) as (x & Hv & Hg).
  exists x. unfold index, size. destruct (Z.ltb_spec i (_size r)); [|lia]; cbn.
  rewrite u64_ring by lia. done.
Qed.

Lemma clear_ok r : wf r -> exists r', clear r = Ok r' /\ wf r' /\ view r' = [].
Proof.
  intros Hwf. pose proof Hwf as (Hl & Hb & Hz). unfold clear.
  assert (forall l d, Z.of_nat (length d) = N ->
    exists d', foldM (fun d steps => arr_set d (steps mod N) T0) d l = Ok d'
               /\ Z.of_nat (length d') = N) as Hf.
  { induction l as [|a l IH]; intros d Hd; cbn; [eauto|].
    pose proof (Z.mod_pos_bound a N). rewrite arr_set_ok by lia. cbn.
    apply IH. by rewrite length_insert. }
  destruct (Hf (iter_range r) _ Hl) as (d & -> & Hd). cbn.
  eexists; split; [done|]. split; [|done]. unfold wf; cbn. lia.
Qed.

(** A failing [assert] is reported before anything is changed. *)
Lemma step_asserts r op :
  wf r -> spec_step (view r) op = Asserts -> ring_step r op = Err AssertFailure.
Proof.
  intros Hwf H. pose proof Hwf as (Hl & Hb & Hz). pose proof (view_length r).
  assert (view r = [] -> empty r = true) as Hemp.
  { intros E. unfold empty. rewrite E in *. cbn in *. cases_bool; lia. }
  assert (~ Z.of_nat (length (view r)) < N -> full r = true) as Hfull.
  { intros E. unfold full. cases_bool; lia. }
  assert (last (view r) = None -> empty r = true) as Hlast.
  { rewrite last_None. done. }
  destruct op; cbn in H; cbn [ring_step].
  - case_decide; [done|]. unfold push_back. by rewrite Hfull.
  - case_decide; [done|]. unfold emplace_back. by rewrite Hfull.
  - case_decide; [done|]. unfold push_front. by rewrite Hfull.
  - unfold pop_back. case_match; [done|]. by rewrite Hlast.
  - unfold pop_front. case_match; [|done]. by rewrite Hemp.
  - unfold peek_back. case_match; [done|]. by rewrite Hlast.
  - unfold peek_front. case_match; [|done]. by rewrite Hemp.
  - by case_match.
  - by case_match.
  - case_decide; [|done]. case_match; [done|]. unfold index, size.
    destruct (Z.ltb_spec i (_size r)); [|done].
    destruct (slot_get r i Hwf) as (x & Hv & _); [lia|congruence].
  - done.
  - done.
Qed.

Lemma step_returns r op l v :
  wf r -> spec_step (view r) op = Returns l v ->
  exists r', ring_step r op = Ok (r', v) /\ wf r' /\ view r' = l.
Proof.
  intros Hwf H. pose proof Hwf as (Hl & Hb & Hz). pose proof (view_length r).
  assert (view r <> [] -> 0 < _size r) as Hne.
  { intros E. destruct (view r); [done|cbn in *; lia]. }
  destruct op; cbn in H; cbn [ring_step].
  - case_decide; [|done]. injection H as <- <-.
    destruct (push_back_ok x r Hwf) as (r' & -> & ?); [lia|]. eauto.
  - case_decide; [|done]. injection H as <- <-.
    destruct (push_back_ok x r Hwf) as (r' & E & ?); [lia|].
    change (emplace_back x r) with (push_back x r). rewrite E. eauto.
  - case_decide; [|done]. injection H as <- <-.
    destruct (push_front_ok x r Hwf) as (r' & -> & ?); [lia|]. eauto.
  - destruct (last (view r)) eqn:El; [|done]. injection H as <- <-.
    destruct (peek_back_ok r Hwf) as (x & E & Ex); [apply Hne; intros E0; rewrite E0 in El; done|].
    destruct (view_drop_last r (<[Z.to_nat ((_begin r + (_size r - 1)) mod N) := T0]> (_ring r)) Hwf) as [W V].
    { apply Hne. intros E0. by rewrite E0 in El. } { by right. }
    assert (0 < _size r) by (apply Hne; intros E0; by rewrite E0 in El).
    unfold peek_back, pop_back, empty in *. destruct (Z.eqb_spec (_size r) 0); [lia|]. cbn in *.
    rewrite <-Z.add_sub_assoc in E. rewrite u64_ring in E by lia.
    rewrite (u64_ring (_size r - 1)), u64_ring by lia. rewrite E. cbn.
    rewrite arr_set_ok by by apply slot_in. cbn. exists (mk_ring (<[Z.to_nat ((_begin r + (_size r - 1)) mod N) := T0]> (_ring r)) (_begin r) (_size r - 1)).
    split; [congruence|]. done.
  - destruct (view r) as [|y l'] eqn:Ev; [done|]. injection H as <- <-.
    destruct (peek_front_ok r Hwf) as (x & E & Ex); [by apply Hne|].
    destruct (view_drop_first r (<[Z.to_nat (_begin r) := T0]> (_ring r)) Hwf) as [W V].
    { by apply Hne. } { by right. }
    assert (0 < _size r) by by apply Hne.
    unfold peek_front, pop_front, empty in *. destruct (Z.eqb_spec (_size r) 0); [lia|]. cbn in *.
    rewrite !u64_ring by lia. rewrite E. cbn. rewrite arr_set_ok by lia. cbn.
    rewrite Ev in V, Ex. cbn in V, Ex. eexists; split; [|done]. congruence.
  - destruct (last (view r)) eqn:El; [|done]. injection H as <- <-.
    destruct (peek_back_ok r Hwf) as (x & -> & Ex); [apply Hne; intros E0; rewrite E0 in El; done|].
    cbn. exists r. split; [congruence|done].
  - destruct (view r) as [|y l'] eqn:Ev; [done|]. injection H as <- <-.
    destruct (peek_front_ok r Hwf) as (x & -> & Ex); [by apply Hne|].
    rewrite Ev in Ex. cbn in Ex |- *. exists r. split; [congruence|done].
  - destruct (view r) as [|y l'] eqn:Ev; [done|]. injection H as <- <-.
    assert (0 < _size r) by by apply Hne.
    destruct (view_drop_last r (_ring r) Hwf) as [W V]; [done|by left|].
    unfold eff_pop_back. rewrite u64_ring by lia. rewrite Ev in V. eauto.
  - destruct (view r) as [|y l'] eqn:Ev; [done|]. injection H as <- <-.
    assert (0 < _size r) by by apply Hne.
    destruct (view_drop_first r (_ring r) Hwf) as [W V]; [done|by left|].
    unfold eff_pop_front. rewrite !u64_ring by lia. rewrite Ev in V. eauto.
  - case_decide; [|done]. destruct (view r !! Z.to_nat i) eqn:Ei; [|done]. injection H as <- <-.
    apply lookup_lt_Some in Ei as Hlt.
    destruct (index_ok r i Hwf) as (x & -> & Ex); [lia|]. cbn. exists r. split; [congruence|done].
  - injection H as <- <-. destruct (clear_ok r Hwf) as (r' & -> & ?). eauto.
  - injection H as <- <-. exists (eff_clear r). split; [done|]. split; [|done].
    unfold wf, eff_clear; cbn. lia.
Qed.

Lemma run_ring_sim ops : forall r l, wf r -> run_spec (view r) ops = Some l ->
  exists r', run_ring r ops = Ok r' /\ wf r' /\ view r' = l.
Proof.
  unfold run_ring. induction ops as [|op ops IH]; intros r l Hwf; cbn.
  - intros [= <-]. eauto.
  - destruct (spec_step (view r) op) as [l' v| |] eqn:E; try done.
    destruct (step_returns r op l' v Hwf E) as (r' & -> & Hwf' & <-). cbn. by apply IH.
Qed.

(** ** Properties *)

(** C10: the ring implements the bounded double-ended list: any sequence of
    operations whose preconditions hold on the list runs on a freshly
    constructed ring without a fault, and the elements it holds afterwards are
    the list's. *)
Theorem ring_refines_deque ops l :
  run_spec [] ops = Some l ->
  exists r, run_ring ring_new ops = Ok r /\ wf r /\ view r = l.
Proof. intros H. apply run_ring_sim; [apply ring_new_wf|done]. Qed.

(** On a well-formed ring an operation returns exactly what the list
    operation returns, keeping the ring well-formed, and fails its [assert]
    exactly when the list operation has no result (push on a full ring, pop or
    peek on an empty one, index past the end). *)
Theorem ring_step_refines r op :
  wf r ->
  match spec_step (view r) op with
  | Returns l v => exists r', ring_step r op = Ok (r', v) /\ wf r' /\ view r' = l
  | Asserts => ring_step r op = Err AssertFailure
  | Unspecified => True
  end.
Proof.
  intros Hwf. destruct (spec_step (view r) op) eqn:E.
  - by apply step_returns.
  - by apply step_asserts.
  - done.
Qed.

End Ring.

Arguments outcome T : clear implicits.
Arguments ring_op T : clear implicits.

Lemma ring_refines_deque_witness :
  let ops := [PushBack 1; PushBack 2; PushFront 7; PopBack; PushBack 9; EffPopFront] in
  exists r, run_ring 0 3 (ring_new 0 3) ops = Ok r /\ wf 3 r /\ view 0 3 r = [1; 9].
Proof. apply (ring_refines_deque 0 3); [lia|]. vm_compute. reflexivity. Defined.

Lemma ring_step_refines_witness :
  wf 2 (mk_ring [5; 6] 1 2) /\
  match spec_step 2 (view 0 2 (mk_ring [5; 6] 1 2)) (PushBack 8) with
  | Returns l v => exists r', ring_step 0 2 (mk_ring [5; 6] 1 2) (PushBack 8) = Ok (r', v)
                     /\ wf 2 r' /\ view 0 2 r' = l
  | Asserts => ring_step 0 2 (mk_ring [5; 6] 1 2) (PushBack 8) = Err AssertFailure
  | Unspecified => True
  end.
Proof.
  split; [unfold wf; cbn; lia|].
  apply (ring_step_refines 0 2); [lia|unfold wf; cbn; lia].
Defined.

End Ring.
