(* ===== verification/BlockingRing.v ===== *)
(** * BlockingRing: the ring shared between threads

    [BlockingRing<T, N>] of Container/src/blocking_ring.cc.  Every method takes
    [_mutex] for its whole body, so a method is one atomic step of its thread,
    except that [_condv.wait] releases the mutex and puts the thread to sleep.
    The model is a step relation on the shared ring and the program counters of
    the threads: a thread is outside the class (absent), about to take the
    mutex ([Ready]) or asleep in the condition variable ([Waiting]).
    [notify_one] wakes some sleeping thread when there is one; a wake-up may
    also be spurious, and the wait of [try_pop_front] may time out.  The ghost
    fields [pushed] and [popped] record the values that went in and out. *)

From S2P Require Import Prelude RingBuffer.
From stdpp Require Import relations.
Local Open Scope Z_scope.

Module BlockingRing.

(** The public methods that touch the ring. *)
Inductive bop (T : Type) : Type :=
| BPushFront (x : T)
| BEmplaceBack (x : T)
| BPushBack (x : T)
| BPopFront
| BTryPopFront
| BPopBack
| BClear
| BEffClear.
Arguments BPushFront {T} x.
Arguments BEmplaceBack {T} x.
Arguments BPushBack {T} x.
Arguments BPopFront {T}.
Arguments BTryPopFront {T}.
Arguments BPopBack {T}.
Arguments BClear {T}.
Arguments BEffClear {T}.

Inductive pc (T : Type) : Type :=
| Ready (op : bop T)
| Waiting (op : bop T).
Arguments Ready {T} op.
Arguments Waiting {T} op.

Record sys (T : Type) : Type := mk_sys {
  shared : Ring.ring T;
  threads : gmap nat (pc T);
  pushed : list T;
  popped : list T;
}.
Arguments mk_sys {T} _ _ _ _.
Arguments shared {T} _.
Arguments threads {T} _.
Arguments pushed {T} _.
Arguments popped {T} _.

Section BlockingRing.
Context {T : Type}.
Variable T0 : T.
Variable N : Z.

(** The predicate bound into [_condv.wait]; the clearing methods do not wait. *)
Definition guard (op : bop T) (r : Ring.ring T) : bool :=
  match op with
  | BPushFront _ | BEmplaceBack _ | BPushBack _ => Ring.not_full N r
  | BPopFront | BTryPopFront | BPopBack => Ring.not_empty r
  | BClear | BEffClear => true
  end.

Definition push_front (x : T) (r : Ring.ring T) : result (Ring.ring T * option T) :=
  r' ← Ring.push_front N x r; Ok (r', None).

Definition emplace_back (x : T) (r : Ring.ring T) : result (Ring.ring T * option T) :=
  r' ← Ring.emplace_back N x r; Ok (r', None).

Definition push_back (x : T) (r : Ring.ring T) : result (Ring.ring T * option T) :=
  r' ← Ring.push_back N x r; Ok (r', None).

Definition pop_front (r : Ring.ring T) : result (Ring.ring T * option T) :=
  '(x, r') ← Ring.pop_front T0 N r; Ok (r', Some x).

(** value = peek_front(); eff_pop_front(); *)
Definition try_pop_front (r : Ring.ring T) : result (Ring.ring T * option T) :=
  x ← Ring.peek_front r; Ok (Ring.eff_pop_front N r, Some x).

Definition pop_back (r : Ring.ring T) : result (Ring.ring T * option T) :=
  '(x, r') ← Ring.pop_back T0 N r; Ok (r', Some x).

Definition clear (r : Ring.ring T) : result (Ring.ring T * option T) :=
  r' ← Ring.clear T0 N r; Ok (r', None).

Definition eff_clear (r : Ring.ring T) : result (Ring.ring T * option T) :=
  Ok (Ring.eff_clear r, None).

(** What a method does once its predicate holds. *)
Definition body (op : bop T) (r : Ring.ring T) : result (Ring.ring T * option T) :=
  match op with
  | BPushFront x => push_front x r
  | BEmplaceBack x => emplace_back x r
  | BPushBack x => push_back x r
  | BPopFront => pop_front r
  | BTryPopFront => try_pop_front r
  | BPopBack => pop_back r
  | BClear => clear r
  | BEffClear => eff_clear r
  end.

(** Whether the method ends with [_condv.notify_one()]. *)
Definition notifies (op : bop T) : bool :=
  match op with BClear | BEffClear => false | _ => true end.

Definition op_in (op : bop T) : list T :=
  match op with BPushFront x | BEmplaceBack x | BPushBack x => [x] | _ => [] end.

Definition opt_list (o : option T) : list T := match o with Some x => [x] | None => [] end.

(** [notify_one]: nobody sleeps, or one sleeper becomes ready. *)
Inductive notify_one : gmap nat (pc T) -> gmap nat (pc T) -> Prop :=
| notify_none ths :
    (forall w op, ths !! w <> Some (Waiting op)) -> notify_one ths ths
| notify_some ths w op :
    ths !! w = Some (Waiting op) -> notify_one ths (<[w := Ready op]> ths).

Definition notify (b : bool) (ths ths' : gmap nat (pc T)) : Prop :=
  if b then notify_one ths ths' else ths' = ths.

Variable may : nat -> bop T -> Prop.  (* which thread calls which method *)

Inductive step : sys T -> sys T -> Prop :=
| step_call s t op :
    threads s !! t = None -> may t op ->
    step s (mk_sys (shared s) (<[t := Ready op]> (threads s)) (pushed s) (popped s))
| step_block s t op :
    threads s !! t = Some (Ready op) -> guard op (shared s) = false ->
    step s (mk_sys (shared s) (<[t := Waiting op]> (threads s)) (pushed s) (popped s))
| step_run s t op r' v ths' :
    threads s !! t = Some (Ready op) -> guard op (shared s) = true ->
    body op (shared s) = Ok (r', v) ->
    notify (notifies op) (delete t (threads s)) ths' ->
    step s (mk_sys r' ths' (pushed s ++ op_in op) (popped s ++ opt_list v))
| step_spurious s t op :
    threads s !! t = Some (Waiting op) ->
    step s (mk_sys (shared s) (<[t := Ready op]> (threads s)) (pushed s) (popped s))
| step_timeout s t ths' :
    (* wait_for gives up: [ret] is false and the value is left alone *)
    threads s !! t = Some (Waiting BTryPopFront) -> guard BTryPopFront (shared s) = false ->
    notify_one (delete t (threads s)) ths' ->
    step s (mk_sys (shared s) ths' (pushed s) (popped s)).

Definition init : sys T := mk_sys (Ring.ring_new T0 N) ∅ [] [].

Definition reachable (s : sys T) : Prop := rtc step init s.

(** A first-in first-out client uses the back to push and the front to pop. *)
Definition fifo_op (op : bop T) : Prop :=
  match op with
  | BEmplaceBack _ | BPushBack _ | BPopFront | BTryPopFront => True
  | _ => False
  end.

Definition is_push (op : bop T) : Prop :=
  match op with BPushFront _ | BEmplaceBack _ | BPushBack _ => True | _ => False end.

Definition is_pop (op : bop T) : Prop :=
  match op with BPopFront | BTryPopFront | BPopBack => True | _ => False end.

(** The method a thread is in. *)
Definition inside (ths : gmap nat (pc T)) (t : nat) (op : bop T) : Prop :=
  ths !! t = Some (Ready op) \/ ths !! t = Some (Waiting op).

(** No thread sleeps while its predicate holds. *)
Definition no_lost_wakeup (s : sys T) : Prop :=
  forall t op, threads s !! t = Some (Waiting op) -> guard op (shared s) = false.

(** ** Lemmas *)

Hypothesis N_range : 0 < N < 2 ^ 62.

(** The ring operation behind each method. *)
Lemma body_step op r r' v :
  body op r = Ok (r', v) ->
  match op with
  | BPushFront x => Ring.ring_step T0 N r (Ring.PushFront x) = Ok (r', v)
  | BEmplaceBack x => Ring.ring_step T0 N r (Ring.EmplaceBack x) = Ok (r', v)
  | BPushBack x => Ring.ring_step T0 N r (Ring.PushBack x) = Ok (r', v)
  | BPopFront => Ring.ring_step T0 N r Ring.PopFront = Ok (r', v)
  | BTryPopFront => exists x, v = Some x /\ Ring.ring_step T0 N r Ring.PeekFront = Ok (r, v)
                     /\ Ring.ring_step T0 N r Ring.EffPopFront = Ok (r', None)
  | BPopBack => Ring.ring_step T0 N r Ring.PopBack = Ok (r', v)
  | BClear => Ring.ring_step T0 N r Ring.Clear = Ok (r', v)
  | BEffClear => Ring.ring_step T0 N r Ring.EffClear = Ok (r', v)
  end.
Proof.
  destruct op; cbn; try done. unfold try_pop_front. rewrite bind_ok.
  intros (x & E & [= <- <-]). rewrite E. eauto.
Qed.

Lemma not_full_length r :
  Ring.wf N r -> Ring.not_full N r = true <-> Z.of_nat (length (Ring.view T0 N r)) < N.
Proof.
  intros (_ & _ & Hs). rewrite Ring.view_length by lia.
  unfold Ring.not_full, Ring.full. destruct (Z.leb_spec N (Ring._size r)); cbn; intuition (done || lia).
Qed.

Lemma not_empty_view r :
  Ring.wf N r -> Ring.not_empty r = true <-> Ring.view T0 N r <> [].
Proof.
  intros (_ & _ & Hs). pose proof (Ring.view_length T0 N r).
  unfold Ring.not_empty, Ring.empty. destruct (Z.eqb_spec (Ring._size r) 0); cbn.
  - split; [done|]. intros E. destruct (Ring.view T0 N r); [done|cbn in *; lia].
  - split; [|done]. intros _ E. rewrite E in *. cbn in *. lia.
Qed.

(** Under its predicate a method's body never faults, and computes the list
    operation. *)
Lemma body_ok op r :
  Ring.wf N r -> guard op r = true ->
  exists r' v, body op r = Ok (r', v) /\ Ring.wf N r' /\
    (fifo_op op -> Ring.view T0 N r ++ op_in op = opt_list v ++ Ring.view T0 N r').
Proof.
  intros Hwf Hg.
  pose proof (fun op l v => Ring.step_returns T0 N N_range r op l v Hwf) as HR.
  destruct op; cbn in Hg.
  1-3: rewrite not_full_length in Hg by done.
  4-6: rewrite not_empty_view in Hg by done.
  - destruct (HR (Ring.PushFront x) (x :: Ring.view T0 N r) None) as (r' & E & W & V).
    { cbn. by rewrite decide_True. } exists r', None. naive_solver.
  - destruct (HR (Ring.EmplaceBack x) (Ring.view T0 N r ++ [x]) None) as (r' & E & W & V).
    { cbn. by rewrite decide_True. } exists r', None. naive_solver.
  - destruct (HR (Ring.PushBack x) (Ring.view T0 N r ++ [x]) None) as (r' & E & W & V).
    { cbn. by rewrite decide_True. } exists r', None. naive_solver.
  - destruct (Ring.view T0 N r) as [|y l] eqn:Ev; [done|].
    destruct (HR Ring.PopFront l (Some y)) as (r' & E & W & V). { cbn. done. }
    exists r', (Some y). cbn. rewrite app_nil_r, V. naive_solver.
  - destruct (Ring.view T0 N r) as [|y l] eqn:Ev; [done|].
    destruct (HR Ring.EffPopFront l None) as (r' & E & W & V). { cbn. done. }
    destruct (HR Ring.PeekFront (y :: l) (Some y)) as (r2 & E2 & _). { cbn. done. }
    cbn in E, E2. injection E as <-. unfold body, try_pop_front.
    destruct (Ring.peek_front r) as [z|]; [|done]. injection E2 as <- <-.
    eexists _, (Some z). split; [done|]. split; [done|]. rewrite V. cbn. rewrite app_nil_r. done.
  - destruct (Ring.view T0 N r) as [|y l] eqn:Ev using rev_ind; [done|].
    destruct (HR Ring.PopBack (removelast (l ++ [y])) (Some y)) as (r' & E & W & V).
    { cbn. by rewrite last_snoc. } exists r', (Some y). naive_solver.
  - destruct (HR Ring.Clear [] None) as (r' & E & W & V); [done|]. exists r', None. naive_solver.
  - destruct (HR Ring.EffClear [] None) as (r' & E & W & V); [done|]. exists r', None. naive_solver.
Qed.

Lemma notify_inside b ths ths' t op :
  notify b ths ths' -> inside ths' t op -> inside ths t op.
Proof.
  destruct b; cbn; [|by intros ->].
  intros [ths0 Hno|ths0 w op0 Hw] H; [done|]. unfold inside in *.
  destruct (decide (w = t)) as [->|Hne].
  - rewrite lookup_insert_eq in H. destruct H as [[= ->]|]; [by right|done].
  - by rewrite lookup_insert_ne in H.
Qed.

Lemma notify_waiting b ths ths' t op :
  notify b ths ths' -> ths' !! t = Some (Waiting op) -> ths !! t = Some (Waiting op).
Proof.
  destruct b; cbn; [|by intros ->].
  intros [ths0 Hno|ths0 w op0 Hw] H; [done|].
  destruct (decide (w = t)) as [->|Hne].
  - by rewrite lookup_insert_eq in H.
  - by rewrite lookup_insert_ne in H.
Qed.

(** Threads only ever are inside methods they may call. *)
Lemma step_inside s s' :
  step s s' -> (forall t op, inside (threads s) t op -> may t op) ->
  forall t op, inside (threads s') t op -> may t op.
Proof.
  intros Hs Hi. assert (forall (ths : gmap nat (pc T)) t p op, (forall u o, inside ths u o -> may u o) ->
    may t op -> (p = Ready op \/ p = Waiting op) -> forall u o, inside (<[t := p]> ths) u o -> may u o) as Hins.
  { intros ths t p op Hth Hm Hp u o [H|H];
      (destruct (decide (t = u)) as [->|Hne];
        [rewrite lookup_insert_eq in H; naive_solver
        |rewrite lookup_insert_ne in H by done; apply Hth; unfold inside; auto]). }
  assert (forall b t ths', notify b (delete t (threads s)) ths' ->
    forall u o, inside ths' u o -> may u o) as Hnot.
  { intros b t ths' Hn u o Hu. eapply notify_inside in Hu; [|done]. apply Hi.
    unfold inside in *. rewrite !lookup_delete in Hu. case_decide; naive_solver. }
  destruct Hs; cbn; intros u o Hu.
  - eapply (Hins (threads s) t (Ready op) op); eauto.
  - eapply (Hins (threads s) t (Waiting op) op); eauto. apply Hi. by left.
  - by eapply Hnot.
  - eapply (Hins (threads s) t (Ready op) op); eauto. apply Hi. by right.
  - by eapply (Hnot true).
Qed.

Lemma reachable_ind (P : sys T -> Prop) :
  P init -> (forall s s', reachable s -> step s s' -> P s -> P s') ->
  forall s, reachable s -> P s.
Proof. intros H0 Hs s. apply (rtc_ind_r P init); [done|]. intros y z. apply Hs. Qed.

Lemma reachable_inside s : reachable s -> forall t op, inside (threads s) t op -> may t op.
Proof.
  revert s. apply (reachable_ind (fun s => forall t op, inside (threads s) t op -> may t op)).
  - by intros t op [?|?].
  - intros s s' _ Hs IH. by apply (step_inside s).
Qed.

Lemma reachable_wf s : reachable s -> Ring.wf N (shared s).
Proof.
  revert s. apply (reachable_ind (fun s => Ring.wf N (shared s))).
  - by apply Ring.ring_new_wf.
  - intros s s' _ Hs IH. destruct Hs; cbn; try done.
    destruct (body_ok op (shared s) IH) as (r2 & v2 & E & W & _); [done|]. congruence.
Qed.

Lemma reachable_fifo s :
  (forall t op, may t op -> fifo_op op) -> reachable s ->
  pushed s = popped s ++ Ring.view T0 N (shared s).
Proof.
  intros Hf. revert s.
  apply (reachable_ind (fun s => pushed s = popped s ++ Ring.view T0 N (shared s))); [done|].
  intros s s' Hr' Hs IH.
  destruct Hs as [| |s t op r' v ths' Ht Hg Hb Hn| |]; cbn; try done.
  destruct (body_ok op (shared s) (reachable_wf s Hr') Hg) as (r2 & v2 & E & W & V).
  rewrite Hb in E. injection E as <- <-.
  rewrite IH, <-!app_assoc. f_equal. apply V.
  apply (Hf t), (reachable_inside s Hr'). by left.
Qed.

Lemma reachable_spsc s :
  (forall t op, may t op -> (t = 0%nat /\ is_push op) \/ (t = 1%nat /\ is_pop op)) ->
  reachable s -> no_lost_wakeup s.
Proof.
  intros Hm. revert s. apply (reachable_ind no_lost_wakeup); [done|].
  unfold no_lost_wakeup. intros s2 s3 Hr' Hs IH.
  pose proof (reachable_inside s2 Hr') as Hin.
  destruct Hs as [s t op0 Ht _|s t op0 Ht Hg|s t op0 r' v ths' Ht Hg Hb Hn|s t op0 Ht|s t ths' Ht Hg Hn];
    cbn; intros u op Hu.
  - destruct (decide (t = u)) as [->|Hne]; [by rewrite lookup_insert_eq in Hu|].
    rewrite lookup_insert_ne in Hu by done. eauto.
  - destruct (decide (t = u)) as [->|Hne]; [by simplify_map_eq|].
    rewrite lookup_insert_ne in Hu by done. eauto.
  - exfalso. assert (is_push op0 \/ is_pop op0) as Hop.
    { destruct (Hm t op0) as [[_ ?]|[_ ?]]; [apply Hin; by left|auto|auto]. }
    assert (notifies op0 = true) as Hnt by (destruct op0; naive_solver).
    rewrite Hnt in Hn. inversion Hn as [? Hnone|? w op1 Hw]; subst; [naive_solver|].
    assert (w <> u) as Hwu by (intros ->; by rewrite lookup_insert_eq in Hu).
    rewrite lookup_insert_ne in Hu by done.
    apply lookup_delete_Some in Hu as [Htu Hu]. apply lookup_delete_Some in Hw as [Htw Hw].
    destruct (Hm t op0) as [[-> _]|[-> _]]; [apply Hin; by left|..];
      destruct (Hm u op) as [[-> _]|[-> _]]; try (apply Hin; by right); try done;
      destruct (Hm w op1) as [[-> _]|[-> _]]; try (apply Hin; by right); done.
  - destruct (decide (t = u)) as [->|Hne]; [by rewrite lookup_insert_eq in Hu|].
    rewrite lookup_insert_ne in Hu by done. eauto.
  - eapply (notify_waiting true) in Hu; [|done].
    apply lookup_delete_Some in Hu as [_ Hu]. eauto.
Qed.

(** ** Properties *)

(** C9: with any number of threads that push at the back and pop at the front,
    in every reachable state the values taken out, followed by the values still
    in the ring, are the values put in, in order; and never more than [N] values
    are inside. *)
Theorem blocking_ring_fifo s :
  (forall t op, may t op -> fifo_op op) -> reachable s ->
  pushed s = popped s ++ Ring.view T0 N (shared s) /\
  Z.of_nat (length (Ring.view T0 N (shared s))) <= N.
Proof.
  intros Hf Hs. split; [by apply reachable_fifo|].
  destruct (reachable_wf s Hs) as (_ & _ & Hz). rewrite Ring.view_length by lia. lia.
Qed.

(** Whatever the threads do, a method that has passed its wait never fails
    an [assert] of the ring below it and never leaves its array. *)
Theorem blocking_ring_no_fault s t op :
  reachable s -> threads s !! t = Some (Ready op) -> guard op (shared s) = true ->
  exists r' v, body op (shared s) = Ok (r', v) /\ Ring.wf N r'.
Proof.
  intros Hs _ Hg. destruct (body_ok op (shared s)) as (r' & v & E & W & _); eauto.
  by apply reachable_wf.
Qed.

(** C36: with one pushing thread and one popping thread no wake-up is lost: a
    thread asleep in the condition variable has a predicate that is false, so
    the two are never asleep at the same time. *)
Theorem spsc_no_lost_wakeup s op0 op1 :
  (forall t op, may t op -> (t = 0%nat /\ is_push op) \/ (t = 1%nat /\ is_pop op)) ->
  reachable s ->
  no_lost_wakeup s /\
  ~ (threads s !! 0%nat = Some (Waiting op0) /\ threads s !! 1%nat = Some (Waiting op1)).
Proof.
  intros Hm Hs. pose proof (reachable_spsc s Hm Hs) as Hl. split; [done|].
  intros [H0 H1]. pose proof (reachable_inside s Hs) as Hin.
  pose proof (Hl _ _ H0) as G0. pose proof (Hl _ _ H1) as G1.
  assert (is_push op0) by (destruct (Hm 0%nat op0) as [[_ ?]|[? _]]; [apply Hin; by right|done|done]).
  assert (is_pop op1) by (destruct (Hm 1%nat op1) as [[? _]|[_ ?]]; [apply Hin; by right|done|done]).
  assert (Ring.not_full N (shared s) = false) as F by (by destruct op0).
  assert (Ring.not_empty (shared s) = false) as Em by (by destruct op1).
  unfold Ring.not_full, Ring.not_empty, Ring.full, Ring.empty in *.
  destruct (Z.leb_spec N (Ring._size (shared s))); [|done].
  destruct (Z.eqb_spec (Ring._size (shared s)) 0); [lia|done].
Qed.

End BlockingRing.

(** Evaluates the lookups of a concrete map. *)
Ltac lookups :=
  cbn [threads]; repeat (rewrite ?lookup_insert, ?lookup_delete; case_decide; try done).

(** Runs the next step of a concrete trace. *)
Ltac trace tac :=
  eapply rtc_l; [tac; try (vm_compute; reflexivity)|]; cbn [shared threads pushed popped].

Definition mpsc (t : nat) (op : bop Z) : Prop :=
  (t <> 2%nat /\ is_push op) \/ (t = 2%nat /\ op = BPopFront).

Definition spsc (t : nat) (op : bop Z) : Prop :=
  (t = 0%nat /\ op = BPushBack 5) \/ (t = 1%nat /\ op = BPopFront).

(** With two pushing threads, one popping thread and one slot, the single
    condition variable and [notify_one] can lose a wake-up: a run ends with the
    popping thread asleep although the ring holds a value, and with no thread
    that could wake it. *)
Theorem notify_one_loses_wakeup :
  exists s, reachable 0 1 mpsc s /\
    threads s !! 2%nat = Some (Waiting BPopFront) /\
    guard 1 BPopFront (shared s) = true /\
    forall t op, threads s !! t <> Some (Ready op).
Proof.
  eexists. split; [|split; [|split]].
  { unfold reachable.
    trace ltac:(eapply (step_call _ _ _ _ 0%nat (BPushBack 1)); [|left; done]).
    trace ltac:(eapply (step_run _ _ _ _ 0%nat (BPushBack 1));
      [| | |apply notify_none; intros w op; lookups]).
    trace ltac:(eapply (step_call _ _ _ _ 1%nat (BPushBack 2)); [|left; done]).
    trace ltac:(eapply (step_block _ _ _ _ 1%nat (BPushBack 2))).
    trace ltac:(eapply (step_call _ _ _ _ 0%nat (BPushBack 3)); [|left; done]).
    trace ltac:(eapply (step_block _ _ _ _ 0%nat (BPushBack 3))).
    trace ltac:(eapply (step_call _ _ _ _ 2%nat BPopFront); [|right; done]).
    trace ltac:(eapply (step_run _ _ _ _ 2%nat BPopFront);
      [| | |apply (notify_some _ 1%nat (BPushBack 2))]).
    trace ltac:(eapply (step_call _ _ _ _ 2%nat BPopFront); [|right; done]).
    trace ltac:(eapply (step_block _ _ _ _ 2%nat BPopFront)).
    trace ltac:(eapply (step_run _ _ _ _ 1%nat (BPushBack 2));
      [| | |apply (notify_some _ 0%nat (BPushBack 3))]).
    trace ltac:(eapply (step_block _ _ _ _ 0%nat (BPushBack 3))).
    apply rtc_refl. }
  - reflexivity.
  - vm_compute. reflexivity.
  - intros t op. lookups.
Qed.

Lemma spsc_demo : exists s, reachable 0 1 spsc s /\ pushed s = [5] /\
  threads s !! 1%nat = Some (Ready BPopFront) /\ guard 1 BPopFront (shared s) = true.
Proof.
  eexists. split; [|split; [|split]].
  { unfold reachable.
    trace ltac:(eapply (step_call _ _ _ _ 0%nat (BPushBack 5)); [|left; done]).
    trace ltac:(eapply (step_run _ _ _ _ 0%nat (BPushBack 5));
      [| | |apply notify_none; intros w op; lookups]).
    trace ltac:(eapply (step_call _ _ _ _ 1%nat BPopFront); [|right; done]).
    apply rtc_refl. }
  - reflexivity.
  - reflexivity.
  - vm_compute. reflexivity.
Qed.

Lemma blocking_ring_fifo_witness :
  exists s, reachable 0 1 spsc s /\ pushed s = [5] /\
    pushed s = popped s ++ Ring.view 0 1 (shared s) /\
    Z.of_nat (length (Ring.view 0 1 (shared s))) <= 1.
Proof.
  destruct spsc_demo as (s & Hs & Hp & _). exists s. split; [done|]. split; [done|].
  apply (blocking_ring_fifo 0 1 spsc); [lia| |done].
  intros t op [[_ ->]|[_ ->]]; exact I.
Defined.

Lemma blocking_ring_no_fault_witness :
  exists s, reachable 0 1 spsc s /\
    exists r' v, body 0 1 BPopFront (shared s) = Ok (r', v) /\ Ring.wf 1 r'.
Proof.
  destruct spsc_demo as (s & Hs & _ & Ht & Hg). exists s. split; [done|].
  apply (blocking_ring_no_fault 0 1 spsc ltac:(lia) s 1%nat BPopFront); done.
Defined.

Lemma spsc_no_lost_wakeup_witness :
  exists s, reachable 0 1 spsc s /\ no_lost_wakeup 1 s /\
  ~ (threads s !! 0%nat = Some (Waiting (BPushBack 5)) /\ threads s !! 1%nat = Some (Waiting BPopFront)).
Proof.
  destruct spsc_demo as (s & Hs & _). exists s. split; [done|].
  apply (spsc_no_lost_wakeup 0 1 spsc); [lia| |done].
  intros t op [[-> ->]|[-> ->]]; [left|right]; split; exact I || reflexivity.
Defined.

End BlockingRing.
