(* ===== verification/Ring2D.v ===== *)
(** * Ring2D: rings whose elements own a row of a second array

    [Ring2D_ex<T, N, T2, M>] (Container/src/ring_2dex.cc) is a [Ring] whose
    slots own a row of up to [M] cells in an array of [N * M]; new elements are
    prepared, filled in place and then made part of the ring.
    [Ring2D_shared] (Container/src/ring_2d_shared.cc) is the same text over a
    segment of System V shared memory.  The operations on elements are those
    of RingBuffer, whose text the classes repeat; a row is read with the width
    of the last preparation, not the one it was written with. *)

From S2P Require Import Prelude RingBuffer.
Local Open Scope Z_scope.

Module Ring2D_ex.

(** [_emplace_start], [_emplace_size] and [_2D_size] have no initial value. *)
Record batch : Type := mk_batch {
  _emplace_start : Z;
  _emplace_size : Z;
  _2D_size : Z;
}.

Record ring2d (T T2 : Type) : Type := mk_ring2d {
  elements : Ring.ring T;         (* [_ring], [_begin], [_size] *)
  _ring2 : list T2;
  prepared : option batch;
}.
Arguments mk_ring2d {T T2} _ _ _.
Arguments elements {T T2} _.
Arguments _ring2 {T T2} _.
Arguments prepared {T T2} _.

Section Ring2D.
Context {T T2 : Type}.
Variable T0 : T.
Variable N M : Z.

(** [cells] is what the memory of the second array holds at first. *)
Definition ring2d_new (cells : list T2) : ring2d T T2 := mk_ring2d (Ring.ring_new T0 N) cells None.

Definition with_elements (e : Ring.ring T) (r : ring2d T T2) : ring2d T T2 :=
  mk_ring2d e (_ring2 r) (prepared r).

Definition size (r : ring2d T T2) : Z := Ring.size (elements r).
Definition empty (r : ring2d T T2) : bool := Ring.empty (elements r).
Definition not_empty (r : ring2d T T2) : bool := Ring.not_empty (elements r).
Definition full (r : ring2d T T2) : bool := Ring.full N (elements r).
Definition not_full (r : ring2d T T2) : bool := Ring.not_full N (elements r).

Definition clear (r : ring2d T T2) : result (ring2d T T2) :=
  e ← Ring.clear T0 N (elements r); Ok (with_elements e r).
Definition eff_clear (r : ring2d T T2) : ring2d T T2 := with_elements (Ring.eff_clear (elements r)) r.

Definition emplace_back (x : T) (r : ring2d T T2) : result (ring2d T T2) :=
  e ← Ring.emplace_back N x (elements r); Ok (with_elements e r).
Definition push_back (x : T) (r : ring2d T T2) : result (ring2d T T2) :=
  e ← Ring.push_back N x (elements r); Ok (with_elements e r).
Definition peek_back (r : ring2d T T2) : result T := Ring.peek_back N (elements r).
Definition pop_back (r : ring2d T T2) : result (T * ring2d T T2) :=
  '(x, e) ← Ring.pop_back T0 N (elements r); Ok (x, with_elements e r).
Definition eff_pop_back (r : ring2d T T2) : ring2d T T2 := with_elements (Ring.eff_pop_back (elements r)) r.

Definition push_front (x : T) (r : ring2d T T2) : result (ring2d T T2) :=
  e ← Ring.push_front N x (elements r); Ok (with_elements e r).
Definition peek_front (r : ring2d T T2) : result T := Ring.peek_front (elements r).
Definition pop_front (r : ring2d T T2) : result (T * ring2d T T2) :=
  '(x, e) ← Ring.pop_front T0 N (elements r); Ok (x, with_elements e r).
Definition eff_pop_front (r : ring2d T T2) : ring2d T T2 :=
  with_elements (Ring.eff_pop_front N (elements r)) r.
Definition index (r : ring2d T T2) (i : Z) : result T := Ring.index N (elements r) i.

(** while (_size + s > N) eff_pop_front(); *)
Fixpoint make_room (fuel : nat) (s : Z) (e : Ring.ring T) : result (Ring.ring T) :=
  if N <? u64 (Ring._size e + s) then
    match fuel with
    | O => Err NoProgress
    | S fuel => make_room fuel s (Ring.eff_pop_front N e)
    end
  else Ok e.

Definition prepare_emplace_back (s t : Z) (r : ring2d T T2) : result (ring2d T T2) :=
  _ ← assert_ ((s <=? N) && (t <=? M));
  e ← make_room (Z.to_nat (Ring._size (elements r))) s (elements r);
  Ok (mk_ring2d e (_ring2 r) (Some (mk_batch (u64 (Ring._begin e + Ring._size e) mod N) s t))).

Definition the_batch (r : ring2d T T2) : result batch := of_option Uninitialised (prepared r).

(** The slot of the [i]-th element that is being prepared. *)
Definition slot (b : batch) (i : Z) : Z := u64 (_emplace_start b + i) mod N.

(** emplace_back_at(i, item) *)
Definition emplace_back_at (i : Z) (x : T) (r : ring2d T T2) : result (ring2d T T2) :=
  b ← the_batch r;
  _ ← assert_ (i <? _emplace_size b);
  data ← arr_set (Ring._ring (elements r)) (slot b i) x;
  Ok (with_elements (Ring.mk_ring data (Ring._begin (elements r)) (Ring._size (elements r))) r).

(** peek_back_at(i) *)
Definition peek_back_at (i : Z) (r : ring2d T T2) : result T :=
  b ← the_batch r;
  _ ← assert_ (i <? _emplace_size b);
  arr_get (Ring._ring (elements r)) (slot b i).

(** emplace_back_at(i, j, item) *)
Definition emplace_cell_at (i j : Z) (x : T2) (r : ring2d T T2) : result (ring2d T T2) :=
  b ← the_batch r;
  _ ← assert_ ((i <? _emplace_size b) && (j <? _2D_size b));
  cells ← arr_set (_ring2 r) (u64 (slot b i * _2D_size b + j)) x;
  Ok (mk_ring2d (elements r) cells (prepared r)).

(** peek_back_at(i, j) *)
Definition peek_cell_at (i j : Z) (r : ring2d T T2) : result T2 :=
  b ← the_batch r;
  _ ← assert_ ((i <? _emplace_size b) && (j <? _2D_size b));
  arr_get (_ring2 r) (u64 (slot b i * _2D_size b + j)).

Definition finish_emplace_back (r : ring2d T T2) : result (ring2d T T2) :=
  b ← the_batch r;
  let e := elements r in
  Ok (with_elements (Ring.mk_ring (Ring._ring e) (Ring._begin e) (u64 (Ring._size e + _emplace_size b))) r).

(** peek_front(j) *)
Definition peek_front_cell (j : Z) (r : ring2d T T2) : result T2 :=
  b ← the_batch r;
  _ ← assert_ (negb (empty r) && (j <? _2D_size b));
  arr_get (_ring2 r) (u64 (Ring._begin (elements r) * _2D_size b + j)).

(** How a caller adds elements with their rows: prepare, fill, finish. *)
Definition fill_row (i : Z) (row : list T2) (r : ring2d T T2) : result (ring2d T T2) :=
  foldM (fun r '(j, x) => emplace_cell_at i (Z.of_nat j) x r) r (imap pair row).

Definition fill_batch (items : list (T * list T2)) (r : ring2d T T2) : result (ring2d T T2) :=
  foldM (fun r '(i, (x, row)) => r' ← emplace_back_at (Z.of_nat i) x r; fill_row (Z.of_nat i) row r')
    r (imap pair items).

Definition append_batch (t : Z) (items : list (T * list T2)) (r : ring2d T T2) : result (ring2d T T2) :=
  r' ← prepare_emplace_back (Z.of_nat (length items)) t r;
  r' ← fill_batch items r';
  finish_emplace_back r'.

(** ** What is promised *)

Definition wf2 (r : ring2d T T2) : Prop :=
  Ring.wf N (elements r) /\ Z.of_nat (length (_ring2 r)) = N * M.

(** The row of width [t] of slot [k]. *)
Definition row_at (t : Z) (cells : list T2) (k : Z) : list T2 :=
  take (Z.to_nat t) (drop (Z.to_nat (k * t)) cells).

(** The elements with their rows of width [t], first to last. *)
Definition rows (t : Z) (r : ring2d T T2) : list (T * list T2) :=
  (fun k => let i := (Ring._begin (elements r) + k) mod N in
            (default T0 (Ring._ring (elements r) !! Z.to_nat i), row_at t (_ring2 r) i))
  <$> seqZ 0 (Ring._size (elements r)).

(** A slot with its row. *)
Definition slot_view (t : Z) (r : ring2d T T2) (q : Z) : T * list T2 :=
  (default T0 (Ring._ring (elements r) !! Z.to_nat q), row_at t (_ring2 r) q).

(** ** Lemmas *)

Hypothesis N_range : 0 < N < 2 ^ 62.
Hypothesis cells_range : 0 <= M /\ N * M < 2 ^ 62.

Lemma rows_eq t r :
  rows t r = (fun k => slot_view t r ((Ring._begin (elements r) + k) mod N)) <$> seqZ 0 (Ring._size (elements r)).
Proof. done. Qed.

(** Dropping the oldest elements until there is room. *)
Lemma make_room_ok s : 0 <= s <= N -> forall fuel e,
  Ring.wf N e -> Ring._size e <= Z.of_nat fuel ->
  exists d, 0 <= d <= Ring._size e /\ Z.max 0 (Ring._size e + s - N) = d /\
    make_room fuel s e = Ok (Ring.mk_ring (Ring._ring e) ((Ring._begin e + d) mod N) (Ring._size e - d)).
Proof.
  intros Hs. induction fuel as [|fuel IH]; intros e Hwf Hf; pose proof Hwf as (Hl & Hb & Hz);
    cbn [make_room]; unfold u64; rewrite Z.mod_small by lia; fold u64.
  - destruct (Z.ltb_spec N (Ring._size e + s)); [lia|]. exists 0. split_and!; [lia..|].
    rewrite Z.add_0_r, Z.sub_0_r, Z.mod_small by lia. by destruct e.
  - destruct (Z.ltb_spec N (Ring._size e + s)).
    + unfold Ring.eff_pop_front. rewrite !(Ring.u64_ring N N_range) by lia.
      pose proof (Z.mod_pos_bound (Ring._begin e + 1) N ltac:(lia)).
      destruct (IH (Ring.mk_ring (Ring._ring e) ((Ring._begin e + 1) mod N) (Ring._size e - 1)))
        as (d & Hd & Hm & ->); [unfold Ring.wf; cbn; lia|cbn; lia|]. cbn in Hd, Hm |- *.
      exists (d + 1). split_and!; [lia..|]. rewrite Z.add_mod_idemp_l by lia.
      replace (Ring._begin e + 1 + d) with (Ring._begin e + (d + 1)) by lia.
      by replace (Ring._size e - 1 - d) with (Ring._size e - (d + 1)) by lia.
    + exists 0. split_and!; [lia..|]. rewrite Z.add_0_r, Z.sub_0_r, Z.mod_small by lia. by destruct e.
Qed.

Lemma row_bound k t : 0 <= k < N -> 0 <= t <= M -> 0 <= k * t /\ k * t + t <= N * M.
Proof. intros. nia. Qed.

(** Cells of one row, written one after the other. *)
Lemma fill_row_ok i row t r b :
  wf2 r -> prepared r = Some b -> _2D_size b = t -> 0 <= t <= M -> Z.of_nat (length row) <= t ->
  0 <= i < _emplace_size b -> 0 <= slot b i < N ->
  exists cells, fill_row i row r = Ok (mk_ring2d (elements r) cells (prepared r)) /\
    arr_blit (_ring2 r) (slot b i * t) row = Ok cells.
Proof.
  intros [Hwf Hc] Hp Ht Htm Hr Hi Hs. pose proof (row_bound _ _ Hs Htm) as [Hk Hkt].
  unfold fill_row. induction row as [|x row IH] using rev_ind.
  { exists (_ring2 r). split; [by destruct r|]. unfold arr_blit. rewrite decide_True by (cbn; lia).
    cbn. by rewrite Nat.add_0_r, take_drop. }
  rewrite length_app in Hr. cbn in Hr. destruct IH as (cells & IH & Hb); [lia|].
  rewrite imap_app, foldM_app, IH. cbn -[Z.of_nat emplace_cell_at].
  unfold emplace_cell_at, the_batch. cbn [prepared _ring2 elements]. rewrite Hp, Nat.add_0_r.
  cbn -[Z.of_nat]. rewrite Ht.
  destruct (Z.ltb_spec i (_emplace_size b)); [|lia].
  destruct (Z.ltb_spec (Z.of_nat (length row)) t); [|lia]. cbn -[Z.of_nat].
  unfold u64. rewrite Z.mod_small by lia.
  unfold arr_blit in Hb |- *. rewrite decide_True in Hb by lia. injection Hb as <-.
  rewrite arr_set_ok, decide_True; [|rewrite length_app; cbn; lia|].
  2: { rewrite !length_app, length_take, length_drop. lia. }
  eexists. split; [reflexivity|]. f_equal.
  destruct (drop (Z.to_nat (slot b i * t) + length row) (_ring2 r)) as [|y l] eqn:Ed.
  { apply (f_equal length) in Ed. rewrite length_drop in Ed. cbn in Ed. lia. }
  assert (drop (Z.to_nat (slot b i * t) + length (row ++ [x])) (_ring2 r) = l) as ->.
  { rewrite length_app, Nat.add_assoc, <-drop_drop, Ed. done. }
  replace (Z.to_nat (slot b i * t + Z.of_nat (length row)))
    with (length (take (Z.to_nat (slot b i * t)) (_ring2 r) ++ row) + 0)%nat
    by (rewrite length_app, length_take; lia).
  rewrite (app_assoc _ row (y :: l)), insert_app_r. cbn. by rewrite <-!app_assoc.
Qed.

(** Reading a row back. *)
Lemma lookup_row_at t cells q i :
  0 <= q -> 0 <= t ->
  row_at t cells q !! i = if decide (Z.of_nat i < t) then cells !! (Z.to_nat (q * t) + i)%nat else None.
Proof.
  intros Hq Ht. unfold row_at. case_decide.
  - by rewrite lookup_take_lt, lookup_drop by lia.
  - by rewrite lookup_take_ge by lia.
Qed.

Lemma lookup_blit (cells src cells' : list T2) off i :
  arr_blit cells off src = Ok cells' ->
  cells' !! i = if decide (off <= Z.of_nat i < off + Z.of_nat (length src))
                then src !! (i - Z.to_nat off)%nat else cells !! i.
Proof.
  unfold arr_blit. case_decide as Hin; [|done]. intros [= <-].
  assert (length (take (Z.to_nat off) cells) = Z.to_nat off) as Hl by (rewrite length_take; lia).
  case_decide.
  - rewrite lookup_app_r, Hl by lia. rewrite lookup_app_l by lia. done.
  - destruct (decide (Z.of_nat i < off)).
    + rewrite lookup_app_l, lookup_take_lt by lia. done.
    + rewrite lookup_app_r, Hl, lookup_app_r, lookup_drop by lia. f_equal. lia.
Qed.

Lemma blit_length (cells src cells' : list T2) off : arr_blit cells off src = Ok cells' -> length cells' = length cells.
Proof.
  unfold arr_blit. case_decide; [|done]. intros [= <-].
  rewrite !length_app, length_take, length_drop. lia.
Qed.

Lemma row_at_blit t cells row cells' k q :
  0 <= q -> 0 <= k -> Z.of_nat (length row) = t -> arr_blit cells (k * t) row = Ok cells' ->
  row_at t cells' q = if decide (q = k) then row else row_at t cells q.
Proof.
  intros Hq Hk Ht Hb. apply list_eq. intros i. rewrite lookup_row_at by lia.
  assert (i < length row \/ row !! i = None)%nat as Hi
    by (destruct (decide (i < length row)%nat); [by left|right; apply lookup_ge_None; lia]).
  case_decide as Hlt.
  - rewrite (lookup_blit _ _ _ _ _ Hb). destruct (decide (q = k)) as [->|Hne].
    + rewrite decide_True by nia. f_equal. lia.
    + rewrite decide_False by nia. rewrite lookup_row_at, decide_True by lia. done.
  - destruct (decide (q = k)); [destruct Hi; [lia|done]|]. by rewrite lookup_row_at, decide_False by lia.
Qed.

(** One element with its row. *)
Lemma fill_item_ok i x row t r b :
  wf2 r -> prepared r = Some b -> _2D_size b = t -> 0 <= t <= M -> Z.of_nat (length row) = t ->
  0 <= i < _emplace_size b -> 0 <= slot b i < N ->
  exists r', (r' ← emplace_back_at i x r; fill_row i row r') = Ok r' /\ wf2 r' /\ prepared r' = Some b /\
    Ring._begin (elements r') = Ring._begin (elements r) /\ Ring._size (elements r') = Ring._size (elements r) /\
    forall q, 0 <= q < N -> slot_view t r' q = if decide (q = slot b i) then (x, row) else slot_view t r q.
Proof.
  intros Hw Hp Ht Htm Hr Hi Hs. pose proof Hw as [(Hl & Hb & Hz) Hc].
  unfold emplace_back_at, the_batch. rewrite Hp. cbn -[fill_row].
  destruct (Z.ltb_spec i (_emplace_size b)); [|lia]. cbn -[fill_row].
  rewrite arr_set_ok by lia. cbn -[fill_row]. set (r1 := with_elements _ r).
  destruct (fill_row_ok i row t r1 b) as (cells & -> & Hbl); try done; try lia.
  { split; [|done]. unfold Ring.wf. cbn. rewrite length_insert. lia. }
  eexists. split; [reflexivity|]. cbn. split_and!; try done.
  - split; [unfold Ring.wf; cbn; rewrite length_insert; lia|]. cbn. by rewrite (blit_length _ _ _ _ Hbl).
  - intros q Hq. unfold slot_view. cbn. cbn in Hbl. rewrite (row_at_blit t (_ring2 r) row cells (slot b i) q) by (done || lia).
    rewrite Ring.lookup_write by lia. repeat case_decide; congruence || lia.
Qed.

(** A whole batch: slot [q] holds the item whose slot it is, if there is one. *)
Lemma fill_batch_ok t b items r :
  wf2 r -> prepared r = Some b -> _2D_size b = t -> 0 <= t <= M -> 0 <= _emplace_start b < N ->
  Z.of_nat (length items) <= _emplace_size b -> Z.of_nat (length items) <= N ->
  Forall (fun it => Z.of_nat (length it.2) = t) items ->
  exists r', fill_batch items r = Ok r' /\ wf2 r' /\ prepared r' = Some b /\
    Ring._begin (elements r') = Ring._begin (elements r) /\ Ring._size (elements r') = Ring._size (elements r) /\
    forall q, 0 <= q < N ->
      slot_view t r' q = default (slot_view t r q) (items !! Z.to_nat ((q - _emplace_start b) mod N)).
Proof.
  intros Hw Hp Ht Htm Hst He Hn Hf. unfold fill_batch.
  induction items as [|[x row] items IH] using rev_ind.
  { exists r. split_and!; try done. }
  rewrite length_app in He, Hn. cbn in He, Hn. apply Forall_app in Hf as [Hf Hrow].
  inversion Hrow as [|? ? Hrow1 _]; clear Hrow; cbn [snd] in Hrow1.
  destruct IH as (r1 & E & Hw1 & Hp1 & Hb1 & Hs1 & Hq1); [lia|lia|done|].
  rewrite imap_app, foldM_app, E. cbn -[Z.of_nat emplace_back_at fill_row]. rewrite Nat.add_0_r.
  set (n := length items) in *.
  assert (slot b (Z.of_nat n) = (_emplace_start b + Z.of_nat n) mod N) as Hslot.
  { unfold slot, u64. by rewrite (Z.mod_small _ (2 ^ 64)) by lia. }
  pose proof (Z.mod_pos_bound (_emplace_start b + Z.of_nat n) N ltac:(lia)).
  destruct (fill_item_ok (Z.of_nat n) x row t r1 b) as (r2 & E2 & Hw2 & Hp2 & Hb2 & Hs2 & Hq2);
    try done; try lia. rewrite E2. exists r2. cbn. split_and!; try done; try congruence.
  intros q Hq. rewrite Hq2, Hslot by done.
  assert (q = (_emplace_start b + Z.of_nat n) mod N <-> (q - _emplace_start b) mod N = Z.of_nat n) as Hiff.
  { rewrite (Ring.mod_wrap N N_range (_emplace_start b + Z.of_nat n)) by lia.
    replace ((q - _emplace_start b) mod N) with (if decide (_emplace_start b <= q) then q - _emplace_start b else q - _emplace_start b + N).
    2: { case_decide; [by rewrite Z.mod_small by lia|]. rewrite <-(Z.mod_add _ 1) by lia.
         rewrite Z.mod_small by lia. lia. }
    repeat case_decide; lia. }
  pose proof (Z.mod_pos_bound (q - _emplace_start b) N ltac:(lia)).
  case_decide as Hd.
  - apply Hiff in Hd. rewrite Hd, Nat2Z.id. by rewrite lookup_app_r, Nat.sub_diag by lia.
  - rewrite Hq1 by done. f_equal. destruct (decide (Z.to_nat ((q - _emplace_start b) mod N) < n)%nat).
    + by rewrite lookup_app_l.
    + rewrite (lookup_ge_None_2 items) by lia. symmetry. apply lookup_ge_None. rewrite length_app. cbn.
      assert ((q - _emplace_start b) mod N <> Z.of_nat n) by (intros E'; by apply Hd, Hiff). lia.
Qed.

(** ** Properties *)

(** Preparing ends, and it drops the oldest elements and only as many of them as
    the new ones need: the elements kept are the newest. *)
Theorem prepare_makes_room s t r :
  wf2 r -> 0 <= s <= N -> 0 <= t <= M ->
  exists r' d, prepare_emplace_back s t r = Ok r' /\ wf2 r' /\ _ring2 r' = _ring2 r /\
    d = Z.max 0 (Ring._size (elements r) + s - N) /\
    Ring._size (elements r') = Ring._size (elements r) - d /\
    (forall u, rows u r' = drop (Z.to_nat d) (rows u r)) /\
    prepared r' = Some (mk_batch ((Ring._begin (elements r') + Ring._size (elements r')) mod N) s t).
Proof.
  intros [Hwf Hc] Hs Ht. pose proof Hwf as (Hl & Hb & Hz). unfold prepare_emplace_back.
  destruct (Z.leb_spec s N); [|lia]. destruct (Z.leb_spec t M); [|lia]. cbn [andb assert_ mbind result_bind].
  destruct (make_room_ok s Hs (Z.to_nat (Ring._size (elements r))) (elements r) Hwf) as (d & Hd & Hm & ->); [lia|].
  cbn [mbind result_bind]. cbn [Ring._begin Ring._size].
  pose proof (Z.mod_pos_bound (Ring._begin (elements r) + d) N ltac:(lia)).
  eexists _, d. split; [reflexivity|]. cbn [elements _ring2 prepared Ring._size Ring._begin].
  split_and!; try done.
  - split; [unfold Ring.wf; cbn; lia|done].
  - intros u. rewrite !rows_eq. cbn [elements Ring._begin Ring._size].
    apply list_eq. intros i. rewrite lookup_drop, !list_lookup_fmap.
    destruct (decide (Z.of_nat i < Ring._size (elements r) - d)).
    + rewrite !lookup_seqZ_lt by lia. cbn [fmap option_fmap option_map]. f_equal.
      rewrite Z.add_mod_idemp_l by lia.
      replace (Ring._begin (elements r) + d + (0 + Z.of_nat i))
        with (Ring._begin (elements r) + (0 + Z.of_nat (Z.to_nat d + i))) by lia. done.
    + by rewrite !lookup_seqZ_ge by lia.
  - unfold u64. by rewrite (Z.mod_small _ (2 ^ 64)) by lia.
Qed.

(** C29: a batch prepared, filled and finished is a list append: read with the width
    of the batch, the ring holds the newest of its old elements and then the new
    ones with their rows, in order, never more than [N]; no access leaves either
    array. *)
Theorem append_batch_appends t items r :
  wf2 r -> 0 <= t <= M -> Z.of_nat (length items) <= N ->
  Forall (fun it => Z.of_nat (length it.2) = t) items ->
  exists r', append_batch t items r = Ok r' /\ wf2 r' /\
    rows t r' = drop (length (rows t r) + length items - Z.to_nat N) (rows t r) ++ items.
Proof.
  intros Hw Ht Hn Hf. unfold append_batch.
  destruct (prepare_makes_room (Z.of_nat (length items)) t r Hw) as (r1 & d & -> & Hw1 & _ & Hd & Hs1 & Hr1 & Hp1);
    [lia|done|]. cbn [mbind result_bind].
  pose proof Hw as [(Hl & Hb & Hz) _]. pose proof Hw1 as [(Hl1 & Hb1 & Hz1) _].
  set (b := mk_batch _ _ _) in Hp1.
  pose proof (Z.mod_pos_bound (Ring._begin (elements r1) + Ring._size (elements r1)) N ltac:(lia)) as Hst.
  destruct (fill_batch_ok t b items r1) as (r2 & -> & Hw2 & Hp2 & Hb2 & Hs2 & Hq2); try done; try (cbn; lia).
  cbn [mbind result_bind]. unfold finish_emplace_back, the_batch. rewrite Hp2. cbn [of_option mbind result_bind].
  cbn [b _emplace_size]. unfold u64. rewrite Hs2, Z.mod_small by lia.
  eexists. split; [reflexivity|]. destruct Hw2 as [(Hl2 & Hb2' & Hz2) Hc2].
  split; [split; [unfold Ring.wf; cbn; lia|done]|].
  assert (length (rows t r) = Z.to_nat (Ring._size (elements r))) as Hlen
    by (by rewrite rows_eq, length_fmap, length_seqZ).
  rewrite Hlen. replace (Z.to_nat (Ring._size (elements r)) + length items - Z.to_nat N)%nat with (Z.to_nat d) by lia.
  rewrite <-Hr1, !rows_eq. cbn [elements with_elements Ring._begin Ring._size].
  rewrite seqZ_app, fmap_app, Z.add_0_l by lia. f_equal.
  - apply list_fmap_ext. intros k y [Hy Hk]%lookup_seqZ. rewrite Hb2.
    set (q := (Ring._begin (elements r1) + y) mod N).
    pose proof (Z.mod_pos_bound (Ring._begin (elements r1) + y) N ltac:(lia)).
    change (slot_view t r2 q = slot_view t r1 q). rewrite Hq2 by done. cbn [b _emplace_start].
    rewrite lookup_ge_None_2; [done|]. unfold q.
    replace (((Ring._begin (elements r1) + y) mod N - (Ring._begin (elements r1) + Ring._size (elements r1)) mod N) mod N)
      with (N + y - Ring._size (elements r1)); [lia|].
    rewrite <-Zminus_mod. rewrite <-(Z.mod_add _ 1) by lia. rewrite Z.mod_small by lia. lia.
  - apply list_eq. intros i. rewrite list_lookup_fmap.
    destruct (decide (i < length items)%nat) as [Hi|Hi].
    2: { rewrite lookup_seqZ_ge by lia. symmetry. apply lookup_ge_None. lia. }
    rewrite lookup_seqZ_lt by lia. cbn [fmap option_fmap option_map]. rewrite Hb2.
    set (q := (Ring._begin (elements r1) + (Ring._size (elements r1) + Z.of_nat i)) mod N).
    pose proof (Z.mod_pos_bound (Ring._begin (elements r1) + (Ring._size (elements r1) + Z.of_nat i)) N ltac:(lia)).
    change (Some (slot_view t r2 q) = items !! i). rewrite Hq2 by done. cbn [b _emplace_start].
    replace ((q - (Ring._begin (elements r1) + Ring._size (elements r1)) mod N) mod N) with (Z.of_nat i).
    + rewrite Nat2Z.id. by destruct (lookup_lt_is_Some_2 items i Hi) as [y ->].
    + unfold q. rewrite <-Zminus_mod. rewrite Z.mod_small by lia. lia.
Qed.

(** With the width unchanged since, the cell of the front is the cell of the
    front's row. *)
Theorem front_cell j r b x row l :
  wf2 r -> prepared r = Some b -> 0 <= _2D_size b <= M -> 0 <= j < _2D_size b ->
  rows (_2D_size b) r = (x, row) :: l ->
  peek_front r = Ok x /\ peek_front_cell j r = arr_get row j.
Proof.
  intros [(Hl & Hb & Hz) Hc] Hp Ht Hj Hr. rewrite rows_eq in Hr.
  destruct (decide (Ring._size (elements r) = 0)) as [E|E].
  { rewrite E in Hr. done. }
  rewrite (seqZ_cons 0) in Hr by lia. cbn [fmap list_fmap] in Hr. injection Hr as Hx Hrow _.
  rewrite Z.add_0_r, Z.mod_small in Hx, Hrow by lia.
  pose proof (row_bound (Ring._begin (elements r)) (_2D_size b) Hb Ht).
  assert (Ring.empty (elements r) = false) as Hem.
  { unfold Ring.empty. destruct (Z.eqb_spec (Ring._size (elements r)) 0); [lia|done]. }
  split.
  - unfold peek_front, Ring.peek_front. rewrite Hem. cbn.
    destruct (arr_get_in (Ring._ring (elements r)) (Ring._begin (elements r))) as [y Hy]; [lia|].
    rewrite Hy. apply arr_get_ok in Hy as [_ Hy]. rewrite Hy in Hx. cbn in Hx. congruence.
  - unfold peek_front_cell, the_batch, empty. rewrite Hp, Hem. cbn [of_option mbind result_bind negb].
    destruct (Z.ltb_spec j (_2D_size b)); [|lia]. cbn [andb assert_ mbind result_bind].
    unfold u64. rewrite Z.mod_small by lia. unfold arr_get. rewrite !decide_True by lia.
    rewrite <-Hrow, lookup_row_at, decide_True by lia. do 2 f_equal. lia.
Qed.

End Ring2D.

(** After a batch of another width the rows already there are read at the wrong
    place: the front is the element 2, whose row was 20, 21, and its first cell
    is said to be 11, which is left over from the row of an element that is gone. *)
Theorem width_mixes_rows :
  exists r1 r2,
    append_batch 2 2 2 [(1, [10; 11]); (2, [20; 21])] (ring2d_new 0 2 [0; 0; 0; 0]) = Ok r1 /\
    rows 0 2 2 r1 = [(1, [10; 11]); (2, [20; 21])] /\
    append_batch 2 2 1 [(3, [30])] r1 = Ok r2 /\
    peek_front r2 = Ok 2 /\ peek_front_cell 0 r2 = Ok 11.
Proof.
  destruct (append_batch 2 2 2 [(1, [10; 11]); (2, [20; 21])] (ring2d_new 0 2 [0; 0; 0; 0])) as [r1|] eqn:E1;
    [|by vm_compute in E1].
  destruct (append_batch 2 2 1 [(3, [30])] r1) as [r2|] eqn:E2;
    [|by vm_compute in E1; injection E1 as <-; vm_compute in E2].
  exists r1, r2. vm_compute in E1. injection E1 as <-. vm_compute in E2. injection E2 as <-.
  split_and!; by vm_compute.
Qed.

Definition demo_ring : ring2d Z Z := mk_ring2d (Ring.mk_ring [5; 6; 7] 1 2) [0; 0; 60; 61; 70; 71] None.

Lemma demo_ring_wf : wf2 3 2 demo_ring.
Proof. split; [unfold Ring.wf; cbn; lia|done]. Qed.

Lemma prepare_makes_room_witness :
  exists r' d, prepare_emplace_back 3 2 2 1 demo_ring = Ok r' /\ wf2 3 2 r' /\ _ring2 r' = _ring2 demo_ring /\
    d = Z.max 0 (Ring._size (elements demo_ring) + 2 - 3) /\
    Ring._size (elements r') = Ring._size (elements demo_ring) - d /\
    (forall u, rows 0 3 u r' = drop (Z.to_nat d) (rows 0 3 u demo_ring)) /\
    prepared r' = Some (mk_batch ((Ring._begin (elements r') + Ring._size (elements r')) mod 3) 2 1).
Proof. apply (prepare_makes_room 0 3 2); [lia|apply demo_ring_wf|lia|lia]. Defined.

Lemma append_batch_appends_witness :
  exists r', append_batch 3 2 2 [(8, [80; 81]); (9, [90; 91])] demo_ring = Ok r' /\ wf2 3 2 r' /\
    rows 0 3 2 r' = [(7, [70; 71]); (8, [80; 81]); (9, [90; 91])].
Proof.
  apply (append_batch_appends 0 3 2 ltac:(lia) ltac:(lia) 2 [(8, [80; 81]); (9, [90; 91])] demo_ring);
    [apply demo_ring_wf|lia|cbn; lia|by repeat constructor].
Defined.

Lemma front_cell_witness :
  let r := mk_ring2d (elements demo_ring) (_ring2 demo_ring) (Some (mk_batch 0 1 2)) in
  peek_front r = Ok 6 /\ peek_front_cell 1 r = Ok 61.
Proof.
  apply (front_cell 0 3 2 ltac:(lia) ltac:(lia) 1
    (mk_ring2d (elements demo_ring) (_ring2 demo_ring) (Some (mk_batch 0 1 2))) (mk_batch 0 1 2) 6 [60; 61] [(7, [70; 71])]);
    [split; [unfold Ring.wf; cbn; lia|done]|done|cbn; lia|cbn; lia|by vm_compute].
Defined.

End Ring2D_ex.

(** ** The ring in shared memory *)

Module Ring2D_shared.

(** A segment: its size in bytes and, as far as this class looks at them, its
    cells. *)
Record segment (T2 : Type) : Type := mk_segment { seg_bytes : Z; seg_cells : list T2 }.
Arguments mk_segment {T2} _ _.
Arguments seg_bytes {T2} _.
Arguments seg_cells {T2} _.

(** The system: the segment the key [MY_SHM_ID] names, if any, and all segments
    somebody is attached to.  The class never detaches. *)
Record system (T2 : Type) : Type := mk_system {
  keyed : option nat;
  segments : gmap nat (segment T2);
  next_id : nat;
}.
Arguments mk_system {T2} _ _ _.
Arguments keyed {T2} _.
Arguments segments {T2} _.
Arguments next_id {T2} _.

Record shared_ring (T : Type) : Type := mk_shared {
  elements : Ring.ring T;
  _shmid : nat;
  prepared : option Ring2D_ex.batch;
}.
Arguments mk_shared {T} _ _ _.
Arguments elements {T} _.
Arguments _shmid {T} _.
Arguments prepared {T} _.

Section Shared.
Context {T T2 : Type}.
Variable T0 : T.
Variable N M : Z.
Variable sizeof_T2 : Z.
(** A byte pattern of zeros as a [T2], and what [T2]'s constructor leaves when it
    has one. *)
Variable zero : T2.
Variable constructed : option T2.

(** shmget(MY_SHM_ID, bytes, 0666|IPC_CREAT): an existing segment must be large
    enough. *)
Definition shmget (bytes : Z) (w : system T2) : option nat * system T2 :=
  match keyed w with
  | Some id =>
      match segments w !! id with
      | Some seg => (if bytes <=? seg_bytes seg then Some id else None, w)
      | None => (None, w)
      end
  | None =>
      let seg := mk_segment bytes (replicate (Z.to_nat (N * M)) zero) in
      (Some (next_id w), mk_system (Some (next_id w)) (<[next_id w := seg]> (segments w)) (S (next_id w)))
  end.

Definition put_cells (id : nat) (cells : list T2) (w : system T2) : result (system T2) :=
  match segments w !! id with
  | Some seg => Ok (mk_system (keyed w) (<[id := mk_segment (seg_bytes seg) cells]> (segments w)) (next_id w))
  | None => Err NullPointer
  end.

(** The constructor: [shmat] of an invalid identifier fails, and then it exits. *)
Definition Ring2D_shared_new (w : system T2) : result (shared_ring T * system T2) :=
  match shmget (sizeof_T2 * N * M) w with
  | (None, _) => Err Exited
  | (Some id, w) =>
      w ← match constructed with
          | Some v =>
              match segments w !! id with
              | Some seg =>
                  put_cells id (replicate (Z.to_nat (N * M)) v ++ drop (Z.to_nat (N * M)) (seg_cells seg)) w
              | None => Err NullPointer
              end
          | None => Ok w
          end;
      Ok (mk_shared (Ring.ring_new T0 N) id None, w)
  end.

(** The destructor: shmctl(_shmid, IPC_RMID, 0) takes the key away from the
    segment. *)
Definition Ring2D_shared_delete (o : shared_ring T) (w : system T2) : system T2 :=
  if decide (keyed w = Some (_shmid o)) then mk_system None (segments w) (next_id w) else w.

(** The object with the cells of its segment, and back. *)
Definition load (o : shared_ring T) (w : system T2) : result (Ring2D_ex.ring2d T T2) :=
  seg ← of_option NullPointer (segments w !! _shmid o);
  Ok (Ring2D_ex.mk_ring2d (elements o) (seg_cells seg) (prepared o)).

Definition store (o : shared_ring T) (r : Ring2D_ex.ring2d T T2) (w : system T2)
  : result (shared_ring T * system T2) :=
  w ← put_cells (_shmid o) (Ring2D_ex._ring2 r) w;
  Ok (mk_shared (Ring2D_ex.elements r) (_shmid o) (Ring2D_ex.prepared r), w).

Definition with_elements (e : Ring.ring T) (o : shared_ring T) : shared_ring T :=
  mk_shared e (_shmid o) (prepared o).

Definition size (o : shared_ring T) : Z := Ring.size (elements o).
Definition empty (o : shared_ring T) : bool := Ring.empty (elements o).
Definition not_empty (o : shared_ring T) : bool := Ring.not_empty (elements o).
Definition full (o : shared_ring T) : bool := Ring.full N (elements o).
Definition not_full (o : shared_ring T) : bool := Ring.not_full N (elements o).
Definition clear (o : shared_ring T) : result (shared_ring T) :=
  e ← Ring.clear T0 N (elements o); Ok (with_elements e o).
Definition eff_clear (o : shared_ring T) : shared_ring T := with_elements (Ring.eff_clear (elements o)) o.
Definition emplace_back (x : T) (o : shared_ring T) : result (shared_ring T) :=
  e ← Ring.emplace_back N x (elements o); Ok (with_elements e o).
Definition push_back (x : T) (o : shared_ring T) : result (shared_ring T) :=
  e ← Ring.push_back N x (elements o); Ok (with_elements e o).
Definition peek_back (o : shared_ring T) : result T := Ring.peek_back N (elements o).
Definition pop_back (o : shared_ring T) : result (T * shared_ring T) :=
  '(x, e) ← Ring.pop_back T0 N (elements o); Ok (x, with_elements e o).
Definition eff_pop_back (o : shared_ring T) : shared_ring T := with_elements (Ring.eff_pop_back (elements o)) o.
Definition push_front (x : T) (o : shared_ring T) : result (shared_ring T) :=
  e ← Ring.push_front N x (elements o); Ok (with_elements e o).
Definition peek_front (o : shared_ring T) : result T := Ring.peek_front (elements o).
Definition pop_front (o : shared_ring T) : result (T * shared_ring T) :=
  '(x, e) ← Ring.pop_front T0 N (elements o); Ok (x, with_elements e o).
Definition eff_pop_front (o : shared_ring T) : shared_ring T :=
  with_elements (Ring.eff_pop_front N (elements o)) o.
Definition index (o : shared_ring T) (i : Z) : result T := Ring.index N (elements o) i.

Definition prepare_emplace_back (s t : Z) (o : shared_ring T) (w : system T2)
  : result (shared_ring T * system T2) :=
  r ← load o w; r ← Ring2D_ex.prepare_emplace_back N M s t r; store o r w.
Definition emplace_back_at (i : Z) (x : T) (o : shared_ring T) (w : system T2)
  : result (shared_ring T * system T2) :=
  r ← load o w; r ← Ring2D_ex.emplace_back_at N i x r; store o r w.
Definition peek_back_at (i : Z) (o : shared_ring T) (w : system T2) : result T :=
  r ← load o w; Ring2D_ex.peek_back_at N i r.
Definition emplace_cell_at (i j : Z) (x : T2) (o : shared_ring T) (w : system T2)
  : result (shared_ring T * system T2) :=
  r ← load o w; r ← Ring2D_ex.emplace_cell_at N i j x r; store o r w.
Definition peek_cell_at (i j : Z) (o : shared_ring T) (w : system T2) : result T2 :=
  r ← load o w; Ring2D_ex.peek_cell_at N i j r.
Definition finish_emplace_back (o : shared_ring T) (w : system T2) : result (shared_ring T * system T2) :=
  r ← load o w; r ← Ring2D_ex.finish_emplace_back r; store o r w.
Definition peek_front_cell (j : Z) (o : shared_ring T) (w : system T2) : result T2 :=
  r ← load o w; Ring2D_ex.peek_front_cell j r.

(** All rings of a program use one key: constructed while another one lives, a
    ring of the same size works in the other's cells, and where [T2] has a
    constructor it begins by wiping them. *)
Theorem shared_rings_alias w a w1 :
  keyed w = None -> Ring2D_shared_new w = Ok (a, w1) ->
  exists b w2, Ring2D_shared_new w1 = Ok (b, w2) /\ _shmid b = _shmid a /\
    match constructed with
    | None => w2 = w1
    | Some v => seg_cells <$> segments w2 !! _shmid a = Some (replicate (Z.to_nat (N * M)) v)
    end.
Proof.
  intros Hk H. unfold Ring2D_shared_new, shmget in H |- *. rewrite Hk in H.
  destruct constructed as [v|].
  - unfold put_cells in *. cbn in H. rewrite !lookup_insert_eq in H. cbn in H.
    injection H as <- <-. cbn. rewrite !lookup_insert_eq. cbn. rewrite Z.leb_refl. cbn.
    rewrite !lookup_insert_eq. cbn. eexists _, _. split; [reflexivity|]. split; [done|]. cbn.
    rewrite lookup_insert_eq. cbn. f_equal.
    rewrite drop_app_le by (rewrite length_replicate; lia).
    rewrite (drop_ge (replicate _ v)) by (rewrite length_replicate; lia).
    rewrite (drop_ge (replicate _ zero)) by (rewrite length_replicate; lia). by rewrite !app_nil_r.
  - cbn in H. injection H as <- <-. cbn. rewrite lookup_insert_eq. cbn. rewrite Z.leb_refl. cbn. eauto.
Qed.

(** A ring whose second array is larger than a segment that is left ends the
    program. *)
Theorem shared_ring_larger_exits w id seg :
  keyed w = Some id -> segments w !! id = Some seg -> seg_bytes seg < sizeof_T2 * N * M ->
  Ring2D_shared_new w = Err Exited.
Proof.
  intros Hk Hs Hb. unfold Ring2D_shared_new, shmget. rewrite Hk, Hs.
  by destruct (Z.leb_spec (sizeof_T2 * N * M) (seg_bytes seg)); [lia|].
Qed.

End Shared.

Definition demo_system : system Z := mk_system None ∅ 5.

Lemma shared_rings_alias_witness :
  exists a w1 b w2, Ring2D_shared_new 0 2 3 4 0 (Some 7) demo_system = Ok (a, w1) /\
    Ring2D_shared_new 0 2 3 4 0 (Some 7) w1 = Ok (b, w2) /\ _shmid b = _shmid a /\
    seg_cells <$> segments w2 !! _shmid a = Some (replicate 6 7).
Proof.
  eexists _, _.
  destruct (shared_rings_alias 0 2 3 4 0 (Some 7) demo_system (mk_shared (Ring.ring_new 0 2) 5 None)
    (mk_system (Some 5%nat) {[ 5%nat := mk_segment 24 (replicate 6 7) ]} 6)) as (b & w2 & H);
    [done|by vm_compute|].
  exists b, w2. split; [|exact H]. by vm_compute.
Defined.

Lemma shared_ring_larger_exits_witness :
  Ring2D_shared_new 0 9 9 4 0 None (mk_system (Some 5%nat) {[ 5%nat := mk_segment 24 (replicate 6 7) ]} 6) = Err Exited.
Proof. by apply (shared_ring_larger_exits 0 9 9 4 0 None _ 5%nat (mk_segment 24 (replicate 6 7))). Defined.

End Ring2D_shared.
