(* ===== verification/Bytes.v ===== *)
(** * Bytes: memory images of integers

    The packed structures of the UDP and PTC protocols are read through
    pointers into byte buffers, so an integer member is the bytes at its
    offset, combined in the order of the host.  This file models a byte as a
    [Z], the loads and stores of a host of either endianness, and the helpers
    of UdpProtocol/udp_protocol_header.h ([IsLittleEndian], [reverseBytes],
    [little_to_native], [big_to_native]) and the [htonl]/[ntohl] pair the PTC
    headers use. *)

From S2P Require Import Prelude.
Local Open Scope Z_scope.

Definition byte_list (l : list Z) : Prop := Forall is_u8 l.

(** Least significant byte first, and most significant byte first. *)
Fixpoint le_combine (l : list Z) : Z :=
  match l with [] => 0 | b :: l => b + 2 ^ 8 * le_combine l end.

Definition be_combine (l : list Z) : Z := foldl (fun a b => a * 2 ^ 8 + b) 0 l.

Fixpoint le_bytes (n : nat) (z : Z) : list Z :=
  match n with O => [] | S n => z mod 2 ^ 8 :: le_bytes n (z / 2 ^ 8) end.

Definition be_bytes (n : nat) (z : Z) : list Z := reverse (le_bytes n z).

(** A load and a store of an [n]-byte integer by a host; [true] is little
    endian. *)
Definition load (le : bool) (l : list Z) : Z := if le then le_combine l else be_combine l.
Definition store (le : bool) (n : nat) (z : Z) : list Z :=
  if le then le_bytes n z else be_bytes n z.

(** [IsLittleEndian]: the first byte of the int 1 is 1. *)
Definition IsLittleEndian (le : bool) : bool :=
  match store le 4 1 with b :: _ => b =? 1 | [] => false end.

(** for (i < sizeof(T)) { reversed = (reversed << 8) | (value & 0xFF); value >>= 8; } *)
Fixpoint reverse_loop (width : nat) (i : nat) (reversed value : Z) : Z :=
  match i with
  | O => reversed
  | S i =>
      let reversed :=
        (Z.lor (Z.shiftl reversed 8) (Z.land value 255)) mod 2 ^ (8 * Z.of_nat width) in
      reverse_loop width i reversed (Z.shiftr value 8)
  end.

Definition reverseBytes (width : nat) (value : Z) : Z :=
  if Nat.eqb width 1 then value else reverse_loop width width 0 value.

Definition little_to_native (le : bool) (width : nat) (data : Z) : Z :=
  if IsLittleEndian le then data else reverseBytes width data.

Definition big_to_native (le : bool) (width : nat) (data : Z) : Z :=
  if negb (IsLittleEndian le) then data else reverseBytes width data.

(** Network byte order. *)
Definition htonl (le : bool) (z : Z) : Z := load le (be_bytes 4 z).
Definition ntohl (le : bool) (z : Z) : Z := be_combine (store le 4 z).

(** ** Reading a buffer at an offset *)

Definition rd8 (buf : list Z) (off : Z) : result Z := arr_get buf off.

Definition rd_le (n : nat) (buf : list Z) (off : Z) : result Z :=
  l ← arr_slice buf off (Z.of_nat n); Ok (le_combine l).

Definition rd16 (buf : list Z) (off : Z) : result Z := rd_le 2 buf off.
Definition rd32 (buf : list Z) (off : Z) : result Z := rd_le 4 buf off.

(** [k] numbers of [n] bytes from [off] on. *)
Definition read_words (n : nat) (block : list Z) (off k : Z) : result (list Z) :=
  foldM (fun acc i => v ← rd_le n block (off + Z.of_nat n * i); Ok (acc ++ [v])) [] (seqZ 0 k).

(** ** Lemmas *)

Lemma le_combine_range l :
  byte_list l -> 0 <= le_combine l < 2 ^ (8 * Z.of_nat (length l)).
Proof.
  induction 1 as [|b l Hb _ IH]; cbn [le_combine length]; [lia|].
  rewrite Nat2Z.inj_succ, Z.mul_succ_r, Z.pow_add_r by lia. unfold is_u8 in *. nia.
Qed.

(** A concrete buffer is a list of bytes by evaluation. *)
Lemma byte_list_check l : forallb (fun x => (0 <=? x) && (x <? 256)) l = true -> byte_list l.
Proof.
  intros H. apply Forall_forall. intros x Hx. apply list_elem_of_In in Hx.
  rewrite forallb_forall in H. specialize (H x Hx). unfold is_u8. lia.
Qed.

Lemma le_bytes_length n z : length (le_bytes n z) = n.
Proof. revert z; induction n; intros; cbn; auto. Qed.

Lemma be_bytes_length n z : length (be_bytes n z) = n.
Proof. unfold be_bytes. by rewrite length_reverse, le_bytes_length. Qed.

Lemma le_bytes_byte_list n z : byte_list (le_bytes n z).
Proof.
  revert z; induction n; intros z; cbn; constructor; [|apply IHn].
  apply Z.mod_pos_bound. lia.
Qed.

Lemma byte_list_app l1 l2 : byte_list (l1 ++ l2) <-> byte_list l1 /\ byte_list l2.
Proof. apply Forall_app. Qed.

Lemma byte_list_reverse l : byte_list (reverse l) <-> byte_list l.
Proof. apply Forall_reverse. Qed.

Lemma be_bytes_byte_list n z : byte_list (be_bytes n z).
Proof. apply byte_list_reverse, le_bytes_byte_list. Qed.

Lemma byte_list_take l n : byte_list l -> byte_list (take n l).
Proof. apply Forall_take. Qed.

Lemma byte_list_drop l n : byte_list l -> byte_list (drop n l).
Proof. apply Forall_drop. Qed.

Lemma byte_list_lookup l (i : nat) b : byte_list l -> l !! i = Some b -> is_u8 b.
Proof. apply Forall_lookup_1. Qed.

#[export] Hint Resolve le_bytes_byte_list be_bytes_byte_list byte_list_take byte_list_drop : sdk.
#[export] Hint Rewrite le_bytes_length be_bytes_length : sdk_rw.

Lemma le_combine_bytes n z : le_combine (le_bytes n z) = z mod 2 ^ (8 * Z.of_nat n).
Proof.
  revert z; induction n as [|n IH]; intros z.
  - cbn. by rewrite Z.mod_1_r.
  - cbn [le_bytes le_combine]. rewrite IH, Nat2Z.inj_succ, Z.mul_succ_r.
    rewrite Z.add_comm, (Z.add_comm _ 8), Z.pow_add_r by lia.
    rewrite Z.rem_mul_r by lia. lia.
Qed.

Lemma le_bytes_combine l : byte_list l -> le_bytes (length l) (le_combine l) = l.
Proof.
  induction 1 as [|b l Hb _ IH]; cbn [le_bytes le_combine length]; [done|].
  unfold is_u8 in Hb. f_equal.
  - rewrite Z.mul_comm, Z.mod_add by lia. by apply Z.mod_small.
  - rewrite Z.mul_comm, Z.div_add by lia. rewrite Z.div_small by done. by rewrite Z.add_0_l.
Qed.

Lemma be_combine_snoc l b : be_combine (l ++ [b]) = be_combine l * 2 ^ 8 + b.
Proof. unfold be_combine. by rewrite foldl_snoc. Qed.

Lemma be_combine_reverse l : be_combine (reverse l) = le_combine l.
Proof.
  induction l as [|b l IH]; [done|].
  rewrite reverse_cons, be_combine_snoc, IH. cbn [le_combine]. lia.
Qed.

Lemma be_combine_bytes n z : be_combine (be_bytes n z) = z mod 2 ^ (8 * Z.of_nat n).
Proof. unfold be_bytes. by rewrite be_combine_reverse, le_combine_bytes. Qed.

Lemma be_combine_le l : be_combine l = le_combine (reverse l).
Proof. by rewrite <-be_combine_reverse, reverse_involutive. Qed.

Lemma be_bytes_combine l : byte_list l -> be_bytes (length l) (be_combine l) = l.
Proof.
  intros H. unfold be_bytes. rewrite be_combine_le, <-length_reverse, le_bytes_combine.
  - apply reverse_involutive.
  - by apply byte_list_reverse.
Qed.

Lemma be_combine_range l :
  byte_list l -> 0 <= be_combine l < 2 ^ (8 * Z.of_nat (length l)).
Proof.
  intros H. rewrite be_combine_le, <-length_reverse. by apply le_combine_range, byte_list_reverse.
Qed.

Lemma IsLittleEndian_host le : IsLittleEndian le = le.
Proof. by destruct le. Qed.

(** A byte or-ed below a shifted value is added to it. *)
Lemma lor_byte r b : 0 <= b < 2 ^ 8 -> Z.lor (Z.shiftl r 8) b = r * 2 ^ 8 + b.
Proof.
  intros Hb. rewrite <-Z.add_lor_land, <-Z.shiftl_mul_pow2 by lia.
  rewrite <-(Z.mod_small b (2 ^ 8)), <-(Z.land_ones b) by lia.
  enough (Z.land (Z.shiftl r 8) (Z.land b (Z.ones 8)) = 0) by lia.
  apply Z.bits_inj'. intros k Hk. rewrite !Z.land_spec, Z.bits_0.
  destruct (Z.ltb_spec k 8).
  - by rewrite Z.shiftl_spec_low.
  - rewrite (Z.ones_spec_high 8 k), !andb_false_r by lia. done.
Qed.

(** One round of the loop moves the lowest byte of [value] to [reversed]. *)
Lemma reverse_loop_spec width i r v :
  (i <= width)%nat -> 0 <= v -> 0 <= r < 2 ^ (8 * Z.of_nat (width - i)) ->
  reverse_loop width i r v = foldl (fun a b => a * 2 ^ 8 + b) r (le_bytes i v).
Proof.
  revert r v. induction i as [|i IH]; intros r v Hi Hv Hr; cbn [reverse_loop le_bytes foldl]; [done|].
  rewrite Z.shiftr_div_pow2 by lia.
  replace 255 with (Z.ones 8) by done. rewrite Z.land_ones by lia.
  pose proof (Z.mod_pos_bound v (2 ^ 8)).
  assert (2 ^ (8 * Z.of_nat (width - i)) = 2 ^ (8 * Z.of_nat (width - S i)) * 2 ^ 8) as Hp.
  { rewrite <-Z.pow_add_r by lia. f_equal. lia. }
  assert (2 ^ (8 * Z.of_nat (width - i)) <= 2 ^ (8 * Z.of_nat width)).
  { apply Z.pow_le_mono_r; lia. }
  rewrite lor_byte by lia.
  rewrite Z.mod_small by lia. rewrite IH; [done|lia|apply Z.div_pos; lia|lia].
Qed.

Lemma reverseBytes_spec width v :
  (0 < width)%nat -> 0 <= v < 2 ^ (8 * Z.of_nat width) ->
  reverseBytes width v = be_combine (le_bytes width v).
Proof.
  intros Hw Hv. unfold reverseBytes. destruct (Nat.eqb_spec width 1) as [->|].
  - unfold be_combine. cbn [le_bytes foldl]. rewrite Z.mod_small by done. lia.
  - rewrite reverse_loop_spec by (rewrite ?Nat.sub_diag; cbn; lia). done.
Qed.

(** [little_to_native] of a member loaded by the host is the little-endian
    value of its bytes and [big_to_native] the big-endian value, on hosts of
    either endianness and for members of any width. *)
Theorem native_host_independent le width l :
  (0 < width)%nat -> length l = width -> byte_list l ->
  little_to_native le width (load le l) = le_combine l /\
  big_to_native le width (load le l) = be_combine l.
Proof.
  intros Hw Hl Hb. unfold little_to_native, big_to_native. rewrite IsLittleEndian_host.
  subst width. destruct le; cbn [load negb].
  - rewrite reverseBytes_spec by (done || by apply le_combine_range).
    by rewrite le_bytes_combine.
  - rewrite reverseBytes_spec by (done || by apply be_combine_range).
    split; [|done]. rewrite (be_combine_le l).
    rewrite <-(length_reverse l), le_bytes_combine by by apply byte_list_reverse.
    apply be_combine_reverse.
Qed.

Lemma native_host_independent_witness :
  length [238; 255] = 2%nat /\ byte_list [238; 255] /\
  little_to_native false 2 (load false [238; 255]) = le_combine [238; 255] /\
  big_to_native false 2 (load false [238; 255]) = be_combine [238; 255].
Proof.
  split; [done|]. split; [repeat constructor; unfold is_u8; lia|].
  apply (native_host_independent false 2 [238; 255]); [lia|done|].
  repeat constructor; unfold is_u8; lia.
Defined.

Lemma ntohl_htonl le z : is_u32 z -> ntohl le (htonl le z) = z.
Proof.
  intros Hz. unfold ntohl, htonl, is_u32 in *.
  assert (store le 4 (load le (be_bytes 4 z)) = be_bytes 4 z) as ->.
  { destruct le; cbn [store load].
    - rewrite <-(be_bytes_length 4 z) at 1. apply le_bytes_combine, be_bytes_byte_list.
    - rewrite <-(be_bytes_length 4 z) at 1. apply be_bytes_combine, be_bytes_byte_list. }
  rewrite be_combine_bytes. by apply Z.mod_small.
Qed.

Lemma load_store le n z : load le (store le n z) = z mod 2 ^ (8 * Z.of_nat n).
Proof. destruct le; [apply le_combine_bytes|apply be_combine_bytes]. Qed.

Lemma load_range le l : byte_list l -> 0 <= load le l < 2 ^ (8 * Z.of_nat (length l)).
Proof. destruct le; [apply le_combine_range|apply be_combine_range]. Qed.

(** A length survives being stored in network order and loaded again. *)
Lemma ntohl_load_store le z :
  is_u32 z -> ntohl le (load le (store le 4 (htonl le z))) = z.
Proof.
  intros Hz. rewrite load_store, Z.mod_small; [by apply ntohl_htonl|].
  unfold htonl. pose proof (load_range le (be_bytes 4 z)) as Hr.
  rewrite be_bytes_length in Hr. auto with sdk.
Qed.

(** ** Buffer reads *)

Lemma rd8_in buf off : 0 <= off < Z.of_nat (length buf) -> exists b, rd8 buf off = Ok b.
Proof. apply arr_get_in. Qed.

Lemma rd8_range buf off b : byte_list buf -> rd8 buf off = Ok b -> is_u8 b.
Proof. intros H [_ Hb]%arr_get_ok. by eapply byte_list_lookup. Qed.

Lemma rd_le_in n buf off :
  0 <= off -> off + Z.of_nat n <= Z.of_nat (length buf) -> exists v, rd_le n buf off = Ok v.
Proof. intros H1 H2. unfold rd_le. rewrite arr_slice_ok by lia. cbn. eauto. Qed.

Lemma arr_slice_byte_list buf off n l : byte_list buf -> arr_slice buf off n = Ok l -> byte_list l.
Proof. intros Hb. unfold arr_slice. case_decide; [|done]. intros [= <-]. by apply byte_list_take, byte_list_drop. Qed.

Lemma rd_le_range n buf off v :
  byte_list buf -> rd_le n buf off = Ok v -> 0 <= v < 2 ^ (8 * Z.of_nat n).
Proof.
  intros Hb. unfold rd_le, arr_slice. case_decide as H; cbn; [|done]. intros [= <-].
  pose proof (le_combine_range (take (Z.to_nat (Z.of_nat n)) (drop (Z.to_nat off) buf))) as Hr.
  rewrite length_take, length_drop in Hr.
  replace (Z.to_nat (Z.of_nat n) `min` (length buf - Z.to_nat off))%nat with n in Hr by lia.
  apply Hr. by apply byte_list_take, byte_list_drop.
Qed.

#[export] Hint Resolve rd8_in rd_le_in : sdk.

(** ** Reading what was put together *)

Lemma arr_slice_head {A} (l1 l2 : list A) len : len = Z.of_nat (length l1) -> arr_slice (l1 ++ l2) 0 len = Ok l1.
Proof. intros ->. by apply (arr_slice_app [] l1 l2 0). Qed.

Lemma arr_slice_skip {A} (l1 l2 : list A) off len : Z.of_nat (length l1) <= off ->
  arr_slice (l1 ++ l2) off len = arr_slice l2 (off - Z.of_nat (length l1)) len.
Proof.
  intros Ho. unfold arr_slice. rewrite length_app.
  destruct (decide (0 <= off /\ _)), (decide (0 <= off - _ /\ _)); [|lia|lia|done].
  rewrite drop_app_ge by lia. do 3 f_equal. lia.
Qed.

Lemma rd8_skip l1 l2 off : Z.of_nat (length l1) <= off -> rd8 (l1 ++ l2) off = rd8 l2 (off - Z.of_nat (length l1)).
Proof.
  intros Ho. unfold rd8, arr_get. rewrite !decide_True by lia. rewrite lookup_app_r by lia. do 2 f_equal. lia.
Qed.

Lemma rd_le_skip n l1 l2 off : Z.of_nat (length l1) <= off ->
  rd_le n (l1 ++ l2) off = rd_le n l2 (off - Z.of_nat (length l1)).
Proof. intros Ho. unfold rd_le. by rewrite arr_slice_skip. Qed.

Lemma rd_le_head n l1 l2 : length l1 = n -> rd_le n (l1 ++ l2) 0 = Ok (le_combine l1).
Proof. intros Hn. unfold rd_le. rewrite arr_slice_head by lia. done. Qed.

Lemma concat_le_bytes_length n l : length (concat (map (le_bytes n) l)) = (n * length l)%nat.
Proof. induction l as [|x l IH]; cbn [map concat length]; [lia|]. rewrite length_app, le_bytes_length, IH. lia. Qed.

(** The [k]-th number of a list of little-endian numbers. *)
Lemma rd_le_concat n pre l post k v : l !! k = Some v ->
  rd_le n (pre ++ concat (map (le_bytes n) l) ++ post) (Z.of_nat (length pre) + Z.of_nat n * Z.of_nat k) =
    Ok (v mod 2 ^ (8 * Z.of_nat n)).
Proof.
  intros Hk. rewrite <-(take_drop_middle l k v Hk), map_app, concat_app. cbn [map concat].
  assert (length (take k l) = k) as Hl by (rewrite length_take; apply lookup_lt_Some in Hk; lia).
  rewrite <-!app_assoc, (app_assoc pre). unfold rd_le. rewrite (arr_slice_app _ (le_bytes n v)).
  - cbn. by rewrite le_combine_bytes.
  - rewrite length_app, concat_le_bytes_length, Hl. lia.
  - by rewrite le_bytes_length.
Qed.

(** The [idx]-th number of [width] bytes behind [off]. *)
Lemma rd_le_slice n l off len o : 0 <= off -> 0 <= o -> o + Z.of_nat n <= len -> off + len <= Z.of_nat (length l) ->
  exists s, arr_slice l off len = Ok s /\ rd_le n s o = rd_le n l (off + o).
Proof.
  intros Ho Hoo Hn Hl. rewrite (arr_slice_ok l off len) by lia. eexists. split; [reflexivity|].
  unfold rd_le. rewrite !arr_slice_ok by (rewrite ?length_take, ?length_drop; lia). cbn [mbind result_bind].
  do 2 f_equal. rewrite skipn_firstn_comm, firstn_firstn, drop_drop. f_equal; [lia|f_equal; lia].
Qed.

Lemma rd8_here k l r off x : off = Z.of_nat k -> l !! k = Some x -> rd8 (l ++ r) off = Ok x.
Proof.
  intros -> Hk. unfold rd8, arr_get. rewrite decide_True by lia. rewrite Nat2Z.id. by rewrite (lookup_app_l_Some _ _ _ _ Hk).
Qed.

Lemma rd_le_here n l r off : off = 0 -> length l = n -> rd_le n (l ++ r) off = Ok (le_combine l).
Proof. intros ->. apply rd_le_head. Qed.

Lemma arr_slice_here {A} (l r : list A) off len : off = 0 -> len = Z.of_nat (length l) -> arr_slice (l ++ r) off len = Ok l.
Proof. intros ->. apply arr_slice_head. Qed.

Lemma read_words_ok n block off k : 0 <= off -> 0 <= k -> off + Z.of_nat n * k <= Z.of_nat (length block) ->
  exists l, read_words n block off k = Ok l /\ Z.of_nat (length l) = k /\
    forall i, 0 <= i < k -> exists v, l !! Z.to_nat i = Some v /\ rd_le n block (off + Z.of_nat n * i) = Ok v.
Proof.
  intros Ho Hk. rewrite <-(Z2Nat.id k) by done. generalize (Z.to_nat k) as m. clear k Hk. intros m.
  induction m as [|m IH]; intros Hl; [exists []; split; [done|split; [done|lia]]|].
  assert (Z.of_nat n * Z.of_nat (S m) = Z.of_nat n * Z.of_nat m + Z.of_nat n) as Hs by lia.
  destruct IH as (l & E & Hlen & Hin); [lia|].
  unfold read_words in *. rewrite seqZ_snoc, foldM_snoc, E. cbn [mbind result_bind].
  destruct (rd_le_in n block (off + Z.of_nat n * Z.of_nat m)) as [v Ev]; [lia|lia|]. rewrite Ev. cbn [mbind result_bind].
  eexists. split; [reflexivity|]. split; [rewrite length_app; cbn; lia|].
  intros i Hi. destruct (Z.eq_dec i (Z.of_nat m)) as [->|].
  - exists v. rewrite Nat2Z.id, lookup_app_r by lia. by replace (m - length l)%nat with O by lia.
  - destruct (Hin i) as (w & E1 & E2); [lia|]. exists w. rewrite lookup_app_l by lia. done.
Qed.

Lemma read_words_length n block off k l : 0 <= k -> read_words n block off k = Ok l -> Z.of_nat (length l) = k.
Proof.
  intros Hk. rewrite <-(Z2Nat.id k) by done. generalize (Z.to_nat k) as m. clear k Hk. intros m. revert l.
  induction m as [|m IH]; intros l; [by intros [= <-]|]. unfold read_words in *. rewrite seqZ_snoc, foldM_snoc.
  destruct (foldM _ [] _) as [l'|]; cbn [mbind result_bind]; [|done]. intros H. inv_ok.
  specialize (IH _ eq_refl). rewrite length_app. cbn. lia.
Qed.

(** Numbers written one after the other are read back. *)
Lemma read_words_skip n l1 l2 off k : Z.of_nat (length l1) <= off ->
  read_words n (l1 ++ l2) off k = read_words n l2 (off - Z.of_nat (length l1)) k.
Proof.
  intros Ho. unfold read_words. apply foldM_ext. intros acc i Hi. apply elem_of_seqZ in Hi.
  rewrite rd_le_skip by lia. by replace (off + Z.of_nat n * i - Z.of_nat (length l1))
    with (off - Z.of_nat (length l1) + Z.of_nat n * i) by lia.
Qed.

Lemma read_words_concat n pre l post off : off = Z.of_nat (length pre) -> Forall (fun v => 0 <= v < 2 ^ (8 * Z.of_nat n)) l ->
  read_words n (pre ++ concat (map (le_bytes n) l) ++ post) off (Z.of_nat (length l)) = Ok l.
Proof.
  intros -> Hl. destruct (read_words_ok n (pre ++ concat (map (le_bytes n) l) ++ post) (Z.of_nat (length pre)) (Z.of_nat (length l)))
    as (l' & E & Hlen & Hin); [lia|lia|rewrite !length_app, concat_le_bytes_length; lia|].
  rewrite E. f_equal. apply list_eq. intros i. destruct (decide (i < length l)%nat) as [Hi|Hi].
  - destruct (Hin (Z.of_nat i)) as (v & E1 & E2); [lia|]. rewrite Nat2Z.id in E1. rewrite E1.
    destruct (lookup_lt_is_Some_2 l i Hi) as [w Hw]. rewrite Hw.
    rewrite (rd_le_concat n pre l post i w Hw) in E2. apply (inj Ok) in E2 as <-. f_equal.
    rewrite Forall_lookup in Hl. by rewrite Z.mod_small by by apply (Hl i).
  - rewrite !lookup_ge_None_2 by lia. done.
Qed.

Lemma read_words_here n l post off k : off = 0 -> k = Z.of_nat (length l) ->
  Forall (fun v => 0 <= v < 2 ^ (8 * Z.of_nat n)) l ->
  read_words n (concat (map (le_bytes n) l) ++ post) off k = Ok l.
Proof. intros -> ->. by apply (read_words_concat n []). Qed.

Lemma map_u32_range (l : list Z) : Forall (fun v => 0 <= v < 2 ^ (8 * Z.of_nat 4)) (map u32 l).
Proof. apply Forall_map, Forall_forall. intros v _. unfold u32. cbn. apply Z.mod_pos_bound. lia. Qed.

Lemma map_u16_range (l : list Z) : Forall (fun v => 0 <= v < 2 ^ (8 * Z.of_nat 2)) (map u16 l).
Proof. apply Forall_map, Forall_forall. intros v _. unfold u16. cbn. apply Z.mod_pos_bound. lia. Qed.

(** Arithmetic on the lengths of segments. *)
Ltac seg_lia :=
  cbn [length]; rewrite ?length_app, ?le_bytes_length, ?be_bytes_length, ?concat_le_bytes_length, ?length_map; lia.

(** Reads a field of a concatenation of segments of known lengths: skips the
    segments before it, then takes it. *)
Ltac read_field :=
  unfold rd16, rd32;
  repeat first [rewrite rd8_skip by seg_lia | rewrite rd_le_skip by seg_lia | rewrite arr_slice_skip by seg_lia
               | rewrite read_words_skip by seg_lia];
  first
  [ rewrite rd_le_here by (first [seg_lia | by rewrite ?le_bytes_length, ?be_bytes_length]); reflexivity
  | rewrite arr_slice_here by seg_lia; reflexivity
  | apply read_words_here; [seg_lia|seg_lia|]; first [assumption | apply map_u32_range | apply map_u16_range | done]
  | apply (rd8_here 0); [seg_lia|done] | apply (rd8_here 1); [seg_lia|done] | apply (rd8_here 2); [seg_lia|done]
  | apply (rd8_here 3); [seg_lia|done] | apply (rd8_here 4); [seg_lia|done] | apply (rd8_here 5); [seg_lia|done] ].

(** The next read of a parser, and what it gives. *)
Ltac next_field v :=
  match goal with
  | |- (?r ≫= _) = _ => let E := fresh in assert (r = Ok v) as E by read_field; rewrite E; clear E; cbn [mbind result_bind]
  end.
