(* ===== verification/Text.v ===== *)
(** * Text: the standard-library text functions the configuration code uses

    [std::getline] with a delimiter, [split_string] of include/plat_utils.h,
    [std::stoi], and the extraction of an [int] and of a [float] from a
    [std::stringstream] in the "C" locale.  A [float] is a [spec_float] of the
    binary32 format, rounded to nearest even. *)

From Stdlib Require Import Ascii String SpecFloat.
From S2P Require Import Prelude.
Local Open Scope Z_scope.

Definition float32 : Type := spec_float.

Definition ascii_eqb (a b : ascii) : bool := Ascii.eqb a b.

(** while (std::getline(stream, token, d)) v.push_back(token): a token ends at a
    delimiter, which is dropped, or at the end of a stream that has given at
    least one character since the last delimiter. *)
Fixpoint tokens_from (d : ascii) (cur : string) (s : string) : list string :=
  match s with
  | EmptyString => if String.eqb cur EmptyString then [] else [cur]
  | String c s =>
      if ascii_eqb c d then cur :: tokens_from d EmptyString s
      else tokens_from d (cur +:+ String c EmptyString) s
  end.

Definition tokens (d : ascii) (s : string) : list string := tokens_from d EmptyString s.

Definition split_string (v : list string) (s : string) (delimiter : ascii) : list string :=
  v ++ tokens delimiter s.

Definition comma : ascii := ","%char.
Definition dot : ascii := "."%char.
Definition newline : ascii := Ascii.ascii_of_nat 10.

(** std::isspace in the "C" locale. *)
Definition is_space (c : ascii) : bool :=
  let n := Z.of_nat (Ascii.nat_of_ascii c) in (n =? 32) || ((9 <=? n) && (n <=? 13)).

Definition digit (c : ascii) : option Z :=
  let n := Z.of_nat (Ascii.nat_of_ascii c) - 48 in
  if (0 <=? n) && (n <=? 9) then Some n else None.

Fixpoint skip_space (s : string) : string :=
  match s with
  | String c s' => if is_space c then skip_space s' else s
  | EmptyString => s
  end.

(** Leading digits: their value on top of [acc], their number, and the rest. *)
Fixpoint take_digits (acc : Z) (n : nat) (s : string) : Z * nat * string :=
  match s with
  | String c s' =>
      match digit c with
      | Some k => take_digits (acc * 10 + k) (S n) s'
      | None => (acc, n, s)
      end
  | EmptyString => (acc, n, s)
  end.

Definition take_sign (s : string) : bool * string :=
  match s with
  | String c s' =>
      if ascii_eqb c "-"%char then (true, s')
      else if ascii_eqb c "+"%char then (false, s') else (false, s)
  | EmptyString => (false, s)
  end.

Definition INT_MAX : Z := 2 ^ 31 - 1.
Definition INT_MIN : Z := - 2 ^ 31.

(** [std::stoi(s)] throws on no digits and on a value outside [int]. *)
Definition stoi (s : string) : result Z :=
  let '(neg, s) := take_sign (skip_space s) in
  let '(v, n, _) := take_digits 0 0 s in
  if Nat.eqb n 0 then Err Thrown
  else
    let v := if neg : bool then - v else v in
    if (INT_MIN <=? v) && (v <=? INT_MAX) then Ok v else Err Thrown.

(** [std::stringstream(s) >> i] for an [int]: nothing is stored when only white
    space is left; otherwise no digits store 0 and an overflow the nearest
    bound. *)
Definition extract_int (s : string) : option Z :=
  match skip_space s with
  | EmptyString => None
  | s =>
      let '(neg, s) := take_sign s in
      let '(v, n, _) := take_digits 0 0 s in
      if Nat.eqb n 0 then Some 0
      else
        let v := if neg : bool then - v else v in
        Some (Z.max INT_MIN (Z.min INT_MAX v))
  end.

(** The decimal [m * 10 ^ e] rounded to binary32; [SFdiv] rounds the exact
    quotient of its operands. *)
Definition decimal_to_float32 (neg : bool) (m e : Z) : float32 :=
  match m with
  | Zpos p =>
      if 0 <=? e
      then binary_normalize 24 128 (if neg then - (m * 10 ^ e) else m * 10 ^ e) 0 neg
      else SFdiv 24 128 (S754_finite neg p 0) (S754_finite false (Z.to_pos (10 ^ (- e))) 0)
  | _ => S754_zero neg
  end.

(** [std::stringstream(s) >> f] for a [float]: sign, digits with an optional
    point, optional exponent. *)
Definition extract_float (s : string) : option float32 :=
  match skip_space s with
  | EmptyString => None
  | s =>
      let '(neg, s) := take_sign s in
      let '(ip, n1, s) := take_digits 0 0 s in
      let '(m, n2, s) :=
        match s with
        | String c s' => if ascii_eqb c dot then take_digits ip 0 s' else (ip, 0%nat, s)
        | EmptyString => (ip, 0%nat, s)
        end in
      if Nat.eqb (n1 + n2) 0 then Some (S754_zero false)
      else
        match s with
        | String c s' =>
            if ascii_eqb c "e"%char || ascii_eqb c "E"%char then
              let '(eneg, s') := take_sign s' in
              let '(e, n3, _) := take_digits 0 0 s' in
              if Nat.eqb n3 0 then Some (S754_zero false)
              else Some (decimal_to_float32 neg m ((if eneg : bool then - e else e) - Z.of_nat n2))
            else Some (decimal_to_float32 neg m (- Z.of_nat n2))
        | EmptyString => Some (decimal_to_float32 neg m (- Z.of_nat n2))
        end
  end.

Fixpoint free_of (d : ascii) (s : string) : bool :=
  match s with
  | EmptyString => true
  | String c s => negb (ascii_eqb c d) && free_of d s
  end.

(** The decimal digits of an octet, as the configuration writes it. *)
Definition octet_string (a : Z) : string :=
  let d k := String (Ascii.ascii_of_nat (48 + Z.to_nat k)) EmptyString in
  if a <? 10 then d a
  else if a <? 100 then d (a / 10) +:+ d (a mod 10)
  else d (a / 100) +:+ d (a / 10 mod 10) +:+ d (a mod 10).

Definition dotted (a b c d : Z) : string :=
  octet_string a +:+ "." +:+ octet_string b +:+ "." +:+ octet_string c +:+ "." +:+ octet_string d.

(** ** Lemmas *)

Lemma string_app_cons c (s t : string) : String c s +:+ t = String c (s +:+ t).
Proof. done. Qed.

Lemma string_app_nil_l (t : string) : EmptyString +:+ t = t.
Proof. done. Qed.

Lemma string_app_nil_r (s : string) : s +:+ EmptyString = s.
Proof. induction s as [|c s IH]; [done|]. by rewrite string_app_cons, IH. Qed.

Lemma string_app_assoc (a b c : string) : (a +:+ b) +:+ c = a +:+ (b +:+ c).
Proof. induction a as [|x a IH]; [done|]. by rewrite !string_app_cons, IH. Qed.

Lemma string_app_eq_nil_r (a b : string) : a +:+ b = EmptyString -> b = EmptyString.
Proof. destruct a; [done|discriminate]. Qed.

(** A token without delimiter in front of a delimiter is split off. *)
Lemma tokens_from_app d t : forall cur s,
  free_of d t = true -> tokens_from d cur (t +:+ String d s) = (cur +:+ t) :: tokens d s.
Proof.
  induction t as [|c t IH]; intros cur s Hf; rewrite ?string_app_nil_l, ?string_app_cons; cbn in *.
  - unfold ascii_eqb. by rewrite Ascii.eqb_refl, string_app_nil_r.
  - apply andb_prop in Hf as [Hc%negb_true_iff Hf]. rewrite Hc, IH by done.
    by rewrite string_app_assoc.
Qed.

Lemma tokens_from_last d t : forall cur,
  free_of d t = true -> cur +:+ t <> EmptyString -> tokens_from d cur t = [cur +:+ t].
Proof.
  induction t as [|c t IH]; intros cur Hf Hne; cbn in *.
  - rewrite string_app_nil_r in *. destruct (String.eqb_spec cur EmptyString); done.
  - apply andb_prop in Hf as [Hc%negb_true_iff Hf].
    rewrite Hc, IH; rewrite ?string_app_assoc; [done|done|].
    intros E%string_app_eq_nil_r. done.
Qed.

Lemma tokens_cons d t s : free_of d t = true -> tokens d (t +:+ String d s) = t :: tokens d s.
Proof. intros. unfold tokens. by rewrite tokens_from_app. Qed.

Lemma tokens_single d t : free_of d t = true -> t <> EmptyString -> tokens d t = [t].
Proof. intros. unfold tokens. by rewrite tokens_from_last. Qed.

(** Every token is free of the delimiter. *)
Lemma free_of_app d s t : free_of d (s +:+ t) = free_of d s && free_of d t.
Proof.
  induction s as [|c s IH]; [done|]. rewrite string_app_cons. cbn. by rewrite IH, andb_assoc.
Qed.

Lemma tokens_from_free d s : forall cur,
  free_of d cur = true -> Forall (fun t => free_of d t = true) (tokens_from d cur s).
Proof.
  induction s as [|c s IH]; intros cur Hc; cbn.
  - destruct (String.eqb _ _); repeat constructor; done.
  - destruct (ascii_eqb c d) eqn:E.
    + constructor; [done|]. by apply IH.
    + apply IH. rewrite free_of_app, Hc. cbn. by rewrite E.
Qed.

Lemma octet_ok a : is_u8 a ->
  stoi (octet_string a) = Ok a /\ free_of dot (octet_string a) = true /\ octet_string a <> EmptyString.
Proof.
  intros Ha.
  assert (forallb (fun n => bool_decide (stoi (octet_string (Z.of_nat n)) = Ok (Z.of_nat n))
    && free_of dot (octet_string (Z.of_nat n)) && negb (String.eqb (octet_string (Z.of_nat n)) EmptyString))
    (seq 0 256) = true) as Hall by (vm_compute; reflexivity).
  rewrite forallb_forall in Hall. specialize (Hall (Z.to_nat a)).
  rewrite Z2Nat.id in Hall by (unfold is_u8 in Ha; lia).
  destruct (andb_prop _ _ (Hall ltac:(apply in_seq; unfold is_u8 in Ha; lia))) as [[H1 H2]%andb_prop H3].
  split; [by apply bool_decide_eq_true in H1|]. split; [done|].
  intros E. rewrite E in H3. done.
Qed.

Lemma tokens_dotted a b c d : is_u8 a -> is_u8 b -> is_u8 c -> is_u8 d ->
  tokens dot (dotted a b c d) = [octet_string a; octet_string b; octet_string c; octet_string d].
Proof.
  intros Ha Hb Hc Hd. unfold dotted.
  destruct (octet_ok a Ha) as (_ & Fa & _). destruct (octet_ok b Hb) as (_ & Fb & _).
  destruct (octet_ok c Hc) as (_ & Fc & _). destruct (octet_ok d Hd) as (_ & Fd & Nd).
  assert (forall s, "." +:+ s = String dot s) as E by done. rewrite !E.
  rewrite (tokens_cons dot _ _ Fa), (tokens_cons dot _ _ Fb), (tokens_cons dot _ _ Fc).
  by rewrite tokens_single.
Qed.
