(* ===== verification/Streams.v ===== *)
(** * Streams: reading a text piece by piece

    [std::getline] on a stream whose state outlives the call, as the loaders of
    the newer calibration files use it: a stream that has met its end leaves the
    string variable as it was. *)

From Stdlib Require Import Ascii.
From S2P Require Import Prelude Text.
Local Open Scope Z_scope.

(** What is left of the text, and whether the end has not been met yet. *)
Record istream : Type := mk_stream { rest : string; good : bool }.

(** The characters up to the delimiter, what is behind it, and whether there was
    one: without a delimiter the end is met. *)
Fixpoint piece_of (d : ascii) (s : string) : string * string * bool :=
  match s with
  | EmptyString => (EmptyString, EmptyString, false)
  | String c s =>
      if ascii_eqb c d then (EmptyString, s, true)
      else let '(l, r, g) := piece_of d s in (String c l, r, g)
  end.

(** [std::getline(fin, line, d)]: the line and the stream afterwards. *)
Definition getline (d : ascii) (fin : istream) (line : string) : string * istream :=
  if good fin then let '(l, r, g) := piece_of d (rest fin) in (l, mk_stream r g) else (line, fin).

(** [atoi]: the leading integer, 0 when there is none. *)
Definition atoi (s : string) : Z :=
  let '(neg, s) := take_sign (skip_space s) in
  let '(v, _, _) := take_digits 0 0 s in if neg : bool then - v else v.

(** The bytes of a block of memory, and the block as a string of them. *)
Definition bytes_of (s : string) : list Z := map (fun c => Z.of_nat (nat_of_ascii c)) (String.list_ascii_of_string s).
Definition string_of (l : list Z) : string := String.string_of_list_ascii (map (fun b => ascii_of_nat (Z.to_nat b)) l).

(** ** Lemmas *)

Lemma piece_of_app d l s : free_of d l = true -> piece_of d (l +:+ String d s) = (l, s, true).
Proof.
  induction l as [|c l IH]; cbn [free_of].
  - intros _. rewrite string_app_nil_l. cbn [piece_of]. unfold ascii_eqb. by rewrite Ascii.eqb_refl.
  - intros [Hc Hl]%andb_prop. rewrite string_app_cons. cbn [piece_of].
    destruct (ascii_eqb c d) eqn:E; [|by rewrite IH]. done.
Qed.

Lemma piece_of_free d l : free_of d l = true -> piece_of d l = (l, EmptyString, false).
Proof.
  induction l as [|c l IH]; [done|]. cbn [free_of piece_of]. intros [Hc Hl]%andb_prop.
  destruct (ascii_eqb c d) eqn:E; [|by rewrite IH]. done.
Qed.

Lemma string_of_bytes s : string_of (bytes_of s) = s.
Proof.
  unfold string_of, bytes_of. rewrite map_map.
  rewrite (map_ext _ id); [rewrite map_id; apply String.string_of_list_ascii_of_string|].
  intros c. by rewrite Nat2Z.id, ascii_nat_embedding.
Qed.

Lemma bytes_of_byte_list s : Forall is_u8 (bytes_of s).
Proof.
  unfold bytes_of. apply Forall_map, Forall_forall. intros c _. pose proof (nat_ascii_bounded c). unfold is_u8. cbn. lia.
Qed.

Lemma bytes_of_app s t : bytes_of (s +:+ t) = bytes_of s ++ bytes_of t.
Proof.
  unfold bytes_of. rewrite <-map_app. f_equal. induction s as [|c s IH]; [done|].
  rewrite string_app_cons. cbn [String.list_ascii_of_string]. by rewrite IH.
Qed.
