(* ===== verification/Logger.v ===== *)
(** * Logger: the log file and the thread that writes it

    [Logger] of Logger/src/logger.cc and Logger/include/logger.h.  [AddToQueue]
    formats a line and puts it into a queue under a mutex; a worker thread takes
    the lines out and writes them; [Start] and [Stop] create and join the worker.
    The system is a set of turns: [turn] is one statement of the worker between
    two visits of the mutex, one call of [AddToQueue] with its visit of the queue,
    the [notify_one] behind it, a spurious wake-up, or one statement of the
    thread that calls [Start] and [Stop].  [exit_] is written without the mutex,
    so [Stop] may fall between the worker's test and its wait. *)

From S2P Require Import Prelude Text.
From stdpp Require Import relations.
From Stdlib Require Import Ascii.
Local Open Scope Z_scope.

Module Logger.

(** ** Formatting *)

Inductive LOGLEVEL : Set := LOG_DEBUG | LOG_INFO | LOG_WARNING | LOG_ERROR | LOG_FATAL.

Definition level_value (l : LOGLEVEL) : Z :=
  match l with
  | LOG_DEBUG => 0x01 | LOG_INFO => 0x02 | LOG_WARNING => 0x04
  | LOG_ERROR => 0x08 | LOG_FATAL => 0x10
  end.

Definition LOG_TARGET_CONSOLE : Z := 0x01.
Definition LOG_TARGET_FILE : Z := 0x10.

(** The digits of a natural number; [fuel] is the most digits there may be. *)
Definition digit_char (d : Z) : ascii :=
  ascii_of_nat (Z.to_nat (if d <? 10 then 48 + d else 87 + d)).

Fixpoint digits_of (base : Z) (fuel : nat) (z : Z) (acc : string) : string :=
  match fuel with
  | O => acc
  | S fuel =>
      let acc := String (digit_char (z mod base)) acc in
      if z <? base then acc else digits_of base fuel (z / base) acc
  end.

Fixpoint zeros (n : nat) : string :=
  match n with O => EmptyString | S n => String "0" (zeros n) end.

Definition pad0 (n : nat) (s : string) : string := zeros (n - String.length s) +:+ s.

(** The conversions [%d], [%0wd] and [%0wx] of an [int] or an [unsigned]. *)
Definition fmt_d (z : Z) : string :=
  if z <? 0 then String "-" (digits_of 10 10 (- z) EmptyString) else digits_of 10 10 z EmptyString.

Definition fmt_0d (w : nat) (z : Z) : string :=
  if z <? 0 then String "-" (pad0 (w - 1) (digits_of 10 10 (- z) EmptyString))
  else pad0 w (digits_of 10 10 z EmptyString).

Definition fmt_0x (w : nat) (z : Z) : string := pad0 w (digits_of 16 8 z EmptyString).

(** What [localtime] answers. *)
Record tm : Type := mk_tm {
  tm_year : Z; tm_mon : Z; tm_mday : Z; tm_hour : Z; tm_min : Z; tm_sec : Z;
}.

Definition level_name (l : LOGLEVEL) : string :=
  match l with
  | LOG_DEBUG => "DEBUG" | LOG_INFO => "INFO" | LOG_WARNING => "WARNING"
  | LOG_ERROR => "ERROR" | LOG_FATAL => "FATAL"
  end.

(** [%04d-%02d-%02d %02d:%02d:%02d] *)
Definition fmt_time (t : tm) : string :=
  fmt_0d 4 (tm_year t + 1900) +:+ "-" +:+ fmt_0d 2 (tm_mon t + 1) +:+ "-" +:+ fmt_0d 2 (tm_mday t)
  +:+ " " +:+ fmt_0d 2 (tm_hour t) +:+ ":" +:+ fmt_0d 2 (tm_min t) +:+ ":" +:+ fmt_0d 2 (tm_sec t).

Definition line_feed : string := String (ascii_of_nat 10) EmptyString.

(** What a call of [AddToQueue] is given: [formatted] is the message with its
    arguments filled in, [tid] the hash of the thread's identity. *)
Record call : Type := mk_call {
  loglevel : LOGLEVEL;
  pszFile : string;
  lineNo : Z;
  pszFuncSig : string;
  formatted : string;
  when : tm;
  tid : Z;
}.

(** vsnprintf(msg, 256, ...) keeps 255 characters. *)
Definition msg_of (c : call) : string := String.substring 0 255 (formatted c).

Definition content_of (c : call) : string :=
  "[" +:+ fmt_time (when c) +:+ "][" +:+ level_name (loglevel c) +:+ "][0x" +:+ fmt_0x 4 (u32 (tid c))
  +:+ "][" +:+ pszFile c +:+ ":" +:+ fmt_d (lineNo c) +:+ " " +:+ pszFuncSig c +:+ "]"
  +:+ msg_of c +:+ line_feed.

Definition console_of (c : call) : string :=
  "[" +:+ fmt_time (when c) +:+ "][" +:+ level_name (loglevel c) +:+ "]" +:+ msg_of c +:+ line_feed.

(** The name [Start] chooses when there is none. *)
Definition default_name (t : tm) : string :=
  fmt_0d 4 (tm_year t + 1900) +:+ fmt_0d 2 (tm_mon t + 1) +:+ fmt_0d 2 (tm_mday t)
  +:+ fmt_0d 2 (tm_hour t) +:+ fmt_0d 2 (tm_min t) +:+ fmt_0d 2 (tm_sec t) +:+ ".imserver.log".

(** ** The object *)

Record logger : Type := mk_logger {
  filename_ : string;
  fp_ : option string;        (* the file the stream writes to *)
  exit_ : bool;
  queue_ : list string;
  log_level_rule_ : Z;
  log_target_rule_ : Z;
  log_callback_ : bool;       (* whether one is bound *)
  running_ : bool;
}.

(** The object of [GetInstance]: static storage, so the rules start as zero. *)
Definition logger_new : logger := mk_logger EmptyString None false [] 0 0 false false.

Definition SetFileName (filename : string) (l : logger) : logger :=
  mk_logger filename (fp_ l) (exit_ l) (queue_ l) (log_level_rule_ l) (log_target_rule_ l)
    (log_callback_ l) (running_ l).

Definition setLogTargetRule (rule : Z) (l : logger) : logger :=
  mk_logger (filename_ l) (fp_ l) (exit_ l) (queue_ l) (log_level_rule_ l) (u8 rule)
    (log_callback_ l) (running_ l).

Definition setLogLevelRule (rule : Z) (l : logger) : logger :=
  mk_logger (filename_ l) (fp_ l) (exit_ l) (queue_ l) (u8 rule) (log_target_rule_ l)
    (log_callback_ l) (running_ l).

Definition bindLogCallback (bound : bool) (l : logger) : logger :=
  mk_logger (filename_ l) (fp_ l) (exit_ l) (queue_ l) (log_level_rule_ l) (log_target_rule_ l)
    bound (running_ l).

Definition set_queue (q : list string) (l : logger) : logger :=
  mk_logger (filename_ l) (fp_ l) (exit_ l) q (log_level_rule_ l) (log_target_rule_ l)
    (log_callback_ l) (running_ l).

Definition set_exit (l : logger) : logger :=
  mk_logger (filename_ l) (fp_ l) true (queue_ l) (log_level_rule_ l) (log_target_rule_ l)
    (log_callback_ l) (running_ l).

Definition set_running (b : bool) (l : logger) : logger :=
  mk_logger (filename_ l) (fp_ l) (exit_ l) (queue_ l) (log_level_rule_ l) (log_target_rule_ l)
    (log_callback_ l) b.

Definition set_stream (name : string) (fp : option string) (l : logger) : logger :=
  mk_logger name fp (exit_ l) (queue_ l) (log_level_rule_ l) (log_target_rule_ l)
    (log_callback_ l) (running_ l).

(** What a call comes to: nothing, the callback with the message, or a line for
    the file and a line for the console. *)
Inductive log_outcome : Type :=
| Dropped
| CalledBack (msg : string)
| Lines (file console : option string).

Definition wants (target : Z) (l : logger) : bool := negb (Z.land (log_target_rule_ l) target =? 0).

(** [content] has 512 bytes, the terminating zero included. *)
Definition AddToQueue (c : call) (l : logger) : result log_outcome :=
  if negb (Z.land (level_value (loglevel c)) (log_level_rule_ l) =? level_value (loglevel c))
  then Ok Dropped
  else if log_callback_ l then Ok (CalledBack (msg_of c))
  else
    if (511 <? String.length (content_of c))%nat then Err OutOfBounds
    else Ok (Lines (if wants LOG_TARGET_FILE l then Some (content_of c) else None)
                   (if wants LOG_TARGET_CONSOLE l then Some (console_of c) else None)).

(** ** The threads *)

(** Where the worker stands in [threadfunc]. *)
Inductive worker_pc : Set :=
| WEntry     (* if (fp_ == NULL) return *)
| WLoop      (* while (!exit_) *)
| WLock      (* std::unique_lock<std::mutex> guard(mutex_) *)
| WEmpty     (* while (queue_.empty()), inside the mutex *)
| WExit      (* if (exit_) return, inside the mutex *)
| WWait      (* about to call cv_.wait(guard), inside the mutex *)
| WAsleep    (* in cv_.wait, the mutex released *)
| WWoken     (* woken, the mutex to be taken again *)
| WWrite     (* fwrite, fflush, pop_front, inside the mutex *)
| WDone.     (* returned *)

#[export] Instance worker_pc_eq_dec : EqDecision worker_pc.
Proof. solve_decision. Defined.

Definition holds_mutex (p : option worker_pc) : bool :=
  match p with Some (WEmpty | WExit | WWait | WWrite) => true | _ => false end.

(** Where the thread stands that calls [Start] and [Stop]. *)
Inductive control_pc : Set :=
| CIdle
| CLogs      (* in Start: LogInfo("logger start to run") *)
| CRuns      (* in Start: running_ = true *)
| CNotify    (* in Stop: cv_.notify_one() *)
| CJoin.     (* in Stop: spthread_->join() *)

(** [thread] is what [spthread_] holds, if it can be joined; [notes] counts the
    callers between the end of their critical section and their [notify_one];
    [accepted] and [wrote] record the lines put into the queue and written, and
    [opened] how many had been written when the file was opened. *)
Record sys : Type := mk_sys {
  log : logger;
  thread : option worker_pc;
  control : control_pc;
  notes : nat;
  disk : gmap string string;
  console : list string;
  calls : list string;
  accepted : list string;
  wrote : list string;
  opened : nat;
}.

Definition sys_new (files : gmap string string) : sys :=
  mk_sys logger_new None CIdle 0 files [] [] [] [] 0.

Definition with_log (l : logger) (s : sys) : sys :=
  mk_sys l (thread s) (control s) (notes s) (disk s) (console s) (calls s) (accepted s) (wrote s) (opened s).

Definition with_thread (p : option worker_pc) (s : sys) : sys :=
  mk_sys (log s) p (control s) (notes s) (disk s) (console s) (calls s) (accepted s) (wrote s) (opened s).

Definition with_control (c : control_pc) (s : sys) : sys :=
  mk_sys (log s) (thread s) c (notes s) (disk s) (console s) (calls s) (accepted s) (wrote s) (opened s).

Definition with_notes (n : nat) (s : sys) : sys :=
  mk_sys (log s) (thread s) (control s) n (disk s) (console s) (calls s) (accepted s) (wrote s) (opened s).

(** fwrite(str.c_str(), str.length(), 1, fp_); fflush(fp_); queue_.pop_front(); *)
Definition write_front (s : sys) : result sys :=
  match queue_ (log s), fp_ (log s) with
  | [], _ => Err OutOfBounds
  | _, None => Err NullPointer
  | line :: q, Some name =>
      Ok (mk_sys (set_queue q (log s)) (thread s) (control s) (notes s)
        (<[name := default EmptyString (disk s !! name) +:+ line]> (disk s))
        (console s) (calls s) (accepted s) (wrote s ++ [line]) (opened s))
  end.

(** The next statement of [threadfunc]; nothing when it sleeps or has returned. *)
Definition threadfunc (s : sys) : option (result sys) :=
  let goto p := Some (Ok (with_thread (Some p) s)) in
  match thread s with
  | Some WEntry => goto (match fp_ (log s) with None => WDone | Some _ => WLoop end)
  | Some WLoop => goto (if exit_ (log s) then WDone else WLock)
  | Some WLock | Some WWoken => goto WEmpty
  | Some WEmpty => goto (match queue_ (log s) with [] => WExit | _ => WWrite end)
  | Some WExit => goto (if exit_ (log s) then WDone else WWait)
  | Some WWait => goto WAsleep
  | Some WWrite => Some (with_thread (Some WLoop) <$> write_front s)
  | Some WAsleep | Some WDone | None => None
  end.

(** [cv_.notify_one()]: only the worker ever waits. *)
Definition notify_one (s : sys) : sys :=
  match thread s with Some WAsleep => with_thread (Some WWoken) s | _ => s end.

(** What a call of [AddToQueue] leaves behind; the queue needs the mutex. *)
Definition deliver (o : log_outcome) (s : sys) : option sys :=
  match o with
  | Dropped => Some s
  | CalledBack msg =>
      Some (mk_sys (log s) (thread s) (control s) (notes s) (disk s) (console s) (calls s ++ [msg])
              (accepted s) (wrote s) (opened s))
  | Lines file con =>
      let out := console s ++ option_list con in
      match file with
      | None =>
          Some (mk_sys (log s) (thread s) (control s) (notes s) (disk s) out (calls s)
                  (accepted s) (wrote s) (opened s))
      | Some line =>
          if holds_mutex (thread s) then None
          else Some (mk_sys (set_queue (queue_ (log s) ++ [line]) (log s)) (thread s) (control s)
                       (S (notes s)) (disk s) out (calls s) (accepted s ++ [line]) (wrote s) (opened s))
      end
  end.

Definition add (c : call) (s : sys) : option (result sys) :=
  match AddToQueue c (log s) with
  | Err f => Some (Err f)
  | Ok o => Ok <$> deliver o s
  end.

(** [Start] up to its [LogInfo]: [t] is the local time and [fopen] whether the
    file can be opened for writing, which empties it.  Replacing a thread that
    can still be joined would end the program. *)
Definition Start (t : tm) (fopen : string -> bool) (s : sys) : result sys :=
  let l := log s in
  if running_ l then Ok s
  else
    let name := if decide (filename_ l = EmptyString) then default_name t else filename_ l in
    if fopen name then
      match thread s with
      | Some _ => Err Exited
      | None =>
          Ok (mk_sys (set_stream name (Some name) l) (Some WEntry) CLogs (notes s)
            (<[name := EmptyString]> (disk s)) (console s) (calls s) (accepted s) (wrote s) (length (wrote s)))
      end
    else Ok (with_log (set_stream name None l) s).

(** [Stop] up to its [notify_one]. *)
Definition Stop (s : sys) : sys :=
  if running_ (log s) then with_control CNotify (with_log (set_exit (log s)) s) else s.

(** spthread_->join(); running_ = false; *)
Definition join (s : sys) : option sys :=
  match thread s with
  | Some WDone | None => Some (with_control CIdle (with_log (set_running false (log s)) (with_thread None s)))
  | _ => None
  end.

(** The thread that is inside [Start] or [Stop]; [c] is the call of [LogInfo]. *)
Definition control_turn (c : call) (s : sys) : option (result sys) :=
  match control s with
  | CIdle => None
  | CLogs => match add c s with
             | Some (Ok s') => Some (Ok (with_control CRuns s'))
             | o => o
             end
  | CRuns => Some (Ok (with_control CIdle (with_log (set_running true (log s)) s)))
  | CNotify => Some (Ok (with_control CJoin (notify_one s)))
  | CJoin => Ok <$> join s
  end.

Inductive setting : Type :=
| UseFileName (filename : string)
| UseTargetRule (rule : Z)
| UseLevelRule (rule : Z)
| UseCallback (bound : bool).

Definition apply_setting (x : setting) (l : logger) : logger :=
  match x with
  | UseFileName filename => SetFileName filename l
  | UseTargetRule rule => setLogTargetRule rule l
  | UseLevelRule rule => setLogLevelRule rule l
  | UseCallback bound => bindLogCallback bound l
  end.

Inductive event : Type :=
| Worker
| Notify
| Spurious
| Add (c : call)
| Setting (x : setting)
| DoStart (t : tm) (fopen : string -> bool)
| DoStop
| Control (c : call).

(** One turn; [None] when the thread has to wait. *)
Definition turn (e : event) (s : sys) : option (result sys) :=
  match e with
  | Worker => threadfunc s
  | Notify => match notes s with O => None | S n => Some (Ok (notify_one (with_notes n s))) end
  | Spurious => match thread s with
                | Some WAsleep => Some (Ok (with_thread (Some WWoken) s))
                | _ => None
                end
  | Add c => add c s
  | Setting x => Some (Ok (with_log (apply_setting x (log s)) s))
  | DoStart t fopen => match control s with CIdle => Some (Start t fopen s) | _ => None end
  | DoStop => match control s with CIdle => Some (Ok (Stop s)) | _ => None end
  | Control c => control_turn c s
  end.

Definition step (s s' : sys) : Prop := exists e, turn e s = Some (Ok s').

Definition reachable (files : gmap string string) (s : sys) : Prop := rtc step (sys_new files) s.

(** What [Lidar::Init] and [~Lidar] ask of the one logger of the program. *)
Definition Lidar_Init_log (log_path : string) (log_Target log_level : Z) (t : tm) (fopen : string -> bool) : list event :=
  [Setting (UseFileName log_path); Setting (UseTargetRule log_Target); Setting (UseLevelRule log_level); DoStart t fopen].

Definition Lidar_delete_log : event := DoStop.

Fixpoint run (es : list event) (s : sys) : option (result sys) :=
  match es with
  | [] => Some (Ok s)
  | e :: es =>
      match turn e s with
      | Some (Ok s') => run es s'
      | o => o
      end
  end.
(** ** What is promised *)

(** The characters of several lines, one after the other. *)
Definition concat_lines (l : list string) : string := foldr String.append EmptyString l.

Record log_inv (s : sys) : Prop := {
  inv_order : accepted s = (wrote s ++ queue_ (log s))%list;
  inv_opened : (opened s <= length (wrote s))%nat;
  inv_file : forall name, fp_ (log s) = Some name ->
    disk s !! name = Some (concat_lines (drop (opened s) (wrote s)));
  inv_stream : thread s <> None -> fp_ (log s) <> None;
  inv_done : thread s = Some WDone -> exit_ (log s) = true;
  inv_front : thread s = Some WWrite -> queue_ (log s) <> [];
  inv_empty : thread s = Some WExit \/ thread s = Some WWait -> queue_ (log s) = [];
  inv_asleep : thread s = Some WAsleep -> queue_ (log s) = [] \/ (0 < notes s)%nat;
  inv_control : match control s with
                | CIdle => running_ (log s) = true <-> thread s <> None
                | CLogs | CRuns => running_ (log s) = false /\ thread s <> None
                | CNotify | CJoin => running_ (log s) = true /\ exit_ (log s) = true /\ thread s <> None
                end;
}.

(** The turns in which nobody but the worker and the threads that still owe a
    [notify_one] moves. *)
Definition own (e : event) : bool := match e with Worker | Notify => true | _ => false end.

(** How many of them there can be before the worker sleeps. *)
Definition rank (p : option worker_pc) : nat :=
  match p with
  | Some WEntry => 6 | Some WLoop => 5 | Some WLock | Some WWoken => 4 | Some WEmpty => 3
  | Some WWrite | Some WExit => 2 | Some WWait => 1 | Some WAsleep | Some WDone | None => 0
  end.

Definition fuel_of (s : sys) : nat :=
  (4 * length (queue_ (log s)) + 5 * notes s + rank (thread s))%nat.

(** ** Lemmas *)

Lemma concat_lines_snoc l x : concat_lines (l ++ [x]) = concat_lines l +:+ x.
Proof.
  induction l as [|y l IH]; [apply string_app_nil_r|].
  change (concat_lines ((y :: l) ++ [x])) with (y +:+ concat_lines (l ++ [x])).
  by rewrite IH, <-string_app_assoc.
Qed.

Lemma log_inv_new files : log_inv (sys_new files).
Proof. split; cbn; try done; intuition congruence. Qed.
(** A turn that leaves the lines and the stream alone, with what it must respect. *)
Lemma add_inv c s s' :
  log_inv s -> add c s = Some (Ok s') ->
  log_inv s' /\ thread s' = thread s /\ control s' = control s /\ wrote s' = wrote s
  /\ exit_ (log s') = exit_ (log s).
Proof.
  intros [I1 I2 I3 I4 I9 I5 I6 I7 I8] H. unfold add in H.
  destruct (AddToQueue c (log s)) as [o|f]; [|done].
  destruct o as [|msg|[line|] con]; cbn in H; try (injection H as <-; done || by split_and!; [split|..]).
  destruct (holds_mutex (thread s)) eqn:Eh; [done|]. injection H as <-. split_and!; try done.
  split; cbn; try done.
  - by rewrite I1, app_assoc.
  - intros _ E. by apply app_nil in E as [_ ?].
  - intros [E|E]; by rewrite E in Eh.
  - intros _. right. lia.
Qed.

Lemma with_thread_inv p s :
  log_inv s -> thread s <> None ->
  (p = WDone -> exit_ (log s) = true) ->
  (p = WWrite -> queue_ (log s) <> []) ->
  (p = WExit \/ p = WWait \/ p = WAsleep -> queue_ (log s) = []) ->
  log_inv (with_thread (Some p) s).
Proof.
  intros [I1 I2 I3 I4 I9 I5 I6 I7 I8] Ht Hd Hw He. split; cbn; try done.
  - intros _. by apply I4.
  - intros [= ->]. by apply Hd.
  - intros [= ->]. by apply Hw.
  - intros [[= ->]|[= ->]]; apply He; auto.
  - intros [= ->]. left. apply He. auto.
  - destruct (control s); intuition congruence.
Qed.

Lemma notify_inv n s : log_inv s -> log_inv (notify_one (with_notes n s)).
Proof.
  intros [I1 I2 I3 I4 I9 I5 I6 I7 I8].
  assert (thread s = Some WAsleep \/ thread s <> Some WAsleep /\
    notify_one (with_notes n s) = with_notes n s) as [Et|[Et ->]].
  { unfold notify_one. cbn. destruct (thread s) as [[]|]; auto; by right. }
  - unfold notify_one. cbn. rewrite Et. split; cbn; try done.
    + intros _. apply I4. by rewrite Et.
    + intuition congruence.
    + destruct (control s); intuition congruence.
  - by split.
Qed.

Lemma notify_same s : notify_one (with_notes (notes s) s) = notify_one s.
Proof. by destruct s. Qed.

Lemma write_front_inv s s' :
  log_inv s -> thread s = Some WWrite -> write_front s = Ok s' ->
  log_inv (with_thread (Some WLoop) s').
Proof.
  intros [I1 I2 I3 I4 I9 I5 I6 I7 I8] Ht H. unfold write_front in H.
  destruct (queue_ (log s)) as [|line q] eqn:Eq; [done|].
  destruct (fp_ (log s)) as [name|] eqn:Ef; [|done]. injection H as <-.
  split; cbn; rewrite ?Ef; try done.
  - by rewrite I1, <-app_assoc.
  - rewrite length_app. lia.
  - intros ? [= <-]. rewrite lookup_insert_eq. f_equal.
    rewrite (I3 name eq_refl). cbn [default]. by rewrite drop_app_le, concat_lines_snoc by done.
  - intuition congruence.
  - destruct (control s); intuition congruence.
Qed.

Lemma threadfunc_inv s s' : log_inv s -> threadfunc s = Some (Ok s') -> log_inv s'.
Proof.
  intros Hi H. pose proof Hi as [I1 I2 I3 I4 I9 I5 I6 I7 I8]. unfold threadfunc in H.
  destruct (thread s) as [p|] eqn:Et; [|done].
  assert (thread s <> None) as Ht by by rewrite Et.
  destruct p; try done;
    try (injection H as <-; apply with_thread_inv; repeat case_match; by intuition congruence).
  destruct (write_front s) as [s2|] eqn:Ew; [|done]. injection H as <-. by eapply write_front_inv.
Qed.

Lemma control_inv c s :
  log_inv s -> running_ (log s) = false -> thread s <> None -> c = CLogs \/ c = CRuns ->
  log_inv (with_control c s).
Proof. intros [] Hr Ht Hc. split; cbn; try done. by destruct Hc as [-> | ->]. Qed.

Lemma start_inv t fopen s s' :
  log_inv s -> control s = CIdle -> Start t fopen s = Ok s' -> log_inv s'.
Proof.
  intros [I1 I2 I3 I4 I9 I5 I6 I7 I8] Hc H. rewrite Hc in I8. unfold Start in H.
  destruct (running_ (log s)) eqn:Er; [injection H as <-; split; rewrite ?Hc, ?Er; done|].
  set (name := if decide _ then _ else _) in H.
  destruct (thread s) as [p|] eqn:Et; [by destruct I8 as [_ I8]; discriminate I8|].
  destruct (fopen name); injection H as <-.
  - split; cbn; try done; try intuition congruence.
    intros n [= <-]. by rewrite lookup_insert_eq, drop_all.
  - split; cbn; rewrite ?Hc, ?Et; try done. by rewrite Er.
Qed.

Lemma stop_inv s : log_inv s -> control s = CIdle -> log_inv (Stop s).
Proof.
  intros [I1 I2 I3 I4 I9 I5 I6 I7 I8] Hc. rewrite Hc in I8. unfold Stop.
  destruct (running_ (log s)) eqn:Er; split; cbn; rewrite ?Hc, ?Er; try done.
  intuition congruence.
Qed.

Lemma control_turn_inv c s s' : log_inv s -> control_turn c s = Some (Ok s') -> log_inv s'.
Proof.
  intros Hi H. pose proof Hi as [I1 I2 I3 I4 I9 I5 I6 I7 I8]. unfold control_turn in H.
  destruct (control s) eqn:Hc; [done| | | |].
  - destruct (add c s) as [[s2|]|] eqn:Ha; try done. injection H as <-.
    pose proof (add_inv c s s2 Hi Ha) as (Hi2 & Et & Ec & _).
    pose proof (inv_control s2 Hi2) as I8'. rewrite Ec, Hc in I8'. destruct I8'.
    apply control_inv; auto.
  - injection H as <-. split; cbn; try done. intuition congruence.
  - injection H as <-. rewrite <-notify_same. pose proof (notify_inv (notes s) s Hi) as [].
    split; cbn; try done. rewrite notify_same in *. unfold notify_one in *.
    destruct (thread s) as [[]|] eqn:Et; cbn in *; intuition congruence.
  - unfold join in H. destruct (thread s) as [[]|] eqn:Et; try done; injection H as <-;
      split; cbn; try done; intuition congruence.
Qed.

Lemma turn_inv e s s' : log_inv s -> turn e s = Some (Ok s') -> log_inv s'.
Proof.
  intros Hi H. destruct e as [| | |c|x|t fopen| |c]; cbn in H.
  - by eapply threadfunc_inv.
  - destruct (notes s) as [|n]; [done|]. injection H as <-. by apply notify_inv.
  - destruct (thread s) as [[]|] eqn:Et; try done. injection H as <-.
    apply with_thread_inv; try done; [by rewrite Et|]. intuition congruence.
  - by eapply add_inv.
  - injection H as <-. destruct Hi. by destruct x; split.
  - destruct (control s) eqn:Hc; try done. injection H as H. by eapply start_inv.
  - destruct (control s) eqn:Hc; try done. injection H as <-. by apply stop_inv.
  - by eapply control_turn_inv.
Qed.

Lemma reachable_inv files s : reachable files s -> log_inv s.
Proof.
  apply (rtc_ind_r log_inv (sys_new files)); [apply log_inv_new|].
  intros y z _ [e He] Hy. by eapply turn_inv.
Qed.

Lemma run_reachable_from es : forall s s', run es s = Some (Ok s') -> rtc step s s'.
Proof.
  induction es as [|e es IH]; cbn; intros s s' H; [by injection H as <-|].
  destruct (turn e s) as [[s2|]|] eqn:Et; try done. eapply rtc_l; [by exists e|]. by apply IH.
Qed.

Lemma run_reachable files es s s' :
  reachable files s -> run es s = Some (Ok s') -> reachable files s'.
Proof. intros Hr H. unfold reachable in *; etrans; [done|]. by eapply run_reachable_from. Qed.

(** *** The worker on its own *)

Lemma notify_one_shape s :
  notify_one s = s \/ (thread s = Some WAsleep /\ notify_one s = with_thread (Some WWoken) s).
Proof. unfold notify_one. destruct (thread s) as [[]|]; auto. Qed.

Lemma own_turn e s s' :
  own e = true -> log_inv s -> exit_ (log s) = false -> turn e s = Some (Ok s') ->
  (fuel_of s' < fuel_of s)%nat /\ exit_ (log s') = false /\ accepted s' = accepted s
  /\ (thread s <> None -> thread s' <> None).
Proof.
  intros He [I1 I2 I3 I4 I9 I5 I6 I7 I8] Hx H. unfold fuel_of.
  destruct e; try done; cbn in H.
  - unfold threadfunc in H. rewrite Hx in H.
    destruct (thread s) as [[]|] eqn:Et; try done;
      try (injection H as <-; cbn; split_and!; try done; repeat case_match; first [done | cbn; lia]).
    unfold write_front in H. destruct (queue_ (log s)) as [|line q]; [done|].
    destruct (fp_ (log s)); [|done]. injection H as <-. cbn. split_and!; try done. lia.
  - destruct (notes s) as [|n] eqn:En; [done|]. injection H as <-.
    destruct (notify_one_shape (with_notes n s)) as [->|[Et ->]]; cbn in *.
    + split_and!; try done. lia.
    + rewrite Et. split_and!; try done. cbn. lia.
Qed.

Lemma own_run es : forall s s',
  forallb own es = true -> log_inv s -> exit_ (log s) = false -> run es s = Some (Ok s') ->
  (length es + fuel_of s' <= fuel_of s)%nat /\ log_inv s' /\ exit_ (log s') = false
  /\ accepted s' = accepted s /\ (thread s <> None -> thread s' <> None).
Proof.
  induction es as [|e es IH]; cbn [length forallb run]; intros s s' Ho Hi Hx H;
    [injection H as <-; split_and!; done|].
  apply andb_prop in Ho as [He Ho]. destruct (turn e s) as [[s2|]|] eqn:Et; try done.
  destruct (own_turn e s s2 He Hi Hx Et) as (Hf & Hx2 & Ha & Ht).
  destruct (IH s2 s' Ho (turn_inv _ _ _ Hi Et) Hx2 H) as (Hf2 & Hi' & Hx' & Ha' & Ht').
  split_and!; [lia|done|done|congruence|auto].
Qed.

(** Once [exit_] is set: each turn of the worker that is not on its way to sleep. *)
Lemma exit_turns s p :
  log_inv s -> exit_ (log s) = true -> thread s = Some p -> p <> WWait -> p <> WAsleep ->
  exists n s', (n <= 5)%nat /\ run (replicate n Worker) s = Some (Ok s') /\ thread s' = Some WDone
    /\ control s' = control s /\ notes s' = notes s
    /\ exists k, (k <= 1)%nat /\ wrote s' = (wrote s ++ take k (queue_ (log s)))%list.
Proof.
  intros [I1 I2 I3 I4 I9 I5 I6 I7 I8] Hx Ht H1 H2.
  destruct s as [[fname fp ex q lr tr cb rn] th co no dk cs cl ac wr op].
  cbn in *. subst th ex.
  assert (p <> WDone -> fp <> None) as Hfp by (intros _; by apply I4).
  destruct p; try done;
    [exists 2%nat|exists 1%nat|destruct q; [exists 3%nat|exists 4%nat]
    |destruct q; [exists 2%nat|exists 3%nat]|exists 1%nat
    |destruct q; [exists 3%nat|exists 4%nat]|destruct q; [by destruct I5|exists 2%nat]|exists 0%nat];
    (destruct fp as [name|]; [|by exfalso; apply I4]);
    (eexists; split; [lia|]; split; [reflexivity|]; cbn; split_and!; try done);
    first [by exists 0%nat; rewrite app_nil_r; split; [lia|] | by exists 1%nat].
Qed.

(** The state in which [Stop] hangs: nobody is left who would wake the worker. *)
Definition hung (s : sys) : Prop :=
  control s = CJoin /\ thread s = Some WAsleep /\ notes s = 0%nat.

Definition undisturbed (e : event) : bool :=
  match e with Spurious | Add _ => false | _ => true end.

Lemma hung_turn e s s' : undisturbed e = true -> hung s -> turn e s = Some (Ok s') -> hung s'.
Proof.
  intros He (Hc & Ht & Hn) H. unfold hung.
  destruct e as [| | |c|x|t fopen| |c]; try done; cbn in H.
  - unfold threadfunc in H. by rewrite Ht in H.
  - by rewrite Hn in H.
  - by injection H as <-.
  - by rewrite Hc in H.
  - by rewrite Hc in H.
  - unfold control_turn, join in H. by rewrite Hc, Ht in H.
Qed.

Lemma hung_run es : forall s s',
  forallb undisturbed es = true -> hung s -> run es s = Some (Ok s') -> hung s'.
Proof.
  induction es as [|e es IH]; cbn; intros s s' Hq Hh H; [by injection H as <-|].
  apply andb_prop in Hq as [He Hq]. destruct (turn e s) as [[s2|]|] eqn:Et; try done.
  apply (IH s2); [done| |done]. by eapply hung_turn.
Qed.

(** What stays once [Stop] has returned: a worker that ends at its first test. *)
Definition spent (w : list string) (s : sys) : Prop :=
  exit_ (log s) = true /\ wrote s = w /\
  (thread s = None \/
   opened s = length w /\ (thread s = Some WEntry \/ thread s = Some WLoop \/ thread s = Some WDone)).

Lemma spent_turn w e s s' : spent w s -> turn e s = Some (Ok s') -> spent w s'.
Proof.
  intros (Hx & Hw & Ht) H. unfold spent.
  assert (forall c s2, add c s = Some (Ok s2) -> exit_ (log s2) = true /\ wrote s2 = w /\
    thread s2 = thread s /\ opened s2 = opened s) as Hadd.
  { intros c s2 Ha. unfold add in Ha. destruct (AddToQueue c (log s)) as [o|]; [|done].
    destruct o as [|msg|[line|] con]; cbn in Ha; try (by injection Ha as <-).
    destruct (holds_mutex (thread s)); [done|]. by injection Ha as <-. }
  destruct e as [| | |c|x|t fopen| |c]; cbn in H.
  - unfold threadfunc in H. rewrite Hx in H.
    destruct Ht as [Ht|(Ho & [Ht|[Ht|Ht]])]; rewrite Ht in H; try done; injection H as <-; cbn;
      repeat case_match; auto 7.
  - destruct (notes s) as [|n]; [done|]. injection H as <-. unfold notify_one. cbn.
    destruct Ht as [Ht|(Ho & [Ht|[Ht|Ht]])]; rewrite Ht; cbn; auto 7.
  - destruct Ht as [Ht|(Ho & [Ht|[Ht|Ht]])]; by rewrite Ht in H.
  - destruct (Hadd c s' H) as (? & ? & -> & ->). auto.
  - injection H as <-. cbn. by destruct x.
  - destruct (control s); try done. injection H as H. unfold Start in H.
    destruct (running_ (log s)); [injection H as <-; auto|].
    destruct (fopen _); [|injection H as <-; auto].
    destruct (thread s); [done|]. injection H as <-. cbn. rewrite Hw. auto 7.
  - destruct (control s); try done. injection H as <-. unfold Stop.
    destruct (running_ (log s)); cbn; auto.
  - unfold control_turn in H. destruct (control s); [done| | | |].
    + destruct (add c s) as [[s2|]|] eqn:Ha; try done. injection H as <-.
      destruct (Hadd c s2 Ha) as (? & ? & E1 & E2). cbn. rewrite E1, E2. auto.
    + injection H as <-. auto.
    + injection H as <-. destruct (notify_one_shape s) as [->|[Et ->]]; [cbn; auto|].
      destruct Ht as [Ht|(_ & [Ht|[Ht|Ht]])]; congruence.
    + unfold join in H. destruct (thread s) as [[]|]; try done; injection H as <-; cbn; auto.
Qed.

(** *** The length of a line *)

Lemma str_length_app (a b : string) : String.length (a +:+ b) = (String.length a + String.length b)%nat.
Proof. induction a as [|c a IH]; [done|]. by rewrite string_app_cons; cbn; rewrite IH. Qed.

Lemma fill_zeros_length n : String.length (zeros n) = n.
Proof. induction n; cbn; congruence. Qed.

Lemma pad0_length n s : String.length (pad0 n s) = Nat.max n (String.length s).
Proof. unfold pad0. rewrite str_length_app, fill_zeros_length. lia. Qed.

Lemma substring_length n s : String.length (String.substring 0 n s) = Nat.min n (String.length s).
Proof. revert s. induction n as [|n IH]; intros [|c s]; cbn; [done..|]. by rewrite IH. Qed.

(** At least one digit, and no more than the number has. *)
Lemma digits_of_length base fuel k : forall z acc,
  1 < base -> (1 <= k <= fuel)%nat -> 0 <= z < base ^ Z.of_nat k ->
  (String.length acc < String.length (digits_of base fuel z acc) <= k + String.length acc)%nat.
Proof.
  revert k. induction fuel as [|fuel IH]; intros k z acc Hb Hk Hz; [lia|]. cbn [digits_of].
  destruct (Z.ltb_spec z base); [cbn; lia|].
  destruct k as [|[|k]]; [lia|cbn in Hz; lia|].
  specialize (IH (S k) (z / base) (String (digit_char (z mod base)) acc) Hb ltac:(lia)).
  cbn [String.length] in IH. rewrite Nat2Z.inj_succ, Z.pow_succ_r in Hz by lia.
  assert (0 <= z / base < base ^ Z.of_nat (S k)).
  { split; [apply Z.div_pos; lia|]. apply Z.div_lt_upper_bound; lia. }
  specialize (IH ltac:(done)). lia.
Qed.

(** The digits say the number. *)
Definition digit_value (c : ascii) : Z :=
  let n := Z.of_nat (nat_of_ascii c) in if n <? 58 then n - 48 else n - 87.

Fixpoint value_from (base v : Z) (s : string) : Z :=
  match s with
  | EmptyString => v
  | String c s => value_from base (v * base + digit_value c) s
  end.

Lemma digit_char_value d : 0 <= d < 16 -> digit_value (digit_char d) = d.
Proof.
  intros H. assert (d ∈ seqZ 0 16) as Hd by (apply elem_of_seqZ; lia). revert d Hd H.
  apply (proj1 (Forall_forall (fun d => 0 <= d < 16 -> digit_value (digit_char d) = d) (seqZ 0 16))).
  repeat constructor.
Qed.

Lemma digits_of_value base fuel : forall z acc,
  1 < base <= 16 -> (0 < fuel)%nat -> 0 <= z < base ^ Z.of_nat fuel ->
  value_from base 0 (digits_of base fuel z acc) = value_from base z acc.
Proof.
  induction fuel as [|fuel IH]; intros z acc Hb Hf Hz; [lia|]. cbn [digits_of].
  pose proof (Z.mod_pos_bound z base ltac:(lia)) as Hm.
  destruct (Z.ltb_spec z base) as [Hlt|Hge].
  - cbn. rewrite digit_char_value by lia. by rewrite Z.mod_small by lia.
  - rewrite Nat2Z.inj_succ, Z.pow_succ_r in Hz by lia.
    assert (0 <= z / base < base ^ Z.of_nat fuel).
    { split; [apply Z.div_pos; lia|]. apply Z.div_lt_upper_bound; lia. }
    rewrite IH; [|lia| |lia].
    + cbn. rewrite digit_char_value by lia. f_equal.
      rewrite (Z_div_mod_eq_full z base) at 3. lia.
    + destruct fuel; [cbn in Hz; lia|lia].
Qed.

Definition tm_ok (t : tm) : Prop :=
  0 <= tm_year t + 1900 < 10000 /\ 0 <= tm_mon t < 12 /\ 0 <= tm_mday t <= 31
  /\ 0 <= tm_hour t < 24 /\ 0 <= tm_min t < 60 /\ 0 <= tm_sec t <= 60.

Lemma fmt_0d_length w z :
  (1 <= w <= 10)%nat -> 0 <= z < 10 ^ Z.of_nat w -> String.length (fmt_0d w z) = w.
Proof.
  intros Hw Hz. unfold fmt_0d. destruct (Z.ltb_spec z 0); [lia|]. rewrite pad0_length.
  pose proof (digits_of_length 10 10 w z EmptyString ltac:(lia) ltac:(lia) Hz) as Hd.
  cbn [String.length] in Hd. lia.
Qed.

Lemma fmt_time_length t : tm_ok t -> String.length (fmt_time t) = 19%nat.
Proof.
  intros (Hy & Hmo & Hd & Hh & Hmi & Hs). unfold fmt_time. rewrite !str_length_app.
  rewrite !fmt_0d_length by (cbn; lia). done.
Qed.

Lemma fmt_d_length z :
  - 2 ^ 31 <= z < 2 ^ 31 -> (1 <= String.length (fmt_d z) <= if (z <? 0)%Z then 11 else 10)%nat.
Proof.
  intros Hz. unfold fmt_d. destruct (Z.ltb_spec z 0); cbn [String.length].
  - pose proof (digits_of_length 10 10 10 (- z) EmptyString ltac:(lia) ltac:(lia) ltac:(cbn; lia)) as Hd.
    cbn [String.length] in Hd. lia.
  - pose proof (digits_of_length 10 10 10 z EmptyString ltac:(lia) ltac:(lia) ltac:(cbn; lia)) as Hd.
    cbn [String.length] in Hd. lia.
Qed.

Lemma fmt_0x_length z : (4 <= String.length (fmt_0x 4 (u32 z)) <= 8)%nat.
Proof.
  unfold fmt_0x. rewrite pad0_length.
  pose proof (Z.mod_pos_bound z (2 ^ 32) ltac:(lia)).
  pose proof (digits_of_length 16 8 8 (u32 z) EmptyString ltac:(lia) ltac:(lia) ltac:(unfold u32; cbn; lia)) as Hd.
  cbn [String.length] in Hd. lia.
Qed.

(** What is variable in a line, and the 32 other characters. *)
Lemma content_length c :
  tm_ok (when c) ->
  String.length (content_of c)
  = (32 + String.length (level_name (loglevel c)) + String.length (fmt_0x 4 (u32 (tid c)))
     + String.length (pszFile c) + String.length (fmt_d (lineNo c)) + String.length (pszFuncSig c)
     + Nat.min 255 (String.length (formatted c)))%nat.
Proof.
  intros Ht. unfold content_of. rewrite !str_length_app, fmt_time_length by done.
  unfold msg_of. rewrite substring_length.
  replace (String.length line_feed) with 1%nat by done. cbn [String.length]. lia.
Qed.

Lemma level_name_length l : (4 <= String.length (level_name l) <= 7)%nat.
Proof. destruct l; cbn; lia. Qed.

(** ** Properties *)

(** C25: however the threads interleave, no line is lost, doubled or reordered: the
    lines put into the queue are those written followed by those queued, and the
    file holds, one after the other, exactly the lines written since it was
    opened. *)
Theorem log_lines_in_order files s :
  reachable files s ->
  accepted s = (wrote s ++ queue_ (log s))%list /\
  forall name, fp_ (log s) = Some name ->
    disk s !! name = Some (concat_lines (drop (opened s) (wrote s))).
Proof. intros Hs. destruct (reachable_inv files s Hs). auto. Qed.

(** C26: while nobody has called [Stop], every line is written: if the other threads
    pause, the worker and the notifications that are still owed make at most
    [fuel_of s] turns, and when they can make none, the queue is empty and all
    accepted lines are in the file. *)
Theorem log_drains files s es s' :
  reachable files s -> exit_ (log s) = false -> thread s <> None ->
  forallb own es = true -> run es s = Some (Ok s') ->
  (length es <= fuel_of s)%nat /\
  (turn Worker s' = None -> turn Notify s' = None ->
   thread s' = Some WAsleep /\ queue_ (log s') = [] /\ wrote s' = accepted s).
Proof.
  intros Hs Hx Ht Ho Hr.
  destruct (own_run es s s' Ho (reachable_inv files s Hs) Hx Hr) as (Hl & Hi & Hx' & Ha & Ht').
  split; [lia|]. cbn. intros Hw Hn.
  destruct (notes s') eqn:En; [|done]. pose proof (inv_asleep s' Hi) as Hq. rewrite En in Hq.
  destruct (thread s') as [[]|] eqn:Et; try (unfold threadfunc in Hw; rewrite Et in Hw; done).
  - destruct (Hq eq_refl) as [E|]; [|lia]. split_and!; [done..|].
    by rewrite <-Ha, (inv_order s' Hi), E, app_nil_r.
  - pose proof (inv_done s' Hi Et). congruence.
  - by destruct (Ht' Ht).
Qed.

(** Nothing of the logger faults except a line that is too long for its buffer:
    the worker never writes without a file or takes from an empty queue, and
    [Start] never replaces a thread that runs. *)
Theorem log_faults files s e f :
  reachable files s -> turn e s = Some (Err f) ->
  f = OutOfBounds /\ exists c, (e = Add c \/ e = Control c) /\ AddToQueue c (log s) = Err OutOfBounds.
Proof.
  intros Hs H. destruct (reachable_inv files s Hs) as [I1 I2 I3 I4 I9 I5 I6 I7 I8].
  assert (forall c, add c s = Some (Err f) -> f = OutOfBounds /\ AddToQueue c (log s) = Err OutOfBounds) as Ha.
  { intros c Hc. unfold add in Hc. destruct (AddToQueue c (log s)) as [o|f'] eqn:Ea.
    - destruct o as [|msg|[line|] con]; cbn in Hc; try done. by destruct (holds_mutex (thread s)).
    - injection Hc as ->. unfold AddToQueue in Ea. repeat case_match; try done; by injection Ea as <-. }
  destruct e as [| | |c|x|t fopen| |c]; cbn in H; try done.
  - unfold threadfunc in H. cbv zeta in H. destruct (thread s) as [[]|] eqn:Et; try done.
    unfold write_front in H. destruct (queue_ (log s)); [by destruct I5|].
    destruct (fp_ (log s)); [done|by destruct I4].
  - by destruct (notes s).
  - by destruct (thread s) as [[]|].
  - destruct (Ha c H). eauto.
  - destruct (control s) eqn:Hc; try done. injection H as H. unfold Start in H.
    destruct (running_ (log s)) eqn:Er; [done|]. destruct (fopen _); [|done].
    destruct (thread s); [|done]. by destruct I8 as [_ I8]; discriminate I8.
  - by destruct (control s).
  - unfold control_turn in H. destruct (control s); try done.
    + destruct (add c s) as [[s2|]|] eqn:Eadd; try done. destruct (Ha c) as [-> ?]; [congruence|eauto].
    + unfold join in H. by destruct (thread s) as [[]|].
Qed.

(** [Stop] does not wait for the queue: unless the worker is about to sleep, it
    ends within five of its turns, having written at most the first of the lines
    that were queued. *)
Theorem stop_abandons_queue files s p :
  reachable files s -> exit_ (log s) = true -> thread s = Some p -> p <> WWait -> p <> WAsleep ->
  exists n s', (n <= 5)%nat /\ run (replicate n Worker) s = Some (Ok s') /\ thread s' = Some WDone
    /\ control s' = control s /\ notes s' = notes s
    /\ exists k, (k <= 1)%nat /\ wrote s' = (wrote s ++ take k (queue_ (log s)))%list.
Proof. intros Hs. apply exit_turns. by eapply reachable_inv. Qed.

(** A call of the logger's own or of the application. *)
Definition demo_tm : tm := mk_tm 124 4 3 17 30 8.
Definition demo_call (text : string) : call :=
  mk_call LOG_INFO "lidar.cc" 42 "int Init()" text demo_tm 0x1f2e3d.

(** Starting, with the line that [Start] logs itself and its notification. *)
Definition demo_start : list event :=
  Lidar_Init_log "sdk.log" LOG_TARGET_FILE 0x1f demo_tm (fun _ => true)
  ++ [Control (demo_call "logger start to run"); Control (demo_call ""); Notify].

(** The worker writes that line and finds the queue empty; before it waits, [Stop]
    sets [exit_], notifies nobody and joins. *)
Definition demo_hang : list event :=
  demo_start ++ replicate 9 Worker ++ [Lidar_delete_log; Control (demo_call ""); Worker].

(** [exit_] is set without the mutex, so the notification of [Stop] can fall
    between the worker's test of [exit_] and its wait: then [Stop] never returns,
    unless another thread logs to the file or the system wakes the worker for no
    reason. *)
Theorem stop_can_hang :
  exists s, reachable ∅ s /\ control s = CJoin /\ exit_ (log s) = true /\
  forall es s', forallb undisturbed es = true -> run es s = Some (Ok s') ->
    control s' = CJoin /\ thread s' = Some WAsleep.
Proof.
  destruct (run demo_hang (sys_new ∅)) as [[s|]|] eqn:E; [|by vm_compute in E..].
  exists s. assert (hung s /\ exit_ (log s) = true) as [Hh Hx].
  { vm_compute in E. injection E as <-. repeat split. }
  split; [by eapply run_reachable; [apply rtc_refl|]|]. clear E. split; [apply Hh|]. split; [done|].
  intros es s' Hq Hr. by destruct (hung_run es s s' Hq Hh Hr) as (? & ? & _).
Qed.

(** [exit_] is never cleared: after [Stop] has returned, no line is written any
    more, whatever is called.  A second [Start] empties the file, answers true,
    and its worker ends at its first test. *)
Theorem restart_writes_nothing files s s' :
  reachable files s -> exit_ (log s) = true -> thread s = None -> rtc step s s' ->
  wrote s' = wrote s /\
  forall p name, thread s' = Some p -> fp_ (log s') = Some name -> disk s' !! name = Some EmptyString.
Proof.
  intros Hs Hx Ht Hr. pose proof (reachable_inv files s Hs) as Hi.
  assert (spent (wrote s) s' /\ log_inv s') as [(_ & Hw & Hp) Hi'].
  { revert s' Hr. apply (rtc_ind_r (fun s' => spent (wrote s) s' /\ log_inv s')).
    - split; [|done]. split_and!; auto.
    - intros y z _ [e He] [Hy Hyi]. split; [by eapply spent_turn|by eapply turn_inv]. }
  split; [done|]. intros p name Hp2 Hf. destruct Hp as [E|[Ho _]]; [congruence|].
  by rewrite (inv_file s' Hi' name Hf), Hw, Ho, drop_all.
Qed.

(** C30: a line fits its buffer of 512 bytes when the names of the file and of the
    function have at most 198 characters together, whatever the message; a line
    that passes the rules leaves the buffer when they have 471 characters
    together with the message (255 of it at most).  [__PRETTY_FUNCTION__] and
    absolute paths reach that. *)
Theorem log_line_bound c l :
  tm_ok (when c) -> - 2 ^ 31 <= lineNo c < 2 ^ 31 ->
  let names := (String.length (pszFile c) + String.length (pszFuncSig c))%nat in
  ((names <= 198)%nat -> exists o, AddToQueue c l = Ok o) /\
  ((471 <= names + Nat.min 255 (String.length (formatted c)))%nat ->
   Z.land (level_value (loglevel c)) (log_level_rule_ l) = level_value (loglevel c) ->
   log_callback_ l = false -> AddToQueue c l = Err OutOfBounds).
Proof.
  intros Ht Hn names. pose proof (content_length c Ht) as Hc.
  pose proof (level_name_length (loglevel c)). pose proof (fmt_0x_length (tid c)).
  pose proof (fmt_d_length (lineNo c) Hn).
  unfold AddToQueue. split.
  - intros Hs. destruct (negb _); [eauto|]. destruct (log_callback_ l); [eauto|].
    destruct (Nat.ltb_spec 511 (String.length (content_of c))); [|eauto].
    destruct (lineNo c <? 0); lia.
  - intros Hs Hl Hb. rewrite Hl, Z.eqb_refl, Hb. cbn [negb].
    destruct (Nat.ltb_spec 511 (String.length (content_of c))); [done|lia].
Qed.

(** Until its rules are set the logger drops everything, and a line of one level
    passes exactly when that level's bit is in the rule. *)
Theorem log_level_filter c l :
  (AddToQueue c l = Ok Dropped <-> Z.testbit (log_level_rule_ l) (Z.log2 (level_value (loglevel c))) = false)
  /\ AddToQueue c logger_new = Ok Dropped.
Proof.
  split; [|by destruct c as [[]]].
  assert (forall k, 0 <= k -> (Z.land (2 ^ k) (log_level_rule_ l) =? 2 ^ k) = Z.testbit (log_level_rule_ l) k) as Hk.
  { intros k Hk. destruct (Z.testbit (log_level_rule_ l) k) eqn:E; [apply Z.eqb_eq|apply Z.eqb_neq].
    - apply Z.bits_inj'. intros n Hn. rewrite Z.land_spec, Z.pow2_bits_eqb by lia.
      destruct (Z.eqb_spec k n); subst; [by rewrite E|done].
    - intros Hc. assert (Z.testbit (Z.land (2 ^ k) (log_level_rule_ l)) k = true) as Ht.
      { rewrite Hc, Z.pow2_bits_eqb by lia. apply Z.eqb_refl. }
      rewrite Z.land_spec, E, andb_false_r in Ht. done. }
  unfold AddToQueue. assert (level_value (loglevel c) = 2 ^ Z.log2 (level_value (loglevel c))) as El
    by by destruct (loglevel c).
  rewrite El at 1 2. rewrite Hk by apply Z.log2_nonneg.
  destruct (Z.testbit _ _); cbn; [|done]. split; [|done].
  destruct (log_callback_ l); [done|]. by case_match.
Qed.

(** ** Witnesses *)

(** The state a run of the demonstration ends in. *)
Definition state_of (r : option (result sys)) : sys :=
  match r with Some (Ok s) => s | _ => sys_new ∅ end.

Definition demo_running : sys := state_of (run (demo_start ++ [Add (demo_call "hello")]) (sys_new ∅)).
Definition demo_written : sys := state_of (run (replicate 14 Worker ++ [Notify]) demo_running).
Definition demo_stopping : sys := state_of (run [DoStop; Control (demo_call "")] demo_running).
Definition demo_stopped : sys :=
  state_of (run (replicate 2 Worker ++ [Control (demo_call "")]) demo_stopping).
Definition demo_again : sys :=
  state_of (run [DoStart demo_tm (fun _ => true); Worker; Worker] demo_stopped).

Lemma demo_reachable :
  reachable ∅ demo_running /\ reachable ∅ demo_stopping /\ reachable ∅ demo_stopped.
Proof.
  split_and!.
  - apply (run_reachable ∅ (demo_start ++ [Add (demo_call "hello")]) (sys_new ∅)); [apply rtc_refl|].
    by vm_compute.
  - apply (run_reachable ∅ ((demo_start ++ [Add (demo_call "hello")]) ++ [DoStop; Control (demo_call "")])
             (sys_new ∅)); [apply rtc_refl|]. by vm_compute.
  - apply (run_reachable ∅ ((demo_start ++ [Add (demo_call "hello")]) ++ [DoStop; Control (demo_call "")]
             ++ replicate 2 Worker ++ [Control (demo_call "")]) (sys_new ∅)); [apply rtc_refl|].
    by vm_compute.
Qed.

Lemma log_lines_in_order_witness :
  length (queue_ (log demo_running)) = 2%nat /\
  accepted demo_running = (wrote demo_running ++ queue_ (log demo_running))%list /\
  forall name, fp_ (log demo_running) = Some name ->
    disk demo_running !! name = Some (concat_lines (drop (opened demo_running) (wrote demo_running))).
Proof. split; [by vm_compute|]. apply (log_lines_in_order ∅). apply demo_reachable. Defined.

Lemma log_drains_witness :
  exists s', run (replicate 14 Worker ++ [Notify] ++ replicate 4 Worker) demo_running = Some (Ok s') /\
  thread s' = Some WAsleep /\ queue_ (log s') = [] /\ wrote s' = accepted demo_running.
Proof.
  exists (state_of (run (replicate 14 Worker ++ [Notify] ++ replicate 4 Worker) demo_running)).
  split; [by vm_compute|].
  refine (proj2 (log_drains ∅ demo_running (replicate 14 Worker ++ [Notify] ++ replicate 4 Worker)
    (state_of (run (replicate 14 Worker ++ [Notify] ++ replicate 4 Worker) demo_running)) _ _ _ _ _) _ _).
  - apply demo_reachable.
  - by vm_compute.
  - by vm_compute.
  - reflexivity.
  - by vm_compute.
  - by vm_compute.
  - by vm_compute.
Defined.

Definition long_call : call :=
  mk_call LOG_INFO (String.concat "/" (replicate 60 "src"%string)) 42 (String.concat "::" (replicate 50 "hesai"%string))
    "text" demo_tm 7.

Lemma log_faults_witness :
  turn (Add long_call) demo_running = Some (Err OutOfBounds) /\
  (OutOfBounds = OutOfBounds /\ exists c, (Add long_call = Add c \/ Add long_call = Control c)
     /\ AddToQueue c (log demo_running) = Err OutOfBounds).
Proof.
  assert (turn (Add long_call) demo_running = Some (Err OutOfBounds)) as E by by vm_compute.
  split; [done|]. exact (log_faults ∅ demo_running (Add long_call) OutOfBounds (proj1 demo_reachable) E).
Defined.

Lemma stop_abandons_queue_witness :
  length (queue_ (log demo_stopping)) = 2%nat /\
  exists n s', (n <= 5)%nat /\ run (replicate n Worker) demo_stopping = Some (Ok s')
    /\ thread s' = Some WDone /\ control s' = control demo_stopping /\ notes s' = notes demo_stopping
    /\ exists k, (k <= 1)%nat /\ wrote s' = (wrote demo_stopping ++ take k (queue_ (log demo_stopping)))%list.
Proof.
  split; [by vm_compute|]. refine (stop_abandons_queue ∅ demo_stopping WEntry (proj1 (proj2 demo_reachable)) _ _ _ _);
    [by vm_compute|by vm_compute|discriminate|discriminate].
Defined.

Lemma restart_writes_nothing_witness :
  thread demo_again = Some WDone /\ length (queue_ (log demo_again)) = 2%nat /\
  wrote demo_again = wrote demo_stopped /\
  forall p name, thread demo_again = Some p -> fp_ (log demo_again) = Some name ->
    disk demo_again !! name = Some EmptyString.
Proof.
  split; [by vm_compute|]. split; [by vm_compute|].
  apply (restart_writes_nothing ∅ demo_stopped demo_again); [apply demo_reachable|by vm_compute|by vm_compute|].
  apply (run_reachable_from [DoStart demo_tm (fun _ => true); Worker; Worker]). by vm_compute.
Defined.

Lemma log_line_bound_witness :
  AddToQueue long_call (log demo_running) = Err OutOfBounds.
Proof.
  apply (log_line_bound long_call (log demo_running)); [unfold tm_ok; cbn; lia|cbn; lia|..]; by vm_compute; lia.
Defined.

End Logger.
