(* ===== verification/Ptc.v ===== *)
(** * Ptc: the framing of the PTC command protocol

    PtcParser/include/ptc_1_0_parser.h and ptc_2_0_parser.h (headers of 8 and
    12 bytes), PtcParser/src/*.cc (encoding and decoding) and PtcParser/
    ptc_parser.cc (dispatch on the protocol version).  The class [PtcProtocol]
    is what a protocol version promises to the client of PtcClient.v: the two
    identifier bytes, the header size, and a header that can be written to and
    read back from a byte stream.  [le] is the endianness of the host. *)

From S2P Require Import Prelude Bytes.
Local Open Scope Z_scope.

(** ** Headers *)

Record PTCHeader_1_0 : Set := mk_h1 {
  h1_identifier0_ : Z;
  h1_identifier1_ : Z;
  h1_cmd_ : Z;
  h1_return_code_ : Z;
  h1_payload_len_ : Z;   (* as stored: network byte order *)
}.

Record PTCHeader_2_0 : Set := mk_h2 {
  h2_identifier0_ : Z;
  h2_identifier1_ : Z;
  h2_ptc_version_ : Z;
  h2_cmd_ : Z;
  h2_return_code_ : Z;
  h2_reserved_ : Z;
  h2_integrity_check_type_ : Z;
  h2_integrity_data_length_ : Z;
  h2_payload_len_ : Z;
}.

Definition h1_init (cmd : Z) : PTCHeader_1_0 := mk_h1 0x47 0x74 cmd 0 0.
Definition h2_init (cmd : Z) : PTCHeader_2_0 := mk_h2 0x57 0x75 1 cmd 0 0 0 0 0.

Definition h1_IsValidIdentifier (h : PTCHeader_1_0) : bool :=
  (h1_identifier0_ h =? 0x47) && (h1_identifier1_ h =? 0x74).
Definition h1_IsValidReturnCode (h : PTCHeader_1_0) : bool :=
  h1_IsValidIdentifier h && (h1_return_code_ h =? 0).
Definition h2_IsValidIdentifier (h : PTCHeader_2_0) : bool :=
  (h2_identifier0_ h =? 0x57) && (h2_identifier1_ h =? 0x75).
Definition h2_IsValidReturnCode (h : PTCHeader_2_0) : bool :=
  h2_IsValidIdentifier h && (h2_return_code_ h =? 0).

Definition h1_GetPayloadLen (le : bool) (h : PTCHeader_1_0) : Z := ntohl le (h1_payload_len_ h).
Definition h2_GetPayloadLen (le : bool) (h : PTCHeader_2_0) : Z := ntohl le (h2_payload_len_ h).

Definition h1_SetPayloadLen (le : bool) (n : Z) (h : PTCHeader_1_0) : PTCHeader_1_0 :=
  mk_h1 (h1_identifier0_ h) (h1_identifier1_ h) (h1_cmd_ h) (h1_return_code_ h) (htonl le n).
Definition h2_SetPayloadLen (le : bool) (n : Z) (h : PTCHeader_2_0) : PTCHeader_2_0 :=
  mk_h2 (h2_identifier0_ h) (h2_identifier1_ h) (h2_ptc_version_ h) (h2_cmd_ h) (h2_return_code_ h)
    (h2_reserved_ h) (h2_integrity_check_type_ h) (h2_integrity_data_length_ h) (htonl le n).

(** The memory of a packed header, and the header a pointer cast sees. *)
Definition h1_image (le : bool) (h : PTCHeader_1_0) : list Z :=
  [h1_identifier0_ h; h1_identifier1_ h; h1_cmd_ h; h1_return_code_ h]
  ++ store le 4 (h1_payload_len_ h).

Definition h1_cast (le : bool) (l : list Z) : result PTCHeader_1_0 :=
  match l with
  | i0 :: i1 :: c :: rc :: a :: b :: d :: e :: _ => Ok (mk_h1 i0 i1 c rc (load le [a; b; d; e]))
  | _ => Err OutOfBounds
  end.

Definition h2_image (le : bool) (h : PTCHeader_2_0) : list Z :=
  [h2_identifier0_ h; h2_identifier1_ h; h2_ptc_version_ h; h2_cmd_ h; h2_return_code_ h;
   h2_reserved_ h; h2_integrity_check_type_ h; h2_integrity_data_length_ h]
  ++ store le 4 (h2_payload_len_ h).

Definition h2_cast (le : bool) (l : list Z) : result PTCHeader_2_0 :=
  match l with
  | i0 :: i1 :: v :: c :: rc :: r :: t :: il :: a :: b :: d :: e :: _ =>
      Ok (mk_h2 i0 i1 v c rc r t il (load le [a; b; d; e]))
  | _ => Err OutOfBounds
  end.

(** ** What a protocol version promises *)

Class PtcProtocol (H : Type) : Type := {
  GetHeaderIdentifier0 : Z;
  GetHeaderIdentifier1 : Z;
  GetHeaderSize : nat;
  init : Z -> H;
  SetPayloadLen : bool -> Z -> H -> H;
  GetPayloadLen : bool -> H -> Z;
  IsValidReturnCode : H -> bool;
  header_cmd : H -> Z;
  image : bool -> H -> list Z;
  cast : bool -> list Z -> result H;
  PtcStreamDecode : Z -> Z -> list Z -> Z -> Z -> list Z -> result (bool * list Z);
}.

(** The laws the client relies on: a request header written with [init] and
    [SetPayloadLen] is [GetHeaderSize] bytes that start with the identifiers,
    and the receiver reads back its command and its length. *)
Class PtcProtocolLaws (H : Type) `{PtcProtocol H} : Prop := {
  header_size_pos : (2 < GetHeaderSize)%nat;
  image_length le cmd n : length (image le (SetPayloadLen le n (init cmd))) = GetHeaderSize;
  image_identifiers le cmd n : exists tl,
    image le (SetPayloadLen le n (init cmd)) = GetHeaderIdentifier0 :: GetHeaderIdentifier1 :: tl;
  cast_image le cmd n rest : is_u8 cmd -> is_u32 n ->
    exists h, cast le (image le (SetPayloadLen le n (init cmd)) ++ rest) = Ok h
      /\ IsValidReturnCode h = true /\ header_cmd h = cmd /\ GetPayloadLen le h = n;
  cast_enough le l : (GetHeaderSize <= length l)%nat -> exists h, cast le l = Ok h;
}.

(** [Ptc_1_0_parser::PtcStreamDecode]: two iterators into the payload. *)
Definition decode_1_0 (cmd retcode : Z) (payload : list Z) (start_pos length : Z) (res : list Z)
    : result (bool * list Z) :=
  res ← arr_slice payload start_pos length;
  Ok (true, res).

(** [Ptc_2_0_parser::PtcStreamDecode] *)
Definition decode_2_0 (cmd retcode : Z) (payload : list Z) (start_pos length : Z) (res : list Z)
    : result (bool * list Z) :=
  let write := if Nat.eqb (List.length payload) 0 then Ok (true, res) else Ok (false, payload) in
  if cmd =? 0x01 then Ok (true, payload)
  else if cmd =? 0x02 then write
  else if cmd =? 0x03 then Ok (true, payload)
  else if cmd =? 0x04 then write
  else if cmd =? 0x05 then Ok (true, payload)
  else if cmd =? 0x06 then write
  else if cmd =? 0x07 then Ok (true, payload)
  else if cmd =? 0x08 then write
  else if cmd =? 0x09 then Ok (true, payload)
  else if cmd =? 0x0A then
    if Nat.eqb (List.length payload) 0 && (retcode =? 0) then Ok (true, res)
    else Ok (false, res ++ [retcode])
  else Ok (true, res).

#[export] Instance ptc_1_0 : PtcProtocol PTCHeader_1_0 := {|
  GetHeaderIdentifier0 := 0x47;
  GetHeaderIdentifier1 := 0x74;
  GetHeaderSize := 8;
  init := h1_init;
  SetPayloadLen := h1_SetPayloadLen;
  GetPayloadLen := h1_GetPayloadLen;
  IsValidReturnCode := h1_IsValidReturnCode;
  header_cmd := h1_cmd_;
  image := h1_image;
  cast := h1_cast;
  PtcStreamDecode := decode_1_0;
|}.

#[export] Instance ptc_2_0 : PtcProtocol PTCHeader_2_0 := {|
  GetHeaderIdentifier0 := 0x57;
  GetHeaderIdentifier1 := 0x75;
  GetHeaderSize := 12;
  init := h2_init;
  SetPayloadLen := h2_SetPayloadLen;
  GetPayloadLen := h2_GetPayloadLen;
  IsValidReturnCode := h2_IsValidReturnCode;
  header_cmd := h2_cmd_;
  image := h2_image;
  cast := h2_cast;
  PtcStreamDecode := decode_2_0;
|}.

(** ** Encoding: the same body in the two parsers

    The vector is resized, the header is written over its first bytes through
    a cast pointer, and the payload is copied behind it. *)
Definition PtcStreamEncode (H : Type) `{PtcProtocol H} (le : bool)
    (payload byteStreamOut : list Z) (u8Cmd : Z) : result (bool * list Z) :=
  let size := Z.of_nat (length payload) in
  let out := vec_resize 0 (Z.of_nat GetHeaderSize + size) byteStreamOut in
  let pHeader := SetPayloadLen le (u32 size) (init u8Cmd) in
  out ← arr_blit out 0 (image le pHeader);
  out ← arr_blit out (Z.of_nat GetHeaderSize) payload;
  Ok (true, out).

(** [GeneralPtcParser::SplitFileFrames]: the loop over a non-empty file has an
    empty body, and no frame is ever produced. *)
Definition SplitFileFrames (file : list Z) (packages : list (list Z))
    : result (bool * list (list Z)) :=
  let file_length := i32 (Z.of_nat (length file)) in
  if 0 <? file_length then Err NoProgress else Ok (true, packages).

(** ** Dispatch: [PtcParser(ptc_version)]

    For a version that is neither 1 nor 2 the constructor leaves [parser_]
    uninitialised. *)
Inductive parser_ptr : Set := Parser_1_0 | Parser_2_0.

Definition new_PtcParser (ptc_version : Z) : result parser_ptr :=
  if ptc_version =? 1 then Ok Parser_1_0
  else if ptc_version =? 2 then Ok Parser_2_0
  else Err Uninitialised.

Definition PtcParser_PtcStreamEncode (p : parser_ptr) (le : bool)
    (payload byteStreamOut : list Z) (u8Cmd : Z) : result (bool * list Z) :=
  match p with
  | Parser_1_0 => PtcStreamEncode PTCHeader_1_0 le payload byteStreamOut u8Cmd
  | Parser_2_0 => PtcStreamEncode PTCHeader_2_0 le payload byteStreamOut u8Cmd
  end.

Definition PtcParser_PtcStreamDecode (p : parser_ptr) (cmd retcode : Z) (payload : list Z)
    (start_pos length : Z) (res : list Z) : result (bool * list Z) :=
  match p with
  | Parser_1_0 => PtcStreamDecode (H := PTCHeader_1_0) cmd retcode payload start_pos length res
  | Parser_2_0 => PtcStreamDecode (H := PTCHeader_2_0) cmd retcode payload start_pos length res
  end.

(** ** Lemmas *)

Lemma store_4 le z : exists a b c d, store le 4 z = [a; b; c; d].
Proof. destruct le; cbn; eauto. Qed.

#[export] Instance ptc_1_0_laws : PtcProtocolLaws PTCHeader_1_0.
Proof.
  constructor; cbn -[store load].
  - lia.
  - intros le cmd n. unfold h1_image. cbn -[store]. by destruct (store_4 le (htonl le n)) as (?&?&?&?&->).
  - intros le cmd n. unfold h1_image; cbn -[store]. eauto.
  - intros le cmd n rest Hc Hn. unfold h1_image. cbn -[store].
    destruct (store_4 le (htonl le n)) as (a&b&c&d&E). rewrite E. eexists; split; [reflexivity|].
    split; [done|]. split; [done|]. unfold h1_GetPayloadLen; cbn [h1_payload_len_].
    rewrite <-E. by apply ntohl_load_store.
  - intros le l Hl. do 8 (destruct l as [|? l]; [cbn in Hl; lia|]). cbn. eauto.
Qed.

#[export] Instance ptc_2_0_laws : PtcProtocolLaws PTCHeader_2_0.
Proof.
  constructor; cbn -[store load].
  - lia.
  - intros le cmd n. unfold h2_image. cbn -[store]. by destruct (store_4 le (htonl le n)) as (?&?&?&?&->).
  - intros le cmd n. unfold h2_image; cbn -[store]. eauto.
  - intros le cmd n rest Hc Hn. unfold h2_image. cbn -[store].
    destruct (store_4 le (htonl le n)) as (a&b&c&d&E). rewrite E. eexists; split; [reflexivity|].
    split; [done|]. split; [done|]. unfold h2_GetPayloadLen; cbn [h2_payload_len_].
    rewrite <-E. by apply ntohl_load_store.
  - intros le l Hl. do 12 (destruct l as [|? l]; [cbn in Hl; lia|]). cbn. eauto.
Qed.

Lemma encode_stream H `{PtcProtocolLaws H} le payload out cmd :
  PtcStreamEncode H le payload out cmd =
  Ok (true, image le (SetPayloadLen le (u32 (Z.of_nat (length payload))) (init cmd)) ++ payload).
Proof.
  unfold PtcStreamEncode. set (img := image _ _).
  assert (length img = GetHeaderSize) as Hl by apply image_length.
  set (n := Z.of_nat GetHeaderSize + Z.of_nat (length payload)).
  pose proof (vec_resize_length 0 n out) as Hv.
  rewrite arr_blit_ok by (unfold n in *; lia). cbn [mbind result_bind].
  change (Z.to_nat 0) with 0%nat. rewrite take_0, Nat.add_0_l, app_nil_l.
  rewrite arr_blit_ok by (rewrite ?length_app, ?length_drop; unfold n in *; lia).
  cbn [mbind result_bind]. rewrite Nat2Z.id, <-Hl, take_app_length.
  rewrite drop_ge, app_nil_r; [done|].
  rewrite length_app, length_drop. unfold n in *; lia.
Qed.

(** ** Properties *)

(** C34: what either protocol version encodes, it decodes: the stream built from
    a command and a payload is a header followed by the payload, and reading
    the stream through the header finds a valid return code, the command, and
    the payload's length. *)
Theorem ptc_encode_roundtrip H `{PtcProtocolLaws H} le payload out cmd :
  is_u8 cmd -> Z.of_nat (length payload) < 2 ^ 32 ->
  exists stream h,
    PtcStreamEncode H le payload out cmd = Ok (true, stream) /\
    cast le stream = Ok h /\ IsValidReturnCode h = true /\ header_cmd h = cmd /\
    GetPayloadLen le h = Z.of_nat (length payload) /\
    drop GetHeaderSize stream = payload.
Proof.
  intros Hc Hp. rewrite (encode_stream H).
  assert (u32 (Z.of_nat (length payload)) = Z.of_nat (length payload)) as ->.
  { unfold u32. apply Z.mod_small. lia. }
  destruct (cast_image le cmd (Z.of_nat (length payload)) payload Hc) as (h & E & Hv & Hd & Hn).
  { unfold is_u32. lia. }
  eexists _, h. split; [reflexivity|]. repeat split; [done..|].
  erewrite <-image_length at 1. apply drop_app_length.
Qed.

(** [Ptc_2_0_parser::PtcStreamDecode] reports failure exactly for a write
    command answered with a payload, or a file write answered with a payload or
    a non-zero return code; it never faults. *)
Theorem decode_2_0_failure cmd retcode payload start_pos len res :
  exists b res', decode_2_0 cmd retcode payload start_pos len res = Ok (b, res') /\
    (b = false <->
      (cmd ∈ [0x02; 0x04; 0x06; 0x08] /\ payload <> []) \/
      (cmd = 0x0A /\ (payload <> [] \/ retcode <> 0))).
Proof.
  unfold decode_2_0.
  assert (forall c, c ∈ [0x02; 0x04; 0x06; 0x08] <-> c = 2 \/ c = 4 \/ c = 6 \/ c = 8) as Hset.
  { intros c. rewrite !elem_of_cons, elem_of_nil. intuition. }
  setoid_rewrite Hset. clear Hset.
  destruct payload as [|p payload]; cbn [length Nat.eqb andb]; cases_bool; subst;
    eexists _, _; (split; [reflexivity|]); intuition (congruence || lia).
Qed.

(** Splitting a non-empty file into frames never returns, while an empty
    file yields no package. *)
Theorem split_file_frames_stuck file packages :
  0 < Z.of_nat (length file) < 2 ^ 31 ->
  SplitFileFrames file packages = Err NoProgress /\
  SplitFileFrames [] packages = Ok (true, packages).
Proof.
  intros H. unfold SplitFileFrames, i32. split; [|done].
  rewrite Z.mod_small by lia. destruct (Z.ltb_spec 0 (Z.of_nat (length file) + 2 ^ 31 - 2 ^ 31)); [done|lia].
Qed.

Lemma ptc_encode_roundtrip_witness :
  is_u8 0x05 /\
  (exists stream (h : PTCHeader_1_0),
    PtcStreamEncode PTCHeader_1_0 true [7; 9] [] 0x05 = Ok (true, stream) /\
    cast true stream = Ok h /\ IsValidReturnCode h = true /\ header_cmd h = 0x05 /\
    GetPayloadLen true h = Z.of_nat (length [7; 9]) /\ drop (GetHeaderSize (H := PTCHeader_1_0)) stream = [7; 9]) /\
  (exists stream (h : PTCHeader_2_0),
    PtcStreamEncode PTCHeader_2_0 false [7; 9] [1] 0x05 = Ok (true, stream) /\
    cast false stream = Ok h /\ IsValidReturnCode h = true /\ header_cmd h = 0x05 /\
    GetPayloadLen false h = Z.of_nat (length [7; 9]) /\ drop (GetHeaderSize (H := PTCHeader_2_0)) stream = [7; 9]).
Proof.
  split; [unfold is_u8; lia|]. split.
  - apply (ptc_encode_roundtrip PTCHeader_1_0 true [7; 9] [] 0x05); [unfold is_u8; lia|cbn; lia].
  - apply (ptc_encode_roundtrip PTCHeader_2_0 false [7; 9] [1] 0x05); [unfold is_u8; lia|cbn; lia].
Defined.

Lemma split_file_frames_stuck_witness :
  0 < Z.of_nat (length [1; 2]) < 2 ^ 31 /\
  SplitFileFrames [1; 2] [] = Err NoProgress /\ SplitFileFrames [] [] = Ok (true, []).
Proof. split; [cbn; lia|]. apply (split_file_frames_stuck [1; 2] []). cbn; lia. Defined.
