(* ===== verification/Crc.v ===== *)
(** * Crc: the CRC-32 of the PTC client

    [PtcClient::CRCInit] and [PtcClient::CRCCalc] of PtcClient/src/
    ptc_client.cc: a table of 256 words and a byte-at-a-time loop over it.  The
    reference is the CRC written bit by bit, polynomial 0x04c11db7, most
    significant bit first, initial value all ones.  Words are 32-bit and wrap. *)

From S2P Require Import Prelude Bytes.
Local Open Scope Z_scope.

Definition poly : Z := 0x04c11db7.

(** k = (k << 1) ^ (((k ^ j) & 0x80000000) ? 0x04c11db7 : 0) *)
Definition crc_round (k j : Z) : Z :=
  Z.lxor (u32 (Z.shiftl k 1))
    (if Z.eqb (Z.land (Z.lxor k j) 0x80000000) 0 then 0 else poly).

(** The inner loop, entered at most [fuel] times. *)
Fixpoint crc_entry_loop (fuel : nat) (k j : Z) : result Z :=
  if j =? 0x80000000 then Ok k
  else match fuel with
       | O => Err NoProgress
       | S fuel => crc_entry_loop fuel (crc_round k j) (u32 (Z.shiftl j 1))
       end.

Definition crc_entry (i : Z) : result Z :=
  crc_entry_loop 32 0 (Z.lor (u32 (Z.shiftl i 24)) 0x800000).

(** [m_CRCTable] after [CRCInit]. *)
Definition CRCInit : result (list Z) :=
  foldM (fun tbl i => k ← crc_entry i; Ok (tbl ++ [k])) [] (seqZ 0 256).

(** i_crc = (i_crc << 8) ^ m_CRCTable[((i_crc >> 24) ^ bytes[i]) & 0xff] *)
Definition CRCCalc (m_CRCTable : list Z) (bytes : list Z) : result Z :=
  foldM (fun i_crc b =>
    t ← arr_get m_CRCTable (Z.land (Z.lxor (Z.shiftr i_crc 24) b) 0xff);
    Ok (Z.lxor (u32 (Z.shiftl i_crc 8)) t)) 0xffffffff bytes.

(** ** The reference: one bit at a time *)

Definition crc_bit (crc : Z) : Z :=
  Z.lxor (u32 (Z.shiftl crc 1)) (if Z.testbit crc 31 then poly else 0).

Definition crc_byte (crc b : Z) : Z := Nat.iter 8 crc_bit (Z.lxor crc (Z.shiftl b 24)).

Definition crc32_ref (bytes : list Z) : Z := foldl crc_byte 0xffffffff bytes.

(** The table as a constant. *)
Definition crc_table : list Z := Eval vm_compute in
  match CRCInit with Ok t => t | Err _ => [] end.

(** ** Lemmas *)

Lemma CRCInit_ok : CRCInit = Ok crc_table.
Proof. vm_compute. reflexivity. Qed.

Lemma u32_land z : u32 z = Z.land z (Z.ones 32).
Proof. unfold u32. by rewrite Z.land_ones by lia. Qed.

Lemma u32_lxor a b : u32 (Z.lxor a b) = Z.lxor (u32 a) (u32 b).
Proof.
  rewrite !u32_land. apply Z.bits_inj'. intros k Hk.
  rewrite !Z.land_spec, !Z.lxor_spec, !Z.land_spec.
  by destruct (Z.testbit a k), (Z.testbit b k), (Z.testbit (Z.ones 32) k).
Qed.

Lemma crc_bit_lxor x y : crc_bit (Z.lxor x y) = Z.lxor (crc_bit x) (crc_bit y).
Proof.
  unfold crc_bit. rewrite Z.lxor_spec, Z.shiftl_lxor, u32_lxor.
  rewrite !Z.lxor_assoc. f_equal. rewrite (Z.lxor_comm _ (Z.lxor _ (if Z.testbit y 31 then _ else _))).
  rewrite Z.lxor_assoc. f_equal.
  destruct (Z.testbit x 31), (Z.testbit y 31); cbn; by rewrite ?Z.lxor_0_r, ?Z.lxor_nilpotent.
Qed.

Lemma crc_bits_lxor n x y :
  Nat.iter n crc_bit (Z.lxor x y) = Z.lxor (Nat.iter n crc_bit x) (Nat.iter n crc_bit y).
Proof.
  induction n as [|n IH]; [done|]. by rewrite !Nat.iter_succ, IH, crc_bit_lxor.
Qed.

(** Bits that do not reach the top are only shifted. *)
Lemma crc_bit_low x : 0 <= x < 2 ^ 31 -> crc_bit x = 2 * x.
Proof.
  intros H. unfold crc_bit. assert (Z.testbit x 31 = false) as ->.
  { apply Z.testbit_false; [lia|]. by rewrite Z.div_small. }
  rewrite Z.lxor_0_r, Z.shiftl_mul_pow2 by lia.
  unfold u32. rewrite Z.mod_small by lia. lia.
Qed.

Lemma crc_bits_low n x :
  (n <= 31)%nat -> 0 <= x < 2 ^ (32 - Z.of_nat n) ->
  Nat.iter n crc_bit x = x * 2 ^ Z.of_nat n.
Proof.
  intros Hn Hx. induction n as [|n IH].
  - cbn. lia.
  - assert (2 ^ (32 - Z.of_nat n) = 2 * 2 ^ (32 - Z.of_nat (S n))) as Hp.
    { rewrite <-Z.pow_succ_r by lia. f_equal. lia. }
    rewrite Nat.iter_succ, IH by lia.
    assert (2 ^ (32 - Z.of_nat (S n)) * 2 ^ Z.of_nat n = 2 ^ 31) as Hq.
    { rewrite <-Z.pow_add_r by lia. f_equal. lia. }
    pose proof (Z.pow_pos_nonneg 2 (Z.of_nat n)).
    rewrite crc_bit_low by nia. rewrite Nat2Z.inj_succ, Z.pow_succ_r by lia. lia.
Qed.

(** The table entry of a byte is the byte run through eight rounds. *)
Lemma crc_table_entry i :
  0 <= i < 256 -> crc_table !! Z.to_nat i = Some (Nat.iter 8 crc_bit (Z.shiftl i 24)).
Proof.
  intros Hi.
  assert (forallb (fun k => bool_decide (crc_table !! Z.to_nat k
    = Some (Nat.iter 8 crc_bit (Z.shiftl k 24)))) (seqZ 0 256) = true) as H.
  { vm_compute. reflexivity. }
  rewrite forallb_forall in H. specialize (H i). rewrite bool_decide_eq_true in H.
  apply H. apply list_elem_of_In. apply elem_of_seqZ. lia.
Qed.

Lemma land_ones_small x n : 0 <= x < 2 ^ n -> 0 <= n -> Z.land x (Z.ones n) = x.
Proof. intros. rewrite Z.land_ones by lia. by apply Z.mod_small. Qed.

(** A word is its top byte and its lower 24 bits. *)
Lemma word_split x :
  0 <= x -> x = Z.lxor (Z.shiftl (Z.shiftr x 24) 24) (Z.land x (Z.ones 24)).
Proof.
  intros Hx. apply Z.bits_inj'. intros k Hk. rewrite Z.lxor_spec, Z.land_spec.
  destruct (Z.ltb_spec k 24).
  - rewrite Z.shiftl_spec_low, Z.ones_spec_low by lia. by rewrite andb_true_r, xorb_false_l.
  - rewrite Z.shiftl_spec_high, Z.shiftr_spec, Z.ones_spec_high by lia.
    rewrite andb_false_r, xorb_false_r. f_equal. lia.
Qed.

Lemma lxor_range x y n : 0 <= n -> 0 <= x < 2 ^ n -> 0 <= y < 2 ^ n -> 0 <= Z.lxor x y < 2 ^ n.
Proof.
  intros Hn Hx Hy.
  assert (Z.lxor x y = Z.land (Z.lxor x y) (Z.ones n)) as ->.
  { apply Z.bits_inj'. intros k Hk. rewrite <-(land_ones_small x n Hx), <-(land_ones_small y n Hy) by lia.
    rewrite !Z.land_spec, !Z.lxor_spec, !Z.land_spec.
    by destruct (Z.testbit x k), (Z.testbit y k), (Z.testbit (Z.ones n) k). }
  rewrite Z.land_ones by lia. apply Z.mod_pos_bound. lia.
Qed.

(** One step of [CRCCalc] is eight rounds of the reference. *)
Lemma crc_step crc b :
  is_u32 crc -> is_u8 b ->
  arr_get crc_table (Z.land (Z.lxor (Z.shiftr crc 24) b) 0xff)
  = Ok (Nat.iter 8 crc_bit (Z.shiftl (Z.lxor (Z.shiftr crc 24) b) 24)) /\
  crc_byte crc b = Z.lxor (u32 (Z.shiftl crc 8))
    (Nat.iter 8 crc_bit (Z.shiftl (Z.lxor (Z.shiftr crc 24) b) 24)).
Proof.
  unfold is_u32, is_u8. intros Hc Hb.
  assert (0 <= Z.shiftr crc 24 < 2 ^ 8) as Hs.
  { rewrite Z.shiftr_div_pow2 by lia. split; [apply Z.div_pos; lia|]. apply Z.div_lt_upper_bound; lia. }
  pose proof (lxor_range (Z.shiftr crc 24) b 8) as Hx. split.
  - change 0xff with (Z.ones 8). rewrite land_ones_small by lia.
    apply arr_get_ok. split; [lia|]. apply crc_table_entry. lia.
  - unfold crc_byte. rewrite (word_split crc) at 1 by lia.
    rewrite Z.lxor_assoc, (Z.lxor_comm (Z.land _ _)), <-Z.lxor_assoc, <-Z.shiftl_lxor, crc_bits_lxor.
    rewrite Z.lxor_comm. f_equal.
    rewrite Z.land_ones by lia. pose proof (Z.mod_pos_bound crc (2 ^ 24)).
    rewrite crc_bits_low by (cbn; lia). rewrite Z.shiftl_mul_pow2 by lia. change (Z.of_nat 8) with 8.
    unfold u32. replace (2 ^ 32) with (2 ^ 24 * 2 ^ 8) by lia. rewrite Z.mul_mod_distr_r by lia. lia.
Qed.

Lemma crc_bit_range x : is_u32 (crc_bit x).
Proof.
  unfold crc_bit, is_u32. apply lxor_range; [lia|unfold u32; apply Z.mod_pos_bound; lia|].
  unfold poly. destruct (Z.testbit x 31); lia.
Qed.

Lemma crc_calc_from bytes : forall crc, is_u32 crc -> byte_list bytes ->
  foldM (fun i_crc b =>
    t ← arr_get crc_table (Z.land (Z.lxor (Z.shiftr i_crc 24) b) 0xff);
    Ok (Z.lxor (u32 (Z.shiftl i_crc 8)) t)) crc bytes = Ok (foldl crc_byte crc bytes).
Proof.
  induction bytes as [|b bytes IH]; intros crc Hc Hb; cbn [foldM foldl]; [done|].
  apply Forall_cons in Hb as [Hb Hbs]. destruct (crc_step crc b Hc Hb) as [E1 E2].
  rewrite E1. cbn [mbind result_bind]. rewrite <-E2. apply IH; [|done].
  unfold crc_byte. apply crc_bit_range.
Qed.

(** ** Properties *)

(** C13: [CRCInit] fills its table without looping, and [CRCCalc] over that table
    is the bit-by-bit CRC-32 (polynomial 0x04c11db7, most significant bit
    first, all-ones initial value) of any byte string. *)
Theorem crc_table_driven_correct bytes :
  byte_list bytes ->
  exists tbl, CRCInit = Ok tbl /\ length tbl = 256%nat /\
    CRCCalc tbl bytes = Ok (crc32_ref bytes).
Proof.
  intros Hb. exists crc_table. split; [apply CRCInit_ok|]. split; [reflexivity|].
  unfold CRCCalc, crc32_ref. apply crc_calc_from; [unfold is_u32; lia|done].
Qed.

Lemma crc_table_driven_correct_witness :
  crc32_ref [49; 50; 51; 52; 53; 54; 55; 56; 57] = 0x0376e6e7 /\
  exists tbl, CRCInit = Ok tbl /\ length tbl = 256%nat /\
    CRCCalc tbl [49; 50; 51; 52; 53; 54; 55; 56; 57] =
    Ok (crc32_ref [49; 50; 51; 52; 53; 54; 55; 56; 57]).
Proof.
  split; [vm_compute; reflexivity|].
  apply (crc_table_driven_correct [49; 50; 51; 52; 53; 54; 55; 56; 57]).
  repeat constructor; unfold is_u8; lia.
Defined.
