(* ===== verification/PtcClient.v ===== *)
(** * PtcClient: queries to the lidar over TCP

    [PtcClient] of PtcClient/src/ptc_client.cc.  The connection is the
    interface [ClientBase] of PtcClient/include/client_base.h; [StreamPeer]
    states what the client relies on: a receive of at most [n] bytes returns a
    non-empty prefix of the next segment of the peer's byte stream, and nothing
    once the stream is used up.  How the stream is cut into segments is up to
    the network.  The receive loops take fuel: one unit per call of [Receive]. *)

From S2P Require Import Prelude Bytes Ptc.
Local Open Scope Z_scope.

(** [Send(u8Buf, u16Len)] and [Receive(u8Buf, u32Len)]: the value returned, the
    bytes stored, and the connection afterwards. *)
Class ClientBase (C : Type) : Type := {
  Send : list Z -> Z -> C -> Z * C;
  Receive : Z -> C -> (Z * list Z) * C;
}.

(** What is left of a stream after a receive of at most [n] bytes. *)
Definition after_recv (n : Z) (s : list Z) (segs : list (list Z)) : list (list Z) :=
  if Z.of_nat (length s) <=? n then segs else drop (Z.to_nat n) s :: segs.

Class StreamPeer (C : Type) `{ClientBase C} : Type := {
  avail : C -> list (list Z) -> Prop;
  recv_some c s segs n : avail c (s :: segs) -> s <> [] -> 0 < n ->
    exists c', Receive n c = ((Z.min n (Z.of_nat (length s)), take (Z.to_nat n) s), c')
      /\ avail c' (after_recv n s segs);
  recv_none c n : avail c [] ->
    exists k c', Receive n c = ((k, []), c') /\ k <= 0;
  send_all c segs buf : avail c segs -> Z.of_nat (length buf) < 2 ^ 16 ->
    exists c', Send buf (u16 (Z.of_nat (length buf))) c = (Z.of_nat (length buf), c')
      /\ avail c' segs;
}.

(** Command codes of PtcClient/include/ptc_client.h. *)
Definition kPTCGetPTPLockOffset : Z := 0x3a.
Definition kPTCGetLidarStatus : Z := 0x09.
Definition kPTCGetPTPDiagnostics : Z := 0x06.
Definition kPTCGetLidarCalibration : Z := 0x05.
Definition kPTCGetLidarFiretimes : Z := 0xA9.
Definition kPTCGetLidarChannelConfig : Z := 0xA8.
Definition kPTCSetReturnMode : Z := 0x1E.
Definition kPTCSetSyncAngle : Z := 0x18.
Definition kPTCSetStandbyMode : Z := 0x1C.
Definition kPTCSetSpinSpeed : Z := 0x17.
Definition kPTCSetTemFpgaRegister : Z := 0x00010031.
Definition kPTCSetFpgaRegister : Z := 0x0D.

Section Query.
Context {C : Type} {CB : ClientBase C} {H : Type} {PP : PtcProtocol H}.
Variable le : bool.

(** The index of the first adjacent pair of identifier bytes. *)
Fixpoint find_identifier (l : list Z) (i : Z) : option Z :=
  match l with
  | a :: (b :: _) as tl =>
      if (a =? GetHeaderIdentifier0 (H := H)) && (b =? GetHeaderIdentifier1 (H := H))
      then Some i else find_identifier tl (i + 1)
  | _ => None
  end.

(** while (nLeft > 0) of the header: look for the identifiers in what a call of
    [Receive] delivered, and once they are found append to the header buffer. *)
Fixpoint header_loop (fuel : nat) (nLeft : Z) (bHeaderFound : bool) (nValidDataLen : Z)
    (headerBuf : list Z) (c : C) : result (Z * list Z * C) :=
  if nLeft <=? 0 then Ok (nLeft, headerBuf, c)
  else match fuel with
  | O => Err NoProgress
  | S fuel =>
      let '((nOnceRecvLen, recv), c) := Receive nLeft c in
      if nOnceRecvLen <=? 0 then Ok (nLeft, headerBuf, c)
      else if negb bHeaderFound then
        match find_identifier recv 0 with
        | Some i =>
            let nValidDataLen := nOnceRecvLen - i in
            src ← arr_slice recv i nValidDataLen;
            headerBuf ← arr_blit headerBuf 0 src;
            header_loop fuel (nLeft - nValidDataLen) true nValidDataLen headerBuf c
        | None => header_loop fuel nLeft false nValidDataLen headerBuf c
        end
      else
        headerBuf ← arr_blit headerBuf nValidDataLen recv;
        header_loop fuel (nLeft - nOnceRecvLen) true (nValidDataLen + nOnceRecvLen) headerBuf c
  end.

(** while (nLeft > 0) of the body; [pos] is [pBodyBuf - u8BodyBuf.data()]. *)
Fixpoint body_loop (fuel : nat) (nLeft pos : Z) (bodyBuf : list Z) (c : C)
    : result (Z * list Z * C) :=
  if nLeft <=? 0 then Ok (nLeft, bodyBuf, c)
  else match fuel with
  | O => Err NoProgress
  | S fuel =>
      let '((nOnceRecvLen, recv), c) := Receive nLeft c in
      if nOnceRecvLen <=? 0 then Ok (nLeft, bodyBuf, c)
      else
        bodyBuf ← arr_blit bodyBuf pos recv;
        body_loop fuel (nLeft - nOnceRecvLen) (pos + nOnceRecvLen) bodyBuf c
  end.

(** The whole of [QueryCommand], the logging left out: the value returned, what
    [byteStreamOut] holds, and the connection. *)
Definition QueryCommand (fuel : nat) (byteStreamIn byteStreamOut : list Z) (u8Cmd : Z) (c : C)
    : result (Z * list Z * C) :=
  '(_, encoded) ← PtcStreamEncode H le byteStreamIn [] u8Cmd;
  let '(nLen, c) := Send encoded (u16 (Z.of_nat (length encoded))) c in
  let headerSize := Z.of_nat (GetHeaderSize (H := H)) in
  if negb (nLen =? i32 (Z.of_nat (length encoded))) then Ok (-1, byteStreamOut, c)
  else
    '(nLeft, headerBuf, c) ←
      header_loop fuel headerSize false 0 (replicate (GetHeaderSize (H := H)) 0) c;
    if 0 <? nLeft then Ok (-1, byteStreamOut, c)
    else
      pPTCHeader ← cast (H := H) le headerBuf;
      if negb (IsValidReturnCode pPTCHeader) || negb (header_cmd pPTCHeader =? u8Cmd)
      then Ok (-1, byteStreamOut, c)
      else
        let nPayLoadLen := i32 (GetPayloadLen le pPTCHeader) in
        if nPayLoadLen <=? 0 then Ok (0, byteStreamOut, c)
        else
          '(nLeft, bodyBuf, c) ←
            body_loop fuel nPayLoadLen 0 (replicate (Z.to_nat nPayLoadLen) 0) c;
          if 0 <? nLeft then Ok (-1, byteStreamOut, c)
          else Ok (0, bodyBuf, c).

Definition SendCommand (fuel : nat) (byteStreamIn : list Z) (u8Cmd : Z) (c : C) : result (Z * C) :=
  '(ret, _, c) ← QueryCommand fuel byteStreamIn [] u8Cmd c;
  Ok (ret, c).

(** The queries that only report whether an answer with a payload came. *)
Definition query_nonempty (fuel : nat) (dataIn dataOut : list Z) (u8Cmd : Z) (c : C)
    : result (Z * list Z * C) :=
  '(ret, dataOut, c) ← QueryCommand fuel dataIn dataOut u8Cmd c;
  if (ret =? 0) && negb (Nat.eqb (length dataOut) 0) then Ok (0, dataOut, c)
  else Ok (-1, dataOut, c).

Definition GetPTPDiagnostics (fuel : nat) (dataOut : list Z) (query_type : Z) (c : C) :=
  query_nonempty fuel [query_type] dataOut kPTCGetPTPDiagnostics c.
Definition GetPTPLockOffset (fuel : nat) (dataOut : list Z) (c : C) :=
  query_nonempty fuel [] dataOut kPTCGetPTPLockOffset c.
Definition GetCorrectionInfo (fuel : nat) (dataOut : list Z) (c : C) :=
  query_nonempty fuel [] dataOut kPTCGetLidarCalibration c.
Definition GetFiretimesInfo (fuel : nat) (dataOut : list Z) (c : C) :=
  query_nonempty fuel [] dataOut kPTCGetLidarFiretimes c.
Definition GetChannelConfigInfo (fuel : nat) (dataOut : list Z) (c : C) :=
  query_nonempty fuel [] dataOut kPTCGetLidarChannelConfig c.

(** The setters return the int of [QueryCommand] as a bool. *)
Definition query_bool (fuel : nat) (input : list Z) (u8Cmd : Z) (c : C) : result (bool * C) :=
  '(ret, _, c) ← QueryCommand fuel input [] u8Cmd c;
  Ok (negb (ret =? 0), c).

(** The [n] most significant bytes first: static_cast<uint8_t>(v >> 8 * k). *)
Definition bytes_of (n : nat) (v : Z) : list Z :=
  (fun k => u8 (Z.shiftr v (8 * k))) <$> reverse (seqZ 0 (Z.of_nat n)).

Definition SetReturnMode (fuel : nat) (return_mode : Z) (c : C) :=
  query_bool fuel [return_mode] kPTCSetReturnMode c.
Definition SetSyncAngle (fuel : nat) (enable_flag sync_angle : Z) (c : C) :=
  query_bool fuel (enable_flag :: bytes_of 2 sync_angle) kPTCSetSyncAngle c.
Definition SetTmbFPGARegister (fuel : nat) (address data : Z) (c : C) :=
  query_bool fuel (bytes_of 4 kPTCSetTemFpgaRegister ++ bytes_of 4 address ++ bytes_of 4 data) 0xff c.
Definition SetFPGARegister (fuel : nat) (address data : Z) (c : C) :=
  query_bool fuel (bytes_of 4 address ++ bytes_of 4 data) kPTCSetFpgaRegister c.
Definition SetStandbyMode (fuel : nat) (standby_mode : Z) (c : C) :=
  query_bool fuel (bytes_of 1 standby_mode) kPTCSetStandbyMode c.
Definition SetSpinSpeed (fuel : nat) (speed : Z) (c : C) :=
  query_bool fuel (bytes_of 2 speed) kPTCSetSpinSpeed c.

(** [IsValidRsp]: drops bytes until the vector starts with the identifiers. *)
Fixpoint drop_to_identifier (l : list Z) : list Z :=
  match l with
  | a :: (b :: _) as tl =>
      if negb (a =? GetHeaderIdentifier0 (H := H)) || negb (b =? GetHeaderIdentifier1 (H := H))
      then drop_to_identifier tl else l
  | _ => l
  end.

Definition IsValidRsp (byteStreamIn : list Z) : result (bool * list Z) :=
  let s := drop_to_identifier byteStreamIn in
  if Nat.ltb (length s) (GetHeaderSize (H := H)) then Ok (false, s)
  else pHeader ← cast (H := H) le s; Ok (IsValidReturnCode pHeader, s).

End Query.
Arguments query_nonempty {C _} H {_} le fuel dataIn dataOut u8Cmd c.
Arguments QueryCommand {C _} H {_} le fuel byteStreamIn byteStreamOut u8Cmd c.
Arguments header_loop {C _} H {_} fuel nLeft bHeaderFound nValidDataLen headerBuf c.
Arguments find_identifier H {_} l i.
Arguments query_bool {C _} H {_} le fuel input u8Cmd c.
Arguments SetReturnMode {C _} H {_} le fuel return_mode c.
Arguments SetSyncAngle {C _} H {_} le fuel enable_flag sync_angle c.
Arguments SetTmbFPGARegister {C _} H {_} le fuel address data c.
Arguments SetFPGARegister {C _} H {_} le fuel address data c.
Arguments SetStandbyMode {C _} H {_} le fuel standby_mode c.
Arguments SetSpinSpeed {C _} H {_} le fuel speed c.
Arguments GetCorrectionInfo {C _} H {_} le fuel dataOut c.
Arguments GetPTPDiagnostics {C _} H {_} le fuel dataOut query_type c.
Arguments GetPTPLockOffset {C _} H {_} le fuel dataOut c.
Arguments GetFiretimesInfo {C _} H {_} le fuel dataOut c.
Arguments GetChannelConfigInfo {C _} H {_} le fuel dataOut c.
Arguments drop_to_identifier H {_} l.
Arguments IsValidRsp H {_} le byteStreamIn.

(** The constructor picks the protocol; every later call goes through it. *)
Definition QueryCommand_version {C} `{ClientBase C} (ptc_version : Z) (le : bool) (fuel : nat)
    (byteStreamIn byteStreamOut : list Z) (u8Cmd : Z) (c : C) : result (Z * list Z * C) :=
  p ← new_PtcParser ptc_version;
  match p with
  | Parser_1_0 => QueryCommand PTCHeader_1_0 le fuel byteStreamIn byteStreamOut u8Cmd c
  | Parser_2_0 => QueryCommand PTCHeader_2_0 le fuel byteStreamIn byteStreamOut u8Cmd c
  end.

(** [extractField<T>]: big-endian, advancing [offset]; [data[offset]] is
    unchecked. *)
Fixpoint extractField (n : nat) (field : Z) (width : nat) (data : list Z) (offset : Z)
    : result (Z * Z) :=
  match n with
  | O => Ok (field, offset)
  | S n =>
      b ← arr_get data offset;
      extractField n ((Z.lor (Z.shiftl field 8) b) mod 2 ^ (8 * Z.of_nat width)) width data (offset + 1)
  end.

(** The fields of [GetLidarStatus], in the order they are read. *)
Definition status_widths : list nat := [4; 2; 4; 4; 4; 4; 4; 4; 4; 4; 1; 1; 4; 4; 1]%nat.

Definition parse_status (dataOut : list Z) : result (list Z * Z) :=
  foldM (fun '(fields, offset) w =>
    '(v, offset) ← extractField w 0 w dataOut offset; Ok (fields ++ [v], offset))
    ([], 0) status_widths.

Definition GetLidarStatus {C} {CB : ClientBase C} (H : Type) {PP : PtcProtocol H} (le : bool)
    (fuel : nat) (c : C) : result (Z * C) :=
  '(ret, dataOut, c) ← QueryCommand H le fuel [] [] kPTCGetLidarStatus c;
  if (ret =? 0) && negb (Nat.eqb (length dataOut) 0) then
    _ ← parse_status dataOut;
    Ok (0, c)
  else Ok (-1, c).

(** ** A scripted peer: the segments it will deliver and what it was sent *)

Record stream : Type := mk_stream { incoming : list (list Z); outgoing : list Z }.

#[export] Instance stream_client : ClientBase stream := {|
  Send buf u16Len c :=
    (u16Len, mk_stream (incoming c) (outgoing c ++ take (Z.to_nat u16Len) buf));
  Receive n c :=
    match incoming c with
    | [] => ((-1, []), c)
    | s :: segs =>
        ((Z.min n (Z.of_nat (length s)), take (Z.to_nat n) s),
         mk_stream (after_recv n s segs) (outgoing c))
    end;
|}.

(** Splits a list into consecutive chunks of the given widths. *)
Fixpoint chunks (ws : list nat) (l : list Z) : list (list Z) :=
  match ws with [] => [] | w :: ws => take w l :: chunks ws (drop w l) end.

(** ** Lemmas *)

Definition nonempty (segs : list (list Z)) : Prop := Forall (fun s => s <> []) segs.

Definition total (segs : list (list Z)) : nat := length (concat segs).

#[export] Instance stream_peer : StreamPeer stream.
Proof.
  refine {| avail c segs := incoming c = segs |}.
  - intros [segs0 out] s segs n E Hs Hn. cbn in *. subst. eauto.
  - intros [segs0 out] n E. cbn in *. subst. eexists _, _. split; [reflexivity|lia].
  - intros [segs0 out] segs buf E Hl. cbn in *. unfold u16. rewrite Z.mod_small by lia. eauto.
Defined.

Section QueryLemmas.
Context {C : Type} {CB : ClientBase C} {SP : StreamPeer C}.
Context {H : Type} {PP : PtcProtocol H} {PL : PtcProtocolLaws H}.
Variable le : bool.

Lemma nonempty_cons s segs : nonempty (s :: segs) <-> s <> [] /\ nonempty segs.
Proof. unfold nonempty. by rewrite Forall_cons. Qed.

Lemma after_recv_nonempty n s segs :
  0 < n -> nonempty (s :: segs) -> nonempty (after_recv n s segs).
Proof.
  rewrite nonempty_cons. intros Hn [Hs Hsegs]. unfold after_recv.
  destruct (Z.leb_spec (Z.of_nat (length s)) n); [done|]. apply nonempty_cons; split; [|done].
  intros E. apply (f_equal length) in E. rewrite length_drop in E. cbn in E. lia.
Qed.

Lemma after_recv_concat n s segs :
  0 < n -> concat (after_recv n s segs)
  = drop (Z.to_nat (Z.min n (Z.of_nat (length s)))) (concat (s :: segs)).
Proof.
  intros Hn. unfold after_recv. cbn [concat].
  destruct (Z.leb_spec (Z.of_nat (length s)) n).
  - rewrite Z.min_r, Nat2Z.id by lia. by rewrite drop_app_length.
  - rewrite Z.min_l, drop_app_le by lia. done.
Qed.

(** Once the identifiers are found the header loop is the body loop. *)
Lemma header_loop_found fuel : forall nLeft pos buf (c : C),
  header_loop H fuel nLeft true pos buf c = body_loop fuel nLeft pos buf c.
Proof.
  induction fuel as [|fuel IH]; intros; cbn; [done|].
  destruct (nLeft <=? 0); [done|]. destruct (Receive nLeft c) as [[k recv] c'].
  destruct (k <=? 0); [done|]. destruct (arr_blit buf pos recv); [apply IH|done].
Qed.

(** The body loop reads exactly what it was asked for, however the stream is
    cut into segments. *)
Lemma body_loop_reads fuel : forall nLeft pos buf (c : C) segs,
  avail c segs -> nonempty segs ->
  0 <= nLeft <= Z.of_nat (total segs) -> 0 <= pos ->
  Z.of_nat (length buf) = pos + nLeft -> nLeft <= Z.of_nat fuel ->
  exists c' segs',
    body_loop fuel nLeft pos buf c
      = Ok (0, take (Z.to_nat pos) buf ++ take (Z.to_nat nLeft) (concat segs), c')
    /\ avail c' segs' /\ nonempty segs'
    /\ concat segs' = drop (Z.to_nat nLeft) (concat segs).
Proof.
  unfold total. induction fuel as [|fuel IH]; intros nLeft pos buf c segs Ha Hne Hn Hp Hb Hf; cbn.
  - replace nLeft with 0 by lia. cbn. exists c, segs.
    rewrite app_nil_r, take_ge by lia. done.
  - destruct (Z.leb_spec nLeft 0).
    { replace nLeft with 0 by lia. exists c, segs. cbn.
      rewrite app_nil_r, take_ge by lia. done. }
    destruct segs as [|s segs]; [cbn in Hn; lia|].
    pose proof Hne as [Hs Hsegs]%nonempty_cons.
    assert (0 < length s)%nat as Hls by (destruct s; [done|cbn; lia]).
    destruct (recv_some c s segs nLeft Ha Hs) as (c' & -> & Ha'); [lia|].
    set (k := Z.min nLeft (Z.of_nat (length s))) in *.
    destruct (Z.leb_spec k 0); [lia|].
    assert (length (take (Z.to_nat nLeft) s) = Z.to_nat k) as Hk by (rewrite length_take; lia).
    rewrite arr_blit_ok by lia. cbn [mbind result_bind].
    destruct (IH (nLeft - k) (pos + k) (take (Z.to_nat pos) buf ++ take (Z.to_nat nLeft) s
        ++ drop (Z.to_nat pos + length (take (Z.to_nat nLeft) s)) buf) c' (after_recv nLeft s segs))
      as (c2 & segs2 & E & Ha2 & Hne2 & Hc2); [done|by apply after_recv_nonempty| |lia| |lia|].
    { rewrite after_recv_concat, length_drop by lia. lia. }
    { rewrite !length_app, length_drop, length_take. lia. }
    exists c2, segs2. rewrite E. split; [|split; [done|split; [done|]]].
    + f_equal. f_equal. f_equal. rewrite after_recv_concat by lia. cbn [concat].
      rewrite app_assoc, (take_app_length' (take (Z.to_nat pos) buf ++ take (Z.to_nat nLeft) s)).
      2: { rewrite length_app, Hk, length_take. lia. }
      rewrite <-app_assoc. f_equal.
      assert (take (Z.to_nat nLeft) s = take (Z.to_nat k) (s ++ concat segs)) as ->.
      { rewrite take_app_le by lia. destruct (Z.le_ge_cases nLeft (Z.of_nat (length s))).
        - by replace k with nLeft by lia.
        - by rewrite !take_ge by lia. }
      rewrite take_take_drop. f_equal. lia.
    + rewrite Hc2, after_recv_concat, drop_drop by lia. f_equal. lia.
Qed.

(** Whatever the peer sends, the body loop stays inside its buffer and ends
    once the stream does. *)
Lemma body_loop_total fuel : forall nLeft pos buf (c : C) segs,
  avail c segs -> nonempty segs -> 0 <= nLeft -> 0 <= pos ->
  Z.of_nat (length buf) = pos + nLeft -> (total segs < fuel)%nat ->
  exists n' buf' c' segs',
    body_loop fuel nLeft pos buf c = Ok (n', buf', c') /\ length buf' = length buf
    /\ (0 < n' \/ avail c' segs' /\ nonempty segs' /\ (total segs' <= total segs)%nat).
Proof.
  unfold total. induction fuel as [|fuel IH]; intros nLeft pos buf c segs Ha Hne Hn Hp Hb Hf; [lia|].
  cbn [body_loop]. destruct (Z.leb_spec nLeft 0); [eauto 10|].
  destruct segs as [|s segs].
  { destruct (recv_none c nLeft Ha) as (k & c' & -> & Hk).
    destruct (Z.leb_spec k 0); [|lia]. exists nLeft, buf, c', []. auto. }
  pose proof Hne as [Hs Hsegs]%nonempty_cons.
  assert (0 < length s)%nat as Hls by (destruct s; [done|cbn; lia]).
  destruct (recv_some c s segs nLeft Ha Hs) as (c' & -> & Ha'); [lia|].
  set (k := Z.min nLeft (Z.of_nat (length s))) in *.
  destruct (Z.leb_spec k 0); [lia|].
  assert ((length (concat (after_recv nLeft s segs)) < fuel)%nat
    /\ (length (concat (after_recv nLeft s segs)) <= length (concat (s :: segs)))%nat) as [Hlt Hle].
  { rewrite after_recv_concat, length_drop by lia. cbn [concat] in *.
    rewrite length_app in *. lia. }
  destruct (arr_blit buf pos (take (Z.to_nat nLeft) s)) as [buf'|f] eqn:E.
  2: { rewrite arr_blit_ok in E; [done|lia|rewrite length_take; lia]. }
  apply arr_blit_length in E as Hl. cbn [mbind result_bind].
  destruct (IH (nLeft - k) (pos + k)
    buf' c' (after_recv nLeft s segs)) as (n' & buf2 & c2 & segs2 & -> & ? & Hn2);
    [done|by apply after_recv_nonempty|lia|lia|lia|done|].
  eexists _, _, _, segs2. split; [reflexivity|]. split; [congruence|]. intuition lia.
Qed.

Lemma find_identifier_range l : forall i j,
  find_identifier H l i = Some j -> i <= j /\ j + 1 < i + Z.of_nat (length l).
Proof.
  induction l as [|a l IH]; intros i j; cbn; [done|].
  destruct l as [|b l]; [done|].
  case_match; [intros [= <-]; cbn; lia|]. intros Hj%IH. cbn in *. lia.
Qed.

(** The same for the header loop, before and after the identifiers are found. *)
Lemma header_loop_total fuel : forall nLeft buf (c : C) segs nv,
  avail c segs -> nonempty segs -> 0 <= nLeft ->
  Z.of_nat (length buf) = nLeft -> (total segs < fuel)%nat ->
  exists n' buf' c' segs',
    header_loop H fuel nLeft false nv buf c = Ok (n', buf', c') /\ length buf' = length buf
    /\ (0 < n' \/ avail c' segs' /\ nonempty segs' /\ (total segs' <= total segs)%nat).
Proof.
  unfold total. induction fuel as [|fuel IH]; intros nLeft buf c segs nv Ha Hne Hn Hb Hf; [lia|].
  cbn [header_loop]. destruct (Z.leb_spec nLeft 0); [eauto 10|].
  destruct segs as [|s segs].
  { destruct (recv_none c nLeft Ha) as (k & c' & -> & Hk).
    destruct (Z.leb_spec k 0); [|lia]. exists nLeft, buf, c', []. auto. }
  pose proof Hne as [Hs Hsegs]%nonempty_cons.
  assert (0 < length s)%nat as Hls by (destruct s; [done|cbn; lia]).
  destruct (recv_some c s segs nLeft Ha Hs) as (c' & -> & Ha'); [lia|].
  set (k := Z.min nLeft (Z.of_nat (length s))) in *.
  destruct (Z.leb_spec k 0); [lia|]. cbn [negb].
  assert (length (take (Z.to_nat nLeft) s) = Z.to_nat k) as Hk by (rewrite length_take; lia).
  assert ((length (concat (after_recv nLeft s segs)) < fuel)%nat
    /\ (length (concat (after_recv nLeft s segs)) <= length (concat (s :: segs)))%nat) as [Hlt Hle].
  { rewrite after_recv_concat, length_drop by lia. cbn [concat] in *.
    rewrite length_app in *. lia. }
  destruct (find_identifier H (take (Z.to_nat nLeft) s) 0) as [i|] eqn:Ei.
  - apply find_identifier_range in Ei as [Hi1 Hi2].
    rewrite arr_slice_ok by lia. cbn [mbind result_bind].
    destruct (arr_blit buf 0 _) as [buf'|f] eqn:E.
    2: { rewrite arr_blit_ok in E; [done|lia|rewrite length_take, length_drop; lia]. }
    apply arr_blit_length in E as Hl. cbn [mbind result_bind]. rewrite header_loop_found.
    destruct (body_loop_total fuel (nLeft - (k - i)) (k - i) buf' c' (after_recv nLeft s segs))
      as (n' & buf2 & c2 & segs2 & -> & ? & Hn2);
      [done|by apply after_recv_nonempty|lia|lia|lia|done|].
    eexists _, _, _, segs2. split; [reflexivity|]. split; [congruence|].
    unfold total in *. intuition lia.
  - destruct (IH nLeft buf c' (after_recv nLeft s segs) nv) as (n' & buf2 & c2 & segs2 & -> & ? & Hn2);
      [done|by apply after_recv_nonempty|lia|lia|done|].
    eexists _, _, _, segs2. split; [reflexivity|]. intuition lia.
Qed.

Lemma u16_small z : 0 <= z < 2 ^ 16 -> u16 z = z.
Proof. apply Z.mod_small. Qed.

Lemma i32_small z : - 2 ^ 31 <= z < 2 ^ 31 -> i32 z = z.
Proof. intros. unfold i32. rewrite Z.mod_small by lia. lia. Qed.

Lemma encoded_length cmd n (payload : list Z) :
  length (image (H := H) le (SetPayloadLen le n (init cmd)) ++ payload)
  = (GetHeaderSize (H := H) + length payload)%nat.
Proof. by rewrite length_app, image_length. Qed.

(** The request goes out whole when the peer takes it. *)
Lemma send_request (c : C) segs cmd payload :
  avail c segs ->
  Z.of_nat (GetHeaderSize (H := H)) + Z.of_nat (length payload) < 2 ^ 16 ->
  let encoded := image (H := H) le (SetPayloadLen le (u32 (Z.of_nat (length payload))) (init cmd)) ++ payload in
  exists c', Send encoded (u16 (Z.of_nat (length encoded))) c = (i32 (Z.of_nat (length encoded)), c')
    /\ avail c' segs.
Proof.
  intros Ha Hl encoded. assert (Z.of_nat (length encoded) < 2 ^ 16) as Hlt.
  { unfold encoded. rewrite encoded_length. lia. }
  destruct (send_all c segs encoded Ha Hlt) as (c' & -> & Ha'). exists c'.
  rewrite i32_small by lia. done.
Qed.

(** A header that starts the stream is read whole, whatever the segmentation
    behind its first two bytes. *)
Lemma header_loop_reads fuel (c : C) segs hdr rest s :
  avail c (s :: segs) -> nonempty (s :: segs) -> (2 <= length s)%nat ->
  concat (s :: segs) = hdr ++ rest -> length hdr = GetHeaderSize (H := H) ->
  (exists tl, hdr = GetHeaderIdentifier0 (H := H) :: GetHeaderIdentifier1 (H := H) :: tl) ->
  Z.of_nat (GetHeaderSize (H := H)) <= Z.of_nat fuel ->
  exists c' segs',
    header_loop H fuel (Z.of_nat (GetHeaderSize (H := H))) false 0
      (replicate (GetHeaderSize (H := H)) 0) c = Ok (0, hdr, c')
    /\ avail c' segs' /\ nonempty segs' /\ concat segs' = rest.
Proof.
  intros Ha Hne Hs2 Hcat Hlen [tl Htl] Hf.
  set (hs := GetHeaderSize (H := H)) in *.
  pose proof (header_size_pos (H := H)) as Hhs. fold hs in Hhs.
  destruct fuel as [|fuel]; [lia|]. cbn [header_loop].
  destruct (Z.leb_spec (Z.of_nat hs) 0); [lia|].
  pose proof Hne as [Hs Hsegs]%nonempty_cons.
  destruct (recv_some c s segs (Z.of_nat hs) Ha Hs) as (c' & -> & Ha'); [lia|].
  set (k := Z.min (Z.of_nat hs) (Z.of_nat (length s))) in *.
  destruct (Z.leb_spec k 0); [lia|]. cbn [negb].
  assert (take (Z.to_nat (Z.of_nat hs)) s = take (Z.to_nat k) hdr) as Htk.
  { assert (take (Z.to_nat k) hdr = take (Z.to_nat k) (concat (s :: segs))) as ->.
    { rewrite Hcat, take_app_le by lia. done. }
    cbn [concat]. rewrite take_app_le by lia. unfold k.
    destruct (Z.le_ge_cases (Z.of_nat hs) (Z.of_nat (length s))).
    - by rewrite Z.min_l by lia.
    - by rewrite !take_ge by lia. }
  rewrite Htk.
  assert (find_identifier H (take (Z.to_nat k) hdr) 0 = Some 0) as ->.
  { rewrite Htl. destruct (Z.to_nat k) as [|[|k']] eqn:Ek; [lia|lia|]. cbn.
    by rewrite !Z.eqb_refl. }
  assert (length (take (Z.to_nat k) hdr) = Z.to_nat k) as Hlk by (rewrite length_take; lia).
  rewrite arr_slice_ok by lia. cbn [mbind result_bind].
  rewrite Z.sub_0_r. change (Z.to_nat 0) with 0%nat. rewrite drop_0, (take_ge (take _ hdr)) by lia.
  rewrite arr_blit_ok by (rewrite ?Hlk, ?length_replicate; lia). cbn [mbind result_bind].
  change (Z.to_nat 0) with 0%nat. rewrite take_0, app_nil_l, Nat.add_0_l, header_loop_found, Hlk.
  destruct (body_loop_reads fuel (Z.of_nat hs - k) k
      (take (Z.to_nat k) hdr ++ drop (Z.to_nat k) (replicate hs 0)) c' (after_recv (Z.of_nat hs) s segs))
    as (c2 & segs2 & -> & Ha2 & Hne2 & Hc2).
  - done.
  - by apply after_recv_nonempty; [lia|].
  - unfold total. rewrite after_recv_concat, Hcat, length_drop, length_app by lia. lia.
  - lia.
  - rewrite length_app, length_drop, length_replicate. lia.
  - lia.
  - rewrite after_recv_concat in * by lia. fold k in Hc2 |- *.
    exists c2, segs2. split; [|split; [done|split; [done|]]].
    + rewrite Hcat, take_app_length', drop_app_le, take_app_length' by (rewrite ?length_drop; lia).
      by rewrite take_drop.
    + rewrite Hc2, Hcat, drop_drop, drop_app_length'; [done|lia].
Qed.

End QueryLemmas.

(** ** Properties *)

(** C11: a query that the peer answers with a well-formed response (the header
    of the command, a return code of zero, and the payload the header
    announces) returns 0 and exactly that payload, and leaves the rest of the
    stream unread, however TCP cuts the response into segments once the two
    identifier bytes arrive together. *)
Theorem query_answered {C} {CB : ClientBase C} {SP : StreamPeer C}
    {H} {PP : PtcProtocol H} {PL : PtcProtocolLaws H}
    le fuel request out cmd (c : C) s segs payload rest :
  avail c (s :: segs) -> nonempty (s :: segs) -> (2 <= length s)%nat -> is_u8 cmd ->
  concat (s :: segs) =
    image (H := H) le (SetPayloadLen le (u32 (Z.of_nat (length payload))) (init cmd)) ++ payload ++ rest ->
  Z.of_nat (GetHeaderSize (H := H)) + Z.of_nat (length request) < 2 ^ 16 ->
  Z.of_nat (length payload) < 2 ^ 31 ->
  Z.of_nat (GetHeaderSize (H := H)) + Z.of_nat (length payload) <= Z.of_nat fuel ->
  exists c' segs',
    QueryCommand H le fuel request out cmd c
      = Ok (0, if Nat.eqb (length payload) 0 then out else payload, c')
    /\ avail c' segs' /\ concat segs' = rest.
Proof.
  intros Ha Hne Hs Hcmd Hcat Hreq Hpay Hf. unfold QueryCommand.
  rewrite (encode_stream H). cbn [mbind result_bind].
  edestruct (send_request (H := H) le c _ cmd request Ha Hreq) as (c1 & -> & Ha1).
  rewrite Z.eqb_refl. cbn [negb].
  assert (u32 (Z.of_nat (length payload)) = Z.of_nat (length payload)) as Hu.
  { unfold u32. apply Z.mod_small. lia. }
  edestruct (header_loop_reads (H := H) fuel c1 segs _ (payload ++ rest) s Ha1 Hne Hs Hcat)
    as (c2 & segs2 & -> & Ha2 & Hne2 & Hc2); [apply image_length|apply image_identifiers|lia|].
  cbn [mbind result_bind Z.ltb Z.compare]. rewrite Hu.
  destruct (cast_image (H := H) le cmd (Z.of_nat (length payload)) [] Hcmd) as (h & Eh & Hv & Hc & Hn).
  { unfold is_u32. lia. }
  rewrite app_nil_r in Eh. rewrite Eh. cbn [mbind result_bind].
  rewrite Hv, Hc, Z.eqb_refl, Hn, i32_small by lia. cbn [negb orb].
  destruct (Nat.eqb_spec (length payload) 0) as [E|E].
  { rewrite E. cbn. exists c2, segs2. apply length_zero_iff_nil in E as ->. done. }
  destruct (Z.leb_spec (Z.of_nat (length payload)) 0); [lia|].
  destruct (body_loop_reads fuel (Z.of_nat (length payload)) 0
    (replicate (Z.to_nat (Z.of_nat (length payload))) 0) c2 segs2) as (c3 & segs3 & -> & Ha3 & _ & Hc3).
  - done.
  - done.
  - unfold total. rewrite Hc2, length_app. lia.
  - lia.
  - rewrite length_replicate. lia.
  - lia.
  - cbn. exists c3, segs3. rewrite Hc2, Nat2Z.id, take_app_length. split; [done|].
    split; [done|]. by rewrite Hc3, Hc2, Nat2Z.id, drop_app_length.
Qed.

(** C35: whatever bytes the peer sends, and however they are cut, a query
    returns 0 or -1 without leaving its buffers. *)
Theorem query_total {C} {CB : ClientBase C} {SP : StreamPeer C}
    {H} {PP : PtcProtocol H} {PL : PtcProtocolLaws H} le fuel request out cmd (c : C) segs :
  avail c segs -> nonempty segs ->
  Z.of_nat (GetHeaderSize (H := H)) + Z.of_nat (length request) < 2 ^ 16 ->
  (total segs < fuel)%nat ->
  exists ret out' c', QueryCommand H le fuel request out cmd c = Ok (ret, out', c')
    /\ (ret = 0 \/ ret = -1).
Proof.
  intros Ha Hne Hreq Hf. unfold QueryCommand. rewrite (encode_stream H). cbn [mbind result_bind].
  edestruct (send_request (H := H) le c _ cmd request Ha Hreq) as (c1 & -> & Ha1).
  rewrite Z.eqb_refl. cbn [negb].
  destruct (header_loop_total (H := H) fuel (Z.of_nat (GetHeaderSize (H := H)))
    (replicate (GetHeaderSize (H := H)) 0) c1 segs 0)
    as (n & buf & c2 & segs2 & -> & Hl & Hn);
    [done|done|lia|rewrite length_replicate; lia|done|].
  cbn [mbind result_bind]. destruct (Z.ltb_spec 0 n); [eauto 10|].
  destruct Hn as [|(Ha2 & Hne2 & Ht)]; [lia|].
  destruct (cast_enough (H := H) le buf) as [h ->]; [rewrite Hl, length_replicate; lia|].
  cbn [mbind result_bind]. case_match; [eauto 10|].
  destruct (Z.leb_spec (i32 (GetPayloadLen le h)) 0); [eauto 10|].
  destruct (body_loop_total fuel (i32 (GetPayloadLen le h)) 0
    (replicate (Z.to_nat (i32 (GetPayloadLen le h))) 0) c2 segs2)
    as (n3 & buf3 & c3 & segs3 & -> & _); [done|done|lia|lia|rewrite length_replicate; lia|lia|].
  cbn [mbind result_bind]. destruct (0 <? n3); eauto 10.
Qed.

(** The identifiers that arrive in different segments are both discarded: the
    same response is read when its first two bytes arrive together, and times
    out when they do not. *)
Definition split_response : list (list Z) := [[0x47]; [0x74; 5; 0; 0; 0; 0; 1; 65]].
Definition whole_response : list (list Z) := [[0x47; 0x74]; [5; 0; 0; 0; 0; 1; 65]].

(** A response whose identifier bytes are split over two segments is lost:
    the query fails on it, while it succeeds on the same bytes cut one
    position later. *)
Theorem split_identifier_lost fuel :
  (20 <= fuel)%nat ->
  concat split_response = concat whole_response /\
  (exists c, QueryCommand PTCHeader_1_0 true fuel [] [] 0x05 (mk_stream split_response []) = Ok (-1, [], c)) /\
  (exists c, QueryCommand PTCHeader_1_0 true fuel [] [] 0x05 (mk_stream whole_response []) = Ok (0, [65], c)).
Proof.
  intros Hf. replace fuel with (20 + (fuel - 20))%nat by lia.
  split; [done|]. split; eexists; vm_compute; reflexivity.
Qed.

(** The setters answer true exactly when the query failed. *)
Theorem setter_true_iff_failed {C} {CB : ClientBase C} {H} {PP : PtcProtocol H}
    le fuel input cmd (c c' : C) b :
  query_bool H le fuel input cmd c = Ok (b, c') ->
  exists ret out, QueryCommand H le fuel input [] cmd c = Ok (ret, out, c')
    /\ (b = true <-> ret <> 0).
Proof.
  unfold query_bool. rewrite bind_ok. intros ([[ret out] c2] & E & E2). inv_ok.
  exists ret, out. split; [done|]. rewrite negb_true_iff, Z.eqb_neq. done.
Qed.

Lemma bytes_of_be (n : nat) v : bytes_of n v = be_bytes n v.
Proof.
  unfold bytes_of, be_bytes. rewrite fmap_reverse. f_equal.
  assert (forall (m : nat) k, 0 <= k ->
    ((fun j => u8 (Z.shiftr v (8 * j))) <$> seqZ k (Z.of_nat m)) = le_bytes m (v / 2 ^ (8 * k))) as Hg.
  { induction m as [|m IH]; intros k Hk; [done|].
    rewrite seqZ_cons, Nat2Z.inj_succ, Z.pred_succ by lia. cbn [fmap list_fmap le_bytes]. f_equal.
    - rewrite Z.shiftr_div_pow2 by lia. done.
    - rewrite <-Z.add_1_r, IH by lia. f_equal. rewrite Zdiv_Zdiv by lia. f_equal.
      rewrite <-Z.pow_add_r by lia. f_equal. lia. }
  rewrite Hg by lia. f_equal. cbn. apply Z.div_1_r.
Qed.

(** What a setter sends is its command's header and its arguments in
    network byte order, most significant byte first. *)
Theorem setter_request {H} {PP : PtcProtocol H} {PL : PtcProtocolLaws H} le address data out :
  is_u32 address -> is_u32 data ->
  exists b stream,
    PtcStreamEncode H le (bytes_of 4 address ++ bytes_of 4 data) out kPTCSetFpgaRegister = Ok (b, stream) /\
    be_combine (take 4 (drop (GetHeaderSize (H := H)) stream)) = address /\
    be_combine (drop (4 + GetHeaderSize (H := H)) stream) = data.
Proof.
  intros Ha Hd. rewrite (encode_stream H). eexists _, _. split; [reflexivity|].
  rewrite !bytes_of_be, Nat.add_comm, <-drop_drop.
  rewrite !drop_app_length' by by rewrite image_length.
  rewrite take_app_length', drop_app_length' by by rewrite be_bytes_length.
  rewrite !be_combine_bytes. width. nowrap. done.
Qed.

(** The accumulation of [extractField], for a field that does not overflow. *)
Lemma extractField_spec n : forall f w data off, byte_list data ->
  0 <= f < 2 ^ (8 * (Z.of_nat w - Z.of_nat n)) -> (n <= w)%nat -> 0 <= off ->
  off + Z.of_nat n <= Z.of_nat (length data) ->
  extractField n f w data off =
    Ok (foldl (fun a b => a * 2 ^ 8 + b) f (take n (drop (Z.to_nat off) data)), off + Z.of_nat n).
Proof.
  induction n as [|n IH]; intros f w data off Hb Hf Hw Ho Hl; cbn [extractField].
  - rewrite take_0. cbn. by rewrite Z.add_0_r.
  - destruct (arr_get_in data off) as [b Eb]; [lia|]. rewrite Eb. cbn [mbind result_bind].
    apply arr_get_ok in Eb as [_ Eb].
    assert (is_u8 b) as Hb8 by (eapply byte_list_lookup; eauto). unfold is_u8 in Hb8.
    rewrite lor_byte by done.
    assert (0 <= f * 2 ^ 8 + b < 2 ^ (8 * (Z.of_nat w - Z.of_nat n))) as Hr.
    { replace (8 * (Z.of_nat w - Z.of_nat n)) with (8 * (Z.of_nat w - Z.of_nat (S n)) + 8) by lia.
      rewrite Z.pow_add_r by lia. nia. }
    assert (2 ^ (8 * (Z.of_nat w - Z.of_nat n)) <= 2 ^ (8 * Z.of_nat w)) by (apply Z.pow_le_mono_r; lia).
    rewrite Z.mod_small, IH by (done || lia).
    rewrite (drop_S data b (Z.to_nat off) Eb). cbn [take foldl].
    rewrite Z2Nat.inj_add by lia. change (Z.to_nat 1) with 1%nat. rewrite Nat.add_1_r.
    f_equal. f_equal. lia.
Qed.

Lemma extractField_short n : forall f w data off, 0 <= off ->
  Z.of_nat (length data) < off + Z.of_nat n -> off <= Z.of_nat (length data) ->
  extractField n f w data off = Err OutOfBounds.
Proof.
  induction n as [|n IH]; intros f w data off Ho Hl Hl2; cbn [extractField]; [lia|].
  destruct (Z.eq_dec off (Z.of_nat (length data))) as [->|].
  - by rewrite arr_get_out by lia.
  - destruct (arr_get_in data off) as [b ->]; [lia|]. cbn [mbind result_bind]. apply IH; lia.
Qed.

Lemma status_fold ws : forall data fields off, byte_list data -> 0 <= off <= Z.of_nat (length data) ->
  foldM (fun '(fields, offset) w =>
    '(v, offset) ← extractField w 0 w data offset; Ok (fields ++ [v], offset)) (fields, off) ws =
  if decide (off + Z.of_nat (sum_list ws) <= Z.of_nat (length data))
  then Ok (fields ++ (be_combine <$> chunks ws (drop (Z.to_nat off) data)), off + Z.of_nat (sum_list ws))
  else Err OutOfBounds.
Proof.
  induction ws as [|w ws IH]; intros data fields off Hb Ho; cbn [foldM chunks].
  - rewrite decide_True by (cbn; lia). cbn. by rewrite app_nil_r, Z.add_0_r.
  - change (sum_list (w :: ws)) with (w + sum_list ws)%nat.
    destruct (Z.le_gt_cases (off + Z.of_nat w) (Z.of_nat (length data))).
    + rewrite extractField_spec; [|done|rewrite Z.sub_diag; cbn; lia|lia|lia|lia].
      cbn [mbind result_bind].
      rewrite IH by (done || lia). cbn [fmap list_fmap].
      replace (off + Z.of_nat w + Z.of_nat (sum_list ws)) with (off + Z.of_nat (w + sum_list ws)) by lia.
      case_decide; [|done].
      rewrite <-app_assoc. cbn [app]. rewrite drop_drop, Z2Nat.inj_add, Nat2Z.id by lia.
      do 3 f_equal.
    + rewrite extractField_short by lia. cbn [mbind result_bind].
      rewrite decide_False; [done|]. lia.
Qed.

(** The status answer is 49 bytes of big-endian fields: an answer of at
    least that size is read field by field, a shorter one is read past its
    end. *)
Theorem parse_status_spec data :
  byte_list data ->
  parse_status data =
    if decide (49 <= Z.of_nat (length data))
    then Ok (be_combine <$> chunks status_widths data, 49) else Err OutOfBounds.
Proof.
  intros Hb. unfold parse_status. rewrite status_fold by (done || lia). done.
Qed.

Lemma drop_to_identifier_suffix {H} {PP : PtcProtocol H} l :
  exists pre, l = pre ++ drop_to_identifier H l.
Proof.
  induction l as [|a [|b l] IH]; [by exists []|by exists []|].
  cbn [drop_to_identifier]. case_match; [|by exists []].
  destruct IH as [pre E]. exists (a :: pre). cbn [app]. f_equal. exact E.
Qed.

(** [IsValidRsp] never faults; it keeps a suffix of the stream that is
    shorter than two bytes or starts with the identifiers, and when it answers
    true that suffix starts with a header whose return code is zero. *)
Theorem IsValidRsp_spec {H} {PP : PtcProtocol H} {PL : PtcProtocolLaws H} le l :
  exists b s pre, IsValidRsp H le l = Ok (b, s) /\ l = pre ++ s /\
    ((length s < 2)%nat \/
     exists tl, s = GetHeaderIdentifier0 (H := H) :: GetHeaderIdentifier1 (H := H) :: tl) /\
    (b = true -> exists h, cast (H := H) le s = Ok h /\ IsValidReturnCode h = true).
Proof.
  unfold IsValidRsp. destruct (drop_to_identifier_suffix (H := H) l) as [pre Epre].
  assert ((length (drop_to_identifier H l) < 2)%nat \/ exists tl, drop_to_identifier H l
    = GetHeaderIdentifier0 (H := H) :: GetHeaderIdentifier1 (H := H) :: tl) as Hst.
  { clear. induction l as [|a [|b l] IH]; [by left; cbn; lia|by left; cbn; lia|].
    cbn [drop_to_identifier]. case_match eqn:E; [exact IH|].
    apply orb_false_iff in E as [E1 E2]. apply negb_false_iff, Z.eqb_eq in E1, E2. subst. eauto. }
  destruct (Nat.ltb_spec (length (drop_to_identifier H l)) (GetHeaderSize (H := H))).
  - eexists _, _, pre. split; [reflexivity|]. done.
  - destruct (cast_enough (H := H) le (drop_to_identifier H l)) as [h Eh]; [done|].
    eexists _, (drop_to_identifier H l), pre.
    split; [by rewrite Eh|]. split; [done|]. split; [done|]. intros Hv. exists h. split; [exact Eh|exact Hv].
Qed.

(** ** Witnesses *)

Lemma query_answered_witness :
  exists c' segs',
    QueryCommand PTCHeader_1_0 true 20 [1] [] 0x05
      (mk_stream [[0x47; 0x74; 5; 0]; [0; 0; 0]; [2; 9]; [8; 7]] []) = Ok (0, [9; 8], c')
    /\ avail c' segs' /\ concat segs' = [7].
Proof.
  apply (query_answered (H := PTCHeader_1_0) (C := stream) true 20 [1] [] 0x05
    (mk_stream [[0x47; 0x74; 5; 0]; [0; 0; 0]; [2; 9]; [8; 7]] [])
    [0x47; 0x74; 5; 0] [[0; 0; 0]; [2; 9]; [8; 7]] [9; 8] [7]);
    [reflexivity|repeat constructor; done|cbn; lia|unfold is_u8; lia
    |vm_compute; reflexivity|cbn; lia|cbn; lia|cbn; lia].
Defined.

Lemma query_total_witness :
  exists ret out' c',
    QueryCommand PTCHeader_2_0 true 9 [] [] 0x05 (mk_stream [[1; 2; 0x57]; [0x75; 3; 4; 5; 6]] [])
      = Ok (ret, out', c') /\ (ret = 0 \/ ret = -1).
Proof.
  apply (query_total (H := PTCHeader_2_0) (C := stream) true 9 [] [] 0x05
    (mk_stream [[1; 2; 0x57]; [0x75; 3; 4; 5; 6]] []) [[1; 2; 0x57]; [0x75; 3; 4; 5; 6]]);
    [reflexivity|repeat constructor; done|cbn; lia|cbn; lia].
Defined.

Lemma split_identifier_lost_witness :
  exists c, QueryCommand PTCHeader_1_0 true 20 [] [] 0x05 (mk_stream split_response []) = Ok (-1, [], c).
Proof. apply (split_identifier_lost 20). lia. Defined.

Lemma setter_true_iff_failed_witness :
  exists ret out, QueryCommand PTCHeader_1_0 true 9 [1] [] kPTCSetReturnMode (mk_stream [] [])
    = Ok (ret, out, mk_stream [] [0x47; 0x74; 0x1E; 0; 0; 0; 0; 1; 1]) /\ (true = true <-> ret <> 0).
Proof.
  apply (setter_true_iff_failed (H := PTCHeader_1_0) (C := stream) true 9 [1] kPTCSetReturnMode
    (mk_stream [] []) (mk_stream [] [0x47; 0x74; 0x1E; 0; 0; 0; 0; 1; 1]) true).
  vm_compute. reflexivity.
Defined.

Lemma setter_request_witness :
  exists b stream,
    PtcStreamEncode PTCHeader_1_0 true (bytes_of 4 258 ++ bytes_of 4 7) [] kPTCSetFpgaRegister = Ok (b, stream) /\
    be_combine (take 4 (drop (GetHeaderSize (H := PTCHeader_1_0)) stream)) = 258 /\
    be_combine (drop (4 + GetHeaderSize (H := PTCHeader_1_0)) stream) = 7.
Proof. apply (setter_request (H := PTCHeader_1_0) true 258 7 []); unfold is_u32; lia. Defined.

Lemma parse_status_spec_witness :
  parse_status (replicate 48 1) = Err OutOfBounds /\
  parse_status (seqZ 0 50) = Ok ([0x00010203; 0x0405; 0x06070809; 0x0a0b0c0d; 0x0e0f1011;
    0x12131415; 0x16171819; 0x1a1b1c1d; 0x1e1f2021; 0x22232425; 0x26; 0x27; 0x28292a2b;
    0x2c2d2e2f; 0x30], 49).
Proof.
  split.
  - rewrite parse_status_spec; [reflexivity|]. apply Forall_replicate. unfold is_u8; lia.
  - rewrite parse_status_spec; [vm_compute; reflexivity|].
    repeat constructor; unfold is_u8; lia.
Defined.
