(* ===== verification/PtcConfig.v ===== *)
(** * PtcConfig: the setters of PtcClient that take addresses as text

    [SetNet] and [SetDesIpandPort] of PtcClient/src/ptc_client.cc: every
    dot-separated token goes through [std::stoi] and is cut to a byte, so an
    address is neither checked for its number of parts nor for their range, and
    a token without digits throws out of the function. *)

From S2P Require Import Prelude Bytes Ptc PtcClient Text.
Local Open Scope Z_scope.

Definition kPTCSetDestinationIPandPort : Z := 0x20.
Definition kPTCSetNet : Z := 0x21.

(** while (std::getline(Ip, byte, '.')) input.push_back(static_cast<uint8_t>(std::stoi(byte))); *)
Definition push_address (input : list Z) (address : string) : result (list Z) :=
  foldM (fun input byte => v ← stoi byte; Ok (input ++ [u8 v])) input (tokens dot address).

Definition net_payload (IP mask getway : string) (vlan_flag vlan_ID : Z) : result (list Z) :=
  input ← push_address [] IP;
  input ← push_address input mask;
  input ← push_address input getway;
  Ok (input ++ vlan_flag :: bytes_of 2 vlan_ID).

Definition des_payload (des : string) (port GPS_port : Z) : result (list Z) :=
  input ← push_address [] des;
  Ok (input ++ bytes_of 2 port ++ bytes_of 2 GPS_port).

Definition SetNet {C} {CB : ClientBase C} (H : Type) {PP : PtcProtocol H} (le : bool) (fuel : nat)
    (IP mask getway : string) (vlan_flag vlan_ID : Z) (c : C) : result (bool * C) :=
  input ← net_payload IP mask getway vlan_flag vlan_ID;
  query_bool H le fuel input kPTCSetNet c.

Definition SetDesIpandPort {C} {CB : ClientBase C} (H : Type) {PP : PtcProtocol H} (le : bool)
    (fuel : nat) (des : string) (port GPS_port : Z) (c : C) : result (bool * C) :=
  input ← des_payload des port GPS_port;
  query_bool H le fuel input kPTCSetDestinationIPandPort c.

(** ** Lemmas *)

Lemma push_dotted input a b c d :
  is_u8 a -> is_u8 b -> is_u8 c -> is_u8 d ->
  push_address input (dotted a b c d) = Ok (input ++ [a; b; c; d]).
Proof.
  intros Ha Hb Hc Hd. unfold push_address. rewrite tokens_dotted by done. cbn [foldM].
  destruct (octet_ok a Ha) as (-> & _). destruct (octet_ok b Hb) as (-> & _).
  destruct (octet_ok c Hc) as (-> & _). destruct (octet_ok d Hd) as (-> & _).
  cbn [mbind result_bind]. unfold u8, is_u8 in *. rewrite !Z.mod_small by done.
  by rewrite <-!app_assoc.
Qed.

(** ** Properties *)

(** For addresses in dotted notation the payloads are the addresses' octets
    in order, then the numbers in network byte order: 15 bytes for the network
    settings, 8 for the destination. *)
Theorem address_payloads a b c d m1 m2 m3 m4 g1 g2 g3 g4 flag vlan port gps :
  Forall is_u8 [a; b; c; d; m1; m2; m3; m4; g1; g2; g3; g4] -> is_u16 vlan -> is_u16 port -> is_u16 gps ->
  exists vl pl gl, be_combine vl = vlan /\ be_combine pl = port /\ be_combine gl = gps /\
    length vl = 2%nat /\ length pl = 2%nat /\ length gl = 2%nat /\
    net_payload (dotted a b c d) (dotted m1 m2 m3 m4) (dotted g1 g2 g3 g4) flag vlan =
      Ok ([a; b; c; d; m1; m2; m3; m4; g1; g2; g3; g4; flag] ++ vl) /\
    des_payload (dotted a b c d) port gps = Ok ([a; b; c; d] ++ pl ++ gl).
Proof.
  rewrite !Forall_cons. intros Hall Hv Hp Hg. destruct_and! Hall.
  exists (be_bytes 2 vlan), (be_bytes 2 port), (be_bytes 2 gps).
  rewrite !be_combine_bytes, !be_bytes_length. unfold is_u16 in *. nowrap.
  repeat (split; [done|]). unfold net_payload, des_payload.
  rewrite !push_dotted by done. cbn [mbind result_bind].
  rewrite !push_dotted by done. cbn [mbind result_bind].
  rewrite !push_dotted by done. cbn [mbind result_bind]. rewrite !bytes_of_be.
  split; [by rewrite <-!app_assoc|done].
Qed.

(** An address is not validated: an octet above 255 is cut to its low byte,
    an address with three parts gives a payload one byte short, which shifts
    the fields behind it, and a part without digits leaves the setter by an
    exception. *)
Theorem address_not_validated :
  push_address [] "300.168.1.201" = Ok [44; 168; 1; 201] /\
  push_address [] "192.168.1" = Ok [192; 168; 1] /\
  push_address [] "192.168..201" = Err Thrown.
Proof. split; [|split]; reflexivity. Qed.

(** ** Witnesses *)

Lemma address_payloads_witness :
  exists vl pl gl, be_combine vl = 258 /\ be_combine pl = 2368 /\ be_combine gl = 10110 /\
    length vl = 2%nat /\ length pl = 2%nat /\ length gl = 2%nat /\
    net_payload "192.168.1.201" "255.255.255.0" "192.168.1.1" 1 258 =
      Ok ([192; 168; 1; 201; 255; 255; 255; 0; 192; 168; 1; 1; 1] ++ vl) /\
    des_payload "192.168.1.201" 2368 10110 = Ok ([192; 168; 1; 201] ++ pl ++ gl).
Proof.
  apply (address_payloads 192 168 1 201 255 255 255 0 192 168 1 1 1 258 2368 10110).
  - repeat (constructor; [unfold is_u8; lia|]). constructor.
  - unfold is_u16. lia.
  - unfold is_u16. lia.
  - unfold is_u16. lia.
Defined.
