(* ===== verification/TcpClient.v ===== *)
(** * TcpClient: the TCP connection to the lidar

    PtcClient/src/tcp_client.cc (the POSIX branches).  The operating system is
    the interface [Sockets]: each call takes the state of the world and returns
    what the call returned.  [SocketsLaws] says which descriptors are open
    before and after each call, and [StreamSockets] what a connected stream
    socket delivers; under the latter a connected client is the [StreamPeer]
    that the queries of PtcClient.v ask for.

    [SOCKET] is [unsigned int]: -1 is stored as 2^32 - 1, and the value is
    converted back to [int] when it is handed to the system. *)

From stdpp Require Import sets gmap.
From S2P Require Import Prelude Bytes Ptc PtcClient.
Local Open Scope Z_scope.

Class Sockets (W : Type) : Type := {
  sys_socket : W -> Z * W;
  sys_inet_pton : string -> Z;
  sys_set_nonblock : bool -> Z -> W -> W;
  sys_connect : Z -> string -> Z -> W -> Z * W;
  sys_select_write : Z -> Z -> W -> Z * W;
  sys_so_error : Z -> W -> Z * W;
  sys_send : Z -> list Z -> W -> Z * W;
  sys_recv : Z -> Z -> W -> (Z * list Z) * W;
  sys_set_timeo : bool -> Z -> Z -> Z -> W -> Z * W;
  sys_get_rcvbuf : Z -> W -> (Z * Z) * W;
  sys_set_rcvbuf : Z -> Z -> W -> Z * W;
  sys_close : Z -> W -> W;
  sys_errno : W -> Z;
}.

Definition EINTR : Z := 4.
Definition EAGAIN : Z := 11.
Definition EWOULDBLOCK : Z := 11.
Definition EINPROGRESS : Z := 115.
Definition FD_SETSIZE : Z := 1024.

Record tcp_client : Type := mk_tcp {
  m_sServerIP : string;
  ptc_port_ : Z;
  m_tcpSock : Z;
  m_bLidarConnected : bool;
  m_u32ReceiveBufferSize : Z;
  m_u32RecTimeout : Z;
  m_u32SendTimeout : Z;
}.

Definition kInvalid : Z := u32 (-1).

Definition TcpClient_new : tcp_client := mk_tcp "" 0 kInvalid false 4096 500 500.

Definition set_sock (s : Z) (c : tcp_client) : tcp_client :=
  mk_tcp (m_sServerIP c) (ptc_port_ c) s (m_bLidarConnected c) (m_u32ReceiveBufferSize c)
    (m_u32RecTimeout c) (m_u32SendTimeout c).
Definition set_connected (b : bool) (c : tcp_client) : tcp_client :=
  mk_tcp (m_sServerIP c) (ptc_port_ c) (m_tcpSock c) b (m_u32ReceiveBufferSize c)
    (m_u32RecTimeout c) (m_u32SendTimeout c).
Definition set_endpoint (ip : string) (port : Z) (c : tcp_client) : tcp_client :=
  mk_tcp ip port (m_tcpSock c) (m_bLidarConnected c) (m_u32ReceiveBufferSize c)
    (m_u32RecTimeout c) (m_u32SendTimeout c).
Definition set_timeouts (rec snd : Z) (c : tcp_client) : tcp_client :=
  mk_tcp (m_sServerIP c) (ptc_port_ c) (m_tcpSock c) (m_bLidarConnected c)
    (m_u32ReceiveBufferSize c) rec snd.
Definition set_rcvbuf (n : Z) (c : tcp_client) : tcp_client :=
  mk_tcp (m_sServerIP c) (ptc_port_ c) (m_tcpSock c) (m_bLidarConnected c) n
    (m_u32RecTimeout c) (m_u32SendTimeout c).

Section Client.
Context {W : Type} {SK : Sockets W}.

Definition IsOpened (c : tcp_client) : bool := m_bLidarConnected c.

Definition Close (c : tcp_client) (w : W) : tcp_client * W :=
  let c := set_connected false c in
  if 0 <? m_tcpSock c then (set_sock kInvalid c, sys_close (i32 (m_tcpSock c)) w) else (c, w).

(** [TcpClient::Open()] *)
Definition Open (c : tcp_client) (w : W) : bool * tcp_client * W :=
  let '(fd, w) := sys_socket w in
  let c := set_sock (u32 fd) c in
  if i32 (m_tcpSock c) =? -1 then (false, c, w)
  else if sys_inet_pton (m_sServerIP c) <=? 0 then
    let '(c, w) := Close c w in (false, c, w)
  else
    let '(r, w) := sys_connect (i32 (m_tcpSock c)) (m_sServerIP c) (ptc_port_ c) w in
    if r <? 0 then let '(c, w) := Close c w in (false, c, w)
    else (true, set_connected true c, w).

(** [TcpClient::Open(IPAddr, u16Port, ...)] *)
Definition Open_endpoint (IPAddr : string) (u16Port : Z) (c : tcp_client) (w : W)
    : bool * tcp_client * W :=
  if IsOpened c && bool_decide (m_sServerIP c = IPAddr) && (u16Port =? ptc_port_ c)
  then (true, c, w)
  else
    let '(c, w) := Close c w in
    Open (set_endpoint IPAddr u16Port c) w.

(** [TcpClient::TryOpen]: a connect in non-blocking mode, then a wait of
    [timeout] seconds.  [FD_SET] of a descriptor of [FD_SETSIZE] or more writes
    outside the set. *)
Definition TryOpen (IPAddr : string) (u16Port timeout : Z) (c : tcp_client) (w : W)
    : result (bool * tcp_client * W) :=
  if IsOpened c && bool_decide (m_sServerIP c = IPAddr) && (u16Port =? ptc_port_ c)
  then Ok (true, c, w)
  else
    let '(c, w) := if IsOpened c then Close c w else (c, w) in
    let c := set_endpoint IPAddr u16Port c in
    let '(fd, w) := sys_socket w in
    let c := set_sock (u32 fd) c in
    if i32 (m_tcpSock c) =? -1 then Ok (false, c, w)
    else if sys_inet_pton (m_sServerIP c) <=? 0 then
      let '(c, w) := Close c w in Ok (false, c, w)
    else
      let w := sys_set_nonblock true (i32 (m_tcpSock c)) w in
      let '(r, w) := sys_connect (i32 (m_tcpSock c)) (m_sServerIP c) (ptc_port_ c) w in
      if (r <? 0) && negb (sys_errno w =? EINPROGRESS) then
        let '(c, w) := Close c w in Ok (false, c, w)
      else if FD_SETSIZE <=? m_tcpSock c then Err OutOfBounds
      else
        let '(r, w) := sys_select_write (i32 (m_tcpSock c)) timeout w in
        if r <=? 0 then let '(c, w) := Close c w in Ok (false, c, w)
        else
          let '(error, w) := sys_so_error (i32 (m_tcpSock c)) w in
          if negb (error =? 0) then let '(c, w) := Close c w in Ok (false, c, w)
          else
            let w := sys_set_nonblock false (i32 (m_tcpSock c)) w in
            Ok (true, set_connected true c, w).

Definition transient (e : Z) : bool := (e =? EINTR) || (e =? EAGAIN) || (e =? EWOULDBLOCK).

Definition tcp_Send (u8Buf : list Z) (u16Len : Z) (c : tcp_client) (w : W) : Z * tcp_client * W :=
  let '(ret, c, w) := if IsOpened c then (true, c, w) else Open c w in
  if ret : bool then
    let '(len, w) := sys_send (i32 (m_tcpSock c)) (take (Z.to_nat u16Len) u8Buf) w in
    if negb (len =? u16Len) && negb (transient (sys_errno w))
    then let '(c, w) := Close c w in (len, c, w)
    else (len, c, w)
  else (-1, c, w).

Definition tcp_Receive (u32Len : Z) (c : tcp_client) (w : W) : (Z * list Z) * tcp_client * W :=
  let '(ret, c, w) := if IsOpened c then (true, c, w) else Open c w in
  if ret : bool then
    let '((len, bytes), w) := sys_recv (i32 (m_tcpSock c)) u32Len w in
    if (len =? 0) || ((len =? -1) && negb (transient (sys_errno w)))
    then let '(c, w) := Close c w in ((len, bytes), c, w)
    else ((len, bytes), c, w)
  else ((-1, []), c, w).

(** The guards [m_tcpSock < 0] compare an unsigned value. *)
Definition SetReceiveTimeout (u32Timeout : Z) (c : tcp_client) (w : W) : bool * tcp_client * W :=
  if m_tcpSock c <? 0 then (false, c, w)
  else
    let '(retVal, w) :=
      sys_set_timeo true (u32Timeout / 1000) (u32Timeout mod 1000 * 1000) (i32 (m_tcpSock c)) w in
    (retVal =? 0, c, w).

Definition SetTimeout (u32RecMillisecond u32SendMillisecond : Z) (c : tcp_client) (w : W)
    : Z * tcp_client * W :=
  if m_tcpSock c <? 0 then (-1, c, w)
  else
    let c := set_timeouts u32RecMillisecond u32SendMillisecond c in
    let '(retVal, w) := sys_set_timeo true (u32RecMillisecond / 1000)
      (u32RecMillisecond mod 1000 * 1000) (i32 (m_tcpSock c)) w in
    if retVal =? 0 then
      let '(retVal, w) := sys_set_timeo false (u32SendMillisecond / 1000)
        (u32SendMillisecond mod 1000 * 1000) (i32 (m_tcpSock c)) w in
      (retVal, c, w)
    else (retVal, c, w).

Definition SetReceiveBufferSize (size : Z) (c : tcp_client) (w : W) : tcp_client * W :=
  if m_tcpSock c <? 0 then (c, w)
  else
    let c := set_rcvbuf size c in
    let '((ret, recbuffSize), w) := sys_get_rcvbuf (i32 (m_tcpSock c)) w in
    if (ret =? 0) && (recbuffSize <? size)
    then (c, (sys_set_rcvbuf (i32 (m_tcpSock c)) size w).2)
    else (c, w).

(** The operations a client of the class can call, the destructor being
    [OpClose]. *)
Inductive tcp_op : Type :=
| OpTryOpen (ip : string) (port timeout : Z)
| OpOpen (ip : string) (port : Z)
| OpClose
| OpSend (buf : list Z) (len : Z)
| OpReceive (n : Z)
| OpSetReceiveTimeout (ms : Z)
| OpSetTimeout (rec snd : Z)
| OpSetReceiveBufferSize (n : Z).

Definition tcp_step (s : tcp_client * W) (o : tcp_op) : result (tcp_client * W) :=
  let '(c, w) := s in
  match o with
  | OpTryOpen ip port t => '(_, c, w) ← TryOpen ip port t c w; Ok (c, w)
  | OpOpen ip port => let '(_, c, w) := Open_endpoint ip port c w in Ok (c, w)
  | OpClose => Ok (Close c w)
  | OpSend buf len => let '(_, c, w) := tcp_Send buf len c w in Ok (c, w)
  | OpReceive n => let '(_, c, w) := tcp_Receive n c w in Ok (c, w)
  | OpSetReceiveTimeout ms => let '(_, c, w) := SetReceiveTimeout ms c w in Ok (c, w)
  | OpSetTimeout r s => let '(_, c, w) := SetTimeout r s c w in Ok (c, w)
  | OpSetReceiveBufferSize n => Ok (SetReceiveBufferSize n c w)
  end.

End Client.

(** The connection as the interface of PtcClient.v. *)
#[export] Instance tcp_client_base {W} `{Sockets W} : ClientBase (tcp_client * W) := {|
  Send buf len s := let '(r, c, w) := tcp_Send buf len s.1 s.2 in (r, (c, w));
  Receive n s := let '(r, c, w) := tcp_Receive n s.1 s.2 in (r, (c, w));
|}.

(** ** What the system promises *)

(** [open_fds] are the descriptors of the process, which nothing else opens or
    closes meanwhile.  A new socket is a descriptor that was not open, any [int];
    only [socket] and [close] open and close. *)
Class SocketsLaws (W : Type) `{Sockets W} : Type := {
  open_fds : W -> gset Z;
  open_fds_nonneg w fd : fd ∈ open_fds w -> 0 <= fd;
  socket_fresh w fd w' : sys_socket w = (fd, w') ->
    (fd = -1 /\ open_fds w' = open_fds w) \/
    (0 <= fd < 2 ^ 31 /\ fd ∉ open_fds w /\ open_fds w' = {[fd]} ∪ open_fds w);
  close_fds fd w : open_fds (sys_close fd w) = open_fds w ∖ {[fd]};
  nonblock_fds b fd w : open_fds (sys_set_nonblock b fd w) = open_fds w;
  connect_fds fd ip port w r w' : sys_connect fd ip port w = (r, w') -> open_fds w' = open_fds w;
  select_fds fd t w r w' : sys_select_write fd t w = (r, w') -> open_fds w' = open_fds w;
  so_error_fds fd w r w' : sys_so_error fd w = (r, w') -> open_fds w' = open_fds w;
  send_fds fd buf w r w' : sys_send fd buf w = (r, w') -> open_fds w' = open_fds w;
  recv_fds fd n w r w' : sys_recv fd n w = (r, w') -> open_fds w' = open_fds w;
  timeo_fds b s u fd w r w' : sys_set_timeo b s u fd w = (r, w') -> open_fds w' = open_fds w;
  get_rcvbuf_fds fd w r w' : sys_get_rcvbuf fd w = (r, w') -> open_fds w' = open_fds w;
  set_rcvbuf_fds fd n w r w' : sys_set_rcvbuf fd n w = (r, w') -> open_fds w' = open_fds w;
}.

(** A connected socket: [carries w fd segs] says that the peer's stream still
    has the segments [segs] to deliver on [fd]. *)
Class StreamSockets (W : Type) `{Sockets W} : Type := {
  carries : W -> Z -> list (list Z) -> Prop;
  carries_recv w fd s segs n : carries w fd (s :: segs) -> s <> [] -> 0 < n ->
    exists w', sys_recv fd n w = ((Z.min n (Z.of_nat (length s)), take (Z.to_nat n) s), w')
      /\ carries w' fd (after_recv n s segs);
  carries_eof w fd n : carries w fd [] ->
    exists k w', sys_recv fd n w = ((k, []), w') /\ (k = 0 \/ k = -1);
  carries_send w fd segs buf : carries w fd segs -> Z.of_nat (length buf) < 2 ^ 16 ->
    exists w', sys_send fd buf w = (Z.of_nat (length buf), w') /\ carries w' fd segs;
}.

(** The descriptor that a value of [m_tcpSock] stands for; of 0 the client does not
    know that it is one. *)
Definition owned (sock : Z) : gset Z :=
  if decide (sock = kInvalid \/ sock = 0) then ∅ else {[sock]}.

(** The process has the descriptors of [base] and the one of [sock], not counting
    the descriptor 0, which may have been added. *)
Definition owns {W} `{SocketsLaws W} (base : gset Z) (sock : Z) (w : W) : Prop :=
  (forall fd, fd <> 0 -> fd ∈ open_fds w <-> fd ∈ owned sock \/ fd ∈ base) /\ owned sock ## base /\
  (sock = kInvalid \/ 0 <= sock < 2 ^ 31) /\ (0 ∈ base -> 0 ∈ open_fds w).

(** The client owns [m_tcpSock] and nothing else, and is connected on an open
    descriptor. *)
Definition tcp_inv {W} `{SocketsLaws W} (base : gset Z) (c : tcp_client) (w : W) : Prop :=
  owns base (m_tcpSock c) w /\ (m_tcpSock c = 0 -> 0 ∈ open_fds w) /\
  if m_bLidarConnected c then m_tcpSock c <> kInvalid else owned (m_tcpSock c) = ∅.

(** All descriptors are as they were, except that 0 may have been added. *)
Definition given_back {W} `{SocketsLaws W} (base : gset Z) (w : W) : Prop :=
  base ⊆ open_fds w /\ open_fds w ⊆ {[0]} ∪ base.

(** The next socket is a descriptor that [FD_SET] cannot take. *)
Definition fd_too_large {W} `{Sockets W} (w : W) : Prop := FD_SETSIZE <= (sys_socket w).1.

(** ** Lemmas *)

Section Laws.
Context {W : Type} {SK : Sockets W} {SL : SocketsLaws W}.
Implicit Types (c : tcp_client) (w : W) (base : gset Z).

Lemma i32_fd fd : 0 <= fd < 2 ^ 31 -> i32 fd = fd.
Proof. intros. apply i32_small. lia. Qed.

Lemma u32_fd fd : 0 <= fd < 2 ^ 31 -> u32 fd = fd.
Proof. intros. unfold u32. apply Z.mod_small. lia. Qed.

Lemma fd_valid fd : 0 <= fd < 2 ^ 31 -> fd <> kInvalid.
Proof. intros ? ->. change kInvalid with (2 ^ 32 - 1) in *. lia. Qed.

Lemma owned_none sock : sock = kInvalid \/ sock = 0 -> owned sock = ∅.
Proof. intros. unfold owned. by rewrite decide_True. Qed.

Lemma owned_some sock : 0 < sock < 2 ^ 31 -> owned sock = {[sock]}.
Proof. intros. unfold owned. rewrite decide_False; [done|]. intros [E|E]; [by apply (fd_valid sock); [lia|]|lia]. Qed.

Lemma owned_empty sock : owned sock = ∅ -> sock = kInvalid \/ sock = 0.
Proof. unfold owned. destruct (decide _); [done|]. set_solver. Qed.

(** A call that leaves the descriptors alone keeps the ownership. *)
Lemma owns_fds base sock w w' : open_fds w' = open_fds w -> owns base sock w -> owns base sock w'.
Proof. unfold owns. by intros ->. Qed.

Lemma tcp_inv_fds base c w w' : open_fds w' = open_fds w -> tcp_inv base c w -> tcp_inv base c w'.
Proof. unfold tcp_inv, owns. by intros ->. Qed.

(** Without a descriptor of its own the client may be taken for one that has none. *)
Lemma owns_none base sock sock' w : owned sock = ∅ -> sock' = kInvalid \/ sock' = 0 -> owns base sock w -> owns base sock' w.
Proof.
  intros E Hs (H & _ & _ & H0). unfold owns. rewrite (owned_none sock') by done. rewrite E in H.
  split; [done|]. split; [set_solver|]. split; [destruct Hs as [-> | ->]; [by left|right; lia]|done].
Qed.

Lemma owns_given_back base sock w : owned sock = ∅ -> owns base sock w -> given_back base w.
Proof.
  intros E (H & _ & _ & H0). rewrite E in H. split; intros fd Hfd.
  - destruct (decide (fd = 0)) as [->|]; [by apply H0|apply H; set_solver].
  - destruct (decide (fd = 0)) as [->|Hn]; [set_solver|]. apply H in Hfd; [set_solver|done].
Qed.

(** Nothing was added where 0 was open, as the standard input is. *)
Lemma given_back_all base w : 0 ∈ base -> given_back base w -> open_fds w = base.
Proof. intros H0 [H1 H2]. apply set_eq. set_solver. Qed.

(** A new descriptor. *)
Lemma owns_fresh base sock w fd w' : owned sock = ∅ -> owns base sock w -> 0 <= fd < 2 ^ 31 -> fd ∉ open_fds w ->
  open_fds w' = {[fd]} ∪ open_fds w -> owns base fd w'.
Proof.
  intros E (H & _ & _ & H0) Hr Hn Ef. rewrite E in H. unfold owns. rewrite Ef.
  destruct (decide (fd = 0)) as [->|Hz].
  - rewrite (owned_none 0) by auto. split; [|split; [set_solver|split; [by right|set_solver]]].
    intros x Hx. rewrite elem_of_union, H by done. set_solver.
  - rewrite owned_some by lia. split; [|split; [|split; [by right|set_solver]]].
    + intros x Hx. rewrite elem_of_union, H by done. set_solver.
    + intros x ->%elem_of_singleton Hb. apply Hn. apply H; [done|by right].
Qed.

(** [Close] leaves the client without a descriptor of its own. *)
Lemma Close_owns base c w c' w' : owns base (m_tcpSock c) w -> Close c w = (c', w') ->
  owns base (m_tcpSock c') w' /\ owned (m_tcpSock c') = ∅ /\ (0 ∈ open_fds w' <-> 0 ∈ open_fds w) /\
  (m_tcpSock c' = 0 -> m_tcpSock c = 0) /\
  m_bLidarConnected c' = false /\ m_sServerIP c' = m_sServerIP c /\ ptc_port_ c' = ptc_port_ c.
Proof.
  intros Ho. unfold Close. cbn [m_tcpSock set_connected]. destruct (Z.ltb_spec 0 (m_tcpSock c)) as [Hp|Hp]; intros [= <- <-].
  2: { cbn [m_tcpSock set_connected]. split; [done|]. split; [|done]. apply owned_none. destruct Ho as (_ & _ & [Hs|Hs] & _); lia. }
  cbn [m_tcpSock set_sock]. destruct Ho as (H & Hd & Hs & H0). unfold owns. rewrite (owned_none kInvalid) by auto.
  assert (forall fd, fd <> 0 -> fd ∈ open_fds (sys_close (i32 (m_tcpSock c)) w) <-> fd ∈ base) as Hc.
  { intros fd Hfd. rewrite close_fds, elem_of_difference, H, elem_of_singleton by done. destruct Hs as [Hs|Hs].
    - rewrite Hs, (owned_none kInvalid) by auto. change (i32 kInvalid) with (-1). split; [set_solver|].
      intros Hb. split; [by right|]. intros ->. assert (-1 ∈ open_fds w) as Hm by (apply H; [done|by right]).
      apply open_fds_nonneg in Hm. lia.
    - rewrite i32_fd, owned_some in * by lia. set_solver. }
  assert (0 ∈ open_fds (sys_close (i32 (m_tcpSock c)) w) <-> 0 ∈ open_fds w) as Hz.
  { rewrite close_fds, elem_of_difference, elem_of_singleton. assert (0 <> i32 (m_tcpSock c)); [|tauto].
    destruct Hs as [-> |Hs]; [done|rewrite i32_fd; lia]. }
  split; [|split; [done|split; [done|split; [done|done]]]].
  split; [intros fd Hfd; rewrite Hc by done; set_solver|]. split; [set_solver|]. split; [by left|tauto].
Qed.

Lemma Close_spec base c w c' w' :
  owns base (m_tcpSock c) w -> (m_tcpSock c = 0 -> 0 ∈ open_fds w) -> Close c w = (c', w') ->
  tcp_inv base c' w' /\ owned (m_tcpSock c') = ∅ /\ m_bLidarConnected c' = false /\
  m_sServerIP c' = m_sServerIP c /\ ptc_port_ c' = ptc_port_ c.
Proof.
  intros Ho Hz Ec. destruct (Close_owns base c w c' w' Ho Ec) as (H1 & H2 & H3 & H4 & H5 & H6).
  split; [|done]. split; [done|]. rewrite H5. split; [tauto|done].
Qed.

Lemma Close_fst_inv base c w : tcp_inv base c w -> tcp_inv base (Close c w).1 (Close c w).2.
Proof. intros (Ho & Hz & _). destruct (Close c w) eqn:E. by eapply Close_spec in E as [? _]. Qed.

Lemma Close_gives_back base c w : owns base (m_tcpSock c) w -> given_back base (Close c w).2.
Proof.
  intros Ho. destruct (Close c w) as [c' w'] eqn:E. apply (Close_owns base) in E as (H & He & _); [|done].
  by eapply owns_given_back.
Qed.

(** The descriptor a new socket gives becomes the client's, when the client
    had none. *)
Lemma socket_spec base c w fd w' :
  owns base (m_tcpSock c) w -> owned (m_tcpSock c) = ∅ -> sys_socket w = (fd, w') ->
  let sock := m_tcpSock (set_sock (u32 fd) c) in
  owns base sock w' /\ (sock = 0 -> 0 ∈ open_fds w') /\
  (i32 sock = -1 /\ sock = kInvalid \/ i32 sock = fd /\ sock = fd /\ 0 <= fd < 2 ^ 31).
Proof.
  intros Ho He Es. cbn [m_tcpSock set_sock]. destruct (socket_fresh w fd w' Es) as [[-> Ef]|(Hr & Hn & Ef)].
  - split; [|by split; [|left]]. eapply owns_fds; [exact Ef|]. eapply owns_none; [exact He|by left|exact Ho].
  - rewrite u32_fd, i32_fd by done. split; [by eapply owns_fresh|]. split; [intros ->; rewrite Ef; set_solver|by right].
Qed.

Lemma connected_inv base c w :
  owns base (m_tcpSock c) w -> (m_tcpSock c = 0 -> 0 ∈ open_fds w) -> 0 <= m_tcpSock c < 2 ^ 31 -> tcp_inv base (set_connected true c) w.
Proof. intros Ho Hz Hs. split; [exact Ho|]. split; [exact Hz|]. cbn. by apply fd_valid. Qed.

Lemma disconnected base c w : tcp_inv base c w -> m_bLidarConnected c = false -> owned (m_tcpSock c) = ∅.
Proof. intros (_ & _ & H) E. by rewrite E in H. Qed.

(** [Open] on a client without a descriptor. *)
Lemma Open_spec base c w b c' w' :
  tcp_inv base c w -> m_bLidarConnected c = false -> Open c w = (b, c', w') ->
  tcp_inv base c' w' /\ m_bLidarConnected c' = b /\
  m_sServerIP c' = m_sServerIP c /\ ptc_port_ c' = ptc_port_ c.
Proof.
  intros Hinv Hnc. pose proof (disconnected base c w Hinv Hnc) as Hi. unfold Open.
  destruct (sys_socket w) as [fd w1] eqn:Es.
  destruct (socket_spec base c w fd w1 (proj1 Hinv) Hi Es) as (Ho1 & Hz1 & Hs).
  set (c1 := set_sock (u32 fd) c) in *.
  destruct (Z.eqb_spec (i32 (m_tcpSock c1)) (-1)) as [E1|E1].
  { destruct Hs as [[_ Hs]|(Hs & _ & Hr)]; [|lia]. intros [= <- <- <-]. split; [|done].
    split; [done|]. split; [done|]. change (m_bLidarConnected c1) with (m_bLidarConnected c). rewrite Hnc, Hs. by apply owned_none; left. }
  destruct Hs as [[? _]|(_ & Hfd & Hr)]; [done|].
  destruct (sys_inet_pton _ <=? 0).
  { destruct (Close c1 w1) as [c2 w2] eqn:Ec. intros [= <- <- <-].
    by apply (Close_spec base) in Ec as (? & _ & ? & ? & ?). }
  destruct (sys_connect _ _ _ w1) as [r w2] eqn:Eco. apply connect_fds in Eco.
  assert (owns base (m_tcpSock c1) w2) as Ho2 by (by eapply owns_fds). rewrite <-Eco in Hz1.
  destruct (r <? 0).
  - destruct (Close c1 w2) as [c2 w3] eqn:Ec. intros [= <- <- <-].
    by apply (Close_spec base) in Ec as (? & _ & ? & ? & ?).
  - intros [= <- <- <-]. split; [|done]. apply connected_inv; [done|done|lia].
Qed.

(** [TryOpen] faults only on a descriptor too large for [FD_SET]. *)
Lemma TryOpen_spec base c w ip port t :
  tcp_inv base c w ->
  (TryOpen ip port t c w = Err OutOfBounds /\ fd_too_large (if IsOpened c then (Close c w).2 else w)) \/
  exists b c' w', TryOpen ip port t c w = Ok (b, c', w') /\
    tcp_inv base c' w' /\ m_bLidarConnected c' = b /\ m_sServerIP c' = ip /\ ptc_port_ c' = port.
Proof.
  intros Hinv. unfold TryOpen.
  destruct (IsOpened c && bool_decide (m_sServerIP c = ip) && (port =? ptc_port_ c)) eqn:Esame.
  { apply andb_prop in Esame as [[Hop Hip%bool_decide_eq_true]%andb_prop Hp%Z.eqb_eq].
    right. exists true, c, w. done. }
  assert (exists c0 w0, (if IsOpened c then Close c w else (c, w)) = (c0, w0) /\
    (if IsOpened c then (Close c w).2 else w) = w0 /\ tcp_inv base c0 w0 /\ m_bLidarConnected c0 = false)
    as (c0 & w0 & -> & -> & Hinv0 & Hnc).
  { unfold IsOpened. destruct (m_bLidarConnected c) eqn:Econ; [|by exists c, w].
    destruct (Close c w) as [c0 w0] eqn:E0. exists c0, w0. split; [done|]. split; [done|].
    destruct Hinv as (? & ? & _). by apply (Close_spec base) in E0 as (? & _ & ? & _). }
  pose proof (disconnected base c0 w0 Hinv0 Hnc) as Hi. unfold fd_too_large.
  destruct (sys_socket w0) as [fd w1] eqn:Es.
  destruct (socket_spec base (set_endpoint ip port c0) w0 fd w1 (proj1 Hinv0) Hi Es) as (Ho1 & Hz1 & Hs).
  set (c1 := set_sock (u32 fd) (set_endpoint ip port c0)) in *. cbn [fst].
  assert (forall w', open_fds w' = open_fds w1 -> exists b c' w'',
    (let '(c, w) := Close c1 w' in Ok (false, c, w)) = Ok (b, c', w'') /\
    tcp_inv base c' w'' /\ m_bLidarConnected c' = b /\ m_sServerIP c' = ip /\ ptc_port_ c' = port) as Hclose.
  { intros w' Ew. destruct (Close c1 w') as [c2 w2] eqn:Ec.
    apply (Close_spec base) in Ec as (? & _ & ? & ? & ?); [|by eapply owns_fds|by rewrite Ew]. exists false, c2, w2. done. }
  destruct (Z.eqb_spec (i32 (m_tcpSock c1)) (-1)) as [E1|E1].
  { destruct Hs as [[_ Hs]|(Hs & _ & Hr)]; [|lia].
    right. exists false, c1, w1. split; [done|]. split; [|done]. split; [done|]. split; [done|].
    change (m_bLidarConnected c1) with (m_bLidarConnected c0). rewrite Hnc, Hs. by apply owned_none; left. }
  destruct Hs as [[? _]|(_ & Hfd & Hr)]; [done|].
  destruct (sys_inet_pton _ <=? 0); [right; by apply Hclose|].
  destruct (sys_connect _ _ _ _) as [r w2] eqn:Eco. apply connect_fds in Eco. rewrite nonblock_fds in Eco.
  destruct ((r <? 0) && negb (sys_errno w2 =? EINPROGRESS)); [right; by apply Hclose|].
  destruct (Z.leb_spec FD_SETSIZE (m_tcpSock c1)) as [Hl|Hl]; [left; split; [done|lia]|]. right.
  destruct (sys_select_write _ _ w2) as [r2 w3] eqn:Ese. apply select_fds in Ese.
  destruct (r2 <=? 0); [apply Hclose; congruence|].
  destruct (sys_so_error _ w3) as [e w4] eqn:Eso. apply so_error_fds in Eso.
  destruct (negb (e =? 0)); [apply Hclose; congruence|].
  exists true, (set_connected true c1). eexists. split; [reflexivity|].
  split; [|done]. apply (tcp_inv_fds base _ w1); [rewrite nonblock_fds; congruence|].
  apply connected_inv; [done|done|lia].
Qed.

(** [if (!IsOpened()) ret = Open();] of [Send] and [Receive]. *)
Lemma reopen_spec base c w b c' w' :
  tcp_inv base c w ->
  (if IsOpened c then (true, c, w) else Open c w) = (b, c', w') ->
  tcp_inv base c' w' /\ m_bLidarConnected c' = b.
Proof.
  intros Hinv. unfold IsOpened. destruct (m_bLidarConnected c) eqn:E.
  - intros [= <- <- <-]. done.
  - intros Eo. by apply (Open_spec base) in Eo as (? & ? & _).
Qed.

Lemma Open_endpoint_spec base ip port c w b c' w' :
  tcp_inv base c w -> Open_endpoint ip port c w = (b, c', w') ->
  tcp_inv base c' w' /\ m_bLidarConnected c' = b /\ m_sServerIP c' = ip /\ ptc_port_ c' = port.
Proof.
  intros (Ho & Hz & Hc). unfold Open_endpoint.
  destruct (IsOpened c && bool_decide (m_sServerIP c = ip) && (port =? ptc_port_ c)) eqn:Esame.
  { apply andb_prop in Esame as [[Hop Hip%bool_decide_eq_true]%andb_prop Hp%Z.eqb_eq].
    intros [= <- <- <-]. done. }
  destruct (Close c w) as [c0 w0] eqn:E0.
  apply (Close_spec base) in E0 as (Hinv0 & _ & Hnc & _); [|done..].
  intros Eo. by apply (Open_spec base) in Eo.
Qed.

Lemma tcp_Send_inv base buf len c w r c' w' :
  tcp_inv base c w -> tcp_Send buf len c w = (r, c', w') -> tcp_inv base c' w'.
Proof.
  intros Hinv. unfold tcp_Send.
  destruct (if IsOpened c then _ else _) as [[ret c1] w1] eqn:E.
  apply (reopen_spec base) in E as [Hinv1 _]; [|done].
  destruct ret; [|by intros [= <- <- <-]].
  destruct (sys_send _ _ w1) as [l w2] eqn:Es.
  assert (tcp_inv base c1 w2) as Hinv2.
  { eapply tcp_inv_fds; [|exact Hinv1]. by eapply send_fds. }
  destruct (_ && _); [|by intros [= <- <- <-]].
  destruct (Close c1 w2) as [c2 w3] eqn:Ec. intros [= <- <- <-].
  destruct Hinv2 as (? & ? & _). by apply (Close_spec base) in Ec as [? _].
Qed.

Lemma tcp_Receive_inv base n c w r c' w' :
  tcp_inv base c w -> tcp_Receive n c w = (r, c', w') -> tcp_inv base c' w'.
Proof.
  intros Hinv. unfold tcp_Receive.
  destruct (if IsOpened c then _ else _) as [[ret c1] w1] eqn:E.
  apply (reopen_spec base) in E as [Hinv1 _]; [|done].
  destruct ret; [|by intros [= <- <- <-]].
  destruct (sys_recv _ _ w1) as [[l bs] w2] eqn:Es.
  assert (tcp_inv base c1 w2) as Hinv2.
  { eapply tcp_inv_fds; [|exact Hinv1]. by eapply recv_fds. }
  destruct (_ || _); [|by intros [= <- <- <-]].
  destruct (Close c1 w2) as [c2 w3] eqn:Ec. intros [= <- <- <-].
  destruct Hinv2 as (? & ? & _). by apply (Close_spec base) in Ec as [? _].
Qed.

(** The settings leave the descriptors alone. *)
Lemma settings_inv base c w rec snd n :
  tcp_inv base c w ->
  (forall b c' w', SetReceiveTimeout rec c w = (b, c', w') -> tcp_inv base c' w') /\
  (forall r c' w', SetTimeout rec snd c w = (r, c', w') -> tcp_inv base c' w') /\
  tcp_inv base (SetReceiveBufferSize n c w).1 (SetReceiveBufferSize n c w).2.
Proof.
  intros Hinv. unfold SetReceiveTimeout, SetTimeout, SetReceiveBufferSize.
  destruct (m_tcpSock c <? 0).
  { split; [|split]; [by intros ??? [= <- <- <-]..|done]. }
  split; [|split].
  - intros b c' w'. destruct (sys_set_timeo _ _ _ _ w) as [r w1] eqn:E. intros [= <- <- <-].
    eapply tcp_inv_fds; [|exact Hinv]. by eapply timeo_fds.
  - intros r c' w'. destruct (sys_set_timeo _ _ _ _ w) as [r1 w1] eqn:E.
    assert (open_fds w1 = open_fds w) as E1 by (eapply timeo_fds; eassumption).
    destruct (r1 =? 0).
    + destruct (sys_set_timeo _ _ _ _ w1) as [r2 w2] eqn:E2. intros [= <- <- <-].
      eapply tcp_inv_fds; [|exact Hinv]. rewrite <-E1. by eapply timeo_fds.
    + intros [= <- <- <-]. eapply tcp_inv_fds; [exact E1|exact Hinv].
  - destruct (sys_get_rcvbuf _ w) as [[r k] w1] eqn:E.
    assert (open_fds w1 = open_fds w) as E1 by (eapply get_rcvbuf_fds; eassumption).
    destruct (_ && _); cbn; (eapply tcp_inv_fds; [|exact Hinv]); [|exact E1].
    rewrite <-E1. destruct (sys_set_rcvbuf _ _ w1) eqn:E2. by eapply set_rcvbuf_fds.
Qed.

(** Where an operation asks for its socket, when it may fault. *)
Definition step_faults (s : tcp_client * W) (o : tcp_op) : Prop :=
  match o with OpTryOpen _ _ _ => fd_too_large (if IsOpened s.1 then (Close s.1 s.2).2 else s.2) | _ => False end.

Lemma tcp_step_inv base s o : tcp_inv base s.1 s.2 ->
  (tcp_step s o = Err OutOfBounds /\ step_faults s o) \/ exists s', tcp_step s o = Ok s' /\ tcp_inv base s'.1 s'.2.
Proof.
  destruct s as [c w]. cbn [fst snd]. intros Hinv. destruct o; cbn [tcp_step step_faults].
  - destruct (TryOpen_spec base c w ip port timeout Hinv) as [[-> H]|(b & c' & w' & -> & ? & _)]; [by left|].
    right. exists (c', w'). done.
  - right. destruct (Open_endpoint _ _ c w) as [[b c'] w'] eqn:E. exists (c', w').
    split; [done|]. by apply (Open_endpoint_spec base) in E as [? _].
  - right. exists (Close c w). split; [done|]. by apply Close_fst_inv.
  - right. destruct (tcp_Send _ _ c w) as [[b c'] w'] eqn:E. exists (c', w').
    split; [done|]. by apply (tcp_Send_inv base) in E.
  - right. destruct (tcp_Receive _ c w) as [[b c'] w'] eqn:E. exists (c', w').
    split; [done|]. by apply (tcp_Receive_inv base) in E.
  - right. destruct (SetReceiveTimeout _ c w) as [[b c'] w'] eqn:E. exists (c', w').
    split; [done|]. destruct (settings_inv base c w ms 0 0 Hinv) as (Hs & _). by eapply Hs.
  - right. destruct (SetTimeout _ _ c w) as [[b c'] w'] eqn:E. exists (c', w').
    split; [done|]. destruct (settings_inv base c w rec snd 0 Hinv) as (_ & Hs & _). by eapply Hs.
  - right. eexists. split; [done|]. by apply (settings_inv base c w 0 0 n).
Qed.

(** A run goes through, or stops at the operation that faults. *)
Lemma tcp_run_inv base ops : forall s, tcp_inv base s.1 s.2 ->
  (exists s', foldM tcp_step s ops = Ok s' /\ tcp_inv base s'.1 s'.2) \/
  exists pre o post s1, ops = pre ++ o :: post /\ foldM tcp_step s pre = Ok s1 /\ step_faults s1 o /\
    foldM tcp_step s ops = Err OutOfBounds.
Proof.
  induction ops as [|o ops IH]; intros s Hs; [left; by exists s|].
  destruct (tcp_step_inv base s o Hs) as [[E Hf]|(s1 & E & Hs1)].
  - right. exists [], o, ops, s. cbn [foldM app]. by rewrite E.
  - destruct (IH s1 Hs1) as [(s' & E' & H)|(pre & o' & post & s2 & -> & E2 & Hf & E')].
    + left. exists s'. cbn [foldM]. by rewrite E.
    + right. exists (o :: pre), o', post, s2. split; [done|]. cbn [foldM]. rewrite E. cbn [mbind result_bind].
      split; [exact E2|]. split; [done|exact E'].
Qed.

Lemma TcpClient_new_inv w : tcp_inv (open_fds w) TcpClient_new w.
Proof.
  unfold tcp_inv, owns. cbn [m_tcpSock TcpClient_new m_bLidarConnected]. rewrite !(owned_none kInvalid) by auto.
  split; [|done]. split; [set_solver|]. split; [set_solver|]. split; [by left|done].
Qed.

End Laws.

(** ** A connected client is a stream peer

    The client stays connected while the stream lasts: a receive of a non-empty
    prefix and a whole send take no branch that closes. *)
#[export] Instance tcp_stream_peer {W} `{StreamSockets W} : StreamPeer (tcp_client * W).
Proof.
  refine {| avail s segs :=
    m_bLidarConnected s.1 = true /\ carries s.2 (i32 (m_tcpSock s.1)) segs |}.
  - intros [c w] s segs n [Hc Hw] Hs Hn. cbn in *. unfold tcp_Receive, IsOpened. rewrite Hc.
    destruct (carries_recv w (i32 (m_tcpSock c)) s segs n Hw Hs Hn) as (w' & -> & Hw').
    assert (0 < length s)%nat by (destruct s; [done|cbn; lia]).
    destruct (Z.eqb_spec (Z.min n (Z.of_nat (length s))) 0); [lia|].
    destruct (Z.eqb_spec (Z.min n (Z.of_nat (length s))) (-1)); [lia|]. cbn.
    exists (c, w'). done.
  - intros [c w] n [Hc Hw]. cbn in *. unfold tcp_Receive, IsOpened. rewrite Hc.
    destruct (carries_eof w (i32 (m_tcpSock c)) n Hw) as (k & w' & -> & Hk).
    destruct (_ || _); [destruct (Close c w')|]; eexists _, _; (split; [reflexivity|lia]).
  - intros [c w] segs buf [Hc Hw] Hl. cbn in *. unfold tcp_Send, IsOpened, u16. rewrite Hc.
    rewrite Z.mod_small, take_ge by lia.
    destruct (carries_send w (i32 (m_tcpSock c)) segs buf Hw Hl) as (w' & -> & Hw').
    rewrite Z.eqb_refl. cbn. exists (c, w'). done.
Defined.

(** ** A scripted system

    [w_next] is the descriptor the next socket gets (none when it is open
    already); every connect answers [w_connect], every send the number of bytes
    [w_send] allows, and every receive the next segment of [w_data]. *)
Record world : Type := mk_world {
  w_next : Z;
  w_fds : gset Z;
  w_connect : Z;
  w_send : Z;
  w_errno : Z;
  w_data : list (list Z);
}.

Definition w_valid (w : world) : bool :=
  (0 <=? w_next w) && (w_next w <? 2 ^ 31) && bool_decide (w_next w ∉ w_fds w).

#[export] Instance world_sockets : Sockets world := {|
  sys_socket w :=
    if w_valid w
    then (w_next w, mk_world (w_next w + 1) ({[w_next w]} ∪ w_fds w) (w_connect w) (w_send w) (w_errno w) (w_data w))
    else (-1, w);
  sys_inet_pton s := if bool_decide (s = "") then 0 else 1;
  sys_set_nonblock _ _ w := w;
  sys_connect _ _ _ w := (w_connect w, w);
  sys_select_write _ _ w := (1, w);
  sys_so_error _ w := (0, w);
  sys_send _ buf w := (Z.min (w_send w) (Z.of_nat (length buf)), w);
  sys_recv _ n w :=
    match w_data w with
    | [] => ((-1, []), w)
    | s :: segs => ((Z.min n (Z.of_nat (length s)), take (Z.to_nat n) s),
        mk_world (w_next w) (w_fds w) (w_connect w) (w_send w) (w_errno w) (after_recv n s segs))
    end;
  sys_set_timeo _ _ _ fd w := (if bool_decide (fd ∈ w_fds w) then 0 else -1, w);
  sys_get_rcvbuf fd w := ((if bool_decide (fd ∈ w_fds w) then 0 else -1, 65536), w);
  sys_set_rcvbuf _ _ w := (0, w);
  sys_close fd w :=
    mk_world (w_next w) (w_fds w ∖ {[fd]}) (w_connect w) (w_send w) (w_errno w) (w_data w);
  sys_errno := w_errno;
|}.

#[export] Instance world_sockets_laws : SocketsLaws world.
Proof.
  refine {| open_fds w := filter (fun fd => 0 <= fd) (w_fds w) |}; cbn.
  - intros w fd. rewrite elem_of_filter. tauto.
  - intros w fd w'. unfold w_valid.
    destruct (_ && _) eqn:E; intros [= <- <-]; [right|by left].
    apply andb_prop in E as [[E1%Z.leb_le E2%Z.ltb_lt]%andb_prop E3%bool_decide_eq_true].
    split; [done|]. split; [set_solver|]. cbn.
    apply set_eq. intros x.
    rewrite elem_of_filter, !elem_of_union, elem_of_filter, elem_of_singleton. naive_solver lia.
  - intros fd w. apply set_eq. intros x. rewrite !elem_of_filter, !elem_of_difference, elem_of_filter. tauto.
  - done.
  - by intros ????? ? [= _ <-].
  - by intros ???? ? [= _ <-].
  - by intros ???? [= _ <-].
  - by intros ????? [= _ <-].
  - intros fd n w r w'. destruct (w_data w); by intros [= _ <-].
  - by intros ??????? [= _ <-].
  - by intros ???? [= _ <-].
  - by intros ????? [= _ <-].
Defined.

#[export] Instance world_stream : StreamSockets world.
Proof.
  refine {| carries w fd segs := w_data w = segs /\ 2 ^ 16 <= w_send w |}; cbn.
  - intros w fd s segs n [E Hs] Hne Hn. rewrite E. eauto.
  - intros w fd n [E _]. rewrite E. eauto 10.
  - intros w fd segs buf [E Hs] Hl. rewrite Z.min_r by lia. eauto.
Defined.

(** ** Properties *)

(** C21: any sequence of operations on a new client (opens, sends, receives, closes
    and settings), whatever the system answers, while nobody else opens or closes
    descriptors.  It goes through, unless a [TryOpen] gets a descriptor of 1024 or
    more, which it writes behind the set that [select] is given.  When it has gone
    through, the client owns at most one descriptor, namely the one it is connected
    on, which is open; and closing the client returns the process to the descriptors
    it had, with the exception of the descriptor 0: the client may have been given
    it, where the standard input was closed, and never closes it. *)
Theorem tcp_no_leak {W} `{SocketsLaws W} ops (w : W) :
  (exists c' w', foldM tcp_step (TcpClient_new, w) ops = Ok (c', w') /\
    tcp_inv (open_fds w) c' w' /\
    (m_bLidarConnected c' = true -> m_tcpSock c' ∈ open_fds w') /\
    given_back (open_fds w) (Close c' w').2 /\
    (0 ∈ open_fds w -> open_fds (Close c' w').2 = open_fds w)) \/
  exists pre ip port t post c1 w1, ops = pre ++ OpTryOpen ip port t :: post /\
    foldM tcp_step (TcpClient_new, w) pre = Ok (c1, w1) /\
    fd_too_large (if IsOpened c1 then (Close c1 w1).2 else w1) /\
    foldM tcp_step (TcpClient_new, w) ops = Err OutOfBounds.
Proof.
  destruct (tcp_run_inv (open_fds w) ops (TcpClient_new, w)) as
    [([c' w'] & E & Hi)|(pre & o & post & [c1 w1] & -> & E1 & Hf & E)]; [apply TcpClient_new_inv| |].
  - left. exists c', w'. split; [done|]. split; [done|]. destruct Hi as (Ho & Hz & Hc). cbn [fst snd] in *.
    pose proof (Close_gives_back _ _ _ Ho) as Hg. split; [|split; [done|by intros; apply given_back_all]].
    intros Hcon. rewrite Hcon in Hc. destruct Ho as (Ho & _ & Hs & _).
    destruct (decide (m_tcpSock c' = 0)) as [E0|E0]; [rewrite E0; by apply Hz|].
    apply Ho; [done|]. left. rewrite owned_some by (destruct Hs; [done|lia]). set_solver.
  - right. destruct o; try done. by eexists pre, _, _, _, post, c1, w1.
Qed.

(** A client that was given the descriptor 0 does not close it. *)
Theorem descriptor_zero_kept {W} `{SocketsLaws W} c (w w1 : W) :
  sys_socket w = (0, w1) -> 0 < sys_inet_pton (m_sServerIP c) ->
  let '(b, c', w') := Open c w in 0 ∈ open_fds w' /\ Close c' w' = (set_connected false c', w').
Proof.
  intros Es Hip. unfold Open. rewrite Es. cbn [m_tcpSock set_sock]. change (i32 (u32 0)) with 0. cbn [Z.eqb].
  destruct (Z.leb_spec (sys_inet_pton (m_sServerIP (set_sock (u32 0) c))) 0) as [Hl|_]; [cbn in Hl; lia|].
  apply socket_fresh in Es as [[? _]|(_ & _ & Es)]; [done|].
  destruct (sys_connect _ _ _ _) as [r w2] eqn:Eco. apply connect_fds in Eco.
  assert (0 ∈ open_fds w2) by (rewrite Eco, Es; set_solver). by destruct (r <? 0).
Qed.

(** [TryOpen] answers true exactly when the client is connected afterwards, to the
    endpoint it was asked for, unless it was given a descriptor too large; a client
    already connected there is left alone. *)
Theorem try_open_connects {W} `{SocketsLaws W} base c (w : W) ip port t :
  tcp_inv base c w ->
  (TryOpen ip port t c w = Err OutOfBounds /\ fd_too_large (if IsOpened c then (Close c w).2 else w)) \/
  exists b c' w', TryOpen ip port t c w = Ok (b, c', w') /\
    m_bLidarConnected c' = b /\ m_sServerIP c' = ip /\ ptc_port_ c' = port /\
    (b = false -> given_back base w') /\
    (m_bLidarConnected c = true -> m_sServerIP c = ip -> ptc_port_ c = port -> c' = c /\ w' = w).
Proof.
  intros Hinv. destruct (TryOpen_spec base c w ip port t Hinv) as [?|(b & c' & w' & E & Hi & Hb & Hip & Hp)]; [by left|].
  right. exists b, c', w'. repeat (split; [done|]). split.
  - intros ->. pose proof (disconnected base c' w' Hi Hb). by eapply owns_given_back; [|apply Hi].
  - intros Hcon <- <-. unfold TryOpen, IsOpened in E. rewrite Hcon, bool_decide_true, Z.eqb_refl in E by done.
    cbn in E. by injection E as <- <- <-.
Qed.

(** A receive that ends the stream or fails with a permanent error closes
    the connection and its descriptor; a timeout or an interrupted call keeps
    it. *)
Theorem receive_failure_closes {W} `{SocketsLaws W} base c (w : W) n len bytes w1 :
  tcp_inv base c w -> m_bLidarConnected c = true ->
  sys_recv (i32 (m_tcpSock c)) n w = ((len, bytes), w1) ->
  exists c' w', tcp_Receive n c w = ((len, bytes), c', w') /\
    if (len =? 0) || ((len =? -1) && negb (transient (sys_errno w1)))
    then m_bLidarConnected c' = false /\ given_back base w'
    else c' = c /\ w' = w1.
Proof.
  intros Hinv Hcon Er. unfold tcp_Receive, IsOpened. rewrite Hcon, Er.
  destruct (_ || _); [|by eexists _, _]. apply recv_fds in Er.
  assert (owns base (m_tcpSock c) w1) as Ho by (by eapply owns_fds; [|apply Hinv]).
  pose proof (Close_gives_back base c w1 Ho) as Hg.
  destruct (Close c w1) as [c2 w2] eqn:Ec. exists c2, w2. split; [done|].
  by apply (Close_owns base) in Ec as (_ & _ & _ & _ & ? & _).
Qed.

(** [errno] is read after a send that did not fail: when the socket takes
    part of the buffer and the last error was not a transient one, the
    connection is closed although no call failed. *)
Theorem short_send_closes {W} `{SocketsLaws W} base c (w : W) buf len w1 k :
  tcp_inv base c w -> m_bLidarConnected c = true ->
  sys_send (i32 (m_tcpSock c)) (take (Z.to_nat len) buf) w = (k, w1) ->
  0 < k < len -> transient (sys_errno w1) = false ->
  exists c' w', tcp_Send buf len c w = (k, c', w') /\
    m_bLidarConnected c' = false /\ given_back base w'.
Proof.
  intros Hinv Hcon Es Hk Ht. unfold tcp_Send, IsOpened. rewrite Hcon, Es, Ht.
  destruct (Z.eqb_spec k len); [lia|]. cbn [negb andb]. apply send_fds in Es.
  assert (owns base (m_tcpSock c) w1) as Ho by (by eapply owns_fds; [|apply Hinv]).
  pose proof (Close_gives_back base c w1 Ho) as Hg.
  destruct (Close c w1) as [c2 w2] eqn:Ec. exists c2, w2. split; [done|].
  by apply (Close_owns base) in Ec as (_ & _ & _ & _ & ? & _).
Qed.

(** The check for a client that is not open never fires, because it compares an
    unsigned value with zero: on a closed client the timeout is still handed to the
    system, for the descriptor -1 (or the descriptor 0 that was not closed), and
    [SetTimeout] still stores its arguments. *)
Theorem closed_guard_dead {W} `{SocketsLaws W} base c (w : W) rec sndt :
  tcp_inv base c w -> m_bLidarConnected c = false ->
  let fd := i32 (m_tcpSock c) in
  let r := sys_set_timeo true (rec / 1000) (rec mod 1000 * 1000) fd w in
  (fd = -1 \/ fd = 0) /\
  SetReceiveTimeout rec c w = (r.1 =? 0, c, r.2) /\
  (SetTimeout rec sndt c w).1.2 = set_timeouts rec sndt c.
Proof.
  intros Hinv Hcon fd r. pose proof (owned_empty _ (disconnected base c w Hinv Hcon)) as Hs.
  assert (m_tcpSock c <? 0 = false) as Hg by by destruct Hs as [-> | ->].
  split; [unfold fd; destruct Hs as [-> | ->]; [by left|by right]|].
  unfold SetReceiveTimeout, SetTimeout. rewrite Hg. cbn [m_tcpSock set_timeouts]. fold fd r.
  destruct r as [k w1]. split; [done|].
  destruct (k =? 0); [|done]. by destruct (sys_set_timeo false _ _ _ w1).
Qed.

(** ** Witnesses *)

Definition world0 : world := mk_world 3 {[0; 1; 2]} 0 (2 ^ 16) 0 [].
(** Standard input closed; and 1021 files open. *)
Definition world_no_stdin : world := mk_world 0 {[1; 2]} 0 (2 ^ 16) 0 [].
Definition world_full : world := mk_world 1024 {[0; 1; 2]} 0 (2 ^ 16) 0 [].
Definition open_op : tcp_op := OpTryOpen "192.168.1.201" 9347 1.

Lemma try_open_connects_witness :
  exists c' w', TryOpen "192.168.1.201" 9347 1 TcpClient_new world0 = Ok (true, c', w') /\
    m_bLidarConnected c' = true /\ m_sServerIP c' = "192.168.1.201" /\ ptc_port_ c' = 9347.
Proof.
  destruct (try_open_connects (open_fds world0) TcpClient_new world0 "192.168.1.201" 9347 1)
    as [[E _]|(b & c' & w' & E & Hb & Hip & Hp & _)]; [apply TcpClient_new_inv|vm_compute in E; done|].
  assert (b = true) as -> by (vm_compute in E; by injection E as <- _ _). by exists c', w'.
Defined.

(** The descriptor 0 stays open; the descriptor 1024 faults. *)
Lemma descriptor_zero_kept_witness :
  let '(b, c', w') := Open (set_endpoint "192.168.1.201" 9347 TcpClient_new) world_no_stdin in
  0 ∈ open_fds w' /\ Close c' w' = (set_connected false c', w').
Proof.
  exact (descriptor_zero_kept (set_endpoint "192.168.1.201" 9347 TcpClient_new) world_no_stdin
    (mk_world 1 ({[0]} ∪ {[1; 2]}) 0 (2 ^ 16) 0 []) eq_refl eq_refl).
Defined.

Lemma tcp_no_leak_witness :
  (exists c w, foldM tcp_step (TcpClient_new, world0) [open_op; OpSend [1; 2] 2; OpSetTimeout 500 500] = Ok (c, w) /\
    m_bLidarConnected c = true /\ m_tcpSock c ∈ open_fds w /\ open_fds (Close c w).2 = open_fds world0) /\
  exists c w, foldM tcp_step (TcpClient_new, world_full) [] = Ok (c, w) /\ fd_too_large w.
Proof.
  split.
  - destruct (tcp_no_leak [open_op; OpSend [1; 2] 2; OpSetTimeout 500 500] world0)
      as [(c & w & E & _ & Hc & _ & Hb)|(pre & ip & port & t & post & c & w & _ & _ & _ & E)]; [|vm_compute in E; done].
    exists c, w. split; [exact E|]. assert (m_bLidarConnected c = true) as Hcon by (vm_compute in E; by injection E as <- _).
    split; [exact Hcon|]. split; [by apply Hc|]. apply Hb. by vm_compute.
  - destruct (tcp_no_leak [open_op] world_full)
      as [(c & w & E & _)|(pre & ip & port & t & post & c & w & Ep & E1 & Hf & _)]; [vm_compute in E; done|].
    destruct pre as [|o pre]; [|apply (f_equal (drop 1)) in Ep; cbn in Ep; by destruct pre].
    cbn in E1. injection E1 as <- <-. by exists TcpClient_new, world_full.
Defined.

Example large_descriptor_faults : foldM tcp_step (TcpClient_new, world_full) [open_op] = Err OutOfBounds.
Proof. vm_compute. reflexivity. Qed.

(** A client that is connected, and the world it is connected in. *)
Definition conn_client : tcp_client := mk_tcp "192.168.1.201" 9347 3 true 4096 500 500.
Definition conn_world : world := mk_world 4 {[0; 1; 2; 3]} 0 5 104 [].

Lemma conn_owns data : owns {[0; 1; 2]} 3 (mk_world 4 {[0; 1; 2; 3]} 0 (2 ^ 16) 0 data) /\ owns {[0; 1; 2]} 3 conn_world.
Proof.
  assert (filter (fun fd => 0 <= fd) ({[0; 1; 2; 3]} : gset Z) = {[0; 1; 2; 3]}) as E by (by vm_compute).
  unfold owns. rewrite owned_some by lia. cbn. rewrite E.
  split; (split; [set_solver|]; split; [set_solver by lia|]; split; [lia|set_solver]).
Qed.

Lemma conn_inv : tcp_inv {[0; 1; 2]} conn_client conn_world.
Proof. split; [apply (conn_owns [])|]. by split. Qed.

Lemma receive_failure_closes_witness :
  exists c' w', tcp_Receive 8 conn_client conn_world = ((-1, []), c', w') /\
    m_bLidarConnected c' = false /\ given_back {[0; 1; 2]} w'.
Proof. apply (receive_failure_closes {[0; 1; 2]} conn_client conn_world 8 (-1) [] conn_world conn_inv); done. Defined.

Lemma short_send_closes_witness :
  exists c' w', tcp_Send (replicate 8 7) 8 conn_client conn_world = (5, c', w') /\
    m_bLidarConnected c' = false /\ given_back {[0; 1; 2]} w'.
Proof.
  apply (short_send_closes {[0; 1; 2]} conn_client conn_world (replicate 8 7) 8 conn_world 5 conn_inv);
    [done|done|lia|done].
Defined.

Lemma closed_guard_dead_witness :
  SetReceiveTimeout 500 TcpClient_new world0 = (false, TcpClient_new, world0) /\
  (SetTimeout 500 30 TcpClient_new world0).1.2 = mk_tcp "" 0 kInvalid false 4096 500 30.
Proof.
  destruct (closed_guard_dead (open_fds world0) TcpClient_new world0 500 30) as (_ & E1 & E2);
    [apply TcpClient_new_inv|done|].
  split; [rewrite E1; vm_compute; reflexivity|exact E2].
Defined.

(** A query over the scripted connection, through [tcp_stream_peer]. *)
Definition stream_world : world :=
  mk_world 4 {[0; 1; 2; 3]} 0 (2 ^ 16) 0 [[0x47; 0x74; 5; 0; 0]; [0; 0; 2; 9]; [8; 7]].

Lemma tcp_query_example :
  exists c' w', QueryCommand PTCHeader_1_0 true 20 [1] [] 0x05 (conn_client, stream_world)
      = Ok (0, [9; 8], (c', w'))
    /\ m_bLidarConnected c' = true /\ concat (w_data w') = [7].
Proof. eexists _, _. split; [vm_compute; reflexivity|done]. Qed.
