(* ===== verification/TcpSsl.v ===== *)
(** * TcpSsl: the TCP connection to the lidar under TLS

    PtcClient/src/tcp_ssl_client.cc (the POSIX branches).  The calls of OpenSSL
    are the interface [Ssl], beside the [Sockets] of TcpClient.v; [SslLaws] and the
    classes below it state documented behaviour: the library opens and closes no
    descriptor, a session lives until [SSL_free], which is not among the calls, a
    handshake on an invalid descriptor fails with a negative value and leaves the
    verification result at its initial [X509_V_OK].  The members the class has in
    common with [TcpClient] are a [tcp_client]; [SOCKET] is unsigned here too. *)

From stdpp Require Import sets gmap.
From S2P Require Import Prelude Bytes Ptc PtcClient TcpClient.
Local Open Scope Z_scope.

(** [SSL_CTX] and [SSL] objects are handles; [None] is a null pointer. *)
Class Ssl (W : Type) : Type := {
  ssl_ctx_new : W -> option Z * W;
  ssl_load_verify_locations : Z -> string -> W -> Z * W;
  ssl_set_verify : Z -> W -> W;
  ssl_use_certificate_file : Z -> string -> W -> Z * W;
  ssl_use_PrivateKey_file : Z -> string -> W -> Z * W;
  ssl_check_private_key : Z -> W -> Z * W;
  ssl_ctx_free : Z -> W -> W;
  ssl_new : Z -> W -> option Z * W;
  ssl_set_fd : Z -> Z -> W -> W;
  ssl_connect : Z -> W -> Z * W;
  ssl_get_verify_result : Z -> W -> Z;
  ssl_read : Z -> Z -> W -> (Z * list Z) * W;
  ssl_write : Z -> list Z -> W -> Z * W;
  ssl_shutdown : Z -> W -> W;
}.

Definition X509_V_OK : Z := 0.

(** A path that may be a null pointer. *)
Definition path_arg : Type := option string.

(** [cert_], [private_key_] and [ca_] have no value before the first open. *)
Record tcp_ssl : Type := mk_tcp_ssl {
  tcp : tcp_client;
  ctx_ : option Z;
  ssl_ : option Z;
  files_ : option (path_arg * path_arg * path_arg);
}.

Definition TcpSslClient_new : tcp_ssl := mk_tcp_ssl TcpClient_new None None None.

Definition set_tcp (t : tcp_client) (c : tcp_ssl) : tcp_ssl := mk_tcp_ssl t (ctx_ c) (ssl_ c) (files_ c).
Definition set_ctx (x : option Z) (c : tcp_ssl) : tcp_ssl := mk_tcp_ssl (tcp c) x (ssl_ c) (files_ c).
Definition set_ssl (x : option Z) (c : tcp_ssl) : tcp_ssl := mk_tcp_ssl (tcp c) (ctx_ c) x (files_ c).
Definition set_files (cert private_key ca : path_arg) (c : tcp_ssl) : tcp_ssl :=
  mk_tcp_ssl (tcp c) (ctx_ c) (ssl_ c) (Some (cert, private_key, ca)).

Section Client.
Context {W : Type} {SK : Sockets W} {SS : Ssl W}.

(** ** The TCP connection *)

(** A connect in non-blocking mode, then a wait of [timeout] seconds.  A refused
    connection is answered with [false], which is 0 as an [int]. *)
Definition tcp_try_open (ipaddr : string) (port timeout : Z) (w : W) : result (Z * W) :=
  let '(sockfd, w) := sys_socket w in
  if sockfd =? -1 then Ok (-1, w)
  else if sys_inet_pton ipaddr <=? 0 then Ok (-1, sys_close sockfd w)
  else
    let w := sys_set_nonblock true sockfd w in
    let '(r, w) := sys_connect sockfd ipaddr port w in
    if (r <? 0) && negb (sys_errno w =? EINPROGRESS) then Ok (-1, sys_close sockfd w)
    else if FD_SETSIZE <=? sockfd then Err OutOfBounds
    else
      let '(r, w) := sys_select_write sockfd timeout w in
      if r <=? 0 then Ok (-1, sys_close sockfd w)
      else
        let '(error, w) := sys_so_error sockfd w in
        if negb (error =? 0) then Ok (0, sys_close sockfd w)
        else Ok (sockfd, sys_set_nonblock false sockfd w).

Definition tcp_open (ipaddr : string) (port : Z) (w : W) : Z * W :=
  let '(sockfd, w) := sys_socket w in
  if sockfd =? -1 then (-1, w)
  else if sys_inet_pton ipaddr <=? 0 then (-1, sys_close sockfd w)
  else
    let '(r, w) := sys_connect sockfd ipaddr port w in
    if r =? -1 then (-1, sys_close sockfd w) else (sockfd, w).

(** ** The session *)

Definition ssl_IsOpened (c : tcp_ssl) : bool := m_bLidarConnected (tcp c).

Definition ssl_Close (c : tcp_ssl) (w : W) : tcp_ssl * W :=
  let '(t, w) := Close (tcp c) w in
  let w := match ctx_ c with Some x => ssl_ctx_free x w | None => w end in
  let w := match ssl_ c with Some x => ssl_shutdown x w | None => w end in
  (mk_tcp_ssl t None None (files_ c), w).

(** A context that a file is refused for is not freed. *)
Definition InitSslClient (cert private_key ca : path_arg) (w : W) : option Z * W :=
  let '(ctx, w) := ssl_ctx_new w in
  match ctx with
  | None => (None, w)
  | Some x =>
      let '(r, w) := match ca with Some ca => ssl_load_verify_locations x ca w | None => (1, w) end in
      if r =? 0 then (None, w)
      else
        match cert, private_key with
        | Some cert, Some private_key =>
            let w := ssl_set_verify x w in
            let '(r, w) := ssl_use_certificate_file x cert w in
            if r =? 0 then (None, w)
            else
              let '(r, w) := ssl_use_PrivateKey_file x private_key w in
              if r =? 0 then (None, w)
              else
                let '(r, w) := ssl_check_private_key x w in
                (if r =? 0 then None else Some x, w)
        | _, _ => (Some x, w)
        end
  end.

(** What both ways of opening do once they have a socket: the session, the
    handshake and the verification. *)
Definition start_session (x : Z) (c : tcp_ssl) (w : W) : bool * tcp_ssl * W :=
  let '(s, w) := ssl_new x w in
  let c := set_ssl s c in
  match s with
  | None => let '(c, w) := ssl_Close c w in (false, c, w)
  | Some s =>
      let w := ssl_set_fd s (i32 (m_tcpSock (tcp c))) w in
      let '(r, w) := ssl_connect s w in
      if r =? 0 then let '(c, w) := ssl_Close c w in (false, c, w)
      else if negb (ssl_get_verify_result s w =? X509_V_OK) then let '(c, w) := ssl_Close c w in (false, c, w)
      else (true, set_tcp (set_connected true (tcp c)) c, w)
  end.

(** [tcpsock_ < 0], of an unsigned value, then the session. *)
Definition with_socket (fd : Z) (x : Z) (c : tcp_ssl) (w : W) : bool * tcp_ssl * W :=
  let c := set_tcp (set_sock (u32 fd) (tcp c)) c in
  if m_tcpSock (tcp c) <? 0 then let '(c, w) := ssl_Close c w in (false, c, w) else start_session x c w.

Definition same_endpoint (IPAddr : string) (u16Port : Z) (c : tcp_ssl) : bool :=
  ssl_IsOpened c && bool_decide (m_sServerIP (tcp c) = IPAddr) && (u16Port =? ptc_port_ (tcp c)).

Definition ssl_TryOpen (IPAddr : string) (u16Port : Z) (cert private_key ca : path_arg) (timeout : Z) (c : tcp_ssl) (w : W)
    : result (bool * tcp_ssl * W) :=
  if same_endpoint IPAddr u16Port c then Ok (true, c, w)
  else
    let '(c, w) := if ssl_IsOpened c then ssl_Close c w else (c, w) in
    let c := set_files cert private_key ca (set_tcp (set_endpoint IPAddr u16Port (tcp c)) c) in
    let '(ctx, w) := InitSslClient cert private_key ca w in
    let c := set_ctx ctx c in
    match ctx with
    | None => Ok (false, c, w)
    | Some x => '(fd, w) ← tcp_try_open IPAddr u16Port timeout w; Ok (with_socket fd x c w)
    end.

(** [TcpSslClient::Open()] *)
Definition ssl_Open (c : tcp_ssl) (w : W) : result (bool * tcp_ssl * W) :=
  '(cert, private_key, ca) ← of_option Uninitialised (files_ c);
  let '(ctx, w) := InitSslClient cert private_key ca w in
  let c := set_ctx ctx c in
  match ctx with
  | None => Ok (false, c, w)
  | Some x => let '(fd, w) := tcp_open (m_sServerIP (tcp c)) (ptc_port_ (tcp c)) w in Ok (with_socket fd x c w)
  end.

(** [TcpSslClient::Open(IPAddr, u16Port, ...)] *)
Definition ssl_Open_endpoint (IPAddr : string) (u16Port : Z) (cert private_key ca : path_arg) (c : tcp_ssl) (w : W)
    : result (bool * tcp_ssl * W) :=
  if same_endpoint IPAddr u16Port c then Ok (true, c, w)
  else
    let '(c, w) := ssl_Close c w in
    ssl_Open (set_files cert private_key ca (set_tcp (set_endpoint IPAddr u16Port (tcp c)) c)) w.

(** ** Sending and receiving *)

(** [sys_readn_by_ssl] with the bytes read so far; an interrupted read is repeated,
    so the loop has no bound of its own. *)
Fixpoint sys_readn_by_ssl (fuel : nat) (ssl n nleft : Z) (acc : list Z) (w : W) : result ((Z * list Z) * W) :=
  if 0 <? nleft then
    match fuel with
    | O => Err NoProgress
    | S fuel =>
        let '((nread, bytes), w) := ssl_read ssl nleft w in
        if nread <? 0 then
          if sys_errno w =? EINTR then sys_readn_by_ssl fuel ssl n nleft acc w else Ok ((-1, acc), w)
        else if nread =? 0 then Ok ((n - nleft, acc), w)
        else sys_readn_by_ssl fuel ssl n (nleft - nread) (acc ++ bytes) w
    end
  else Ok ((n - nleft, acc), w).

Definition reopen (c : tcp_ssl) (w : W) : result (bool * tcp_ssl * W) :=
  if ssl_IsOpened c then Ok (true, c, w) else ssl_Open c w.

Definition ssl_Send (u8Buf : list Z) (u16Len : Z) (c : tcp_ssl) (w : W) : result (Z * tcp_ssl * W) :=
  '(ret, c, w) ← reopen c w;
  if ret : bool then
    s ← of_option NullPointer (ssl_ c);
    let '(len, w) := ssl_write s (take (Z.to_nat u16Len) u8Buf) w in
    if negb (len =? u16Len) && negb (transient (sys_errno w))
    then let '(c, w) := ssl_Close c w in Ok (-1, c, w)
    else Ok (len, c, w)
  else Ok (-1, c, w).

Definition ssl_Receive (fuel : nat) (u32Len : Z) (c : tcp_ssl) (w : W) : result ((Z * list Z) * tcp_ssl * W) :=
  '(ret, c, w) ← reopen c w;
  if ret : bool then
    s ← of_option NullPointer (ssl_ c);
    '((len, bytes), w) ← sys_readn_by_ssl fuel s (i32 u32Len) (i32 u32Len) [] w;
    if negb (len =? i32 u32Len) then let '(c, w) := ssl_Close c w in Ok ((-1, bytes), c, w)
    else Ok ((len, bytes), c, w)
  else Ok ((-1, []), c, w).

(** ** The settings, which are those of [TcpClient] *)

Definition ssl_SetReceiveTimeout (u32Timeout : Z) (c : tcp_ssl) (w : W) : bool * tcp_ssl * W :=
  let '(b, t, w) := SetReceiveTimeout u32Timeout (tcp c) w in (b, set_tcp t c, w).
Definition ssl_SetTimeout (u32RecMillisecond u32SendMillisecond : Z) (c : tcp_ssl) (w : W) : Z * tcp_ssl * W :=
  let '(r, t, w) := SetTimeout u32RecMillisecond u32SendMillisecond (tcp c) w in (r, set_tcp t c, w).
Definition ssl_SetReceiveBufferSize (size : Z) (c : tcp_ssl) (w : W) : tcp_ssl * W :=
  let '(t, w) := SetReceiveBufferSize size (tcp c) w in (set_tcp t c, w).

(** The operations a client of the class can call. *)
Inductive ssl_op : Type :=
| SslTryOpen (ip : string) (port : Z) (cert private_key ca : path_arg) (timeout : Z)
| SslOpen (ip : string) (port : Z) (cert private_key ca : path_arg)
| SslClose
| SslSend (buf : list Z) (len : Z)
| SslReceive (fuel : nat) (n : Z)
| SslSetReceiveTimeout (ms : Z)
| SslSetTimeout (rec snd : Z)
| SslSetReceiveBufferSize (n : Z).

Definition ssl_step (s : tcp_ssl * W) (o : ssl_op) : result (tcp_ssl * W) :=
  let '(c, w) := s in
  match o with
  | SslTryOpen ip port cert key ca t => '(_, c, w) ← ssl_TryOpen ip port cert key ca t c w; Ok (c, w)
  | SslOpen ip port cert key ca => '(_, c, w) ← ssl_Open_endpoint ip port cert key ca c w; Ok (c, w)
  | SslClose => Ok (ssl_Close c w)
  | SslSend buf len => '(_, c, w) ← ssl_Send buf len c w; Ok (c, w)
  | SslReceive fuel n => '(_, c, w) ← ssl_Receive fuel n c w; Ok (c, w)
  | SslSetReceiveTimeout ms => let '(_, c, w) := ssl_SetReceiveTimeout ms c w in Ok (c, w)
  | SslSetTimeout r s => let '(_, c, w) := ssl_SetTimeout r s c w in Ok (c, w)
  | SslSetReceiveBufferSize n => Ok (ssl_SetReceiveBufferSize n c w)
  end.

End Client.

(** ** What the library promises *)

(** No call opens or closes a descriptor of the process.  [sessions] are the [SSL]
    objects that were made and not freed; no call of the client frees one. *)
Class SslLaws (W : Type) `{SocketsLaws W} `{Ssl W} : Type := {
  sessions : W -> gset Z;
  ctx_new_fds w r w' : ssl_ctx_new w = (r, w') -> open_fds w' = open_fds w;
  load_verify_fds x s w r w' : ssl_load_verify_locations x s w = (r, w') -> open_fds w' = open_fds w;
  set_verify_fds x w : open_fds (ssl_set_verify x w) = open_fds w;
  use_certificate_fds x s w r w' : ssl_use_certificate_file x s w = (r, w') -> open_fds w' = open_fds w;
  use_PrivateKey_fds x s w r w' : ssl_use_PrivateKey_file x s w = (r, w') -> open_fds w' = open_fds w;
  check_private_key_fds x w r w' : ssl_check_private_key x w = (r, w') -> open_fds w' = open_fds w;
  ctx_free_fds x w : open_fds (ssl_ctx_free x w) = open_fds w;
  ssl_new_fds x w r w' : ssl_new x w = (r, w') -> open_fds w' = open_fds w;
  set_fd_fds s fd w : open_fds (ssl_set_fd s fd w) = open_fds w;
  ssl_connect_fds s w r w' : ssl_connect s w = (r, w') -> open_fds w' = open_fds w;
  ssl_read_fds s n w r w' : ssl_read s n w = (r, w') -> open_fds w' = open_fds w;
  ssl_write_fds s buf w r w' : ssl_write s buf w = (r, w') -> open_fds w' = open_fds w;
  shutdown_fds s w : open_fds (ssl_shutdown s w) = open_fds w;
  new_session x w s w' : ssl_new x w = (Some s, w') -> s ∉ sessions w /\ sessions w' = {[s]} ∪ sessions w;
  close_sessions fd w : sessions (sys_close fd w) = sessions w;
  ctx_free_sessions x w : sessions (ssl_ctx_free x w) = sessions w;
  shutdown_sessions s w : sessions (ssl_shutdown s w) = sessions w;
}.

(** A handshake on the descriptor -1, and what it leaves. *)
Class SslBadDescriptor (W : Type) `{Ssl W} : Prop := {
  connect_bad_descriptor s w r w' : ssl_connect s (ssl_set_fd s (-1) w) = (r, w') -> r < 0 /\ ssl_get_verify_result s w' = X509_V_OK;
}.

(** A session that still delivers some bytes: a read gives at least one of them, and
    0 when there are none. *)
Class SslStream (W : Type) `{Ssl W} : Type := {
  delivers : W -> Z -> list Z -> Prop;
  delivers_some w s bs n : delivers w s bs -> bs <> [] -> 0 < n ->
    exists k w', 0 < k <= n /\ k <= Z.of_nat (length bs) /\
      ssl_read s n w = ((k, take (Z.to_nat k) bs), w') /\ delivers w' s (drop (Z.to_nat k) bs);
  delivers_none w s n : delivers w s [] -> 0 < n -> exists w', ssl_read s n w = ((0, []), w');
}.

(** The client owns its socket, and nothing else: 0 stands for no socket of its own,
    although the client works on it. *)
Definition ssl_inv {W} `{SocketsLaws W} (base : gset Z) (c : tcp_ssl) (w : W) : Prop :=
  owns base (m_tcpSock (tcp c)) w /\ (m_bLidarConnected (tcp c) = false -> owned (m_tcpSock (tcp c)) = ∅).

(** ** Lemmas *)

Section Laws.
Context {W : Type} {SK : Sockets W} {SL : SocketsLaws W} {SS : Ssl W} {SSL : SslLaws W}.
Implicit Types (c : tcp_ssl) (w : W) (base : gset Z).

Lemma ssl_inv_fds base c w w' : open_fds w' = open_fds w -> ssl_inv base c w -> ssl_inv base c w'.
Proof. intros E [Ho Hc]. split; [by eapply owns_fds|done]. Qed.

(** The calls that are looked at one by one in an opening. *)
Lemma InitSslClient_fds cert key ca w r w' : InitSslClient cert key ca w = (r, w') -> open_fds w' = open_fds w.
Proof.
  unfold InitSslClient. destruct (ssl_ctx_new w) as [[x|] w1] eqn:E1; apply ctx_new_fds in E1; [|by intros [= _ <-]].
  destruct (match ca with Some ca => ssl_load_verify_locations x ca w1 | None => (1, w1) end) as [r2 w2] eqn:E2.
  assert (open_fds w2 = open_fds w1) as E2'.
  { destruct ca; [by apply load_verify_fds in E2|by injection E2 as _ <-]. }
  destruct (r2 =? 0); [intros [= _ <-]; congruence|].
  destruct cert as [cert|], key as [key|]; try (intros [= _ <-]; congruence).
  destruct (ssl_use_certificate_file _ _ _) as [r3 w3] eqn:E3. apply use_certificate_fds in E3. rewrite set_verify_fds in E3.
  destruct (r3 =? 0); [intros [= _ <-]; congruence|].
  destruct (ssl_use_PrivateKey_file _ _ _) as [r4 w4] eqn:E4. apply use_PrivateKey_fds in E4.
  destruct (r4 =? 0); [intros [= _ <-]; congruence|].
  destruct (ssl_check_private_key _ _) as [r5 w5] eqn:E5. apply check_private_key_fds in E5.
  intros [= _ <-]. congruence.
Qed.

Lemma ssl_Close_spec base c w c' w' : owns base (m_tcpSock (tcp c)) w -> ssl_Close c w = (c', w') ->
  ssl_inv base c' w' /\ given_back base w' /\ owned (m_tcpSock (tcp c')) = ∅ /\ m_bLidarConnected (tcp c') = false /\
  m_sServerIP (tcp c') = m_sServerIP (tcp c) /\ ptc_port_ (tcp c') = ptc_port_ (tcp c) /\ files_ c' = files_ c.
Proof.
  intros Ho. unfold ssl_Close. destruct (Close (tcp c) w) as [t w1] eqn:E.
  apply (Close_owns base) in E as (H1 & H2 & _ & _ & H3 & H4 & H5); [|done].
  intros [= <- <-]. assert (open_fds (match ssl_ c with
     | Some x => ssl_shutdown x (match ctx_ c with Some y => ssl_ctx_free y w1 | None => w1 end)
     | None => match ctx_ c with Some y => ssl_ctx_free y w1 | None => w1 end end) = open_fds w1) as Hf.
  { destruct (ssl_ c), (ctx_ c); rewrite ?shutdown_fds, ?ctx_free_fds; done. }
  apply (owns_fds base _ _ _ Hf) in H1. cbn. split; [by split|]. split; [by eapply owns_given_back|done].
Qed.

(** Closing in the middle of an opening. *)
Lemma close_fails base c w b c' w' : owns base (m_tcpSock (tcp c)) w -> (let '(c, w) := ssl_Close c w in (false, c, w)) = (b, c', w') ->
  ssl_inv base c' w' /\ m_bLidarConnected (tcp c') = b.
Proof.
  intros Ho. destruct (ssl_Close c w) as [c1 w1] eqn:E. intros [= <- <- <-].
  by apply (ssl_Close_spec base) in E as (? & _ & _ & ? & _).
Qed.

Lemma start_session_inv base x c w b c' w' : owns base (m_tcpSock (tcp c)) w -> start_session x c w = (b, c', w') ->
  ssl_inv base c' w' /\ m_bLidarConnected (tcp c') = b.
Proof.
  intros Ho. unfold start_session. destruct (ssl_new x w) as [s w1] eqn:E1. apply ssl_new_fds in E1.
  assert (owns base (m_tcpSock (tcp (set_ssl s c))) w1) as Ho1 by (by eapply owns_fds). destruct s as [s|]; [|by apply close_fails].
  destruct (ssl_connect _ _) as [r w2] eqn:E2. apply ssl_connect_fds in E2. rewrite set_fd_fds in E2.
  assert (owns base (m_tcpSock (tcp (set_ssl (Some s) c))) w2) as Ho2 by (eapply owns_fds; [etransitivity; [exact E2|exact E1]|done]).
  destruct (r =? 0); [by apply close_fails|]. destruct (negb _); [by apply close_fails|].
  intros [= <- <- <-]. split; [|done]. by split.
Qed.

Lemma with_socket_inv base fd x c w b c' w' : owns base (u32 fd) w -> with_socket fd x c w = (b, c', w') ->
  ssl_inv base c' w' /\ m_bLidarConnected (tcp c') = b.
Proof.
  intros Ho. unfold with_socket. destruct (_ <? 0); [by apply close_fails|by apply start_session_inv].
Qed.

(** The descriptor an opening ends with, by a client that has none. *)
Section Opening.
Variables (base : gset Z) (sock : Z) (w : W).
Hypothesis Hnone : owned sock = ∅.
Hypothesis Howns : owns base sock w.

(** What the call of [socket] gave. *)
Lemma new_socket fd w1 : sys_socket w = (fd, w1) -> fd <> -1 -> 0 <= fd < 2 ^ 31 /\
  (forall w', open_fds w' = open_fds w1 -> owns base (u32 fd) w') /\
  (forall k w', k = -1 \/ k = 0 -> open_fds w' = open_fds w1 -> owns base (u32 k) (sys_close fd w')).
Proof using All.
  intros E Hne. apply socket_fresh in E as [[? _]|(Hr & Hn & E)]; [done|]. split; [done|]. split.
  - intros w' Ew. rewrite u32_fd by done. eapply owns_fresh; [exact Hnone|exact Howns|exact Hr|exact Hn|congruence].
  - intros k w' Hk Ew. assert (open_fds (sys_close fd w') = open_fds w) as Ec by (rewrite close_fds, Ew, E; set_solver).
    eapply owns_fds; [exact Ec|]. eapply owns_none; [exact Hnone| |exact Howns]. destruct Hk as [-> | ->]; auto.
Qed.

Lemma no_socket w1 : sys_socket w = (-1, w1) -> owns base (u32 (-1)) w1.
Proof using All.
  intros E. apply socket_fresh in E as [[_ E]|[? _]]; [|lia]. eapply owns_fds; [exact E|]. eapply owns_none; [exact Hnone|by left|exact Howns].
Qed.

Lemma tcp_try_open_gives ip port t :
  (tcp_try_open ip port t w = Err OutOfBounds /\ fd_too_large w) \/
  exists fd w', tcp_try_open ip port t w = Ok (fd, w') /\ owns base (u32 fd) w'.
Proof using All.
  unfold tcp_try_open, fd_too_large. destruct (sys_socket w) as [fd w1] eqn:E.
  destruct (Z.eqb_spec fd (-1)) as [->|Hne]; [right; eexists _, _; split; [done|]; by apply no_socket|].
  destruct (new_socket fd w1 E Hne) as (Hr & Hk & Hc).
  destruct (_ <=? 0); [right; eexists _, _; split; [done|]; apply Hc; [by left|done]|].
  destruct (sys_connect _ _ _ _) as [r w2] eqn:E2. apply connect_fds in E2. rewrite nonblock_fds in E2.
  destruct (_ && _); [right; eexists _, _; split; [done|]; apply Hc; [by left|done]|].
  destruct (Z.leb_spec FD_SETSIZE fd); [by left|]. right.
  destruct (sys_select_write _ _ _) as [r3 w3] eqn:E3. apply select_fds in E3.
  destruct (r3 <=? 0); [eexists _, _; split; [done|]; apply Hc; [auto|congruence]|].
  destruct (sys_so_error _ _) as [r4 w4] eqn:E4. apply so_error_fds in E4.
  destruct (negb _); [eexists _, _; split; [done|]; apply Hc; [auto|congruence]|].
  eexists _, _. split; [done|]. apply Hk. rewrite nonblock_fds. congruence.
Qed.

Lemma tcp_open_gives ip port fd w' : tcp_open ip port w = (fd, w') -> owns base (u32 fd) w'.
Proof using All.
  unfold tcp_open. destruct (sys_socket w) as [fd1 w1] eqn:E.
  destruct (Z.eqb_spec fd1 (-1)) as [->|Hne]; [intros [= <- <-]; by apply no_socket|].
  destruct (new_socket fd1 w1 E Hne) as (Hr & Hk & Hc).
  destruct (_ <=? 0); [intros [= <- <-]; apply Hc; auto|].
  destruct (sys_connect _ _ _ _) as [r w2] eqn:E2. apply connect_fds in E2.
  destruct (r =? -1); intros [= <- <-]; [apply Hc; auto|by apply Hk].
Qed.

End Opening.

Lemma with_socket_ok fd x c w : exists b c' w', with_socket fd x c w = (b, c', w').
Proof. destruct (with_socket fd x c w) as [[b c'] w']. eauto. Qed.

Lemma no_context base c w b : ssl_inv base c w -> ssl_IsOpened c = false -> b = false -> ssl_inv base c w /\ m_bLidarConnected (tcp c) = b.
Proof. by intros ? ? ->. Qed.

Lemma ssl_Open_spec base c w b c' w' : ssl_inv base c w -> ssl_IsOpened c = false -> ssl_Open c w = Ok (b, c', w') ->
  ssl_inv base c' w' /\ m_bLidarConnected (tcp c') = b.
Proof.
  intros Hi Hf. unfold ssl_Open. destruct (files_ c) as [[[cert key] ca]|]; cbn [of_option mbind result_bind]; [|done].
  destruct (InitSslClient cert key ca w) as [ctx w1] eqn:E1. apply InitSslClient_fds in E1.
  destruct ctx as [x|]; [|intros [= <- <- <-]; by split; [apply (ssl_inv_fds base (set_ctx None c) w)|]].
  destruct (tcp_open _ _ w1) as [fd w2] eqn:E2. intros H. apply (inj Ok) in H. destruct Hi as [Ho Hn].
  apply (tcp_open_gives base (m_tcpSock (tcp c))) in E2; [|by apply Hn|by eapply owns_fds].
  by apply (with_socket_inv base) in H.
Qed.

(** The world in which [TryOpen] asks for its socket. *)
Definition ssl_socket_world (cert key ca : path_arg) c w : W :=
  (InitSslClient cert key ca (if ssl_IsOpened c then (ssl_Close c w).2 else w)).2.

Lemma ssl_TryOpen_spec base c w ip port cert key ca t : ssl_inv base c w ->
  (ssl_TryOpen ip port cert key ca t c w = Err OutOfBounds /\ fd_too_large (ssl_socket_world cert key ca c w)) \/
  exists b c' w', ssl_TryOpen ip port cert key ca t c w = Ok (b, c', w') /\
    ssl_inv base c' w' /\ m_bLidarConnected (tcp c') = b.
Proof.
  intros Hi. unfold ssl_TryOpen, ssl_socket_world. destruct (same_endpoint ip port c) eqn:E.
  { right. eexists _, _, _. split; [done|]. split; [done|]. unfold same_endpoint, ssl_IsOpened in E. by destruct (m_bLidarConnected (tcp c)). }
  assert (exists c0 w0, (if ssl_IsOpened c then ssl_Close c w else (c, w)) = (c0, w0) /\
    (if ssl_IsOpened c then (ssl_Close c w).2 else w) = w0 /\ ssl_inv base c0 w0 /\
    owned (m_tcpSock (tcp c0)) = ∅ /\ m_bLidarConnected (tcp c0) = false) as (c0 & w0 & -> & -> & Hi0 & Ho0 & Hf0).
  { unfold ssl_IsOpened. destruct (m_bLidarConnected (tcp c)) eqn:Eb.
    - destruct (ssl_Close c w) as [c0 w0] eqn:E0. exists c0, w0. split; [done|]. split; [done|].
      apply (ssl_Close_spec base) in E0 as (? & _ & ? & ? & _); [done|apply Hi].
    - exists c, w. split; [done|]. split; [done|]. split; [done|]. split; [by apply Hi|done]. }
  destruct (InitSslClient cert key ca w0) as [ctx w1] eqn:E1. apply InitSslClient_fds in E1. cbn [snd].
  destruct ctx as [x|]; [|right; eexists _, _, _; split; [done|]; split; [by apply (ssl_inv_fds base _ w0)|done]].
  destruct (tcp_try_open_gives base (m_tcpSock (tcp c0)) w1 Ho0 ltac:(eapply owns_fds; [exact E1|apply Hi0]) ip port t)
    as [[-> Hl]|(fd & w2 & -> & Hg)]; [by left|]. right. cbn [mbind result_bind].
  edestruct with_socket_ok as (b & c' & w' & E3). rewrite E3. eexists _, _, _. split; [done|].
  by apply (with_socket_inv base) in E3.
Qed.

(** [if (!IsOpened()) ret = Open();] *)
Lemma reopen_inv base c w b c' w' : ssl_inv base c w -> reopen c w = Ok (b, c', w') ->
  ssl_inv base c' w' /\ m_bLidarConnected (tcp c') = b.
Proof.
  intros Hi. unfold reopen. destruct (ssl_IsOpened c) eqn:E; [by intros [= <- <- <-]|]. by apply ssl_Open_spec.
Qed.

Lemma readn_fds fuel s n : forall nleft acc w r w', sys_readn_by_ssl fuel s n nleft acc w = Ok (r, w') -> open_fds w' = open_fds w.
Proof.
  induction fuel as [|fuel IH]; intros nleft acc w r w'; cbn; destruct (0 <? nleft); try done; try (by intros [= _ <-]).
  destruct (ssl_read s nleft w) as [[k bs] w1] eqn:E. apply ssl_read_fds in E. destruct (k <? 0).
  - destruct (_ =? EINTR); [|by intros [= _ <-]]. intros H%IH. congruence.
  - destruct (k =? 0); [by intros [= _ <-]|]. intros H%IH. congruence.
Qed.

Lemma close_keeps base c w : ssl_inv base c w -> ssl_inv base (ssl_Close c w).1 (ssl_Close c w).2.
Proof. intros [Ho _]. destruct (ssl_Close c w) eqn:E. by apply (ssl_Close_spec base) in E as [? _]. Qed.

Lemma ssl_Send_inv base buf len c w r c' w' : ssl_inv base c w -> ssl_Send buf len c w = Ok (r, c', w') -> ssl_inv base c' w'.
Proof.
  intros Hi H. unfold ssl_Send in H. rewrite bind_ok in H. destruct H as ([[ret c1] w1] & E & H).
  apply (reopen_inv base) in E as [Hi1 _]; [|done]. destruct ret; [|by injection H as <- <- <-].
  rewrite bind_ok in H. destruct H as (s & _ & H). destruct (ssl_write s _ w1) as [l w2] eqn:E2. apply ssl_write_fds in E2.
  assert (ssl_inv base c1 w2) as Hi2 by (by eapply ssl_inv_fds). destruct (_ && _); [|by injection H as <- <- <-].
  pose proof (close_keeps base c1 w2 Hi2) as Hc. destruct (ssl_Close c1 w2). by injection H as <- <- <-.
Qed.

Lemma ssl_Receive_inv base fuel n c w r c' w' : ssl_inv base c w -> ssl_Receive fuel n c w = Ok (r, c', w') -> ssl_inv base c' w'.
Proof.
  intros Hi H. unfold ssl_Receive in H. rewrite bind_ok in H. destruct H as ([[ret c1] w1] & E & H).
  apply (reopen_inv base) in E as [Hi1 _]; [|done]. destruct ret; [|by injection H as <- <- <-].
  rewrite bind_ok in H. destruct H as (s & _ & H). rewrite bind_ok in H. destruct H as ([[l bs] w2] & E2 & H).
  apply readn_fds in E2. assert (ssl_inv base c1 w2) as Hi2 by (by eapply ssl_inv_fds). destruct (negb _); [|by injection H as <- <- <-].
  pose proof (close_keeps base c1 w2 Hi2) as Hc. destruct (ssl_Close c1 w2). by injection H as <- <- <-.
Qed.

(** The settings change numbers only. *)
Definition same_socket (t t' : tcp_client) (w w' : W) : Prop :=
  open_fds w' = open_fds w /\ m_tcpSock t' = m_tcpSock t /\ m_bLidarConnected t' = m_bLidarConnected t.

Lemma same_socket_inv base c t w w' : same_socket (tcp c) t w w' -> ssl_inv base c w -> ssl_inv base (set_tcp t c) w'.
Proof. intros (E & Es & Ec). unfold ssl_inv, owns. cbn [tcp set_tcp]. by rewrite E, Es, Ec. Qed.

Lemma settings_same t w rec snd n :
  (forall b t' w', SetReceiveTimeout rec t w = (b, t', w') -> same_socket t t' w w') /\
  (forall r t' w', SetTimeout rec snd t w = (r, t', w') -> same_socket t t' w w') /\
  (forall t' w', SetReceiveBufferSize n t w = (t', w') -> same_socket t t' w w').
Proof.
  unfold SetReceiveTimeout, SetTimeout, SetReceiveBufferSize. destruct (m_tcpSock t <? 0).
  { split; [|split]; intros; simplify_eq; done. }
  split; [|split].
  - intros b t' w'. destruct (sys_set_timeo _ _ _ _ w) as [r w1] eqn:E. apply timeo_fds in E. by intros [= <- <- <-].
  - intros r t' w'. destruct (sys_set_timeo _ _ _ _ w) as [r1 w1] eqn:E. apply timeo_fds in E.
    destruct (r1 =? 0); [|by intros [= <- <- <-]]. destruct (sys_set_timeo _ _ _ _ w1) as [r2 w2] eqn:E2. apply timeo_fds in E2.
    intros [= <- <- <-]. split; [congruence|done].
  - intros t' w'. destruct (sys_get_rcvbuf _ w) as [[r k] w1] eqn:E. apply get_rcvbuf_fds in E.
    destruct (_ && _); intros [= <- <-]; [|done]. destruct (sys_set_rcvbuf _ _ w1) as [r2 w2] eqn:E2. apply set_rcvbuf_fds in E2.
    split; [cbn; congruence|done].
Qed.

Lemma ssl_step_inv base s o s' : ssl_inv base s.1 s.2 -> ssl_step s o = Ok s' -> ssl_inv base s'.1 s'.2.
Proof.
  destruct s as [c w]. cbn [fst snd]. intros Hi. destruct o; cbn [ssl_step]; intros H.
  - destruct (ssl_TryOpen_spec base c w ip port cert private_key ca timeout Hi) as [[E _]|(b & c' & w' & E & ? & _)]; rewrite E in H;
      [done|by injection H as <-].
  - rewrite bind_ok in H. destruct H as ([[b c1] w1] & E & H). injection H as <-. cbn [fst snd]. unfold ssl_Open_endpoint in E.
    destruct (same_endpoint _ _ _); [by injection E as <- <- <-|]. destruct (ssl_Close c w) as [c0 w0] eqn:E0.
    apply (ssl_Close_spec base) in E0 as (? & _ & ? & ? & _); [|apply Hi]. by apply (ssl_Open_spec base) in E as [? _].
  - injection H as <-. by apply close_keeps.
  - rewrite bind_ok in H. destruct H as ([[r c1] w1] & E & H). injection H as <-. by eapply ssl_Send_inv.
  - rewrite bind_ok in H. destruct H as ([[r c1] w1] & E & H). injection H as <-. by eapply ssl_Receive_inv.
  - unfold ssl_SetReceiveTimeout in H. destruct (SetReceiveTimeout _ _ _) as [[b t] w1] eqn:E. injection H as <-.
    eapply same_socket_inv; [|done]. destruct (settings_same (tcp c) w ms 0 0) as (Hs & _ & _). by eapply Hs.
  - unfold ssl_SetTimeout in H. destruct (SetTimeout _ _ _ _) as [[b t] w1] eqn:E. injection H as <-.
    eapply same_socket_inv; [|done]. destruct (settings_same (tcp c) w rec snd 0) as (_ & Hs & _). by eapply Hs.
  - unfold ssl_SetReceiveBufferSize in H. destruct (SetReceiveBufferSize _ _ _) as [t w1] eqn:E. injection H as <-.
    eapply same_socket_inv; [|done]. destruct (settings_same (tcp c) w 0 0 n) as (_ & _ & Hs). by eapply Hs.
Qed.

Lemma ssl_new_inv w : ssl_inv (open_fds w) TcpSslClient_new w.
Proof.
  unfold ssl_inv, owns. cbn. rewrite !(owned_none kInvalid) by auto.
  split; [|done]. split; [set_solver|]. split; [set_solver|]. split; [by left|done].
Qed.

End Laws.

(** A read of [n] bytes, from a session that delivers [bs]. *)
Lemma readn_spec {W} `{Sockets W} `{SslStream W} s n fuel : forall nleft acc bs (w : W),
  delivers w s bs -> 0 <= nleft -> (Z.to_nat nleft <= fuel)%nat ->
  exists w', sys_readn_by_ssl fuel s n nleft acc w =
      Ok ((n - Z.max 0 (nleft - Z.of_nat (length bs)), acc ++ take (Z.to_nat nleft) bs), w') /\
    (nleft <= Z.of_nat (length bs) -> delivers w' s (drop (Z.to_nat nleft) bs)).
Proof.
  induction fuel as [|fuel IH]; intros nleft acc bs w Hd Hn Hf; cbn; destruct (Z.ltb_spec 0 nleft) as [Hp|Hp]; try lia.
  - assert (nleft = 0) as -> by lia. cbn. rewrite app_nil_r. exists w. split; [do 3 f_equal; lia|done].
  - destruct bs as [|b bs].
    + destruct (delivers_none w s nleft Hd Hp) as (w' & E). rewrite E. cbn. exists w'. rewrite take_nil, app_nil_r.
      split; [do 3 f_equal; lia|lia].
    + destruct (delivers_some w s (b :: bs) nleft Hd ltac:(done) Hp) as (k & w1 & Hk & Hkl & E & Hd1). rewrite E.
      destruct (Z.ltb_spec k 0), (Z.eqb_spec k 0); try lia.
      destruct (IH (nleft - k) (acc ++ take (Z.to_nat k) (b :: bs)) _ w1 Hd1 ltac:(lia) ltac:(lia)) as (w' & E' & Hd').
      exists w'. rewrite E'. rewrite length_drop, <-app_assoc. split.
      * rewrite take_take_drop. replace (Z.to_nat k + Z.to_nat (nleft - k))%nat with (Z.to_nat nleft) by lia.
        do 3 f_equal. lia.
      * rewrite length_drop in Hd'. intros Hle. rewrite drop_drop in Hd'.
        replace (Z.to_nat nleft) with (Z.to_nat k + Z.to_nat (nleft - k))%nat by lia. apply Hd'. lia.
  - assert (nleft = 0) as -> by lia. cbn. rewrite app_nil_r. exists w. split; [do 3 f_equal; lia|done].
Qed.

(** ** Properties *)

(** Whatever is done with a new client, and whatever the system and the library
    answer, the client owns at most one descriptor of the process, and closing it
    gives back the descriptors there were, the descriptor 0 excepted. *)
Theorem ssl_no_descriptor_leak {W} `{SslLaws W} ops (w : W) c' w' : foldM ssl_step (TcpSslClient_new, w) ops = Ok (c', w') ->
  ssl_inv (open_fds w) c' w' /\ given_back (open_fds w) (ssl_Close c' w').2.
Proof.
  intros Hr. assert (ssl_inv (open_fds w) c' w') as Hi.
  { revert Hr. intros Hr. change (ssl_inv (open_fds w) (c', w').1 (c', w').2). revert Hr.
    apply (foldM_invariant (fun s => ssl_inv (open_fds w) s.1 s.2)); [|apply ssl_new_inv].
    intros s1 o s2 _ Hs1 Hs2. by eapply ssl_step_inv. }
  split; [done|]. destruct (ssl_Close c' w') eqn:E. by apply (ssl_Close_spec (open_fds w)) in E as (_ & ? & _); [|apply Hi].
Qed.

(** A connection that could not be made is reported as made: [tcpsock_] is
    unsigned, so the test of the descriptor never fires, the handshake on -1 fails
    with a negative value where only 0 is tested, and nothing was presented that
    could fail the verification. *)
Theorem ssl_failed_connection_is_open {W} `{SslLaws W} {BD : SslBadDescriptor W} base c (w : W) ip port cert key ca t x w1 w2 s w3 :
  ssl_inv base c w -> ssl_IsOpened c = false -> InitSslClient cert key ca w = (Some x, w1) ->
  tcp_try_open ip port t w1 = Ok (-1, w2) -> ssl_new x w2 = (Some s, w3) ->
  exists c' w', ssl_TryOpen ip port cert key ca t c w = Ok (true, c', w') /\
    m_bLidarConnected (tcp c') = true /\ m_tcpSock (tcp c') = kInvalid /\ given_back base w'.
Proof.
  intros Hi Hf E1 E2 E3. unfold ssl_TryOpen, same_endpoint. rewrite Hf. cbn [andb]. rewrite E1. rewrite E2. cbn [mbind result_bind].
  unfold with_socket. change (u32 (-1)) with kInvalid. cbn [tcp set_tcp m_tcpSock set_sock]. change (kInvalid <? 0) with false.
  unfold start_session. rewrite E3. cbn [tcp set_tcp set_ssl m_tcpSock set_sock]. change (i32 kInvalid) with (-1).
  destruct (ssl_connect s (ssl_set_fd s (-1) w3)) as [r w4] eqn:E4. pose proof (ssl_connect_fds _ _ _ _ E4) as Hf4.
  apply connect_bad_descriptor in E4 as [Hr Hv]. destruct (Z.eqb_spec r 0); [lia|]. rewrite Hv. cbn.
  eexists _, _. split; [done|]. split; [done|]. split; [done|]. rewrite set_fd_fds in Hf4. apply ssl_new_fds in E3.
  apply InitSslClient_fds in E1. destruct Hi as [Ho Hn].
  destruct (tcp_try_open_gives base (m_tcpSock (tcp c)) w1 (Hn Hf) ltac:(eapply owns_fds; [exact E1|exact Ho]) ip port t)
    as [[E5 _]|(fd & w5 & E5 & Hg)]; rewrite E2 in E5; [done|]. injection E5 as <- <-.
  eapply (owns_given_back base kInvalid); [apply owned_none; auto|]. eapply owns_fds; [|exact Hg]. congruence.
Qed.

(** A refused connection is taken for one on descriptor 0: the handshake is made on
    the standard input of the process. *)
Theorem ssl_refused_uses_stdin {W} `{SslLaws W} ip port t x c (w w1 w2 w3 w4 : W) fd r n e s w5 :
  sys_socket w = (fd, w1) -> fd <> -1 -> fd < FD_SETSIZE -> 0 < sys_inet_pton ip ->
  sys_connect fd ip port (sys_set_nonblock true fd w1) = (r, w2) -> 0 <= r ->
  sys_select_write fd t w2 = (n, w3) -> 0 < n -> sys_so_error fd w3 = (e, w4) -> e <> 0 ->
  tcp_try_open ip port t w = Ok (0, sys_close fd w4) /\
  (ssl_new x (sys_close fd w4) = (Some s, w5) ->
   with_socket 0 x c (sys_close fd w4) =
     let '(r, w) := ssl_connect s (ssl_set_fd s 0 w5) in
     let c := set_ssl (Some s) (set_tcp (set_sock 0 (tcp c)) c) in
     if (r =? 0) || negb (ssl_get_verify_result s w =? X509_V_OK) then let '(c, w) := ssl_Close c w in (false, c, w)
     else (true, set_tcp (set_connected true (tcp c)) c, w)).
Proof.
  intros E1 Hfd Hlim Hip E2 Hr E3 Hn E4 He. split.
  - unfold tcp_try_open. rewrite E1. destruct (Z.eqb_spec fd (-1)); [done|]. destruct (Z.leb_spec (sys_inet_pton ip) 0); [lia|].
    rewrite E2. destruct (Z.ltb_spec r 0); [lia|]. cbn [andb].
    destruct (Z.leb_spec FD_SETSIZE fd); [lia|]. rewrite E3. destruct (Z.leb_spec n 0); [lia|]. rewrite E4.
    by destruct (Z.eqb_spec e 0).
  - intros E5. unfold with_socket. cbn [tcp set_tcp m_tcpSock set_sock]. change (u32 0) with 0. cbn [Z.ltb Z.compare].
    unfold start_session. rewrite E5. cbn [tcp set_ssl set_tcp m_tcpSock set_sock]. change (i32 0) with 0.
    destruct (ssl_connect _ _) as [k w6]. by destruct (k =? 0).
Qed.

(** Closing shuts the session down and drops the pointer to it, but nothing frees
    it. *)
Theorem ssl_session_leaked {W} `{SslLaws W} c (w : W) s : ssl_ c = Some s -> s ∈ sessions w ->
  ssl_ (ssl_Close c w).1 = None /\ s ∈ sessions (ssl_Close c w).2.
Proof.
  intros Es Hs. unfold ssl_Close. destruct (Close (tcp c) w) as [t w1] eqn:E. rewrite Es. cbn. split; [done|].
  rewrite shutdown_sessions. assert (sessions w1 = sessions w) as E1.
  { unfold Close in E. destruct (_ <? _); injection E as _ <-; [apply close_sessions|done]. }
  destruct (ctx_ c); [rewrite ctx_free_sessions|]; by rewrite E1.
Qed.

(** A receive gives exactly the bytes that were asked for, in their order, however
    the library cuts them; when the stream ends before, the connection is closed,
    the answer is -1, and the bytes that came are lost. *)
Theorem ssl_receive_exact {W} `{SslLaws W} {ST : SslStream W} base fuel n c (w : W) s bs :
  ssl_inv base c w -> ssl_IsOpened c = true -> ssl_ c = Some s -> delivers w s bs -> 0 <= n < 2 ^ 31 -> (Z.to_nat n <= fuel)%nat ->
  if n <=? Z.of_nat (length bs)
  then exists w', ssl_Receive fuel n c w = Ok ((n, take (Z.to_nat n) bs), c, w') /\ delivers w' s (drop (Z.to_nat n) bs)
  else exists c' w', ssl_Receive fuel n c w = Ok ((-1, bs), c', w') /\ ssl_IsOpened c' = false /\ given_back base w'.
Proof.
  intros Hi Ho Es Hd Hn Hf. unfold ssl_Receive, reopen. rewrite Ho. cbn [mbind result_bind]. rewrite Es. cbn [of_option mbind result_bind].
  assert (i32 n = n) as -> by (apply i32_small; lia). destruct (readn_spec s n fuel n [] bs w Hd ltac:(lia) Hf) as (w' & E & Hd').
  rewrite E. cbn [mbind result_bind]. apply readn_fds in E as Hw. destruct (Z.leb_spec n (Z.of_nat (length bs))) as [Hl|Hl].
  - rewrite (Z.max_l 0) by lia. rewrite Z.sub_0_r, Z.eqb_refl. cbn. eauto.
  - destruct (Z.eqb_spec (n - Z.max 0 (n - Z.of_nat (length bs))) n); [lia|]. cbn [negb].
    destruct (ssl_Close c w') as [c' w2] eqn:Ec. apply (ssl_Close_spec base) in Ec as (_ & ? & _ & ? & _); [|eapply owns_fds; [done|apply Hi]].
    eexists _, _. rewrite take_ge by lia. done.
Qed.

(** ** Witnesses: a library over the scripted system of TcpClient.v

    Sessions are numbered; [t_hello] is what a handshake on a valid descriptor
    answers, and a read gives two bytes of [t_data] at a time. *)
Record tls_world : Type := mk_tls { t_net : world; t_made : list Z; t_hello : Z; t_fd : Z; t_data : list Z }.

Definition on_net {A} (w : tls_world) (r : A * world) : A * tls_world :=
  (r.1, mk_tls r.2 (t_made w) (t_hello w) (t_fd w) (t_data w)).
Definition in_net (w : tls_world) (n : world) : tls_world := mk_tls n (t_made w) (t_hello w) (t_fd w) (t_data w).
Definition next_session (w : tls_world) : Z := Z.of_nat (length (t_made w)) + 1.

#[export] Instance tls_sockets : Sockets tls_world := {|
  sys_socket w := on_net w (sys_socket (t_net w));
  sys_inet_pton := sys_inet_pton (W := world);
  sys_set_nonblock b fd w := in_net w (sys_set_nonblock b fd (t_net w));
  sys_connect fd ip port w := on_net w (sys_connect fd ip port (t_net w));
  sys_select_write fd t w := on_net w (sys_select_write fd t (t_net w));
  sys_so_error fd w := on_net w (w_errno (t_net w), t_net w);
  sys_send fd buf w := on_net w (sys_send fd buf (t_net w));
  sys_recv fd n w := on_net w (sys_recv fd n (t_net w));
  sys_set_timeo b s u fd w := on_net w (sys_set_timeo b s u fd (t_net w));
  sys_get_rcvbuf fd w := on_net w (sys_get_rcvbuf fd (t_net w));
  sys_set_rcvbuf fd n w := on_net w (sys_set_rcvbuf fd n (t_net w));
  sys_close fd w := in_net w (sys_close fd (t_net w));
  sys_errno w := sys_errno (t_net w);
|}.

Lemma on_net_inv {A} w (r : A * world) a w' : on_net w r = (a, w') -> r = (a, t_net w') /\ t_made w' = t_made w.
Proof. destruct r as [x n]. by intros [= <- <-]. Qed.

#[export] Instance tls_sockets_laws : SocketsLaws tls_world.
Proof.
  refine {| open_fds w := open_fds (t_net w) |}.
  - intros w fd. apply open_fds_nonneg.
  - intros w fd w' [E _]%on_net_inv. by eapply socket_fresh.
  - intros fd w. apply close_fds.
  - intros b fd w. apply nonblock_fds.
  - intros fd ip port w r w' [E _]%on_net_inv. by eapply connect_fds.
  - intros fd t w r w' [E _]%on_net_inv. by eapply select_fds.
  - intros fd w r w' [E _]%on_net_inv. by injection E as _ <-.
  - intros fd buf w r w' [E _]%on_net_inv. by eapply send_fds.
  - intros fd n w r w' [E _]%on_net_inv. by eapply recv_fds.
  - intros b s u fd w r w' [E _]%on_net_inv. by eapply timeo_fds.
  - intros fd w r w' [E _]%on_net_inv. by eapply get_rcvbuf_fds.
  - intros fd n w r w' [E _]%on_net_inv. by eapply set_rcvbuf_fds.
Defined.

#[export] Instance tls_ssl : Ssl tls_world := {|
  ssl_ctx_new w := (Some 1, w);
  ssl_load_verify_locations _ ca w := (if bool_decide (ca = "") then 0 else 1, w);
  ssl_set_verify _ w := w;
  ssl_use_certificate_file _ _ w := (1, w);
  ssl_use_PrivateKey_file _ _ w := (1, w);
  ssl_check_private_key _ w := (1, w);
  ssl_ctx_free _ w := w;
  ssl_new _ w := (Some (next_session w), mk_tls (t_net w) (t_made w ++ [next_session w]) (t_hello w) (t_fd w) (t_data w));
  ssl_set_fd _ fd w := mk_tls (t_net w) (t_made w) (t_hello w) fd (t_data w);
  ssl_connect _ w := (if t_fd w <? 0 then -1 else t_hello w, w);
  ssl_get_verify_result _ w := X509_V_OK;
  ssl_read _ n w :=
    let k := Z.min (Z.min n 2) (Z.of_nat (length (t_data w))) in
    ((k, take (Z.to_nat k) (t_data w)),
     mk_tls (t_net w) (t_made w) (t_hello w) (t_fd w) (drop (Z.to_nat k) (t_data w)));
  ssl_write _ buf w := (Z.of_nat (length buf), w);
  ssl_shutdown _ w := w;
|}.

(** The sessions are those up to the number of the last one. *)
#[export] Instance tls_ssl_laws : SslLaws tls_world.
Proof.
  refine {| sessions w := list_to_set (seqZ 1 (Z.of_nat (length (t_made w)))) |}; cbn; try done; try (by intros; simplify_eq).
  - intros _ w s w' [= <- <-]. cbn. rewrite length_app. cbn. split.
    + rewrite elem_of_list_to_set, elem_of_seqZ. unfold next_session. lia.
    + apply set_eq. intros x. rewrite elem_of_union, elem_of_singleton, !elem_of_list_to_set, !elem_of_seqZ. unfold next_session. lia.
Defined.

#[export] Instance tls_bad_descriptor : SslBadDescriptor tls_world.
Proof. split. by intros s w r w' [= <- <-]. Defined.

#[export] Instance tls_stream : SslStream tls_world.
Proof.
  refine {| delivers w s bs := t_data w = bs |}; cbn.
  - intros w s bs n <- Hne Hn. assert (0 < length (t_data w))%nat by (destruct (t_data w); [done|cbn; lia]).
    eexists _, _. split; [|split; [|split; [reflexivity|reflexivity]]]; lia.
  - intros w s n -> Hn. cbn. rewrite Z.min_r by lia. eauto.
Defined.

(** No socket is left; a connection that is refused; a session under way. *)
Definition tls0 (next errno : Z) : tls_world := mk_tls (mk_world next {[0; 1; 2]} 0 (2 ^ 16) errno []) [] 1 3 [].

Lemma ssl_no_descriptor_leak_witness : exists c w,
  foldM ssl_step (TcpSslClient_new, tls0 3 0) [SslTryOpen "192.168.1.201" 9347 None None None 1; SslSend [1; 2] 2] = Ok (c, w) /\
  ssl_inv (open_fds (tls0 3 0)) c w /\ given_back (open_fds (tls0 3 0)) (ssl_Close c w).2.
Proof.
  destruct (foldM ssl_step (TcpSslClient_new, tls0 3 0) [SslTryOpen "192.168.1.201" 9347 None None None 1; SslSend [1; 2] 2])
    as [[c w]|] eqn:E; [|vm_compute in E; done]. exists c, w. split; [reflexivity|]. exact (ssl_no_descriptor_leak _ _ _ _ E).
Defined.

Lemma ssl_failed_connection_is_open_witness : exists c w,
  ssl_TryOpen "192.168.1.201" 9347 None None None 1 TcpSslClient_new (tls0 0 0) = Ok (true, c, w) /\
  m_bLidarConnected (tcp c) = true /\ m_tcpSock (tcp c) = kInvalid /\ given_back (open_fds (tls0 0 0)) w.
Proof.
  eapply (ssl_failed_connection_is_open (open_fds (tls0 0 0)) TcpSslClient_new (tls0 0 0)); [apply ssl_new_inv|reflexivity..].
Defined.

Lemma ssl_refused_uses_stdin_witness : tcp_try_open "192.168.1.201" 9347 1 (tls0 3 111) = Ok (0, tls0 4 111) /\
  is_Some (ssl_ (with_socket 0 1 TcpSslClient_new (tls0 4 111)).1.2).
Proof.
  destruct (ssl_refused_uses_stdin "192.168.1.201" 9347 1 1 TcpSslClient_new (tls0 3 111) (mk_tls (mk_world 4 ({[3]} ∪ {[0; 1; 2]}) 0 (2 ^ 16) 111 []) [] 1 3 [])
    (mk_tls (mk_world 4 ({[3]} ∪ {[0; 1; 2]}) 0 (2 ^ 16) 111 []) [] 1 3 []) (mk_tls (mk_world 4 ({[3]} ∪ {[0; 1; 2]}) 0 (2 ^ 16) 111 []) [] 1 3 [])
    (mk_tls (mk_world 4 ({[3]} ∪ {[0; 1; 2]}) 0 (2 ^ 16) 111 []) [] 1 3 []) 3 0 1 111 1
    (mk_tls (mk_world 4 (({[3]} ∪ {[0; 1; 2]}) ∖ {[3]}) 0 (2 ^ 16) 111 []) [1] 1 3 [])) as [H1 H2];
    [reflexivity|lia|vm_compute; reflexivity|vm_compute; reflexivity|reflexivity|lia|reflexivity|lia|reflexivity|lia|].
  assert (sys_close 3 (mk_tls (mk_world 4 ({[3]} ∪ {[0; 1; 2]}) 0 (2 ^ 16) 111 []) [] 1 3 []) = tls0 4 111) as E
    by (vm_compute; reflexivity).
  rewrite E in H1, H2. split; [exact H1|]. rewrite H2 by (vm_compute; reflexivity). vm_compute. eauto.
Defined.

(** A client that is connected on descriptor 3 with session 1. *)
Definition tls_client : tcp_ssl := mk_tcp_ssl (mk_tcp "192.168.1.201" 9347 3 true 4096 500 500) (Some 1) (Some 1) (Some (None, None, None)).
Definition tls_conn (data : list Z) : tls_world := mk_tls (mk_world 4 {[0; 1; 2; 3]} 0 (2 ^ 16) 0 []) [1] 1 3 data.

Lemma tls_conn_inv data : ssl_inv {[0; 1; 2]} tls_client (tls_conn data).
Proof.
  split; [|done]. apply (conn_owns []).
Qed.

Lemma ssl_session_leaked_witness : ssl_ (ssl_Close tls_client (tls_conn [])).1 = None /\ 1 ∈ sessions (ssl_Close tls_client (tls_conn [])).2.
Proof. apply ssl_session_leaked; [reflexivity|]. cbn. set_solver. Defined.

Lemma ssl_receive_exact_witness :
  (exists w, ssl_Receive 3 3 tls_client (tls_conn [71; 116; 5; 0]) = Ok ((3, [71; 116; 5]), tls_client, w) /\ t_data w = [0]) /\
  (exists c w, ssl_Receive 8 8 tls_client (tls_conn [71; 116; 5]) = Ok ((-1, [71; 116; 5]), c, w) /\ ssl_IsOpened c = false /\
     given_back {[0; 1; 2]} w).
Proof.
  split.
  - exact (ssl_receive_exact {[0; 1; 2]} 3 3 tls_client (tls_conn [71; 116; 5; 0]) 1 [71; 116; 5; 0] (tls_conn_inv _)
      eq_refl eq_refl eq_refl ltac:(lia) ltac:(lia)).
  - exact (ssl_receive_exact {[0; 1; 2]} 8 8 tls_client (tls_conn [71; 116; 5]) 1 [71; 116; 5] (tls_conn_inv _)
      eq_refl eq_refl eq_refl ltac:(lia) ltac:(lia)).
Defined.
