(* ===== verification/PtcOpen.v ===== *)
(** * PtcOpen: how a PTC connection comes up

    The constructor, [TryOpen], [IsOpen], [SetSocketTimeout] and the destructor
    of PtcClient/src/ptc_client.cc.  The constructor starts a thread that makes
    the client of the chosen mode and tries to connect until it is connected or
    [InitOpen] is cleared, which the destructor does before it joins the thread.
    A turn of the thread is what it does between two sleeps; the application may
    look at [client_] between any two turns.  The client is the one of
    TcpClient.v or of TcpSsl.v, and the virtual calls choose between them. *)

From stdpp Require Import sets gmap.
From S2P Require Import Prelude Bytes Ptc PtcClient TcpClient TcpSsl.
Local Open Scope Z_scope.

(** [enum PtcMode] *)
Inductive PtcMode : Set := mode_tcp | mode_tcp_ssl.

(** What the constructor stores for the thread. *)
Record PtcArgs : Type := mk_ptc_args {
  lidar_ip_ : string;
  tcp_port_ : Z;
  client_mode_ : PtcMode;
  cert_ : path_arg;
  private_key_ : path_arg;
  ca_ : path_arg;
  recv_timeout_ms_ : Z;
  send_timeout_ms_ : Z;
}.

(** The object behind [client_]. *)
Inductive client : Type := Tcp (c : tcp_client) | Tls (c : tcp_ssl).

Definition client_IsOpened (c : client) : bool :=
  match c with Tcp c => IsOpened c | Tls c => ssl_IsOpened c end.

Definition timeouts_of (c : client) : Z * Z :=
  let t := match c with Tcp c => c | Tls c => tcp c end in (m_u32RecTimeout t, m_u32SendTimeout t).

(** [std::make_shared] of the class of the mode. *)
Definition make_client (m : PtcMode) : client :=
  match m with mode_tcp => Tcp TcpClient_new | mode_tcp_ssl => Tls TcpSslClient_new end.

(** Where the thread stands: before [client_] is set, in the loop, behind it, and
    at its end. *)
Inductive open_place : Set := Creating | Trying | Configuring | Over.

#[export] Instance open_place_eq_dec : EqDecision open_place.
Proof. solve_decision. Defined.

Record PtcOpen : Type := mk_ptc_open {
  client_ : option client;
  InitOpen : bool;
  open_thread : open_place;
}.

Definition PtcClient_new : PtcOpen := mk_ptc_open None true Creating.

Definition IsOpen (s : PtcOpen) : result bool := c ← of_option NullPointer (client_ s); Ok (client_IsOpened c).

Section Open.
Context {W : Type} {SK : Sockets W} {SS : Ssl W}.

Definition client_TryOpen (a : PtcArgs) (c : client) (w : W) : result (bool * client * W) :=
  match c with
  | Tcp c => '(b, c, w) ← TryOpen (lidar_ip_ a) (tcp_port_ a) 1 c w; Ok (b, Tcp c, w)
  | Tls c => '(b, c, w) ← ssl_TryOpen (lidar_ip_ a) (tcp_port_ a) (cert_ a) (private_key_ a) (ca_ a) 1 c w; Ok (b, Tls c, w)
  end.

Definition client_SetTimeout (rec snd : Z) (c : client) (w : W) : Z * client * W :=
  match c with
  | Tcp c => let '(r, c, w) := SetTimeout rec snd c w in (r, Tcp c, w)
  | Tls c => let '(r, c, w) := ssl_SetTimeout rec snd c w in (r, Tls c, w)
  end.

(** The destructor of the client, which closes it. *)
Definition client_delete (c : client) (w : W) : W :=
  match c with Tcp c => (Close c w).2 | Tls c => (ssl_Close c w).2 end.

Definition SetSocketTimeout (rec snd : Z) (s : PtcOpen) (w : W) : result (Z * PtcOpen * W) :=
  c ← of_option NullPointer (client_ s);
  let '(r, c, w) := client_SetTimeout rec snd c w in
  Ok (r, mk_ptc_open (Some c) (InitOpen s) (open_thread s), w).

(** A turn of [TryOpen]: the statement the thread has reached. *)
Definition open_turn (a : PtcArgs) (s : PtcOpen) (w : W) : result (PtcOpen * W) :=
  match open_thread s with
  | Creating => Ok (mk_ptc_open (Some (make_client (client_mode_ a))) (InitOpen s) Trying, w)
  | Trying =>
      if InitOpen s then
        c ← of_option NullPointer (client_ s);
        '(b, c, w) ← client_TryOpen a c w;
        Ok (mk_ptc_open (Some c) (InitOpen s) (if b : bool then Configuring else Trying), w)
      else Ok (mk_ptc_open (client_ s) (InitOpen s) Configuring, w)
  | Configuring =>
      if negb (recv_timeout_ms_ a =? 0) && negb (send_timeout_ms_ a =? 0) then
        '(_, s, w) ← SetSocketTimeout (recv_timeout_ms_ a) (send_timeout_ms_ a) s w;
        Ok (mk_ptc_open (client_ s) (InitOpen s) Over, w)
      else Ok (mk_ptc_open (client_ s) (InitOpen s) Over, w)
  | Over => Ok (s, w)
  end.

Fixpoint open_turns (n : nat) (a : PtcArgs) (s : PtcOpen) (w : W) : result (PtcOpen * W) :=
  match n with
  | O => Ok (s, w)
  | S n => '(s, w) ← open_turn a s w; open_turns n a s w
  end.

(** [open_thread_ptr_->join()] *)
Fixpoint join_open (fuel : nat) (a : PtcArgs) (s : PtcOpen) (w : W) : result (PtcOpen * W) :=
  match open_thread s, fuel with
  | Over, _ => Ok (s, w)
  | _, O => Err NoProgress
  | _, S fuel => '(s, w) ← open_turn a s w; join_open fuel a s w
  end.

(** [~PtcClient]; the shared pointer goes with the object. *)
Definition PtcClient_delete (fuel : nat) (a : PtcArgs) (s : PtcOpen) (w : W) : result W :=
  '(s, w) ← join_open fuel a (mk_ptc_open (client_ s) false (open_thread s)) w;
  Ok (match client_ s with Some c => client_delete c w | None => w end).

(** [n] attempts that fail. *)
Inductive attempts (a : PtcArgs) : nat -> client * W -> client * W -> Prop :=
| no_attempt cw : attempts a 0 cw cw
| one_attempt n c w c1 w1 cw2 : client_TryOpen a c w = Ok (false, c1, w1) ->
    attempts a n (c1, w1) cw2 -> attempts a (S n) (c, w) cw2.

End Open.

(** ** The remaining calls of the class *)

(** [TcpFlushIn]: what arrives is printed and dropped. *)
Fixpoint TcpFlushIn {C} `{ClientBase C} (fuel : nat) (c : C) : result C :=
  match fuel with
  | O => Err NoProgress
  | S fuel => let '((len, _), c) := Receive 1500 c in if 0 <? len then TcpFlushIn fuel c else Ok c
  end.

Definition GetValFromOutput (p : parser_ptr) (cmd retcode : Z) (payload : list Z) (start_pos length : Z) (res : list Z) : result (bool * list Z) :=
  PtcParser_PtcStreamDecode p cmd retcode payload start_pos length res.

(** [GetCorrectionInfo()], which answers with the data whatever the query said. *)
Definition GetCorrectionInfo_data {C} `{ClientBase C} (H : Type) `{PtcProtocol H} (le : bool) (fuel : nat) (c : C) : result (list Z * C) :=
  '(_, dataOut, c) ← QueryCommand H le fuel [] [] kPTCGetLidarCalibration c; Ok (dataOut, c).

(** ** What holds between the turns *)

Section Inv.
Context {W : Type} {SK : Sockets W} {SL : SocketsLaws W} {SS : Ssl W} {SSL : SslLaws W}.
Implicit Types (c : client) (w : W) (base : gset Z).

Definition client_inv base (c : client) (w : W) : Prop :=
  match c with Tcp c => tcp_inv base c w | Tls c => ssl_inv base c w end.

(** The thread stands behind the loop only with a connection, and in it only
    without one; unless it was told to stop. *)
Definition open_inv base (s : PtcOpen) (w : W) : Prop :=
  match open_thread s with
  | Creating => client_ s = None /\ open_fds w = base
  | Trying => exists c, client_ s = Some c /\ client_inv base c w /\ client_IsOpened c = false
  | _ => exists c, client_ s = Some c /\ client_inv base c w /\ (InitOpen s = true -> client_IsOpened c = true)
  end.

Lemma make_client_inv m w : client_inv (open_fds w) (make_client m) w /\ client_IsOpened (make_client m) = false.
Proof. split; [|by destruct m]. destruct m; [apply TcpClient_new_inv|apply ssl_new_inv]. Qed.

(** The world in which an attempt asks for its socket. *)
Definition socket_world (a : PtcArgs) (c : client) (w : W) : W :=
  match c with
  | Tcp c => if IsOpened c then (Close c w).2 else w
  | Tls c => ssl_socket_world (cert_ a) (private_key_ a) (ca_ a) c w
  end.

Lemma client_TryOpen_spec base a c w : client_inv base c w ->
  (client_TryOpen a c w = Err OutOfBounds /\ fd_too_large (socket_world a c w)) \/
  exists b c' w', client_TryOpen a c w = Ok (b, c', w') /\ client_inv base c' w' /\ client_IsOpened c' = b.
Proof.
  destruct c as [c|c]; cbn; intros Hi.
  - destruct (TryOpen_spec base c w (lidar_ip_ a) (tcp_port_ a) 1 Hi) as [[-> ?]|(b & c' & w' & -> & Hi' & Hb & _)]; [by left|].
    right. by eexists _, (Tcp c'), w'.
  - destruct (ssl_TryOpen_spec base c w (lidar_ip_ a) (tcp_port_ a) (cert_ a) (private_key_ a) (ca_ a) 1 Hi)
      as [[-> ?]|(b & c' & w' & -> & Hi' & Hb)]; [by left|].
    right. by eexists _, (Tls c'), w'.
Qed.

(** An attempt that came back. *)
Lemma client_TryOpen_inv base a c w b c' w' : client_inv base c w -> client_TryOpen a c w = Ok (b, c', w') ->
  client_inv base c' w' /\ client_IsOpened c' = b.
Proof.
  intros Hi E. destruct (client_TryOpen_spec base a c w Hi) as [[E' _]|(b1 & c1 & w1 & E' & H)]; rewrite E in E'; [done|].
  by injection E' as <- <- <-.
Qed.

Lemma client_SetTimeout_spec base rec snd c w : client_inv base c w ->
  exists r c' w', client_SetTimeout rec snd c w = (r, c', w') /\ client_inv base c' w' /\
    client_IsOpened c' = client_IsOpened c /\ timeouts_of c' = (rec, snd).
Proof.
  assert (forall t, 0 <= m_tcpSock t -> exists r t' w', SetTimeout rec snd t w = (r, t', w') /\
    m_u32RecTimeout t' = rec /\ m_u32SendTimeout t' = snd) as Hs.
  { intros t Ht. unfold SetTimeout. destruct (Z.ltb_spec (m_tcpSock t) 0); [lia|].
    destruct (sys_set_timeo _ _ _ _ w) as [r1 w1]. destruct (r1 =? 0); [|by eexists _, _, _].
    destruct (sys_set_timeo _ _ _ _ w1) as [r2 w2]. by eexists _, _, _. }
  assert (0 <= kInvalid) by (by vm_compute).
  destruct c as [c|c]; cbn; intros Hi.
  - destruct (Hs c) as (r & c' & w' & E & H1 & H2).
    { destruct Hi as [(_ & _ & [Hi|Hi] & _) _]; lia. }
    rewrite E. exists r, (Tcp c'), w'. split; [done|]. split.
    + destruct (settings_inv base c w rec snd 0 Hi) as (_ & Hk & _). by eapply Hk.
    + split; [|unfold timeouts_of; by rewrite H1, H2]. destruct (settings_same c w rec snd 0) as (_ & Hk & _).
      destruct (Hk _ _ _ E) as (_ & _ & Ec). exact Ec.
  - destruct (Hs (tcp c)) as (r & c' & w' & E & H1 & H2).
    { destruct Hi as [(_ & _ & [Hi|Hi] & _) _]; lia. }
    unfold ssl_SetTimeout. rewrite E. eexists r, (Tls _), w'. split; [done|].
    destruct (settings_same (tcp c) w rec snd 0) as (_ & Hk & _). pose proof (Hk _ _ _ E) as Hsame. split.
    + by eapply same_socket_inv.
    + split; [apply Hsame|]. unfold timeouts_of. cbn [tcp set_tcp]. by rewrite H1, H2.
Qed.

Lemma client_delete_fds base c w : client_inv base c w -> given_back base (client_delete c w).
Proof.
  destruct c as [c|c]; cbn; intros [Ho _].
  - by apply Close_gives_back.
  - destruct (ssl_Close c w) as [c' w'] eqn:E. by apply (ssl_Close_spec base) in E as (_ & E & _).
Qed.

Lemma open_new_inv w : open_inv (open_fds w) PtcClient_new w.
Proof. done. Qed.

(** A turn that faults: an attempt that is given a descriptor too large. *)
Definition turn_faults (a : PtcArgs) (s : PtcOpen) (w : W) : Prop :=
  open_thread s = Trying /\ InitOpen s = true /\ exists c, client_ s = Some c /\ fd_too_large (socket_world a c w).

(** Any other turn succeeds and keeps the invariant. *)
Lemma open_turn_inv base a s w : open_inv base s w ->
  (open_turn a s w = Err OutOfBounds /\ turn_faults a s w) \/
  exists s' w', open_turn a s w = Ok (s', w') /\ open_inv base s' w' /\ InitOpen s' = InitOpen s.
Proof.
  destruct s as [o i p]. unfold open_inv, open_turn, turn_faults. cbn [open_thread client_ InitOpen]. destruct p.
  - intros [-> Hw]. right. eexists _, _. split; [done|]. cbn. split; [|done]. rewrite <-Hw.
    destruct (make_client_inv (client_mode_ a) w). eauto.
  - intros (c & -> & Hi & Hf). destruct i.
    + cbn [of_option mbind result_bind]. destruct (client_TryOpen_spec base a c w Hi) as [[-> ?]|(b & c' & w' & -> & Hi' & Hb)].
      * left. split; [done|]. split; [done|]. split; [done|]. by exists c.
      * right. cbn [mbind result_bind]. eexists _, _. split; [done|]. cbn. destruct b; eauto.
    + right. eexists _, _. split; [done|]. cbn. split; [|done]. exists c. done.
  - intros (c & -> & Hi & Hc). right. unfold SetSocketTimeout. cbn [client_ of_option mbind result_bind].
    destruct (client_SetTimeout_spec base (recv_timeout_ms_ a) (send_timeout_ms_ a) c w Hi) as (r & c' & w' & E & Hi' & Ho & _).
    destruct (_ && _); [rewrite E; cbn [mbind result_bind]|]; (eexists _, _; split; [done|]; cbn; split; [|done]);
      [exists c'; by rewrite Ho|by exists c].
  - intros H. right. eexists _, _. split; [done|]. done.
Qed.

Lemma open_turns_inv base a n : forall s w, open_inv base s w ->
  (exists k s1 w1, (k < n)%nat /\ open_turns k a s w = Ok (s1, w1) /\ turn_faults a s1 w1 /\ open_turns n a s w = Err OutOfBounds) \/
  exists s' w', open_turns n a s w = Ok (s', w') /\ open_inv base s' w' /\ InitOpen s' = InitOpen s.
Proof.
  induction n as [|n IH]; intros s w Hi; [right; by eexists _, _|]. cbn [open_turns].
  destruct (open_turn_inv base a s w Hi) as [[-> Hf]|(s1 & w1 & E & Hi1 & Ei)].
  { left. exists 0%nat, s, w. split; [lia|done]. }
  rewrite E. cbn [mbind result_bind]. destruct (IH s1 w1 Hi1) as [(k & s2 & w2 & Hk & Ek & Hf & En)|(s2 & w2 & E2 & Hi2 & Ei2)].
  - left. exists (S k), s2, w2. split; [lia|]. cbn [open_turns]. by rewrite E.
  - right. exists s2, w2. rewrite Ei2. done.
Qed.

(** The number of turns to the end once the thread is told to stop. *)
Definition turns_left (p : open_place) : nat := match p with Creating => 3 | Trying => 2 | Configuring => 1 | Over => 0 end.

Lemma open_turn_stops base a s w : open_inv base s w -> InitOpen s = false -> open_thread s <> Over ->
  exists s' w', open_turn a s w = Ok (s', w') /\ open_inv base s' w' /\ InitOpen s' = false /\
    turns_left (open_thread s') = pred (turns_left (open_thread s)).
Proof.
  intros Hi Hf Hn. destruct (open_turn_inv base a s w Hi) as [[_ (_ & ? & _)]|(s' & w' & E & Hi' & Ei)]; [congruence|]. exists s', w'.
  split; [done|]. split; [done|]. split; [congruence|]. revert E. unfold open_turn. rewrite Hf.
  destruct (open_thread s) eqn:Ep; [by intros [= <- <-]..| |done].
  destruct (_ && _); [|by intros [= <- <-]]. rewrite bind_ok. by intros ([[r s1] w1] & _ & [= <- <-]).
Qed.

Lemma join_open_spec base a fuel : forall s w, open_inv base s w -> InitOpen s = false ->
  (turns_left (open_thread s) <= fuel)%nat ->
  exists s' w', join_open fuel a s w = Ok (s', w') /\ open_inv base s' w' /\ open_thread s' = Over.
Proof.
  induction fuel as [|fuel IH]; intros s w Hi Hf Hn.
  - destruct (open_thread s) eqn:Ep; cbn in Hn; try lia. exists s, w. cbn. by rewrite Ep.
  - destruct (decide (open_thread s = Over)) as [Ep|Ep]; [exists s, w; cbn; by rewrite Ep|].
    destruct (open_turn_stops base a s w Hi Hf Ep) as (s1 & w1 & E & Hi1 & Hf1 & Ht).
    destruct (IH s1 w1 Hi1 Hf1 ltac:(lia)) as (s2 & w2 & E2 & H2). exists s2, w2. split; [|done].
    cbn. rewrite E. cbn [mbind result_bind]. by destruct (open_thread s).
Qed.

End Inv.

(** ** Runs of attempts *)

Section Runs.
Context {W : Type} {SK : Sockets W} {SL : SocketsLaws W} {SS : Ssl W} {SSL : SslLaws W}.

Lemma open_turns_app n m a s (w : W) : open_turns (n + m) a s w = '(s, w) ← open_turns n a s w; open_turns m a s w.
Proof.
  revert s w. induction n as [|n IH]; intros s w; cbn; [done|].
  destruct (open_turn a s w) as [[s1 w1]|]; cbn [mbind result_bind]; [apply IH|done].
Qed.

Lemma failing_turns a n cw cw' : attempts (W := W) a n cw cw' ->
  open_turns n a (mk_ptc_open (Some cw.1) true Trying) cw.2 = Ok (mk_ptc_open (Some cw'.1) true Trying, cw'.2).
Proof.
  induction 1 as [[c w]|n c w c1 w1 cw2 E Ha IH]; [done|].
  cbn [open_turns open_turn open_thread InitOpen client_ of_option mbind result_bind fst snd]. rewrite E. exact IH.
Qed.

Lemma trying_turns a n cw cw' : attempts (W := W) a n cw cw' -> forall k, (k <= n)%nat ->
  exists c w', open_turns k a (mk_ptc_open (Some cw.1) true Trying) cw.2 = Ok (mk_ptc_open (Some c) true Trying, w').
Proof.
  induction 1 as [[c w]|n c w c1 w1 cw2 E Ha IH]; intros [|k] Hk; try lia; try (by eexists _, _).
  cbn [open_turns open_turn open_thread InitOpen client_ of_option mbind result_bind fst snd]. rewrite E. apply IH. lia.
Qed.

Lemma attempts_inv base a n cw cw' : attempts (W := W) a n cw cw' -> client_inv base cw.1 cw.2 -> client_inv base cw'.1 cw'.2.
Proof.
  induction 1 as [[c w]|n c w c1 w1 cw2 E Ha IH]; [done|]. cbn [fst snd]. intros Hi. apply IH.
  by destruct (client_TryOpen_inv base a c w _ _ _ Hi E).
Qed.

(** Setting the timeouts opens and closes nothing. *)
Lemma client_fds_same rec snd c (w : W) r c' w' : client_SetTimeout rec snd c w = (r, c', w') -> open_fds w' = open_fds w.
Proof.
  destruct c as [c|c]; cbn.
  - destruct (SetTimeout rec snd c w) as [[r1 t] w1] eqn:E. intros [= _ _ <-].
    destruct (settings_same c w rec snd 0) as (_ & Hs & _). by destruct (Hs _ _ _ E).
  - unfold ssl_SetTimeout. destruct (SetTimeout rec snd (tcp c) w) as [[r1 t] w1] eqn:E. intros [= _ _ <-].
    destruct (settings_same (tcp c) w rec snd 0) as (_ & Hs & _). by destruct (Hs _ _ _ E).
Qed.

Lemma turn_leaves_creating a s (w : W) s' w' : open_turn a s w = Ok (s', w') -> open_thread s' <> Creating.
Proof.
  unfold open_turn. destruct (open_thread s) eqn:Ep; [by intros [= <- <-]| | |intros [= <- <-]; by rewrite Ep].
  - destruct (InitOpen s); [|by intros [= <- <-]]. rewrite bind_ok. intros (c & _ & H). rewrite bind_ok in H.
    destruct H as ([[b c1] w1] & _ & [= <- <-]). by destruct b.
  - destruct (_ && _); [|by intros [= <- <-]]. rewrite bind_ok. by intros ([[r s1] w1] & _ & [= <- <-]).
Qed.

Lemma created_by_the_first_turn a n (w : W) s w' : open_turns n a PtcClient_new w = Ok (s, w') ->
  (open_thread s = Creating <-> n = 0%nat).
Proof.
  destruct n as [|n]; [by intros [= <- <-]|]. intros E. split; [|done]. intros Hc. exfalso. revert Hc.
  replace (S n) with (n + 1)%nat in E by lia. rewrite open_turns_app, bind_ok in E. destruct E as ([s1 w1] & _ & E).
  cbn in E. rewrite bind_ok in E. destruct E as ([s2 w2] & E & [= <- <-]). by eapply turn_leaves_creating.
Qed.

End Runs.

(** A flush ends once the peer has nothing more to send. *)
Lemma flush_ends {C} {CB : ClientBase C} {SP : StreamPeer C} fuel : forall (c : C) segs, avail c segs -> nonempty segs -> (total segs < fuel)%nat ->
  exists c', TcpFlushIn fuel c = Ok c'.
Proof.
  induction fuel as [|fuel IH]; intros c segs Ha Hn Hf; [lia|]. cbn [TcpFlushIn]. destruct segs as [|s segs].
  - destruct (recv_none c 1500 Ha) as (k & c' & E & Hk). rewrite E. destruct (Z.ltb_spec 0 k); [lia|eauto].
  - pose proof Hn as Hn'. apply nonempty_cons in Hn' as [Hs _]. destruct (recv_some c s segs 1500 Ha Hs ltac:(lia)) as (c' & E & Ha'). rewrite E.
    assert (0 < length s)%nat by (destruct s; [done|cbn; lia]). destruct (Z.ltb_spec 0 (Z.min 1500 (Z.of_nat (length s)))); [|lia].
    apply (IH c' _ Ha'); [by apply after_recv_nonempty|].
    unfold total in *. rewrite after_recv_concat, length_drop by lia. assert (length s <= length (concat (s :: segs)))%nat; [|lia].
    cbn. rewrite length_app. lia.
Qed.

(** ** Properties *)

(** C19: however far the thread has come, and whatever the system and the library
    answer, while nobody else opens or closes descriptors.  The thread has not
    failed, unless one of its attempts was given a descriptor of 1024 or more, which
    it writes behind the set that [select] is given.  [IsOpen] goes through a null
    pointer before the first turn of the thread, is false while the thread is
    trying, and true from the connection on; and deleting the object ends the thread
    within three turns and gives back every descriptor, except for the descriptor 0,
    which a client that was given it, where the standard input was closed, never
    closes. *)
Theorem ptc_client_lifetime {W} `{SslLaws W} a n (w : W) :
  (exists s w', open_turns n a PtcClient_new w = Ok (s, w') /\
    IsOpen s = (match open_thread s with Creating => Err NullPointer | Trying => Ok false | _ => Ok true end) /\
    (open_thread s = Creating <-> n = 0%nat) /\
    exists w2, PtcClient_delete 3 a s w' = Ok w2 /\ given_back (open_fds w) w2 /\
      (0 ∈ open_fds w -> open_fds w2 = open_fds w)) \/
  exists k s w', (k < n)%nat /\ open_turns k a PtcClient_new w = Ok (s, w') /\ turn_faults a s w' /\
    open_turns n a PtcClient_new w = Err OutOfBounds.
Proof.
  destruct (open_turns_inv (open_fds w) a n PtcClient_new w (open_new_inv w)) as [Hf|(s & w' & E & Hi & Ei)]; [by right|left].
  exists s, w'. split; [done|]. split; [|split].
  - unfold IsOpen. unfold open_inv in Hi. destruct (open_thread s).
    + by destruct Hi as [-> _].
    + destruct Hi as (c & -> & _ & Hc). cbn. by rewrite Hc.
    + destruct Hi as (c & -> & _ & Hc). cbn. by rewrite Hc.
    + destruct Hi as (c & -> & _ & Hc). cbn. by rewrite Hc.
  - by eapply created_by_the_first_turn.
  - assert (open_inv (open_fds w) (mk_ptc_open (client_ s) false (open_thread s)) w') as Hi2.
    { revert Hi. unfold open_inv. cbn. destruct (open_thread s); try done; intros (c & ? & ? & _); exists c; done. }
    destruct (join_open_spec (open_fds w) a 3 _ w' Hi2 eq_refl) as (s3 & w3 & E3 & Hi3 & Ht); [cbn; destruct (open_thread s); cbn; lia|].
    unfold PtcClient_delete. rewrite E3. cbn [mbind result_bind]. eexists. split; [done|].
    unfold open_inv in Hi3. rewrite Ht in Hi3. destruct Hi3 as (c & -> & Hc & _).
    assert (given_back (open_fds w) (client_delete c w3)) as Hg by by apply client_delete_fds.
    split; [done|]. intros Hzero. by apply given_back_all.
Qed.

(** C20: the thread connects: when the lidar lets [n] attempts fail and accepts the
    next, the thread is at its end after [n + 3] turns, with the connection of
    that attempt open and, unless one of them is 0, the timeouts of the
    constructor set; until then it keeps trying. *)
Theorem ptc_open_connects {W} `{SslLaws W} a n (w : W) c1 w1 c2 w2 :
  attempts a n (make_client (client_mode_ a), w) (c1, w1) -> client_TryOpen a c1 w1 = Ok (true, c2, w2) ->
  (forall k, (1 <= k <= S n)%nat -> exists s w', open_turns k a PtcClient_new w = Ok (s, w') /\ open_thread s = Trying) /\
  exists c3 w3, open_turns (n + 3) a PtcClient_new w = Ok (mk_ptc_open (Some c3) true Over, w3) /\
    client_IsOpened c3 = true /\ open_fds w3 = open_fds w2 /\
    (recv_timeout_ms_ a <> 0 -> send_timeout_ms_ a <> 0 -> timeouts_of c3 = (recv_timeout_ms_ a, send_timeout_ms_ a)) /\
    (recv_timeout_ms_ a = 0 \/ send_timeout_ms_ a = 0 -> c3 = c2).
Proof.
  intros Ha Eo. split.
  - intros k Hk. destruct k as [|k]; [lia|]. cbn.
    destruct (trying_turns a n _ _ Ha k ltac:(lia)) as (c & w' & E). cbn [fst snd] in E.
    eexists _, _. by rewrite E.
  - replace (n + 3)%nat with (S (n + 2)) by lia. cbn [open_turns open_turn PtcClient_new open_thread mbind result_bind InitOpen].
    pose proof (failing_turns a n _ _ Ha) as Ef. cbn [fst snd] in Ef. rewrite (open_turns_app n 2), Ef. cbn [mbind result_bind].
    assert (client_inv (open_fds w) c2 w2 /\ client_IsOpened c2 = true) as [Hi2 Ho2].
    { assert (client_inv (open_fds w) c1 w1) as Hi1 by (eapply (attempts_inv _ a n _ _ Ha), make_client_inv).
      by apply (client_TryOpen_inv _ a c1 w1). }
    cbn [open_turns open_turn open_thread InitOpen client_ of_option mbind result_bind]. rewrite Eo.
    cbn [mbind result_bind open_turn open_thread InitOpen client_].
    destruct (client_SetTimeout_spec _ (recv_timeout_ms_ a) (send_timeout_ms_ a) c2 w2 Hi2) as (r & c3 & w3 & E3 & Hi3 & Ho3 & Ht3).
    destruct (Z.eqb_spec (recv_timeout_ms_ a) 0), (Z.eqb_spec (send_timeout_ms_ a) 0); cbn [andb negb].
    4: { unfold SetSocketTimeout. cbn [client_ of_option mbind result_bind]. rewrite E3. cbn [mbind result_bind client_ InitOpen].
         exists c3, w3. rewrite Ho3. split; [done|]. split; [done|]. split; [by rewrite (client_fds_same _ _ _ _ _ _ _ E3)|].
         split; [done|]. tauto. }
    all: exists c2, w2; naive_solver.
Qed.

(** ** Witnesses, in the scripted worlds of TcpClient.v and TcpSsl.v *)

Definition ptc_args (m : PtcMode) : PtcArgs := mk_ptc_args "192.168.1.201" 9347 m None None None 2000 2000.

(** A connection that comes up and goes; and one that is given the descriptor 1024. *)
Lemma ptc_client_lifetime_witness :
  (exists s w, open_turns 2 (ptc_args mode_tcp_ssl) PtcClient_new (tls0 3 0) = Ok (s, w) /\ open_thread s = Configuring /\ IsOpen s = Ok true /\
    exists w2, PtcClient_delete 3 (ptc_args mode_tcp_ssl) s w = Ok w2 /\ open_fds w2 = open_fds (tls0 3 0)) /\
  exists k s w, (k < 2)%nat /\ open_turns k (ptc_args mode_tcp) PtcClient_new (tls0 1024 0) = Ok (s, w) /\
    turn_faults (ptc_args mode_tcp) s w.
Proof.
  split.
  - destruct (ptc_client_lifetime (ptc_args mode_tcp_ssl) 2 (tls0 3 0)) as [(s & w & E & Ho & _ & w2 & Ed & _ & Hd)|(k & s & w & _ & _ & _ & E)];
      [|vm_compute in E; done].
    exists s, w. split; [exact E|]. assert (open_thread s = Configuring) as Ep by (vm_compute in E; by injection E as <- _).
    rewrite Ep in Ho. split; [done|]. split; [done|]. exists w2. split; [exact Ed|]. apply Hd. by vm_compute.
  - destruct (ptc_client_lifetime (ptc_args mode_tcp) 2 (tls0 1024 0)) as [(s & w & E & _)|(k & s & w & Hk & E & Hf & _)];
      [vm_compute in E; done|]. by exists k, s, w.
Defined.

(** The first attempt succeeds. *)
Lemma ptc_open_connects_witness : exists c w,
  open_turns 3 (ptc_args mode_tcp) PtcClient_new (tls0 3 0) = Ok (mk_ptc_open (Some c) true Over, w) /\
  client_IsOpened c = true /\ timeouts_of c = (2000, 2000).
Proof.
  destruct (client_TryOpen (ptc_args mode_tcp) (make_client mode_tcp) (tls0 3 0)) as [[[b c2] w2]|] eqn:E; [|vm_compute in E; done].
  assert (b = true) as -> by (vm_compute in E; by injection E as <- _ _).
  destruct (ptc_open_connects (ptc_args mode_tcp) 0 (tls0 3 0) _ _ c2 w2 (no_attempt _ _) E) as (_ & c3 & w3 & E3 & Ho & _ & Ht & _).
  exists c3, w3. split; [exact E3|]. split; [exact Ho|]. apply Ht; done.
Defined.
