(* ===== verification/Pcap.v ===== *)
(** * Pcap: the headers of a capture file

    The packed structures of Source/include/pcap_source.h and their
    constructors in Source/src/pcap_source.cc, as byte images in the order of a
    little-endian host (the literals 0x0008, 0x1027, ... of the constructors
    are network-order values written for such a host). *)

From S2P Require Import Prelude Bytes.
Local Open Scope Z_scope.

Definition pcap_magic_number : Z := 0xa1b2c3d4.

Record PcapHeader : Set := mk_pcap_header {
  magic_number : Z;
  version_major : Z;
  version_minor : Z;
  thiszone : Z;
  sigfigs : Z;
  snaplen : Z;
  network : Z;
}.

Record PcapRecord : Set := mk_pcap_record {
  ts_sec : Z;
  ts_usec : Z;
  incl_len : Z;
  orig_len : Z;
}.

Record UDP : Set := mk_udp {
  source_port : Z;
  distination_port : Z;
  udp_length : Z;
  check_sum : Z;
}.

(** sizeof of the structures, as their static_asserts state them. *)
Definition sizeof_PcapHeader : Z := 24.
Definition sizeof_PcapRecord : Z := 16.
Definition sizeof_Ethernet : Z := 14.
Definition sizeof_PcapIPHeader : Z := 34.
Definition sizeof_PcapIPv6Header : Z := 54.
Definition sizeof_UDP : Z := 8.
Definition sizeof_TCP : Z := 20.
Definition sizeof_PcapUDPHeader : Z := 42.
Definition sizeof_PcapTCPHeader : Z := 54.
Definition sizeof_PcapUDPv6Header : Z := 62.
Definition sizeof_PcapTCPv6Header : Z := 74.

(** ** Images *)

Definition pcap_header_image (h : PcapHeader) : list Z :=
  le_bytes 4 (magic_number h) ++ le_bytes 2 (version_major h) ++ le_bytes 2 (version_minor h)
  ++ le_bytes 4 (thiszone h) ++ le_bytes 4 (sigfigs h) ++ le_bytes 4 (snaplen h)
  ++ le_bytes 4 (network h).

Definition pcap_record_image (r : PcapRecord) : list Z :=
  le_bytes 4 (ts_sec r) ++ le_bytes 4 (ts_usec r) ++ le_bytes 4 (incl_len r)
  ++ le_bytes 4 (orig_len r).

Definition udp_image (u : UDP) : list Z :=
  le_bytes 2 (source_port u) ++ le_bytes 2 (distination_port u) ++ le_bytes 2 (udp_length u)
  ++ le_bytes 2 (check_sum u).

(** A structure at [off] of a buffer. *)
Definition pcap_header_cast (b : list Z) (off : Z) : result PcapHeader :=
  m ← rd32 b off; vj ← rd16 b (off + 4); vn ← rd16 b (off + 6); tz ← rd32 b (off + 8);
  sf ← rd32 b (off + 12); sl ← rd32 b (off + 16); nw ← rd32 b (off + 20);
  Ok (mk_pcap_header m vj vn (i32 tz) sf sl nw).

Definition pcap_record_cast (b : list Z) (off : Z) : result PcapRecord :=
  s ← rd32 b off; u ← rd32 b (off + 4); i ← rd32 b (off + 8); o ← rd32 b (off + 12);
  Ok (mk_pcap_record s u i o).

Definition udp_cast (b : list Z) (off : Z) : result UDP :=
  s ← rd16 b off; d ← rd16 b (off + 2); l ← rd16 b (off + 4); c ← rd16 b (off + 6);
  Ok (mk_udp s d l c).

(** ** Constructors *)

(** uint16_t(((v & 0xff) << 8) | (v >> 8)) *)
Definition swap16 (v : Z) : Z := u16 (Z.lor (Z.shiftl (Z.land v 0xff) 8) (Z.shiftr v 8)).

Definition Ethernet_image (ether_type : Z) : list Z :=
  [0xff; 0xff; 0xff; 0xff; 0xff; 0xff; 0x00; 0x0a; 0x35; 0x00; 0x1e; 0x53] ++ le_bytes 2 ether_type.

(** [PcapIPHeader(protocol, pkt_len)]; the two nibbles of the first byte of the
    IP header are version 5 and length 4, in this order from the low end. *)
Definition PcapIPHeader_image (protocol pkt_len : Z) : list Z :=
  Ethernet_image 0x0008
  ++ [0x5 + 0x4 * 2 ^ 4; 0x00] ++ le_bytes 2 (swap16 (pkt_len + 20)) ++ le_bytes 2 0xf17a
  ++ le_bytes 2 0x0040 ++ [0x40; protocol] ++ le_bytes 2 0x80f8 ++ le_bytes 4 0xc901a8c0
  ++ le_bytes 4 0xffffffff.

(** [PcapIPv6Header(protocol, pkt_len)]: six initialisers for eight members in
    the order version, flow_level, flow_label, payload_length, next_header,
    hop_limit, srce_addr, dist_addr. *)
Definition PcapIPv6Header_image (protocol pkt_len : Z) : list Z :=
  Ethernet_image 0xdd86
  ++ le_bytes 4 0x6 ++ le_bytes 2 0
  ++ [u8 (Z.lor (Z.shiftl (Z.land (pkt_len + 40) 0xff) 8) (Z.shiftr (pkt_len + 40) 8)); protocol]
  ++ replicate 16 0 ++ replicate 16 0.

Definition PcapUDPHeader_image (pkt_len port : Z) : list Z :=
  PcapIPHeader_image 0x11 (u16 (pkt_len + 8))
  ++ udp_image (mk_udp 0x1027 (swap16 port) (swap16 (pkt_len + 8)) 0x0000).

Definition PcapUDPv6Header_image (pkt_len port : Z) : list Z :=
  PcapIPv6Header_image 0x11 (u16 (pkt_len + 8))
  ++ udp_image (mk_udp 0x1027 (swap16 port) (swap16 (pkt_len + 8)) 0x0000).

(** tcp{ 0x1027, port, seq 0, ack 0, lenres 4 | reserved 0, 0, win, sum, urp } *)
Definition tcp_image (port : Z) : list Z :=
  le_bytes 2 0x1027 ++ le_bytes 2 (swap16 port) ++ le_bytes 4 0 ++ le_bytes 4 0
  ++ [0x4; 0x00] ++ le_bytes 2 0 ++ le_bytes 2 0 ++ le_bytes 2 0.

Definition PcapTCPHeader_image (pkt_len port : Z) : list Z :=
  PcapIPHeader_image 0x06 (u16 (pkt_len + 20)) ++ tcp_image port.

Definition PcapTCPv6Header_image (pkt_len port : Z) : list Z :=
  PcapIPv6Header_image 0x06 (u16 (pkt_len + 20)) ++ tcp_image port.

(** ** Lemmas *)

Lemma rd_le_app n (l1 l2 l3 : list Z) off :
  off = Z.of_nat (length l1) -> length l2 = n -> rd_le n (l1 ++ l2 ++ l3) off = Ok (le_combine l2).
Proof. intros -> <-. unfold rd_le. by rewrite arr_slice_app. Qed.

(** A read of a field that was written with [le_bytes]. *)
Lemma rd_le_bytes n v (l1 l3 : list Z) off :
  off = Z.of_nat (length l1) -> 0 <= v < 2 ^ (8 * Z.of_nat n) ->
  rd_le n (l1 ++ le_bytes n v ++ l3) off = Ok v.
Proof.
  intros Ho Hv. rewrite rd_le_app by (done || apply le_bytes_length).
  by rewrite le_combine_bytes, Z.mod_small.
Qed.

Lemma swap16_spec v : is_u16 v -> swap16 v = be_combine (le_bytes 2 v).
Proof.
  intros Hv. unfold is_u16 in Hv. unfold swap16, be_combine. cbn [le_bytes foldl].
  change 0xff with (Z.ones 8). rewrite Z.land_ones, Z.shiftr_div_pow2 by lia.
  pose proof (Z.div_mod v (2 ^ 8)). pose proof (Z.mod_pos_bound v (2 ^ 8)).
  assert (0 <= v / 2 ^ 8 < 2 ^ 8).
  { split; [apply Z.div_pos; lia|apply Z.div_lt_upper_bound; lia]. }
  rewrite lor_byte by done. unfold u16.
  rewrite (Z.mod_small (v / 2 ^ 8)), (Z.mod_small (_ + _)) by lia. lia.
Qed.

Lemma swap16_range v : is_u16 (swap16 v).
Proof. unfold swap16, is_u16, u16. apply Z.mod_pos_bound. lia. Qed.

Lemma swap16_swap16 v : is_u16 v -> swap16 (swap16 v) = v.
Proof.
  intros Hv. rewrite (swap16_spec (swap16 v)) by apply swap16_range.
  rewrite swap16_spec by done. unfold is_u16 in Hv. unfold be_combine. cbn [le_bytes foldl].
  pose proof (Z.div_mod v (2 ^ 8)). pose proof (Z.mod_pos_bound v (2 ^ 8)).
  assert (0 <= v / 2 ^ 8 < 2 ^ 8).
  { split; [apply Z.div_pos; lia|apply Z.div_lt_upper_bound; lia]. }
  rewrite (Z.mod_small (v / 2 ^ 8)) by lia.
  set (a := v mod 2 ^ 8) in *. set (b := v / 2 ^ 8) in *.
  replace ((0 * 2 ^ 8 + a) * 2 ^ 8 + b) with (b + a * 2 ^ 8) by lia.
  rewrite Z.mod_add, Z.div_add, (Z.mod_small b), (Z.div_small b), Z.add_0_l, (Z.mod_small a) by lia. lia.
Qed.

Lemma pcap_record_image_length r : length (pcap_record_image r) = 16%nat.
Proof. done. Qed.

Lemma PcapUDPHeader_image_length len port : length (PcapUDPHeader_image len port) = 42%nat.
Proof. done. Qed.

Lemma PcapTCPHeader_image_length len port : length (PcapTCPHeader_image len port) = 54%nat.
Proof. done. Qed.

Definition pcap_record_wf (r : PcapRecord) : Prop :=
  is_u32 (ts_sec r) /\ is_u32 (ts_usec r) /\ is_u32 (incl_len r) /\ is_u32 (orig_len r).

(** A read inside a part of a buffer. *)
Lemma rd_le_mid n (l1 img l3 : list Z) off k :
  off = Z.of_nat (length l1) + k -> 0 <= k -> k + Z.of_nat n <= Z.of_nat (length img) ->
  rd_le n (l1 ++ img ++ l3) off = rd_le n img k.
Proof.
  intros -> Hk Hn. unfold rd_le. rewrite !arr_slice_ok by (rewrite ?length_app; lia).
  cbn [mbind result_bind]. do 2 f_equal.
  rewrite drop_app_ge, drop_app_le, take_app_le by (rewrite ?length_drop; lia).
  do 2 f_equal. lia.
Qed.

(** What is read at the offset a record was written to is the record. *)
Lemma pcap_record_cast_image r l1 l3 off :
  off = Z.of_nat (length l1) -> pcap_record_wf r ->
  pcap_record_cast (l1 ++ pcap_record_image r ++ l3) off = Ok r.
Proof.
  intros Ho (H1 & H2 & H3 & H4). unfold pcap_record_cast, rd32, is_u32 in *.
  rewrite (rd_le_mid _ _ _ _ off 0), (rd_le_mid _ _ _ _ (off + 4) 4),
    (rd_le_mid _ _ _ _ (off + 8) 8), (rd_le_mid _ _ _ _ (off + 12) 12)
    by (rewrite ?pcap_record_image_length; lia).
  set (a := le_bytes 4 (ts_sec r)). set (b := le_bytes 4 (ts_usec r)).
  set (c := le_bytes 4 (incl_len r)). set (d := le_bytes 4 (orig_len r)).
  assert (pcap_record_image r = (a ++ b ++ c) ++ d ++ [] /\
    pcap_record_image r = (a ++ b) ++ c ++ d) as [E4 E3] by by rewrite app_nil_r, <-!app_assoc.
  assert (rd_le 4 (pcap_record_image r) 0 = Ok (ts_sec r)) as -> by by apply (rd_le_bytes 4 _ []).
  assert (rd_le 4 (pcap_record_image r) 4 = Ok (ts_usec r)) as -> by by apply (rd_le_bytes 4 _ a).
  assert (rd_le 4 (pcap_record_image r) 8 = Ok (incl_len r)) as ->.
  { rewrite E3. by apply (rd_le_bytes 4 _ (a ++ b)). }
  assert (rd_le 4 (pcap_record_image r) 12 = Ok (orig_len r)) as ->.
  { rewrite E4. by apply (rd_le_bytes 4 _ (a ++ b ++ c)). }
  by destruct r.
Qed.

Lemma byte_list_cons b l : byte_list (b :: l) <-> is_u8 b /\ byte_list l.
Proof. apply Forall_cons. Qed.

Lemma PcapUDPHeader_bytes len port : byte_list (PcapUDPHeader_image len port).
Proof.
  unfold PcapUDPHeader_image, PcapIPHeader_image, Ethernet_image, udp_image.
  cbn [source_port distination_port udp_length check_sum].
  rewrite !byte_list_app, !byte_list_cons.
  repeat split; (try apply le_bytes_byte_list); try constructor; unfold is_u8; lia.
Qed.
