(* ===== verification/PcapSource.v ===== *)
(** * PcapSource: reading lidar packets back from a capture file

    Source/src/pcap_source.cc on a little-endian host with a 64-bit [size_t].
    The whole file is in memory; [fpos_] is the read position.  The array
    [payload_] and the stored headers live from one call to the next, so they
    are part of the state: what a short record leaves in [payload_] is seen by
    the header tests of the next one. *)

From S2P Require Import Prelude Bytes Pcap.
Local Open Scope Z_scope.

Record PcapSource : Type := mk_source {
  fpos_ : Z;
  fileData : list Z;
  opened : bool;
  is_pcap_end : bool;
  pcap_header_ : PcapHeader;
  pcap_record_ : PcapRecord;
  pcap_udp_header_ : UDP;
  pcap_tcp_header_ : list Z;
  payload_ : list Z;
  tcp_callback_ : bool;
  pcap_path_ : string;
  packet_interval_ : Z;
}.

(** The members the constructor does not initialise are the arguments [h], [r],
    [t] and [junk]. *)
Definition PcapSource_new (h : PcapHeader) (r : PcapRecord) (t junk : list Z)
    (path : string) (packet_interval : Z) : PcapSource :=
  mk_source 0 [] false false h r (mk_udp 0 0 0 0) t junk false path packet_interval.

Definition set_fpos (p : Z) (s : PcapSource) : PcapSource :=
  mk_source p (fileData s) (opened s) (is_pcap_end s) (pcap_header_ s) (pcap_record_ s)
    (pcap_udp_header_ s) (pcap_tcp_header_ s) (payload_ s) (tcp_callback_ s) (pcap_path_ s) (packet_interval_ s).
Definition set_end (b : bool) (s : PcapSource) : PcapSource :=
  mk_source (fpos_ s) (fileData s) (opened s) b (pcap_header_ s) (pcap_record_ s)
    (pcap_udp_header_ s) (pcap_tcp_header_ s) (payload_ s) (tcp_callback_ s) (pcap_path_ s) (packet_interval_ s).
Definition set_file (f : list Z) (o : bool) (s : PcapSource) : PcapSource :=
  mk_source (fpos_ s) f o (is_pcap_end s) (pcap_header_ s) (pcap_record_ s)
    (pcap_udp_header_ s) (pcap_tcp_header_ s) (payload_ s) (tcp_callback_ s) (pcap_path_ s) (packet_interval_ s).
Definition set_header (h : PcapHeader) (s : PcapSource) : PcapSource :=
  mk_source (fpos_ s) (fileData s) (opened s) (is_pcap_end s) h (pcap_record_ s)
    (pcap_udp_header_ s) (pcap_tcp_header_ s) (payload_ s) (tcp_callback_ s) (pcap_path_ s) (packet_interval_ s).
Definition set_record (r : PcapRecord) (s : PcapSource) : PcapSource :=
  mk_source (fpos_ s) (fileData s) (opened s) (is_pcap_end s) (pcap_header_ s) r
    (pcap_udp_header_ s) (pcap_tcp_header_ s) (payload_ s) (tcp_callback_ s) (pcap_path_ s) (packet_interval_ s).
Definition set_udp (u : UDP) (s : PcapSource) : PcapSource :=
  mk_source (fpos_ s) (fileData s) (opened s) (is_pcap_end s) (pcap_header_ s) (pcap_record_ s)
    u (pcap_tcp_header_ s) (payload_ s) (tcp_callback_ s) (pcap_path_ s) (packet_interval_ s).
Definition set_tcp (t : list Z) (s : PcapSource) : PcapSource :=
  mk_source (fpos_ s) (fileData s) (opened s) (is_pcap_end s) (pcap_header_ s) (pcap_record_ s)
    (pcap_udp_header_ s) t (payload_ s) (tcp_callback_ s) (pcap_path_ s) (packet_interval_ s).
Definition set_payload (p : list Z) (s : PcapSource) : PcapSource :=
  mk_source (fpos_ s) (fileData s) (opened s) (is_pcap_end s) (pcap_header_ s) (pcap_record_ s)
    (pcap_udp_header_ s) (pcap_tcp_header_ s) p (tcp_callback_ s) (pcap_path_ s) (packet_interval_ s).

(** ** class Private *)

Definition eof (s : PcapSource) : bool := fpos_ s =? Z.of_nat (length (fileData s)).

Definition private_close (s : PcapSource) : PcapSource :=
  set_fpos 0 (if opened s then set_file [] false s else s).

(** [fs] gives the content of a file that can be opened. *)
Definition private_open (fs : string -> option (list Z)) (s : PcapSource) : PcapSource :=
  let s := private_close s in
  match fs (pcap_path_ s) with
  | Some f => set_file f true s
  | None => s
  end.

(** The [length] bytes at the read position, or [None] when the file is too
    short; the sum is a [size_t]. *)
Definition private_read (length_ : Z) (s : PcapSource) : result (option (list Z) * PcapSource) :=
  if Z.of_nat (length (fileData s)) <? u64 (fpos_ s + length_) then Ok (None, s)
  else
    b ← arr_slice (fileData s) (fpos_ s) length_;
    Ok (Some b, set_fpos (u64 (fpos_ s + length_)) s).

Definition private_move (length_ : Z) (s : PcapSource) : bool * PcapSource :=
  if Z.of_nat (length (fileData s)) <? u64 (fpos_ s + length_) then (false, s)
  else (true, set_fpos (u64 (fpos_ s + length_)) s).

(** ** class PcapSource *)

Definition Close (s : PcapSource) : PcapSource := private_close s.

(** A short file leaves [pcap_header_] as it was: the result of the read is not
    looked at. *)
Definition Open (fs : string -> option (list Z)) (s : PcapSource) : result (bool * PcapSource) :=
  let s := Close s in
  let s := private_open fs s in
  if negb (opened s) then Ok (false, s)
  else
    '(o, s) ← private_read sizeof_PcapHeader s;
    s ← match o with Some b => h ← pcap_header_cast b 0; Ok (set_header h s) | None => Ok s end;
    Ok (magic_number (pcap_header_ s) =? pcap_magic_number, s).

Definition load_udp (off : Z) (s : PcapSource) : result PcapSource :=
  u ← udp_cast (payload_ s) off; Ok (set_udp u s).
Definition load_tcp (off : Z) (s : PcapSource) : result PcapSource :=
  t ← arr_slice (payload_ s) off sizeof_TCP; Ok (set_tcp t s).

(** memcpy(udpPacket.buffer, payload_.data() + hdr, incl_len - hdr) *)
Definition copy_payload (hdr : Z) (s : PcapSource) (buffer : list Z) : result (list Z) :=
  p ← arr_slice (payload_ s) hdr (incl_len (pcap_record_ s) - hdr);
  arr_blit buffer 0 p.

(** The TCP cases: [hdr] bytes of headers in all, the TCP header at [off]. *)
Definition next_tcp (hdr off : Z) (s : PcapSource) (buffer : list Z)
    : result (Z * PcapSource * list Z) :=
  if incl_len (pcap_record_ s) <? hdr then Ok (1, s, buffer)
  else
    s ← load_tcp off s;
    Ok (if tcp_callback_ s then incl_len (pcap_record_ s) - hdr else 2, s, buffer).

Definition next_ipv4 (s : PcapSource) (buffer : list Z) : result (Z * PcapSource * list Z) :=
  protocol ← rd8 (payload_ s) (sizeof_Ethernet + 9);
  if protocol =? 17 then
    s ← load_udp sizeof_PcapIPHeader s;
    if incl_len (pcap_record_ s) <? sizeof_PcapUDPHeader then Ok (1, s, buffer)
    else
      buffer ← copy_payload sizeof_PcapUDPHeader s buffer;
      Ok (incl_len (pcap_record_ s) - sizeof_PcapUDPHeader, s, buffer)
  else if protocol =? 6 then next_tcp sizeof_PcapTCPHeader sizeof_PcapIPHeader s buffer
  else Ok (2, s, buffer).

Definition next_ipv6 (s : PcapSource) (buffer : list Z) : result (Z * PcapSource * list Z) :=
  next_header ← rd8 (payload_ s) (sizeof_Ethernet + 6);
  if next_header =? 17 then
    s ← load_udp sizeof_PcapIPv6Header s;
    if incl_len (pcap_record_ s) <? sizeof_PcapUDPv6Header then Ok (1, s, buffer)
    else
      buffer ← copy_payload sizeof_PcapUDPv6Header s buffer;
      Ok (incl_len (pcap_record_ s) - sizeof_PcapUDPv6Header, s, buffer)
  else if next_header =? 6 then next_tcp sizeof_PcapTCPv6Header sizeof_PcapIPv6Header s buffer
  else Ok (2, s, buffer).

(** case 0x0081: a VLAN tag in front of the IP header.  The transport header is
    read where it would be without the tag, and the IPv6 UDP case does not copy
    the payload. *)
Definition next_vlan (s : PcapSource) (buffer : list Z) : result (Z * PcapSource * list Z) :=
  ty ← rd16 (payload_ s) (sizeof_Ethernet + 2);
  protocol ← rd8 (payload_ s) (sizeof_Ethernet + 13);
  if ty =? 0x0008 then
    if protocol =? 17 then
      s ← load_udp sizeof_PcapIPHeader s;
      if incl_len (pcap_record_ s) <? sizeof_PcapUDPHeader + 4 then Ok (1, s, buffer)
      else
        buffer ← copy_payload (sizeof_PcapUDPHeader + 4) s buffer;
        Ok (incl_len (pcap_record_ s) - sizeof_PcapUDPHeader - 4, s, buffer)
    else if protocol =? 6 then next_tcp (sizeof_PcapTCPHeader + 4) sizeof_PcapIPHeader s buffer
    else Ok (2, s, buffer)
  else if ty =? 0xdd86 then
    if protocol =? 17 then
      if incl_len (pcap_record_ s) <? sizeof_PcapUDPv6Header + 4 then Ok (1, s, buffer)
      else
        s ← load_udp sizeof_PcapIPv6Header s;
        Ok (incl_len (pcap_record_ s) - sizeof_PcapUDPv6Header - 4, s, buffer)
    else if protocol =? 6 then next_tcp (sizeof_PcapTCPv6Header + 4) sizeof_PcapIPv6Header s buffer
    else Ok (2, s, buffer)
  else Ok (2, s, buffer).

(** The value returned, the source, and [udpPacket.buffer]. *)
Definition next (s : PcapSource) (buffer : list Z) : result (Z * PcapSource * list Z) :=
  if eof s then Ok (-1, set_end true s, buffer)
  else
    '(o, s) ← private_read sizeof_PcapRecord s;
    match o with
    | None => Ok (-1, s, buffer)
    | Some b =>
        r ← pcap_record_cast b 0;
        let s := set_record r s in
        if (incl_len r <=? 1500) && (sizeof_Ethernet <? incl_len r) then
          '(o, s) ← private_read (incl_len r) s;
          match o with
          | None => Ok (-1, s, buffer)
          | Some b =>
              p ← arr_blit (payload_ s) 0 b;
              let s := set_payload p s in
              ether_type ← rd16 (payload_ s) 12;
              if ether_type =? 0x0008 then next_ipv4 s buffer
              else if ether_type =? 0xdd86 then next_ipv6 s buffer
              else if ether_type =? 0x0081 then next_vlan s buffer
              else Ok (1, s, buffer)
          end
        else
          let '(ret, s) := private_move (incl_len r) s in
          if negb ret then Ok (-1, s, buffer) else Ok (1, s, buffer)
    end.

Definition Receive := next.

Definition Send (u16Len : Z) : Z := u16Len.

Definition distinationPort (s : PcapSource) : Z :=
  let port := distination_port (pcap_udp_header_ s) in
  Z.lor (Z.shiftl (Z.land port 0xff) 8) (Z.land (Z.shiftr port 8) 0xff).

Definition IsOpened (s : PcapSource) : bool := opened s.

Definition setPcapPath (path : string) (s : PcapSource) : PcapSource :=
  mk_source (fpos_ s) (fileData s) (opened s) (is_pcap_end s) (pcap_header_ s) (pcap_record_ s)
    (pcap_udp_header_ s) (pcap_tcp_header_ s) (payload_ s) (tcp_callback_ s) path (packet_interval_ s).
Definition setPacketInterval (us : Z) (s : PcapSource) : PcapSource :=
  mk_source (fpos_ s) (fileData s) (opened s) (is_pcap_end s) (pcap_header_ s) (pcap_record_ s)
    (pcap_udp_header_ s) (pcap_tcp_header_ s) (payload_ s) (tcp_callback_ s) (pcap_path_ s) us.

(** The first [n] packets a caller receives into one buffer. *)
Fixpoint receive_n (n : nat) (s : PcapSource) (buffer : list Z)
    : result (list Z * PcapSource * list Z) :=
  match n with
  | O => Ok ([], s, buffer)
  | S n =>
      '(len, s, buffer) ← Receive s buffer;
      '(lens, s, buffer) ← receive_n n s buffer;
      Ok (len :: lens, s, buffer)
  end.

(** The receive loop of a caller that stops at the end of the file. *)
Fixpoint drain (fuel : nat) (s : PcapSource) (buffer : list Z) : result (PcapSource * list Z) :=
  if is_pcap_end s then Ok (s, buffer)
  else match fuel with
  | O => Err NoProgress
  | S fuel => '(_, s, buffer) ← Receive s buffer; drain fuel s buffer
  end.

Definition source_wf (s : PcapSource) : Prop :=
  length (payload_ s) = 1500%nat /\ byte_list (payload_ s) /\ byte_list (fileData s) /\
  0 <= fpos_ s <= Z.of_nat (length (fileData s)) /\ Z.of_nat (length (fileData s)) < 2 ^ 63.

(** ** Lemmas *)

Lemma udp_cast_ok b off :
  0 <= off -> off + 8 <= Z.of_nat (length b) -> exists u, udp_cast b off = Ok u.
Proof.
  intros Ho Hl. unfold udp_cast, rd16.
  destruct (rd_le_in 2 b off) as [v0 ->]; [lia|lia|].
  destruct (rd_le_in 2 b (off + 2)) as [v1 ->]; [lia|lia|].
  destruct (rd_le_in 2 b (off + 4)) as [v2 ->]; [lia|lia|].
  destruct (rd_le_in 2 b (off + 6)) as [v3 ->]; [lia|lia|]. cbn. eauto.
Qed.

Lemma load_udp_ok off s :
  0 <= off -> off + 8 <= Z.of_nat (length (payload_ s)) -> exists u, load_udp off s = Ok (set_udp u s).
Proof. intros Ho Hl. unfold load_udp. destruct (udp_cast_ok (payload_ s) off Ho Hl) as [u ->]. eauto. Qed.

Lemma load_tcp_ok off s :
  0 <= off -> off + 20 <= Z.of_nat (length (payload_ s)) -> exists t, load_tcp off s = Ok (set_tcp t s).
Proof. intros Ho Hl. unfold load_tcp, sizeof_TCP. rewrite arr_slice_ok by lia. cbn. eauto. Qed.

Lemma copy_payload_ok hdr s buffer :
  0 <= hdr <= incl_len (pcap_record_ s) -> incl_len (pcap_record_ s) <= Z.of_nat (length (payload_ s)) ->
  incl_len (pcap_record_ s) - hdr <= Z.of_nat (length buffer) ->
  exists b, copy_payload hdr s buffer = Ok b /\ length b = length buffer /\
    take (Z.to_nat (incl_len (pcap_record_ s) - hdr)) b =
    take (Z.to_nat (incl_len (pcap_record_ s) - hdr)) (drop (Z.to_nat hdr) (payload_ s)).
Proof.
  intros Hh Hp Hb. unfold copy_payload. rewrite arr_slice_ok by lia. cbn [mbind result_bind].
  set (p := take _ _).
  assert (length p = Z.to_nat (incl_len (pcap_record_ s) - hdr)) as Hl.
  { unfold p. rewrite length_take, length_drop. lia. }
  rewrite arr_blit_ok by lia. eexists. split; [reflexivity|]. split.
  - rewrite !length_app, length_take, length_drop. lia.
  - change (Z.to_nat 0) with 0%nat. rewrite take_0, app_nil_l, <-Hl. by rewrite take_app_length.
Qed.

(** The cases after the record is read touch the stored headers only. *)
Definition same_position (s s' : PcapSource) : Prop :=
  fpos_ s' = fpos_ s /\ fileData s' = fileData s /\ is_pcap_end s' = is_pcap_end s /\
  payload_ s' = payload_ s /\ pcap_record_ s' = pcap_record_ s.

Definition delivers (s : PcapSource) (buffer : list Z) (r : result (Z * PcapSource * list Z)) : Prop :=
  exists ret s' buffer', r = Ok (ret, s', buffer') /\ same_position s s' /\
    length buffer' = length buffer /\ 0 <= ret <= 1458.

Section Deliver.
Variables (s : PcapSource) (buffer : list Z).
Hypothesis Hp : length (payload_ s) = 1500%nat.
Hypothesis Hb : length buffer = 1500%nat.
Hypothesis Hi : sizeof_Ethernet < incl_len (pcap_record_ s) <= 1500.

Lemma delivers_same ret s' :
  same_position s s' -> 0 <= ret <= 1458 -> delivers s buffer (Ok (ret, s', buffer)).
Proof. intros. eexists _, _, _. split; [reflexivity|]. done. Qed.

Lemma next_tcp_total hdr off :
  42 <= hdr -> 0 <= off -> off + 20 <= 1500 -> delivers s buffer (next_tcp hdr off s buffer).
Proof.
  intros Hh Ho Hl. unfold next_tcp. destruct (Z.ltb_spec (incl_len (pcap_record_ s)) hdr).
  - by apply delivers_same; [|lia].
  - destruct (load_tcp_ok off s) as [t ->]; [lia|lia|]. cbn [mbind result_bind].
    apply delivers_same; [done|]. cbn. destruct (tcp_callback_ s); lia.
Qed.

(** A UDP case that stores the header and copies what follows [hdr] bytes. *)
Lemma udp_case_total hdr off :
  42 <= hdr -> 0 <= off -> off + 8 <= 1500 ->
  delivers s buffer
    (s ← load_udp off s;
     if incl_len (pcap_record_ s) <? hdr then Ok (1, s, buffer)
     else buffer ← copy_payload hdr s buffer; Ok (incl_len (pcap_record_ s) - hdr, s, buffer)).
Proof.
  intros Hh Ho Hl. destruct (load_udp_ok off s) as [u ->]; [lia|lia|]. cbn [mbind result_bind].
  cbn [pcap_record_ set_udp]. destruct (Z.ltb_spec (incl_len (pcap_record_ s)) hdr).
  - by apply delivers_same; [|lia].
  - destruct (copy_payload_ok hdr (set_udp u s) buffer) as (b & -> & Hlb & _); cbn; [lia|lia|lia|].
    eexists _, _, _. split; [reflexivity|]. split; [done|]. split; [done|lia].
Qed.

Lemma next_ipv4_total : delivers s buffer (next_ipv4 s buffer).
Proof.
  unfold next_ipv4, sizeof_PcapUDPHeader, sizeof_PcapTCPHeader, sizeof_PcapIPHeader, sizeof_Ethernet.
  destruct (rd8_in (payload_ s) (14 + 9)) as [p ->]; [lia|]. cbn [mbind result_bind].
  destruct (p =? 17); [apply udp_case_total; lia|].
  destruct (p =? 6); [apply next_tcp_total; lia|]. by apply delivers_same; [|lia].
Qed.

Lemma next_ipv6_total : delivers s buffer (next_ipv6 s buffer).
Proof.
  unfold next_ipv6, sizeof_PcapUDPv6Header, sizeof_PcapTCPv6Header, sizeof_PcapIPv6Header, sizeof_Ethernet.
  destruct (rd8_in (payload_ s) (14 + 6)) as [p ->]; [lia|]. cbn [mbind result_bind].
  destruct (p =? 17); [apply udp_case_total; lia|].
  destruct (p =? 6); [apply next_tcp_total; lia|]. by apply delivers_same; [|lia].
Qed.

Lemma next_vlan_total : delivers s buffer (next_vlan s buffer).
Proof.
  unfold next_vlan, sizeof_PcapUDPv6Header, sizeof_PcapTCPv6Header, sizeof_PcapIPv6Header,
    sizeof_PcapUDPHeader, sizeof_PcapTCPHeader, sizeof_PcapIPHeader, sizeof_Ethernet, rd16.
  destruct (rd_le_in 2 (payload_ s) (14 + 2)) as [ty ->]; [lia|lia|]. cbn [mbind result_bind].
  destruct (rd8_in (payload_ s) (14 + 13)) as [p ->]; [lia|]. cbn [mbind result_bind].
  destruct (ty =? 0x0008); [|destruct (ty =? 0xdd86)].
  - destruct (p =? 17).
    + pose proof (udp_case_total (42 + 4) 34) as Hu. unfold delivers in *.
      destruct Hu as (ret & s' & b' & E & Hs & Hl & Hr); [lia..|].
      exists ret, s', b'. split; [|done]. rewrite <-E.
      destruct (load_udp 34 s); [|done]. cbn [mbind result_bind].
      destruct (_ <? _); [done|]. destruct (copy_payload _ _ _); cbn [mbind result_bind]; [|done].
      do 3 f_equal. lia.
    + destruct (p =? 6); [apply next_tcp_total; lia|]. by apply delivers_same; [|lia].
  - destruct (p =? 17).
    + destruct (Z.ltb_spec (incl_len (pcap_record_ s)) (62 + 4)); [by apply delivers_same; [|lia]|].
      destruct (load_udp_ok 54 s) as [u ->]; [lia|lia|]. cbn [mbind result_bind].
      apply delivers_same; [done|]. cbn. lia.
    + destruct (p =? 6); [apply next_tcp_total; lia|]. by apply delivers_same; [|lia].
  - by apply delivers_same; [|lia].
Qed.

End Deliver.

Lemma u64_small z : 0 <= z < 2 ^ 64 -> u64 z = z.
Proof. apply Z.mod_small. Qed.

(** A read inside the file moves the position behind it; one that would leave
    the file changes nothing. *)
Lemma private_read_spec n s :
  source_wf s -> 0 <= n < 2 ^ 33 ->
  private_read n s =
    if decide (fpos_ s + n <= Z.of_nat (length (fileData s)))
    then Ok (Some (take (Z.to_nat n) (drop (Z.to_nat (fpos_ s)) (fileData s))), set_fpos (fpos_ s + n) s)
    else Ok (None, s).
Proof.
  intros (_ & _ & _ & Hp & Hf) Hn. unfold private_read. rewrite u64_small by lia.
  case_decide; destruct (Z.ltb_spec (Z.of_nat (length (fileData s))) (fpos_ s + n)); try lia; [|done].
  by rewrite arr_slice_ok by lia.
Qed.

Lemma pcap_record_cast_total b :
  length b = 16%nat -> byte_list b -> exists r, pcap_record_cast b 0 = Ok r /\ pcap_record_wf r.
Proof.
  intros Hl Hb. unfold pcap_record_cast, rd32.
  destruct (rd_le_in 4 b 0) as [v0 E0]; [lia|lia|].
  destruct (rd_le_in 4 b (0 + 4)) as [v1 E1]; [lia|lia|].
  destruct (rd_le_in 4 b (0 + 8)) as [v2 E2]; [lia|lia|].
  destruct (rd_le_in 4 b (0 + 12)) as [v3 E3]; [lia|lia|].
  rewrite E0. cbn [mbind result_bind]. rewrite E1. cbn [mbind result_bind].
  rewrite E2. cbn [mbind result_bind]. rewrite E3. cbn [mbind result_bind].
  eexists. split; [reflexivity|].
  repeat split; cbn; eapply (rd_le_range 4 b); eauto.
Qed.

(** What one call of [next] does to the position. *)
Definition next_outcome (s : PcapSource) (buffer : list Z) (r : result (Z * PcapSource * list Z)) : Prop :=
  exists ret s' buffer', r = Ok (ret, s', buffer') /\ source_wf s' /\ length buffer' = length buffer /\
    fileData s' = fileData s /\ fpos_ s <= fpos_ s' /\ -1 <= ret <= 1458 /\
    (ret <> -1 -> fpos_ s + 16 <= fpos_ s') /\
    is_pcap_end s' = (is_pcap_end s || eof s).

(** The part after the record is in memory. *)
Lemma dispatch_total s buffer :
  length (payload_ s) = 1500%nat -> length buffer = 1500%nat ->
  sizeof_Ethernet < incl_len (pcap_record_ s) <= 1500 ->
  delivers s buffer
    (ether_type ← rd16 (payload_ s) 12;
     if ether_type =? 0x0008 then next_ipv4 s buffer
     else if ether_type =? 0xdd86 then next_ipv6 s buffer
     else if ether_type =? 0x0081 then next_vlan s buffer
     else Ok (1, s, buffer)).
Proof.
  intros Hp Hb Hi. unfold rd16. destruct (rd_le_in 2 (payload_ s) 12) as [ty ->]; [lia|lia|].
  cbn [mbind result_bind].
  destruct (ty =? 0x0008); [by apply next_ipv4_total|].
  destruct (ty =? 0xdd86); [by apply next_ipv6_total|].
  destruct (ty =? 0x0081); [by apply next_vlan_total|]. by apply delivers_same; [|lia].
Qed.

Lemma source_wf_pos s p :
  source_wf s -> 0 <= p <= Z.of_nat (length (fileData s)) -> source_wf (set_fpos p s).
Proof. intros (? & ? & ? & _ & ?) Hp. done. Qed.

Lemma source_wf_payload s b :
  source_wf s -> (length b <= 1500)%nat -> byte_list b ->
  exists p, arr_blit (payload_ s) 0 b = Ok p /\ source_wf (set_payload p s).
Proof.
  intros (Hp & Hpb & Hf & Hr & Hl) Hb Hbb. rewrite arr_blit_ok by lia. eexists. split; [reflexivity|].
  unfold source_wf. cbn [payload_ set_payload fileData fpos_]. change (Z.to_nat 0) with 0%nat.
  rewrite take_0, app_nil_l, Nat.add_0_l. split; [rewrite length_app, length_drop; lia|].
  split; [|done]. apply byte_list_app. auto with sdk.
Qed.

Lemma next_total s buffer :
  source_wf s -> length buffer = 1500%nat -> next_outcome s buffer (next s buffer).
Proof.
  intros Hwf Hb. unfold next, next_outcome. pose proof Hwf as (Hp & Hpb & Hf & Hr & Hl).
  destruct (eof s) eqn:Eof.
  { exists (-1), (set_end true s), buffer. rewrite orb_true_r. split; [done|]. split; [done|].
    repeat split; cbn; lia. }
  rewrite orb_false_r, private_read_spec by (done || by unfold sizeof_PcapRecord).
  unfold sizeof_PcapRecord. case_decide as Hd; cbn [mbind result_bind].
  2: { exists (-1), s, buffer. repeat split; try done; lia. }
  set (b := take _ _). set (s1 := set_fpos (fpos_ s + 16) s).
  assert (length b = 16%nat) as Hlb by (unfold b; rewrite length_take, length_drop; lia).
  destruct (pcap_record_cast_total b Hlb) as (r & -> & Hrw); [unfold b; auto with sdk|].
  cbn [mbind result_bind]. set (s2 := set_record r s1).
  assert (source_wf s2) as Hwf2 by (apply (source_wf_pos s (fpos_ s + 16)) in Hwf; [done|lia]).
  destruct Hrw as (_ & _ & Hinc & _). unfold is_u32 in Hinc.
  destruct ((incl_len r <=? 1500) && (sizeof_Ethernet <? incl_len r)) eqn:Erange.
  - apply andb_prop in Erange as [E1%Z.leb_le E2%Z.ltb_lt].
    rewrite private_read_spec by (done || lia). case_decide as Hd2; cbn [mbind result_bind].
    2: { exists (-1), s2, buffer. repeat split; try done; cbn; lia. }
    set (b2 := take _ _). set (s3 := set_fpos _ s2).
    assert (source_wf s3) as Hwf3 by (apply source_wf_pos; [done|]; cbn in *; lia).
    destruct (source_wf_payload s3 b2 Hwf3) as (p & Ep & Hwf4).
    { unfold b2. rewrite length_take. lia. } { unfold b2. cbn. auto with sdk. }
    rewrite Ep. cbn [mbind result_bind]. set (s4 := set_payload p s3) in *.
    destruct (dispatch_total s4 buffer) as (ret & s' & buf' & Ed & Hs & Hlen & Hret);
      [apply Hwf4|done|cbn; lia|].
    rewrite Ed. exists ret, s', buf'. destruct Hs as (Hs1 & Hs2 & Hs3 & Hs4 & Hs5).
    split; [done|]. unfold source_wf. rewrite Hs1, Hs2, Hs3, Hs4.
    split; [exact Hwf4|]. cbn in *. split; [done|]. split; [done|]. repeat (split; [lia|]). done.
  - unfold private_move. rewrite u64_small by (cbn; lia).
    destruct (Z.ltb_spec (Z.of_nat (length (fileData s2))) (fpos_ s2 + incl_len r)); cbn [negb].
    + exists (-1), s2, buffer. repeat split; try done; cbn; lia.
    + exists 1, (set_fpos (fpos_ s2 + incl_len r) s2), buffer.
      split; [done|]. split; [apply source_wf_pos; [done|cbn in *; lia]|]. cbn in *.
      repeat split; try done; lia.
Qed.

(** The record at the read position, when the file holds it whole: what is left
    to do is to look at the bytes, which are in [payload_]. *)
Definition loaded (s : PcapSource) (r : PcapRecord) (body : list Z) : PcapSource :=
  set_payload (body ++ drop (length body) (payload_ s))
    (set_fpos (fpos_ s + 16 + incl_len r) (set_record r (set_fpos (fpos_ s + 16) s))).

Lemma next_reads_record s buf pre post r body :
  source_wf s -> pcap_record_wf r -> sizeof_Ethernet < incl_len r <= 1500 ->
  Z.of_nat (length body) = incl_len r ->
  fileData s = pre ++ (pcap_record_image r ++ body) ++ post -> fpos_ s = Z.of_nat (length pre) ->
  next s buf =
    (let s := loaded s r body in
     ether_type ← rd16 (payload_ s) 12;
     if ether_type =? 0x0008 then next_ipv4 s buf
     else if ether_type =? 0xdd86 then next_ipv6 s buf
     else if ether_type =? 0x0081 then next_vlan s buf
     else Ok (1, s, buf)).
Proof.
  intros Hwf Hrw Hi Hlb Hf Hpos. set (img := pcap_record_image r) in *.
  assert (length img = 16%nat) as Hli by done.
  assert (length (fileData s) = length pre + (16 + length body) + length post)%nat as Hfl.
  { rewrite Hf, !length_app, Hli. lia. }
  assert (eof s = false) as Heof by (unfold eof; apply Z.eqb_neq; lia).
  unfold next. rewrite Heof. rewrite private_read_spec by (done || by unfold sizeof_PcapRecord).
  unfold sizeof_PcapRecord. rewrite decide_True by lia. cbn [mbind result_bind].
  assert (take (Z.to_nat 16) (drop (Z.to_nat (fpos_ s)) (fileData s)) = [] ++ img ++ []) as ->.
  { rewrite Hf, Hpos, Nat2Z.id, drop_app_length, <-!app_assoc, take_app_length', app_nil_r; done. }
  rewrite (pcap_record_cast_image r [] []) by done. cbn [mbind result_bind].
  destruct (Z.leb_spec (incl_len r) 1500); [|lia].
  destruct (Z.ltb_spec sizeof_Ethernet (incl_len r)); [|lia]. cbn [andb].
  set (s2 := set_record r (set_fpos (fpos_ s + 16) s)).
  assert (source_wf s2) as Hwf2 by (apply (source_wf_pos s (fpos_ s + 16)) in Hwf; [done|lia]).
  rewrite private_read_spec by (done || lia).
  rewrite decide_True by (cbn; lia). cbn [mbind result_bind].
  assert (take (Z.to_nat (incl_len r)) (drop (Z.to_nat (fpos_ s2)) (fileData s2)) = body) as ->.
  { cbn [fpos_ set_record set_fpos fileData s2]. rewrite Hf, Hpos.
    rewrite <-!app_assoc, (app_assoc pre), drop_app_length' by (rewrite length_app; lia).
    by rewrite take_app_length' by lia. }
  pose proof Hwf as (Hp & _).
  rewrite arr_blit_ok by (cbn [payload_ s2 set_fpos set_record]; lia).
  cbn [mbind result_bind]. change (Z.to_nat 0) with 0%nat. by rewrite take_0, app_nil_l, Nat.add_0_l.
Qed.

(** ** Properties *)

(** C27: whatever bytes the capture file holds and whatever earlier records left
    in the payload array, [next] stays inside the file, the array and the
    packet buffer, never moves the position backwards or past the end, reports
    a length of at most 1458 bytes, makes progress of at least a record header
    unless it answers -1, and raises the end flag exactly at the end of the
    file. *)
Theorem pcap_next_safe s buffer :
  source_wf s -> length buffer = 1500%nat ->
  exists ret s' buffer', next s buffer = Ok (ret, s', buffer') /\ source_wf s' /\
    length buffer' = 1500%nat /\ fpos_ s <= fpos_ s' <= Z.of_nat (length (fileData s)) /\
    -1 <= ret <= 1458 /\ (ret <> -1 -> fpos_ s + 16 <= fpos_ s') /\
    is_pcap_end s' = (is_pcap_end s || (fpos_ s =? Z.of_nat (length (fileData s)))).
Proof.
  intros Hwf Hb. destruct (next_total s buffer Hwf Hb) as (ret & s' & b' & E & Hwf' & Hlb & Hf & Hp & Hr & Hpr & He).
  exists ret, s', b'. split; [done|]. split; [done|]. split; [congruence|].
  destruct Hwf' as (_ & _ & _ & Hpos & _). rewrite Hf in Hpos. repeat (split; [done || lia|]). exact He.
Qed.

(** C28: a caller that keeps receiving is told -1 after at most one call per
    sixteen bytes of the file that are left, and one more. *)
Theorem pcap_receive_terminates s buffer :
  source_wf s -> length buffer = 1500%nat ->
  exists k lens s' buffer', receive_n k s buffer = Ok (lens, s', buffer') /\
    last lens = Some (-1) /\
    16 * (Z.of_nat k - 1) <= Z.of_nat (length (fileData s)) - fpos_ s.
Proof.
  intros Hwf. remember (Z.to_nat (Z.of_nat (length (fileData s)) - fpos_ s)) as m eqn:Hm.
  revert s buffer Hwf Hm. induction m as [m IH] using lt_wf_ind. intros s buffer Hwf Hm Hb.
  destruct (next_total s buffer Hwf Hb) as (ret & s' & b' & E & Hwf' & Hlb & Hf & Hp & Hr & Hpr & He).
  destruct (decide (ret = -1)) as [->|Hret].
  - exists 1%nat, [-1], s', b'. cbn. unfold Receive. rewrite E. cbn. split; [done|].
    split; [done|]. destruct Hwf as (_ & _ & _ & ? & _). lia.
  - specialize (Hpr Hret). pose proof Hwf' as (_ & _ & _ & Hpos & _). rewrite Hf in Hpos.
    destruct (IH (Z.to_nat (Z.of_nat (length (fileData s')) - fpos_ s'))) with (s := s') (buffer := b')
      as (k & lens & s2 & b2 & E2 & Hlast & Hk); [rewrite Hf; lia|done|done|congruence|].
    exists (S k), (ret :: lens), s2, b2. cbn [receive_n]. unfold Receive at 1. rewrite E.
    cbn [mbind result_bind]. rewrite E2. cbn [mbind result_bind]. split; [done|].
    split; [by destruct lens|]. rewrite Hf in Hk. lia.
Qed.

(** A file that is cut off inside a record header is never reported as
    ended: every call answers -1 without moving and without raising the end
    flag, so a loop that waits for the flag does not stop. *)
Theorem truncated_never_ends s buffer fuel :
  source_wf s -> is_pcap_end s = false ->
  0 < Z.of_nat (length (fileData s)) - fpos_ s < 16 ->
  next s buffer = Ok (-1, s, buffer) /\ drain fuel s buffer = Err NoProgress.
Proof.
  intros Hwf He Hl. assert (next s buffer = Ok (-1, s, buffer)) as E.
  { unfold next, eof. destruct (Z.eqb_spec (fpos_ s) (Z.of_nat (length (fileData s)))); [lia|].
    rewrite private_read_spec by (done || by unfold sizeof_PcapRecord). unfold sizeof_PcapRecord.
    rewrite decide_False by lia. done. }
  split; [done|]. induction fuel as [|fuel IH]; cbn [drain]; rewrite He; [done|].
  unfold Receive. rewrite E. exact IH.
Qed.

Definition vlan_udp (ty : Z) (s : PcapSource) : Prop :=
  rd16 (payload_ s) 16 = Ok ty /\ rd8 (payload_ s) 27 = Ok 17.

(** Behind a VLAN tag an IPv4 UDP packet is delivered with its bytes, but
    the port reported for it is the low half of the destination address of the
    shifted IP header; an IPv6 UDP packet is reported with its length while the
    packet buffer keeps what it held. *)
Theorem vlan_udp_delivery s buffer :
  length (payload_ s) = 1500%nat -> length buffer = 1500%nat -> byte_list (payload_ s) ->
  66 <= incl_len (pcap_record_ s) <= 1500 ->
  (vlan_udp 0x0008 s ->
    exists s' buffer', next_vlan s buffer = Ok (incl_len (pcap_record_ s) - 46, s', buffer') /\
      take (Z.to_nat (incl_len (pcap_record_ s) - 46)) buffer' =
        take (Z.to_nat (incl_len (pcap_record_ s) - 46)) (drop 46 (payload_ s)) /\
      rd16 (payload_ s) 36 = Ok (distination_port (pcap_udp_header_ s'))) /\
  (vlan_udp 0xdd86 s ->
    exists s', next_vlan s buffer = Ok (incl_len (pcap_record_ s) - 66, s', buffer)).
Proof.
  intros Hp Hb Hbl Hi. unfold vlan_udp, next_vlan, sizeof_PcapUDPv6Header, sizeof_PcapIPv6Header,
    sizeof_PcapUDPHeader, sizeof_PcapIPHeader, sizeof_Ethernet.
  change (14 + 2) with 16. change (14 + 13) with 27.
  split; intros [-> ->]; cbn [mbind result_bind].
  - rewrite Z.eqb_refl, Z.eqb_refl.
    unfold load_udp. destruct (udp_cast (payload_ s) 34) as [u|f] eqn:Eu.
    2: { destruct (udp_cast_ok (payload_ s) 34) as [u Hu]; [lia|lia|]. congruence. }
    cbn [mbind result_bind pcap_record_ set_udp].
    destruct (Z.ltb_spec (incl_len (pcap_record_ s)) (42 + 4)); [lia|].
    destruct (copy_payload_ok (42 + 4) (set_udp u s) buffer) as (b & -> & _ & Ec); cbn; [lia|lia|lia|].
    eexists _, b. split; [do 3 f_equal; lia|]. split; [exact Ec|].
    unfold udp_cast in Eu. destruct (rd16 (payload_ s) 34); [|done]. cbn [mbind result_bind] in Eu.
    change (34 + 2) with 36 in Eu. destruct (rd16 (payload_ s) 36); [|done].
    cbn [mbind result_bind] in Eu. inv_ok. done.
  - rewrite Z.eqb_refl. change (0xdd86 =? 0x0008) with false. cbn [mbind result_bind].
    change (17 =? 17) with true. cbn match.
    destruct (Z.ltb_spec (incl_len (pcap_record_ s)) (62 + 4)); [lia|].
    destruct (load_udp_ok 54 s) as [u ->]; [lia|lia|]. cbn [mbind result_bind].
    eexists. cbn [pcap_record_ set_udp]. do 3 f_equal. lia.
Qed.

(** ** Witnesses *)

(** A source in the middle of [f]. *)
Definition demo_source (f : list Z) : PcapSource :=
  set_file f true (PcapSource_new (mk_pcap_header 0 0 0 0 0 0 0) (mk_pcap_record 0 0 0 0) []
    (replicate 1500 0) "demo.pcap" 0).

Lemma demo_source_wf f :
  byte_list f -> Z.of_nat (length f) < 2 ^ 63 -> source_wf (demo_source f).
Proof.
  intros Hf Hl. unfold source_wf, demo_source. cbn [payload_ set_file fileData fpos_ PcapSource_new].
  rewrite length_replicate. split; [done|]. split; [|split; [done|split; [lia|done]]].
  apply Forall_replicate. unfold is_u8. lia.
Qed.

Definition demo_buffer : list Z := replicate 1500 7.

(** An IPv4 UDP record of 45 bytes: three of payload. *)
Definition demo_file : list Z :=
  pcap_record_image (mk_pcap_record 1 2 45 45) ++ PcapUDPHeader_image 3 2368 ++ [10; 20; 30].

Lemma demo_file_bytes : byte_list demo_file.
Proof.
  unfold demo_file. rewrite !byte_list_app. split; [|split; [apply PcapUDPHeader_bytes|]].
  - unfold pcap_record_image. rewrite !byte_list_app. auto using le_bytes_byte_list.
  - repeat constructor; unfold is_u8; lia.
Qed.

Lemma pcap_next_safe_witness :
  exists ret s' buffer', next (demo_source demo_file) demo_buffer = Ok (ret, s', buffer') /\ source_wf s' /\
    length buffer' = 1500%nat /\ 0 <= fpos_ s' <= 61 /\
    -1 <= ret <= 1458 /\ (ret <> -1 -> 16 <= fpos_ s') /\ is_pcap_end s' = false.
Proof.
  apply (pcap_next_safe (demo_source demo_file) demo_buffer); [|done].
  apply demo_source_wf; [apply demo_file_bytes|done].
Defined.

Lemma pcap_receive_terminates_witness :
  exists k lens s' buffer', receive_n k (demo_source demo_file) demo_buffer = Ok (lens, s', buffer') /\
    last lens = Some (-1) /\ 16 * (Z.of_nat k - 1) <= 61.
Proof.
  apply (pcap_receive_terminates (demo_source demo_file) demo_buffer); [|done].
  apply demo_source_wf; [apply demo_file_bytes|done].
Defined.

Lemma truncated_never_ends_witness :
  next (demo_source [1; 2; 3]) demo_buffer = Ok (-1, demo_source [1; 2; 3], demo_buffer) /\
  drain 100 (demo_source [1; 2; 3]) demo_buffer = Err NoProgress.
Proof.
  apply (truncated_never_ends (demo_source [1; 2; 3]) demo_buffer 100); [|done|cbn; lia].
  apply demo_source_wf; [repeat constructor; unfold is_u8; lia|done].
Defined.

(** A VLAN frame: the inner type [ty] at 16 and protocol 17 at 27. *)
Definition vlan_source (ty : list Z) : PcapSource :=
  set_record (mk_pcap_record 0 0 70 70)
    (set_payload (replicate 12 0 ++ [0x81; 0x00; 0; 1] ++ ty ++ replicate 9 0 ++ [17] ++ replicate 1472 5)
      (demo_source [])).

Lemma vlan_udp_delivery_witness :
  (exists s' buffer', next_vlan (vlan_source [0x08; 0x00]) demo_buffer = Ok (24, s', buffer') /\
     take 24 buffer' = replicate 24 5 /\
     rd16 (payload_ (vlan_source [0x08; 0x00])) 36 = Ok (distination_port (pcap_udp_header_ s'))) /\
  (exists s', next_vlan (vlan_source [0x86; 0xdd]) demo_buffer = Ok (4, s', demo_buffer)).
Proof.
  assert (forall a b, is_u8 a -> is_u8 b -> byte_list (payload_ (vlan_source [a; b]))) as Hb.
  { intros a b Ha Hb. unfold vlan_source. cbn [payload_ set_record set_payload].
    rewrite !byte_list_app, !byte_list_cons. unfold is_u8 in *.
    repeat split; try lia; try apply Forall_replicate; try constructor; unfold is_u8; lia. }
  split.
  - destruct (vlan_udp_delivery (vlan_source [0x08; 0x00]) demo_buffer) as [H4 _];
      [done|done|apply Hb; unfold is_u8; lia|cbn; lia|].
    apply H4. split; [vm_compute|]; done.
  - destruct (vlan_udp_delivery (vlan_source [0x86; 0xdd]) demo_buffer) as [_ H6];
      [done|done|apply Hb; unfold is_u8; lia|cbn; lia|].
    apply H6. split; [vm_compute|]; done.
Defined.
