(* ===== verification/Floats.v ===== *)
(** * Floats: the floating-point operations of the decoders

    [float] and [double] values as [spec_float] of the binary32 and binary64
    formats, every operation rounding to nearest even, with no contraction and
    no excess precision.  The functions of libm ([sin], [atan], ...) are
    arguments of the definitions that call them. *)

From Stdlib Require Import SpecFloat.
From S2P Require Import Prelude.
Local Open Scope Z_scope.

Definition f32 : Type := spec_float.
Definition f64 : Type := spec_float.

Definition mul32 : f32 -> f32 -> f32 := SFmul 24 128.
Definition add32 : f32 -> f32 -> f32 := SFadd 24 128.
Definition sub32 : f32 -> f32 -> f32 := SFsub 24 128.
Definition div32 : f32 -> f32 -> f32 := SFdiv 24 128.
Definition sqrt32 : f32 -> f32 := SFsqrt 24 128.
Definition mul64 : f64 -> f64 -> f64 := SFmul 53 1024.
Definition add64 : f64 -> f64 -> f64 := SFadd 53 1024.
Definition div64 : f64 -> f64 -> f64 := SFdiv 53 1024.
Definition sub64 : f64 -> f64 -> f64 := SFsub 53 1024.
Definition sqrt64 : f64 -> f64 := SFsqrt 53 1024.

Definition of_Z32 (z : Z) : f32 := binary_normalize 24 128 z 0 false.
Definition of_Z64 (z : Z) : f64 := binary_normalize 53 1024 z 0 false.

(** Conversion to [float]; the conversion to [double] is the identity. *)
Definition to32 (x : f64) : f32 :=
  match x with
  | S754_finite s m e => binary_normalize 24 128 (if s then Zneg m else Zpos m) e s
  | x => x
  end.

(** A decimal literal [m / 10 ^ k] of type [double], and of type [float]. *)
Definition lit64 (m : Z) (k : nat) : f64 :=
  match m with
  | Z0 => S754_zero false
  | Zpos p => SFdiv 53 1024 (S754_finite false p 0) (S754_finite false (Z.to_pos (10 ^ Z.of_nat k)) 0)
  | Zneg p => SFdiv 53 1024 (S754_finite true p 0) (S754_finite false (Z.to_pos (10 ^ Z.of_nat k)) 0)
  end.
Definition lit32 (m : Z) (k : nat) : f32 :=
  match m with
  | Z0 => S754_zero false
  | Zpos p => SFdiv 24 128 (S754_finite false p 0) (S754_finite false (Z.to_pos (10 ^ Z.of_nat k)) 0)
  | Zneg p => SFdiv 24 128 (S754_finite true p 0) (S754_finite false (Z.to_pos (10 ^ Z.of_nat k)) 0)
  end.

(** Truncation towards zero. *)
Definition trunc (x : spec_float) : option Z :=
  match x with
  | S754_zero _ => Some 0
  | S754_finite s m e =>
      let q := if 0 <=? e then Z.shiftl (Zpos m) e else Z.shiftr (Zpos m) (- e) in
      Some (if s then - q else q)
  | _ => None
  end.

(** Conversion to a type of range [lo, hi]. *)
Definition f_to_int (lo hi : Z) (x : spec_float) : result Z :=
  match trunc x with
  | Some q => if (lo <=? q) && (q <=? hi) then Ok q else Err BadConversion
  | None => Err BadConversion
  end.
Definition to_int : spec_float -> result Z := f_to_int (- 2 ^ 31) (2 ^ 31 - 1).
Definition to_u16 : spec_float -> result Z := f_to_int 0 (2 ^ 16 - 1).

(** [int(std::floor(x))]: the largest integer that is not above [x]. *)
Definition floor_to_int (x : spec_float) : result Z :=
  match x with
  | S754_zero _ => Ok 0
  | S754_finite s m e =>
      let z := if s then - Zpos m else Zpos m in
      let q := if 0 <=? e then Z.shiftl z e else Z.shiftr z (- e) in
      if (- 2 ^ 31 <=? q) && (q <? 2 ^ 31) then Ok q else Err BadConversion
  | _ => Err BadConversion
  end.

(** [round(x)]: to the nearest integer, halves away from zero, as a [float]. *)
Definition round32 (x : f32) : f32 :=
  match x with
  | S754_finite s m e =>
      if 0 <=? e then x
      else
        let q := Z.shiftr (Zpos m + Z.shiftl 1 (- e - 1)) (- e) in
        if q =? 0 then S754_zero s else of_Z32 (if s then - q else q)
  | x => x
  end.

Lemma f_to_int_range lo hi x z : f_to_int lo hi x = Ok z -> lo <= z <= hi.
Proof.
  unfold f_to_int. destruct (trunc x) as [q|]; [|done].
  destruct (Z.leb_spec lo q), (Z.leb_spec q hi); cbn; intros; inv_ok; lia.
Qed.

(** ** The sign of a converted integer *)

Lemma shr_1_nonneg r : 0 <= shr_m r -> 0 <= shr_m (shr_1 r).
Proof. destruct r as [[|[]|[]] b s]; cbn; lia. Qed.

Lemma iter_pos_ind {A} (f : A -> A) (Q : A -> Prop) : (forall x, Q x -> Q (f x)) ->
  forall n x, Q x -> Q (SpecFloat.iter_pos f n x).
Proof. intros Hf n. induction n as [n IH|n IH|]; cbn [SpecFloat.iter_pos]; auto. Qed.

Lemma shr_fexp_nonneg prec emax m e l : 0 <= m -> 0 <= shr_m (fst (shr_fexp prec emax m e l)).
Proof.
  intros Hm. unfold shr_fexp, shr. destruct (fexp _ _ _ - e); cbn [fst];
    try (apply iter_pos_ind; [exact shr_1_nonneg|]); destruct l as [|[]]; done.
Qed.

(** A non-negative integer converts to a value that is not below zero. *)
Lemma of_Z32_nonneg z : 0 <= z -> SFleb (S754_zero false) (of_Z32 z) = true.
Proof.
  intros Hz. unfold of_Z32, binary_normalize. destruct z as [|m|m]; [done| |lia].
  unfold binary_round. destruct (shl_align _ _ _) as [mz ez]. unfold binary_round_aux.
  pose proof (shr_fexp_nonneg 24 128 (Zpos mz) ez loc_Exact ltac:(lia)) as H1.
  destruct (shr_fexp 24 128 (Zpos mz) ez loc_Exact) as [r e]. cbn [fst] in H1.
  assert (0 <= round_nearest_even (shr_m r) (loc_of_shr_record r)) as H2.
  { unfold round_nearest_even. destruct (loc_of_shr_record r) as [|[]]; try destruct (Z.even _); lia. }
  pose proof (shr_fexp_nonneg 24 128 _ e loc_Exact H2) as H3.
  destruct (shr_fexp _ _ _ e loc_Exact) as [r' e']. cbn [fst] in H3.
  destruct (shr_m r'); [done| |lia]. by destruct (_ <=? _).
Qed.
