(* ===== verification/Ticks.v ===== *)
(** * Ticks: clocks, stop watches and the platform helpers

    src/plat_utils.cc (the clocks, [GetAnglesFromFile], [GetCurrentTimeStamp],
    [GetAvailableCPUNum]) and the stop watches of src/auto_tick_count.cc.  The
    answers of the system (a [timespec], the local time, the processors) and
    the contents of a file are arguments. *)

From S2P Require Import Prelude Text Logger Floats.
From Stdlib Require Import Ascii.
Local Open Scope Z_scope.

Module Ticks.

(** ** Clocks *)

(** What [clock_gettime] or [gettimeofday] answers: seconds and a fraction, or a
    failure, which leaves the result zero.  [tv_sec] and [tv_nsec] are 64-bit. *)
Definition timespec : Type := option (Z * Z).

Definition GetTickCount (time : timespec) : Z :=
  match time with Some (tv_sec, tv_nsec) => u32 (tv_nsec / 1000000 + tv_sec * 1000) | None => 0 end.

Definition GetMicroTickCount (time : timespec) : Z :=
  match time with Some (tv_sec, tv_nsec) => u32 (tv_nsec / 1000 + tv_sec * 1000000) | None => 0 end.

Definition GetMicroTickCountU64 (time : timespec) : Z :=
  match time with Some (tv_sec, tv_nsec) => u64 (tv_nsec / 1000 + tv_sec * 1000000) | None => 0 end.

Definition GetMicroTimeU64 (time : timespec) : Z :=
  match time with Some (tv_sec, tv_usec) => u64 (tv_usec + tv_sec * 1000000) | None => 0 end.

(** sysconf(_SC_NPROCESSORS_ONLN) as an [int]. *)
Definition GetAvailableCPUNum (processors : Z) : Z := i32 processors.

(** ** The time stamp *)

Definition ISO_8601_FORMAT : Z := 1.

(** [strftime] with ["%FT%T%z"]: [off] is the offset from UTC in minutes. *)
Definition strftime_iso (t : Logger.tm) (off : Z) : string :=
  Logger.fmt_0d 4 (Logger.tm_year t + 1900) +:+ "-" +:+ Logger.fmt_0d 2 (Logger.tm_mon t + 1) +:+ "-"
  +:+ Logger.fmt_0d 2 (Logger.tm_mday t) +:+ "T" +:+ Logger.fmt_0d 2 (Logger.tm_hour t) +:+ ":"
  +:+ Logger.fmt_0d 2 (Logger.tm_min t) +:+ ":" +:+ Logger.fmt_0d 2 (Logger.tm_sec t)
  +:+ (if off <? 0 then "-" else "+") +:+ Logger.fmt_0d 2 (Z.abs off / 60) +:+ Logger.fmt_0d 2 (Z.abs off mod 60).

(** [std::string::insert] throws behind the end. *)
Definition string_insert (pos : Z) (s what : string) : result string :=
  if (0 <=? pos) && (pos <=? Z.of_nat (String.length s)) then
    Ok (String.substring 0 (Z.to_nat pos) s +:+ what
        +:+ String.substring (Z.to_nat pos) (String.length s - Z.to_nat pos) s)
  else Err Thrown.

(** The answer and [sTime]; [length() - 2] is a [size_t]. *)
Definition GetCurrentTimeStamp (sTime : string) (nFormat : Z) (t : Logger.tm) (off : Z) : result (Z * string) :=
  if ISO_8601_FORMAT =? nFormat then
    let s := strftime_iso t off in
    s ← string_insert (u64 (Z.of_nat (String.length s) - 2)) s ":";
    Ok (0, s)
  else Ok (-1, sTime).

(** ** The angle file *)

(** [fgets(buf, n + 1, f)]: at most [n] characters, up to a line end; whether it
    met the end of the file, and nothing when there was nothing to read. *)
Fixpoint fgets_chars (n : nat) (s : string) : string * string * bool :=
  match n with
  | O => (EmptyString, s, false)
  | S n =>
      match s with
      | EmptyString => (EmptyString, EmptyString, true)
      | String c s =>
          if ascii_eqb c newline then (String c EmptyString, s, false)
          else let '(l, r, eof) := fgets_chars n s in (String c l, r, eof)
      end
  end.

Definition fgets (n : nat) (s : string) : option (string * string * bool) :=
  match s with EmptyString => None | _ => Some (fgets_chars n s) end.

(** The conversions of [sscanf]: a value and what is behind it.  The decimal forms
    of a [float] only. *)
Definition scan_int (s : string) : option (Z * string) :=
  let '(neg, s) := take_sign (skip_space s) in
  let '(v, n, s) := take_digits 0 0 s in
  if Nat.eqb n 0 then None else Some (if neg : bool then - v else v, s).

Definition scan_float (s : string) : option (float32 * string) :=
  let '(neg, s) := take_sign (skip_space s) in
  let '(ip, n1, s) := take_digits 0 0 s in
  let '(m, n2, s) :=
    match s with
    | String c s' => if ascii_eqb c dot then take_digits ip 0 s' else (ip, 0%nat, s)
    | EmptyString => (ip, 0%nat, s)
    end in
  if Nat.eqb (n1 + n2) 0 then None
  else
    match s with
    | String c s' =>
        if ascii_eqb c "e"%char || ascii_eqb c "E"%char then
          let '(eneg, s') := take_sign s' in
          let '(e, n3, s') := take_digits 0 0 s' in
          if Nat.eqb n3 0 then None
          else Some (decimal_to_float32 neg m ((if eneg : bool then - e else e) - Z.of_nat n2), s')
        else Some (decimal_to_float32 neg m (- Z.of_nat n2), s)
    | EmptyString => Some (decimal_to_float32 neg m (- Z.of_nat n2), s)
    end.

Definition scan_char (d : ascii) (s : string) : option string :=
  match s with String c s => if ascii_eqb c d then Some s else None | EmptyString => None end.

(** sscanf(sContent, "%d,%f,%f", ...) into variables without a value, all three of
    which are read afterwards. *)
Definition scan_angles (s : string) : result (Z * (float32 * float32)) :=
  of_option Uninitialised (
    '(i, s) ← scan_int s; s ← scan_char comma s;
    '(p, s) ← scan_float s; s ← scan_char comma s;
    '(a, _) ← scan_float s; Some (i, (p, a))).

Definition angle_map : Type := gmap Z (float32 * float32).

(** [std::map::insert] keeps what is there. *)
Definition map_insert (k : Z) (v : float32 * float32) (m : angle_map) : angle_map :=
  match m !! k with Some _ => m | None => <[k := v]> m end.

(** while (!feof(pFile)): each turn that goes on reads something, so the length of
    the file is enough fuel. *)
Fixpoint angle_lines (fuel : nat) (s : string) (eof : bool) (m : angle_map) : result (Z * angle_map) :=
  if eof then Ok (0, m)
  else
    match fuel with
    | O => Err NoProgress
    | S fuel =>
        match fgets 254 s with
        | None => Ok (1, m)
        | Some (line, s, eof) =>
            if (String.length line <? 5)%nat then Ok (0, m)
            else
              '(i, pa) ← scan_angles line;
              i ← int_ok i;
              angle_lines fuel s eof (map_insert i pa m)
        end
    end.

Definition GetAnglesFromFile (fs : string -> option string) (sFile : string) (m : angle_map)
  : result (Z * angle_map) :=
  match fs sFile with
  | None => Ok (1, m)
  | Some content =>
      match fgets 254 content with
      | None => Ok (1, m)
      | Some (_, s, eof) => angle_lines (S (String.length s)) s eof m
      end
  end.

(** ** Stop watches *)

Definition kMicroToSec : Z := 1000000.
Definition kClockUnit : Z := 60.

Record TickCount : Type := mk_ticks {
  m_u64StartTime : Z;
  m_u64EndTime : Z;
  m_timeSlice : gmap string (list Z);
  m_startTime : gmap string Z;
  m_sName : string;
}.

(** [now] is what [GetMicroTickCountU64] answers. *)
Definition TickCount_new (now : Z) : TickCount := mk_ticks now now ∅ ∅ EmptyString.

Definition set_times (b e : Z) (t : TickCount) : TickCount :=
  mk_ticks b e (m_timeSlice t) (m_startTime t) (m_sName t).

Definition Start (now : Z) (t : TickCount) : Z * TickCount := (0, set_times now now t).
Definition Pause (now : Z) (t : TickCount) : Z * TickCount := (0, set_times (m_u64StartTime t) now t).
Definition SetName (sName : string) (t : TickCount) : Z * TickCount :=
  (0, mk_ticks (m_u64StartTime t) (m_u64EndTime t) (m_timeSlice t) (m_startTime t) sName).

(** std::to_string of an unsigned number: at most 20 digits. *)
Definition to_string (z : Z) : string := Logger.digits_of 10 20 z EmptyString.

(** The cost and its text. *)
Definition GetTimeCost (t : TickCount) : Z * string :=
  let u64TimeCost := u64 (m_u64EndTime t - m_u64StartTime t) in
  let u32Sec := u32 (u64TimeCost / kMicroToSec) in
  let u32Min := u32Sec / kClockUnit in
  let u32Hour := u32Min / kClockUnit in
  (u64TimeCost,
   to_string u32Hour +:+ "h " +:+ to_string (u32Min mod kClockUnit) +:+ "m "
   +:+ to_string (u32Sec mod kClockUnit) +:+ "s " +:+ to_string (u64TimeCost mod kMicroToSec) +:+ "us").

Definition AppentTimeSlice (sKey : string) (u64Time : Z) (t : TickCount) : Z * TickCount :=
  (0, mk_ticks (m_u64StartTime t) (m_u64EndTime t)
        (<[sKey := default [] (m_timeSlice t !! sKey) ++ [u64Time]]> (m_timeSlice t))
        (m_startTime t) (m_sName t)).

(** GetTimeSlice(sKey, nTime) *)
Definition GetTimeSlice (sKey : string) (nTime : Z) (t : TickCount) : result Z :=
  match m_timeSlice t !! sKey with
  | None | Some [] => Ok 0
  | Some l =>
      let nCount := i32 (Z.of_nat (length l)) in
      nTime ← (if nTime <? 0 then int_ok (nCount + nTime) else Ok nTime);
      if nTime <=? 0 then of_option Thrown (l !! 0%nat)
      else if nCount <=? nTime then of_option Thrown (l !! Z.to_nat (nCount - 1))
      else of_option Thrown (l !! Z.to_nat nTime)
  end.

Definition Begin (now : Z) (sKey : string) (t : TickCount) : Z * TickCount :=
  match m_startTime t !! sKey with
  | None => (0, mk_ticks (m_u64StartTime t) (m_u64EndTime t) (m_timeSlice t)
                  (<[sKey := now]> (m_startTime t)) (m_sName t))
  | Some _ => (-1, t)
  end.

Definition End_ (now : Z) (sKey : string) (t : TickCount) : Z * TickCount :=
  match m_startTime t !! sKey with
  | None => (-1, t)
  | Some begun =>
      let t := mk_ticks (m_u64StartTime t) (m_u64EndTime t) (m_timeSlice t)
                 (delete sKey (m_startTime t)) (m_sName t) in
      (0, (AppentTimeSlice sKey (u64 (now - begun)) t).2)
  end.

(** What [ShowTimeSlice] writes: texts, and times in seconds as [double]s. *)
Inductive shown : Type :=
| Text (s : string)
| Seconds (x : f64).

Definition seconds (v : Z) : f64 := div64 (of_Z64 v) (of_Z64 kMicroToSec).

(** One key with its slices, in the order of the map. *)
Definition show_key (kv : string * list Z) : list shown :=
  Text kv.1 :: map (fun v => Seconds (seconds v)) kv.2.

(** [keys] lists the map in the order of its keys; both files that could be opened
    get the same text. *)
Definition ShowTimeSlice (now : Z) (bSaveSysTime : bool) (systime : string)
    (keys : list (string * list Z)) (t : TickCount) : list shown * TickCount :=
  let t' := set_times (m_u64StartTime t) now t in
  ((if bSaveSysTime then [Text ("recording time: " +:+ systime +:+ "-------------")] else [])
   ++ [Text ("object " +:+ m_sName t)] ++ concat (map show_key keys)
   ++ [Text ("total cost:" +:+ (GetTimeCost t').2)], t').

(** [~TickCount]: the text on the console, and what is left of the object. *)
Definition TickCount_delete (now : Z) (t : TickCount) : string * TickCount :=
  let t := set_times (m_u64StartTime t) now t in
  ("cost" +:+ (GetTimeCost t).2, mk_ticks (m_u64StartTime t) (m_u64EndTime t) ∅ (m_startTime t) (m_sName t)).

(** A stop watch for a scope, which reports to a [TickCount]. *)
Record AutoTickCount : Type := mk_auto {
  a_u64StartTime : Z;
  a_u64EndTime : Z;
  m_sKey : string;
  m_bShow : bool;
}.

Definition AutoTickCount_new (now : Z) (sKey : string) (bShow : bool) : AutoTickCount :=
  mk_auto now now sKey bShow.

Definition AutoTickCount_delete (now : Z) (a : AutoTickCount) (t : TickCount) : TickCount :=
  if (0 <? String.length (m_sKey a))%nat
  then (AppentTimeSlice (m_sKey a) (u64 (now - a_u64StartTime a)) t).2 else t.

(** ** What is promised *)

(** Calls that touch the named watches. *)
Inductive watch_op : Type :=
| OBegin (now : Z) (k : string)
| OEnd (now : Z) (k : string)
| OAppend (k : string) (time : Z)
| OStart (now : Z)
| OPause (now : Z).

Definition watch_step (t : TickCount) (o : watch_op) : TickCount :=
  match o with
  | OBegin now k => (Begin now k t).2
  | OEnd now k => (End_ now k t).2
  | OAppend k time => (AppentTimeSlice k time t).2
  | OStart now => (Start now t).2
  | OPause now => (Pause now t).2
  end.

(** One watch alone: when it was begun, if it runs, and the times it took. *)
Definition one_watch (k : string) (w : option Z * list Z) (o : watch_op) : option Z * list Z :=
  match o with
  | OBegin now k' => if decide (k' = k) then (Some (default now w.1), w.2) else w
  | OEnd now k' =>
      if decide (k' = k) then
        match w.1 with Some b => (None, w.2 ++ [u64 (now - b)]) | None => w end
      else w
  | OAppend k' time => if decide (k' = k) then (w.1, w.2 ++ [time]) else w
  | OStart _ | OPause _ => w
  end.

(** The microseconds of a clock. *)
Definition micros (sec nsec : Z) : Z := nsec / 1000 + sec * 1000000.

(** ** Lemmas *)

Lemma u32_sub a b : u32 (u32 a - u32 b) = u32 (a - b).
Proof. unfold u32. by rewrite <-Zminus_mod. Qed.

Lemma substring_app_l (a b : string) : String.substring 0 (String.length a) (a +:+ b) = a.
Proof.
  induction a as [|c a IH]; [by destruct b|]. rewrite string_app_cons. cbn. by f_equal.
Qed.

Lemma substring_all (s : string) : String.substring 0 (String.length s) s = s.
Proof. induction s as [|c s IH]; [done|]. cbn. by f_equal. Qed.

Lemma substring_app_r (a b : string) :
  String.substring (String.length a) (String.length b) (a +:+ b) = b.
Proof.
  induction a as [|c a IH]; [rewrite string_app_nil_l; apply substring_all|].
  rewrite string_app_cons. cbn. apply IH.
Qed.

Lemma string_insert_app a b what :
  string_insert (Z.of_nat (String.length a)) (a +:+ b) what = Ok (a +:+ what +:+ b).
Proof.
  unfold string_insert. rewrite Logger.str_length_app, Nat2Z.id.
  destruct (Z.leb_spec 0 (Z.of_nat (String.length a))); [|lia].
  destruct (Z.leb_spec (Z.of_nat (String.length a)) (Z.of_nat (String.length a + String.length b))); [|lia].
  cbn [andb]. rewrite substring_app_l. replace (_ + _ - _)%nat with (String.length b) by lia.
  by rewrite substring_app_r.
Qed.

Lemma to_string_value z : 0 <= z < 10 ^ 20 -> Logger.value_from 10 0 (to_string z) = z.
Proof. intros Hz. unfold to_string. by rewrite Logger.digits_of_value by (cbn; lia). Qed.

(** A line that is short enough is read whole. *)
Lemma fgets_line n : forall line rest,
  free_of newline line = true -> (String.length line < n)%nat ->
  fgets_chars n (line +:+ String newline rest) = (line +:+ String newline EmptyString, rest, false).
Proof.
  induction n as [|n IH]; intros line rest Hf Hl; [lia|].
  destruct line as [|c line]; [done|]. cbn [free_of String.length] in Hf, Hl.
  apply andb_prop in Hf as [Hc%negb_true_iff Hf]. rewrite !string_app_cons. cbn [fgets_chars].
  rewrite Hc, (IH line rest Hf) by lia. done.
Qed.

Lemma fgets_last n : forall line,
  free_of newline line = true -> (String.length line < n)%nat ->
  fgets_chars n line = (line, EmptyString, true).
Proof.
  induction n as [|n IH]; intros line Hf Hl; [lia|].
  destruct line as [|c line]; [done|]. cbn [free_of String.length] in Hf, Hl.
  apply andb_prop in Hf as [Hc%negb_true_iff Hf]. cbn [fgets_chars]. by rewrite Hc, IH by (done || lia).
Qed.

Lemma fgets_some n s : s <> EmptyString -> fgets n s = Some (fgets_chars n s).
Proof. by destruct s. Qed.

(** A line of the angle file, with what it says. *)
Definition angle_line (line : string) (row : Z * (float32 * float32)) : Prop :=
  free_of newline line = true /\ (5 <= String.length line < 254)%nat /\
  - 2 ^ 31 <= row.1 < 2 ^ 31 /\
  scan_angles line = Ok row /\ scan_angles (line +:+ String newline EmptyString) = Ok row.

Definition with_newlines (lines : list string) : string :=
  foldr (fun l s => l +:+ String newline s) EmptyString lines.

Definition insert_rows (rows : list (Z * (float32 * float32))) (m : angle_map) : angle_map :=
  fold_left (fun m row => map_insert row.1 row.2 m) rows m.

Lemma int_ok_in z : - 2 ^ 31 <= z < 2 ^ 31 -> int_ok z = Ok z.
Proof. intros Hz. unfold int_ok. destruct (Z.leb_spec (- 2 ^ 31) z), (Z.ltb_spec z (2 ^ 31)); done || lia. Qed.

Lemma angle_line_turn fuel line row rest m :
  angle_line line row ->
  angle_lines (S fuel) (line +:+ String newline rest) false m
  = angle_lines fuel rest false (map_insert row.1 row.2 m).
Proof.
  intros (Hf & Hl & Hi & _ & Hs). cbn [angle_lines].
  rewrite fgets_some by (destruct line; [cbn in Hl; lia|done]).
  rewrite fgets_line by (done || lia).
  destruct (Nat.ltb_spec (String.length (line +:+ String newline EmptyString)) 5) as [Hlt|_].
  { rewrite Logger.str_length_app in Hlt. cbn in Hlt. lia. }
  rewrite Hs. destruct row as [i pa]. cbn [mbind result_bind]. cbn [fst] in Hi. by rewrite int_ok_in.
Qed.

Lemma with_newlines_length lines : (length lines <= String.length (with_newlines lines))%nat.
Proof.
  induction lines as [|l lines IH]; [done|].
  change (with_newlines (l :: lines)) with (l +:+ String newline (with_newlines lines)).
  rewrite Logger.str_length_app. cbn. lia.
Qed.

Lemma angle_lines_rows lines rows : Forall2 angle_line lines rows -> forall fuel rest m,
  angle_lines (length lines + fuel) (with_newlines lines +:+ rest) false m
  = angle_lines fuel rest false (insert_rows rows m).
Proof.
  induction 1 as [|line row lines rows Hr _ IH]; intros fuel rest m; [done|].
  change (with_newlines (line :: lines)) with (line +:+ String newline (with_newlines lines)).
  rewrite string_app_assoc, string_app_cons. cbn [length Nat.add insert_rows fold_left].
  rewrite (angle_line_turn _ line row) by done. apply IH.
Qed.

Lemma watch_step_one k t o :
  (forall l, m_timeSlice t !! k = Some l -> l <> []) ->
  m_startTime (watch_step t o) !! k = (one_watch k (m_startTime t !! k, default [] (m_timeSlice t !! k)) o).1 /\
  default [] (m_timeSlice (watch_step t o) !! k)
  = (one_watch k (m_startTime t !! k, default [] (m_timeSlice t !! k)) o).2 /\
  (forall l, m_timeSlice (watch_step t o) !! k = Some l -> l <> []).
Proof.
  intros Hne.
  assert (forall k' x, default [] (<[k' := default [] (m_timeSlice t !! k') ++ [x]]> (m_timeSlice t) !! k)
    = (if decide (k' = k) then default [] (m_timeSlice t !! k) ++ [x] else default [] (m_timeSlice t !! k))
    /\ forall l, <[k' := default [] (m_timeSlice t !! k') ++ [x]]> (m_timeSlice t) !! k = Some l -> l <> []) as Hins.
  { intros k' x. case_decide as E; subst.
    - rewrite lookup_insert_eq. split; [done|]. intros l [= <-]. by destruct (default [] _).
    - rewrite lookup_insert_ne by done. auto. }
  destruct o as [now k'|now k'|k' time|now|now]; cbn.
  - unfold Begin. destruct (m_startTime t !! k') as [b|] eqn:Eb; cbn; case_decide as E; subst; cbn;
      rewrite ?Eb; auto; [by rewrite lookup_insert_eq|by rewrite lookup_insert_ne].
  - unfold End_. destruct (m_startTime t !! k') as [b|] eqn:Eb; cbn; case_decide as E; subst; cbn;
      rewrite ?Eb; auto.
    + destruct (Hins k (u64 (now - b))) as [H1 H2]. rewrite decide_True in H1 by done.
      by rewrite lookup_delete_eq.
    + destruct (Hins k' (u64 (now - b))) as [H1 H2]. rewrite decide_False in H1 by done.
      by rewrite lookup_delete_ne.
  - destruct (Hins k' time) as [H1 H2]. rewrite H1. split; [|split; [|done]]; by case_decide.
  - auto.
  - auto.
Qed.

Lemma watch_run_one k ops : forall t,
  (forall l, m_timeSlice t !! k = Some l -> l <> []) ->
  let t' := fold_left watch_step ops t in
  (m_startTime t' !! k, default [] (m_timeSlice t' !! k))
  = fold_left (one_watch k) ops (m_startTime t !! k, default [] (m_timeSlice t !! k))
  /\ (forall l, m_timeSlice t' !! k = Some l -> l <> []).
Proof.
  induction ops as [|o ops IH]; intros t Hne; cbn; [done|].
  destruct (watch_step_one k t o Hne) as (H1 & H2 & H3).
  destruct (IH (watch_step t o) H3) as [E Hn]. split; [|done]. rewrite E, H1, H2. by destruct (one_watch k _ o).
Qed.

(** ** Properties *)

(** The difference of two 32-bit microsecond counts, as the callers take it, is
    the time between them whenever that is below 2^32 microseconds (71 minutes),
    also when the count has wrapped around in between. *)
Theorem tick_difference s1 n1 s2 n2 :
  0 <= micros s2 n2 - micros s1 n1 < 2 ^ 32 ->
  u32 (GetMicroTickCount (Some (s2, n2)) - GetMicroTickCount (Some (s1, n1))) = micros s2 n2 - micros s1 n1.
Proof.
  intros H. cbn. rewrite u32_sub. unfold micros in *. unfold u32. by rewrite Z.mod_small.
Qed.

(** The text of a cost says the cost: hours, minutes, seconds and microseconds in
    their ranges, as long as the seconds fit 32 bits (136 years). *)
Theorem time_cost_text t :
  (GetTimeCost t).1 < 2 ^ 32 * kMicroToSec ->
  exists h m s us,
    (GetTimeCost t).2 = to_string h +:+ "h " +:+ to_string m +:+ "m " +:+ to_string s +:+ "s " +:+ to_string us +:+ "us" /\
    (GetTimeCost t).1 = ((h * 60 + m) * 60 + s) * 1000000 + us /\
    0 <= m < 60 /\ 0 <= s < 60 /\ 0 <= us < 1000000 /\
    Forall (fun v => Logger.value_from 10 0 (to_string v) = v) [h; m; s; us].
Proof.
  unfold GetTimeCost. cbn [fst snd]. set (c := u64 _). intros Hc. unfold kMicroToSec, kClockUnit in *.
  assert (0 <= c) by (apply Z.mod_pos_bound; lia).
  assert (0 <= c / 1000000 < 2 ^ 32) by (split; [apply Z.div_pos|apply Z.div_lt_upper_bound]; lia).
  assert (u32 (c / 1000000) = c / 1000000) as -> by (apply Z.mod_small; lia).
  set (q := c / 1000000) in *. eexists _, _, _, _. split; [reflexivity|].
  pose proof (Z.mod_pos_bound c 1000000). pose proof (Z.mod_pos_bound q 60).
  pose proof (Z.mod_pos_bound (q / 60) 60). pose proof (Z_div_mod_eq_full c 1000000).
  pose proof (Z_div_mod_eq_full q 60). pose proof (Z_div_mod_eq_full (q / 60) 60).
  assert (0 <= q / 60 <= q) by (split; [apply Z.div_pos|apply Z.div_le_upper_bound]; lia).
  assert (0 <= q / 60 / 60 <= q) by (split; [apply Z.div_pos|apply Z.div_le_upper_bound]; lia).
  split_and!; try lia. repeat constructor; apply to_string_value; lia.
Qed.

(** Each named watch is independent of the others: whatever calls are made, the
    state of a name is that of one watch fed with the calls of its name, in which
    [End] records the time since the first [Begin] that was not ended, and
    without one does nothing. *)
Theorem watches_independent now k ops :
  let t := fold_left watch_step ops (TickCount_new now) in
  (m_startTime t !! k, default [] (m_timeSlice t !! k)) = fold_left (one_watch k) ops (None, []).
Proof.
  cbn zeta. destruct (watch_run_one k ops (TickCount_new now)) as [E _]; [done|]. exact E.
Qed.

(** A time slice is the one with the index asked for, counted from the end when it
    is negative, and the nearest one when there is none. *)
Theorem time_slice_clamped k n t l :
  m_timeSlice t !! k = Some l -> l <> [] -> Z.of_nat (length l) < 2 ^ 31 -> - 2 ^ 31 <= n < 2 ^ 31 ->
  let i := if n <? 0 then Z.of_nat (length l) + n else n in
  exists x, GetTimeSlice k n t = Ok x /\
    l !! Z.to_nat (Z.max 0 (Z.min (Z.of_nat (length l) - 1) i)) = Some x.
Proof.
  intros Hk Hne Hl Hn. unfold GetTimeSlice. rewrite Hk.
  assert (i32 (Z.of_nat (length l)) = Z.of_nat (length l)) as El.
  { unfold i32. rewrite Z.mod_small; lia. }
  destruct l as [|x0 l]; [done|]. set (L := x0 :: l) in *. rewrite El.
  assert (0 < Z.of_nat (length L)) by (cbn; lia).
  assert ((if n <? 0 then int_ok (Z.of_nat (length L) + n) else Ok n)
    = Ok (if n <? 0 then Z.of_nat (length L) + n else n)) as ->.
  { destruct (Z.ltb_spec n 0); [apply int_ok_in; lia|done]. }
  cbn [mbind result_bind]. set (i := if n <? 0 then _ else _).
  assert (forall j, 0 <= j < Z.of_nat (length L) -> exists x, of_option Thrown (L !! Z.to_nat j) = Ok x /\ L !! Z.to_nat j = Some x) as Hget.
  { intros j Hj. destruct (lookup_lt_is_Some_2 L (Z.to_nat j)) as [x Hx]; [lia|]. rewrite Hx. cbn. eauto. }
  destruct (Z.leb_spec i 0).
  - replace (Z.max 0 _) with 0 by lia. apply (Hget 0). lia.
  - destruct (Z.leb_spec (Z.of_nat (length L)) i).
    + replace (Z.max 0 _) with (Z.of_nat (length L) - 1) by lia. apply Hget. lia.
    + replace (Z.max 0 _) with i by lia. apply Hget. lia.
Qed.

(** An angle file loads all its lines, the first line of a channel winning; but the
    answer says an error exactly when the file ends with a line end, as text files
    do: [feof] is not true before a read has failed. *)
Theorem angle_file_loads fs path header lines rows last row m :
  free_of newline header = true -> (String.length header < 254)%nat ->
  Forall2 angle_line lines rows -> angle_line last row ->
  (fs path = Some (header +:+ String newline (with_newlines lines +:+ last)) ->
   GetAnglesFromFile fs path m = Ok (0, insert_rows (rows ++ [row]) m)) /\
  (fs path = Some (header +:+ String newline (with_newlines (lines ++ [last]))) ->
   GetAnglesFromFile fs path m = Ok (1, insert_rows (rows ++ [row]) m)).
Proof.
  intros Hh Hhl Hl Hr. unfold GetAnglesFromFile.
  assert (insert_rows (rows ++ [row]) m = map_insert row.1 row.2 (insert_rows rows m)) as ->
    by (unfold insert_rows; by rewrite fold_left_app).
  split; intros ->; (rewrite fgets_some by by destruct header); rewrite fgets_line by done.
  - pose proof (with_newlines_length lines) as Hn.
    rewrite Logger.str_length_app.
    replace (S (String.length (with_newlines lines) + String.length last))
      with (length lines + S (String.length (with_newlines lines) - length lines + String.length last))%nat by lia.
    rewrite (angle_lines_rows lines rows Hl). destruct Hr as (Hf & Hll & Hi & Hs & _). cbn [angle_lines].
    rewrite fgets_some by (destruct last; [cbn in Hll; lia|done]). rewrite fgets_last by (done || lia).
    destruct (Nat.ltb_spec (String.length last) 5); [lia|].
    rewrite Hs. destruct row as [i pa]. cbn [mbind result_bind]. cbn [fst snd] in Hi |- *.
    rewrite int_ok_in by done. cbn [mbind result_bind].
    by destruct (String.length (with_newlines lines) - length lines + String.length last)%nat.
  - assert (Forall2 angle_line (lines ++ [last]) (rows ++ [row])) as Hall by (apply Forall2_app; auto).
    pose proof (with_newlines_length (lines ++ [last])) as Hn.
    replace (S (String.length (with_newlines (lines ++ [last]))))
      with (length (lines ++ [last]) + S (String.length (with_newlines (lines ++ [last])) - length (lines ++ [last])))%nat by lia.
    rewrite <-(string_app_nil_r (with_newlines (lines ++ [last]))) at 2.
    rewrite (angle_lines_rows _ _ Hall). unfold insert_rows. by rewrite fold_left_app.
Qed.

(** The time stamp is the ISO 8601 one of 25 characters, with a colon between the
    hours and the minutes of the offset. *)
Theorem timestamp_iso sTime t off :
  Logger.tm_ok t -> Z.abs off < 6000 ->
  exists date sign hh mm,
    GetCurrentTimeStamp sTime ISO_8601_FORMAT t off = Ok (0, date +:+ sign +:+ hh +:+ ":" +:+ mm) /\
    strftime_iso t off = date +:+ sign +:+ hh +:+ mm /\
    String.length date = 19%nat /\ String.length sign = 1%nat /\
    hh = Logger.fmt_0d 2 (Z.abs off / 60) /\ mm = Logger.fmt_0d 2 (Z.abs off mod 60) /\
    String.length hh = 2%nat /\ String.length mm = 2%nat.
Proof.
  intros (Hy & Hmo & Hd & Hh & Hmi & Hs) Ho.
  assert (0 <= Z.abs off / 60 < 100) by (split; [apply Z.div_pos|apply Z.div_lt_upper_bound]; lia).
  pose proof (Z.mod_pos_bound (Z.abs off) 60 ltac:(lia)).
  set (hh := Logger.fmt_0d 2 (Z.abs off / 60)). set (mm := Logger.fmt_0d 2 (Z.abs off mod 60)).
  assert (String.length hh = 2%nat) as Hhh by (apply Logger.fmt_0d_length; cbn; lia).
  assert (String.length mm = 2%nat) as Hmm by (apply Logger.fmt_0d_length; cbn; lia).
  set (sign := if off <? 0 then "-"%string else "+"%string).
  eexists (Logger.fmt_0d 4 _ +:+ "-" +:+ Logger.fmt_0d 2 _ +:+ "-" +:+ Logger.fmt_0d 2 _ +:+ "T" +:+ Logger.fmt_0d 2 _
    +:+ ":" +:+ Logger.fmt_0d 2 _ +:+ ":" +:+ Logger.fmt_0d 2 _)%string, sign, hh, mm.
  match goal with |- _ = Ok (0, ?d +:+ _) /\ _ => set (date := d) end.
  assert (strftime_iso t off = date +:+ sign +:+ hh +:+ mm) as E.
  { unfold strftime_iso, date. rewrite !string_app_assoc. reflexivity. }
  assert (String.length date = 19%nat) as Hdl.
  { unfold date. rewrite !Logger.str_length_app, !Logger.fmt_0d_length by (cbn; lia). done. }
  assert (String.length sign = 1%nat) as Hsl by (unfold sign; by destruct (off <? 0)).
  split_and!; try done.
  unfold GetCurrentTimeStamp. cbn -[string_insert strftime_iso]. rewrite E.
  rewrite !Logger.str_length_app, Hdl, Hsl, Hhh, Hmm.
  replace (u64 (Z.of_nat (19 + (1 + (2 + 2))) - 2)) with (Z.of_nat (String.length (date +:+ sign +:+ hh)))
    by (rewrite !Logger.str_length_app, Hdl, Hsl, Hhh; reflexivity).
  replace (date +:+ sign +:+ hh +:+ mm)%string with ((date +:+ sign +:+ hh) +:+ mm)%string
    by (by rewrite !string_app_assoc).
  rewrite string_insert_app. cbn [mbind result_bind]. by rewrite !string_app_assoc.
Qed.

(** ** Witnesses *)

Lemma tick_difference_witness :
  GetMicroTickCount (Some (4295, 100000000)) = 132704 /\
  u32 (GetMicroTickCount (Some (4295, 100000000)) - GetMicroTickCount (Some (4294, 900000000))) = 200000.
Proof.
  split; [by vm_compute|].
  rewrite (tick_difference 4294 900000000 4295 100000000); [by vm_compute|]. vm_compute. split; congruence.
Defined.

Definition demo_ticks : TickCount := mk_ticks 1000000 3724000007 {[ "decode"%string := [11; 12; 13] ]} ∅ "demo".

Lemma time_cost_text_witness :
  (GetTimeCost demo_ticks).2 = "1h 2m 3s 7us"%string /\
  exists h m s us,
    (GetTimeCost demo_ticks).2 = to_string h +:+ "h " +:+ to_string m +:+ "m " +:+ to_string s +:+ "s " +:+ to_string us +:+ "us" /\
    (GetTimeCost demo_ticks).1 = ((h * 60 + m) * 60 + s) * 1000000 + us /\
    0 <= m < 60 /\ 0 <= s < 60 /\ 0 <= us < 1000000 /\
    Forall (fun v => Logger.value_from 10 0 (to_string v) = v) [h; m; s; us].
Proof. split; [by vm_compute|]. apply time_cost_text. by vm_compute. Defined.

Lemma time_slice_clamped_witness :
  GetTimeSlice "decode" (-1) demo_ticks = Ok 13 /\ GetTimeSlice "decode" (-9) demo_ticks = Ok 11.
Proof.
  split.
  - destruct (time_slice_clamped "decode" (-1) demo_ticks [11; 12; 13]) as (x & -> & Hx); try done.
    by injection Hx as <-.
  - destruct (time_slice_clamped "decode" (-9) demo_ticks [11; 12; 13]) as (x & -> & Hx); try done.
    by injection Hx as <-.
Defined.

Definition demo_angle : float32 := decimal_to_float32 false 15 (-1).

Lemma demo_angle_lines :
  angle_line "1,1.5,1.5" (1, (demo_angle, demo_angle)) /\ angle_line "2,1.5,1.5" (2, (demo_angle, demo_angle)).
Proof. split; (split_and!; [by vm_compute|cbn; lia|cbn; lia|cbn; lia|cbn; lia|by vm_compute|by vm_compute]). Qed.

Lemma angle_file_loads_witness :
  let table := <[2 := (demo_angle, demo_angle)]> (<[1 := (demo_angle, demo_angle)]> (∅ : angle_map)) in
  GetAnglesFromFile (fun _ => Some ("Laser,Elevation,Azimuth" +:+ String newline ("1,1.5,1.5" +:+ String newline "2,1.5,1.5"))%string)
    "angles.csv" ∅ = Ok (0, table) /\
  GetAnglesFromFile (fun _ => Some ("Laser,Elevation,Azimuth" +:+ String newline ("1,1.5,1.5" +:+ String newline ("2,1.5,1.5" +:+ String newline "")))%string)
    "angles.csv" ∅ = Ok (1, table).
Proof.
  cbn zeta. pose proof demo_angle_lines as [H1 H2]. split.
  - refine (proj1 (angle_file_loads _ "angles.csv" "Laser,Elevation,Azimuth" ["1,1.5,1.5"%string]
      [(1, (demo_angle, demo_angle))] "2,1.5,1.5" (2, (demo_angle, demo_angle)) ∅ _ _ _ _) _);
      [done|cbn; lia|by repeat constructor|done|done].
  - refine (proj2 (angle_file_loads _ "angles.csv" "Laser,Elevation,Azimuth" ["1,1.5,1.5"%string]
      [(1, (demo_angle, demo_angle))] "2,1.5,1.5" (2, (demo_angle, demo_angle)) ∅ _ _ _ _) _);
      [done|cbn; lia|by repeat constructor|done|done].
Defined.

Lemma timestamp_iso_witness :
  exists date sign hh mm,
    GetCurrentTimeStamp "" ISO_8601_FORMAT Logger.demo_tm (-210) = Ok (0, date +:+ sign +:+ hh +:+ ":" +:+ mm) /\
    date +:+ sign +:+ hh +:+ ":" +:+ mm = "2024-05-03T17:30:08-03:30"%string.
Proof.
  destruct (timestamp_iso "" Logger.demo_tm (-210)) as (date & sign & hh & mm & E & _);
    [unfold Logger.tm_ok; cbn; lia|cbn; lia|].
  exists date, sign, hh, mm. split; [done|]. vm_compute in E. injection E as E. by rewrite E.
Defined.

End Ticks.
