(* ===== verification/LidarTypes.v ===== *)
(** * LidarTypes: the data the components exchange

    Lidar/lidar_types.h: the constants, the received packet, the decoded point
    and the frame a decoder fills.  The arrays of a frame live in one block of
    uninitialised memory; here each is a finite map from an index to what has
    been written there, and an index outside the array's size is a fault. *)

From S2P Require Import Prelude Floats.
Local Open Scope Z_scope.

Definition kMaxPointsNumPerPacket : Z := 512.
Definition kMaxPacketNumPerFrame : Z := 5000.
Definition kMaxPointsNumPerFrame : Z := kMaxPointsNumPerPacket * kMaxPacketNumPerFrame.
Definition kHalfCircleInt : Z := 18000.
Definition kCircle : Z := 36000.
Definition kResolutionInt : Z := 100.
Definition kMicrosecondToSecondInt : Z := 1000000.
Definition kSplitFrameMinAngle : Z := 300.
Definition kFineResolutionInt : Z := 256.
Definition kAllFineResolutionInt : Z := kResolutionInt * kFineResolutionInt.
Definition kPcapPlaySynchronizationCount : Z := 100.
Definition kMinPointsOfOneFrame : Z := 1000.
Definition kMaxTimeInterval : Z := 150000.
Definition kFaultMessageLength : Z := 99.
Definition kPacketBufferSize : Z := 36000.
Definition kBufSize : Z := 1500.

(** [UdpPacket]; [buffer] always has [kBufSize] bytes and [packet_len] is an
    [int16_t]. *)
Record UdpPacket : Type := mk_packet {
  buffer : list Z;
  packet_len : Z;
  is_timeout : bool;
  recv_timestamp : Z;
  packet_ip : Z;
  packet_port : Z;
}.

Definition set_packet_len (n : Z) (p : UdpPacket) : UdpPacket :=
  mk_packet (buffer p) n (is_timeout p) (recv_timestamp p) (packet_ip p) (packet_port p).

(** [UdpPacket(data, sz, tm, ip, port)]; [junk] is what the uninitialised
    buffer holds. *)
Definition new_UdpPacket (junk : list Z) (data : option (list Z)) (sz tm ip port : Z)
    : result UdpPacket :=
  let packet_len := i16 sz in
  match data with
  | None => Ok (mk_packet junk packet_len false tm ip (u16 port))
  | Some d =>
      src ← arr_slice d 0 packet_len;
      b ← arr_blit junk 0 src;
      Ok (mk_packet b packet_len false tm ip (u16 port))
  end.

(** ** Decoded points

    A member that nothing has written is [None]. *)
Record PointDecodeData : Type := mk_pdd {
  pd_azimuth : f32;
  pd_elevation : f32;
  pd_distances : Z;
  pd_reflectivities : Z;
  pd_confidence : option Z;
  pd_chn_index : option Z;
  pd_mirror_index : option Z;
}.

(** ** The point types

    What the templates [setX], ..., [setConfidence] of general_parser.h do for a
    point type: store the value when the type has the member. *)
Class PointType (P : Type) : Type := {
  zero_point : P;
  setX : f32 -> P -> P;
  setY : f32 -> P -> P;
  setZ : f32 -> P -> P;
  setIntensity : Z -> P -> P;
  setRing : Z -> P -> P;
  setTimestamp : f64 -> P -> P;
  setConfidence : option Z -> P -> P;
}.

Record LidarPointXYZI : Type := mk_xyzi { xyzi_x : f32; xyzi_y : f32; xyzi_z : f32; xyzi_intensity : Z }.

Record LidarPointXYZIRT : Type := mk_xyzirt {
  irt_x : f32; irt_y : f32; irt_z : f32; irt_intensity : Z; irt_ring : Z; irt_timestamp : f64 }.

Record LidarPointXYZICRT : Type := mk_xyzicrt {
  icrt_x : f32; icrt_y : f32; icrt_z : f32; icrt_intensity : Z; icrt_confidence : option Z;
  icrt_ring : Z; icrt_timestamp : f64 }.

Definition f_zero : f32 := SpecFloat.S754_zero false.

#[export] Instance point_xyzi : PointType LidarPointXYZI := {|
  zero_point := mk_xyzi f_zero f_zero f_zero 0;
  setX v p := mk_xyzi v (xyzi_y p) (xyzi_z p) (xyzi_intensity p);
  setY v p := mk_xyzi (xyzi_x p) v (xyzi_z p) (xyzi_intensity p);
  setZ v p := mk_xyzi (xyzi_x p) (xyzi_y p) v (xyzi_intensity p);
  setIntensity v p := mk_xyzi (xyzi_x p) (xyzi_y p) (xyzi_z p) v;
  setRing _ p := p;
  setTimestamp _ p := p;
  setConfidence _ p := p;
|}.

#[export] Instance point_xyzirt : PointType LidarPointXYZIRT := {|
  zero_point := mk_xyzirt f_zero f_zero f_zero 0 0 f_zero;
  setX v p := mk_xyzirt v (irt_y p) (irt_z p) (irt_intensity p) (irt_ring p) (irt_timestamp p);
  setY v p := mk_xyzirt (irt_x p) v (irt_z p) (irt_intensity p) (irt_ring p) (irt_timestamp p);
  setZ v p := mk_xyzirt (irt_x p) (irt_y p) v (irt_intensity p) (irt_ring p) (irt_timestamp p);
  setIntensity v p := mk_xyzirt (irt_x p) (irt_y p) (irt_z p) v (irt_ring p) (irt_timestamp p);
  setRing v p := mk_xyzirt (irt_x p) (irt_y p) (irt_z p) (irt_intensity p) v (irt_timestamp p);
  setTimestamp v p := mk_xyzirt (irt_x p) (irt_y p) (irt_z p) (irt_intensity p) (irt_ring p) v;
  setConfidence _ p := p;
|}.

#[export] Instance point_xyzicrt : PointType LidarPointXYZICRT := {|
  zero_point := mk_xyzicrt f_zero f_zero f_zero 0 (Some 0) 0 f_zero;
  setX v p := mk_xyzicrt v (icrt_y p) (icrt_z p) (icrt_intensity p) (icrt_confidence p) (icrt_ring p) (icrt_timestamp p);
  setY v p := mk_xyzicrt (icrt_x p) v (icrt_z p) (icrt_intensity p) (icrt_confidence p) (icrt_ring p) (icrt_timestamp p);
  setZ v p := mk_xyzicrt (icrt_x p) (icrt_y p) v (icrt_intensity p) (icrt_confidence p) (icrt_ring p) (icrt_timestamp p);
  setIntensity v p := mk_xyzicrt (icrt_x p) (icrt_y p) (icrt_z p) v (icrt_confidence p) (icrt_ring p) (icrt_timestamp p);
  setRing v p := mk_xyzicrt (icrt_x p) (icrt_y p) (icrt_z p) (icrt_intensity p) (icrt_confidence p) v (icrt_timestamp p);
  setTimestamp v p := mk_xyzicrt (icrt_x p) (icrt_y p) (icrt_z p) (icrt_intensity p) (icrt_confidence p) (icrt_ring p) v;
  setConfidence v p := mk_xyzicrt (icrt_x p) (icrt_y p) (icrt_z p) (icrt_intensity p) v (icrt_ring p) (icrt_timestamp p);
|}.

(** ** Frames *)

Record LidarDecodedFrame (P : Type) : Type := mk_frame {
  host_timestamp : Z;
  sensor_timestamp : gmap Z Z;
  major_version : Z;
  minor_version : Z;
  return_mode : Z;
  spin_speed : Z;
  points_num : Z;
  packet_num : Z;
  points : gmap Z P;
  pointData : gmap Z PointDecodeData;
  block_num : Z;
  laser_num : Z;
  per_points_num : Z;
  scan_complete : bool;
  distance_unit : f64;
  frame_index : Z;
  lidar_state : Z;
  work_mode : Z;
  use_timestamp_type : Z;
  fov_start : Z;
  fov_end : Z;
}.
Arguments mk_frame {P}.
Arguments host_timestamp {P}.
Arguments sensor_timestamp {P}.
Arguments major_version {P}.
Arguments minor_version {P}.
Arguments return_mode {P}.
Arguments spin_speed {P}.
Arguments points_num {P}.
Arguments packet_num {P}.
Arguments points {P}.
Arguments pointData {P}.
Arguments block_num {P}.
Arguments laser_num {P}.
Arguments per_points_num {P}.
Arguments scan_complete {P}.
Arguments distance_unit {P}.
Arguments frame_index {P}.
Arguments lidar_state {P}.
Arguments work_mode {P}.
Arguments use_timestamp_type {P}.
Arguments fov_start {P}.
Arguments fov_end {P}.

Definition new_LidarDecodedFrame (P : Type) : LidarDecodedFrame P :=
  mk_frame 0 ∅ 0 0 0 0 0 0 ∅ ∅ 0 0 0 false f_zero 0 (-1) (-1) 0 (-1) (-1).

(** [Update] starts the next frame in the same memory. *)
Definition Update {P} (f : LidarDecodedFrame P) : LidarDecodedFrame P :=
  mk_frame 0 (sensor_timestamp f) 0 0 0 0 0 0 (points f) (pointData f) 0 0 0 false f_zero
    (i32 (frame_index f + 1)) (-1) (-1) (use_timestamp_type f) (fov_start f) (fov_end f).

(** A write to one of the arrays. *)
Definition array_put {A} (size i : Z) (x : A) (m : gmap Z A) : result (gmap Z A) :=
  if (0 <=? i) && (i <? size) then Ok (<[i := x]> m) else Err OutOfBounds.

(** A read of an element that must have been written. *)
Definition array_at {A} (size i : Z) (m : gmap Z A) : result A :=
  if (0 <=? i) && (i <? size) then of_option Uninitialised (m !! i) else Err OutOfBounds.

Definition put_timestamp {P} (i t : Z) (f : LidarDecodedFrame P) : result (LidarDecodedFrame P) :=
  ts ← array_put kMaxPacketNumPerFrame i t (sensor_timestamp f);
  Ok (mk_frame (host_timestamp f) ts (major_version f) (minor_version f) (return_mode f)
    (spin_speed f) (points_num f) (packet_num f) (points f) (pointData f) (block_num f)
    (laser_num f) (per_points_num f) (scan_complete f) (distance_unit f) (frame_index f)
    (lidar_state f) (work_mode f) (use_timestamp_type f) (fov_start f) (fov_end f)).

Definition set_pointData {P} (d : gmap Z PointDecodeData) (f : LidarDecodedFrame P) : LidarDecodedFrame P :=
  mk_frame (host_timestamp f) (sensor_timestamp f) (major_version f) (minor_version f) (return_mode f)
    (spin_speed f) (points_num f) (packet_num f) (points f) d (block_num f)
    (laser_num f) (per_points_num f) (scan_complete f) (distance_unit f) (frame_index f)
    (lidar_state f) (work_mode f) (use_timestamp_type f) (fov_start f) (fov_end f).

Definition set_points {P} (d : gmap Z P) (f : LidarDecodedFrame P) : LidarDecodedFrame P :=
  mk_frame (host_timestamp f) (sensor_timestamp f) (major_version f) (minor_version f) (return_mode f)
    (spin_speed f) (points_num f) (packet_num f) d (pointData f) (block_num f)
    (laser_num f) (per_points_num f) (scan_complete f) (distance_unit f) (frame_index f)
    (lidar_state f) (work_mode f) (use_timestamp_type f) (fov_start f) (fov_end f).

Definition set_lidar_state {P} (st : Z) (f : LidarDecodedFrame P) : LidarDecodedFrame P :=
  mk_frame (host_timestamp f) (sensor_timestamp f) (major_version f) (minor_version f) (return_mode f)
    (spin_speed f) (points_num f) (packet_num f) (points f) (pointData f) (block_num f)
    (laser_num f) (per_points_num f) (scan_complete f) (distance_unit f) (frame_index f)
    st (work_mode f) (use_timestamp_type f) (fov_start f) (fov_end f).

(** The members a decoder copies from the packet's tail and header. *)
Definition set_packet_info {P} (host spin work ret blocks lasers : Z) (unit_ : f64)
    (f : LidarDecodedFrame P) : LidarDecodedFrame P :=
  mk_frame host (sensor_timestamp f) (major_version f) (minor_version f) ret
    spin (points_num f) (packet_num f) (points f) (pointData f) blocks
    lasers (blocks * lasers) false unit_ (frame_index f)
    (lidar_state f) work (use_timestamp_type f) (fov_start f) (fov_end f).

Definition set_scan_complete {P} (b : bool) (f : LidarDecodedFrame P) : LidarDecodedFrame P :=
  mk_frame (host_timestamp f) (sensor_timestamp f) (major_version f) (minor_version f) (return_mode f)
    (spin_speed f) (points_num f) (packet_num f) (points f) (pointData f) (block_num f)
    (laser_num f) (per_points_num f) b (distance_unit f) (frame_index f)
    (lidar_state f) (work_mode f) (use_timestamp_type f) (fov_start f) (fov_end f).

Definition set_counts {P} (packets pts : Z) (f : LidarDecodedFrame P) : LidarDecodedFrame P :=
  mk_frame (host_timestamp f) (sensor_timestamp f) (major_version f) (minor_version f) (return_mode f)
    (spin_speed f) pts packets (points f) (pointData f) (block_num f)
    (laser_num f) (per_points_num f) (scan_complete f) (distance_unit f) (frame_index f)
    (lidar_state f) (work_mode f) (use_timestamp_type f) (fov_start f) (fov_end f).

Definition set_timestamp_type {P} (t : Z) (f : LidarDecodedFrame P) : LidarDecodedFrame P :=
  mk_frame (host_timestamp f) (sensor_timestamp f) (major_version f) (minor_version f) (return_mode f)
    (spin_speed f) (points_num f) (packet_num f) (points f) (pointData f) (block_num f)
    (laser_num f) (per_points_num f) (scan_complete f) (distance_unit f) (frame_index f)
    (lidar_state f) (work_mode f) t (fov_start f) (fov_end f).

Definition set_config {P} (s e : Z) (f : LidarDecodedFrame P) : LidarDecodedFrame P :=
  mk_frame (host_timestamp f) (sensor_timestamp f) (major_version f) (minor_version f) (return_mode f)
    (spin_speed f) (points_num f) (packet_num f) (points f) (pointData f) (block_num f)
    (laser_num f) (per_points_num f) (scan_complete f) (distance_unit f) (frame_index f)
    (lidar_state f) (work_mode f) (use_timestamp_type f) s e.

(** ** Lemmas *)

Lemma array_put_ok {A} size i (x : A) m :
  0 <= i < size -> array_put size i x m = Ok (<[i := x]> m).
Proof.
  intros Hi. unfold array_put. destruct (Z.leb_spec 0 i), (Z.ltb_spec i size); try lia. done.
Qed.

Lemma array_put_out {A} size i (x : A) m :
  ~ (0 <= i < size) -> array_put size i x m = Err OutOfBounds.
Proof.
  intros Hi. unfold array_put. destruct (Z.leb_spec 0 i), (Z.ltb_spec i size); try lia; done.
Qed.

Lemma array_at_ok {A} size i (x : A) m :
  0 <= i < size -> m !! i = Some x -> array_at size i m = Ok x.
Proof.
  intros Hi E. unfold array_at. rewrite E.
  destruct (Z.leb_spec 0 i), (Z.ltb_spec i size); try lia. done.
Qed.

Lemma put_timestamp_ok {P} i t (f : LidarDecodedFrame P) :
  0 <= i < kMaxPacketNumPerFrame ->
  exists f', put_timestamp i t f = Ok f' /\ sensor_timestamp f' = <[i := t]> (sensor_timestamp f) /\
    pointData f' = pointData f /\ packet_num f' = packet_num f /\ lidar_state f' = lidar_state f /\
    use_timestamp_type f' = use_timestamp_type f /\ points f' = points f.
Proof. intros Hi. unfold put_timestamp. rewrite array_put_ok by done. eexists. done. Qed.
