(* ===== verification/Walk.v ===== *)
(** * Walk: the loops over the blocks and channels of a packet

    Every decoder walks a packet block by block and channel by channel, with a
    pointer that advances by the size of a unit, and writes one element of the
    frame's array per channel; [ComputeXYZI] walks the same elements again.
    The loops are folds over the block and channel numbers here: the element of
    channel [l] of block [b] of the packet that starts at [index] is
    [index + b * lasers + l], and what is written may depend on what was there. *)

From S2P Require Import Prelude Floats LidarTypes.
Local Open Scope Z_scope.

(** The [n] elements from [index] on. *)
Definition fill {A} (size index n : Z) (f : Z -> option A -> result A) (m : gmap Z A) : result (gmap Z A) :=
  foldM (fun m l => x ← f l (m !! (index + l)); array_put size (index + l) x m) m (seqZ 0 n).

(** The blocks of a packet: [head] reads what stands in front of the channels
    of a block, and the last such value is returned with the array. *)
Definition fill_blocks {A H} (size index blocks lasers : Z) (head : Z -> result H)
    (f : H -> Z -> Z -> option A -> result A) (h0 : H) (m : gmap Z A) : result (H * gmap Z A) :=
  foldM (fun st b =>
    h ← head b;
    m ← fill size (index + b * lasers) lasers (f h b) st.2;
    Ok (h, m)) (h0, m) (seqZ 0 blocks).

(** The same when a block also changes the parser object: [upd] is what it does. *)
Definition step_blocks {A H S} (size index blocks lasers : Z) (head : Z -> result H)
    (f : H -> Z -> Z -> option A -> result A) (upd : H -> S -> S) (s0 : S) (m : gmap Z A) : result (S * gmap Z A) :=
  foldM (fun st b =>
    h ← head b;
    m ← fill size (index + b * lasers) lasers (f h b) st.2;
    Ok (upd h st.1, m)) (s0, m) (seqZ 0 blocks).

(** The element a point of the frame is in, computed in [uint32_t] and stored in
    an [int]. *)
Definition point_index {P} (frame : LidarDecodedFrame P) (packet_index blockid i : Z) : Z :=
  i32 (u32 (packet_index * per_points_num frame + blockid * laser_num frame + i)).

(** The points of a packet, one after the other. *)
Definition each_point {P} (frame : LidarDecodedFrame P) (packet_index : Z)
    (f : Z -> Z -> Z -> option P -> result P) : result (gmap Z P) :=
  foldM (fun pts b =>
    foldM (fun pts i =>
      let k := point_index frame packet_index b i in
      x ← f b i k (pts !! k);
      array_put kMaxPointsNumPerFrame k x pts) pts (seqZ 0 (laser_num frame)))
    (points frame) (seqZ 0 (block_num frame)).

(** What such a loop leaves: the elements of the packet are what [f] made of the
    ones before, the others are as they were. *)
Definition filled {A} (index n : Z) (f : Z -> option A -> result A) (m m' : gmap Z A) : Prop :=
  (forall k, ~ (index <= k < index + n) -> m' !! k = m !! k) /\
  (forall l, 0 <= l < n -> exists x, m' !! (index + l) = Some x /\ f l (m !! (index + l)) = Ok x).

(** ** Lemmas *)

Section Fill.
Context {A : Type} (size index : Z) (f : Z -> option A -> result A).

Lemma fill_snoc n m : fill size index (Z.of_nat (S n)) f m =
  (m ← fill size index (Z.of_nat n) f m;
   x ← f (Z.of_nat n) (m !! (index + Z.of_nat n)); array_put size (index + Z.of_nat n) x m).
Proof. unfold fill. by rewrite seqZ_snoc, foldM_snoc. Qed.

Lemma fill_spec_nat n m m' : fill size index (Z.of_nat n) f m = Ok m' -> filled index (Z.of_nat n) f m m'.
Proof.
  revert m'. induction n as [|n IH]; intros m'.
  - intros [= <-]. split; [done|lia].
  - rewrite fill_snoc. intros H. inv_ok. destruct (IH _ eq_refl) as [Hout Hin].
    unfold array_put in H. destruct (_ && _); inv_ok. split.
    + intros k Hk. rewrite lookup_insert_ne by lia. apply Hout. lia.
    + intros l Hl. destruct (Z.eq_dec l (Z.of_nat n)) as [->|].
      * exists a0. rewrite lookup_insert_eq. split; [done|]. by rewrite <-Hout by lia.
      * rewrite lookup_insert_ne by lia. apply Hin. lia.
Qed.

(** What the loop leaves, when it ends. *)
Lemma fill_spec n m m' : 0 <= n -> fill size index n f m = Ok m' -> filled index n f m m'.
Proof. intros Hn. rewrite <-(Z2Nat.id n) by done. apply fill_spec_nat. Qed.

(** It ends when every element is in the array and can be made. *)
Lemma fill_ok n m : 0 <= n -> 0 <= index -> index + n <= size ->
  (forall l old, 0 <= l < n -> is_ok (f l old) = true) -> exists m', fill size index n f m = Ok m'.
Proof.
  intros Hn. rewrite <-(Z2Nat.id n) by done. generalize (Z.to_nat n) as k. clear n Hn.
  induction k as [|k IH]; intros Hi Hs Hf; [by exists m|].
  destruct IH as [m' E]; [lia|lia|intros; apply Hf; lia|].
  rewrite fill_snoc, E. cbn [mbind result_bind].
  specialize (Hf (Z.of_nat k) (m' !! (index + Z.of_nat k)) ltac:(lia)). destruct (f _ _); [|done].
  cbn [mbind result_bind]. rewrite array_put_ok by lia. by eexists.
Qed.

End Fill.

Section Blocks.
Context {A H : Type} (size index lasers : Z) (head : Z -> result H) (f : H -> Z -> Z -> option A -> result A).
Hypothesis Hlasers : 0 <= lasers.

Lemma fill_blocks_snoc n h0 m : fill_blocks size index (Z.of_nat (S n)) lasers head f h0 m =
  (st ← fill_blocks size index (Z.of_nat n) lasers head f h0 m;
   h ← head (Z.of_nat n);
   m ← fill size (index + Z.of_nat n * lasers) lasers (f h (Z.of_nat n)) st.2;
   Ok (h, m)).
Proof. unfold fill_blocks. by rewrite seqZ_snoc, foldM_snoc. Qed.

(** What the loop over the blocks leaves, when it ends. *)
Lemma fill_blocks_spec blocks h0 m h' m' : 0 <= blocks ->
  fill_blocks size index blocks lasers head f h0 m = Ok (h', m') ->
  (forall k, ~ (index <= k < index + blocks * lasers) -> m' !! k = m !! k) /\
  (forall b l, 0 <= b < blocks -> 0 <= l < lasers -> exists h x, head b = Ok h /\
    m' !! (index + b * lasers + l) = Some x /\ f h b l (m !! (index + b * lasers + l)) = Ok x) /\
  (if blocks =? 0 then h' = h0 else head (blocks - 1) = Ok h').
Proof.
  intros Hb. rewrite <-(Z2Nat.id blocks) by done. generalize (Z.to_nat blocks) as n. clear blocks Hb.
  intros n. revert h' m'. induction n as [|n IH]; intros h' m'.
  { intros [= <- <-]. split; [done|]. split; [lia|done]. }
  rewrite fill_blocks_snoc. intros Hr. inv_ok. destruct a as [h1 m1]. cbn [snd] in E1.
  destruct (IH _ _ eq_refl) as (Hout & Hin & _).
  destruct (fill_spec _ _ _ _ _ _ Hlasers E1) as [Hout1 Hin1].
  assert (0 <= Z.of_nat n * lasers) by (apply Z.mul_nonneg_nonneg; lia).
  rewrite Nat2Z.inj_succ, <-Z.add_1_r. split; [|split].
  - intros k Hk. rewrite Hout1 by lia. apply Hout. lia.
  - intros b l Hbb Hl. destruct (Z.eq_dec b (Z.of_nat n)) as [->|].
    + destruct (Hin1 l Hl) as (x & E2 & E3). exists h', x. split; [done|]. split; [done|].
      rewrite <-Hout by lia. exact E3.
    + assert ((b + 1) * lasers <= Z.of_nat n * lasers) by (apply Z.mul_le_mono_nonneg_r; lia).
      destruct (Hin b l) as (h & x & E2 & E3 & E4); [lia|done|]. exists h, x. split; [done|].
      rewrite Hout1 by lia. done.
  - destruct (Z.eqb_spec (Z.of_nat n + 1) 0); [lia|]. by rewrite Z.add_simpl_r.
Qed.

(** It ends when every block can be read and every element made and stored. *)
Lemma fill_blocks_ok blocks h0 m : 0 <= blocks -> 0 <= index -> index + blocks * lasers <= size ->
  (forall b, 0 <= b < blocks -> exists h, head b = Ok h /\
    forall l old, 0 <= l < lasers -> is_ok (f h b l old) = true) ->
  exists h' m', fill_blocks size index blocks lasers head f h0 m = Ok (h', m').
Proof.
  intros Hb. rewrite <-(Z2Nat.id blocks) by done. generalize (Z.to_nat blocks) as n. clear blocks Hb.
  induction n as [|n IH]; intros Hi Hs Hf; [by exists h0, m|].
  rewrite Nat2Z.inj_succ, <-Z.add_1_r in Hs.
  destruct IH as (h1 & m1 & E); [lia|lia|intros; apply Hf; lia|].
  rewrite fill_blocks_snoc, E. cbn [mbind result_bind snd].
  destruct (Hf (Z.of_nat n) ltac:(lia)) as (h & -> & Hel). cbn [mbind result_bind].
  assert (0 <= Z.of_nat n * lasers) by (apply Z.mul_nonneg_nonneg; lia).
  destruct (fill_ok size (index + Z.of_nat n * lasers) (f h (Z.of_nat n)) lasers m1) as [m2 ->]; [done|lia|lia|done|].
  by exists h, m2.
Qed.

End Blocks.

(** The value in front of the last block depends on the packet only. *)
Lemma fill_blocks_head {A H} size index lasers (head : Z -> result H) (f : H -> Z -> Z -> option A -> result A)
    blocks h0 m h' m' :
  fill_blocks size index blocks lasers head f h0 m = Ok (h', m') ->
  if 0 <? blocks then head (blocks - 1) = Ok h' else h' = h0.
Proof.
  destruct (Z.ltb_spec 0 blocks) as [Hb|Hb].
  - rewrite <-(Z2Nat.id blocks) by lia. destruct (Z.to_nat blocks) as [|n] eqn:En; [lia|].
    unfold fill_blocks. rewrite seqZ_snoc, foldM_snoc. intros E. inv_ok.
    replace (Z.of_nat (S n) - 1) with (Z.of_nat n) by lia. done.
  - unfold fill_blocks. replace (seqZ 0 blocks) with (@nil Z); [by intros [= <- _]|].
    unfold seqZ. by replace (Z.to_nat blocks) with O by lia.
Qed.

(** A walk that changes the object fills the array as one that does not, and ends
    when that ends; the object has seen the heads in turn. *)
Section Steps.
Context {A H S : Type} (size index lasers : Z) (head : Z -> result H) (f : H -> Z -> Z -> option A -> result A)
  (upd : H -> S -> S).

Lemma step_blocks_of_fill n h0 h' s0 m m' :
  fill_blocks size index (Z.of_nat n) lasers head f h0 m = Ok (h', m') ->
  exists hs, length hs = n /\ (forall b, 0 <= b < Z.of_nat n -> exists h, hs !! Z.to_nat b = Some h /\ head b = Ok h) /\
    step_blocks size index (Z.of_nat n) lasers head f upd s0 m = Ok (foldl (fun s h => upd h s) s0 hs, m').
Proof.
  revert h' m'. induction n as [|n IH]; intros h' m'.
  { intros [= _ <-]. exists []. split; [done|]. split; [lia|done]. }
  unfold step_blocks, fill_blocks in *. rewrite !seqZ_snoc, !foldM_snoc.
  destruct (foldM _ (h0, m) _) as [[h m1]|]; cbn [mbind result_bind snd]; [|done].
  destruct (IH _ _ eq_refl) as (hs & Hlen & Hh & ->). cbn [mbind result_bind fst snd].
  destruct (head (Z.of_nat n)) as [h1|] eqn:E1; cbn [mbind result_bind]; [|done].
  destruct (fill _ _ _ _ m1) as [m2|]; cbn [mbind result_bind]; [|done]. intros [= _ <-].
  exists (hs ++ [h1]). rewrite length_app, foldl_snoc, Hlen. split; [cbn; lia|]. split; [|done].
  intros b Hb. destruct (Z.eq_dec b (Z.of_nat n)) as [->|].
  - exists h1. rewrite Nat2Z.id, lookup_app_r, Hlen, Nat.sub_diag by lia. done.
  - destruct (Hh b) as (x & E & Hx); [lia|]. exists x. split; [by apply lookup_app_l_Some|done].
Qed.

Lemma fill_of_step_blocks n h0 s0 s' m m' :
  step_blocks size index (Z.of_nat n) lasers head f upd s0 m = Ok (s', m') ->
  exists h', fill_blocks size index (Z.of_nat n) lasers head f h0 m = Ok (h', m').
Proof.
  revert s' m'. induction n as [|n IH]; intros s' m'; [intros [= _ <-]; by exists h0|].
  unfold step_blocks, fill_blocks in *. rewrite !seqZ_snoc, !foldM_snoc.
  destruct (foldM _ (s0, m) _) as [[s1 m1]|]; cbn [mbind result_bind snd]; [|done].
  destruct (IH _ _ eq_refl) as (h & ->). cbn [mbind result_bind fst snd].
  destruct (head (Z.of_nat n)) as [h1|]; cbn [mbind result_bind]; [|done].
  destruct (fill _ _ _ _ m1) as [m2|]; cbn [mbind result_bind]; [|done]. intros [= _ <-]. by exists h1.
Qed.

End Steps.

(** The indexes of a packet inside the array are what they are meant to be. *)
Lemma point_index_ok {P} (frame : LidarDecodedFrame P) n b i :
  0 <= n -> 0 <= per_points_num frame -> 0 <= laser_num frame -> 0 <= b -> 0 <= i ->
  n * per_points_num frame + b * laser_num frame + i < kMaxPointsNumPerFrame ->
  point_index frame n b i = n * per_points_num frame + b * laser_num frame + i.
Proof.
  intros Hn Hp Hl Hb Hi Hm. unfold point_index, i32, u32.
  unfold kMaxPointsNumPerFrame, kMaxPointsNumPerPacket, kMaxPacketNumPerFrame in Hm.
  assert (0 <= n * per_points_num frame) by (by apply Z.mul_nonneg_nonneg).
  assert (0 <= b * laser_num frame) by (by apply Z.mul_nonneg_nonneg).
  rewrite (Z.mod_small (_ + _ + _) (2 ^ 32)) by lia. rewrite Z.mod_small by lia. lia.
Qed.

Section EachPoint.
Context {P : Type} (frame : LidarDecodedFrame P) (n : Z) (f : Z -> Z -> Z -> option P -> result P).
Hypothesis Hn : 0 <= n.
Hypothesis Hblocks : 0 <= block_num frame.
Hypothesis Hlasers : 0 <= laser_num frame.
Hypothesis Hper : per_points_num frame = block_num frame * laser_num frame.
Hypothesis Hmax : (n + 1) * per_points_num frame <= kMaxPointsNumPerFrame.

(** The walk over the points is the walk over the blocks. *)
Lemma each_point_blocks : each_point frame n f =
  ('(_, pts) ← fill_blocks kMaxPointsNumPerFrame (n * per_points_num frame) (block_num frame) (laser_num frame)
     (fun _ => Ok tt) (fun _ b i => f b i (n * per_points_num frame + b * laser_num frame + i)) tt (points frame);
   Ok pts).
Proof.
  assert (forall l (st : unit * gmap Z P), (forall b, b ∈ l -> 0 <= b < block_num frame) ->
    foldM (fun pts b => foldM (fun pts i =>
        let k := point_index frame n b i in
        x ← f b i k (pts !! k); array_put kMaxPointsNumPerFrame k x pts) pts (seqZ 0 (laser_num frame)))
      st.2 l =
    ('(_, pts) ← foldM (fun (st : unit * gmap Z P) b =>
       h ← Ok tt; m ← fill kMaxPointsNumPerFrame (n * per_points_num frame + b * laser_num frame) (laser_num frame)
         (fun i => f b i (n * per_points_num frame + b * laser_num frame + i)) st.2; Ok (h, m)) st l; Ok pts)) as Hl.
  - induction l as [|b l IH]; intros st Hb; cbn [foldM]; [by destruct st|].
    assert (0 <= b < block_num frame) as Hbb by (apply Hb; by left).
    assert ((b + 1) * laser_num frame <= block_num frame * laser_num frame) by (apply Z.mul_le_mono_nonneg_r; lia).
    assert (0 <= block_num frame * laser_num frame) by (by apply Z.mul_nonneg_nonneg).
    set (inner := foldM _ st.2 (seqZ 0 (laser_num frame))).
    assert (inner = fill kMaxPointsNumPerFrame (n * per_points_num frame + b * laser_num frame) (laser_num frame)
      (fun i => f b i (n * per_points_num frame + b * laser_num frame + i)) st.2) as ->.
    { apply foldM_ext. intros m i Hi. apply elem_of_seqZ in Hi. cbv zeta. by rewrite point_index_ok by lia. }
    destruct (fill _ _ _ _ st.2) as [m|]; cbn [mbind result_bind]; [|done].
    apply (IH (tt, m)). intros; apply Hb; by right.
  - unfold each_point, fill_blocks. change (points frame) with (tt, points frame).2 at 1. apply Hl.
    intros b Hb. apply elem_of_seqZ in Hb. lia.
Qed.

(** Computing the points of a packet changes those points only, each by itself. *)
Lemma each_point_spec pts : each_point frame n f = Ok pts ->
  (forall k, ~ (n * per_points_num frame <= k < (n + 1) * per_points_num frame) -> pts !! k = points frame !! k) /\
  (forall b i, 0 <= b < block_num frame -> 0 <= i < laser_num frame ->
    let k := n * per_points_num frame + b * laser_num frame + i in
    exists x, pts !! k = Some x /\ f b i k (points frame !! k) = Ok x).
Proof.
  rewrite each_point_blocks. intros H. inv_ok. destruct a as [[] m]. inv_ok.
  destruct (fill_blocks_spec _ _ _ _ _ Hlasers _ _ _ _ _ Hblocks E) as (Hout & Hin & _). split.
  - intros k Hk. apply Hout. lia.
  - intros b i Hb Hi. destruct (Hin b i Hb Hi) as (h & x & _ & E1 & E2). eauto.
Qed.

End EachPoint.

(** Rounds of equal length, one behind the other: what holds of each round holds
    of the walk. *)
Lemma rounds_spec {A} index n B (g : Z -> gmap Z A -> result (gmap Z A)) (Q : Z -> Z -> option A -> option A -> Prop) m m' :
  0 <= n -> 0 <= B ->
  (forall b m m', 0 <= b < B -> g b m = Ok m' ->
    (forall k, ~ (index + b * n <= k < index + b * n + n) -> m' !! k = m !! k) /\
    (forall l, 0 <= l < n -> Q b l (m !! (index + b * n + l)) (m' !! (index + b * n + l)))) ->
  foldM (fun m b => g b m) m (seqZ 0 B) = Ok m' ->
  (forall k, ~ (index <= k < index + B * n) -> m' !! k = m !! k) /\
  (forall b l, 0 <= b < B -> 0 <= l < n -> Q b l (m !! (index + b * n + l)) (m' !! (index + b * n + l))).
Proof.
  intros Hn HB. rewrite <-(Z2Nat.id B) by done. generalize (Z.to_nat B) as c. clear B HB. intros c. revert m'.
  induction c as [|c IH]; intros m' Hg.
  { intros [= <-]. split; [done|lia]. }
  rewrite seqZ_snoc, foldM_snoc. intros Hr. inv_ok.
  destruct (IH a) as [Hout Hin]; [intros b x y Hb; apply Hg; lia|done|].
  destruct (Hg (Z.of_nat c) a m' ltac:(lia) Hr) as [Hout1 Hin1].
  assert (0 <= Z.of_nat c * n) by (apply Z.mul_nonneg_nonneg; lia).
  rewrite Nat2Z.inj_succ, <-Z.add_1_r. split.
  - intros k Hk. rewrite Hout1 by lia. apply Hout. lia.
  - intros b l Hb Hl. destruct (Z.eq_dec b (Z.of_nat c)) as [->|].
    + rewrite <-Hout by lia. by apply Hin1.
    + assert ((b + 1) * n <= Z.of_nat c * n) by (apply Z.mul_le_mono_nonneg_r; lia).
      rewrite (Hout1 (index + b * n + l)) by lia. apply Hin; lia.
Qed.
