(* ===== verification/PcapSaver.v ===== *)
(** * PcapSaver: writing lidar packets to a capture file

    Source/src/pcap_saver.cc.  [save_packet] is the body the three writers
    share (the loop of [Save(recordPath, packets, port)], the dumping thread of
    [Save()], and, with a TCP header, [TcpDump]): a packet becomes a record
    header, a generated header and the packet's bytes, assembled in an array of
    1500 bytes.  What the array, and the time stamps the first writer does not
    set, hold before is an argument. *)

From S2P Require Import Prelude Bytes Pcap PcapSource LidarTypes.
Local Open Scope Z_scope.

Record PandarPacket : Type := mk_pandar {
  pkt_size : Z;
  pkt_port : Z;
  pkt_buffer : list Z;
}.

(** [PandarPacket(data, sz, prt)] *)
Definition new_PandarPacket (junk data : list Z) (sz prt : Z) : result PandarPacket :=
  src ← arr_slice data 0 sz;
  b ← arr_blit junk 0 src;
  Ok (mk_pandar sz prt b).

(** What is written for a packet of [len] bytes behind the header image [hdr]. *)
Definition write_record (ts : Z * Z) (junk hdr data : list Z) (len : Z) : result (list Z) :=
  d ← arr_blit junk 0 hdr;
  src ← arr_slice data 0 len;
  d ← arr_blit d (Z.of_nat (length hdr)) src;
  let n := u32 (len + Z.of_nat (length hdr)) in
  let pcap_record := mk_pcap_record ts.1 ts.2 n n in
  body ← arr_slice d 0 n;
  Ok (pcap_record_image pcap_record ++ body).

(** One turn of the loop of [Save(recordPath, packets, port)]: [packet_len] is an
    [int16_t] that becomes the [uint32_t] of [PandarPacket] and the [size_t] of
    [memcpy]. *)
Definition save_packet (ts : Z * Z) (junk : list Z) (port : Z) (p : UdpPacket) : result (list Z) :=
  pkt ← new_PandarPacket junk (buffer p) (u32 (packet_len p)) (u16 port);
  write_record ts junk (PcapUDPHeader_image (u16 (packet_len p)) (pkt_port pkt)) (pkt_buffer pkt)
    (packet_len p).

Definition file_header : PcapHeader := mk_pcap_header pcap_magic_number 2 4 0 0 0xffff 1.

(** [Save(recordPath, packets, port)]: the file's content before (or [None] when
    there is no such file) and after, [good] telling whether it can be opened.
    [ts] are the time stamps found in the record of each turn. *)
Fixpoint save_packets (ts : nat -> Z * Z) (junk : list Z) (port : Z) (i : nat) (ps : list UdpPacket)
    : result (list Z) :=
  match ps with
  | [] => Ok []
  | p :: ps =>
      r ← save_packet (ts i) junk port p;
      rs ← save_packets ts junk port (S i) ps;
      Ok (r ++ rs)
  end.

Definition Save_frame (ts : nat -> Z * Z) (junk : list Z) (good : bool) (file : option (list Z))
    (packets : list UdpPacket) (port : Z) : result (Z * option (list Z)) :=
  if negb good then Ok (-1, file)
  else
    let ofs := match file with None => pcap_header_image file_header | Some f => f end in
    rs ← save_packets ts junk port 0 packets;
    Ok (0, Some (ofs ++ rs)).

(** [Save(recordPath, UdpFrameArray_t, port)] *)
Fixpoint Save_frames (ts : nat -> Z * Z) (junk : list Z) (good : bool) (file : option (list Z))
    (frames : list (list UdpPacket)) (port : Z) : result (Z * option (list Z)) :=
  match frames with
  | [] => Ok (0, file)
  | f :: frames =>
      '(ret, file) ← Save_frame ts junk good file f port;
      if negb (ret =? 0) then Ok (ret, file) else Save_frames ts junk good file frames port
  end.

(** [TcpDump]: the data in pieces of [max_pkt_len] bytes; [i * max_pkt_len] and
    [remain_len] are [uint32_t]. *)
Fixpoint tcp_dump_loop (fuel : nat) (ts : nat -> Z * Z) (junk data : list Z)
    (max_pkt_len port : Z) (i : nat) (remain_len : Z) : result (list Z) :=
  if negb (0 <? remain_len) then Ok []
  else match fuel with
  | O => Err NoProgress
  | S fuel =>
      let pkt_len := if max_pkt_len <? remain_len then max_pkt_len else remain_len in
      d ← arr_slice data (u32 (Z.of_nat i * max_pkt_len)) pkt_len;
      r ← write_record (ts i) junk (PcapTCPHeader_image (u16 pkt_len) port) d pkt_len;
      rs ← tcp_dump_loop fuel ts junk data max_pkt_len port (S i) (u32 (remain_len - pkt_len));
      Ok (r ++ rs)
  end.

Definition TcpDump (ts : nat -> Z * Z) (junk data : list Z) (data_len max_pkt_len port : Z)
    : result (list Z) :=
  tcp_dump_loop (S (Z.to_nat data_len)) ts junk data max_pkt_len port 0 data_len.

(** ** The dumping thread of [Save()]

    The queue between [Dump] and the thread is the ring of BlockingRing.v; here
    it is a list.  The steps are the calls of the API and the turns of the
    thread: it writes while it is not blocked and the queue is not empty, and it
    ends once [dumping_] is false and the queue is empty, which is what [close]
    waits for. *)
Record PcapSaver : Type := mk_saver {
  packets_cache_ : list PandarPacket;
  dumping_ : bool;
  thread_running : bool;
  ofs_ : option (list Z);
}.

Definition PcapSaver_new : PcapSaver := mk_saver [] false false None.

Inductive saver_event : Type :=
| EvDump (data : list Z) (len port : Z)
| EvWrite (ts : Z * Z)
| EvTcpDump (ts : nat -> Z * Z) (data : list Z) (max_pkt_len port : Z)
| EvStop.

(** [Save()] once the previous recording is closed. *)
Definition start_saver (s : PcapSaver) (good : bool) : Z * PcapSaver :=
  if negb good then (-1, s)
  else (0, mk_saver (packets_cache_ s) true true (Some (pcap_header_image file_header))).

Definition write_pandar (ts : Z * Z) (junk : list Z) (p : PandarPacket) : result (list Z) :=
  write_record ts junk (PcapUDPHeader_image (u16 (pkt_size p)) (pkt_port p)) (pkt_buffer p) (pkt_size p).

Definition append (s : PcapSaver) (bytes : list Z) : PcapSaver :=
  mk_saver (packets_cache_ s) (dumping_ s) (thread_running s)
    (match ofs_ s with Some f => Some (f ++ bytes) | None => None end).

Definition saver_step (junk : list Z) (s : PcapSaver) (e : saver_event) : result PcapSaver :=
  match e with
  | EvDump data len port =>
      p ← new_PandarPacket junk data len port;
      Ok (mk_saver (packets_cache_ s ++ [p]) (dumping_ s) (thread_running s) (ofs_ s))
  | EvWrite ts =>
      match packets_cache_ s with
      | p :: ps =>
          if thread_running s then
            r ← write_pandar ts junk p;
            Ok (append (mk_saver ps (dumping_ s) (thread_running s) (ofs_ s)) r)
          else Ok s
      | [] => Ok (mk_saver [] (dumping_ s) (thread_running s && dumping_ s) (ofs_ s))
      end
  | EvTcpDump ts data max_pkt_len port =>
      r ← TcpDump ts junk data (Z.of_nat (length data)) max_pkt_len port;
      Ok (append s r)
  | EvStop => Ok (mk_saver (packets_cache_ s) false (thread_running s) (ofs_ s))
  end.

(** What a player that reads the file gets: the bytes and the port of each
    packet. *)
Fixpoint play (n : nat) (s : PcapSource) (buf : list Z)
    : result (list (list Z * Z) * PcapSource * list Z) :=
  match n with
  | O => Ok ([], s, buf)
  | S n =>
      '(len, s, buf) ← Receive s buf;
      '(l, s', buf') ← play n s buf;
      Ok ((take (Z.to_nat len) buf, distinationPort s) :: l, s', buf')
  end.

Definition packet_ok (p : UdpPacket) : Prop :=
  length (buffer p) = 1500%nat /\ byte_list (buffer p) /\ 0 <= packet_len p <= 1458.

(** The bytes of a packet. *)
Definition packet_bytes (p : UdpPacket) : list Z := take (Z.to_nat (packet_len p)) (buffer p).

(** ** Lemmas *)

Lemma write_record_ok ts junk hdr data len :
  length junk = 1500%nat -> 0 <= len <= Z.of_nat (length data) ->
  Z.of_nat (length hdr) + len <= 1500 ->
  let n := Z.of_nat (length hdr) + len in
  write_record ts junk hdr data len =
    Ok (pcap_record_image (mk_pcap_record ts.1 ts.2 n n) ++ hdr ++ take (Z.to_nat len) data).
Proof.
  intros Hj Hl Hn n. unfold write_record. rewrite arr_blit_ok by lia. cbn [mbind result_bind].
  change (Z.to_nat 0) with 0%nat. rewrite take_0, app_nil_l, Nat.add_0_l.
  rewrite arr_slice_ok by lia. cbn [mbind result_bind]. change (Z.to_nat 0) with 0%nat.
  rewrite drop_0. set (src := take (Z.to_nat len) data).
  assert (length src = Z.to_nat len) as Hs by (unfold src; rewrite length_take; lia).
  rewrite arr_blit_ok by (rewrite ?length_app, ?length_drop; lia). cbn [mbind result_bind].
  rewrite Nat2Z.id, take_app_length.
  replace (u32 (len + Z.of_nat (length hdr))) with n by (unfold u32, n; rewrite Z.mod_small; lia).
  rewrite arr_slice_ok by (rewrite ?length_app, ?length_drop, ?length_app, ?length_drop; lia).
  cbn [mbind result_bind]. change (Z.to_nat 0) with 0%nat. rewrite drop_0, app_assoc.
  rewrite take_app_length'; [done|]. rewrite length_app. unfold n. lia.
Qed.

Lemma save_packet_ok ts junk port p :
  length junk = 1500%nat -> is_u16 port -> packet_ok p ->
  save_packet ts junk port p =
    Ok (pcap_record_image (mk_pcap_record ts.1 ts.2 (packet_len p + 42) (packet_len p + 42))
      ++ PcapUDPHeader_image (packet_len p) port ++ packet_bytes p).
Proof.
  intros Hj Hport (Hb & _ & Hl). unfold save_packet, new_PandarPacket.
  unfold is_u16, u16, u32 in *. rewrite !Z.mod_small by lia.
  rewrite arr_slice_ok by lia. cbn [mbind result_bind]. change (Z.to_nat 0) with 0%nat. rewrite drop_0.
  assert (length (take (Z.to_nat (packet_len p)) (buffer p)) = Z.to_nat (packet_len p)) as Ht
    by (rewrite length_take; lia).
  rewrite arr_blit_ok by lia. cbn [mbind result_bind pkt_buffer pkt_port].
  change (Z.to_nat 0) with 0%nat. rewrite take_0, app_nil_l, Nat.add_0_l.
  rewrite write_record_ok by
    (rewrite ?PcapUDPHeader_image_length, ?length_app, ?length_drop; lia).
  rewrite PcapUDPHeader_image_length, (Z.add_comm _ (packet_len p)).
  unfold packet_bytes. rewrite take_app_length' by done. done.
Qed.

(** The generated headers, read at the offsets [next] uses. *)
Lemma generated_ether_type len port tail : rd16 (PcapUDPHeader_image len port ++ tail) 12 = Ok 0x0008.
Proof.
  change (PcapUDPHeader_image len port ++ tail)
    with (take 12 (Ethernet_image 8) ++ le_bytes 2 8 ++ drop 14 (PcapUDPHeader_image len port) ++ tail).
  by apply rd_le_bytes.
Qed.

Lemma generated_protocol len port tail :
  rd8 (PcapUDPHeader_image len port ++ tail) (sizeof_Ethernet + 9) = Ok 17.
Proof. done. Qed.

Lemma generated_udp len port tail :
  udp_cast (PcapUDPHeader_image len port ++ tail) sizeof_PcapIPHeader =
    Ok (mk_udp 0x1027 (swap16 port) (swap16 (len + 8)) 0).
Proof.
  pose proof (swap16_range port). pose proof (swap16_range (len + 8)).
  set (hdr := PcapUDPHeader_image len port).
  assert (forall v l1 l3 off, hdr = l1 ++ le_bytes 2 v ++ l3 -> off = Z.of_nat (length l1) -> is_u16 v ->
    rd_le 2 (hdr ++ tail) off = Ok v) as Hrd.
  { intros v l1 l3 off E -> Hv. rewrite E, <-!app_assoc. apply rd_le_bytes; [done|]. exact Hv. }
  pose (b := PcapIPHeader_image 0x11 (u16 (len + 8))). unfold udp_cast, rd16, sizeof_PcapIPHeader.
  rewrite (Hrd 0x1027 b (le_bytes 2 (swap16 port) ++ le_bytes 2 (swap16 (len + 8)) ++ le_bytes 2 0) 34) by done.
  rewrite (Hrd (swap16 port) (b ++ le_bytes 2 0x1027)
    (le_bytes 2 (swap16 (len + 8)) ++ le_bytes 2 0) (34 + 2)) by done.
  rewrite (Hrd (swap16 (len + 8)) (b ++ le_bytes 2 0x1027 ++ le_bytes 2 (swap16 port))
    (le_bytes 2 0) (34 + 4)) by done.
  rewrite (Hrd 0 (b ++ le_bytes 2 0x1027 ++ le_bytes 2 (swap16 port) ++ le_bytes 2 (swap16 (len + 8)))
    [] (34 + 6)) by done.
  done.
Qed.

Lemma distinationPort_swap s port :
  is_u16 port -> distination_port (pcap_udp_header_ s) = swap16 port -> distinationPort s = port.
Proof.
  intros Hport E. unfold distinationPort. rewrite E. rewrite <-(swap16_swap16 port Hport) at 3.
  pose proof (swap16_range port) as Hr. set (v := swap16 port) in *. unfold is_u16 in Hr.
  assert (0 <= v / 2 ^ 8 < 2 ^ 8).
  { split; [apply Z.div_pos; lia|apply Z.div_lt_upper_bound; lia]. }
  pose proof (Z.mod_pos_bound v (2 ^ 8)).
  unfold swap16, u16. change 0xff with (Z.ones 8). rewrite !Z.land_ones, !Z.shiftr_div_pow2 by lia.
  rewrite (Z.mod_small (v / 2 ^ 8)), lor_byte, (Z.mod_small (_ + _)) by lia. done.
Qed.

(** A payload that starts with a generated UDP header is delivered. *)
Lemma next_ipv4_generated s buf len port data tail :
  length (payload_ s) = 1500%nat -> length buf = 1500%nat -> is_u16 port ->
  payload_ s = PcapUDPHeader_image len port ++ data ++ tail ->
  len = Z.of_nat (length data) -> incl_len (pcap_record_ s) = len + 42 -> len <= 1458 ->
  exists s' buf', next_ipv4 s buf = Ok (len, s', buf') /\ take (Z.to_nat len) buf' = data /\
    distinationPort s' = port /\ same_position s s'.
Proof.
  intros Hp Hb Hport Hpay Hlen Hi Hl. unfold next_ipv4. rewrite Hpay, generated_protocol.
  cbn [mbind result_bind]. change (17 =? 17) with true. cbn match.
  unfold load_udp. rewrite Hpay, generated_udp. cbn [mbind result_bind]. set (u := mk_udp _ _ _ _).
  cbn [pcap_record_ set_udp]. unfold sizeof_PcapUDPHeader. rewrite Hi.
  destruct (Z.ltb_spec (len + 42) 42); [lia|].
  destruct (copy_payload_ok 42 (set_udp u s) buf) as (b & -> & _ & Ecp);
    cbn [pcap_record_ set_udp payload_]; [lia..|].
  cbn [mbind result_bind]. cbn [pcap_record_ set_udp payload_] in Ecp. rewrite Hi in Ecp.
  replace (len + 42 - 42) with len in * by lia. exists (set_udp u s), b.
  split; [done|]. split; [|split; [by apply distinationPort_swap|done]].
  rewrite Ecp, Hpay, drop_app_length' by done. rewrite take_app_length'; [done|lia].
Qed.

(** The record of a UDP packet, read back. *)
Lemma next_udp_record s buf pre post ts len port data :
  source_wf s -> length buf = 1500%nat -> is_u16 port -> is_u32 ts.1 -> is_u32 ts.2 ->
  len = Z.of_nat (length data) -> 0 <= len <= 1458 ->
  fileData s = pre ++ (pcap_record_image (mk_pcap_record ts.1 ts.2 (len + 42) (len + 42))
    ++ PcapUDPHeader_image len port ++ data) ++ post ->
  fpos_ s = Z.of_nat (length pre) ->
  exists s' buf', next s buf = Ok (len, s', buf') /\ source_wf s' /\ length buf' = 1500%nat /\
    take (Z.to_nat len) buf' = data /\ distinationPort s' = port /\ fileData s' = fileData s /\
    is_pcap_end s' = is_pcap_end s /\ fpos_ s' = fpos_ s + 58 + len.
Proof.
  intros Hwf Hb Hport Ht1 Ht2 Hlen Hl Hf Hpos.
  destruct (next_total s buf Hwf Hb) as (ret & s' & b' & E & Hwf' & Hlb & Hf' & _ & _ & _ & He).
  set (r := mk_pcap_record ts.1 ts.2 (len + 42) (len + 42)) in *.
  set (body := PcapUDPHeader_image len port ++ data) in *.
  assert (length body = (42 + length data)%nat) as Hbody by (unfold body; by rewrite length_app).
  assert (eof s = false) as Heof.
  { unfold eof. apply Z.eqb_neq. rewrite Hf, Hpos, !length_app, Hbody. lia. }
  pose proof E as E2. rewrite (next_reads_record s buf pre post r body) in E2;
    [|done|unfold pcap_record_wf, is_u32 in *; cbn; lia|unfold sizeof_Ethernet; cbn; lia|cbn; lia|done|done].
  set (s4 := loaded s r body) in *. cbn zeta in E2.
  assert (payload_ s4 = PcapUDPHeader_image len port ++ data ++ drop (length body) (payload_ s)) as Hpay.
  { unfold s4, loaded, body. cbn [payload_ set_payload]. by rewrite <-app_assoc. }
  pose proof Hwf as (Hp & _).
  destruct (next_ipv4_generated s4 buf len port data (drop (length body) (payload_ s)))
    as (s5 & b5 & E5 & Ht & Hd & Hsp); try done.
  { unfold s4, loaded. cbn [payload_ set_payload]. rewrite length_app, length_drop. lia. }
  { lia. }
  rewrite Hpay, generated_ether_type in E2. cbn [mbind result_bind] in E2.
  change (8 =? 8) with true in E2. cbn match in E2. rewrite E5 in E2. injection E2 as <- <- <-.
  exists s5, b5. split; [done|]. split; [done|]. split; [congruence|]. split; [done|].
  split; [done|]. split; [done|]. split; [rewrite He, Heof; apply orb_false_r|].
  destruct Hsp as (-> & _). unfold s4, loaded. cbn. lia.
Qed.

Lemma packet_bytes_length p : packet_ok p -> Z.of_nat (length (packet_bytes p)) = packet_len p.
Proof. intros (Hb & _ & Hl). unfold packet_bytes. rewrite length_take. lia. Qed.

Definition stamps_ok (ts : nat -> Z * Z) : Prop := forall i, is_u32 (ts i).1 /\ is_u32 (ts i).2.

Lemma save_packets_ok ts junk port ps : forall i,
  length junk = 1500%nat -> is_u16 port -> Forall packet_ok ps ->
  exists f, save_packets ts junk port i ps = Ok f /\
    Z.of_nat (length f) <= 1516 * Z.of_nat (length ps).
Proof.
  induction ps as [|p ps IH]; intros i Hj Hport Hps; cbn [save_packets]; [by exists []; cbn|].
  apply Forall_cons in Hps as [Hp Hps]. rewrite save_packet_ok by done. cbn [mbind result_bind].
  destruct (IH (S i) Hj Hport Hps) as (f & -> & Hf). cbn [mbind result_bind].
  eexists. split; [reflexivity|]. pose proof (packet_bytes_length p Hp). destruct Hp as (_ & _ & Hl).
  rewrite !length_app, pcap_record_image_length, PcapUDPHeader_image_length. cbn [length]. lia.
Qed.

(** Playing the records of [ps] from the position where they start. *)
Lemma play_records ts junk port ps : forall i s buf pre post f,
  length junk = 1500%nat -> is_u16 port -> stamps_ok ts -> Forall packet_ok ps ->
  source_wf s -> length buf = 1500%nat ->
  save_packets ts junk port i ps = Ok f -> fileData s = pre ++ f ++ post ->
  fpos_ s = Z.of_nat (length pre) ->
  exists s' buf', play (length ps) s buf = Ok ((fun p => (packet_bytes p, port)) <$> ps, s', buf') /\
    source_wf s' /\ fileData s' = fileData s /\ is_pcap_end s' = is_pcap_end s /\
    fpos_ s' = Z.of_nat (length (pre ++ f)).
Proof.
  induction ps as [|p ps IH]; intros i s buf pre post f Hj Hport Hts Hps Hwf Hb Hsave Hf Hpos;
    cbn [save_packets] in Hsave.
  { inv_ok. exists s, buf. rewrite app_nil_r. done. }
  apply Forall_cons in Hps as [Hp Hps]. rewrite save_packet_ok in Hsave by done.
  set (rec := pcap_record_image _ ++ _ ++ _) in *.
  cbn [mbind result_bind] in Hsave.
  destruct (save_packets ts junk port (S i) ps) as [fs|] eqn:Efs; [|done].
  cbn [mbind result_bind] in Hsave. apply (inj Ok) in Hsave as <-.
  pose proof (packet_bytes_length p Hp) as Hpl. pose proof Hp as (_ & _ & Hl).
  destruct (Hts i) as [Ht1 Ht2]. rewrite <-app_assoc in Hf.
  destruct (next_udp_record s buf pre (fs ++ post) (ts i) (packet_len p) port (packet_bytes p))
    as (s1 & b1 & E1 & Hwf1 & Hb1 & Htk & Hd & Hf1 & He1 & Hpos1); try done.
  cbn [play length]. unfold Receive. rewrite E1. cbn [mbind result_bind].
  assert (length rec = 58 + length (packet_bytes p))%nat as Hrec.
  { unfold rec. by rewrite !length_app, pcap_record_image_length, PcapUDPHeader_image_length. }
  destruct (IH (S i) s1 b1 (pre ++ rec) post fs) as (s2 & b2 & E2 & Hwf2 & Hf2 & He2 & Hpos2); try done.
  { rewrite Hf1, Hf. by rewrite <-!app_assoc. }
  { rewrite Hpos1, length_app. lia. }
  rewrite E2. cbn [mbind result_bind]. exists s2, b2. rewrite Htk, Hd. split; [done|].
  split; [done|]. split; [congruence|]. split; [congruence|]. by rewrite Hpos2, <-app_assoc.
Qed.

(** Opening a file that starts with the header the saver writes. *)
Lemma open_saved fs s f :
  fs (pcap_path_ s) = Some (pcap_header_image file_header ++ f) ->
  length (payload_ s) = 1500%nat -> byte_list (payload_ s) -> byte_list f ->
  24 + Z.of_nat (length f) < 2 ^ 63 ->
  exists s', Open fs s = Ok (true, s') /\ source_wf s' /\
    fileData s' = pcap_header_image file_header ++ f /\ fpos_ s' = 24 /\ is_pcap_end s' = is_pcap_end s.
Proof.
  intros Hfs Hp Hpb Hf Hlen. set (hdr := pcap_header_image file_header) in *.
  assert (length hdr = 24%nat) as Hh by done.
  assert (byte_list hdr) as Hhb.
  { unfold hdr, pcap_header_image. rewrite !byte_list_app. auto 10 using le_bytes_byte_list. }
  unfold Open, private_open. set (s0 := private_close (Close s)).
  assert (payload_ s0 = payload_ s /\ is_pcap_end s0 = is_pcap_end s /\ fpos_ s0 = 0 /\
    pcap_path_ s0 = pcap_path_ s) as (E1 & E2 & E3 & E4).
  { unfold s0, Close, private_close. destruct s as [? ? o]; by destruct o. }
  rewrite E4, Hfs. cbn [opened set_file negb].
  assert (source_wf (set_file (hdr ++ f) true s0)) as Hwf.
  { unfold source_wf. cbn [payload_ set_file fileData fpos_]. rewrite E1, E3, length_app.
    split; [done|]. split; [done|]. split; [by apply byte_list_app|]. lia. }
  rewrite private_read_spec by (done || by unfold sizeof_PcapHeader).
  unfold sizeof_PcapHeader. cbn [fpos_ set_file fileData]. rewrite E3, length_app.
  rewrite decide_True by lia. cbn [mbind result_bind]. change (Z.to_nat 0) with 0%nat.
  rewrite drop_0, take_app_length' by done.
  change (pcap_header_cast hdr 0) with (Ok file_header). cbn [mbind result_bind].
  eexists. split; [reflexivity|]. split; [|done].
  unfold source_wf. cbn [payload_ set_header set_fpos set_file fileData fpos_]. rewrite E1, length_app.
  split; [done|]. split; [done|]. split; [by apply byte_list_app|]. lia.
Qed.

Lemma save_packets_bytes ts junk port ps : forall i f,
  length junk = 1500%nat -> is_u16 port -> Forall packet_ok ps ->
  save_packets ts junk port i ps = Ok f -> byte_list f.
Proof.
  induction ps as [|p ps IH]; intros i f Hj Hport Hps; cbn [save_packets].
  { intros [= <-]. constructor. }
  apply Forall_cons in Hps as [Hp Hps]. rewrite save_packet_ok by done. cbn [mbind result_bind].
  destruct (save_packets ts junk port (S i) ps) as [fs|] eqn:E; [|done]. cbn [mbind result_bind].
  intros <-%(inj Ok). destruct Hp as (_ & Hpb & _). rewrite !byte_list_app.
  split; [|by eapply IH]. split; [|split; [apply PcapUDPHeader_bytes|by apply byte_list_take]].
  unfold pcap_record_image. rewrite !byte_list_app. auto using le_bytes_byte_list.
Qed.

(** The record of one piece of a TCP dump. *)
Definition tcp_record (ts : nat -> Z * Z) (port : Z) (i : nat) (d : list Z) : list Z :=
  let n := 54 + Z.of_nat (length d) in
  pcap_record_image (mk_pcap_record (ts i).1 (ts i).2 n n)
  ++ PcapTCPHeader_image (Z.of_nat (length d)) port ++ d.

Fixpoint tcp_records (ts : nat -> Z * Z) (port : Z) (i : nat) (ds : list (list Z)) : list Z :=
  match ds with [] => [] | d :: ds => tcp_record ts port i d ++ tcp_records ts port (S i) ds end.

Lemma tcp_dump_loop_ok ts junk data max port fuel : forall i remain,
  length junk = 1500%nat -> 0 < max <= 1446 -> Z.of_nat (length data) < 2 ^ 32 ->
  0 <= remain <= Z.of_nat (length data) -> remain < Z.of_nat fuel ->
  (remain = 0 \/ Z.of_nat i * max + remain = Z.of_nat (length data)) ->
  exists ds, tcp_dump_loop fuel ts junk data max port i remain = Ok (tcp_records ts port i ds) /\
    concat ds = drop (length data - Z.to_nat remain) data /\
    Forall (fun d => 0 < Z.of_nat (length d) <= max) ds.
Proof.
  induction fuel as [|fuel IH]; intros i remain Hj Hm Hd Hr Hf Hi; [lia|].
  cbn [tcp_dump_loop]. destruct (Z.ltb_spec 0 remain); cbn [negb].
  2: { exists []. replace remain with 0 by lia. rewrite drop_ge by lia. done. }
  destruct Hi as [|Hi]; [lia|]. set (k := if max <? remain then max else remain).
  assert (0 < k <= max /\ k <= remain) as [Hk1 Hk2] by (unfold k; destruct (Z.ltb_spec max remain); lia).
  unfold u32. rewrite !Z.mod_small by nia.
  rewrite arr_slice_ok by lia. cbn [mbind result_bind]. set (d := take _ _).
  assert (Z.of_nat (length d) = k) as Hdl by (unfold d; rewrite length_take, length_drop; lia).
  rewrite write_record_ok by (rewrite ?PcapTCPHeader_image_length; lia). cbn [mbind result_bind].
  rewrite (take_ge d) by lia. unfold u16. rewrite Z.mod_small by lia.
  destruct (IH (S i) (remain - k)) as (ds & -> & Hc & Hall); [done|done|done|lia|lia| |].
  { destruct (Z.eq_dec k remain); [left; lia|]. right.
    assert (k = max) by (unfold k in *; destruct (Z.ltb_spec max remain); lia). lia. }
  cbn [mbind result_bind]. exists (d :: ds). split; [|split].
  - cbn [tcp_records]. unfold tcp_record. rewrite Hdl, PcapTCPHeader_image_length. done.
  - cbn [concat]. rewrite Hc. unfold d.
    replace (length data - Z.to_nat remain)%nat with (Z.to_nat (Z.of_nat i * max)) by lia.
    replace (length data - Z.to_nat (remain - k))%nat with (Z.to_nat (Z.of_nat i * max) + Z.to_nat k)%nat by lia.
    rewrite <-drop_drop. apply take_drop.
  - constructor; [lia|done].
Qed.

(** ** Properties *)

(** C12: recording a frame and playing the file gives the packets back: the
    file that [Save] creates for packets of at most 1458 bytes opens, the calls
    of [Receive] deliver the bytes of each packet in order, with the port they
    were saved with, and the next call reports the end of the file. *)
Theorem save_play_roundtrip ts junk port ps fs s buf :
  length junk = 1500%nat -> is_u16 port -> stamps_ok ts -> Forall packet_ok ps ->
  length (payload_ s) = 1500%nat -> byte_list (payload_ s) -> length buf = 1500%nat ->
  Z.of_nat (length ps) < 2 ^ 32 ->
  fs (pcap_path_ s) = match Save_frame ts junk true None ps port with Ok (_, f) => f | Err _ => None end ->
  exists f s1 s2 buf2, Save_frame ts junk true None ps port = Ok (0, Some f) /\
    Open fs s = Ok (true, s1) /\
    play (length ps) s1 buf = Ok ((fun p => (packet_bytes p, port)) <$> ps, s2, buf2) /\
    Receive s2 buf2 = Ok (-1, set_end true s2, buf2).
Proof.
  intros Hj Hport Hts Hps Hp Hpb Hb Hn. unfold Save_frame. cbn [negb].
  destruct (save_packets_ok ts junk port ps 0 Hj Hport Hps) as (f & Ef & Hlf). rewrite Ef.
  cbn [mbind result_bind]. intros Hfs.
  assert (byte_list f) as Hfb by by eapply (save_packets_bytes ts junk port ps 0).
  destruct (open_saved fs s f Hfs Hp Hpb Hfb) as (s1 & Eo & Hwf & Hfd & Hpos & He); [lia|].
  destruct (play_records ts junk port ps 0 s1 buf (pcap_header_image file_header) [] f)
    as (s2 & b2 & E2 & Hwf2 & Hf2 & He2 & Hpos2); try done.
  { by rewrite app_nil_r. }
  eexists _, s1, s2, b2. split; [reflexivity|]. split; [done|]. split; [done|].
  unfold Receive, next, eof. rewrite Hpos2, Hf2, Hfd, Z.eqb_refl. done.
Qed.

(** A packet can be recorded exactly when its length is between 0 and 1458:
    the generated header takes 42 of the 1500 bytes the record is assembled in,
    so a longer packet, which fits the receive buffer, is written past the end
    of that array. *)
Theorem save_packet_bounds ts junk port p :
  length junk = 1500%nat -> length (buffer p) = 1500%nat -> - 2 ^ 15 <= packet_len p < 2 ^ 15 ->
  is_ok (save_packet ts junk port p) = (0 <=? packet_len p) && (packet_len p <=? 1458).
Proof.
  intros Hj Hb Hl. unfold save_packet, new_PandarPacket, u32.
  destruct (Z.leb_spec 0 (packet_len p)); cbn [andb].
  2: { unfold arr_slice at 1. rewrite decide_False; [done|].
       rewrite <-(Z.mod_add _ 1) by lia. rewrite Z.mod_small by lia. lia. }
  rewrite Z.mod_small by lia.
  destruct (Z.le_gt_cases (packet_len p) 1500).
  2: { unfold arr_slice at 1. rewrite decide_False by lia. cbn. symmetry. apply Z.leb_gt. lia. }
  rewrite arr_slice_ok by lia. cbn [mbind result_bind]. change (Z.to_nat 0) with 0%nat. rewrite drop_0.
  assert (length (take (Z.to_nat (packet_len p)) (buffer p)) = Z.to_nat (packet_len p)) as Ht
    by (rewrite length_take; lia).
  rewrite arr_blit_ok by lia. cbn [mbind result_bind pkt_buffer pkt_port].
  change (Z.to_nat 0) with 0%nat. rewrite take_0, app_nil_l, Nat.add_0_l.
  destruct (Z.leb_spec (packet_len p) 1458).
  - rewrite write_record_ok by
      (rewrite ?PcapUDPHeader_image_length, ?length_app, ?length_drop; lia). done.
  - unfold write_record. rewrite arr_blit_ok by (rewrite ?PcapUDPHeader_image_length; lia).
    cbn [mbind result_bind]. rewrite arr_slice_ok by (rewrite ?length_app, ?length_drop; lia).
    cbn [mbind result_bind]. unfold arr_blit at 1. rewrite decide_False; [done|].
    rewrite !length_app, !length_take, !length_drop, !length_app, !PcapUDPHeader_image_length, !length_drop.
    change (Z.to_nat 0) with 0%nat. lia.
Qed.

Definition write_all (junk : list Z) (tss : list (Z * Z)) (ps : list PandarPacket) : result (list Z) :=
  foldM (fun f tp => r ← write_pandar tp.1 junk tp.2; Ok (f ++ r)) [] (zip tss ps).

Lemma write_fold_app junk l : forall f,
  foldM (fun f (tp : (Z * Z) * PandarPacket) => r ← write_pandar tp.1 junk tp.2; Ok (f ++ r)) f l =
  (g ← foldM (fun f (tp : (Z * Z) * PandarPacket) => r ← write_pandar tp.1 junk tp.2; Ok (f ++ r)) [] l;
   Ok (f ++ g)).
Proof.
  induction l as [|[t p] l IH]; intros f; cbn [foldM fst snd]; [cbn; by rewrite app_nil_r|].
  destruct (write_pandar t junk p) as [r|]; cbn [mbind result_bind fst snd]; [|done].
  rewrite (IH (f ++ r)), (IH ([] ++ r)). cbn [app].
  destruct (foldM _ [] l); cbn; [by rewrite app_assoc|done].
Qed.

(** When recording stops, the dumping thread writes every packet still in
    the queue, in the order they were dumped, and then ends: [close], which
    waits for it, loses none. *)
Theorem close_flushes_queue junk tss last_ts s f g :
  thread_running s = true -> dumping_ s = false -> ofs_ s = Some f ->
  length tss = length (packets_cache_ s) ->
  write_all junk tss (packets_cache_ s) = Ok g ->
  foldM (saver_step junk) s ((EvWrite <$> tss) ++ [EvWrite last_ts]) =
    Ok (mk_saver [] false false (Some (f ++ g))).
Proof.
  intros Hr Hd. unfold write_all. destruct s as [cache d r o]. cbn in Hr, Hd |- *. subst d r.
  intros Ho. subst o. revert f g cache. induction tss as [|t tss IH]; intros f g [|p cache] Hl Hw; try done.
  - cbn in Hw. inv_ok. cbn. by rewrite app_nil_r.
  - cbn [zip zip_with foldM fst snd] in Hw. cbn [fmap list_fmap app foldM saver_step packets_cache_ thread_running].
    destruct (write_pandar t junk p) as [r|] eqn:Ew; [|done]. cbn [mbind result_bind fst snd] in Hw |- *.
    cbn [app] in Hw. rewrite write_fold_app in Hw.
    destruct (foldM _ [] (zip tss cache)) as [g'|] eqn:Eg; [|done]. cbn [mbind result_bind] in Hw. inv_ok.
    unfold append. cbn [packets_cache_ dumping_ thread_running ofs_].
    rewrite (IH (f ++ r) g' cache); [by rewrite <-app_assoc|by cbn in Hl; lia|done].
Qed.

(** [TcpDump] cuts the data into pieces of at most [max_pkt_len] bytes whose
    concatenation is the data, and writes one record per piece, provided the
    limit is between 1 and 1446; with a limit of zero it never ends. *)
Theorem tcp_dump_pieces ts junk data max port :
  length junk = 1500%nat -> Z.of_nat (length data) < 2 ^ 32 -> data <> [] ->
  (0 < max <= 1446 -> exists ds,
    TcpDump ts junk data (Z.of_nat (length data)) max port = Ok (tcp_records ts port 0 ds) /\
    concat ds = data /\ Forall (fun d => 0 < Z.of_nat (length d) <= max) ds) /\
  (max = 0 -> TcpDump ts junk data (Z.of_nat (length data)) max port = Err NoProgress).
Proof.
  intros Hj Hd Hne. unfold TcpDump. split.
  - intros Hm. destruct (tcp_dump_loop_ok ts junk data max port (S (Z.to_nat (Z.of_nat (length data)))) 0
      (Z.of_nat (length data))) as (ds & -> & Hc & Hall); [done|done|done|lia|lia|right; lia|].
    exists ds. split; [done|]. split; [|done]. rewrite Hc, Nat2Z.id, Nat.sub_diag. done.
  - intros ->. assert (0 < Z.of_nat (length data)) by (destruct data; [done|cbn; lia]).
    generalize 0%nat as i. induction (S (Z.to_nat (Z.of_nat (length data)))) as [|fuel IH]; intros i;
      cbn [tcp_dump_loop]; (destruct (Z.ltb_spec 0 (Z.of_nat (length data))); [|lia]); cbn [negb]; [done|].
    replace (u32 (Z.of_nat i * 0)) with 0 by (rewrite Z.mul_0_r; done).
    rewrite arr_slice_ok by lia. cbn [mbind result_bind].
    rewrite write_record_ok by (rewrite ?PcapTCPHeader_image_length; cbn; lia). cbn [mbind result_bind].
    unfold u32. rewrite Z.sub_0_r, Z.mod_small by lia. rewrite IH. done.
Qed.

(** ** Witnesses *)

Definition demo_junk : list Z := replicate 1500 9.
Definition demo_packet (b : Z) (len : Z) : UdpPacket := mk_packet (replicate 1500 b) len false 0 0 0.

Lemma demo_packet_ok b len : is_u8 b -> 0 <= len <= 1458 -> packet_ok (demo_packet b len).
Proof. intros Hb Hl. split; [apply length_replicate|]. split; [by apply Forall_replicate|done]. Qed.

Definition demo_saved : option (list Z) :=
  match Save_frame (fun _ => (5, 6)) demo_junk true None [demo_packet 1 3; demo_packet 2 0; demo_packet 3 1458] 2368
  with Ok (_, f) => f | Err _ => None end.

Lemma save_play_roundtrip_witness :
  exists f s1 s2 buf2,
    Save_frame (fun _ => (5, 6)) demo_junk true None [demo_packet 1 3; demo_packet 2 0; demo_packet 3 1458] 2368
      = Ok (0, Some f) /\
    Open (fun _ => demo_saved) (demo_source []) = Ok (true, s1) /\
    play 3 s1 demo_buffer = Ok ([([1; 1; 1], 2368); ([], 2368); (replicate 1458 3, 2368)], s2, buf2) /\
    Receive s2 buf2 = Ok (-1, set_end true s2, buf2).
Proof.
  apply (save_play_roundtrip (fun _ => (5, 6)) demo_junk 2368
    [demo_packet 1 3; demo_packet 2 0; demo_packet 3 1458] (fun _ => demo_saved) (demo_source []) demo_buffer).
  - done.
  - unfold is_u16. lia.
  - intros i. unfold is_u32. cbn. lia.
  - do 3 (apply Forall_cons; split; [apply demo_packet_ok; unfold is_u8; lia|]). constructor.
  - done.
  - apply Forall_replicate. unfold is_u8. lia.
  - done.
  - cbn. lia.
  - reflexivity.
Defined.

Lemma save_packet_bounds_witness :
  is_ok (save_packet (0, 0) demo_junk 2368 (demo_packet 1 1500)) = false /\
  is_ok (save_packet (0, 0) demo_junk 2368 (demo_packet 1 1458)) = true.
Proof.
  split.
  - apply (save_packet_bounds (0, 0) demo_junk 2368 (demo_packet 1 1500)); [done|done|cbn; lia].
  - apply (save_packet_bounds (0, 0) demo_junk 2368 (demo_packet 1 1458)); [done|done|cbn; lia].
Defined.

Definition demo_pandar (b : Z) : PandarPacket := mk_pandar 1 2368 (b :: replicate 1499 0).
Definition demo_flushed : list Z :=
  match write_all demo_junk [(0, 1); (0, 2)] [demo_pandar 7; demo_pandar 8] with Ok g => g | Err _ => [] end.

Lemma close_flushes_queue_witness :
  foldM (saver_step demo_junk) (mk_saver [demo_pandar 7; demo_pandar 8] false true (Some [1]))
    [EvWrite (0, 1); EvWrite (0, 2); EvWrite (0, 3)] = Ok (mk_saver [] false false (Some ([1] ++ demo_flushed))).
Proof.
  apply (close_flushes_queue demo_junk [(0, 1); (0, 2)] (0, 3)
    (mk_saver [demo_pandar 7; demo_pandar 8] false true (Some [1])) [1] demo_flushed); try done.
Defined.

Lemma tcp_dump_pieces_witness :
  (exists ds, TcpDump (fun _ => (0, 0)) demo_junk [1; 2; 3] 3 2 2368
      = Ok (tcp_records (fun _ => (0, 0)) 2368 0 ds) /\
    concat ds = [1; 2; 3] /\ Forall (fun d => 0 < Z.of_nat (length d) <= 2) ds) /\
  TcpDump (fun _ => (0, 0)) demo_junk [1; 2; 3] 3 0 2368 = Err NoProgress.
Proof.
  split.
  - apply (tcp_dump_pieces (fun _ => (0, 0)) demo_junk [1; 2; 3] 2 2368); [done|done|done|lia].
  - apply (tcp_dump_pieces (fun _ => (0, 0)) demo_junk [1; 2; 3] 0 2368); done.
Defined.
