(* ===== verification/PacketLoss.v ===== *)
(** * PacketLoss: the packet loss and time loss counters

    [CalPktLoss] and [CalPktTimeLoss] of UdpParser/src/general_parser.cc with
    the two message structures of general_parser.h, and the copy of [CalPktLoss]
    that udp1_4_parser.cc and the other parsers call through their base class.
    [now k] is what the [k]-th call of [GetMicroTickCount] inside one
    invocation returns. *)

From S2P Require Import Prelude.
Local Open Scope Z_scope.

Record PacketSeqnumLossMessage : Type := mk_seqloss {
  start_seqnum : Z;
  last_seqnum : Z;
  loss_count : Z;
  start_time : Z;
  total_loss_count : Z;
  total_start_seqnum : Z;
  is_packet_loss : bool;
}.

Record PacketTimeLossMessage : Type := mk_timeloss {
  start_timestamp : Z;
  last_timestamp : Z;
  timeloss_count : Z;
  timeloss_start_time : Z;
  total_timeloss_count : Z;
  total_start_timestamp : Z;
  last_total_package_count : Z;
}.

Definition new_PacketSeqnumLossMessage : PacketSeqnumLossMessage := mk_seqloss 0 0 0 0 0 0 false.
Definition new_PacketTimeLossMessage : PacketTimeLossMessage := mk_timeloss 0 0 0 0 0 0 0.

(** The members of [GeneralParser] the two functions use. *)
Record LossState : Type := mk_loss {
  enable_packet_loss_tool_ : bool;
  enable_packet_timeloss_tool_ : bool;
  packet_timeloss_tool_continue_ : bool;
  total_packet_count_ : Z;
  seqnum_loss_message_ : PacketSeqnumLossMessage;
  time_loss_message_ : PacketTimeLossMessage;
}.

Definition new_LossState : LossState :=
  mk_loss false false false 0 new_PacketSeqnumLossMessage new_PacketTimeLossMessage.

Definition set_seq (n : Z) (m : PacketSeqnumLossMessage) (s : LossState) : LossState :=
  mk_loss (enable_packet_loss_tool_ s) (enable_packet_timeloss_tool_ s)
    (packet_timeloss_tool_continue_ s) n m (time_loss_message_ s).
Definition set_time (m : PacketTimeLossMessage) (s : LossState) : LossState :=
  mk_loss (enable_packet_loss_tool_ s) (enable_packet_timeloss_tool_ s)
    (packet_timeloss_tool_continue_ s) (total_packet_count_ s) (seqnum_loss_message_ s) m.

Definition EnablePacketLossTool (b : bool) (s : LossState) : LossState :=
  mk_loss b (enable_packet_timeloss_tool_ s) (packet_timeloss_tool_continue_ s)
    (total_packet_count_ s) (seqnum_loss_message_ s) (time_loss_message_ s).
Definition EnablePacketTimeLossTool (b : bool) (s : LossState) : LossState :=
  mk_loss (enable_packet_loss_tool_ s) b (packet_timeloss_tool_continue_ s)
    (total_packet_count_ s) (seqnum_loss_message_ s) (time_loss_message_ s).
Definition PacketTimeLossToolContinue (b : bool) (s : LossState) : LossState :=
  mk_loss (enable_packet_loss_tool_ s) (enable_packet_timeloss_tool_ s) b
    (total_packet_count_ s) (seqnum_loss_message_ s) (time_loss_message_ s).

Definition kLogInterval : Z := 1 * 1000 * 1000.

Definition CalPktLoss (now : nat -> Z) (PacketSeqnum : Z) (s : LossState) : LossState :=
  if negb (enable_packet_loss_tool_ s) then s
  else
    let m := seqnum_loss_message_ s in
    let total :=
      if (last_seqnum m <? PacketSeqnum) && negb (last_seqnum m =? 0)
      then u32 (total_packet_count_ s + u32 (PacketSeqnum - last_seqnum m))
      else total_packet_count_ s in
    if start_seqnum m =? 0 then
      set_seq total (mk_seqloss PacketSeqnum PacketSeqnum 0 (now O) 0 PacketSeqnum false) s
    else
      let '(loss, tloss, is_loss) :=
        if 1 <? u32 (PacketSeqnum - last_seqnum m) then
          let n := u32 (PacketSeqnum - last_seqnum m - 1) in
          (u32 (loss_count m + n), u32 (total_loss_count m + n), true)
        else (loss_count m, total_loss_count m, false) in
      (* the tick count is read only when [loss] is not zero *)
      if negb (loss =? 0) && (kLogInterval <=? u32 (now O - start_time m)) then
        set_seq total
          (mk_seqloss PacketSeqnum PacketSeqnum 0 (now (S O)) tloss (total_start_seqnum m) is_loss) s
      else
        set_seq total
          (mk_seqloss (start_seqnum m) PacketSeqnum loss (start_time m) tloss (total_start_seqnum m) is_loss) s.

Definition CalPktTimeLoss (now : nat -> Z) (PacketTimestamp : Z) (s : LossState) : LossState :=
  let m := time_loss_message_ s in
  if negb (enable_packet_timeloss_tool_ s) then s
  else if negb (packet_timeloss_tool_continue_ s) && negb (total_timeloss_count m =? 0) then s
  else if start_timestamp m =? 0 then
    set_time (mk_timeloss PacketTimestamp PacketTimestamp 0 (now O) 0 PacketTimestamp
      (last_total_package_count m)) s
  else if is_packet_loss (seqnum_loss_message_ s) then
    set_time (mk_timeloss PacketTimestamp PacketTimestamp 0 (now O) (total_timeloss_count m)
      (total_start_timestamp m) (total_packet_count_ s)) s
  else
    let '(cnt, tcnt) :=
      if PacketTimestamp <=? last_timestamp m
      then (u32 (timeloss_count m + 1), u32 (total_timeloss_count m + 1))
      else (timeloss_count m, total_timeloss_count m) in
    if negb (cnt =? 0) && (kLogInterval <=? u32 (now O - timeloss_start_time m)) then
      set_time (mk_timeloss PacketTimestamp PacketTimestamp 0 (now (S O)) tcnt
        (total_start_timestamp m) (total_packet_count_ s)) s
    else
      set_time (mk_timeloss (start_timestamp m) PacketTimestamp cnt (timeloss_start_time m) tcnt
        (total_start_timestamp m) (last_total_package_count m)) s.

(** The counters after a sequence of packets; packet [i] reads the ticks
    [clock i]. *)
Fixpoint run_loss (clock : nat -> nat -> Z) (i : nat) (seqs : list Z) (s : LossState) : LossState :=
  match seqs with
  | [] => s
  | q :: seqs => run_loss clock (S i) seqs (CalPktLoss (clock i) q s)
  end.

Fixpoint run_timeloss (clock : nat -> nat -> Z) (i : nat) (tss : list Z) (s : LossState) : LossState :=
  match tss with
  | [] => s
  | t :: tss => run_timeloss clock (S i) tss (CalPktTimeLoss (clock i) t s)
  end.

(** Strictly increasing 32-bit sequence numbers from [prev] on. *)
Fixpoint increasing (prev : Z) (seqs : list Z) : Prop :=
  match seqs with [] => True | q :: seqs => prev < q < 2 ^ 32 /\ increasing q seqs end.

(** The numbers of a range that are not in the sequence. *)
Definition missing (first : Z) (seqs : list Z) : Z :=
  default first (last seqs) - first - Z.of_nat (length seqs).

(** How often a time stamp is not later than the one before it. *)
Fixpoint regressions (prev : Z) (tss : list Z) : Z :=
  match tss with
  | [] => 0
  | t :: tss => (if t <=? prev then 1 else 0) + regressions t tss
  end.

(** ** Lemmas *)

Lemma last_cons_default {A} (x : A) l : default x (last (x :: l)) = default x (last l).
Proof. destruct l; [done|]. by rewrite last_cons_cons. Qed.

Lemma default_last_irrel {A} (x y : A) z l : default x (last (z :: l)) = default y (last (z :: l)).
Proof. rewrite last_cons. by destruct (last l). Qed.

Lemma increasing_last prev seqs :
  increasing prev seqs -> prev + Z.of_nat (length seqs) <= default prev (last seqs).
Proof.
  revert prev. induction seqs as [|q seqs IH]; intros prev; cbn [increasing length]; [cbn; lia|].
  intros [Hq Hs]. specialize (IH q Hs).
  rewrite (default_last_irrel prev q), last_cons_default. lia.
Qed.

Lemma increasing_last_u32 prev seqs :
  0 <= prev < 2 ^ 32 -> increasing prev seqs -> default prev (last seqs) < 2 ^ 32.
Proof.
  revert prev. induction seqs as [|q seqs IH]; intros prev Hp; cbn [increasing]; [cbn; lia|].
  intros [Hq Hs]. rewrite (default_last_irrel prev q), last_cons_default. apply IH; [lia|done].
Qed.

(** One packet in order, when a first one has been seen. *)
Lemma CalPktLoss_step now q s :
  let m := seqnum_loss_message_ s in
  enable_packet_loss_tool_ s = true -> start_seqnum m <> 0 -> 0 < last_seqnum m < q -> q < 2 ^ 32 ->
  0 <= total_packet_count_ s -> total_packet_count_ s + (q - last_seqnum m) < 2 ^ 32 ->
  0 <= total_loss_count m -> total_loss_count m + (q - last_seqnum m - 1) < 2 ^ 32 ->
  let s' := CalPktLoss now q s in
  let m' := seqnum_loss_message_ s' in
  enable_packet_loss_tool_ s' = true /\ start_seqnum m' <> 0 /\ last_seqnum m' = q /\
  total_packet_count_ s' = total_packet_count_ s + (q - last_seqnum m) /\
  total_loss_count m' = total_loss_count m + (q - last_seqnum m - 1) /\
  is_packet_loss m' = (1 <? q - last_seqnum m) /\ total_start_seqnum m' = total_start_seqnum m.
Proof.
  intros m He Hs Hl Hq Ht1 Ht2 Hc1 Hc2. unfold CalPktLoss. rewrite He. cbn [negb]. fold m.
  destruct (Z.eqb_spec (start_seqnum m) 0); [done|].
  destruct (Z.ltb_spec (last_seqnum m) q); [|lia]. destruct (Z.eqb_spec (last_seqnum m) 0); [lia|].
  cbn [negb andb].
  assert (u32 (q - last_seqnum m) = q - last_seqnum m) as -> by (unfold u32; rewrite Z.mod_small; lia).
  assert (u32 (q - last_seqnum m - 1) = q - last_seqnum m - 1) as -> by (unfold u32; rewrite Z.mod_small; lia).
  assert (u32 (total_packet_count_ s + (q - last_seqnum m)) = total_packet_count_ s + (q - last_seqnum m)) as ->
    by (unfold u32; rewrite Z.mod_small; lia).
  assert (u32 (total_loss_count m + (q - last_seqnum m - 1)) = total_loss_count m + (q - last_seqnum m - 1)) as ->
    by (unfold u32; rewrite Z.mod_small; lia).
  destruct (Z.ltb_spec 1 (q - last_seqnum m)); cbn; (destruct (_ && _); cbn; repeat split; try done; try lia).
Qed.

Lemma run_loss_spec clock seqs : forall i s,
  let m := seqnum_loss_message_ s in
  enable_packet_loss_tool_ s = true -> start_seqnum m <> 0 -> 0 < last_seqnum m < 2 ^ 32 ->
  increasing (last_seqnum m) seqs -> total_packet_count_ s = last_seqnum m - total_start_seqnum m ->
  0 <= total_loss_count m <= total_packet_count_ s -> 0 <= total_start_seqnum m ->
  let s' := run_loss clock i seqs s in
  let m' := seqnum_loss_message_ s' in
  total_packet_count_ s' = default (last_seqnum m) (last seqs) - total_start_seqnum m /\
  total_loss_count m' = total_loss_count m + missing (last_seqnum m) seqs.
Proof.
  induction seqs as [|q seqs IH]; cbn zeta; intros i s He Hs Hl Hinc Ht Hc Hst; cbn [run_loss].
  all: set (m := seqnum_loss_message_ s) in *.
  { unfold missing. change (default (last_seqnum m) (last [])) with (last_seqnum m).
    change (Z.of_nat (length [])) with 0. split; lia. }
  cbn [increasing] in Hinc. destruct Hinc as [Hq Hinc].
  destruct (CalPktLoss_step (clock i) q s) as (He' & Hs' & Hl' & Ht' & Hc' & _ & Hst'); fold m; try done; try lia.
  fold m in Ht', Hc', Hst'.
  rewrite <-Hl' in Hinc. destruct (IH (S i) (CalPktLoss (clock i) q s)) as [E1 E2]; try done; try lia.
  rewrite E1, E2, Hl', Hc', Hst'. unfold missing.
  rewrite (default_last_irrel (last_seqnum m) q), last_cons_default. cbn [length]. lia.
Qed.

(** The loss counter after a packet, whether or not the log interval is over. *)
Lemma CalPktLoss_count now q s :
  let m := seqnum_loss_message_ s in
  let m' := seqnum_loss_message_ (CalPktLoss now q s) in
  enable_packet_loss_tool_ s = true -> q <> 0 ->
  enable_packet_loss_tool_ (CalPktLoss now q s) = true /\ start_seqnum m' <> 0 /\ last_seqnum m' = q /\
  total_loss_count m' =
    if start_seqnum m =? 0 then 0
    else if 1 <? u32 (q - last_seqnum m) then u32 (total_loss_count m + u32 (q - last_seqnum m - 1))
    else total_loss_count m.
Proof.
  cbn zeta. intros He Hq. unfold CalPktLoss. rewrite He. cbn [negb].
  destruct (Z.eqb_spec (start_seqnum (seqnum_loss_message_ s)) 0); [done|].
  destruct (1 <? _); destruct (_ && _); cbn; done.
Qed.

(** A first packet: of a tool that has seen none, or only one with the number 0. *)
Lemma CalPktLoss_first now q s :
  enable_packet_loss_tool_ s = true -> start_seqnum (seqnum_loss_message_ s) = 0 -> last_seqnum (seqnum_loss_message_ s) = 0 ->
  total_packet_count_ s = 0 ->
  CalPktLoss now q s = set_seq 0 (mk_seqloss q q 0 (now O) 0 q false) s.
Proof. intros He Hs Hl Ht. unfold CalPktLoss. rewrite He, Hs, Hl, Ht. cbn. by rewrite andb_false_r. Qed.

(** What is counted from a packet on. *)
Lemma counting_from clock i first seqs now s :
  enable_packet_loss_tool_ s = true -> 0 < first < 2 ^ 32 -> increasing first seqs ->
  let s' := run_loss clock i seqs (set_seq 0 (mk_seqloss first first 0 now 0 first false) s) in
  let lost := total_loss_count (seqnum_loss_message_ s') in
  total_packet_count_ s' = default first (last seqs) - first /\ lost = missing first seqs /\ lost + Z.of_nat (length (first :: seqs)) = default first (last seqs) - first + 1.
Proof.
  intros He Hf Hinc.
  destruct (run_loss_spec clock seqs i (set_seq 0 (mk_seqloss first first 0 now 0 first false) s)) as [E1 E2];
    cbn [set_seq seqnum_loss_message_ start_seqnum last_seqnum total_packet_count_
         total_start_seqnum total_loss_count enable_packet_loss_tool_]; try done; try lia.
  cbn zeta. rewrite E1, E2. cbn [set_seq seqnum_loss_message_ last_seqnum total_start_seqnum total_loss_count].
  split; [lia|]. split; [lia|]. unfold missing. cbn [length]. lia.
Qed.

(** ** Properties *)

(** The packet the tool counts from, and those after it: the first one, unless its
    number is 0, which is what [start_seqnum] holds before any packet; then the
    next packet is taken for the first. *)
Definition counted_from (first : Z) (seqs : list Z) : Z * list Z :=
  match seqs with q :: rest => if first =? 0 then (q, rest) else (first, seqs) | [] => (first, []) end.

(** C33: for packets whose 32-bit sequence numbers increase (they arrive in order
    and the number does not wrap around), the tool counts exactly the numbers that
    are missing between the packet it counts from and the last one, and the total
    it relates them to is the length of that range.  It counts from the first
    packet, so that nothing is missed, except when that packet has the number 0:
    then it counts from the second packet, and the losses between these two, one
    less than the second number, are not counted. *)
Theorem loss_count_exact clock first seqs s :
  enable_packet_loss_tool_ s = true -> seqnum_loss_message_ s = new_PacketSeqnumLossMessage ->
  total_packet_count_ s = 0 -> 0 <= first < 2 ^ 32 -> increasing first seqs ->
  let s' := run_loss clock 0 (first :: seqs) s in
  let lost := total_loss_count (seqnum_loss_message_ s') in
  let '(from, rest) := counted_from first seqs in
  total_packet_count_ s' = default from (last rest) - from /\
  lost = missing from rest /\ lost + Z.of_nat (length (from :: rest)) = default from (last rest) - from + 1 /\
  missing first seqs = lost + match seqs with q :: _ => if first =? 0 then q - 1 else 0 | [] => 0 end.
Proof.
  intros He Hm Ht Hf Hinc. cbn [run_loss].
  rewrite (CalPktLoss_first (clock O) first s) by (by rewrite ?He, ?Hm, ?Ht).
  destruct seqs as [|q rest]; cbn [counted_from].
  { unfold missing. cbn. repeat split; lia. }
  destruct (Z.eqb_spec first 0) as [->|Hn].
  - destruct Hinc as [Hq Hinc]. cbn [run_loss]. set (s1 := set_seq 0 _ s).
    rewrite (CalPktLoss_first (clock 1%nat) q s1) by done.
    destruct (counting_from clock 2 q rest (clock 1%nat O) s1) as (E1 & E2 & E3); [done|lia|done|].
    split; [exact E1|]. split; [exact E2|]. split; [exact E3|]. rewrite E2. unfold missing.
    rewrite (default_last_irrel 0 q), last_cons_default. cbn [length]. lia.
  - destruct (counting_from clock 1 first (q :: rest) (clock O O) s) as (E1 & E2 & E3); [done|lia|done|].
    split; [exact E1|]. split; [exact E2|]. split; [exact E3|]. rewrite E2. lia.
Qed.

(** A packet that arrives late makes the tool count 2^32 - 1 losses less its
    distance, because the difference of the sequence numbers wraps around: two
    packets that swap places are reported as 2^32 - 1 lost packets, none being
    lost. *)
Theorem late_packet_wraps now s d :
  let m := seqnum_loss_message_ s in
  enable_packet_loss_tool_ s = true -> start_seqnum m <> 0 ->
  0 < d -> d < last_seqnum m < 2 ^ 32 -> is_u32 (total_loss_count m) ->
  let s' := CalPktLoss now (last_seqnum m - d) s in
  total_loss_count (seqnum_loss_message_ s') = u32 (total_loss_count m - d - 1) /\
  is_packet_loss (seqnum_loss_message_ s') = true /\
  (forall clock, total_loss_count (seqnum_loss_message_
     (run_loss clock 0 [10; 12; 11] (EnablePacketLossTool true new_LossState))) = 2 ^ 32 - 1).
Proof.
  intros m He Hs Hd Hl Hc. split; [|split].
  3: { intros clock. cbn [run_loss].
       set (s0 := EnablePacketLossTool true new_LossState).
       destruct (CalPktLoss_count (clock 0%nat) 10 s0) as (He1 & Hs1 & Hl1 & Ht1); [done|done|].
       set (s1 := CalPktLoss (clock 0%nat) 10 s0) in *.
       destruct (CalPktLoss_count (clock 1%nat) 12 s1) as (He2 & Hs2 & Hl2 & Ht2); [done|done|].
       set (s2 := CalPktLoss (clock 1%nat) 12 s1) in *.
       destruct (CalPktLoss_count (clock 2%nat) 11 s2) as (_ & _ & _ & ->); [done|done|].
       apply Z.eqb_neq in Hs1, Hs2. rewrite Hs2, Hl2, Ht2, Hs1, Hl1, Ht1. done. }
  all: unfold CalPktLoss; rewrite He; fold m; cbn [negb];
    (destruct (Z.eqb_spec (start_seqnum m) 0); [done|]);
    assert (u32 (last_seqnum m - d - last_seqnum m) = 2 ^ 32 - d) as -> by
      (symmetry; apply (Z.mod_unique_pos _ _ (-1)); lia);
    (destruct (Z.ltb_spec 1 (2 ^ 32 - d)); [|lia]); destruct (_ && _); cbn; try done.
  all: unfold u32; rewrite Zplus_mod_idemp_r; f_equal; lia.
Qed.

(** One time stamp, when a first one has been seen and no packet was lost. *)
Lemma CalPktTimeLoss_step now t s :
  let m := time_loss_message_ s in
  enable_packet_timeloss_tool_ s = true -> packet_timeloss_tool_continue_ s = true ->
  is_packet_loss (seqnum_loss_message_ s) = false -> start_timestamp m <> 0 -> t <> 0 ->
  let s' := CalPktTimeLoss now t s in
  let m' := time_loss_message_ s' in
  enable_packet_timeloss_tool_ s' = true /\ packet_timeloss_tool_continue_ s' = true /\
  seqnum_loss_message_ s' = seqnum_loss_message_ s /\ start_timestamp m' <> 0 /\ last_timestamp m' = t /\
  total_timeloss_count m' =
    (if t <=? last_timestamp m then u32 (total_timeloss_count m + 1) else total_timeloss_count m).
Proof.
  intros m He Hc Hl Hs Ht. unfold CalPktTimeLoss. fold m. rewrite He, Hc, Hl. cbn [negb andb].
  destruct (Z.eqb_spec (start_timestamp m) 0); [done|].
  destruct (Z.leb_spec t (last_timestamp m)); destruct (_ && _); cbn; done.
Qed.

Lemma run_timeloss_spec clock tss : forall i s,
  let m := time_loss_message_ s in
  enable_packet_timeloss_tool_ s = true -> packet_timeloss_tool_continue_ s = true ->
  is_packet_loss (seqnum_loss_message_ s) = false -> start_timestamp m <> 0 ->
  Forall (fun t => t <> 0) tss -> is_u32 (total_timeloss_count m) ->
  total_timeloss_count (time_loss_message_ (run_timeloss clock i tss s))
    = u32 (total_timeloss_count m + regressions (last_timestamp m) tss).
Proof.
  induction tss as [|t tss IH]; cbn zeta; intros i s He Hc Hl Hs Hall Hu; cbn [run_timeloss regressions].
  all: set (m := time_loss_message_ s) in *.
  { rewrite Z.add_0_r. unfold u32, is_u32 in *. by rewrite Z.mod_small. }
  apply Forall_cons in Hall as [Ht Hall].
  destruct (CalPktTimeLoss_step (clock i) t s) as (He' & Hc' & Hl' & Hs' & Hlast & Htot); fold m; try done.
  fold m in Htot.
  rewrite IH; try done; [|by rewrite Hl'|].
  - rewrite Hlast, Htot. destruct (t <=? last_timestamp m); [|f_equal; lia].
    unfold u32. rewrite Zplus_mod_idemp_l. f_equal. lia.
  - rewrite Htot. destruct (_ <=? _); [apply Z.mod_pos_bound; lia|done].
Qed.

(** While no packet is lost, the time loss tool counts exactly the packets
    whose time stamp is not later than the one of the packet before. *)
Theorem timeloss_count_exact clock first tss s :
  enable_packet_timeloss_tool_ s = true -> packet_timeloss_tool_continue_ s = true ->
  is_packet_loss (seqnum_loss_message_ s) = false ->
  time_loss_message_ s = new_PacketTimeLossMessage ->
  first <> 0 -> Forall (fun t => t <> 0) tss ->
  total_timeloss_count (time_loss_message_ (run_timeloss clock 0 (first :: tss) s))
    = u32 (regressions first tss).
Proof.
  intros He Hc Hl Hm Hf Hall. cbn [run_timeloss].
  assert (CalPktTimeLoss (clock O) first s =
    set_time (mk_timeloss first first 0 (clock O O) 0 first 0) s) as ->.
  { unfold CalPktTimeLoss. rewrite He, Hc, Hm. done. }
  rewrite run_timeloss_spec; try done.
Qed.

(** ** Witnesses *)

(** From the number 5, and from 0: of the same four losses the two before the
    second packet are not counted. *)
Lemma loss_count_exact_witness :
  (let s' := run_loss (fun i _ => 600000 * Z.of_nat i) 0 [5; 6; 9; 12] (EnablePacketLossTool true new_LossState) in
   total_packet_count_ s' = 7 /\ total_loss_count (seqnum_loss_message_ s') = 4) /\
  (let s' := run_loss (fun i _ => 600000 * Z.of_nat i) 0 [0; 3; 6; 7] (EnablePacketLossTool true new_LossState) in
   total_packet_count_ s' = 4 /\ total_loss_count (seqnum_loss_message_ s') = 2 /\ missing 0 [3; 6; 7] = 2 + (3 - 1)).
Proof.
  split.
  - destruct (loss_count_exact (fun i _ => 600000 * Z.of_nat i) 5 [6; 9; 12]
      (EnablePacketLossTool true new_LossState)) as (E1 & E2 & _); [done|done|done|lia|cbn; lia|].
    split; [exact E1|exact E2].
  - destruct (loss_count_exact (fun i _ => 600000 * Z.of_nat i) 0 [3; 6; 7]
      (EnablePacketLossTool true new_LossState)) as (E1 & E2 & _ & E3); [done|done|done|lia|cbn; lia|].
    split; [exact E1|]. split; [exact E2|]. cbv zeta in E2. rewrite E2 in E3. exact E3.
Defined.

Lemma late_packet_wraps_witness :
  let s := EnablePacketLossTool true (set_seq 0 (mk_seqloss 3 9 0 0 1 3 false) new_LossState) in
  let s' := CalPktLoss (fun _ => 0) 7 s in
  total_loss_count (seqnum_loss_message_ s') = 2 ^ 32 - 2.
Proof.
  apply (late_packet_wraps (fun _ => 0)
    (EnablePacketLossTool true (set_seq 0 (mk_seqloss 3 9 0 0 1 3 false) new_LossState)) 2);
    [done|done|lia|cbn; lia|unfold is_u32; cbn; lia].
Defined.

Lemma timeloss_count_exact_witness :
  total_timeloss_count (time_loss_message_ (run_timeloss (fun i _ => Z.of_nat i) 0 [5; 7; 7; 9; 3]
    (PacketTimeLossToolContinue true (EnablePacketTimeLossTool true new_LossState)))) = 2.
Proof.
  apply (timeloss_count_exact (fun i _ => Z.of_nat i) 5 [7; 7; 9; 3]
    (PacketTimeLossToolContinue true (EnablePacketTimeLossTool true new_LossState)));
    [done..|repeat constructor; lia].
Defined.
