(* ===== verification/GeneralParser.v ===== *)
(** * GeneralParser: what the decoders share

    UdpParser/src/general_parser.cc: the correction and firetime files, the
    optical-centre table, the distance correction, the transform, and the state
    a decoder inherits.  The loss counters are in PacketLoss.v.  The members the
    constructor leaves uninitialised are arguments of [GeneralParser_new].  The
    sine and cosine tables hold what libm returned when they were filled, so
    they and the other libm functions are arguments. *)

From Stdlib Require Import Ascii SpecFloat.
From S2P Require Import Prelude Bytes Text Floats LidarTypes PacketLoss.
Local Open Scope Z_scope.

Definition CIRCLE : Z := 36000 * 256.
Definition MAX_LASER_NUM : Z := 512.

Record Transform : Type := mk_transform {
  tf_x : f32; tf_y : f32; tf_z : f32; tf_roll : f32; tf_pitch : f32; tf_yaw : f32 }.

Record LidarOpticalCenter : Type := mk_optical { oc_x : f32; oc_y : f32; oc_z : f32 }.

Record GeneralParser : Type := mk_parser {
  elevation_correction_ : list f64;
  azimuth_collection_ : list f64;
  get_correction_file_ : bool;
  firetime_correction_ : list (option f64);
  get_firetime_file_ : bool;
  enable_update_monitor_info_ : bool;
  monitor_info1_ : gmap Z Z;
  monitor_info2_ : gmap Z Z;
  monitor_info3_ : gmap Z Z;
  last_azimuth_ : Z;
  last_last_azimuth_ : Z;
  rotation_flag : Z;
  spin_speed_ : Z;
  is_dual_return_ : bool;
  frame_start_azimuth_ : f32;
  enable_distance_correction_ : bool;
  optical_center : LidarOpticalCenter;
  transform_ : Transform;
  loss_ : LossState;
  compute_packet_num : Z;
}.

Definition GeneralParser_new (got_corr got_fire dual dist : bool) (spin : Z) (fsa : f32)
    (tf : Transform) : GeneralParser :=
  mk_parser [f_zero] [f_zero] got_corr (replicate (Z.to_nat MAX_LASER_NUM) None) got_fire false ∅ ∅ ∅
    0 0 1 spin dual fsa dist (mk_optical f_zero f_zero f_zero) tf new_LossState 0.

(** ** Setters *)

Definition set_corrections (el az : list f64) (p : GeneralParser) : GeneralParser :=
  mk_parser el az true (firetime_correction_ p) (get_firetime_file_ p) (enable_update_monitor_info_ p)
    (monitor_info1_ p) (monitor_info2_ p) (monitor_info3_ p) (last_azimuth_ p) (last_last_azimuth_ p)
    (rotation_flag p) (spin_speed_ p) (is_dual_return_ p) (frame_start_azimuth_ p)
    (enable_distance_correction_ p) (optical_center p) (transform_ p) (loss_ p) (compute_packet_num p).
Definition set_firetimes (ft : list (option f64)) (got : bool) (p : GeneralParser) : GeneralParser :=
  mk_parser (elevation_correction_ p) (azimuth_collection_ p) (get_correction_file_ p) ft got
    (enable_update_monitor_info_ p) (monitor_info1_ p) (monitor_info2_ p) (monitor_info3_ p)
    (last_azimuth_ p) (last_last_azimuth_ p) (rotation_flag p) (spin_speed_ p) (is_dual_return_ p)
    (frame_start_azimuth_ p) (enable_distance_correction_ p) (optical_center p) (transform_ p)
    (loss_ p) (compute_packet_num p).
Definition set_monitor (b : bool) (m1 m2 m3 : gmap Z Z) (p : GeneralParser) : GeneralParser :=
  mk_parser (elevation_correction_ p) (azimuth_collection_ p) (get_correction_file_ p)
    (firetime_correction_ p) (get_firetime_file_ p) b m1 m2 m3
    (last_azimuth_ p) (last_last_azimuth_ p) (rotation_flag p) (spin_speed_ p) (is_dual_return_ p)
    (frame_start_azimuth_ p) (enable_distance_correction_ p) (optical_center p) (transform_ p)
    (loss_ p) (compute_packet_num p).
Definition set_azimuths (last lastlast flag : Z) (fsa : f32) (p : GeneralParser) : GeneralParser :=
  mk_parser (elevation_correction_ p) (azimuth_collection_ p) (get_correction_file_ p)
    (firetime_correction_ p) (get_firetime_file_ p) (enable_update_monitor_info_ p)
    (monitor_info1_ p) (monitor_info2_ p) (monitor_info3_ p) last lastlast flag
    (spin_speed_ p) (is_dual_return_ p) fsa (enable_distance_correction_ p) (optical_center p)
    (transform_ p) (loss_ p) (compute_packet_num p).
Definition set_motor (spin : Z) (dual : bool) (p : GeneralParser) : GeneralParser :=
  mk_parser (elevation_correction_ p) (azimuth_collection_ p) (get_correction_file_ p)
    (firetime_correction_ p) (get_firetime_file_ p) (enable_update_monitor_info_ p)
    (monitor_info1_ p) (monitor_info2_ p) (monitor_info3_ p) (last_azimuth_ p) (last_last_azimuth_ p)
    (rotation_flag p) spin dual (frame_start_azimuth_ p) (enable_distance_correction_ p)
    (optical_center p) (transform_ p) (loss_ p) (compute_packet_num p).
Definition set_optics (dist : bool) (oc : LidarOpticalCenter) (p : GeneralParser) : GeneralParser :=
  mk_parser (elevation_correction_ p) (azimuth_collection_ p) (get_correction_file_ p)
    (firetime_correction_ p) (get_firetime_file_ p) (enable_update_monitor_info_ p)
    (monitor_info1_ p) (monitor_info2_ p) (monitor_info3_ p) (last_azimuth_ p) (last_last_azimuth_ p)
    (rotation_flag p) (spin_speed_ p) (is_dual_return_ p) (frame_start_azimuth_ p) dist oc
    (transform_ p) (loss_ p) (compute_packet_num p).
Definition set_loss (l : LossState) (p : GeneralParser) : GeneralParser :=
  mk_parser (elevation_correction_ p) (azimuth_collection_ p) (get_correction_file_ p)
    (firetime_correction_ p) (get_firetime_file_ p) (enable_update_monitor_info_ p)
    (monitor_info1_ p) (monitor_info2_ p) (monitor_info3_ p) (last_azimuth_ p) (last_last_azimuth_ p)
    (rotation_flag p) (spin_speed_ p) (is_dual_return_ p) (frame_start_azimuth_ p)
    (enable_distance_correction_ p) (optical_center p) (transform_ p) l (compute_packet_num p).
Definition set_transform (t : Transform) (n : Z) (p : GeneralParser) : GeneralParser :=
  mk_parser (elevation_correction_ p) (azimuth_collection_ p) (get_correction_file_ p)
    (firetime_correction_ p) (get_firetime_file_ p) (enable_update_monitor_info_ p)
    (monitor_info1_ p) (monitor_info2_ p) (monitor_info3_ p) (last_azimuth_ p) (last_last_azimuth_ p)
    (rotation_flag p) (spin_speed_ p) (is_dual_return_ p) (frame_start_azimuth_ p)
    (enable_distance_correction_ p) (optical_center p) t (loss_ p) n.

Definition FrameNumAdd (p : GeneralParser) : GeneralParser :=
  set_transform (transform_ p) (u32 (compute_packet_num p + 1)) p.
Definition setComputePacketNumToZero (p : GeneralParser) : GeneralParser :=
  set_transform (transform_ p) 0 p.
Definition SetTransformPara (x y z roll pitch yaw : f32) (p : GeneralParser) : GeneralParser :=
  set_transform (mk_transform x y z roll pitch yaw) (compute_packet_num p) p.
Definition SetFrameAzimuth (a : f32) (p : GeneralParser) : GeneralParser :=
  set_azimuths (last_azimuth_ p) (last_last_azimuth_ p) (rotation_flag p) a p.
Definition EnableUpdateMonitorInfo (p : GeneralParser) : GeneralParser :=
  set_monitor true (monitor_info1_ p) (monitor_info2_ p) (monitor_info3_ p) p.
Definition DisableUpdateMonitorInfo (p : GeneralParser) : GeneralParser :=
  set_monitor false (monitor_info1_ p) (monitor_info2_ p) (monitor_info3_ p) p.
Definition SetEnableDistanceCorrection (b : bool) (p : GeneralParser) : GeneralParser :=
  set_optics b (optical_center p) p.

(** A literal divided by 1000.0 in double, stored as a float. *)
Definition mm (m : Z) (k : nat) : f32 := to32 (div64 (lit64 m k) (lit64 1000 0)).

Definition optical_table (lidar_type : string) : option (Z * Z) :=
  let same s := bool_decide (lidar_type = s) in
  if same "Pandar128E4X" || same "OT" then Some (-1000, 4500)
  else if same "Pandar128E3X" || same "Pandar64E3X" || same "Pandar40E3X" || same "Pandar90E3X" then Some (-1200, 4356)
  else if same "Pandar64E2X" || same "Pandar40E2X" then Some (-1200, 3873)
  else if same "PandarQT" then Some (-720, 2980)
  else if same "QT128C2X" then Some (720, 3540)
  else if same "PandarXT32M1" || same "PandarXT16M1" then Some (-1300, 3150)
  else if same "PandarXT32M2X" || same "XTM" then Some (-1300, 3050)
  else None.

(** The coordinates are hundredths of a millimetre in [optical_table]. *)
Definition SetOpticalCenterCoordinates (lidar_type : string) (p : GeneralParser) : GeneralParser :=
  match optical_table lidar_type with
  | Some (x, y) => set_optics true (mk_optical (mm x 2) (mm y 2) (mm 0 0)) p
  | None => SetEnableDistanceCorrection false p
  end.

(** ** Correction files *)

(** A data row: the laser id, which stays 0 when nothing can be extracted, and
    the two angles, [None] when the variable keeps its uninitialised value. *)
Definition parse_row (line : string) : option (Z * option f32 * option f32) :=
  match tokens comma line with
  | id :: e :: a :: _ => Some (default 0 (extract_int id), extract_float e, extract_float a)
  | _ => None
  end.

Definition angle_lists : Type := list (option f32) * list (option f32).

Definition correction_step (st : Z * angle_lists) (line : string) : Z * angle_lists :=
  let '(lineCount, (el, az)) := st in
  match parse_row line with
  | None => st
  | Some (laserId, elevation, azimuth) =>
      let lineCount := lineCount + 1 in
      if (MAX_LASER_NUM <? laserId) || (laserId <=? 0) then (lineCount, (el, az))
      else if negb (laserId =? lineCount) then (lineCount, (el, az))
      else (lineCount, (<[Z.to_nat (laserId - 1) := elevation]> el, <[Z.to_nat (laserId - 1) := azimuth]> az))
  end.

(** correction_[i] = list[i] for i below [n]: the list has [MAX_LASER_NUM]
    elements. *)
Definition copy_list (n : Z) (l : list (option f32)) : result (list f64) :=
  foldM (fun acc i => x ← arr_get l i; v ← of_option Uninitialised x; Ok (acc ++ [v])) [] (seqZ 0 n).

Definition unset_list : list (option f32) := replicate (Z.to_nat MAX_LASER_NUM) None.

Definition load_rows (rows : list string) (p : GeneralParser) : result GeneralParser :=
  let '(lineCount, (el, az)) := foldl correction_step (0, (unset_list, unset_list)) rows in
  el ← copy_list lineCount el;
  az ← copy_list lineCount az;
  Ok (set_corrections el az p).

Definition LoadCorrectionString (content : string) (p : GeneralParser) : result (Z * GeneralParser) :=
  let ls := tokens newline content in
  let line := default EmptyString (head ls) in
  match tokens comma line with
  | [] => Err OutOfBounds
  | t :: _ =>
      let rows := if bool_decide (t = "EEFF"%string) || bool_decide (t = "eeff"%string)
        then drop 2 ls else drop 1 ls in
      p ← load_rows rows p;
      Ok (0, p)
  end.

(** The C string that starts at a buffer: the bytes before the first NUL, which
    must lie inside the buffer. *)
Fixpoint c_string (buf : string) : result string :=
  match buf with
  | EmptyString => Err OutOfBounds
  | String c s => if Ascii.eqb c zero then Ok EmptyString else r ← c_string s; Ok (String c r)
  end.

(** [LoadCorrectionFile]: the buffer has the file's length and is handed on as a
    C string. *)
Definition LoadCorrectionFile (fs : string -> option string) (path : string) (p : GeneralParser)
    : result GeneralParser :=
  match fs path with
  | Some buffer => s ← c_string buffer; '(_, p) ← LoadCorrectionString s p; Ok p
  | None => Ok p
  end.

Definition firetime_step (st : list (option f64)) (line : string) : list (option f64) :=
  match tokens comma line with
  | id :: t :: _ =>
      let laserId := default 0 (extract_int id) in
      if (MAX_LASER_NUM <? laserId) || (laserId <=? 0) then st
      else <[Z.to_nat (laserId - 1) := extract_float t]> st
  | _ => st
  end.

Definition LoadFiretimesFile (fs : string -> option string) (path : string) (p : GeneralParser)
    : GeneralParser :=
  match fs path with
  | Some content =>
      set_firetimes (foldl firetime_step (firetime_correction_ p) (drop 1 (tokens newline content))) true p
  | None => set_firetimes (firetime_correction_ p) false p
  end.

(** return this->firetime_correction_[laserId] * speed * 6E-6; *)
Definition GetFiretimesCorrection (p : GeneralParser) (laserId : Z) (speed : f64) : result f64 :=
  x ← arr_get (firetime_correction_ p) laserId;
  v ← of_option Uninitialised x;
  Ok (mul64 (mul64 v speed) (lit64 6 6)).

(** ** Geometry *)

Section Geometry.
Variables (sin_all_angle_ cos_all_angle_ : Z -> f32).
Variables (sin32 cos32 atan32 asin32 : f32 -> f32).

Definition trig (tab : Z -> f32) (i : Z) : result f32 :=
  if (0 <=? i) && (i <? CIRCLE) then Ok (tab i) else Err OutOfBounds.

Inductive DistanceCorrectionType : Set := OpticalCenter | GeometricCenter.

Definition M_PI : f64 := lit64 314159265358979323846 20.

(** int(a * kHalfCircleFloat * kFineResolutionFloat / M_PI + CIRCLE) % CIRCLE *)
Definition angle_units (a : f32) : result Z :=
  v ← to_int (add64 (div64 (mul32 (mul32 a (of_Z32 18000)) (of_Z32 256)) M_PI) (of_Z64 CIRCLE));
  Ok (Z.rem v CIRCLE).

(** The azimuth, the elevation and the distance after the call. *)
Definition GetDistanceCorrection (oc : LidarOpticalCenter) (azimuth elevation : Z) (distance : f32)
    (type : DistanceCorrectionType) : result (Z * Z * f32) :=
  if SFleb distance (lit64 9 2) then Ok (azimuth, elevation, distance)
  else
    let azimuth := Z.rem (azimuth + CIRCLE) CIRCLE in
    let elevation := Z.rem (elevation + CIRCLE) CIRCLE in
    ce ← trig cos_all_angle_ elevation; sa ← trig sin_all_angle_ azimuth;
    ca ← trig cos_all_angle_ azimuth; se ← trig sin_all_angle_ elevation;
    let tx := mul32 ce sa in let ty := mul32 ce ca in let tz := se in
    let d := distance in let two := of_Z32 2 in
    match type with
    | GeometricCenter =>
        let B := add32 (add32 (mul32 (mul32 two tx) (oc_x oc)) (mul32 (mul32 two ty) (oc_y oc)))
                   (mul32 (mul32 two tz) (oc_z oc)) in
        let C := sub32 (add32 (add32 (mul32 (oc_x oc) (oc_x oc)) (mul32 (oc_y oc) (oc_y oc)))
                   (mul32 (oc_z oc) (oc_z oc))) (mul32 d d) in
        let d_opitcal := sub32 (sqrt32 (sub32 (div32 (mul32 B B) (of_Z32 4)) C)) (div32 B two) in
        let x := add32 (mul32 d_opitcal tx) (oc_x oc) in
        let y := add32 (mul32 d_opitcal ty) (oc_y oc) in
        let z := add32 (mul32 d_opitcal tz) (oc_z oc) in
        a ← angle_units (atan32 (div32 x y));
        e ← angle_units (asin32 (div32 z d));
        Ok (a, e, d)
    | OpticalCenter =>
        let x := add32 (mul32 d tx) (oc_x oc) in
        let y := add32 (mul32 d ty) (oc_y oc) in
        let z := add32 (mul32 d tz) (oc_z oc) in
        let g := sqrt32 (add32 (add32 (mul32 x x) (mul32 y y)) (mul32 z z)) in
        a ← angle_units (atan32 (div32 x y));
        e ← angle_units (asin32 (div32 z g));
        Ok (a, e, g)
    end.

Definition TransformPoint (t : Transform) (x y z : f32) : f32 * f32 * f32 :=
  let cosa := cos32 (tf_roll t) in let sina := sin32 (tf_roll t) in
  let cosb := cos32 (tf_pitch t) in let sinb := sin32 (tf_pitch t) in
  let cosc := cos32 (tf_yaw t) in let sinc := sin32 (tf_yaw t) in
  let x_ := add32 (add32 (add32 (mul32 (mul32 cosb cosc) x)
              (mul32 (sub32 (mul32 (mul32 sina sinb) cosc) (mul32 cosa sinc)) y))
              (mul32 (add32 (mul32 sina sinc) (mul32 (mul32 cosa sinb) cosc)) z)) (tf_x t) in
  let y_ := add32 (add32 (add32 (mul32 (mul32 cosb sinc) x)
              (mul32 (add32 (mul32 cosa cosc) (mul32 (mul32 sina sinb) sinc)) y))
              (mul32 (sub32 (mul32 (mul32 cosa sinb) sinc) (mul32 sina cosc)) z)) (tf_y t) in
  let z_ := add32 (add32 (add32 (mul32 (SFopp sinb) x) (mul32 (mul32 sina cosb) y))
              (mul32 (mul32 cosa cosb) z)) (tf_z t) in
  (x_, y_, z_).

End Geometry.

(** ** Lemmas *)

Lemma copy_list_snoc n l :
  0 <= n -> copy_list (n + 1) l =
    (r ← copy_list n l; x ← arr_get l n; v ← of_option Uninitialised x; Ok (r ++ [v])).
Proof.
  intros Hn. unfold copy_list at 1. rewrite seqZ_app by lia. rewrite foldM_app, Z.add_0_l.
  fold (copy_list n l). destruct (copy_list n l) as [r|]; cbn [mbind result_bind]; [|done].
  change (seqZ n 1) with [n]. cbn [foldM]. destruct (arr_get l n) as [[v|]|]; done.
Qed.

(** Copying succeeds on a prefix that was set, with its values. *)
Lemma copy_list_ok (vs : list f32) rest :
  copy_list (Z.of_nat (length vs)) ((Some <$> vs) ++ rest) = Ok vs.
Proof.
  revert rest. induction vs as [|v vs IH] using rev_ind; intros rest; [done|].
  rewrite length_app, Nat2Z.inj_add. cbn [length Z.of_nat]. rewrite copy_list_snoc by lia.
  rewrite fmap_app, <-app_assoc. rewrite IH. cbn [mbind result_bind].
  assert (arr_get ((Some <$> vs) ++ (Some <$> [v]) ++ rest) (Z.of_nat (length vs)) = Ok (Some v)) as ->.
  { apply arr_get_ok. split; [lia|]. rewrite Nat2Z.id, lookup_app_r by by rewrite length_fmap.
    by rewrite length_fmap, Nat.sub_diag. }
  done.
Qed.

(** It fails when an element below the count was not set. *)
Lemma copy_list_hole n l i :
  0 <= i < n -> arr_get l i <> Err OutOfBounds -> (forall v, arr_get l i <> Ok (Some v)) ->
  is_ok (copy_list n l) = false.
Proof.
  intros Hi Ho Hs. assert (exists k, n = i + 1 + Z.of_nat k) as [k ->].
  { exists (Z.to_nat (n - i - 1)). lia. }
  induction k as [|k IH].
  - rewrite Z.add_0_r, copy_list_snoc by lia. destruct (copy_list i l); cbn; [|done].
    destruct (arr_get l i) as [[v|]|]; [by destruct (Hs v)|done|done].
  - rewrite Nat2Z.inj_succ, <-Z.add_1_r, Z.add_assoc, copy_list_snoc by lia.
    specialize (IH ltac:(lia)). destruct (copy_list (i + 1 + Z.of_nat k) l); [done|done].
Qed.

Definition good_row (k : nat) (line : string) (e a : f32) : Prop :=
  parse_row line = Some (Z.of_nat k + 1, Some e, Some a).

(** Good rows fill the lists in order. *)
Lemma correction_rows_ok rows : forall es azs k el az,
  length es = length rows -> length azs = length rows ->
  (forall i line e a, rows !! i = Some line -> es !! i = Some e -> azs !! i = Some a ->
     good_row (k + i) line e a) ->
  length el = k -> length az = k -> (k + length rows <= 512)%nat ->
  foldl correction_step
    (Z.of_nat k, (el ++ replicate (512 - k) None, az ++ replicate (512 - k) None)) rows =
  (Z.of_nat (k + length rows),
   (el ++ (Some <$> es) ++ replicate (512 - (k + length rows)) None,
    az ++ (Some <$> azs) ++ replicate (512 - (k + length rows)) None)).
Proof.
  induction rows as [|line rows IH]; intros [|e es] [|a azs] k el az Hle Hla Hrows Hel Haz Hk; try done.
  { cbn. by rewrite Nat.add_0_r. }
  cbn [length] in *. pose proof (Hrows 0%nat line e a eq_refl eq_refl eq_refl) as Hrow.
  rewrite Nat.add_0_r in Hrow. unfold good_row in Hrow. cbn [foldl]. unfold correction_step at 2. rewrite Hrow.
  unfold MAX_LASER_NUM. destruct (Z.ltb_spec 512 (Z.of_nat k + 1)); [lia|].
  destruct (Z.leb_spec (Z.of_nat k + 1) 0); [lia|]. rewrite Z.eqb_refl. cbn [orb negb].
  replace (Z.to_nat (Z.of_nat k + 1 - 1)) with k by lia.
  assert (forall (l : list (option f32)) (x : option f32), length l = k ->
    <[k:=x]> (l ++ replicate (512 - k) None) = (l ++ [x]) ++ replicate (512 - S k) None) as Hins.
  { intros l x Hl. replace (512 - k)%nat with (S (512 - S k)) by lia. cbn [replicate].
    rewrite insert_app_r_alt by lia. rewrite Hl, Nat.sub_diag, <-app_assoc. done. }
  rewrite !Hins by done. replace (Z.of_nat k + 1) with (Z.of_nat (S k)) by lia.
  rewrite (IH es azs (S k)); try (rewrite ?length_app; cbn; lia).
  - replace (S k + length rows)%nat with (k + S (length rows))%nat by lia.
    rewrite <-!app_assoc. done.
  - intros i l e' a' H1 H2 H3. replace (S k + i)%nat with (k + S i)%nat by lia.
    by apply Hrows.
Qed.

Lemma load_rows_ok rows es azs p :
  length es = length rows -> length azs = length rows -> (length rows <= 512)%nat ->
  (forall i line e a, rows !! i = Some line -> es !! i = Some e -> azs !! i = Some a -> good_row i line e a) ->
  load_rows rows p = Ok (set_corrections es azs p).
Proof.
  intros Hle Hla Hlen Hrows. unfold load_rows.
  pose proof (correction_rows_ok rows es azs 0 [] [] Hle Hla Hrows eq_refl eq_refl Hlen) as E.
  cbn [app Nat.add] in E. change unset_list with (replicate (512 - 0) (@None f32)).
  change 0 with (Z.of_nat 0) at 1. rewrite E, <-Hle, copy_list_ok. cbn [mbind result_bind].
  by rewrite Hle, <-Hla, copy_list_ok.
Qed.

(** What a row can set: only the element of its own line number. *)
Lemma correction_step_frame st line k :
  let st' := correction_step st line in
  st.1 <= st'.1 <= st.1 + 1 /\ length st'.2.1 = length st.2.1 /\
  (k <> Z.to_nat st.1 \/ (forall e a, parse_row line <> Some (st.1 + 1, e, a)) ->
    st'.2.1 !! k = st.2.1 !! k).
Proof.
  destruct st as [n [el az]]. cbn [fst snd]. unfold correction_step.
  destruct (parse_row line) as [[[id e] a]|] eqn:E; cbn [fst snd]; [|repeat split; lia || done].
  destruct (_ || _) eqn:Er; cbn [fst snd]; [repeat split; lia || done|].
  destruct (Z.eqb_spec id (n + 1)) as [->|]; cbn [negb fst snd]; [|repeat split; lia || done].
  split; [lia|]. split; [apply length_insert|]. intros [Hk|Hk]; [|by destruct (Hk e a)].
  apply list_lookup_insert_ne. lia.
Qed.

Lemma correction_rows_frame rows : forall st k,
  Z.of_nat k < st.1 -> 0 <= st.1 ->
  let st' := foldl correction_step st rows in
  st.1 <= st'.1 /\ length st'.2.1 = length st.2.1 /\ st'.2.1 !! k = st.2.1 !! k.
Proof.
  induction rows as [|r rows IH]; intros st k Hk H0; cbn [foldl]; [done|].
  destruct (correction_step_frame st r k) as (H1 & H2 & H3).
  destruct (IH (correction_step st r) k) as (H4 & H5 & H6); [lia|lia|].
  split; [lia|]. split; [congruence|]. rewrite H6. apply H3. left. lia.
Qed.

(** A buffer without a NUL byte is read past its end; one with a NUL byte is the
    string before it. *)
Lemma c_string_unterminated content : free_of zero content = true -> c_string content = Err OutOfBounds.
Proof.
  induction content as [|c s IH]; [done|]. cbn. intros Hf. apply andb_prop in Hf as [Hc%negb_true_iff Hf].
  unfold ascii_eqb in Hc. rewrite Hc, IH by done. done.
Qed.

Lemma c_string_terminated content rest : free_of zero content = true ->
  c_string (content ++ String zero rest)%string = Ok content.
Proof.
  induction content as [|c s IH]; [done|]. change (String c s ++ String zero rest)%string with (String c (s ++ String zero rest)).
  cbn. intros Hf. apply andb_prop in Hf as [Hc%negb_true_iff Hf].
  unfold ascii_eqb in Hc. rewrite Hc, IH by done. done.
Qed.

(** ** Properties *)

(** C32: a well-formed correction text, whose data rows carry the ids 1, 2, ... in
    order and two readable angles, with or without the EEFF line in front, for up
    to 512 lasers: [LoadCorrectionString] loads exactly its angles.
    [LoadCorrectionFile] does so too from a file in which a NUL byte follows the
    text, whatever is behind it; from a file that is the text alone it reads past
    the end of its buffer. *)
Theorem correction_text_loads content header rows es azs p :
  tokens newline content = header ++ rows -> (length rows <= 512)%nat ->
  (exists h t ts, header = [h] /\ tokens comma h = t :: ts /\ t <> "EEFF"%string /\ t <> "eeff"%string) \/
  (exists h t ts l2, header = [h; l2] /\ tokens comma h = t :: ts /\ (t = "EEFF"%string \/ t = "eeff"%string)) ->
  length es = length rows -> length azs = length rows ->
  (forall i line e a, rows !! i = Some line -> es !! i = Some e -> azs !! i = Some a -> good_row i line e a) ->
  LoadCorrectionString content p = Ok (0, set_corrections es azs p) /\
  forall fs path rest, free_of zero content = true ->
    (fs path = Some (content ++ String zero rest)%string -> LoadCorrectionFile fs path p = Ok (set_corrections es azs p)) /\
    (fs path = Some content -> LoadCorrectionFile fs path p = Err OutOfBounds).
Proof.
  intros Ht Hl Hh Hle Hla Hrows.
  assert (LoadCorrectionString content p = Ok (0, set_corrections es azs p)) as Hload; [|split; [done|]].
  2: { intros fs path rest Hf. unfold LoadCorrectionFile. split; intros ->; cbn [mbind result_bind].
    - rewrite c_string_terminated by done. cbn [mbind result_bind]. by rewrite Hload.
    - by rewrite c_string_unterminated. }
  unfold LoadCorrectionString. rewrite Ht.
  destruct Hh as [(h & t & ts & -> & Ec & Hn1 & Hn2)|(h & t & ts & l2 & -> & Ec & Hn)];
    cbn zeta.
  - change (default EmptyString (head ([h] ++ rows))) with h. rewrite Ec.
    rewrite !bool_decide_false by done. cbn [orb drop app]. by rewrite (load_rows_ok rows es azs).
  - change (default EmptyString (head ([h; l2] ++ rows))) with h. rewrite Ec.
    assert (bool_decide (t = "EEFF"%string) || bool_decide (t = "eeff"%string) = true) as ->.
    { by destruct Hn as [->| ->]. }
    cbn [drop app]. by rewrite (load_rows_ok rows es azs).
Qed.

(** A data row whose id is not its line number leaves a hole: the row is
    skipped but still counted, and the copy that follows reads an element that
    was never written (or, behind 512 rows, one outside the array). *)
Theorem correction_row_out_of_order pre row post p id e a :
  parse_row row = Some (id, e, a) ->
  id <> (foldl correction_step (0, (unset_list, unset_list)) pre).1 + 1 ->
  is_ok (load_rows (pre ++ row :: post) p) = false.
Proof.
  intros Hrow Hid. unfold load_rows. rewrite foldl_app. cbn [foldl].
  set (st := foldl correction_step _ pre) in *.
  assert (0 <= st.1 /\ length st.2.1 = 512%nat /\ forall k, (Z.to_nat st.1 <= k)%nat -> st.2.1 !! k = unset_list !! k)
    as (H0 & Hlen & Hun).
  { unfold st. clear. induction pre as [|r pre IH] using rev_ind; [done|].
    rewrite foldl_app. cbn [foldl]. destruct IH as (H0 & Hlen & Hun).
    set (st := foldl _ _ pre) in *. pose proof (correction_step_frame st r) as Hf.
    destruct (Hf 0%nat) as (H1 & H2 & _). split; [lia|]. split; [congruence|].
    intros k Hk. destruct (Hf k) as (_ & _ & Hu). rewrite Hu; [apply Hun; lia|].
    destruct (decide (k = Z.to_nat st.1)) as [->|]; [|by left]. right.
    intros e a Er. unfold correction_step in Hk. destruct st as [n [el az]]. cbn [fst snd] in *.
    rewrite Er in Hk. destruct (_ || _); cbn in Hk; [lia|]. destruct (negb _); cbn in Hk; lia. }
  assert (correction_step st row = (st.1 + 1, st.2)) as ->.
  { unfold correction_step. destruct st as [n [el az]]. cbn [fst snd] in *. rewrite Hrow.
    destruct (_ || _); [done|]. apply Z.eqb_neq in Hid. by rewrite Hid. }
  destruct (correction_rows_frame post (st.1 + 1, st.2) (Z.to_nat st.1)) as (Hge & Hlen2 & Hk); cbn [fst snd]; [lia|lia|].
  destruct (foldl correction_step (st.1 + 1, st.2) post) as [n [el az]]. cbn [fst snd] in *.
  enough (is_ok (copy_list n el) = false) as E by (destruct (copy_list n el); done).
  destruct (decide (Z.to_nat st.1 < 512)%nat).
  - apply (copy_list_hole n el st.1); [lia| |].
    + destruct (arr_get_in el st.1) as [x ->]; [rewrite Hlen2, Hlen; lia|done].
    + intros v Ev%arr_get_ok. destruct Ev as [_ Ev]. rewrite Hk, Hun in Ev by lia.
      unfold unset_list in Ev. by apply lookup_replicate in Ev as [? _].
  - destruct (copy_list n el) as [r|] eqn:Ec; [exfalso|done].
    assert (exists k, n = 513 + Z.of_nat k) as [k ->] by (exists (Z.to_nat (n - 513)); lia).
    assert (is_ok (copy_list (513 + Z.of_nat k) el) = false) as Hf; [|by rewrite Ec in Hf].
    clear Ec Hge. induction k as [|k IH].
    + change (513 + Z.of_nat 0) with (512 + 1). rewrite copy_list_snoc by lia.
      destruct (copy_list 512 el); cbn; [|done]. by rewrite arr_get_out by (rewrite Hlen2, Hlen; lia).
    + rewrite Nat2Z.inj_succ, <-Z.add_1_r, Z.add_assoc, copy_list_snoc by lia.
      by destruct (copy_list (513 + Z.of_nat k) el).
Qed.

(** [LoadCorrectionFile] hands a buffer of exactly the file's length to a
    function that reads up to a NUL byte, so a file without one, that is any
    text file, is read past the end of the buffer. *)
Theorem correction_file_overread fs path content p :
  fs path = Some content -> free_of zero content = true ->
  LoadCorrectionFile fs path p = Err OutOfBounds.
Proof.
  intros Hfs Hf. unfold LoadCorrectionFile. rewrite Hfs.
  by rewrite c_string_unterminated.
Qed.

(** ** Witnesses *)

Definition demo_parser : GeneralParser :=
  GeneralParser_new false false false false 0 f_zero (mk_transform f_zero f_zero f_zero f_zero f_zero f_zero).

Definition demo_correction : string :=
  "EEFF
Laser id,Elevation,Azimuth
1,14.985,0.186
2,-13.283,0.185
".

Definition dec (s : string) : f32 := default f_zero (extract_float s).

Lemma correction_text_loads_witness :
  let loaded := set_corrections [dec "14.985"; dec "-13.283"] [dec "0.186"; dec "0.185"] demo_parser in
  LoadCorrectionString demo_correction demo_parser = Ok (0, loaded) /\
  LoadCorrectionFile (fun _ => Some (demo_correction ++ String zero "checksum")%string) "angle.csv" demo_parser = Ok loaded /\
  LoadCorrectionFile (fun _ => Some demo_correction) "angle.csv" demo_parser = Err OutOfBounds.
Proof.
  destruct (correction_text_loads demo_correction ["EEFF"%string; "Laser id,Elevation,Azimuth"%string]
    ["1,14.985,0.186"%string; "2,-13.283,0.185"%string]
    [dec "14.985"; dec "-13.283"] [dec "0.186"; dec "0.185"] demo_parser) as [Hs Hf].
  - vm_compute. reflexivity.
  - cbn. lia.
  - right. exists "EEFF"%string, "EEFF"%string, [], "Laser id,Elevation,Azimuth"%string.
    split; [done|]. split; [vm_compute; reflexivity|by left].
  - done.
  - done.
  - intros [|[|i]] line e a; cbn; intros; simplify_eq; unfold good_row; vm_compute; reflexivity.
  - split; [exact Hs|]. split.
    + by apply (Hf _ "angle.csv"%string "checksum"%string).
    + by apply (Hf _ "angle.csv"%string "checksum"%string).
Defined.

Lemma correction_row_out_of_order_witness :
  is_ok (load_rows (["1,1.5,2.5"%string] ++ "3,2.5,3.5"%string :: ["2,0.5,0.5"%string]) demo_parser) = false.
Proof.
  apply (correction_row_out_of_order ["1,1.5,2.5"%string] "3,2.5,3.5"%string ["2,0.5,0.5"%string] demo_parser
    3 (extract_float "2.5") (extract_float "3.5")); [vm_compute; reflexivity|vm_compute; lia].
Defined.

Lemma correction_file_overread_witness :
  LoadCorrectionFile (fun _ => Some demo_correction) "angle.csv" demo_parser = Err OutOfBounds.
Proof. apply (correction_file_overread (fun _ => Some demo_correction) "angle.csv" demo_correction demo_parser); done. Defined.
