(* ===== verification/Decoder.v ===== *)
(** * Decoder: what the parser objects promise to their callers

    The virtual functions of [GeneralParser] (UdpParser/include/general_parser.h)
    as a class of types [G] of parser objects, and the laws the code above them
    (udp_parser.cc, lidar.cc, hesai_lidar_sdk.hpp) relies on.  Udp1_4.v,
    Spinning.v, Udp2_4.v, Udp2_5.v, Udp2_6.v, Udp4_7.v and Udp7_2.v give instances
    of both; the client files are proved against the class.  The part of the object
    that is not virtual is its [GeneralParser] base. *)

From S2P Require Import Prelude LidarTypes GeneralParser.
Local Open Scope Z_scope.

(** The clocks of a call are its first two arguments; [fs] is the file system.
    [LoadCorrectionString] is given a block of memory: the text parsers read it up
    to a NUL byte, the binary ones at offsets. *)
Class Decoder (P G : Type) : Type := {
  general : G -> GeneralParser;
  with_general : GeneralParser -> G -> G;
  v_DecodePacket : Z -> (nat -> Z) -> G -> LidarDecodedFrame P -> UdpPacket ->
    result (Z * G * LidarDecodedFrame P);
  v_ComputeXYZI : G -> LidarDecodedFrame P -> Z -> result (Z * G * LidarDecodedFrame P);
  v_LoadCorrectionFile : (string -> option string) -> string -> G -> result G;
  v_LoadCorrectionString : string -> G -> result (Z * G);
  v_LoadFiretimesFile : (string -> option string) -> string -> G -> result G;
}.

(** The members of a frame that decoding a packet leaves as they are, apart from
    the number of packets. *)
Definition same_frame {P} (f f' : LidarDecodedFrame P) : Prop :=
  points f' = points f /\ points_num f' = points_num f /\ frame_index f' = frame_index f /\
  use_timestamp_type f' = use_timestamp_type f /\ fov_start f' = fov_start f /\ fov_end f' = fov_end f.

Class DecoderLaws (P G : Type) `{Decoder P G} : Type := {
  general_with p g : general (with_general p g) = p;
  (** two objects that decode alike: they differ in the computed packets only *)
  alike : relation G;
  alike_equivalence :: Equivalence alike;
  reset_alike g : alike g (with_general (setComputePacketNumToZero (general g)) g);
  (** a parser object that has its calibration, and a packet it can read *)
  ready : G -> Prop;
  readable : UdpPacket -> Prop;
  ready_alike :: Proper (alike ==> iff) ready;
  decode_total host now g f pkt :
    ready g -> readable pkt -> 0 <= packet_num f < kMaxPacketNumPerFrame ->
    exists g' f', v_DecodePacket host now g f pkt = Ok (0, g', f') /\ ready g';
  (** a packet that is accepted is counted and stamped *)
  decode_counts host now g f pkt g' f' :
    v_DecodePacket host now g f pkt = Ok (0, g', f') ->
    packet_num f' = u32 (packet_num f + 1) /\ same_frame f f' /\ host_timestamp f' = host /\
    (exists t, sensor_timestamp f' !! packet_num f = Some t) /\
    compute_packet_num (general g') = compute_packet_num (general g);
  decode_refused host now g f pkt r g' f' :
    v_DecodePacket host now g f pkt = Ok (r, g', f') -> r <> 0 ->
    packet_num f' = packet_num f /\ same_frame f f' /\
    compute_packet_num (general g') = compute_packet_num (general g);
  (** a packet decoded again is accepted and does not complete a frame *)
  decode_again host now host' now' g f pkt g1 f1 h1 f2 r g2 f3 :
    v_DecodePacket host now g f pkt = Ok (0, g1, f1) -> alike g1 h1 ->
    v_DecodePacket host' now' h1 f2 pkt = Ok (r, g2, f3) ->
    r = 0 /\ scan_complete f3 = false;
  (** computing a packet counts it and writes points only *)
  compute_counts g f i r g' f' :
    v_ComputeXYZI g f i = Ok (r, g', f') ->
    f' = set_points (points f') f /\ alike g g' /\
    compute_packet_num (general g') = u32 (compute_packet_num (general g) + 1);
}.

(** ** Objects that differ in the count of computed packets only

    The relation the instances use for [alike]. *)
Section ZeroAlike.
Context {P G : Type} `{Decoder P G}.
Hypothesis general_with_ : forall p (g : G), general (with_general p g) = p.
Hypothesis with_with : forall p q (g : G), with_general p (with_general q g) = with_general p g.

Definition zero_alike : relation G := fun u v =>
  with_general (setComputePacketNumToZero (general u)) u =
  with_general (setComputePacketNumToZero (general v)) v.

Lemma zero_alike_equivalence : Equivalence zero_alike.
Proof. split; unfold zero_alike; [intros ?|intros ???|intros ?????]; congruence. Qed.

Lemma zero_alike_reset g : zero_alike g (with_general (setComputePacketNumToZero (general g)) g).
Proof. unfold zero_alike. by rewrite general_with_, with_with. Qed.

Lemma zero_alike_count p g : setComputePacketNumToZero p = setComputePacketNumToZero (general g) ->
  zero_alike g (with_general p g).
Proof. intros E. unfold zero_alike. by rewrite general_with_, with_with, E. Qed.

Lemma zero_alike_general u v : zero_alike u v ->
  setComputePacketNumToZero (general u) = setComputePacketNumToZero (general v).
Proof. unfold zero_alike. intros E. apply (f_equal general) in E. by rewrite !general_with_ in E. Qed.

End ZeroAlike.
