(* ===== verification/Calendar.v ===== *)
(** * Calendar: dates, time zones and [mktime]

    What the time stamps of the protocols use of the C library: [mktime] and the
    global [timezone], on a host in any time zone; and the Gregorian calendar as a
    reference, against which every day from 1970 to 2155 is checked. *)

From S2P Require Import Prelude.
Local Open Scope Z_scope.

(** ** [mktime]

    [mktime] of a broken-down time with [tm_isdst = 0], in the time zone of the
    host; the month may be out of range and is carried into the year.  The standard
    offset of a zone may differ from one date to another, and [mktime] applies the
    one of the date it is given; the global [timezone] holds the offset the C
    library has set it to. *)
Definition is_leap (y : Z) : bool :=
  ((y mod 4 =? 0) && negb (y mod 100 =? 0)) || (y mod 400 =? 0).

Definition leaps_until (y : Z) : Z := y / 4 - y / 100 + y / 400.

Definition days_before_month (leap : bool) (mon : Z) : Z :=
  default 0 ([0; 31; 59; 90; 120; 151; 181; 212; 243; 273; 304; 334] !! Z.to_nat mon)
  + (if leap && (1 <? mon) then 1 else 0).

Definition timegm (tm_year tm_mon tm_mday tm_hour tm_min tm_sec : Z) : Z :=
  let y := 1900 + tm_year + tm_mon / 12 in
  let mon := tm_mon mod 12 in
  let days := 365 * (y - 1970) + (leaps_until (y - 1) - leaps_until 1969)
    + days_before_month (is_leap y) mon + (tm_mday - 1) in
  days * 86400 + tm_hour * 3600 + tm_min * 60 + tm_sec.

(** The time zone of the host, in seconds west of UTC: the standard offset at a
    local date, and what the global [timezone] holds when it is read after the
    conversion of that date.  A date is given by its seconds if it were UTC. *)
Record TimeZone : Type := mk_zone { standard_offset : Z -> Z; global_timezone : Z -> Z }.

(** A zone that never changed its offset. *)
Definition fixed_offset (offset : Z) : TimeZone := mk_zone (fun _ => offset) (fun _ => offset).
Coercion fixed_offset : Z >-> TimeZone.

Definition mktime (timezone : TimeZone) (tm_year tm_mon tm_mday tm_hour tm_min tm_sec : Z) : Z :=
  let local := timegm tm_year tm_mon tm_mday tm_hour tm_min tm_sec in
  local + standard_offset timezone local.

(** mktime(&t) - timezone *)
Definition mktime_utc (timezone : TimeZone) (tm_year tm_mon tm_mday tm_hour tm_min tm_sec : Z) : Z :=
  mktime timezone tm_year tm_mon tm_mday tm_hour tm_min tm_sec
  - global_timezone timezone (timegm tm_year tm_mon tm_mday tm_hour tm_min tm_sec).

(** ** The calendar, as a reference *)

Definition days_in_month (y m : Z) : Z :=
  if m =? 2 then (if is_leap y then 29 else 28)
  else if (m =? 4) || (m =? 6) || (m =? 9) || (m =? 11) then 30 else 31.

Definition next_day (d : Z * Z * Z) : Z * Z * Z :=
  let '(y, m, d) := d in
  if d <? days_in_month y m then (y, m, d + 1)
  else if m <? 12 then (y, m + 1, 1) else (y + 1, 1, 1).

(** ** Lemmas *)

(** The whole of a calendar's days, checked one by one. *)
Fixpoint days_agree (n : nat) (k : Z) (d : Z * Z * Z) : bool :=
  match n with
  | O => true
  | S n => let '(y, m, dd) := d in
      (timegm (y - 1900) (m - 1) dd 0 0 0 =? k * 86400) && days_agree n (k + 1) (next_day d)
  end.

Lemma days_agree_spec n : forall k d i, days_agree n k d = true -> (i < n)%nat ->
  let '(y, m, dd) := Nat.iter i next_day d in
  timegm (y - 1900) (m - 1) dd 0 0 0 = (k + Z.of_nat i) * 86400.
Proof.
  induction n as [|n IH]; intros k d i Hn Hi; [lia|]. cbn [days_agree] in Hn.
  destruct d as [[y m] dd]. apply andb_prop in Hn as [H1%Z.eqb_eq H2].
  destruct i as [|i]; [cbn; lia|]. rewrite Nat.iter_succ_r.
  specialize (IH (k + 1) (next_day (y, m, dd)) i H2 ltac:(lia)).
  destruct (Nat.iter i next_day (next_day (y, m, dd))) as [[y' m'] d']. lia.
Qed.

Lemma timegm_seconds y mo d h mi s :
  timegm y mo d h mi s = timegm y mo d 0 0 0 + h * 3600 + mi * 60 + s.
Proof. unfold timegm. lia. Qed.

Lemma timegm_mday y mo d h mi s : timegm y mo (d + 1) h mi s = timegm y mo d h mi s + 86400.
Proof. unfold timegm. lia. Qed.

Definition last_day : Z := 67934.

Lemma all_days_agree : days_agree (Z.to_nat (last_day + 1)) 0 (1970, 1, 1) = true.
Proof. vm_compute. reflexivity. Qed.

(** How far the offset at a date is from the one in the global [timezone]; the
    code converts the day after the date. *)
Definition zone_shift (timezone : TimeZone) (seconds : Z) : Z :=
  standard_offset timezone (seconds + 86400) - global_timezone timezone (seconds + 86400).

(** A calendar date and a time of day, in seconds since the epoch. *)
Lemma mktime_calendar timezone k y m d h mi s :
  0 <= k <= last_day -> Nat.iter (Z.to_nat k) next_day (1970, 1, 1) = (y, m, d) ->
  let seconds := k * 86400 + h * 3600 + mi * 60 + s in
  mktime_utc timezone (y - 1900) (m - 1) (d + 1) h mi s - 86400 = seconds + zone_shift timezone seconds.
Proof.
  intros Hk Hd seconds.
  pose proof (days_agree_spec _ 0 (1970, 1, 1) (Z.to_nat k) all_days_agree ltac:(lia)) as H.
  rewrite Hd, Z.add_0_l, Z2Nat.id in H by lia. unfold mktime_utc, mktime, zone_shift.
  rewrite timegm_mday, timegm_seconds, H. fold seconds. lia.
Qed.
