(* ===== verification/ProtocolV1_4.v ===== *)
(** * ProtocolV1_4: the point-cloud packet of the Pandar128 family

    UdpProtocol/udp_protocol_v1_4.h and the pre-header of udp_protocol_header.h:
    the packed structures as offsets into the packet's bytes, on a
    little-endian host.  The packet is the pre-header (6 bytes), the header (6),
    [BlockNum] blocks of an azimuth and [LaserNum] channel units, a checksum, an
    optional functional-safety section, the tail, and optional sections behind
    it. *)

From S2P Require Import Prelude Bytes Calendar.
Local Open Scope Z_scope.

Definition sizeof_PRE_HEADER : Z := 6.
Definition sizeof_HEADER : Z := 6.
Definition sizeof_AZIMUTH : Z := 2.
Definition sizeof_CHN_UNIT : Z := 4.
Definition sizeof_CHN_UNIT_NO_CONF : Z := 3.
Definition sizeof_CRC : Z := 4.
Definition sizeof_FUNC_SAFETY : Z := 17.
Definition sizeof_CYBER_SECURITY : Z := 32.
Definition sizeof_TAIL : Z := 26.
Definition sizeof_SEQ_NUM : Z := 4.
Definition sizeof_IMU : Z := 22.

(** ** HS_LIDAR_HEADER_ME_V4 *)

Record HS_LIDAR_HEADER_ME_V4 : Set := mk_header {
  m_u8LaserNum : Z;
  m_u8BlockNum : Z;
  m_u8EchoCount : Z;
  m_u8DistUnit : Z;
  m_u8EchoNum : Z;
  m_u8Status : Z;
}.

Definition header_cast (buf : list Z) (off : Z) : result HS_LIDAR_HEADER_ME_V4 :=
  l ← rd8 buf off; b ← rd8 buf (off + 1); ec ← rd8 buf (off + 2); du ← rd8 buf (off + 3);
  en ← rd8 buf (off + 4); st ← rd8 buf (off + 5);
  Ok (mk_header l b ec du en st).

Definition GetLaserNum := m_u8LaserNum.
Definition GetBlockNum := m_u8BlockNum.
Definition has (flag : Z) (h : HS_LIDAR_HEADER_ME_V4) : bool := negb (Z.land (m_u8Status h) flag =? 0).
Definition HasSeqNum := has 0x01.
Definition HasIMU := has 0x02.
Definition HasFuncSafety := has 0x04.
Definition HasCyberSecurity := has 0x08.
Definition HasConfidenceLevel := has 0x10.

Definition unit_size (h : HS_LIDAR_HEADER_ME_V4) : Z :=
  if HasConfidenceLevel h then sizeof_CHN_UNIT else sizeof_CHN_UNIT_NO_CONF.

Definition block_size (h : HS_LIDAR_HEADER_ME_V4) : Z :=
  sizeof_AZIMUTH + unit_size h * GetLaserNum h.

Definition GetPacketSize (h : HS_LIDAR_HEADER_ME_V4) : Z :=
  u16 (sizeof_PRE_HEADER + sizeof_HEADER + block_size h * GetBlockNum h + sizeof_CRC
       + (if HasFuncSafety h then sizeof_FUNC_SAFETY else 0)
       + (if HasCyberSecurity h then sizeof_CYBER_SECURITY else 0)
       + sizeof_TAIL + 4
       + (if HasSeqNum h then sizeof_SEQ_NUM else 0)
       + (if HasIMU h then sizeof_IMU else 0)).

(** Offsets in the packet: the first block, the functional-safety section, the
    tail, and the sequence number. *)
Definition header_off : Z := sizeof_PRE_HEADER.
Definition azimuth_off : Z := header_off + sizeof_HEADER.
Definition func_safety_off (h : HS_LIDAR_HEADER_ME_V4) : Z :=
  azimuth_off + block_size h * GetBlockNum h + sizeof_CRC.
Definition tail_off (h : HS_LIDAR_HEADER_ME_V4) : Z :=
  func_safety_off h + (if HasFuncSafety h then sizeof_FUNC_SAFETY else 0).
Definition seq_num_off (h : HS_LIDAR_HEADER_ME_V4) : Z := tail_off h + sizeof_TAIL.

(** [GetLidarState] of the functional-safety section at [off]. *)
Definition GetLidarState (buf : list Z) (off : Z) : result Z :=
  st ← rd8 buf (off + 1); Ok (Z.land (Z.shiftr st 5) 0x07).

(** ** HS_LIDAR_TAIL_ME_V4 *)

Record HS_LIDAR_TAIL_ME_V4 : Set := mk_tail {
  m_reservedInfo1 : Z * Z;
  m_reservedInfo2 : Z * Z;
  m_reservedInfo3 : Z * Z;
  m_u16AzimuthFlag : Z;
  m_u8RunningMode : Z;
  m_u8ReturnMode : Z;
  m_u16MotorSpeed : Z;
  m_u8UTC : list Z;
  m_u32Timestamp : Z;
  m_u8FactoryInfo : Z;
}.

(** A reserved-info structure: (status, id). *)
Definition reserved_cast (buf : list Z) (off : Z) : result (Z * Z) :=
  st ← rd16 buf off; i ← rd8 buf (off + 2); Ok (st, i).

Definition tail_cast (buf : list Z) (off : Z) : result HS_LIDAR_TAIL_ME_V4 :=
  r1 ← reserved_cast buf off; r2 ← reserved_cast buf (off + 3); r3 ← reserved_cast buf (off + 6);
  af ← rd16 buf (off + 9); rm ← rd8 buf (off + 11); rt ← rd8 buf (off + 12);
  ms ← rd16 buf (off + 13); utc ← arr_slice buf (off + 15) 6; ts ← rd32 buf (off + 21);
  fi ← rd8 buf (off + 25);
  Ok (mk_tail r1 r2 r3 af rm rt ms utc ts fi).

Definition kDualReturn : Z := 0x39.
Definition IsDualReturn (t : HS_LIDAR_TAIL_ME_V4) : bool := m_u8ReturnMode t =? kDualReturn.
Definition getOperationMode (t : HS_LIDAR_TAIL_ME_V4) : Z := Z.land (m_u8RunningMode t) 0x0f.

(** (m_u16AzimuthFlag >> (2 * (7 - blockIndex))) & 0x03: from the ninth block on
    the shift count is negative. *)
Definition getAngleState (t : HS_LIDAR_TAIL_ME_V4) (blockIndex : Z) : result Z :=
  if 7 <? blockIndex then Err BadShift
  else Ok (Z.land (Z.shiftr (m_u16AzimuthFlag t) (2 * (7 - blockIndex))) 0x03).

(** ** The time of a packet *)

Definition GetMicroLidarTimeU64 (timezone : TimeZone) (t : HS_LIDAR_TAIL_ME_V4) : Z :=
  match m_u8UTC t with
  | [u0; u1; u2; u3; u4; u5] =>
      if negb (u0 =? 0) then
        if u0 <? 70 then 0
        else u64 ((mktime_utc timezone u0 (u1 - 1) (u2 + 1) u3 u4 u5 - 86400) * 1000000
                  + m_u32Timestamp t)
      else
        let utc_time_big := le_combine [u2; u3; u4; u5] in
        u64 (big_to_native true 4 utc_time_big * 1000000 + m_u32Timestamp t)
  | _ => 0
  end.

(** ** Lemmas *)

Lemma header_cast_ok buf off :
  0 <= off -> off + 6 <= Z.of_nat (length buf) -> exists h, header_cast buf off = Ok h.
Proof.
  intros Ho Hl. unfold header_cast.
  destruct (rd8_in buf off) as [a ->]; [lia|]. destruct (rd8_in buf (off + 1)) as [b ->]; [lia|].
  destruct (rd8_in buf (off + 2)) as [c ->]; [lia|]. destruct (rd8_in buf (off + 3)) as [d ->]; [lia|].
  destruct (rd8_in buf (off + 4)) as [e ->]; [lia|]. destruct (rd8_in buf (off + 5)) as [f ->]; [lia|].
  cbn. eauto.
Qed.

Lemma reserved_cast_ok buf off :
  0 <= off -> off + 3 <= Z.of_nat (length buf) -> exists r, reserved_cast buf off = Ok r.
Proof.
  intros Ho Hl. unfold reserved_cast, rd16. destruct (rd_le_in 2 buf off) as [a ->]; [lia|lia|].
  destruct (rd8_in buf (off + 2)) as [b ->]; [lia|]. cbn. eauto.
Qed.

Lemma tail_cast_ok buf off :
  0 <= off -> off + 26 <= Z.of_nat (length buf) -> exists t, tail_cast buf off = Ok t.
Proof.
  intros Ho Hl. unfold tail_cast, rd16, rd32.
  destruct (reserved_cast_ok buf off) as [r1 ->]; [lia|lia|].
  destruct (reserved_cast_ok buf (off + 3)) as [r2 ->]; [lia|lia|].
  destruct (reserved_cast_ok buf (off + 6)) as [r3 ->]; [lia|lia|].
  destruct (rd_le_in 2 buf (off + 9)) as [a ->]; [lia|lia|].
  destruct (rd8_in buf (off + 11)) as [b ->]; [lia|]. destruct (rd8_in buf (off + 12)) as [c ->]; [lia|].
  destruct (rd_le_in 2 buf (off + 13)) as [d ->]; [lia|lia|].
  rewrite arr_slice_ok by lia. destruct (rd_le_in 4 buf (off + 21)) as [e ->]; [lia|lia|].
  destruct (rd8_in buf (off + 25)) as [f ->]; [lia|]. cbn. eauto.
Qed.

Lemma tail_cast_out buf off :
  Z.of_nat (length buf) < off + 26 -> is_ok (tail_cast buf off) = false.
Proof.
  intros Hl. unfold tail_cast. 
  assert (exists e, rd8 buf (off + 25) = Err e) as [e ->].
  { unfold rd8, arr_get. rewrite lookup_ge_None_2 by lia. case_decide; cbn; eauto. }
  repeat match goal with |- context [?m ≫= _] => destruct m; cbn [mbind result_bind]; [|done] end. done.
Qed.

Lemma header_cast_range buf off h : byte_list buf -> header_cast buf off = Ok h ->
  is_u8 (m_u8LaserNum h) /\ is_u8 (m_u8BlockNum h) /\ is_u8 (m_u8Status h) /\ is_u8 (m_u8DistUnit h).
Proof.
  intros Hb. unfold header_cast. intros H. inv_ok. cbn.
  repeat split; eapply rd8_range; eauto.
Qed.

(** ** Properties *)

(** C14: the time of a packet whose UTC bytes hold a calendar date from 1970 to
    2155 and a time of day, for every one of those days: the number of microseconds
    since the epoch, shifted (modulo 2^64) by the difference between the standard
    offset of the host's time zone at that date and the one in the global
    [timezone].  So it is exactly the calendar time wherever the zone's offset at
    that date is the one in force, and always on a host whose zone never changed
    its standard offset, UTC among them. *)
Theorem lidar_time_calendar timezone t k h mi s :
  0 <= k <= last_day -> is_u8 h -> is_u8 mi -> is_u8 s -> is_u32 (m_u32Timestamp t) ->
  let '(y, m, d) := Nat.iter (Z.to_nat k) next_day (1970, 1, 1) in
  m_u8UTC t = [y - 1900; m; d; h; mi; s] ->
  70 <= y - 1900 ->
  let seconds := k * 86400 + h * 3600 + mi * 60 + s in
  GetMicroLidarTimeU64 timezone t =
    u64 ((seconds + zone_shift timezone seconds) * 1000000 + m_u32Timestamp t) /\
  (zone_shift timezone seconds = 0 -> GetMicroLidarTimeU64 timezone t = seconds * 1000000 + m_u32Timestamp t) /\
  forall offset, GetMicroLidarTimeU64 (fixed_offset offset) t = seconds * 1000000 + m_u32Timestamp t.
Proof.
  intros Hk Hh Hmi Hs Hts.
  destruct (Nat.iter (Z.to_nat k) next_day (1970, 1, 1)) as [[y m] d] eqn:Hd. intros Hutc Hy seconds.
  assert (forall tz, GetMicroLidarTimeU64 tz t = u64 ((seconds + zone_shift tz seconds) * 1000000 + m_u32Timestamp t)) as H.
  { intros tz. unfold GetMicroLidarTimeU64. rewrite Hutc. destruct (Z.eqb_spec (y - 1900) 0); [lia|]. cbn [negb].
    destruct (Z.ltb_spec (y - 1900) 70); [lia|]. by rewrite (mktime_calendar tz k y m d). }
  assert (0 <= seconds * 1000000 + m_u32Timestamp t < 2 ^ 64) as Hr.
  { unfold seconds, is_u8, is_u32, last_day in *. lia. }
  split; [done|]. split.
  - intros Hz. rewrite H, Hz, Z.add_0_r. unfold u64. by rewrite Z.mod_small.
  - intros offset. rewrite H. replace (zone_shift offset seconds) with 0 by (unfold zone_shift; cbn; lia).
    rewrite Z.add_0_r. unfold u64. by rewrite Z.mod_small.
Qed.

(** The size a header announces is the offset of its tail plus the sections
    behind it, and the sections of a packet that fits the receive buffer do not
    overlap or leave it. *)
Theorem packet_layout h :
  is_u8 (m_u8LaserNum h) -> is_u8 (m_u8BlockNum h) -> GetPacketSize h <= 1500 ->
  block_size h * GetBlockNum h < 2 ^ 16 - 200 ->
  azimuth_off + block_size h * GetBlockNum h <= func_safety_off h - 4 /\
  func_safety_off h <= tail_off h /\ tail_off h + sizeof_TAIL = seq_num_off h /\
  GetPacketSize h = seq_num_off h + 4 + (if HasCyberSecurity h then 32 else 0)
    + (if HasSeqNum h then 4 else 0) + (if HasIMU h then 22 else 0) /\
  seq_num_off h + (if HasSeqNum h then sizeof_SEQ_NUM else 0) <= 1500.
Proof.
  unfold is_u8, GetLaserNum, GetBlockNum. intros Hl Hb Hs Hlt.
  assert (0 <= block_size h * m_u8BlockNum h) as Hpos.
  { unfold block_size, unit_size, GetLaserNum, sizeof_AZIMUTH, sizeof_CHN_UNIT, sizeof_CHN_UNIT_NO_CONF.
    destruct (HasConfidenceLevel h); nia. }
  unfold GetPacketSize, seq_num_off, tail_off, func_safety_off, azimuth_off, header_off, GetBlockNum,
    sizeof_PRE_HEADER, sizeof_HEADER, sizeof_CRC, sizeof_FUNC_SAFETY, sizeof_CYBER_SECURITY, sizeof_TAIL,
    sizeof_SEQ_NUM, sizeof_IMU, u16 in *.
  destruct (HasFuncSafety h), (HasCyberSecurity h), (HasSeqNum h), (HasIMU h);
    rewrite Z.mod_small in * by lia; lia.
Qed.

(** ** Witnesses *)

Definition demo_tail (utc : list Z) (ts : Z) : HS_LIDAR_TAIL_ME_V4 :=
  mk_tail (0, 0) (0, 0) (0, 0) 0 0 0 0 utc ts 0.

(** A host in China, now eight hours east of Greenwich; and one in Samoa, which was
    eleven hours west of Greenwich and is thirteen hours east of it since 2012: there,
    when [timezone] holds the present offset, a packet with a date of 2005 gets a
    time that is a day late. *)
Definition samoa : TimeZone := mk_zone (fun local => if local <? 1325203200 then 39600 else -46800) (fun _ => -46800).

Lemma lidar_time_calendar_witness :
  GetMicroLidarTimeU64 (-28800) (demo_tail [124; 2; 29; 12; 30; 15] 250000) = 1709209815250000 /\
  GetMicroLidarTimeU64 samoa (demo_tail [124; 2; 29; 12; 30; 15] 250000) = 1709209815250000 /\
  GetMicroLidarTimeU64 samoa (demo_tail [105; 1; 1; 0; 0; 0] 0) = (1104537600 + 86400) * 1000000.
Proof.
  pose proof (lidar_time_calendar samoa (demo_tail [124; 2; 29; 12; 30; 15] 250000) 19782 12 30 15) as Ht.
  pose proof (lidar_time_calendar samoa (demo_tail [105; 1; 1; 0; 0; 0] 0) 12784 0 0 0) as Ho.
  assert (Nat.iter (Z.to_nat 19782) next_day (1970, 1, 1) = (2024, 2, 29)) as E by (vm_compute; reflexivity).
  assert (Nat.iter (Z.to_nat 12784) next_day (1970, 1, 1) = (2005, 1, 1)) as E0 by (vm_compute; reflexivity).
  rewrite E in Ht. rewrite E0 in Ho.
  destruct Ht as (_ & H1 & H2); [unfold last_day, is_u8, is_u32; cbn; (lia || reflexivity)..|].
  destruct Ho as (H3 & _); [unfold last_day, is_u8, is_u32; cbn; (lia || reflexivity)..|].
  split; [apply (H2 (-28800))|]. split; [by apply H1|]. rewrite H3. vm_compute. reflexivity.
Defined.

Definition demo_header : HS_LIDAR_HEADER_ME_V4 := mk_header 128 2 0 4 2 0x11.

Lemma packet_layout_witness :
  GetPacketSize demo_header = 1078 /\ seq_num_off demo_header + 4 <= 1500.
Proof.
  destruct (packet_layout demo_header) as (_ & _ & _ & E & H);
    [unfold is_u8; cbn; lia|unfold is_u8; cbn; lia|vm_compute; congruence|vm_compute; congruence|].
  split; [rewrite E; reflexivity|exact H].
Defined.
