(* ===== verification/LidarTime.v ===== *)
(** * LidarTime: the time stamps of the other protocols

    [GetMicroLidarTimeU64] is repeated in every protocol header.  Apart from the
    one of the 1.4 protocol (ProtocolV1_4.v) it has two forms, which differ in
    how the year byte is read: one adds 100 and takes it off again from 200 on
    (P40, P64, 3.1, 3.2, 6.1, 7.2), the other takes 100 off from 200 on (2.x,
    4.3, 4.7).  The host is little-endian; [timezone] is its
    time zone, as in Calendar.v. *)

From S2P Require Import Prelude Bytes Calendar.
Local Open Scope Z_scope.

(** t.tm_year = utc[0] + 100; if (t.tm_year >= 200) t.tm_year -= 100; *)
Definition year_since_2000 (u0 : Z) : Z :=
  let tm_year := u0 + 100 in if 200 <=? tm_year then tm_year - 100 else tm_year.

(** t.tm_year = utc[0]; if (t.tm_year >= 200) t.tm_year -= 100; *)
Definition year_since_1900 (u0 : Z) : Z :=
  let tm_year := u0 in if 200 <=? tm_year then tm_year - 100 else tm_year.

(** The rest of the function. *)
Definition micro_time (year : Z -> Z) (timezone : TimeZone) (utc : list Z) (u32Timestamp : Z) : Z :=
  match utc with
  | [u0; u1; u2; u3; u4; u5] =>
      if negb (u0 =? 0) then
        u64 ((mktime_utc timezone (year u0) (u1 - 1) (u2 + 1) u3 u4 u5 - 86400) * 1000000 + u32Timestamp)
      else
        let utc_time_big := le_combine [u2; u3; u4; u5] in
        u64 (big_to_native true 4 utc_time_big * 1000000 + u32Timestamp)
  | _ => 0
  end.

Definition GetMicroLidarTimeU64_2000 : TimeZone -> list Z -> Z -> Z := micro_time year_since_2000.
Definition GetMicroLidarTimeU64_1900 : TimeZone -> list Z -> Z -> Z := micro_time year_since_1900.

(** ** Lemmas *)

(** Seconds in network byte order, when the year byte is zero. *)
Lemma micro_time_unix year timezone u1 u2 u3 u4 u5 ts :
  byte_list [u2; u3; u4; u5] -> is_u32 ts ->
  micro_time year timezone [0; u1; u2; u3; u4; u5] ts = be_combine [u2; u3; u4; u5] * 1000000 + ts.
Proof.
  intros Hb Hts. unfold micro_time. cbn [Z.eqb negb].
  unfold big_to_native. rewrite IsLittleEndian_host. cbn [negb].
  pose proof (le_combine_range _ Hb) as Hr. pose proof (le_bytes_combine _ Hb) as Hc.
  set (l := [u2; u3; u4; u5]) in *. change (length l) with 4%nat in *.
  rewrite reverseBytes_spec, Hc by (lia || done). pose proof (be_combine_range _ Hb) as Hbr. change (length l) with 4%nat in Hbr.
  unfold u64, is_u32 in *. rewrite Z.mod_small; [done|].
  change (2 ^ (8 * Z.of_nat 4)) with (2 ^ 32) in Hbr. lia.
Qed.

Lemma micro_time_date year timezone u0 k y m d h mi s ts :
  u0 <> 0 -> year u0 = y - 1900 -> 0 <= k <= last_day ->
  Nat.iter (Z.to_nat k) next_day (1970, 1, 1) = (y, m, d) ->
  is_u8 h -> is_u8 mi -> is_u8 s -> is_u32 ts ->
  zone_shift timezone (k * 86400 + h * 3600 + mi * 60 + s) = 0 ->
  micro_time year timezone [u0; m; d; h; mi; s] ts = (k * 86400 + h * 3600 + mi * 60 + s) * 1000000 + ts.
Proof.
  intros Hu Hy Hk Hd Hh Hmi Hs Hts Hz. unfold micro_time. destruct (Z.eqb_spec u0 0); [done|]. cbn [negb].
  rewrite Hy, (mktime_calendar timezone k y m d), Hz by done.
  unfold is_u8, is_u32, last_day, u64 in *. rewrite Z.mod_small; lia.
Qed.

(** ** Properties *)

(** In the first form a year byte from 1 to 99 means 2001 to 2099 and one from
    100 on means 1900 plus the byte; the time is that of the date so read, in
    microseconds since the epoch, for every calendar date at which the host's zone
    has the offset that the global [timezone] holds. *)
Theorem packet_time_2000 timezone u0 k m d h mi s ts :
  0 < u0 < 256 -> 0 <= k <= last_day ->
  Nat.iter (Z.to_nat k) next_day (1970, 1, 1) = (if u0 <? 100 then 2000 + u0 else 1900 + u0, m, d) ->
  is_u8 h -> is_u8 mi -> is_u8 s -> is_u32 ts ->
  zone_shift timezone (k * 86400 + h * 3600 + mi * 60 + s) = 0 ->
  GetMicroLidarTimeU64_2000 timezone [u0; m; d; h; mi; s] ts =
    (k * 86400 + h * 3600 + mi * 60 + s) * 1000000 + ts.
Proof.
  intros Hu Hk Hd. apply micro_time_date with (y := if u0 <? 100 then 2000 + u0 else 1900 + u0); [lia| |done|done].
  unfold year_since_2000. destruct (Z.leb_spec 200 (u0 + 100)), (Z.ltb_spec u0 100); lia.
Qed.

(** In the second form the byte counts the years from 1900, but only up to 2099:
    the years from 2100 on are read as those a hundred years before. *)
Theorem packet_time_1900 timezone u0 k m d h mi s ts :
  70 <= u0 < 256 -> 0 <= k <= last_day ->
  Nat.iter (Z.to_nat k) next_day (1970, 1, 1) = (if u0 <? 200 then 1900 + u0 else 1800 + u0, m, d) ->
  is_u8 h -> is_u8 mi -> is_u8 s -> is_u32 ts ->
  zone_shift timezone (k * 86400 + h * 3600 + mi * 60 + s) = 0 ->
  GetMicroLidarTimeU64_1900 timezone [u0; m; d; h; mi; s] ts =
    (k * 86400 + h * 3600 + mi * 60 + s) * 1000000 + ts.
Proof.
  intros Hu Hk Hd. apply micro_time_date with (y := if u0 <? 200 then 1900 + u0 else 1800 + u0); [lia| |done|done].
  unfold year_since_1900. destruct (Z.leb_spec 200 u0), (Z.ltb_spec u0 200); lia.
Qed.

(** ** Witnesses *)

(** 29 February 2024, 12:30:15.25: the byte is 24 or 124 in the first form, 124
    in the second, and 224 is 2024 too. *)
Lemma packet_time_2000_witness :
  GetMicroLidarTimeU64_2000 (-28800) [24; 2; 29; 12; 30; 15] 250000 = 1709209815250000 /\
  GetMicroLidarTimeU64_2000 (-28800) [124; 2; 29; 12; 30; 15] 250000 = 1709209815250000.
Proof.
  assert (Nat.iter (Z.to_nat 19782) next_day (1970, 1, 1) = (2024, 2, 29)) as E by (vm_compute; reflexivity).
  split; [refine (packet_time_2000 (-28800) 24 19782 2 29 12 30 15 250000 _ _ E _ _ _ _ _)
        |refine (packet_time_2000 (-28800) 124 19782 2 29 12 30 15 250000 _ _ E _ _ _ _ _)];
    try (unfold last_day, is_u8, is_u32; lia); reflexivity.
Defined.

Lemma packet_time_1900_witness :
  GetMicroLidarTimeU64_1900 (-28800) [124; 2; 29; 12; 30; 15] 250000 = 1709209815250000 /\
  GetMicroLidarTimeU64_1900 (-28800) [224; 2; 29; 12; 30; 15] 250000 = 1709209815250000.
Proof.
  assert (Nat.iter (Z.to_nat 19782) next_day (1970, 1, 1) = (2024, 2, 29)) as E by (vm_compute; reflexivity).
  split; [refine (packet_time_1900 (-28800) 124 19782 2 29 12 30 15 250000 _ _ E _ _ _ _ _)
        |refine (packet_time_1900 (-28800) 224 19782 2 29 12 30 15 250000 _ _ E _ _ _ _ _)];
    try (unfold last_day, is_u8, is_u32; lia); reflexivity.
Defined.
