(* ===== verification/FaultMessage.v ===== *)
(** * FaultMessage: the fault messages of PandarAT128 and ATX

    [FaultMessageVersion4_3] (UdpProtocol/udp_protocol_v4_3.h) and
    [FaultMessageVersion4_7] (udp_protocol_v4_7.h) read a datagram of 99 bytes
    into the [FaultMessageInfo] of fault_message.h, which the SDK hands to the
    user's callback.  The members of the union are the two constructors of
    [FaultMessageUnionInfo].  The host is little-endian. *)

From S2P Require Import Prelude Bytes Floats Walk ProtocolV1_4 LidarTime Calendar.
Local Open Scope Z_scope.

Definition LENS_AZIMUTH_AREA_NUM : Z := 12.
Definition LENS_ELEVATION_AREA_NUM : Z := 8.

Inductive LensDirtyState : Set := kUndefineData | kLensNormal | kPassable | kUnPassable.

Record FaultMessageInfo4_3 : Set := mk_fault4_3 {
  fault_code_type : Z; rolling_counter : Z; tdm_data_indicate4_3 : Z; time_division_multiplexing4_3 : list Z;
  software_id : Z; software_version4_3 : Z; hardware_version : Z; bt_version : Z; heating_state : Z;
  high_temperture_shutdown_state : Z; reversed4_3 : list Z }.

Record FaultMessageInfo4_7 : Set := mk_fault4_7 {
  tdm_data_indicate4_7 : Z; time_division_multiplexing4_7 : list Z; internal_fault_id : Z; fault_indicate : list Z;
  customer_id : Z; software_version4_7 : Z; iteration_version : Z; reversed4_7 : list Z }.

Inductive FaultMessageUnionInfo : Set := fault4_3 (_ : FaultMessageInfo4_3) | fault4_7 (_ : FaultMessageInfo4_7).

Record FaultMessageInfo : Type := mk_fault {
  fault_prase_version : Z; version : Z; utc_time : list Z; timestamp : Z; total_time : f64; operate_state : Z;
  fault_state : Z; total_faultcode_num : Z; faultcode_id : Z; faultcode : Z; union_info : FaultMessageUnionInfo }.

Section Parse.
Variable timezone : TimeZone.

(** static_cast<double>(GetMicroLidarTimeU64()) / 1000000.0 *)
Definition total_seconds (utc : list Z) (ts : Z) : f64 :=
  div64 (of_Z64 (GetMicroLidarTimeU64_1900 timezone utc ts)) (of_Z64 1000000).

(** [FaultMessageVersion4_3::ParserFaultMessage]; the time stamp and the fault
    code are in network byte order. *)
Definition ParserFaultMessage4_3 (buf : list Z) : result FaultMessageInfo :=
  v ← rd8 buf 2;
  utc ← arr_slice buf 3 6;
  ts ← rd32 buf 9;
  op ← rd8 buf 13; fs ← rd8 buf 14; ct ← rd8 buf 15; rc ← rd8 buf 16; total ← rd8 buf 17; id ← rd8 buf 18;
  code ← rd32 buf 19;
  tdm ← arr_slice buf 23 27;
  tdm0 ← rd8 buf 23;
  sid ← rd16 buf 50; sv ← rd16 buf 52; hv ← rd16 buf 54; bv ← rd16 buf 56;
  heat ← rd8 buf 58; hot ← rd8 buf 59;
  rev ← arr_slice buf 60 3;
  let ts := big_to_native true 4 ts in
  Ok (mk_fault 0x43 v utc ts (total_seconds utc ts) op fs total id (big_to_native true 4 code)
        (fault4_3 (mk_fault4_3 ct rc tdm0 tdm sid sv hv bv heat hot rev))).

(** [FaultMessageVersion4_7::ParserFaultMessage]. *)
Definition ParserFaultMessage4_7 (buf : list Z) : result FaultMessageInfo :=
  v ← rd8 buf 0;
  utc ← arr_slice buf 1 6;
  ts ← rd32 buf 7;
  op ← rd8 buf 11; fs ← rd8 buf 12; total ← rd8 buf 13; id ← rd8 buf 14;
  code ← rd32 buf 15;
  tdm0 ← rd8 buf 19;
  tdm ← arr_slice buf 20 14;
  f0 ← rd8 buf 34;
  fi ← arr_slice buf 35 8;
  cu ← rd8 buf 43; sv ← rd8 buf 44; iv ← rd8 buf 45;
  rev ← arr_slice buf 46 17;
  Ok (mk_fault 0x47 v utc ts (total_seconds utc ts) op fs total id code
        (fault4_7 (mk_fault4_7 tdm0 tdm f0 fi cu sv iv rev))).

End Parse.

(** ** The lens areas

    [ParserLensDirtyState] on the [time_division_multiplexing] bytes: the state
    of area (i, j). *)
Definition lens_dirty_state_temp1 (rawdata j : Z) : Z :=
  let lens_dirty_state_temp := u16 (Z.shiftl rawdata ((LENS_ELEVATION_AREA_NUM - j - 1) * 2)) in
  u16 (Z.shiftr lens_dirty_state_temp ((LENS_ELEVATION_AREA_NUM - 1) * 2)).

Definition lens_state (t : Z) : LensDirtyState :=
  if t =? 0 then kLensNormal else if t =? 1 then kPassable else if t =? 3 then kUnPassable else kUndefineData.

Definition ParserLensDirtyState (tdm : list Z) : result (list (list LensDirtyState)) :=
  foldM (fun rows i =>
    rawdata ← rd16 tdm (3 + i * 2);
    indicate ← rd8 tdm 0;
    Ok (rows ++ [map (fun j => if indicate =? 1 then lens_state (lens_dirty_state_temp1 rawdata j) else kUndefineData)
                   (seqZ 0 LENS_ELEVATION_AREA_NUM)])) [] (seqZ 0 LENS_AZIMUTH_AREA_NUM).

(** ((double) the first two bytes behind the indicator) * 0.1f *)
Definition ParserTemperature (tdm : list Z) : result f64 :=
  raw ← rd16 tdm 1; Ok (mul64 (of_Z64 raw) (lit32 1 1)).

(** ** What a lidar sends

    The two messages as their documentation lays them out, for the properties. *)
Definition fault_bytes4_3 (sob : Z) (m : FaultMessageInfo) (f : FaultMessageInfo4_3) (crc : Z) (security : list Z) : list Z :=
  le_bytes 2 sob ++ [version m] ++ utc_time m ++ be_bytes 4 (timestamp m) ++
  [operate_state m; fault_state m; fault_code_type f; rolling_counter f; total_faultcode_num m; faultcode_id m] ++
  be_bytes 4 (faultcode m) ++ time_division_multiplexing4_3 f ++
  le_bytes 2 (software_id f) ++ le_bytes 2 (software_version4_3 f) ++ le_bytes 2 (hardware_version f) ++
  le_bytes 2 (bt_version f) ++ [heating_state f; high_temperture_shutdown_state f] ++ reversed4_3 f ++
  le_bytes 4 crc ++ security.

Definition fault_bytes4_7 (m : FaultMessageInfo) (f : FaultMessageInfo4_7) (e2e security : list Z) : list Z :=
  [version m] ++ utc_time m ++ le_bytes 4 (timestamp m) ++
  [operate_state m; fault_state m; total_faultcode_num m; faultcode_id m] ++ le_bytes 4 (faultcode m) ++
  [tdm_data_indicate4_7 f] ++ time_division_multiplexing4_7 f ++ [internal_fault_id f] ++ fault_indicate f ++
  [customer_id f; software_version4_7 f; iteration_version f] ++ reversed4_7 f ++ e2e ++ security.

(** A message whose members fit their places. *)
Definition fault_ok (timezone : TimeZone) (m : FaultMessageInfo) : Prop :=
  length (utc_time m) = 6%nat /\ is_u32 (timestamp m) /\ is_u32 (faultcode m) /\
  total_time m = total_seconds timezone (utc_time m) (timestamp m).

Definition fault4_3_ok (f : FaultMessageInfo4_3) : Prop :=
  length (time_division_multiplexing4_3 f) = 27%nat /\
  head (time_division_multiplexing4_3 f) = Some (tdm_data_indicate4_3 f) /\
  is_u16 (software_id f) /\ is_u16 (software_version4_3 f) /\ is_u16 (hardware_version f) /\ is_u16 (bt_version f) /\
  length (reversed4_3 f) = 3%nat.

Definition fault4_7_ok (f : FaultMessageInfo4_7) : Prop :=
  length (time_division_multiplexing4_7 f) = 14%nat /\ length (fault_indicate f) = 8%nat /\ length (reversed4_7 f) = 17%nat.

(** ** Lemmas *)

Lemma big_native_bytes v : is_u32 v -> big_to_native true 4 (le_combine (be_bytes 4 v)) = v.
Proof.
  intros Hv. unfold big_to_native. rewrite IsLittleEndian_host. cbn [negb].
  pose proof (le_combine_range (be_bytes 4 v) (be_bytes_byte_list 4 v)) as Hr.
  rewrite be_bytes_length in Hr. rewrite reverseBytes_spec by (done || lia).
  pose proof (le_bytes_combine (be_bytes 4 v) (be_bytes_byte_list 4 v)) as H. rewrite be_bytes_length in H. rewrite H.
  rewrite be_combine_bytes. apply Z.mod_small. unfold is_u32 in Hv. lia.
Qed.

Lemma le_native v n : 0 <= v < 2 ^ (8 * Z.of_nat n) -> le_combine (le_bytes n v) = v.
Proof. intros Hv. rewrite le_combine_bytes. by apply Z.mod_small. Qed.

(** The two bits of an area. *)
Lemma lens_bits raw j : is_u16 raw -> 0 <= j < 8 -> lens_dirty_state_temp1 raw j = raw / 4 ^ j mod 4.
Proof.
  intros Hr Hj. unfold lens_dirty_state_temp1, LENS_ELEVATION_AREA_NUM. change ((8 - 1) * 2) with 14.
  rewrite Z.shiftl_mul_pow2, Z.shiftr_div_pow2 by lia. unfold u16, is_u16 in *.
  assert (j = 0 \/ j = 1 \/ j = 2 \/ j = 3 \/ j = 4 \/ j = 5 \/ j = 6 \/ j = 7) as Hc by lia.
  destruct Hc as [-> | [-> | [-> | [-> | [-> | [-> | [-> | ->]]]]]]];
    match goal with |- context [2 ^ ((8 - ?j - 1) * 2)] =>
      let p := eval vm_compute in (2 ^ ((8 - j - 1) * 2)) in change (2 ^ ((8 - j - 1) * 2)) with p end;
    match goal with |- context [4 ^ ?j] => let p := eval vm_compute in (4 ^ j) in change (4 ^ j) with p end;
    change (2 ^ 16) with 65536 in *; change (2 ^ 14) with 16384;
    Z.to_euclidean_division_equations; lia.
Qed.

(** ** Properties *)

(** A fault message of PandarAT128 is read as it was sent, whatever follows it in
    the receive buffer. *)
Theorem fault4_3_parsed timezone sob m f crc security rest :
  fault_prase_version m = 0x43 -> union_info m = fault4_3 f -> fault_ok timezone m -> fault4_3_ok f ->
  ParserFaultMessage4_3 timezone (fault_bytes4_3 sob m f crc security ++ rest) = Ok m.
Proof.
  intros Hv Hu (Hutc & Hts & Hfc & Htot) (Htdm & Hhd & H1 & H2 & H3 & H4 & Hrev). rewrite head_lookup in Hhd.
  unfold ParserFaultMessage4_3, fault_bytes4_3. rewrite <-!app_assoc.
  next_field (version m). next_field (utc_time m). next_field (le_combine (be_bytes 4 (timestamp m))).
  next_field (operate_state m). next_field (fault_state m). next_field (fault_code_type f).
  next_field (rolling_counter f). next_field (total_faultcode_num m). next_field (faultcode_id m).
  next_field (le_combine (be_bytes 4 (faultcode m))). next_field (time_division_multiplexing4_3 f).
  next_field (tdm_data_indicate4_3 f).
  next_field (le_combine (le_bytes 2 (software_id f))). next_field (le_combine (le_bytes 2 (software_version4_3 f))).
  next_field (le_combine (le_bytes 2 (hardware_version f))). next_field (le_combine (le_bytes 2 (bt_version f))).
  next_field (heating_state f). next_field (high_temperture_shutdown_state f). next_field (reversed4_3 f).
  rewrite !big_native_bytes, !le_native by assumption. rewrite <-Htot, <-Hv.
  replace (fault4_3 _) with (union_info m) by (rewrite Hu; by destruct f). by destruct m.
Qed.

(** A fault message of ATX is read as it was sent. *)
Theorem fault4_7_parsed timezone m f e2e security rest :
  fault_prase_version m = 0x47 -> union_info m = fault4_7 f -> fault_ok timezone m -> fault4_7_ok f ->
  ParserFaultMessage4_7 timezone (fault_bytes4_7 m f e2e security ++ rest) = Ok m.
Proof.
  intros Hv Hu (Hutc & Hts & Hfc & Htot) (Htdm & Hfi & Hrev).
  unfold ParserFaultMessage4_7, fault_bytes4_7. rewrite <-!app_assoc.
  next_field (version m). next_field (utc_time m). next_field (le_combine (le_bytes 4 (timestamp m))).
  next_field (operate_state m). next_field (fault_state m). next_field (total_faultcode_num m). next_field (faultcode_id m).
  next_field (le_combine (le_bytes 4 (faultcode m))). next_field (tdm_data_indicate4_7 f).
  next_field (time_division_multiplexing4_7 f). next_field (internal_fault_id f). next_field (fault_indicate f).
  next_field (customer_id f). next_field (software_version4_7 f). next_field (iteration_version f). next_field (reversed4_7 f).
  rewrite !le_native by assumption. rewrite <-Htot, <-Hv.
  replace (fault4_7 _) with (union_info m) by (rewrite Hu; by destruct f). by destruct m.
Qed.

(** The state of lens area (i, j) is bits 2j and 2j+1 of the i-th two-byte word,
    with 2 counted as undefined, and every area is undefined unless the
    indicator is 1. *)
Theorem lens_areas tdm : length tdm = 27%nat -> byte_list tdm ->
  exists rows, ParserLensDirtyState tdm = Ok rows /\ length rows = 12%nat /\
    forall i j, 0 <= i < 12 -> 0 <= j < 8 -> exists row raw k,
      rows !! Z.to_nat i = Some row /\ rd16 tdm (3 + i * 2) = Ok raw /\ rd8 tdm 0 = Ok k /\
      row !! Z.to_nat j = Some (if k =? 1 then lens_state (raw / 4 ^ j mod 4) else kUndefineData).
Proof.
  intros Hl Hb. destruct (rd8_in tdm 0) as [k Hk]; [lia|].
  assert (forall n, (n <= 12)%nat -> exists rows,
    foldM (fun rows i =>
      rawdata ← rd16 tdm (3 + i * 2);
      indicate ← rd8 tdm 0;
      Ok (rows ++ [map (fun j => if indicate =? 1 then lens_state (lens_dirty_state_temp1 rawdata j) else kUndefineData)
                     (seqZ 0 LENS_ELEVATION_AREA_NUM)])) [] (seqZ 0 (Z.of_nat n)) = Ok rows /\ length rows = n /\
    forall i j, 0 <= i < Z.of_nat n -> 0 <= j < 8 -> exists row raw,
      rows !! Z.to_nat i = Some row /\ rd16 tdm (3 + i * 2) = Ok raw /\
      row !! Z.to_nat j = Some (if k =? 1 then lens_state (raw / 4 ^ j mod 4) else kUndefineData)) as Hn.
  { induction n as [|n IH]; intros Hn; [exists []; split; [done|split; [done|lia]]|].
    destruct IH as (rows & E & Hlen & Hin); [lia|]. rewrite seqZ_snoc, foldM_snoc, E. cbn [mbind result_bind].
    destruct (rd_le_in 2 tdm (3 + Z.of_nat n * 2)) as [raw Er]; [lia|lia|]. unfold rd16. rewrite Er, Hk. cbn [mbind result_bind].
    eexists. split; [reflexivity|]. split; [rewrite length_app, Hlen; cbn; lia|].
    intros i j Hi Hj. destruct (Z.eq_dec i (Z.of_nat n)) as [->|].
    - do 2 eexists. rewrite Nat2Z.id, lookup_app_r by lia. rewrite Hlen, Nat.sub_diag. split; [reflexivity|]. split; [exact Er|].
      rewrite list_lookup_fmap, lookup_seqZ_lt by (unfold LENS_ELEVATION_AREA_NUM; lia). cbn [fmap option_fmap option_map].
      rewrite Z.add_0_l, Z2Nat.id by lia. apply rd_le_range in Er; [|done]. by rewrite lens_bits.
    - destruct (Hin i j) as (row & raw' & E1 & E2 & E3); [lia|done|]. exists row, raw'.
      rewrite lookup_app_l by lia. done. }
  destruct (Hn 12%nat ltac:(lia)) as (rows & E & Hlen & Hin). exists rows. split; [exact E|]. split; [done|].
  intros i j Hi Hj. destruct (Hin i j) as (row & raw & E1 & E2 & E3); [lia|done|]. by exists row, raw, k.
Qed.

(** ** Witnesses *)

Definition demo_fault4_3 : FaultMessageInfo4_3 :=
  mk_fault4_3 1 2 1 (1 :: replicate 26 7) 0x1234 3 4 5 1 0 [0; 0; 0].
Definition demo_message (v : Z) (i : FaultMessageUnionInfo) : FaultMessageInfo :=
  mk_fault v 5 [124; 2; 29; 12; 30; 15] 250000 (total_seconds 0 [124; 2; 29; 12; 30; 15] 250000) 1 2 3 4 0xABCDEF i.
Definition demo_fault4_7 : FaultMessageInfo4_7 := mk_fault4_7 1 (replicate 14 6) 9 (replicate 8 2) 1 2 3 (replicate 17 0).

Lemma fault4_3_parsed_witness :
  ParserFaultMessage4_3 0 (fault_bytes4_3 0xFFEE (demo_message 0x43 (fault4_3 demo_fault4_3)) demo_fault4_3 0 (replicate 32 0)
    ++ replicate 1401 0) = Ok (demo_message 0x43 (fault4_3 demo_fault4_3)).
Proof.
  apply fault4_3_parsed; [done|done| |].
  - split; [done|]. split; [split; done|]. split; [split; done|]. reflexivity.
  - repeat split; done.
Defined.

Lemma fault4_7_parsed_witness :
  ParserFaultMessage4_7 0 (fault_bytes4_7 (demo_message 0x47 (fault4_7 demo_fault4_7)) demo_fault4_7 (replicate 12 0) (replicate 24 0)
    ++ replicate 1401 0) = Ok (demo_message 0x47 (fault4_7 demo_fault4_7)).
Proof.
  apply fault4_7_parsed; [done|done| |].
  - split; [done|]. split; [split; done|]. split; [split; done|]. reflexivity.
  - repeat split; done.
Defined.

Lemma lens_areas_witness :
  exists rows row, ParserLensDirtyState (1 :: replicate 26 0x1C) = Ok rows /\ rows !! 0%nat = Some row /\
    row !! 1%nat = Some kUnPassable /\ row !! 2%nat = Some kPassable.
Proof.
  destruct (lens_areas (1 :: replicate 26 0x1C)) as (rows & E & _ & Hin);
    [done|repeat constructor; done|].
  destruct (Hin 0 1) as (row & raw & k & E1 & E2 & E3 & E4); [lia|lia|].
  destruct (Hin 0 2) as (row' & raw' & k' & F1 & F2 & F3 & F4); [lia|lia|].
  assert (rows !! 0%nat = Some row) as E1' by exact E1. assert (rows !! 0%nat = Some row') as F1' by exact F1.
  rewrite E1' in F1'. injection F1' as <-.
  exists rows, row. split; [exact E|]. split; [exact E1|].
  vm_compute in E2, E3, F2, F3. apply (inj Ok) in E2 as <-, E3 as <-, F2 as <-, F3 as <-. split; [exact E4|exact F4].
Defined.
