(* ===== verification/Firetimes1_4.v ===== *)
(** * Firetimes1_4: the firetime file of the Pandar128 family

    [Udp1_4Parser::LoadFiretimesFile] of UdpParser/src/udp1_4_parser.cc.  Two
    layouts are read: the sectioned one (three header lines, the first of which
    may carry the section distance, then rows of a laser id and eight pairs) and
    the "Operational State" one (two header lines, then rows of a laser id and
    six times).  An exception of [std::stoi], [std::stof] or [std::stod] ends the
    loading and leaves what was stored so far. *)

From Stdlib Require Import Ascii SpecFloat.
From S2P Require Import Prelude Text Floats LidarTypes.
Local Open Scope Z_scope.

Definition kLaserNum : Z := 128.

(** [section_distance] and [firetime_section_values] (by laser, section and
    half), which nothing initialises. *)
Record FiretimeTable : Type := mk_firetimes {
  section_distance : option f64;
  firetime_section_values : gmap (Z * Z * Z) Z;
}.

Definition put_firetime (idx section : Z) (a b : Z) (t : FiretimeTable) : FiretimeTable :=
  mk_firetimes (section_distance t)
    (<[(idx, section, 1) := b]> (<[(idx, section, 0) := a]> (firetime_section_values t))).
Definition put_distance (d : f64) (t : FiretimeTable) : FiretimeTable :=
  mk_firetimes (Some d) (firetime_section_values t).

(** [std::stof] and [std::stod] of a decimal without exponent sign tricks: sign,
    digits, point, digits, exponent; a value that overflows throws.  The words
    and the hexadecimal notation they also know are outside the model. *)
Definition decimal_parts (s : string) : option (bool * Z * Z) :=
  let '(neg, s) := take_sign (skip_space s) in
  let '(ip, n1, s) := take_digits 0 0 s in
  let '(m, n2, s) :=
    match s with
    | String c s' => if ascii_eqb c dot then take_digits ip 0 s' else (ip, 0%nat, s)
    | EmptyString => (ip, 0%nat, s)
    end in
  if Nat.eqb (n1 + n2) 0 then None
  else
    let e :=
      match s with
      | String c s' =>
          if ascii_eqb c "e"%char || ascii_eqb c "E"%char then
            let '(eneg, s') := take_sign s' in
            let '(e, n3, _) := take_digits 0 0 s' in
            if Nat.eqb n3 0 then 0 else if eneg : bool then - e else e
          else 0
      | EmptyString => 0
      end in
    Some (neg : bool, m, e - Z.of_nat n2).

Definition finite (x : spec_float) : result spec_float :=
  match x with S754_infinity _ | S754_nan => Err Thrown | _ => Ok x end.

Definition stof (s : string) : result f32 :=
  match decimal_parts s with
  | Some (neg, m, e) => finite (decimal_to_float32 neg m e)
  | None => Err Thrown
  end.

Definition stod (s : string) : result f64 :=
  match decimal_parts s with
  | Some (neg, Zpos p, e) =>
      finite (if 0 <=? e
              then binary_normalize 53 1024 (if neg then - (Zpos p * 10 ^ e) else Zpos p * 10 ^ e) 0 neg
              else SFdiv 53 1024 (S754_finite neg p 0) (S754_finite false (Z.to_pos (10 ^ (- e))) 0))
  | Some (neg, _, _) => Ok (S754_zero neg)
  | None => Err Thrown
  end.

(** The characters of a distance. *)
Fixpoint distance_chars (s : string) : string :=
  match s with
  | EmptyString => EmptyString
  | String c s =>
      let keep := ascii_eqb c dot || match digit c with Some _ => true | None => false end in
      if keep then String c (distance_chars s) else distance_chars s
  end.

(** How the treatment of a line ends: the next line, a return with the flag
    cleared, or an exception. *)
Inductive line_end : Set := NextLine | SkipLine | RejectFile | ThrewLine.

(** An exception stops the row; a fault stops the program. *)
Definition catching {A B} (r : result A) (t : B) (k : A -> result (B * line_end)) : result (B * line_end) :=
  match r with
  | Ok a => k a
  | Err Thrown => Ok (t, ThrewLine)
  | Err f => Err f
  end.

(** for (i = 1; i <= 15; i += 2) *)
Fixpoint pair_loop (n : nat) (i idx : Z) (strList : list string) (t : FiretimeTable)
    : result (FiretimeTable * line_end) :=
  match n with
  | O => Ok (t, NextLine)
  | S n =>
      sa ← arr_get strList i;
      catching (stoi sa) t (fun a =>
        sb ← arr_get strList (i + 1);
        catching (stoi sb) t (fun b =>
          pair_loop n (i + 2) idx strList (put_firetime idx (i / 2) a b t)))
  end.

(** for (i = 1; i <= 6; i++) *)
Fixpoint time_loop (n : nat) (i idx : Z) (strList : list string) (t : FiretimeTable)
    : result (FiretimeTable * line_end) :=
  match n with
  | O => Ok (t, NextLine)
  | S n =>
      s ← arr_get strList i;
      catching (if bool_decide (s = "-"%string) then Ok f_zero
                else v ← stof s; Ok (mul32 v (of_Z32 1000))) t (fun a =>
        v ← to_int a;
        time_loop n (i + 1) idx strList (put_firetime idx (i - 1) v v t))
  end.

(** A data row; [row] fills the sections of the laser. *)
Definition load_row (columns : nat) (row : Z -> list string -> FiretimeTable -> result (FiretimeTable * line_end))
    (lineStr : string) (strList : list string) (t : FiretimeTable) : result (FiretimeTable * line_end) :=
  (* lineStr[lineStr.size() - 1]; a line never ends with a newline here *)
  if String.eqb lineStr EmptyString then Err OutOfBounds
  else if Nat.ltb (length strList) columns then Ok (t, RejectFile)
  else
    s0 ← arr_get strList 0;
    catching (stoi s0) t (fun id =>
      let idx := id - 1 in
      if (kLaserNum <=? idx) || (idx <? 0) then Ok (t, SkipLine) else row idx strList t).

(** The two counters and the layout found so far. *)
Record LoadState : Type := mk_load { uselessLine : Z; count : Z; is_OT : bool }.

(** One iteration of the loop over the lines. *)
Definition load_line (lineStr : string) (st : LoadState) (t : FiretimeTable)
    : result (LoadState * FiretimeTable * line_end) :=
  let strList := tokens comma lineStr in
  '(ot, t, threw) ←
    (if uselessLine st =? 0 then
       s0 ← arr_get strList 0;
       if bool_decide (s0 = "Operational State"%string) then Ok (true, t, false)
       else
         let dist := distance_chars s0 in
         if String.eqb dist EmptyString then Ok (is_OT st, t, false)
         else match stod dist with
              | Ok d => Ok (is_OT st, put_distance d t, false)
              | Err _ => Ok (is_OT st, t, true)
              end
     else Ok (is_OT st, t, false));
  if threw : bool then Ok (st, t, ThrewLine)
  else if uselessLine st <? (if ot : bool then 2 else 3) then
    Ok (mk_load (uselessLine st + 1) (count st) ot, t, SkipLine)
  else
    '(t, e) ← (if ot then load_row 7 (time_loop 6 1) lineStr strList t
               else load_row 17 (pair_loop 8 1) lineStr strList t);
    match e with
    | NextLine =>
        let c := count st + 1 in
        Ok (mk_load (uselessLine st) c ot, t, if 128 <? c then RejectFile else NextLine)
    | _ => Ok (mk_load (uselessLine st) (count st) ot, t, e)
    end.

(** The flag [get_firetime_file_] is returned with the table. *)
Fixpoint load_lines (ls : list string) (st : LoadState) (t : FiretimeTable) : result (bool * FiretimeTable) :=
  match ls with
  | [] => Ok (true, t)
  | l :: ls =>
      '(st, t, e) ← load_line l st t;
      match e with
      | NextLine | SkipLine => load_lines ls st t
      | RejectFile | ThrewLine => Ok (false, t)
      end
  end.

Definition LoadFiretimesFile (fs : string -> option string) (path : string) (t : FiretimeTable)
    : result (bool * FiretimeTable) :=
  match fs path with
  | Some content => load_lines (tokens newline content) (mk_load 0 0 false) t
  | None => Ok (false, t)
  end.

(** ** What a sectioned file says *)

(** A laser's index and its eight pairs. *)
Definition laser_times : Type := Z * list (Z * Z).

Fixpoint put_pairs (idx section : Z) (ps : list (Z * Z)) (t : FiretimeTable) : FiretimeTable :=
  match ps with
  | [] => t
  | (a, b) :: ps => put_pairs idx (section + 1) ps (put_firetime idx section a b t)
  end.

Definition put_lasers (rows : list laser_times) (t : FiretimeTable) : FiretimeTable :=
  foldl (fun t r => put_pairs (fst r) 0 (snd r) t) t rows.

(** The tokens of a row behind the laser id. *)
Fixpoint pair_tokens (toks : list string) (ps : list (Z * Z)) : Prop :=
  match ps with
  | [] => True
  | (a, b) :: ps => exists sa sb rest, toks = sa :: sb :: rest /\ stoi sa = Ok a /\ stoi sb = Ok b /\
      pair_tokens rest ps
  end.

Definition row_says (line : string) (r : laser_times) : Prop :=
  exists id toks, tokens comma line = id :: toks /\ stoi id = Ok (fst r + 1) /\
    0 <= fst r < kLaserNum /\ length (snd r) = 8%nat /\ (16 <= length toks)%nat /\ pair_tokens toks (snd r).

(** ** Lemmas *)

Lemma pair_loop_ok idx ps : forall i pre toks t,
  Z.of_nat (length pre) = 2 * i + 1 -> pair_tokens toks ps ->
  pair_loop (length ps) (2 * i + 1) idx (pre ++ toks) t = Ok (put_pairs idx i ps t, NextLine).
Proof.
  induction ps as [|[a b] ps IH]; intros i pre toks t Hl Ht; cbn [pair_loop put_pairs length]; [done|].
  destruct Ht as (sa & sb & rest & -> & Ea & Eb & Hr).
  assert (arr_get (pre ++ sa :: sb :: rest) (2 * i + 1) = Ok sa) as ->.
  { apply arr_get_ok. split; [lia|]. rewrite lookup_app_r by lia.
    replace (Z.to_nat (2 * i + 1) - length pre)%nat with 0%nat by lia. done. }
  cbn [mbind result_bind]. rewrite Ea. cbn [catching].
  assert (arr_get (pre ++ sa :: sb :: rest) (2 * i + 1 + 1) = Ok sb) as ->.
  { apply arr_get_ok. split; [lia|]. rewrite lookup_app_r by lia.
    replace (Z.to_nat (2 * i + 1 + 1) - length pre)%nat with 1%nat by lia. done. }
  cbn [mbind result_bind]. rewrite Eb. cbn [catching].
  replace ((2 * i + 1) / 2) with i by (rewrite Z.mul_comm, Z.div_add_l by done; change (1 / 2) with 0; lia).
  replace (2 * i + 1 + 2) with (2 * (i + 1) + 1) by lia.
  replace (pre ++ sa :: sb :: rest) with ((pre ++ [sa; sb]) ++ rest) by by rewrite <-app_assoc.
  apply IH; [|done]. rewrite length_app. cbn [length]. lia.
Qed.

Lemma tokens_nonempty d s x l : tokens d s = x :: l -> String.eqb s EmptyString = false.
Proof. by destruct s. Qed.

Lemma load_row_ok line r t :
  row_says line r ->
  load_row 17 (pair_loop 8 1) line (tokens comma line) t = Ok (put_pairs (fst r) 0 (snd r) t, NextLine).
Proof.
  intros (id & toks & Et & Ei & Hr & H8 & Hl & Hp). unfold load_row.
  rewrite (tokens_nonempty _ _ _ _ Et), Et. destruct (Nat.ltb_spec (length (id :: toks)) 17); [cbn in *; lia|].
  change (arr_get (id :: toks) 0) with (Ok id : result string). cbn [mbind result_bind].
  rewrite Ei. cbn [catching]. unfold kLaserNum in *.
  destruct (Z.leb_spec 128 (fst r + 1 - 1)); [lia|]. destruct (Z.ltb_spec (fst r + 1 - 1) 0); [lia|]. cbn [orb].
  replace (fst r + 1 - 1) with (fst r) by lia.
  change (id :: toks) with ([id] ++ toks). rewrite <-H8.
  exact (pair_loop_ok (fst r) (snd r) 0 [id] toks t eq_refl Hp).
Qed.

(** Good rows are stored one after the other, whatever follows them. *)
Lemma load_data_then lines : forall rows c t rest (r : FiretimeTable -> bool * FiretimeTable),
  Forall2 row_says lines rows -> 0 <= c -> c + Z.of_nat (length rows) <= 128 ->
  (forall c' t', load_lines rest (mk_load 3 c' false) t' = Ok (r t')) ->
  load_lines (lines ++ rest) (mk_load 3 c false) t = Ok (r (put_lasers rows t)).
Proof.
  induction lines as [|l lines IH]; intros rows c t rest r H Hc Hl Hr.
  { inversion H. apply Hr. }
  inversion H as [|? x ? rows' Hx Hrs]; subst. cbn [load_lines app]. unfold load_line at 1.
  cbn [uselessLine is_OT Z.eqb Z.ltb Z.compare Pos.compare Pos.compare_cont mbind result_bind].
  rewrite (load_row_ok l x t Hx). cbn [mbind result_bind count]. cbn [length] in Hl.
  destruct (Z.ltb_spec 128 (c + 1)); [lia|]. apply (IH rows'); [done|lia|lia|done].
Qed.

Lemma put_pairs_lookup idx ps : forall section t idx' s h,
  0 <= section ->
  firetime_section_values (put_pairs idx section ps t) !! (idx', s, h) =
  (if bool_decide (idx' = idx) && (section <=? s) && (s <? section + Z.of_nat (length ps)) && ((h =? 0) || (h =? 1))
   then (fun p => if h =? 0 then fst p else snd p) <$> ps !! Z.to_nat (s - section)
   else firetime_section_values t !! (idx', s, h)).
Proof.
  induction ps as [|[a b] ps IH]; intros section t idx' s h Hs; cbn [put_pairs length].
  { destruct (bool_decide _); cbn [andb]; [|done]. cases_bool; cbn [andb]; lia || done. }
  rewrite IH by lia. cbn [firetime_section_values put_firetime].
  destruct (bool_decide_reflect (idx' = idx)) as [->|Hi]; cbn [andb].
  2: { rewrite !lookup_insert_ne by congruence. done. }
  destruct (Z.leb_spec section s), (Z.leb_spec (section + 1) s); cbn [andb]; try lia.
  - destruct (Z.ltb_spec s (section + 1 + Z.of_nat (length ps))), (Z.ltb_spec s (section + Z.of_nat (S (length ps))));
      cbn [andb]; try lia.
    + destruct ((h =? 0) || (h =? 1)).
      * replace (Z.to_nat (s - section)) with (S (Z.to_nat (s - (section + 1)))) by lia. done.
      * rewrite !lookup_insert_ne by (intros [=]; lia). done.
    + rewrite !lookup_insert_ne by (intros [=]; lia). done.
  - assert (s = section) as -> by lia. rewrite Z.sub_diag.
    destruct (Z.ltb_spec section (section + Z.of_nat (S (length ps)))); [|lia]. cbn [andb].
    change (((a, b) :: ps) !! Z.to_nat 0) with (Some (a, b)). cbn [fmap option_fmap option_map fst snd].
    destruct (Z.eqb_spec h 0) as [->|]; cbn [orb].
    + rewrite lookup_insert_ne by congruence. by rewrite lookup_insert_eq.
    + destruct (Z.eqb_spec h 1) as [->|]; [by rewrite lookup_insert_eq|].
      rewrite !lookup_insert_ne by congruence. done.
  - rewrite !lookup_insert_ne by (intros [=]; lia). done.
Qed.

Lemma put_lasers_other rows : forall t idx s h,
  idx ∉ (fst <$> rows) ->
  firetime_section_values (put_lasers rows t) !! (idx, s, h) = firetime_section_values t !! (idx, s, h).
Proof.
  induction rows as [|r rows IH]; intros t idx s h Hn; cbn in *; [done|].
  apply not_elem_of_cons in Hn as [Hn1 Hn2]. unfold put_lasers in IH. rewrite IH by done.
  rewrite put_pairs_lookup by lia. by rewrite bool_decide_false.
Qed.

Lemma put_lasers_distance rows : forall t, section_distance (put_lasers rows t) = section_distance t.
Proof.
  induction rows as [|[idx ps] rows IH]; intros t; cbn; [done|]. unfold put_lasers in IH. rewrite IH.
  generalize 0. revert t. induction ps as [|[a b] ps IHp]; intros t s; cbn; [done|]. by rewrite IHp.
Qed.

(** A row's times are found under its laser when no later row names it. *)
Lemma put_lasers_lookup rows : forall t idx ps s a b,
  NoDup (fst <$> rows) -> (idx, ps) ∈ rows -> ps !! Z.to_nat s = Some (a, b) -> 0 <= s ->
  firetime_section_values (put_lasers rows t) !! (idx, s, 0) = Some a /\
  firetime_section_values (put_lasers rows t) !! (idx, s, 1) = Some b.
Proof.
  induction rows as [|r rows IH]; intros t idx ps s a b Hnd Hin Hp Hs.
  { by apply elem_of_nil in Hin. }
  cbn in Hnd. apply NoDup_cons in Hnd as [Hn Hnd]. change (put_lasers (r :: rows) t) with
    (put_lasers rows (put_pairs (fst r) 0 (snd r) t)).
  apply elem_of_cons in Hin as [<-|Hin]; [|by eapply IH].
  cbn [fst snd] in *. rewrite !put_lasers_other by done. rewrite !put_pairs_lookup by lia.
  pose proof (lookup_lt_Some _ _ _ Hp). rewrite bool_decide_true by done. cbn [andb].
  destruct (Z.leb_spec 0 s); [|lia]. destruct (Z.ltb_spec s (0 + Z.of_nat (length ps))); [|lia].
  cbn [andb Z.eqb orb]. rewrite Z.sub_0_r, Hp. done.
Qed.

(** The three header lines. *)
Lemma load_headers h0 h1 h2 t0 ts d lines t :
  tokens comma h0 = t0 :: ts -> t0 <> "Operational State"%string ->
  distance_chars t0 <> EmptyString -> stod (distance_chars t0) = Ok d ->
  load_lines (h0 :: h1 :: h2 :: lines) (mk_load 0 0 false) t = load_lines lines (mk_load 3 0 false) (put_distance d t).
Proof.
  intros H0 Hop Hd Hs.
  assert (load_line h0 (mk_load 0 0 false) t = Ok (mk_load 1 0 false, put_distance d t, SkipLine)) as E.
  { unfold load_line. rewrite H0. cbn [uselessLine is_OT Z.eqb].
    change (arr_get (t0 :: ts) 0) with (Ok t0 : result string). cbn [mbind result_bind].
    rewrite bool_decide_false by done. destruct (String.eqb_spec (distance_chars t0) EmptyString); [done|].
    by rewrite Hs. }
  cbn [load_lines]. by rewrite E.
Qed.

(** ** Properties *)

(** A sectioned firetime file of at most 128 rows, one per laser, loads: the
    flag is set, the section distance is the one of the first line, and each
    laser has the eight pairs of its row. *)
Theorem firetimes_file_loads fs path content h0 h1 h2 t0 ts d lines rows t :
  fs path = Some content -> tokens newline content = h0 :: h1 :: h2 :: lines ->
  tokens comma h0 = t0 :: ts -> t0 <> "Operational State"%string ->
  distance_chars t0 <> EmptyString -> stod (distance_chars t0) = Ok d ->
  Forall2 row_says lines rows -> (length rows <= 128)%nat -> NoDup (fst <$> rows) ->
  exists t', LoadFiretimesFile fs path t = Ok (true, t') /\
    section_distance t' = Some d /\
    (forall idx ps s a b, (idx, ps) ∈ rows -> ps !! Z.to_nat s = Some (a, b) -> 0 <= s ->
      firetime_section_values t' !! (idx, s, 0) = Some a /\
      firetime_section_values t' !! (idx, s, 1) = Some b).
Proof.
  intros Hf Ht H0 Hop Hd Hs Hrows Hl Hnd. unfold LoadFiretimesFile. rewrite Hf, Ht.
  rewrite (load_headers h0 h1 h2 t0 ts d lines t H0 Hop Hd Hs).
  exists (put_lasers rows (put_distance d t)).
  split; [rewrite <-(app_nil_r lines); apply (load_data_then lines rows 0 _ [] (fun t => (true, t))); done || lia|]. split; [apply put_lasers_distance|].
  intros idx ps s a b. by apply put_lasers_lookup.
Qed.

(** A data row with fewer than seventeen columns makes the loading fail, but
    what the rows in front of it said stays in the table. *)
Theorem firetimes_short_row fs path content h0 h1 h2 t0 ts d lines rows row post t :
  fs path = Some content -> tokens newline content = h0 :: h1 :: h2 :: lines ++ row :: post ->
  tokens comma h0 = t0 :: ts -> t0 <> "Operational State"%string ->
  distance_chars t0 <> EmptyString -> stod (distance_chars t0) = Ok d ->
  Forall2 row_says lines rows -> (length rows <= 128)%nat ->
  row <> EmptyString -> (length (tokens comma row) < 17)%nat ->
  LoadFiretimesFile fs path t = Ok (false, put_lasers rows (put_distance d t)).
Proof.
  intros Hf Ht H0 Hop Hd Hs Hrows Hl Hne Hlen. unfold LoadFiretimesFile. rewrite Hf, Ht.
  rewrite (load_headers h0 h1 h2 t0 ts d _ t H0 Hop Hd Hs).
  apply (load_data_then lines rows 0 _ _ (fun t => (false, t))); [done|lia|lia|]. intros c t'. cbn [load_lines].
  assert (load_line row (mk_load 3 c false) t' = Ok (mk_load 3 c false, t', RejectFile)) as ->; [|done].
  unfold load_line. cbn [uselessLine is_OT Z.eqb Z.ltb Z.compare Pos.compare Pos.compare_cont mbind result_bind].
  unfold load_row. destruct (String.eqb_spec row EmptyString); [done|].
  destruct (Nat.ltb_spec (length (tokens comma row)) 17); [done|lia].
Qed.

(** ** Witnesses *)

Definition line_break : string := String newline EmptyString.
Definition demo_row (id : string) : string :=
  id +:+ ",1,2,3,4,5,6,7,8,9,10,11,12,13,14,15,16".
Definition demo_file (tail : string) : string :=
  "distance 2.85m" +:+ line_break +:+ "laser" +:+ line_break +:+ "id,a,b" +:+ line_break +:+
  demo_row "1" +:+ line_break +:+ demo_row "2" +:+ line_break +:+ tail.
Definition demo_pairs : list (Z * Z) := [(1, 2); (3, 4); (5, 6); (7, 8); (9, 10); (11, 12); (13, 14); (15, 16)].
Definition demo_tokens : list string :=
  ["1"; "2"; "3"; "4"; "5"; "6"; "7"; "8"; "9"; "10"; "11"; "12"; "13"; "14"; "15"; "16"]%string.
Definition demo_table : FiretimeTable := mk_firetimes None ∅.

Lemma demo_rows_say : Forall2 row_says [demo_row "1"; demo_row "2"] [(0, demo_pairs); (1, demo_pairs)].
Proof.
  assert (forall i id, stoi id = Ok (i + 1) -> 0 <= i < kLaserNum ->
    tokens comma (demo_row id) = id :: tokens comma "1,2,3,4,5,6,7,8,9,10,11,12,13,14,15,16" ->
    row_says (demo_row id) (i, demo_pairs)) as H.
  { intros i id Hi Hr Ht. exists id. eexists. split; [exact Ht|]. split; [exact Hi|]. split; [exact Hr|].
    split; [done|]. split; [vm_compute; lia|].
    replace (tokens comma _) with demo_tokens by (vm_compute; reflexivity). cbn [snd].
    repeat (eexists _, _, _; split; [reflexivity|]; split; [vm_compute; reflexivity|]; split; [vm_compute; reflexivity|]). exact I. }
  constructor; [|constructor; [|constructor]]; apply H; try (unfold kLaserNum; lia); vm_compute; reflexivity.
Qed.

Lemma firetimes_file_loads_witness :
  exists t', LoadFiretimesFile (fun _ => Some (demo_file EmptyString)) "x" demo_table = Ok (true, t') /\
    firetime_section_values t' !! (1, 7, 1) = Some 16.
Proof.
  destruct (firetimes_file_loads (fun _ => Some (demo_file EmptyString)) "x" (demo_file EmptyString)
    "distance 2.85m" "laser" "id,a,b" "distance 2.85m" [] (lit64 285 2)
    [demo_row "1"; demo_row "2"] [(0, demo_pairs); (1, demo_pairs)] demo_table)
    as (t' & E & _ & Ht).
  - done.
  - vm_compute. done.
  - done.
  - done.
  - done.
  - vm_compute. done.
  - exact demo_rows_say.
  - cbn. lia.
  - cbn. apply NoDup_cons. split; [|apply NoDup_singleton]. intros ?%list_elem_of_singleton. done.
  - exists t'. split; [exact E|].
    apply (Ht 1 demo_pairs 7 15 16); [|done|lia]. apply elem_of_cons. right. by apply list_elem_of_singleton.
Defined.

Lemma firetimes_short_row_witness :
  LoadFiretimesFile (fun _ => Some (demo_file "3,1,2")) "x" demo_table =
  Ok (false, put_lasers [(0, demo_pairs); (1, demo_pairs)] (put_distance (lit64 285 2) demo_table)).
Proof.
  apply (firetimes_short_row (fun _ => Some (demo_file "3,1,2")) "x" (demo_file "3,1,2")
    "distance 2.85m" "laser" "id,a,b" "distance 2.85m" [] (lit64 285 2)
    [demo_row "1"; demo_row "2"] [(0, demo_pairs); (1, demo_pairs)] "3,1,2" []).
  - done.
  - vm_compute. done.
  - done.
  - done.
  - done.
  - vm_compute. done.
  - exact demo_rows_say.
  - cbn. lia.
  - done.
  - vm_compute. lia.
Defined.
