(* ===== verification/Udp1_4.v ===== *)
(** * Udp1_4: decoding the packets of the Pandar128 family

    UdpParser/src/udp1_4_parser.cc.  [DecodePacket] reads the packet at the
    offsets of ProtocolV1_4.v and writes one [PointDecodeData] per channel;
    [IsNeedFrameSplit] decides from three successive azimuths whether the frame
    is complete; [ComputeXYZI] turns decoded points into coordinates.  [host]
    and [now] are the clock readings of one call. *)

From Stdlib Require Import SpecFloat.
From S2P Require Import Prelude Bytes Floats LidarTypes PacketLoss GeneralParser Decoder ProtocolV1_4 Firetimes1_4 Calendar.
Local Open Scope Z_scope.

Record Udp1_4Parser : Type := mk_udp1_4 { base : GeneralParser; firetimes : FiretimeTable }.

Definition set_base (p : GeneralParser) (u : Udp1_4Parser) : Udp1_4Parser := mk_udp1_4 p (firetimes u).

(** [LoadFiretimesFile], on the whole object. *)
Definition load_firetimes (fs : string -> option string) (path : string) (u : Udp1_4Parser)
    : result Udp1_4Parser :=
  '(got, t) ← LoadFiretimesFile fs path (firetimes u);
  Ok (mk_udp1_4 (set_firetimes (firetime_correction_ (base u)) got (base u)) t).

(** The five-argument [GetFiretimesCorrection]: [std::array] is indexed
    unchecked, by at most 128 lasers and 8 sections. *)
Definition GetFiretimesCorrection (u : Udp1_4Parser) (laserId : Z) (speed : f64)
    (optMode angleState : Z) (dist : f32) : result f64 :=
  let section :=
    if optMode =? 0 then Some angleState
    else if optMode =? 2 then Some (4 + angleState)
    else if optMode =? 3 then Some (6 + angleState)
    else None in
  match section with
  | None => Ok f_zero
  | Some idx =>
      sd ← of_option Uninitialised (section_distance (firetimes u));
      let k := if SFleb sd dist then 0 else 1 in
      if (laserId <? kLaserNum) && (idx <? 8) then
        v ← of_option Uninitialised (firetime_section_values (firetimes u) !! (laserId, idx, k));
        Ok (mul64 (mul64 (of_Z64 v) speed) (lit64 6 9))
      else Err OutOfBounds
  end.

(** ** Frame splitting *)

(** The rule, for a start angle of [S] hundredths of a degree; [S_le] is the
    comparison [frame_start_azimuth_ * kResolutionInt <= azimuth] in floating
    point.  The value returned, and the rotation flag when it is set. *)
Definition split_rule (S : Z) (S_le : bool) (last_last last azimuth : Z) : bool * option Z :=
  if last_last =? -1 then (false, None)
  else
    let division1 := u16 (Z.abs (last - last_last)) in
    let division2 := u16 (Z.abs (last - azimuth)) in
    let division := if division2 <? division1 then division2 else division1 in
    if division =? 0 then (false, None)
    else
      let flag := if (last_last - last =? division) || (last - azimuth =? division) then -1 else 1 in
      if flag =? 1 then
        if division <? last - azimuth then ((last <? S) || S_le, Some flag)
        else ((last <? azimuth) && (last <? S) && (S <=? azimuth), Some flag)
      else
        if division <? azimuth - last then ((S <=? last) || (azimuth <? S), Some flag)
        else ((azimuth <? last) && (S <? last) && (azimuth <=? S), Some flag).

Definition IsNeedFrameSplit (azimuth : Z) (p : GeneralParser) : result (bool * GeneralParser) :=
  let fsa := frame_start_azimuth_ p in
  let fsa := if SFltb fsa f_zero || SFleb (of_Z32 360) fsa then f_zero else fsa in
  let scaled := mul32 fsa (of_Z32 kResolutionInt) in
  S ← to_u16 scaled;
  let '(b, flag) := split_rule S (SFleb scaled (of_Z32 azimuth))
    (last_last_azimuth_ p) (last_azimuth_ p) azimuth in
  Ok (b, set_azimuths (last_azimuth_ p) (last_last_azimuth_ p) (default (rotation_flag p) flag) fsa p).

(** ** Decoding *)

(** The azimuth stored for a channel. *)
Definition channel_azimuth (u : Udp1_4Parser) (h : HS_LIDAR_HEADER_ME_V4) (u16Azimuth j optMode angleState dist : Z)
    : result f32 :=
  if get_firetime_file_ (base u) then
    let unit_ := div32 (of_Z32 (m_u8DistUnit h)) (of_Z32 1000) in
    c ← GetFiretimesCorrection u j (of_Z64 (spin_speed_ (base u))) optMode angleState
          (to32 (mul64 (of_Z64 dist) unit_));
    let fireTimeCollection := to32 (mul64 (of_Z64 (rotation_flag (base u))) c) in
    Ok (add32 (of_Z32 u16Azimuth) (mul32 fireTimeCollection (of_Z32 100)))
  else Ok (of_Z32 u16Azimuth).

(** What is stored for channel [j], whose unit is at [off]; a unit without
    confidence leaves the one that was there ([old]). *)
Definition read_channel (u : Udp1_4Parser) (h : HS_LIDAR_HEADER_ME_V4) (buf : list Z)
    (u16Azimuth optMode angleState j off : Z) (old : option PointDecodeData) : result PointDecodeData :=
  dist ← rd16 buf off;
  refl ← rd8 buf (off + 2);
  az ← channel_azimuth u h u16Azimuth j optMode angleState dist;
  conf ← (if HasConfidenceLevel h then c ← rd8 buf (off + 3); Ok (Some c)
          else Ok (old ≫= pd_confidence));
  Ok (mk_pdd az f_zero dist refl conf (old ≫= pd_chn_index) (old ≫= pd_mirror_index)).

(** The channels of a block from channel [j] on; [off] is [pChnUnit]. *)
Fixpoint channel_loop (n : nat) (u : Udp1_4Parser) (h : HS_LIDAR_HEADER_ME_V4) (buf : list Z)
    (u16Azimuth optMode angleState : Z) (j off index : Z) (data : gmap Z PointDecodeData)
    : result (gmap Z PointDecodeData) :=
  match n with
  | O => Ok data
  | S n =>
      d ← read_channel u h buf u16Azimuth optMode angleState j off (data !! index);
      data ← array_put kMaxPointsNumPerFrame index d data;
      channel_loop n u h buf u16Azimuth optMode angleState (j + 1) (off + unit_size h) (index + 1) data
  end.

(** The blocks from block [i] on; [off] is [pAzimuth].  The last azimuth read is
    returned with the data. *)
Fixpoint block_loop (n : nat) (u : Udp1_4Parser) (h : HS_LIDAR_HEADER_ME_V4) (t : HS_LIDAR_TAIL_ME_V4)
    (buf : list Z) (i off index u16Azimuth : Z) (data : gmap Z PointDecodeData)
    : result (Z * gmap Z PointDecodeData) :=
  match n with
  | O => Ok (u16Azimuth, data)
  | S n =>
      angleState ← getAngleState t i;
      u16Azimuth ← rd16 buf off;
      data ← channel_loop (Z.to_nat (GetLaserNum h)) u h buf u16Azimuth (getOperationMode t) angleState
        0 (off + sizeof_AZIMUTH) index data;
      block_loop n u h t buf (i + 1) (off + block_size h) (index + GetLaserNum h) u16Azimuth data
  end.

Section Decode.
Context {P : Type}.
Variable timezone : TimeZone.

(** The sequence number, when the packet has one. *)
Definition count_loss (now : nat -> Z) (buf : list Z) (h : HS_LIDAR_HEADER_ME_V4) (p : GeneralParser)
    : result GeneralParser :=
  if HasSeqNum h then
    seqnum ← rd32 buf (seq_num_off h);
    Ok (set_loss (CalPktLoss now seqnum (loss_ p)) p)
  else Ok p.

Definition update_monitor (t : HS_LIDAR_TAIL_ME_V4) (p : GeneralParser) : GeneralParser :=
  if enable_update_monitor_info_ p then
    set_monitor true
      (<[(m_reservedInfo1 t).2 := (m_reservedInfo1 t).1]> (monitor_info1_ p))
      (<[(m_reservedInfo2 t).2 := (m_reservedInfo2 t).1]> (monitor_info2_ p))
      (<[(m_reservedInfo3 t).2 := (m_reservedInfo3 t).1]> (monitor_info3_ p)) p
  else p.

(** if (u16Azimuth != last_azimuth_) { last_last = last; last = azimuth; } *)
Definition push_azimuth (az : Z) (p : GeneralParser) : GeneralParser :=
  if negb (az =? last_azimuth_ p)
  then set_azimuths az (last_azimuth_ p) (rotation_flag p) (frame_start_azimuth_ p) p else p.

Definition DecodePacket (host : Z) (now : nat -> Z) (u : Udp1_4Parser) (frame : LidarDecodedFrame P)
    (pkt : UdpPacket) : result (Z * Udp1_4Parser * LidarDecodedFrame P) :=
  if negb (get_correction_file_ (base u)) then Ok (-1, u, frame)
  else
    let buf := buffer pkt in
    b0 ← rd8 buf 0;
    b1 ← rd8 buf 1;
    if negb (b0 =? 0xEE) || negb (b1 =? 0xFF) then Ok (-1, u, frame)
    else
      h ← header_cast buf header_off;
      state ← (if HasFuncSafety h then GetLidarState buf (func_safety_off h) else Ok (-1));
      let frame := set_lidar_state state frame in
      t ← tail_cast buf (tail_off h);
      p ← count_loss now buf h (base u);
      let packet_timestamp := GetMicroLidarTimeU64 timezone t in
      frame ← put_timestamp (packet_num frame)
        (if use_timestamp_type frame =? 0 then packet_timestamp else recv_timestamp pkt) frame;
      let p := set_loss (CalPktTimeLoss now packet_timestamp (loss_ p)) p in
      let p := set_motor (m_u16MotorSpeed t) (IsDualReturn t) p in
      let frame := set_packet_info host (m_u16MotorSpeed t) (m_u8RunningMode t) (m_u8ReturnMode t)
        (GetBlockNum h) (GetLaserNum h) (div32 (of_Z32 (m_u8DistUnit h)) (of_Z32 1000)) frame in
      let index := i32 (u32 (packet_num frame * GetBlockNum h * GetLaserNum h)) in
      let p := update_monitor t p in
      let u := set_base p u in
      '(u16Azimuth, data) ← block_loop (Z.to_nat (GetBlockNum h)) u h t buf 0 azimuth_off index 0 (pointData frame);
      let frame := set_pointData data frame in
      '(split, p) ← IsNeedFrameSplit u16Azimuth (base u);
      let frame := if split : bool then set_scan_complete true frame else frame in
      let p := push_azimuth u16Azimuth p in
      Ok (0, set_base p u, set_counts (u32 (packet_num frame + 1)) (points_num frame) frame).

End Decode.

(** ** Coordinates *)

Section Compute.
Context {P : Type} {PT : PointType P}.
Variables (sin_all_angle_ cos_all_angle_ : Z -> f32).
Variables (sin32 cos32 atan32 asin32 : f32 -> f32).

(** (int(c * kAllFineResolutionFloat) + CIRCLE) % CIRCLE *)
Definition correction_units (l : list f64) (i : Z) : result Z :=
  c ← arr_get l i;
  v ← to_int (mul64 c (of_Z64 kAllFineResolutionInt));
  Ok (Z.rem (v + CIRCLE) CIRCLE).

(** The azimuth, the elevation and the distance of a point. *)
Definition point_angles (p : GeneralParser) (i Azimuth : Z) (distance : f32) : result (Z * Z * f32) :=
  if get_correction_file_ p then
    azimuth_coll ← correction_units (azimuth_collection_ p) i;
    elevation_corr ← correction_units (elevation_correction_ p) i;
    '(azimuth_coll, elevation_corr, distance) ←
      (if enable_distance_correction_ p
       then GetDistanceCorrection sin_all_angle_ cos_all_angle_ atan32 asin32 (optical_center p)
              azimuth_coll elevation_corr distance GeometricCenter
       else Ok (azimuth_coll, elevation_corr, distance));
    let azimuth := Azimuth + azimuth_coll in
    Ok (Z.rem (CIRCLE + azimuth) CIRCLE, elevation_corr, distance)
  else Ok (0, 0, distance).

Definition outside_fov (fov_start fov_end azimuth : Z) : bool :=
  negb (fov_start =? -1) && negb (fov_end =? -1) &&
  (let fov_transfer := Z.quot (Z.quot azimuth 256) 100 in
   (fov_transfer <? fov_start) || (fov_end <? fov_transfer)).

Definition compute_point (p : GeneralParser) (frame : LidarDecodedFrame P) (packet_index point_index i : Z)
    (pts : gmap Z P) : result (gmap Z P) :=
  d ← array_at kMaxPointsNumPerFrame point_index (pointData frame);
  Azimuth ← to_int (mul32 (pd_azimuth d) (of_Z32 kFineResolutionInt));
  let distance := to32 (mul64 (of_Z64 (pd_distances d)) (distance_unit frame)) in
  '(azimuth, elevation, distance) ← point_angles p i Azimuth distance;
  if outside_fov (fov_start frame) (fov_end frame) azimuth
  then array_put kMaxPointsNumPerFrame point_index zero_point pts
  else
    ce ← trig cos_all_angle_ elevation;
    sa ← trig sin_all_angle_ azimuth;
    ca ← trig cos_all_angle_ azimuth;
    se ← trig sin_all_angle_ elevation;
    let xyDistance := mul32 distance ce in
    let '(x, y, z) := TransformPoint sin32 cos32 (transform_ p) (mul32 xyDistance sa) (mul32 xyDistance ca)
                        (mul32 distance se) in
    ts ← array_at kMaxPacketNumPerFrame packet_index (sensor_timestamp frame);
    let old := default zero_point (pts !! point_index) in
    let pt := setRing i (setTimestamp (div64 (of_Z64 ts) (of_Z64 1000000))
                (setConfidence (pd_confidence d) (setIntensity (pd_reflectivities d)
                (setZ z (setY y (setX x old)))))) in
    array_put kMaxPointsNumPerFrame point_index pt pts.

(** [point_index] is computed in [uint32_t] and stored in an [int]. *)
Fixpoint compute_channels (n : nat) (p : GeneralParser) (frame : LidarDecodedFrame P)
    (packet_index index i : Z) (pts : gmap Z P) : result (gmap Z P) :=
  match n with
  | O => Ok pts
  | S n =>
      pts ← compute_point p frame packet_index (i32 (u32 (index + i))) i pts;
      compute_channels n p frame packet_index index (i + 1) pts
  end.

Fixpoint compute_blocks (n : nat) (p : GeneralParser) (frame : LidarDecodedFrame P)
    (packet_index blockid : Z) (pts : gmap Z P) : result (gmap Z P) :=
  match n with
  | O => Ok pts
  | S n =>
      pts ← compute_channels (Z.to_nat (laser_num frame)) p frame packet_index
        (packet_index * per_points_num frame + blockid * laser_num frame) 0 pts;
      compute_blocks n p frame packet_index (blockid + 1) pts
  end.

Definition ComputeXYZI (p : GeneralParser) (frame : LidarDecodedFrame P) (packet_index : Z)
    : result (Z * GeneralParser * LidarDecodedFrame P) :=
  pts ← compute_blocks (Z.to_nat (block_num frame)) p frame packet_index 0 (points frame);
  Ok (0, FrameNumAdd p, set_points pts frame).

End Compute.

(** The parser object as its callers see it. *)
#[export] Instance udp1_4_decoder {P} {PT : PointType P} (timezone : TimeZone) (sin_all_angle_ cos_all_angle_ : Z -> f32)
    (sin32 cos32 atan32 asin32 : f32 -> f32) : Decoder P Udp1_4Parser := {|
  general := base;
  with_general := set_base;
  v_DecodePacket host now u f pkt := DecodePacket timezone host now u f pkt;
  v_ComputeXYZI u f i :=
    '(r, p, f) ← ComputeXYZI sin_all_angle_ cos_all_angle_ sin32 cos32 atan32 asin32 (base u) f i;
    Ok (r, set_base p u, f);
  v_LoadCorrectionFile fs path u := p ← LoadCorrectionFile fs path (base u); Ok (set_base p u);
  v_LoadCorrectionString block u :=
    s ← c_string block; '(r, p) ← LoadCorrectionString s (base u); Ok (r, set_base p u);
  v_LoadFiretimesFile := load_firetimes;
|}.

(** ** Scans, as the frame splitter sees them *)

(** What a packet whose last block is at [az] does to the angles. *)
Definition scan_step (az : Z) (p : GeneralParser) : result (bool * GeneralParser) :=
  '(b, p) ← IsNeedFrameSplit az p; Ok (b, push_azimuth az p).

(** The members the splitter reads and writes. *)
Definition angles (p : GeneralParser) : Z * Z * Z * f32 :=
  (last_azimuth_ p, last_last_azimuth_ p, rotation_flag p, frame_start_azimuth_ p).

(** A lidar that stands at [theta] and turns by the given steps, all angles in
    hundredths of a degree; the number of frames completed is returned. *)
Fixpoint scan (theta : Z) (steps : list Z) (p : GeneralParser) : result (Z * GeneralParser) :=
  match steps with
  | [] => Ok (0, p)
  | d :: steps =>
      '(b, p) ← scan_step ((theta + d) mod kCircle) p;
      '(n, p) ← scan (theta + d) steps p;
      Ok ((if b : bool then 1 else 0) + n, p)
  end.

(** The revolutions completed at [theta], counted from the start angle [S]. *)
Definition turns (S theta : Z) : Z := (theta - S) / kCircle.

(** The start angle is [S] hundredths of a degree, exactly. *)
Definition start_at (p : GeneralParser) (S : Z) : Prop :=
  let fsa := frame_start_azimuth_ p in
  SFltb fsa f_zero || SFleb (of_Z32 360) fsa = false /\
  to_u16 (mul32 fsa (of_Z32 kResolutionInt)) = Ok S /\ 0 <= S < kCircle /\
  (forall az, 0 <= az < kCircle -> SFleb (mul32 fsa (of_Z32 kResolutionInt)) (of_Z32 az) = (S <=? az)).

(** The parser has seen [theta], reached by a forward step of less than half a
    turn. *)
Definition tracks (p : GeneralParser) (theta : Z) : Prop :=
  exists d, 0 < d < kHalfCircleInt /\ last_azimuth_ p = theta mod kCircle /\
    last_last_azimuth_ p = (theta - d) mod kCircle.

(** When firetimes are in use, the table has the entry of laser [j] in this
    operation mode and angle state, on either side of its distance. *)
Definition firetime_covered (u : Udp1_4Parser) (j optMode angleState : Z) : Prop :=
  get_firetime_file_ (base u) = true ->
  forall dist, is_ok (GetFiretimesCorrection u j f_zero optMode angleState dist) = true.

(** The entries a packet asks for. *)
Definition firetimes_cover (u : Udp1_4Parser) (h : HS_LIDAR_HEADER_ME_V4) (t : HS_LIDAR_TAIL_ME_V4) : Prop :=
  forall b ang l, 0 <= b < GetBlockNum h -> getAngleState t b = Ok ang -> 0 <= l < GetLaserNum h ->
    firetime_covered u l (getOperationMode t) ang.

(** The azimuth of a channel in a block at azimuth [a]: that of the block, or, when
    firetimes are in use, with the turn of the motor between the block's time and
    the channel's, in the direction of rotation. *)
Definition azimuth_of (u : Udp1_4Parser) (h : HS_LIDAR_HEADER_ME_V4) (t : HS_LIDAR_TAIL_ME_V4)
    (a ang l dist : Z) (az : f32) : Prop :=
  if get_firetime_file_ (base u) then exists c,
    GetFiretimesCorrection u l (of_Z64 (m_u16MotorSpeed t)) (getOperationMode t) ang
      (to32 (mul64 (of_Z64 dist) (div32 (of_Z32 (m_u8DistUnit h)) (of_Z32 1000)))) = Ok c /\
    az = add32 (of_Z32 a) (mul32 (to32 (mul64 (of_Z64 (rotation_flag (base u))) c)) (of_Z32 100))
  else az = of_Z32 a.

(** ** Lemmas: decoding *)

(** Whether the table has an entry does not depend on the speed. *)
Lemma firetimes_any_speed u j s1 s2 opt ang dist :
  is_ok (GetFiretimesCorrection u j s1 opt ang dist) = is_ok (GetFiretimesCorrection u j s2 opt ang dist).
Proof.
  unfold GetFiretimesCorrection. destruct (if opt =? 0 then _ else _); [|done].
  destruct (of_option _ _); [|done]. cbn [mbind result_bind]. destruct (_ && _); [|done]. by destruct (of_option _ _).
Qed.

Lemma fired_azimuth_ok u h a j opt ang dist : firetime_covered u j opt ang ->
  exists az, channel_azimuth u h a j opt ang dist = Ok az.
Proof.
  intros Hc. unfold channel_azimuth. destruct (get_firetime_file_ (base u)) eqn:Ef; [|eauto].
  set (d := to32 _). pose proof (Hc Ef d) as H. rewrite (firetimes_any_speed _ _ _ (of_Z64 (spin_speed_ (base u)))) in H.
  destruct (GetFiretimesCorrection _ _ _ _ _ _); [cbn; eauto|done].
Qed.

Section DecodeLemmas.
Variables (u : Udp1_4Parser) (h : HS_LIDAR_HEADER_ME_V4) (buf : list Z).

Lemma unit_size_pos : 3 <= unit_size h <= 4.
Proof. unfold unit_size, sizeof_CHN_UNIT, sizeof_CHN_UNIT_NO_CONF. destruct (HasConfidenceLevel h); lia. Qed.

(** A channel inside the packet is read as its bytes. *)
Lemma read_channel_ok az opt ang j off old :
  firetime_covered u j opt ang -> 0 <= off -> off + unit_size h <= Z.of_nat (length buf) ->
  exists dist refl conf azf,
    read_channel u h buf az opt ang j off old =
      Ok (mk_pdd azf f_zero dist refl conf (old ≫= pd_chn_index) (old ≫= pd_mirror_index)) /\
    channel_azimuth u h az j opt ang dist = Ok azf /\ rd16 buf off = Ok dist /\ rd8 buf (off + 2) = Ok refl /\
    (if HasConfidenceLevel h then exists c, rd8 buf (off + 3) = Ok c /\ conf = Some c
     else conf = old ≫= pd_confidence).
Proof.
  intros Hc Ho Hl. pose proof unit_size_pos. unfold read_channel, rd16.
  destruct (rd_le_in 2 buf off) as [dist Ed]; [lia|lia|]. rewrite Ed.
  destruct (rd8_in buf (off + 2)) as [refl Er]; [lia|]. rewrite Er. cbn [mbind result_bind].
  destruct (fired_azimuth_ok u h az j opt ang dist Hc) as [azf Ea]. rewrite Ea. cbn [mbind result_bind].
  unfold unit_size, sizeof_CHN_UNIT in Hl. destruct (HasConfidenceLevel h).
  - destruct (rd8_in buf (off + 3)) as [c Ec]; [lia|]. rewrite Ec. cbn [mbind result_bind].
    exists dist, refl, (Some c), azf. eauto 10.
  - exists dist, refl, (old ≫= pd_confidence), azf. done.
Qed.

(** What a run of channels leaves in the array. *)
Lemma channel_loop_ok n : forall az opt ang j off index data,
  (forall l, 0 <= l < Z.of_nat n -> firetime_covered u (j + l) opt ang) -> 0 <= off -> off + unit_size h * Z.of_nat n <= Z.of_nat (length buf) ->
  0 <= index -> index + Z.of_nat n <= kMaxPointsNumPerFrame ->
  exists data', channel_loop n u h buf az opt ang j off index data = Ok data' /\
    (forall k, ~ (index <= k < index + Z.of_nat n) -> data' !! k = data !! k) /\
    (forall l, 0 <= l < Z.of_nat n -> exists d,
      data' !! (index + l) = Some d /\
      read_channel u h buf az opt ang (j + l) (off + unit_size h * l) (data !! (index + l)) = Ok d).
Proof.
  pose proof unit_size_pos as Hu.
  induction n as [|n IH]; intros az opt ang j off index data Hc Ho Hl Hi Hm; cbn [channel_loop].
  { exists data. split; [done|]. split; [done|]. lia. }
  destruct (read_channel_ok az opt ang j off (data !! index)) as (dist & refl & conf & azf & Er & _);
    [rewrite <-(Z.add_0_r j); apply Hc; lia|lia|nia|].
  rewrite Er. cbn [mbind result_bind]. set (d := mk_pdd _ _ _ _ _ _ _) in *.
  rewrite array_put_ok by lia. cbn [mbind result_bind].
  destruct (IH az opt ang (j + 1) (off + unit_size h) (index + 1) (<[index:=d]> data))
    as (data' & E & Hout & Hin); [|lia|lia|lia|lia|].
  { intros l Hll. rewrite <-Z.add_assoc. apply Hc. lia. }
  exists data'. split; [done|]. split.
  - intros k Hk. rewrite Hout by lia. by rewrite lookup_insert_ne by lia.
  - intros l Hll. destruct (Z.eq_dec l 0) as [->|].
    + exists d. rewrite Z.mul_0_r, !Z.add_0_r. split; [|done].
      rewrite Hout by lia. by rewrite lookup_insert_eq.
    + destruct (Hin (l - 1)) as (d' & E1 & E2); [lia|]. exists d'.
      replace (index + 1 + (l - 1)) with (index + l) in * by lia. split; [done|].
      rewrite lookup_insert_ne in E2 by lia. rewrite <-E2. f_equal; lia.
Qed.

(** The blocks of a packet: the last azimuth, and every channel of every block. *)
Lemma block_loop_ok t n : forall i off index az data,
  (forall b ang l, i <= b < i + Z.of_nat n -> getAngleState t b = Ok ang -> 0 <= l < GetLaserNum h ->
     firetime_covered u l (getOperationMode t) ang) -> 0 <= i -> i + Z.of_nat n <= 8 -> is_u8 (m_u8LaserNum h) ->
  0 <= off -> off + block_size h * Z.of_nat n <= Z.of_nat (length buf) ->
  0 <= index -> index + Z.of_nat n * GetLaserNum h <= kMaxPointsNumPerFrame ->
  exists az' data', block_loop n u h t buf i off index az data = Ok (az', data') /\
    (forall k, ~ (index <= k < index + Z.of_nat n * GetLaserNum h) -> data' !! k = data !! k) /\
    (forall b l, 0 <= b < Z.of_nat n -> 0 <= l < GetLaserNum h -> exists a ang d,
      getAngleState t (i + b) = Ok ang /\ rd16 buf (off + block_size h * b) = Ok a /\
      data' !! (index + b * GetLaserNum h + l) = Some d /\
      read_channel u h buf a (getOperationMode t) ang l
        (off + block_size h * b + sizeof_AZIMUTH + unit_size h * l)
        (data !! (index + b * GetLaserNum h + l)) = Ok d) /\
    (match n with O => az' = az | S m => rd16 buf (off + block_size h * Z.of_nat m) = Ok az' end).
Proof.
  pose proof unit_size_pos as Hu. unfold GetLaserNum, is_u8.
  induction n as [|n IH]; intros i off index az data Hc Hi H8 HL Ho Hl Hx Hm; cbn [block_loop].
  { exists az, data. repeat split; try done; lia. }
  destruct (getAngleState t i) as [ang|] eqn:Eang;
    [|unfold getAngleState in Eang; destruct (Z.ltb_spec 7 i); [lia|done]]. cbn [mbind result_bind].
  assert (block_size h = 2 + unit_size h * m_u8LaserNum h) as Hbs by done.
  unfold rd16. destruct (rd_le_in 2 buf off) as [a Ea]; [lia|nia|]. rewrite Ea. cbn [mbind result_bind].
  unfold GetLaserNum.
  destruct (channel_loop_ok (Z.to_nat (m_u8LaserNum h)) a (getOperationMode t) ang 0 (off + sizeof_AZIMUTH) index data)
    as (data1 & -> & Hout1 & Hin1); unfold sizeof_AZIMUTH in *; [|lia|nia|lia|nia|].
  { intros l Hll. rewrite Z.add_0_l. apply (Hc i); [lia|done|lia]. }
  cbn [mbind result_bind].
  destruct (IH (i + 1) (off + block_size h) (index + m_u8LaserNum h) a data1)
    as (az' & data' & E & Hout & Hin & Haz); [|lia|lia|done|nia|nia|lia|nia|].
  { intros b ang' l Hb. apply Hc. lia. }
  exists az', data'. split; [done|]. split; [|split].
  - intros k Hk. rewrite Hout by nia. apply Hout1. nia.
  - intros b l Hb Hll. destruct (Z.eq_dec b 0) as [->|].
    + destruct (Hin1 l) as (d & E1 & E2); [lia|]. exists a, ang, d.
      rewrite Z.mul_0_r, Z.mul_0_l, !Z.add_0_r. split; [done|]. split; [done|].
      rewrite Hout by lia. split; [done|]. rewrite Z.add_0_l in E2. exact E2.
    + destruct (Hin (b - 1) l) as (a' & ang' & d & E0 & E1 & E2 & E3); [lia|lia|]. exists a', ang', d.
      replace (i + 1 + (b - 1)) with (i + b) in E0 by lia. split; [done|].
      replace (off + block_size h + block_size h * (b - 1)) with (off + block_size h * b) in * by lia.
      replace (index + m_u8LaserNum h + (b - 1) * m_u8LaserNum h + l) with (index + b * m_u8LaserNum h + l) in * by lia.
      split; [done|]. split; [done|]. rewrite Hout1 in E3 by nia. exact E3.
  - destruct n as [|m].
    + subst az'. by rewrite Z.mul_0_r, Z.add_0_r.
    + rewrite <-Haz. f_equal. lia.
Qed.

End DecodeLemmas.

(** The units of the packet lie between the first azimuth and the functional
    safety section. *)
Lemma channel_bounds h b l :
  0 <= b < GetBlockNum h -> 0 <= l < GetLaserNum h ->
  0 <= block_size h * b + sizeof_AZIMUTH + unit_size h * l /\
  block_size h * b + sizeof_AZIMUTH + unit_size h * l + unit_size h <= block_size h * GetBlockNum h.
Proof.
  intros Hb Hl. pose proof (unit_size_pos h) as Hu.
  assert (block_size h = sizeof_AZIMUTH + unit_size h * GetLaserNum h) as Hs by done.
  assert (unit_size h * (l + 1) <= unit_size h * GetLaserNum h) by (apply Z.mul_le_mono_nonneg_l; lia).
  assert (0 <= unit_size h * l) by (apply Z.mul_nonneg_nonneg; lia).
  assert (0 <= block_size h) by (rewrite Hs; unfold sizeof_AZIMUTH; lia).
  assert (0 <= block_size h * b) by (apply Z.mul_nonneg_nonneg; lia).
  assert (block_size h * (b + 1) <= block_size h * GetBlockNum h) by (apply Z.mul_le_mono_nonneg_l; lia).
  unfold sizeof_AZIMUTH in *. lia.
Qed.

(** A start angle the conversion to hundredths of a degree accepts. *)
Definition start_ok (p : GeneralParser) : Prop := forall az, is_ok (IsNeedFrameSplit az p) = true.

Lemma IsNeedFrameSplit_frame az p b p' :
  IsNeedFrameSplit az p = Ok (b, p') ->
  last_azimuth_ p' = last_azimuth_ p /\ last_last_azimuth_ p' = last_last_azimuth_ p /\
  get_correction_file_ p' = get_correction_file_ p /\ get_firetime_file_ p' = get_firetime_file_ p /\
  loss_ p' = loss_ p /\ compute_packet_num p' = compute_packet_num p /\
  frame_start_azimuth_ p' = (let a := frame_start_azimuth_ p in
    if SFltb a f_zero || SFleb (of_Z32 360) a then f_zero else a).
Proof.
  unfold IsNeedFrameSplit. destruct (to_u16 _); [|done]. cbn [mbind result_bind].
  destruct (split_rule _ _ _ _ _) as [b0 flag]. by intros [= <- <-].
Qed.

(** The split test looks at the angles only. *)
Lemma IsNeedFrameSplit_ext az p q : angles p = angles q ->
  match IsNeedFrameSplit az p, IsNeedFrameSplit az q with
  | Ok (b, p'), Ok (b', q') => b = b' /\ angles p' = angles q'
  | Err _, Err _ => True
  | _, _ => False
  end.
Proof.
  unfold angles, IsNeedFrameSplit. intros [= -> -> -> ->]. destruct (to_u16 _); [|done].
  cbn [mbind result_bind]. by destruct (split_rule _ _ _ _ _).
Qed.

Lemma push_azimuth_ext az p q : angles p = angles q -> angles (push_azimuth az p) = angles (push_azimuth az q).
Proof.
  intros H. unfold push_azimuth. pose proof H as H'. unfold angles in H'. injection H' as -> H2 H3 H4.
  destruct (negb _); [|done]. cbn. unfold angles. cbn. by rewrite H3, H4.
Qed.

Lemma update_monitor_frame t p :
  angles (update_monitor t p) = angles p /\
  get_firetime_file_ (update_monitor t p) = get_firetime_file_ p /\
  get_correction_file_ (update_monitor t p) = get_correction_file_ p /\
  compute_packet_num (update_monitor t p) = compute_packet_num p.
Proof. unfold update_monitor. destruct (enable_update_monitor_info_ p) eqn:E; done. Qed.

Lemma push_azimuth_last az p :
  last_azimuth_ (push_azimuth az p) = az /\
  last_last_azimuth_ (push_azimuth az p) =
    (if az =? last_azimuth_ p then last_last_azimuth_ p else last_azimuth_ p) /\
  get_correction_file_ (push_azimuth az p) = get_correction_file_ p /\
  get_firetime_file_ (push_azimuth az p) = get_firetime_file_ p /\
  compute_packet_num (push_azimuth az p) = compute_packet_num p.
Proof. unfold push_azimuth. destruct (Z.eqb_spec az (last_azimuth_ p)); cbn; done. Qed.

Lemma count_loss_ok now buf h p :
  0 <= seq_num_off h -> seq_num_off h + 4 <= Z.of_nat (length buf) ->
  exists l, count_loss now buf h p = Ok (set_loss l p).
Proof.
  intros Ho Hl. unfold count_loss. destruct (HasSeqNum h).
  - unfold rd32. destruct (rd_le_in 4 buf (seq_num_off h)) as [q ->]; [lia|lia|]. cbn. eauto.
  - exists (loss_ p). by destruct p.
Qed.

(** ** Lemmas: splitting *)

(** A forward step completes a frame exactly when it passes or reaches [S]. *)
Lemma split_rule_forward S theta d0 d :
  0 <= S < kCircle -> 0 < d0 < kHalfCircleInt -> 0 < d < kHalfCircleInt ->
  let az := (theta + d) mod kCircle in
  fst (split_rule S (S <=? az) ((theta - d0) mod kCircle) (theta mod kCircle) az)
  = (turns S theta <? turns S (theta + d)).
Proof.
  intros HS H0 Hd az. unfold kCircle, kHalfCircleInt, turns, kCircle in *.
  unfold split_rule. set (a0 := (theta - d0) mod 36000). set (a1 := theta mod 36000).
  assert (0 <= a0 < 36000 /\ 0 <= a1 < 36000 /\ 0 <= az < 36000) as (R0 & R1 & R2) by (unfold a0, a1, az, kCircle; Z.to_euclidean_division_equations; lia).
  assert (a0 = a1 - d0 \/ a0 = a1 - d0 + 36000) as E0 by (unfold a0, a1; Z.to_euclidean_division_equations; lia).
  assert (az = a1 + d \/ az = a1 + d - 36000) as E2 by (unfold az, a1, kCircle; Z.to_euclidean_division_equations; lia).
  assert (theta = 36000 * (theta / 36000) + a1) as Et by (unfold a1; Z.to_euclidean_division_equations; lia).
  set (q := theta / 36000) in *. clearbody a0 a1 az q. subst theta.
  unfold u16. rewrite (Z.mod_small (Z.abs _)), (Z.mod_small (Z.abs _)) by lia.
  destruct (Z.eqb_spec a0 (-1)); [lia|].
  set (dv := if _ <? _ then _ else _). 
  assert (dv = Z.min (Z.abs (a1 - a0)) (Z.abs (a1 - az))) as Edv by (unfold dv; destruct (Z.ltb_spec (Z.abs (a1 - az)) (Z.abs (a1 - a0))); lia).
  clearbody dv. subst dv.
  destruct (Z.eqb_spec (Z.min (Z.abs (a1 - a0)) (Z.abs (a1 - az))) 0); [lia|].
  assert ((a0 - a1 =? Z.min (Z.abs (a1 - a0)) (Z.abs (a1 - az))) || (a1 - az =? Z.min (Z.abs (a1 - a0)) (Z.abs (a1 - az))) = false) as ->.
  { lia. }
  cbn [Z.eqb Pos.eqb].
  destruct (Z.ltb_spec (Z.min (Z.abs (a1 - a0)) (Z.abs (a1 - az))) (a1 - az)); cbn [fst];
    cases_bool; cbn [orb andb]; first [reflexivity | exfalso; Z.to_euclidean_division_equations; lia].
Qed.

(** A repeated azimuth never completes a frame. *)
Lemma split_rule_repeat S b last_last az : split_rule S b last_last az az = (false, None).
Proof.
  unfold split_rule, u16. rewrite Z.sub_diag. destruct (last_last =? -1); [done|].
  set (w := Z.abs (az - last_last) mod 2 ^ 16).
  assert (0 <= w) by (apply Z.mod_pos_bound; done).
  change (Z.abs 0 mod 2 ^ 16) with 0.
  assert ((if 0 <? w then 0 else w) = 0) as -> by (destruct (Z.ltb_spec 0 w); lia). done.
Qed.

(** The last azimuth depends on the packet only. *)
Lemma block_loop_azimuth u h t buf n : forall i off index az data az' data',
  block_loop n u h t buf i off index az data = Ok (az', data') ->
  match n with O => az' = az | S m => rd16 buf (off + block_size h * Z.of_nat m) = Ok az' end.
Proof.
  induction n as [|n IH]; intros i off index az data az' data'; cbn [block_loop]; intros H.
  { by injection H. }
  inv_ok. apply IH in H. destruct n as [|m].
  - subst az'. by rewrite Z.mul_0_r, Z.add_0_r.
  - rewrite <-H. f_equal. lia.
Qed.

(** One packet of a forward scan. *)
Lemma scan_step_forward p theta S d :
  start_at p S -> tracks p theta -> 0 <= d < kHalfCircleInt ->
  exists p', scan_step ((theta + d) mod kCircle) p = Ok (turns S theta <? turns S (theta + d), p') /\
    start_at p' S /\ tracks p' (theta + d).
Proof.
  intros (Hn & HS & HSr & Hle) (d0 & Hd0 & Hl & Hll) Hd.
  unfold scan_step, IsNeedFrameSplit. rewrite Hn, HS. cbn [mbind result_bind].
  rewrite Hle by (apply Z.mod_pos_bound; done). rewrite Hl, Hll.
  set (rule := split_rule _ _ _ _ _). destruct rule as [b flag] eqn:Er. unfold rule in Er. clear rule.
  assert (b = (turns S theta <? turns S (theta + d))) as Eb.
  { destruct (Z.eq_dec d 0) as [->|Hnz].
    - rewrite Z.add_0_r, split_rule_repeat in *. rewrite Z.ltb_irrefl. by injection Er.
    - pose proof (split_rule_forward S theta d0 d HSr Hd0 ltac:(lia)) as E. cbv zeta in E. rewrite Er in E. exact E. }
  cbn [mbind result_bind]. eexists. split; [by rewrite Eb|].
  unfold push_azimuth. cbn [last_azimuth_ set_azimuths]. rewrite <-Hl, <-Hll.
  destruct (Z.eqb_spec ((theta + d) mod kCircle) (last_azimuth_ p)) as [E|E]; cbn [negb]; split; try done.
  - exists d0. cbn [last_azimuth_ last_last_azimuth_ set_azimuths]. split; [done|].
    assert (d = 0) as ->; [|by rewrite Z.add_0_r].
    rewrite Hl in E. unfold kHalfCircleInt, kCircle in *. Z.to_euclidean_division_equations; lia.
  - exists d. cbn [last_azimuth_ last_last_azimuth_ set_azimuths]. split; [|split; [done|]].
    + destruct (Z.eq_dec d 0) as [->|]; [|lia]. rewrite Z.add_0_r in E. congruence.
    + rewrite Hl. f_equal. lia.
Qed.

(** A packet whose sections lie inside the receive buffer. *)
Definition packet_fits (buf : list Z) (h : HS_LIDAR_HEADER_ME_V4) : Prop :=
  length buf = 1500%nat /\ byte_list buf /\ rd8 buf 0 = Ok 0xEE /\ rd8 buf 1 = Ok 0xFF /\
  header_cast buf header_off = Ok h /\ seq_num_off h + 4 <= 1500 /\ 0 < GetBlockNum h <= 8.

Lemma packet_fits_offsets buf h : packet_fits buf h ->
  is_u8 (m_u8LaserNum h) /\ 0 <= block_size h * GetBlockNum h /\
  azimuth_off + block_size h * GetBlockNum h + 4 <= func_safety_off h /\
  func_safety_off h + (if HasFuncSafety h then 17 else 0) = tail_off h /\
  tail_off h + 26 = seq_num_off h /\ 12 <= func_safety_off h.
Proof.
  intros (_ & Hb & _ & _ & Hh & _ & HB). destruct (header_cast_range _ _ _ Hb Hh) as (HL & _).
  split; [done|]. assert (0 <= block_size h * GetBlockNum h).
  { unfold block_size, GetLaserNum, sizeof_AZIMUTH. pose proof (unit_size_pos h). unfold is_u8 in HL. nia. }
  unfold seq_num_off, tail_off, func_safety_off, azimuth_off, header_off, sizeof_PRE_HEADER, sizeof_HEADER,
    sizeof_CRC, sizeof_FUNC_SAFETY, sizeof_TAIL. destruct (HasFuncSafety h); lia.
Qed.

(** Such a packet has at most 512 points, so a frame has room for it. *)
Lemma packet_fits_points buf h n : packet_fits buf h -> 0 <= n < kMaxPacketNumPerFrame ->
  (n + 1) * GetBlockNum h * GetLaserNum h <= kMaxPointsNumPerFrame.
Proof.
  intros Hfit Hn. destruct (packet_fits_offsets _ _ Hfit) as (HL & Hpos & Hfs & Htail & Hseq & _).
  destruct Hfit as (_ & _ & _ & _ & _ & Hsz & HB). pose proof (unit_size_pos h) as Hu.
  unfold is_u8, azimuth_off, header_off, sizeof_PRE_HEADER, sizeof_HEADER, kMaxPointsNumPerFrame,
    kMaxPointsNumPerPacket, kMaxPacketNumPerFrame, GetLaserNum in *.
  assert (3 * (GetBlockNum h * m_u8LaserNum h) <= block_size h * GetBlockNum h).
  { unfold block_size, GetLaserNum, sizeof_AZIMUTH. nia. }
  assert (GetBlockNum h * m_u8LaserNum h <= 512) by (destruct (HasFuncSafety h); lia).
  rewrite <-Z.mul_assoc. apply Z.le_trans with (5000 * 512); [|lia].
  apply Z.mul_le_mono_nonneg; lia || nia.
Qed.

Section DecodeOk.
Context {P : Type}.
Variable timezone : TimeZone.

(** A packet that fits is decoded. *)
Lemma decode_ok host now u (frame : LidarDecodedFrame P) pkt h :
  get_correction_file_ (base u) = true -> start_ok (base u) -> packet_fits (buffer pkt) h ->
  (forall t, tail_cast (buffer pkt) (tail_off h) = Ok t -> firetimes_cover u h t) ->
  0 <= packet_num frame < kMaxPacketNumPerFrame ->
  exists u' frame' az t, DecodePacket timezone host now u frame pkt = Ok (0, u', frame') /\
    tail_cast (buffer pkt) (tail_off h) = Ok t /\
    packet_num frame' = packet_num frame + 1 /\ block_num frame' = GetBlockNum h /\
    laser_num frame' = GetLaserNum h /\
    (forall b l, 0 <= b < GetBlockNum h -> 0 <= l < GetLaserNum h ->
      let off := azimuth_off + block_size h * b + sizeof_AZIMUTH + unit_size h * l in
      let k := packet_num frame * GetBlockNum h * GetLaserNum h + b * GetLaserNum h + l in
      exists d a ang, pointData frame' !! k = Some d /\
        rd16 (buffer pkt) (azimuth_off + block_size h * b) = Ok a /\ getAngleState t b = Ok ang /\
        azimuth_of u h t a ang l (pd_distances d) (pd_azimuth d) /\
        rd16 (buffer pkt) off = Ok (pd_distances d) /\
        rd8 (buffer pkt) (off + 2) = Ok (pd_reflectivities d) /\
        (HasConfidenceLevel h = true -> exists c, rd8 (buffer pkt) (off + 3) = Ok c /\ pd_confidence d = Some c)) /\
    (forall k, ~ (packet_num frame * GetBlockNum h * GetLaserNum h <= k
                  < (packet_num frame + 1) * GetBlockNum h * GetLaserNum h) ->
      pointData frame' !! k = pointData frame !! k) /\
    rd16 (buffer pkt) (azimuth_off + block_size h * (GetBlockNum h - 1)) = Ok az /\
    exists p', scan_step az (base u) = Ok (scan_complete frame', p') /\ angles (base u') = angles p'.
Proof.
  intros Hcorr Hstart Hfit Hcover Hpn. pose proof (packet_fits_points _ _ _ Hfit Hpn) as Hmax.
  destruct (packet_fits_offsets _ _ Hfit) as (HL & Hpos & Hfs & Htail & Hseq & H12).
  destruct Hfit as (Hlen & Hbl & Hb0 & Hb1 & Hh & Hsz & HB).
  unfold DecodePacket. rewrite Hcorr, Hb0, Hb1. cbn [mbind result_bind negb orb]. rewrite !Z.eqb_refl. cbn [negb orb].
  rewrite Hh. cbn [mbind result_bind].
  assert (exists st, (if HasFuncSafety h then GetLidarState (buffer pkt) (func_safety_off h) else Ok (-1)) = Ok st) as [st ->].
  { destruct (HasFuncSafety h); [|eauto]. unfold GetLidarState.
    destruct (rd8_in (buffer pkt) (func_safety_off h + 1)) as [x ->]; [lia|]. cbn. eauto. }
  cbn [mbind result_bind].
  destruct (tail_cast_ok (buffer pkt) (tail_off h)) as [t Et];
    [destruct (HasFuncSafety h); lia|lia|]. rewrite Et. cbn [mbind result_bind]. specialize (Hcover t Et).
  destruct (count_loss_ok now (buffer pkt) h (base u)) as [l ->];
    [destruct (HasFuncSafety h); lia|lia|]. cbn [mbind result_bind].
  set (frame1 := set_lidar_state st frame).
  change (packet_num frame1) with (packet_num frame) in *.
  destruct (put_timestamp_ok (packet_num frame)
    (if use_timestamp_type frame1 =? 0 then GetMicroLidarTimeU64 timezone t else recv_timestamp pkt) frame1 Hpn)
    as (frame2 & -> & _ & Hpd2 & Hpn2 & _). cbn [mbind result_bind].
  set (frame3 := set_packet_info _ _ _ _ _ _ _ frame2).
  assert (packet_num frame3 = packet_num frame) as Hpn3 by done.
  assert (pointData frame3 = pointData frame) as Hpd3 by done.
  set (p1 := set_motor _ _ (set_loss _ _)).
  destruct (update_monitor_frame t p1) as (Hm1 & Hm4 & Hm5 & _).
  set (u1 := set_base (update_monitor t p1) u).
  assert (get_firetime_file_ (base u1) = get_firetime_file_ (base u)) as Hf1 by exact Hm4.
  assert (spin_speed_ (base u1) = m_u16MotorSpeed t /\ rotation_flag (base u1) = rotation_flag (base u)) as [Hspin Hflag].
  { cbn [base u1 set_base]. unfold update_monitor. by destruct (enable_update_monitor_info_ p1). }
  set (idx := packet_num frame * GetBlockNum h * GetLaserNum h) in *.
  unfold kMaxPointsNumPerFrame, kMaxPacketNumPerFrame, kMaxPointsNumPerPacket, GetLaserNum, GetBlockNum, is_u8 in *.
  assert (0 <= idx /\ idx + m_u8BlockNum h * m_u8LaserNum h <= 512 * 5000) as [Hidx0 Hidx].
  { unfold idx. split; nia. }
  assert (0 <= m_u8BlockNum h * m_u8LaserNum h) by nia.
  assert (i32 (u32 (packet_num frame3 * m_u8BlockNum h * m_u8LaserNum h)) = idx) as ->.
  { rewrite Hpn3. fold idx. unfold i32, u32. rewrite (Z.mod_small idx), Z.mod_small by lia. lia. }
  rewrite Hpd3.
  destruct (block_loop_ok u1 h (buffer pkt) t (Z.to_nat (m_u8BlockNum h)) 0 azimuth_off idx 0 (pointData frame))
    as (az & data & -> & Hout & Hin & Haz); unfold GetLaserNum, is_u8, kMaxPointsNumPerFrame, kMaxPointsNumPerPacket, kMaxPacketNumPerFrame;
    [|lia|lia|done|done|rewrite Z2Nat.id by lia; destruct (HasFuncSafety h); lia|lia|rewrite Z2Nat.id by lia; lia|].
  { intros b ang l1 Hb Ea Hl1. unfold firetime_covered. rewrite Hf1. apply (Hcover b); [unfold GetBlockNum; lia|done|done]. }
  cbn [mbind result_bind]. rewrite !Z2Nat.id in * by lia.
  change (base u1) with (update_monitor t p1).
  specialize (Hstart az).
  pose proof (IsNeedFrameSplit_ext az (update_monitor t p1) (base u) Hm1) as Hext.
  destruct (IsNeedFrameSplit az (base u)) as [[sp0 p0]|] eqn:E0; [|done].
  destruct (IsNeedFrameSplit az (update_monitor t p1)) as [[sp p2]|] eqn:Es; [|done].
  destruct Hext as [-> Hext].
  cbn [mbind result_bind].
  set (frame4 := set_pointData data frame3).
  eexists _, _, az, t. split; [reflexivity|]. split; [done|].
  assert (packet_num (if sp0 then set_scan_complete true frame4 else frame4) = packet_num frame) as Hpn4 by by destruct sp0.
  cbn [packet_num set_counts pointData block_num laser_num]. rewrite Hpn4.
  assert (pointData (if sp0 then set_scan_complete true frame4 else frame4) = data) as Hpd4 by by destruct sp0.
  rewrite Hpd4. split; [unfold u32; rewrite Z.mod_small; lia|]. split; [by destruct sp0|]. split; [by destruct sp0|].
  split; [|split; [|split]].
  - intros b l0 Hbb Hll. destruct (Hin b l0 Hbb Hll) as (a & ang & d & Eg & Ea & Ed & Er). rewrite Z.add_0_l in Eg.
    destruct (read_channel_ok u1 h (buffer pkt) a (getOperationMode t) ang l0
      (azimuth_off + block_size h * b + sizeof_AZIMUTH + unit_size h * l0)
      (pointData frame !! (idx + b * m_u8LaserNum h + l0)))
      as (dist & refl & conf & azf & Er2 & Eaz & E1 & E2 & E3).
    { unfold firetime_covered. rewrite Hf1. by apply (Hcover b). }
    { pose proof (channel_bounds h b l0 Hbb Hll). unfold azimuth_off, header_off, sizeof_PRE_HEADER, sizeof_HEADER. lia. }
    { pose proof (channel_bounds h b l0 Hbb Hll). destruct (HasFuncSafety h); unfold GetBlockNum in *; lia. }
    unfold GetLaserNum in Er. rewrite Er2 in Er. apply (inj Ok) in Er as <-. eexists _, a, ang. split; [done|]. split; [done|].
    split; [done|]. split; [|split; [done|split; [done|]]].
    { unfold azimuth_of. unfold channel_azimuth in Eaz. rewrite Hf1, Hspin, Hflag in Eaz. cbn [pd_distances pd_azimuth].
      destruct (get_firetime_file_ (base u)); [|by apply (inj Ok) in Eaz as <-]. rewrite bind_ok in Eaz.
      destruct Eaz as (c & Ec & Eaz). apply (inj Ok) in Eaz as <-. by exists c. }
    intros Hc. rewrite Hc in E3. exact E3.
  - intros k Hk. apply Hout. intros Hr. apply Hk. unfold GetLaserNum, idx in Hr |- *. lia.
  - destruct (Z.to_nat (m_u8BlockNum h)) as [|m] eqn:Em; [lia|].
    rewrite <-Haz. do 3 f_equal. lia.
  - exists (push_azimuth az p0). unfold scan_step. rewrite E0. cbn [mbind result_bind].
    split; [by destruct sp0|]. apply push_azimuth_ext. exact Hext.
Qed.

End DecodeOk.

(** ** The interface *)

Lemma count_loss_shape now buf h p p' : count_loss now buf h p = Ok p' -> exists l, p' = set_loss l p.
Proof.
  unfold count_loss. destruct (HasSeqNum h); intros H; inv_ok; [eauto|]. exists (loss_ p'). by destruct p'.
Qed.

(** What is known of a packet that was decoded: the splitter ran on [p], the
    parser as the packet left it, and [az], the azimuth of the last block. *)
Lemma decode_accepts {P} timezone host now u (f : LidarDecodedFrame P) pkt r u' f' :
  get_correction_file_ (base u) = true -> rd8 (buffer pkt) 0 = Ok 0xEE -> rd8 (buffer pkt) 1 = Ok 0xFF ->
  DecodePacket timezone host now u f pkt = Ok (r, u', f') ->
  exists h t v i data p b q az, r = 0 /\ header_cast (buffer pkt) header_off = Ok h /\
    tail_cast (buffer pkt) (tail_off h) = Ok t /\
    block_loop (Z.to_nat (GetBlockNum h)) v h t (buffer pkt) 0 azimuth_off i 0 data = Ok (az, pointData f') /\
    (angles p = angles (base u) /\ get_correction_file_ p = true /\
     get_firetime_file_ p = get_firetime_file_ (base u) /\ compute_packet_num p = compute_packet_num (base u)) /\
    IsNeedFrameSplit az p = Ok (b, q) /\ scan_complete f' = b /\ base u' = push_azimuth az q /\
    packet_num f' = u32 (packet_num f + 1) /\ same_frame f f' /\ host_timestamp f' = host /\
    (exists t, sensor_timestamp f' !! packet_num f = Some t).
Proof.
  intros Hc H0 H1. unfold DecodePacket. rewrite Hc, H0, H1. cbn [negb mbind result_bind]. rewrite !Z.eqb_refl. cbn [negb orb].
  intros H. inv_ok. destruct a4 as [az data]. inv_ok. destruct a4 as [sp q]. inv_ok.
  apply count_loss_shape in E2 as [l ->].
  unfold put_timestamp, array_put in E3. destruct (_ && _); inv_ok.
  cbn [base set_base] in E5.
  match type of E5 with IsNeedFrameSplit _ (update_monitor _ ?p1) = _ =>
    destruct (update_monitor_frame a1 p1) as (A1 & A2 & A3 & A4) end.
  do 9 eexists. split; [done|]. split; [exact E || reflexivity|]. split; [exact E1 || reflexivity|].
  split; [by destruct sp|]. split; [split; [exact A1|split; [rewrite A3; exact Hc|split; [exact A2|exact A4]]]|].
  split; [exact E5|]. split; [by destruct sp|]. split; [done|]. split; [by destruct sp|].
  split; [by destruct sp|]. split; [by destruct sp|].
  eexists. destruct sp; cbn; apply lookup_insert_eq.
Qed.

(** A packet that was refused left everything as it was. *)
Lemma decode_refuses {P} timezone host now u (f : LidarDecodedFrame P) pkt r u' f' :
  DecodePacket timezone host now u f pkt = Ok (r, u', f') ->
  (get_correction_file_ (base u) = true /\ rd8 (buffer pkt) 0 = Ok 0xEE /\ rd8 (buffer pkt) 1 = Ok 0xFF) \/
  (r = -1 /\ u' = u /\ f' = f).
Proof.
  unfold DecodePacket. destruct (get_correction_file_ (base u)); cbn [negb].
  2: { intros H. inv_ok. by right. }
  destruct (rd8 (buffer pkt) 0) as [b0|]; cbn [mbind result_bind]; [|done].
  destruct (rd8 (buffer pkt) 1) as [b1|]; cbn [mbind result_bind]; [|done].
  destruct (Z.eqb_spec b0 0xEE), (Z.eqb_spec b1 0xFF); cbn [negb orb]; subst; intros H;
    try (by left); right; by inv_ok.
Qed.

(** The parser has its correction file and no firetime file, and its start angle
    converts. *)
Definition udp1_4_ready (u : Udp1_4Parser) : Prop :=
  get_correction_file_ (base u) = true /\ get_firetime_file_ (base u) = false /\ start_ok (base u).

Definition udp1_4_alike : relation Udp1_4Parser := fun u v =>
  set_base (setComputePacketNumToZero (base u)) u = set_base (setComputePacketNumToZero (base v)) v.

Lemma udp1_4_alike_base u v : udp1_4_alike u v ->
  angles (base u) = angles (base v) /\ get_correction_file_ (base u) = get_correction_file_ (base v) /\
  get_firetime_file_ (base u) = get_firetime_file_ (base v).
Proof. unfold udp1_4_alike, angles. intros [=]. repeat split; congruence. Qed.

Lemma start_ok_ext p q : angles p = angles q -> start_ok p -> start_ok q.
Proof.
  intros E H az. specialize (H az). pose proof (IsNeedFrameSplit_ext az p q E) as X.
  by destruct (IsNeedFrameSplit az p) as [[]|], (IsNeedFrameSplit az q) as [[]|].
Qed.

(** The splitter leaves a start angle that converts. *)
Lemma start_ok_split az p b q : IsNeedFrameSplit az p = Ok (b, q) -> start_ok q.
Proof.
  unfold IsNeedFrameSplit. set (a := if _ || _ then _ else _).
  destruct (to_u16 _) as [S|] eqn:E; cbn [mbind result_bind]; [|done].
  destruct (split_rule _ _ _ _ _) as [b0 fl]. intros H az'. inv_ok.
  unfold IsNeedFrameSplit. cbn [frame_start_azimuth_ set_azimuths].
  assert ((if SFltb a f_zero || SFleb (of_Z32 360) a then f_zero else a) = a) as ->.
  { unfold a. destruct (SFltb (frame_start_azimuth_ p) f_zero || _) eqn:Ea; [done|]. by rewrite Ea. }
  rewrite E. cbn [mbind result_bind]. by destruct (split_rule _ _ _ _ _).
Qed.

Lemma start_ok_push az p : start_ok p -> start_ok (push_azimuth az p).
Proof.
  intros H az'. specialize (H az'). unfold push_azimuth. destruct (negb _); [|done].
  unfold IsNeedFrameSplit in *. cbn [frame_start_azimuth_ set_azimuths last_azimuth_ last_last_azimuth_].
  set (a := if _ || _ then _ else _) in *.
  destruct (to_u16 _) as [S|]; cbn [mbind result_bind] in *; [|done].
  by match goal with |- context [split_rule ?x ?y ?z ?w ?v] => destruct (split_rule x y z w v) end.
Qed.

Lemma compute_shape {P} {PT : PointType P} sinT cosT s32 c32 at32 as32 p (f : LidarDecodedFrame P) i r p' f' :
  ComputeXYZI sinT cosT s32 c32 at32 as32 p f i = Ok (r, p', f') ->
  r = 0 /\ p' = FrameNumAdd p /\ f' = set_points (points f') f.
Proof. unfold ComputeXYZI. intros H. inv_ok. done. Qed.

(** The object keeps what its callers rely on. *)
#[export] Instance udp1_4_laws {P} {PT : PointType P} (timezone : TimeZone) (sinT cosT : Z -> f32)
    (s32 c32 at32 as32 : f32 -> f32) :
  @DecoderLaws P Udp1_4Parser (udp1_4_decoder timezone sinT cosT s32 c32 at32 as32).
Proof.
  unshelve econstructor; cbn [general with_general v_DecodePacket v_ComputeXYZI udp1_4_decoder].
  - exact udp1_4_alike.
  - exact udp1_4_ready.
  - exact (fun pkt => exists h, packet_fits (buffer pkt) h).
  - done.
  - split; unfold udp1_4_alike; [intros ?|intros ???|intros ?????]; congruence.
  - done.
  - intros u v Huv. destruct (udp1_4_alike_base u v Huv) as (A & B & C). unfold udp1_4_ready.
    rewrite B, C. split; intros (? & ? & ?); eauto using start_ok_ext.
  - intros host now u f pkt (Hc & Hf & Hs) [h Hfit] Hn.
    destruct (decode_ok timezone host now u f pkt h Hc Hs Hfit) as (u' & f' & az & _ & E & _);
      [intros t _ b ang l _ _ _; unfold firetime_covered; by rewrite Hf|done|].
    exists u', f'. split; [exact E|].
    pose proof Hfit as (_ & _ & H0 & H1 & _).
    destruct (decode_accepts _ _ _ _ _ _ _ _ _ Hc H0 H1 E) as (h' & t & v & i & d & p & b & q & az' & _ & _ & _ & _ & (_ & A2 & A3 & _) & Es & _ & Eb & _).
    destruct (IsNeedFrameSplit_frame _ _ _ _ Es) as (_ & _ & B1 & B2 & _).
    destruct (push_azimuth_last az' q) as (_ & _ & C1 & C2 & _).
    unfold udp1_4_ready. rewrite Eb. split; [congruence|]. split; [congruence|].
    eapply start_ok_push, start_ok_split. exact Es.
  - intros host now u f pkt u' f' E. destruct (decode_refuses _ _ _ _ _ _ _ _ _ E) as [(Hc & H0 & H1)|(? & _)]; [|done].
    destruct (decode_accepts _ _ _ _ _ _ _ _ _ Hc H0 H1 E) as (h & t & v & i & d & p & b & q & az & _ & _ & _ & _ & (_ & _ & _ & A) & Es & _ & Eb & Hn & Hs & Hh & Ht).
    destruct (IsNeedFrameSplit_frame _ _ _ _ Es) as (_ & _ & _ & _ & _ & B & _).
    destruct (push_azimuth_last az q) as (_ & _ & _ & _ & C).
    repeat (split; [done|]). rewrite Eb. congruence.
  - intros host now u f pkt r u' f' E Hr. destruct (decode_refuses _ _ _ _ _ _ _ _ _ E) as [(Hc & H0 & H1)|(_ & -> & ->)]; [|by repeat split].
    destruct (decode_accepts _ _ _ _ _ _ _ _ _ Hc H0 H1 E) as (h & t & v & i & d & p & b & q & az & Hr0 & _). done.
  - intros host now host' now' u f pkt u1 f1 v1 f2 r u2 f3 E1 Hal E2.
    destruct (decode_refuses _ _ _ _ _ _ _ _ _ E1) as [(Hc & H0 & H1)|(? & _)]; [|done].
    destruct (decode_accepts _ _ _ _ _ _ _ _ _ Hc H0 H1 E1) as (h & t & v & i & d & p & b & q & az & _ & Hh & Htl & Hb & (_ & A2 & _) & Es & _ & Eb & _).
    destruct (udp1_4_alike_base _ _ Hal) as (X1 & X2 & _).
    destruct (push_azimuth_last az q) as (L1 & _ & L2 & _).
    destruct (IsNeedFrameSplit_frame _ _ _ _ Es) as (_ & _ & B1 & _).
    rewrite Eb in X1, X2. rewrite L2, B1, A2 in X2.
    destruct (decode_accepts _ _ _ _ _ _ _ _ _ (eq_sym X2) H0 H1 E2)
      as (h' & t' & v' & i' & d' & p' & b' & q' & az' & Hr & Hh' & Htl' & Hb' & (Y & _) & Es' & Hsc & _).
    split; [exact Hr|]. rewrite Hh in Hh'. apply (inj Ok) in Hh' as <-. rewrite Htl in Htl'. apply (inj Ok) in Htl' as <-.
    apply block_loop_azimuth in Hb, Hb'.
    assert (az' = az) as -> by (destruct (Z.to_nat (GetBlockNum h)); [congruence|]; rewrite Hb in Hb'; by apply (inj Ok) in Hb').
    rewrite Hsc. unfold angles in Y, X1. injection Y as Y1 _ _ _. injection X1 as Z1 _ _ _.
    unfold IsNeedFrameSplit in Es'. destruct (to_u16 _); cbn [mbind result_bind] in Es'; [|done].
    rewrite Y1, <-Z1, L1, split_rule_repeat in Es'. by apply (inj Ok) in Es' as [= <- _].
  - intros u f i r u' f' E. destruct (ComputeXYZI _ _ _ _ _ _ _ _ _) as [[[r0 p'] f0]|] eqn:Ec; cbn [mbind result_bind] in E; [|done].
    apply (inj Ok) in E as [= <- <- <-]. destruct (compute_shape _ _ _ _ _ _ _ _ _ _ _ _ Ec) as (_ & -> & Hf). done.
Defined.

(** ** Properties *)

Section Properties.
Context {P : Type}.
Variable timezone : TimeZone.


(** Nothing is decoded without a correction file, nor from a packet that does
    not begin with the delimiter: the answer is -1 and the parser and the frame
    are as before. *)
Theorem decode_rejects host now u (frame : LidarDecodedFrame P) pkt b0 b1 :
  rd8 (buffer pkt) 0 = Ok b0 -> rd8 (buffer pkt) 1 = Ok b1 ->
  get_correction_file_ (base u) = false \/ b0 <> 0xEE \/ b1 <> 0xFF ->
  DecodePacket timezone host now u frame pkt = Ok (-1, u, frame).
Proof.
  intros H0 H1 H. unfold DecodePacket. destruct (get_correction_file_ (base u)); [|done]. cbn [negb].
  rewrite H0, H1. cbn [mbind result_bind].
  destruct (Z.eqb_spec b0 0xEE), (Z.eqb_spec b1 0xFF); cbn [negb orb]; try done. naive_solver.
Qed.

(** The length of the datagram is not looked at: a header whose blocks do not
    fit the 1500 bytes of the buffer is followed past its end, whatever was
    received. *)
Theorem decode_trusts_dimensions host now u (frame : LidarDecodedFrame P) pkt h :
  get_correction_file_ (base u) = true -> rd8 (buffer pkt) 0 = Ok 0xEE -> rd8 (buffer pkt) 1 = Ok 0xFF ->
  length (buffer pkt) = 1500%nat -> header_cast (buffer pkt) header_off = Ok h -> 1500 < tail_off h + 26 ->
  is_ok (DecodePacket timezone host now u frame pkt) = false /\
  forall len, DecodePacket timezone host now u frame (set_packet_len len pkt) =
              DecodePacket timezone host now u frame pkt.
Proof.
  intros Hc H0 H1 Hlen Hh Hbig. split; [|done]. unfold DecodePacket. rewrite Hc, H0, H1. cbn [negb orb mbind result_bind].
  rewrite !Z.eqb_refl, Hh. cbn [negb orb mbind result_bind].
  destruct (if HasFuncSafety h then _ else _); cbn [mbind result_bind]; [|done].
  pose proof (tail_cast_out (buffer pkt) (tail_off h) ltac:(lia)) as Ht. by destruct (tail_cast _ _).
Qed.

(** C31: a scan that turns forward completes exactly one frame each time it
    passes the start angle, however its steps vary (repeated angles included,
    half a turn excluded). *)
Theorem one_frame_per_turn steps : forall theta S p,
  start_at p S -> tracks p theta -> Forall (fun d => 0 <= d < kHalfCircleInt) steps ->
  exists p', scan theta steps p = Ok (turns S (theta + foldr Z.add 0 steps) - turns S theta, p').
Proof.
  induction steps as [|d steps IH]; intros theta S p HS Ht Hs; cbn [scan foldr].
  { exists p. by rewrite Z.add_0_r, Z.sub_diag. }
  inversion_clear Hs as [|? ? Hd Hs'].
  destruct (scan_step_forward p theta S d HS Ht Hd) as (p1 & -> & HS1 & Ht1). cbn [mbind result_bind].
  destruct (IH (theta + d) S p1 HS1 Ht1 Hs') as (p2 & ->). cbn [mbind result_bind].
  exists p2. do 2 f_equal. rewrite <-Z.add_assoc. 
  assert (turns S theta <= turns S (theta + d) <= turns S theta + 1).
  { unfold turns, kHalfCircleInt, kCircle in *. Z.to_euclidean_division_equations; lia. }
  destruct (Z.ltb_spec (turns S theta) (turns S (theta + d))); lia.
Qed.

(** Backward rotation is not split that evenly: with the start angle at zero,
    a step that lands on it and the step that leaves it both complete a frame;
    and when the step that passes zero lands on the start angle, no frame is
    completed, by that step or the next. *)
Theorem reverse_split_uneven :
  fst (split_rule 0 (0 <=? 0) 40 20 0) = true /\
  fst (split_rule 0 (0 <=? 35980) 20 0 35980) = true /\
  fst (split_rule 35980 (35980 <=? 35980) 60 20 35980) = false /\
  fst (split_rule 35980 (35980 <=? 35940) 20 35980 35940) = false.
Proof. done. Qed.

(** The firetime table has eight sections per laser, but in operation mode 3
    two of the four angle states select one behind it. *)
Theorem firetime_section_out_of_bounds u laserId speed angleState dist sd :
  section_distance (firetimes u) = Some sd -> 2 <= angleState ->
  GetFiretimesCorrection u laserId speed 3 angleState dist = Err OutOfBounds.
Proof.
  intros Hs Ha. unfold GetFiretimesCorrection. cbn [Z.eqb Pos.eqb]. rewrite Hs. cbn [of_option mbind result_bind].
  destruct (laserId <? kLaserNum); cbn [andb]; [|done].
  destruct (Z.ltb_spec (6 + angleState) 8); [lia|]. done.
Qed.

End Properties.

(** ** Witnesses *)

Definition demo_buffer : list Z :=
  let l := [0xEE; 0xFF; 1; 4; 0; 0; 2; 2; 0; 4; 2; 0x11;
            100; 0; 10; 1; 7; 3; 20; 1; 8; 3;
            140; 0; 30; 1; 9; 3; 40; 1; 6; 2] in
  l ++ replicate (1500 - length l) 0.
Definition demo_packet : UdpPacket := mk_packet demo_buffer 70 false 0 0 2368.
Definition demo_header : HS_LIDAR_HEADER_ME_V4 := mk_header 2 2 0 4 2 0x11.
Definition demo_general (corr : bool) : GeneralParser :=
  set_azimuths 35980 35940 1 f_zero
    (GeneralParser_new corr false false false 0 f_zero
      (mk_transform f_zero f_zero f_zero f_zero f_zero f_zero)).
Definition demo_parser (corr : bool) : Udp1_4Parser := mk_udp1_4 (demo_general corr) (mk_firetimes (Some f_zero) ∅).
Definition demo_frame : LidarDecodedFrame LidarPointXYZI := new_LidarDecodedFrame LidarPointXYZI.

Lemma demo_start_at corr : start_at (demo_general corr) 0.
Proof.
  split; [done|]. split; [done|]. split; [unfold kCircle; lia|]. intros az Haz.
  change (mul32 _ _) with f_zero. destruct (Z.leb_spec 0 az); [|lia]. by apply of_Z32_nonneg.
Qed.

(** The same packet at a motor speed of 600, and a table with 1000 ns for the two
    lasers of the packet. *)
Definition demo_buffer_fire : list Z :=
  take 32 demo_buffer ++ replicate 17 0 ++ [0x58; 0x02] ++ replicate 1449 0.
Definition demo_packet_fire : UdpPacket := mk_packet demo_buffer_fire 70 false 0 0 2368.
Definition demo_fire : Udp1_4Parser :=
  mk_udp1_4 (set_firetimes [] true (demo_general true))
    (mk_firetimes (Some f_zero) (list_to_map [((0, 0, 0), 1000); ((0, 0, 1), 1000); ((1, 0, 0), 1000); ((1, 0, 1), 1000)])).

Lemma demo_angle_ok p : frame_start_azimuth_ p = f_zero -> start_ok p.
Proof.
  intros Hp az. unfold IsNeedFrameSplit. rewrite Hp. change (to_u16 _) with (Ok 0 : result Z). cbn [mbind result_bind].
  by destruct (split_rule 0 _ _ _ az).
Qed.

Lemma demo_fits buf : buf = demo_buffer \/ buf = demo_buffer_fire -> packet_fits buf demo_header.
Proof.
  intros [->| ->]; unfold packet_fits; repeat split; try reflexivity; try (vm_compute; congruence); by apply byte_list_check.
Qed.

Lemma demo_fire_cover t : tail_cast demo_buffer_fire 36 = Ok t -> firetimes_cover demo_fire demo_header t.
Proof.
  intros Et b ang l Hb Ha Hl _ dist. vm_compute in Et. apply (inj Ok) in Et as <-.
  unfold getAngleState in Ha. destruct (7 <? b); [done|]. apply (inj Ok) in Ha as <-. cbn [m_u16AzimuthFlag].
  rewrite Z.shiftr_0_l, Z.land_0_l. unfold GetFiretimesCorrection. cbn [getOperationMode m_u8RunningMode Z.land Z.eqb Z.ltb].
  change (section_distance (firetimes demo_fire)) with (Some f_zero). cbn [of_option mbind result_bind].
  assert (l = 0 \/ l = 1) as [-> | ->] by (change (GetLaserNum demo_header) with 2 in Hl; lia); by destruct (SFleb f_zero dist).
Qed.


Lemma decode_rejects_witness :
  DecodePacket 0 7 (fun _ => 0) (demo_parser false) demo_frame demo_packet = Ok (-1, demo_parser false, demo_frame).
Proof. apply (decode_rejects 0 7 (fun _ => 0) (demo_parser false) demo_frame demo_packet 0xEE 0xFF); [done|done|by left]. Defined.

(** 255 channels in 8 blocks are accepted whatever the length. *)
Definition big_buffer : list Z :=
  let l := [0xEE; 0xFF; 1; 4; 0; 0; 255; 8; 0; 4; 2; 0x11] in l ++ replicate (1500 - length l) 0.

Lemma decode_trusts_dimensions_witness :
  is_ok (DecodePacket 0 7 (fun _ => 0) (demo_parser true) demo_frame (mk_packet big_buffer 40 false 0 0 2368)) = false.
Proof.
  apply (decode_trusts_dimensions 0 7 (fun _ => 0) (demo_parser true) demo_frame
    (mk_packet big_buffer 40 false 0 0 2368) (mk_header 255 8 0 4 2 0x11)); done.
Defined.

Lemma one_frame_per_turn_witness :
  exists p', scan 35980 (replicate 1000 73) (demo_general true) = Ok (3, p').
Proof.
  apply (one_frame_per_turn (replicate 1000 73) 35980 0 (demo_general true) (demo_start_at true)).
  - exists 40. done.
  - apply Forall_replicate. unfold kHalfCircleInt. lia.
Defined.

Lemma firetime_section_out_of_bounds_witness :
  GetFiretimesCorrection (demo_parser true) 0 f_zero 3 2 f_zero = Err OutOfBounds.
Proof. apply (firetime_section_out_of_bounds (demo_parser true) 0 f_zero 2 f_zero f_zero); [reflexivity|lia]. Defined.
