(* ===== verification/Points.v ===== *)
(** * Points: the end of every [ComputeXYZI]

    Once the angles of a point are known, all decoders end alike: a point outside
    the field of view becomes the zero point, the others are projected with the
    tables of sine and cosine, moved by the transform (not in the decoders of the
    2.x protocols) and written member by member. *)

From Stdlib Require Import SpecFloat.
From S2P Require Import Prelude Floats LidarTypes GeneralParser Udp1_4.
Local Open Scope Z_scope.

(** float distance = distances * distance_unit *)
Definition point_distance (d : PointDecodeData) (unit_ : f64) : f32 := to32 (mul64 (of_Z64 (pd_distances d)) unit_).

Section Place.
Context {P : Type} {PT : PointType P}.
Variables (sin_all_angle_ cos_all_angle_ : Z -> f32).
Variables (sin32 cos32 : f32 -> f32).

(** [tf] is the transform, when the decoder applies it; [conf] says whether the
    decoder copies the confidence; the elevation is computed behind the test of
    the field of view. *)
Definition place_point (tf : option Transform) (conf : bool) (frame : LidarDecodedFrame P) (packet_index ring : Z)
    (azimuth : Z) (elevation : result Z) (distance : f32) (d : PointDecodeData) (old : option P) : result P :=
  if outside_fov (fov_start frame) (fov_end frame) azimuth then Ok zero_point
  else
    elevation ← elevation;
    ce ← trig cos_all_angle_ elevation;
    sa ← trig sin_all_angle_ azimuth;
    ca ← trig cos_all_angle_ azimuth;
    se ← trig sin_all_angle_ elevation;
    let xyDistance := mul32 distance ce in
    let x := mul32 xyDistance sa in
    let y := mul32 xyDistance ca in
    let z := mul32 distance se in
    let '(x, y, z) := match tf with Some t => TransformPoint sin32 cos32 t x y z | None => (x, y, z) end in
    ts ← array_at kMaxPacketNumPerFrame packet_index (sensor_timestamp frame);
    let pt := setIntensity (pd_reflectivities d) (setZ z (setY y (setX x (default zero_point old)))) in
    let pt := if conf then setConfidence (pd_confidence d) pt else pt in
    Ok (setRing ring (setTimestamp (div64 (of_Z64 ts) (of_Z64 1000000)) pt)).

(** A point outside the field of view. *)
Lemma place_point_outside tf conf frame n ring az el dist d old :
  outside_fov (fov_start frame) (fov_end frame) az = true ->
  place_point tf conf frame n ring az el dist d old = Ok zero_point.
Proof. intros H. unfold place_point. by rewrite H. Qed.

(** A point with angles in the circle, in a packet with a time stamp, is placed. *)
Lemma place_point_ok tf conf frame n ring az el dist d old t :
  0 <= az < CIRCLE -> 0 <= el < CIRCLE -> 0 <= n < kMaxPacketNumPerFrame -> sensor_timestamp frame !! n = Some t ->
  is_ok (place_point tf conf frame n ring az (Ok el) dist d old) = true.
Proof.
  intros Ha He Hn Ht. unfold place_point. destruct (outside_fov _ _ _); [done|]. cbn [mbind result_bind].
  assert (forall tab i, 0 <= i < CIRCLE -> trig tab i = Ok (tab i)) as Htrig.
  { intros tab i Hi. unfold trig. destruct (Z.leb_spec 0 i), (Z.ltb_spec i CIRCLE); done || lia. }
  rewrite !Htrig by done. cbn [mbind result_bind].
  destruct (match tf with Some _ => _ | None => _ end) as [[x y] z].
  rewrite (array_at_ok _ _ t) by done. done.
Qed.

End Place.
