(* ===== verification/Spinning.v ===== *)
(** * Spinning: the decoders of Pandar40, Pandar64, PandarQT and PandarXT

    UdpParser/src/udp_p40_parser.cc, udp_p64_parser.cc, udp3_1_parser.cc and
    udp6_1_parser.cc with UdpProtocol/udp_protocol_p40.h, _p64.h, _v3_1.h and
    _v6_1.h.  The four decoders are one program over four wire formats: the
    record [wire_format] holds what differs (where the sections are, which
    members of the frame are set, the split test), [DecodePacket] and
    [ComputeXYZI] are the program, and [format k] is the format of each parser.
    The host is little-endian, so a [uint16_t] member is [rd16] at its offset;
    [timezone] is the host's. *)

From Stdlib Require Import SpecFloat.
From S2P Require Import Prelude Bytes Floats LidarTypes PacketLoss GeneralParser Decoder ProtocolV1_4 Firetimes1_4 Calendar.
From S2P Require Import Udp1_4 Points Walk LidarTime.
Local Open Scope Z_scope.

Inductive spinning : Set := P40 | P64 | QT64 | XT32.

(** ** The tails

    What the decoders read behind the blocks. *)
Record spinning_tail : Set := mk_spinning_tail {
  m_u8Shutdown : Z; m_u8ReturnMode : Z; m_u16MotorSpeed : Z; m_u8UTC : list Z; m_u32Timestamp : Z; m_u32SeqNum : Z }.

(** HS_LIDAR_TAIL_L40 and the sequence number behind it; HS_LIDAR_TAIL_L64 is
    the same structure. *)
Definition tail_L40 (buf : list Z) (off : Z) : result spinning_tail :=
  sd ← rd8 buf (off + 5); ms ← rd16 buf (off + 8); ts ← rd32 buf (off + 10); rm ← rd8 buf (off + 14);
  utc ← arr_slice buf (off + 16) 6; seq ← rd32 buf (off + 22);
  Ok (mk_spinning_tail sd rm ms utc ts seq).

Definition tail_L64 : list Z -> Z -> result spinning_tail := tail_L40.

(** HS_LIDAR_TAIL_QT_V1. *)
Definition tail_QT_V1 (buf : list Z) (off : Z) : result spinning_tail :=
  sd ← rd8 buf (off + 6); ms ← rd16 buf (off + 10); ts ← rd32 buf (off + 12); rm ← rd8 buf (off + 16);
  utc ← arr_slice buf (off + 18) 6; seq ← rd32 buf (off + 24);
  Ok (mk_spinning_tail sd rm ms utc ts seq).

(** HsLidarXTV1Tail. *)
Definition tail_XT_V1 (buf : list Z) (off : Z) : result spinning_tail :=
  sd ← rd8 buf (off + 9); rm ← rd8 buf (off + 10); ms ← rd16 buf (off + 11);
  utc ← arr_slice buf (off + 13) 6; ts ← rd32 buf (off + 19); seq ← rd32 buf (off + 24);
  Ok (mk_spinning_tail sd rm ms utc ts seq).

(** ** The headers: lasers, blocks, distance unit *)

(** [BLOCKNUM], [LASERNUM] and [DISTANCEUNIT]: there is no header. *)
Definition header_L40 (buf : list Z) : result (Z * Z * f64) := Ok (40, 10, lit64 4 3).

Definition header_L64 (buf : list Z) : result (Z * Z * f64) :=
  l ← rd8 buf 2; b ← rd8 buf 3; u ← rd8 buf 5; Ok (l, b, div32 (of_Z32 u) (of_Z32 1000)).

(** HS_LIDAR_HEADER_QT_V1 behind the pre-header; HsLidarXTV1Header is the same
    structure. *)
Definition header_QT_V1 (buf : list Z) : result (Z * Z * f64) :=
  l ← rd8 buf 6; b ← rd8 buf 7; u ← rd8 buf 9; Ok (l, b, div32 (of_Z32 u) (of_Z32 1000)).

Definition header_XT_V1 : list Z -> result (Z * Z * f64) := header_QT_V1.

(** ** The formats *)

Record wire_format : Type := mk_format {
  sob : Z * Z;                 (* the first two bytes of a packet *)
  wf_header : list Z -> result (Z * Z * f64);
  body_off : Z;                (* where the first block begins *)
  head_size : Z;               (* what stands in front of the channels of a block *)
  azimuth_at : Z;              (* and where the azimuth is in it *)
  chn_size : Z;                (* sizeof a channel unit *)
  confidence_at : option Z;    (* the confidence, when the decoder stores it *)
  stores_elevation : bool;     (* whether the decoder stores an elevation of 0 *)
  wf_tail : list Z -> Z -> result spinning_tail;
  tail_size : Z;               (* with the sequence number *)
  (* (lidar_state, work_mode, return_mode) after and before *)
  wf_status : spinning_tail -> Z * Z * Z -> Z * Z * Z;
  wf_dual : spinning_tail -> bool -> bool;
  wf_split : Z -> GeneralParser -> result (bool * GeneralParser) }.

(** The split test of [UdpP40Parser] and [Udp3_1Parser]: as the one of
    [Udp1_4Parser], but backward the comparison behind a jump is made in floating
    point, [uint16_t(this->frame_start_azimuth_ * kResolutionInt > azimuth)]. *)
Definition float_split_rule (S : Z) (S_le S_gt : bool) (last_last last azimuth : Z) : bool * option Z :=
  if last_last =? -1 then (false, None)
  else
    let division1 := u16 (Z.abs (last - last_last)) in
    let division2 := u16 (Z.abs (last - azimuth)) in
    let division := if division2 <? division1 then division2 else division1 in
    if division =? 0 then (false, None)
    else
      let flag := if (last_last - last =? division) || (last - azimuth =? division) then -1 else 1 in
      if flag =? 1 then
        if division <? last - azimuth then ((last <? S) || S_le, Some flag)
        else ((last <? azimuth) && (last <? S) && (S <=? azimuth), Some flag)
      else
        if division <? azimuth - last then ((S <=? last) || S_gt, Some flag)
        else ((azimuth <? last) && (S <? last) && (azimuth <=? S), Some flag).

Definition P40_IsNeedFrameSplit (azimuth : Z) (p : GeneralParser) : result (bool * GeneralParser) :=
  let fsa := frame_start_azimuth_ p in
  let fsa := if SFltb fsa f_zero || SFleb (of_Z32 360) fsa then f_zero else fsa in
  let scaled := mul32 fsa (of_Z32 kResolutionInt) in
  S ← to_u16 scaled;
  let '(b, flag) := float_split_rule S (SFleb scaled (of_Z32 azimuth)) (SFltb (of_Z32 azimuth) scaled)
    (last_last_azimuth_ p) (last_azimuth_ p) azimuth in
  Ok (b, set_azimuths (last_azimuth_ p) (last_last_azimuth_ p) (default (rotation_flag p) flag) fsa p).

Definition P64_IsNeedFrameSplit : Z -> GeneralParser -> result (bool * GeneralParser) := IsNeedFrameSplit.
Definition QT64_IsNeedFrameSplit : Z -> GeneralParser -> result (bool * GeneralParser) := P40_IsNeedFrameSplit.
Definition XT32_IsNeedFrameSplit : Z -> GeneralParser -> result (bool * GeneralParser) := IsNeedFrameSplit.

Definition format_P40 : wire_format :=
  mk_format (0xFF, 0xEE) header_L40 0 4 2 3 None false tail_L40 26
    (fun t '(state, work, ret) => (m_u8Shutdown t, work, m_u8ReturnMode t)) (fun t old => old) P40_IsNeedFrameSplit.

Definition format_P64 : wire_format :=
  mk_format (0xEE, 0xFF) header_L64 8 2 0 3 None true tail_L64 26
    (fun t '(state, work, ret) => (m_u8Shutdown t, work, m_u8ReturnMode t)) (fun t old => old) P64_IsNeedFrameSplit.

Definition format_QT64 : wire_format :=
  mk_format (0xEE, 0xFF) header_QT_V1 12 2 0 4 None false tail_QT_V1 28
    (fun t '(state, work, ret) => (state, m_u8Shutdown t, m_u8ReturnMode t))
    (fun t old => m_u8ReturnMode t =? kDualReturn) QT64_IsNeedFrameSplit.

Definition format_XT32 : wire_format :=
  mk_format (0xEE, 0xFF) header_XT_V1 12 2 0 4 (Some 3) false tail_XT_V1 28
    (fun t '(state, work, ret) => (state, m_u8Shutdown t, ret))
    (fun t old => m_u8ReturnMode t =? kDualReturn) XT32_IsNeedFrameSplit.

Definition format (k : spinning) : wire_format :=
  match k with P40 => format_P40 | P64 => format_P64 | QT64 => format_QT64 | XT32 => format_XT32 end.

(** ** The parser objects

    [lidar_type] is the member [SetLidarType] writes. *)
Record SpinningParser (k : spinning) : Type := mk_spinning { base : GeneralParser; lidar_type : string }.
Arguments mk_spinning {k}.
Arguments base {k}.
Arguments lidar_type {k}.

Definition set_base {k} (p : GeneralParser) (u : SpinningParser k) : SpinningParser k :=
  mk_spinning p (lidar_type u).

Section Decode.
Context {P : Type}.
Variable W : wire_format.
Variable timezone : TimeZone.

(** The azimuth stored for channel [i]:
    u16Azimuth + rotation_flag * GetFiretimesCorrection(i, spin_speed_) * kResolutionFloat *)
Definition channel_azimuth (p : GeneralParser) (u16Azimuth i : Z) : result f32 :=
  if get_firetime_file_ p then
    c ← GeneralParser.GetFiretimesCorrection p i (of_Z64 (spin_speed_ p));
    Ok (to32 (add64 (of_Z64 u16Azimuth) (mul64 (mul64 (of_Z64 (rotation_flag p)) c) (of_Z64 100))))
  else Ok (of_Z32 u16Azimuth).

Definition block_size (lasers : Z) : Z := head_size W + chn_size W * lasers.

(** What is stored for channel [i] of block [b]; a member that is not stored
    keeps the value that was there ([old]). *)
Definition read_channel (p : GeneralParser) (buf : list Z) (lasers u16Azimuth b i : Z)
    (old : option PointDecodeData) : result PointDecodeData :=
  let pChnUnit := body_off W + block_size lasers * b + head_size W + chn_size W * i in
  az ← channel_azimuth p u16Azimuth i;
  dist ← rd16 buf pChnUnit;
  refl ← rd8 buf (pChnUnit + 2);
  conf ← (match confidence_at W with
          | Some o => c ← rd8 buf (pChnUnit + o); Ok (Some c)
          | None => Ok (old ≫= pd_confidence)
          end);
  let elev := if stores_elevation W then f_zero else default f_zero (pd_elevation <$> old) in
  Ok (mk_pdd az elev dist refl conf (old ≫= pd_chn_index) (old ≫= pd_mirror_index)).

(** The azimuth of block [b]. *)
Definition read_azimuth (buf : list Z) (lasers b : Z) : result Z :=
  rd16 buf (body_off W + block_size lasers * b + azimuth_at W).

Definition set_status (s : Z * Z * Z) (host spin blocks lasers : Z) (unit_ : f64)
    (f : LidarDecodedFrame P) : LidarDecodedFrame P :=
  let '(state, work, ret) := s in
  set_packet_info host spin work ret blocks lasers unit_ (set_lidar_state state f).

Definition DecodePacket (host : Z) (now : nat -> Z) (p : GeneralParser) (frame : LidarDecodedFrame P)
    (pkt : UdpPacket) : result (Z * GeneralParser * LidarDecodedFrame P) :=
  if negb (get_correction_file_ p) then Ok (-1, p, frame)
  else
    let buf := buffer pkt in
    b0 ← rd8 buf 0;
    b1 ← rd8 buf 1;
    if negb (b0 =? (sob W).1) || negb (b1 =? (sob W).2) then Ok (-1, p, frame)
    else
      '(lasers, blocks, unit_) ← wf_header W buf;
      t ← wf_tail W buf (body_off W + block_size lasers * blocks);
      let packet_timestamp := GetMicroLidarTimeU64_2000 timezone (m_u8UTC t) (m_u32Timestamp t) in
      let p := set_loss (CalPktLoss now (m_u32SeqNum t) (loss_ p)) p in
      let p := set_loss (CalPktTimeLoss now packet_timestamp (loss_ p)) p in
      frame ← put_timestamp (packet_num frame)
        (if use_timestamp_type frame =? 0 then packet_timestamp else recv_timestamp pkt) frame;
      let p := set_motor (m_u16MotorSpeed t) (wf_dual W t (is_dual_return_ p)) p in
      let frame := set_status (wf_status W t (lidar_state frame, work_mode frame, return_mode frame))
        host (m_u16MotorSpeed t) blocks lasers unit_ frame in
      let index := i32 (u32 (packet_num frame * blocks * lasers)) in
      '(u16Azimuth, data) ← fill_blocks kMaxPointsNumPerFrame index blocks lasers (read_azimuth buf lasers)
        (read_channel p buf lasers) 0 (pointData frame);
      let frame := set_pointData data frame in
      '(split, p) ← wf_split W u16Azimuth p;
      let frame := if split : bool then set_scan_complete true frame else frame in
      Ok (0, push_azimuth u16Azimuth p, set_counts (u32 (packet_num frame + 1)) (points_num frame) frame).

End Decode.

(** ** Coordinates *)

Section Compute.
Context {P : Type} {PT : PointType P}.
Variable k : spinning.
Variables (sin_all_angle_ cos_all_angle_ : Z -> f32).
Variables (sin32 cos32 atan32 asin32 : f32 -> f32).

(** [pointData.distances * DISTANCEUNIT] in UdpP40Parser, times the unit of the
    frame in the others. *)
Definition unit_of (frame : LidarDecodedFrame P) : f64 :=
  match k with P40 => lit64 4 3 | _ => distance_unit frame end.

(** [Udp6_1Parser::spot_correction_angle]. *)
Definition spot_correction_angle : list Z := [3; 3; 25; 25; 20; 15; 8; 6].

(** What [Udp6_1Parser] takes off the azimuth of a near point, for two types of
    lidar; the subtraction is made in [uint32_t]. *)
Definition spot_correction (lidar_type : string) (distance : f32) (azimuth : Z) : result Z :=
  if (bool_decide (lidar_type = "PandarXT32M1"%string) || bool_decide (lidar_type = "PandarXT16M1"%string)) &&
     (SFleb (lit64 25 2) distance && SFltb distance (lit64 425 2)) then
    index ← to_int (div64 (sub64 distance (lit64 25 2)) (lit64 5 1));
    let index := if 7 <? index then 7 else index in
    a ← arr_get spot_correction_angle index;
    Ok (i32 (u32 (azimuth - a * kFineResolutionInt)))
  else Ok azimuth.

(** The azimuth, the elevation and the distance of a point; without a correction
    file [Udp3_1Parser] keeps the azimuth and the others use zero. *)
Definition point_angles (u : SpinningParser k) (i Azimuth : Z) (distance : f32) : result (Z * Z * f32) :=
  let p := base u in
  if get_correction_file_ p then
    azimuth_coll ← correction_units (azimuth_collection_ p) i;
    elevation_corr ← correction_units (elevation_correction_ p) i;
    '(azimuth_coll, elevation_corr, distance) ←
      (if enable_distance_correction_ p
       then GetDistanceCorrection sin_all_angle_ cos_all_angle_ atan32 asin32 (optical_center p)
              azimuth_coll elevation_corr distance GeometricCenter
       else Ok (azimuth_coll, elevation_corr, distance));
    let azimuth := Azimuth + azimuth_coll in
    azimuth ← (match k with XT32 => spot_correction (lidar_type u) distance azimuth | _ => Ok azimuth end);
    Ok (Z.rem (CIRCLE + azimuth) CIRCLE, elevation_corr, distance)
  else Ok (match k with QT64 => Azimuth | _ => 0 end, 0, distance).

Definition compute_point (u : SpinningParser k) (frame : LidarDecodedFrame P) (packet_index i point_index : Z)
    (old : option P) : result P :=
  d ← array_at kMaxPointsNumPerFrame point_index (pointData frame);
  let distance := point_distance d (unit_of frame) in
  Azimuth ← to_int (mul32 (pd_azimuth d) (of_Z32 kFineResolutionInt));
  '(azimuth, elevation, distance) ← point_angles u i Azimuth distance;
  place_point sin_all_angle_ cos_all_angle_ sin32 cos32 (Some (transform_ (base u)))
    (match k with XT32 => true | _ => false end) frame packet_index i azimuth (Ok elevation) distance d old.

Definition ComputeXYZI (u : SpinningParser k) (frame : LidarDecodedFrame P) (packet_index : Z)
    : result (Z * SpinningParser k * LidarDecodedFrame P) :=
  pts ← each_point frame packet_index (fun _ i => compute_point u frame packet_index i);
  Ok (0, set_base (FrameNumAdd (base u)) u, set_points pts frame).

End Compute.

(** The functions of the four parsers. *)
Definition P40_DecodePacket {P} := DecodePacket (P := P) format_P40.
Definition P64_DecodePacket {P} := DecodePacket (P := P) format_P64.
Definition QT64_DecodePacket {P} := DecodePacket (P := P) format_QT64.
Definition XT32_DecodePacket {P} := DecodePacket (P := P) format_XT32.
Definition P40_ComputeXYZI {P} `{PointType P} := ComputeXYZI P40.
Definition P64_ComputeXYZI {P} `{PointType P} := ComputeXYZI P64.
Definition QT64_ComputeXYZI {P} `{PointType P} := ComputeXYZI QT64.
Definition XT32_ComputeXYZI {P} `{PointType P} := ComputeXYZI XT32.

(** The parser objects as their callers see them. *)
#[export] Instance spinning_decoder {P} {PT : PointType P} (k : spinning) (timezone : TimeZone)
    (sin_all_angle_ cos_all_angle_ : Z -> f32) (sin32 cos32 atan32 asin32 : f32 -> f32)
  : Decoder P (SpinningParser k) := {|
  general := base;
  with_general := set_base;
  v_DecodePacket host now u f pkt :=
    '(r, p, f) ← DecodePacket (format k) timezone host now (base u) f pkt; Ok (r, set_base p u, f);
  v_ComputeXYZI := ComputeXYZI k sin_all_angle_ cos_all_angle_ sin32 cos32 atan32 asin32;
  v_LoadCorrectionFile fs path u := p ← LoadCorrectionFile fs path (base u); Ok (set_base p u);
  v_LoadCorrectionString block u :=
    s ← c_string block; '(r, p) ← LoadCorrectionString s (base u); Ok (r, set_base p u);
  v_LoadFiretimesFile fs path u := Ok (set_base (GeneralParser.LoadFiretimesFile fs path (base u)) u);
|}.

(** ** Packets *)

(** A packet of a format, with its sections inside the receive buffer. *)
Definition tail_off (W : wire_format) (lasers blocks : Z) : Z := body_off W + block_size W lasers * blocks.

Definition packet_fits (W : wire_format) (buf : list Z) (lasers blocks : Z) (unit_ : f64) : Prop :=
  length buf = 1500%nat /\ byte_list buf /\ rd8 buf 0 = Ok (sob W).1 /\ rd8 buf 1 = Ok (sob W).2 /\
  wf_header W buf = Ok (lasers, blocks, unit_) /\ 0 < blocks /\ tail_off W lasers blocks + tail_size W <= 1500.

(** No firetime file, or one that set an entry for each possible channel. *)
Definition fire_ok (p : GeneralParser) : Prop :=
  get_firetime_file_ p = true -> forall i, 0 <= i < 256 -> exists v, arr_get (firetime_correction_ p) i = Ok (Some v).

(** What the lemmas below need of a format. *)
Record format_ok (W : wire_format) : Prop := {
  ok_body : 0 <= body_off W;
  ok_azimuth : 0 <= azimuth_at W /\ azimuth_at W + 2 <= head_size W;
  ok_chn : 3 <= chn_size W;
  ok_conf o : confidence_at W = Some o -> 0 <= o < chn_size W;
  ok_header buf l b u : byte_list buf -> wf_header W buf = Ok (l, b, u) -> is_u8 l /\ is_u8 b;
  ok_tail buf off : 0 <= off -> off + tail_size W <= Z.of_nat (length buf) -> exists t, wf_tail W buf off = Ok t;
  (* the split test changes the object as the one of Udp1_4Parser does *)
  ok_split az p : match wf_split W az p, IsNeedFrameSplit az p with
    | Ok (_, q), Ok (_, q') => q = q' | Err _, Err _ => True | _, _ => False end;
  ok_split_ext az p q : angles p = angles q ->
    match wf_split W az p, wf_split W az q with Ok (b, _), Ok (b', _) => b = b' | Err _, Err _ => True | _, _ => False end;
  ok_split_repeat az p b q : last_azimuth_ p = az -> wf_split W az p = Ok (b, q) -> b = false;
}.

(** ** Lemmas: the formats *)

Lemma float_split_flag S S_le S_le' S_gt ll l az :
  (float_split_rule S S_le S_gt ll l az).2 = (split_rule S S_le' ll l az).2.
Proof.
  unfold float_split_rule, split_rule. destruct (ll =? -1); [done|].
  set (d := if _ <? _ then _ else _). destruct (d =? 0); [done|].
  set (fl := if _ || _ then _ else _). destruct (fl =? 1); [|by destruct (d <? az - l)].
  by destruct (d <? l - az).
Qed.

Lemma float_split_repeat S S_le S_gt ll az : float_split_rule S S_le S_gt ll az az = (false, None).
Proof.
  pose proof (split_rule_repeat S S_le ll az) as H. revert H. unfold float_split_rule, split_rule.
  destruct (ll =? -1); [done|]. set (d := if _ <? _ then _ else _). destruct (d =? 0); [done|].
  set (fl := if _ || _ then _ else _). destruct (fl =? 1); [by destruct (d <? az - az)|].
  by destruct (d <? az - az).
Qed.

Lemma P40_split_ok az p : match P40_IsNeedFrameSplit az p, IsNeedFrameSplit az p with
  | Ok (_, q), Ok (_, q') => q = q' | Err _, Err _ => True | _, _ => False end.
Proof.
  unfold P40_IsNeedFrameSplit, IsNeedFrameSplit. destruct (to_u16 _) as [S|]; cbn [mbind result_bind]; [|done].
  match goal with |- context [float_split_rule ?a ?b ?c ?d ?e ?f] =>
    pose proof (float_split_flag a b b c d e f) as H; destruct (float_split_rule a b c d e f) as [b1 f1],
    (split_rule a b d e f) as [b2 f2] end. cbn in H. by rewrite H.
Qed.

Lemma P40_split_ext az p q : angles p = angles q ->
  match P40_IsNeedFrameSplit az p, P40_IsNeedFrameSplit az q with
  | Ok (b, _), Ok (b', _) => b = b' | Err _, Err _ => True | _, _ => False end.
Proof.
  unfold angles, P40_IsNeedFrameSplit. intros [= -> -> _ ->]. destruct (to_u16 _); cbn [mbind result_bind]; [|done].
  by destruct (float_split_rule _ _ _ _ _ _).
Qed.

Lemma P40_split_repeat az p b q : last_azimuth_ p = az -> P40_IsNeedFrameSplit az p = Ok (b, q) -> b = false.
Proof.
  intros <-. unfold P40_IsNeedFrameSplit. destruct (to_u16 _); cbn [mbind result_bind]; [|done].
  rewrite float_split_repeat. by intros [= <- _].
Qed.

Lemma Udp1_4_split_repeat az p b q : last_azimuth_ p = az -> IsNeedFrameSplit az p = Ok (b, q) -> b = false.
Proof.
  intros <-. unfold IsNeedFrameSplit. destruct (to_u16 _); cbn [mbind result_bind]; [|done].
  rewrite split_rule_repeat. by intros [= <- _].
Qed.

Lemma Udp1_4_split_ok az p : match IsNeedFrameSplit az p, IsNeedFrameSplit az p with
  | Ok (_, q), Ok (_, q') => q = q' | Err _, Err _ => True | _, _ => False end.
Proof. by destruct (IsNeedFrameSplit az p) as [[]|]. Qed.

Lemma Udp1_4_split_ext az p q : angles p = angles q ->
  match IsNeedFrameSplit az p, IsNeedFrameSplit az q with
  | Ok (b, _), Ok (b', _) => b = b' | Err _, Err _ => True | _, _ => False end.
Proof.
  intros H. pose proof (IsNeedFrameSplit_ext az p q H) as E.
  destruct (IsNeedFrameSplit az p) as [[]|], (IsNeedFrameSplit az q) as [[]|]; naive_solver.
Qed.

(** Reads the fields of a tail one after the other. *)
Ltac read_fields :=
  repeat match goal with
  | |- context [rd8 ?b ?o] => destruct (rd8_in b o) as [? ->]; [lia|]; cbn [mbind result_bind]
  | |- context [rd16 ?b ?o] => unfold rd16 at 1; destruct (rd_le_in 2 b o) as [? ->]; [lia|lia|]; cbn [mbind result_bind]
  | |- context [rd32 ?b ?o] => unfold rd32 at 1; destruct (rd_le_in 4 b o) as [? ->]; [lia|lia|]; cbn [mbind result_bind]
  | |- context [arr_slice ?b ?o ?n] => rewrite (arr_slice_ok b o n) by lia; cbn [mbind result_bind]
  end; eauto.

Lemma tail_L40_ok buf off : 0 <= off -> off + 26 <= Z.of_nat (length buf) -> exists t, tail_L40 buf off = Ok t.
Proof. intros Ho Hl. unfold tail_L40. read_fields. Qed.

Lemma tail_QT_V1_ok buf off : 0 <= off -> off + 28 <= Z.of_nat (length buf) -> exists t, tail_QT_V1 buf off = Ok t.
Proof. intros Ho Hl. unfold tail_QT_V1. read_fields. Qed.

Lemma tail_XT_V1_ok buf off : 0 <= off -> off + 28 <= Z.of_nat (length buf) -> exists t, tail_XT_V1 buf off = Ok t.
Proof. intros Ho Hl. unfold tail_XT_V1. read_fields. Qed.

Lemma header_QT_V1_range buf l b u : byte_list buf -> header_QT_V1 buf = Ok (l, b, u) -> is_u8 l /\ is_u8 b.
Proof. intros Hb. unfold header_QT_V1. intros H. inv_ok. split; eapply rd8_range; eauto. Qed.

Lemma header_L64_range buf l b u : byte_list buf -> header_L64 buf = Ok (l, b, u) -> is_u8 l /\ is_u8 b.
Proof. intros Hb. unfold header_L64. intros H. inv_ok. split; eapply rd8_range; eauto. Qed.

(** The four formats are well-formed. *)
Lemma format_is_ok k : format_ok (format k).
Proof.
  destruct k; constructor;
    cbn [format format_P40 format_P64 format_QT64 format_XT32 sob wf_header body_off head_size azimuth_at chn_size
      confidence_at wf_tail tail_size wf_split];
    unfold tail_L64, header_XT_V1, P64_IsNeedFrameSplit, QT64_IsNeedFrameSplit, XT32_IsNeedFrameSplit;
    try first [exact tail_L40_ok | exact tail_QT_V1_ok | exact tail_XT_V1_ok | exact header_QT_V1_range
      | exact header_L64_range | exact P40_split_ok | exact P40_split_ext | exact P40_split_repeat
      | exact Udp1_4_split_ok | exact Udp1_4_split_ext | exact Udp1_4_split_repeat | lia | done | intros ? [= <-]; lia].
  intros buf l b u _ [= <- <- _]. unfold is_u8. lia.
Qed.

(** ** Lemmas: decoding *)

Section Reads.
Variable W : wire_format.
Hypothesis HW : format_ok W.

Lemma block_size_pos lasers : 0 <= lasers -> head_size W <= block_size W lasers /\ 2 <= head_size W.
Proof. destruct HW as [_ [] ? _ _ _ _ _ _]. intros. unfold block_size. split; [nia|lia]. Qed.

(** The units of a block lie in the block, the blocks in front of the tail. *)
Lemma unit_inside lasers blocks b i : 0 <= b < blocks -> 0 <= i < lasers ->
  let off := body_off W + block_size W lasers * b + head_size W + chn_size W * i in
  0 <= off /\ off + chn_size W <= tail_off W lasers blocks.
Proof.
  intros Hb Hi. destruct HW as [Hbody [Ha Hh] Hc _ _ _ _ _ _]. destruct (block_size_pos lasers) as [Hs _]; [lia|].
  unfold tail_off. assert (chn_size W * (i + 1) <= chn_size W * lasers) by (apply Z.mul_le_mono_nonneg_l; lia).
  assert (0 <= chn_size W * i) by (apply Z.mul_nonneg_nonneg; lia).
  assert (block_size W lasers * (b + 1) <= block_size W lasers * blocks) by (apply Z.mul_le_mono_nonneg_l; lia).
  assert (0 <= block_size W lasers * b) by (apply Z.mul_nonneg_nonneg; lia).
  assert (block_size W lasers = head_size W + chn_size W * lasers) by done. lia.
Qed.

Lemma azimuth_inside lasers blocks b : 0 <= b < blocks -> 0 <= lasers ->
  let off := body_off W + block_size W lasers * b + azimuth_at W in
  0 <= off /\ off + 2 <= tail_off W lasers blocks.
Proof.
  intros Hb Hl. destruct HW as [Hbody [Ha Hh] Hc _ _ _ _ _ _]. destruct (block_size_pos lasers Hl) as [Hs _].
  unfold tail_off. assert (block_size W lasers * (b + 1) <= block_size W lasers * blocks) by (apply Z.mul_le_mono_nonneg_l; lia).
  assert (0 <= block_size W lasers * b) by (apply Z.mul_nonneg_nonneg; lia). lia.
Qed.

Lemma channel_azimuth_ok p a i : fire_ok p -> 0 <= i < 256 -> is_ok (channel_azimuth p a i) = true.
Proof.
  intros Hf Hi. unfold channel_azimuth. destruct (get_firetime_file_ p) eqn:E; [|done].
  destruct (Hf E i Hi) as [v Hv]. unfold GeneralParser.GetFiretimesCorrection. by rewrite Hv.
Qed.

Lemma read_channel_total p buf lasers blocks a b i old :
  fire_ok p -> Z.of_nat (length buf) = 1500 -> tail_off W lasers blocks <= 1500 -> lasers <= 256 ->
  0 <= b < blocks -> 0 <= i < lasers -> is_ok (read_channel W p buf lasers a b i old) = true.
Proof.
  intros Hf Hlen Ht H256 Hb Hi. destruct (unit_inside lasers blocks b i Hb Hi) as [Ho Hl].
  destruct HW as [_ _ Hc Hconf _ _ _ _ _].
  unfold read_channel. set (off := body_off W + _ + _ + _) in *. cbv zeta.
  pose proof (channel_azimuth_ok p a i Hf ltac:(lia)) as Ha. destruct (channel_azimuth p a i) as [az|]; [|done].
  cbn [mbind result_bind].
  unfold rd16. destruct (rd_le_in 2 buf off) as [d ->]; [lia|lia|]. cbn [mbind result_bind].
  destruct (rd8_in buf (off + 2)) as [r ->]; [lia|]. cbn [mbind result_bind].
  destruct (confidence_at W) as [o|] eqn:Eo; [|done]. specialize (Hconf o eq_refl).
  destruct (rd8_in buf (off + o)) as [c ->]; [lia|]. done.
Qed.

(** What a channel that was read holds. *)
Lemma read_channel_spec p buf lasers a b i old d :
  read_channel W p buf lasers a b i old = Ok d ->
  let off := body_off W + block_size W lasers * b + head_size W + chn_size W * i in
  channel_azimuth p a i = Ok (pd_azimuth d) /\ rd16 buf off = Ok (pd_distances d) /\
  rd8 buf (off + 2) = Ok (pd_reflectivities d) /\
  match confidence_at W with
  | Some o => exists c, rd8 buf (off + o) = Ok c /\ pd_confidence d = Some c
  | None => pd_confidence d = old ≫= pd_confidence
  end.
Proof.
  unfold read_channel. cbv zeta. intros H. inv_ok. cbn.
  destruct (confidence_at W); inv_ok; eauto 10.
Qed.

(** A packet has at most 496 points, so a frame has room for it. *)
Lemma fits_points buf lasers blocks unit_ n : packet_fits W buf lasers blocks unit_ ->
  0 <= n < kMaxPacketNumPerFrame -> 0 <= tail_size W ->
  is_u8 lasers /\ is_u8 blocks /\ (n + 1) * (blocks * lasers) <= kMaxPointsNumPerFrame /\
  i32 (u32 (n * blocks * lasers)) = n * blocks * lasers /\ 0 <= n * blocks * lasers.
Proof.
  intros (Hlen & Hbl & _ & _ & Hh & Hb & Hsz) Hn Hts.
  destruct (ok_header W HW _ _ _ _ Hbl Hh) as [HL HB]. unfold is_u8 in *.
  assert (0 <= blocks * lasers) by (apply Z.mul_nonneg_nonneg; lia).
  assert (3 * (blocks * lasers) <= block_size W lasers * blocks).
  { destruct HW as [_ [] Hc _ _ _ _ _ _]. unfold block_size.
    assert (3 * lasers <= chn_size W * lasers) by (apply Z.mul_le_mono_nonneg_r; lia).
    assert ((3 * lasers) * blocks <= (head_size W + chn_size W * lasers) * blocks) by (apply Z.mul_le_mono_nonneg_r; lia). lia. }
  pose proof (ok_body W HW). unfold tail_off, kMaxPointsNumPerFrame, kMaxPointsNumPerPacket, kMaxPacketNumPerFrame in *.
  assert ((n + 1) * (blocks * lasers) <= 5000 * 512) by (apply Z.mul_le_mono_nonneg; lia).
  assert (0 <= n * (blocks * lasers)) by (apply Z.mul_nonneg_nonneg; lia).
  assert (n * blocks * lasers = n * (blocks * lasers)) as -> by lia.
  split; [done|]. split; [done|]. split; [lia|]. split; [|done].
  unfold i32, u32. rewrite (Z.mod_small (n * _)), Z.mod_small by lia. lia.
Qed.

End Reads.

(** The time stamp a packet gets. *)
Definition stamp (timezone : TimeZone) (t : spinning_tail) {P} (f : LidarDecodedFrame P) (pkt : UdpPacket) : Z :=
  if use_timestamp_type f =? 0 then GetMicroLidarTimeU64_2000 timezone (m_u8UTC t) (m_u32Timestamp t)
  else recv_timestamp pkt.

Section Decoded.
Context {P : Type}.
Variable W : wire_format.
Hypothesis HW : format_ok W.
Variable timezone : TimeZone.

(** What is known of a packet that was decoded. *)
Record decoded (host : Z) (p : GeneralParser) (f : LidarDecodedFrame P) (pkt : UdpPacket)
    (lasers blocks : Z) (unit_ : f64) (t : spinning_tail) (az : Z)
    (p1 q p' : GeneralParser) (f' : LidarDecodedFrame P) : Prop := {
  d_loss : exists l, p1 = set_motor (m_u16MotorSpeed t) (wf_dual W t (is_dual_return_ p)) (set_loss l p);
  d_fill : fill_blocks kMaxPointsNumPerFrame (i32 (u32 (packet_num f * blocks * lasers))) blocks lasers
    (read_azimuth W (buffer pkt) lasers) (read_channel W p1 (buffer pkt) lasers) 0 (pointData f) = Ok (az, pointData f');
  d_split : wf_split W az p1 = Ok (scan_complete f', q);
  d_push : p' = push_azimuth az q;
  d_count : packet_num f' = u32 (packet_num f + 1);
  d_same : same_frame f f';
  d_host : host_timestamp f' = host;
  d_stamp : 0 <= packet_num f < kMaxPacketNumPerFrame /\
    sensor_timestamp f' = <[packet_num f := stamp timezone t f pkt]> (sensor_timestamp f);
  d_dims : block_num f' = blocks /\ laser_num f' = lasers /\ per_points_num f' = blocks * lasers /\ distance_unit f' = unit_;
  d_status : (lidar_state f', work_mode f', return_mode f') = wf_status W t (lidar_state f, work_mode f, return_mode f)
}.

Lemma decode_accepts_wire host now p (f : LidarDecodedFrame P) pkt r p' f' :
  get_correction_file_ p = true -> rd8 (buffer pkt) 0 = Ok (sob W).1 -> rd8 (buffer pkt) 1 = Ok (sob W).2 ->
  DecodePacket W timezone host now p f pkt = Ok (r, p', f') ->
  r = 0 /\ exists lasers blocks unit_ t az p1 q,
    wf_header W (buffer pkt) = Ok (lasers, blocks, unit_) /\
    wf_tail W (buffer pkt) (tail_off W lasers blocks) = Ok t /\
    decoded host p f pkt lasers blocks unit_ t az p1 q p' f'.
Proof.
  intros Hc H0 H1. unfold DecodePacket. rewrite Hc, H0, H1. cbn [negb mbind result_bind].
  rewrite !Z.eqb_refl. cbn [negb orb]. intros H. inv_ok. destruct a as [[lasers blocks] unit_]. inv_ok.
  destruct a1 as [az data]. inv_ok. destruct a1 as [sp q]. inv_ok.
  unfold put_timestamp, array_put in E1.
  destruct (Z.leb_spec 0 (packet_num f)), (Z.ltb_spec (packet_num f) kMaxPacketNumPerFrame); cbn [andb] in E1; inv_ok.
  split; [done|]. exists lasers, blocks, unit_, a, az. do 2 eexists. split; [done|]. split; [exact E0|].
  unfold set_status in *.
  destruct (wf_status W a _) as [[state work] ret] eqn:Est.
  cbn [lidar_state work_mode return_mode pointData] in *. 
  constructor; destruct sp; cbn; try done; try (eexists; reflexivity); try (exact E2); try exact E3; try (split; [lia|done]).
Qed.

(** A packet that is refused leaves everything as it is. *)
Lemma decode_refuses_wire host now p (f : LidarDecodedFrame P) pkt r p' f' :
  DecodePacket W timezone host now p f pkt = Ok (r, p', f') ->
  (get_correction_file_ p = true /\ rd8 (buffer pkt) 0 = Ok (sob W).1 /\ rd8 (buffer pkt) 1 = Ok (sob W).2) \/
  (r = -1 /\ p' = p /\ f' = f).
Proof.
  unfold DecodePacket. destruct (get_correction_file_ p); cbn [negb].
  2: { intros H. inv_ok. by right. }
  destruct (rd8 (buffer pkt) 0) as [b0|]; cbn [mbind result_bind]; [|done].
  destruct (rd8 (buffer pkt) 1) as [b1|]; cbn [mbind result_bind]; [|done].
  destruct (Z.eqb_spec b0 (sob W).1), (Z.eqb_spec b1 (sob W).2); cbn [negb orb]; subst; intros H;
    try (by left); right; by inv_ok.
Qed.

End Decoded.

Section Total.
Context {P : Type}.
Variable W : wire_format.
Hypothesis HW : format_ok W.
Hypothesis Htail : 0 <= tail_size W.
Variable timezone : TimeZone.

Lemma wf_split_total az p : start_ok p -> exists b q, wf_split W az p = Ok (b, q).
Proof.
  intros Hs. specialize (Hs az). pose proof (ok_split W HW az p) as H.
  destruct (wf_split W az p) as [[b q]|], (IsNeedFrameSplit az p) as [[b' q']|]; try done. eauto.
Qed.

Lemma wf_split_state az p b q : wf_split W az p = Ok (b, q) -> exists b', IsNeedFrameSplit az p = Ok (b', q).
Proof.
  intros E. pose proof (ok_split W HW az p) as H. rewrite E in H.
  destruct (IsNeedFrameSplit az p) as [[b' q']|]; [|done]. subst q'. eauto.
Qed.

(** The split test sees the angles only, and leaves angles that depend on them
    only. *)
Lemma wf_split_angles az p p0 b q : angles p = angles p0 -> wf_split W az p = Ok (b, q) ->
  exists q0, wf_split W az p0 = Ok (b, q0) /\ angles q = angles q0.
Proof.
  intros Ha E. pose proof (ok_split_ext W HW az p p0 Ha) as H. rewrite E in H.
  destruct (wf_split W az p0) as [[b0 q0]|] eqn:E0; [|done]. subst b0. exists q0. split; [done|].
  destruct (wf_split_state _ _ _ _ E) as [b1 F]. destruct (wf_split_state _ _ _ _ E0) as [b2 F0].
  pose proof (IsNeedFrameSplit_ext az p p0 Ha) as X. rewrite F, F0 in X. apply X.
Qed.

(** A packet that fits is decoded. *)
Lemma decode_total_wire host now p (f : LidarDecodedFrame P) pkt lasers blocks unit_ :
  get_correction_file_ p = true -> fire_ok p -> start_ok p ->
  packet_fits W (buffer pkt) lasers blocks unit_ -> 0 <= packet_num f < kMaxPacketNumPerFrame ->
  exists p' f', DecodePacket W timezone host now p f pkt = Ok (0, p', f').
Proof.
  intros Hc Hf Hs Hfit Hn. destruct (fits_points W HW _ _ _ _ _ Hfit Hn Htail) as (HL & HB & Hmax & Hidx & Hpos).
  destruct Hfit as (Hlen & Hbl & H0 & H1 & Hh & Hb & Hsz). unfold is_u8 in *.
  pose proof (ok_body W HW) as Hbody.
  assert (0 <= tail_off W lasers blocks) as Ht0.
  { unfold tail_off. destruct (block_size_pos W HW lasers); [lia|]. nia. }
  unfold DecodePacket. rewrite Hc, H0, H1. cbn [negb mbind result_bind]. rewrite !Z.eqb_refl. cbn [negb orb].
  rewrite Hh. cbn [mbind result_bind]. fold (tail_off W lasers blocks).
  destruct (ok_tail W HW (buffer pkt) (tail_off W lasers blocks)) as [t ->]; [done|lia|]. cbn [mbind result_bind].
  unfold put_timestamp. rewrite array_put_ok by done. cbn [mbind result_bind].
  set (p1 := set_motor _ _ _). set (f1 := set_status _ _ _ _ _ _ _).
  assert (packet_num f1 = packet_num f) as Hpn by (unfold f1, set_status; by destruct (wf_status W t _) as [[??]?]).
  rewrite Hpn, Hidx.
  edestruct (fill_blocks_ok kMaxPointsNumPerFrame (packet_num f * blocks * lasers) lasers
    (read_azimuth W (buffer pkt) lasers) (read_channel W p1 (buffer pkt) lasers)) as (az & data & ->);
    [lia|lia|done|lia| |].
  { intros b Hbb. unfold read_azimuth, rd16.
    destruct (azimuth_inside W HW lasers blocks b Hbb ltac:(lia)) as [Ho Hl].
    destruct (rd_le_in 2 (buffer pkt) (body_off W + block_size W lasers * b + azimuth_at W)) as [a ->]; [lia|lia|].
    exists a. split; [done|]. intros i old Hi.
    eapply (read_channel_total W HW); [exact Hf|lia| |lia|exact Hbb|exact Hi]. lia. }
  cbn [mbind result_bind].
  destruct (wf_split_total az p1) as (b & q & ->); [by apply (start_ok_ext p)|]. cbn [mbind result_bind]. eauto.
Qed.

End Total.

(** ** The interface *)

Lemma zero_alike_angles p q : setComputePacketNumToZero p = setComputePacketNumToZero q ->
  angles p = angles q /\ get_correction_file_ p = get_correction_file_ q /\
  get_firetime_file_ p = get_firetime_file_ q /\ firetime_correction_ p = firetime_correction_ q.
Proof. unfold angles. intros [=]. repeat split; congruence. Qed.

Lemma fire_ok_ext p q : get_firetime_file_ p = get_firetime_file_ q ->
  firetime_correction_ p = firetime_correction_ q -> fire_ok p -> fire_ok q.
Proof. unfold fire_ok. by intros -> ->. Qed.

Definition spinning_ready {k} (u : SpinningParser k) : Prop :=
  get_correction_file_ (base u) = true /\ fire_ok (base u) /\ start_ok (base u).

Definition spinning_readable (k : spinning) (pkt : UdpPacket) : Prop :=
  exists lasers blocks unit_, packet_fits (format k) (buffer pkt) lasers blocks unit_.

Lemma tail_size_pos k : 0 <= tail_size (format k).
Proof. by destruct k. Qed.

(** What a decoded packet leaves of the parser. *)
Lemma decoded_parser {P} W timezone host p (f : LidarDecodedFrame P) pkt lasers blocks unit_ t az p1 q p' f' :
  format_ok W -> decoded W timezone host p f pkt lasers blocks unit_ t az p1 q p' f' ->
  angles p1 = angles p /\ compute_packet_num p' = compute_packet_num p /\ start_ok p' /\
  get_correction_file_ p' = get_correction_file_ p /\ get_firetime_file_ p' = get_firetime_file_ p /\
  firetime_correction_ p' = firetime_correction_ p /\ last_azimuth_ p' = az.
Proof.
  intros HW [[l ->] _ Hsplit -> _ _ _ _ _ _].
  destruct (wf_split_state W HW _ _ _ _ Hsplit) as [b' E].
  destruct (IsNeedFrameSplit_frame _ _ _ _ E) as (_ & _ & B1 & B2 & _ & B3 & _).
  destruct (push_azimuth_last az q) as (L & _ & C1 & C2 & C3).
  split; [done|]. split; [by rewrite C3, B3|]. split; [by eapply start_ok_push, start_ok_split|].
  split; [by rewrite C1, B1|]. split; [by rewrite C2, B2|]. split; [|done].
  unfold push_azimuth. unfold IsNeedFrameSplit in E. destruct (to_u16 _); cbn [mbind result_bind] in E; [|done].
  destruct (split_rule _ _ _ _ _). apply (inj Ok) in E as [= _ <-]. by destruct (negb _).
Qed.

Lemma each_compute {P} {PT : PointType P} k sinT cosT s32 c32 at32 as32 (u : SpinningParser k) (f : LidarDecodedFrame P) i r u' f' :
  ComputeXYZI k sinT cosT s32 c32 at32 as32 u f i = Ok (r, u', f') ->
  r = 0 /\ u' = set_base (FrameNumAdd (base u)) u /\ f' = set_points (points f') f.
Proof. unfold ComputeXYZI. intros H. inv_ok. done. Qed.

#[export] Instance spinning_laws {P} {PT : PointType P} (k : spinning) (timezone : TimeZone) (sinT cosT : Z -> f32)
    (s32 c32 at32 as32 : f32 -> f32) :
  @DecoderLaws P (SpinningParser k) (spinning_decoder k timezone sinT cosT s32 c32 at32 as32).
Proof.
  pose proof (format_is_ok k) as HW. pose proof (tail_size_pos k) as Hts.
  unshelve econstructor; cbn [general with_general v_DecodePacket v_ComputeXYZI spinning_decoder].
  - exact (@zero_alike P _ (spinning_decoder k timezone sinT cosT s32 c32 at32 as32)).
  - exact spinning_ready.
  - exact (spinning_readable k).
  - done.
  - apply zero_alike_equivalence.
  - intros g. by apply (@zero_alike_reset P _ (spinning_decoder k timezone sinT cosT s32 c32 at32 as32)).
  - intros u v Huv. apply zero_alike_general in Huv; [|done]. destruct (zero_alike_angles _ _ Huv) as (A & B & C & D).
    unfold spinning_ready. cbn in *. rewrite B. split; intros (? & ? & ?); eauto using start_ok_ext, fire_ok_ext.
  - intros host now u f pkt (Hc & Hf & Hs) (l & b & un & Hfit) Hn.
    destruct (decode_total_wire _ HW Hts timezone host now (base u) f pkt l b un Hc Hf Hs Hfit Hn) as (p' & f' & E).
    rewrite E. exists (set_base p' u), f'. split; [done|].
    destruct Hfit as (_ & _ & H0 & H1 & _).
    destruct (decode_accepts_wire _ _ _ _ _ _ _ _ _ _ Hc H0 H1 E) as (_ & ? & ? & ? & ? & ? & ? & ? & _ & _ & Hd).
    destruct (decoded_parser _ _ _ _ _ _ _ _ _ _ _ _ _ _ _ HW Hd) as (_ & _ & S & C & F & FT & _).
    unfold spinning_ready. cbn. rewrite C. eauto using fire_ok_ext.
  - intros host now u f pkt u' f' E. destruct (DecodePacket _ _ _ _ _ _ _) as [[[r0 p'] f0]|] eqn:Ed; cbn [mbind result_bind] in E; [|done].
    apply (inj Ok) in E as [= -> <- <-].
    destruct (decode_refuses_wire _ _ _ _ _ _ _ _ _ _ Ed) as [(Hc & H0 & H1)|(? & _)]; [|done].
    destruct (decode_accepts_wire _ _ _ _ _ _ _ _ _ _ Hc H0 H1 Ed) as (_ & ? & ? & ? & ? & ? & ? & ? & _ & _ & Hd).
    destruct (decoded_parser _ _ _ _ _ _ _ _ _ _ _ _ _ _ _ HW Hd) as (_ & Hn & _).
    destruct Hd as [_ _ _ _ Hcount Hsame Hhost [_ Hst] _ _].
    split; [done|]. split; [done|]. split; [done|]. split; [|done]. rewrite Hst. eexists. apply lookup_insert_eq.
  - intros host now u f pkt r u' f' E Hr. destruct (DecodePacket _ _ _ _ _ _ _) as [[[r0 p'] f0]|] eqn:Ed; cbn [mbind result_bind] in E; [|done].
    apply (inj Ok) in E as [= -> <- <-].
    destruct (decode_refuses_wire _ _ _ _ _ _ _ _ _ _ Ed) as [(Hc & H0 & H1)|(_ & -> & ->)]; [|done].
    by destruct (decode_accepts_wire _ _ _ _ _ _ _ _ _ _ Hc H0 H1 Ed) as (-> & _).
  - intros host now host' now' u f pkt u1 f1 v1 f2 r u2 f3 E1 Hal E2.
    destruct (DecodePacket _ _ host now _ _ _) as [[[r1 p1'] f1']|] eqn:Ed1; cbn [mbind result_bind] in E1; [|done].
    apply (inj Ok) in E1 as [= -> <- <-].
    destruct (DecodePacket _ _ host' now' _ _ _) as [[[r2 p2'] f2']|] eqn:Ed2; cbn [mbind result_bind] in E2; [|done].
    apply (inj Ok) in E2 as [= -> <- <-].
    destruct (decode_refuses_wire _ _ _ _ _ _ _ _ _ _ Ed1) as [(Hc & H0 & H1)|(? & _)]; [|done].
    destruct (decode_accepts_wire _ _ _ _ _ _ _ _ _ _ Hc H0 H1 Ed1) as (_ & l & b & un & t & az & q1 & q2 & Hh & Ht & Hd).
    destruct (decoded_parser _ _ _ _ _ _ _ _ _ _ _ _ _ _ _ HW Hd) as (_ & _ & _ & C & _ & _ & L).
    apply zero_alike_general in Hal; [|done]. destruct (zero_alike_angles _ _ Hal) as (A & B & _). cbn in A, B.
    destruct (decode_accepts_wire _ _ _ _ _ _ _ _ _ _ ltac:(rewrite <-B, C; exact Hc) H0 H1 Ed2)
      as (-> & l' & b' & un' & t' & az' & q1' & q2' & Hh' & Ht' & Hd').
    split; [done|]. rewrite Hh in Hh'. apply (inj Ok) in Hh' as [= <- <- <-].
    destruct (decoded_parser _ _ _ _ _ _ _ _ _ _ _ _ _ _ _ HW Hd') as (A' & _).
    assert (last_azimuth_ q1' = az) as Hl by (unfold angles in *; congruence).
    pose proof (fill_blocks_head _ _ _ _ _ _ _ _ _ _ (d_fill _ _ _ _ _ _ _ _ _ _ _ _ _ _ _ Hd)) as F.
    destruct Hd' as [_ Hfill' Hsplit' _ _ _ _ _ _ _]. apply fill_blocks_head in Hfill'.
    assert (az' = az) as -> by (destruct (0 <? b); [rewrite F in Hfill'; by apply (inj Ok) in Hfill'|congruence]).
    exact (ok_split_repeat _ HW _ _ _ _ Hl Hsplit').
  - intros u f i r u' f' E. destruct (each_compute _ _ _ _ _ _ _ _ _ _ _ _ _ E) as (_ & -> & Hf).
    split; [exact Hf|]. split; [|done].
    by apply (@zero_alike_count P _ (spinning_decoder k timezone sinT cosT s32 c32 at32 as32)).
Defined.

(** ** Properties *)

(** The start angle is a whole number of hundredths of a degree, also for the
    comparison of the backward branch. *)
Definition exact_start (p : GeneralParser) (S : Z) : Prop :=
  start_at p S /\
  forall az, 0 <= az < kCircle -> SFltb (of_Z32 az) (mul32 (frame_start_azimuth_ p) (of_Z32 kResolutionInt)) = (az <? S).

Section Properties.
Context {P : Type}.
Variables (k : spinning) (timezone : TimeZone).

(** C7: a packet of one of the four formats that fits the receive buffer is decoded:
    each channel of each block becomes one point, at its place behind the
    packets before, with the distance, the reflectivity and (PandarXT) the
    confidence of its bytes and the azimuth of its block, moved by the firetime
    of the channel when a firetime file was loaded; no other point changes; the
    packet is counted and stamped with its own time or the time it arrived; and
    the azimuth of the last block goes through the split test, whose verdict is
    [scan_complete]. *)
Theorem spinning_packet_points host now p (f : LidarDecodedFrame P) pkt lasers blocks unit_ :
  get_correction_file_ p = true -> fire_ok p -> start_ok p ->
  packet_fits (format k) (buffer pkt) lasers blocks unit_ -> 0 <= packet_num f < kMaxPacketNumPerFrame ->
  exists p' f' t az, DecodePacket (format k) timezone host now p f pkt = Ok (0, p', f') /\
    packet_num f' = packet_num f + 1 /\ block_num f' = blocks /\ laser_num f' = lasers /\
    wf_tail (format k) (buffer pkt) (tail_off (format k) lasers blocks) = Ok t /\
    sensor_timestamp f' = <[packet_num f := stamp timezone t f pkt]> (sensor_timestamp f) /\
    (forall b i, 0 <= b < blocks -> 0 <= i < lasers ->
      let off := body_off (format k) + block_size (format k) lasers * b + head_size (format k) + chn_size (format k) * i in
      exists d a, pointData f' !! (packet_num f * blocks * lasers + b * lasers + i) = Some d /\
        read_azimuth (format k) (buffer pkt) lasers b = Ok a /\
        channel_azimuth (set_motor (m_u16MotorSpeed t) (is_dual_return_ p) p) a i = Ok (pd_azimuth d) /\
        rd16 (buffer pkt) off = Ok (pd_distances d) /\ rd8 (buffer pkt) (off + 2) = Ok (pd_reflectivities d) /\
        (k = XT32 -> exists c, rd8 (buffer pkt) (off + 3) = Ok c /\ pd_confidence d = Some c)) /\
    (forall j, ~ (packet_num f * blocks * lasers <= j < (packet_num f + 1) * blocks * lasers) ->
      pointData f' !! j = pointData f !! j) /\
    read_azimuth (format k) (buffer pkt) lasers (blocks - 1) = Ok az /\
    exists q, wf_split (format k) az p = Ok (scan_complete f', q) /\ angles p' = angles (push_azimuth az q).
Proof.
  intros Hc Hf Hs Hfit Hn. pose proof (format_is_ok k) as HW. pose proof (tail_size_pos k) as Hts.
  destruct (decode_total_wire _ HW Hts timezone host now p f pkt _ _ _ Hc Hf Hs Hfit Hn) as (p' & f' & E).
  destruct (fits_points _ HW _ _ _ _ _ Hfit Hn Hts) as (HL & HB & Hmax & Hidx & Hpos).
  destruct Hfit as (_ & _ & H0 & H1 & Hh & Hb & _). unfold is_u8 in *.
  destruct (decode_accepts_wire _ _ _ _ _ _ _ _ _ _ Hc H0 H1 E) as (_ & l & b & un & t & az & p1 & q & Hh' & Ht & Hd).
  rewrite Hh in Hh'. apply (inj Ok) in Hh' as [= <- <- <-].
  destruct (decoded_parser _ _ _ _ _ _ _ _ _ _ _ _ _ _ _ HW Hd) as (Ha1 & _).
  destruct Hd as [[l ->] Hfill Hsplit -> Hcount _ _ [_ Hst] (Hbn & Hln & _) _].
  rewrite Hidx in Hfill.
  destruct (fill_blocks_spec _ _ _ _ _ (proj1 HL) _ _ _ _ _ (proj1 HB) Hfill) as (Hout & Hin & Haz).
  destruct (Z.eqb_spec blocks 0); [lia|].
  destruct (wf_split_angles _ HW _ _ _ _ _ Ha1 Hsplit) as (q0 & Hs0 & Hq).
  exists (push_azimuth az q), f', t, az. split; [done|]. split.
  { rewrite Hcount. unfold u32, kMaxPacketNumPerFrame in *. rewrite Z.mod_small; lia. }
  split; [done|]. split; [done|]. split; [done|]. split; [done|]. split; [|split; [|split; [done|]]].
  - intros bb i Hbb Hi. destruct (Hin bb i Hbb Hi) as (a & d & Ea & Ed & Er). exists d, a.
    destruct (read_channel_spec _ _ _ _ _ _ _ _ _ Er) as (E1 & E2 & E3 & E4).
    split; [done|]. split; [done|]. split; [exact E1|]. split; [done|]. split; [done|]. intros ->. exact E4.
  - intros j Hj. apply Hout. intros Hr. apply Hj. lia.
  - exists q0. split; [done|]. by apply push_azimuth_ext.
Qed.

(** Computing a packet gives each of its points the coordinates of its own
    decoded datum, touches no other point, and counts the packet once. *)
Theorem spinning_compute_points {PT : PointType P} sinT cosT s32 c32 at32 as32 (u : SpinningParser k)
    (f : LidarDecodedFrame P) n r u' f' :
  0 <= n -> 0 <= block_num f -> 0 <= laser_num f -> per_points_num f = block_num f * laser_num f ->
  (n + 1) * per_points_num f <= kMaxPointsNumPerFrame ->
  ComputeXYZI k sinT cosT s32 c32 at32 as32 u f n = Ok (r, u', f') ->
  r = 0 /\ u' = set_base (FrameNumAdd (base u)) u /\ f' = set_points (points f') f /\
  (forall j, ~ (n * per_points_num f <= j < (n + 1) * per_points_num f) -> points f' !! j = points f !! j) /\
  (forall b i, 0 <= b < block_num f -> 0 <= i < laser_num f ->
    let j := n * per_points_num f + b * laser_num f + i in
    exists pt, points f' !! j = Some pt /\
      compute_point k sinT cosT s32 c32 at32 as32 u f n i j (points f !! j) = Ok pt).
Proof.
  intros Hn Hb Hl Hp Hm H. destruct (each_compute _ _ _ _ _ _ _ _ _ _ _ _ _ H) as (-> & -> & Hf).
  unfold ComputeXYZI in H. inv_ok. cbn [points set_points].
  destruct (each_point_spec f n _ Hn Hb Hl Hp Hm _ E) as [Hout Hin]. auto.
Qed.

(** For a start angle that is a whole number of hundredths of a degree the four
    split tests are the one of [Udp1_4Parser], in both directions of rotation,
    although two of them compare in floating point where the others compare
    integers. *)
Theorem split_tests_agree az p S :
  exact_start p S -> 0 <= az < kCircle -> wf_split (format k) az p = IsNeedFrameSplit az p.
Proof.
  intros [(Hn & HS & HSr & Hle) Hlt] Haz.
  assert (P40_IsNeedFrameSplit az p = IsNeedFrameSplit az p) as E; [|by destruct k].
  unfold P40_IsNeedFrameSplit, IsNeedFrameSplit. rewrite Hn, HS. cbn [mbind result_bind].
  rewrite Hle, Hlt by done. done.
Qed.

End Properties.

(** The sequence number of a Pandar40 or Pandar64 packet is optional (the
    packets are recognised by 1262 and 1194 bytes, or four more), but the decoders
    read one in any case: from the bytes behind the packet, which an earlier,
    longer datagram left in the receive buffer. *)
Theorem old_sequence_number_outside buf t :
  (wf_tail format_P40 buf (tail_off format_P40 40 10) = Ok t -> rd32 buf 1262 = Ok (m_u32SeqNum t)) /\
  (wf_tail format_P64 buf (tail_off format_P64 64 6) = Ok t -> rd32 buf 1194 = Ok (m_u32SeqNum t)).
Proof.
  split; intros H; cbn [wf_tail format_P40 format_P64] in H; unfold tail_L64, tail_L40 in H; inv_ok; done.
Qed.

(** ** Witnesses *)

(** Two blocks of two channels in the format of UdpP64Parser, and one block of one
    channel in the format of Udp6_1Parser. *)
Definition demo_bytes (l : list Z) : list Z := l ++ replicate (1500 - length l) 0.
Definition demo_P64 : UdpPacket :=
  mk_packet (demo_bytes [0xEE; 0xFF; 2; 2; 0; 4; 0; 0;
    100; 0; 10; 1; 7; 20; 1; 8;   140; 0; 30; 1; 9; 40; 1; 6]) 50 false 0 0 2368.

Lemma spinning_packet_points_witness :
  exists p' f', P64_DecodePacket 0 7 (fun _ => 0) (demo_general true) demo_frame demo_P64 = Ok (0, p', f') /\
    packet_num f' = 1 /\ scan_complete f' = true /\
    exists d, pointData f' !! 3 = Some d /\ pd_distances d = 296 /\ pd_azimuth d = of_Z32 140.
Proof.
  destruct (spinning_packet_points P64 0 7 (fun _ => 0) (demo_general true) demo_frame demo_P64 2 2
    (div32 (of_Z32 4) (of_Z32 1000)))
    as (p' & f' & t & az & E & Hn & _ & _ & _ & _ & Hin & _ & Haz & q & Hs & _).
  - done.
  - done.
  - intros az. unfold IsNeedFrameSplit. change (to_u16 _) with (Ok 0 : result Z).
    cbn [mbind result_bind]. by destruct (split_rule 0 _ _ _ az).
  - unfold packet_fits. repeat split; try reflexivity; try (vm_compute; congruence).
    by apply byte_list_check.
  - vm_compute. split; congruence.
  - exists p', f'. split; [exact E|]. split; [exact Hn|].
    vm_compute in Haz. apply (inj Ok) in Haz as <-. split.
    + assert (match wf_split (format P64) 140 (demo_general true) with Ok (b, _) => b | _ => false end = true) as Hb
        by (vm_compute; reflexivity).
      rewrite Hs in Hb. exact Hb.
    + destruct (Hin 1 1) as (d & a & Hd & Ha & Hz & Hdist & _); [vm_compute; split; congruence..|].
      exists d. split; [exact Hd|]. vm_compute in Ha. apply (inj Ok) in Ha as <-.
      split; apply (inj Ok); [by rewrite <-Hdist|]. by rewrite <-Hz.
Defined.

(** Computing a packet of no points needs no table; one of a point at distance
    zero outside the field of view becomes the zero point. *)
Definition demo_scene : LidarDecodedFrame LidarPointXYZI :=
  set_config 10 20 (set_pointData (<[0 := mk_pdd (of_Z32 100) f_zero 0 5 None None None]> ∅)
    (set_packet_info 7 0 0 0 1 1 f_zero demo_frame)).

Lemma spinning_compute_points_witness :
  exists u' f' pt, P40_ComputeXYZI (fun _ => f_zero) (fun _ => f_zero) id id id id
      (mk_spinning (demo_general false) "") demo_scene 0 = Ok (0, u', f') /\
    points f' !! 0 = Some pt /\ pt = zero_point /\ compute_packet_num (base u') = 1.
Proof.
  destruct (P40_ComputeXYZI (fun _ => f_zero) (fun _ => f_zero) id id id id
      (mk_spinning (demo_general false) "") demo_scene 0) as [[[r u'] f']|] eqn:E; [|vm_compute in E; discriminate E].
  destruct (spinning_compute_points P40 (fun _ => f_zero) (fun _ => f_zero) id id id id
    (mk_spinning (demo_general false) "") demo_scene 0 r u' f') as (-> & -> & _ & _ & Hin);
    [lia|vm_compute; congruence|vm_compute; congruence|reflexivity|vm_compute; congruence|exact E|].
  destruct (Hin 0 0) as (pt & Hpt & Hc); [vm_compute; split; congruence..|].
  exists (set_base (FrameNumAdd (base (mk_spinning (k := P40) (demo_general false) ""))) (mk_spinning (demo_general false) "")), f', pt.
  split; [done|]. split; [exact Hpt|]. split; [|reflexivity]. vm_compute in Hc. by apply (inj Ok) in Hc as <-.
Defined.

Lemma split_tests_agree_witness :
  wf_split (format P40) 140 (demo_general true) = IsNeedFrameSplit 140 (demo_general true).
Proof.
  apply (split_tests_agree P40 140 (demo_general true) 0); [|unfold kCircle; lia].
  split; [exact (demo_start_at true)|]. intros az Haz. change (mul32 _ _) with f_zero.
  rewrite (proj2 (Z.ltb_ge az 0)) by lia. pose proof (of_Z32_nonneg az ltac:(lia)) as H.
  revert H. destruct (of_Z32 az) as [[]|[]| |[] m e]; done.
Defined.
