(* ===== verification/Udp3_2.v ===== *)
(** * Udp3_2: the decoder of PandarQT128

    UdpParser/src/udp3_2_parser.cc and UdpProtocol/udp_protocol_v3_2.h: the
    firetime table by loop, the channel configuration, packets with and without
    confidence bytes.  The header of the protocol is the structure of the 1.4
    header (ProtocolV1_4.v), the split test is the one of UdpP40Parser and the
    coordinates are computed as in Udp3_1Parser (Spinning.v). *)

From Stdlib Require Import Ascii SpecFloat.
From S2P Require Import Spinning Prelude Bytes Text Streams Floats LidarTypes PacketLoss GeneralParser Decoder Calendar.
From S2P Require Import ProtocolV1_4 Firetimes1_4 Udp1_4 Walk LidarTime.
Local Open Scope Z_scope.

(** ** The parser object *)

Definition HS_LIDAR_QT128_LASER_NUM : Z := 128.
Definition HS_LIDAR_QT128_LOOP_NUM : Z := 4.

Record PandarQTChannelConfig : Type := mk_config {
  qc_version : Z * Z;
  qc_laser_num : Z;
  qc_block_num : Z;
  m_vChannelConfigTable : list (list Z);
  m_sHashValue : string;
  m_bIsChannelConfigObtained : option bool;   (* None: nothing has written it *)
}.

(** [qt128_firetime_] is uninitialised until a file was read. *)
Record Udp3_2Parser : Type := mk_udp3_2 {
  base : GeneralParser;
  qt128_firetime_ : option (list (list f32));
  pandarQT_channel_config_ : PandarQTChannelConfig;
}.

Definition set_base (p : GeneralParser) (u : Udp3_2Parser) : Udp3_2Parser :=
  mk_udp3_2 p (qt128_firetime_ u) (pandarQT_channel_config_ u).
Definition set_config (c : PandarQTChannelConfig) (u : Udp3_2Parser) : Udp3_2Parser :=
  mk_udp3_2 (base u) (qt128_firetime_ u) c.

(** ** The firetime file *)

Definition is_EEFF (s : string) : bool := bool_decide (s = "EEFF"%string) || bool_decide (s = "eeff"%string).

(** One pair of a row: firetimes[j][laserId] = std::stof(...); the value of a pair
    with a wrong id is converted too. *)
Definition firetime_pair (row : list string) (t : list (list f32)) (j : Z) : result (list (list f32)) :=
  sid ← arr_get row (j * 2);
  let laserId := atoi sid - 1 in
  sv ← arr_get row (j * 2 + 1);
  v ← stof sv;
  if (0 <=? laserId) && (laserId <? HS_LIDAR_QT128_LASER_NUM) then
    column ← arr_get t j; column ← arr_set column laserId v; arr_set t j column
  else Ok t.

(** A row; [None] when the number of its columns is wrong. *)
Definition firetime_row (loopNum : Z) (line : string) (t : list (list f32)) : result (option (list (list f32))) :=
  let row := tokens comma line in
  if loopNum <=? 0 then Ok (Some t)
  else if Z.of_nat (length row) =? loopNum * 2
  then t ← foldM (firetime_pair row) t (seqZ 0 loopNum); Ok (Some t)
  else Ok None.

(** for (int i = 0; i < HS_LIDAR_QT128_LASER_NUM; i++) *)
Fixpoint firetime_rows (n : nat) (loopNum : Z) (fin : istream) (line : string) (t : list (list f32))
    : result (option (list (list f32))) :=
  match n with
  | O => Ok (Some t)
  | S n =>
      let '(line, fin) := getline newline fin line in
      o ← firetime_row loopNum line t;
      match o with Some t => firetime_rows n loopNum fin line t | None => Ok None end
  end.

Definition zero_table : list (list f32) :=
  replicate (Z.to_nat HS_LIDAR_QT128_LOOP_NUM) (replicate (Z.to_nat HS_LIDAR_QT128_LASER_NUM) f_zero).

Definition LoadFiretimesString (content : string) (u : Udp3_2Parser) : result (Z * Udp3_2Parser) :=
  let '(line, fin) := getline newline (mk_stream content true) EmptyString in
  first ← arr_get (tokens comma line) 0;
  if is_EEFF first then
    let '(line, fin) := getline newline fin line in
    s ← arr_get (tokens comma line) 3;
    let loopNum := atoi s in
    if HS_LIDAR_QT128_LOOP_NUM <? loopNum then Ok (-1, u)
    else
      let '(line, fin) := getline newline fin line in
      o ← firetime_rows (Z.to_nat HS_LIDAR_QT128_LASER_NUM) loopNum fin line zero_table;
      match o with
      | Some t =>
          Ok (0, mk_udp3_2 (set_firetimes (firetime_correction_ (base u)) true (base u)) (Some t)
                   (pandarQT_channel_config_ u))
      | None => Ok (-1, u)
      end
  else Ok (-1, u).

(** The buffer of the file is handed on as a C string, as in [LoadCorrectionFile]. *)
Definition LoadFiretimesFile (fs : string -> option string) (path : string) (u : Udp3_2Parser)
    : result Udp3_2Parser :=
  match fs path with
  | Some buffer => s ← c_string buffer; '(_, u) ← LoadFiretimesString s u; Ok u
  | None => Ok u
  end.

(** ** The channel configuration *)

(** m_vChannelConfigTable[j][i] = std::stoi(ChannelLine[j]); *)
Definition config_cell (row : list string) (i : Z) (t : list (list Z)) (j : Z) : result (list (list Z)) :=
  s ← arr_get row j;
  v ← stoi s;
  column ← arr_get t j; column ← arr_set column i v; arr_set t j column.

Fixpoint config_rows (n : nat) (i loop_num : Z) (fin : istream) (line : string) (t : list (list Z))
    : result (option (string * istream) * list (list Z)) :=
  match n with
  | O => Ok (Some (line, fin), t)
  | S n =>
      let '(line, fin) := getline newline fin line in
      let row := tokens comma line in
      if loop_num <=? 0 then config_rows n (i + 1) loop_num fin line t
      else if Z.of_nat (length row) =? loop_num then
        t ← foldM (config_cell row i) t (seqZ 0 loop_num);
        config_rows n (i + 1) loop_num fin line t
      else Ok (None, t)
  end.

(** A configuration is marked obtained only at the end of a file; numbers that do
    not convert leave the function by an exception. *)
Definition LoadChannelConfigString (content : string) (u : Udp3_2Parser) : result (Z * Udp3_2Parser) :=
  let c := pandarQT_channel_config_ u in
  let fail lasers blocks ver t :=
    Ok (-1, set_config (mk_config ver lasers blocks t (m_sHashValue c) (Some false)) u) in
  let '(line, ifs) := getline newline (mk_stream content true) EmptyString in
  let versionLine := tokens comma line in
  v0 ← arr_get versionLine 0;
  if is_EEFF v0 then
    s1 ← arr_get versionLine 1; major ← stoi s1;
    s2 ← arr_get versionLine 2; minor ← stoi s2;
    let ver := (u8 major, u8 minor) in
    let '(line, ifs) := getline newline ifs line in
    s1 ← arr_get (tokens comma line) 1; lasers ← stoi s1;
    s3 ← arr_get (tokens comma line) 3; blocks ← stoi s3;
    let laser_num := u8 lasers in
    let block_num := u8 blocks in
    if (laser_num <=? 0) || (block_num <=? 0) then fail laser_num block_num ver (m_vChannelConfigTable c)
    else
      let '(line, ifs) := getline newline ifs line in
      let loop_num := Z.of_nat (length (tokens comma line)) in
      let t := map (vec_resize 0 laser_num) (vec_resize [] loop_num (m_vChannelConfigTable c)) in
      '(o, t) ← config_rows (Z.to_nat laser_num) 0 loop_num ifs line t;
      match o with
      | Some (line, ifs) =>
          let '(line, _) := getline newline ifs line in
          Ok (0, set_config (mk_config ver laser_num block_num t line (Some true)) u)
      | None => fail laser_num block_num ver t
      end
  else fail (qc_laser_num c) (qc_block_num c) (qc_version c) (m_vChannelConfigTable c).

Definition LoadChannelConfigFile (fs : string -> option string) (path : string) (u : Udp3_2Parser)
    : result Udp3_2Parser :=
  match fs path with
  | Some buffer => s ← c_string buffer; '(_, u) ← LoadChannelConfigString s u; Ok u
  | None => Ok u
  end.

(** ** Packets *)

Definition HasSelfDefine : HS_LIDAR_HEADER_ME_V4 -> bool := has 0x40.

(** The offset of the tail: blocks, checksum, functional safety. *)
Definition tail_off (h : HS_LIDAR_HEADER_ME_V4) : Z :=
  12 + block_size h * GetBlockNum h + sizeof_CRC + (if HasFuncSafety h then sizeof_FUNC_SAFETY else 0).

Record HS_LIDAR_TAIL_QT_V2 : Set := mk_tail_qt {
  qt_ModeFlag : Z; qt_ReturnMode : Z; qt_MotorSpeed : Z; qt_UTC : list Z; qt_Timestamp : Z }.

Definition tail_QT_V2 (buf : list Z) (off : Z) : result HS_LIDAR_TAIL_QT_V2 :=
  mf ← rd8 buf (off + 5); rm ← rd8 buf (off + 12); ms ← rd16 buf (off + 13);
  utc ← arr_slice buf (off + 15) 6; ts ← rd32 buf (off + 21);
  Ok (mk_tail_qt mf rm ms utc ts).

(** return qt128_firetime_[loopIndex][laserId] * speed * 6E-6; *)
Definition GetFiretimesCorrection (u : Udp3_2Parser) (laserId : Z) (speed : f64) (loopIndex : Z) : result f64 :=
  t ← of_option Uninitialised (qt128_firetime_ u);
  column ← arr_get (A := list f32) t loopIndex;
  v ← arr_get (A := f32) column laserId;
  Ok (mul64 (mul64 v speed) (lit64 6 6)).

(** (ModeFlag + (i / ((ReturnMode < 0x39) ? 1 : 2)) + 1) % 2 *)
Definition loop_index (t : HS_LIDAR_TAIL_QT_V2) (i : Z) : Z :=
  (qt_ModeFlag t + i / (if qt_ReturnMode t <? 0x39 then 1 else 2) + 1) mod 2.

(** The laser of channel [j] of block [i]: the length of the column is compared
    with the block number. *)
Definition laser_id (c : PandarQTChannelConfig) (h : HS_LIDAR_HEADER_ME_V4) (loopIndex i j : Z) : result Z :=
  if HasSelfDefine h then
    got ← of_option Uninitialised (m_bIsChannelConfigObtained c);
    if got : bool then
      column ← arr_get (m_vChannelConfigTable c) loopIndex;
      if i <? Z.of_nat (length column) then v ← arr_get column j; Ok (v - 1) else Ok j
    else Ok j
  else Ok j.

Definition channel_azimuth (u : Udp3_2Parser) (t : HS_LIDAR_TAIL_QT_V2) (u16Azimuth laserId loopIndex : Z) : result f32 :=
  if get_firetime_file_ (base u) then
    c ← GetFiretimesCorrection u laserId (of_Z64 (qt_MotorSpeed t)) loopIndex;
    Ok (to32 (add64 (of_Z64 u16Azimuth) (mul64 (mul64 (of_Z64 (rotation_flag (base u))) c) (of_Z64 100))))
  else Ok (of_Z32 u16Azimuth).

Definition read_azimuth (h : HS_LIDAR_HEADER_ME_V4) (buf : list Z) (i : Z) : result Z := rd16 buf (12 + block_size h * i).

Definition read_channel (u : Udp3_2Parser) (h : HS_LIDAR_HEADER_ME_V4) (t : HS_LIDAR_TAIL_QT_V2) (buf : list Z)
    (u16Azimuth i j : Z) (old : option PointDecodeData) : result PointDecodeData :=
  let pChnUnit := 12 + block_size h * i + sizeof_AZIMUTH + unit_size h * j in
  laserId ← laser_id (pandarQT_channel_config_ u) h (loop_index t i) i j;
  az ← channel_azimuth u t u16Azimuth laserId (loop_index t i);
  dist ← rd16 buf pChnUnit;
  refl ← rd8 buf (pChnUnit + 2);
  conf ← (if HasConfidenceLevel h then c ← rd8 buf (pChnUnit + 3); Ok (Some c) else Ok (old ≫= pd_confidence));
  Ok (mk_pdd az (default f_zero (pd_elevation <$> old)) dist refl conf (old ≫= pd_chn_index) (old ≫= pd_mirror_index)).

Definition Udp3_2_IsNeedFrameSplit : Z -> GeneralParser -> result (bool * GeneralParser) := P40_IsNeedFrameSplit.

Section Decode.
Context {P : Type}.
Variable timezone : TimeZone.

(** Only the packets with confidence go through the loss tools and get the
    host's time. *)
Definition count_packet (now : nat -> Z) (h : HS_LIDAR_HEADER_ME_V4) (t : HS_LIDAR_TAIL_QT_V2) (buf : list Z)
    (p : GeneralParser) : result GeneralParser :=
  if HasConfidenceLevel h then
    p ← (if HasSeqNum h then seq ← rd32 buf (tail_off h + sizeof_TAIL); Ok (set_loss (CalPktLoss now seq (loss_ p)) p)
         else Ok p);
    Ok (set_loss (CalPktTimeLoss now (GetMicroLidarTimeU64_2000 timezone (qt_UTC t) (qt_Timestamp t)) (loss_ p)) p)
  else Ok p.

Definition DecodePacket (host : Z) (now : nat -> Z) (u : Udp3_2Parser) (frame : LidarDecodedFrame P)
    (pkt : UdpPacket) : result (Z * Udp3_2Parser * LidarDecodedFrame P) :=
  if negb (get_correction_file_ (base u)) then Ok (-1, u, frame)
  else
    let buf := buffer pkt in
    b0 ← rd8 buf 0;
    b1 ← rd8 buf 1;
    if negb (b0 =? 0xEE) || negb (b1 =? 0xFF) then Ok (-1, u, frame)
    else
      h ← header_cast buf header_off;
      t ← tail_QT_V2 buf (tail_off h);
      p ← count_packet now h t buf (base u);
      frame ← put_timestamp (packet_num frame)
        (if use_timestamp_type frame =? 0 then GetMicroLidarTimeU64_2000 timezone (qt_UTC t) (qt_Timestamp t)
         else recv_timestamp pkt) frame;
      let p := set_motor (qt_MotorSpeed t) (is_dual_return_ p) p in
      let frame := set_packet_info (if HasConfidenceLevel h then host else host_timestamp frame) (qt_MotorSpeed t)
        (work_mode frame) (qt_ReturnMode t) (GetBlockNum h) (GetLaserNum h)
        (div32 (of_Z32 (m_u8DistUnit h)) (of_Z32 1000)) frame in
      let index := i32 (u32 (packet_num frame * GetBlockNum h * GetLaserNum h)) in
      '(u16Azimuth, data) ← fill_blocks kMaxPointsNumPerFrame index (GetBlockNum h) (GetLaserNum h)
        (read_azimuth h buf) (read_channel (set_base p u) h t buf) 0 (pointData frame);
      let frame := set_pointData data frame in
      '(split, p) ← Udp3_2_IsNeedFrameSplit u16Azimuth p;
      let frame := if split : bool then set_scan_complete true frame else frame in
      Ok (0, set_base (push_azimuth u16Azimuth p) u, set_counts (u32 (packet_num frame + 1)) (points_num frame) frame).

(** The body of the loops is the one of [Udp3_1Parser::ComputeXYZI]. *)
Definition ComputeXYZI {PT : PointType P} (sinT cosT : Z -> f32) (s32 c32 at32 as32 : f32 -> f32)
    (u : Udp3_2Parser) (frame : LidarDecodedFrame P) (packet_index : Z)
    : result (Z * Udp3_2Parser * LidarDecodedFrame P) :=
  pts ← each_point frame packet_index (fun _ i =>
    Spinning.compute_point QT64 sinT cosT s32 c32 at32 as32 (mk_spinning (base u) EmptyString) frame packet_index i);
  Ok (0, set_base (FrameNumAdd (base u)) u, set_points pts frame).

End Decode.

(** ** Lemmas: the firetime file *)

Definition table_shape (t : list (list f32)) : Prop :=
  length t = 4%nat /\ Forall (fun c => length c = 128%nat) t.

Lemma zero_table_shape : table_shape zero_table.
Proof. split; [done|]. apply Forall_replicate. apply length_replicate. Qed.

Lemma firetime_pair_shape row t j t' : table_shape t -> firetime_pair row t j = Ok t' -> table_shape t'.
Proof.
  intros [Hl Hf] H. unfold firetime_pair in H. inv_ok.
  destruct (_ && _) in H; inv_ok; [|by split].
  apply arr_set_inv in H as [_ ->]. apply arr_get_ok in E2 as [_ Hc]. apply arr_set_inv in E3 as [_ ->].
  split; [by rewrite length_insert|]. apply Forall_insert; [done|]. rewrite length_insert.
  rewrite Forall_lookup in Hf. by apply (Hf _ _ Hc).
Qed.

Lemma firetime_row_shape n line t t' : table_shape t -> firetime_row n line t = Ok (Some t') -> table_shape t'.
Proof.
  unfold firetime_row. intros Ht H. destruct (n <=? 0); [by inv_ok|]. destruct (_ =? _); [|by inv_ok].
  inv_ok. revert Ht E. apply foldM_invariant. intros b j b' _ Hb E. by eapply firetime_pair_shape.
Qed.

Lemma firetime_rows_shape n loopNum : forall fin line t t', table_shape t ->
  firetime_rows n loopNum fin line t = Ok (Some t') -> table_shape t'.
Proof.
  induction n as [|n IH]; intros fin line t t' Ht; cbn [firetime_rows]; [by intros [= <-]|].
  destruct (getline newline fin line) as [l f]. intros H. inv_ok. destruct a as [t1|]; [|by inv_ok].
  eapply IH; [|exact H]. by eapply firetime_row_shape.
Qed.

(** ** Lemmas: decoding *)

(** The packet numbers a loaded configuration can be used for. *)
Definition config_ok (c : PandarQTChannelConfig) (h : HS_LIDAR_HEADER_ME_V4) : Prop :=
  HasSelfDefine h = true ->
  m_bIsChannelConfigObtained c = Some false \/
  m_bIsChannelConfigObtained c = Some true /\
  forall k, 0 <= k < 2 -> exists column, arr_get (m_vChannelConfigTable c) k = Ok column /\
    GetLaserNum h <= Z.of_nat (length column) /\ Forall (fun v => 1 <= v <= 128) column.

Definition fire_table_ok (u : Udp3_2Parser) : Prop :=
  get_firetime_file_ (base u) = true -> exists t, qt128_firetime_ u = Some t /\ table_shape t.

Lemma laser_id_ok c h k i j : config_ok c h -> 0 <= k < 2 -> 0 <= j < GetLaserNum h -> GetLaserNum h <= 128 ->
  exists v, laser_id c h k i j = Ok v /\ 0 <= v < 128.
Proof.
  intros Hc Hk Hj Hl. unfold laser_id. destruct (HasSelfDefine h) eqn:E; [|exists j; split; [done|lia]].
  destruct (Hc E) as [->|[-> Hcol]]; cbn [of_option mbind result_bind]; [exists j; split; [done|lia]|].
  destruct (Hcol k Hk) as (col & -> & Hlen & Hf). cbn [mbind result_bind].
  destruct (_ <? _); [|exists j; split; [done|lia]].
  destruct (arr_get_in col j) as [v Ev]; [lia|]. rewrite Ev. cbn [mbind result_bind].
  exists (v - 1). split; [done|]. apply arr_get_ok in Ev as [_ Ev]. rewrite Forall_lookup in Hf.
  specialize (Hf _ _ Ev). lia.
Qed.

Lemma channel_azimuth_total u t a v k : fire_table_ok u -> 0 <= v < 128 -> 0 <= k < 2 ->
  is_ok (channel_azimuth u t a v k) = true.
Proof.
  intros Hf Hv Hk. unfold channel_azimuth. destruct (get_firetime_file_ (base u)) eqn:E; [|done].
  destruct (Hf E) as (tb & Ht & Hlen & Hcol). unfold GetFiretimesCorrection. rewrite Ht. cbn [of_option mbind result_bind].
  destruct (arr_get_in (A := list f32) tb k) as [col Ec]; [lia|]. rewrite Ec. cbn [mbind result_bind].
  apply arr_get_ok in Ec as [_ Ec]. rewrite Forall_lookup in Hcol. specialize (Hcol _ _ Ec).
  destruct (arr_get_in (A := f32) col v) as [x Ex]; [lia|]. by rewrite Ex.
Qed.

(** A packet with its sections inside the receive buffer. *)
Definition packet_fits (buf : list Z) (h : HS_LIDAR_HEADER_ME_V4) : Prop :=
  length buf = 1500%nat /\ byte_list buf /\ rd8 buf 0 = Ok 0xEE /\ rd8 buf 1 = Ok 0xFF /\
  header_cast buf header_off = Ok h /\ 0 < GetBlockNum h /\ tail_off h + sizeof_TAIL + sizeof_SEQ_NUM <= 1500.

Lemma tail_QT_V2_ok buf off : 0 <= off -> off + 26 <= Z.of_nat (length buf) -> exists t, tail_QT_V2 buf off = Ok t.
Proof. intros Ho Hl. unfold tail_QT_V2. read_fields. Qed.

Lemma loop_index_range t i : 0 <= loop_index t i < 2.
Proof. unfold loop_index. apply Z.mod_pos_bound. lia. Qed.

Lemma unit_in h b i : 0 <= b < GetBlockNum h -> 0 <= i < GetLaserNum h ->
  let off := 12 + block_size h * b + sizeof_AZIMUTH + unit_size h * i in
  0 <= off /\ off + unit_size h <= tail_off h /\ 12 + block_size h * b + 2 <= tail_off h /\ 0 <= block_size h * b.
Proof.
  intros Hb Hi. destruct (channel_bounds h b i Hb Hi) as [H1 H2].
  assert (block_size h = sizeof_AZIMUTH + unit_size h * GetLaserNum h) as Hs by done. pose proof (unit_size_pos h).
  assert (0 <= unit_size h * i) by (apply Z.mul_nonneg_nonneg; lia).
  assert (0 <= unit_size h * GetLaserNum h) by (apply Z.mul_nonneg_nonneg; lia).
  assert (0 <= block_size h * b) by (unfold sizeof_AZIMUTH in *; apply Z.mul_nonneg_nonneg; lia).
  unfold tail_off, sizeof_CRC, sizeof_FUNC_SAFETY, sizeof_AZIMUTH in *.
  destruct (HasFuncSafety h); lia.
Qed.

Lemma qt_read_channel_total u h t buf a b j old :
  fire_table_ok u -> config_ok (pandarQT_channel_config_ u) h -> GetLaserNum h <= 128 ->
  length buf = 1500%nat -> tail_off h <= 1500 -> 0 <= b < GetBlockNum h -> 0 <= j < GetLaserNum h ->
  is_ok (read_channel u h t buf a b j old) = true.
Proof.
  intros Hf Hc Hl Hlen Ht Hb Hj. destruct (unit_in h b j Hb Hj) as (Ho & Hu & _). unfold read_channel. cbv zeta.
  destruct (laser_id_ok _ h (loop_index t b) b j Hc (loop_index_range t b) Hj Hl) as (v & -> & Hv). cbn [mbind result_bind].
  pose proof (channel_azimuth_total u t a v _ Hf Hv (loop_index_range t b)) as Ha.
  destruct (channel_azimuth _ _ _ _ _); [|done]. cbn [mbind result_bind].
  set (off := 12 + _ + _ + _) in *. pose proof (unit_size_pos h).
  unfold rd16. destruct (rd_le_in 2 buf off) as [d ->]; [lia|lia|]. cbn [mbind result_bind].
  destruct (rd8_in buf (off + 2)) as [r ->]; [lia|]. cbn [mbind result_bind].
  unfold unit_size, sizeof_CHN_UNIT in *. destruct (HasConfidenceLevel h); [|done].
  destruct (rd8_in buf (off + 3)) as [c ->]; [lia|]. done.
Qed.

Lemma qt_read_channel_spec u h t buf a b j old d : read_channel u h t buf a b j old = Ok d ->
  let off := 12 + block_size h * b + sizeof_AZIMUTH + unit_size h * j in
  (exists v, laser_id (pandarQT_channel_config_ u) h (loop_index t b) b j = Ok v /\
             channel_azimuth u t a v (loop_index t b) = Ok (pd_azimuth d)) /\
  rd16 buf off = Ok (pd_distances d) /\ rd8 buf (off + 2) = Ok (pd_reflectivities d) /\
  (HasConfidenceLevel h = true -> exists c, rd8 buf (off + 3) = Ok c /\ pd_confidence d = Some c).
Proof.
  unfold read_channel. cbv zeta. intros H. inv_ok. cbn.
  split; [eauto|]. split; [done|]. split; [done|]. intros Hc. rewrite Hc in E3. inv_ok. eauto.
Qed.

(** A packet has at most 496 points. *)
Lemma fits_points_qt buf h n : packet_fits buf h -> 0 <= n < kMaxPacketNumPerFrame ->
  is_u8 (GetLaserNum h) /\ is_u8 (GetBlockNum h) /\
  (n + 1) * (GetBlockNum h * GetLaserNum h) <= kMaxPointsNumPerFrame /\ 0 <= tail_off h /\
  i32 (u32 (n * GetBlockNum h * GetLaserNum h)) = n * GetBlockNum h * GetLaserNum h /\
  0 <= n * GetBlockNum h * GetLaserNum h.
Proof.
  intros (_ & Hbl & _ & _ & Hh & Hb & Hsz) Hn. destruct (header_cast_range _ _ _ Hbl Hh) as (HL & HB & _).
  unfold is_u8, GetLaserNum, GetBlockNum in *. pose proof (unit_size_pos h).
  assert (0 <= m_u8BlockNum h * m_u8LaserNum h) by (apply Z.mul_nonneg_nonneg; lia).
  assert (3 * (m_u8BlockNum h * m_u8LaserNum h) <= block_size h * m_u8BlockNum h).
  { unfold block_size, GetLaserNum, sizeof_AZIMUTH.
    assert (3 * m_u8LaserNum h <= unit_size h * m_u8LaserNum h) by (apply Z.mul_le_mono_nonneg_r; lia).
    assert ((3 * m_u8LaserNum h) * m_u8BlockNum h <= (2 + unit_size h * m_u8LaserNum h) * m_u8BlockNum h)
      by (apply Z.mul_le_mono_nonneg_r; lia). lia. }
  assert (16 + block_size h * m_u8BlockNum h <= tail_off h).
  { unfold tail_off, sizeof_CRC, sizeof_FUNC_SAFETY, GetBlockNum. destruct (HasFuncSafety h); lia. }
  unfold kMaxPointsNumPerFrame, kMaxPointsNumPerPacket, kMaxPacketNumPerFrame, sizeof_TAIL, sizeof_SEQ_NUM in *.
  assert ((n + 1) * (m_u8BlockNum h * m_u8LaserNum h) <= 5000 * 512) by (apply Z.mul_le_mono_nonneg; lia).
  assert (0 <= n * (m_u8BlockNum h * m_u8LaserNum h)) by (apply Z.mul_nonneg_nonneg; lia).
  assert (n * m_u8BlockNum h * m_u8LaserNum h = n * (m_u8BlockNum h * m_u8LaserNum h)) as -> by lia.
  repeat split; try lia. unfold i32, u32. rewrite (Z.mod_small (n * _)), Z.mod_small by lia. lia.
Qed.

Lemma count_packet_shape timezone now h t buf p p' : count_packet timezone now h t buf p = Ok p' ->
  exists l, p' = set_loss l p /\ (HasConfidenceLevel h = false -> l = loss_ p).
Proof.
  unfold count_packet. destruct (HasConfidenceLevel h).
  - destruct (HasSeqNum h); intros H; inv_ok; eexists; split; [reflexivity|done|reflexivity|done].
  - intros [= <-]. exists (loss_ p). split; [by destruct p|done].
Qed.

Section Qt.
Context {P : Type}.
Variable timezone : TimeZone.

(** A packet that fits is decoded. *)
Lemma qt_decode_ok host now u (f : LidarDecodedFrame P) pkt h :
  get_correction_file_ (base u) = true -> fire_table_ok u -> config_ok (pandarQT_channel_config_ u) h ->
  GetLaserNum h <= 128 -> start_ok (base u) -> packet_fits (buffer pkt) h ->
  0 <= packet_num f < kMaxPacketNumPerFrame ->
  exists t l az data b q,
    tail_QT_V2 (buffer pkt) (tail_off h) = Ok t /\ (HasConfidenceLevel h = false -> l = loss_ (base u)) /\
    let p1 := set_motor (qt_MotorSpeed t) (is_dual_return_ (base u)) (set_loss l (base u)) in
    fill_blocks kMaxPointsNumPerFrame (packet_num f * GetBlockNum h * GetLaserNum h) (GetBlockNum h) (GetLaserNum h)
      (read_azimuth h (buffer pkt)) (read_channel (set_base p1 u) h t (buffer pkt)) 0 (pointData f) = Ok (az, data) /\
    Udp3_2_IsNeedFrameSplit az p1 = Ok (b, q) /\
    exists f', DecodePacket timezone host now u f pkt = Ok (0, set_base (push_azimuth az q) u, f') /\
      pointData f' = data /\ scan_complete f' = b /\ packet_num f' = packet_num f + 1 /\
      host_timestamp f' = (if HasConfidenceLevel h then host else host_timestamp f) /\
      sensor_timestamp f' = <[packet_num f := if use_timestamp_type f =? 0
        then GetMicroLidarTimeU64_2000 timezone (qt_UTC t) (qt_Timestamp t) else recv_timestamp pkt]> (sensor_timestamp f).
Proof.
  intros Hc Hf Hcfg H128 Hs Hfit Hn. destruct (fits_points_qt _ _ _ Hfit Hn) as (HL & HB & Hmax & Ht0 & Hidx & Hpos).
  destruct Hfit as (Hlen & Hbl & H0 & H1 & Hh & Hb & Hsz). unfold is_u8, sizeof_TAIL, sizeof_SEQ_NUM in *.
  destruct (tail_QT_V2_ok (buffer pkt) (tail_off h)) as [t Et]; [done|lia|].
  unfold DecodePacket. rewrite Hc, H0, H1. cbn [negb mbind result_bind]. rewrite !Z.eqb_refl. cbn [negb orb].
  rewrite Hh. cbn [mbind result_bind]. rewrite Et. cbn [mbind result_bind].
  assert (exists p, count_packet timezone now h t (buffer pkt) (base u) = Ok p) as [p Ep].
  { unfold count_packet. destruct (HasConfidenceLevel h); [|eauto]. destruct (HasSeqNum h); [|cbn; eauto].
    unfold rd32, sizeof_TAIL. destruct (rd_le_in 4 (buffer pkt) (tail_off h + 26)) as [s ->]; [lia|lia|]. cbn. eauto. }
  rewrite Ep. cbn [mbind result_bind]. destruct (count_packet_shape _ _ _ _ _ _ _ Ep) as (l & -> & Hl).
  unfold put_timestamp. rewrite array_put_ok by done. cbn [mbind result_bind].
  set (p1 := set_motor _ _ _). cbn [packet_num set_packet_info pointData]. rewrite Hidx.
  edestruct (fill_blocks_ok kMaxPointsNumPerFrame (packet_num f * GetBlockNum h * GetLaserNum h) (GetLaserNum h)
    (read_azimuth h (buffer pkt)) (read_channel (set_base p1 u) h t (buffer pkt)) ltac:(lia) (GetBlockNum h) 0 (pointData f))
    as (az & data & Efill); [lia|done|lia| |].
  { intros b Hbb. unfold read_azimuth, rd16.
    assert (0 <= 12 + block_size h * b /\ 12 + block_size h * b + 2 <= 1500) as [A B].
    { destruct (Z.eq_dec (GetLaserNum h) 0) as [E|].
      - assert (block_size h = 2) as E2 by (unfold block_size, sizeof_AZIMUTH; lia).
        unfold tail_off, sizeof_CRC, sizeof_FUNC_SAFETY in *. rewrite E2 in *. destruct (HasFuncSafety h); lia.
      - destruct (unit_in h b 0) as (_ & _ & ? & ?); lia. }
    destruct (rd_le_in 2 (buffer pkt) (12 + block_size h * b)) as [a ->]; [lia|lia|].
    exists a. split; [done|]. intros i old Hi. apply qt_read_channel_total; (done || lia). }
  rewrite Efill. cbn [mbind result_bind].
  assert (start_ok p1) as Hs1 by by apply (start_ok_ext (base u)).
  specialize (Hs1 az). pose proof (P40_split_ok az p1) as Hsp.
  destruct (P40_IsNeedFrameSplit az p1) as [[b q]|] eqn:Esp; [|by destruct (IsNeedFrameSplit az p1)].
  unfold Udp3_2_IsNeedFrameSplit. rewrite Esp. cbn [mbind result_bind].
  exists t, l, az, data, b, q. split; [done|]. split; [done|]. cbv zeta. fold p1. split; [exact Efill|]. split; [exact Esp|].
  eexists. split; [reflexivity|]. cbn. split; [by destruct b|]. split; [by destruct b|].
  split; [|split; [by destruct b|by destruct b]].
  replace (packet_num _) with (packet_num f) by by destruct b. unfold u32, kMaxPacketNumPerFrame in *.
  rewrite Z.mod_small; lia.
Qed.

End Qt.

(** ** Properties *)

Section Properties.
Context {P : Type}.
Variable timezone : TimeZone.

(** A packet that fits the receive buffer is decoded: each channel of each block
    becomes one point with the distance and the reflectivity of its bytes (and
    the confidence, when the packet has them) and the azimuth of its block, moved
    by the firetime of the laser the channel configuration names; no other point
    changes. *)
Theorem qt_packet_points host now u (f : LidarDecodedFrame P) pkt h :
  get_correction_file_ (base u) = true -> fire_table_ok u -> config_ok (pandarQT_channel_config_ u) h ->
  GetLaserNum h <= 128 -> start_ok (base u) -> packet_fits (buffer pkt) h ->
  0 <= packet_num f < kMaxPacketNumPerFrame ->
  exists u' f' t, DecodePacket timezone host now u f pkt = Ok (0, u', f') /\ packet_num f' = packet_num f + 1 /\
    tail_QT_V2 (buffer pkt) (tail_off h) = Ok t /\
    (forall b j, 0 <= b < GetBlockNum h -> 0 <= j < GetLaserNum h ->
      let off := 12 + block_size h * b + sizeof_AZIMUTH + unit_size h * j in
      exists d a v, pointData f' !! (packet_num f * GetBlockNum h * GetLaserNum h + b * GetLaserNum h + j) = Some d /\
        read_azimuth h (buffer pkt) b = Ok a /\
        laser_id (pandarQT_channel_config_ u) h (loop_index t b) b j = Ok v /\
        channel_azimuth u t a v (loop_index t b) = Ok (pd_azimuth d) /\
        rd16 (buffer pkt) off = Ok (pd_distances d) /\ rd8 (buffer pkt) (off + 2) = Ok (pd_reflectivities d) /\
        (HasConfidenceLevel h = true -> exists c, rd8 (buffer pkt) (off + 3) = Ok c /\ pd_confidence d = Some c)) /\
    (forall k, ~ (packet_num f * GetBlockNum h * GetLaserNum h <= k < (packet_num f + 1) * GetBlockNum h * GetLaserNum h) ->
      pointData f' !! k = pointData f !! k).
Proof.
  intros Hc Hf Hcfg H128 Hs Hfit Hn. destruct (fits_points_qt _ _ _ Hfit Hn) as (HL & HB & _). unfold is_u8 in *.
  destruct (qt_decode_ok timezone host now u f pkt h Hc Hf Hcfg H128 Hs Hfit Hn)
    as (t & l & az & data & b & q & Et & _ & Hfill & _ & f' & E & Hd & _ & Hn' & _).
  destruct (fill_blocks_spec _ _ _ _ _ (proj1 HL) _ _ _ _ _ (proj1 HB) Hfill) as (Hout & Hin & _).
  eexists _, f', t. split; [exact E|]. split; [done|]. split; [done|]. rewrite Hd. split.
  - intros bb j Hbb Hj. destruct (Hin bb j Hbb Hj) as (a & d & Ea & Ed & Er).
    destruct (qt_read_channel_spec _ _ _ _ _ _ _ _ _ Er) as ((v & V1 & V2) & E1 & E2 & E3).
    exists d, a, v. repeat (split; [done|]). done.
  - intros k Hk. apply Hout. intros Hr. apply Hk. lia.
Qed.

(** A packet without confidence bytes is decoded but neither counted by the loss
    tools nor stamped with the time of the host, which stays that of an earlier
    packet (or zero, in a new frame). *)
Theorem qt_unstamped host now u (f : LidarDecodedFrame P) pkt h :
  get_correction_file_ (base u) = true -> fire_table_ok u -> config_ok (pandarQT_channel_config_ u) h ->
  GetLaserNum h <= 128 -> start_ok (base u) -> packet_fits (buffer pkt) h ->
  0 <= packet_num f < kMaxPacketNumPerFrame -> HasConfidenceLevel h = false ->
  exists u' f', DecodePacket timezone host now u f pkt = Ok (0, u', f') /\
    host_timestamp f' = host_timestamp f /\ loss_ (base u') = loss_ (base u).
Proof.
  intros Hc Hf Hcfg H128 Hs Hfit Hn Hconf.
  destruct (qt_decode_ok timezone host now u f pkt h Hc Hf Hcfg H128 Hs Hfit Hn)
    as (t & l & az & data & b & q & _ & Hl & _ & Hsp & f' & E & _ & _ & _ & Hh & _).
  eexists _, f'. split; [exact E|]. rewrite Hconf in Hh. split; [done|]. rewrite (Hl Hconf) in *. cbn [base set_base].
  destruct (wf_split_state format_P40 (format_is_ok P40) _ _ _ _ Hsp) as [b' Hb'].
  destruct (IsNeedFrameSplit_frame _ _ _ _ Hb') as (_ & _ & _ & _ & Hloss & _).
  unfold push_azimuth. destruct (negb _); cbn; by rewrite Hloss.
Qed.

End Properties.

(** Loading a firetime file is all or nothing: when it is accepted, all four
    loops of all 128 lasers have a value; when it is refused, the parser keeps
    the table it had. *)
Theorem qt_firetimes_all_or_nothing content u r u' :
  LoadFiretimesString content u = Ok (r, u') ->
  (r = 0 /\ get_firetime_file_ (base u') = true /\ fire_table_ok u' /\ (exists t, qt128_firetime_ u' = Some t)) \/
  (r = -1 /\ u' = u).
Proof.
  unfold LoadFiretimesString. destruct (getline newline _ EmptyString) as [l1 f1]. intros H. inv_ok.
  destruct (is_EEFF a); [|inv_ok; by right]. destruct (getline newline f1 l1) as [l2 f2]. inv_ok.
  destruct (_ <? _) in H; [inv_ok; by right|]. destruct (getline newline f2 l2) as [l3 f3]. inv_ok.
  destruct a1 as [t|]; inv_ok; [left|by right].
  apply firetime_rows_shape in E1; [|exact zero_table_shape].
  split; [done|]. split; [done|]. split; [|by exists t]. intros _. by exists t.
Qed.

(** The guard of the channel configuration compares the length of a column with
    the number of the block instead of the channel: a packet with more channels
    than the configuration has lasers reads past the column, and a block whose
    number is not below the number of lasers is read without the
    configuration. *)
Theorem config_guard_mixed_up c h loopIndex i j column :
  HasSelfDefine h = true -> m_bIsChannelConfigObtained c = Some true ->
  arr_get (m_vChannelConfigTable c) loopIndex = Ok column ->
  (i < Z.of_nat (length column) <= j -> laser_id c h loopIndex i j = Err OutOfBounds) /\
  (Z.of_nat (length column) <= i -> laser_id c h loopIndex i j = Ok j).
Proof.
  intros Hs Hg Hc. unfold laser_id. rewrite Hs, Hg. cbn [of_option mbind result_bind]. rewrite Hc. cbn [mbind result_bind].
  split; intros Hi; destruct (Z.ltb_spec i (Z.of_nat (length column))); try lia; [|done].
  by rewrite arr_get_out by lia.
Qed.

(** ** Witnesses *)

Definition demo_config : PandarQTChannelConfig := mk_config (0, 0) 0 0 [] EmptyString (Some false).
Definition demo_qt : Udp3_2Parser := mk_udp3_2 (demo_general true) None demo_config.
(** Two blocks of two channels without confidence. *)
Definition demo_qt_packet : UdpPacket :=
  mk_packet (demo_bytes [0xEE; 0xFF; 3; 2; 0; 0; 2; 2; 0; 4; 2; 0x01;
    100; 0; 10; 1; 7; 20; 1; 8;   140; 0; 30; 1; 9; 40; 1; 6]) 70 false 0 0 2368.
Definition demo_qt_header : HS_LIDAR_HEADER_ME_V4 := mk_header 2 2 0 4 2 0x01.

Lemma demo_start_ok : start_ok (demo_general true).
Proof.
  intros az. unfold IsNeedFrameSplit. change (to_u16 _) with (Ok 0 : result Z).
  cbn [mbind result_bind]. by destruct (split_rule 0 _ _ _ az).
Qed.

Lemma demo_qt_fits : packet_fits (buffer demo_qt_packet) demo_qt_header.
Proof.
  unfold packet_fits. repeat split; try reflexivity; try (vm_compute; congruence).
  by apply byte_list_check.
Qed.

Lemma qt_packet_points_witness :
  exists u' f', DecodePacket 0 7 (fun _ => 0) demo_qt demo_frame demo_qt_packet = Ok (0, u', f') /\
    exists d, pointData f' !! 3 = Some d /\ pd_distances d = 296 /\ pd_azimuth d = of_Z32 140.
Proof.
  destruct (qt_packet_points 0 7 (fun _ => 0) demo_qt demo_frame demo_qt_packet demo_qt_header)
    as (u' & f' & t & E & _ & _ & Hin & _);
    [done|done|done|vm_compute; congruence|exact demo_start_ok|exact demo_qt_fits|vm_compute; split; congruence|].
  exists u', f'. split; [exact E|].
  destruct (Hin 1 1) as (d & a & v & Hd & Ha & _ & Hz & Hdist & _); [vm_compute; split; congruence..|].
  exists d. split; [exact Hd|]. vm_compute in Ha. apply (inj Ok) in Ha as <-.
  split; apply (inj Ok); [by rewrite <-Hdist|]. by rewrite <-Hz.
Defined.

Lemma qt_unstamped_witness :
  exists u' f', DecodePacket 0 7 (fun _ => 0) demo_qt demo_frame demo_qt_packet = Ok (0, u', f') /\
    host_timestamp f' = 0 /\ loss_ (base u') = loss_ (base demo_qt).
Proof.
  exact (qt_unstamped 0 7 (fun _ => 0) demo_qt demo_frame demo_qt_packet demo_qt_header eq_refl
    (fun H => False_ind _ (Bool.diff_false_true H)) (fun H => or_introl eq_refl) ltac:(vm_compute; congruence)
    demo_start_ok demo_qt_fits ltac:(vm_compute; split; congruence) eq_refl).
Defined.

Lemma qt_firetimes_all_or_nothing_witness :
  LoadFiretimesString "AABB" demo_qt = Ok (-1, demo_qt).
Proof.
  assert (exists u', LoadFiretimesString "AABB" demo_qt = Ok (-1, u')) as [u' E] by (eexists; vm_compute; reflexivity).
  destruct (qt_firetimes_all_or_nothing "AABB" demo_qt (-1) u' E) as [(H & _)|(_ & ->)]; [discriminate H|exact E].
Defined.

Lemma config_guard_mixed_up_witness :
  laser_id (mk_config (1, 0) 2 1 [[5; 6]; [6; 5]] EmptyString (Some true)) (mk_header 3 1 0 4 2 0x41) 0 0 2 = Err OutOfBounds.
Proof.
  apply (config_guard_mixed_up (mk_config (1, 0) 2 1 [[5; 6]; [6; 5]] EmptyString (Some true))
    (mk_header 3 1 0 4 2 0x41) 0 0 2 [5; 6]); [done|done|done|cbn; lia].
Defined.
