(* ===== verification/Udp7_2.v ===== *)
(** * Udp7_2: the decoder of PandarFT120

    UdpParser/src/udp7_2_parser.cc and UdpProtocol/udp_protocol_v7_2.h.  The lidar
    does not turn: a packet is one column of the picture, its angles come from a
    table by channel and column, and a frame ends when the column number falls.
    The table is loaded from a binary or a CSV file. *)

From Stdlib Require Import Ascii SpecFloat.
From S2P Require Import Spinning Prelude Bytes Text Streams Floats LidarTypes PacketLoss GeneralParser Decoder Calendar.
From S2P Require Import ProtocolV1_4 Firetimes1_4 Udp1_4 Points Walk LidarTime.
Local Open Scope Z_scope.

Definition CHANNEL_MAX : Z := 256.
Definition COLUMN_MAX : Z := 384.

(** The tables of [PandarFTCorrections], by channel and column; an element nothing
    has written has no entry. *)
Record Udp7_2Parser : Type := mk_udp7_2 {
  base : GeneralParser;
  last_cloumn_id_ : Z;
  elevations : gmap (Z * Z) f32;
  azimuths : gmap (Z * Z) f32;
}.

Definition set_base (p : GeneralParser) (u : Udp7_2Parser) : Udp7_2Parser :=
  mk_udp7_2 p (last_cloumn_id_ u) (elevations u) (azimuths u).
Definition set_table (el az : gmap (Z * Z) f32) (u : Udp7_2Parser) : Udp7_2Parser :=
  mk_udp7_2 (base u) (last_cloumn_id_ u) el az.

(** [this->get_correction_file_ = true] *)
Definition got_correction (u : Udp7_2Parser) : Udp7_2Parser :=
  set_base (set_corrections (elevation_correction_ (base u)) (azimuth_collection_ (base u)) (base u)) u.

(** ** The CSV file *)

(** The four fields of a row; a field that is missing keeps the text of the one
    before, an angle that cannot be extracted stays uninitialised. *)
Definition csv_row (line : string) : Z * Z * option f32 * option f32 :=
  let '(s1, ss) := getline comma (mk_stream line true) EmptyString in
  let '(s2, ss) := getline comma ss s1 in
  let '(s3, ss) := getline comma ss s2 in
  let '(s4, _) := getline comma ss s3 in
  (default 0 (extract_int s1), default 0 (extract_int s2), extract_float s3, extract_float s4).

(** The loop over the rows: [false] when a short line ends it. *)
Fixpoint csv_rows (rows : list string) (u : Udp7_2Parser) : result (bool * Udp7_2Parser) :=
  match rows with
  | [] => Ok (true, u)
  | line :: rows =>
      if (String.length line <? 7)%nat then Ok (false, u)
      else
        let '(lineId, columnId, elev, azimuth) := csv_row line in
        if (CHANNEL_MAX <? lineId) || (lineId <=? 0) || (COLUMN_MAX <? columnId) || (columnId <=? 0)
        then csv_rows rows u
        else
          e ← of_option Uninitialised elev;
          a ← of_option Uninitialised azimuth;
          csv_rows rows (set_table (<[(lineId - 1, columnId - 1) := mul32 e (of_Z32 kResolutionInt)]> (elevations u))
                           (<[(lineId - 1, columnId - 1) := mul32 a (of_Z32 kResolutionInt)]> (azimuths u)) u)
  end.

Definition LoadCorrectionCsvData (correction_string : string) (u : Udp7_2Parser) : result (Z * Udp7_2Parser) :=
  '(ok, u) ← csv_rows (drop 1 (tokens newline correction_string)) u;
  if ok : bool then Ok (0, got_correction u) else Ok (-1, u).

(** ** The binary file *)

Definition sizeof_FTCorrectionsHeader : Z := 9.

(** corrections_.x[col][row] = angles[first + row * channel_num + col] * fResolution
    for every column of a row, and for every row. *)
Definition dat_row (angle : Z -> result Z) (off channels resolution row : Z) (m : gmap (Z * Z) f32)
    : result (gmap (Z * Z) f32) :=
  foldM (fun m col =>
    v ← angle (off + col);
    Ok (<[(col, row) := mul32 (of_Z32 v) (of_Z32 resolution)]> m)) m (seqZ 0 channels).

Definition dat_fill (angle : Z -> result Z) (first columns channels resolution : Z) (m : gmap (Z * Z) f32)
    : result (gmap (Z * Z) f32) :=
  foldM (fun m row => dat_row angle (first + row * channels) channels resolution row m) m (seqZ 0 columns).

(** The body of the two cases: [width] bytes an angle, read from [off] on. *)
Definition dat_angles (width : nat) (sign : Z -> Z) (off : Z) (block : list Z) (columns channels resolution : Z)
    (u : Udp7_2Parser) : result Udp7_2Parser :=
  let angleNum := columns * channels in
  let readLen := Z.of_nat width * (angleNum * 2) in
  angles ← arr_slice block off readLen;
  _ ← arr_slice block (off + readLen) 32;
  let angle idx := v ← rd_le width angles (Z.of_nat width * idx); Ok (sign v) in
  az ← dat_fill angle 0 columns channels resolution (azimuths u);
  el ← dat_fill angle angleNum columns channels resolution (elevations u);
  Ok (got_correction (set_table el az u)).

(** Version 0 reads its 16-bit angles from the beginning of the file, version 1
    its 32-bit angles from behind the header. *)
Definition LoadCorrectionDatData (block : list Z) (u : Udp7_2Parser) : result (Z * Udp7_2Parser) :=
  header ← arr_slice block 0 sizeof_FTCorrectionsHeader;
  match header with
  | [p0; p1; v0; v1; _; _; column_number; channel_number; resolution] =>
      if (p0 =? 0xee) && (p1 =? 0xff) then
        if v1 =? 0 then u ← dat_angles 2 i16 0 block column_number channel_number resolution u; Ok (0, u)
        else if v1 =? 1 then
          u ← dat_angles 4 i32 sizeof_FTCorrectionsHeader block column_number channel_number resolution u; Ok (0, u)
        else Ok (-1, u)
      else Ok (-1, u)
  | _ => Err OutOfBounds
  end.

Definition LoadCorrectionString (block : string) (u : Udp7_2Parser) : result (Z * Udp7_2Parser) :=
  '(r, u) ← LoadCorrectionDatData (bytes_of block) u;
  if r =? 0 then Ok (0, u) else s ← c_string block; LoadCorrectionCsvData s u.

Definition LoadCorrectionFile (fs : string -> option string) (path : string) (u : Udp7_2Parser) : result Udp7_2Parser :=
  match fs path with
  | Some buffer => '(_, u) ← LoadCorrectionString buffer u; Ok u
  | None => Ok u
  end.

(** ** Packets *)

Definition sizeof_HEADER_FT_V2 : Z := 19.
Definition sizeof_CHN_UNIT_FT_V2 : Z := 5.
Definition sizeof_TAIL_FT_V2 : Z := 29.
Definition body_off : Z := sizeof_PRE_HEADER + sizeof_HEADER_FT_V2.

(** (channel_num, dist_unit) of HS_LIDAR_HEADER_FT_V2. *)
Definition header_FT_V2 (buf : list Z) : result (Z * Z) :=
  du ← rd8 buf (sizeof_PRE_HEADER + 7); cn ← rd16 buf (sizeof_PRE_HEADER + 9); Ok (cn, du).

Record HS_LIDAR_TAIL_FT_V2 : Set := mk_tail_ft { column_id : Z; ft_utc : list Z; ft_timestamp : Z; sequence_num : Z }.

Definition tail_FT_V2 (buf : list Z) (off : Z) : result HS_LIDAR_TAIL_FT_V2 :=
  ci ← rd16 buf (off + 7); utc ← arr_slice buf (off + 14) 6; ts ← rd32 buf (off + 20); sq ← rd32 buf (off + 25);
  Ok (mk_tail_ft ci utc ts sq).

(** corrections_.x[i][column_id] *)
Definition angle_of (m : gmap (Z * Z) f32) (i column : Z) : result f32 :=
  if (0 <=? i) && (i <? CHANNEL_MAX) && (0 <=? column) && (column <? COLUMN_MAX)
  then of_option Uninitialised (m !! (i, column)) else Err OutOfBounds.

Definition read_channel (u : Udp7_2Parser) (t : HS_LIDAR_TAIL_FT_V2) (buf : list Z) (i : Z) (old : option PointDecodeData)
    : result PointDecodeData :=
  let pChnUnit := body_off + sizeof_CHN_UNIT_FT_V2 * i in
  az ← angle_of (azimuths u) i (column_id t);
  el ← angle_of (elevations u) i (column_id t);
  refl ← rd8 buf (pChnUnit + 2);
  dist ← rd16 buf pChnUnit;
  Ok (mk_pdd az el dist refl (old ≫= pd_confidence) (old ≫= pd_chn_index) (old ≫= pd_mirror_index)).

Definition IsNeedFrameSplit (column_id : Z) (u : Udp7_2Parser) : bool := column_id <? last_cloumn_id_ u.

Section Decode.
Context {P : Type}.
Variable timezone : TimeZone.

Definition DecodePacket (host : Z) (now : nat -> Z) (u : Udp7_2Parser) (frame : LidarDecodedFrame P)
    (pkt : UdpPacket) : result (Z * Udp7_2Parser * LidarDecodedFrame P) :=
  if negb (get_correction_file_ (base u)) then Ok (-1, u, frame)
  else
    let buf := buffer pkt in
    b0 ← rd8 buf 0;
    b1 ← rd8 buf 1;
    if negb (b0 =? 0xEE) || negb (b1 =? 0xFF) then Ok (-1, u, frame)
    else
      '(channels, dist_unit) ← header_FT_V2 buf;
      t ← tail_FT_V2 buf (body_off + sizeof_CHN_UNIT_FT_V2 * channels);
      let packet_timestamp := GetMicroLidarTimeU64_2000 timezone (ft_utc t) (ft_timestamp t) in
      frame ← put_timestamp (packet_num frame)
        (if use_timestamp_type frame =? 0 then packet_timestamp else recv_timestamp pkt) frame;
      let p := set_loss (CalPktLoss now (sequence_num t) (loss_ (base u))) (base u) in
      let p := set_loss (CalPktTimeLoss now packet_timestamp (loss_ p)) p in
      let frame := set_packet_info host (spin_speed frame) (work_mode frame) (return_mode frame) 1 channels
        (div32 (of_Z32 dist_unit) (of_Z32 1000)) frame in
      let index := i32 (u32 (packet_num frame * channels)) in
      data ← fill kMaxPointsNumPerFrame index channels (read_channel u t buf) (pointData frame);
      let frame := set_pointData data frame in
      let frame := if IsNeedFrameSplit (column_id t) u then set_scan_complete true frame else frame in
      Ok (0, mk_udp7_2 p (column_id t) (elevations u) (azimuths u),
          set_counts (u32 (packet_num frame + 1)) (points_num frame) frame).

(** ** Coordinates *)

Context {PT : PointType P}.
Variables (sin_all_angle_ cos_all_angle_ : Z -> f32).
Variables (sin32 cos32 : f32 -> f32).

(** int(angle * kFineResolutionFloat), brought into the circle *)
Definition angle_index (a : f32) : result Z :=
  v ← to_int (mul32 a (of_Z32 kFineResolutionInt)); Ok (Z.rem (CIRCLE + v) CIRCLE).

Definition compute_point (u : Udp7_2Parser) (frame : LidarDecodedFrame P) (packet_index i point_index : Z)
    (old : option P) : result P :=
  d ← array_at kMaxPointsNumPerFrame point_index (pointData frame);
  let distance := point_distance d (distance_unit frame) in
  '(azimuth, elevation) ←
    (if get_correction_file_ (base u) then
       a ← angle_index (pd_azimuth d); e ← angle_index (pd_elevation d); Ok (a, e)
     else Ok (0, 0));
  place_point sin_all_angle_ cos_all_angle_ sin32 cos32 (Some (transform_ (base u))) false frame packet_index i azimuth
    (Ok elevation) distance d old.

Definition ComputeXYZI (u : Udp7_2Parser) (frame : LidarDecodedFrame P) (packet_index : Z)
    : result (Z * Udp7_2Parser * LidarDecodedFrame P) :=
  pts ← foldM (fun pts i =>
      let k := point_index frame packet_index 0 i in
      x ← compute_point u frame packet_index i k (pts !! k);
      array_put kMaxPointsNumPerFrame k x pts) (points frame) (seqZ 0 (laser_num frame));
  Ok (0, set_base (FrameNumAdd (base u)) u, set_points pts frame).

End Decode.

#[export] Instance udp7_2_decoder {P} {PT : PointType P} (timezone : TimeZone) (sin_all_angle_ cos_all_angle_ : Z -> f32)
    (sin32 cos32 : f32 -> f32) : Decoder P Udp7_2Parser := {|
  general := base;
  with_general := set_base;
  v_DecodePacket host now u f pkt := DecodePacket timezone host now u f pkt;
  v_ComputeXYZI := ComputeXYZI sin_all_angle_ cos_all_angle_ sin32 cos32;
  v_LoadCorrectionFile := LoadCorrectionFile;
  v_LoadCorrectionString := LoadCorrectionString;
  v_LoadFiretimesFile fs path u := Ok (set_base (GeneralParser.LoadFiretimesFile fs path (base u)) u);
|}.

(** ** Lemmas: the binary file *)

Section Dat.
Variables (angle : Z -> result Z) (channels resolution : Z).

(** What a row leaves. *)
Lemma dat_row_nat off row n m : (forall l, 0 <= l < Z.of_nat n -> is_ok (angle (off + l)) = true) ->
  exists m', dat_row angle off (Z.of_nat n) resolution row m = Ok m' /\
    (forall l, 0 <= l < Z.of_nat n -> exists v, angle (off + l) = Ok v /\
      m' !! (l, row) = Some (mul32 (of_Z32 v) (of_Z32 resolution))) /\
    (forall c r, ~ (r = row /\ 0 <= c < Z.of_nat n) -> m' !! (c, r) = m !! (c, r)).
Proof.
  induction n as [|n IH]; intros Ha.
  { exists m. split; [done|]. split; [lia|done]. }
  destruct IH as (m1 & E & Hin & Hout); [intros; apply Ha; lia|].
  unfold dat_row in *. rewrite seqZ_snoc, foldM_snoc, E. cbn [mbind result_bind].
  specialize (Ha (Z.of_nat n) ltac:(lia)). destruct (angle _) as [v|] eqn:Ev; [|done]. cbn [mbind result_bind].
  eexists. split; [reflexivity|]. split.
  - intros l Hl. destruct (Z.eq_dec l (Z.of_nat n)) as [->|].
    + exists v. by rewrite lookup_insert_eq.
    + rewrite lookup_insert_ne by congruence. apply Hin. lia.
  - intros c r Hc. rewrite lookup_insert_ne by (intros [= <- <-]; lia). apply Hout. lia.
Qed.

(** What the rows leave: the table of the file, and the rest as it was. *)
Lemma dat_fill_nat first n m : 0 <= channels ->
  (forall row l, 0 <= row < Z.of_nat n -> 0 <= l < channels -> is_ok (angle (first + row * channels + l)) = true) ->
  exists m', dat_fill angle first (Z.of_nat n) channels resolution m = Ok m' /\
    (forall row l, 0 <= row < Z.of_nat n -> 0 <= l < channels -> exists v,
      angle (first + row * channels + l) = Ok v /\ m' !! (l, row) = Some (mul32 (of_Z32 v) (of_Z32 resolution))) /\
    (forall c r, ~ (0 <= r < Z.of_nat n /\ 0 <= c < channels) -> m' !! (c, r) = m !! (c, r)).
Proof.
  intros Hc. induction n as [|n IH]; intros Ha.
  { exists m. split; [done|]. split; [lia|done]. }
  destruct IH as (m1 & E & Hin & Hout); [intros; apply Ha; lia|].
  unfold dat_fill in *. rewrite seqZ_snoc, foldM_snoc, E. cbn [mbind result_bind].
  destruct (dat_row_nat (first + Z.of_nat n * channels) (Z.of_nat n) (Z.to_nat channels) m1) as (m2 & E2 & Hin2 & Hout2).
  { intros l Hl. apply Ha; lia. }
  rewrite Z2Nat.id in * by done. exists m2. split; [exact E2|]. split.
  - intros row l Hr Hl. destruct (Z.eq_dec row (Z.of_nat n)) as [->|]; [by apply Hin2|].
    rewrite Hout2 by lia. apply Hin; lia.
  - intros c r Hcr. rewrite Hout2 by lia. apply Hout. lia.
Qed.

End Dat.

(** The angles of a file that is long enough, by place. *)
Lemma dat_angles_ok width sign off block columns channels resolution u :
  0 <= off -> 0 <= columns -> 0 <= channels ->
  off + Z.of_nat width * (columns * channels * 2) + 32 <= Z.of_nat (length block) ->
  exists u', dat_angles width sign off block columns channels resolution u = Ok u' /\
    get_correction_file_ (base u') = true /\ last_cloumn_id_ u' = last_cloumn_id_ u /\
    (forall row col, 0 <= row < columns -> 0 <= col < channels -> exists az el,
      rd_le width block (off + Z.of_nat width * (row * channels + col)) = Ok az /\
      rd_le width block (off + Z.of_nat width * (columns * channels + row * channels + col)) = Ok el /\
      azimuths u' !! (col, row) = Some (mul32 (of_Z32 (sign az)) (of_Z32 resolution)) /\
      elevations u' !! (col, row) = Some (mul32 (of_Z32 (sign el)) (of_Z32 resolution))) /\
    (forall c r, ~ (0 <= r < columns /\ 0 <= c < channels) ->
      azimuths u' !! (c, r) = azimuths u !! (c, r) /\ elevations u' !! (c, r) = elevations u !! (c, r)).
Proof.
  intros Ho Hc Hch Hl. unfold dat_angles. cbv zeta.
  set (len := Z.of_nat width * (columns * channels * 2)) in *.
  assert (0 <= columns * channels) by (by apply Z.mul_nonneg_nonneg).
  assert (0 <= len) by (apply Z.mul_nonneg_nonneg; lia).
  rewrite (arr_slice_ok block off len) by lia. cbn [mbind result_bind].
  rewrite (arr_slice_ok block (off + len) 32) by lia. cbn [mbind result_bind].
  set (s := take _ _).
  assert (forall idx, 0 <= idx < columns * channels * 2 -> exists v,
    rd_le width s (Z.of_nat width * idx) = Ok v /\ rd_le width block (off + Z.of_nat width * idx) = Ok v) as Hget.
  { intros idx Hi. assert (Z.of_nat width * (idx + 1) <= len) by (apply Z.mul_le_mono_nonneg_l; lia).
    assert (0 <= Z.of_nat width * idx) by (apply Z.mul_nonneg_nonneg; lia).
    destruct (rd_le_slice width block off len (Z.of_nat width * idx)) as (s' & Es & Er); [lia..|].
    rewrite arr_slice_ok in Es by lia. apply (inj Ok) in Es as <-. fold s in Er.
    destruct (rd_le_in width block (off + Z.of_nat width * idx)) as [v Ev]; [lia|lia|].
    exists v. rewrite Er. done. }
  assert (forall row col, 0 <= row < columns -> 0 <= col < channels ->
    0 <= row * channels + col < columns * channels) as Hidx.
  { intros row col Hr Hcl. assert ((row + 1) * channels <= columns * channels) by (apply Z.mul_le_mono_nonneg_r; lia).
    assert (0 <= row * channels) by (apply Z.mul_nonneg_nonneg; lia). lia. }
  set (angle := fun idx => v ← rd_le width s (Z.of_nat width * idx); Ok (sign v)).
  destruct (dat_fill_nat angle channels resolution 0 (Z.to_nat columns) (azimuths u) Hch) as (az & Eaz & Ha & Ha').
  { intros row l Hr Hl'. unfold angle. destruct (Hget (0 + row * channels + l)) as (v & -> & _); [|done].
    specialize (Hidx row l ltac:(lia) Hl'). lia. }
  destruct (dat_fill_nat angle channels resolution (columns * channels) (Z.to_nat columns) (elevations u) Hch)
    as (el & Eel & He & He').
  { intros row l Hr Hl'. unfold angle. destruct (Hget (columns * channels + row * channels + l)) as (v & -> & _); [|done].
    specialize (Hidx row l ltac:(lia) Hl'). lia. }
  rewrite Z2Nat.id in * by done. rewrite Eaz. cbn [mbind result_bind]. rewrite Eel. cbn [mbind result_bind].
  eexists. split; [reflexivity|]. cbn. split; [done|]. split; [done|]. split.
  - intros row col Hr Hcl. specialize (Hidx row col Hr Hcl).
    destruct (Ha row col Hr Hcl) as (v & Ev & ->), (He row col Hr Hcl) as (w & Ew & ->). unfold angle in Ev, Ew.
    rewrite Z.add_0_l in Ev.
    destruct (Hget (row * channels + col)) as (v' & E1 & E2); [lia|]. rewrite E1 in Ev. apply (inj Ok) in Ev as <-.
    destruct (Hget (columns * channels + row * channels + col)) as (w' & E3 & E4); [lia|]. rewrite E3 in Ew.
    apply (inj Ok) in Ew as <-. exists v', w'. done.
  - intros c r Hcr. by rewrite Ha', He'.
Qed.

(** ** Lemmas: packets *)

Definition ft_tail_off (channels : Z) : Z := body_off + sizeof_CHN_UNIT_FT_V2 * channels.

(** A packet with its sections inside the receive buffer. *)
Definition ft_fits (buf : list Z) (channels dist_unit : Z) : Prop :=
  length buf = 1500%nat /\ rd8 buf 0 = Ok 0xEE /\ rd8 buf 1 = Ok 0xFF /\
  header_FT_V2 buf = Ok (channels, dist_unit) /\ 0 <= channels /\ ft_tail_off channels + sizeof_TAIL_FT_V2 <= 1500.

(** The table has the angles of the first [n] channels of a column. *)
Definition column_ok (u : Udp7_2Parser) (n column : Z) : Prop :=
  0 <= column < COLUMN_MAX /\
  forall i, 0 <= i < n -> is_Some (azimuths u !! (i, column)) /\ is_Some (elevations u !! (i, column)).

Lemma tail_FT_V2_ok buf off : 0 <= off -> off + 29 <= Z.of_nat (length buf) -> exists t, tail_FT_V2 buf off = Ok t.
Proof. intros Ho Hl. unfold tail_FT_V2. read_fields. Qed.

Lemma angle_of_ok m i column x : 0 <= i < CHANNEL_MAX -> 0 <= column < COLUMN_MAX -> m !! (i, column) = Some x ->
  angle_of m i column = Ok x.
Proof.
  intros Hi Hc Hm. unfold angle_of. rewrite Hm.
  destruct (Z.leb_spec 0 i), (Z.ltb_spec i CHANNEL_MAX), (Z.leb_spec 0 column), (Z.ltb_spec column COLUMN_MAX); done || lia.
Qed.

Lemma angle_of_inv m i column x : angle_of m i column = Ok x -> m !! (i, column) = Some x.
Proof. unfold angle_of. destruct (_ && _ && _ && _); [|done]. by destruct (m !! _); [intros [= ->]|]. Qed.

(** An index behind the arrays is used as it comes. *)
Lemma angle_of_out m i column : CHANNEL_MAX <= i \/ COLUMN_MAX <= column -> angle_of m i column = Err OutOfBounds.
Proof.
  unfold angle_of. destruct (Z.leb_spec 0 i), (Z.ltb_spec i CHANNEL_MAX), (Z.leb_spec 0 column),
    (Z.ltb_spec column COLUMN_MAX); cbn [andb]; done || lia.
Qed.

Lemma ft_read_channel_total u t buf i n old : column_ok u n (column_id t) -> 0 <= i < n -> n <= CHANNEL_MAX ->
  ft_tail_off (i + 1) <= Z.of_nat (length buf) -> is_ok (read_channel u t buf i old) = true.
Proof.
  intros [Hc Ht] Hn Hmax Hl. destruct (Ht i Hn) as [[a Ea] [e Ee]]. unfold read_channel. cbv zeta.
  assert (0 <= i < CHANNEL_MAX) as Hi by lia.
  rewrite (angle_of_ok (azimuths u) _ _ a Hi Hc Ea), (angle_of_ok (elevations u) _ _ e Hi Hc Ee). cbn [mbind result_bind].
  unfold ft_tail_off, body_off, sizeof_PRE_HEADER, sizeof_HEADER_FT_V2, sizeof_CHN_UNIT_FT_V2 in *.
  destruct (rd8_in buf (6 + 19 + 5 * i + 2)) as [r ->]; [lia|]. cbn [mbind result_bind].
  unfold rd16. by destruct (rd_le_in 2 buf (6 + 19 + 5 * i)) as [d ->]; [lia|lia|].
Qed.

Lemma ft_read_channel_spec u t buf i old d : read_channel u t buf i old = Ok d ->
  azimuths u !! (i, column_id t) = Some (pd_azimuth d) /\ elevations u !! (i, column_id t) = Some (pd_elevation d) /\
  rd16 buf (ft_tail_off i) = Ok (pd_distances d) /\ rd8 buf (ft_tail_off i + 2) = Ok (pd_reflectivities d).
Proof. unfold read_channel. cbv zeta. intros H. inv_ok. cbn. auto using angle_of_inv. Qed.

Section FtDecode.
Context {P : Type}.
Variable timezone : TimeZone.

(** The time stamp a packet gets. *)
Definition ft_stamp (t : HS_LIDAR_TAIL_FT_V2) (f : LidarDecodedFrame P) (pkt : UdpPacket) : Z :=
  if use_timestamp_type f =? 0 then GetMicroLidarTimeU64_2000 timezone (ft_utc t) (ft_timestamp t) else recv_timestamp pkt.

(** A packet that fits and whose angles are known is decoded. *)
Lemma ft_decode_ok host now u (f : LidarDecodedFrame P) pkt channels unit_ t :
  get_correction_file_ (base u) = true -> ft_fits (buffer pkt) channels unit_ -> channels <= CHANNEL_MAX ->
  tail_FT_V2 (buffer pkt) (ft_tail_off channels) = Ok t -> column_ok u channels (column_id t) ->
  0 <= packet_num f < kMaxPacketNumPerFrame ->
  exists r u' f', DecodePacket timezone host now u f pkt = Ok (r, u', f').
Proof.
  intros Hc (Hlen & H0 & H1 & Hh & Hch & Hsz) H256 Ht Hcol Hn.
  unfold DecodePacket. rewrite Hc, H0, H1. cbn [negb mbind result_bind]. rewrite !Z.eqb_refl. cbn [negb orb].
  rewrite Hh. cbn [mbind result_bind]. change (body_off + _ * channels) with (ft_tail_off channels).
  rewrite Ht. cbn [mbind result_bind]. unfold put_timestamp. rewrite array_put_ok by done. cbn [mbind result_bind].
  cbn [packet_num set_packet_info pointData].
  unfold CHANNEL_MAX, kMaxPacketNumPerFrame in *.
  assert (0 <= packet_num f * channels <= 4999 * 256) by (split; [apply Z.mul_nonneg_nonneg|apply Z.mul_le_mono_nonneg]; lia).
  assert (i32 (u32 (packet_num f * channels)) = packet_num f * channels) as ->.
  { unfold i32, u32. rewrite (Z.mod_small (packet_num f * channels)), Z.mod_small by lia. lia. }
  edestruct (fill_ok kMaxPointsNumPerFrame (packet_num f * channels) (read_channel u t (buffer pkt)) channels (pointData f))
    as [data Ed]; [done|lia| | |].
  { unfold kMaxPointsNumPerFrame, kMaxPointsNumPerPacket, kMaxPacketNumPerFrame. lia. }
  { intros l old Hl. apply (ft_read_channel_total _ _ _ _ channels); [done|done|done|].
    unfold ft_tail_off, sizeof_CHN_UNIT_FT_V2, sizeof_TAIL_FT_V2 in *. lia. }
  match goal with |- context [fill ?a ?b ?c ?d ?e] => replace (fill a b c d e) with (@Ok (gmap Z PointDecodeData) data) end.
  cbn [mbind result_bind]. eauto.
Qed.

(** What is known of a packet that was accepted. *)
Lemma ft_decode_accepts host now u (f : LidarDecodedFrame P) pkt r u' f' :
  get_correction_file_ (base u) = true -> rd8 (buffer pkt) 0 = Ok 0xEE -> rd8 (buffer pkt) 1 = Ok 0xFF ->
  DecodePacket timezone host now u f pkt = Ok (r, u', f') ->
  r = 0 /\ exists channels unit_ t l,
    header_FT_V2 (buffer pkt) = Ok (channels, unit_) /\ tail_FT_V2 (buffer pkt) (ft_tail_off channels) = Ok t /\
    u' = mk_udp7_2 (set_loss l (base u)) (column_id t) (elevations u) (azimuths u) /\
    fill kMaxPointsNumPerFrame (i32 (u32 (packet_num f * channels))) channels (read_channel u t (buffer pkt)) (pointData f) =
      Ok (pointData f') /\
    scan_complete f' = IsNeedFrameSplit (column_id t) u /\ packet_num f' = u32 (packet_num f + 1) /\ same_frame f f' /\
    host_timestamp f' = host /\ 0 <= packet_num f < kMaxPacketNumPerFrame /\
    sensor_timestamp f' = <[packet_num f := ft_stamp t f pkt]> (sensor_timestamp f) /\
    block_num f' = 1 /\ laser_num f' = channels /\ per_points_num f' = channels.
Proof.
  intros Hc H0 H1. unfold DecodePacket. rewrite Hc, H0, H1. cbn [negb mbind result_bind].
  rewrite !Z.eqb_refl. cbn [negb orb]. intros H. inv_ok. destruct a as [channels unit_]. inv_ok.
  change (body_off + _ * channels) with (ft_tail_off channels) in E0.
  unfold put_timestamp, array_put in E1.
  destruct (Z.leb_spec 0 (packet_num f)), (Z.ltb_spec (packet_num f) kMaxPacketNumPerFrame); cbn [andb] in E1; inv_ok.
  split; [done|]. exists channels, unit_, a. eexists. split; [done|]. split; [exact E0|]. split; [reflexivity|].
  cbn in E2. unfold same_frame.
  destruct (IsNeedFrameSplit (column_id a) u); cbn -[Z.mul]; rewrite Z.mul_1_l; repeat (split; [done|]); done.
Qed.

(** What is refused leaves everything as it was. *)
Lemma ft_decode_refuses host now u (f : LidarDecodedFrame P) pkt r u' f' :
  DecodePacket timezone host now u f pkt = Ok (r, u', f') ->
  (get_correction_file_ (base u) = true /\ rd8 (buffer pkt) 0 = Ok 0xEE /\ rd8 (buffer pkt) 1 = Ok 0xFF) \/
  (r = -1 /\ u' = u /\ f' = f).
Proof.
  unfold DecodePacket. destruct (get_correction_file_ (base u)); cbn [negb]; [|intros [= <- <- <-]; by right].
  intros H. inv_ok. destruct (Z.eqb_spec a 0xEE) as [->|], (Z.eqb_spec a0 0xFF) as [->|]; cbn [negb orb] in H;
    inv_ok; [by left|by right..].
Qed.

End FtDecode.

(** ** What the callers rely on *)

Definition ft_ready (u : Udp7_2Parser) : Prop :=
  get_correction_file_ (base u) = true /\ forall column, 0 <= column < COLUMN_MAX -> column_ok u CHANNEL_MAX column.

Definition ft_readable (pkt : UdpPacket) : Prop := exists channels unit_ t,
  ft_fits (buffer pkt) channels unit_ /\ channels <= CHANNEL_MAX /\
  tail_FT_V2 (buffer pkt) (ft_tail_off channels) = Ok t /\ 0 <= column_id t < COLUMN_MAX.

#[export] Instance udp7_2_laws {P} {PT : PointType P} (timezone : TimeZone) (sinT cosT : Z -> f32) (s32 c32 : f32 -> f32) :
  @DecoderLaws P Udp7_2Parser (udp7_2_decoder timezone sinT cosT s32 c32).
Proof.
  unshelve econstructor; cbn [general with_general v_DecodePacket v_ComputeXYZI udp7_2_decoder].
  - exact (@zero_alike P _ (udp7_2_decoder timezone sinT cosT s32 c32)).
  - exact ft_ready.
  - exact ft_readable.
  - done.
  - apply zero_alike_equivalence.
  - intros g. by apply (@zero_alike_reset P _ (udp7_2_decoder timezone sinT cosT s32 c32)).
  - intros u v Huv. unfold zero_alike in Huv. cbn in Huv. unfold set_base in Huv.
    pose proof (f_equal elevations Huv) as C. pose proof (f_equal azimuths Huv) as D.
    pose proof (f_equal (fun w => get_correction_file_ (base w)) Huv) as A. cbn in A, C, D.
    unfold ft_ready, column_ok. by rewrite A, C, D.
  - intros host now u f pkt [Hc Hall] (ch & un & t & Hfit & H256 & Ht & Hcol) Hn.
    assert (column_ok u ch (column_id t)) as Hch.
    { destruct (Hall _ Hcol) as [? Hi]. split; [done|]. intros i Hb. apply Hi. lia. }
    destruct (ft_decode_ok timezone host now u f pkt ch un t Hc Hfit H256 Ht Hch Hn) as (r & u' & f' & E).
    destruct Hfit as (_ & H0 & H1 & _).
    destruct (ft_decode_accepts _ _ _ _ _ _ _ _ _ Hc H0 H1 E) as (-> & ? & ? & ? & ? & _ & _ & -> & _).
    eexists _, f'. split; [exact E|]. split; [done|exact Hall].
  - intros host now u f pkt u' f' E. destruct (ft_decode_refuses _ _ _ _ _ _ _ _ _ E) as [(Hc & H0 & H1)|(? & _)]; [|done].
    destruct (ft_decode_accepts _ _ _ _ _ _ _ _ _ Hc H0 H1 E)
      as (_ & ? & ? & ? & ? & _ & _ & -> & _ & _ & Hcount & Hsame & Hhost & _ & Hst & _).
    split; [done|]. split; [done|]. split; [done|]. split; [|done]. rewrite Hst. eexists. apply lookup_insert_eq.
  - intros host now u f pkt r u' f' E Hr.
    destruct (ft_decode_refuses _ _ _ _ _ _ _ _ _ E) as [(Hc & H0 & H1)|(_ & -> & ->)]; [|done].
    by destruct (ft_decode_accepts _ _ _ _ _ _ _ _ _ Hc H0 H1 E) as (-> & _).
  - intros host now host' now' u f pkt u1 f1 v1 f2 r u2 f3 E1 Hal E2.
    destruct (ft_decode_refuses _ _ _ _ _ _ _ _ _ E1) as [(Hc & H0 & H1)|(? & _)]; [|done].
    destruct (ft_decode_accepts _ _ _ _ _ _ _ _ _ Hc H0 H1 E1) as (_ & ch & un & t & l & Hh & Ht & -> & _).
    unfold zero_alike in Hal. pose proof (f_equal last_cloumn_id_ Hal) as B.
    pose proof (f_equal (fun w => get_correction_file_ (base w)) Hal) as A. cbn in A, B.
    destruct (ft_decode_accepts _ _ _ _ _ _ _ _ _ (eq_trans (eq_sym A) Hc) H0 H1 E2)
      as (-> & ch' & un' & t' & l' & Hh' & Ht' & _ & _ & Hsplit & _).
    split; [done|]. rewrite Hh in Hh'. apply (inj Ok) in Hh' as [= <- <-]. rewrite Ht in Ht'. apply (inj Ok) in Ht' as <-.
    rewrite Hsplit. unfold IsNeedFrameSplit. rewrite <-B. apply Z.ltb_irrefl.
  - intros u f i r u' f' E. unfold ComputeXYZI in E. inv_ok. split; [done|]. split; [|done].
    by apply (@zero_alike_count P _ (udp7_2_decoder timezone sinT cosT s32 c32)).
Defined.

(** ** Properties *)

Section FtProperties.
Context {P : Type}.
Variable timezone : TimeZone.

(** A packet that fits the receive buffer and names a column the table has is
    decoded: each channel becomes one point with the distance and the
    reflectivity of its bytes and the angles the table has for the channel and
    the column; no other point changes; the frame is complete when the column
    number is below the one of the packet before. *)
Theorem ft_packet_points host now u (f : LidarDecodedFrame P) pkt channels unit_ t :
  get_correction_file_ (base u) = true -> ft_fits (buffer pkt) channels unit_ -> channels <= CHANNEL_MAX ->
  tail_FT_V2 (buffer pkt) (ft_tail_off channels) = Ok t -> column_ok u channels (column_id t) ->
  0 <= packet_num f < kMaxPacketNumPerFrame ->
  exists u' f', DecodePacket timezone host now u f pkt = Ok (0, u', f') /\
    packet_num f' = packet_num f + 1 /\ sensor_timestamp f' = <[packet_num f := ft_stamp timezone t f pkt]> (sensor_timestamp f) /\
    (forall i, 0 <= i < channels -> exists d, pointData f' !! (packet_num f * channels + i) = Some d /\
      azimuths u !! (i, column_id t) = Some (pd_azimuth d) /\ elevations u !! (i, column_id t) = Some (pd_elevation d) /\
      rd16 (buffer pkt) (body_off + 5 * i) = Ok (pd_distances d) /\
      rd8 (buffer pkt) (body_off + 5 * i + 2) = Ok (pd_reflectivities d)) /\
    (forall j, ~ (packet_num f * channels <= j < (packet_num f + 1) * channels) -> pointData f' !! j = pointData f !! j) /\
    scan_complete f' = (column_id t <? last_cloumn_id_ u) /\ last_cloumn_id_ u' = column_id t.
Proof.
  intros Hc Hfit H256 Ht Hcol Hn.
  destruct (ft_decode_ok timezone host now u f pkt channels unit_ t Hc Hfit H256 Ht Hcol Hn) as (r & u' & f' & E).
  destruct Hfit as (_ & H0 & H1 & Hh & Hch & _).
  destruct (ft_decode_accepts _ _ _ _ _ _ _ _ _ Hc H0 H1 E)
    as (-> & ch & un & t' & l & Hh' & Ht' & -> & Hfill & Hsp & Hcount & _ & _ & _ & Hst & _).
  rewrite Hh in Hh'. apply (inj Ok) in Hh' as [= <- <-]. rewrite Ht in Ht'. apply (inj Ok) in Ht' as <-.
  unfold CHANNEL_MAX, kMaxPacketNumPerFrame in *.
  assert (0 <= packet_num f * channels <= 4999 * 256) by (split; [apply Z.mul_nonneg_nonneg|apply Z.mul_le_mono_nonneg]; lia).
  replace (i32 (u32 (packet_num f * channels))) with (packet_num f * channels) in Hfill
    by (unfold i32, u32; rewrite (Z.mod_small (packet_num f * channels)), Z.mod_small by lia; lia).
  destruct (fill_spec _ _ _ _ _ _ Hch Hfill) as [Hout Hin].
  eexists _, f'. split; [exact E|]. split; [|split; [done|split; [|split; [|split; [done|done]]]]].
  - rewrite Hcount. unfold u32. rewrite Z.mod_small; lia.
  - intros i Hi. destruct (Hin i Hi) as (d & Ed & Er). exists d. split; [done|]. by apply ft_read_channel_spec in Er.
  - intros j Hj. apply Hout. lia.
Qed.

(** Neither the column nor the number of channels of a packet is compared with
    the size of the table: a packet that names a column from 384 on, or has more
    than 256 channels, reads outside it. *)
Theorem ft_table_bounds host now u (f : LidarDecodedFrame P) pkt channels unit_ t :
  get_correction_file_ (base u) = true -> ft_fits (buffer pkt) channels unit_ -> 0 < channels ->
  tail_FT_V2 (buffer pkt) (ft_tail_off channels) = Ok t -> COLUMN_MAX <= column_id t \/ CHANNEL_MAX < channels ->
  is_ok (DecodePacket timezone host now u f pkt) = false.
Proof.
  intros Hc (_ & H0 & H1 & Hh & _) Hpos Ht Hout. destruct (DecodePacket _ _ _ _ _ _) as [[[r u'] f']|] eqn:E; [|done].
  destruct (ft_decode_accepts _ _ _ _ _ _ _ _ _ Hc H0 H1 E) as (_ & ch & un & t' & l & Hh' & Ht' & _ & Hfill & _).
  rewrite Hh in Hh'. apply (inj Ok) in Hh' as [= <- <-]. rewrite Ht in Ht'. apply (inj Ok) in Ht' as <-.
  destruct (fill_spec _ _ _ _ _ _ (Z.lt_le_incl _ _ Hpos) Hfill) as [_ Hin]. exfalso.
  destruct (Hin (if COLUMN_MAX <=? column_id t then 0 else CHANNEL_MAX)) as (d & _ & Er);
    [destruct (Z.leb_spec COLUMN_MAX (column_id t)); unfold CHANNEL_MAX in *; lia|].
  unfold read_channel in Er. cbv zeta in Er. rewrite (angle_of_out (azimuths u)) in Er; [discriminate Er|].
  destruct (Z.leb_spec COLUMN_MAX (column_id t)); [by right|left; unfold CHANNEL_MAX; lia].
Qed.

End FtProperties.

(** The bytes of a binary file of version 1: a header, the azimuths and the
    elevations column by column, 32 bytes of checksum. *)
Definition dat_file (version columns channels resolution : Z) (az el : list Z) (hash : list Z) : list Z :=
  [0xee; 0xff; 1; version; 0; 0; columns; channels; resolution] ++ concat (map (le_bytes 4) (az ++ el)) ++ hash.

Lemma i32_u32 v : - 2 ^ 31 <= v < 2 ^ 31 -> i32 (v mod 2 ^ 32) = v.
Proof. intros Hv. unfold i32. rewrite Zplus_mod_idemp_l, Z.mod_small by lia. lia. Qed.

(** A binary file of version 1 is loaded as it was written: the angles of a
    channel in a column are the numbers at its place, times the resolution, and
    the parser has its calibration afterwards. *)
Theorem ft_dat_roundtrip columns channels resolution az el hash u :
  0 <= columns -> 0 <= channels ->
  Z.of_nat (length az) = columns * channels -> Z.of_nat (length el) = columns * channels -> length hash = 32%nat ->
  Forall (fun v => - 2 ^ 31 <= v < 2 ^ 31) (az ++ el) ->
  exists u', LoadCorrectionDatData (dat_file 1 columns channels resolution az el hash) u = Ok (0, u') /\
    get_correction_file_ (base u') = true /\
    forall row col a e, 0 <= row < columns -> 0 <= col < channels ->
      az !! Z.to_nat (row * channels + col) = Some a -> el !! Z.to_nat (row * channels + col) = Some e ->
      azimuths u' !! (col, row) = Some (mul32 (of_Z32 a) (of_Z32 resolution)) /\
      elevations u' !! (col, row) = Some (mul32 (of_Z32 e) (of_Z32 resolution)).
Proof.
  intros Hc Hch Haz Hel Hhash Hr. unfold LoadCorrectionDatData, dat_file.
  rewrite arr_slice_head by done. cbn [mbind result_bind].
  rewrite !Z.eqb_refl. cbn [andb]. change (1 =? 0) with false. cbn iota.
  set (pre := [0xee; 0xff; 1; 1; 0; 0; columns; channels; resolution]).
  destruct (dat_angles_ok 4 i32 sizeof_FTCorrectionsHeader
    (pre ++ concat (map (le_bytes 4) (az ++ el)) ++ hash) columns channels resolution u)
    as (u' & E & Hg & _ & Hin & _); [unfold sizeof_FTCorrectionsHeader; lia|done|done| |].
  { rewrite !length_app, concat_le_bytes_length, length_app, Hhash. unfold sizeof_FTCorrectionsHeader. cbn [length pre]. lia. }
  rewrite E. cbn [mbind result_bind]. exists u'. split; [done|]. split; [done|].
  intros row col a e Hrow Hcol Ha He. destruct (Hin row col Hrow Hcol) as (va & ve & E1 & E2 & -> & ->).
  assert (0 <= row * channels) by (apply Z.mul_nonneg_nonneg; lia).
  pose proof (rd_le_concat 4 pre (az ++ el) hash _ a (lookup_app_l_Some _ el _ _ Ha)) as F1.
  assert ((az ++ el) !! (length az + Z.to_nat (row * channels + col))%nat = Some e) as He'.
  { rewrite lookup_app_r by lia. by replace (_ + _ - _)%nat with (Z.to_nat (row * channels + col)) by lia. }
  pose proof (rd_le_concat 4 pre (az ++ el) hash _ e He') as F2.
  change (Z.of_nat (length pre)) with 9 in F1, F2. unfold sizeof_FTCorrectionsHeader in E1, E2.
  rewrite Nat2Z.inj_add, Haz, Z2Nat.id, Z.add_assoc in F2 by lia. rewrite Z2Nat.id in F1 by lia.
  rewrite E1 in F1. rewrite E2 in F2. apply (inj Ok) in F1 as ->. apply (inj Ok) in F2 as ->.
  rewrite Forall_lookup in Hr. change (8 * Z.of_nat 4) with 32.
  rewrite (i32_u32 a), (i32_u32 e); [done|exact (Hr _ _ He')|exact (Hr _ _ (lookup_app_l_Some _ el _ _ Ha))].
Qed.

(** A file of version 0 is read from its first byte: its first angle is the two
    bytes 0xEE 0xFF every such file begins with. *)
Theorem ft_dat_version_0 block u a b c d columns channels resolution :
  arr_slice block 0 9 = Ok [0xee; 0xff; a; 0; b; c; columns; channels; resolution] ->
  0 < columns -> 0 < channels -> 2 * (columns * channels * 2) + 32 <= Z.of_nat (length block) -> d = mul32 (of_Z32 (-18)) (of_Z32 resolution) ->
  exists u', LoadCorrectionDatData block u = Ok (0, u') /\ azimuths u' !! (0, 0) = Some d.
Proof.
  intros Hs Hc Hch Hl ->. unfold LoadCorrectionDatData, sizeof_FTCorrectionsHeader. rewrite Hs. cbn [mbind result_bind].
  rewrite !Z.eqb_refl. cbn [andb]. cbn iota.
  destruct (dat_angles_ok 2 i16 0 block columns channels resolution u) as (u' & E & _ & _ & Hin & _); [lia..|].
  rewrite E. cbn [mbind result_bind]. exists u'. split; [done|].
  destruct (Hin 0 0) as (az & el & E1 & _ & -> & _); [lia|lia|].
  assert (exists rest, block = 0xee :: 0xff :: rest) as [rest ->].
  { unfold arr_slice in Hs. case_decide; [|done]. cbn in Hs. destruct block as [|x [|y rest]]; try discriminate Hs.
    exists rest. by apply (inj Ok) in Hs as [= -> -> _]. }
  replace (0 + Z.of_nat 2 * (0 * channels + 0)) with 0 in E1 by lia.
  unfold rd_le in E1. change (0xee :: 0xff :: rest) with ([0xee; 0xff] ++ rest) in E1. rewrite arr_slice_head in E1 by done. cbn in E1.
  by apply (inj Ok) in E1 as <-.
Qed.

(** ** Witnesses *)

(** Two channels in column 5; the packet before was column 9. *)
Definition demo_ft_table (x : Z) : gmap (Z * Z) f32 := <[(0, 5) := of_Z32 x]> (<[(1, 5) := of_Z32 (x + 1)]> ∅).
Definition demo_ft : Udp7_2Parser := mk_udp7_2 (demo_general true) 9 (demo_ft_table 20) (demo_ft_table 10).
Definition demo_ft_packet (channels column : Z) : UdpPacket :=
  mk_packet (demo_bytes ([0xEE; 0xFF; 7; 2; 0; 0] ++ replicate 7 0 ++ [4; 0; channels; 0] ++ replicate 8 0 ++
    [10; 1; 7; 0; 0; 20; 1; 8; 0; 0] ++ replicate 7 0 ++ [column mod 256; column / 256])) 70 false 0 0 2368.

Lemma ft_packet_points_witness :
  exists u' f', DecodePacket 0 7 (fun _ => 0) demo_ft demo_frame (demo_ft_packet 2 5) = Ok (0, u', f') /\
    scan_complete f' = true /\ exists d, pointData f' !! 1 = Some d /\ pd_distances d = 276 /\ pd_azimuth d = of_Z32 11.
Proof.
  destruct (tail_FT_V2 (buffer (demo_ft_packet 2 5)) (ft_tail_off 2)) as [t|] eqn:Et; [|vm_compute in Et; discriminate Et].
  assert (column_id t = 5) as Hcol by (vm_compute in Et; by apply (inj Ok) in Et as <-).
  destruct (ft_packet_points 0 7 (fun _ => 0) demo_ft demo_frame (demo_ft_packet 2 5) 2 4 t)
    as (u' & f' & E & _ & _ & Hin & _ & Hs & _).
  - done.
  - unfold ft_fits. repeat split; try reflexivity; vm_compute; congruence.
  - vm_compute. congruence.
  - exact Et.
  - rewrite Hcol. split; [vm_compute; split; congruence|]. intros i Hi.
    assert (i = 0 \/ i = 1) as [-> | ->] by lia; split; eexists; vm_compute; reflexivity.
  - vm_compute. split; congruence.
  - exists u', f'. split; [exact E|]. rewrite Hcol in *. split; [exact Hs|].
    destruct (Hin 1) as (d & Hd & Ha & _ & Hdist & _); [lia|]. exists d. split; [exact Hd|].
    split; [apply (inj Ok); by rewrite <-Hdist|]. apply (inj Some). by rewrite <-Ha.
Defined.

Lemma ft_table_bounds_witness :
  is_ok (DecodePacket 0 7 (fun _ => 0) demo_ft demo_frame (demo_ft_packet 2 400)) = false.
Proof.
  destruct (tail_FT_V2 (buffer (demo_ft_packet 2 400)) (ft_tail_off 2)) as [t|] eqn:Et; [|vm_compute in Et; discriminate Et].
  apply (ft_table_bounds 0 7 (fun _ => 0) demo_ft demo_frame (demo_ft_packet 2 400) 2 4 t);
    [done| |lia|exact Et|left; vm_compute in Et; apply (inj Ok) in Et as <-; vm_compute; congruence].
  unfold ft_fits. repeat split; try reflexivity; vm_compute; congruence.
Defined.

Lemma ft_dat_roundtrip_witness :
  exists u', LoadCorrectionDatData (dat_file 1 2 1 100 [-3; 4] [5; 6] (replicate 32 0)) demo_ft = Ok (0, u') /\
    azimuths u' !! (0, 1) = Some (mul32 (of_Z32 4) (of_Z32 100)).
Proof.
  destruct (ft_dat_roundtrip 2 1 100 [-3; 4] [5; 6] (replicate 32 0) demo_ft) as (u' & E & _ & Hin);
    [lia|lia|done|done|done|repeat constructor; cbn; lia|].
  exists u'. split; [exact E|]. by destruct (Hin 1 0 4 6) as [? _]; [lia|lia|done|done|].
Defined.

Lemma ft_dat_version_0_witness :
  exists u', LoadCorrectionDatData (dat_file 0 2 1 100 [-3; 4] [5; 6] (replicate 32 0)) demo_ft = Ok (0, u') /\
    azimuths u' !! (0, 0) = Some (mul32 (of_Z32 (-18)) (of_Z32 100)).
Proof.
  exact (ft_dat_version_0 (dat_file 0 2 1 100 [-3; 4] [5; 6] (replicate 32 0)) demo_ft 1 0 0 _ 2 1 100 eq_refl
    ltac:(lia) ltac:(lia) ltac:(vm_compute; congruence) eq_refl).
Defined.
