(* ===== verification/Udp4_3.v ===== *)
(** * Udp4_3: the decoder of PandarAT128

    UdpParser/src/udp4_3_parser.cc, UdpParser/include/udp4_3_parser.h and
    UdpProtocol/udp_protocol_v4_3.h.  The lidar scans several fields, which the
    binary calibration file describes together with the angles of the channels;
    a frame ends when the azimuth jumps, or by a timeout packet near the end of a
    field.  The parser has a flag [get_correction_file_] of its own, which hides
    the one of the base class. *)

From Stdlib Require Import SpecFloat.
From S2P Require Import Spinning Prelude Bytes Streams Floats LidarTypes PacketLoss GeneralParser Decoder ProtocolV1_4 Calendar.
From S2P Require Import Firetimes1_4 Udp1_4 Points Walk LidarTime.
Local Open Scope Z_scope.

Definition CORRECTION_AZIMUTH_STEP : Z := 200.
Definition CORRECTION_AZIMUTH_NUM : Z := 180.
Definition AT128_LASER_NUM : Z := 128.
Definition ANGULAR_RESOLUTION : Z := 256.
Definition MARGINAL_ANGLE : Z := 7625.
Definition ACCEPTANCE_ANGLE : Z := 200.
Definition kAzimuthTolerance : Z := 1000.
Definition CIRCLE_ANGLE : Z := 36000.

(** ** The calibration *)

(** The bytes of the header that are used. *)
Record PandarATCorrectionsHeader : Set := mk_at_header { channel_number : Z; frame_number : Z; resolution : Z }.

(** The arrays have 8, 128 and [CIRCLE_ANGLE] elements, zero at first. *)
Record PandarATCorrections : Set := mk_at {
  at_header : PandarATCorrectionsHeader;
  l_start_frame : list Z;
  l_end_frame : list Z;
  l_azimuth : list Z;
  l_elevation : list Z;
  azimuth_offset : list Z;
  elevation_offset : list Z;
}.

Definition zeros (n : Z) : list Z := replicate (Z.to_nat n) 0.
Definition PandarATCorrections_new : PandarATCorrections :=
  mk_at (mk_at_header 0 0 0) (zeros 8) (zeros 8) (zeros AT128_LASER_NUM) (zeros AT128_LASER_NUM)
    (zeros CIRCLE_ANGLE) (zeros CIRCLE_ANGLE).

Record Udp4_3Parser : Type := mk_udp4_3 {
  base : GeneralParser;
  at_get_correction_file_ : bool;
  use_angle_ : bool;
  m_PandarAT_corrections : PandarATCorrections;
}.

Definition Udp4_3Parser_new (p : GeneralParser) : Udp4_3Parser := mk_udp4_3 p false true PandarATCorrections_new.
Definition set_base (p : GeneralParser) (u : Udp4_3Parser) : Udp4_3Parser :=
  mk_udp4_3 p (at_get_correction_file_ u) (use_angle_ u) (m_PandarAT_corrections u).

(** ** The calibration file *)

(** A memcpy of the first elements of an array. *)
Definition overlay {A} (src old : list A) : list A := src ++ drop (length src) old.

(** l.azimuth[i] = l.azimuth[i] * header.resolution, in [int]. *)
Definition scale (r : Z) (l : list Z) : result (list Z) :=
  foldM (fun acc x => v ← int_ok (x * r); Ok (acc ++ [v])) [] l.

(** The body of case 5, for a header that was accepted. *)
Definition load_angles (block : list Z) (h : PandarATCorrectionsHeader) (c : PandarATCorrections) : result PandarATCorrections :=
  let frame_num := frame_number h in
  let channel_num := channel_number h in
  let r := resolution h in
  let adjust_length := channel_num * CORRECTION_AZIMUTH_NUM in
  let p := 16 in
  st ← read_words 4 block p frame_num;
  let p := p + 4 * frame_num in
  en ← read_words 4 block p frame_num;
  let p := p + 4 * frame_num in
  az ← read_words 4 block p channel_num;
  let p := p + 4 * channel_num in
  el ← read_words 4 block p channel_num;
  let p := p + 4 * channel_num in
  ao ← arr_slice block p adjust_length;
  let p := p + adjust_length in
  eo ← arr_slice block p adjust_length;
  let p := p + adjust_length in
  _ ← arr_slice block p 32;
  az ← scale r (map i32 az);
  el ← scale r (map i32 el);
  Ok (mk_at h (overlay (map (fun x => u32 (x * r)) st) (l_start_frame c)) (overlay (map (fun x => u32 (x * r)) en) (l_end_frame c))
        (overlay az (l_azimuth c)) (overlay el (l_elevation c))
        (overlay (map (fun x => i8 (i8 x * r)) ao) (azimuth_offset c))
        (overlay (map (fun x => i8 (i8 x * r)) eo) (elevation_offset c))).

Definition set_header (h : PandarATCorrectionsHeader) (c : PandarATCorrections) : PandarATCorrections :=
  mk_at h (l_start_frame c) (l_end_frame c) (l_azimuth c) (l_elevation c) (azimuth_offset c) (elevation_offset c).

(** A file of version 5; the header is taken over before it is judged. *)
Definition LoadCorrectionString (block : list Z) (u : Udp4_3Parser) : result (Z * Udp4_3Parser) :=
  header ← arr_slice block 0 16;
  d0 ← rd8 header 0; d1 ← rd8 header 1; v1 ← rd8 header 3;
  ch ← rd8 header 4; fr ← rd8 header 6; res ← rd8 header 15;
  if (d0 =? 0xee) && (d1 =? 0xff) && (v1 =? 5) then
    let h := mk_at_header ch fr res in
    if (8 <? fr) || (AT128_LASER_NUM <? ch)
    then Ok (-1, mk_udp4_3 (base u) (at_get_correction_file_ u) (use_angle_ u) (set_header h (m_PandarAT_corrections u)))
    else
      c ← load_angles block h (m_PandarAT_corrections u);
      Ok (0, mk_udp4_3 (base u) true (use_angle_ u) c)
  else Ok (-1, u).

Definition LoadCorrectionFile (fs : string -> option string) (path : string) (u : Udp4_3Parser) : result Udp4_3Parser :=
  match fs path with
  | Some buffer => '(_, u) ← LoadCorrectionString (Streams.bytes_of buffer) u; Ok u
  | None => Ok u
  end.

(** The table [m_PandarAT_corrections.elevation] is another one than
    [l_elevation]: nothing fills it after the constructor. *)
Definition GetVecticalAngle (u : Udp4_3Parser) (channel : Z) : result Z :=
  if negb (at_get_correction_file_ u) then Ok (-1) else arr_get (zeros AT128_LASER_NUM) channel.

(** ** Packets *)

(** HS_LIDAR_TAIL_ST_V3, and HS_LIDAR_TAIL_ST_V7 of the 4.7 protocol, which has a
    frame number where the other has reserved bytes. *)
Record HS_LIDAR_TAIL_ST : Set := mk_tail_st {
  st_Shutdown : Z; st_FrameID : Z; st_MotorSpeed : Z; st_Timestamp : Z; st_ReturnMode : Z; st_UTC : list Z }.

Definition tail_ST_V3 (buf : list Z) (off : Z) : result HS_LIDAR_TAIL_ST :=
  sd ← rd8 buf (off + 6); ms ← rd16 buf (off + 18); ts ← rd32 buf (off + 20); rm ← rd8 buf (off + 24);
  utc ← arr_slice buf (off + 26) 6;
  Ok (mk_tail_st sd 0 ms ts rm utc).

Definition sizeof_TAIL_ST : Z := 32.

(** A block: the azimuth, the fine azimuth, the channels. *)
Definition block_size (h : HS_LIDAR_HEADER_ME_V4) : Z := 3 + 4 * GetLaserNum h.
Definition tail_off (h : HS_LIDAR_HEADER_ME_V4) : Z := 12 + block_size h * GetBlockNum h + 4.

(** (u16Azimuth, u8FineAzimuth) of block [b]. *)
Definition read_azimuth (h : HS_LIDAR_HEADER_ME_V4) (buf : list Z) (b : Z) : result (Z * Z) :=
  a ← rd16 buf (12 + block_size h * b); f ← rd8 buf (12 + block_size h * b + 2); Ok (a, f).

(** azimuth + GetFiretimesCorrection(i, spin_speed_) * kAllFineResolutionFloat * 2 *)
Definition channel_azimuth (p : GeneralParser) (azimuth i : Z) : result f32 :=
  if get_firetime_file_ p then
    c ← GeneralParser.GetFiretimesCorrection p i (of_Z64 (spin_speed_ p));
    Ok (to32 (add64 (of_Z64 azimuth) (mul64 (mul64 c (of_Z64 25600)) (of_Z64 2))))
  else Ok (of_Z32 azimuth).

Definition read_channel (p : GeneralParser) (h : HS_LIDAR_HEADER_ME_V4) (buf : list Z) (a : Z * Z) (b i : Z)
    (old : option PointDecodeData) : result PointDecodeData :=
  let pChnUnit := 12 + block_size h * b + 3 + 4 * i in
  az ← channel_azimuth p (a.1 * ANGULAR_RESOLUTION + a.2) i;
  dist ← rd16 buf pChnUnit;
  refl ← rd8 buf (pChnUnit + 2);
  conf ← rd8 buf (pChnUnit + 3);
  Ok (mk_pdd az (default f_zero (pd_elevation <$> old)) dist refl (Some conf) (old ≫= pd_chn_index) (old ≫= pd_mirror_index)).

Definition IsNeedFrameSplit (azimuth last : Z) : bool := (kAzimuthTolerance <? Z.abs (azimuth - last)) && negb (last =? 0).

(** What a block does to (scan_complete, use_angle_, last_azimuth_). *)
Definition split_block (a : Z * Z) (s : bool * bool * Z) : bool * bool * Z :=
  let '(complete, use, last) := s in
  if IsNeedFrameSplit a.1 last
  then if use then (true, true, a.1) else (complete, true, a.1)
  else (complete, use, a.1).

(** The test of a timeout packet: near the end of one of the first three fields. *)
Definition timeout_split (c : PandarATCorrections) (last : Z) : result bool :=
  foldM (fun found i =>
    if found : bool then Ok true
    else
      start ← arr_get (l_start_frame c) i;
      let angle := i32 (u32 (start / ANGULAR_RESOLUTION + MARGINAL_ANGLE - last)) in
      Ok (Z.abs angle <? ACCEPTANCE_ANGLE)) false (seqZ 0 3).

Section Decode.
Context {P : Type}.
Variable timezone : TimeZone.

Definition count_packet (now : nat -> Z) (h : HS_LIDAR_HEADER_ME_V4) (t : HS_LIDAR_TAIL_ST) (buf : list Z)
    (p : GeneralParser) : result GeneralParser :=
  p ← (if HasSeqNum h then seq ← rd32 buf (tail_off h + sizeof_TAIL_ST); Ok (set_loss (CalPktLoss now seq (loss_ p)) p)
       else Ok p);
  Ok (set_loss (CalPktTimeLoss now (GetMicroLidarTimeU64_1900 timezone (st_UTC t) (st_Timestamp t)) (loss_ p)) p).

Definition DecodePacket (host : Z) (now : nat -> Z) (u : Udp4_3Parser) (frame : LidarDecodedFrame P)
    (pkt : UdpPacket) : result (Z * Udp4_3Parser * LidarDecodedFrame P) :=
  if negb (at_get_correction_file_ u) then Ok (-1, u, frame)
  else
    late ← (if is_timeout pkt then timeout_split (m_PandarAT_corrections u) (last_azimuth_ (base u)) else Ok false);
    if late : bool then
      Ok (0, mk_udp4_3 (base u) (at_get_correction_file_ u) false (m_PandarAT_corrections u), set_scan_complete true frame)
    else
      let buf := buffer pkt in
      b0 ← rd8 buf 0;
      b1 ← rd8 buf 1;
      if negb (b0 =? 0xEE) || negb (b1 =? 0xFF) then Ok (-1, u, frame)
      else
        h ← header_cast buf header_off;
        t ← tail_ST_V3 buf (tail_off h);
        p ← count_packet now h t buf (base u);
        let p := set_motor (st_MotorSpeed t) (st_ReturnMode t =? kDualReturn) p in
        frame ← put_timestamp (packet_num frame)
          (if use_timestamp_type frame =? 0 then GetMicroLidarTimeU64_1900 timezone (st_UTC t) (st_Timestamp t)
           else recv_timestamp pkt) frame;
        let frame := set_packet_info host (st_MotorSpeed t) (st_Shutdown t) (st_ReturnMode t) (GetBlockNum h) (GetLaserNum h)
          (div32 (of_Z32 (m_u8DistUnit h)) (of_Z32 1000)) frame in
        let index := i32 (u32 (packet_num frame * GetBlockNum h * GetLaserNum h)) in
        '(s, data) ← step_blocks kMaxPointsNumPerFrame index (GetBlockNum h) (GetLaserNum h) (read_azimuth h buf)
          (read_channel p h buf) split_block (scan_complete frame, use_angle_ u, last_azimuth_ p) (pointData frame);
        let '(complete, use, last) := s in
        Ok (0, mk_udp4_3 (set_azimuths last (last_last_azimuth_ p) (rotation_flag p) (frame_start_azimuth_ p) p)
                 (at_get_correction_file_ u) use (m_PandarAT_corrections u),
            set_counts (u32 (packet_num frame + 1)) (points_num frame) (set_scan_complete complete (set_pointData data frame))).

(** ** Coordinates *)

(** (CIRCLE + angle) % CIRCLE in [int]. *)
Definition wrap_circle (angle : Z) : result Z := a ← int_ok (CIRCLE + angle); Ok (Z.rem a CIRCLE).

(** The test of the loop over the fields, in [uint32_t]. *)
Definition in_field (Azimuth start end_ : Z) : bool :=
  u32 (Azimuth + CIRCLE - start) mod CIRCLE + u32 (end_ + CIRCLE - Azimuth) mod CIRCLE =?
    u32 (end_ + CIRCLE - start) mod CIRCLE.

(** The field of an azimuth: the fields are tried from the first on. *)
Fixpoint find_field (fuel : nat) (c : PandarATCorrections) (Azimuth field count : Z) : result (option Z) :=
  match fuel with
  | O => Ok None
  | S fuel =>
      if count <? frame_number (at_header c) then
        start ← arr_get (l_start_frame c) field;
        end_ ← arr_get (l_end_frame c) field;
        if in_field Azimuth start end_ then Ok (Some field)
        else find_field fuel c Azimuth ((field + 1) mod frame_number (at_header c)) (count + 1)
      else Ok None
  end.

Definition STEP3 : Z := CORRECTION_AZIMUTH_STEP * kFineResolutionInt.

(** [GetAzimuthAdjustV3] and [GetElevationAdjustV3], on their table. *)
Definition AdjustV3 (offset : list Z) (ch azi : Z) : result f32 :=
  i ← floor_to_int (div32 (of_Z32 azi) (of_Z32 STEP3));
  let l := i32 (u32 (azi - i * STEP3)) in
  let k := div32 (of_Z32 l) (of_Z32 STEP3) in
  a ← arr_get offset (ch * CORRECTION_AZIMUTH_NUM + i);
  b ← arr_get offset (ch * CORRECTION_AZIMUTH_NUM + i + 1);
  Ok (round32 (add32 (mul32 (sub32 (of_Z32 1) k) (of_Z32 a)) (mul32 k (of_Z32 b)))).

Definition GetAzimuthAdjustV3 (c : PandarATCorrections) (ch azi : Z) : result f32 := AdjustV3 (azimuth_offset c) (u8 ch) (u32 azi).
Definition GetElevationAdjustV3 (c : PandarATCorrections) (ch azi : Z) : result f32 := AdjustV3 (elevation_offset c) (u8 ch) (u32 azi).

(** (azimuth, elevation) of channel [i] in [field]. *)
Definition point_angles (c : PandarATCorrections) (field i Azimuth : Z) : result (Z * Z) :=
  le ← arr_get (l_elevation c) i;
  ea ← GetElevationAdjustV3 c i Azimuth;
  elevation ← to_int (add32 (of_Z32 le) (mul32 ea (of_Z32 kFineResolutionInt)));
  elevation ← wrap_circle elevation;
  start ← arr_get (l_start_frame c) field;
  la ← arr_get (l_azimuth c) i;
  aa ← GetAzimuthAdjustV3 c i Azimuth;
  azimuth ← to_int (add32 (of_Z32 (u32 (u32 (Azimuth + CIRCLE - start) * 2 - la))) (mul32 aa (of_Z32 kFineResolutionInt)));
  azimuth ← wrap_circle azimuth;
  Ok (azimuth, elevation).

Context {PT : PointType P}.
Variables (sin_all_angle_ cos_all_angle_ : Z -> f32).
Variables (sin32 cos32 : f32 -> f32).

Definition compute_point (u : Udp4_3Parser) (frame : LidarDecodedFrame P) (packet_index field i point_index : Z)
    (old : option P) : result P :=
  d ← array_at kMaxPointsNumPerFrame point_index (pointData frame);
  let distance := point_distance d (distance_unit frame) in
  Azimuth ← to_int (pd_azimuth d);
  '(azimuth, elevation) ←
    (if at_get_correction_file_ u then point_angles (m_PandarAT_corrections u) field i Azimuth else Ok (0, 0));
  place_point sin_all_angle_ cos_all_angle_ sin32 cos32 (Some (transform_ (base u))) true frame packet_index i azimuth
    (Ok elevation) distance d old.

(** The field of a block is that of its first point; a block outside all fields
    is passed over. *)
Definition block_field (u : Udp4_3Parser) (frame : LidarDecodedFrame P) (packet_index b : Z) : result (option Z) :=
  d ← array_at kMaxPointsNumPerFrame (u32 (packet_index * per_points_num frame + b * laser_num frame)) (pointData frame);
  Azimuth ← to_int (pd_azimuth d);
  if at_get_correction_file_ u
  then
    let c := m_PandarAT_corrections u in
    find_field (S (Z.to_nat (frame_number (at_header c)))) c Azimuth 0 0
  else Ok (Some 0).

Definition compute_block (u : Udp4_3Parser) (frame : LidarDecodedFrame P) (packet_index : Z) (pts : gmap Z P) (b : Z)
    : result (gmap Z P) :=
  field ← block_field u frame packet_index b;
  match field with
  | None => Ok pts
  | Some field =>
      foldM (fun pts i =>
        let k := point_index frame packet_index b i in
        x ← compute_point u frame packet_index field i k (pts !! k);
        array_put kMaxPointsNumPerFrame k x pts) pts (seqZ 0 (laser_num frame))
  end.

Definition ComputeXYZI (u : Udp4_3Parser) (frame : LidarDecodedFrame P) (packet_index : Z)
    : result (Z * Udp4_3Parser * LidarDecodedFrame P) :=
  pts ← foldM (compute_block u frame packet_index) (points frame) (seqZ 0 (block_num frame));
  Ok (0, set_base (FrameNumAdd (base u)) u, set_points pts frame).

End Decode.

(** The parser object as its callers see it. *)
#[export] Instance udp4_3_decoder {P} {PT : PointType P} (timezone : TimeZone) (sin_all_angle_ cos_all_angle_ : Z -> f32)
    (sin32 cos32 : f32 -> f32) : Decoder P Udp4_3Parser := {|
  general := base;
  with_general := set_base;
  v_DecodePacket host now u f pkt := DecodePacket timezone host now u f pkt;
  v_ComputeXYZI := ComputeXYZI sin_all_angle_ cos_all_angle_ sin32 cos32;
  v_LoadCorrectionFile := LoadCorrectionFile;
  v_LoadCorrectionString block u := LoadCorrectionString (Streams.bytes_of block) u;
  v_LoadFiretimesFile fs path u := Ok (set_base (GeneralParser.LoadFiretimesFile fs path (base u)) u);
|}.

(** ** Lemmas: packets *)

(** A packet with its sections inside the receive buffer. *)
Definition at_fits (buf : list Z) (h : HS_LIDAR_HEADER_ME_V4) : Prop :=
  length buf = 1500%nat /\ byte_list buf /\ rd8 buf 0 = Ok 0xEE /\ rd8 buf 1 = Ok 0xFF /\
  header_cast buf header_off = Ok h /\ tail_off h + sizeof_TAIL_ST + 4 <= 1500.

Lemma overlay_length {A} (src old : list A) : (length src <= length old)%nat -> length (overlay src old) = length old.
Proof. intros H. unfold overlay. rewrite length_app, length_drop. lia. Qed.

Lemma tail_ST_V3_ok buf off : 0 <= off -> off + 32 <= Z.of_nat (length buf) -> exists t, tail_ST_V3 buf off = Ok t.
Proof. intros Ho Hl. unfold tail_ST_V3. read_fields. Qed.

(** A unit lies in its block, the blocks in front of the tail. *)
Lemma at_unit_inside h b i : 0 <= GetLaserNum h -> 0 <= b < GetBlockNum h -> 0 <= i < GetLaserNum h ->
  let off := 12 + block_size h * b + 3 + 4 * i in 0 <= off /\ off + 4 <= tail_off h.
Proof.
  intros Hl Hb Hi. unfold tail_off, block_size.
  assert ((3 + 4 * GetLaserNum h) * (b + 1) <= (3 + 4 * GetLaserNum h) * GetBlockNum h) by (apply Z.mul_le_mono_nonneg_l; lia).
  assert (0 <= (3 + 4 * GetLaserNum h) * b) by (apply Z.mul_nonneg_nonneg; lia). lia.
Qed.

Lemma at_head_inside h b : 0 <= GetLaserNum h -> 0 <= b < GetBlockNum h ->
  let off := 12 + block_size h * b in 0 <= off /\ off + 3 <= tail_off h.
Proof.
  intros Hl Hb. unfold tail_off, block_size.
  assert ((3 + 4 * GetLaserNum h) * (b + 1) <= (3 + 4 * GetLaserNum h) * GetBlockNum h) by (apply Z.mul_le_mono_nonneg_l; lia).
  assert (0 <= (3 + 4 * GetLaserNum h) * b) by (apply Z.mul_nonneg_nonneg; lia). lia.
Qed.

Lemma at_channel_azimuth_ok p a i : fire_ok p -> 0 <= i < 256 -> is_ok (channel_azimuth p a i) = true.
Proof.
  intros Hf Hi. unfold channel_azimuth. destruct (get_firetime_file_ p) eqn:E; [|done].
  destruct (Hf E i Hi) as [v Hv]. unfold GeneralParser.GetFiretimesCorrection. by rewrite Hv.
Qed.

Lemma at_read_channel_total p h buf a b i old : fire_ok p -> tail_off h <= Z.of_nat (length buf) ->
  0 <= GetLaserNum h <= 256 -> 0 <= b < GetBlockNum h -> 0 <= i < GetLaserNum h ->
  is_ok (read_channel p h buf a b i old) = true.
Proof.
  intros Hf Ht Hl Hb Hi. destruct (at_unit_inside h b i) as [H1 H2]; [lia|done|done|].
  unfold read_channel. set (off := 12 + _ + _ + _) in *. cbv zeta.
  pose proof (at_channel_azimuth_ok p (a.1 * ANGULAR_RESOLUTION + a.2) i Hf ltac:(lia)) as Ha.
  destruct (channel_azimuth _ _ _); [|done]. cbn [mbind result_bind].
  unfold rd16. destruct (rd_le_in 2 buf off) as [d ->]; [lia|lia|]. cbn [mbind result_bind].
  destruct (rd8_in buf (off + 2)) as [r ->]; [lia|]. cbn [mbind result_bind].
  destruct (rd8_in buf (off + 3)) as [c ->]; [lia|]. done.
Qed.

Lemma at_read_channel_spec p h buf a b i old d : read_channel p h buf a b i old = Ok d ->
  let off := 12 + block_size h * b + 3 + 4 * i in
  channel_azimuth p (a.1 * ANGULAR_RESOLUTION + a.2) i = Ok (pd_azimuth d) /\ rd16 buf off = Ok (pd_distances d) /\
  rd8 buf (off + 2) = Ok (pd_reflectivities d) /\ exists c, rd8 buf (off + 3) = Ok c /\ pd_confidence d = Some c.
Proof. unfold read_channel. cbv zeta. intros H. inv_ok. cbn. eauto 10. Qed.

(** The dimensions of a packet that fits. *)
Lemma at_fits_dims buf h n : at_fits buf h -> 0 <= n < kMaxPacketNumPerFrame ->
  is_u8 (GetLaserNum h) /\ is_u8 (GetBlockNum h) /\ 0 <= tail_off h /\
  (n + 1) * (GetBlockNum h * GetLaserNum h) <= kMaxPointsNumPerFrame /\
  i32 (u32 (n * GetBlockNum h * GetLaserNum h)) = n * GetBlockNum h * GetLaserNum h /\ 0 <= n * GetBlockNum h * GetLaserNum h.
Proof.
  intros (Hlen & Hbl & _ & _ & Hh & Hsz) Hn. destruct (header_cast_range _ _ _ Hbl Hh) as (HL & HB & _).
  unfold is_u8, GetLaserNum, GetBlockNum, tail_off, block_size, sizeof_TAIL_ST in *.
  assert (0 <= m_u8BlockNum h * m_u8LaserNum h) by (apply Z.mul_nonneg_nonneg; lia).
  unfold kMaxPointsNumPerFrame, kMaxPointsNumPerPacket, kMaxPacketNumPerFrame, GetBlockNum, GetLaserNum in *.
  assert ((n + 1) * (m_u8BlockNum h * m_u8LaserNum h) <= 5000 * 512) by (apply Z.mul_le_mono_nonneg; lia).
  assert (0 <= n * (m_u8BlockNum h * m_u8LaserNum h)) by (apply Z.mul_nonneg_nonneg; lia).
  assert (n * m_u8BlockNum h * m_u8LaserNum h = n * (m_u8BlockNum h * m_u8LaserNum h)) as -> by lia.
  repeat split; try lia. unfold i32, u32. rewrite (Z.mod_small (n * _)), Z.mod_small by lia. lia.
Qed.

(** The azimuths of the blocks of a packet. *)
Definition azimuths_of (h : HS_LIDAR_HEADER_ME_V4) (buf : list Z) (azs : list (Z * Z)) : Prop :=
  Z.of_nat (length azs) = GetBlockNum h /\
  forall b, 0 <= b < GetBlockNum h -> exists a, azs !! Z.to_nat b = Some a /\ read_azimuth h buf b = Ok a.

Definition at_stamp (timezone : TimeZone) (t : HS_LIDAR_TAIL_ST) {P} (f : LidarDecodedFrame P) (pkt : UdpPacket) : Z :=
  if use_timestamp_type f =? 0 then GetMicroLidarTimeU64_1900 timezone (st_UTC t) (st_Timestamp t) else recv_timestamp pkt.

Section AtLemmas.
Context {P : Type}.
Variable timezone : TimeZone.

Lemma count_packet_loss now h t buf p p' : count_packet timezone now h t buf p = Ok p' -> exists l, p' = set_loss l p.
Proof. unfold count_packet. intros H. inv_ok. destruct (HasSeqNum h); inv_ok; eexists; reflexivity. Qed.

(** A packet that fits is decoded: what it leaves. *)
Lemma at_decode_ok host now u (f : LidarDecodedFrame P) pkt h :
  at_get_correction_file_ u = true -> is_timeout pkt = false -> fire_ok (base u) -> at_fits (buffer pkt) h ->
  0 <= packet_num f < kMaxPacketNumPerFrame ->
  exists t l azs s h0 data p1, tail_ST_V3 (buffer pkt) (tail_off h) = Ok t /\ azimuths_of h (buffer pkt) azs /\
    p1 = set_motor (st_MotorSpeed t) (st_ReturnMode t =? kDualReturn) (set_loss l (base u)) /\
    fill_blocks kMaxPointsNumPerFrame (packet_num f * GetBlockNum h * GetLaserNum h) (GetBlockNum h) (GetLaserNum h)
      (read_azimuth h (buffer pkt)) (read_channel p1 h (buffer pkt)) (0, 0) (pointData f) = Ok (h0, data) /\
    s = foldl (fun s a => split_block a s) (false, use_angle_ u, last_azimuth_ (base u)) azs /\
    exists u' f', DecodePacket timezone host now u f pkt = Ok (0, u', f') /\ pointData f' = data /\
      packet_num f' = packet_num f + 1 /\ scan_complete f' = s.1.1 /\ use_angle_ u' = s.1.2 /\ last_azimuth_ (base u') = s.2 /\
      m_PandarAT_corrections u' = m_PandarAT_corrections u /\ at_get_correction_file_ u' = true /\
      host_timestamp f' = host /\ sensor_timestamp f' = <[packet_num f := at_stamp timezone t f pkt]> (sensor_timestamp f).
Proof.
  intros Hc Hto Hf Hfit Hn. destruct (at_fits_dims _ _ _ Hfit Hn) as (HL & HB & Ht0 & Hmax & Hidx & Hpos).
  destruct Hfit as (Hlen & Hbl & H0 & H1 & Hh & Hsz). unfold is_u8, sizeof_TAIL_ST in *.
  destruct (tail_ST_V3_ok (buffer pkt) (tail_off h)) as [t Et]; [done|lia|].
  unfold DecodePacket. rewrite Hc, Hto, H0, H1. cbn [negb mbind result_bind]. rewrite !Z.eqb_refl. cbn [negb orb].
  rewrite Hh. cbn [mbind result_bind]. rewrite Et. cbn [mbind result_bind].
  assert (exists p, count_packet timezone now h t (buffer pkt) (base u) = Ok p) as [p Ep].
  { unfold count_packet. destruct (HasSeqNum h); [|cbn; eauto]. unfold rd32, sizeof_TAIL_ST.
    destruct (rd_le_in 4 (buffer pkt) (tail_off h + 32)) as [s ->]; [lia|lia|]. cbn. eauto. }
  rewrite Ep. cbn [mbind result_bind]. destruct (count_packet_loss _ _ _ _ _ _ Ep) as [l ->].
  unfold put_timestamp. rewrite array_put_ok by done. cbn [mbind result_bind].
  set (p1 := set_motor _ _ _). cbn [packet_num set_packet_info pointData scan_complete]. rewrite Hidx.
  assert (fire_ok p1) as Hf1 by exact Hf.
  destruct (fill_blocks_ok kMaxPointsNumPerFrame (packet_num f * GetBlockNum h * GetLaserNum h) (GetLaserNum h)
    (read_azimuth h (buffer pkt)) (read_channel p1 h (buffer pkt)) ltac:(lia) (GetBlockNum h) (0, 0) (pointData f))
    as (h0 & data & Efill); [lia|done|lia| |].
  { intros b Hb. destruct (at_head_inside h b) as [A B]; [lia|done|]. unfold read_azimuth, rd16.
    destruct (rd_le_in 2 (buffer pkt) (12 + block_size h * b)) as [a ->]; [lia|lia|]. cbn [mbind result_bind].
    destruct (rd8_in (buffer pkt) (12 + block_size h * b + 2)) as [a' ->]; [lia|]. cbn [mbind result_bind].
    eexists. split; [reflexivity|]. intros i old Hi. apply at_read_channel_total; (done || lia). }
  pose proof Efill as Efill'. rewrite <-(Z2Nat.id (GetBlockNum h)) in Efill' at 2 by lia.
  destruct (step_blocks_of_fill _ _ _ _ _ split_block _ _ _ (false, use_angle_ u, last_azimuth_ p1) _ _ Efill')
    as (azs & Hal & Haz & Estep).
  rewrite Z2Nat.id in * by lia. rewrite Estep. cbn [mbind result_bind].
  set (s := foldl _ _ azs) in *. destruct s as [[complete use] last] eqn:Es.
  exists t, l, azs, s, h0, data, p1. split; [done|]. split; [split; [lia|exact Haz]|]. split; [done|]. split; [exact Efill|].
  split; [done|]. do 2 eexists. split; [reflexivity|]. rewrite Es. cbn.
  unfold u32, kMaxPacketNumPerFrame in *. rewrite Z.mod_small by lia. done.
Qed.

End AtLemmas.

(** ** Lemmas: the split *)

(** How many blocks jump, from azimuth [last] on. *)
Fixpoint jumps (last : Z) (azs : list (Z * Z)) : nat :=
  match azs with
  | [] => O
  | a :: azs => ((if IsNeedFrameSplit a.1 last then 1 else 0) + jumps a.1 azs)%nat
  end.

Lemma split_blocks azs : forall complete use az0,
  foldl (fun s a => split_block a s) (complete, use, az0) azs =
    (complete || ((if use then 1 else 2) <=? jumps az0 azs)%nat, use || (1 <=? jumps az0 azs)%nat,
     default az0 (fst <$> last azs)).
Proof.
  induction azs as [|a azs IH]; intros complete use az0.
  - cbn. destruct complete, use; done.
  - cbn [foldl jumps]. unfold split_block at 2. destruct (IsNeedFrameSplit a.1 az0), use; rewrite IH.
    all: f_equal; try (rewrite last_cons; by destruct (last azs)).
    all: try (destruct complete; done).
    all: destruct (jumps a.1 azs) as [|[|]]; destruct complete; done.
Qed.

(** ** Lemmas: the fields *)

(** Whether an azimuth is on the arc from [start] to [end_], which may run through
    zero. *)
Definition on_arc (Azimuth : Z) (field : Z * Z) : bool :=
  let '(start, end_) := field in
  if start <=? end_ then (start <=? Azimuth) && (Azimuth <=? end_) else (start <=? Azimuth) || (Azimuth <=? end_).

Lemma in_field_arc Azimuth start end_ :
  0 <= Azimuth < CIRCLE -> 0 <= start < CIRCLE -> 0 <= end_ < CIRCLE ->
  in_field Azimuth start end_ = on_arc Azimuth (start, end_).
Proof.
  unfold in_field, on_arc, CIRCLE, u32. intros Ha Hs He.
  rewrite (Z.mod_small _ (2 ^ 32)), (Z.mod_small (end_ + _ - _) (2 ^ 32)), (Z.mod_small (end_ + _ - start) (2 ^ 32)) by lia.
  change (36000 * 256) with 9216000 in *.
  destruct (Z.leb_spec start end_), (Z.leb_spec start Azimuth), (Z.leb_spec Azimuth end_); cbn [andb orb];
    match goal with |- (?a =? ?b) = ?c => destruct (Z.eqb_spec a b) end; try done; exfalso;
    Z.to_euclidean_division_equations; lia.
Qed.

(** The fields of a calibration. *)
Definition fields (c : PandarATCorrections) : list (Z * Z) :=
  take (Z.to_nat (frame_number (at_header c))) (zip (l_start_frame c) (l_end_frame c)).

Definition fields_ok (c : PandarATCorrections) : Prop :=
  0 <= frame_number (at_header c) <= 8 /\ length (l_start_frame c) = 8%nat /\ length (l_end_frame c) = 8%nat /\
  Forall (fun f => 0 <= f.1 < CIRCLE /\ 0 <= f.2 < CIRCLE) (fields c).

Lemma find_field_from c Azimuth n k :
  fields_ok c -> 0 <= Azimuth < CIRCLE -> Z.of_nat (k + n) = frame_number (at_header c) ->
  forall field, (n <> O -> field = Z.of_nat k) ->
  find_field (S n) c Azimuth field (Z.of_nat k) =
    Ok ((fun kf => Z.of_nat (k + kf.1)) <$> list_find (fun f => on_arc Azimuth f = true) (drop k (fields c))).
Proof.
  intros Hok Ha. revert k. induction n as [|n IH]; intros k Hk field Hf.
  - cbn [find_field]. destruct (Z.ltb_spec (Z.of_nat k) (frame_number (at_header c))); [lia|].
    rewrite drop_ge; [done|]. unfold fields. rewrite length_take. lia.
  - rewrite (Hf ltac:(done)). destruct Hok as (Hn & Hls & Hle & Hall).
    change (find_field (S (S n)) c Azimuth (Z.of_nat k) (Z.of_nat k)) with
      (if Z.of_nat k <? frame_number (at_header c) then
        start ← arr_get (l_start_frame c) (Z.of_nat k);
        end_ ← arr_get (l_end_frame c) (Z.of_nat k);
        if in_field Azimuth start end_ then Ok (Some (Z.of_nat k))
        else find_field (S n) c Azimuth ((Z.of_nat k + 1) mod frame_number (at_header c)) (Z.of_nat k + 1)
       else Ok None).
    destruct (Z.ltb_spec (Z.of_nat k) (frame_number (at_header c))); [|lia].
    destruct (arr_get_in (l_start_frame c) (Z.of_nat k)) as [s Es]; [lia|].
    destruct (arr_get_in (l_end_frame c) (Z.of_nat k)) as [e Ee]; [lia|]. rewrite Es, Ee. cbn [mbind result_bind].
    apply arr_get_ok in Es as [_ Es], Ee as [_ Ee]. rewrite Nat2Z.id in Es, Ee.
    assert (fields c !! k = Some (s, e)) as Hfk.
    { unfold fields. rewrite lookup_take_lt by lia. apply lookup_zip_with_Some. eauto. }
    rewrite (drop_S _ _ _ Hfk). cbn [list_find].
    rewrite Forall_lookup in Hall. destruct (Hall _ _ Hfk) as [Hs He]. rewrite in_field_arc by done.
    destruct (on_arc Azimuth (s, e)) eqn:Earc.
    + rewrite decide_True by done. cbn. do 2 f_equal. lia.
    + rewrite decide_False by (cbn in *; congruence). replace (Z.of_nat k + 1) with (Z.of_nat (S k)) by lia.
      rewrite (IH (S k)); [|lia|].
      * f_equal. destruct (list_find _ (drop (S k) (fields c))) as [[j y]|]; cbn; [|done]. f_equal. lia.
      * intros Hn0. apply Z.mod_small. lia.
Qed.

(** ** Lemmas: the calibration file *)

Lemma scale_ok r l : Forall (fun v => - 2 ^ 31 <= v * r < 2 ^ 31) l -> scale r l = Ok (map (fun v => v * r) l).
Proof.
  intros Hl. induction l as [|x l IH] using rev_ind; [done|]. apply Forall_app in Hl as [Hl Hx].
  unfold scale in *. rewrite foldM_snoc, IH by done. cbn [mbind result_bind]. inversion Hx as [|? ? Hx1 _]. cbn beta in Hx1.
  unfold int_ok. rewrite (proj2 (Z.leb_le _ _)), (proj2 (Z.ltb_lt _ _)) by apply Hx1.
  cbn. by rewrite map_app.
Qed.

(** ** Properties *)

(** A file of version 5 as its documentation lays it out: 16 bytes of header, the
    fields, the angles of the channels, their adjustments every two degrees, a
    checksum. *)
Definition at_file (c : PandarATCorrections) (hash : list Z) : list Z :=
  let h := at_header c in
  ([0xee; 0xff; 1; 5; channel_number h; 0; frame_number h] ++ replicate 8 0 ++ [resolution h]) ++
  concat (map (le_bytes 4) (l_start_frame c)) ++ concat (map (le_bytes 4) (l_end_frame c)) ++
  concat (map (le_bytes 4) (map u32 (l_azimuth c))) ++ concat (map (le_bytes 4) (map u32 (l_elevation c))) ++
  map u8 (azimuth_offset c) ++ map u8 (elevation_offset c) ++ hash.

Definition at_file_ok (c : PandarATCorrections) : Prop :=
  let h := at_header c in
  0 <= frame_number h <= 8 /\ 0 <= channel_number h <= AT128_LASER_NUM /\
  Z.of_nat (length (l_start_frame c)) = frame_number h /\ Z.of_nat (length (l_end_frame c)) = frame_number h /\
  Z.of_nat (length (l_azimuth c)) = channel_number h /\ Z.of_nat (length (l_elevation c)) = channel_number h /\
  Z.of_nat (length (azimuth_offset c)) = channel_number h * CORRECTION_AZIMUTH_NUM /\
  Z.of_nat (length (elevation_offset c)) = channel_number h * CORRECTION_AZIMUTH_NUM /\
  Forall is_u32 (l_start_frame c) /\ Forall is_u32 (l_end_frame c) /\
  Forall (fun v => - 2 ^ 31 <= v < 2 ^ 31 /\ - 2 ^ 31 <= v * resolution h < 2 ^ 31) (l_azimuth c) /\
  Forall (fun v => - 2 ^ 31 <= v < 2 ^ 31 /\ - 2 ^ 31 <= v * resolution h < 2 ^ 31) (l_elevation c) /\
  Forall (fun v => - 2 ^ 7 <= v < 2 ^ 7) (azimuth_offset c) /\ Forall (fun v => - 2 ^ 7 <= v < 2 ^ 7) (elevation_offset c).

Lemma i32_u32_id v : - 2 ^ 31 <= v < 2 ^ 31 -> i32 (u32 v) = v.
Proof. intros Hv. unfold i32, u32. rewrite Zplus_mod_idemp_l, Z.mod_small by lia. lia. Qed.

Lemma i8_u8_id v : - 2 ^ 7 <= v < 2 ^ 7 -> i8 (u8 v) = v.
Proof. intros Hv. unfold i8, u8. rewrite Zplus_mod_idemp_l, Z.mod_small by lia. lia. Qed.

Lemma map_i32_u32 l : Forall (fun v => - 2 ^ 31 <= v < 2 ^ 31) l -> map i32 (map u32 l) = l.
Proof.
  intros Hl. rewrite map_map. induction Hl as [|v l Hv Hl IH]; [done|]. cbn [map]. by rewrite IH, i32_u32_id.
Qed.

Lemma scaled_back r l : Forall (fun v => - 2 ^ 31 <= v < 2 ^ 31 /\ - 2 ^ 31 <= v * r < 2 ^ 31) l ->
  scale r (map i32 (map u32 l)) = Ok (map (fun v => v * r) l).
Proof.
  intros Hl. rewrite map_i32_u32 by (eapply Forall_impl; [exact Hl|naive_solver]).
  apply scale_ok. eapply Forall_impl; [exact Hl|naive_solver].
Qed.

Lemma offsets_back r l : Forall (fun v => - 2 ^ 7 <= v < 2 ^ 7) l ->
  map (fun x => i8 (i8 x * r)) (map u8 l) = map (fun x => i8 (x * r)) l.
Proof. intros Hl. rewrite map_map. induction Hl as [|v l Hv Hl IH]; [done|]. cbn [map]. by rewrite IH, i8_u8_id. Qed.

Lemma load_angles_file c hash old : at_file_ok c -> length hash = 32%nat ->
  let r := resolution (at_header c) in
  load_angles (at_file c hash) (at_header c) old = Ok (mk_at (at_header c)
      (overlay (map (fun x => u32 (x * r)) (l_start_frame c)) (l_start_frame old))
      (overlay (map (fun x => u32 (x * r)) (l_end_frame c)) (l_end_frame old))
      (overlay (map (fun x => x * r) (l_azimuth c)) (l_azimuth old))
      (overlay (map (fun x => x * r) (l_elevation c)) (l_elevation old))
      (overlay (map (fun x => i8 (x * r)) (azimuth_offset c)) (azimuth_offset old))
      (overlay (map (fun x => i8 (x * r)) (elevation_offset c)) (elevation_offset old))).
Proof.
  intros (Hfr & Hch & L1 & L2 & L3 & L4 & L5 & L6 & R1 & R2 & R3 & R4 & R5 & R6) Hhash r.
  unfold load_angles, at_file. fold r. cbv zeta. set (head := [0xee; _; _; _; _; _; _] ++ _ ++ _).
  assert (length head = 16%nat) as E0 by done. clearbody head.
  next_field (l_start_frame c). next_field (l_end_frame c).
  next_field (map u32 (l_azimuth c)). next_field (map u32 (l_elevation c)).
  next_field (map u8 (azimuth_offset c)). next_field (map u8 (elevation_offset c)).
  rewrite arr_slice_ok by seg_lia. cbn [mbind result_bind].
  rewrite !scaled_back by done. cbn [mbind result_bind]. by rewrite !offsets_back.
Qed.

(** A calibration file is loaded as it was written: the fields and the angles
    multiplied by the resolution, the adjustments too, but cut to a signed byte;
    the elements the file does not have keep their values. *)
Theorem at_calibration_roundtrip c hash u : at_file_ok c -> length hash = 32%nat ->
  let r := resolution (at_header c) in
  let old := m_PandarAT_corrections u in
  LoadCorrectionString (at_file c hash) u = Ok (0, mk_udp4_3 (base u) true (use_angle_ u)
    (mk_at (at_header c)
      (overlay (map (fun x => u32 (x * r)) (l_start_frame c)) (l_start_frame old))
      (overlay (map (fun x => u32 (x * r)) (l_end_frame c)) (l_end_frame old))
      (overlay (map (fun x => x * r) (l_azimuth c)) (l_azimuth old))
      (overlay (map (fun x => x * r) (l_elevation c)) (l_elevation old))
      (overlay (map (fun x => i8 (x * r)) (azimuth_offset c)) (azimuth_offset old))
      (overlay (map (fun x => i8 (x * r)) (elevation_offset c)) (elevation_offset old)))).
Proof.
  intros (Hfr & Hch & L1 & L2 & L3 & L4 & L5 & L6 & R1 & R2 & R3 & R4 & R5 & R6) Hhash r old.
  unfold LoadCorrectionString, at_file. set (head := [0xee; _; _; _; _; _; _] ++ _ ++ _).
  rewrite arr_slice_head by done. cbn [mbind result_bind].
  change (rd8 head 0) with (Ok 0xee : result Z). change (rd8 head 1) with (Ok 0xff : result Z).
  change (rd8 head 3) with (Ok 5 : result Z). change (rd8 head 4) with (Ok (channel_number (at_header c))).
  change (rd8 head 6) with (Ok (frame_number (at_header c))). change (rd8 head 15) with (Ok (resolution (at_header c))).
  cbn [mbind result_bind]. rewrite !Z.eqb_refl. cbn [andb].
  replace (mk_at_header _ _ _) with (at_header c) by by destruct (at_header c).
  destruct (Z.ltb_spec 8 (frame_number (at_header c))), (Z.ltb_spec AT128_LASER_NUM (channel_number (at_header c))); try lia.
  cbn [orb]. unfold head. fold (at_file c hash). by rewrite load_angles_file.
Qed.

(** A file with more than eight fields or 128 channels is refused, but its header
    has replaced the one of the calibration in use: with nine or more fields, an
    azimuth outside the eight known ones is looked up behind the arrays. *)
Theorem at_refused_header block u ch fr res n :
  arr_slice block 0 16 = Ok ([0xee; 0xff; n; 5; ch; 0; fr] ++ replicate 8 0 ++ [res]) -> 8 < fr ->
  exists u', LoadCorrectionString block u = Ok (-1, u') /\ at_get_correction_file_ u' = at_get_correction_file_ u /\
    let c := m_PandarAT_corrections u in let c' := m_PandarAT_corrections u' in
    frame_number (at_header c') = fr /\
    forall Azimuth, fields_ok (set_header (mk_at_header ch 8 res) c) -> 0 <= Azimuth < CIRCLE ->
      Forall (fun f => on_arc Azimuth f = false) (zip (l_start_frame c) (l_end_frame c)) ->
      find_field (S (Z.to_nat fr)) c' Azimuth 0 0 = Err OutOfBounds.
Proof.
  intros Hs Hfr. unfold LoadCorrectionString. rewrite Hs. cbn [mbind result_bind].
  set (head := _ ++ _ ++ _). change (rd8 head 0) with (Ok 0xee : result Z). change (rd8 head 1) with (Ok 0xff : result Z).
  change (rd8 head 3) with (Ok 5 : result Z). change (rd8 head 4) with (Ok ch). change (rd8 head 6) with (Ok fr).
  change (rd8 head 15) with (Ok res). cbn [mbind result_bind]. rewrite !Z.eqb_refl. cbn [andb].
  destruct (Z.ltb_spec 8 fr); [|lia]. cbn [orb]. eexists. split; [reflexivity|]. cbn. split; [done|]. split; [done|].
  intros Azimuth (_ & Hls & Hle & Hall) Ha Hout. cbn in Hls, Hle.
  assert (forall m k, (k + m = 8)%nat -> forall fuel, (m < fuel)%nat ->
    find_field fuel (set_header (mk_at_header ch fr res) (m_PandarAT_corrections u)) Azimuth (Z.of_nat k) (Z.of_nat k) = Err OutOfBounds) as Hk.
  { induction m as [|m IH]; intros k Hk fuel Hf; (destruct fuel as [|fuel]; [lia|]); cbn [find_field frame_number at_header set_header
      l_start_frame l_end_frame]; (destruct (Z.ltb_spec (Z.of_nat k) fr); [|lia]).
    - rewrite (arr_get_out (l_start_frame (m_PandarAT_corrections u))) by lia. reflexivity.
    - destruct (arr_get_in (l_start_frame (m_PandarAT_corrections u)) (Z.of_nat k)) as [s Es]; [lia|].
      destruct (arr_get_in (l_end_frame (m_PandarAT_corrections u)) (Z.of_nat k)) as [e Ee]; [lia|].
      rewrite Es, Ee. cbn [mbind result_bind]. apply arr_get_ok in Es as [_ Es], Ee as [_ Ee]. rewrite Nat2Z.id in Es, Ee.
      assert (zip (l_start_frame (m_PandarAT_corrections u)) (l_end_frame (m_PandarAT_corrections u)) !! k = Some (s, e)) as Hz
        by (apply lookup_zip_with_Some; eauto).
      rewrite Forall_lookup in Hout, Hall. pose proof (Hout _ _ Hz) as Ho.
      assert (fields (set_header (mk_at_header ch 8 res) (m_PandarAT_corrections u)) !! k = Some (s, e)) as Hz'
        by (unfold fields; cbn; rewrite lookup_take_lt by lia; exact Hz).
      destruct (Hall _ _ Hz') as [Hs1 He1]. rewrite in_field_arc, Ho by done.
      rewrite Z.mod_small by lia. replace (Z.of_nat k + 1) with (Z.of_nat (S k)) by lia. apply IH; lia. }
  exact (Hk 8%nat O eq_refl (S (Z.to_nat fr)) ltac:(lia)).
Qed.

(** C15: the field of a block is the first one whose arc, which may run through zero,
    has its azimuth, and none when no arc has it. *)
Theorem at_field_search c Azimuth : fields_ok c -> 0 <= Azimuth < CIRCLE ->
  find_field (S (Z.to_nat (frame_number (at_header c)))) c Azimuth 0 0 =
    Ok ((fun kf => Z.of_nat kf.1) <$> list_find (fun f => on_arc Azimuth f = true) (fields c)).
Proof.
  intros Hok Ha. pose proof Hok as (Hn & _).
  rewrite (find_field_from c Azimuth (Z.to_nat (frame_number (at_header c))) 0 Hok Ha) by (done || lia).
  by rewrite drop_0.
Qed.

Section AtProperties.
Context {P : Type}.
Variable timezone : TimeZone.

(** A packet that fits the receive buffer is decoded: each channel of each block
    becomes one point with the distance, the reflectivity and the confidence of
    its bytes and the azimuth of its block, moved by the firetime of the channel;
    no other point changes. *)
Theorem at_packet_points host now u (f : LidarDecodedFrame P) pkt h :
  at_get_correction_file_ u = true -> is_timeout pkt = false -> fire_ok (base u) -> at_fits (buffer pkt) h ->
  0 <= packet_num f < kMaxPacketNumPerFrame ->
  exists u' f' t, DecodePacket timezone host now u f pkt = Ok (0, u', f') /\ packet_num f' = packet_num f + 1 /\
    tail_ST_V3 (buffer pkt) (tail_off h) = Ok t /\
    sensor_timestamp f' = <[packet_num f := at_stamp timezone t f pkt]> (sensor_timestamp f) /\
    (forall b i, 0 <= b < GetBlockNum h -> 0 <= i < GetLaserNum h ->
      let off := 12 + block_size h * b + 3 + 4 * i in
      exists d a, pointData f' !! (packet_num f * GetBlockNum h * GetLaserNum h + b * GetLaserNum h + i) = Some d /\
        read_azimuth h (buffer pkt) b = Ok a /\
        channel_azimuth (set_motor (st_MotorSpeed t) (st_ReturnMode t =? kDualReturn) (base u))
          (a.1 * ANGULAR_RESOLUTION + a.2) i = Ok (pd_azimuth d) /\
        rd16 (buffer pkt) off = Ok (pd_distances d) /\ rd8 (buffer pkt) (off + 2) = Ok (pd_reflectivities d) /\
        exists c, rd8 (buffer pkt) (off + 3) = Ok c /\ pd_confidence d = Some c) /\
    (forall j, ~ (packet_num f * GetBlockNum h * GetLaserNum h <= j < (packet_num f + 1) * GetBlockNum h * GetLaserNum h) ->
      pointData f' !! j = pointData f !! j).
Proof.
  intros Hc Hto Hf Hfit Hn. destruct (at_fits_dims _ _ _ Hfit Hn) as (HL & HB & _). unfold is_u8 in *.
  destruct (at_decode_ok timezone host now u f pkt h Hc Hto Hf Hfit Hn)
    as (t & l & azs & s & h0 & data & p1 & Et & _ & -> & Hfill & _ & u' & f' & E & Hd & Hn' & _ & _ & _ & _ & _ & _ & Hst).
  destruct (fill_blocks_spec _ _ _ _ _ (proj1 HL) _ _ _ _ _ (proj1 HB) Hfill) as (Hout & Hin & _).
  exists u', f', t. split; [exact E|]. split; [done|]. split; [done|]. split; [done|]. rewrite Hd. split.
  - intros b i Hb Hi. destruct (Hin b i Hb Hi) as (a & d & Ea & Ed & Er).
    destruct (at_read_channel_spec _ _ _ _ _ _ _ _ Er) as (E1 & E2 & E3 & E4). exists d, a. repeat (split; [done|]). exact E4.
  - intros j Hj. apply Hout. intros Hr. apply Hj. lia.
Qed.

(** A packet ends a frame when one of its blocks jumps, that is, is more than ten
    degrees away from the block before (unless that one is at zero); after a split
    by timeout one such jump is passed over. *)
Theorem at_frame_split host now u (f : LidarDecodedFrame P) pkt h azs :
  at_get_correction_file_ u = true -> is_timeout pkt = false -> fire_ok (base u) -> at_fits (buffer pkt) h ->
  0 <= packet_num f < kMaxPacketNumPerFrame -> azimuths_of h (buffer pkt) azs ->
  exists u' f', DecodePacket timezone host now u f pkt = Ok (0, u', f') /\
    let n := jumps (last_azimuth_ (base u)) azs in
    scan_complete f' = ((if use_angle_ u then 1 else 2) <=? n)%nat /\ use_angle_ u' = use_angle_ u || (1 <=? n)%nat /\
    last_azimuth_ (base u') = default (last_azimuth_ (base u)) (fst <$> last azs).
Proof.
  intros Hc Hto Hf Hfit Hn [Hl Haz].
  destruct (at_decode_ok timezone host now u f pkt h Hc Hto Hf Hfit Hn)
    as (t & l & azs' & s & h0 & data & p1 & _ & [Hl' Haz'] & _ & _ & Hs & u' & f' & E & _ & _ & H1 & H2 & H3 & _).
  assert (azs' = azs) as ->.
  { apply list_eq. intros i. destruct (decide (i < length azs)%nat) as [Hi|Hi].
    - destruct (Haz (Z.of_nat i)) as (a & A1 & A2); [lia|]. destruct (Haz' (Z.of_nat i)) as (b & B1 & B2); [lia|].
      rewrite Nat2Z.id in A1, B1. rewrite A1, B1. rewrite A2 in B2. by apply (inj Ok) in B2 as ->.
    - rewrite !lookup_ge_None_2 by lia. done. }
  exists u', f'. split; [exact E|]. rewrite H1, H2, H3, Hs, split_blocks. done.
Qed.

(** A timeout packet within 200 units (of 1/100 degree) of where a field ends
    closes the frame: it is not decoded, not counted and changes nothing else, and
    the jump that follows will be passed over. *)
Theorem at_timeout host now u (f : LidarDecodedFrame P) pkt k start :
  at_get_correction_file_ u = true -> is_timeout pkt = true -> length (l_start_frame (m_PandarAT_corrections u)) = 8%nat ->
  0 <= k < 3 -> arr_get (l_start_frame (m_PandarAT_corrections u)) k = Ok start ->
  0 <= start < 2 ^ 32 -> 0 <= last_azimuth_ (base u) < 2 ^ 16 ->
  Z.abs (start / ANGULAR_RESOLUTION + MARGINAL_ANGLE - last_azimuth_ (base u)) < ACCEPTANCE_ANGLE ->
  DecodePacket timezone host now u f pkt =
    Ok (0, mk_udp4_3 (base u) true false (m_PandarAT_corrections u), set_scan_complete true f).
Proof.
  intros Hc Hto Hl Hk Hs Hstart Hlast Hnear. unfold DecodePacket. rewrite Hc, Hto. cbn [negb].
  assert (timeout_split (m_PandarAT_corrections u) (last_azimuth_ (base u)) = Ok true) as ->; [|done].
  assert (forall l found, (forall i, i ∈ l -> 0 <= i < 3) -> found = true \/ k ∈ l ->
    foldM (fun found i => if found : bool then Ok true else
      start ← arr_get (l_start_frame (m_PandarAT_corrections u)) i;
      Ok (Z.abs (i32 (u32 (start / ANGULAR_RESOLUTION + MARGINAL_ANGLE - last_azimuth_ (base u)))) <? ACCEPTANCE_ANGLE)) found l = Ok true) as Hf.
  { induction l as [|i l IH]; intros found Hi Hor; cbn [foldM].
    - destruct Hor as [->|Hin]; [done|by apply elem_of_nil in Hin].
    - destruct found; [apply IH; [intros; apply Hi; by right|by left]|].
      destruct (arr_get_in (l_start_frame (m_PandarAT_corrections u)) i) as [s Es]; [pose proof (Hi i ltac:(by left)); lia|].
      rewrite Es. cbn [mbind result_bind]. apply IH; [intros; apply Hi; by right|].
      destruct Hor as [|Hin]; [done|]. apply elem_of_cons in Hin as [->|Hin]; [left|by right].
      rewrite Hs in Es. apply (inj Ok) in Es as <-. apply Z.ltb_lt.
      unfold ANGULAR_RESOLUTION, MARGINAL_ANGLE in *.
      assert (0 <= start / 256 < 2 ^ 24) by (split; [apply Z.div_pos; lia|apply Z.div_lt_upper_bound; lia]).
      rewrite i32_u32_id by lia. done. }
  apply Hf; [intros i Hi; apply elem_of_seqZ in Hi; lia|right; apply elem_of_seqZ; lia].
Qed.

(** A block whose azimuth is in none of the fields keeps the points that were
    there, of an earlier frame perhaps, although the packet is counted as
    computed. *)
Theorem at_outside_fields {PT : PointType P} sinT cosT s32 c32 u (f : LidarDecodedFrame P) n d :
  at_get_correction_file_ u = true -> fields_ok (m_PandarAT_corrections u) -> block_num f = 1 ->
  array_at kMaxPointsNumPerFrame (u32 (n * per_points_num f)) (pointData f) = Ok d ->
  (exists Azimuth, to_int (pd_azimuth d) = Ok Azimuth /\ 0 <= Azimuth < CIRCLE /\
    Forall (fun fd => on_arc Azimuth fd = false) (fields (m_PandarAT_corrections u))) ->
  ComputeXYZI sinT cosT s32 c32 u f n = Ok (0, set_base (FrameNumAdd (base u)) u, f).
Proof.
  intros Hc Hok Hb Hd (Azimuth & Haz & Ha & Hout). unfold ComputeXYZI. rewrite Hb.
  change (seqZ 0 1) with [0]. cbn [foldM]. unfold compute_block, block_field.
  rewrite Z.mul_0_l, Z.add_0_r, Hd. cbn [mbind result_bind]. rewrite Haz, Hc. cbn [mbind result_bind].
  pose proof Hok as (Hn & _).
  rewrite (find_field_from _ Azimuth (Z.to_nat (frame_number (at_header (m_PandarAT_corrections u)))) 0 Hok Ha) by (done || lia).
  rewrite drop_0. replace (list_find _ _) with (@None (nat * (Z * Z))).
  - cbn. by destruct f.
  - symmetry. apply list_find_None. eapply Forall_impl; [exact Hout|]. cbn. intros x ->. done.
Qed.

End AtProperties.

(** ** Witnesses *)

(** Two fields, from 0.4 to 20 degrees and through zero; one channel. *)
Definition demo_at_cal : PandarATCorrections :=
  mk_at (mk_at_header 1 2 1) [10000; 9000000; 0; 0; 0; 0; 0; 0] [512000; 5000; 0; 0; 0; 0; 0; 0] [0] [0]
    (replicate 180 0) (replicate 180 0).
Definition demo_near (last : Z) : GeneralParser := set_azimuths last 0 1 f_zero (demo_general false).
Definition demo_at (use : bool) : Udp4_3Parser := mk_udp4_3 (demo_near 90) true use demo_at_cal.
(** Two blocks of one channel at azimuths 100 and 2000. *)
Definition demo_at_packet : UdpPacket :=
  mk_packet (demo_bytes [0xEE; 0xFF; 4; 3; 0; 0; 1; 2; 0; 4; 2; 0; 100; 0; 7; 10; 1; 9; 3; 208; 7; 0; 20; 1; 8; 4]) 70 false 0 0 2368.
Definition demo_at_header : HS_LIDAR_HEADER_ME_V4 := mk_header 1 2 0 4 2 0.

Lemma demo_at_fits : at_fits (buffer demo_at_packet) demo_at_header.
Proof.
  unfold at_fits. repeat split; try reflexivity; try (vm_compute; congruence).
  by apply byte_list_check.
Qed.

Lemma demo_fields_ok r : fields_ok (set_header (mk_at_header 1 r 1) demo_at_cal) <-> 0 <= r <= 8.
Proof.
  unfold fields_ok. split; [by intros [? _]|]. intros Hr. split; [done|]. split; [done|]. split; [done|].
  unfold fields. apply Forall_take. repeat constructor; cbn; unfold CIRCLE; lia.
Qed.

Lemma demo_at_fields : fields_ok demo_at_cal.
Proof. apply (demo_fields_ok 2). lia. Qed.

Lemma at_packet_points_witness :
  exists u' f', DecodePacket 0 7 (fun _ => 0) (demo_at true) demo_frame demo_at_packet = Ok (0, u', f') /\
    exists d, pointData f' !! 1 = Some d /\ pd_distances d = 276 /\ pd_azimuth d = of_Z32 512000.
Proof.
  destruct (at_packet_points 0 7 (fun _ => 0) (demo_at true) demo_frame demo_at_packet demo_at_header)
    as (u' & f' & t & E & _ & _ & _ & Hin & _);
    [done|done|done|exact demo_at_fits|vm_compute; split; congruence|].
  exists u', f'. split; [exact E|].
  destruct (Hin 1 0) as (d & a & Hd & Ha & Hz & Hdist & _); [vm_compute; split; congruence..|].
  exists d. split; [exact Hd|]. vm_compute in Ha. apply (inj Ok) in Ha as <-.
  split; apply (inj Ok); [by rewrite <-Hdist|]. by rewrite <-Hz.
Defined.

Lemma at_frame_split_witness :
  (exists u' f', DecodePacket 0 7 (fun _ => 0) (demo_at true) demo_frame demo_at_packet = Ok (0, u', f') /\
    scan_complete f' = true) /\
  exists u' f', DecodePacket 0 7 (fun _ => 0) (demo_at false) demo_frame demo_at_packet = Ok (0, u', f') /\
    scan_complete f' = false /\ use_angle_ u' = true.
Proof.
  assert (azimuths_of demo_at_header (buffer demo_at_packet) [(100, 7); (2000, 0)]) as Haz.
  { split; [done|]. intros b Hb. assert (b = 0 \/ b = 1) as [-> | ->] by (cbn in Hb; lia); eexists; split; reflexivity. }
  destruct (at_frame_split 0 7 (fun _ => 0) (demo_at true) demo_frame demo_at_packet demo_at_header _
    eq_refl eq_refl ltac:(done) demo_at_fits ltac:(vm_compute; split; congruence) Haz) as (u1 & f1 & E1 & S1 & _).
  destruct (at_frame_split 0 7 (fun _ => 0) (demo_at false) demo_frame demo_at_packet demo_at_header _
    eq_refl eq_refl ltac:(done) demo_at_fits ltac:(vm_compute; split; congruence) Haz) as (u2 & f2 & E2 & S2 & U2 & _).
  split; [exists u1, f1; split; [exact E1|exact S1]|]. exists u2, f2. split; [exact E2|]. split; [exact S2|exact U2].
Defined.

Definition demo_timeout : UdpPacket := mk_packet [] 0 true 0 0 0.
Definition demo_late : Udp4_3Parser := mk_udp4_3 (demo_near 7600) true true demo_at_cal.

Lemma at_timeout_witness :
  DecodePacket 0 7 (fun _ => 0) demo_late demo_frame demo_timeout =
    Ok (0, mk_udp4_3 (base demo_late) true false demo_at_cal, set_scan_complete true demo_frame).
Proof.
  exact (at_timeout 0 7 (fun _ => 0) demo_late demo_frame demo_timeout 0 10000 eq_refl eq_refl eq_refl
    ltac:(lia) eq_refl ltac:(lia) ltac:(split; vm_compute; congruence) ltac:(vm_compute; congruence)).
Defined.

Lemma at_field_search_witness :
  find_field 3 demo_at_cal 4000 0 0 = Ok (Some 1) /\ find_field 3 demo_at_cal 600000 0 0 = Ok None.
Proof.
  split; [exact (at_field_search demo_at_cal 4000 demo_at_fields ltac:(unfold CIRCLE; lia))
         |exact (at_field_search demo_at_cal 600000 demo_at_fields ltac:(unfold CIRCLE; lia))].
Defined.

Lemma at_refused_header_witness :
  exists u', LoadCorrectionString ([0xee; 0xff; 1; 5; 1; 0; 9] ++ replicate 8 0 ++ [1]) (demo_at true) = Ok (-1, u') /\
    find_field 10 (m_PandarAT_corrections u') 600000 0 0 = Err OutOfBounds.
Proof.
  destruct (at_refused_header ([0xee; 0xff; 1; 5; 1; 0; 9] ++ replicate 8 0 ++ [1]) (demo_at true) 1 9 1 1 eq_refl ltac:(lia))
    as (u' & E & _ & _ & H).
  exists u'. split; [exact E|]. apply (H 600000).
  - apply demo_fields_ok. lia.
  - unfold CIRCLE. lia.
  - repeat constructor.
Defined.

Lemma at_calibration_roundtrip_witness :
  exists c, LoadCorrectionString (at_file (mk_at (mk_at_header 1 1 2) [30] [40] [-5] [6] (replicate 180 (-7)) (replicate 180 100))
      (replicate 32 0)) (demo_at true) = Ok (0, mk_udp4_3 (demo_near 90) true true c) /\
    take 2 (l_start_frame c) = [60; 9000000] /\ l_azimuth c = [-10] /\ head (azimuth_offset c) = Some (-14) /\
    head (elevation_offset c) = Some (-56).
Proof.
  eexists. split; [refine (at_calibration_roundtrip (mk_at (mk_at_header 1 1 2) [30] [40] [-5] [6] (replicate 180 (-7)) (replicate 180 100))
    (replicate 32 0) (demo_at true) _ eq_refl)|vm_compute; done].
  unfold at_file_ok, AT128_LASER_NUM, CORRECTION_AZIMUTH_NUM, is_u32. cbn [at_header frame_number channel_number resolution
    l_start_frame l_end_frame l_azimuth l_elevation azimuth_offset elevation_offset].
  rewrite !length_replicate. repeat split; try lia; try (repeat constructor; lia); apply Forall_replicate; lia.
Defined.

(** A block between the two fields. *)
Definition demo_at_scene : LidarDecodedFrame LidarPointXYZI :=
  set_pointData (<[0 := mk_pdd (of_Z32 600000) f_zero 0 5 None None None]> ∅) (set_packet_info 7 0 0 0 1 1 f_zero demo_frame).

Lemma at_outside_fields_witness :
  ComputeXYZI (fun _ => f_zero) (fun _ => f_zero) id id (demo_at true) demo_at_scene 0 =
    Ok (0, set_base (FrameNumAdd (base (demo_at true))) (demo_at true), demo_at_scene).
Proof.
  apply (at_outside_fields (fun _ => f_zero) (fun _ => f_zero) id id (demo_at true) demo_at_scene 0
    (mk_pdd (of_Z32 600000) f_zero 0 5 None None None)); [done|exact demo_at_fields|done|reflexivity|].
  exists 600000. split; [reflexivity|]. split; [unfold CIRCLE; lia|]. repeat constructor.
Defined.
