(* ===== verification/Sections.v ===== *)
(** * Sections: the optional sections of the packets

    What the headers of the protocols 1.4, 3.2, 4.3 and 4.7 (UdpProtocol/)
    declare beside what the decoders read: the functional safety and the inertial
    sections, the end-to-end header, the signatures and checksums, and the sizes
    of whole packets.  Packed structures are read from the bytes ([..._cast]), and
    [..._image] is the structure in memory on a little-endian host. *)

From S2P Require Import Prelude Bytes Floats ProtocolV1_4 FaultMessage Udp3_2 Udp4_3.
Local Open Scope Z_scope.

(** ** HS_LIDAR_FUNC_SAFETY_ME_V4 *)

Record HS_LIDAR_FUNC_SAFETY_ME_V4 : Set := mk_func_safety {
  fs_u8Version : Z;
  fs_u8Status : Z;
  fs_u8FaultInfo : Z;
  fs_u16FaultCode : Z;
  fs_u8Reserved : list Z;
  fs_u32Crc : Z;
}.

Definition func_safety_cast (buf : list Z) (off : Z) : result HS_LIDAR_FUNC_SAFETY_ME_V4 :=
  v ← rd8 buf off; st ← rd8 buf (off + 1); fi ← rd8 buf (off + 2); fc ← rd16 buf (off + 3);
  rs ← arr_slice buf (off + 5) 8; crc ← rd32 buf (off + 13);
  Ok (mk_func_safety v st fi fc rs crc).

Definition func_safety_image (f : HS_LIDAR_FUNC_SAFETY_ME_V4) : list Z :=
  [fs_u8Version f; fs_u8Status f; fs_u8FaultInfo f] ++ le_bytes 2 (fs_u16FaultCode f) ++ fs_u8Reserved f
  ++ le_bytes 4 (fs_u32Crc f).

Definition kLidarStateShiftBits : Z := 5.
Definition kLidarStateMask : Z := 0x07.
Definition kRollingCntShiftBits : Z := 0.
Definition kRollingCntMask : Z := 0x07.
Definition kFaultTypeCurrent : Z := 0x08.
Definition kFaultTypeHistory : Z := 0x10.
Definition kFaultNumShiftBits : Z := 4.
Definition kFaultNumMask : Z := 0x0F.
Definition kFaultIDShiftBits : Z := 0.
Definition kFaultIDMask : Z := 0x0F.

Definition GetVersion := fs_u8Version.
Definition GetLidarState (f : HS_LIDAR_FUNC_SAFETY_ME_V4) : Z :=
  Z.land (Z.shiftr (fs_u8Status f) kLidarStateShiftBits) kLidarStateMask.
Definition IsHistoryFault (f : HS_LIDAR_FUNC_SAFETY_ME_V4) : bool := negb (Z.land (fs_u8Status f) kFaultTypeHistory =? 0).
Definition IsCurrentFault (f : HS_LIDAR_FUNC_SAFETY_ME_V4) : bool := negb (Z.land (fs_u8Status f) kFaultTypeCurrent =? 0).
Definition GetRollingCnt (f : HS_LIDAR_FUNC_SAFETY_ME_V4) : Z :=
  Z.land (Z.shiftr (fs_u8Status f) kRollingCntShiftBits) kRollingCntMask.
Definition GetFaultNum (f : HS_LIDAR_FUNC_SAFETY_ME_V4) : Z :=
  Z.land (Z.shiftr (fs_u8FaultInfo f) kFaultNumShiftBits) kFaultNumMask.
Definition GetFaultID (f : HS_LIDAR_FUNC_SAFETY_ME_V4) : Z :=
  Z.land (Z.shiftr (fs_u8FaultInfo f) kFaultIDShiftBits) kFaultIDMask.
Definition GetFaultCode := fs_u16FaultCode.
Definition GetCrc := fs_u32Crc.

(** ** HS_LIDAR_TAIL_IMU_ME_V4 *)

Record HS_LIDAR_TAIL_IMU_ME_V4 : Set := mk_imu {
  m_i16IMUTemperature : Z;
  m_u16IMUAccelUnit : Z;
  m_u16IMUAngVelUnit : Z;
  m_u32IMUTimeStamp : Z;
  m_i16IMUAccel : Z * Z * Z;
  m_i16IMUAngVel : Z * Z * Z;
}.

Definition rd_i16 (buf : list Z) (off : Z) : result Z := v ← rd16 buf off; Ok (i16 v).

Definition imu_cast (buf : list Z) (off : Z) : result HS_LIDAR_TAIL_IMU_ME_V4 :=
  t ← rd_i16 buf off; au ← rd16 buf (off + 2); vu ← rd16 buf (off + 4); ts ← rd32 buf (off + 6);
  xa ← rd_i16 buf (off + 10); ya ← rd_i16 buf (off + 12); za ← rd_i16 buf (off + 14);
  xv ← rd_i16 buf (off + 16); yv ← rd_i16 buf (off + 18); zv ← rd_i16 buf (off + 20);
  Ok (mk_imu t au vu ts (xa, ya, za) (xv, yv, zv)).

Definition imu_image (m : HS_LIDAR_TAIL_IMU_ME_V4) : list Z :=
  let '(xa, ya, za) := m_i16IMUAccel m in
  let '(xv, yv, zv) := m_i16IMUAngVel m in
  le_bytes 2 (m_i16IMUTemperature m) ++ le_bytes 2 (m_u16IMUAccelUnit m) ++ le_bytes 2 (m_u16IMUAngVelUnit m)
  ++ le_bytes 4 (m_u32IMUTimeStamp m) ++ le_bytes 2 xa ++ le_bytes 2 ya ++ le_bytes 2 za
  ++ le_bytes 2 xv ++ le_bytes 2 yv ++ le_bytes 2 zv.

(** u16 / 1000.f, as a [double] *)
Definition milli (z : Z) : f64 := div32 (of_Z32 z) (of_Z32 1000).

Definition GetIMUTemperature := m_i16IMUTemperature.
Definition GetIMUAccelUnit (m : HS_LIDAR_TAIL_IMU_ME_V4) : f64 := milli (m_u16IMUAccelUnit m).
Definition GetIMUAngVelUnit (m : HS_LIDAR_TAIL_IMU_ME_V4) : f64 := milli (m_u16IMUAngVelUnit m).
Definition GetIMUTimestamp := m_u32IMUTimeStamp.

(** [GetIMUXAccel], [GetIMUYAccel], [GetIMUZAccel] *)
Definition GetIMUAccel (m : HS_LIDAR_TAIL_IMU_ME_V4) : f64 * f64 * f64 :=
  let '(x, y, z) := m_i16IMUAccel m in
  (mul64 (of_Z64 x) (GetIMUAccelUnit m), mul64 (of_Z64 y) (GetIMUAccelUnit m), mul64 (of_Z64 z) (GetIMUAccelUnit m)).

(** [GetIMUXAngVel], [GetIMUYAngVel], [GetIMUZAngVel] *)
Definition GetIMUAngVel (m : HS_LIDAR_TAIL_IMU_ME_V4) : f64 * f64 * f64 :=
  let '(x, y, z) := m_i16IMUAngVel m in
  (mul64 (of_Z64 x) (GetIMUAngVelUnit m), mul64 (of_Z64 y) (GetIMUAngVelUnit m), mul64 (of_Z64 z) (GetIMUAngVelUnit m)).

(** [m_u8Signature[index < 32 ? index : 0]], the same in all protocols. *)
Definition GetSignatureData (m_u8Signature : list Z) (index : Z) : result Z :=
  arr_get m_u8Signature (if index <? sizeof_CYBER_SECURITY then index else 0).

(** ** The end-to-end header of the 4.7 protocol *)

Record HS_LIDAR_E2E_HEADER_ST_V7 : Set := mk_e2e {
  m_u16Length : Z;
  m_u16Counter : Z;
  m_u32DataID : Z;
  m_u32CRC : Z;
}.

Definition sizeof_E2E_HEADER : Z := 12.

(** The members are in network byte order; these are the values of the getters
    [GetLength], [GetCounter], [GetDataID], [GetCRC]. *)
Definition e2e_cast (buf : list Z) (off : Z) : result HS_LIDAR_E2E_HEADER_ST_V7 :=
  l ← rd16 buf off; c ← rd16 buf (off + 2); d ← rd32 buf (off + 4); crc ← rd32 buf (off + 8);
  Ok (mk_e2e (big_to_native true 2 l) (big_to_native true 2 c) (big_to_native true 4 d) (big_to_native true 4 crc)).

Definition e2e_image (e : HS_LIDAR_E2E_HEADER_ST_V7) : list Z :=
  be_bytes 2 (m_u16Length e) ++ be_bytes 2 (m_u16Counter e) ++ be_bytes 4 (m_u32DataID e) ++ be_bytes 4 (m_u32CRC e).

(** [GetE2ECrcSize] of the end-to-end header *)
Definition e2e_GetE2ECrcSize (e : HS_LIDAR_E2E_HEADER_ST_V7) : Z := u16 (m_u16Length e - sizeof_CYBER_SECURITY - 4).

(** ** The sizes of packets *)

Definition optional (b : bool) (size : Z) : Z := if b then size else 0.

(** HS_LIDAR_HEADER_QT_V2::GetPacketSize *)
Definition GetPacketSize_QT_V2 (h : HS_LIDAR_HEADER_ME_V4) : Z :=
  u16 (sizeof_PRE_HEADER + sizeof_HEADER
       + (sizeof_AZIMUTH + (if HasConfidenceLevel h then 4 else 3) * GetLaserNum h) * GetBlockNum h + sizeof_CRC
       + optional (HasFuncSafety h) sizeof_FUNC_SAFETY + sizeof_TAIL + optional (HasSeqNum h) sizeof_SEQ_NUM + sizeof_CRC
       + optional (HasCyberSecurity h) sizeof_CYBER_SECURITY).

(** HS_LIDAR_HEADER_ST_V3::GetPacketSize *)
Definition GetPacketSize_ST_V3 (h : HS_LIDAR_HEADER_ME_V4) : Z :=
  u16 (sizeof_PRE_HEADER + sizeof_HEADER + (2 + 1 + 4 * GetLaserNum h) * GetBlockNum h + sizeof_CRC + sizeof_TAIL_ST
       + optional (HasSeqNum h) sizeof_SEQ_NUM + sizeof_CRC + optional (HasCyberSecurity h) sizeof_CYBER_SECURITY).

(** HS_LIDAR_HEADER_ST_V7::GetPacketSize and GetE2ECrcSize *)
Definition GetPacketSize_ST_V7 (h : HS_LIDAR_HEADER_ME_V4) : Z :=
  u16 (sizeof_PRE_HEADER + sizeof_HEADER + (2 + 1 + 4 * GetLaserNum h) * GetBlockNum h + sizeof_CRC + sizeof_TAIL_ST
       + optional (HasSeqNum h) sizeof_SEQ_NUM + sizeof_E2E_HEADER + optional (HasCyberSecurity h) sizeof_CYBER_SECURITY).
Definition GetE2ECrcSize (h : HS_LIDAR_HEADER_ME_V4) : Z :=
  u16 (sizeof_PRE_HEADER + sizeof_HEADER + (2 + 1 + 4 * GetLaserNum h) * GetBlockNum h + sizeof_CRC + sizeof_TAIL_ST
       + optional (HasSeqNum h) sizeof_SEQ_NUM + sizeof_E2E_HEADER - 4).

(** ** Well-formed sections *)

Definition is_i16 (z : Z) : Prop := - 2 ^ 15 <= z < 2 ^ 15.

Definition func_safety_ok (f : HS_LIDAR_FUNC_SAFETY_ME_V4) : Prop :=
  is_u8 (fs_u8Version f) /\ is_u8 (fs_u8Status f) /\ is_u8 (fs_u8FaultInfo f) /\ is_u16 (fs_u16FaultCode f) /\
  length (fs_u8Reserved f) = 8%nat /\ is_u32 (fs_u32Crc f).

Definition imu_ok (m : HS_LIDAR_TAIL_IMU_ME_V4) : Prop :=
  let '(xa, ya, za) := m_i16IMUAccel m in
  let '(xv, yv, zv) := m_i16IMUAngVel m in
  is_i16 (m_i16IMUTemperature m) /\ is_u16 (m_u16IMUAccelUnit m) /\ is_u16 (m_u16IMUAngVelUnit m) /\
  is_u32 (m_u32IMUTimeStamp m) /\ is_i16 xa /\ is_i16 ya /\ is_i16 za /\ is_i16 xv /\ is_i16 yv /\ is_i16 zv.

Definition e2e_ok (e : HS_LIDAR_E2E_HEADER_ST_V7) : Prop :=
  is_u16 (m_u16Length e) /\ is_u16 (m_u16Counter e) /\ is_u32 (m_u32DataID e) /\ is_u32 (m_u32CRC e).

(** The numbers of lasers and blocks of a header are bytes, and its packet has less
    than 2^16 bytes. *)
Definition dims_ok (h : HS_LIDAR_HEADER_ME_V4) : Prop :=
  is_u8 (GetLaserNum h) /\ is_u8 (GetBlockNum h) /\ (6 + 4 * GetLaserNum h) * GetBlockNum h < 2 ^ 16 - 256.

(** ** Lemmas *)

Lemma i16_le_combine v : is_i16 v -> i16 (le_combine (le_bytes 2 v)) = v.
Proof.
  intros H. rewrite le_combine_bytes. unfold is_i16 in H. unfold i16. change (2 ^ (8 * Z.of_nat 2)) with (2 ^ 16).
  rewrite Zplus_mod_idemp_l, Z.mod_small by lia. lia.
Qed.

Lemma big_native_u16 v : is_u16 v -> big_to_native true 2 (le_combine (be_bytes 2 v)) = v.
Proof.
  intros Hv. unfold big_to_native. rewrite IsLittleEndian_host. cbn [negb].
  pose proof (le_combine_range (be_bytes 2 v) (be_bytes_byte_list 2 v)) as Hr.
  rewrite be_bytes_length in Hr. rewrite reverseBytes_spec by (done || lia).
  pose proof (le_bytes_combine (be_bytes 2 v) (be_bytes_byte_list 2 v)) as H. rewrite be_bytes_length in H. rewrite H.
  rewrite be_combine_bytes. apply Z.mod_small. unfold is_u16 in Hv. lia.
Qed.

(** What a test finds of all bytes holds of each. *)
Lemma every_byte (P : Z -> bool) z : forallb P (seqZ 0 256) = true -> is_u8 z -> P z = true.
Proof.
  intros H Hz. rewrite forallb_forall in H. apply H. apply list_elem_of_In, elem_of_seqZ. unfold is_u8 in Hz. lia.
Qed.

Lemma rd_i16_ok buf off v r : rd16 buf off = Ok r -> i16 r = v -> rd_i16 buf off = Ok v.
Proof. unfold rd_i16. by intros -> <-. Qed.

(** The next read of a signed number. *)
Ltac next_i16 v :=
  match goal with
  | |- (?r ≫= _) = _ =>
      let E := fresh in
      assert (r = Ok v) as E by (apply (rd_i16_ok _ _ _ (le_combine (le_bytes 2 v))); [read_field|by apply i16_le_combine]);
      rewrite E; clear E; cbn [mbind result_bind]
  end.

(** ** Properties *)

(** The getters of the functional safety section take its bytes apart without loss:
    state, the two kinds of fault and the rolling counter make up the status, number
    and identifier of the fault the other byte, each within its bits. *)
Theorem func_safety_bits f : func_safety_ok f ->
  fs_u8Status f = 32 * GetLidarState f + 16 * Z.b2z (IsHistoryFault f) + 8 * Z.b2z (IsCurrentFault f) + GetRollingCnt f /\
  fs_u8FaultInfo f = 16 * GetFaultNum f + GetFaultID f /\
  0 <= GetLidarState f < 8 /\ 0 <= GetRollingCnt f < 8 /\ 0 <= GetFaultNum f < 16 /\ 0 <= GetFaultID f < 16.
Proof.
  intros (_ & Hs & Hi & _). destruct f as [v st fi fc rs crc]. cbn in Hs, Hi.
  pose proof (every_byte (fun s => let f := mk_func_safety 0 s 0 0 [] 0 in bool_decide
    (s = 32 * GetLidarState f + 16 * Z.b2z (IsHistoryFault f) + 8 * Z.b2z (IsCurrentFault f) + GetRollingCnt f /\
     0 <= GetLidarState f < 8 /\ 0 <= GetRollingCnt f < 8)) st ltac:(by vm_compute) Hs) as H1%bool_decide_eq_true.
  pose proof (every_byte (fun i => let f := mk_func_safety 0 0 i 0 [] 0 in bool_decide
    (i = 16 * GetFaultNum f + GetFaultID f /\ 0 <= GetFaultNum f < 16 /\ 0 <= GetFaultID f < 16))
    fi ltac:(by vm_compute) Hi) as H2%bool_decide_eq_true.
  destruct H1 as (A & B & C), H2 as (D & E & F). exact (conj A (conj D (conj B (conj C (conj E F))))).
Qed.

(** The sections are read as they were written, wherever they stand in the packet. *)
Theorem func_safety_roundtrip f pre post : func_safety_ok f ->
  func_safety_cast (pre ++ func_safety_image f ++ post) (Z.of_nat (length pre)) = Ok f.
Proof.
  intros (_ & _ & _ & Hc & Hr & Hcrc). unfold func_safety_cast, func_safety_image. rewrite <-!app_assoc.
  next_field (fs_u8Version f). next_field (fs_u8Status f). next_field (fs_u8FaultInfo f).
  next_field (le_combine (le_bytes 2 (fs_u16FaultCode f))). next_field (fs_u8Reserved f).
  next_field (le_combine (le_bytes 4 (fs_u32Crc f))). rewrite !le_native by (unfold is_u16, is_u32 in *; lia).
  by destruct f.
Qed.

Theorem imu_roundtrip m pre post : imu_ok m ->
  imu_cast (pre ++ imu_image m ++ post) (Z.of_nat (length pre)) = Ok m.
Proof.
  destruct m as [t au vu ts [[xa ya] za] [[xv yv] zv]]. intros (Ht & Hau & Hvu & Hts & Hxa & Hya & Hza & Hxv & Hyv & Hzv).
  unfold imu_cast, imu_image. cbn [m_i16IMUAccel m_i16IMUAngVel m_i16IMUTemperature m_u16IMUAccelUnit
    m_u16IMUAngVelUnit m_u32IMUTimeStamp]. rewrite <-!app_assoc.
  next_i16 t. next_field (le_combine (le_bytes 2 au)). next_field (le_combine (le_bytes 2 vu)).
  next_field (le_combine (le_bytes 4 ts)). next_i16 xa. next_i16 ya. next_i16 za. next_i16 xv. next_i16 yv. next_i16 zv.
  cbn in Hau, Hvu, Hts. by rewrite !le_native by (unfold is_u16, is_u32 in *; lia).
Qed.

Theorem e2e_roundtrip e pre post : e2e_ok e ->
  e2e_cast (pre ++ e2e_image e ++ post) (Z.of_nat (length pre)) = Ok e.
Proof.
  intros (Hl & Hc & Hd & Hcrc). unfold e2e_cast, e2e_image. rewrite <-!app_assoc.
  next_field (le_combine (be_bytes 2 (m_u16Length e))). next_field (le_combine (be_bytes 2 (m_u16Counter e))).
  next_field (le_combine (be_bytes 4 (m_u32DataID e))). next_field (le_combine (be_bytes 4 (m_u32CRC e))).
  rewrite !big_native_u16, !big_native_bytes by done. by destruct e.
Qed.

(** The sizes as sums, when they fit in 16 bits. *)
Ltac sizes :=
  unfold GetE2ECrcSize, e2e_GetE2ECrcSize, GetPacketSize, GetPacketSize_QT_V2, GetPacketSize_ST_V3, GetPacketSize_ST_V7,
    seq_num_off, ProtocolV1_4.tail_off, Udp3_2.tail_off, Udp4_3.tail_off, func_safety_off, azimuth_off, header_off,
    ProtocolV1_4.block_size, Udp4_3.block_size, unit_size, optional, sizeof_PRE_HEADER, sizeof_HEADER, sizeof_AZIMUTH,
    sizeof_CHN_UNIT, sizeof_CHN_UNIT_NO_CONF, sizeof_CRC, sizeof_FUNC_SAFETY, sizeof_TAIL, sizeof_TAIL_ST,
    sizeof_SEQ_NUM, sizeof_IMU, sizeof_CYBER_SECURITY, sizeof_E2E_HEADER, u16, is_u8 in *;
  repeat case_match; rewrite ?Z.mod_small by nia; nia.

(** The sections a decoder looks for lie in the order of the sizes [GetPacketSize]
    adds up: what is left behind the last one it reads are the sections it does not
    read, as long as the size fits in its 16 bits. *)
Theorem section_offsets h : dims_ok h ->
  GetPacketSize h = seq_num_off h + optional (HasSeqNum h) sizeof_SEQ_NUM + optional (HasIMU h) sizeof_IMU + 4
    + optional (HasCyberSecurity h) sizeof_CYBER_SECURITY /\
  GetPacketSize_QT_V2 h = Udp3_2.tail_off h + sizeof_TAIL + optional (HasSeqNum h) sizeof_SEQ_NUM + 4
    + optional (HasCyberSecurity h) sizeof_CYBER_SECURITY /\
  GetPacketSize_ST_V3 h = Udp4_3.tail_off h + sizeof_TAIL_ST + optional (HasSeqNum h) sizeof_SEQ_NUM + 4
    + optional (HasCyberSecurity h) sizeof_CYBER_SECURITY /\
  GetPacketSize_ST_V7 h = Udp4_3.tail_off h + sizeof_TAIL_ST + optional (HasSeqNum h) sizeof_SEQ_NUM
    + sizeof_E2E_HEADER + optional (HasCyberSecurity h) sizeof_CYBER_SECURITY.
Proof.
  intros (HL & HB & Hs). split_and!; sizes.
Qed.

(** The two [GetE2ECrcSize] of the 4.7 protocol agree, and are the place of the
    checksum of the end-to-end header, when that header has the size of the packet
    as its length and the packet is signed; without a signature that of the
    end-to-end header takes 32 bytes too many off. *)
Theorem e2e_sizes_agree h e : dims_ok h -> m_u16Length e = GetPacketSize_ST_V7 h ->
  GetE2ECrcSize h = Udp4_3.tail_off h + sizeof_TAIL_ST + optional (HasSeqNum h) sizeof_SEQ_NUM + 8 /\
  e2e_GetE2ECrcSize e = GetE2ECrcSize h - (if HasCyberSecurity h then 0 else sizeof_CYBER_SECURITY).
Proof.
  intros Hd Hl. unfold e2e_GetE2ECrcSize. rewrite Hl, (proj2 (proj2 (proj2 (section_offsets h Hd)))).
  clear Hl. destruct Hd as (HL & HB & Hs). split; sizes.
Qed.

(** A header can announce a packet whose size does not fit in the 16 bits of
    [GetPacketSize]: the size then lies before the tail. *)
Theorem packet_size_wraps :
  exists h, is_u8 (GetLaserNum h) /\ is_u8 (GetBlockNum h) /\ GetPacketSize h < ProtocolV1_4.tail_off h.
Proof. exists (mk_header 255 255 0 4 1 0). by split_and!. Qed.

(** ** Witnesses *)

Definition demo_func_safety : HS_LIDAR_FUNC_SAFETY_ME_V4 := mk_func_safety 1 0x4d 0x3a 0x1234 [0; 0; 0; 0; 0; 0; 0; 9] 0xdeadbeef.
Definition demo_imu : HS_LIDAR_TAIL_IMU_ME_V4 := mk_imu (-12) 1000 500 123456 (3, -4, 1000) (-1, 0, 7).
Definition demo_e2e : HS_LIDAR_E2E_HEADER_ST_V7 := mk_e2e 1200 7 42 0xcafebabe.
Definition demo_st_header : HS_LIDAR_HEADER_ME_V4 := mk_header 128 2 1 4 1 0x09.

Lemma func_safety_bits_witness :
  fs_u8Status demo_func_safety = 77 /\ GetLidarState demo_func_safety = 2 /\ 0 <= GetFaultNum demo_func_safety < 16.
Proof. split; [done|]. split; [done|]. apply (func_safety_bits demo_func_safety). by split_and!. Defined.

Lemma func_safety_roundtrip_witness :
  func_safety_cast ([1; 2; 3] ++ func_safety_image demo_func_safety ++ [4]) 3 = Ok demo_func_safety.
Proof. apply (func_safety_roundtrip demo_func_safety [1; 2; 3] [4]). by split_and!. Defined.

Lemma imu_roundtrip_witness : imu_cast ([1; 2; 3] ++ imu_image demo_imu ++ [4]) 3 = Ok demo_imu.
Proof. apply (imu_roundtrip demo_imu [1; 2; 3] [4]). cbn. by split_and!. Defined.

Lemma e2e_roundtrip_witness : e2e_cast ([1; 2; 3] ++ e2e_image demo_e2e ++ [4]) 3 = Ok demo_e2e.
Proof. apply (e2e_roundtrip demo_e2e [1; 2; 3] [4]). by split_and!. Defined.

Lemma section_offsets_witness : GetPacketSize_ST_V7 demo_st_header = 1126 /\ GetPacketSize demo_st_header = 854.
Proof.
  assert (dims_ok demo_st_header) as H by (by split_and!).
  destruct (section_offsets demo_st_header H) as (E1 & _ & _ & E4). by rewrite E1, E4.
Defined.

Lemma e2e_sizes_agree_witness : e2e_GetE2ECrcSize (mk_e2e 1126 0 0 0) = GetE2ECrcSize demo_st_header.
Proof.
  rewrite (proj2 (e2e_sizes_agree demo_st_header (mk_e2e 1126 0 0 0) ltac:(by split_and!) ltac:(done))).
  by vm_compute.
Defined.
