(* ===== verification/Udp4_7.v ===== *)
(** * Udp4_7: the decoder of ATX

    UdpParser/src/udp4_7_parser.cc, UdpParser/include/udp4_7_parser.h and
    UdpProtocol/udp_protocol_v4_7.h.  The blocks of a packet are laid out as those
    of PandarAT128 (Udp4_3.v), the calibration comes in three versions of a binary
    file and the firetimes in a binary or a CSV file; a frame ends when the parity
    of the frame number changes. *)

From Stdlib Require Import Ascii SpecFloat.
From S2P Require Import Spinning Prelude Bytes Text Streams Floats LidarTypes PacketLoss GeneralParser Decoder Calendar.
From S2P Require Import ProtocolV1_4 Firetimes1_4 Udp1_4 Points Walk LidarTime Udp4_3.
Local Open Scope Z_scope.

Definition ATX_LASER_NUM : Z := 512.
Definition kAllFineResolution : Z := 25600.
Definition sizeof_ATXHeader : Z := 9.

(** ** The calibration *)

(** The bytes of [ATXCorrectionsHeader] that are used; [ATXFiretimesHeader] is the
    same structure. *)
Record ATXCorrectionsHeader : Set := mk_atx_header { atx_version : Z; atx_channel_number : Z; angle_division : Z }.

(** The arrays that are read after loading, of 512 elements, zero at first. *)
Record ATXCorrections : Type := mk_atx {
  atx_header : ATXCorrectionsHeader;
  raw_azimuths_even : list Z;
  raw_azimuths_odd : list Z;
  atx_azimuth : list f32;
  atx_elevation : list f32;
  elevation_adjust : list f32;
}.

Definition zero_floats : list f32 := replicate (Z.to_nat ATX_LASER_NUM) f_zero.
Definition ATXCorrections_new : ATXCorrections :=
  mk_atx (mk_atx_header 0 0 0) (zeros ATX_LASER_NUM) (zeros ATX_LASER_NUM) zero_floats zero_floats zero_floats.

(** The firetimes are uninitialised until a file was read. *)
Record Udp4_7Parser : Type := mk_udp4_7 {
  base : GeneralParser;
  atx_get_correction_file_ : bool;
  atx_use_angle_ : bool;
  last_frameid_ : Z;
  m_ATX_corrections : ATXCorrections;
  even_firetime_correction_ : list (option f64);
  odd_firetime_correction_ : list (option f64);
}.

Definition unset_firetimes : list (option f64) := replicate (Z.to_nat ATX_LASER_NUM) None.
Definition Udp4_7Parser_new (p : GeneralParser) : Udp4_7Parser :=
  mk_udp4_7 p false true (-1) ATXCorrections_new unset_firetimes unset_firetimes.

Definition set_base (p : GeneralParser) (u : Udp4_7Parser) : Udp4_7Parser :=
  mk_udp4_7 p (atx_get_correction_file_ u) (atx_use_angle_ u) (last_frameid_ u) (m_ATX_corrections u)
    (even_firetime_correction_ u) (odd_firetime_correction_ u).
Definition set_corrections (got : bool) (c : ATXCorrections) (u : Udp4_7Parser) : Udp4_7Parser :=
  mk_udp4_7 (base u) got (atx_use_angle_ u) (last_frameid_ u) c (even_firetime_correction_ u) (odd_firetime_correction_ u).
Definition set_firetimes (got : bool) (even odd : list (option f64)) (u : Udp4_7Parser) : Udp4_7Parser :=
  mk_udp4_7 (GeneralParser.set_firetimes (firetime_correction_ (base u)) got (base u)) (atx_get_correction_file_ u)
    (atx_use_angle_ u) (last_frameid_ u) (m_ATX_corrections u) even odd.

(** ** The calibration file *)

(** ((float) raw) / (float) division *)
Definition divided (division : Z) (l : list Z) : list f32 := map (fun v => div32 (of_Z32 v) (of_Z32 division)) l.

(** (delimiter, delimiter, header) *)
Definition read_ATXHeader (block : list Z) : result (Z * Z * ATXCorrectionsHeader) :=
  header ← arr_slice block 0 sizeof_ATXHeader;
  d0 ← rd8 header 0; d1 ← rd8 header 1; v ← rd8 header 3; ch ← rd8 header 6; dv ← rd16 header 7;
  Ok (d0, d1, mk_atx_header v ch dv).

(** Case 1: one table of azimuths. *)
Definition load_version_1 (block : list Z) (h : ATXCorrectionsHeader) (c : ATXCorrections) : result ATXCorrections :=
  let n := atx_channel_number h in
  let p := sizeof_ATXHeader in
  az ← read_words 2 block p n;
  let p := p + 2 * n in
  el ← read_words 2 block p n;
  let p := p + 2 * n in
  _ ← arr_slice block p 32;
  Ok (mk_atx h (raw_azimuths_even c) (raw_azimuths_odd c)
        (overlay (divided (angle_division h) (map i16 az)) (atx_azimuth c))
        (overlay (divided (angle_division h) (map i16 el)) (atx_elevation c)) (elevation_adjust c)).

(** Cases 2 and 3: azimuths of the even and of the odd frames; in version 3 also
    [kLenElevationAdjust] adjustments of the elevation. *)
Definition kLenElevationAdjust : Z := 70.

Definition load_version_2_3 (block : list Z) (h : ATXCorrectionsHeader) (c : ATXCorrections) : result ATXCorrections :=
  let n := atx_channel_number h in
  let p := sizeof_ATXHeader in
  even ← read_words 2 block p n;
  let p := p + 2 * n in
  odd ← read_words 2 block p n;
  let p := p + 2 * n in
  el ← read_words 2 block p n;
  let p := p + 2 * n in
  adj ← (if atx_version h =? 3 then read_words 2 block p kLenElevationAdjust else Ok []);
  let p := if atx_version h =? 3 then p + 2 * kLenElevationAdjust else p in
  _ ← arr_slice block p 32;
  Ok (mk_atx h (overlay (map i16 even) (raw_azimuths_even c)) (overlay (map i16 odd) (raw_azimuths_odd c)) (atx_azimuth c)
        (overlay (divided (angle_division h) (map i16 el)) (atx_elevation c))
        (overlay (divided (angle_division h) (map i16 adj)) (elevation_adjust c))).

Definition set_atx_header (h : ATXCorrectionsHeader) (c : ATXCorrections) : ATXCorrections :=
  mk_atx h (raw_azimuths_even c) (raw_azimuths_odd c) (atx_azimuth c) (atx_elevation c) (elevation_adjust c).

Definition LoadCorrectionString (block : list Z) (u : Udp4_7Parser) : result (Z * Udp4_7Parser) :=
  '(d0, d1, h) ← read_ATXHeader block;
  let v := atx_version h in
  if (d0 =? 0xee) && (d1 =? 0xff) && ((v =? 1) || (v =? 2) || (v =? 3)) then
    if (ATX_LASER_NUM <? atx_channel_number h) || (angle_division h =? 0)
    then Ok (-1, set_corrections (atx_get_correction_file_ u) (set_atx_header h (m_ATX_corrections u)) u)
    else
      c ← (if v =? 1 then load_version_1 block h (m_ATX_corrections u) else load_version_2_3 block h (m_ATX_corrections u));
      Ok (0, set_corrections true c u)
  else Ok (-1, u).

Definition LoadCorrectionFile (fs : string -> option string) (path : string) (u : Udp4_7Parser) : result Udp4_7Parser :=
  match fs path with
  | Some buffer => '(_, u) ← LoadCorrectionString (bytes_of buffer) u; Ok u
  | None => Ok u
  end.

Definition GetVecticalAngle (u : Udp4_7Parser) (channel : Z) : result Z :=
  if negb (atx_get_correction_file_ u) then Ok (-1)
  else e ← arr_get (A := f32) (atx_elevation (m_ATX_corrections u)) channel; f_to_int (- 2 ^ 15) (2 ^ 15 - 1) e.

(** ** The firetime file *)

(** The binary file: the numbers are not divided by the division. *)
Definition LoadFiretimesString (block : list Z) (u : Udp4_7Parser) : result (Z * Udp4_7Parser) :=
  '(d0, d1, h) ← read_ATXHeader block;
  if (d0 =? 0xee) && (d1 =? 0xff) && (atx_version h =? 1) then
    let n := atx_channel_number h in
    if (ATX_LASER_NUM <? n) || (angle_division h =? 0) then Ok (-1, u)
    else
      even ← read_words 2 block sizeof_ATXHeader n;
      odd ← read_words 2 block (sizeof_ATXHeader + 2 * n) n;
      _ ← arr_slice block (sizeof_ATXHeader + 2 * n + 2 * n) 32;
      Ok (0, set_firetimes true (overlay (map (fun v => Some (of_Z64 v)) even) (even_firetime_correction_ u))
               (overlay (map (fun v => Some (of_Z64 v)) odd) (odd_firetime_correction_ u)) u)
  else Ok (-1, u).

(** A row of the CSV file: even[stoi(index) - 1] = stod(deltTime1), and the same
    for odd. *)
Definition firetime_row (st : list (option f64) * list (option f64)) (line : string)
    : result (list (option f64) * list (option f64)) :=
  let '(even, odd) := st in
  let '(index, ss) := getline comma (mk_stream line true) EmptyString in
  let '(deltTime1, ss) := getline comma ss EmptyString in
  let '(deltTime2, _) := getline comma ss EmptyString in
  t1 ← stod deltTime1;
  i ← stoi index;
  even ← arr_set even (i - 1) (Some t1);
  t2 ← stod deltTime2;
  odd ← arr_set odd (i - 1) (Some t2);
  Ok (even, odd).

Inductive file_type : Set := wrong_type | bin_type | csv_type.

(** The last four characters of the path. *)
Definition type_of (path : string) : file_type :=
  if (String.length path <? 4)%nat then wrong_type
  else
    let extension := String.substring (String.length path - 4) 4 path in
    if bool_decide (extension = ".bin"%string) || bool_decide (extension = ".dat"%string) then bin_type
    else if bool_decide (extension = ".csv"%string) then csv_type
    else wrong_type.

Definition LoadFiretimesFile (fs : string -> option string) (path : string) (u : Udp4_7Parser) : result Udp4_7Parser :=
  match type_of path with
  | wrong_type => Ok u
  | csv_type =>
      match fs path with
      | Some content =>
          '(even, odd) ← foldM firetime_row (even_firetime_correction_ u, odd_firetime_correction_ u)
            (drop 1 (tokens newline content));
          Ok (set_firetimes true even odd u)
      | None => Ok (set_firetimes false (even_firetime_correction_ u) (odd_firetime_correction_ u) u)
      end
  | bin_type =>
      match fs path with
      | Some buffer => '(_, u) ← LoadFiretimesString (bytes_of buffer) u; Ok u
      | None => Ok u
      end
  end.

(** ** Packets *)

Definition tail_ST_V7 (buf : list Z) (off : Z) : result HS_LIDAR_TAIL_ST :=
  fid ← rd8 buf (off + 10); ms ← rd16 buf (off + 18); ts ← rd32 buf (off + 20); rm ← rd8 buf (off + 24);
  utc ← arr_slice buf (off + 26) 6;
  Ok (mk_tail_st 0 fid ms ts rm utc).

Definition even_frame (t : HS_LIDAR_TAIL_ST) : bool := st_FrameID t mod 2 =? 0.

(** int azimuth = u32Azimuth * (kAllFineResolutionFloat / angle_division); the fine
    azimuth is not used. *)
Definition block_azimuth (c : ATXCorrections) (u16Azimuth : Z) : result Z :=
  to_int (mul32 (of_Z32 u16Azimuth) (div32 (of_Z32 kAllFineResolution) (of_Z32 (angle_division (atx_header c))))).

Definition read_azimuth (c : ATXCorrections) (h : HS_LIDAR_HEADER_ME_V4) (buf : list Z) (b : Z) : result (Z * Z) :=
  a ← rd16 buf (12 + block_size h * b); azimuth ← block_azimuth c a; Ok (a, azimuth).

(** The azimuth of channel [i] before the firetime; it is not written for a version
    that does not exist. *)
Definition corrected_azimuth (c : ATXCorrections) (even : bool) (azimuth i : Z) (old : option PointDecodeData) : result f32 :=
  let v := atx_version (atx_header c) in
  if v =? 1 then
    a ← arr_get (A := f32) (atx_azimuth c) i;
    Ok (add32 (of_Z32 azimuth) (mul32 a (of_Z32 kAllFineResolution)))
  else if (v =? 2) || (v =? 3) then
    raw ← (if even then arr_get (raw_azimuths_even c) i else arr_get (raw_azimuths_odd c) i);
    Ok (add32 (of_Z32 azimuth)
          (div32 (mul32 (of_Z32 raw) (of_Z32 kAllFineResolution)) (of_Z32 (angle_division (atx_header c)))))
  else of_option Uninitialised (pd_azimuth <$> old).

(** azimuth + (even ? even[i] : -odd[i]) * (abs(speed) * 1E-9 / 8) * kAllFineResolutionFloat *)
Definition fire_azimuth (u : Udp4_7Parser) (t : HS_LIDAR_TAIL_ST) (i : Z) (a : f32) : result f32 :=
  if get_firetime_file_ (base u) then
    x ← (if even_frame t then arr_get (even_firetime_correction_ u) i else arr_get (odd_firetime_correction_ u) i);
    ft ← of_option Uninitialised x;
    let ft := if even_frame t then ft else SFopp ft in
    let speed := div64 (mul64 (of_Z64 (Z.abs (i16 (st_MotorSpeed t)))) (lit64 1 9)) (of_Z64 8) in
    Ok (to32 (add64 a (mul64 (mul64 ft speed) (of_Z64 kAllFineResolution))))
  else Ok a.

Definition read_channel (u : Udp4_7Parser) (h : HS_LIDAR_HEADER_ME_V4) (t : HS_LIDAR_TAIL_ST) (buf : list Z) (a : Z * Z)
    (b i : Z) (old : option PointDecodeData) : result PointDecodeData :=
  let pChnUnit := 12 + block_size h * b + 3 + 4 * i in
  az ← corrected_azimuth (m_ATX_corrections u) (even_frame t) a.2 i old;
  az ← fire_azimuth u t i az;
  refl ← rd8 buf (pChnUnit + 2);
  dist ← rd16 buf pChnUnit;
  conf ← rd8 buf (pChnUnit + 3);
  Ok (mk_pdd az (default f_zero (pd_elevation <$> old)) dist refl (Some conf) (old ≫= pd_chn_index) (old ≫= pd_mirror_index)).

Definition IsNeedFrameSplit (frame_id last : Z) : bool := negb (frame_id =? last) && (0 <=? last).

(** What a block does to (scan_complete, use_angle_, last_frameid_, last_azimuth_). *)
Definition split_block (frameID : Z) (a : Z * Z) (s : bool * bool * Z * Z) : bool * bool * Z * Z :=
  let '(complete, use, lastid, last) := s in
  (complete || (use && IsNeedFrameSplit frameID lastid), true, frameID, a.1).

Section Decode.
Context {P : Type}.
Variable timezone : TimeZone.

Definition DecodePacket (host : Z) (now : nat -> Z) (u : Udp4_7Parser) (frame : LidarDecodedFrame P)
    (pkt : UdpPacket) : result (Z * Udp4_7Parser * LidarDecodedFrame P) :=
  if negb (atx_get_correction_file_ u) then Ok (-1, u, frame)
  else
    let buf := buffer pkt in
    b0 ← rd8 buf 0;
    b1 ← rd8 buf 1;
    if negb (b0 =? 0xEE) || negb (b1 =? 0xFF) then Ok (-1, u, frame)
    else
      h ← header_cast buf header_off;
      t ← tail_ST_V7 buf (tail_off h);
      p ← count_packet timezone now h t buf (base u);
      frame ← put_timestamp (packet_num frame)
        (if use_timestamp_type frame =? 0 then GetMicroLidarTimeU64_1900 timezone (st_UTC t) (st_Timestamp t)
         else recv_timestamp pkt) frame;
      let p := set_motor (st_MotorSpeed t) (st_ReturnMode t =? kDualReturn) p in
      let frame := set_packet_info host (st_MotorSpeed t) (work_mode frame) (st_ReturnMode t) (GetBlockNum h) (GetLaserNum h)
        (div32 (of_Z32 (m_u8DistUnit h)) (of_Z32 1000)) frame in
      let index := i32 (u32 (packet_num frame * GetBlockNum h * GetLaserNum h)) in
      '(s, data) ← step_blocks kMaxPointsNumPerFrame index (GetBlockNum h) (GetLaserNum h)
        (read_azimuth (m_ATX_corrections u) h buf) (read_channel (set_base p u) h t buf) (split_block (st_FrameID t mod 2))
        (scan_complete frame, atx_use_angle_ u, last_frameid_ u, last_azimuth_ p) (pointData frame);
      let '(complete, use, lastid, last) := s in
      Ok (0, mk_udp4_7 (set_azimuths last (last_last_azimuth_ p) (rotation_flag p) (frame_start_azimuth_ p) p)
               (atx_get_correction_file_ u) use lastid (m_ATX_corrections u) (even_firetime_correction_ u)
               (odd_firetime_correction_ u),
          set_counts (u32 (packet_num frame + 1)) (points_num frame) (set_scan_complete complete (set_pointData data frame))).

(** ** Coordinates *)

Definition kBegElevationAdjust : f32 := of_Z32 20.
Definition kStepElevationAdjust : f32 := of_Z32 2.
Definition GetEndElevationAdjust : f64 :=
  add64 kBegElevationAdjust (mul64 kStepElevationAdjust (of_Z64 (kLenElevationAdjust - 1))).

(** The adjustment between its two neighbours in the table, 0 outside it. *)
Definition ElevationAdjust (c : ATXCorrections) (azimuth : Z) : result f32 :=
  azimuth ← wrap_circle azimuth;
  let azimuth_angle := div64 (of_Z64 azimuth) (of_Z32 kAllFineResolution) in
  if SFltb azimuth_angle kBegElevationAdjust || SFltb GetEndElevationAdjust azimuth_angle then Ok f_zero
  else
    index ← to_int (div64 (sub64 azimuth_angle kBegElevationAdjust) kStepElevationAdjust);
    if index =? kLenElevationAdjust - 1 then arr_get (A := f32) (elevation_adjust c) index
    else
      let left_percent := to32 (div64 (sub64 (sub64 azimuth_angle kBegElevationAdjust)
                                         (mul32 (of_Z32 index) kStepElevationAdjust)) kStepElevationAdjust) in
      a ← arr_get (A := f32) (elevation_adjust c) index;
      b ← arr_get (A := f32) (elevation_adjust c) (index + 1);
      Ok (add32 (mul32 a (sub32 (of_Z32 1) left_percent)) (mul32 b left_percent)).

(** (azimuth, elevation) of channel [i]. *)
Definition point_angles (c : ATXCorrections) (i Azimuth : Z) : result (Z * Z) :=
  azimuth ← wrap_circle Azimuth;
  let v := atx_version (atx_header c) in
  elevation ←
    (if (v =? 1) || (v =? 2) then
       e ← arr_get (A := f32) (atx_elevation c) i; to_int (mul32 e (of_Z32 kAllFineResolution))
     else if v =? 3 then
       e ← arr_get (A := f32) (atx_elevation c) i;
       a ← ElevationAdjust c azimuth;
       to_int (add32 (mul32 e (of_Z32 kAllFineResolution)) (mul32 a (of_Z32 kAllFineResolution)))
     else Ok 0);
  elevation ← wrap_circle elevation;
  Ok (azimuth, elevation).

Context {PT : PointType P}.
Variables (sin_all_angle_ cos_all_angle_ : Z -> f32).
Variables (sin32 cos32 : f32 -> f32).

Definition compute_point (u : Udp4_7Parser) (frame : LidarDecodedFrame P) (packet_index i point_index : Z)
    (old : option P) : result P :=
  d ← array_at kMaxPointsNumPerFrame point_index (pointData frame);
  let distance := point_distance d (distance_unit frame) in
  Azimuth ← to_int (pd_azimuth d);
  '(azimuth, elevation) ←
    (if atx_get_correction_file_ u then point_angles (m_ATX_corrections u) i Azimuth else Ok (0, 0));
  place_point sin_all_angle_ cos_all_angle_ sin32 cos32 (Some (transform_ (base u))) true frame packet_index i azimuth
    (Ok elevation) distance d old.

Definition ComputeXYZI (u : Udp4_7Parser) (frame : LidarDecodedFrame P) (packet_index : Z)
    : result (Z * Udp4_7Parser * LidarDecodedFrame P) :=
  pts ← each_point frame packet_index (fun _ i => compute_point u frame packet_index i);
  Ok (0, set_base (FrameNumAdd (base u)) u, set_points pts frame).

End Decode.

(** The parser object as its callers see it. *)
#[export] Instance udp4_7_decoder {P} {PT : PointType P} (timezone : TimeZone) (sin_all_angle_ cos_all_angle_ : Z -> f32)
    (sin32 cos32 : f32 -> f32) : Decoder P Udp4_7Parser := {|
  general := base;
  with_general := set_base;
  v_DecodePacket host now u f pkt := DecodePacket timezone host now u f pkt;
  v_ComputeXYZI := ComputeXYZI sin_all_angle_ cos_all_angle_ sin32 cos32;
  v_LoadCorrectionFile := LoadCorrectionFile;
  v_LoadCorrectionString block u := LoadCorrectionString (bytes_of block) u;
  v_LoadFiretimesFile := LoadFiretimesFile;
|}.

(** ** Lemmas: the tables *)

Definition tables_ok (c : ATXCorrections) : Prop :=
  length (raw_azimuths_even c) = 512%nat /\ length (raw_azimuths_odd c) = 512%nat /\ length (atx_azimuth c) = 512%nat /\
  length (atx_elevation c) = 512%nat /\ length (elevation_adjust c) = 512%nat.

Definition firetimes_long (u : Udp4_7Parser) : Prop :=
  length (even_firetime_correction_ u) = 512%nat /\ length (odd_firetime_correction_ u) = 512%nat.

(** The firetimes of the first [n] channels are there, if there is a file. *)
Definition firetimes_set (n : Z) (u : Udp4_7Parser) : Prop :=
  get_firetime_file_ (base u) = true -> forall i, 0 <= i < n ->
    (exists v, arr_get (even_firetime_correction_ u) i = Ok (Some v)) /\
    (exists v, arr_get (odd_firetime_correction_ u) i = Ok (Some v)).

(** What a file can change keeps the lengths of the arrays; a file that is accepted
    leaves a calibration that can be used. *)
Definition cal_ok (c : ATXCorrections) : Prop :=
  let v := atx_version (atx_header c) in (v = 1 \/ v = 2 \/ v = 3) /\ angle_division (atx_header c) <> 0 /\ tables_ok c.

Ltac table_lia := rewrite ?overlay_length; unfold divided; rewrite ?length_map; lia.

Lemma load_version_1_ok block h c c' : tables_ok c -> 0 <= atx_channel_number h <= ATX_LASER_NUM ->
  load_version_1 block h c = Ok c' -> atx_header c' = h /\ tables_ok c'.
Proof.
  unfold load_version_1, ATX_LASER_NUM. cbv zeta. intros (T1 & T2 & T3 & T4 & T5) Hn H. inv_ok.
  apply read_words_length in E, E0; [|lia..]. split; [done|]. unfold tables_ok. cbn [raw_azimuths_even raw_azimuths_odd
    atx_azimuth atx_elevation elevation_adjust]. repeat split; table_lia.
Qed.

Lemma load_version_2_3_ok block h c c' : tables_ok c -> 0 <= atx_channel_number h <= ATX_LASER_NUM ->
  load_version_2_3 block h c = Ok c' -> atx_header c' = h /\ tables_ok c'.
Proof.
  unfold load_version_2_3, ATX_LASER_NUM. cbv zeta. intros (T1 & T2 & T3 & T4 & T5) Hn H. inv_ok.
  apply read_words_length in E, E0, E1; [|lia..].
  assert (length a2 <= 70)%nat.
  { destruct (atx_version h =? 3); [apply read_words_length in E2; unfold kLenElevationAdjust in *; lia|inv_ok; cbn; lia]. }
  split; [done|]. unfold tables_ok. cbn [raw_azimuths_even raw_azimuths_odd atx_azimuth atx_elevation elevation_adjust].
  repeat split; table_lia.
Qed.

Lemma arr_set_length {A} (l l' : list A) i x : arr_set l i x = Ok l' -> length l' = length l.
Proof. unfold arr_set. intros H. destruct (decide _); inv_ok. apply length_insert. Qed.

Lemma firetime_row_length st line st' : firetime_row st line = Ok st' ->
  length st'.1 = length st.1 /\ length st'.2 = length st.2.
Proof.
  unfold firetime_row. destruct st as [even odd], (getline _ _ _) as [index ss], (getline comma ss _) as [d1 ss1],
    (getline comma ss1 _) as [d2 ss2]. intros H. inv_ok. apply arr_set_length in E1, E3. done.
Qed.

(** ** Lemmas: packets *)

Lemma tail_ST_V7_ok buf off : 0 <= off -> off + 32 <= Z.of_nat (length buf) -> exists t, tail_ST_V7 buf off = Ok t.
Proof. intros Ho Hl. unfold tail_ST_V7. read_fields. Qed.

Lemma corrected_azimuth_total c even a i old : cal_ok c -> 0 <= i < 512 -> is_ok (corrected_azimuth c even a i old) = true.
Proof.
  intros (Hv & _ & T1 & T2 & T3 & _) Hi. unfold corrected_azimuth. cbv zeta.
  destruct (arr_get_in (A := f32) (atx_azimuth c) i) as [x Ex]; [lia|].
  destruct (arr_get_in (raw_azimuths_even c) i) as [y Ey]; [lia|].
  destruct (arr_get_in (raw_azimuths_odd c) i) as [z Ez]; [lia|].
  rewrite Ex, Ey, Ez. destruct Hv as [-> |[-> | ->]]; by destruct even.
Qed.

Lemma fire_azimuth_total u t n i a : firetimes_set n u -> 0 <= i < n -> is_ok (fire_azimuth u t i a) = true.
Proof.
  intros Hf Hi. unfold fire_azimuth. destruct (get_firetime_file_ (base u)) eqn:E; [|done].
  destruct (Hf E i Hi) as [[x ->] [y ->]]. by destruct (even_frame t).
Qed.

Lemma atx_read_channel_total u h t buf a b i old : cal_ok (m_ATX_corrections u) -> firetimes_set (GetLaserNum h) u ->
  tail_off h <= Z.of_nat (length buf) -> 0 <= GetLaserNum h <= 512 -> 0 <= b < GetBlockNum h -> 0 <= i < GetLaserNum h ->
  is_ok (read_channel u h t buf a b i old) = true.
Proof.
  intros Hc Hf Ht Hl Hb Hi. destruct (at_unit_inside h b i) as [H1 H2]; [lia|done|done|].
  unfold read_channel. cbv zeta. set (off := 12 + _ + _ + _) in *.
  pose proof (corrected_azimuth_total _ (even_frame t) a.2 i old Hc ltac:(lia)) as Ha.
  destruct (corrected_azimuth _ _ _ _ _) as [az|]; [|done]. cbn [mbind result_bind].
  pose proof (fire_azimuth_total u t _ i az Hf Hi) as Hz. destruct (fire_azimuth _ _ _ _); [|done]. cbn [mbind result_bind].
  destruct (rd8_in buf (off + 2)) as [r ->]; [lia|]. cbn [mbind result_bind].
  unfold rd16. destruct (rd_le_in 2 buf off) as [d ->]; [lia|lia|]. cbn [mbind result_bind].
  destruct (rd8_in buf (off + 3)) as [c ->]; [lia|]. done.
Qed.

Lemma atx_read_channel_spec u h t buf a b i old d : read_channel u h t buf a b i old = Ok d ->
  let off := 12 + block_size h * b + 3 + 4 * i in
  (exists az, corrected_azimuth (m_ATX_corrections u) (even_frame t) a.2 i old = Ok az /\ fire_azimuth u t i az = Ok (pd_azimuth d)) /\
  rd16 buf off = Ok (pd_distances d) /\ rd8 buf (off + 2) = Ok (pd_reflectivities d) /\
  exists c, rd8 buf (off + 3) = Ok c /\ pd_confidence d = Some c.
Proof. unfold read_channel. cbv zeta. intros H. inv_ok. cbn. eauto 10. Qed.

(** A block completes a frame when it is the first one after the parity changed. *)
Lemma atx_split_blocks fid azs : forall complete use lastid az0, azs <> [] ->
  foldl (fun s a => split_block fid a s) (complete, use, lastid, az0) azs =
    (complete || (use && IsNeedFrameSplit fid lastid), true, fid, default az0 (fst <$> last azs)).
Proof.
  induction azs as [|a azs IH]; intros complete use lastid az0; [done|]. intros _. cbn [foldl].
  unfold split_block at 2. destruct azs as [|b azs]; [done|]. rewrite IH by done.
  unfold IsNeedFrameSplit at 2. rewrite Z.eqb_refl. cbn [negb andb]. rewrite orb_false_r.
  rewrite (last_cons a). by destruct (last (b :: azs)) eqn:E; [|by rewrite last_None in E].
Qed.

(** The azimuths of the blocks, as they are read and converted. *)
Definition atx_azimuths_of (c : ATXCorrections) (h : HS_LIDAR_HEADER_ME_V4) (buf : list Z) (azs : list (Z * Z)) : Prop :=
  Z.of_nat (length azs) = GetBlockNum h /\
  forall b, 0 <= b < GetBlockNum h -> exists a, azs !! Z.to_nat b = Some a /\ read_azimuth c h buf b = Ok a.

(** Every azimuth can be converted with the division of the calibration. *)
Definition division_ok (c : ATXCorrections) : Prop := forall a, is_u16 a -> is_ok (block_azimuth c a) = true.

Definition atx_stamp (timezone : TimeZone) (t : HS_LIDAR_TAIL_ST) {P} (f : LidarDecodedFrame P) (pkt : UdpPacket) : Z :=
  if use_timestamp_type f =? 0 then GetMicroLidarTimeU64_1900 timezone (st_UTC t) (st_Timestamp t) else recv_timestamp pkt.

(** The base object while the points of the packet are read. *)
Definition atx_base (t : HS_LIDAR_TAIL_ST) (l : LossState) (u : Udp4_7Parser) : GeneralParser :=
  set_motor (st_MotorSpeed t) (st_ReturnMode t =? kDualReturn) (set_loss l (base u)).

Section AtxLemmas.
Context {P : Type}.
Variable timezone : TimeZone.

(** The walk over the blocks of a packet. *)
Definition atx_walk (u : Udp4_7Parser) (h : HS_LIDAR_HEADER_ME_V4) (t : HS_LIDAR_TAIL_ST) (l : LossState) (buf : list Z)
    (index : Z) (data : gmap Z PointDecodeData) : result ((bool * bool * Z * Z) * gmap Z PointDecodeData) :=
  step_blocks kMaxPointsNumPerFrame index (GetBlockNum h) (GetLaserNum h)
    (read_azimuth (m_ATX_corrections u) h buf) (read_channel (set_base (atx_base t l u) u) h t buf)
    (split_block (st_FrameID t mod 2)) (false, atx_use_angle_ u, last_frameid_ u, last_azimuth_ (base u)) data.

(** What is known of a packet that was accepted. *)
Lemma atx_decode_accepts host now u (f : LidarDecodedFrame P) pkt r u' f' :
  atx_get_correction_file_ u = true -> rd8 (buffer pkt) 0 = Ok 0xEE -> rd8 (buffer pkt) 1 = Ok 0xFF ->
  DecodePacket timezone host now u f pkt = Ok (r, u', f') ->
  r = 0 /\ exists h t l s,
    header_cast (buffer pkt) header_off = Ok h /\ tail_ST_V7 (buffer pkt) (tail_off h) = Ok t /\
    atx_walk u h t l (buffer pkt) (i32 (u32 (packet_num f * GetBlockNum h * GetLaserNum h))) (pointData f) = Ok (s, pointData f') /\
    (let p := atx_base t l u in
     u' = mk_udp4_7 (set_azimuths s.2 (last_last_azimuth_ p) (rotation_flag p) (frame_start_azimuth_ p) p) true
            s.1.1.2 s.1.2 (m_ATX_corrections u) (even_firetime_correction_ u) (odd_firetime_correction_ u)) /\
    scan_complete f' = s.1.1.1 /\ packet_num f' = u32 (packet_num f + 1) /\ same_frame f f' /\ host_timestamp f' = host /\
    0 <= packet_num f < kMaxPacketNumPerFrame /\
    sensor_timestamp f' = <[packet_num f := atx_stamp timezone t f pkt]> (sensor_timestamp f).
Proof.
  intros Hc H0 H1. unfold DecodePacket. rewrite Hc, H0, H1. cbn [negb mbind result_bind].
  rewrite !Z.eqb_refl. cbn [negb orb]. intros H. inv_ok.
  destruct (count_packet_loss _ _ _ _ _ _ _ E1) as [l ->].
  unfold put_timestamp, array_put in E2.
  destruct (Z.leb_spec 0 (packet_num f)), (Z.ltb_spec (packet_num f) kMaxPacketNumPerFrame); cbn [andb] in E2; inv_ok.
  destruct a3 as [[[[complete use] lastid] last] data]. inv_ok.
  split; [done|]. exists a, a0, l, (complete, use, lastid, last).
  split; [done|]. split; [done|]. split; [exact E3|]. split; [reflexivity|]. cbn. done.
Qed.

(** What is refused leaves everything as it was. *)
Lemma atx_decode_refuses host now u (f : LidarDecodedFrame P) pkt r u' f' :
  DecodePacket timezone host now u f pkt = Ok (r, u', f') ->
  (atx_get_correction_file_ u = true /\ rd8 (buffer pkt) 0 = Ok 0xEE /\ rd8 (buffer pkt) 1 = Ok 0xFF) \/
  (r = -1 /\ u' = u /\ f' = f).
Proof.
  unfold DecodePacket. destruct (atx_get_correction_file_ u); cbn [negb]; [|intros [= <- <- <-]; by right].
  intros H. inv_ok. destruct (Z.eqb_spec a 0xEE) as [->|], (Z.eqb_spec a0 0xFF) as [->|]; cbn [negb orb] in H;
    inv_ok; [by left|by right..].
Qed.

(** The sections that stand before the blocks of a packet that fits can be read. *)
Lemma atx_decode_walk host now u (f : LidarDecodedFrame P) pkt h :
  atx_get_correction_file_ u = true -> at_fits (buffer pkt) h -> 0 <= packet_num f < kMaxPacketNumPerFrame ->
  exists t l, tail_ST_V7 (buffer pkt) (tail_off h) = Ok t /\
    is_ok (DecodePacket timezone host now u f pkt) =
      is_ok (atx_walk u h t l (buffer pkt) (packet_num f * GetBlockNum h * GetLaserNum h) (pointData f)).
Proof.
  intros Hc Hfit Hn. destruct (at_fits_dims _ _ _ Hfit Hn) as (HL & HB & Ht0 & _ & Hidx & _).
  destruct Hfit as (Hlen & _ & H0 & H1 & Hh & Hsz). unfold sizeof_TAIL_ST in *.
  destruct (tail_ST_V7_ok (buffer pkt) (tail_off h)) as [t Et]; [done|lia|].
  assert (exists p, count_packet timezone now h t (buffer pkt) (base u) = Ok p) as [p Ep].
  { unfold count_packet. destruct (HasSeqNum h); [|cbn; eauto]. unfold rd32, sizeof_TAIL_ST.
    destruct (rd_le_in 4 (buffer pkt) (tail_off h + 32)) as [s ->]; [lia|lia|]. cbn. eauto. }
  destruct (count_packet_loss _ _ _ _ _ _ _ Ep) as [l ->]. exists t, l. split; [done|].
  unfold DecodePacket. rewrite Hc, H0, H1. cbn [negb mbind result_bind]. rewrite !Z.eqb_refl. cbn [negb orb].
  rewrite Hh. cbn [mbind result_bind]. rewrite Et. cbn [mbind result_bind]. rewrite Ep. cbn [mbind result_bind].
  unfold put_timestamp. rewrite array_put_ok by done. cbn [mbind result_bind packet_num set_packet_info pointData scan_complete].
  rewrite Hidx. unfold atx_walk.
  match goal with |- is_ok (?a ≫= _) = is_ok ?b => change a with b; destruct b as [[[[[] ?] ?] ?]|]; done end.
Qed.

(** What the blocks did to the object. *)
Lemma atx_walk_fold u h t l buf index data s data' : atx_walk u h t l buf index data = Ok (s, data') ->
  exists azs, length azs = Z.to_nat (GetBlockNum h) /\
    s = foldl (fun s a => split_block (st_FrameID t mod 2) a s)
          (false, atx_use_angle_ u, last_frameid_ u, last_azimuth_ (base u)) azs.
Proof.
  unfold atx_walk. destruct (Z.le_gt_cases 0 (GetBlockNum h)) as [Hb|Hb].
  - rewrite <-(Z2Nat.id (GetBlockNum h)) at 1 by done. intros H.
    destruct (fill_of_step_blocks _ _ _ _ _ _ _ (0, 0) _ _ _ _ H) as (h' & Hf).
    destruct (step_blocks_of_fill _ _ _ _ _ (split_block (st_FrameID t mod 2)) _ _ _
      (false, atx_use_angle_ u, last_frameid_ u, last_azimuth_ (base u)) _ _ Hf) as (azs & Hal & _ & E).
    rewrite E in H. inv_ok. by exists azs.
  - unfold step_blocks. replace (seqZ 0 (GetBlockNum h)) with (@nil Z) by (unfold seqZ; by replace (Z.to_nat (GetBlockNum h)) with O by lia).
    intros [= <- _]. exists []. split; [cbn; lia|done].
Qed.

(** With a usable calibration the walk does not fail. *)
Lemma atx_walk_ok u h t l buf index data :
  cal_ok (m_ATX_corrections u) -> firetimes_set (GetLaserNum h) u -> tail_off h <= Z.of_nat (length buf) ->
  is_u8 (GetLaserNum h) -> is_u8 (GetBlockNum h) -> 0 <= index ->
  index + GetBlockNum h * GetLaserNum h <= kMaxPointsNumPerFrame ->
  (forall b, 0 <= b < GetBlockNum h -> is_ok (read_azimuth (m_ATX_corrections u) h buf b) = true) ->
  exists azs h0 data', atx_azimuths_of (m_ATX_corrections u) h buf azs /\
    fill_blocks kMaxPointsNumPerFrame index (GetBlockNum h) (GetLaserNum h) (read_azimuth (m_ATX_corrections u) h buf)
      (read_channel (set_base (atx_base t l u) u) h t buf) (0, 0) data = Ok (h0, data') /\
    atx_walk u h t l buf index data =
      Ok (foldl (fun s a => split_block (st_FrameID t mod 2) a s)
            (false, atx_use_angle_ u, last_frameid_ u, last_azimuth_ (base u)) azs, data').
Proof.
  intros Hc Hf Ht HL HB Hi Hmax Haz. unfold is_u8 in *.
  destruct (fill_blocks_ok kMaxPointsNumPerFrame index (GetLaserNum h) (read_azimuth (m_ATX_corrections u) h buf)
    (read_channel (set_base (atx_base t l u) u) h t buf) ltac:(lia) (GetBlockNum h) (0, 0) data)
    as (h0 & data' & Efill); [lia|done|done| |].
  { intros b Hb. specialize (Haz b Hb). destruct (read_azimuth _ h buf b) as [a|]; [|done].
    exists a. split; [done|]. intros i old Hil. apply atx_read_channel_total; (done || lia). }
  pose proof Efill as Efill'. rewrite <-(Z2Nat.id (GetBlockNum h)) in Efill' at 1 by lia.
  destruct (step_blocks_of_fill _ _ _ _ _ (split_block (st_FrameID t mod 2)) _ _ _
    (false, atx_use_angle_ u, last_frameid_ u, last_azimuth_ (base u)) _ _ Efill') as (azs & Hal & Haz' & Estep).
  rewrite Z2Nat.id in * by lia. exists azs, h0, data'. split; [split; [lia|exact Haz']|]. split; [exact Efill|exact Estep].
Qed.

End AtxLemmas.

(** ** What the callers rely on *)

Definition atx_ready (u : Udp4_7Parser) : Prop :=
  atx_get_correction_file_ u = true /\ cal_ok (m_ATX_corrections u) /\ division_ok (m_ATX_corrections u) /\ firetimes_set 256 u.

Definition atx_readable (pkt : UdpPacket) : Prop := exists h, at_fits (buffer pkt) h.

Lemma firetimes_set_le n m u : n <= m -> firetimes_set m u -> firetimes_set n u.
Proof. intros Hnm Hf Hg i Hi. apply (Hf Hg). lia. Qed.

(** The azimuths of the blocks of a packet that fits are sixteen-bit numbers. *)
Lemma read_azimuth_fits c buf h b : at_fits buf h -> is_u8 (GetLaserNum h) -> 0 <= b < GetBlockNum h -> division_ok c ->
  is_ok (read_azimuth c h buf b) = true.
Proof.
  intros (Hlen & Hbl & _ & _ & _ & Hsz) HL Hb Hd. unfold is_u8, sizeof_TAIL_ST in *.
  destruct (at_head_inside h b) as [A B]; [lia|done|]. unfold read_azimuth, rd16.
  destruct (rd_le_in 2 buf (12 + block_size h * b)) as [a Ea]; [lia|lia|].
  rewrite Ea. cbn [mbind result_bind].
  assert (is_ok (block_azimuth c a) = true) as H.
  { apply Hd. pose proof (rd_le_range 2 _ _ _ Hbl Ea). unfold is_u16. cbn in *. lia. }
  by destruct (block_azimuth c a).
Qed.

Lemma atx_decode_total {P} timezone host now u (f : LidarDecodedFrame P) pkt h :
  atx_get_correction_file_ u = true -> cal_ok (m_ATX_corrections u) -> firetimes_set (GetLaserNum h) u ->
  at_fits (buffer pkt) h -> 0 <= packet_num f < kMaxPacketNumPerFrame ->
  (forall b, 0 <= b < GetBlockNum h -> is_ok (read_azimuth (m_ATX_corrections u) h (buffer pkt) b) = true) ->
  exists u' f', DecodePacket timezone host now u f pkt = Ok (0, u', f').
Proof.
  intros Hc Hcal Hf Hfit Hn Haz. destruct (at_fits_dims _ _ _ Hfit Hn) as (HL & HB & Ht0 & Hmax & _ & Hpos).
  destruct (atx_decode_walk timezone host now u f pkt h Hc Hfit Hn) as (t & l & Et & E).
  destruct Hfit as (Hlen & _ & H0 & H1 & _ & Hsz). unfold sizeof_TAIL_ST in *.
  destruct (atx_walk_ok u h t l (buffer pkt) (packet_num f * GetBlockNum h * GetLaserNum h) (pointData f) Hcal Hf
    ltac:(lia) HL HB Hpos ltac:(lia) Haz) as (azs & h0 & data & _ & _ & Ew).
  rewrite Ew in E. destruct (DecodePacket _ _ _ _ _ _) as [[[r u'] f']|] eqn:Ed; [|done].
  destruct (atx_decode_accepts _ _ _ _ _ _ _ _ _ Hc H0 H1 Ed) as [-> _]. eauto.
Qed.

#[export] Instance udp4_7_laws {P} {PT : PointType P} (timezone : TimeZone) (sinT cosT : Z -> f32) (s32 c32 : f32 -> f32) :
  @DecoderLaws P Udp4_7Parser (udp4_7_decoder timezone sinT cosT s32 c32).
Proof.
  unshelve econstructor; cbn [general with_general v_DecodePacket v_ComputeXYZI udp4_7_decoder].
  - exact (@zero_alike P _ (udp4_7_decoder timezone sinT cosT s32 c32)).
  - exact atx_ready.
  - exact atx_readable.
  - done.
  - apply zero_alike_equivalence.
  - intros g. by apply (@zero_alike_reset P _ (udp4_7_decoder timezone sinT cosT s32 c32)).
  - intros u v Huv. unfold zero_alike in Huv. cbn in Huv. unfold set_base in Huv.
    pose proof (f_equal atx_get_correction_file_ Huv) as A. pose proof (f_equal m_ATX_corrections Huv) as B.
    pose proof (f_equal even_firetime_correction_ Huv) as C. pose proof (f_equal odd_firetime_correction_ Huv) as D.
    pose proof (f_equal (fun w => get_firetime_file_ (base w)) Huv) as E. cbn in A, B, C, D, E.
    unfold atx_ready, firetimes_set. by rewrite A, B, C, D, E.
  - intros host now u f pkt (Hc & Hcal & Hdiv & Hf) [h Hfit] Hn.
    destruct (at_fits_dims _ _ _ Hfit Hn) as (HL & _). unfold is_u8 in HL.
    destruct (atx_decode_total timezone host now u f pkt h Hc Hcal (firetimes_set_le (GetLaserNum h) 256 u ltac:(lia) Hf) Hfit Hn)
      as (u' & f' & E); [intros b Hb; by apply read_azimuth_fits|].
    exists u', f'. split; [exact E|]. destruct Hfit as (_ & _ & H0 & H1 & _).
    destruct (atx_decode_accepts _ _ _ _ _ _ _ _ _ Hc H0 H1 E) as (_ & h' & t & l & s & _ & _ & _ & -> & _).
    split; [done|]. split; [done|]. split; [done|exact Hf].
  - intros host now u f pkt u' f' E. destruct (atx_decode_refuses _ _ _ _ _ _ _ _ _ E) as [(Hc & H0 & H1)|(? & _)]; [|done].
    destruct (atx_decode_accepts _ _ _ _ _ _ _ _ _ Hc H0 H1 E)
      as (_ & h & t & l & s & _ & _ & _ & -> & _ & Hcount & Hsame & Hhost & _ & Hst).
    split; [done|]. split; [done|]. split; [done|]. split; [|done]. rewrite Hst. eexists. apply lookup_insert_eq.
  - intros host now u f pkt r u' f' E Hr.
    destruct (atx_decode_refuses _ _ _ _ _ _ _ _ _ E) as [(Hc & H0 & H1)|(_ & -> & ->)]; [|done].
    by destruct (atx_decode_accepts _ _ _ _ _ _ _ _ _ Hc H0 H1 E) as (-> & _).
  - intros host now host' now' u f pkt u1 f1 v1 f2 r u2 f3 E1 Hal E2.
    destruct (atx_decode_refuses _ _ _ _ _ _ _ _ _ E1) as [(Hc & H0 & H1)|(? & _)]; [|done].
    destruct (atx_decode_accepts _ _ _ _ _ _ _ _ _ Hc H0 H1 E1) as (_ & h & t & l & s & Hh & Ht & Hw & -> & _).
    unfold zero_alike in Hal. pose proof (f_equal last_frameid_ Hal) as B. pose proof (f_equal atx_use_angle_ Hal) as C.
    pose proof (f_equal atx_get_correction_file_ Hal) as A. cbn in A, B, C.
    destruct (atx_decode_accepts _ _ _ _ _ _ _ _ _ (eq_sym A) H0 H1 E2)
      as (-> & h' & t' & l' & s' & Hh' & Ht' & Hw' & _ & Hsplit & _).
    split; [done|]. rewrite Hh in Hh'. apply (inj Ok) in Hh' as <-. rewrite Ht in Ht'. apply (inj Ok) in Ht' as <-.
    rewrite Hsplit. destruct (atx_walk_fold _ _ _ _ _ _ _ _ _ Hw) as (azs & Hl & ->).
    destruct (atx_walk_fold _ _ _ _ _ _ _ _ _ Hw') as (azs' & Hl' & ->).
    rewrite <-Hl in Hl'. destruct azs as [|a azs], azs' as [|a' azs']; [done|done|done|].
    rewrite atx_split_blocks in B, C by done. rewrite atx_split_blocks by done. cbn in B, C |- *.
    rewrite <-B, <-C. unfold IsNeedFrameSplit. by rewrite Z.eqb_refl.
  - intros u f i r u' f' E. unfold ComputeXYZI in E. inv_ok. split; [done|]. split; [|done].
    by apply (@zero_alike_count P _ (udp4_7_decoder timezone sinT cosT s32 c32)).
Defined.

(** ** Properties *)

(** A calibration file: 9 bytes of header, the azimuths (of version 2 on, those of
    the even and of the odd frames), the elevations, in version 3 their
    adjustments, a checksum. *)
Record atx_raw : Set := mk_raw { raw_even : list Z; raw_odd : list Z; raw_elevation : list Z; raw_adjust : list Z }.

Definition atx_words (l : list Z) : list Z := concat (map (le_bytes 2) (map u16 l)).
Definition atx_file (h : ATXCorrectionsHeader) (r : atx_raw) (hash : list Z) : list Z :=
  let v := atx_version h in
  ([0xee; 0xff; 1; v; 0; 0; atx_channel_number h] ++ le_bytes 2 (angle_division h)) ++ atx_words (raw_even r) ++
  (if v =? 1 then [] else atx_words (raw_odd r)) ++ atx_words (raw_elevation r) ++
  (if v =? 3 then atx_words (raw_adjust r) else []) ++ hash.

Definition i16_list (l : list Z) : Prop := Forall (fun v => - 2 ^ 15 <= v < 2 ^ 15) l.

Definition atx_file_ok (h : ATXCorrectionsHeader) (r : atx_raw) : Prop :=
  0 <= atx_channel_number h <= ATX_LASER_NUM /\ 0 < angle_division h < 2 ^ 16 /\
  Z.of_nat (length (raw_even r)) = atx_channel_number h /\ Z.of_nat (length (raw_odd r)) = atx_channel_number h /\
  Z.of_nat (length (raw_elevation r)) = atx_channel_number h /\ length (raw_adjust r) = 70%nat /\
  i16_list (raw_even r) /\ i16_list (raw_odd r) /\ i16_list (raw_elevation r) /\ i16_list (raw_adjust r).

Lemma i16_u16_id v : - 2 ^ 15 <= v < 2 ^ 15 -> i16 (u16 v) = v.
Proof. intros Hv. unfold i16, u16. rewrite Zplus_mod_idemp_l, Z.mod_small by lia. lia. Qed.

Lemma map_i16_u16 l : i16_list l -> map i16 (map u16 l) = l.
Proof. intros Hl. rewrite map_map. induction Hl as [|v l Hv Hl IH]; [done|]. cbn [map]. by rewrite IH, i16_u16_id. Qed.

Lemma read_ATXHeader_file h tail : 0 <= angle_division h < 2 ^ 16 ->
  read_ATXHeader (([0xee; 0xff; 1; atx_version h; 0; 0; atx_channel_number h] ++ le_bytes 2 (angle_division h)) ++ tail) =
    Ok (0xee, 0xff, h).
Proof.
  intros Hd. unfold read_ATXHeader. rewrite arr_slice_here by done. cbn [mbind result_bind].
  set (head := _ ++ le_bytes 2 _).
  change (rd8 head 0) with (Ok 0xee : result Z). change (rd8 head 1) with (Ok 0xff : result Z).
  change (rd8 head 3) with (Ok (atx_version h)). change (rd8 head 6) with (Ok (atx_channel_number h)). cbn [mbind result_bind].
  unfold rd16, head. rewrite rd_le_skip by done. replace (7 - _) with 0 by done.
  rewrite <-(app_nil_r (le_bytes 2 _)). rewrite rd_le_here by done. cbn [mbind result_bind].
  rewrite le_combine_bytes. cbn. rewrite Z.mod_small by lia. by destruct h.
Qed.

(** The next read of a parser whose result is used by its caller. *)
Ltac nested_field v := rewrite bind_assoc; next_field v.

(** A calibration file is loaded as it was written: version 1 gives the azimuths as
    angles, versions 2 and 3 keep the raw azimuths of both parities, version 3 also
    brings the adjustments of the elevation; angles are divided by the division;
    the elements the file does not have keep their values. *)
Theorem atx_calibration_roundtrip h r hash u : atx_file_ok h r -> length hash = 32%nat ->
  let v := atx_version h in v = 1 \/ v = 2 \/ v = 3 ->
  let angles l := divided (angle_division h) l in
  let c := m_ATX_corrections u in
  LoadCorrectionString (atx_file h r hash) u = Ok (0, set_corrections true
    (mk_atx h
      (if v =? 1 then raw_azimuths_even c else overlay (raw_even r) (raw_azimuths_even c))
      (if v =? 1 then raw_azimuths_odd c else overlay (raw_odd r) (raw_azimuths_odd c))
      (if v =? 1 then overlay (angles (raw_even r)) (atx_azimuth c) else atx_azimuth c)
      (overlay (angles (raw_elevation r)) (atx_elevation c))
      (if v =? 3 then overlay (angles (raw_adjust r)) (elevation_adjust c) else elevation_adjust c)) u).
Proof.
  intros (Hn & Hd & L1 & L2 & L3 & L4 & R1 & R2 & R3 & R4) Hhash v Hv angles c.
  unfold LoadCorrectionString, atx_file. rewrite read_ATXHeader_file by lia. cbn [mbind result_bind].
  rewrite !Z.eqb_refl. cbn [andb].
  destruct (Z.ltb_spec ATX_LASER_NUM (atx_channel_number h)), (Z.eqb_spec (angle_division h) 0); try lia. cbn [orb].
  fold v. set (head := _ ++ le_bytes 2 _). assert (length head = 9%nat) as Hh by done. clearbody head.
  unfold load_version_1, load_version_2_3, sizeof_ATXHeader, kLenElevationAdjust, atx_words. fold v.
  destruct Hv as [-> |[-> | ->]]; cbn [Z.eqb Pos.eqb orb]; cbv zeta; rewrite ?app_nil_l.
  - nested_field (map u16 (raw_even r)). nested_field (map u16 (raw_elevation r)).
    rewrite arr_slice_ok by seg_lia. cbn [mbind result_bind]. by rewrite !map_i16_u16.
  - nested_field (map u16 (raw_even r)). nested_field (map u16 (raw_odd r)). nested_field (map u16 (raw_elevation r)).
    rewrite arr_slice_ok by seg_lia. cbn [mbind result_bind]. by rewrite !map_i16_u16.
  - nested_field (map u16 (raw_even r)). nested_field (map u16 (raw_odd r)). nested_field (map u16 (raw_elevation r)).
    nested_field (map u16 (raw_adjust r)).
    rewrite arr_slice_ok by seg_lia. cbn [mbind result_bind]. by rewrite !map_i16_u16.
Qed.

(** Whatever a calibration file holds, the arrays keep their lengths; a file that is
    accepted leaves a calibration the decoder can use; one that is refused changes
    the header at most. *)
Theorem atx_load_invariant block u r u' : byte_list block -> tables_ok (m_ATX_corrections u) ->
  LoadCorrectionString block u = Ok (r, u') ->
  (r = 0 /\ atx_get_correction_file_ u' = true /\ cal_ok (m_ATX_corrections u') \/
   r = -1 /\ atx_get_correction_file_ u' = atx_get_correction_file_ u /\ tables_ok (m_ATX_corrections u') /\
   m_ATX_corrections u' = set_atx_header (atx_header (m_ATX_corrections u')) (m_ATX_corrections u)) /\
  base u' = base u /\ atx_use_angle_ u' = atx_use_angle_ u /\ last_frameid_ u' = last_frameid_ u /\
  even_firetime_correction_ u' = even_firetime_correction_ u /\ odd_firetime_correction_ u' = odd_firetime_correction_ u.
Proof.
  intros Hbl Ht H. unfold LoadCorrectionString in H. inv_ok. destruct a as [[d0 d1] h].
  assert (0 <= atx_channel_number h) as Hch.
  { unfold read_ATXHeader in E. inv_ok. apply (rd8_range _ _ _ (arr_slice_byte_list _ _ _ _ Hbl E0)) in E4. cbn. unfold is_u8 in E4. lia. }
  destruct ((d0 =? 0xee) && (d1 =? 0xff) && _) eqn:Ev; [|inv_ok; split; [right|done]].
  2:{ split; [done|]. split; [done|]. split; [done|]. by destruct (m_ATX_corrections u'). }
  destruct (Z.ltb_spec ATX_LASER_NUM (atx_channel_number h)), (Z.eqb_spec (angle_division h) 0); cbn [orb] in H; inv_ok.
  1-3: split; [right; split; [done|]; split; [done|]; split; [exact Ht|done]|done].
  split; [left|done]. split; [done|]. split; [done|]. unfold cal_ok. cbn.
  apply andb_true_iff in Ev as [_ Ev].
  assert (atx_header a = h /\ tables_ok a) as [-> Ha].
  { destruct (atx_version h =? 1); [by apply (load_version_1_ok block h (m_ATX_corrections u))|
      by apply (load_version_2_3_ok block h (m_ATX_corrections u))]. }
  split; [lia|]. by split.
Qed.

(** With a division of zero no azimuth can be converted. *)
Lemma block_azimuth_zero c a : angle_division (atx_header c) = 0 -> block_azimuth c a = Err BadConversion.
Proof.
  intros Hd. unfold block_azimuth. rewrite Hd. change (div32 _ (of_Z32 0)) with (S754_infinity false).
  unfold to_int, f_to_int, mul32. destruct (of_Z32 a) as [[]|[]| |[] ? ?]; done.
Qed.

Section AtxProperties.
Context {P : Type}.
Variable timezone : TimeZone.

(** A packet that fits the receive buffer is decoded: each channel of each block
    becomes one point with the distance, the reflectivity and the confidence of
    its bytes and the azimuth of its block, corrected for the channel and moved by
    its firetime; no other point changes. *)
Theorem atx_packet_points host now u (f : LidarDecodedFrame P) pkt h :
  atx_get_correction_file_ u = true -> cal_ok (m_ATX_corrections u) -> firetimes_set (GetLaserNum h) u ->
  at_fits (buffer pkt) h -> 0 <= packet_num f < kMaxPacketNumPerFrame ->
  (forall b, 0 <= b < GetBlockNum h -> is_ok (read_azimuth (m_ATX_corrections u) h (buffer pkt) b) = true) ->
  exists u' f' t l, DecodePacket timezone host now u f pkt = Ok (0, u', f') /\ packet_num f' = packet_num f + 1 /\
    tail_ST_V7 (buffer pkt) (tail_off h) = Ok t /\
    sensor_timestamp f' = <[packet_num f := atx_stamp timezone t f pkt]> (sensor_timestamp f) /\
    (forall b i, 0 <= b < GetBlockNum h -> 0 <= i < GetLaserNum h ->
      let off := 12 + block_size h * b + 3 + 4 * i in
      let k := packet_num f * GetBlockNum h * GetLaserNum h + b * GetLaserNum h + i in
      exists d a az, pointData f' !! k = Some d /\ read_azimuth (m_ATX_corrections u) h (buffer pkt) b = Ok a /\
        corrected_azimuth (m_ATX_corrections u) (even_frame t) a.2 i (pointData f !! k) = Ok az /\
        fire_azimuth (set_base (atx_base t l u) u) t i az = Ok (pd_azimuth d) /\
        rd16 (buffer pkt) off = Ok (pd_distances d) /\ rd8 (buffer pkt) (off + 2) = Ok (pd_reflectivities d) /\
        exists c, rd8 (buffer pkt) (off + 3) = Ok c /\ pd_confidence d = Some c) /\
    (forall j, ~ (packet_num f * GetBlockNum h * GetLaserNum h <= j < (packet_num f + 1) * GetBlockNum h * GetLaserNum h) ->
      pointData f' !! j = pointData f !! j).
Proof.
  intros Hc Hcal Hf Hfit Hn Haz. destruct (at_fits_dims _ _ _ Hfit Hn) as (HL & HB & _ & Hmax & Hidx & Hpos).
  destruct (atx_decode_total timezone host now u f pkt h Hc Hcal Hf Hfit Hn Haz) as (u' & f' & E).
  destruct Hfit as (Hlen & _ & H0 & H1 & Hh & Hsz). unfold sizeof_TAIL_ST in *.
  destruct (atx_decode_accepts _ _ _ _ _ _ _ _ _ Hc H0 H1 E)
    as (_ & h' & t & l & s & Hh' & Ht & Hw & _ & _ & Hcount & _ & _ & _ & Hst).
  rewrite Hh in Hh'. apply (inj Ok) in Hh' as <-. rewrite Hidx in Hw.
  destruct (atx_walk_ok u h t l (buffer pkt) (packet_num f * GetBlockNum h * GetLaserNum h) (pointData f) Hcal Hf
    ltac:(lia) HL HB Hpos ltac:(lia) Haz) as (azs & h0 & data & _ & Hfill & Ew).
  rewrite Ew in Hw. apply (inj Ok) in Hw as [= <- ->]. unfold is_u8 in *.
  destruct (fill_blocks_spec _ _ _ _ _ (proj1 HL) _ _ _ _ _ (proj1 HB) Hfill) as (Hout & Hin & _).
  exists u', f', t, l. split; [exact E|].
  split; [rewrite Hcount; unfold u32, kMaxPacketNumPerFrame in *; rewrite Z.mod_small; lia|].
  split; [done|]. split; [done|]. split.
  - intros b i Hb Hi. destruct (Hin b i Hb Hi) as (a & d & Ea & Ed & Er).
    destruct (atx_read_channel_spec _ _ _ _ _ _ _ _ _ Er) as ((az & E1 & E2) & E3 & E4 & E5).
    exists d, a, az. repeat (split; [done|]). exact E5.
  - intros j Hj. apply Hout. intros Hr. apply Hj. lia.
Qed.

(** A packet ends a frame when it has a block, the parity of its frame number is
    not the one of the packet before, there was such a packet, and the angles are
    in use; the blocks after the first change nothing more. *)
Theorem atx_frame_split host now u (f : LidarDecodedFrame P) pkt h t :
  atx_get_correction_file_ u = true -> cal_ok (m_ATX_corrections u) -> firetimes_set (GetLaserNum h) u ->
  at_fits (buffer pkt) h -> 0 <= packet_num f < kMaxPacketNumPerFrame -> tail_ST_V7 (buffer pkt) (tail_off h) = Ok t ->
  (forall b, 0 <= b < GetBlockNum h -> is_ok (read_azimuth (m_ATX_corrections u) h (buffer pkt) b) = true) ->
  0 < GetBlockNum h ->
  exists u' f', DecodePacket timezone host now u f pkt = Ok (0, u', f') /\
    let fid := st_FrameID t mod 2 in
    scan_complete f' = atx_use_angle_ u && (negb (fid =? last_frameid_ u) && (0 <=? last_frameid_ u)) /\
    last_frameid_ u' = fid /\ atx_use_angle_ u' = true /\
    exists azs, atx_azimuths_of (m_ATX_corrections u) h (buffer pkt) azs /\
      Some (last_azimuth_ (base u')) = fst <$> last azs.
Proof.
  intros Hc Hcal Hf Hfit Hn Ht Haz Hpos. destruct (at_fits_dims _ _ _ Hfit Hn) as (HL & HB & _ & Hmax & Hidx & Hp).
  destruct (atx_decode_total timezone host now u f pkt h Hc Hcal Hf Hfit Hn Haz) as (u' & f' & E).
  destruct Hfit as (Hlen & _ & H0 & H1 & Hh & Hsz). unfold sizeof_TAIL_ST in *.
  destruct (atx_decode_accepts _ _ _ _ _ _ _ _ _ Hc H0 H1 E)
    as (_ & h' & t' & l & s & Hh' & Ht' & Hw & -> & Hs & _).
  rewrite Hh in Hh'. apply (inj Ok) in Hh' as <-. rewrite Ht in Ht'. apply (inj Ok) in Ht' as <-. rewrite Hidx in Hw.
  destruct (atx_walk_ok u h t l (buffer pkt) (packet_num f * GetBlockNum h * GetLaserNum h) (pointData f) Hcal Hf
    ltac:(lia) HL HB Hp ltac:(lia) Haz) as (azs & h0 & data & Hazs & _ & Ew).
  rewrite Ew in Hw. apply (inj Ok) in Hw as [= <- ->].
  destruct azs as [|a azs]; [destruct Hazs as [Hl _]; cbn in Hl; lia|].
  rewrite atx_split_blocks in Hs, E by done. eexists _, f'. split; [exact E|]. cbn -[last]. split; [exact Hs|].
  split; [done|]. split; [done|]. exists (a :: azs). split; [done|].
  destruct (last (a :: azs)) eqn:El; [done|]. by apply last_None in El.
Qed.

(** A calibration file whose division is zero is refused, but its header has
    replaced the one in use: from then on no packet with a block can be decoded,
    the division of a float by zero not being convertible to an integer. *)
Theorem atx_refused_division block u h host now (f : LidarDecodedFrame P) pkt ph :
  read_ATXHeader block = Ok (0xee, 0xff, h) -> 1 <= atx_version h <= 3 -> angle_division h = 0 ->
  exists u', LoadCorrectionString block u = Ok (-1, u') /\ atx_get_correction_file_ u' = atx_get_correction_file_ u /\
    (atx_get_correction_file_ u = true -> at_fits (buffer pkt) ph -> 0 <= packet_num f < kMaxPacketNumPerFrame ->
     0 < GetBlockNum ph -> is_ok (DecodePacket timezone host now u' f pkt) = false).
Proof.
  intros Hh Hv Hd. unfold LoadCorrectionString. rewrite Hh. cbn [mbind result_bind]. rewrite !Z.eqb_refl, Hd. cbn [andb].
  replace ((atx_version h =? 1) || (atx_version h =? 2) || (atx_version h =? 3)) with true by lia.
  rewrite orb_true_r. eexists. split; [reflexivity|]. split; [done|].
  intros Hc Hfit Hn Hb. set (u' := set_corrections _ _ u).
  destruct (atx_decode_walk timezone host now u' f pkt ph Hc Hfit Hn) as (t & l & _ & ->).
  unfold atx_walk, step_blocks. rewrite seqZ_cons by done. cbn [foldM]. unfold read_azimuth.
  destruct (rd16 (buffer pkt) _) as [a|]; [|done]. cbn [mbind result_bind]. by rewrite block_azimuth_zero.
Qed.

End AtxProperties.

(** A row of the firetime file names its channel from 1 on; no test of the number:
    a channel that is not one of the 512 is written outside the array. *)
Theorem atx_firetime_index fs path u content row rows index rest d1 rest' t1 i :
  type_of path = csv_type -> fs path = Some content -> drop 1 (tokens newline content) = row :: rows ->
  getline comma (mk_stream row true) EmptyString = (index, rest) -> getline comma rest EmptyString = (d1, rest') ->
  stod d1 = Ok t1 -> stoi index = Ok i -> firetimes_long u -> ~ (1 <= i <= ATX_LASER_NUM) ->
  LoadFiretimesFile fs path u = Err OutOfBounds.
Proof.
  intros Ht Hp Hrows H1 H2 Hd Hi [L1 L2] Hout. unfold ATX_LASER_NUM in *.
  unfold LoadFiretimesFile. rewrite Ht, Hp, Hrows. cbn [foldM].
  assert (firetime_row (even_firetime_correction_ u, odd_firetime_correction_ u) row = Err OutOfBounds) as ->; [|done].
  unfold firetime_row. rewrite H1, H2. destruct (getline comma rest' EmptyString). rewrite Hd, Hi. cbn [mbind result_bind].
  assert (arr_set (even_firetime_correction_ u) (i - 1) (Some t1) = Err OutOfBounds) as ->; [|done].
  unfold arr_set. rewrite decide_False by lia. done.
Qed.

(** ** Witnesses *)

Definition demo_atx_header : ATXCorrectionsHeader := mk_atx_header 2 1 100.
Definition demo_atx_cal : ATXCorrections := set_atx_header demo_atx_header ATXCorrections_new.
Definition demo_atx (last : Z) : Udp4_7Parser :=
  mk_udp4_7 (demo_general false) true true last demo_atx_cal unset_firetimes unset_firetimes.
(** Two blocks of one channel at azimuths 100 and 200, in frame 3. *)
Definition demo_atx_packet : UdpPacket :=
  mk_packet (demo_bytes [0xEE; 0xFF; 4; 7; 0; 0; 1; 2; 0; 4; 2; 0; 100; 0; 7; 10; 1; 9; 3; 200; 0; 0; 20; 1; 8; 4;
    0; 0; 0; 0; 0; 0; 0; 0; 0; 0; 0; 0; 0; 0; 3]) 70 false 0 0 2368.

Lemma demo_atx_fits : at_fits (buffer demo_atx_packet) demo_at_header.
Proof.
  unfold at_fits. repeat split; try reflexivity; try (vm_compute; congruence).
  by apply byte_list_check.
Qed.

Lemma demo_atx_cal_ok : cal_ok demo_atx_cal.
Proof. split; [by right; left|]. split; [done|]. repeat split; reflexivity. Qed.

Lemma demo_atx_azimuths b : 0 <= b < GetBlockNum demo_at_header ->
  is_ok (read_azimuth demo_atx_cal demo_at_header (buffer demo_atx_packet) b) = true.
Proof. intros Hb. assert (b = 0 \/ b = 1) as [-> | ->] by (cbn in Hb; lia); vm_compute; done. Qed.

Lemma atx_packet_points_witness :
  exists u' f', DecodePacket 0 7 (fun _ => 0) (demo_atx 0) demo_frame demo_atx_packet = Ok (0, u', f') /\
    exists d, pointData f' !! 1 = Some d /\ pd_distances d = 276 /\ pd_azimuth d = of_Z32 51200.
Proof.
  destruct (atx_packet_points 0 7 (fun _ => 0) (demo_atx 0) demo_frame demo_atx_packet demo_at_header)
    as (u' & f' & t & l & E & _ & Ht & _ & Hin & _);
    [done|exact demo_atx_cal_ok|done|exact demo_atx_fits|vm_compute; split; congruence|exact demo_atx_azimuths|].
  exists u', f'. split; [exact E|].
  destruct (Hin 1 0) as (d & a & az & Hd & Ha & Hz & Hf & Hdist & _); [vm_compute; split; congruence..|].
  exists d. split; [exact Hd|]. vm_compute in Ha. apply (inj Ok) in Ha as <-. vm_compute in Ht. apply (inj Ok) in Ht as <-.
  split; apply (inj Ok); [by rewrite <-Hdist|]. rewrite <-Hf. vm_compute in Hz. by apply (inj Ok) in Hz as <-.
Defined.

Lemma atx_frame_split_witness :
  (exists u' f', DecodePacket 0 7 (fun _ => 0) (demo_atx 0) demo_frame demo_atx_packet = Ok (0, u', f') /\
    scan_complete f' = true) /\
  exists u' f', DecodePacket 0 7 (fun _ => 0) (demo_atx 1) demo_frame demo_atx_packet = Ok (0, u', f') /\
    scan_complete f' = false.
Proof.
  destruct (tail_ST_V7 (buffer demo_atx_packet) (tail_off demo_at_header)) as [t|] eqn:Et; [|discriminate Et].
  pose proof Et as Et'. vm_compute in Et'. apply (inj Ok) in Et'.
  destruct (atx_frame_split 0 7 (fun _ => 0) (demo_atx 0) demo_frame demo_atx_packet demo_at_header t
    eq_refl demo_atx_cal_ok ltac:(done) demo_atx_fits ltac:(vm_compute; split; congruence) Et demo_atx_azimuths eq_refl)
    as (u1 & f1 & E1 & S1 & _).
  destruct (atx_frame_split 0 7 (fun _ => 0) (demo_atx 1) demo_frame demo_atx_packet demo_at_header t
    eq_refl demo_atx_cal_ok ltac:(done) demo_atx_fits ltac:(vm_compute; split; congruence) Et demo_atx_azimuths eq_refl)
    as (u2 & f2 & E2 & S2 & _).
  subst t. split; [exists u1, f1; split; [exact E1|exact S1]|]. exists u2, f2. split; [exact E2|exact S2].
Defined.

Lemma atx_refused_division_witness :
  exists u', LoadCorrectionString [0xee; 0xff; 1; 2; 0; 0; 1; 0; 0] (demo_atx 0) = Ok (-1, u') /\
    is_ok (DecodePacket 0 7 (fun _ => 0) u' demo_frame demo_atx_packet) = false.
Proof.
  destruct (atx_refused_division 0 [0xee; 0xff; 1; 2; 0; 0; 1; 0; 0] (demo_atx 0) (mk_atx_header 2 1 0) 7 (fun _ => 0)
    demo_frame demo_atx_packet demo_at_header eq_refl ltac:(cbn; lia) eq_refl) as (u' & E & _ & H).
  exists u'. split; [exact E|]. apply H; [done|exact demo_atx_fits|vm_compute; split; congruence|done].
Defined.

Definition demo_atx_raw : atx_raw := mk_raw [-5] [7] [50] (replicate 70 25).

Lemma atx_calibration_roundtrip_witness :
  exists c, LoadCorrectionString (atx_file (mk_atx_header 3 1 100) demo_atx_raw (replicate 32 0)) (demo_atx 0) =
    Ok (0, set_corrections true c (demo_atx 0)) /\
    head (raw_azimuths_even c) = Some (-5) /\ head (raw_azimuths_odd c) = Some 7 /\
    (to32 <$> head (atx_elevation c)) = Some (lit32 5 1).
Proof.
  eexists. split; [refine (atx_calibration_roundtrip (mk_atx_header 3 1 100) demo_atx_raw (replicate 32 0) (demo_atx 0) _ eq_refl _)|].
  - unfold atx_file_ok, i16_list, ATX_LASER_NUM. cbn [atx_channel_number angle_division raw_even raw_odd raw_elevation raw_adjust demo_atx_raw].
    rewrite !length_replicate. repeat split; try lia; try (repeat constructor; lia); apply Forall_replicate; lia.
  - by right; right.
  - vm_compute. done.
Defined.

Lemma atx_load_invariant_witness : exists r u',
  LoadCorrectionString [0xee; 0xff; 1; 2; 0; 0; 1; 0; 0] (demo_atx 0) = Ok (r, u') /\ base u' = base (demo_atx 0).
Proof.
  eexists _, _. split; [reflexivity|]. refine (proj1 (proj2 (atx_load_invariant [0xee; 0xff; 1; 2; 0; 0; 1; 0; 0] (demo_atx 0) _ _ _ _ eq_refl))).
  - repeat constructor; unfold is_u8; lia.
  - repeat split; reflexivity.
Defined.

Definition demo_row : string := "513,1.5,2.5".
Definition demo_fire_file : string := String.append "Channel,t1,t2" (String newline demo_row).

Lemma atx_firetime_index_witness :
  LoadFiretimesFile (fun _ => Some demo_fire_file) "firetimes.csv" (demo_atx 0) = Err OutOfBounds.
Proof.
  eapply (atx_firetime_index (fun _ => Some demo_fire_file) "firetimes.csv" (demo_atx 0) demo_fire_file demo_row []);
    [vm_compute; reflexivity|reflexivity|vm_compute; reflexivity..|repeat split; reflexivity|unfold ATX_LASER_NUM; lia].
Defined.
