(* ===== verification/EtCorrections.v ===== *)
(** * EtCorrections: the calibration and the optics of the ET lidars

    UdpParser/include/udp2_5_parser.h and the parts that udp2_4_parser.cc,
    udp2_5_parser.cc and udp2_6_parser.cc repeat: the binary calibration file in
    its four versions, the text file, the adjustment tables and the computation of
    the angles of a point from those of its channel and of the mirror. *)

From Stdlib Require Import SpecFloat.
From S2P Require Import Prelude Bytes Text Streams Floats LidarTypes GeneralParser Udp4_3.
Local Open Scope Z_scope.

Definition ET_MAX_CHANNEL_NUM : Z := 512.
Definition ADJUST_MAX : Z := 3000.

(** The members of [ETCorrections] that are read after loading.  The constructor
    sets the version and the division of the header only; the arrays and
    [min_version] hold nothing before a file is read. *)
Record ETCorrections : Type := mk_et {
  header_min_version : Z;
  header_angle_division : Z;
  et_min_version : option Z;
  gamma_f : list (option f32);
  et_azimuths : list (option f32);
  et_elevations : list (option f32);
  azimuth_adjust : list (option Z);
  elevation_adjust : list (option Z);
  azimuth_offset_delta_f : list (option f32);
  elevation_offset_delta_f : list (option f32);
  azimuth_adjust_interval : option Z;
  elevation_adjust_interval : option Z;
}.

Definition unset {A} (n : Z) : list (option A) := replicate (Z.to_nat n) None.
Definition ETCorrections_new : ETCorrections :=
  mk_et 0 1 None (unset 8) (unset ET_MAX_CHANNEL_NUM) (unset ET_MAX_CHANNEL_NUM) (unset ADJUST_MAX) (unset ADJUST_MAX)
    (unset 8) (unset 8) None None.

(** An element that must have been written. *)
Definition fetch {A} (l : list (option A)) (i : Z) : result A := x ← arr_get l i; of_option Uninitialised x.

(** A copy of [src] to the elements from [k] on. *)
Definition overlay_at {A} (k : nat) (src old : list A) : list A := take k old ++ src ++ drop (k + length src) old.

(** ** The binary file *)

(** The three headers: those of versions 1 and 2 have the number of channels in one
    byte, that of version 3 in two, that of version 4 has the numbers of mirrors
    and of turns and no gamma. *)
Record et_header : Set := mk_et_header {
  h_size : Z; h_channels : Z; h_mirrors : Z; h_turns : Z; h_division : Z; h_apha : Z; h_beta : Z; h_gamma : Z }.

Definition read_header (v : Z) (block : list Z) : result et_header :=
  if v <=? 2 then
    ch ← rd8 block 6; dv ← rd16 block 8; a ← rd16 block 10; b ← rd16 block 12; g ← rd16 block 14;
    Ok (mk_et_header 16 ch 0 0 dv (i16 a) (i16 b) (i16 g))
  else if v =? 3 then
    ch ← rd16 block 6; dv ← rd16 block 9; a ← rd16 block 11; b ← rd16 block 13; g ← rd16 block 15;
    Ok (mk_et_header 17 ch 0 0 dv (i16 a) (i16 b) (i16 g))
  else
    ch ← rd16 block 6; m ← rd8 block 8; t ← rd8 block 9; dv ← rd16 block 10; a ← rd16 block 12; b ← rd16 block 14;
    Ok (mk_et_header 16 ch m t dv (i16 a) (i16 b) 0).

(** ((float)raw) / division *)
Definition by_division (h : et_header) (raw : Z) : option f32 := Some (div32 (of_Z32 raw) (of_Z32 (h_division h))).

(** int angle_offset_len, in [double]. *)
Definition angle_offset_len (v : Z) (h : et_header) (azi ele : Z) : result Z :=
  let steps fov i k := add64 (div64 fov (mul64 (of_Z64 i) (lit64 k 1))) (of_Z64 1) in
  if v =? 4
  then to_int (mul64 (mul64 (of_Z64 (h_turns h)) (steps (of_Z64 120) azi 1)) (steps (lit64 32 1) ele 1))
  else to_int (mul64 (steps (of_Z64 120) azi 5) (steps (of_Z64 25) ele 5)).

(** The two tables of adjustments at [p] and the checksum behind them; the arrays
    they are copied to have 3000 elements. *)
Definition load_adjust (v : Z) (h : et_header) (block : list Z) (p : Z) (c : ETCorrections) : result ETCorrections :=
  ia ← rd8 block p;
  ie ← rd8 block (p + 1);
  let p := p + 2 in
  len ← angle_offset_len v h ia ie;
  if (0 <=? len) && (len <=? ADJUST_MAX) then
    aa ← read_words 2 block p len;
    let p := p + 2 * len in
    ea ← read_words 2 block p len;
    let p := p + 2 * len in
    _ ← arr_slice block p 32;
    Ok (mk_et (header_min_version c) (header_angle_division c) (et_min_version c) (gamma_f c) (et_azimuths c) (et_elevations c)
          (overlay (map (Some ∘ i16) aa) (azimuth_adjust c)) (overlay (map (Some ∘ i16) ea) (elevation_adjust c))
          (azimuth_offset_delta_f c) (elevation_offset_delta_f c) (Some ia) (Some ie))
  else Err OutOfBounds.

(** The angles of the channels in versions 1, 2 and 3, behind the three of the
    mirror; they start at [p]. *)
Definition set_angles (az el : list (option f32)) (c : ETCorrections) : ETCorrections :=
  mk_et (header_min_version c) (header_angle_division c) (et_min_version c) (gamma_f c) az el (azimuth_adjust c) (elevation_adjust c)
    (azimuth_offset_delta_f c) (elevation_offset_delta_f c) (azimuth_adjust_interval c) (elevation_adjust_interval c).

Definition load_channels (h : et_header) (block : list Z) (c : ETCorrections) : result (Z * ETCorrections) :=
  let n := h_channels h in
  let p := h_size h in
  az ← read_words 2 block p n;
  let p := p + 2 * n in
  el ← read_words 2 block p n;
  let p := p + 2 * n in
  Ok (p, set_angles (overlay_at 3 (map (by_division h ∘ i16) az) (et_azimuths c))
           (overlay (map (by_division h) ([h_apha h; h_beta h; h_gamma h] ++ map i16 el)) (et_elevations c)) c).

(** Version 4: a gamma and an offset for every mirror. *)
Definition load_mirrors (h : et_header) (block : list Z) (c : ETCorrections) : result (Z * ETCorrections) :=
  let n := h_channels h in
  let m := h_mirrors h in
  let p := h_size h in
  ga ← read_words 2 block p m;
  let p := p + 2 * m in
  az ← read_words 2 block p n;
  let p := p + 2 * n in
  el ← read_words 2 block p n;
  let p := p + 2 * n in
  da ← read_words 2 block p m;
  let p := p + 2 * m in
  de ← read_words 2 block p m;
  let p := p + 2 * m in
  let angles l := map (by_division h ∘ i16) l in
  Ok (p, mk_et (header_min_version c) (header_angle_division c) (et_min_version c) (overlay (angles ga) (gamma_f c))
           (overlay_at 3 (angles az) (et_azimuths c))
           (overlay_at 3 (angles el) (overlay (map (by_division h) [h_apha h; h_beta h]) (et_elevations c)))
           (azimuth_adjust c) (elevation_adjust c) (overlay (angles da) (azimuth_offset_delta_f c))
           (overlay (angles de) (elevation_offset_delta_f c)) (azimuth_adjust_interval c) (elevation_adjust_interval c)).

Definition set_et_header (v division : Z) (mv : option Z) (c : ETCorrections) : ETCorrections :=
  mk_et v division mv (gamma_f c) (et_azimuths c) (et_elevations c) (azimuth_adjust c) (elevation_adjust c)
    (azimuth_offset_delta_f c) (elevation_offset_delta_f c) (azimuth_adjust_interval c) (elevation_adjust_interval c).

(** [LoadCorrectionDatData]: the bytes of the header the decoder looks at first, the
    versions it knows, and whether it stores the version in [min_version] also.  The
    header is taken over before it is judged. *)
Definition LoadCorrectionDatData (header_size : Z) (versions : list Z) (stores : bool) (block : list Z) (c : ETCorrections)
    : result (Z * ETCorrections) :=
  header ← arr_slice block 0 header_size;
  d0 ← rd8 header 0; d1 ← rd8 header 1; v ← rd8 header 3;
  if (d0 =? 0xee) && (d1 =? 0xff) && bool_decide (v ∈ versions) then
    h ← read_header v block;
    let c := set_et_header v (h_division h) (if stores then Some v else et_min_version c) c in
    if (ET_MAX_CHANNEL_NUM - 3 <? h_channels h) || (h_division h =? 0) || (8 <? h_mirrors h)
    then Ok (-1, c)
    else
      '(p, c) ← (if v =? 4 then load_mirrors h block c else load_channels h block c);
      c ← (if v =? 1 then _ ← arr_slice block p 32; Ok c else load_adjust v h block p c);
      Ok (0, c)
  else Ok (-1, c).

(** ** The text file

    The rows of the base class; they are copied to the arrays from their
    beginning. *)
Definition LoadCorrectionCsvData (content : string) (c : ETCorrections) : result ETCorrections :=
  let ls := tokens newline content in
  match tokens comma (default EmptyString (head ls)) with
  | [] => Err OutOfBounds
  | t :: _ =>
      let rows := if bool_decide (t = "EEFF"%string) || bool_decide (t = "eeff"%string) then drop 2 ls else drop 1 ls in
      let '(lineCount, (el, az)) := foldl correction_step (0, (unset_list, unset_list)) rows in
      el ← copy_list lineCount el;
      az ← copy_list lineCount az;
      Ok (set_angles (overlay (map Some az) (et_azimuths c)) (overlay (map Some el) (et_elevations c)) c)
  end.

(** ** The adjustments *)

(** [getAziAdjustV2], [getEleAdjustV2], [getAziAdjustV4] and [getEleAdjustV4]: the
    value between the four neighbours in the table, 0 outside it; the fields of
    view and the resolution distinguish the versions, [mirror] the tables of
    version 4. *)
Definition get_adjust (elevation_fov adjust_interval_resolution : f32) (table : list (option Z)) (c : ETCorrections)
    (azi ele : f32) (mirror : Z) : result f32 :=
  ia ← of_option Uninitialised (azimuth_adjust_interval c);
  ie ← of_option Uninitialised (elevation_adjust_interval c);
  let azimuth_fov := of_Z32 120 in
  let da := mul32 (of_Z32 ia) adjust_interval_resolution in
  let de := mul32 (of_Z32 ie) adjust_interval_resolution in
  azimuth_offset_num ← to_int (add32 (div32 azimuth_fov da) (of_Z32 1));
  elevation_offset_num ← to_int (add32 (div32 elevation_fov de) (of_Z32 1));
  let half fov := div32 fov (of_Z32 2) in
  offset_index1 ← to_int (div32 (add32 azi (half azimuth_fov)) da);
  offset_index2 ← to_int (div32 (add32 ele (half elevation_fov)) de);
  if (azimuth_offset_num - 1 <=? offset_index1) || (elevation_offset_num - 1 <=? offset_index2) then Ok f_zero
  else if (offset_index1 <? 0) || (offset_index2 <? 0) then Ok f_zero
  else
    let coefficient i d x fov := div32 (sub32 (sub32 (mul32 (of_Z32 (i + 1)) d) x) (half fov)) d in
    let coefficient1 := coefficient offset_index1 da azi azimuth_fov in
    let coefficient2 := coefficient offset_index2 de ele elevation_fov in
    let mr_offset := azimuth_offset_num * elevation_offset_num * mirror in
    let index1 := offset_index1 + offset_index2 * azimuth_offset_num + mr_offset in
    let index2 := offset_index1 + (offset_index2 + 1) * azimuth_offset_num + mr_offset in
    let between k x y := add32 (mul32 k x) (mul32 (sub32 (of_Z32 1) k) y) in
    a ← fetch table index1; b ← fetch table (index1 + 1);
    d ← fetch table index2; e ← fetch table (index2 + 1);
    let offset1 := between coefficient1 (of_Z32 a) (of_Z32 b) in
    let offset2 := between coefficient1 (of_Z32 d) (of_Z32 e) in
    Ok (div32 (between coefficient2 offset1 offset2) (of_Z32 (header_angle_division c))).

Definition getAziAdjustV2 (c : ETCorrections) (azi ele : f32) : result f32 :=
  get_adjust (of_Z32 25) (lit32 5 1) (azimuth_adjust c) c azi ele 0.
Definition getEleAdjustV2 (c : ETCorrections) (azi ele : f32) : result f32 :=
  get_adjust (of_Z32 25) (lit32 5 1) (elevation_adjust c) c azi ele 0.
Definition getAziAdjustV4 (c : ETCorrections) (azi ele : f32) (mirror_id : Z) : result f32 :=
  get_adjust (lit32 32 1) (lit32 1 1) (azimuth_adjust c) c azi ele mirror_id.
Definition getEleAdjustV4 (c : ETCorrections) (azi ele : f32) (mirror_id : Z) : result f32 :=
  get_adjust (lit32 32 1) (lit32 1 1) (elevation_adjust c) c azi ele mirror_id.

(** ** The optics *)

Section Optics.
(** [std::sin], [std::cos] and [std::tan] of a [double], [std::tan] of a [float]. *)
Variables (sin64 cos64 tan64 : f64 -> f64) (tan32 : f32 -> f32).

(** x * M_PI / 180 and x * 180 / M_PI *)
Definition rad (x : f64) : f64 := div64 (mul64 x M_PI) (of_Z64 180).
Definition deg (x : f32) : f64 := div64 (mul32 x (of_Z32 180)) M_PI.

(** (azi_h, elv_h), before the adjustments. *)
Definition et_angles (apha beta gamma phi theta raw_azimuth raw_elevation : f32) : f32 * f32 :=
  let two := of_Z32 2 in
  let an := add32 apha phi in
  let theta_n := to32 (add64 raw_elevation (div64 theta (cos64 (rad an)))) in
  let elv_v := to32 (sub64 (add64 (rad raw_elevation) (rad theta))
                       (mul64 (tan64 (rad raw_elevation)) (sub64 (of_Z64 1) (cos64 (rad an))))) in
  let delt_azi_v := to32 (rad (rad (mul64 (div64 (mul64 (mul64 (mul64 (sin64 (rad an)) (cos64 (rad an))) theta_n) theta_n)
                                             (of_Z64 2)) (lit64 1016 3)))) in
  let eta := to32 (add64 (add64 (add64 phi (deg delt_azi_v)) beta) (div32 raw_azimuth two)) in
  let delt_azi_h := to32 (add64 (mul64 (mul64 (sin64 (rad eta)) (tan64 (rad (mul32 two gamma)))) (tan32 elv_v))
                            (rad (rad (mul64 (mul64 (sin64 (rad (mul32 two eta))) gamma) gamma)))) in
  let elv_h := to32 (add64 (deg elv_v) (mul64 (mul64 (cos64 (rad eta)) two) gamma)) in
  let azi_h := to32 (add64 (add64 (add64 (add32 (of_Z32 90) raw_azimuth) (deg delt_azi_h)) (deg delt_azi_v)) phi) in
  (azi_h, elv_h).

End Optics.

(** (int)(x * kAllFineResolutionFloat + CIRCLE) % CIRCLE *)
Definition et_units (x : f32) : result Z :=
  v ← to_int (add32 (mul32 x (of_Z32 25600)) (of_Z32 CIRCLE)); Ok (Z.rem v CIRCLE).

(** ** Lemmas *)

Lemma rd8_slice0 l n hd i : arr_slice l 0 n = Ok hd -> 0 <= i < n -> rd8 hd i = rd8 l i.
Proof.
  unfold arr_slice. case_decide as Hd; [|done]. intros [= <-] Hi. rewrite drop_0. unfold rd8, arr_get.
  rewrite !decide_True by (rewrite ?length_take; lia). rewrite lookup_take_lt by lia. done.
Qed.

(** ** A file as its documentation lays it out *)

Record et_raw : Set := mk_et_raw {
  r_gamma : list Z; r_azimuths : list Z; r_elevations : list Z; r_azimuth_delta : list Z; r_elevation_delta : list Z;
  r_azimuth_interval : Z; r_elevation_interval : Z; r_azimuth_adjust : list Z; r_elevation_adjust : list Z }.

Definition et_words (l : list Z) : list Z := concat (map (le_bytes 2) (map u16 l)).

Definition et_header_bytes (v : Z) (h : et_header) : list Z :=
  [0xee; 0xff; 1; v; 0; 0] ++
  (if v <=? 2 then [h_channels h; 0] else if v =? 3 then le_bytes 2 (h_channels h) ++ [0]
   else le_bytes 2 (h_channels h) ++ [h_mirrors h; h_turns h]) ++
  le_bytes 2 (h_division h) ++ le_bytes 2 (u16 (h_apha h)) ++ le_bytes 2 (u16 (h_beta h)) ++
  (if v =? 4 then [] else le_bytes 2 (u16 (h_gamma h))).

Definition et_file (v : Z) (h : et_header) (r : et_raw) (hash : list Z) : list Z :=
  et_header_bytes v h ++
  (if v =? 4 then et_words (r_gamma r) else []) ++ et_words (r_azimuths r) ++ et_words (r_elevations r) ++
  (if v =? 4 then et_words (r_azimuth_delta r) ++ et_words (r_elevation_delta r) else []) ++
  (if v =? 1 then []
   else [r_azimuth_interval r; r_elevation_interval r] ++ et_words (r_azimuth_adjust r) ++ et_words (r_elevation_adjust r)) ++
  hash.

Definition i16_ok (v : Z) : Prop := - 2 ^ 15 <= v < 2 ^ 15.

Definition et_header_ok (v : Z) (h : et_header) : Prop :=
  1 <= v <= 4 /\ h_size h = (if v =? 3 then 17 else 16) /\ 0 <= h_channels h <= (if v <=? 2 then 255 else 509) /\
  0 <= h_mirrors h <= 8 /\ (v <= 3 -> h_mirrors h = 0 /\ h_turns h = 0) /\ 0 < h_division h < 2 ^ 16 /\
  i16_ok (h_apha h) /\ i16_ok (h_beta h) /\ i16_ok (h_gamma h) /\ (v = 4 -> h_gamma h = 0).

(** The tables have the lengths the intervals give. *)
Definition et_file_shape (v : Z) (h : et_header) (r : et_raw) (hash : list Z) : Prop :=
  et_header_ok v h /\ length hash = 32%nat /\
  Z.of_nat (length (r_azimuths r)) = h_channels h /\ Z.of_nat (length (r_elevations r)) = h_channels h /\
  Z.of_nat (length (r_gamma r)) = h_mirrors h /\ Z.of_nat (length (r_azimuth_delta r)) = h_mirrors h /\
  Z.of_nat (length (r_elevation_delta r)) = h_mirrors h /\
  (v <> 1 -> length (r_elevation_adjust r) = length (r_azimuth_adjust r) /\
     angle_offset_len v h (r_azimuth_interval r) (r_elevation_interval r) = Ok (Z.of_nat (length (r_azimuth_adjust r)))) /\
  Forall (Forall i16_ok) [r_gamma r; r_azimuths r; r_elevations r; r_azimuth_delta r; r_elevation_delta r;
                          r_azimuth_adjust r; r_elevation_adjust r].

(** ... and have a place in the arrays. *)
Definition et_file_ok (v : Z) (h : et_header) (r : et_raw) (hash : list Z) : Prop :=
  et_file_shape v h r hash /\ (v <> 1 -> Z.of_nat (length (r_azimuth_adjust r)) <= ADJUST_MAX).

Lemma map_i16_back l : Forall i16_ok l -> map i16 (map u16 l) = l.
Proof.
  intros Hl. rewrite map_map. induction Hl as [|v l Hv Hl IH]; [done|]. cbn [map]. rewrite IH. f_equal.
  unfold i16_ok in Hv. unfold i16, u16. rewrite Zplus_mod_idemp_l, Z.mod_small by lia. lia.
Qed.

Lemma i16_word v : i16_ok v -> i16 (le_combine (le_bytes 2 (u16 v))) = v.
Proof.
  intros Hv. rewrite le_combine_bytes. unfold i16_ok in Hv. unfold i16, u16. cbn.
  rewrite Zmod_mod, Zplus_mod_idemp_l, Z.mod_small by lia. lia.
Qed.

Lemma u16_word v : 0 <= v < 2 ^ 16 -> le_combine (le_bytes 2 v) = v.
Proof. intros Hv. rewrite le_combine_bytes. cbn. apply Z.mod_small. lia. Qed.

Lemma read_header_file v h tail : et_header_ok v h -> read_header v (et_header_bytes v h ++ tail) = Ok h.
Proof.
  intros (Hv & Hs & Hc & Hm & H3 & Hd & Ha & Hb & Hg & H4). unfold read_header, et_header_bytes.
  assert (v <= 2 \/ v = 3 \/ v = 4) as [Hv'|[-> | ->]] by lia; cbv zeta.
  - destruct (Z.leb_spec v 2); [|lia]. destruct (Z.eqb_spec v 3), (Z.eqb_spec v 4); try lia.
    destruct (H3 ltac:(lia)) as [Hm0 Ht0]. rewrite <-!app_assoc.
    next_field (h_channels h). next_field (le_combine (le_bytes 2 (h_division h))).
    next_field (le_combine (le_bytes 2 (u16 (h_apha h)))). next_field (le_combine (le_bytes 2 (u16 (h_beta h)))).
    next_field (le_combine (le_bytes 2 (u16 (h_gamma h)))). rewrite !i16_word, u16_word by (done || lia).
    rewrite <-Hm0 at 1. rewrite <-Ht0, <-Hs. by destruct h.
  - cbn [Z.leb Z.eqb Pos.eqb Z.compare Pos.compare Pos.compare_cont] in *. destruct (H3 ltac:(lia)) as [Hm0 Ht0]. rewrite <-!app_assoc.
    next_field (le_combine (le_bytes 2 (h_channels h))). next_field (le_combine (le_bytes 2 (h_division h))).
    next_field (le_combine (le_bytes 2 (u16 (h_apha h)))). next_field (le_combine (le_bytes 2 (u16 (h_beta h)))).
    next_field (le_combine (le_bytes 2 (u16 (h_gamma h)))). rewrite !i16_word, !u16_word by (done || lia).
    rewrite <-Hm0 at 1. rewrite <-Ht0, <-Hs. by destruct h.
  - cbn [Z.leb Z.eqb Pos.eqb Z.compare Pos.compare Pos.compare_cont] in *. rewrite <-!app_assoc.
    next_field (le_combine (le_bytes 2 (h_channels h))). next_field (h_mirrors h). next_field (h_turns h).
    next_field (le_combine (le_bytes 2 (h_division h))).
    next_field (le_combine (le_bytes 2 (u16 (h_apha h)))). next_field (le_combine (le_bytes 2 (u16 (h_beta h)))).
    rewrite !i16_word, !u16_word by (done || lia). rewrite <-(H4 eq_refl), <-Hs. by destruct h.
Qed.

Lemma map_by_division h l : Forall i16_ok l -> map (by_division h ∘ i16) (map u16 l) = map (by_division h) l.
Proof. intros Hl. rewrite <-(map_map i16 (by_division h)). by rewrite map_i16_back. Qed.

Lemma map_some_i16 l : Forall i16_ok l -> map (Some ∘ i16) (map u16 l) = map Some l.
Proof. intros Hl. rewrite <-(map_map i16 Some). by rewrite map_i16_back. Qed.

Lemma et_header_length v h : et_header_ok v h -> Z.of_nat (length (et_header_bytes v h)) = h_size h.
Proof.
  intros (Hv & -> & _). unfold et_header_bytes. assert (v = 1 \/ v = 2 \/ v = 3 \/ v = 4) as [-> |[-> |[-> | ->]]] by lia; done.
Qed.

Definition channels_loaded (h : et_header) (r : et_raw) (c : ETCorrections) : ETCorrections :=
  set_angles (overlay_at 3 (map (by_division h) (r_azimuths r)) (et_azimuths c))
    (overlay (map (by_division h) ([h_apha h; h_beta h; h_gamma h] ++ r_elevations r)) (et_elevations c)) c.

Lemma load_channels_file h r head tail c :
  Z.of_nat (length head) = h_size h -> Z.of_nat (length (r_azimuths r)) = h_channels h ->
  Z.of_nat (length (r_elevations r)) = h_channels h -> Forall i16_ok (r_azimuths r) -> Forall i16_ok (r_elevations r) ->
  load_channels h (head ++ et_words (r_azimuths r) ++ et_words (r_elevations r) ++ tail) c =
    Ok (h_size h + 2 * h_channels h + 2 * h_channels h, channels_loaded h r c).
Proof.
  intros Hh L1 L2 R1 R2. unfold load_channels, et_words, channels_loaded. cbv zeta.
  next_field (map u16 (r_azimuths r)). next_field (map u16 (r_elevations r)).
  rewrite map_by_division, map_i16_back by done. done.
Qed.

Definition mirrors_loaded (h : et_header) (r : et_raw) (c : ETCorrections) : ETCorrections :=
  let angles l := map (by_division h) l in
  mk_et (header_min_version c) (header_angle_division c) (et_min_version c) (overlay (angles (r_gamma r)) (gamma_f c))
    (overlay_at 3 (angles (r_azimuths r)) (et_azimuths c))
    (overlay_at 3 (angles (r_elevations r)) (overlay (angles [h_apha h; h_beta h]) (et_elevations c)))
    (azimuth_adjust c) (elevation_adjust c) (overlay (angles (r_azimuth_delta r)) (azimuth_offset_delta_f c))
    (overlay (angles (r_elevation_delta r)) (elevation_offset_delta_f c)) (azimuth_adjust_interval c) (elevation_adjust_interval c).

Lemma load_mirrors_file h r head tail c :
  Z.of_nat (length head) = h_size h -> Z.of_nat (length (r_azimuths r)) = h_channels h ->
  Z.of_nat (length (r_elevations r)) = h_channels h -> Z.of_nat (length (r_gamma r)) = h_mirrors h ->
  Z.of_nat (length (r_azimuth_delta r)) = h_mirrors h -> Z.of_nat (length (r_elevation_delta r)) = h_mirrors h ->
  Forall (Forall i16_ok) [r_gamma r; r_azimuths r; r_elevations r; r_azimuth_delta r; r_elevation_delta r] ->
  load_mirrors h (head ++ et_words (r_gamma r) ++ et_words (r_azimuths r) ++ et_words (r_elevations r) ++
      et_words (r_azimuth_delta r) ++ et_words (r_elevation_delta r) ++ tail) c =
    Ok (h_size h + 2 * h_mirrors h + 2 * h_channels h + 2 * h_channels h + 2 * h_mirrors h + 2 * h_mirrors h, mirrors_loaded h r c).
Proof.
  intros Hh L1 L2 L3 L4 L5 HR. repeat (apply Forall_cons in HR as [? HR]).
  unfold load_mirrors, et_words, mirrors_loaded. cbv zeta.
  next_field (map u16 (r_gamma r)). next_field (map u16 (r_azimuths r)). next_field (map u16 (r_elevations r)).
  next_field (map u16 (r_azimuth_delta r)). next_field (map u16 (r_elevation_delta r)).
  by rewrite !map_by_division by done.
Qed.

Definition adjust_loaded (r : et_raw) (c : ETCorrections) : ETCorrections :=
  mk_et (header_min_version c) (header_angle_division c) (et_min_version c) (gamma_f c) (et_azimuths c) (et_elevations c)
    (overlay (map Some (r_azimuth_adjust r)) (azimuth_adjust c)) (overlay (map Some (r_elevation_adjust r)) (elevation_adjust c))
    (azimuth_offset_delta_f c) (elevation_offset_delta_f c) (Some (r_azimuth_interval r)) (Some (r_elevation_interval r)).

Definition adjust_part (r : et_raw) (hash : list Z) : list Z :=
  [r_azimuth_interval r; r_elevation_interval r] ++ et_words (r_azimuth_adjust r) ++ et_words (r_elevation_adjust r) ++ hash.

(** Tables that fit are copied; others go over the end of their arrays. *)
Lemma load_adjust_file v h r head hash c :
  length hash = 32%nat -> length (r_elevation_adjust r) = length (r_azimuth_adjust r) ->
  angle_offset_len v h (r_azimuth_interval r) (r_elevation_interval r) = Ok (Z.of_nat (length (r_azimuth_adjust r))) ->
  Forall i16_ok (r_azimuth_adjust r) -> Forall i16_ok (r_elevation_adjust r) ->
  load_adjust v h (head ++ adjust_part r hash) (Z.of_nat (length head)) c =
    if Z.of_nat (length (r_azimuth_adjust r)) <=? ADJUST_MAX then Ok (adjust_loaded r c) else Err OutOfBounds.
Proof.
  intros Hhash L1 Hlen R1 R2. unfold load_adjust, adjust_part, et_words, adjust_loaded.
  next_field (r_azimuth_interval r). next_field (r_elevation_interval r). rewrite Hlen. cbn [mbind result_bind].
  destruct (Z.leb_spec 0 (Z.of_nat (length (r_azimuth_adjust r)))); [|lia]. cbn [andb].
  destruct (Z.of_nat (length (r_azimuth_adjust r)) <=? ADJUST_MAX); [|done]. cbv zeta.
  next_field (map u16 (r_azimuth_adjust r)). next_field (map u16 (r_elevation_adjust r)).
  rewrite <-(app_nil_r hash). next_field hash. by rewrite !map_some_i16.
Qed.

(** What a file gives: the calibration it was written from, over what an earlier
    file left. *)
Definition body_loaded (v : Z) (h : et_header) (r : et_raw) (c : ETCorrections) : ETCorrections :=
  let c := if v =? 4 then mirrors_loaded h r c else channels_loaded h r c in
  if v =? 1 then c else adjust_loaded r c.

Definition et_loaded (v : Z) (stores : bool) (h : et_header) (r : et_raw) (c : ETCorrections) : ETCorrections :=
  body_loaded v h r (set_et_header v (h_division h) (if stores then Some v else et_min_version c) c).

Lemma et_words_length l : Z.of_nat (length (et_words l)) = 2 * Z.of_nat (length l).
Proof. unfold et_words. rewrite concat_le_bytes_length, length_map. lia. Qed.

(** The part between the header and the adjustments. *)
Lemma load_body_head v h r hash c : et_file_shape v h r hash ->
  exists head, et_file v h r hash = head ++ (if v =? 1 then hash else adjust_part r hash) /\
    (if v =? 4 then load_mirrors h (et_file v h r hash) c else load_channels h (et_file v h r hash) c) =
      Ok (Z.of_nat (length head), if v =? 4 then mirrors_loaded h r c else channels_loaded h r c).
Proof.
  intros (Hok & Hhash & L1 & L2 & L3 & L4 & L5 & Hadj & HR). pose proof (et_header_length v h Hok) as Hhl.
  pose proof HR as HR'. repeat (apply Forall_cons in HR' as [? HR']).
  unfold et_file. fold (adjust_part r hash). destruct (Z.eqb_spec v 4) as [E4|N4].
  - subst v. cbn [Z.eqb Pos.eqb]. exists (et_header_bytes 4 h ++ et_words (r_gamma r) ++ et_words (r_azimuths r) ++
      et_words (r_elevations r) ++ et_words (r_azimuth_delta r) ++ et_words (r_elevation_delta r)).
    rewrite <-!app_assoc. split; [done|]. rewrite load_mirrors_file by (done || (repeat constructor; done)).
    do 2 f_equal. rewrite !length_app, !Nat2Z.inj_add, !et_words_length. lia.
  - rewrite !app_nil_l. exists (et_header_bytes v h ++ et_words (r_azimuths r) ++ et_words (r_elevations r)).
    split; [unfold adjust_part; destruct (v =? 1); by rewrite ?app_nil_l, <-!app_assoc|]. rewrite load_channels_file by done.
    do 2 f_equal. rewrite !length_app, !Nat2Z.inj_add, !et_words_length. lia.
Qed.

(** What follows the header is loaded as it was written. *)
Lemma load_body_file v h r hash c : et_file_shape v h r hash ->
  ('(p, c) ← (if v =? 4 then load_mirrors h (et_file v h r hash) c else load_channels h (et_file v h r hash) c);
   (if v =? 1 then _ ← arr_slice (et_file v h r hash) p 32; Ok c else load_adjust v h (et_file v h r hash) p c)) =
    if (v =? 1) || (Z.of_nat (length (r_azimuth_adjust r)) <=? ADJUST_MAX) then Ok (body_loaded v h r c) else Err OutOfBounds.
Proof.
  intros Hf. destruct (load_body_head v h r hash c Hf) as (head & -> & ->). cbn [mbind result_bind].
  destruct Hf as (_ & Hhash & _ & _ & _ & _ & _ & Hadj & HR). repeat (apply Forall_cons in HR as [? HR]).
  unfold body_loaded. destruct (Z.eqb_spec v 1) as [->|N1]; cbn [orb].
  - rewrite <-(app_nil_r hash). by next_field hash.
  - destruct (Hadj N1) as [A1 A2]. by rewrite load_adjust_file.
Qed.

(** ** Properties *)

(** The header of a file is taken, and the rest decides. *)
Lemma load_file header_size versions stores v h r hash c :
  16 <= header_size <= 17 -> v ∈ versions -> et_file_shape v h r hash ->
  LoadCorrectionDatData header_size versions stores (et_file v h r hash) c =
    if (v =? 1) || (Z.of_nat (length (r_azimuth_adjust r)) <=? ADJUST_MAX)
    then Ok (0, et_loaded v stores h r c) else Err OutOfBounds.
Proof.
  intros Hs Hin Hf. pose proof Hf as (Hok & Hhash & _). pose proof Hok as (Hv & Hsz & Hc & Hm & H3 & Hd & _).
  pose proof (et_header_length v h Hok) as Hhl. unfold LoadCorrectionDatData.
  set (file := et_file v h r hash).
  assert (48 <= Z.of_nat (length file)) as Hl.
  { unfold file, et_file. rewrite !length_app, Hhash. destruct (v =? 3); lia. }
  destruct (arr_slice file 0 header_size) as [hd|] eqn:Hhd; [|by rewrite arr_slice_ok in Hhd by lia].
  cbn [mbind result_bind]. rewrite !(rd8_slice0 file header_size hd) by (done || lia).
  change (rd8 file 0) with (Ok 0xee : result Z). change (rd8 file 1) with (Ok 0xff : result Z).
  change (rd8 file 3) with (Ok v : result Z).
  cbn [mbind result_bind]. rewrite !Z.eqb_refl, bool_decide_eq_true_2 by done. cbn [andb].
  assert (read_header v file = Ok h) as -> by (unfold file, et_file; by rewrite read_header_file). cbn [mbind result_bind].
  destruct (Z.ltb_spec (ET_MAX_CHANNEL_NUM - 3) (h_channels h)) as [Hbig|_];
    [unfold ET_MAX_CHANNEL_NUM in *; destruct (v <=? 2); lia|].
  destruct (Z.eqb_spec (h_division h) 0), (Z.ltb_spec 8 (h_mirrors h)); try lia. cbn [orb].
  unfold et_loaded. set (c0 := set_et_header _ _ _ c). pose proof (load_body_file v h r hash c0 Hf) as Hb.
  fold file in Hb. destruct (if v =? 4 then _ else _) as [[p c1]|]; cbn [mbind result_bind] in *;
    [rewrite Hb; by destruct (_ || _)|destruct (_ || _); congruence].
Qed.

(** *** The lengths of the arrays *)

Definition et_shape (c : ETCorrections) : Prop :=
  length (gamma_f c) = 8%nat /\ length (et_azimuths c) = 512%nat /\ length (et_elevations c) = 512%nat /\
  length (azimuth_adjust c) = 3000%nat /\ length (elevation_adjust c) = 3000%nat /\
  length (azimuth_offset_delta_f c) = 8%nat /\ length (elevation_offset_delta_f c) = 8%nat.

Lemma overlay_at_length {A} k (src old : list A) : (k + length src <= length old)%nat ->
  length (overlay_at k src old) = length old.
Proof. intros H. unfold overlay_at. rewrite !length_app, length_take, length_drop. lia. Qed.

Lemma read_header_range v block h : byte_list block -> read_header v block = Ok h -> 0 <= h_channels h /\ 0 <= h_mirrors h.
Proof.
  intros Hb. unfold read_header. destruct (v <=? 2); [|destruct (v =? 3)]; intros H; inv_ok; cbn;
    repeat match goal with
    | E : rd8 block _ = Ok _ |- _ => apply rd8_range in E; [|done]; unfold is_u8 in E
    | E : rd16 block _ = Ok _ |- _ => apply rd_le_range in E; [|done]
    end; lia.
Qed.

Lemma load_channels_shape h block c p c' : 0 <= h_channels h <= 509 -> et_shape c -> load_channels h block c = Ok (p, c') -> et_shape c'.
Proof.
  intros Hn (S1 & S2 & S3 & S4 & S5 & S6 & S7) E. unfold load_channels in E. inv_ok.
  apply read_words_length in E0, E1; [|lia..]. unfold et_shape. cbn [gamma_f et_azimuths et_elevations azimuth_adjust elevation_adjust
    azimuth_offset_delta_f elevation_offset_delta_f set_angles].
  rewrite overlay_at_length, overlay_length by (rewrite ?length_map; cbn [length app map]; rewrite ?length_map; lia). done.
Qed.

Lemma load_mirrors_shape h block c p c' : 0 <= h_channels h <= 509 -> 0 <= h_mirrors h <= 8 -> et_shape c ->
  load_mirrors h block c = Ok (p, c') -> et_shape c'.
Proof.
  intros Hn Hm (S1 & S2 & S3 & S4 & S5 & S6 & S7) E. unfold load_mirrors in E. inv_ok.
  apply read_words_length in E0, E1, E2, E3, E4; [|lia..]. unfold et_shape. cbn [gamma_f et_azimuths et_elevations azimuth_adjust
    elevation_adjust azimuth_offset_delta_f elevation_offset_delta_f].
  rewrite !overlay_at_length, !overlay_length by (rewrite ?overlay_length, ?length_map; cbn [length map]; rewrite ?length_map; lia). done.
Qed.

Lemma load_adjust_shape v h block p c c' : et_shape c -> load_adjust v h block p c = Ok c' -> et_shape c'.
Proof.
  intros (S1 & S2 & S3 & S4 & S5 & S6 & S7) E. unfold load_adjust in E. inv_ok.
  destruct (Z.leb_spec 0 a1), (Z.leb_spec a1 ADJUST_MAX); cbn [andb] in E; inv_ok. unfold ADJUST_MAX in *.
  apply read_words_length in E3, E4; [|lia..]. unfold et_shape. cbn [gamma_f et_azimuths et_elevations azimuth_adjust
    elevation_adjust azimuth_offset_delta_f elevation_offset_delta_f].
  rewrite !overlay_length by (rewrite ?length_map; lia). done.
Qed.

(** ** Properties *)

(** A calibration file of any version the decoder knows is loaded as it was
    written: the angles divided by the division, in version 4 with a gamma and an
    offset for every mirror, from version 2 on with the two tables of adjustments. *)
Theorem et_calibration_roundtrip header_size versions stores v h r hash c :
  16 <= header_size <= 17 -> v ∈ versions -> et_file_ok v h r hash ->
  LoadCorrectionDatData header_size versions stores (et_file v h r hash) c = Ok (0, et_loaded v stores h r c).
Proof.
  intros Hs Hin [Hf Hmax]. rewrite load_file by done. destruct (Z.eqb_spec v 1) as [|N1]; [done|].
  apply Hmax, Z.leb_le in N1. by rewrite N1.
Qed.

(** The tables of a file whose intervals are small are longer than the arrays they
    are copied to. *)
Theorem et_adjust_overflow header_size versions stores v h r hash c :
  16 <= header_size <= 17 -> v ∈ versions -> et_file_shape v h r hash -> v <> 1 ->
  ADJUST_MAX < Z.of_nat (length (r_azimuth_adjust r)) ->
  LoadCorrectionDatData header_size versions stores (et_file v h r hash) c = Err OutOfBounds.
Proof.
  intros Hs Hin Hf N1 Hbig. rewrite load_file by done. apply Z.eqb_neq in N1. rewrite N1. apply Z.leb_gt in Hbig. by rewrite Hbig.
Qed.

(** Whatever file is loaded, the arrays keep their lengths; one that is refused
    changes the header at most, which then holds what the file said. *)
Theorem et_load_shape header_size versions stores block c r c' :
  byte_list block -> et_shape c -> LoadCorrectionDatData header_size versions stores block c = Ok (r, c') ->
  et_shape c' /\ (r = 0 \/ r = -1) /\
  (r = -1 -> c' = set_et_header (header_min_version c') (header_angle_division c') (et_min_version c') c).
Proof.
  intros Hb Hc E. unfold LoadCorrectionDatData in E. inv_ok. destruct (_ && _); [|inv_ok; split; [done|]; split; [by right|by destruct c']].
  destruct (read_header a2 block) as [h|] eqn:Eh; [|done]. cbn [mbind result_bind] in E.
  destruct (read_header_range _ _ _ Hb Eh) as [Hn Hm]. set (c0 := set_et_header _ _ _ _) in E.
  assert (et_shape c0) as Hc0 by exact Hc.
  destruct (Z.ltb_spec (ET_MAX_CHANNEL_NUM - 3) (h_channels h)) as [|Hn'], (Z.ltb_spec 8 (h_mirrors h)) as [|Hm'];
    rewrite ?orb_true_r in E; cbn [orb] in E; try (apply (inj Ok) in E as [= <- <-]; split; [done|]; split; [by right|done]).
  rewrite orb_false_r in E. destruct (h_division h =? 0);
    [apply (inj Ok) in E as [= <- <-]; split; [done|]; split; [by right|done]|].
  unfold ET_MAX_CHANNEL_NUM in Hn'. inv_ok. destruct a3 as [p c1]. inv_ok. split; [|split; [by left|done]].
  assert (et_shape c1) as Hc1.
  { destruct (a2 =? 4); [by eapply load_mirrors_shape|by eapply load_channels_shape]. }
  destruct (a2 =? 1); [by inv_ok|by eapply load_adjust_shape].
Qed.

(** ** Witness: a file of version 2 for two channels, with tables of two by two. *)
Definition demo_header : et_header := mk_et_header 16 2 0 0 100 250 (-50) 4500.
Definition demo_raw : et_raw := mk_et_raw [] [-3000; 3000] [-1250; 1250] [] [] 240 50 [1; -2; 3; -4] [5; 6; -7; -8].

Lemma demo_header_ok : et_header_ok 2 demo_header.
Proof. unfold et_header_ok, i16_ok. cbn. repeat split; lia. Qed.

Lemma et_calibration_roundtrip_witness :
  LoadCorrectionDatData 17 [1; 2; 3; 4] true (et_file 2 demo_header demo_raw (replicate 32 0)) ETCorrections_new =
    Ok (0, et_loaded 2 true demo_header demo_raw ETCorrections_new).
Proof.
  apply et_calibration_roundtrip; [lia|set_solver|]. split; [|vm_compute; congruence].
  unfold et_file_shape. split; [exact demo_header_ok|]. repeat (split; [reflexivity|]). split; [intros _; split; vm_compute; done|].
  repeat (apply Forall_cons; split; [repeat constructor; unfold i16_ok; lia|]). by apply Forall_nil.
Defined.

Definition demo_wide : et_raw := mk_et_raw [] [0; 0] [0; 0] [] [] 1 4 (replicate 3253 0) (replicate 3253 0).

Lemma et_adjust_overflow_witness :
  LoadCorrectionDatData 17 [1; 2; 3; 4] true (et_file 2 demo_header demo_wide (replicate 32 0)) ETCorrections_new = Err OutOfBounds.
Proof.
  apply et_adjust_overflow; [lia|set_solver| |done|vm_compute; reflexivity].
  unfold et_file_shape. split; [exact demo_header_ok|]. repeat (split; [reflexivity|]). split; [intros _; split; vm_compute; reflexivity|].
  repeat (apply Forall_cons; split; [first [apply Forall_replicate|repeat constructor]; unfold i16_ok; lia|]). by apply Forall_nil.
Defined.

Lemma et_load_shape_witness : exists c',
  LoadCorrectionDatData 16 [1] false ([0xee; 0xff; 1; 2] ++ replicate 12 0) ETCorrections_new = Ok (-1, c') /\ et_shape c'.
Proof.
  exists ETCorrections_new. split; [reflexivity|].
  refine (proj1 (et_load_shape 16 [1] false ([0xee; 0xff; 1; 2] ++ replicate 12 0) ETCorrections_new (-1) _ _ _ eq_refl)).
  - by apply byte_list_check.
  - by repeat split.
Defined.
