(* ===== verification/EtPackets.v ===== *)
(** * EtPackets: the packets of the 2.4 and 2.5 protocols

    UdpProtocol/udp_protocol_v2_4.h, udp_protocol_v2_5.h and [DecodePacket] of
    UdpParser/src/udp2_4_parser.cc and udp2_5_parser.cc, which differ in the
    lengths of the structures and in one member of the points.  A block has a
    point id and sequences; a sequence has the angles of the mirror and a unit for
    each of its channels. *)

From Stdlib Require Import SpecFloat.
From S2P Require Import Spinning Prelude Bytes Floats LidarTypes PacketLoss GeneralParser Decoder Calendar.
From S2P Require Import ProtocolV1_4 Udp1_4 Points Walk LidarTime Udp4_3 EtCorrections.
Local Open Scope Z_scope.

(** What distinguishes the protocols: the bytes of a sequence before its units,
    those of a unit, those behind the tail, and which member besides the common
    ones a point gets. *)
Inductive et_extra : Set := with_confidence | with_mirror.
Record et_format : Set := mk_et_format { seq_size : Z; unit_size : Z; trailer_size : Z; extra : et_extra }.
Definition format_ET_V4 : et_format := mk_et_format 4 4 8 with_confidence.
Definition format_ET_V5 : et_format := mk_et_format 5 3 40 with_mirror.

Record HS_LIDAR_HEADER_ET : Set := mk_et_head {
  et_LaserNum : Z; et_BlockNum : Z; et_DistUnit : Z; et_SeqNum : Z; et_Flags : Z }.
Definition et_HasSeqNum (h : HS_LIDAR_HEADER_ET) : bool := Z.testbit (et_Flags h) 0.

Definition header_ET (buf : list Z) : result HS_LIDAR_HEADER_ET :=
  l ← rd8 buf 6; b ← rd8 buf 7; u ← rd8 buf 9; s ← rd8 buf 11; f ← rd8 buf 12;
  Ok (mk_et_head l b u s f).

(** HS_LIDAR_TAIL_ET_V4 and HS_LIDAR_TAIL_ET_V5: the fourth byte is the mirror index
    in the second of them. *)
Record HS_LIDAR_TAIL_ET : Set := mk_et_tail {
  et_Mirror : Z; et_FrameID : Z; et_ShutDown : Z; et_EchoMode : Z; et_UTC : list Z; et_Timestamp : Z }.
Definition sizeof_TAIL_ET : Z := 23.

Definition tail_ET (buf : list Z) (off : Z) : result HS_LIDAR_TAIL_ET :=
  m ← rd8 buf (off + 3); fid ← rd8 buf (off + 9); sd ← rd8 buf (off + 10); em ← rd8 buf (off + 11);
  utc ← arr_slice buf (off + 12) 6; ts ← rd32 buf (off + 18);
  Ok (mk_et_tail m fid sd em utc ts).

Section Format.
Variable W : et_format.

(** GetLaserNum() / GetSeqNum(), in [int]. *)
Definition units_of (h : HS_LIDAR_HEADER_ET) : result Z :=
  if et_SeqNum h =? 0 then Err DivisionByZero else Ok (et_LaserNum h / et_SeqNum h).

Definition seq_bytes (units : Z) : Z := seq_size W + unit_size W * units.

(** [GetPacketSize], cut to sixteen bits. *)
Definition GetPacketSize (h : HS_LIDAR_HEADER_ET) (units : Z) : Z :=
  u16 (13 + (2 + seq_bytes units * et_SeqNum h) * et_BlockNum h + 4 + sizeof_TAIL_ET + trailer_size W).

(** Where sequence [s] of block [b] starts. *)
Definition seq_off (h : HS_LIDAR_HEADER_ET) (units b s : Z) : Z :=
  15 + (2 + seq_bytes units * et_SeqNum h) * b + seq_bytes units * s.

(** (horizontalAngle, verticalAngle) *)
Definition read_seq (h : HS_LIDAR_HEADER_ET) (units : Z) (buf : list Z) (b s : Z) : result (Z * Z) :=
  let off := seq_off h units b s in
  hor ← rd16 buf off; ver ← rd16 buf (off + 2); Ok (i16 hor, i16 ver).

Definition over512 (a : Z) : f32 := div32 (of_Z32 a) (of_Z32 512).

Definition read_unit (h : HS_LIDAR_HEADER_ET) (units : Z) (t : HS_LIDAR_TAIL_ET) (buf : list Z) (b : Z) (a : Z * Z)
    (s unitId : Z) (old : option PointDecodeData) : result PointDecodeData :=
  let pUnit := seq_off h units b s + seq_size W + unit_size W * unitId in
  refl ← rd8 buf (pUnit + 2);
  conf ← (match extra W with
          | with_confidence => c ← rd8 buf (pUnit + 3); Ok (Some c)
          | with_mirror => Ok (old ≫= pd_confidence)
          end);
  dist ← rd16 buf pUnit;
  let mirror := match extra W with with_confidence => old ≫= pd_mirror_index | with_mirror => Some (et_Mirror t) end in
  Ok (mk_pdd (over512 a.1) (over512 a.2) dist refl conf (old ≫= pd_chn_index) mirror).

(** The loops over the blocks, the sequences of a block and the units of a
    sequence; the points are stored one behind the other. *)
Definition et_block (h : HS_LIDAR_HEADER_ET) (units : Z) (t : HS_LIDAR_TAIL_ET) (buf : list Z) (index b : Z)
    (data : gmap Z PointDecodeData) : result (gmap Z PointDecodeData) :=
  '(_, data) ← fill_blocks kMaxPointsNumPerFrame (index + b * (et_SeqNum h * units)) (et_SeqNum h) units
     (read_seq h units buf b) (read_unit h units t buf b) (0, 0) data;
  Ok data.

Definition et_walk (h : HS_LIDAR_HEADER_ET) (units : Z) (t : HS_LIDAR_TAIL_ET) (buf : list Z) (index : Z)
    (data : gmap Z PointDecodeData) : result (gmap Z PointDecodeData) :=
  foldM (fun data b => et_block h units t buf index b data) data (seqZ 0 (et_BlockNum h)).

(** The members of the parser objects that decoding reads and writes. *)
Record EtState : Type := mk_et_state {
  et_base : GeneralParser;
  et_get_correction_file_ : bool;
  et_use_angle_ : bool;
  et_last_frameid_ : Z;
}.
Definition EtState_new (p : GeneralParser) : EtState := mk_et_state p false true (-1).
Definition set_et_base (p : GeneralParser) (s : EtState) : EtState :=
  mk_et_state p (et_get_correction_file_ s) (et_use_angle_ s) (et_last_frameid_ s).
Definition et_got (s : EtState) : EtState := mk_et_state (et_base s) true (et_use_angle_ s) (et_last_frameid_ s).

Definition et_IsNeedFrameSplit (nowid : Z) (s : EtState) : bool :=
  negb (nowid =? et_last_frameid_ s) && (0 <=? et_last_frameid_ s).

Section Decode.
Context {P : Type}.
Variable timezone : TimeZone.

Definition et_count_packet (now : nat -> Z) (h : HS_LIDAR_HEADER_ET) (t : HS_LIDAR_TAIL_ET) (size : Z) (buf : list Z)
    (p : GeneralParser) : result GeneralParser :=
  p ← (if et_HasSeqNum h then seq ← rd32 buf (size - trailer_size W); Ok (set_loss (CalPktLoss now seq (loss_ p)) p)
       else Ok p);
  Ok (set_loss (CalPktTimeLoss now (GetMicroLidarTimeU64_1900 timezone (et_UTC t) (et_Timestamp t)) (loss_ p)) p).

Definition et_DecodePacket (host : Z) (now : nat -> Z) (s : EtState) (frame : LidarDecodedFrame P)
    (pkt : UdpPacket) : result (Z * EtState * LidarDecodedFrame P) :=
  if negb (et_get_correction_file_ s) then Ok (-1, s, frame)
  else
    let buf := buffer pkt in
    b0 ← rd8 buf 0;
    b1 ← rd8 buf 1;
    if negb (b0 =? 0xEE) || negb (b1 =? 0xFF) then Ok (-1, s, frame)
    else
      h ← header_ET buf;
      units ← units_of h;
      let size := GetPacketSize h units in
      t ← tail_ET buf (size - trailer_size W - sizeof_TAIL_ET);
      p ← et_count_packet now h t size buf (et_base s);
      frame ← put_timestamp (packet_num frame)
        (if use_timestamp_type frame =? 0 then GetMicroLidarTimeU64_1900 timezone (et_UTC t) (et_Timestamp t)
         else recv_timestamp pkt) frame;
      let frame := set_packet_info host (spin_speed frame) (et_ShutDown t) (et_EchoMode t) (et_BlockNum h) (et_LaserNum h)
        (div32 (of_Z32 (et_DistUnit h)) (of_Z32 1000)) frame in
      let index := i32 (u32 (packet_num frame * et_BlockNum h * et_LaserNum h)) in
      data ← et_walk h units t buf index (pointData frame);
      let complete := et_use_angle_ s && et_IsNeedFrameSplit (et_FrameID t) s in
      Ok (0, mk_et_state p (et_get_correction_file_ s) (et_use_angle_ s) (et_FrameID t),
          set_counts (u32 (packet_num frame + 1)) (points_num frame) (set_scan_complete complete (set_pointData data frame))).

End Decode.
End Format.

(** ** Coordinates

    The end of [ComputeXYZI], which applies no transform. *)
Definition et_place {P} {PT : PointType P} (sin_all_angle_ cos_all_angle_ : Z -> f32) (conf : bool) (frame : LidarDecodedFrame P)
    (packet_index ring : Z) (angles : f32 * f32) (d : PointDecodeData) (old : option P) : result P :=
  azimuth ← et_units angles.1;
  place_point sin_all_angle_ cos_all_angle_ (fun x => x) (fun x => x) None conf frame packet_index ring azimuth (et_units angles.2)
    (point_distance d (distance_unit frame)) d old.

(** ** Lemmas *)

Definition format_ok (W : et_format) : Prop :=
  4 <= seq_size W /\ 8 <= trailer_size W /\ match extra W with with_confidence => 4 <= unit_size W | with_mirror => 3 <= unit_size W end.

Lemma format_V4_ok : format_ok format_ET_V4.
Proof. repeat split; cbn; lia. Qed.
Lemma format_V5_ok : format_ok format_ET_V5.
Proof. repeat split; cbn; lia. Qed.

(** A packet with its sections inside the receive buffer and no more channels than
    a frame has room for. *)
Definition et_fits (W : et_format) (buf : list Z) (h : HS_LIDAR_HEADER_ET) (units : Z) : Prop :=
  length buf = 1500%nat /\ byte_list buf /\ rd8 buf 0 = Ok 0xEE /\ rd8 buf 1 = Ok 0xFF /\ header_ET buf = Ok h /\
  units_of h = Ok units /\ et_BlockNum h * et_LaserNum h <= kMaxPointsNumPerPacket /\
  13 + (2 + seq_bytes W units * et_SeqNum h) * et_BlockNum h + 4 + sizeof_TAIL_ET + trailer_size W <= 1500.

Lemma header_ET_range buf h : byte_list buf -> header_ET buf = Ok h ->
  is_u8 (et_LaserNum h) /\ is_u8 (et_BlockNum h) /\ is_u8 (et_SeqNum h).
Proof. intros Hb. unfold header_ET. intros H. inv_ok. cbn. repeat split; eapply rd8_range; eauto. Qed.

Lemma units_range h units : is_u8 (et_LaserNum h) -> is_u8 (et_SeqNum h) -> units_of h = Ok units ->
  0 < et_SeqNum h /\ 0 <= units <= et_LaserNum h /\ et_SeqNum h * units <= et_LaserNum h.
Proof.
  intros HL HS. unfold units_of, is_u8 in *. destruct (Z.eqb_spec (et_SeqNum h) 0); [done|]. intros [= <-].
  split; [lia|]. split; [split; [apply Z.div_pos; lia|apply Z.div_le_upper_bound; [lia|]]|apply Z.mul_div_le; lia].
  assert (1 * et_LaserNum h <= et_SeqNum h * et_LaserNum h) by (apply Z.mul_le_mono_nonneg_r; lia). lia.
Qed.

Lemma tail_ET_ok buf off : 0 <= off -> off + 23 <= Z.of_nat (length buf) -> exists t, tail_ET buf off = Ok t.
Proof. intros Ho Hl. unfold tail_ET. read_fields. Qed.

Section FormatLemmas.
Context (W : et_format) (HW : format_ok W).

(** The dimensions of a packet that fits. *)
Lemma et_fits_dims buf h units n : et_fits W buf h units -> 0 <= n < kMaxPacketNumPerFrame ->
  is_u8 (et_LaserNum h) /\ is_u8 (et_BlockNum h) /\ 0 < et_SeqNum h /\ 0 <= units /\ et_SeqNum h * units <= et_LaserNum h /\
  0 <= n * et_BlockNum h * et_LaserNum h /\
  n * et_BlockNum h * et_LaserNum h + et_BlockNum h * (et_SeqNum h * units) <= kMaxPointsNumPerFrame /\
  i32 (u32 (n * et_BlockNum h * et_LaserNum h)) = n * et_BlockNum h * et_LaserNum h.
Proof.
  intros (Hlen & Hbl & _ & _ & Hh & Hu & Hmax & Hsz) Hn. destruct (header_ET_range _ _ Hbl Hh) as (HL & HB & HS).
  destruct (units_range _ _ HL HS Hu) as (HS0 & Hu0 & HSU). unfold is_u8 in *.
  unfold kMaxPointsNumPerFrame, kMaxPointsNumPerPacket, kMaxPacketNumPerFrame in *.
  assert (0 <= et_BlockNum h * et_LaserNum h) by (apply Z.mul_nonneg_nonneg; lia).
  assert (0 <= n * (et_BlockNum h * et_LaserNum h) <= n * 512) by (split; [apply Z.mul_nonneg_nonneg|apply Z.mul_le_mono_nonneg_l]; lia).
  replace (n * et_BlockNum h * et_LaserNum h) with (n * (et_BlockNum h * et_LaserNum h)) by lia.
  assert (et_BlockNum h * (et_SeqNum h * units) <= et_BlockNum h * et_LaserNum h) by (apply Z.mul_le_mono_nonneg_l; lia).
  repeat split; try lia. unfold i32, u32. rewrite (Z.mod_small (n * _)), Z.mod_small by lia. lia.
Qed.

(** A unit lies in its packet, in front of the tail. *)
Lemma et_unit_inside h units b s u : 0 <= units -> 0 < et_SeqNum h ->
  0 <= b < et_BlockNum h -> 0 <= s < et_SeqNum h -> 0 <= u < units ->
  let off := seq_off W h units b s + seq_size W + unit_size W * u in
  0 <= off /\ off + unit_size W <= 13 + (2 + seq_bytes W units * et_SeqNum h) * et_BlockNum h.
Proof.
  intros Hu HS Hb Hs Hi. destruct HW as (H4 & _ & Hx). assert (3 <= unit_size W) by (destruct (extra W); lia).
  unfold seq_off. set (q := seq_bytes W units).
  assert (0 <= unit_size W * units) by (apply Z.mul_nonneg_nonneg; lia). assert (0 <= q) by (unfold q, seq_bytes; lia).
  assert (unit_size W * (u + 1) <= unit_size W * units) by (apply Z.mul_le_mono_nonneg_l; lia).
  assert (0 <= unit_size W * u) by (apply Z.mul_nonneg_nonneg; lia).
  assert (q * (s + 1) <= q * et_SeqNum h) by (apply Z.mul_le_mono_nonneg_l; lia).
  assert (0 <= q * s) by (apply Z.mul_nonneg_nonneg; lia).
  assert (0 <= q * et_SeqNum h) by (apply Z.mul_nonneg_nonneg; lia).
  assert ((2 + q * et_SeqNum h) * (b + 1) <= (2 + q * et_SeqNum h) * et_BlockNum h) by (apply Z.mul_le_mono_nonneg_l; lia).
  assert (0 <= (2 + q * et_SeqNum h) * b) by (apply Z.mul_nonneg_nonneg; lia).
  assert (q = seq_size W + unit_size W * units) by done. lia.
Qed.

Lemma et_seq_inside h units b s : 0 <= units -> 0 < et_SeqNum h -> 0 <= b < et_BlockNum h -> 0 <= s < et_SeqNum h ->
  let off := seq_off W h units b s in 0 <= off /\ off + 4 <= 13 + (2 + seq_bytes W units * et_SeqNum h) * et_BlockNum h.
Proof.
  intros Hu HS Hb Hs. destruct HW as (H4 & _ & Hx). assert (3 <= unit_size W) by (destruct (extra W); lia).
  unfold seq_off. set (q := seq_bytes W units).
  assert (0 <= unit_size W * units) by (apply Z.mul_nonneg_nonneg; lia). assert (4 <= q) by (unfold q, seq_bytes; lia).
  assert (q * (s + 1) <= q * et_SeqNum h) by (apply Z.mul_le_mono_nonneg_l; lia).
  assert (0 <= q * s) by (apply Z.mul_nonneg_nonneg; lia).
  assert ((2 + q * et_SeqNum h) * (b + 1) <= (2 + q * et_SeqNum h) * et_BlockNum h) by (apply Z.mul_le_mono_nonneg_l; lia).
  assert (0 <= (2 + q * et_SeqNum h) * b) by (apply Z.mul_nonneg_nonneg; lia). lia.
Qed.

Lemma et_read_unit_total h units t buf b a s u old : 0 <= units -> 0 < et_SeqNum h ->
  13 + (2 + seq_bytes W units * et_SeqNum h) * et_BlockNum h <= Z.of_nat (length buf) ->
  0 <= b < et_BlockNum h -> 0 <= s < et_SeqNum h -> 0 <= u < units ->
  is_ok (read_unit W h units t buf b a s u old) = true.
Proof.
  intros Hu HS Hl Hb Hs Hi. destruct (et_unit_inside h units b s u Hu HS Hb Hs Hi) as [A B].
  destruct HW as (_ & _ & Hx). unfold read_unit. cbv zeta. set (off := _ + _ * u) in *.
  assert (3 <= unit_size W) by (destruct (extra W); lia).
  destruct (rd8_in buf (off + 2)) as [r ->]; [lia|]. cbn [mbind result_bind].
  unfold rd16. destruct (rd_le_in 2 buf off) as [d ->]; [lia|lia|].
  destruct (extra W); [|done]. destruct (rd8_in buf (off + 3)) as [c ->]; [lia|]. done.
Qed.

(** What a unit gives. *)
Lemma et_read_unit_spec h units t buf b a s u old d : read_unit W h units t buf b a s u old = Ok d ->
  let off := seq_off W h units b s + seq_size W + unit_size W * u in
  pd_azimuth d = over512 a.1 /\ pd_elevation d = over512 a.2 /\
  rd16 buf off = Ok (pd_distances d) /\ rd8 buf (off + 2) = Ok (pd_reflectivities d) /\
  match extra W with
  | with_confidence => exists c, rd8 buf (off + 3) = Ok c /\ pd_confidence d = Some c
  | with_mirror => pd_mirror_index d = Some (et_Mirror t)
  end.
Proof. unfold read_unit. cbv zeta. intros H. inv_ok. destruct (extra W); inv_ok; cbn; eauto 10. Qed.

(** The walk ends on a packet that fits, and what it leaves. *)
Lemma et_walk_ok h units t buf index data : 0 <= units -> 0 < et_SeqNum h -> 0 <= et_BlockNum h -> 0 <= index ->
  13 + (2 + seq_bytes W units * et_SeqNum h) * et_BlockNum h <= Z.of_nat (length buf) ->
  index + et_BlockNum h * (et_SeqNum h * units) <= kMaxPointsNumPerFrame ->
  is_ok (et_walk W h units t buf index data) = true.
Proof.
  intros Hu HS HB Hi Hl Hmax. unfold et_walk. apply foldM_total. intros m b Hb. apply elem_of_seqZ in Hb.
  unfold et_block. set (n := et_SeqNum h * units) in *. assert (0 <= n) by (apply Z.mul_nonneg_nonneg; lia).
  assert (0 <= b * n) by (apply Z.mul_nonneg_nonneg; lia).
  assert ((b + 1) * n <= et_BlockNum h * n) by (apply Z.mul_le_mono_nonneg_r; lia).
  destruct (fill_blocks_ok kMaxPointsNumPerFrame (index + b * n) units (read_seq W h units buf b)
    (read_unit W h units t buf b) Hu (et_SeqNum h) (0, 0) m) as (h' & m' & ->); [lia|lia| | |done].
  - change (et_SeqNum h * units) with n. lia.
  - intros s Hs. destruct (et_seq_inside h units b s Hu HS) as [A B]; [lia|done|]. unfold read_seq, rd16.
    destruct (rd_le_in 2 buf (seq_off W h units b s)) as [x ->]; [lia|lia|]. cbn [mbind result_bind].
    destruct (rd_le_in 2 buf (seq_off W h units b s + 2)) as [y ->]; [lia|lia|]. cbn [mbind result_bind].
    eexists. split; [reflexivity|]. intros l old Hl'. apply et_read_unit_total; (done || lia).
Qed.

Lemma et_walk_spec h units t buf index data data' : 0 <= units -> 0 < et_SeqNum h -> 0 <= et_BlockNum h ->
  et_walk W h units t buf index data = Ok data' ->
  (forall k, ~ (index <= k < index + et_BlockNum h * (et_SeqNum h * units)) -> data' !! k = data !! k) /\
  (forall b s u, 0 <= b < et_BlockNum h -> 0 <= s < et_SeqNum h -> 0 <= u < units ->
    let k := index + b * (et_SeqNum h * units) + (s * units + u) in
    exists a d, read_seq W h units buf b s = Ok a /\ data' !! k = Some d /\
      read_unit W h units t buf b a s u (data !! k) = Ok d).
Proof.
  intros Hu HS HB E. unfold et_walk in E. set (n := et_SeqNum h * units) in *.
  assert (0 <= n) as Hn by (apply Z.mul_nonneg_nonneg; lia).
  destruct (rounds_spec index n (et_BlockNum h) (et_block W h units t buf index)
    (fun b l old new => forall s u, 0 <= s < et_SeqNum h -> 0 <= u < units ->
    l = s * units + u -> exists a d, read_seq W h units buf b s = Ok a /\ new = Some d /\
      read_unit W h units t buf b a s u old = Ok d) data data' Hn HB) as [Hout Hin]; [|exact E|].
  - intros b m m' Hb Ef. unfold et_block in Ef. inv_ok. destruct a as [a m1]. inv_ok.
    destruct (fill_blocks_spec _ _ _ _ _ Hu _ _ _ _ _ (Z.lt_le_incl _ _ HS) E0) as (O1 & I1 & _).
    split; [exact O1|]. intros l Hl s u Hs Hu' ->. destruct (I1 s u Hs Hu') as (a' & d & E1 & E2 & E3).
    rewrite !Z.add_assoc. exists a', d. done.
  - split; [exact Hout|]. intros b s u Hb Hs Hu' k. apply (Hin b (s * units + u) Hb); [|done|done|done].
    assert ((s + 1) * units <= n) by (apply Z.mul_le_mono_nonneg_r; lia).
    assert (0 <= s * units) by (apply Z.mul_nonneg_nonneg; lia). lia.
Qed.

Definition et_stamp (timezone : TimeZone) (t : HS_LIDAR_TAIL_ET) {P} (f : LidarDecodedFrame P) (pkt : UdpPacket) : Z :=
  if use_timestamp_type f =? 0 then GetMicroLidarTimeU64_1900 timezone (et_UTC t) (et_Timestamp t) else recv_timestamp pkt.

(** Where the tail of a packet is. *)
Definition et_tail_off (h : HS_LIDAR_HEADER_ET) (units : Z) : Z :=
  GetPacketSize W h units - trailer_size W - sizeof_TAIL_ET.

Section EtDecode.
Context {P : Type}.
Variable timezone : TimeZone.

(** What is known of a packet that was accepted. *)
Lemma et_decode_accepts host now s (f : LidarDecodedFrame P) pkt r s' f' :
  et_get_correction_file_ s = true -> rd8 (buffer pkt) 0 = Ok 0xEE -> rd8 (buffer pkt) 1 = Ok 0xFF ->
  et_DecodePacket W timezone host now s f pkt = Ok (r, s', f') ->
  r = 0 /\ exists h units t l,
    header_ET (buffer pkt) = Ok h /\ units_of h = Ok units /\ tail_ET (buffer pkt) (et_tail_off h units) = Ok t /\
    et_walk W h units t (buffer pkt) (i32 (u32 (packet_num f * et_BlockNum h * et_LaserNum h))) (pointData f) = Ok (pointData f') /\
    s' = mk_et_state (set_loss l (et_base s)) true (et_use_angle_ s) (et_FrameID t) /\
    scan_complete f' = et_use_angle_ s && et_IsNeedFrameSplit (et_FrameID t) s /\
    packet_num f' = u32 (packet_num f + 1) /\ same_frame f f' /\ host_timestamp f' = host /\
    0 <= packet_num f < kMaxPacketNumPerFrame /\
    sensor_timestamp f' = <[packet_num f := et_stamp timezone t f pkt]> (sensor_timestamp f).
Proof.
  intros Hc H0 H1. unfold et_DecodePacket. rewrite Hc, H0, H1. cbn [negb mbind result_bind].
  rewrite !Z.eqb_refl. cbn [negb orb]. intros H. inv_ok.
  assert (exists l, a2 = set_loss l (et_base s)) as [l ->].
  { unfold et_count_packet in E2. inv_ok. destruct (et_HasSeqNum a); inv_ok; eexists; reflexivity. }
  unfold put_timestamp, array_put in E3.
  destruct (Z.leb_spec 0 (packet_num f)), (Z.ltb_spec (packet_num f) kMaxPacketNumPerFrame); cbn [andb] in E3; inv_ok.
  split; [done|]. exists a, a0, a1, l.
  split; [done|]. split; [done|]. split; [exact E1|]. split; [exact E4|]. split; [reflexivity|]. cbn. done.
Qed.

(** What is refused leaves everything as it was. *)
Lemma et_decode_refuses host now s (f : LidarDecodedFrame P) pkt r s' f' :
  et_DecodePacket W timezone host now s f pkt = Ok (r, s', f') ->
  (et_get_correction_file_ s = true /\ rd8 (buffer pkt) 0 = Ok 0xEE /\ rd8 (buffer pkt) 1 = Ok 0xFF) \/
  (r = -1 /\ s' = s /\ f' = f).
Proof.
  unfold et_DecodePacket. destruct (et_get_correction_file_ s); cbn [negb]; [|intros [= <- <- <-]; by right].
  intros H. inv_ok. destruct (Z.eqb_spec a 0xEE) as [->|], (Z.eqb_spec a0 0xFF) as [->|]; cbn [negb orb] in H;
    inv_ok; [by left|by right..].
Qed.

Lemma et_size_fits buf h units : et_fits W buf h units ->
  0 <= et_tail_off h units /\ et_tail_off h units + sizeof_TAIL_ET + trailer_size W <= 1500 /\
  13 + (2 + seq_bytes W units * et_SeqNum h) * et_BlockNum h <= 1500.
Proof.
  intros Hfit. destruct (et_fits_dims _ _ _ 0 Hfit ltac:(done)) as (_ & HB & HS & Hu & _).
  destruct Hfit as (_ & _ & _ & _ & _ & _ & _ & Hsz). destruct HW as (H4 & H8 & Hx). unfold is_u8 in HB.
  assert (3 <= unit_size W) by (destruct (extra W); lia).
  assert (0 <= unit_size W * units) by (apply Z.mul_nonneg_nonneg; lia).
  assert (0 <= seq_bytes W units * et_SeqNum h) by (apply Z.mul_nonneg_nonneg; [unfold seq_bytes|]; lia).
  assert (0 <= (2 + seq_bytes W units * et_SeqNum h) * et_BlockNum h) by (apply Z.mul_nonneg_nonneg; lia).
  unfold et_tail_off, GetPacketSize, sizeof_TAIL_ET, u16 in *. rewrite Z.mod_small by lia. lia.
Qed.

(** A packet that fits is decoded. *)
Lemma et_decode_ok host now s (f : LidarDecodedFrame P) pkt h units :
  et_get_correction_file_ s = true -> et_fits W (buffer pkt) h units -> 0 <= packet_num f < kMaxPacketNumPerFrame ->
  exists s' f', et_DecodePacket W timezone host now s f pkt = Ok (0, s', f').
Proof.
  intros Hc Hfit Hn. destruct (et_fits_dims _ _ _ _ Hfit Hn) as (HL & HB & HS & Hu & HSU & Hpos & Hmax & Hidx).
  destruct (et_size_fits _ _ _ Hfit) as (Ht0 & Ht1 & Hbody). destruct HW as (_ & H8 & _).
  destruct Hfit as (Hlen & Hbl & H0 & H1 & Hh & Hun & _ & _). unfold is_u8 in HB.
  destruct (tail_ET_ok (buffer pkt) (et_tail_off h units)) as [t Et]; [done|unfold sizeof_TAIL_ET in *; lia|].
  unfold et_DecodePacket. rewrite Hc, H0, H1. cbn [negb mbind result_bind]. rewrite !Z.eqb_refl. cbn [negb orb].
  rewrite Hh. cbn [mbind result_bind]. rewrite Hun. cbn [mbind result_bind].
  change (GetPacketSize W h units - trailer_size W - sizeof_TAIL_ET) with (et_tail_off h units). rewrite Et. cbn [mbind result_bind].
  assert (exists p, et_count_packet W timezone now h t (GetPacketSize W h units) (buffer pkt) (et_base s) = Ok p) as [p ->].
  { unfold et_count_packet. destruct (et_HasSeqNum h); [|cbn; eauto]. unfold rd32.
    destruct (rd_le_in 4 (buffer pkt) (GetPacketSize W h units - trailer_size W)) as [x ->];
      [unfold et_tail_off, sizeof_TAIL_ET in *; lia|unfold et_tail_off, sizeof_TAIL_ET in *; lia|]. cbn. eauto. }
  cbn [mbind result_bind]. unfold put_timestamp. rewrite array_put_ok by done.
  cbn [mbind result_bind packet_num set_packet_info pointData]. rewrite Hidx.
  pose proof (et_walk_ok h units t (buffer pkt) (packet_num f * et_BlockNum h * et_LaserNum h) (pointData f) Hu HS
    ltac:(lia) Hpos ltac:(lia) Hmax) as Hw.
  match goal with |- context [et_walk ?a ?b ?c ?d ?e ?g ?i] => destruct (et_walk a b c d e g i); [|done] end.
  cbn [mbind result_bind]. eauto.
Qed.

(** The forms the laws of the decoders need. *)
Lemma et_decode_keeps host now s (f : LidarDecodedFrame P) pkt r s' f' : et_get_correction_file_ s = true ->
  et_DecodePacket W timezone host now s f pkt = Ok (r, s', f') -> et_get_correction_file_ s' = true.
Proof.
  intros Hc E. destruct (et_decode_refuses _ _ _ _ _ _ _ _ E) as [(_ & H0 & H1)|(_ & -> & _)]; [|done].
  by destruct (et_decode_accepts _ _ _ _ _ _ _ _ Hc H0 H1 E) as (_ & h & un & t & l & _ & _ & _ & _ & -> & _).
Qed.

Lemma et_decode_counts host now s (f : LidarDecodedFrame P) pkt s' f' :
  et_DecodePacket W timezone host now s f pkt = Ok (0, s', f') ->
  packet_num f' = u32 (packet_num f + 1) /\ same_frame f f' /\ host_timestamp f' = host /\
  (exists t, sensor_timestamp f' !! packet_num f = Some t) /\ compute_packet_num (et_base s') = compute_packet_num (et_base s).
Proof.
  intros E. destruct (et_decode_refuses _ _ _ _ _ _ _ _ E) as [(Hc & H0 & H1)|(? & _)]; [|done].
  destruct (et_decode_accepts _ _ _ _ _ _ _ _ Hc H0 H1 E)
    as (_ & h & un & t & l & _ & _ & _ & _ & -> & _ & Hcount & Hsame & Hhost & _ & Hst).
  split; [done|]. split; [done|]. split; [done|]. split; [|done]. rewrite Hst. eexists. apply lookup_insert_eq.
Qed.

Lemma et_decode_unchanged host now s (f : LidarDecodedFrame P) pkt r s' f' :
  et_DecodePacket W timezone host now s f pkt = Ok (r, s', f') -> r <> 0 ->
  packet_num f' = packet_num f /\ same_frame f f' /\ compute_packet_num (et_base s') = compute_packet_num (et_base s).
Proof.
  intros E Hr. destruct (et_decode_refuses _ _ _ _ _ _ _ _ E) as [(Hc & H0 & H1)|(_ & -> & ->)]; [|done].
  by destruct (et_decode_accepts _ _ _ _ _ _ _ _ Hc H0 H1 E) as (-> & _).
Qed.

(** A packet decoded again does not complete a frame. *)
Lemma et_decode_again host now host' now' s v (f f2 : LidarDecodedFrame P) pkt s1 f1 r s2 f3 :
  et_DecodePacket W timezone host now s f pkt = Ok (0, s1, f1) ->
  et_get_correction_file_ v = et_get_correction_file_ s1 -> et_last_frameid_ v = et_last_frameid_ s1 ->
  et_DecodePacket W timezone host' now' v f2 pkt = Ok (r, s2, f3) -> r = 0 /\ scan_complete f3 = false.
Proof.
  intros E1 A B E2.
  destruct (et_decode_refuses _ _ _ _ _ _ _ _ E1) as [(Hc & H0 & H1)|(? & _)]; [|done].
  destruct (et_decode_accepts _ _ _ _ _ _ _ _ Hc H0 H1 E1) as (_ & h & un & t & l & Hh & Hu & Ht & _ & -> & _).
  cbn in A, B.
  destruct (et_decode_accepts _ _ _ _ _ _ _ _ A H0 H1 E2) as (-> & h' & un' & t' & l' & Hh' & Hu' & Ht' & _ & _ & Hsplit & _).
  split; [done|]. rewrite Hh in Hh'. apply (inj Ok) in Hh' as <-. rewrite Hu in Hu'. apply (inj Ok) in Hu' as <-.
  rewrite Ht in Ht'. apply (inj Ok) in Ht' as <-. rewrite Hsplit. unfold et_IsNeedFrameSplit. rewrite B, Z.eqb_refl.
  apply andb_false_r.
Qed.

End EtDecode.
End FormatLemmas.

(** ** Properties *)

Section EtProperties.
Context (W : et_format) {P : Type} (timezone : TimeZone).

(** C40: a packet that fits the receive buffer is decoded: the units of every sequence
    become points one behind the other, with the angles of the sequence and the
    distance and the reflectivity of their bytes; the points behind those of the
    last sequence, which a packet has when its sequences do not divide the
    channels evenly, keep what they held. *)
Theorem et_packet_points host now s (f : LidarDecodedFrame P) pkt h units :
  format_ok W -> et_get_correction_file_ s = true -> et_fits W (buffer pkt) h units ->
  0 <= packet_num f < kMaxPacketNumPerFrame ->
  exists s' f' t, et_DecodePacket W timezone host now s f pkt = Ok (0, s', f') /\ packet_num f' = packet_num f + 1 /\
    tail_ET (buffer pkt) (et_tail_off W h units) = Ok t /\
    sensor_timestamp f' = <[packet_num f := et_stamp timezone t f pkt]> (sensor_timestamp f) /\
    (let index := packet_num f * et_BlockNum h * et_LaserNum h in
     (forall b q u, 0 <= b < et_BlockNum h -> 0 <= q < et_SeqNum h -> 0 <= u < units ->
      let block_bytes := 2 + seq_bytes W units * et_SeqNum h in
      let off := 15 + block_bytes * b + seq_bytes W units * q + seq_size W + unit_size W * u in
      exists a d, pointData f' !! (index + b * (et_SeqNum h * units) + (q * units + u)) = Some d /\
        read_seq W h units (buffer pkt) b q = Ok a /\ pd_azimuth d = over512 a.1 /\ pd_elevation d = over512 a.2 /\
        rd16 (buffer pkt) off = Ok (pd_distances d) /\ rd8 (buffer pkt) (off + 2) = Ok (pd_reflectivities d) /\
        match extra W with
        | with_confidence => exists c, rd8 (buffer pkt) (off + 3) = Ok c /\ pd_confidence d = Some c
        | with_mirror => pd_mirror_index d = Some (et_Mirror t)
        end) /\
     (forall k, ~ (index <= k < index + et_BlockNum h * (et_SeqNum h * units)) -> pointData f' !! k = pointData f !! k)).
Proof.
  intros HW Hc Hfit Hn. destruct (et_fits_dims _ _ _ _ _ Hfit Hn) as (HL & HB & HS & Hu & HSU & Hpos & Hmax & Hidx).
  destruct (et_decode_ok W HW timezone host now s f pkt h units Hc Hfit Hn) as (s' & f' & E).
  destruct Hfit as (_ & _ & H0 & H1 & Hh & Hun & _ & _).
  destruct (et_decode_accepts _ _ _ _ _ _ _ _ _ _ Hc H0 H1 E)
    as (_ & h' & un & t & l & Hh' & Hu' & Ht & Hw & _ & _ & Hcount & _ & _ & _ & Hst).
  rewrite Hh in Hh'. apply (inj Ok) in Hh' as <-. rewrite Hun in Hu'. apply (inj Ok) in Hu' as <-. rewrite Hidx in Hw.
  destruct (et_walk_spec _ _ _ _ _ _ _ _ Hu HS (proj1 HB) Hw) as [Hout Hin].
  exists s', f', t. split; [exact E|].
  split; [rewrite Hcount; unfold u32, kMaxPacketNumPerFrame in *; rewrite Z.mod_small; lia|].
  split; [done|]. split; [done|]. split; [|exact Hout]. intros b q u Hb Hq Hi.
  destruct (Hin b q u Hb Hq Hi) as (a & d & Ea & Ed & Er).
  destruct (et_read_unit_spec _ _ _ _ _ _ _ _ _ _ _ Er) as (E1 & E2 & E3 & E4 & E5). exists a, d. repeat (split; [done|]). exact E5.
Qed.

(** A packet ends a frame exactly when the frame number differs from that of the
    packet before, and there was one; its number is then the last one. *)
Theorem et_frame_split host now s (f : LidarDecodedFrame P) pkt h units t :
  format_ok W -> et_get_correction_file_ s = true -> et_fits W (buffer pkt) h units ->
  0 <= packet_num f < kMaxPacketNumPerFrame -> tail_ET (buffer pkt) (et_tail_off W h units) = Ok t ->
  exists s' f', et_DecodePacket W timezone host now s f pkt = Ok (0, s', f') /\
    scan_complete f' = et_use_angle_ s && (negb (et_FrameID t =? et_last_frameid_ s) && (0 <=? et_last_frameid_ s)) /\
    et_last_frameid_ s' = et_FrameID t.
Proof.
  intros HW Hc Hfit Hn Ht. destruct (et_decode_ok W HW timezone host now s f pkt h units Hc Hfit Hn) as (s' & f' & E).
  destruct Hfit as (_ & _ & H0 & H1 & Hh & Hun & _ & _).
  destruct (et_decode_accepts _ _ _ _ _ _ _ _ _ _ Hc H0 H1 E) as (_ & h' & un & t' & l & Hh' & Hu' & Ht' & _ & -> & Hs & _).
  rewrite Hh in Hh'. apply (inj Ok) in Hh' as <-. rewrite Hun in Hu'. apply (inj Ok) in Hu' as <-.
  rewrite Ht in Ht'. apply (inj Ok) in Ht' as <-. eexists _, f'. split; [exact E|]. split; [exact Hs|done].
Qed.

(** A header that announces no sequence makes [GetPacketSize] divide by zero. *)
Theorem et_no_sequence host now s (f : LidarDecodedFrame P) pkt :
  et_get_correction_file_ s = true -> rd8 (buffer pkt) 0 = Ok 0xEE -> rd8 (buffer pkt) 1 = Ok 0xFF ->
  (13 <= length (buffer pkt))%nat -> rd8 (buffer pkt) 11 = Ok 0 ->
  et_DecodePacket W timezone host now s f pkt = Err DivisionByZero.
Proof.
  intros Hc H0 H1 Hl Hs. unfold et_DecodePacket. rewrite Hc, H0, H1. cbn [negb mbind result_bind]. rewrite !Z.eqb_refl. cbn [negb orb].
  unfold header_ET. rewrite Hs. destruct (rd8_in (buffer pkt) 6) as [? ->]; [lia|]. destruct (rd8_in (buffer pkt) 7) as [? ->]; [lia|].
  destruct (rd8_in (buffer pkt) 9) as [? ->]; [lia|]. destruct (rd8_in (buffer pkt) 12) as [? ->]; [lia|]. done.
Qed.

End EtProperties.

(** ** Witnesses: a packet with a block of one sequence of two units. *)
Definition demo_et (last : Z) : EtState := mk_et_state (demo_general false) true true last.
Definition demo_et_header : HS_LIDAR_HEADER_ET := mk_et_head 2 1 4 1 0.
Definition demo_et_packet : UdpPacket :=
  mk_packet (demo_bytes [0xEE; 0xFF; 2; 4; 0; 0; 2; 1; 0; 4; 0; 1; 0; 9; 9; 0; 2; 0; 1; 20; 1; 7; 8; 21; 1; 9; 10]) 70 false 0 0 2368.

Lemma demo_et_fits : et_fits format_ET_V4 (buffer demo_et_packet) demo_et_header 2.
Proof.
  split; [reflexivity|]. split; [|repeat split; try reflexivity; vm_compute; congruence].
  by apply byte_list_check.
Qed.

Lemma et_packet_points_witness :
  exists s' f', et_DecodePacket format_ET_V4 0 7 (fun _ => 0) (demo_et 3) demo_frame demo_et_packet = Ok (0, s', f') /\
    exists d, pointData f' !! 1 = Some d /\ pd_azimuth d = of_Z32 1 /\ pd_distances d = 277 /\ pd_confidence d = Some 10.
Proof.
  destruct (et_packet_points format_ET_V4 0 7 (fun _ => 0) (demo_et 3) demo_frame demo_et_packet demo_et_header 2)
    as (s' & f' & t & E & _ & _ & _ & Hin & _);
    [exact format_V4_ok|done|exact demo_et_fits|vm_compute; split; congruence|].
  exists s', f'. split; [exact E|].
  destruct (Hin 0 0 1) as (a & d & Hd & Ha & Haz & _ & Hdist & _ & c & Hc & Hconf); [vm_compute; split; congruence..|].
  exists d. split; [exact Hd|]. vm_compute in Ha. apply (inj Ok) in Ha as <-. split; [rewrite Haz; vm_compute; done|].
  vm_compute in Hc. apply (inj Ok) in Hc as <-. split; [|exact Hconf]. apply (inj Ok). by rewrite <-Hdist.
Defined.

Lemma et_frame_split_witness :
  (exists s' f', et_DecodePacket format_ET_V4 0 7 (fun _ => 0) (demo_et 3) demo_frame demo_et_packet = Ok (0, s', f') /\
    scan_complete f' = true) /\
  exists s' f', et_DecodePacket format_ET_V4 0 7 (fun _ => 0) (demo_et 0) demo_frame demo_et_packet = Ok (0, s', f') /\
    scan_complete f' = false.
Proof.
  destruct (tail_ET (buffer demo_et_packet) (et_tail_off format_ET_V4 demo_et_header 2)) as [t|] eqn:Et; [|discriminate Et].
  pose proof Et as Et'. vm_compute in Et'. apply (inj Ok) in Et'.
  destruct (et_frame_split format_ET_V4 0 7 (fun _ => 0) (demo_et 3) demo_frame demo_et_packet demo_et_header 2 t
    format_V4_ok eq_refl demo_et_fits ltac:(vm_compute; split; congruence) Et) as (s1 & f1 & E1 & S1 & _).
  destruct (et_frame_split format_ET_V4 0 7 (fun _ => 0) (demo_et 0) demo_frame demo_et_packet demo_et_header 2 t
    format_V4_ok eq_refl demo_et_fits ltac:(vm_compute; split; congruence) Et) as (s2 & f2 & E2 & S2 & _).
  subst t. split; [exists s1, f1; split; [exact E1|exact S1]|]. exists s2, f2. split; [exact E2|exact S2].
Defined.

Lemma et_no_sequence_witness :
  et_DecodePacket format_ET_V5 0 7 (fun _ => 0) (demo_et 3) demo_frame
    (mk_packet (demo_bytes [0xEE; 0xFF; 2; 5; 0; 0; 2; 1; 0; 4; 0; 0; 0]) 70 false 0 0 2368) = Err DivisionByZero.
Proof. apply et_no_sequence; [done..|vm_compute; lia|done]. Defined.
