(* ===== verification/Udp2_4.v ===== *)
(** * Udp2_4: the decoder of the ET25 with protocol 2.4

    UdpParser/src/udp2_4_parser.cc and UdpParser/include/udp2_4_parser.h: the
    loaders and the coordinates; the packets are those of EtPackets.v. *)

From Stdlib Require Import SpecFloat.
From S2P Require Import Spinning Prelude Bytes Text Streams Floats LidarTypes GeneralParser Decoder Firetimes1_4 Udp1_4 Calendar.
From S2P Require Import Points Walk Udp4_3 Udp4_7 EtCorrections EtPackets.
Local Open Scope Z_scope.

(** Of [ETCorrections_V4] the two arrays are read after loading; they are those of
    [ETCorrections]. *)
Record Udp2_4Parser : Type := mk_udp2_4 { et : EtState; m_ET_corrections : ETCorrections }.
Definition Udp2_4Parser_new (p : GeneralParser) : Udp2_4Parser := mk_udp2_4 (EtState_new p) ETCorrections_new.
Definition base (u : Udp2_4Parser) : GeneralParser := et_base (et u).
Definition set_base (p : GeneralParser) (u : Udp2_4Parser) : Udp2_4Parser := mk_udp2_4 (set_et_base p (et u)) (m_ET_corrections u).
Definition got (u : Udp2_4Parser) : Udp2_4Parser := mk_udp2_4 (et_got (et u)) (m_ET_corrections u).

(** ** The calibration *)

Definition LoadCorrectionString (block : list Z) (u : Udp2_4Parser) : result (Z * Udp2_4Parser) :=
  '(r, c) ← LoadCorrectionDatData 16 [1] false block (m_ET_corrections u);
  let u := mk_udp2_4 (et u) c in
  Ok (r, if r =? 0 then got u else u).

(** A row of the text file: column2 and column3. *)
Definition csv_row (rows : list (f32 * f32)) (line : string) : result (list (f32 * f32)) :=
  match tokens comma line with
  | _ :: c2 :: c3 :: _ => x ← stof c2; y ← stof c3; Ok (rows ++ [(x, y)])
  | _ => Ok rows
  end.

Definition LoadCorrectionString_csv (fs : string -> option string) (path : string) (u : Udp2_4Parser)
    : result (Z * Udp2_4Parser) :=
  match fs path with
  | None => Ok (0, u)
  | Some content =>
      rows ← foldM csv_row [] (drop 1 (tokens newline content));
      let rows := take (Z.to_nat ET_MAX_CHANNEL_NUM) rows in
      let c := m_ET_corrections u in
      Ok (1, mk_udp2_4 (et u) (set_angles (overlay (map (fun r => Some r.2) rows) (et_azimuths c))
                                 (overlay (map (fun r => Some r.1) rows) (et_elevations c)) (set_et_header 1 1 (et_min_version c) c)))
  end.

(** The suffix decides; a path without one of at least four characters is not
    loaded either. *)
Definition LoadCorrectionFile (fs : string -> option string) (path : string) (u : Udp2_4Parser) : result Udp2_4Parser :=
  if (String.length path <? 4)%nat then Ok u
  else
    let extension := String.substring (String.length path - 4) 4 path in
    if bool_decide (extension = ".bin"%string) then
      match fs path with
      | Some buffer => '(r, u) ← LoadCorrectionString (bytes_of buffer) u; Ok (if r =? 0 then got u else u)
      | None => Ok u
      end
    else if bool_decide (extension = ".csv"%string) then
      '(r, u) ← LoadCorrectionString_csv fs path u; Ok (if r =? 1 then got u else u)
    else Ok u.

Definition GetVecticalAngle (u : Udp2_4Parser) (channel : Z) : result Z :=
  if negb (et_get_correction_file_ (et u)) then Ok (-1)
  else e ← fetch (et_elevations (m_ET_corrections u)) channel; f_to_int (- 2 ^ 15) (2 ^ 15 - 1) e.

(** ** Packets and points *)

Section Decode.
Context {P : Type}.
Variable timezone : TimeZone.

Definition DecodePacket (host : Z) (now : nat -> Z) (u : Udp2_4Parser) (frame : LidarDecodedFrame P)
    (pkt : UdpPacket) : result (Z * Udp2_4Parser * LidarDecodedFrame P) :=
  '(r, s, f) ← et_DecodePacket format_ET_V4 timezone host now (et u) frame pkt;
  Ok (r, mk_udp2_4 s (m_ET_corrections u), f).

Context {PT : PointType P}.
Variables (sin_all_angle_ cos_all_angle_ : Z -> f32).
Variables (sin64 cos64 tan64 : f64 -> f64) (tan32 : f32 -> f32).

Definition compute_point (c : ETCorrections) (apha beta gamma : f32) (frame : LidarDecodedFrame P)
    (packet_index i point_index : Z) (old : option P) : result P :=
  d ← array_at kMaxPointsNumPerFrame point_index (pointData frame);
  phi ← fetch (et_azimuths c) (i + 3);
  theta ← fetch (et_elevations c) (i + 3);
  et_place sin_all_angle_ cos_all_angle_ true frame packet_index i
    (et_angles sin64 cos64 tan64 tan32 apha beta gamma phi theta (pd_azimuth d) (pd_elevation d)) d old.

Definition ComputeXYZI (u : Udp2_4Parser) (frame : LidarDecodedFrame P) (packet_index : Z)
    : result (Z * Udp2_4Parser * LidarDecodedFrame P) :=
  let c := m_ET_corrections u in
  apha ← fetch (et_elevations c) 0; beta ← fetch (et_elevations c) 1; gamma ← fetch (et_elevations c) 2;
  pts ← each_point frame packet_index (fun _ i => compute_point c apha beta gamma frame packet_index i);
  Ok (0, set_base (FrameNumAdd (base u)) u, set_points pts frame).

End Decode.

(** The parser object as its callers see it. *)
#[export] Instance udp2_4_decoder {P} {PT : PointType P} (timezone : TimeZone) (sin_all_angle_ cos_all_angle_ : Z -> f32)
    (sin64 cos64 tan64 : f64 -> f64) (tan32 : f32 -> f32) : Decoder P Udp2_4Parser := {|
  general := base;
  with_general := set_base;
  v_DecodePacket host now u f pkt := DecodePacket timezone host now u f pkt;
  v_ComputeXYZI := ComputeXYZI sin_all_angle_ cos_all_angle_ sin64 cos64 tan64 tan32;
  v_LoadCorrectionFile := LoadCorrectionFile;
  v_LoadCorrectionString block u := LoadCorrectionString (bytes_of block) u;
  v_LoadFiretimesFile fs path u := Ok (set_base (GeneralParser.LoadFiretimesFile fs path (base u)) u);
|}.

(** ** The laws of the decoder *)

Section Laws.
Context {P : Type} {PT : PointType P} (timezone : TimeZone) (sinT cosT : Z -> f32) (s64 c64 t64 : f64 -> f64) (t32 : f32 -> f32).

#[local] Abbreviation alike_4 := (@zero_alike P _ (udp2_4_decoder timezone sinT cosT s64 c64 t64 t32)).

Lemma et4_decode host now u (f : LidarDecodedFrame P) pkt r u' f' :
  DecodePacket timezone host now u f pkt = Ok (r, u', f') <->
  et_DecodePacket format_ET_V4 timezone host now (et u) f pkt = Ok (r, et u', f') /\ m_ET_corrections u' = m_ET_corrections u.
Proof.
  unfold DecodePacket. destruct (et_DecodePacket format_ET_V4 timezone host now (et u) f pkt) as [[[r0 s0] f0]|] eqn:E; cbn.
  - split; [by intros [= <- <- <-]|]. intros [[= -> -> ->] <-]. by destruct u'.
  - by split; [|intros []].
Qed.

Lemma et4_same_et u v : alike_4 u v -> et_get_correction_file_ (et u) = et_get_correction_file_ (et v) /\
  et_last_frameid_ (et u) = et_last_frameid_ (et v).
Proof.
  unfold zero_alike. cbn. unfold set_base, set_et_base. intros E. split.
  - exact (f_equal (fun w => et_get_correction_file_ (et w)) E).
  - exact (f_equal (fun w => et_last_frameid_ (et w)) E).
Qed.

#[export] Instance udp2_4_laws : @DecoderLaws P Udp2_4Parser (udp2_4_decoder timezone sinT cosT s64 c64 t64 t32).
Proof.
  unshelve econstructor; cbn [general with_general v_DecodePacket v_ComputeXYZI udp2_4_decoder].
  - exact alike_4.
  - exact (fun u => et_get_correction_file_ (et u) = true).
  - exact (fun pkt => exists h units, et_fits format_ET_V4 (buffer pkt) h units).
  - done.
  - apply zero_alike_equivalence.
  - intros g. by apply (@zero_alike_reset P _ (udp2_4_decoder timezone sinT cosT s64 c64 t64 t32)).
  - intros u v Huv. cbn. by rewrite (proj1 (et4_same_et u v Huv)).
  - intros host now u f pkt Hc (h & units & Hfit) Hn.
    destruct (et_decode_ok _ format_V4_ok timezone host now (et u) f pkt h units Hc Hfit Hn) as (s' & f' & E).
    exists (mk_udp2_4 s' (m_ET_corrections u)), f'. split; [by apply et4_decode|]. exact (et_decode_keeps _ _ _ _ _ _ _ _ _ _ Hc E).
  - intros host now u f pkt u' f' [E _]%et4_decode. exact (et_decode_counts _ _ _ _ _ _ _ _ _ E).
  - intros host now u f pkt r u' f' [E _]%et4_decode Hr. exact (et_decode_unchanged _ _ _ _ _ _ _ _ _ _ E Hr).
  - intros host now host' now' u f pkt u1 f1 v1 f2 r u2 f3 [E1 _]%et4_decode Hal [E2 _]%et4_decode.
    destruct (et4_same_et _ _ Hal) as [A B]. by eapply et_decode_again; [exact E1| | |exact E2].
  - intros u f i r u' f' E. unfold ComputeXYZI in E. inv_ok. split; [done|]. split; [|done].
    by apply (@zero_alike_count P _ (udp2_4_decoder timezone sinT cosT s64 c64 t64 t32)).
Defined.

End Laws.

(** ** Properties *)

(** From the file to the points: a path with the suffix [.bin] whose file holds a
    calibration of version 1 makes it the parser's, and the packets that were
    refused before are decoded. *)
Theorem et4_file_then_packets {P} (fs : string -> option string) (path buffer_ : string) h raw hash u
    (timezone : TimeZone) (host : Z) now (f : LidarDecodedFrame P) pkt hd units :
  (4 <= String.length path)%nat -> String.substring (String.length path - 4) 4 path = ".bin"%string ->
  fs path = Some buffer_ -> bytes_of buffer_ = et_file 1 h raw hash -> et_file_ok 1 h raw hash ->
  et_get_correction_file_ (et u) = false -> et_fits format_ET_V4 (buffer pkt) hd units -> 0 <= packet_num f < kMaxPacketNumPerFrame ->
  DecodePacket timezone host now u f pkt = Ok (-1, u, f) /\
  exists u', LoadCorrectionFile fs path u = Ok u' /\ m_ET_corrections u' = et_loaded 1 false h raw (m_ET_corrections u) /\
    base u' = base u /\ exists u2 f2, DecodePacket timezone host now u' f pkt = Ok (0, u2, f2) /\ m_ET_corrections u2 = m_ET_corrections u'.
Proof.
  intros Hlen Hsuf Hfs Hb Hok Hc Hfit Hn. split.
  { unfold DecodePacket, et_DecodePacket. rewrite Hc. by destruct u. }
  unfold LoadCorrectionFile. destruct (Nat.ltb_spec (String.length path) 4); [lia|]. rewrite Hsuf, bool_decide_eq_true_2 by done.
  rewrite Hfs. unfold LoadCorrectionString. rewrite Hb. destruct Hok as [Hshape _].
  rewrite load_file by (lia || set_solver || done). cbn [Z.eqb Pos.eqb orb mbind result_bind].
  eexists. split; [reflexivity|]. split; [reflexivity|]. split; [reflexivity|].
  match goal with |- context [DecodePacket _ _ _ ?u _ _] => set (u1 := u) end.
  destruct (et_decode_ok _ format_V4_ok timezone host now (et u1) f pkt hd units eq_refl Hfit Hn) as (s' & f' & E).
  exists (mk_udp2_4 s' (m_ET_corrections u1)), f'. split; [|done]. unfold DecodePacket. by rewrite E.
Qed.

(** ** Witness *)
Definition demo_et4 : Udp2_4Parser := mk_udp2_4 (mk_et_state (demo_general false) false true 3) ETCorrections_new.
Definition demo_et4_raw : et_raw := mk_et_raw [] [20; 40] [60; 80] [] [] 0 0 [] [].
Definition demo_et4_header : et_header := mk_et_header 16 2 0 0 100 10 20 30.

Lemma et4_file_then_packets_witness :
  exists u', LoadCorrectionFile (fun _ => Some (string_of (et_file 1 demo_et4_header demo_et4_raw (replicate 32 7)))) "a.bin" demo_et4 = Ok u' /\
  exists u2 f2, DecodePacket 0 7 (fun _ => 0) u' demo_frame demo_et_packet = Ok (0, u2, f2).
Proof.
  destruct (et4_file_then_packets (fun _ => Some (string_of (et_file 1 demo_et4_header demo_et4_raw (replicate 32 7)))) "a.bin"
    (string_of (et_file 1 demo_et4_header demo_et4_raw (replicate 32 7))) demo_et4_header demo_et4_raw (replicate 32 7) demo_et4
    0 7 (fun _ => 0) demo_frame demo_et_packet demo_et_header 2) as (_ & u' & E & _ & _ & u2 & f2 & E2 & _);
    [cbn; lia|reflexivity|reflexivity|vm_compute; reflexivity| |reflexivity|exact demo_et_fits|vm_compute; split; congruence|].
  - split; [|done]. unfold et_file_shape. split; [unfold et_header_ok, i16_ok; cbn; repeat split; lia|].
    repeat (split; [reflexivity|]). split; [done|].
    repeat (apply Forall_cons; split; [repeat constructor; unfold i16_ok; lia|]). by apply Forall_nil.
  - exists u'. split; [exact E|]. by exists u2, f2.
Defined.
