(* ===== verification/Udp2_5.v ===== *)
(** * Udp2_5: the decoder of the ET25 with protocol 2.5

    UdpParser/src/udp2_5_parser.cc and UdpParser/include/udp2_5_parser.h: the
    loaders and the coordinates with their adjustments; the packets are those of
    EtPackets.v. *)

From Stdlib Require Import SpecFloat.
From S2P Require Import Spinning Prelude Bytes Text Streams Floats LidarTypes GeneralParser Decoder Udp1_4 Calendar.
From S2P Require Import Points Walk Udp4_3 EtCorrections EtPackets.
Local Open Scope Z_scope.

Record Udp2_5Parser : Type := mk_udp2_5 { et : EtState; corrections_ : ETCorrections }.
Definition Udp2_5Parser_new (p : GeneralParser) : Udp2_5Parser := mk_udp2_5 (EtState_new p) ETCorrections_new.
Definition base (u : Udp2_5Parser) : GeneralParser := et_base (et u).
Definition set_base (p : GeneralParser) (u : Udp2_5Parser) : Udp2_5Parser := mk_udp2_5 (set_et_base p (et u)) (corrections_ u).
Definition loaded (c : ETCorrections) (u : Udp2_5Parser) : Udp2_5Parser := mk_udp2_5 (et_got (et u)) c.

(** ** The calibration: a binary file, or else a text. *)
Definition LoadCorrectionString (block : string) (u : Udp2_5Parser) : result (Z * Udp2_5Parser) :=
  '(r, c) ← LoadCorrectionDatData 17 [1; 2; 3; 4] true (bytes_of block) (corrections_ u);
  if r =? 0 then Ok (0, loaded c u)
  else s ← c_string block; c ← LoadCorrectionCsvData s c; Ok (0, loaded c u).

Definition LoadCorrectionFile (fs : string -> option string) (path : string) (u : Udp2_5Parser) : result Udp2_5Parser :=
  match fs path with
  | Some buffer => '(_, u) ← LoadCorrectionString buffer u; Ok u
  | None => Ok u
  end.

Definition GetVecticalAngle (u : Udp2_5Parser) (channel : Z) : result Z :=
  if negb (et_get_correction_file_ (et u)) then Ok (-1)
  else e ← fetch (et_elevations (corrections_ u)) channel; f_to_int (- 2 ^ 15) (2 ^ 15 - 1) e.

(** ** Packets and points *)

(** The adjustments of the version of the file; the mirror is numbered by the upper
    half of the mirror index of the packet, the turn by the lower one. *)
Definition adjusted (c : ETCorrections) (mirror_index turn_index : Z) (angles : f32 * f32) : result (f32 * f32) :=
  let '(azi_h, elv_h) := angles in
  let from_90 x := sub32 x (of_Z32 90) in
  if (header_min_version c =? 2) || (header_min_version c =? 3) then
    a ← getAziAdjustV2 c (from_90 azi_h) elv_h;
    let azi_h := add32 azi_h a in
    e ← getEleAdjustV2 c (from_90 azi_h) elv_h;
    Ok (azi_h, add32 elv_h e)
  else
    v ← of_option Uninitialised (et_min_version c);
    if v =? 4 then
      a ← getAziAdjustV4 c (from_90 azi_h) elv_h turn_index;
      let azi_h := add32 azi_h a in
      e ← getEleAdjustV4 c (from_90 azi_h) elv_h turn_index;
      let elv_h := add32 elv_h e in
      a ← fetch (azimuth_offset_delta_f c) mirror_index;
      e ← fetch (elevation_offset_delta_f c) mirror_index;
      Ok (add32 azi_h a, add32 elv_h e)
    else Ok (azi_h, elv_h).

Section Decode.
Context {P : Type}.
Variable timezone : TimeZone.

Definition DecodePacket (host : Z) (now : nat -> Z) (u : Udp2_5Parser) (frame : LidarDecodedFrame P)
    (pkt : UdpPacket) : result (Z * Udp2_5Parser * LidarDecodedFrame P) :=
  '(r, s, f) ← et_DecodePacket format_ET_V5 timezone host now (et u) frame pkt;
  Ok (r, mk_udp2_5 s (corrections_ u), f).

Context {PT : PointType P}.
Variables (sin_all_angle_ cos_all_angle_ : Z -> f32).
Variables (sin64 cos64 tan64 : f64 -> f64) (tan32 : f32 -> f32).

Definition compute_point (c : ETCorrections) (apha beta gamma : f32) (mirror_index turn_index : Z)
    (frame : LidarDecodedFrame P) (packet_index i point_index : Z) (old : option P) : result P :=
  d ← array_at kMaxPointsNumPerFrame point_index (pointData frame);
  phi ← fetch (et_azimuths c) (i + 3);
  theta ← fetch (et_elevations c) (i + 3);
  angles ← adjusted c mirror_index turn_index
    (et_angles sin64 cos64 tan64 tan32 apha beta gamma phi theta (pd_azimuth d) (pd_elevation d));
  et_place sin_all_angle_ cos_all_angle_ false frame packet_index i angles d old.

(** The mirror is that of the first point; in version 4 it has a gamma of its own,
    which replaces the one that is common otherwise. *)
Definition ComputeXYZI (u : Udp2_5Parser) (frame : LidarDecodedFrame P) (packet_index : Z)
    : result (Z * Udp2_5Parser * LidarDecodedFrame P) :=
  let c := corrections_ u in
  apha ← fetch (et_elevations c) 0; beta ← fetch (et_elevations c) 1;
  d ← array_at kMaxPointsNumPerFrame (u32 (packet_index * per_points_num frame)) (pointData frame);
  m ← of_option Uninitialised (pd_mirror_index d);
  let mirror_index := Z.land (Z.shiftr m 4) 0x0F in
  let turn_index := Z.land m 0x0F in
  v ← of_option Uninitialised (et_min_version c);
  gamma ← (if v =? 4 then fetch (gamma_f c) mirror_index else fetch (et_elevations c) 2);
  pts ← each_point frame packet_index (fun _ i =>
    compute_point c apha beta gamma mirror_index turn_index frame packet_index i);
  Ok (0, set_base (FrameNumAdd (base u)) u, set_points pts frame).

End Decode.

(** The parser object as its callers see it. *)
#[export] Instance udp2_5_decoder {P} {PT : PointType P} (timezone : TimeZone) (sin_all_angle_ cos_all_angle_ : Z -> f32)
    (sin64 cos64 tan64 : f64 -> f64) (tan32 : f32 -> f32) : Decoder P Udp2_5Parser := {|
  general := base;
  with_general := set_base;
  v_DecodePacket host now u f pkt := DecodePacket timezone host now u f pkt;
  v_ComputeXYZI := ComputeXYZI sin_all_angle_ cos_all_angle_ sin64 cos64 tan64 tan32;
  v_LoadCorrectionFile := LoadCorrectionFile;
  v_LoadCorrectionString := LoadCorrectionString;
  v_LoadFiretimesFile fs path u := Ok (set_base (GeneralParser.LoadFiretimesFile fs path (base u)) u);
|}.

(** ** The laws of the decoder *)

Section Laws.
Context {P : Type} {PT : PointType P} (timezone : TimeZone) (sinT cosT : Z -> f32) (s64 c64 t64 : f64 -> f64) (t32 : f32 -> f32).

#[local] Abbreviation alike_5 := (@zero_alike P _ (udp2_5_decoder timezone sinT cosT s64 c64 t64 t32)).

Lemma et5_decode host now u (f : LidarDecodedFrame P) pkt r u' f' :
  DecodePacket timezone host now u f pkt = Ok (r, u', f') <->
  et_DecodePacket format_ET_V5 timezone host now (et u) f pkt = Ok (r, et u', f') /\ corrections_ u' = corrections_ u.
Proof.
  unfold DecodePacket. destruct (et_DecodePacket format_ET_V5 timezone host now (et u) f pkt) as [[[r0 s0] f0]|] eqn:E; cbn.
  - split; [by intros [= <- <- <-]|]. intros [[= -> -> ->] <-]. by destruct u'.
  - by split; [|intros []].
Qed.

Lemma et5_same_et u v : alike_5 u v -> et_get_correction_file_ (et u) = et_get_correction_file_ (et v) /\
  et_last_frameid_ (et u) = et_last_frameid_ (et v).
Proof.
  unfold zero_alike. cbn. unfold set_base, set_et_base. intros E. split.
  - exact (f_equal (fun w => et_get_correction_file_ (et w)) E).
  - exact (f_equal (fun w => et_last_frameid_ (et w)) E).
Qed.

#[export] Instance udp2_5_laws : @DecoderLaws P Udp2_5Parser (udp2_5_decoder timezone sinT cosT s64 c64 t64 t32).
Proof.
  unshelve econstructor; cbn [general with_general v_DecodePacket v_ComputeXYZI udp2_5_decoder].
  - exact alike_5.
  - exact (fun u => et_get_correction_file_ (et u) = true).
  - exact (fun pkt => exists h units, et_fits format_ET_V5 (buffer pkt) h units).
  - done.
  - apply zero_alike_equivalence.
  - intros g. by apply (@zero_alike_reset P _ (udp2_5_decoder timezone sinT cosT s64 c64 t64 t32)).
  - intros u v Huv. cbn. by rewrite (proj1 (et5_same_et u v Huv)).
  - intros host now u f pkt Hc (h & units & Hfit) Hn.
    destruct (et_decode_ok _ format_V5_ok timezone host now (et u) f pkt h units Hc Hfit Hn) as (s' & f' & E).
    exists (mk_udp2_5 s' (corrections_ u)), f'. split; [by apply et5_decode|]. exact (et_decode_keeps _ _ _ _ _ _ _ _ _ _ Hc E).
  - intros host now u f pkt u' f' [E _]%et5_decode. exact (et_decode_counts _ _ _ _ _ _ _ _ _ E).
  - intros host now u f pkt r u' f' [E _]%et5_decode Hr. exact (et_decode_unchanged _ _ _ _ _ _ _ _ _ _ E Hr).
  - intros host now host' now' u f pkt u1 f1 v1 f2 r u2 f3 [E1 _]%et5_decode Hal [E2 _]%et5_decode.
    destruct (et5_same_et _ _ Hal) as [A B]. by eapply et_decode_again; [exact E1| | |exact E2].
  - intros u f i r u' f' E. unfold ComputeXYZI in E. inv_ok. split; [done|]. split; [|done].
    by apply (@zero_alike_count P _ (udp2_5_decoder timezone sinT cosT s64 c64 t64 t32)).
Defined.

End Laws.

(** ** Properties *)

(** The version that chooses between a common gamma and those of the mirrors is
    taken from binary files only.  A parser object whose first calibration is a text
    accepts packets but has none to compute their coordinates with. *)
Theorem et5_text_calibration {P} {PT : PointType P} sinT cosT s64 c64 t64 t32 block u b0 r u' (f : LidarDecodedFrame P) n :
  et_min_version (corrections_ u) = None -> rd8 (bytes_of block) 0 = Ok b0 -> b0 <> 0xee ->
  LoadCorrectionString block u = Ok (r, u') ->
  r = 0 /\ et_get_correction_file_ (et u') = true /\ et_min_version (corrections_ u') = None /\
  is_ok (ComputeXYZI sinT cosT s64 c64 t64 t32 u' f n) = false.
Proof.
  intros Hv H0 Hne E. unfold LoadCorrectionString in E.
  destruct (LoadCorrectionDatData 17 _ true _ _) as [[r1 c1]|] eqn:El; [|done]. cbn [mbind result_bind] in E.
  assert (r1 = -1 /\ c1 = corrections_ u) as [-> ->].
  { unfold LoadCorrectionDatData in El. destruct (arr_slice (bytes_of block) 0 17) as [hd|] eqn:Hhd; [|done].
    cbn [mbind result_bind] in El. rewrite (rd8_slice0 _ _ _ 0 Hhd), H0 in El by lia. cbn [mbind result_bind] in El. inv_ok.
    destruct (Z.eqb_spec b0 0xee); [done|]. cbn [andb] in El. by inv_ok. }
  cbn [Z.eqb] in E. inv_ok. assert (et_min_version a0 = None) as Hv'.
  { unfold LoadCorrectionCsvData in E1. destruct (tokens comma _); [done|]. destruct (foldl _ _ _) as [lc [el az]]. inv_ok. done. }
  split; [done|]. split; [done|]. split; [done|].
  destruct (ComputeXYZI _ _ _ _ _ _ _ f n) as [[[r u2] f2]|] eqn:Ec; [|done]. unfold ComputeXYZI in Ec. cbn [corrections_ loaded] in Ec.
  rewrite Hv' in Ec. by inv_ok.
Qed.

(** In version 4 the mirror is the upper half of a byte of the packet, and the
    arrays of the mirrors have eight elements: a packet that names another mirror
    reads behind them. *)
Theorem et5_mirror_bounds {P} {PT : PointType P} sinT cosT s64 c64 t64 t32 u (f : LidarDecodedFrame P) n d m x y :
  et_shape (corrections_ u) -> et_min_version (corrections_ u) = Some 4 ->
  fetch (et_elevations (corrections_ u)) 0 = Ok x -> fetch (et_elevations (corrections_ u)) 1 = Ok y ->
  array_at kMaxPointsNumPerFrame (u32 (n * per_points_num f)) (pointData f) = Ok d -> pd_mirror_index d = Some m ->
  128 <= m < 256 -> ComputeXYZI sinT cosT s64 c64 t64 t32 u f n = Err OutOfBounds.
Proof.
  intros (Hg & _) Hv Hx Hy Hd Hm Hr. unfold ComputeXYZI. rewrite Hx, Hy, Hd. cbn [mbind result_bind]. rewrite Hm, Hv.
  cbn [of_option mbind result_bind Z.eqb Pos.eqb].
  assert (Z.land (Z.shiftr m 4) 0x0F = m / 16) as ->.
  { rewrite Z.shiftr_div_pow2 by lia. change 0x0F with (Z.ones 4). rewrite Z.land_ones by lia. apply Z.mod_small. 
    split; [apply Z.div_pos; lia|apply Z.div_lt_upper_bound; lia]. }
  assert (8 <= m / 16) by (apply Z.div_le_lower_bound; lia).
  unfold fetch, arr_get. rewrite decide_True by lia. rewrite lookup_ge_None_2 by lia. done.
Qed.

(** Computing a packet gives each of its points the angles of its own datum and its
    own channel, for the mirror and the turn of the first point: in version 4 with
    the gamma of that mirror.  No other point is touched, and no transform is
    applied. *)
Theorem et5_compute_points {P} {PT : PointType P} sinT cosT s64 c64 t64 t32 u (f : LidarDecodedFrame P) n r u' f' :
  0 <= n -> 0 <= block_num f -> 0 <= laser_num f -> per_points_num f = block_num f * laser_num f ->
  (n + 1) * per_points_num f <= kMaxPointsNumPerFrame -> 0 < per_points_num f ->
  ComputeXYZI sinT cosT s64 c64 t64 t32 u f n = Ok (r, u', f') ->
  let c := corrections_ u in
  r = 0 /\ u' = set_base (FrameNumAdd (base u)) u /\ f' = set_points (points f') f /\
  (forall j, ~ (n * per_points_num f <= j < (n + 1) * per_points_num f) -> points f' !! j = points f !! j) /\
  exists v apha beta gamma d m, et_min_version c = Some v /\
    pointData f !! (n * per_points_num f) = Some d /\ pd_mirror_index d = Some m /\
    fetch (et_elevations c) 0 = Ok apha /\ fetch (et_elevations c) 1 = Ok beta /\
    (if v =? 4 then fetch (gamma_f c) (Z.land (Z.shiftr m 4) 15) else fetch (et_elevations c) 2) = Ok gamma /\
    forall b i, 0 <= b < block_num f -> 0 <= i < laser_num f ->
      let j := n * per_points_num f + b * laser_num f + i in
      exists pt, points f' !! j = Some pt /\
        compute_point sinT cosT s64 c64 t64 t32 c apha beta gamma (Z.land (Z.shiftr m 4) 15) (Z.land m 15) f n i j (points f !! j) = Ok pt.
Proof.
  intros Hn Hb Hl Hp Hm Hpos H c. unfold ComputeXYZI in H. fold c in H. inv_ok.
  destruct (each_point_spec f n _ Hn Hb Hl Hp Hm _ E5) as [Hout Hin].
  split; [done|]. split; [done|]. split; [done|]. split; [exact Hout|].
  destruct (et_min_version c) as [v|] eqn:Ev; [|done]. destruct (pd_mirror_index a1) as [m|] eqn:Em; [|done].
  cbn [of_option] in *. inv_ok.
  assert (pointData f !! (n * per_points_num f) = Some a1) as Hd.
  { unfold array_at in E1. destruct (_ && _); [|done]. replace (u32 (n * per_points_num f)) with (n * per_points_num f) in E1.
    - destruct (pointData f !! (n * per_points_num f)); [|done]. cbn in E1. by apply (inj Ok) in E1 as ->.
    - unfold u32. unfold kMaxPointsNumPerFrame, kMaxPointsNumPerPacket, kMaxPacketNumPerFrame in Hm.
      assert (0 <= n * per_points_num f) by (apply Z.mul_nonneg_nonneg; lia). rewrite Z.mod_small; lia. }
  eexists _, _, _, _, a1, _. repeat (split; [done|]). exact Hin.
Qed.

(** ** Witnesses *)
Definition demo_et5 (c : ETCorrections) : Udp2_5Parser := mk_udp2_5 (demo_et 3) c.
Definition demo_et5_text : string := String.append "Laser id,Elevation,Azimuth" (String newline (String.append "1,0.5,0.25" (String Ascii.zero EmptyString))).

Lemma et5_text_calibration_witness : exists u', LoadCorrectionString demo_et5_text (demo_et5 ETCorrections_new) = Ok (0, u') /\
  is_ok (ComputeXYZI (fun _ => f_zero) (fun _ => f_zero) (fun x => x) (fun x => x) (fun x => x) (fun x => x) u' demo_frame 0) = false.
Proof.
  destruct (LoadCorrectionString demo_et5_text (demo_et5 ETCorrections_new)) as [[r u']|] eqn:E; [|vm_compute in E; discriminate E].
  destruct (et5_text_calibration (fun _ => f_zero) (fun _ => f_zero) (fun x => x) (fun x => x) (fun x => x) (fun x => x)
    demo_et5_text (demo_et5 ETCorrections_new) 76 r u' demo_frame 0 eq_refl eq_refl ltac:(lia) E) as (-> & _ & _ & H).
  by exists u'.
Defined.

(** A calibration of two channels and two mirrors, and a packet of one channel
    whose tail names mirror [m / 16] and turn [m mod 16]. *)
Definition demo_et5_raw : et_raw :=
  mk_et_raw [300; 310] [20; 40] [60; 80] [1; 2] [3; 4] 255 255 (replicate 10 5) (replicate 10 6).
Definition demo_et5_cal (v : Z) : ETCorrections := et_loaded v true (mk_et_header 16 2 2 2 100 10 20 30) demo_et5_raw ETCorrections_new.
Definition demo_et5_packet (m : Z) : UdpPacket :=
  mk_packet (demo_bytes ([0xEE; 0xFF; 2; 5; 0; 0; 1; 1; 0; 4; 0; 1; 0; 9; 9; 0; 2; 0; 1; 0; 20; 1; 7] ++ replicate 7 0 ++ [m])) 70 false 0 0 2368.
Definition demo_et5_frame (m : Z) : LidarDecodedFrame LidarPointXYZI :=
  match DecodePacket 0 7 (fun _ => 0) (demo_et5 ETCorrections_new) demo_frame (demo_et5_packet m) with
  | Ok (_, _, f) => f
  | Err _ => demo_frame
  end.

Lemma et5_mirror_bounds_witness :
  ComputeXYZI (fun _ => f_zero) (fun _ => f_zero) (fun x => x) (fun x => x) (fun x => x) (fun x => x)
    (demo_et5 (demo_et5_cal 4)) (demo_et5_frame 0x90) 0 = Err OutOfBounds.
Proof.
  eapply (et5_mirror_bounds _ _ _ _ _ _ (demo_et5 (demo_et5_cal 4)) (demo_et5_frame 0x90) 0);
    [by repeat split|reflexivity|vm_compute; reflexivity|vm_compute; reflexivity|vm_compute; reflexivity|vm_compute; reflexivity|lia].
Defined.

Definition demo_compute (u : Udp2_5Parser) (f : LidarDecodedFrame LidarPointXYZI) :=
  ComputeXYZI (fun _ => f_zero) (fun _ => f_zero) (fun x => x) (fun x => x) (fun x => x) (fun x => x) u f 0.

Lemma et5_compute_points_witness : exists r u' f' pt,
  demo_compute (demo_et5 (demo_et5_cal 1)) (demo_et5_frame 0x10) = Ok (r, u', f') /\ points f' !! 0 = Some pt.
Proof.
  assert (is_ok (demo_compute (demo_et5 (demo_et5_cal 1)) (demo_et5_frame 0x10)) = true) as Hok by (vm_compute; reflexivity).
  assert (block_num (demo_et5_frame 0x10) = 1 /\ laser_num (demo_et5_frame 0x10) = 1 /\ per_points_num (demo_et5_frame 0x10) = 1)
    as (Hb & Hl & Hp) by (split; [vm_compute; reflexivity|split; vm_compute; reflexivity]).
  revert Hok Hb Hl Hp. generalize (demo_et5 (demo_et5_cal 1)) (demo_et5_frame 0x10). intros u f Hok Hb Hl Hp.
  destruct (demo_compute u f) as [[[r u'] f']|] eqn:E; [|done].
  unfold demo_compute in E.
  assert ((0 + 1) * per_points_num f <= kMaxPointsNumPerFrame) as Hmax by (rewrite Hp; vm_compute; congruence).
  assert (per_points_num f = block_num f * laser_num f) as Hpp by (by rewrite Hb, Hl).
  destruct (et5_compute_points _ _ _ _ _ _ u f 0 r u' f' (Z.le_refl 0) ltac:(lia) ltac:(lia) Hpp Hmax ltac:(lia) E)
    as (_ & _ & _ & _ & v & apha & beta & gamma & d & m & _ & _ & _ & _ & _ & _ & Hin).
  destruct (Hin 0 0 ltac:(lia) ltac:(lia)) as (pt & Hpt & _). exists r, u', f', pt. split; [done|].
  by rewrite !Z.mul_0_l in Hpt.
Defined.
