(* ===== verification/Udp2_6.v ===== *)
(** * Udp2_6: the decoder of the ET lidars with protocol 2.6

    UdpParser/src/udp2_6_parser.cc, UdpParser/include/udp2_6_parser.h and
    UdpProtocol/udp_protocol_v2_6.h: a sequence has a unit for each of its channels
    and behind them the second returns, which name their channel. *)

From Stdlib Require Import SpecFloat.
From S2P Require Import Spinning Prelude Bytes Text Streams Floats LidarTypes PacketLoss GeneralParser Decoder ProtocolV1_4 Calendar.
From S2P Require Import Udp1_4 Points Walk LidarTime Udp4_3 EtCorrections EtPackets.
Local Open Scope Z_scope.

Record Udp2_6Parser : Type := mk_udp2_6 { et : EtState; corrections_ : ETCorrections }.
Definition Udp2_6Parser_new (p : GeneralParser) : Udp2_6Parser := mk_udp2_6 (EtState_new p) ETCorrections_new.
Definition base (u : Udp2_6Parser) : GeneralParser := et_base (et u).
Definition set_base (p : GeneralParser) (u : Udp2_6Parser) : Udp2_6Parser := mk_udp2_6 (set_et_base p (et u)) (corrections_ u).
Definition loaded (c : ETCorrections) (u : Udp2_6Parser) : Udp2_6Parser := mk_udp2_6 (et_got (et u)) c.

(** ** The calibration: a binary file of version 1 or 2, or else a text. *)
Definition LoadCorrectionString (block : string) (u : Udp2_6Parser) : result (Z * Udp2_6Parser) :=
  '(r, c) ← LoadCorrectionDatData 17 [1; 2] false (bytes_of block) (corrections_ u);
  if r =? 0 then Ok (0, loaded c u)
  else s ← c_string block; c ← LoadCorrectionCsvData s c; Ok (0, loaded c u).

Definition LoadCorrectionFile (fs : string -> option string) (path : string) (u : Udp2_6Parser) : result Udp2_6Parser :=
  match fs path with
  | Some buffer => '(_, u) ← LoadCorrectionString buffer u; Ok u
  | None => Ok u
  end.

Definition GetVecticalAngle (u : Udp2_6Parser) (channel : Z) : result Z :=
  if negb (et_get_correction_file_ (et u)) then Ok (-1)
  else e ← fetch (et_elevations (corrections_ u)) channel; f_to_int (- 2 ^ 15) (2 ^ 15 - 1) e.

(** ** Packets *)

Record HS_LIDAR_HEADER_ET_V6 : Set := mk_head_V6 {
  v6_LaserNum : Z; v6_BlockNum : Z; v6_DistUnit : Z; v6_SeqNum : Z; v6_SecRetNum : Z; v6_Flags : Z }.
Definition v6_HasSeqNum (h : HS_LIDAR_HEADER_ET_V6) : bool := Z.testbit (v6_Flags h) 0.

Definition header_ET_V6 (buf : list Z) : result HS_LIDAR_HEADER_ET_V6 :=
  l ← rd16 buf 6; b ← rd8 buf 8; u ← rd8 buf 10; s ← rd8 buf 11; r ← rd8 buf 12; f ← rd8 buf 13;
  Ok (mk_head_V6 l b u s r f).

Record HS_LIDAR_TAIL_ET_V6 : Set := mk_tail_V6 { v6_FrameID : Z; v6_ShutDown : Z; v6_UTC : list Z; v6_Timestamp : Z }.
Definition sizeof_TAIL_ET_V6 : Z := 22.

Definition tail_ET_V6 (buf : list Z) (off : Z) : result HS_LIDAR_TAIL_ET_V6 :=
  fid ← rd8 buf (off + 9); sd ← rd8 buf (off + 10); utc ← arr_slice buf (off + 11) 6; ts ← rd32 buf (off + 17);
  Ok (mk_tail_V6 fid sd utc ts).

Definition v6_units (h : HS_LIDAR_HEADER_ET_V6) : result Z :=
  if v6_SeqNum h =? 0 then Err DivisionByZero else Ok (v6_LaserNum h / v6_SeqNum h).

Definition v6_seq_bytes (h : HS_LIDAR_HEADER_ET_V6) (units : Z) : Z := 6 + 3 * units + 4 * v6_SecRetNum h.

Definition v6_GetPacketSize (h : HS_LIDAR_HEADER_ET_V6) (units : Z) : Z :=
  u16 (14 + (2 + v6_seq_bytes h units * v6_SeqNum h) * v6_BlockNum h + sizeof_TAIL_ET_V6 + 4 + 32).

(** The points of a packet: those of the channels and the second returns. *)
Definition v6_points (h : HS_LIDAR_HEADER_ET_V6) : Z := (v6_LaserNum h + v6_SecRetNum h * v6_SeqNum h) * v6_BlockNum h.

(** Sequence [s] of the first block; the loops pass over the other blocks. *)
Definition v6_seq_off (h : HS_LIDAR_HEADER_ET_V6) (units s : Z) : Z := 16 + v6_seq_bytes h units * s.

Definition v6_read_seq (h : HS_LIDAR_HEADER_ET_V6) (units : Z) (buf : list Z) (s : Z) : result (Z * Z) :=
  let off := v6_seq_off h units s in
  hor ← rd16 buf off; ver ← rd16 buf (off + 2); Ok (i16 hor, i16 ver).

Definition v6_read_unit1 (h : HS_LIDAR_HEADER_ET_V6) (units : Z) (buf : list Z) (s : Z) (a : Z * Z) (unitId : Z)
    (old : option PointDecodeData) : result PointDecodeData :=
  let pUnit1 := v6_seq_off h units s + 6 + 3 * unitId in
  refl ← rd8 buf (pUnit1 + 2);
  dist ← rd16 buf pUnit1;
  Ok (mk_pdd (over512 a.1) (over512 a.2) dist refl (old ≫= pd_confidence) (Some (u8 unitId)) (old ≫= pd_mirror_index)).

Definition v6_read_unit2 (h : HS_LIDAR_HEADER_ET_V6) (units : Z) (buf : list Z) (s : Z) (a : Z * Z) (unitId : Z)
    (old : option PointDecodeData) : result PointDecodeData :=
  let pUnit2 := v6_seq_off h units s + 6 + 3 * units + 4 * unitId in
  refl ← rd8 buf (pUnit2 + 3);
  dist ← rd16 buf (pUnit2 + 1);
  chn ← rd8 buf pUnit2;
  Ok (mk_pdd (over512 a.1) (over512 a.2) dist refl (old ≫= pd_confidence) (Some chn) (old ≫= pd_mirror_index)).

(** The loop over the sequences, with the two running indexes. *)
Definition v6_seq (h : HS_LIDAR_HEADER_ET_V6) (units : Z) (buf : list Z) (index s : Z) (data : gmap Z PointDecodeData)
    : result (gmap Z PointDecodeData) :=
  a ← v6_read_seq h units buf s;
  data ← fill kMaxPointsNumPerFrame (index + s * units) units (v6_read_unit1 h units buf s a) data;
  fill kMaxPointsNumPerFrame (index + v6_LaserNum h + s * v6_SecRetNum h) (v6_SecRetNum h) (v6_read_unit2 h units buf s a) data.

Definition v6_walk (h : HS_LIDAR_HEADER_ET_V6) (units : Z) (buf : list Z) (index : Z) (data : gmap Z PointDecodeData)
    : result (gmap Z PointDecodeData) :=
  foldM (fun data s => v6_seq h units buf index s data) data (seqZ 0 (v6_SeqNum h)).

Definition set_per_points {P} (n : Z) (f : LidarDecodedFrame P) : LidarDecodedFrame P :=
  mk_frame (host_timestamp f) (sensor_timestamp f) (major_version f) (minor_version f) (return_mode f)
    (spin_speed f) (points_num f) (packet_num f) (points f) (pointData f) (block_num f)
    (laser_num f) n (scan_complete f) (distance_unit f) (frame_index f)
    (lidar_state f) (work_mode f) (use_timestamp_type f) (fov_start f) (fov_end f).

Section Decode.
Context {P : Type}.
Variable timezone : TimeZone.

Definition count_packet (now : nat -> Z) (h : HS_LIDAR_HEADER_ET_V6) (t : HS_LIDAR_TAIL_ET_V6) (size : Z) (buf : list Z)
    (p : GeneralParser) : result GeneralParser :=
  p ← (if v6_HasSeqNum h then seq ← rd32 buf (size - 36); Ok (set_loss (CalPktLoss now seq (loss_ p)) p) else Ok p);
  Ok (set_loss (CalPktTimeLoss now (GetMicroLidarTimeU64_1900 timezone (v6_UTC t) (v6_Timestamp t)) (loss_ p)) p).

Definition DecodePacket (host : Z) (now : nat -> Z) (u : Udp2_6Parser) (frame : LidarDecodedFrame P)
    (pkt : UdpPacket) : result (Z * Udp2_6Parser * LidarDecodedFrame P) :=
  if negb (et_get_correction_file_ (et u)) then Ok (-1, u, frame)
  else
    let buf := buffer pkt in
    b0 ← rd8 buf 0;
    b1 ← rd8 buf 1;
    if negb (b0 =? 0xEE) || negb (b1 =? 0xFF) then Ok (-1, u, frame)
    else
      h ← header_ET_V6 buf;
      units ← v6_units h;
      let size := v6_GetPacketSize h units in
      t ← tail_ET_V6 buf (size - 36 - sizeof_TAIL_ET_V6);
      p ← count_packet now h t size buf (base u);
      frame ← put_timestamp (packet_num frame)
        (if use_timestamp_type frame =? 0 then GetMicroLidarTimeU64_1900 timezone (v6_UTC t) (v6_Timestamp t)
         else recv_timestamp pkt) frame;
      let frame := set_per_points (v6_points h)
        (set_packet_info host (spin_speed frame) (v6_ShutDown t) (return_mode frame) (v6_BlockNum h) (v6_LaserNum h)
           (div32 (of_Z32 (v6_DistUnit h)) (of_Z32 1000)) frame) in
      let index := i32 (u32 (packet_num frame * (v6_LaserNum h + v6_SecRetNum h * v6_SeqNum h) * v6_BlockNum h)) in
      data ← v6_walk h units buf index (pointData frame);
      let complete := et_use_angle_ (et u) && et_IsNeedFrameSplit (v6_FrameID t) (et u) in
      Ok (0, mk_udp2_6 (mk_et_state p (et_get_correction_file_ (et u)) (et_use_angle_ (et u)) (v6_FrameID t)) (corrections_ u),
          set_counts (u32 (packet_num frame + 1)) (points_num frame) (set_scan_complete complete (set_pointData data frame))).

(** ** Coordinates *)

Context {PT : PointType P}.
Variables (sin_all_angle_ cos_all_angle_ : Z -> f32).
Variables (sin64 cos64 tan64 : f64 -> f64) (tan32 : f32 -> f32).

(** The adjustments of version 2; the header cannot have version 3, whose files are
    not loaded. *)
Definition adjusted (c : ETCorrections) (angles : f32 * f32) : result (f32 * f32) :=
  let '(azi_h, elv_h) := angles in
  let from_90 x := sub32 x (of_Z32 90) in
  if (header_min_version c =? 2) || (header_min_version c =? 3) then
    a ← getAziAdjustV2 c (from_90 azi_h) elv_h;
    let azi_h := add32 azi_h a in
    e ← getEleAdjustV2 c (from_90 azi_h) elv_h;
    Ok (azi_h, add32 elv_h e)
  else Ok (azi_h, elv_h).

Definition compute_point (c : ETCorrections) (apha beta gamma : f32) (frame : LidarDecodedFrame P)
    (packet_index point_index : Z) (old : option P) : result P :=
  d ← array_at kMaxPointsNumPerFrame point_index (pointData frame);
  chn_index ← of_option Uninitialised (pd_chn_index d);
  phi ← fetch (et_azimuths c) (chn_index + 3);
  theta ← fetch (et_elevations c) (chn_index + 3);
  angles ← adjusted c (et_angles sin64 cos64 tan64 tan32 apha beta gamma phi theta (pd_azimuth d) (pd_elevation d));
  et_place sin_all_angle_ cos_all_angle_ false frame packet_index chn_index angles d old.

Definition ComputeXYZI (u : Udp2_6Parser) (frame : LidarDecodedFrame P) (packet_index : Z)
    : result (Z * Udp2_6Parser * LidarDecodedFrame P) :=
  let c := corrections_ u in
  apha ← fetch (et_elevations c) 0; beta ← fetch (et_elevations c) 1; gamma ← fetch (et_elevations c) 2;
  pts ← foldM (fun pts i =>
    let k := i32 (u32 (packet_index * per_points_num frame + i)) in
    x ← compute_point c apha beta gamma frame packet_index k (pts !! k);
    array_put kMaxPointsNumPerFrame k x pts) (points frame) (seqZ 0 (u16 (per_points_num frame)));
  Ok (0, set_base (FrameNumAdd (base u)) u, set_points pts frame).

End Decode.

(** The parser object as its callers see it. *)
#[export] Instance udp2_6_decoder {P} {PT : PointType P} (timezone : TimeZone) (sin_all_angle_ cos_all_angle_ : Z -> f32)
    (sin64 cos64 tan64 : f64 -> f64) (tan32 : f32 -> f32) : Decoder P Udp2_6Parser := {|
  general := base;
  with_general := set_base;
  v_DecodePacket host now u f pkt := DecodePacket timezone host now u f pkt;
  v_ComputeXYZI := ComputeXYZI sin_all_angle_ cos_all_angle_ sin64 cos64 tan64 tan32;
  v_LoadCorrectionFile := LoadCorrectionFile;
  v_LoadCorrectionString := LoadCorrectionString;
  v_LoadFiretimesFile fs path u := Ok (set_base (GeneralParser.LoadFiretimesFile fs path (base u)) u);
|}.

(** ** Lemmas *)

(** A packet with its first block and its tail inside the receive buffer and no
    more points than a frame has room for. *)
Definition v6_fits (buf : list Z) (h : HS_LIDAR_HEADER_ET_V6) (units : Z) : Prop :=
  length buf = 1500%nat /\ byte_list buf /\ rd8 buf 0 = Ok 0xEE /\ rd8 buf 1 = Ok 0xFF /\ header_ET_V6 buf = Ok h /\
  v6_units h = Ok units /\ v6_points h <= kMaxPointsNumPerPacket /\ 0 < v6_BlockNum h /\
  14 + (2 + v6_seq_bytes h units * v6_SeqNum h) * v6_BlockNum h + sizeof_TAIL_ET_V6 + 36 <= 1500.

Definition v6_tail_off (h : HS_LIDAR_HEADER_ET_V6) (units : Z) : Z := v6_GetPacketSize h units - 36 - sizeof_TAIL_ET_V6.

Lemma header_V6_range buf h : byte_list buf -> header_ET_V6 buf = Ok h ->
  0 <= v6_LaserNum h /\ is_u8 (v6_BlockNum h) /\ is_u8 (v6_SeqNum h) /\ is_u8 (v6_SecRetNum h).
Proof.
  intros Hb. unfold header_ET_V6. intros H. inv_ok. cbn.
  repeat match goal with
  | E : rd8 buf _ = Ok _ |- _ => apply rd8_range in E; [|done]
  | E : rd16 buf _ = Ok _ |- _ => apply rd_le_range in E; [|done]
  end. repeat split; unfold is_u8 in *; lia.
Qed.

(** The two areas of the points of a packet: where they are, and the room. *)
Record v6_dims (n : Z) (h : HS_LIDAR_HEADER_ET_V6) (units : Z) : Prop := mk_dims {
  d_seq : 0 < v6_SeqNum h;
  d_units : 0 <= units;
  d_second : 0 <= v6_SecRetNum h;
  d_block : 0 < v6_BlockNum h;
  d_apart : v6_SeqNum h * units <= v6_LaserNum h;
  d_index : 0 <= n * v6_points h;
  d_room : n * v6_points h + v6_LaserNum h + v6_SeqNum h * v6_SecRetNum h <= kMaxPointsNumPerFrame;
  d_exact : i32 (u32 (n * (v6_LaserNum h + v6_SecRetNum h * v6_SeqNum h) * v6_BlockNum h)) = n * v6_points h;
}.

Lemma v6_fits_dims buf h units n : v6_fits buf h units -> 0 <= n < kMaxPacketNumPerFrame -> v6_dims n h units.
Proof.
  intros (Hlen & Hbl & _ & _ & Hh & Hu & Hmax & HB & Hsz) Hn.
  destruct (header_V6_range _ _ Hbl Hh) as (HL & HB' & HS & HR). unfold is_u8 in *.
  unfold v6_units in Hu. destruct (Z.eqb_spec (v6_SeqNum h) 0); [done|]. apply (inj Ok) in Hu as <-.
  set (p := v6_LaserNum h + v6_SecRetNum h * v6_SeqNum h) in *.
  assert (0 <= v6_SecRetNum h * v6_SeqNum h) by (apply Z.mul_nonneg_nonneg; lia).
  assert (v6_points h = p * v6_BlockNum h) as Hp by done.
  assert (p * 1 <= p * v6_BlockNum h) by (apply Z.mul_le_mono_nonneg_l; lia).
  unfold kMaxPointsNumPerFrame, kMaxPointsNumPerPacket, kMaxPacketNumPerFrame in *.
  assert (0 <= n * v6_points h <= n * 512) by (split; [apply Z.mul_nonneg_nonneg|apply Z.mul_le_mono_nonneg_l]; lia).
  split; try lia.
  - apply Z.div_pos; lia.
  - apply Z.mul_div_le; lia.
  - unfold p, kMaxPointsNumPerFrame, kMaxPointsNumPerPacket, kMaxPacketNumPerFrame in *. rewrite (Z.mul_comm (v6_SeqNum h)). lia.
  - fold p. rewrite <-Z.mul_assoc, <-Hp. unfold i32, u32. rewrite (Z.mod_small (n * _)), Z.mod_small by lia. lia.
Qed.

Lemma tail_V6_ok buf off : 0 <= off -> off + 22 <= Z.of_nat (length buf) -> exists t, tail_ET_V6 buf off = Ok t.
Proof. intros Ho Hl. unfold tail_ET_V6. read_fields. Qed.

Lemma v6_size_fits buf h units : v6_fits buf h units ->
  0 <= v6_tail_off h units /\ v6_tail_off h units + 58 <= 1500 /\ 16 + v6_seq_bytes h units * v6_SeqNum h <= 1500.
Proof.
  intros Hfit. destruct (v6_fits_dims _ _ _ 0 Hfit ltac:(done)) as [HS Hu HR HB _ _ _ _].
  destruct Hfit as (_ & _ & _ & _ & _ & _ & _ & _ & Hsz).
  assert (0 <= v6_seq_bytes h units * v6_SeqNum h) by (apply Z.mul_nonneg_nonneg; [unfold v6_seq_bytes|]; lia).
  set (q := 2 + v6_seq_bytes h units * v6_SeqNum h) in *.
  assert (q * 1 <= q * v6_BlockNum h) by (apply Z.mul_le_mono_nonneg_l; lia).
  unfold v6_tail_off, v6_GetPacketSize, sizeof_TAIL_ET_V6, u16 in *. fold q. rewrite Z.mod_small by lia. lia.
Qed.

(** A sequence lies in the first block. *)
Lemma v6_seq_inside h units s : 0 <= units -> 0 <= v6_SecRetNum h -> 0 <= s < v6_SeqNum h ->
  16 <= v6_seq_off h units s /\ v6_seq_off h units s + v6_seq_bytes h units <= 16 + v6_seq_bytes h units * v6_SeqNum h.
Proof.
  intros Hu HR Hs. unfold v6_seq_off. set (q := v6_seq_bytes h units). assert (0 <= q) by (unfold q, v6_seq_bytes; lia).
  assert (q * (s + 1) <= q * v6_SeqNum h) by (apply Z.mul_le_mono_nonneg_l; lia).
  assert (0 <= q * s) by (apply Z.mul_nonneg_nonneg; lia). lia.
Qed.

Lemma v6_reads_ok h units buf s a : 0 <= units -> 0 <= v6_SecRetNum h -> 0 <= s < v6_SeqNum h ->
  16 + v6_seq_bytes h units * v6_SeqNum h <= Z.of_nat (length buf) ->
  is_ok (v6_read_seq h units buf s) = true /\
  (forall u old, 0 <= u < units -> is_ok (v6_read_unit1 h units buf s a u old) = true) /\
  (forall u old, 0 <= u < v6_SecRetNum h -> is_ok (v6_read_unit2 h units buf s a u old) = true).
Proof.
  intros Hu HR Hs Hl. destruct (v6_seq_inside h units s Hu HR Hs) as [A B].
  set (off := v6_seq_off h units s) in *. unfold v6_seq_bytes in B at 1. split; [|split].
  - unfold v6_read_seq, rd16. fold off. destruct (rd_le_in 2 buf off) as [x ->]; [lia|lia|]. cbn [mbind result_bind].
    by destruct (rd_le_in 2 buf (off + 2)) as [y ->]; [lia|lia|].
  - intros u old Hi. unfold v6_read_unit1, rd16. fold off. cbv zeta. destruct (rd8_in buf (off + 6 + 3 * u + 2)) as [x ->]; [lia|].
    cbn [mbind result_bind]. by destruct (rd_le_in 2 buf (off + 6 + 3 * u)) as [y ->]; [lia|lia|].
  - intros u old Hi. unfold v6_read_unit2, rd16. fold off. cbv zeta.
    destruct (rd8_in buf (off + 6 + 3 * units + 4 * u + 3)) as [x ->]; [lia|]. cbn [mbind result_bind].
    destruct (rd_le_in 2 buf (off + 6 + 3 * units + 4 * u + 1)) as [y ->]; [lia|lia|]. cbn [mbind result_bind].
    by destruct (rd8_in buf (off + 6 + 3 * units + 4 * u)) as [z ->]; [lia|].
Qed.

(** The walk ends. *)
Lemma v6_walk_ok h units buf n data : v6_dims n h units -> 16 + v6_seq_bytes h units * v6_SeqNum h <= Z.of_nat (length buf) ->
  is_ok (v6_walk h units buf (n * v6_points h) data) = true.
Proof.
  intros [HS Hu HR HB Hap Hi Hroom _] Hl. unfold v6_walk. apply foldM_total. intros m s Hs. apply elem_of_seqZ in Hs.
  assert (0 <= s < v6_SeqNum h) as Hs' by lia. unfold v6_seq.
  destruct (v6_reads_ok h units buf s (0, 0) Hu HR Hs' Hl) as [H0 _].
  destruct (v6_read_seq h units buf s) as [a|]; [|done]. cbn [mbind result_bind].
  destruct (v6_reads_ok h units buf s a Hu HR Hs' Hl) as (_ & H1 & H2).
  assert ((s + 1) * units <= v6_SeqNum h * units) by (apply Z.mul_le_mono_nonneg_r; lia).
  assert (0 <= s * units) by (apply Z.mul_nonneg_nonneg; lia).
  assert ((s + 1) * v6_SecRetNum h <= v6_SeqNum h * v6_SecRetNum h) by (apply Z.mul_le_mono_nonneg_r; lia).
  assert (0 <= s * v6_SecRetNum h) by (apply Z.mul_nonneg_nonneg; lia).
  destruct (fill_ok kMaxPointsNumPerFrame (n * v6_points h + s * units) (v6_read_unit1 h units buf s a) units m)
    as [m1 ->]; [done|lia|lia|by auto|]. cbn [mbind result_bind].
  by destruct (fill_ok kMaxPointsNumPerFrame (n * v6_points h + v6_LaserNum h + s * v6_SecRetNum h)
    (v6_read_unit2 h units buf s a) (v6_SecRetNum h) m1) as [m2 ->]; [lia..|by auto|].
Qed.

(** What it leaves: the points of the channels and the second returns. *)
Definition v6_areas (h : HS_LIDAR_HEADER_ET_V6) (units : Z) (buf : list Z) (index S : Z) (data data' : gmap Z PointDecodeData) : Prop :=
  (forall k, ~ (index <= k < index + S * units) ->
     ~ (index + v6_LaserNum h <= k < index + v6_LaserNum h + S * v6_SecRetNum h) -> data' !! k = data !! k) /\
  (forall s, 0 <= s < S -> exists a, v6_read_seq h units buf s = Ok a /\
     (forall u, 0 <= u < units -> let k := index + (s * units + u) in
        exists d, data' !! k = Some d /\ v6_read_unit1 h units buf s a u (data !! k) = Ok d) /\
     (forall u, 0 <= u < v6_SecRetNum h -> let k := index + v6_LaserNum h + (s * v6_SecRetNum h + u) in
        exists d, data' !! k = Some d /\ v6_read_unit2 h units buf s a u (data !! k) = Ok d)).

(** One sequence more. *)
Lemma v6_areas_snoc h units buf index s data m data' : 0 <= units -> 0 <= v6_SecRetNum h -> 0 <= s ->
  (s + 1) * units <= v6_LaserNum h -> v6_areas h units buf index s data m -> v6_seq h units buf index s m = Ok data' ->
  v6_areas h units buf index (s + 1) data data'.
Proof.
  intros Hu HR Hs Hap [Hout Hin] E. unfold v6_seq in E. inv_ok.
  apply fill_spec in E1 as [O1 I1]; [|done]. apply fill_spec in E as [O2 I2]; [|done].
  assert (0 <= s * units) by (apply Z.mul_nonneg_nonneg; lia).
  assert (0 <= s * v6_SecRetNum h) by (apply Z.mul_nonneg_nonneg; lia).
  split; [intros k H1 H2; rewrite O2, O1 by lia; apply Hout; lia|].
  intros q Hq. destruct (Z.eq_dec q s) as [->|Nq].
  - exists a. split; [done|]. split; intros u Hi; cbv zeta.
    + destruct (I1 u Hi) as (d & D1 & D2). exists d. rewrite O2, !Z.add_assoc by lia. split; [done|].
      rewrite <-Hout by lia. exact D2.
    + destruct (I2 u Hi) as (d & D1 & D2). exists d. rewrite !Z.add_assoc. split; [done|].
      rewrite <-Hout, <-O1 by lia. exact D2.
  - destruct (Hin q ltac:(lia)) as (b & Eb & J1 & J2). exists b. split; [done|].
    assert ((q + 1) * units <= s * units) by (apply Z.mul_le_mono_nonneg_r; lia).
    assert (0 <= q * units) by (apply Z.mul_nonneg_nonneg; lia).
    assert ((q + 1) * v6_SecRetNum h <= s * v6_SecRetNum h) by (apply Z.mul_le_mono_nonneg_r; lia).
    assert (0 <= q * v6_SecRetNum h) by (apply Z.mul_nonneg_nonneg; lia).
    split; intros u Hi; cbv zeta.
    + destruct (J1 u Hi) as (d & D1 & D2). exists d. rewrite O2, O1 by lia. done.
    + destruct (J2 u Hi) as (d & D1 & D2). exists d. rewrite O2, O1 by lia. done.
Qed.

Lemma v6_walk_spec h units buf index data data' : 0 <= units -> 0 <= v6_SecRetNum h -> 0 < v6_SeqNum h ->
  v6_SeqNum h * units <= v6_LaserNum h -> v6_walk h units buf index data = Ok data' ->
  v6_areas h units buf index (v6_SeqNum h) data data'.
Proof.
  intros Hu HR HS Hap. unfold v6_walk. rewrite <-(Z2Nat.id (v6_SeqNum h)) in * by lia.
  revert Hap data'. generalize (Z.to_nat (v6_SeqNum h)) as n. clear HS. induction n as [|n IH]; intros Hap data'.
  - intros [= <-]. split; [done|lia].
  - rewrite seqZ_snoc, foldM_snoc. intros E. inv_ok. rewrite Nat2Z.inj_succ, <-Z.add_1_r in *.
    eapply v6_areas_snoc; [done|done|lia|lia| |exact E]. apply IH; [|done].
    assert (Z.of_nat n * units <= (Z.of_nat n + 1) * units) by (apply Z.mul_le_mono_nonneg_r; lia). lia.
Qed.

Section V6Decode.
Context {P : Type}.
Variable timezone : TimeZone.

Definition v6_stamp (t : HS_LIDAR_TAIL_ET_V6) (f : LidarDecodedFrame P) (pkt : UdpPacket) : Z :=
  if use_timestamp_type f =? 0 then GetMicroLidarTimeU64_1900 timezone (v6_UTC t) (v6_Timestamp t) else recv_timestamp pkt.

(** What is known of a packet that was accepted. *)
Lemma v6_decode_accepts host now u (f : LidarDecodedFrame P) pkt r u' f' :
  et_get_correction_file_ (et u) = true -> rd8 (buffer pkt) 0 = Ok 0xEE -> rd8 (buffer pkt) 1 = Ok 0xFF ->
  DecodePacket timezone host now u f pkt = Ok (r, u', f') ->
  r = 0 /\ exists h units t l,
    header_ET_V6 (buffer pkt) = Ok h /\ v6_units h = Ok units /\ tail_ET_V6 (buffer pkt) (v6_tail_off h units) = Ok t /\
    v6_walk h units (buffer pkt) (i32 (u32 (packet_num f * (v6_LaserNum h + v6_SecRetNum h * v6_SeqNum h) * v6_BlockNum h)))
      (pointData f) = Ok (pointData f') /\
    u' = mk_udp2_6 (mk_et_state (set_loss l (base u)) true (et_use_angle_ (et u)) (v6_FrameID t)) (corrections_ u) /\
    scan_complete f' = et_use_angle_ (et u) && et_IsNeedFrameSplit (v6_FrameID t) (et u) /\
    per_points_num f' = v6_points h /\ packet_num f' = u32 (packet_num f + 1) /\ same_frame f f' /\ host_timestamp f' = host /\
    0 <= packet_num f < kMaxPacketNumPerFrame /\
    sensor_timestamp f' = <[packet_num f := v6_stamp t f pkt]> (sensor_timestamp f).
Proof.
  intros Hc H0 H1. unfold DecodePacket. rewrite Hc, H0, H1. cbn [negb mbind result_bind].
  rewrite !Z.eqb_refl. cbn [negb orb]. intros H. inv_ok.
  assert (exists l, a2 = set_loss l (base u)) as [l ->].
  { unfold count_packet in E2. inv_ok. destruct (v6_HasSeqNum a); inv_ok; eexists; reflexivity. }
  unfold put_timestamp, array_put in E3.
  destruct (Z.leb_spec 0 (packet_num f)), (Z.ltb_spec (packet_num f) kMaxPacketNumPerFrame); cbn [andb] in E3; inv_ok.
  split; [done|]. exists a, a0, a1, l.
  split; [done|]. split; [done|]. split; [exact E1|]. split; [exact E4|]. split; [reflexivity|]. cbn. done.
Qed.

Lemma v6_decode_refuses host now u (f : LidarDecodedFrame P) pkt r u' f' :
  DecodePacket timezone host now u f pkt = Ok (r, u', f') ->
  (et_get_correction_file_ (et u) = true /\ rd8 (buffer pkt) 0 = Ok 0xEE /\ rd8 (buffer pkt) 1 = Ok 0xFF) \/
  (r = -1 /\ u' = u /\ f' = f).
Proof.
  unfold DecodePacket. destruct (et_get_correction_file_ (et u)); cbn [negb]; [|intros [= <- <- <-]; by right].
  intros H. inv_ok. destruct (Z.eqb_spec a 0xEE) as [->|], (Z.eqb_spec a0 0xFF) as [->|]; cbn [negb orb] in H;
    inv_ok; [by left|by right..].
Qed.

(** A packet that fits is decoded. *)
Lemma v6_decode_ok host now u (f : LidarDecodedFrame P) pkt h units :
  et_get_correction_file_ (et u) = true -> v6_fits (buffer pkt) h units -> 0 <= packet_num f < kMaxPacketNumPerFrame ->
  exists u' f', DecodePacket timezone host now u f pkt = Ok (0, u', f') /\ et_get_correction_file_ (et u') = true.
Proof.
  intros Hc Hfit Hn. pose proof (v6_fits_dims _ _ _ _ Hfit Hn) as Hdims. pose proof (d_exact _ _ _ Hdims) as Hidx.
  destruct (v6_size_fits _ _ _ Hfit) as (Ht0 & Ht1 & Hbody). destruct Hfit as (Hlen & Hbl & H0 & H1 & Hh & Hun & _).
  destruct (tail_V6_ok (buffer pkt) (v6_tail_off h units)) as [t Et]; [done|lia|].
  unfold DecodePacket. rewrite Hc, H0, H1. cbn [negb mbind result_bind]. rewrite !Z.eqb_refl. cbn [negb orb].
  rewrite Hh. cbn [mbind result_bind]. rewrite Hun. cbn [mbind result_bind].
  change (v6_GetPacketSize h units - 36 - sizeof_TAIL_ET_V6) with (v6_tail_off h units). rewrite Et. cbn [mbind result_bind].
  assert (exists p, count_packet timezone now h t (v6_GetPacketSize h units) (buffer pkt) (base u) = Ok p) as [p ->].
  { unfold count_packet. destruct (v6_HasSeqNum h); [|cbn; eauto]. unfold rd32.
    destruct (rd_le_in 4 (buffer pkt) (v6_GetPacketSize h units - 36)) as [x ->];
      [unfold v6_tail_off, sizeof_TAIL_ET_V6 in *; lia|unfold v6_tail_off, sizeof_TAIL_ET_V6 in *; lia|]. cbn. eauto. }
  cbn [mbind result_bind]. unfold put_timestamp. rewrite array_put_ok by done.
  cbn [mbind result_bind packet_num set_packet_info set_per_points pointData]. rewrite Hidx.
  pose proof (v6_walk_ok h units (buffer pkt) (packet_num f) (pointData f) Hdims ltac:(lia)) as Hw.
  match goal with |- context [v6_walk ?a ?b ?c ?d ?e] => destruct (v6_walk a b c d e); [|done] end.
  cbn [mbind result_bind]. eauto.
Qed.

Context {PT : PointType P} (sinT cosT : Z -> f32) (s64 c64 t64 : f64 -> f64) (t32 : f32 -> f32).

#[local] Abbreviation alike_6 := (@zero_alike P _ (udp2_6_decoder timezone sinT cosT s64 c64 t64 t32)).

#[export] Instance udp2_6_laws : @DecoderLaws P Udp2_6Parser (udp2_6_decoder timezone sinT cosT s64 c64 t64 t32).
Proof.
  unshelve econstructor; cbn [general with_general v_DecodePacket v_ComputeXYZI udp2_6_decoder].
  - exact alike_6.
  - exact (fun u => et_get_correction_file_ (et u) = true).
  - exact (fun pkt => exists h units, v6_fits (buffer pkt) h units).
  - done.
  - apply zero_alike_equivalence.
  - intros g. by apply (@zero_alike_reset P _ (udp2_6_decoder timezone sinT cosT s64 c64 t64 t32)).
  - intros u v Huv. pose proof (f_equal (fun w => et_get_correction_file_ (et w)) Huv) as A. cbn in A |- *. by rewrite A.
  - intros host now u f pkt Hc (h & units & Hfit) Hn. by eapply v6_decode_ok.
  - intros host now u f pkt u' f' E. destruct (v6_decode_refuses _ _ _ _ _ _ _ _ E) as [(Hc & H0 & H1)|(? & _)]; [|done].
    destruct (v6_decode_accepts _ _ _ _ _ _ _ _ Hc H0 H1 E)
      as (_ & h & un & t & l & _ & _ & _ & _ & -> & _ & _ & Hcount & Hsame & Hhost & _ & Hst).
    split; [done|]. split; [done|]. split; [done|]. split; [|done]. rewrite Hst. eexists. apply lookup_insert_eq.
  - intros host now u f pkt r u' f' E Hr.
    destruct (v6_decode_refuses _ _ _ _ _ _ _ _ E) as [(Hc & H0 & H1)|(_ & -> & ->)]; [|done].
    by destruct (v6_decode_accepts _ _ _ _ _ _ _ _ Hc H0 H1 E) as (-> & _).
  - intros host now host' now' u f pkt u1 f1 v1 f2 r u2 f3 E1 Hal E2.
    destruct (v6_decode_refuses _ _ _ _ _ _ _ _ E1) as [(Hc & H0 & H1)|(? & _)]; [|done].
    destruct (v6_decode_accepts _ _ _ _ _ _ _ _ Hc H0 H1 E1) as (_ & h & un & t & l & Hh & Hu & Ht & _ & -> & _).
    pose proof (f_equal (fun w => et_get_correction_file_ (et w)) Hal) as A.
    pose proof (f_equal (fun w => et_last_frameid_ (et w)) Hal) as B. cbn in A, B.
    destruct (v6_decode_accepts _ _ _ _ _ _ _ _ (eq_sym A) H0 H1 E2)
      as (-> & h' & un' & t' & l' & Hh' & Hu' & Ht' & _ & _ & Hsplit & _).
    split; [done|]. rewrite Hh in Hh'. apply (inj Ok) in Hh' as <-. rewrite Hu in Hu'. apply (inj Ok) in Hu' as <-.
    rewrite Ht in Ht'. apply (inj Ok) in Ht' as <-. rewrite Hsplit. unfold et_IsNeedFrameSplit. rewrite <-B, Z.eqb_refl.
    apply andb_false_r.
  - intros u f i r u' f' E. unfold ComputeXYZI in E. inv_ok. split; [done|]. split; [|done].
    by apply (@zero_alike_count P _ (udp2_6_decoder timezone sinT cosT s64 c64 t64 t32)).
Defined.

End V6Decode.

(** ** Properties *)

(** A packet that fits is decoded: the units of a sequence become points with their
    number as the channel, the second returns follow the points of all channels and
    name their channel themselves.  The points of the second and later blocks are
    announced but not written: [per_points_num] counts them, and everything outside
    the two areas of the first block keeps what it held. *)
Theorem v6_packet_points {P} (timezone : TimeZone) (host : Z) now u (f : LidarDecodedFrame P) pkt h units :
  et_get_correction_file_ (et u) = true -> v6_fits (buffer pkt) h units -> 0 <= packet_num f < kMaxPacketNumPerFrame ->
  exists u' f', DecodePacket timezone host now u f pkt = Ok (0, u', f') /\ packet_num f' = packet_num f + 1 /\
    per_points_num f' = (v6_LaserNum h + v6_SecRetNum h * v6_SeqNum h) * v6_BlockNum h /\
    (let index := packet_num f * per_points_num f' in
     let second := index + v6_LaserNum h in
     (forall k, ~ (index <= k < index + v6_SeqNum h * units) -> ~ (second <= k < second + v6_SeqNum h * v6_SecRetNum h) ->
        pointData f' !! k = pointData f !! k) /\
     (forall s, 0 <= s < v6_SeqNum h -> let off := v6_seq_off h units s in
        exists hor ver, v6_read_seq h units (buffer pkt) s = Ok (hor, ver) /\
        (forall i, 0 <= i < units -> exists d, pointData f' !! (index + (s * units + i)) = Some d /\
           rd16 (buffer pkt) (off + 6 + 3 * i) = Ok (pd_distances d) /\ pd_chn_index d = Some (u8 i) /\
           pd_azimuth d = over512 hor /\ pd_elevation d = over512 ver) /\
        (forall i, 0 <= i < v6_SecRetNum h -> exists d chn, pointData f' !! (second + (s * v6_SecRetNum h + i)) = Some d /\
           rd16 (buffer pkt) (off + 6 + 3 * units + 4 * i + 1) = Ok (pd_distances d) /\
           rd8 (buffer pkt) (off + 6 + 3 * units + 4 * i) = Ok chn /\ pd_chn_index d = Some chn /\
           pd_azimuth d = over512 hor /\ pd_elevation d = over512 ver))).
Proof.
  intros Hc Hfit Hn. pose proof (v6_fits_dims _ _ _ _ Hfit Hn) as [HS Hu HR HB Hap Hi Hroom Hidx].
  destruct (v6_decode_ok timezone host now u f pkt h units Hc Hfit Hn) as (u' & f' & E & _).
  destruct Hfit as (_ & _ & H0 & H1 & Hh & Hun & _).
  destruct (v6_decode_accepts _ _ _ _ _ _ _ _ _ Hc H0 H1 E)
    as (_ & h' & un & t & l & Hh' & Hu' & _ & Hw & _ & _ & Hper & Hcount & _).
  rewrite Hh in Hh'. apply (inj Ok) in Hh' as <-. rewrite Hun in Hu'. apply (inj Ok) in Hu' as <-. rewrite Hidx in Hw.
  destruct (v6_walk_spec _ _ _ _ _ _ Hu HR HS Hap Hw) as [Hout Hin]. exists u', f'. split; [exact E|].
  split; [rewrite Hcount; unfold u32, kMaxPacketNumPerFrame in *; rewrite Z.mod_small; lia|]. split; [exact Hper|].
  rewrite Hper. split; [exact Hout|]. intros s Hs. destruct (Hin s Hs) as ([hor ver] & Ea & J1 & J2). exists hor, ver.
  split; [exact Ea|]. split; intros i Hi'.
  - destruct (J1 i Hi') as (d & D1 & D2). unfold v6_read_unit1 in D2. inv_ok. by eexists.
  - destruct (J2 i Hi') as (d & D1 & D2). unfold v6_read_unit2 in D2. inv_ok. by eexists _, _.
Qed.

(** A packet with more points than those of its first block, which it has when it
    has a second block or sequences that do not divide the channels, cannot be
    computed as the first of a frame: it has points that no one has written. *)
Theorem v6_missing_points {P} {PT : PointType P} (timezone : TimeZone) (host : Z) now u (f : LidarDecodedFrame P) pkt h units
    sinT cosT s64 c64 t64 t32 :
  et_get_correction_file_ (et u) = true -> v6_fits (buffer pkt) h units -> packet_num f = 0 -> pointData f = ∅ ->
  v6_SeqNum h * (units + v6_SecRetNum h) < v6_points h ->
  exists u' f', DecodePacket timezone host now u f pkt = Ok (0, u', f') /\
    is_ok (ComputeXYZI sinT cosT s64 c64 t64 t32 u' f' 0) = false.
Proof.
  intros Hc Hfit Hn Hf Hbig. pose proof (v6_fits_dims _ _ _ 0 Hfit ltac:(done)) as [HS Hu HR HB Hap _ _ Hidx].
  destruct (v6_decode_ok timezone host now u f pkt h units Hc Hfit) as (u' & f' & E & _); [by rewrite Hn|].
  exists u', f'. split; [exact E|]. destruct Hfit as (_ & _ & H0 & H1 & Hh & Hun & Hmax & _).
  destruct (v6_decode_accepts _ _ _ _ _ _ _ _ _ Hc H0 H1 E)
    as (_ & h' & un & t & l & Hh' & Hu' & _ & Hw & _ & _ & Hper & _).
  rewrite Hh in Hh'. apply (inj Ok) in Hh' as <-. rewrite Hun in Hu'. apply (inj Ok) in Hu' as <-.
  rewrite Hn, Hidx, Z.mul_0_l in Hw. destruct (v6_walk_spec _ _ _ _ _ _ Hu HR HS Hap Hw) as [Hout _].
  assert (exists k, 0 <= k < v6_points h /\ pointData f' !! k = None) as (k & Hk & Enone).
  { destruct (Z.lt_ge_cases (v6_SeqNum h * units) (v6_LaserNum h)).
    - exists (v6_SeqNum h * units). assert (0 <= v6_SeqNum h * units) by (apply Z.mul_nonneg_nonneg; lia).
      assert (0 <= v6_SecRetNum h * v6_SeqNum h) by (apply Z.mul_nonneg_nonneg; lia).
      assert (v6_points h = (v6_LaserNum h + v6_SecRetNum h * v6_SeqNum h) * v6_BlockNum h) as Hp by done.
      assert ((v6_LaserNum h + v6_SecRetNum h * v6_SeqNum h) * 1 <= v6_points h) by (rewrite Hp; apply Z.mul_le_mono_nonneg_l; lia).
      split; [lia|]. rewrite Hout by lia. by rewrite Hf.
    - exists (v6_SeqNum h * (units + v6_SecRetNum h)). rewrite Z.mul_add_distr_l in *.
      assert (0 <= v6_SeqNum h * units) by (apply Z.mul_nonneg_nonneg; lia).
      assert (0 <= v6_SeqNum h * v6_SecRetNum h) by (apply Z.mul_nonneg_nonneg; lia).
      split; [lia|]. rewrite Hout by lia. by rewrite Hf. }
  destruct (ComputeXYZI sinT cosT s64 c64 t64 t32 u' f' 0) as [[[r u2] f2]|] eqn:Ec; [|done]. exfalso.
  unfold ComputeXYZI in Ec. inv_ok. unfold kMaxPointsNumPerPacket in Hmax.
  destruct (foldM_elem _ _ _ _ k E3) as [pts Hp]; [apply elem_of_seqZ; rewrite Hper; unfold u16; rewrite Z.mod_small; lia|].
  rewrite Z.mul_0_l, Z.add_0_l in Hp. replace (i32 (u32 k)) with k in Hp.
  - unfold compute_point, array_at in Hp. rewrite Enone in Hp. by destruct (_ && _).
  - unfold i32, u32. rewrite (Z.mod_small k), Z.mod_small by lia. lia.
Qed.

(** ** Witnesses: packets of one sequence with two channels and a second return. *)
Definition demo_v6 : Udp2_6Parser := mk_udp2_6 (demo_et 3) ETCorrections_new.
Definition demo_v6_bytes (blocks : Z) : list Z :=
  demo_bytes [0xEE; 0xFF; 2; 6; 0; 0; 2; 0; blocks; 0; 4; 1; 1; 0; 9; 9; 0; 2; 0; 1; 0; 0; 20; 1; 7; 21; 1; 9; 1; 22; 2; 8].
Definition demo_v6_packet (blocks : Z) : UdpPacket := mk_packet (demo_v6_bytes blocks) 70 false 0 0 2368.
Definition demo_v6_header (blocks : Z) : HS_LIDAR_HEADER_ET_V6 := mk_head_V6 2 blocks 4 1 1 0.

Lemma demo_v6_fits : v6_fits (demo_v6_bytes 1) (demo_v6_header 1) 2 /\ v6_fits (demo_v6_bytes 2) (demo_v6_header 2) 2.
Proof.
  split; (split; [reflexivity|]; split; [by apply byte_list_check|]; repeat split; try reflexivity; vm_compute; congruence).
Qed.

Lemma v6_packet_points_witness :
  exists u' f', DecodePacket 0 7 (fun _ => 0) demo_v6 demo_frame (demo_v6_packet 1) = Ok (0, u', f') /\
    per_points_num f' = 3 /\
    exists d, pointData f' !! 2 = Some d /\ pd_chn_index d = Some 1 /\ pd_distances d = 534 /\ pd_azimuth d = of_Z32 1.
Proof.
  destruct (v6_packet_points 0 7 (fun _ => 0) demo_v6 demo_frame (demo_v6_packet 1) (demo_v6_header 1) 2)
    as (u' & f' & E & _ & Hper & _ & Hin); [done|exact (proj1 demo_v6_fits)|vm_compute; split; congruence|].
  exists u', f'. split; [exact E|]. split; [exact Hper|].
  destruct (Hin 0) as (hor & ver & Ea & _ & J2); [vm_compute; split; congruence|].
  destruct (J2 0) as (d & chn & Hd & Hdist & Hchn & Hc & Haz & _); [vm_compute; split; congruence|].
  exists d. rewrite Hper in Hd. split; [exact Hd|]. vm_compute in Hchn. apply (inj Ok) in Hchn as <-. split; [exact Hc|].
  vm_compute in Ea. apply (inj Ok) in Ea as [= <- <-]. split; [apply (inj Ok); by rewrite <-Hdist|]. rewrite Haz. vm_compute. done.
Defined.

Lemma v6_missing_points_witness :
  exists u' f', DecodePacket 0 7 (fun _ => 0) demo_v6 demo_frame (demo_v6_packet 2) = Ok (0, u', f') /\
    is_ok (ComputeXYZI (fun _ => f_zero) (fun _ => f_zero) (fun x => x) (fun x => x) (fun x => x) (fun x => x) u' f' 0) = false.
Proof.
  apply (v6_missing_points 0 7 (fun _ => 0) demo_v6 demo_frame (demo_v6_packet 2) (demo_v6_header 2) 2);
    [done|exact (proj2 demo_v6_fits)|done|done|vm_compute; done].
Defined.
