(* ===== verification/UdpParser.v ===== *)
(** * UdpParser: choosing a parser and pacing the playback

    UdpParser/udp_parser.cc.  The object creates one of twelve parsers from the
    protocol version, the first packet or the lidar's name, hands every packet to
    it, and slows the playback of a pcap file down to the pace of the recording.
    The parser objects are values of a type [G] with the interface of Decoder.v;
    [new_parser] stands for their constructors. *)

From S2P Require Import Prelude Bytes Floats LidarTypes GeneralParser Decoder Calendar.
From S2P Require Udp1_4.
Local Open Scope Z_scope.

Inductive parser_kind : Set :=
| Udp1_4 | Udp2_4 | Udp2_5 | Udp2_6 | Udp3_1 | Udp3_2 | Udp4_3 | Udp4_7 | Udp6_1 | Udp7_2 | UdpP40 | UdpP64.

#[export] Instance parser_kind_eq_dec : EqDecision parser_kind.
Proof. solve_decision. Defined.

Definition PKT_SIZE_40P : Z := 1262.
Definition PKT_SIZE_AC : Z := 1256.
Definition PKT_SIZE_64 : Z := 1194.
Definition PKT_SIZE_20 : Z := 1270.

(** ** The choice of a parser, with the type it reports *)

Definition kind_of_version (major minor : Z) : option (parser_kind * string) :=
  match major, minor with
  | 1, 4 => Some (Udp1_4, "Pandar128"%string)
  | 2, 4 => Some (Udp2_4, "ET25-E1X"%string)
  | 2, 5 => Some (Udp2_5, "ET25-E2X"%string)
  | 2, 6 => Some (Udp2_6, "ET25"%string)
  | 3, 1 => Some (Udp3_1, "PandarQT"%string)
  | 3, 2 => Some (Udp3_2, "PandarQT128"%string)
  | 4, 1 | 4, 3 => Some (Udp4_3, "AT128"%string)
  | 4, 7 => Some (Udp4_7, "ATX"%string)
  | 6, 1 => Some (Udp6_1, "PandarXT"%string)
  | 7, 2 => Some (Udp7_2, "PandarFT120"%string)
  | _, _ => None
  end.

Definition size_is (sizes : list Z) (len : Z) : bool := existsb (fun s => (s =? len) || (s + 4 =? len)) sizes.

Definition kind_of_packet (pkt : UdpPacket) : result (option (parser_kind * string)) :=
  if size_is [PKT_SIZE_40P; PKT_SIZE_AC] (packet_len pkt) then Ok (Some (UdpP40, "Pandar40"%string))
  else if size_is [PKT_SIZE_64; PKT_SIZE_20] (packet_len pkt) then Ok (Some (UdpP64, "Pandar64"%string))
  else
    b0 ← rd8 (buffer pkt) 0;
    b1 ← rd8 (buffer pkt) 1;
    if negb (b0 =? 0xEE) || negb (b1 =? 0xFF) then Ok None
    else
      UdpMajorVersion ← rd8 (buffer pkt) 2;
      UdpMinorVersion ← rd8 (buffer pkt) 3;
      Ok (kind_of_version UdpMajorVersion UdpMinorVersion).

Definition kind_of_name (lidar_type : string) : option parser_kind :=
  let is_one l := existsb (fun s => bool_decide (lidar_type = s)) l in
  if is_one ["AT128"; "AT128E2X"; "AT128E3X"]%string then Some Udp4_3
  else if is_one ["Pandar128E3X"; "Pandar128"]%string then Some Udp1_4
  else if is_one ["Pandar40S"; "Pandar40E3X"]%string then Some Udp1_4
  else if is_one ["Pandar60S"; "Pandar64E3X"]%string then Some Udp1_4
  else if is_one ["Pandar90"; "Pandar90E3X"]%string then Some Udp1_4
  else if is_one ["PandarXT"]%string then Some Udp6_1
  else if is_one ["PandarXT16"; "PandarXT-16"]%string then Some Udp6_1
  else if is_one ["PandarXT32"; "PandarXT-32"]%string then Some Udp6_1
  else if is_one ["PandarXTM"; "XT32M2X"]%string then Some Udp6_1
  else if is_one ["PandarQT"]%string then Some Udp3_1
  else if is_one ["PandarQT128"; "QT128C2X"]%string then Some Udp3_2
  else if is_one ["Pandar64"]%string then Some UdpP64
  else if is_one ["Pandar40"; "Pandar40P"]%string then Some UdpP40
  else if is_one ["PandarFT120"; "FT120C1X"]%string then Some Udp7_2
  else if is_one ["ET25-E1X"]%string then Some Udp2_4
  else if is_one ["ET25-E2X"]%string then Some Udp2_5
  else if is_one ["ET25"; "ET"]%string then Some Udp2_6
  else if is_one ["ATX"]%string then Some Udp4_7
  else None.

(** ** The object *)

Record UdpParser (G : Type) : Type := mk_udp_parser {
  parser_ : option G;
  pcap_saver_ : bool;  (* whether it has been created *)
  lidar_type_decoded_ : string;
  fisrt_packet_ : bool;
  last_host_timestamp_ : Z;
  last_sensor_timestamp_ : Z;
  packet_count_ : Z;
  pcap_time_synchronization_ : bool;
  source_type_ : Z;
}.
Arguments mk_udp_parser {G}.
Arguments parser_ {G}.
Arguments pcap_saver_ {G}.
Arguments lidar_type_decoded_ {G}.
Arguments fisrt_packet_ {G}.
Arguments last_host_timestamp_ {G}.
Arguments last_sensor_timestamp_ {G}.
Arguments packet_count_ {G}.
Arguments pcap_time_synchronization_ {G}.
Arguments source_type_ {G}.

Section UdpParserOps.
Context {P G : Type} {D : Decoder P G}.
Variable new_parser : parser_kind -> G.

Definition new_UdpParser : UdpParser G :=
  mk_udp_parser None false EmptyString true 0 0 0 true (-1).

(** [SetGeneralParser] takes the pointer as it is. *)
Definition set_parser (p : option G) (u : UdpParser G) : UdpParser G :=
  mk_udp_parser p (pcap_saver_ u) (lidar_type_decoded_ u) (fisrt_packet_ u) (last_host_timestamp_ u)
    (last_sensor_timestamp_ u) (packet_count_ u) (pcap_time_synchronization_ u) (source_type_ u).
Definition SetGeneralParser := set_parser.
Definition GetPcapSaver (u : UdpParser G) : UdpParser G :=
  mk_udp_parser (parser_ u) true (lidar_type_decoded_ u) (fisrt_packet_ u) (last_host_timestamp_ u)
    (last_sensor_timestamp_ u) (packet_count_ u) (pcap_time_synchronization_ u) (source_type_ u).
Definition set_pacing (first : bool) (host sensor count : Z) (u : UdpParser G) : UdpParser G :=
  mk_udp_parser (parser_ u) (pcap_saver_ u) (lidar_type_decoded_ u) first host sensor count
    (pcap_time_synchronization_ u) (source_type_ u).
Definition SetPcapPlay (sync : bool) (source_type : Z) (u : UdpParser G) : UdpParser G :=
  mk_udp_parser (parser_ u) (pcap_saver_ u) (lidar_type_decoded_ u) (fisrt_packet_ u) (last_host_timestamp_ u)
    (last_sensor_timestamp_ u) (packet_count_ u) sync source_type.

(** An existing parser is kept; the type is set when one is made. *)
Definition create (k : option (parser_kind * string)) (u : UdpParser G) : UdpParser G :=
  match parser_ u, k with
  | None, Some (k, ty) =>
      mk_udp_parser (Some (new_parser k)) (pcap_saver_ u) ty (fisrt_packet_ u) (last_host_timestamp_ u)
        (last_sensor_timestamp_ u) (packet_count_ u) (pcap_time_synchronization_ u) (source_type_ u)
  | _, _ => u
  end.

Definition CreatGeneralParser_version (major minor : Z) (u : UdpParser G) : UdpParser G :=
  create (kind_of_version major minor) u.

Definition CreatGeneralParser_packet (pkt : UdpPacket) (u : UdpParser G) : result (UdpParser G) :=
  match parser_ u with
  | Some _ => Ok u
  | None => k ← kind_of_packet pkt; Ok (create k u)
  end.

(** The type that is reported stays as it was. *)
Definition CreatGeneralParser_name (lidar_type : string) (u : UdpParser G) : UdpParser G :=
  match parser_ u, kind_of_name lidar_type with
  | None, Some k => set_parser (Some (new_parser k)) u
  | _, _ => u
  end.

Definition UdpParser_version (major minor : Z) : UdpParser G := CreatGeneralParser_version major minor new_UdpParser.
Definition UdpParser_packet (pkt : UdpPacket) : result (UdpParser G) := CreatGeneralParser_packet pkt new_UdpParser.
Definition UdpParser_name (lidar_type : string) : UdpParser G := CreatGeneralParser_name lidar_type new_UdpParser.

(** *** Calls handed to the parser *)

Definition LoadCorrectionFile (fs : string -> option string) (path : string) (u : UdpParser G) : result (UdpParser G) :=
  match parser_ u with
  | Some g => g ← v_LoadCorrectionFile fs path g; Ok (set_parser (Some g) u)
  | None => Ok u
  end.

Definition LoadCorrectionString (s : string) (u : UdpParser G) : result (Z * UdpParser G) :=
  match parser_ u with
  | Some g => '(r, g) ← v_LoadCorrectionString s g; Ok (r, set_parser (Some g) u)
  | None => Ok (-1, u)
  end.

Definition LoadFiretimesFile (fs : string -> option string) (path : string) (u : UdpParser G) : result (UdpParser G) :=
  match parser_ u with
  | Some g => g ← v_LoadFiretimesFile fs path g; Ok (set_parser (Some g) u)
  | None => Ok u
  end.

(** A call of a non-virtual member. *)
Definition on_general (k : GeneralParser -> GeneralParser) (u : UdpParser G) : UdpParser G :=
  match parser_ u with
  | Some g => set_parser (Some (with_general (k (general g)) g)) u
  | None => u
  end.

Definition EnableUpdateMonitorInfo (u : UdpParser G) : UdpParser G := on_general GeneralParser.EnableUpdateMonitorInfo u.
Definition DisableUpdateMonitorInfo (u : UdpParser G) : UdpParser G := on_general GeneralParser.DisableUpdateMonitorInfo u.
Definition SetFrameAzimuth (a : f32) (u : UdpParser G) : UdpParser G := on_general (GeneralParser.SetFrameAzimuth a) u.
Definition SetTransformPara (x y z roll pitch yaw : f32) (u : UdpParser G) : Z * UdpParser G :=
  (match parser_ u with Some _ => 0 | None => -1 end,
   on_general (GeneralParser.SetTransformPara x y z roll pitch yaw) u).
Definition getComputePacketNum (u : UdpParser G) : Z :=
  match parser_ u with Some g => compute_packet_num (general g) | None => 0 end.
Definition setComputePacketNumToZero (u : UdpParser G) : UdpParser G :=
  on_general GeneralParser.setComputePacketNumToZero u.
Definition GetGeneralParser (u : UdpParser G) : Z * option G :=
  (match parser_ u with Some _ => 1 | None => -1 end, parser_ u).

(** Without a parser the function ends without a return statement. *)
Definition GetMonitorInfo1 (u : UdpParser G) : result (gmap Z Z) :=
  match parser_ u with Some g => Ok (monitor_info1_ (general g)) | None => Err NoReturn end.
Definition GetMonitorInfo2 (u : UdpParser G) : result (gmap Z Z) :=
  match parser_ u with Some g => Ok (monitor_info2_ (general g)) | None => Err NoReturn end.
Definition GetMonitorInfo3 (u : UdpParser G) : result (gmap Z Z) :=
  match parser_ u with Some g => Ok (monitor_info3_ (general g)) | None => Err NoReturn end.

Definition ComputeXYZI (f : LidarDecodedFrame P) (packet_index : Z) (u : UdpParser G)
    : result (Z * UdpParser G * LidarDecodedFrame P) :=
  match parser_ u with
  | None => Ok (-1, u, f)
  | Some g => '(r, g, f) ← v_ComputeXYZI g f packet_index; Ok (r, set_parser (Some g) u, f)
  end.

(** The playback's pace, after a packet was decoded: the wait in microseconds,
    when there is one. *)
Definition synchronize (f : LidarDecodedFrame P) (u : UdpParser G) : result (option Z * UdpParser G) :=
  sensor ← array_at kMaxPacketNumPerFrame (u32 (packet_num f - 1)) (sensor_timestamp f);
  let host := host_timestamp f in
  if fisrt_packet_ u then Ok (None, set_pacing false host sensor 1 u)
  else
    let n := u8 (packet_count_ u + 1) in
    if kPcapPlaySynchronizationCount <=? n then
      let reset_time := i32 (u64 (u64 (sensor - last_sensor_timestamp_ u) - u64 (host - last_host_timestamp_ u))) in
      Ok (if 0 <? reset_time then Some reset_time else None, set_pacing false host sensor 0 u)
    else Ok (None, set_pacing (fisrt_packet_ u) (last_host_timestamp_ u) (last_sensor_timestamp_ u) n u).

Definition DecodePacket (host : Z) (now : nat -> Z) (f : LidarDecodedFrame P) (pkt : UdpPacket) (u : UdpParser G)
    : result (Z * option Z * UdpParser G * LidarDecodedFrame P) :=
  let u := GetPcapSaver u in
  if packet_len pkt <? 6 then Ok (-1, None, u, set_scan_complete false f)
  else
    match parser_ u with
    | None => u ← CreatGeneralParser_packet pkt u; Ok (0, None, u, f)
    | Some g =>
        '(res, g, f) ← v_DecodePacket host now g f pkt;
        let u := set_parser (Some g) u in
        if (source_type_ u =? 2) && pcap_time_synchronization_ u && (res =? 0) then
          '(wait, u) ← synchronize f u;
          Ok (res, wait, u, f)
        else Ok (res, None, u, f)
    end.

End UdpParserOps.

(** ** Playback, as a run *)

Section Playback.
Context {P G : Type}.

(** The frames after successive packets, and the waits they cause. *)
Fixpoint sync_run (fs : list (LidarDecodedFrame P)) (u : UdpParser G) : result (list (option Z) * UdpParser G) :=
  match fs with
  | [] => Ok ([], u)
  | f :: fs =>
      '(w, u) ← synchronize f u;
      '(ws, u) ← sync_run fs u;
      Ok (w :: ws, u)
  end.

(** The frame shows the host time and the sensor time of its last packet. *)
Definition shows (f : LidarDecodedFrame P) (t : Z * Z) : Prop :=
  host_timestamp f = fst t /\
  array_at kMaxPacketNumPerFrame (u32 (packet_num f - 1)) (sensor_timestamp f) = Ok (snd t).

(** The packet a synchronisation refers to: the first one, then the one of the
    previous synchronisation. *)
Definition sync_reference (i : nat) : nat := if Nat.ltb i 100 then 0%nat else (i / 100 * 100 - 1)%nat.

(** What the recording is ahead of the host between two packets. *)
Definition lead (t0 t : Z * Z) : Z := (snd t - snd t0) - (fst t - fst t0).

Definition expected_wait (ts : list (Z * Z)) (i : nat) : option Z :=
  if Nat.eqb (i mod 100) 99 then
    let l := lead (default (0, 0) (ts !! sync_reference i)) (default (0, 0) (ts !! i)) in
    if 0 <? l then Some l else None
  else None.

End Playback.

(** ** Lemmas *)

Lemma wrapped_lead h0 s0 h s :
  - 2 ^ 31 <= (s - s0) - (h - h0) < 2 ^ 31 -> i32 (u64 (u64 (s - s0) - u64 (h - h0))) = (s - s0) - (h - h0).
Proof.
  intros H. unfold i32, u64.
  rewrite <-Zminus_mod. set (x := (s - s0) - (h - h0)) in *.
  replace ((x mod 2 ^ 64 + 2 ^ 31) mod 2 ^ 32) with ((x + 2 ^ 31) mod 2 ^ 32).
  { rewrite Z.mod_small by lia. lia. }
  rewrite <-(Zplus_mod_idemp_l (x mod 2 ^ 64)), <-(Zplus_mod_idemp_l x). do 2 f_equal.
  rewrite <-Znumtheory.Zmod_div_mod; [done|done|done|]. by exists (2 ^ 32).
Qed.

Section PlaybackLemmas.
Context {P G : Type}.

(** The state after the first [i] of the packets with times [ts]. *)
Definition paced (ts : list (Z * Z)) (i : nat) (u : UdpParser G) : Prop :=
  match i with
  | O => fisrt_packet_ u = true
  | S _ => fisrt_packet_ u = false /\ packet_count_ u = Z.of_nat (i mod 100) /\
      ts !! sync_reference i = Some (last_host_timestamp_ u, last_sensor_timestamp_ u)
  end.

Lemma sync_reference_next i :
  sync_reference (S i) =
    (if Nat.eqb (i mod 100) 99 then i else sync_reference i).
Proof.
  unfold sync_reference.
  pose proof (Nat.div_mod_eq i 100). pose proof (Nat.mod_upper_bound i 100 ltac:(done)).
  pose proof (Nat.div_mod_eq (S i) 100). pose proof (Nat.mod_upper_bound (S i) 100 ltac:(done)).
  destruct (Nat.eqb_spec (i mod 100) 99), (Nat.ltb_spec (S i) 100), (Nat.ltb_spec i 100); lia.
Qed.

Lemma synchronize_step ts i f t (u : UdpParser G) :
  paced ts i u -> ts !! i = Some t -> @shows P f t ->
  (forall r, ts !! sync_reference i = Some r -> - 2 ^ 31 <= lead r t < 2 ^ 31) ->
  exists u', synchronize f u = Ok (expected_wait ts i, u') /\ paced ts (S i) u'.
Proof.
  intros Hp Ht [Hh Hs] Hl. unfold synchronize. rewrite Hs, Hh. cbn [mbind result_bind].
  destruct i as [|i].
  - unfold paced in Hp. rewrite Hp. eexists. split; [done|]. cbn. rewrite Ht. by destruct t.
  - destruct Hp as (Hf & Hc & Hr). rewrite Hf, Hc.
    pose proof (Nat.div_mod_eq (S i) 100). pose proof (Nat.mod_upper_bound (S i) 100 ltac:(done)).
    pose proof (Nat.div_mod_eq (S (S i)) 100). pose proof (Nat.mod_upper_bound (S (S i)) 100 ltac:(done)).
    assert (u8 (Z.of_nat (S i mod 100) + 1) = Z.of_nat (S i mod 100) + 1) as ->.
    { unfold u8. apply Z.mod_small. lia. }
    specialize (Hl _ Hr). unfold lead in Hl. cbn [fst snd] in Hl.
    unfold expected_wait. rewrite Hr, Ht. unfold paced. rewrite sync_reference_next.
    unfold kPcapPlaySynchronizationCount.
    destruct (Z.leb_spec 100 (Z.of_nat (S i mod 100) + 1)), (Nat.eqb_spec (S i mod 100) 99); try lia; cbv zeta.
    + cbn [default lead fst snd]. rewrite wrapped_lead by done. eexists. split; [done|].
      cbn [fisrt_packet_ packet_count_ last_host_timestamp_ last_sensor_timestamp_ set_pacing].
      split; [done|]. split; [lia|]. rewrite Ht. by destruct t.
    + eexists. split; [done|]. cbn [fisrt_packet_ packet_count_ last_host_timestamp_ last_sensor_timestamp_ set_pacing].
      split; [done|]. split; [lia|]. done.
Qed.

Lemma sync_run_ok ts fs : forall i (u : UdpParser G),
  paced ts i u -> Forall2 (@shows P) fs (drop i ts) ->
  (forall j t r, ts !! j = Some t -> ts !! sync_reference j = Some r -> - 2 ^ 31 <= lead r t < 2 ^ 31) ->
  exists u', sync_run fs u = Ok (expected_wait ts <$> seq i (length fs), u').
Proof.
  induction fs as [|f fs IH]; intros i u Hp Hf Hl; cbn [sync_run length seq fmap list_fmap]; [eauto|].
  inversion Hf as [|? t ? rest Hs Hf' E1 E2]; subst.
  assert (ts !! i = Some t) as Ht. { rewrite <-(Nat.add_0_r i), <-lookup_drop, <-E2. done. }
  assert (drop (S i) ts = rest) as Er. { rewrite <-Nat.add_1_r, <-drop_drop, <-E2. done. }
  destruct (synchronize_step ts i f t u Hp Ht Hs ltac:(eauto)) as (u1 & -> & Hp1). cbn [mbind result_bind].
  destruct (IH (S i) u1 Hp1) as (u2 & ->); [by rewrite Er|done|]. cbn [mbind result_bind]. eauto.
Qed.

End PlaybackLemmas.

Section WrapperLemmas.
Context {P G : Type} {D : Decoder P G} {L : DecoderLaws P G}.
Variable new_parser : parser_kind -> G.

Lemma synchronize_keeps f (u : UdpParser G) w u' :
  synchronize (P := P) f u = Ok (w, u') -> parser_ u' = parser_ u.
Proof.
  unfold synchronize. destruct (array_at _ _ _); cbn [mbind result_bind]; [|done].
  destruct (fisrt_packet_ u); [by intros [= <- <-]|]. destruct (_ <=? _); by intros [= <- <-].
Qed.

Lemma synchronize_total f (u : UdpParser G) t :
  0 <= packet_num f - 1 < kMaxPacketNumPerFrame -> sensor_timestamp f !! (packet_num f - 1) = Some t ->
  exists w u', synchronize (P := P) f u = Ok (w, u').
Proof.
  intros Hn Ht. unfold synchronize, u32. unfold kMaxPacketNumPerFrame in *. rewrite Z.mod_small by lia.
  rewrite (array_at_ok _ _ t) by done. cbn [mbind result_bind].
  destruct (fisrt_packet_ u); [eauto|]. destruct (_ <=? _); eauto.
Qed.

(** A packet handed to an existing parser. *)
Lemma wrapper_decodes host now f pkt (u : UdpParser G) g r w u' f' :
  parser_ u = Some g -> DecodePacket new_parser host now f pkt u = Ok (r, w, u', f') ->
  (r = -1 /\ packet_len pkt < 6 /\ parser_ u' = Some g /\ f' = set_scan_complete false f) \/
  (exists g', 6 <= packet_len pkt /\ v_DecodePacket host now g f pkt = Ok (r, g', f') /\ parser_ u' = Some g').
Proof.
  intros Hg. unfold DecodePacket. destruct (Z.ltb_spec (packet_len pkt) 6).
  { intros [= <- <- <- <-]. by left. }
  cbn [parser_ GetPcapSaver]. rewrite Hg.
  destruct (v_DecodePacket host now g f pkt) as [[[r0 g'] f0]|]; cbn [mbind result_bind]; [|done].
  destruct ((_ =? 2) && _ && _).
  - destruct (synchronize f0 _) as [[w0 u0]|] eqn:E; cbn [mbind result_bind]; [|done].
    intros [= <- <- <- <-]. right. exists g'. split; [done|]. split; [done|]. by rewrite (synchronize_keeps _ _ _ _ E).
  - intros [= <- <- <- <-]. right. by exists g'.
Qed.

(** A readable packet is accepted. *)
Lemma wrapper_total host now f pkt (u : UdpParser G) g :
  parser_ u = Some g -> ready g -> readable (G := G) pkt -> 6 <= packet_len pkt ->
  0 <= packet_num f < kMaxPacketNumPerFrame ->
  exists w u' f', DecodePacket new_parser host now f pkt u = Ok (0, w, u', f').
Proof.
  intros Hg Hr Hp Hl Hn. unfold DecodePacket. destruct (Z.ltb_spec (packet_len pkt) 6); [lia|].
  cbn [parser_ GetPcapSaver]. rewrite Hg.
  destruct (decode_total host now g f pkt Hr Hp Hn) as (g' & f' & E & _). rewrite E. cbn [mbind result_bind].
  destruct (decode_counts _ _ _ _ _ _ _ E) as (Hc & _ & _ & [t Ht] & _).
  assert (packet_num f' = packet_num f + 1) as Hc'.
  { rewrite Hc. unfold u32. apply Z.mod_small. unfold kMaxPacketNumPerFrame in Hn. lia. }
  destruct ((_ =? 2) && _ && _); [|eauto].
  destruct (synchronize_total f' (set_parser (Some g') (GetPcapSaver u)) t) as (w & u' & ->).
  - lia.
  - replace (packet_num f' - 1) with (packet_num f) by lia. exact Ht.
  - cbn [mbind result_bind]. eauto.
Qed.

(** ** Properties *)

(** A first packet of at least six bytes only chooses the parser: the sizes of
    the old Pandar40 and Pandar64 packets decide before anything else, then the
    delimiter and the version bytes; the frame is not touched, and 0 is returned
    even when no parser was found. *)
Theorem first_packet_chooses host now f pkt (u : UdpParser G) b0 b1 b2 b3 :
  parser_ u = None -> 6 <= packet_len pkt ->
  rd8 (buffer pkt) 0 = Ok b0 -> rd8 (buffer pkt) 1 = Ok b1 ->
  rd8 (buffer pkt) 2 = Ok b2 -> rd8 (buffer pkt) 3 = Ok b3 ->
  exists u', DecodePacket new_parser host now f pkt u = Ok (0, None, u', f) /\
    parser_ u' = new_parser <$>
      (if bool_decide (packet_len pkt ∈ [1262; 1266; 1256; 1260]) then Some UdpP40
       else if bool_decide (packet_len pkt ∈ [1194; 1198; 1270; 1274]) then Some UdpP64
       else if bool_decide (b0 = 0xEE /\ b1 = 0xFF) then fst <$> kind_of_version b2 b3 else None).
Proof.
  intros Hn Hl E0 E1 E2 E3. unfold DecodePacket. destruct (Z.ltb_spec (packet_len pkt) 6); [lia|].
  cbn [parser_ GetPcapSaver]. rewrite Hn. unfold CreatGeneralParser_packet, kind_of_packet.
  cbn [parser_ GetPcapSaver]. rewrite Hn.
  assert (forall a b, size_is [a; b] (packet_len pkt) = bool_decide (packet_len pkt ∈ [a; a + 4; b; b + 4])) as Hs.
  { intros a b. unfold size_is. cbn [existsb]. rewrite orb_false_r. symmetry. 
    destruct (bool_decide_reflect (packet_len pkt ∈ [a; a + 4; b; b + 4])) as [Hin|Hin].
    - rewrite !elem_of_cons in Hin. cases_bool; cbn [orb]; try done.
      destruct Hin as [?|[?|[?|[?|Hin]]]]; try lia. by apply elem_of_nil in Hin.
    - rewrite !elem_of_cons in Hin. cases_bool; cbn [orb]; try done; exfalso; apply Hin; auto. }
  rewrite !Hs. cbn [Z.add PKT_SIZE_40P PKT_SIZE_AC PKT_SIZE_64 PKT_SIZE_20].
  change (PKT_SIZE_40P + 4) with 1266. change (PKT_SIZE_AC + 4) with 1260.
  change (PKT_SIZE_64 + 4) with 1198. change (PKT_SIZE_20 + 4) with 1274.
  unfold PKT_SIZE_40P, PKT_SIZE_AC, PKT_SIZE_64, PKT_SIZE_20.
  destruct (bool_decide (packet_len pkt ∈ [1262; 1266; 1256; 1260])); [eexists; split; [done|]; unfold create; cbn [parser_ GetPcapSaver]; by rewrite Hn|].
  destruct (bool_decide (packet_len pkt ∈ [1194; 1198; 1270; 1274])); [eexists; split; [done|]; unfold create; cbn [parser_ GetPcapSaver]; by rewrite Hn|].
  rewrite E0, E1, E2, E3. cbn [mbind result_bind].
  destruct (Z.eqb_spec b0 0xEE) as [->|]; cbn [negb orb].
  2: { rewrite bool_decide_false by tauto. eexists. split; [done|]. unfold create. cbn [parser_ GetPcapSaver]. by rewrite Hn. }
  destruct (Z.eqb_spec b1 0xFF) as [->|]; cbn [negb orb].
  2: { rewrite bool_decide_false by tauto. eexists. split; [done|]. unfold create. cbn [parser_ GetPcapSaver]. by rewrite Hn. }
  rewrite bool_decide_true by done. eexists. split; [done|]. unfold create. cbn [parser_ GetPcapSaver]. rewrite Hn.
  by destruct (kind_of_version b2 b3) as [[k ty]|].
Qed.

(** The lidar type reported for a parser that a version or a packet chose is
    a name from which the same parser is created. *)
Theorem reported_type_recreates k ty :
  (exists major minor, kind_of_version major minor = Some (k, ty)) \/
  (exists pkt, kind_of_packet pkt = Ok (Some (k, ty))) ->
  parser_ (UdpParser_name new_parser ty) = Some (new_parser k).
Proof.
  assert (forall major minor, kind_of_version major minor = Some (k, ty) -> kind_of_name ty = Some k) as Hv.
  { intros major minor. unfold kind_of_version.
    repeat (match goal with |- context [match ?x with _ => _ end] => is_var x; destruct x end; try done);
      by intros [= <- <-]. }
  intros H. assert (kind_of_name ty = Some k) as E.
  { destruct H as [(major & minor & H)|(pkt & H)]; [by eapply Hv|]. unfold kind_of_packet in H.
    destruct (size_is _ _); [by injection H as <- <-|]. destruct (size_is _ _); [by injection H as <- <-|].
    inv_ok. destruct (_ || _); [done|]. inv_ok. by eapply Hv. }
  unfold UdpParser_name, CreatGeneralParser_name. cbn [parser_ new_UdpParser]. by rewrite E.
Qed.

(** With a recorded source the playback waits at every hundredth packet, and
    exactly by what the recording is ahead of the host since the previous wait
    (since the first packet, for the first one). *)
Theorem playback_pacing (fs : list (LidarDecodedFrame P)) ts (u : UdpParser G) :
  fisrt_packet_ u = true -> Forall2 shows fs ts ->
  (forall j t r, ts !! j = Some t -> ts !! sync_reference j = Some r -> - 2 ^ 31 <= lead r t < 2 ^ 31) ->
  exists u', sync_run fs u = Ok (expected_wait ts <$> seq 0 (length fs), u').
Proof. intros Hf Hs Hl. by apply (sync_run_ok ts fs 0 u). Qed.

(** A call before a parser exists changes nothing and says so; the three
    monitor functions do not return at all. *)
Theorem calls_without_parser (u : UdpParser G) fs path s f i x y z r p w :
  parser_ u = None ->
  LoadCorrectionFile fs path u = Ok u /\ LoadCorrectionString s u = Ok (-1, u) /\
  LoadFiretimesFile fs path u = Ok u /\ ComputeXYZI f i u = Ok (-1, u, f) /\
  SetTransformPara x y z r p w u = (-1, u) /\ SetFrameAzimuth x u = u /\
  EnableUpdateMonitorInfo u = u /\ getComputePacketNum u = 0 /\ setComputePacketNumToZero u = u /\
  GetMonitorInfo1 u = Err NoReturn /\ GetMonitorInfo2 u = Err NoReturn /\ GetMonitorInfo3 u = Err NoReturn.
Proof.
  intros Hn. unfold LoadCorrectionFile, LoadCorrectionString, LoadFiretimesFile, ComputeXYZI, SetTransformPara,
    SetFrameAzimuth, EnableUpdateMonitorInfo, getComputePacketNum, setComputePacketNumToZero, on_general,
    GetMonitorInfo1, GetMonitorInfo2, GetMonitorInfo3. by rewrite !Hn.
Qed.

End WrapperLemmas.

(** ** Witnesses *)

(** The Pandar128 parser of Udp1_4.v, with any tables. *)
Definition demo_decoder : Decoder LidarPointXYZI Udp1_4.Udp1_4Parser :=
  Udp1_4.udp1_4_decoder 0 (fun _ => f_zero) (fun _ => f_zero) id id id id.
Definition demo_new (k : parser_kind) : Udp1_4.Udp1_4Parser := Udp1_4.demo_parser (bool_decide (k = Udp1_4)).

Lemma first_packet_chooses_witness :
  exists u', DecodePacket (D := demo_decoder) demo_new 7 (fun _ => 0) Udp1_4.demo_frame
      (set_packet_len 70 Udp1_4.demo_packet) new_UdpParser = Ok (0, None, u', Udp1_4.demo_frame).
Proof.
  destruct (first_packet_chooses (D := demo_decoder) demo_new 7 (fun _ => 0) Udp1_4.demo_frame
    (set_packet_len 70 Udp1_4.demo_packet) new_UdpParser 0xEE 0xFF 1 4) as (u' & E & _);
    [done|done|reflexivity|reflexivity|reflexivity|reflexivity|]. by exists u'.
Defined.

Lemma reported_type_recreates_witness :
  parser_ (UdpParser_name demo_new "ET25") = Some (demo_new Udp2_6).
Proof. apply (reported_type_recreates demo_new Udp2_6 "ET25"). left. by exists 2, 6. Defined.

(** Frames 1 ms apart on the host and 2 ms apart in the recording. *)
Definition demo_shown (t : Z * Z) : LidarDecodedFrame LidarPointXYZI :=
  mk_frame (fst t) {[0 := snd t]} 0 0 0 0 0 1 ∅ ∅ 0 0 0 false f_zero 0 (-1) (-1) 0 (-1) (-1).
Definition demo_times : list (Z * Z) := (fun i => (1000 * Z.of_nat i, 2000 * Z.of_nat i)) <$> seq 0 100.

Lemma playback_pacing_witness :
  exists u', sync_run (demo_shown <$> demo_times) (new_UdpParser (G := Udp1_4.Udp1_4Parser)) =
    Ok (replicate 99 None ++ [Some 99000], u').
Proof.
  destruct (playback_pacing (demo_shown <$> demo_times) demo_times (new_UdpParser (G := Udp1_4.Udp1_4Parser)))
    as (u' & E).
  - done.
  - apply Forall2_fmap_l, Forall2_same_length_lookup. split; [done|].
    intros i x y Hx Hy. rewrite Hx in Hy. injection Hy as <-. done.
  - assert (forallb (fun '(a, b) => (- 2 ^ 31 <=? lead a b) && (lead a b <? 2 ^ 31)) (list_prod demo_times demo_times) = true)
      as Hall by (vm_compute; reflexivity).
    intros j t r Ht Hr. rewrite forallb_forall in Hall. specialize (Hall (r, t)). cbv beta iota in Hall.
    enough (In (r, t) (list_prod demo_times demo_times)) as Hin by (apply Hall in Hin; lia).
    apply in_prod; apply list_elem_of_In; by eapply list_elem_of_lookup_2.
  - exists u'. rewrite E. reflexivity.
Defined.

Lemma calls_without_parser_witness :
  GetMonitorInfo1 (D := demo_decoder) new_UdpParser = Err NoReturn.
Proof.
  by destruct (calls_without_parser (D := demo_decoder) new_UdpParser (fun _ => None) "x" "y" Udp1_4.demo_frame 0
    f_zero f_zero f_zero f_zero f_zero f_zero) as (_ & _ & _ & _ & _ & _ & _ & _ & _ & E & _).
Defined.
