(* ===== verification/SocketSource.v ===== *)
(** * SocketSource: packets from the network, and the interface of a source

    Source/include/source.h and Source/src/socket_source.cc (the POSIX
    branches).  The operating system is the class [UdpSockets]; [recvfrom]
    answers with the bytes, the sender's address word and its port number, which
    is what [htons(clientAddr.sin_port)] gives.  [SOCKET] is [unsigned int], as
    in TcpClient.v.  PcapSource.v and this file both give a [Source]. *)

From S2P Require Import Prelude Bytes LidarTypes.
From S2P Require PcapSource.
Local Open Scope Z_scope.

(** What [Receive(udpPacket, kBufSize)] does: the value returned, the packet and
    the source; and [is_pcap_end]. *)
Class Source (S : Type) : Type := {
  source_Receive : UdpPacket -> S -> result (Z * UdpPacket * S);
  source_ended : S -> bool;
}.

Class UdpSockets (W : Type) : Type := {
  sys_socket : W -> Z * W;
  sys_reuseaddr : Z -> W -> Z * W;
  sys_rcvtimeo : Z -> W -> Z * W;
  sys_bind : Z -> Z -> W -> Z * W;
  sys_errno : W -> Z;
  sys_close : Z -> W -> W;
  sys_recvfrom : Z -> Z -> W -> option (list Z * Z * Z) * W;
  sys_select : Z -> Z -> W -> Z * W;
  sys_inet_pton : string -> Z;
  sys_sendto : Z -> list Z -> string -> W -> Z * W;
}.

Definition EINPROGRESS : Z := 115.
Definition EWOULDBLOCK : Z := 11.
Definition FD_SETSIZE : Z := 1024.
Definition kInvalid : Z := u32 (-1).

Record SocketSource : Type := mk_socket_source {
  client_ip_ : string;
  udp_port_ : Z;
  udp_sock_ : Z;
  is_select_ : bool;
}.

Definition SocketSource_new (port : Z) : SocketSource := mk_socket_source "" port kInvalid false.

Definition set_sock (fd : Z) (s : SocketSource) : SocketSource :=
  mk_socket_source (client_ip_ s) (udp_port_ s) (u32 fd) (is_select_ s).
Definition set_select (b : bool) (s : SocketSource) : SocketSource :=
  mk_socket_source (client_ip_ s) (udp_port_ s) (udp_sock_ s) b.

(** The bytes a received datagram leaves in a packet. *)
Definition fill_packet (data : list Z) (ip port : Z) (p : UdpPacket) : result UdpPacket :=
  b ← arr_blit (buffer p) 0 data;
  Ok (mk_packet b (packet_len p) (is_timeout p) (recv_timestamp p) ip port).
Definition set_timeout (b : bool) (p : UdpPacket) : UdpPacket :=
  mk_packet (buffer p) (packet_len p) b (recv_timestamp p) (packet_ip p) (packet_port p).

Section Socket.
Context {W : Type} {OS : UdpSockets W}.

Definition Close (s : SocketSource) (w : W) : SocketSource * W :=
  if 0 <? udp_sock_ s
  then (mk_socket_source "" 0 kInvalid (is_select_ s), sys_close (i32 (udp_sock_ s)) w)
  else (mk_socket_source "" 0 (udp_sock_ s) (is_select_ s), w).

(** The buffer sizes, [fcntl] and the multicast membership do not change the
    result. *)
Definition Open (s : SocketSource) (w : W) : bool * SocketSource * W :=
  let '(fd, w) := sys_socket w in
  let s := set_sock fd s in
  if i32 (udp_sock_ s) =? -1 then (false, s, w)
  else
    let '(retVal, w) := sys_reuseaddr (i32 (udp_sock_ s)) w in
    if retVal =? 0 then
      let '(retVal, w) := sys_rcvtimeo (i32 (udp_sock_ s)) w in
      if retVal =? 0 then
        let '(b, w) := sys_bind (i32 (udp_sock_ s)) (udp_port_ s) w in
        if (b =? -1) && negb ((sys_errno w =? EINPROGRESS) || (sys_errno w =? EWOULDBLOCK))
        then (false, set_sock (-1) s, sys_close (i32 (udp_sock_ s)) w)
        else (true, s, w)
      else (false, s, w)
    else (false, s, w).

(** udp_port_ == 0 || udp_sock_ < 0, the latter on an unsigned value. *)
Definition IsOpened (s : SocketSource) : bool := negb ((udp_port_ s =? 0) || (udp_sock_ s <? 0)).

Definition Send (data : list Z) (s : SocketSource) (w : W) : Z * W :=
  if IsOpened s then
    if sys_inet_pton (client_ip_ s) =? 1 then sys_sendto (i32 (udp_sock_ s)) data (client_ip_ s) w
    else (-1, w)
  else (-1, w).

(** A sender that [recvfrom] did not report would be read uninitialised. *)
Definition Receive (u16Len iTimeout : Z) (p : UdpPacket) (s : SocketSource) (w : W)
    : result (Z * UdpPacket * SocketSource * W) :=
  let '(ret, s, w) := if IsOpened s then (true, s, w) else Open s w in
  if negb ret then Ok (-1, p, s, w)
  else if FD_SETSIZE <=? udp_sock_ s then Err OutOfBounds
  else if negb (is_select_ s) then
    let '(r, w) := sys_recvfrom (i32 (udp_sock_ s)) u16Len w in
    match r with
    | None => Ok (-1, p, set_select true s, w)
    | Some (data, ip, port) =>
        p ← fill_packet data ip port p; Ok (Z.of_nat (length data), p, s, w)
    end
  else
    let '(cnt, w) := sys_select (udp_sock_ s + 1) iTimeout w in
    if 0 <? cnt then
      let '(r, w) := sys_recvfrom (i32 (udp_sock_ s)) u16Len w in
      match r with
      | None => Err Uninitialised
      | Some (data, ip, port) =>
          p ← fill_packet data ip port p; Ok (Z.of_nat (length data), p, set_select false s, w)
      end
    else if cnt =? 0 then Ok (0, set_timeout true p, s, w)
    else Ok (-1, p, s, w).

#[export] Instance socket_source : Source (SocketSource * W) := {|
  source_Receive p s :=
    '(len, p, s', w) ← Receive kBufSize 1000 p (fst s) (snd s); Ok (len, p, (s', w));
  source_ended _ := false;
|}.

(** A sequence of calls with the same packet object. *)
Fixpoint receive_calls (n : nat) (p : UdpPacket) (s : SocketSource) (w : W)
    : result (list (Z * UdpPacket) * SocketSource * W) :=
  match n with
  | O => Ok ([], s, w)
  | S n =>
      '(len, q, s, w) ← Receive kBufSize 1000 p s w;
      '(l, s, w) ← receive_calls n p s w;
      Ok ((len, q) :: l, s, w)
  end.

End Socket.

#[export] Instance pcap_source : Source PcapSource.PcapSource := {|
  source_Receive p s :=
    '(len, s, b) ← PcapSource.Receive s (buffer p);
    Ok (len, mk_packet b (packet_len p) (is_timeout p) (recv_timestamp p) (packet_ip p) (packet_port p), s);
  source_ended s := PcapSource.is_pcap_end s;
|}.

(** ** Lemmas *)

(** The kernel writes at most the bytes asked for. *)
Class UdpSocketsLaws (W : Type) `{UdpSockets W} : Prop := {
  recvfrom_bounded fd n w data ip port w' :
    sys_recvfrom fd n w = (Some (data, ip, port), w') -> Z.of_nat (length data) <= Z.max 0 n;
}.

Lemma fill_packet_ok data ip port p :
  Z.of_nat (length data) <= Z.of_nat (length (buffer p)) ->
  exists b, fill_packet data ip port p =
      Ok (mk_packet b (packet_len p) (is_timeout p) (recv_timestamp p) ip port) /\
    length b = length (buffer p) /\ take (length data) b = data /\
    drop (length data) b = drop (length data) (buffer p).
Proof.
  intros Hl. unfold fill_packet. rewrite arr_blit_ok by lia. change (Z.to_nat 0) with 0%nat. cbn [mbind result_bind take app].
  change (0 + length data)%nat with (length data). rewrite take_0, app_nil_l.
  eexists. split; [done|]. split; [|split].
  - rewrite length_app, length_drop. lia.
  - by rewrite take_app_length.
  - by rewrite drop_app_length.
Qed.

Section SocketLemmas.
Context {W : Type} {OS : UdpSockets W} {OL : UdpSocketsLaws W}.

(** An open socket and a descriptor that fits the set. *)
Definition usable (s : SocketSource) : Prop := udp_port_ s <> 0 /\ 0 <= udp_sock_ s < FD_SETSIZE.

(** What a datagram leaves behind. *)
Definition delivered (data : list Z) (ip port : Z) (p p' : UdpPacket) : Prop :=
  length (buffer p') = length (buffer p) /\ take (length data) (buffer p') = data /\
  drop (length data) (buffer p') = drop (length data) (buffer p) /\
  packet_ip p' = ip /\ packet_port p' = port /\ packet_len p' = packet_len p /\ is_timeout p' = is_timeout p.

Lemma receive_delivers s w w' data ip port p (k : Z * UdpPacket -> result (Z * UdpPacket * SocketSource * W)) :
  length (buffer p) = 1500%nat -> sys_recvfrom (i32 (udp_sock_ s)) kBufSize w = (Some (data, ip, port), w') ->
  exists p', fill_packet data ip port p = Ok p' /\ delivered data ip port p p'.
Proof.
  intros Hb Hr. pose proof (recvfrom_bounded _ _ _ _ _ _ _ Hr) as Hl. unfold kBufSize in Hl.
  destruct (fill_packet_ok data ip port p) as (b & -> & H1 & H2 & H3); [lia|].
  eexists. split; [done|]. by repeat split.
Qed.

(** ** Properties *)

(** [Receive] on an open socket: a datagram is delivered byte for byte with its
    sender and nothing behind it changes; when none is there the next calls wait
    in [select], and only a wait that ran out returns 0 with the timeout mark;
    after a wait that found something the socket is read directly again. *)
Theorem socket_receive_spec p s w :
  usable s -> length (buffer p) = 1500%nat ->
  if is_select_ s then
    let '(cnt, w1) := sys_select (udp_sock_ s + 1) 1000 w in
    if 0 <? cnt then
      match sys_recvfrom (i32 (udp_sock_ s)) kBufSize w1 with
      | (Some (data, ip, port), w2) => exists p',
          Receive kBufSize 1000 p s w = Ok (Z.of_nat (length data), p', set_select false s, w2) /\
          delivered data ip port p p'
      | (None, _) => Receive kBufSize 1000 p s w = Err Uninitialised
      end
    else Receive kBufSize 1000 p s w =
      Ok (if cnt =? 0 then (0, set_timeout true p, s, w1) else (-1, p, s, w1))
  else
    match sys_recvfrom (i32 (udp_sock_ s)) kBufSize w with
    | (Some (data, ip, port), w1) => exists p',
        Receive kBufSize 1000 p s w = Ok (Z.of_nat (length data), p', s, w1) /\ delivered data ip port p p'
    | (None, w1) => Receive kBufSize 1000 p s w = Ok (-1, p, set_select true s, w1)
    end.
Proof.
  intros [Hp Hs] Hb. unfold Receive, IsOpened.
  destruct (Z.eqb_spec (udp_port_ s) 0); [done|]. destruct (Z.ltb_spec (udp_sock_ s) 0); [lia|]. cbn [orb negb].
  destruct (Z.leb_spec FD_SETSIZE (udp_sock_ s)); [lia|].
  destruct (is_select_ s); cbn [negb].
  - destruct (sys_select _ _ w) as [cnt w1]. destruct (Z.ltb_spec 0 cnt).
    + destruct (sys_recvfrom _ _ w1) as [[[[data ip] port]|] w2] eqn:Er; [|done].
      destruct (receive_delivers s w1 w2 data ip port p (fun _ => Err Thrown) Hb Er) as (p' & -> & Hd).
      cbn [mbind result_bind]. eauto.
    + by destruct (cnt =? 0).
  - destruct (sys_recvfrom _ _ w) as [[[[data ip] port]|] w2] eqn:Er; [|done].
    destruct (receive_delivers s w w2 data ip port p (fun _ => Err Thrown) Hb Er) as (p' & -> & Hd).
    cbn [mbind result_bind]. eauto.
Qed.

(** After an [Open] that failed the source still counts as open, because the
    descriptor -1 is stored in an unsigned variable: when the socket or the
    binding failed, the next [Receive] marks that descriptor in a set it does not
    fit; when an option failed, it reads a socket that is not bound. *)
Theorem failed_open_counts_as_open s w s' w' :
  udp_port_ s <> 0 -> Open s w = (false, s', w') ->
  IsOpened s' = true /\
  ((udp_sock_ s' = kInvalid /\ forall n t p w2, Receive n t p s' w2 = Err OutOfBounds) \/
   (udp_sock_ s' = u32 (fst (sys_socket w)) /\ udp_sock_ s' <> kInvalid)).
Proof.
  unfold Open. destruct (sys_socket w) as [fd w1]. cbn [fst]. intros Hp Ho.
  assert (udp_port_ s' = udp_port_ s /\
    (udp_sock_ s' = kInvalid \/ (udp_sock_ s' = u32 fd /\ udp_sock_ s' <> kInvalid))) as [Hport Hs].
  { destruct (Z.eqb_spec (i32 (udp_sock_ (set_sock fd s))) (-1)) as [E|E].
    - injection Ho as <- <-. split; [done|]. left. cbn [udp_sock_ set_sock] in *.
      unfold kInvalid, i32, u32 in *. change (-1 mod 2 ^ 32) with (2 ^ 32 - 1). Z.to_euclidean_division_equations; lia.
    - assert (u32 fd <> kInvalid) as Hne.
      { intros Hk. apply E. cbn [udp_sock_ set_sock]. rewrite Hk. done. }
      repeat match type of Ho with
      | context [let '(_, _) := ?x in _] => destruct x
      | context [if ?x then _ else _] => destruct x
      end; try discriminate Ho; injection Ho as <- <-; cbn [udp_port_ udp_sock_ set_sock]; auto. }
  assert (IsOpened s' = true) as Hi.
  { unfold IsOpened. rewrite Hport. destruct (Z.eqb_spec (udp_port_ s) 0); [done|]. cbn [orb].
    assert (0 <= udp_sock_ s').
    { destruct Hs as [->|[-> _]]; [done|]. unfold u32. by apply Z.mod_pos_bound. }
    destruct (Z.ltb_spec (udp_sock_ s') 0); [lia|done]. }
  split; [done|]. destruct Hs as [Hk|Hs]; [left|by right]. split; [done|].
  intros n t p w2. unfold Receive. rewrite Hi, Hk. done.
Qed.

End SocketLemmas.

(** ** Witnesses *)

(** A network that has one datagram and then nothing; the first socket cannot be
    bound. *)
Record demo_world : Type := mk_demo { datagrams : list (list Z); bindable : bool }.

#[export] Instance demo_sockets : UdpSockets demo_world := {|
  sys_socket w := (3, w);
  sys_reuseaddr _ w := (0, w);
  sys_rcvtimeo _ w := (0, w);
  sys_bind _ _ w := (if bindable w then 0 else -1, w);
  sys_errno _ := 98;
  sys_close _ w := w;
  sys_recvfrom _ n w :=
    match datagrams w with
    | d :: ds => (Some (take (Z.to_nat n) d, 0x0100007F, 2368), mk_demo ds (bindable w))
    | [] => (None, w)
    end;
  sys_select _ _ w := (0, w);
  sys_inet_pton _ := 1;
  sys_sendto _ d _ w := (Z.of_nat (length d), w);
|}.

#[export] Instance demo_sockets_laws : UdpSocketsLaws demo_world.
Proof.
  constructor. intros fd n w data ip port w'. cbn. destruct (datagrams w) as [|d ds]; [done|].
  intros [= <- <- <- <-]. rewrite length_take. lia.
Qed.

Definition demo_packet : UdpPacket := mk_packet (replicate 1500 0) 0 false 0 0 0.
Definition demo_socket : SocketSource := mk_socket_source "" 2368 3 false.

Lemma socket_receive_spec_witness :
  exists p', Receive kBufSize 1000 demo_packet demo_socket (mk_demo [[1; 2; 3]] true) =
    Ok (3, p', demo_socket, mk_demo [] true) /\ take 3 (buffer p') = [1; 2; 3].
Proof.
  destruct (socket_receive_spec demo_packet demo_socket (mk_demo [[1; 2; 3]] true)) as (p' & E & Hd).
  - unfold usable. cbn. unfold FD_SETSIZE. lia.
  - done.
  - exists p'. split; [exact E|]. apply Hd.
Defined.

Lemma failed_open_counts_as_open_witness :
  exists s' w', Open (SocketSource_new 2368) (mk_demo [] false) = (false, s', w') /\
    Receive kBufSize 1000 demo_packet s' w' = Err OutOfBounds.
Proof.
  destruct (failed_open_counts_as_open (SocketSource_new 2368) (mk_demo [] false)
    (mk_socket_source "" 2368 kInvalid false) (mk_demo [] false)) as [_ [[_ H]|[_ H]]].
  - done.
  - reflexivity.
  - eexists _, _. split; [reflexivity|]. apply H.
  - by destruct H.
Defined.
