(* ===== verification/Lidar.v ===== *)
(** * Lidar: the threads between the source and the application

    Lidar/lidar.cc.  The receiving thread moves packets from the source into
    [origin_packets_buffer_]; the parser thread takes packet indices out of
    [decoded_packets_buffer_] and computes them itself or deals them out to the
    handle threads.  A turn of a thread, one pass of its loop body, is a
    function here, and the threads interleave turn by turn: the queues are the
    blocking rings of BlockingRing.v, seen as the lists they refine, and the
    counter of computed packets is atomic.  The frame is shared; what the compute
    threads read of it while the application writes is not modelled below the
    turn. *)

From S2P Require Import Prelude Bytes Floats LidarTypes GeneralParser Decoder UdpParser SocketSource Calendar.
Local Open Scope Z_scope.

Definition AT128E2X_PACKET_LEN : Z := 1180.
Definition GPS_PACKET_LEN : Z := 512.

Record Lidar (P G S : Type) : Type := mk_lidar {
  udp_parser_ : UdpParser G;
  frame_ : LidarDecodedFrame P;
  source_ : option S;
  origin_packets_buffer_ : list UdpPacket;
  decoded_packets_buffer_ : list Z;
  handle_thread_count_ : Z;
  handle_thread_packet_buffer_ : list (list Z);
  handle_thread_vec_ : list bool;   (* a thread runs behind the pointer *)
  recieve_thread : bool;
  parser_threads : nat;             (* threads started and not joined *)
  is_timeout_ : bool;
  is_record_pcap_ : bool;
}.
Arguments mk_lidar {P G S}.
Arguments udp_parser_ {P G S}.
Arguments frame_ {P G S}.
Arguments source_ {P G S}.
Arguments origin_packets_buffer_ {P G S}.
Arguments decoded_packets_buffer_ {P G S}.
Arguments handle_thread_count_ {P G S}.
Arguments handle_thread_packet_buffer_ {P G S}.
Arguments handle_thread_vec_ {P G S}.
Arguments recieve_thread {P G S}.
Arguments parser_threads {P G S}.
Arguments is_timeout_ {P G S}.
Arguments is_record_pcap_ {P G S}.

Section LidarOps.
Context {P G S : Type} {D : Decoder P G} {SRC : Source S}.
Variable new_parser : parser_kind -> G.

Definition new_Lidar : Lidar P G S :=
  mk_lidar new_UdpParser (new_LidarDecodedFrame P) None [] [] 0 [] [] false 0 false false.

Definition set_parsed (u : UdpParser G) (f : LidarDecodedFrame P) (l : Lidar P G S) : Lidar P G S :=
  mk_lidar u f (source_ l) (origin_packets_buffer_ l) (decoded_packets_buffer_ l) (handle_thread_count_ l)
    (handle_thread_packet_buffer_ l) (handle_thread_vec_ l) (recieve_thread l) (parser_threads l)
    (is_timeout_ l) (is_record_pcap_ l).
Definition set_queue (q : list Z) (b : list (list Z)) (l : Lidar P G S) : Lidar P G S :=
  mk_lidar (udp_parser_ l) (frame_ l) (source_ l) (origin_packets_buffer_ l) q (handle_thread_count_ l)
    b (handle_thread_vec_ l) (recieve_thread l) (parser_threads l) (is_timeout_ l) (is_record_pcap_ l).
Definition set_origin (s : option S) (o : list UdpPacket) (t : bool) (l : Lidar P G S) : Lidar P G S :=
  mk_lidar (udp_parser_ l) (frame_ l) s o (decoded_packets_buffer_ l) (handle_thread_count_ l)
    (handle_thread_packet_buffer_ l) (handle_thread_vec_ l) (recieve_thread l) (parser_threads l)
    t (is_record_pcap_ l).
Definition set_threads (n : Z) (b : list (list Z)) (v : list bool) (r : bool) (p : nat) (l : Lidar P G S) : Lidar P G S :=
  mk_lidar (udp_parser_ l) (frame_ l) (source_ l) (origin_packets_buffer_ l) (decoded_packets_buffer_ l) n
    b v r p (is_timeout_ l) (is_record_pcap_ l).
Definition EnableRecordPcap (b : bool) (l : Lidar P G S) : Lidar P G S :=
  mk_lidar (udp_parser_ l) (frame_ l) (source_ l) (origin_packets_buffer_ l) (decoded_packets_buffer_ l)
    (handle_thread_count_ l) (handle_thread_packet_buffer_ l) (handle_thread_vec_ l) (recieve_thread l)
    (parser_threads l) (is_timeout_ l) b.
Definition SetSource (s : option S) (l : Lidar P G S) : Lidar P G S :=
  set_origin s (origin_packets_buffer_ l) (is_timeout_ l) l.

(** ** The receiving thread *)

Definition set_recv (now len : Z) (p : UdpPacket) : UdpPacket :=
  mk_packet (buffer p) (i16 len) (is_timeout p) now (packet_ip p) (packet_port p).

(** The packet that stands for a timeout. *)
Definition timeout_packet (now : Z) (p : UdpPacket) : result UdpPacket :=
  b ← arr_set (buffer p) 0 0;
  b ← arr_set b 1 0;
  Ok (mk_packet b AT128E2X_PACKET_LEN (is_timeout p) now (packet_ip p) (packet_port p)).

(** The [switch] on the length: what is queued, and the new [is_timeout_]. *)
Definition classify (now len : Z) (p : UdpPacket) (timeout : bool) : result (option UdpPacket * bool) :=
  if len =? 0 then
    if timeout then Ok (None, timeout) else t ← timeout_packet now p; Ok (Some t, true)
  else if len =? kFaultMessageLength then Ok (Some (set_recv now len p), timeout)
  else if len =? GPS_PACKET_LEN then Ok (None, timeout)
  else if 0 <? len then Ok (Some (set_recv now len p), false)
  else Ok (None, timeout).

(** One pass of [RecieveUdpThread] that finds room in the buffer, and what it
    hands to [PcapSaver::Dump]; [fresh] is the uninitialised packet. *)
Definition receive_turn (now : Z) (fresh : UdpPacket) (l : Lidar P G S)
    : result (Lidar P G S * option (list Z * Z)) :=
  match source_ l with
  | None => Ok (l, None)
  | Some s =>
      '(len, p, s) ← source_Receive fresh s;
      if len =? -1 then Ok (set_origin (Some s) (origin_packets_buffer_ l) (is_timeout_ l) l, None)
      else if kPacketBufferSize <=? Z.of_nat (length (origin_packets_buffer_ l)) then Err NoProgress
      else
        '(q, t) ← classify now len p (is_timeout_ l);
        let l := set_origin (Some s) (origin_packets_buffer_ l ++ option_list q) t l in
        let q := default p q in
        Ok (l, if (0 <? packet_len q) && is_record_pcap_ l then Some (buffer q, packet_len q) else None)
  end.

(** [GetOnePacket]: 0 with a packet, or -1. *)
Definition GetOnePacket (l : Lidar P G S) : option UdpPacket * Lidar P G S :=
  match origin_packets_buffer_ l with
  | p :: ps => (Some p, set_origin (source_ l) ps (is_timeout_ l) l)
  | [] => (None, l)
  end.

(** ** The computing threads *)

(** [ComputeXYZI]: the caller would wait for room in a full ring. *)
Definition ComputeXYZI (packet_index : Z) (l : Lidar P G S) : result (Lidar P G S) :=
  if Z.of_nat (length (decoded_packets_buffer_ l)) <? kPacketBufferSize
  then Ok (set_queue (decoded_packets_buffer_ l ++ [packet_index]) (handle_thread_packet_buffer_ l) l)
  else Err NoProgress.

(** A packet is computed. *)
Definition compute (index : Z) (l : Lidar P G S) : result (Lidar P G S) :=
  '(_, u, f) ← UdpParser.ComputeXYZI (frame_ l) index (udp_parser_ l);
  Ok (set_parsed u f l).

(** One pass of [ParserThread], whose local [nUDPCount] is passed along, with the
    packet it computed. *)
Definition parser_turn (nUDPCount : Z) (l : Lidar P G S) : result (Z * Lidar P G S * option Z) :=
  match decoded_packets_buffer_ l with
  | [] => Ok (nUDPCount, l, None)
  | index :: q =>
      let l := set_queue q (handle_thread_packet_buffer_ l) l in
      if handle_thread_count_ l <? 2 then l ← compute index l; Ok (nUDPCount, l, Some index)
      else
        let n := Z.rem nUDPCount (handle_thread_count_ l) in
        b ← arr_get (handle_thread_packet_buffer_ l) n;
        let b := b ++ [index] in
        let b := if kPacketBufferSize <? Z.of_nat (length b) then tail b else b in
        bs ← arr_set (handle_thread_packet_buffer_ l) n b;
        Ok (n + 1, set_queue q bs l, None)
  end.

(** One pass of [HandleThread]. *)
Definition handle_turn (nThreadNum : Z) (l : Lidar P G S) : result (Lidar P G S * option Z) :=
  b ← arr_get (handle_thread_packet_buffer_ l) nThreadNum;
  match b with
  | [] => Ok (l, None)
  | index :: b =>
      bs ← arr_set (handle_thread_packet_buffer_ l) nThreadNum b;
      l ← compute index (set_queue (decoded_packets_buffer_ l) bs l);
      Ok (l, Some index)
  end.

Definition ComputeXYZIComplete (index : Z) (l : Lidar P G S) : bool * Lidar P G S :=
  if getComputePacketNum (udp_parser_ l) =? index
  then (true, set_parsed (setComputePacketNumToZero (udp_parser_ l)) (frame_ l) l)
  else (false, l).

Definition ClearPacketBuffer (l : Lidar P G S) : result (Lidar P G S) :=
  if 1 <? handle_thread_count_ l then
    bs ← foldM (fun bs i => arr_set bs i []) (handle_thread_packet_buffer_ l) (seqZ 0 (handle_thread_count_ l));
    Ok (set_queue [] bs l)
  else Ok (set_queue [] (handle_thread_packet_buffer_ l) l).

(** ** Threads *)

(** Joining the handle threads [is] and emptying their buffers. *)
Definition join_threads (is_ : list Z) (vec : list bool) (bufs : list (list Z)) : result (list bool * list (list Z)) :=
  foldM (fun '(vec, bufs) i =>
    _ ← arr_get vec i; vec ← arr_set vec i false; bufs ← arr_set bufs i []; Ok (vec, bufs)) (vec, bufs) is_.

(** [SetThreadNum] on a machine with [cpus] processors. *)
Definition SetThreadNum (cpus nThreadNum : Z) (l : Lidar P G S) : result (Lidar P G S) :=
  let nThreadNum := if cpus - 2 <? nThreadNum then cpus - 2 else nThreadNum in
  if handle_thread_count_ l =? nThreadNum then Ok l
  else
    '(vec, bufs) ← join_threads (seqZ 0 (handle_thread_count_ l)) (handle_thread_vec_ l) (handle_thread_packet_buffer_ l);
    let '(vec, bufs) :=
      if 1 <? nThreadNum
      then (replicate (Z.to_nat nThreadNum) true, vec_resize [] nThreadNum bufs) else (vec, bufs) in
    Ok (set_threads nThreadNum bufs vec true (Datatypes.S (parser_threads l)) l).

(** ** Calls handed to the parser *)

Definition DecodePacket (host : Z) (now : nat -> Z) (p : UdpPacket) (l : Lidar P G S)
    : result (Z * option Z * Lidar P G S) :=
  '(r, w, u, f) ← UdpParser.DecodePacket new_parser host now (frame_ l) p (udp_parser_ l);
  Ok (r, w, set_parsed u f l).

Definition SetLidarType (lidar_type : string) (l : Lidar P G S) : Z * Lidar P G S :=
  (0, set_parsed (CreatGeneralParser_name new_parser lidar_type (udp_parser_ l)) (frame_ l) l).

Definition LoadCorrectionFile (fs : string -> option string) (path : string) (l : Lidar P G S) : result (Lidar P G S) :=
  u ← UdpParser.LoadCorrectionFile fs path (udp_parser_ l); Ok (set_parsed u (frame_ l) l).
Definition LoadCorrectionString (s : string) (l : Lidar P G S) : result (Z * Lidar P G S) :=
  '(r, u) ← UdpParser.LoadCorrectionString s (udp_parser_ l); Ok (r, set_parsed u (frame_ l) l).
Definition LoadFiretimesFile (fs : string -> option string) (path : string) (l : Lidar P G S) : result (Lidar P G S) :=
  u ← UdpParser.LoadFiretimesFile fs path (udp_parser_ l); Ok (set_parsed u (frame_ l) l).

(** [LoadCorrectionForUdpParser]; [answer] is what [GetCorrectionInfo] gave. *)
Definition LoadCorrectionForUdpParser (answer : option string) (l : Lidar P G S) : result (Z * Lidar P G S) :=
  match answer with
  | None => Ok (-1, l)
  | Some sData => LoadCorrectionString sData l
  end.

(** [IsPlayEnded] *)
Definition IsPlayEnded (l : Lidar P G S) : bool :=
  match source_ l with Some s => source_ended s | None => false end.

End LidarOps.

(** ** Runs *)

Section Runs.
Context {P G S : Type} {D : Decoder P G}.

(** What a run of receptions forwards; [now i] is the clock at the [i]-th. *)
Fixpoint classify_run (now : nat -> Z) (i : nat) (rs : list (Z * UdpPacket)) (t : bool)
    : result (list (option UdpPacket) * bool) :=
  match rs with
  | [] => Ok ([], t)
  | (len, p) :: rs =>
      '(q, t) ← classify (now i) len p t;
      '(qs, t) ← classify_run now (Datatypes.S i) rs t;
      Ok (q :: qs, t)
  end.

(** A length after which the next timeout is news. *)
Definition is_data (len : Z) : Prop := 0 < len /\ len <> kFaultMessageLength /\ len <> GPS_PACKET_LEN.

#[export] Instance is_data_dec len : Decision (is_data len).
Proof. unfold is_data. apply _. Defined.

(** The [i]-th reception follows another timeout with no data in between. *)
Definition quiet (rs : list (Z * UdpPacket)) (t : bool) (i : nat) : Prop :=
  (exists j p, (j < i)%nat /\ rs !! j = Some (0, p) /\
    forall k len q, (j < k < i)%nat -> rs !! k = Some (len, q) -> ~ is_data len) \/
  (t = true /\ forall k len q, (k < i)%nat -> rs !! k = Some (len, q) -> ~ is_data len).

(** The steps of the computing side, in any order. *)
Inductive work : Set := WPush (index : Z) | WParser | WHandle (nThreadNum : Z).

Definition work_step (e : work) (n : Z) (l : Lidar P G S) : result (Z * Lidar P G S * option Z) :=
  match e with
  | WPush i => l ← ComputeXYZI i l; Ok (n, l, None)
  | WParser => parser_turn n l
  | WHandle i => '(l, o) ← handle_turn i l; Ok (n, l, o)
  end.

(** The packets computed by a run, in order. *)
Fixpoint work_run (es : list work) (n : Z) (l : Lidar P G S) : result (Z * Lidar P G S * list Z) :=
  match es with
  | [] => Ok (n, l, [])
  | e :: es =>
      '(n, l, o) ← work_step e n l;
      '(n, l, log) ← work_run es n l;
      Ok (n, l, option_list o ++ log)
  end.

Definition pushed (es : list work) : list Z :=
  concat ((fun e => match e with WPush i => [i] | _ => [] end) <$> es).

(** The packets still to be computed. *)
Definition pending (l : Lidar P G S) : list Z :=
  concat (handle_thread_packet_buffer_ l) ++ decoded_packets_buffer_ l.

Definition computed_num (l : Lidar P G S) : Z := getComputePacketNum (udp_parser_ l).

End Runs.

(** ** Lemmas *)

Lemma timeout_packet_ok now p : (2 <= length (buffer p))%nat ->
  exists q, timeout_packet now p = Ok q /\ packet_len q = 1180 /\ rd8 (buffer q) 0 = Ok 0 /\ rd8 (buffer q) 1 = Ok 0 /\
    is_timeout q = is_timeout p /\ packet_ip q = packet_ip p /\ packet_port q = packet_port p.
Proof.
  intros Hl. unfold timeout_packet. rewrite arr_set_ok by lia. cbn [mbind result_bind].
  rewrite arr_set_ok by (rewrite length_insert; lia). cbn [mbind result_bind].
  eexists. split; [done|]. split; [done|].
  destruct (buffer p) as [|x [|y b]]; cbn in Hl; try lia. by repeat split.
Qed.

Lemma quiet_cons len p rs t i : quiet ((len, p) :: rs) t (Datatypes.S i) <->
  quiet rs (if decide (len = 0) then true else if decide (is_data len) then false else t) i.
Proof.
  split.
  - intros [(j & q & Hj & E & Hk)|(-> & Hk)].
    + destruct j as [|j].
      * injection E as -> ->. right. split; [by rewrite decide_True|]. intros k l r Hk' E'. by apply (Hk (Datatypes.S k) l r); [lia|].
      * left. exists j, q. split; [lia|]. split; [done|]. intros k l r Hk' E'. by apply (Hk (Datatypes.S k) l r); [lia|].
    + right. split.
      * destruct (decide (len = 0)); [done|]. rewrite decide_False; [done|]. by apply (Hk 0%nat len p); [lia|].
      * intros k l r Hk' E'. by apply (Hk (Datatypes.S k) l r); [lia|].
  - intros [(j & q & Hj & E & Hk)|(Ht & Hk)].
    + left. exists (Datatypes.S j), q. split; [lia|]. split; [done|]. intros [|k] l r Hk' E'; [lia|]. by apply (Hk k l r); [lia|].
    + destruct (decide (len = 0)) as [->|Hne].
      * left. exists 0%nat, p. split; [lia|]. split; [done|]. intros [|k] l r Hk' E'; [lia|]. by apply (Hk k l r); [lia|].
      * destruct (decide (is_data len)); [done|]. right. split; [done|]. intros [|k] l r Hk' E'.
        -- by injection E' as <- <-.
        -- by apply (Hk k l r); [lia|].
Qed.

Lemma quiet_head rs t : quiet rs t 0 <-> t = true.
Proof.
  split; [|intros ->; right; split; [done|lia]].
  intros [(j & q & Hj & _)|[H _]]; [lia|done].
Qed.

(** What is forwarded of the reception [(len, p)]. *)
Definition forwards (now len : Z) (p : UdpPacket) (q : Prop) (o : option UdpPacket) : Prop :=
  (0 < len -> len <> GPS_PACKET_LEN -> o = Some (set_recv now len p)) /\
  (len < 0 \/ len = GPS_PACKET_LEN -> o = None) /\
  (len = 0 -> q -> o = None) /\
  (len = 0 -> ~ q -> exists m, o = Some m /\ packet_len m = AT128E2X_PACKET_LEN /\
     rd8 (buffer m) 0 = Ok 0 /\ rd8 (buffer m) 1 = Ok 0 /\ is_timeout m = is_timeout p).

Lemma forwards_iff now len p q q' o : (q <-> q') -> forwards now len p q o -> forwards now len p q' o.
Proof. unfold forwards. naive_solver. Qed.

Lemma classify_spec now len p t : (2 <= length (buffer p))%nat ->
  exists o, classify now len p t =
      Ok (o, if decide (len = 0) then true else if decide (is_data len) then false else t) /\
    forwards now len p (t = true) o.
Proof.
  intros Hl. unfold classify, forwards, is_data, kFaultMessageLength, GPS_PACKET_LEN.
  destruct (Z.eqb_spec len 0) as [->|H0].
  { rewrite decide_True by done. destruct t.
    - eexists. split; [done|]. repeat split; try done; lia.
    - destruct (timeout_packet_ok now p Hl) as (m & -> & E1 & E2 & E3 & E4 & _). cbn [mbind result_bind].
      eexists. split; [done|]. repeat split; try done; try lia. intros _ _. by exists m. }
  rewrite (decide_False (P := len = 0)) by done.
  destruct (Z.eqb_spec len 99) as [->|H1].
  { rewrite decide_False by lia. eexists. split; [done|]. repeat split; try done; lia. }
  destruct (Z.eqb_spec len 512) as [->|H2].
  { rewrite decide_False by lia. eexists. split; [done|]. repeat split; try done; lia. }
  destruct (Z.ltb_spec 0 len).
  - rewrite decide_True by lia. eexists. split; [done|]. repeat split; try done; lia.
  - rewrite decide_False by lia. eexists. split; [done|]. repeat split; try done; lia.
Qed.

Lemma classify_run_spec now rs : forall i t,
  Forall (fun r => (2 <= length (buffer (snd r)))%nat) rs ->
  exists out t', classify_run now i rs t = Ok (out, t') /\ length out = length rs /\
    (forall j len p, rs !! j = Some (len, p) ->
      exists o, out !! j = Some o /\ forwards (now (i + j)%nat) len p (quiet rs t j) o).
Proof.
  induction rs as [|[len p] rs IH]; intros i t Hb; cbn [classify_run].
  { exists [], t. split; [done|]. split; [done|]. by intros j len p. }
  apply Forall_cons in Hb as [Hp Hb]. destruct (classify_spec (now i) len p t Hp) as (o & -> & Ho).
  cbn [mbind result_bind]. set (t1 := if decide (len = 0) then _ else _) in *.
  destruct (IH (Datatypes.S i) t1 Hb) as (out & t' & -> & Hlen & Hout). cbn [mbind result_bind].
  exists (o :: out), t'. split; [done|]. split; [cbn; by rewrite Hlen|].
  intros [|j] len' p' E.
  - injection E as <- <-. exists o. split; [done|]. rewrite Nat.add_0_r.
    eapply forwards_iff; [|exact Ho]. symmetry. apply quiet_head.
  - destruct (Hout j len' p' E) as (o' & Eo & Hf). exists o'. split; [done|].
    rewrite <-Nat.add_succ_comm. eapply forwards_iff; [|exact Hf]. symmetry. apply quiet_cons.
Qed.

(** Queueing in one buffer, and taking out of one. *)
Lemma concat_push {A} (bs : list (list A)) i b x :
  bs !! i = Some b -> concat (<[i := b ++ [x]]> bs) ≡ₚ x :: concat bs.
Proof.
  intros Hi. pose proof (lookup_lt_Some _ _ _ Hi) as Hl. rewrite insert_take_drop by done.
  rewrite <-(take_drop_middle bs i b Hi) at 3. rewrite !concat_app. cbn [concat].
  rewrite <-app_assoc. cbn [app]. by rewrite <-!Permutation_middle.
Qed.

Lemma concat_pop {A} (bs : list (list A)) i b x :
  bs !! i = Some (x :: b) -> concat bs ≡ₚ x :: concat (<[i := b]> bs).
Proof.
  intros Hi. pose proof (lookup_lt_Some _ _ _ Hi) as Hl. rewrite insert_take_drop by done.
  rewrite <-(take_drop_middle bs i (x :: b) Hi) at 1. rewrite !concat_app. cbn [concat app].
  by rewrite <-Permutation_middle.
Qed.

Lemma concat_length_in {A} (bs : list (list A)) i b : bs !! i = Some b -> (length b <= length (concat bs))%nat.
Proof.
  intros Hi. rewrite <-(take_drop_middle bs i b Hi), concat_app. cbn [concat]. rewrite !length_app. lia.
Qed.

Section WorkLemmas.
Context {P G S : Type} {D : Decoder P G} {L : DecoderLaws P G}.
Implicit Types l : Lidar P G S.

Lemma set_queue_same l : set_queue (decoded_packets_buffer_ l) (handle_thread_packet_buffer_ l) l = l.
Proof. by destruct l. Qed.

(** The parser behind a lidar, up to the computed packets. *)
Definition same_parser (l l' : Lidar P G S) : Prop :=
  exists g g', parser_ (udp_parser_ l) = Some g /\ parser_ (udp_parser_ l') = Some g' /\ alike g g'.

Lemma same_parser_refl l g : parser_ (udp_parser_ l) = Some g -> same_parser l l.
Proof. intros H. exists g, g. split; [done|]. split; [done|]. reflexivity. Qed.

Lemma same_parser_trans l1 l2 l3 : same_parser l1 l2 -> same_parser l2 l3 -> same_parser l1 l3.
Proof.
  intros (a & b & Ha & Hb & Hab) (c & d & Hc & Hd & Hcd). rewrite Hb in Hc. injection Hc as <-.
  exists a, d. split; [done|]. split; [done|]. by transitivity b.
Qed.

(** What computing a packet changes. *)
Lemma compute_spec index l l' g :
  parser_ (udp_parser_ l) = Some g -> compute index l = Ok l' ->
  same_parser l l' /\ computed_num l' = u32 (computed_num l + 1) /\
  frame_ l' = set_points (points (frame_ l')) (frame_ l) /\
  l' = set_parsed (udp_parser_ l') (frame_ l') l.
Proof.
  intros Hg. unfold compute, UdpParser.ComputeXYZI. rewrite Hg.
  destruct (v_ComputeXYZI g (frame_ l) index) as [[[r g'] f']|] eqn:E; cbn [mbind result_bind]; [|done].
  intros H. apply (inj Ok) in H as <-. destruct (compute_counts _ _ _ _ _ _ E) as (Hf & Ha & Hn).
  cbn [udp_parser_ frame_ set_parsed parser_ set_parser].
  split; [by exists g, g'|]. split; [|done].
  unfold computed_num, getComputePacketNum. cbn [udp_parser_ set_parsed parser_ set_parser]. by rewrite Hg, Hn.
Qed.

Definition room (l : Lidar P G S) : Prop := Z.of_nat (length (pending l)) <= kPacketBufferSize.

(** What a step keeps. *)
Definition step_frame (l l' : Lidar P G S) (o : option Z) : Prop :=
  same_parser l l' /\
  computed_num l' = match o with Some _ => u32 (computed_num l + 1) | None => computed_num l end /\
  frame_ l' = set_points (points (frame_ l')) (frame_ l) /\
  origin_packets_buffer_ l' = origin_packets_buffer_ l /\ handle_thread_count_ l' = handle_thread_count_ l.

Lemma step_frame_queue l g q bs : parser_ (udp_parser_ l) = Some g -> step_frame l (set_queue q bs l) None.
Proof.
  intros Hg. split; [exists g, g; split; [done|split; [done|reflexivity]]|]. split; [done|]. split; [by destruct l as [? []]|]. done.
Qed.

Lemma step_frame_compute l l' g q bs index :
  parser_ (udp_parser_ l) = Some g -> compute index (set_queue q bs l) = Ok l' ->
  step_frame l l' (Some index) /\ handle_thread_packet_buffer_ l' = bs /\ decoded_packets_buffer_ l' = q.
Proof.
  intros Hg E. destruct (compute_spec index (set_queue q bs l) l' g Hg E) as (H1 & H2 & H3 & H4).
  rewrite H4. split; [|done]. rewrite <-H4. split; [exact H1|]. split; [exact H2|]. split; [exact H3|].
  by rewrite H4.
Qed.

(** A parser turn takes the first decoded packet. *)
Lemma parser_turn_spec n l n' l' o g :
  parser_ (udp_parser_ l) = Some g -> room l -> parser_turn n l = Ok (n', l', o) ->
  pending l ≡ₚ option_list o ++ pending l' /\ step_frame l l' o.
Proof.
  intros Hg Hroom. unfold parser_turn.
  destruct (decoded_packets_buffer_ l) as [|index q] eqn:Eq.
  { intros H. apply (inj Ok) in H as [= <- <- <-]. split; [done|].
    rewrite <-(set_queue_same l). by apply (step_frame_queue l g). }
  destruct (Z.ltb_spec (handle_thread_count_ (set_queue q (handle_thread_packet_buffer_ l) l)) 2).
  - destruct (compute _ _) as [l1|] eqn:Ec; cbn [mbind result_bind]; [|done].
    intros H1. apply (inj Ok) in H1 as [= <- <- <-].
    destruct (step_frame_compute _ _ g _ _ _ Hg Ec) as (Hf & Hb & Hd). split; [|done].
    unfold pending. rewrite Eq, Hb, Hd. change (option_list (Some index)) with [index]. cbn [app]. symmetry. apply Permutation_middle.
  - cbn [handle_thread_count_ handle_thread_packet_buffer_ set_queue].
    set (k := Z.rem n (handle_thread_count_ l)).
    destruct (arr_get _ k) as [b|] eqn:Eb; cbn [mbind result_bind]; [|done].
    apply arr_get_ok in Eb as [Hk Eb].
    pose proof (concat_length_in _ _ _ Eb) as Hlen.
    assert (Z.of_nat (length (b ++ [index])) <= kPacketBufferSize) as Hb.
    { unfold room, pending in Hroom. rewrite Eq, length_app in Hroom. rewrite length_app. cbn [length] in *. lia. }
    destruct (Z.ltb_spec kPacketBufferSize (Z.of_nat (length (b ++ [index])))); [lia|].
    rewrite arr_set_ok by (pose proof (lookup_lt_Some _ _ _ Eb); lia). cbn [mbind result_bind].
    intros H1. apply (inj Ok) in H1 as [= <- <- <-]. split; [|by apply (step_frame_queue l g)].
    unfold pending. change (option_list None) with (@nil Z). cbn [app handle_thread_packet_buffer_ decoded_packets_buffer_ set_queue].
    rewrite Eq, (concat_push _ _ _ _ Eb). cbn [app]. symmetry. apply Permutation_middle.
Qed.

Lemma handle_turn_spec i l l' o g :
  parser_ (udp_parser_ l) = Some g -> handle_turn i l = Ok (l', o) ->
  pending l ≡ₚ option_list o ++ pending l' /\ step_frame l l' o.
Proof.
  intros Hg. unfold handle_turn.
  destruct (arr_get _ i) as [b|] eqn:Eb; cbn [mbind result_bind]; [|done].
  apply arr_get_ok in Eb as [Hi Eb]. destruct b as [|index b].
  { intros H. apply (inj Ok) in H as [= <- <-]. split; [done|].
    rewrite <-(set_queue_same l). by apply (step_frame_queue l g). }
  rewrite arr_set_ok by (pose proof (lookup_lt_Some _ _ _ Eb); lia). cbn [mbind result_bind].
  destruct (compute _ _) as [l1|] eqn:Ec; cbn [mbind result_bind]; [|done].
  intros H1. apply (inj Ok) in H1 as [= <- <-].
  destruct (step_frame_compute _ _ g _ _ _ Hg Ec) as (Hf & Hb & Hd). split; [|done].
  unfold pending. rewrite Hb, Hd. change (option_list (Some index)) with [index]. cbn [app].
  by rewrite (concat_pop _ _ _ _ Eb).
Qed.

(** A step moves packets from the pushed to the pending to the computed ones. *)
Lemma work_step_spec e n l n' l' o g :
  parser_ (udp_parser_ l) = Some g -> room l -> work_step e n l = Ok (n', l', o) ->
  pending l ++ pushed [e] ≡ₚ option_list o ++ pending l' /\ step_frame l l' o.
Proof.
  intros Hg Hroom. destruct e as [i| |i]; cbn [work_step];
    [|change (pushed [WParser]) with (@nil Z)|change (pushed [WHandle i]) with (@nil Z)]; rewrite ?app_nil_r.
  - unfold ComputeXYZI. destruct (_ <? _); cbn [mbind result_bind]; [|done].
    intros H. apply (inj Ok) in H as [= <- <- <-]. split; [|by apply (step_frame_queue l g)].
    unfold pending. change (pushed [WPush i]) with [i]. change (option_list None) with (@nil Z).
    cbn [app handle_thread_packet_buffer_ decoded_packets_buffer_ set_queue]. by rewrite app_assoc.
  - intros H. by apply (parser_turn_spec n l n' l' o g).
  - destruct (handle_turn i l) as [[l1 o1]|] eqn:E; cbn [mbind result_bind]; [|done].
    intros H. apply (inj Ok) in H as [= <- <- <-]. by apply (handle_turn_spec i l l1 o1 g).
Qed.

Lemma pushed_cons e es : pushed (e :: es) = pushed [e] ++ pushed es.
Proof. unfold pushed. cbn. by rewrite app_nil_r. Qed.

Lemma work_run_spec es : forall n l n' l' log g,
  parser_ (udp_parser_ l) = Some g -> is_u32 (computed_num l) ->
  Z.of_nat (length (pending l ++ pushed es)) <= kPacketBufferSize ->
  work_run es n l = Ok (n', l', log) ->
  pending l ++ pushed es ≡ₚ log ++ pending l' /\ same_parser l l' /\
  computed_num l' = u32 (computed_num l + Z.of_nat (length log)) /\
  frame_ l' = set_points (points (frame_ l')) (frame_ l) /\
  origin_packets_buffer_ l' = origin_packets_buffer_ l.
Proof.
  induction es as [|e es IH]; intros n l n' l' log g Hg Hc Hroom; cbn [work_run].
  { intros H. apply (inj Ok) in H as [= <- <- <-]. split; [by rewrite app_nil_r|].
    split; [by apply (same_parser_refl _ g)|]. split; [|split; [by destruct l as [? []]|done]].
    unfold u32, is_u32 in *. cbn [length Z.of_nat]. rewrite Z.add_0_r, Z.mod_small; done. }
  destruct (work_step e n l) as [[[n1 l1] o]|] eqn:Ee; cbn [mbind result_bind]; [|done].
  destruct (work_run es n1 l1) as [[[n2 l2] log2]|] eqn:Er; cbn [mbind result_bind]; [|done].
  intros H. apply (inj Ok) in H as [= <- <- <-]. rewrite pushed_cons in *.
  destruct (work_step_spec e n l n1 l1 o g Hg) as (Hp & (g0 & g1 & Hg0 & Hg1 & Ha) & Hn & Hf & Ho & _); [|done|].
  { unfold room. rewrite !length_app in Hroom. lia. }
  assert (is_u32 (computed_num l1)) as Hc1.
  { rewrite Hn. destruct o; [|done]. unfold is_u32, u32. by apply Z.mod_pos_bound. }
  destruct (IH n1 l1 n2 l2 log2 g1 Hg1 Hc1) as (Hp2 & Hs2 & Hn2 & Hf2 & Ho2); [|done|].
  { rewrite app_assoc, Hp, <-app_assoc, length_app in Hroom. clear -Hroom. lia. }
  split; [|split; [|split; [|split]]].
  - by rewrite app_assoc, Hp, <-!app_assoc, Hp2.
  - apply (same_parser_trans l l1 l2); [|done]. by exists g0, g1.
  - rewrite Hn2, Hn, length_app. destruct o as [i|]; [|done].
    change (length (option_list (Some i))) with 1%nat. unfold u32. rewrite Zplus_mod_idemp_l. f_equal. lia.
  - rewrite Hf2, Hf. by destruct (frame_ l).
  - congruence.
Qed.

End WorkLemmas.

Lemma join_threads_ok is_ : forall vec bufs,
  Forall (fun i => 0 <= i < Z.of_nat (length vec) /\ 0 <= i < Z.of_nat (length bufs)) is_ ->
  exists vec' bufs', join_threads is_ vec bufs = Ok (vec', bufs') /\
    length vec' = length vec /\ length bufs' = length bufs.
Proof.
  unfold join_threads. induction is_ as [|i is_ IH]; intros vec bufs Hf; cbn [foldM].
  { by exists vec, bufs. }
  apply Forall_cons in Hf as [[Hv Hb] Hf]. destruct (arr_get_in vec i Hv) as [x ->]. cbn [mbind result_bind].
  rewrite arr_set_ok by done. cbn [mbind result_bind]. rewrite arr_set_ok by done. cbn [mbind result_bind].
  destruct (IH (<[Z.to_nat i:=false]> vec) (<[Z.to_nat i:=[]]> bufs)) as (v & b & E & E1 & E2).
  { by rewrite !length_insert. }
  exists v, b. rewrite E, E1, E2, !length_insert. done.
Qed.

(** ** Properties *)

Section Properties.
Context {P G S : Type} {D : Decoder P G} {L : DecoderLaws P G}.
Implicit Types l : Lidar P G S.

(** C37: of what the source delivers, every datagram of a positive length reaches
    the queue with its length and arrival time, in order, except those of the
    GPS length; of the timeouts only the first after data does, as a packet of
    1180 bytes that starts with two zeros. *)
Theorem receive_classification now rs t :
  Forall (fun r => (2 <= length (buffer (snd r)))%nat) rs ->
  exists out t', classify_run now 0 rs t = Ok (out, t') /\ length out = length rs /\
    (forall i len p, rs !! i = Some (len, p) ->
      exists o, out !! i = Some o /\ forwards (now i) len p (quiet rs t i) o).
Proof. intros Hb. exact (classify_run_spec now rs 0 t Hb). Qed.

(** C2: whatever the order in which the application, the parser thread and the
    handle threads take their turns, every packet handed over is computed
    exactly once or still waits, as long as at most 36000 are outstanding; the
    counter the application polls is the number of computed packets, and once
    nothing waits the frame is reported complete. *)
Theorem packets_computed_once es n l n' l' log g :
  parser_ (udp_parser_ l) = Some g -> computed_num l = 0 -> pending l = [] ->
  Z.of_nat (length (pushed es)) <= kPacketBufferSize ->
  work_run es n l = Ok (n', l', log) ->
  log ++ pending l' ≡ₚ pushed es /\
  computed_num l' = Z.of_nat (length log) /\
  (pending l' = [] -> fst (ComputeXYZIComplete (Z.of_nat (length (pushed es))) l') = true).
Proof.
  intros Hg Hc Hp Hl Hr.
  destruct (work_run_spec es n l n' l' log g Hg) as (Hperm & _ & Hn & _); [unfold is_u32; lia|by rewrite Hp|done|].
  rewrite Hp, app_nil_l in Hperm. rewrite Hc in Hn.
  assert (length log <= length (pushed es))%nat as Hle by (rewrite Hperm, length_app; lia).
  unfold kPacketBufferSize in Hl.
  assert (computed_num l' = Z.of_nat (length log)) as Hn'.
  { rewrite Hn, Z.add_0_l. unfold u32. apply Z.mod_small. lia. }
  split; [by symmetry|]. split; [done|]. intros Hd. rewrite Hd, app_nil_r in Hperm.
  unfold ComputeXYZIComplete. unfold computed_num in Hn'. rewrite Hn', Hperm, Z.eqb_refl. done.
Qed.

End Properties.

Section ThreadProperties.
Context {P G S : Type}.

(** Choosing the number of threads of a new object: with two processors, or
    when none is asked for, nothing is started, not even the receiving thread;
    otherwise the receiving and one parser thread run, and one handle thread for
    each requested one when there are several.  Changing the number later is
    undefined after a single one (an empty vector is indexed), and after several
    leaves the previous parser thread running. *)
Theorem set_thread_num_cases cpus n m (l : Lidar P G S) :
  let k := Z.min n (cpus - 2) in
  handle_thread_count_ l = 0 -> handle_thread_vec_ l = [] -> handle_thread_packet_buffer_ l = [] ->
  parser_threads l = 0%nat ->
  (k = 0 -> SetThreadNum cpus n l = Ok l) /\
  (k <> 0 -> exists l', SetThreadNum cpus n l = Ok l' /\ recieve_thread l' = true /\ parser_threads l' = 1%nat /\
    handle_thread_count_ l' = k /\
    (1 < k -> handle_thread_vec_ l' = replicate (Z.to_nat k) true /\
              length (handle_thread_packet_buffer_ l') = Z.to_nat k) /\
    (k = 1 -> Z.min m (cpus - 2) <> 1 -> SetThreadNum cpus m l' = Err OutOfBounds) /\
    (1 < k -> Z.min m (cpus - 2) <> k -> exists l2, SetThreadNum cpus m l' = Ok l2 /\ parser_threads l2 = 2%nat)).
Proof.
  intros k H0 Hv Hb Hp.
  assert (forall j (l' : Lidar P G S), (if cpus - 2 <? j then cpus - 2 else j) = Z.min j (cpus - 2)) as Hmin.
  { intros j _. destruct (Z.ltb_spec (cpus - 2) j); lia. }
  unfold SetThreadNum. rewrite (Hmin n l), (Hmin m l). fold k. rewrite H0, Hv, Hb, Hp. split.
  { intros ->. done. }
  intros Hk. destruct (Z.eqb_spec 0 k); [lia|]. cbn [seqZ join_threads foldM mbind result_bind Z.to_nat].
  change (join_threads (seqZ 0 0) [] []) with (Ok ([], []) : result (list bool * list (list Z))).
  cbn [mbind result_bind].
  destruct (Z.ltb_spec 1 k) as [H1|H1]; eexists; (split; [reflexivity|]);
    cbn [recieve_thread parser_threads handle_thread_count_ handle_thread_vec_ handle_thread_packet_buffer_ set_threads];
    repeat (split; [done|]).
  - split; [intros _; split; [done|by apply vec_resize_length; lia]|]. split; [lia|]. intros _ Hm.
    destruct (Z.eqb_spec k (Z.min m (cpus - 2))); [lia|].
    destruct (join_threads_ok (seqZ 0 k) (replicate (Z.to_nat k) true) (vec_resize [] k [])) as (v & b & -> & _).
    { apply Forall_forall. intros i Hi. apply elem_of_seqZ in Hi. rewrite length_replicate, vec_resize_length by lia. lia. }
    cbn [mbind result_bind]. destruct (1 <? _); eexists; (split; [reflexivity|done]).
  - split; [lia|]. split; [|lia]. intros -> Hm. destruct (Z.eqb_spec 1 (Z.min m (cpus - 2))); [lia|]. done.
Qed.

End ThreadProperties.

(** ** Witnesses *)

Definition demo_received (len b : Z) : Z * UdpPacket := (len, mk_packet (replicate 1500 b) 0 false 0 0 0).

Lemma receive_classification_witness :
  exists out t', classify_run Z.of_nat 0 [demo_received 0 1; demo_received 0 2; demo_received 512 3; demo_received 70 4;
    demo_received 0 5; demo_received 99 6; demo_received 0 7] false = Ok (out, t') /\
    option_map packet_len <$> out =
      [Some 1180; None; None; Some 70; Some 1180; Some 99; None].
Proof.
  destruct (receive_classification Z.of_nat [demo_received 0 1; demo_received 0 2; demo_received 512 3; demo_received 70 4;
    demo_received 0 5; demo_received 99 6; demo_received 0 7] false) as (out & t' & E & _).
  - repeat (apply Forall_cons_2; [cbn [snd demo_received buffer]; rewrite length_replicate; lia|]). by apply Forall_nil_2.
  - exists out, t'. split; [exact E|]. vm_compute in E. apply (inj Ok) in E as [= <- <-]. reflexivity.
Defined.

Definition demo_lidar : Lidar LidarPointXYZI Udp1_4.Udp1_4Parser unit :=
  set_threads 2 [[]; []] [true; true] true 1
    (set_parsed (set_parser (Some (Udp1_4.demo_parser true)) new_UdpParser) Udp1_4.demo_frame
      (mk_lidar new_UdpParser Udp1_4.demo_frame None [] [] 0 [] [] false 0 false false)).

Definition demo_work : list work :=
  [WPush 0; WPush 1; WParser; WHandle 0; WPush 2; WParser; WParser; WHandle 0; WHandle 1].

Lemma packets_computed_once_witness :
  exists n l, work_run (D := demo_decoder) demo_work 0 demo_lidar = Ok (n, l, [0; 2; 1]) /\
    fst (ComputeXYZIComplete (D := demo_decoder) 3 l) = true.
Proof.
  destruct (work_run (D := demo_decoder) demo_work 0 demo_lidar) as [[[n l] log]|] eqn:E; [|vm_compute in E; discriminate].
  assert (log = [0; 2; 1] /\ pending l = []) as [-> Hp].
  { vm_compute in E. apply (inj Ok) in E as [= <- <- <-]. done. }
  exists n, l. split; [reflexivity|].
  apply (packets_computed_once (D := demo_decoder) (L := Udp1_4.udp1_4_laws 0 (fun _ => f_zero) (fun _ => f_zero) id id id id)
    demo_work 0 demo_lidar n l [0; 2; 1] (Udp1_4.demo_parser true));
    [reflexivity|reflexivity|reflexivity|vm_compute; discriminate|exact E|exact Hp].
Defined.

Lemma set_thread_num_cases_witness :
  SetThreadNum 2 1 (new_Lidar (P := LidarPointXYZI) (G := Udp1_4.Udp1_4Parser) (S := unit)) = Ok new_Lidar /\
  exists l, SetThreadNum 8 1 (new_Lidar (P := LidarPointXYZI) (G := Udp1_4.Udp1_4Parser) (S := unit)) = Ok l /\
    SetThreadNum 8 4 l = Err OutOfBounds.
Proof.
  split.
  - by apply (set_thread_num_cases 2 1 4 new_Lidar).
  - destruct (set_thread_num_cases 8 1 4 (new_Lidar (P := LidarPointXYZI) (G := Udp1_4.Udp1_4Parser) (S := unit)))
      as [_ H]; [done|done|done|done|].
    destruct H as (l & E & _ & _ & _ & _ & H & _); [done|]. exists l. split; [exact E|]. by apply H.
Defined.
