(* ===== verification/DriverParam.v ===== *)
(** * DriverParam: the configuration of the driver

    driver_param.h, with the default values of its members.  Left out are the
    members nothing below src/ reads (the ROS topics, [read_pcap], [frame_id])
    and those of the logger. *)

From Stdlib Require Import SpecFloat.
From S2P Require Import Prelude Floats LidarTypes TcpSsl PtcOpen.
Local Open Scope Z_scope.

(** [enum SourceType] *)
Definition DATA_FROM_LIDAR : Z := 1.
Definition DATA_FROM_PCAP : Z := 2.
Definition DATA_FROM_ROS_PACKET : Z := 3.

Record TransformParam : Type := mk_transform_param { x : f32; y : f32; z : f32; roll : f32; pitch : f32; yaw : f32 }.

Record DecoderParam : Type := mk_decoder_param {
  transform_param : TransformParam;
  thread_num : Z;
  enable_udp_thread : bool;
  enable_parser_thread : bool;
  pcap_play_synchronization : bool;
  frame_start_azimuth : f32;
  enable_packet_loss_tool : bool;
  enable_packet_timeloss_tool : bool;
  packet_timeloss_tool_continue : bool;
  use_timestamp_type : Z;
  fov_start : Z;
  fov_end : Z;
  distance_correction_lidar_type : string;
  socket_buffer_size : Z;
}.

Record InputParam : Type := mk_input_param {
  ptc_mode : PtcMode;
  source_type : Z;
  device_ip_address : string;
  multicast_ip_address : string;
  device_udp_src_port : Z;
  device_fault_port : Z;
  udp_port : Z;
  ptc_port : Z;
  pcap_path : string;
  correction_file_path : string;
  firetimes_path : string;
  certFile : path_arg;
  privateKeyFile : path_arg;
  caFile : path_arg;
  standby_mode : Z;
  speed : Z;
}.

Record DriverParam : Type := mk_driver_param {
  input_param : InputParam;
  decoder_param : DecoderParam;
  lidar_type : string;
}.

Definition default_decoder_param : DecoderParam :=
  mk_decoder_param (mk_transform_param f_zero f_zero f_zero f_zero f_zero f_zero) 1 true true true (lit32 1 0)
    false false false 0 (-1) (-1) "" 0.

Definition default_input_param : InputParam :=
  mk_input_param mode_tcp DATA_FROM_PCAP "Your lidar ip" "" 0 0 2368 9347 "Your pcap file path" "Your correction file path"
    "Your firetime file path" None None None (-1) (-1).

Definition default_param : DriverParam := mk_driver_param default_input_param default_decoder_param "".
