(* ===== verification/LidarInit.v ===== *)
(** * LidarInit: bringing a lidar up

    [Lidar::Init], [Lidar::InitSetPtc], the calls that save a calibration or a
    recording, and [GetLidarType] (Lidar/lidar.cc).  [Init] opens the source,
    starts the threads and the PTC connection, then waits until a packet has
    chosen the parser, configures it, waits for the connection when there is one,
    and loads the calibration.  Each pass of a waiting loop is a turn, as are the
    thread that sends the settings, the thread that opens the connection and the
    arrival of a packet; any sequence of turns is a run.

    The classes [SourceFactory] and [PtcPort] say which calls of the source's and
    the PTC client's classes are used, [TypedDecoder] which other member of a
    parser is set. *)

From S2P Require Import Prelude Bytes Floats LidarTypes PacketLoss GeneralParser Streams Decoder UdpParser SocketSource Lidar Calendar.
From S2P Require DriverParam PtcOpen PtcClient PcapSaver.
Local Open Scope Z_scope.

(** [new PcapSource], [new SocketSource] and the virtual calls made on them. *)
Class SourceFactory (S : Type) : Type := {
  new_PcapSource : string -> S;
  new_SocketSource : Z -> string -> S;
  source_Open : S -> result S;
  source_SetSocketBufferSize : Z -> S -> result S;
}.

(** The calls of [PtcClient]; [ptc_thread] is a turn of the thread its constructor
    starts. *)
Class PtcPort (C : Type) : Type := {
  new_PtcClient : PtcOpen.PtcArgs -> C;
  ptc_IsOpen : C -> result bool;
  ptc_QueryCommand : list Z -> Z -> C -> result (Z * list Z * C);
  ptc_thread : C -> result C;
}.

(** [GeneralParser::SetLidarType] *)
Class TypedDecoder (P G : Type) `{Decoder P G} : Type := {
  v_SetLidarType : string -> G -> G;
  set_type_general ty g : general (v_SetLidarType ty g) = general g;
}.

(** [enum LidarInitFinishStatus] *)
Definition FaultMessParse : nat := 0.
Definition PtcInitFinish : nat := 1.
Definition PointCloudParse : nat := 2.
Definition AllInitFinish : nat := 3.
Definition TotalStatus : nat := 4.

Definition CMD_SET_STANDBY_MODE : Z := 0x1c.
Definition CMD_SET_SPIN_SPEED : Z := 0x17.

(** Where [Init] stands: waiting for a parser, waiting for the connection, before
    loading the calibration and the firetimes, and returned. *)
Inductive init_place : Set := WaitParser | WaitPtc | LoadCorrection | LoadFiretimes | Returned (res : Z).

Record LidarObj (P G S C : Type) : Type := mk_lidar_obj {
  core : Lidar P G S;
  ptc_client_ : option C;
  init_finish_ : list bool;
  running_ : bool;
  udp_thread_running_ : bool;
  parser_thread_running_ : bool;
  use_timestamp_type_ : Z;
  fov_start_ : Z;
  fov_end_ : Z;
  correction_string_ : list Z;
  lidar_udp_port_ : Z;
  init_set_ptc : bool;   (* the thread of [InitSetPtc] runs *)
  init_at : init_place;
}.
Arguments mk_lidar_obj {P G S C}.
Arguments core {P G S C}.
Arguments ptc_client_ {P G S C}.
Arguments init_finish_ {P G S C}.
Arguments running_ {P G S C}.
Arguments udp_thread_running_ {P G S C}.
Arguments parser_thread_running_ {P G S C}.
Arguments use_timestamp_type_ {P G S C}.
Arguments fov_start_ {P G S C}.
Arguments fov_end_ {P G S C}.
Arguments correction_string_ {P G S C}.
Arguments lidar_udp_port_ {P G S C}.
Arguments init_set_ptc {P G S C}.
Arguments init_at {P G S C}.

Section Init.
Context {P G S C : Type} {D : Decoder P G} {T : TypedDecoder P G} {F : SourceFactory S} {PC : PtcPort C}.
Variable new_parser : parser_kind -> G.
Variable cpus : Z.
Variable fs : string -> option string.
Variable param : DriverParam.DriverParam.
Notation obj := (LidarObj P G S C).
Notation input := (DriverParam.input_param param).
Notation decoder := (DriverParam.decoder_param param).

(** [Lidar::Lidar] *)
Definition Lidar_new : obj :=
  mk_lidar_obj new_Lidar None (replicate TotalStatus false) true true true 0 (-1) (-1) [] 0 false WaitParser.

Definition set_core (l : Lidar P G S) (o : obj) : obj :=
  mk_lidar_obj l (ptc_client_ o) (init_finish_ o) (running_ o) (udp_thread_running_ o) (parser_thread_running_ o)
    (use_timestamp_type_ o) (fov_start_ o) (fov_end_ o) (correction_string_ o) (lidar_udp_port_ o) (init_set_ptc o) (init_at o).
Definition set_place (p : init_place) (o : obj) : obj :=
  mk_lidar_obj (core o) (ptc_client_ o) (init_finish_ o) (running_ o) (udp_thread_running_ o) (parser_thread_running_ o)
    (use_timestamp_type_ o) (fov_start_ o) (fov_end_ o) (correction_string_ o) (lidar_udp_port_ o) (init_set_ptc o) p.
(** init_finish_[i] = true *)
Definition finish (i : nat) (o : obj) : obj :=
  mk_lidar_obj (core o) (ptc_client_ o) (<[i := true]> (init_finish_ o)) (running_ o) (udp_thread_running_ o)
    (parser_thread_running_ o) (use_timestamp_type_ o) (fov_start_ o) (fov_end_ o) (correction_string_ o) (lidar_udp_port_ o)
    (init_set_ptc o) (init_at o).
(** The client after a call, with what was last fetched from it. *)
Definition set_ptc (c : option C) (corr : list Z) (o : obj) : obj :=
  mk_lidar_obj (core o) c (init_finish_ o) (running_ o) (udp_thread_running_ o) (parser_thread_running_ o)
    (use_timestamp_type_ o) (fov_start_ o) (fov_end_ o) corr (lidar_udp_port_ o) (init_set_ptc o) (init_at o).
Definition set_running (b ptc : bool) (o : obj) : obj :=
  mk_lidar_obj (core o) (ptc_client_ o) (init_finish_ o) b (udp_thread_running_ o) (parser_thread_running_ o)
    (use_timestamp_type_ o) (fov_start_ o) (fov_end_ o) (correction_string_ o) (lidar_udp_port_ o) ptc (init_at o).

Definition finished (i : nat) (o : obj) : bool := default false (init_finish_ o !! i).

(** ** Queries *)

Definition client_of (o : obj) : result C := of_option NullPointer (ptc_client_ o).

(** [PtcClient::GetCorrectionInfo(dataOut)] *)
Definition GetCorrectionInfo (c : C) : result (Z * list Z * C) :=
  '(ret, out, c) ← ptc_QueryCommand [] PtcClient.kPTCGetLidarCalibration c;
  Ok (if (ret =? 0) && negb (Nat.eqb (length out) 0) then 0 else -1, out, c).

Definition SetStandbyMode (standby_mode : Z) (c : C) : result (Z * C) :=
  '(r, _, c) ← ptc_QueryCommand [u8 standby_mode] CMD_SET_STANDBY_MODE c; Ok (r, c).
Definition SetSpinSpeed (speed : Z) (c : C) : result (Z * C) :=
  '(r, _, c) ← ptc_QueryCommand [u8 (Z.shiftr speed 8); u8 speed] CMD_SET_SPIN_SPEED c; Ok (r, c).

(** [LoadCorrectionForUdpParser], with the query. *)
Definition LoadCorrectionFromLidar (o : obj) : result (Z * obj) :=
  c ← client_of o;
  '(ret, sData, c) ← GetCorrectionInfo c;
  if negb (ret =? 0) then Ok (-1, set_ptc (Some c) (correction_string_ o) o)
  else
    '(r, l) ← LoadCorrectionForUdpParser (Some (string_of sData)) (core o);
    Ok (r, set_core l (set_ptc (Some c) sData o)).

Definition LoadCorrectionFromROSbag (o : obj) : result (Z * obj) :=
  '(r, l) ← Lidar.LoadCorrectionString (string_of (correction_string_ o)) (core o); Ok (r, set_core l o).

(** [SaveCorrectionFile] with what is written to the file; [good] tells whether it
    can be opened. *)
Definition SaveCorrectionFile (good : bool) (o : obj) : result (Z * option string * obj) :=
  c ← client_of o;
  '(ret, raw_data, c) ← GetCorrectionInfo c;
  if negb (ret =? 0) then Ok (-1, None, set_ptc (Some c) (correction_string_ o) o)
  else
    let o := set_ptc (Some c) raw_data o in
    s ← c_string (string_of raw_data);
    Ok (if good then (0, Some s, o) else (-1, None, o)).

(** ** Init *)

(** The beginning: the source, the threads, the connection. *)
Definition Init_start (o : obj) : result obj :=
  src ← (if DriverParam.source_type input =? 2 then s ← source_Open (new_PcapSource (DriverParam.pcap_path input)); Ok (Some s)
         else if DriverParam.source_type input =? 1 then
           s ← source_Open (new_SocketSource (DriverParam.udp_port input) (DriverParam.multicast_ip_address input)); Ok (Some s)
         else Ok (source_ (core o)));
  src ← (if 0 <? DriverParam.socket_buffer_size decoder then
           s ← of_option NullPointer src; s ← source_SetSocketBufferSize (DriverParam.socket_buffer_size decoder) s; Ok (Some s)
         else Ok src);
  l ← SetThreadNum cpus (DriverParam.thread_num decoder) (SetSource src (core o));
  let from_lidar := DriverParam.source_type input =? 1 in
  let c := if from_lidar
    then Some (new_PtcClient (PtcOpen.mk_ptc_args (DriverParam.device_ip_address input) (DriverParam.ptc_port input)
      (DriverParam.ptc_mode input) (DriverParam.certFile input) (DriverParam.privateKeyFile input) (DriverParam.caFile input) 2000 2000))
    else ptc_client_ o in
  Ok (mk_lidar_obj l c (init_finish_ o)
        (running_ o || negb (handle_thread_count_ (core o) =? handle_thread_count_ l))
        (DriverParam.enable_udp_thread decoder) (DriverParam.enable_parser_thread decoder)
        (DriverParam.use_timestamp_type decoder) (DriverParam.fov_start decoder) (DriverParam.fov_end decoder)
        (correction_string_ o) (DriverParam.udp_port input) from_lidar WaitParser).

(** The parser's settings. *)
Definition configure (l : Lidar P G S) : Lidar P G S :=
  let t := DriverParam.transform_param decoder in
  let u := on_general (GeneralParser.SetOpticalCenterCoordinates (DriverParam.distance_correction_lidar_type decoder)) (udp_parser_ l) in
  let u := match parser_ u with Some g => set_parser (Some (v_SetLidarType (DriverParam.lidar_type param) g)) u | None => u end in
  let u := (SetTransformPara (DriverParam.x t) (DriverParam.y t) (DriverParam.z t)
              (DriverParam.roll t) (DriverParam.pitch t) (DriverParam.yaw t) u).2 in
  let u := SetPcapPlay (DriverParam.pcap_play_synchronization decoder) (DriverParam.source_type input) u in
  let u := SetFrameAzimuth (DriverParam.frame_start_azimuth decoder) u in
  let u := on_general (fun p => set_loss (EnablePacketLossTool (DriverParam.enable_packet_loss_tool decoder) (loss_ p)) p) u in
  let u := on_general (fun p => set_loss (EnablePacketTimeLossTool (DriverParam.enable_packet_timeloss_tool decoder) (loss_ p)) p) u in
  let u := on_general (fun p => set_loss (PacketTimeLossToolContinue (DriverParam.packet_timeloss_tool_continue decoder) (loss_ p)) p) u in
  set_parsed u (frame_ l) l.

(** A turn of [Init]: one pass of a loop, or the statements up to the next. *)
Definition init_turn (host : Z) (now : nat -> Z) (o : obj) : result obj :=
  match init_at o with
  | WaitParser =>
      let l := core o in
      match parser_ (udp_parser_ l) with
      | None =>
          if running_ o then
            let '(p, l) := GetOnePacket l in
            match p with
            | None => Ok (set_core l o)
            | Some p => '(_, _, l) ← DecodePacket new_parser host now p l; Ok (set_core l o)
            end
          else Ok (set_place (Returned (-1)) (set_core (set_parsed (udp_parser_ l) (set_counts 0 (points_num (frame_ l)) (frame_ l)) l) o))
      | Some _ =>
          let l := set_parsed (udp_parser_ l) (set_counts 0 (points_num (frame_ l)) (frame_ l)) l in
          let o := finish FaultMessParse (set_core (configure l) o) in
          Ok (set_place (if DriverParam.source_type input =? 1 then WaitPtc else LoadCorrection) o)
      end
  | WaitPtc =>
      c ← client_of o;
      b ← ptc_IsOpen c;
      Ok (if negb b && running_ o then o else set_place LoadCorrection o)
  | LoadCorrection =>
      let file o := l ← Lidar.LoadCorrectionFile fs (DriverParam.correction_file_path input) (core o); Ok (set_core l o) in
      o ← (if DriverParam.source_type input =? 1 then
             '(r, o) ← LoadCorrectionFromLidar o;
             if r =? -1 then file o else Ok o
           else if (DriverParam.source_type input =? 2) || (DriverParam.source_type input =? 3) then file o
           else Ok o);
      Ok (set_place LoadFiretimes o)
  | LoadFiretimes =>
      l ← Lidar.LoadFiretimesFile fs (DriverParam.firetimes_path input) (core o);
      Ok (set_place (Returned 0) (finish PointCloudParse (set_core l o)))
  | Returned _ => Ok o
  end.

(** A turn of [InitSetPtc], which works on a copy of the parameters. *)
Definition set_ptc_turn (o : obj) : result obj :=
  if negb (init_set_ptc o) then Ok o
  else if negb (running_ o) then Ok (set_running (running_ o) false o)
  else
    c ← client_of o;
    b ← ptc_IsOpen c;
    if negb b then Ok o
    else
      '(_, c) ← (if DriverParam.standby_mode input =? -1 then Ok (0, c) else SetStandbyMode (DriverParam.standby_mode input) c);
      '(_, c) ← (if DriverParam.speed input =? -1 then Ok (0, c) else SetSpinSpeed (DriverParam.speed input) c);
      Ok (set_running (running_ o) false (set_ptc (Some c) (correction_string_ o) (finish PtcInitFinish o))).

(** ** Runs *)

Inductive init_event : Type :=
| EvInit (host : Z) (now : nat -> Z)
| EvSetPtc
| EvPtcThread
| EvArrive (p : UdpPacket)
| EvStop.

(** A packet arrives only through the receiving thread; [EvStop] is the end of
    [running_]. *)
Definition receiving (o : obj) : bool :=
  recieve_thread (core o) && udp_thread_running_ o && running_ o &&
  (Z.of_nat (length (origin_packets_buffer_ (core o))) <? kPacketBufferSize).

Definition init_step (o : obj) (e : init_event) : result obj :=
  match e with
  | EvInit host now => init_turn host now o
  | EvSetPtc => set_ptc_turn o
  | EvPtcThread =>
      match ptc_client_ o with Some c => c ← ptc_thread c; Ok (set_ptc (Some c) (correction_string_ o) o) | None => Ok o end
  | EvArrive p =>
      let l := core o in
      Ok (if receiving o then set_core (set_origin (source_ l) (origin_packets_buffer_ l ++ [p]) (is_timeout_ l) l) o else o)
  | EvStop => Ok (set_running false (init_set_ptc o) o)
  end.

Definition init_run (es : list init_event) (o : obj) : result obj := foldM init_step o es.

(** ** Recording *)

Definition GetLidarType (o : obj) : string := lidar_type_decoded_ (udp_parser_ (core o)).

(** [StartRecordPcap] on the recorder [s], whose recording is closed; [good] tells
    whether the file can be opened. *)
Definition StartRecordPcap (good : bool) (s : PcapSaver.PcapSaver) (o : obj) : Z * PcapSaver.PcapSaver * obj :=
  let l := core o in
  let l := set_parsed (GetPcapSaver (udp_parser_ l)) (frame_ l) l in
  (-1, (PcapSaver.start_saver s good).2, set_core (EnableRecordPcap true l) o).

(** [StopRecordPcap]: [close] clears [dumping_], then waits for the thread. *)
Definition StopRecordPcap (junk : list Z) (s : PcapSaver.PcapSaver) (o : obj) : result (Z * PcapSaver.PcapSaver * obj) :=
  let l := EnableRecordPcap false (core o) in
  s ← PcapSaver.saver_step junk s PcapSaver.EvStop;
  Ok (-1, s, set_core (set_parsed (GetPcapSaver (udp_parser_ l)) (frame_ l) l) o).

(** [SaveUdpPacket] of a frame and of several. *)
Definition SaveUdpPacket (ts : nat -> Z * Z) (junk : list Z) (good : bool) (file : option (list Z)) (packets : list UdpPacket) (port : Z)
    (o : obj) : result (Z * option (list Z) * obj) :=
  '(ret, file) ← PcapSaver.Save_frame ts junk good file packets port;
  Ok (ret, file, set_core (set_parsed (GetPcapSaver (udp_parser_ (core o))) (frame_ (core o)) (core o)) o).
Definition SaveUdpPackets (ts : nat -> Z * Z) (junk : list Z) (good : bool) (file : option (list Z)) (packets : list (list UdpPacket)) (port : Z)
    (o : obj) : result (Z * option (list Z) * obj) :=
  '(ret, file) ← PcapSaver.Save_frames ts junk good file packets port;
  Ok (ret, file, set_core (set_parsed (GetPcapSaver (udp_parser_ (core o))) (frame_ (core o)) (core o)) o).

End Init.

(** ** The state between the turns *)

Section Inv.
Context {P G S C : Type} {D : Decoder P G} {T : TypedDecoder P G} {F : SourceFactory S} {PC : PtcPort C}.
Variable new_parser : parser_kind -> G.
Variable cpus : Z.
Variable fs : string -> option string.
Variable param : DriverParam.DriverParam.
Implicit Types (o : LidarObj P G S C) (l : Lidar P G S).

Definition has_parser (l : Lidar P G S) : Prop := is_Some (parser_ (udp_parser_ l)).

(** What [Init] has done so far; -1 is the answer of an [Init] that was stopped
    while it waited. *)
Definition init_inv o : Prop :=
  length (init_finish_ o) = TotalStatus /\
  (finished PointCloudParse o = true <-> init_at o = Returned 0) /\
  match init_at o with
  | WaitParser => finished FaultMessParse o = false
  | Returned r => r = 0 /\ finished FaultMessParse o = true /\ has_parser (core o) \/
      r = -1 /\ finished FaultMessParse o = false /\ parser_ (udp_parser_ (core o)) = None /\ running_ o = false
  | _ => finished FaultMessParse o = true /\ has_parser (core o)
  end.

Lemma finished_finish i j o : length (init_finish_ o) = TotalStatus -> (i < TotalStatus)%nat ->
  finished j (finish i o) = bool_decide (i = j) || finished j o.
Proof.
  intros Hl Hi. unfold finished. cbn. destruct (bool_decide_reflect (i = j)) as [->|Hn].
  - by rewrite list_lookup_insert_eq by (rewrite Hl; done).
  - by rewrite list_lookup_insert_ne.
Qed.

Lemma load_correction_file_keeps path l l' : Lidar.LoadCorrectionFile fs path l = Ok l' -> has_parser l -> has_parser l'.
Proof.
  unfold Lidar.LoadCorrectionFile, UdpParser.LoadCorrectionFile, has_parser. intros E [g Hg]. rewrite Hg in E.
  inv_ok. done.
Qed.

Lemma load_firetimes_keeps path l l' : Lidar.LoadFiretimesFile fs path l = Ok l' -> has_parser l -> has_parser l'.
Proof.
  unfold Lidar.LoadFiretimesFile, UdpParser.LoadFiretimesFile, has_parser. intros E [g Hg]. rewrite Hg in E.
  inv_ok. done.
Qed.

Lemma load_string_keeps s l r l' : Lidar.LoadCorrectionString s l = Ok (r, l') -> has_parser l -> has_parser l'.
Proof.
  unfold Lidar.LoadCorrectionString, UdpParser.LoadCorrectionString, has_parser. intros E [g Hg]. rewrite Hg in E.
  rewrite bind_ok in E. destruct E as ([r1 u] & E & [= <- <-]). rewrite bind_ok in E.
  destruct E as ([r2 g2] & _ & [= <- <-]). by eexists.
Qed.

(** Loading from the lidar changes the parser and the client only. *)
Lemma from_lidar_keeps o r o' : LoadCorrectionFromLidar o = Ok (r, o') -> has_parser (core o) ->
  has_parser (core o') /\ init_finish_ o' = init_finish_ o /\ init_at o' = init_at o /\ running_ o' = running_ o.
Proof.
  unfold LoadCorrectionFromLidar, client_of. rewrite bind_ok. intros (c & _ & H) Hp. rewrite bind_ok in H.
  destruct H as ([[ret out] c1] & _ & H). destruct (negb _); [by injection H as <- <-|].
  rewrite bind_ok in H. destruct H as ([r1 l] & E & H). injection H as <- <-. cbn. split; [|done].
  by eapply load_string_keeps.
Qed.

Lemma configure_keeps l : has_parser l -> has_parser (configure param l).
Proof.
  intros [g Hg]. unfold has_parser, configure. cbn [udp_parser_ set_parsed].
  unfold SetTransformPara, SetFrameAzimuth, on_general. rewrite Hg. cbn. done.
Qed.

(** A packet that [Init] takes before there is a parser. *)
Lemma decode_without_parser host now f pkt (u : UdpParser G) : parser_ u = None ->
  UdpParser.DecodePacket (P := P) new_parser host now f pkt u =
    if packet_len pkt <? 6 then Ok (-1, None, GetPcapSaver u, set_scan_complete false f)
    else k ← kind_of_packet pkt; Ok (0, None, create new_parser k (GetPcapSaver u), f).
Proof.
  intros Hn. unfold UdpParser.DecodePacket. cbn [parser_ GetPcapSaver]. rewrite Hn. destruct (_ <? _); [done|].
  unfold CreatGeneralParser_packet. cbn [parser_ GetPcapSaver]. rewrite Hn.
  by destruct (kind_of_packet pkt).
Qed.

Lemma not_yet o p : finished PointCloudParse o = false -> p <> Returned 0 -> finished PointCloudParse o = true <-> p = Returned 0.
Proof. intros -> Hp. by split. Qed.

Lemma init_turn_inv host now o o' : init_inv o -> init_turn new_parser fs param host now o = Ok o' -> init_inv o'.
Proof.
  intros (Hl & Hd & Hp).
  assert (init_at o <> Returned 0 -> finished PointCloudParse o = false) as Hf.
  { intros Hn. destruct (finished PointCloudParse o); [by destruct Hn; apply Hd|done]. }
  unfold init_turn. destruct (init_at o) eqn:Ea; try (specialize (Hf ltac:(done))).
  - destruct (parser_ (udp_parser_ (core o))) as [g|] eqn:Eg.
    + intros [= <-]. set (o1 := set_core _ o).
      pose proof (finished_finish FaultMessParse PointCloudParse o1 Hl ltac:(unfold FaultMessParse, TotalStatus; lia)) as F2.
      pose proof (finished_finish FaultMessParse FaultMessParse o1 Hl ltac:(unfold FaultMessParse, TotalStatus; lia)) as F0.
      split; [by cbn; rewrite length_insert|]. split.
      * apply not_yet; [etrans; [exact F2|exact Hf]|]. cbn. by destruct (_ =? 1).
      * assert (finished FaultMessParse (finish FaultMessParse o1) = true /\ has_parser (core o1)) as Hc.
        { split; [rewrite F0; done|]. apply configure_keeps. by exists g. }
        cbn [init_at set_place]. destruct (_ =? 1); exact Hc.
    + destruct (running_ o) eqn:Er.
      * unfold GetOnePacket. destruct (origin_packets_buffer_ (core o)) as [|p ps].
        -- intros [= <-]. split; [done|]. cbn. rewrite Ea. by split; [apply not_yet|].
        -- rewrite bind_ok. intros ([[r w] l] & _ & [= <-]). split; [done|]. cbn. rewrite Ea. by split; [apply not_yet|].
      * intros [= <-]. split; [done|]. split; [by apply not_yet|by right].
  - rewrite bind_ok. intros (c & _ & H). rewrite bind_ok in H. destruct H as (b & _ & [= <-]).
    destruct (_ && _); (split; [done|]); [rewrite Ea|]; by split; [apply not_yet|].
  - rewrite bind_ok. intros (o1 & E & [= <-]).
    assert (has_parser (core o1) /\ init_finish_ o1 = init_finish_ o) as [Hp1 Hf1].
    { assert (forall o2, init_finish_ o2 = init_finish_ o -> has_parser (core o2) ->
        (l ← Lidar.LoadCorrectionFile fs (DriverParam.correction_file_path (DriverParam.input_param param)) (core o2); Ok (set_core l o2)) = Ok o1 ->
        has_parser (core o1) /\ init_finish_ o1 = init_finish_ o) as Hfile.
      { intros o2 Ef Ho2. rewrite bind_ok. intros (l & El & [= <-]). split; [|done]. by eapply load_correction_file_keeps. }
      destruct (_ =? 1).
      - rewrite bind_ok in E. destruct E as ([r o2] & E2 & E). apply from_lidar_keeps in E2 as (H2 & Hf2 & _); [|apply Hp].
        destruct (r =? -1); [by eapply Hfile|by injection E as <-].
      - destruct (_ || _); [|injection E as <-; split; [apply Hp|done]]. eapply Hfile; [done|apply Hp|exact E]. }
    unfold init_inv, finished in *. cbn. rewrite Hf1. split; [done|]. split; [|split; [apply Hp|done]].
    rewrite Hf. done.
  - rewrite bind_ok. intros (l & E & [= <-]). split; [by cbn; rewrite length_insert|].
    pose proof (finished_finish PointCloudParse PointCloudParse (set_core l o) Hl ltac:(unfold PointCloudParse, TotalStatus; lia)) as F2.
    pose proof (finished_finish PointCloudParse FaultMessParse (set_core l o) Hl ltac:(unfold PointCloudParse, TotalStatus; lia)) as F0.
    split; [split; [done|intros _; exact F2]|]. left. split; [done|]. split.
    + etrans; [exact F0|]. cbn [orb bool_decide]. apply Hp.
    + eapply load_firetimes_keeps; [exact E|apply Hp].
  - intros [= <-]. split; [done|]. by rewrite Ea.
Qed.

Lemma set_ptc_turn_keeps o o' : length (init_finish_ o) = TotalStatus -> set_ptc_turn param o = Ok o' ->
  core o' = core o /\ init_at o' = init_at o /\ running_ o' = running_ o /\ length (init_finish_ o') = TotalStatus /\
  finished FaultMessParse o' = finished FaultMessParse o /\ finished PointCloudParse o' = finished PointCloudParse o.
Proof.
  intros Hl. unfold set_ptc_turn. destruct (negb (init_set_ptc o)); [by intros [= <-]|].
  destruct (negb (running_ o)); [by intros [= <-]|]. rewrite bind_ok. intros (c & _ & H). rewrite bind_ok in H.
  destruct H as (b & _ & H). destruct (negb b); [by injection H as <-|]. rewrite bind_ok in H. destruct H as ([r1 c1] & _ & H).
  rewrite bind_ok in H. destruct H as ([r2 c2] & _ & [= <-]). cbn. rewrite length_insert. repeat split; try done;
    unfold finished; cbn; by rewrite list_lookup_insert_ne.
Qed.

Lemma init_step_inv o e o' : init_inv o -> init_step new_parser fs param o e = Ok o' -> init_inv o'.
Proof.
  intros Hi. destruct e; cbn [init_step].
  - by apply init_turn_inv.
  - destruct Hi as (Hl & Hd & Hp). intros H. apply set_ptc_turn_keeps in H as (Ec & Ea & Er & El & E0 & E2); [|done].
    unfold init_inv. by rewrite E0, E2, Ea, Ec, Er.
  - destruct (ptc_client_ o); [|by intros [= <-]]. rewrite bind_ok. by intros (c' & _ & [= <-]).
  - intros [= <-]. destruct (receiving o); [|done]. destruct Hi as (Hl & Hd & Hp). split; [done|]. split; [done|]. exact Hp.
  - intros [= <-]. destruct Hi as (Hl & Hd & Hp). split; [done|]. split; [done|]. cbn. destruct (init_at o); try done.
    destruct Hp as [Hp|Hp]; [by left|by right; naive_solver].
Qed.

Lemma init_start_inv o : Init_start cpus param (Lidar_new : LidarObj P G S C) = Ok o ->
  init_inv o /\ init_at o = WaitParser.
Proof.
  unfold Init_start. rewrite bind_ok. intros (s1 & _ & H). rewrite bind_ok in H. destruct H as (s2 & _ & H).
  rewrite bind_ok in H. by destruct H as (l & _ & [= <-]).
Qed.

(** *** What a turn leaves alone *)

(** The flags are only ever set, [Init] never sets the last one, and no turn ends
    [running_]. *)
Definition later o o' : Prop :=
  running_ o' = running_ o /\ finished AllInitFinish o' = finished AllInitFinish o /\
  length (init_finish_ o') = length (init_finish_ o) /\
  forall i, finished i o = true -> finished i o' = true.

Lemma later_same o o' : running_ o' = running_ o -> init_finish_ o' = init_finish_ o -> later o o'.
Proof. intros Hr Hf. unfold later, finished. rewrite Hf. done. Qed.

Lemma later_finish i o o' : i <> AllInitFinish -> running_ o' = running_ o -> init_finish_ o' = <[i := true]> (init_finish_ o) -> later o o'.
Proof.
  intros Hi Hr Hf. unfold later, finished. rewrite Hf, length_insert. split; [done|]. split; [by rewrite list_lookup_insert_ne|].
  split; [done|]. intros j Hj. destruct (decide (i = j)) as [->|Hn]; [|by rewrite list_lookup_insert_ne].
  destruct (init_finish_ o !! j) eqn:E; [|done]. by rewrite list_lookup_insert_eq by (by eapply lookup_lt_Some).
Qed.

Lemma from_lidar_later o r o' : LoadCorrectionFromLidar o = Ok (r, o') -> later o o'.
Proof.
  unfold LoadCorrectionFromLidar. rewrite bind_ok. intros (c & _ & H). rewrite bind_ok in H.
  destruct H as ([[ret out] c1] & _ & H). destruct (negb _); [injection H as <- <-; by apply later_same|].
  rewrite bind_ok in H. destruct H as ([r1 l] & _ & H). injection H as <- <-. by apply later_same.
Qed.

Lemma init_turn_later host now o o' : init_turn new_parser fs param host now o = Ok o' -> later o o'.
Proof.
  unfold init_turn. destruct (init_at o) eqn:Ea.
  - destruct (parser_ (udp_parser_ (core o))) as [g|]; [intros [= <-]; by apply (later_finish FaultMessParse)|].
    destruct (running_ o) eqn:Er; [|intros [= <-]; by apply later_same].
    destruct (GetOnePacket (core o)) as [[p|] l]; [|intros [= <-]; by apply later_same].
    rewrite bind_ok. intros ([[r w] l1] & _ & [= <-]). by apply later_same.
  - rewrite bind_ok. intros (c & _ & H). rewrite bind_ok in H. destruct H as (b & _ & [= <-]).
    destruct (_ && _); by apply later_same.
  - rewrite bind_ok. intros (o1 & E & [= <-]). assert (later o o1) as (H1 & H2 & H3 & H4); [|done].
    assert (forall o2, later o o2 ->
      (l ← Lidar.LoadCorrectionFile fs (DriverParam.correction_file_path (DriverParam.input_param param)) (core o2); Ok (set_core l o2)) = Ok o1 ->
      later o o1) as Hfile.
    { intros o2 Ho2. rewrite bind_ok. by intros (l & _ & [= <-]). }
    destruct (_ =? 1).
    + rewrite bind_ok in E. destruct E as ([r o2] & E2 & E). apply from_lidar_later in E2.
      destruct (r =? -1); [by eapply Hfile|by injection E as <-].
    + destruct (_ || _); [|injection E as <-; by apply later_same]. by eapply Hfile; [apply later_same|].
  - rewrite bind_ok. intros (l & _ & [= <-]). by apply (later_finish PointCloudParse).
  - intros [= <-]. by apply later_same.
Qed.

Lemma init_step_later o e o' : e <> EvStop -> init_step new_parser fs param o e = Ok o' -> later o o'.
Proof.
  intros He. destruct e; cbn [init_step]; try done.
  - apply init_turn_later.
  - unfold set_ptc_turn. destruct (negb (init_set_ptc o)); [intros [= <-]; by apply later_same|].
    destruct (negb (running_ o)); [intros [= <-]; by apply later_same|]. rewrite bind_ok. intros (c & _ & H). rewrite bind_ok in H.
    destruct H as (b & _ & H). destruct (negb b); [injection H as <-; by apply later_same|]. rewrite bind_ok in H. destruct H as ([r1 c1] & _ & H).
    rewrite bind_ok in H. destruct H as ([r2 c2] & _ & [= <-]). by apply (later_finish PtcInitFinish).
  - destruct (ptc_client_ o); [|intros [= <-]; by apply later_same]. rewrite bind_ok. intros (c' & _ & [= <-]). by apply later_same.
  - intros [= <-]. destruct (receiving o); by apply later_same.
Qed.

Lemma init_inv_parser o : init_inv o -> finished FaultMessParse o = true -> has_parser (core o).
Proof.
  intros (Hl & Hd & Hp) H0. destruct (init_at o); [congruence|apply Hp..|].
  destruct Hp as [(_ & _ & Hp)|(_ & Hp & _)]; [done|congruence].
Qed.

Lemma init_start_later o : Init_start cpus param (Lidar_new : LidarObj P G S C) = Ok o ->
  running_ o = true /\ finished AllInitFinish o = false.
Proof.
  unfold Init_start. rewrite bind_ok. intros (s1 & _ & H). rewrite bind_ok in H. destruct H as (s2 & _ & H).
  rewrite bind_ok in H. by destruct H as (l & _ & [= <-]).
Qed.

End Inv.

(** ** What the wait for a parser does *)

Section Wait.
Context {P G S C : Type} {D : Decoder P G} {L : DecoderLaws P G} {T : TypedDecoder P G} {F : SourceFactory S} {PC : PtcPort C}.
Variable new_parser : parser_kind -> G.
Variable cpus : Z.
Variable fs : string -> option string.
Variable param : DriverParam.DriverParam.
Implicit Types (o : LidarObj P G S C) (l : Lidar P G S).

(** A packet [Init] drops: too short, or of no known lidar. *)
Definition unknown (p : UdpPacket) : Prop := packet_len p < 6 \/ kind_of_packet p = Ok None.

(** The settings of a parser. *)
Definition settle (p : GeneralParser) : GeneralParser :=
  let d := DriverParam.decoder_param param in
  let t := DriverParam.transform_param d in
  set_loss (PacketTimeLossToolContinue (DriverParam.packet_timeloss_tool_continue d)
    (EnablePacketTimeLossTool (DriverParam.enable_packet_timeloss_tool d)
    (EnablePacketLossTool (DriverParam.enable_packet_loss_tool d) (loss_ p))))
  (GeneralParser.SetFrameAzimuth (DriverParam.frame_start_azimuth d)
  (GeneralParser.SetTransformPara (DriverParam.x t) (DriverParam.y t) (DriverParam.z t)
    (DriverParam.roll t) (DriverParam.pitch t) (DriverParam.yaw t)
  (GeneralParser.SetOpticalCenterCoordinates (DriverParam.distance_correction_lidar_type d) p))).

Lemma optical_keeps_loss ty p : loss_ (GeneralParser.SetOpticalCenterCoordinates ty p) = loss_ p.
Proof. unfold GeneralParser.SetOpticalCenterCoordinates. by destruct (optical_table ty) as [[? ?]|]. Qed.

Lemma configure_settles l g : parser_ (udp_parser_ l) = Some g ->
  exists g', parser_ (udp_parser_ (configure param l)) = Some g' /\ general g' = settle (general g).
Proof.
  intros Hg. unfold configure. cbn [udp_parser_ set_parsed]. unfold SetTransformPara, SetFrameAzimuth, on_general. rewrite Hg. cbn.
  eexists. split; [done|]. rewrite !general_with, !set_type_general, !general_with.
  unfold settle. cbn. by rewrite optical_keeps_loss.
Qed.

Lemma configure_keeps_rest l :
  origin_packets_buffer_ (configure param l) = origin_packets_buffer_ l /\ frame_ (configure param l) = frame_ l /\
  lidar_type_decoded_ (udp_parser_ (configure param l)) = lidar_type_decoded_ (udp_parser_ l).
Proof.
  assert (forall k (u : UdpParser G), lidar_type_decoded_ (on_general k u) = lidar_type_decoded_ u) as Ht.
  { intros k u. unfold on_general. by destruct (parser_ u). }
  unfold configure. cbn [origin_packets_buffer_ frame_ udp_parser_ set_parsed]. split; [done|]. split; [done|].
  rewrite !Ht. unfold SetFrameAzimuth, SetTransformPara. rewrite Ht. cbn [snd SetPcapPlay lidar_type_decoded_]. rewrite Ht.
  destruct (parser_ _); cbn [set_parser lidar_type_decoded_]; by rewrite Ht.
Qed.

(** The wait, at a packet it cannot use. *)
Lemma init_drops host now o p ps :
  init_at o = WaitParser -> running_ o = true -> parser_ (udp_parser_ (core o)) = None ->
  origin_packets_buffer_ (core o) = p :: ps -> unknown p ->
  exists o', init_turn new_parser fs param host now o = Ok o' /\ init_at o' = WaitParser /\ running_ o' = true /\
    parser_ (udp_parser_ (core o')) = None /\ origin_packets_buffer_ (core o') = ps /\
    points (frame_ (core o')) = points (frame_ (core o)) /\ init_finish_ o' = init_finish_ o.
Proof.
  intros Ha Hr Hn Hq Hu. unfold init_turn. rewrite Ha, Hn, Hr. unfold GetOnePacket. rewrite Hq.
  unfold DecodePacket. rewrite decode_without_parser by done.
  destruct (Z.ltb_spec (packet_len p) 6).
  - eexists. split; [reflexivity|]. cbn. done.
  - destruct Hu as [Hu|Hu]; [lia|]. rewrite Hu. eexists. split; [reflexivity|]. unfold create. cbn. by rewrite Hn.
Qed.

(** The wait, at the packet that chooses the parser. *)
Lemma init_chooses host now o p ps k ty :
  init_at o = WaitParser -> running_ o = true -> parser_ (udp_parser_ (core o)) = None ->
  origin_packets_buffer_ (core o) = p :: ps -> 6 <= packet_len p -> kind_of_packet p = Ok (Some (k, ty)) ->
  exists o', init_turn new_parser fs param host now o = Ok o' /\ init_at o' = WaitParser /\
    parser_ (udp_parser_ (core o')) = Some (new_parser k) /\ lidar_type_decoded_ (udp_parser_ (core o')) = ty /\
    origin_packets_buffer_ (core o') = ps /\
    points (frame_ (core o')) = points (frame_ (core o)) /\ init_finish_ o' = init_finish_ o.
Proof.
  intros Ha Hr Hn Hq Hl Hk. unfold init_turn. rewrite Ha, Hn, Hr. unfold GetOnePacket. rewrite Hq.
  unfold DecodePacket. rewrite decode_without_parser by done.
  destruct (Z.ltb_spec (packet_len p) 6); [lia|]. rewrite Hk. eexists. split; [reflexivity|]. unfold create. cbn. by rewrite Hn.
Qed.

(** With no receiving thread nothing ever arrives. *)
Definition deaf o : Prop :=
  init_at o = WaitParser /\ running_ o = true /\ parser_ (udp_parser_ (core o)) = None /\
  origin_packets_buffer_ (core o) = [] /\ recieve_thread (core o) = false.

Lemma deaf_step o e o' : deaf o -> e <> EvStop -> length (init_finish_ o) = TotalStatus ->
  init_step new_parser fs param o e = Ok o' -> deaf o' /\ length (init_finish_ o') = TotalStatus.
Proof.
  intros (Ha & Hr & Hn & Hq & Ht) Hs Hl. destruct e; cbn [init_step]; try done.
  - unfold init_turn. rewrite Ha, Hn, Hr. unfold GetOnePacket. rewrite Hq. intros [= <-]. by repeat split.
  - intros H. apply (set_ptc_turn_keeps param) in H as (Ec & Ea & Er & El & _); [|done]. unfold deaf. by rewrite Ec, Ea, Er.
  - destruct (ptc_client_ o); [|by intros [= <-]]. rewrite bind_ok. by intros (c' & _ & [= <-]).
  - intros [= <-]. unfold receiving. by rewrite Ht.
Qed.

End Wait.

(** The C string at a block of bytes. *)
Lemma c_string_bytes a : Forall is_u8 a -> 0 ∉ a -> forall rest,
  c_string (string_of (a ++ 0 :: rest)) = Ok (string_of a) /\ c_string (string_of a) = Err OutOfBounds.
Proof.
  induction a as [|b a IH]; intros Ha Hn rest; [done|]. apply Forall_cons in Ha as [Hb Ha].
  apply not_elem_of_cons in Hn as [Hz Hn]. destruct (IH Ha Hn rest) as [IH1 IH2].
  change (string_of ((b :: a) ++ 0 :: rest)) with (String (Ascii.ascii_of_nat (Z.to_nat b)) (string_of (a ++ 0 :: rest))).
  change (string_of (b :: a)) with (String (Ascii.ascii_of_nat (Z.to_nat b)) (string_of a)). cbn [c_string].
  rewrite IH1, IH2. destruct (Ascii.eqb_spec (Ascii.ascii_of_nat (Z.to_nat b)) Ascii.zero) as [E|E]; [|done].
  apply (f_equal Ascii.nat_of_ascii) in E. rewrite Ascii.nat_ascii_embedding in E by (width; lia). change (Ascii.nat_of_ascii Ascii.zero) with 0%nat in E. width. lia.
Qed.

(** ** Properties *)

Section Properties.
Context {P G S C : Type} {D : Decoder P G} {L : DecoderLaws P G} {T : TypedDecoder P G} {F : SourceFactory S} {PC : PtcPort C}.
Variable new_parser : parser_kind -> G.
Variable cpus : Z.
Variable fs : string -> option string.
Variable param : DriverParam.DriverParam.
Implicit Types (o : LidarObj P G S C).

(** C18: what the flags promise to [Run] and to the application, after any sequence of
    turns of [Init], of the thread that sends the settings, of the thread that
    connects, of arrivals and of a stop: a parser exists once the first flag is
    set, the flag of the calibration is set exactly when [Init] has returned 0, and
    [Init] returns -1 only when it was stopped before a packet chose a parser. *)
Theorem init_flags_sound es o0 o :
  Init_start cpus param (Lidar_new : LidarObj P G S C) = Ok o0 -> init_run new_parser fs param es o0 = Ok o ->
  (finished FaultMessParse o = true -> has_parser (core o)) /\
  (finished PointCloudParse o = true <-> init_at o = Returned 0) /\
  (finished PointCloudParse o = true -> finished FaultMessParse o = true) /\
  (forall r, init_at o = Returned r -> r = 0 \/ (r = -1 /\ running_ o = false /\ parser_ (udp_parser_ (core o)) = None)).
Proof.
  intros Hs Hr. assert (init_inv o) as (Hl & Hd & Hp).
  { revert Hr. apply (foldM_invariant init_inv); [intros o1 e o2 _; apply init_step_inv|].
    by apply (init_start_inv cpus param). }
  split; [|split; [done|split]].
  - by apply init_inv_parser.
  - intros H2%Hd. rewrite H2 in Hp. destruct Hp as [(_ & Hp & _)|(Hp & _)]; [done|lia].
  - intros r Hat. rewrite Hat in Hp. destruct Hp as [(-> & _)|(-> & _ & Hp & Hr')]; auto.
Qed.

(** The wait for a parser takes exactly the packets up to the first one that
    names a lidar, and that one too is used for nothing else: it does not become
    part of a frame.  The parser it chose then has the settings of the parameters,
    and the first flag is set. *)
Theorem init_consumes_first_packet hs o pre p post k ty :
  init_at o = WaitParser -> running_ o = true -> parser_ (udp_parser_ (core o)) = None -> length (init_finish_ o) = TotalStatus ->
  origin_packets_buffer_ (core o) = pre ++ p :: post -> Forall unknown pre ->
  6 <= packet_len p -> kind_of_packet p = Ok (Some (k, ty)) -> length hs = (length pre + 2)%nat ->
  exists o' g, init_run new_parser fs param ((fun h => EvInit h.1 h.2) <$> hs) o = Ok o' /\
    init_at o' = (if DriverParam.source_type (DriverParam.input_param param) =? 1 then WaitPtc else LoadCorrection) /\
    origin_packets_buffer_ (core o') = post /\
    parser_ (udp_parser_ (core o')) = Some g /\ general g = settle param (general (new_parser k)) /\
    GetLidarType o' = ty /\ finished FaultMessParse o' = true /\
    packet_num (frame_ (core o')) = 0 /\ points (frame_ (core o')) = points (frame_ (core o)).
Proof.
  revert o hs. induction pre as [|q pre IH]; intros o hs Ha Hr Hn Hlen Hq Hu Hl Hk Hh.
  - destruct hs as [|h1 [|h2 [|]]]; try done. cbn [fmap list_fmap init_run foldM init_step].
    destruct (init_chooses new_parser fs param h1.1 h1.2 o p post k ty Ha Hr Hn Hq Hl Hk) as (o1 & E1 & Ha1 & Hp1 & Ht1 & Hq1 & Hf1 & Hi1).
    rewrite E1. cbn [mbind result_bind]. unfold init_turn. rewrite Ha1, Hp1. cbn [mbind result_bind].
    set (l1 := set_parsed _ _ _). destruct (configure_settles param l1 (new_parser k) Hp1) as (g & Hg & Hs).
    destruct (configure_keeps_rest param l1) as (Kq & Kf & Kt).
    eexists _, g. split; [reflexivity|]. cbn [init_at set_place]. split; [done|]. cbn [core finish set_core].
    unfold GetLidarType. cbn [core set_place finish set_core]. rewrite Kq, Kf, Kt. split; [exact Hq1|]. split; [exact Hg|]. split; [exact Hs|].
    split; [exact Ht1|]. split; [|split; [done|exact Hf1]].
    unfold finished. cbn. rewrite list_lookup_insert_eq; [done|]. rewrite Hi1, Hlen. unfold FaultMessParse, TotalStatus. lia.
  - destruct hs as [|h hs]; [done|]. apply Forall_cons in Hu as [Hu1 Hu].
    destruct (init_drops new_parser fs param h.1 h.2 o q (pre ++ p :: post) Ha Hr Hn Hq Hu1) as (o1 & E1 & Ha1 & Hr1 & Hn1 & Hq1 & Hf1 & Hi1).
    destruct (IH o1 hs) as (o' & g & E & R); try done; [by rewrite Hi1|cbn in Hh; lia|].
    exists o', g. cbn [fmap list_fmap init_run foldM init_step]. rewrite E1. split; [exact E|]. by rewrite <-Hf1.
Qed.

(** On a machine with two processors no thread is started, the receiving thread
    included, so [Init] waits for a packet for ever. *)
Theorem init_two_processors es o0 o :
  cpus = 2 -> 0 <= DriverParam.thread_num (DriverParam.decoder_param param) ->
  Init_start cpus param (Lidar_new : LidarObj P G S C) = Ok o0 -> EvStop ∉ es ->
  init_run new_parser fs param es o0 = Ok o -> init_at o = WaitParser /\ origin_packets_buffer_ (core o) = [].
Proof.
  intros Hc Ht Hs He Hr.
  assert (deaf o0 /\ length (init_finish_ o0) = TotalStatus) as H0.
  { revert Hs. unfold Init_start. rewrite bind_ok. intros (s1 & _ & H). rewrite bind_ok in H. destruct H as (s2 & _ & H).
    unfold SetThreadNum in H. cbn [core Lidar_new handle_thread_count_ new_Lidar SetSource set_origin] in H.
    rewrite Hc in H. assert ((if 2 - 2 <? DriverParam.thread_num (DriverParam.decoder_param param) then 2 - 2
      else DriverParam.thread_num (DriverParam.decoder_param param)) = 0) as E by (cases_bool; lia).
    rewrite E in H. cbn in H. by injection H as <-. }
  assert (deaf o /\ length (init_finish_ o) = TotalStatus) as [Hd _]; [|split; apply Hd].
  revert Hr. apply (foldM_invariant (fun o => deaf o /\ length (init_finish_ o) = TotalStatus)); [|done].
  intros o1 e o2 Hin [Hd Hl]. apply deaf_step; [done| |done]. by intros ->.
Qed.

(** With packets from ROS there is no source, so the size of its socket buffer is
    set through a null pointer. *)
Theorem init_ros_buffer_size :
  DriverParam.source_type (DriverParam.input_param param) = 3 -> 0 < DriverParam.socket_buffer_size (DriverParam.decoder_param param) ->
  Init_start cpus param (Lidar_new : LidarObj P G S C) = Err NullPointer.
Proof.
  intros Hs Hb. unfold Init_start. rewrite Hs. cbn [Z.eqb Pos.eqb mbind result_bind core Lidar_new source_ new_Lidar].
  by destruct (Z.ltb_spec 0 (DriverParam.socket_buffer_size (DriverParam.decoder_param param))); [|lia].
Qed.

(** The calibration is saved as a C string: up to its first byte 0, which a binary
    file has in its header, and from memory behind the answer when it has none. *)
Theorem save_correction_truncates o c a rest c' :
  ptc_client_ o = Some c -> Forall is_u8 a -> 0 ∉ a -> a <> [] ->
  (ptc_QueryCommand [] PtcClient.kPTCGetLidarCalibration c = Ok (0, a ++ 0 :: rest, c') ->
   exists o', SaveCorrectionFile true o = Ok (0, Some (string_of a), o') /\ correction_string_ o' = a ++ 0 :: rest) /\
  (ptc_QueryCommand [] PtcClient.kPTCGetLidarCalibration c = Ok (0, a, c') -> SaveCorrectionFile true o = Err OutOfBounds).
Proof.
  intros Hc Ha Hn Hne. destruct (c_string_bytes a Ha Hn rest) as [E1 E2].
  assert (forall s, s <> [] -> ptc_QueryCommand [] PtcClient.kPTCGetLidarCalibration c = Ok (0, s, c') ->
    SaveCorrectionFile true o = (r ← c_string (string_of s); Ok (0, Some r, set_ptc (Some c') s o))) as Hs.
  { intros s Hs Eq. unfold SaveCorrectionFile, client_of, GetCorrectionInfo. rewrite Hc. cbn [of_option mbind result_bind].
    rewrite Eq. cbn [mbind result_bind]. destruct s; [done|]. done. }
  split; intros Eq.
  - rewrite (Hs (a ++ 0 :: rest) ltac:(by destruct a) Eq), E1. eexists. split; [reflexivity|done].
  - by rewrite (Hs _ Hne Eq), E2.
Qed.

(** The calibration of a lidar that is connected comes from the lidar; the file of
    the parameters is read exactly when the query or the parser answers -1, and
    whatever the parser says of the file, [Init] goes on. *)
Theorem init_calibration_from_lidar host now o c out c' g :
  init_at o = LoadCorrection -> DriverParam.source_type (DriverParam.input_param param) = 1 ->
  ptc_client_ o = Some c -> parser_ (udp_parser_ (core o)) = Some g ->
  ptc_QueryCommand [] PtcClient.kPTCGetLidarCalibration c = Ok (0, out, c') -> out <> [] ->
  init_turn new_parser fs param host now o =
    ('(r, g) ← v_LoadCorrectionString (string_of out) g;
     g ← (if r =? -1 then v_LoadCorrectionFile fs (DriverParam.correction_file_path (DriverParam.input_param param)) g else Ok g);
     Ok (set_place LoadFiretimes (set_core (set_parsed (set_parser (Some g) (udp_parser_ (core o))) (frame_ (core o)) (core o))
       (set_ptc (Some c') out o)))).
Proof.
  intros Ha Hs Hc Hg Eq Hne. unfold init_turn. rewrite Ha, Hs. cbn [Z.eqb Pos.eqb].
  unfold LoadCorrectionFromLidar, client_of, GetCorrectionInfo. rewrite Hc. cbn [of_option mbind result_bind]. rewrite Eq.
  cbn [mbind result_bind]. destruct out as [|b out]; [done|]. cbn [length Nat.eqb negb andb Z.eqb].
  unfold LoadCorrectionForUdpParser, Lidar.LoadCorrectionString, UdpParser.LoadCorrectionString. rewrite Hg.
  destruct (v_LoadCorrectionString _ g) as [[r g1]|]; cbn [mbind result_bind]; [|done].
  destruct (r =? -1); cbn [mbind result_bind]; [|done].
  unfold Lidar.LoadCorrectionFile, UdpParser.LoadCorrectionFile. cbn [core set_core udp_parser_ set_parsed parser_ set_parser].
  by destruct (v_LoadCorrectionFile _ _ g1) as [g2|].
Qed.

End Properties.

(** ** Witnesses

    A source that is its number of bytes, and a PTC client that is a list of the
    answers it will give. *)

#[local] Instance demo_factory : SourceFactory Z := {|
  new_PcapSource path := Z.of_nat (String.length path);
  new_SocketSource port _ := port;
  source_Open s := Ok s;
  source_SetSocketBufferSize n s := Ok n;
|}.

#[local] Instance demo_port : PtcPort (list (list Z)) := {|
  new_PtcClient a := [];
  ptc_IsOpen c := Ok (negb (Nat.eqb (length c) 0));
  ptc_QueryCommand _ _ c := match c with out :: c => Ok (0, out, c) | [] => Ok (-1, [], []) end;
  ptc_thread c := Ok c;
|}.

#[local] Instance demo_typed : TypedDecoder (H := demo_decoder) LidarPointXYZI Udp1_4.Udp1_4Parser := {|
  v_SetLidarType _ g := g;
  set_type_general _ _ := eq_refl;
|}.

Definition demo_obj (l : Lidar LidarPointXYZI Udp1_4.Udp1_4Parser Z) (at_ : init_place) (c : option (list (list Z))) :
    LidarObj LidarPointXYZI Udp1_4.Udp1_4Parser Z (list (list Z)) :=
  mk_lidar_obj l c (replicate 4 false) true true true 0 (-1) (-1) [] 2368 false at_.

(** The first bytes of three packets: of no lidar, of a Pandar128, and another. *)
Definition demo_first (bytes : list Z) : UdpPacket := mk_packet (bytes ++ replicate 1496 0) 100 false 0 0 0.
Definition demo_waiting : LidarObj LidarPointXYZI Udp1_4.Udp1_4Parser Z (list (list Z)) :=
  demo_obj (set_origin None [demo_first [1; 2; 3; 4]; demo_first [0xEE; 0xFF; 1; 4]; demo_first [0xEE; 0xFF; 1; 4]] false new_Lidar) WaitParser None.

Definition demo_hosts : list (Z * (nat -> Z)) := replicate 3 (1, fun _ => 0).

Lemma init_consumes_first_packet_witness : exists o' g,
  init_run (D := demo_decoder) (fun _ => Udp1_4.demo_parser true) (fun _ => None) DriverParam.default_param
    ((fun h => EvInit h.1 h.2) <$> demo_hosts) demo_waiting = Ok o' /\
  origin_packets_buffer_ (core o') = [demo_first [0xEE; 0xFF; 1; 4]] /\ parser_ (udp_parser_ (core o')) = Some g /\
  GetLidarType o' = "Pandar128"%string.
Proof.
  destruct (init_consumes_first_packet (D := demo_decoder) (L := Udp1_4.udp1_4_laws 0 (fun _ => f_zero) (fun _ => f_zero) id id id id) (T := demo_typed)
    (fun _ => Udp1_4.demo_parser true) (fun _ => None) DriverParam.default_param demo_hosts demo_waiting
    [demo_first [1; 2; 3; 4]] (demo_first [0xEE; 0xFF; 1; 4]) [demo_first [0xEE; 0xFF; 1; 4]] UdpParser.Udp1_4 "Pandar128"%string)
    as (o' & g & E & _ & Hq & Hg & _ & Ht & _); try done.
  - apply Forall_singleton. right. vm_compute. reflexivity.
  - exists o', g. done.
Defined.

Definition demo_events : list init_event := [EvInit 1 (fun _ => 0); EvArrive (demo_first [0xEE; 0xFF; 1; 4]); EvInit 1 (fun _ => 0); EvInit 1 (fun _ => 0)].

Lemma init_flags_sound_witness : exists o,
  (o0 ← Init_start 4 DriverParam.default_param Lidar_new;
   init_run (D := demo_decoder) (fun _ => Udp1_4.demo_parser true) (fun _ => None) DriverParam.default_param demo_events o0) = Ok o /\
  finished FaultMessParse o = true /\ has_parser (core (S := Z) (C := list (list Z)) o) /\ finished PointCloudParse o = false.
Proof.
  destruct (Init_start (S := Z) (C := list (list Z)) (P := LidarPointXYZI) (G := Udp1_4.Udp1_4Parser) 4 DriverParam.default_param Lidar_new) as [o0|] eqn:E0;
    [|vm_compute in E0; done].
  destruct (init_run (D := demo_decoder) (fun _ => Udp1_4.demo_parser true) (fun _ => None) DriverParam.default_param demo_events o0) as [o|] eqn:E;
    [|revert E; apply (inj Ok) in E0; subst o0; vm_compute; done].
  destruct (init_flags_sound (D := demo_decoder) (T := demo_typed) (fun _ => Udp1_4.demo_parser true) 4 (fun _ => None) DriverParam.default_param demo_events o0 o E0 E)
    as (H0 & _).
  exists o. cbn [mbind result_bind]. split; [exact E|].
  assert (finished FaultMessParse o = true /\ finished PointCloudParse o = false) as [Hf Hp].
  { apply (inj Ok) in E0. subst o0. vm_compute in E. apply (inj Ok) in E. by subst o. }
  auto.
Defined.

Lemma init_two_processors_witness : exists o,
  (o0 ← Init_start 2 DriverParam.default_param Lidar_new;
   init_run (D := demo_decoder) (fun _ => Udp1_4.demo_parser true) (fun _ => None) DriverParam.default_param demo_events o0) = Ok o /\
  init_at (P := LidarPointXYZI) (S := Z) (C := list (list Z)) o = WaitParser.
Proof.
  destruct (Init_start (S := Z) (C := list (list Z)) (P := LidarPointXYZI) (G := Udp1_4.Udp1_4Parser) 2 DriverParam.default_param Lidar_new) as [o0|] eqn:E0;
    [|vm_compute in E0; done].
  destruct (init_run (D := demo_decoder) (fun _ => Udp1_4.demo_parser true) (fun _ => None) DriverParam.default_param demo_events o0) as [o|] eqn:E;
    [|revert E; apply (inj Ok) in E0; subst o0; vm_compute; done].
  exists o. cbn [mbind result_bind]. split; [exact E|].
  apply (init_two_processors (D := demo_decoder) (T := demo_typed) (fun _ => Udp1_4.demo_parser true) 2 (fun _ => None) DriverParam.default_param demo_events o0 o);
    [done|done|exact E0| |exact E].
  unfold demo_events. rewrite !not_elem_of_cons. repeat split; try done. apply not_elem_of_nil.
Defined.

Definition ros_param : DriverParam.DriverParam :=
  DriverParam.mk_driver_param
    (DriverParam.mk_input_param PtcOpen.mode_tcp 3 "" "" 0 0 2368 9347 "" "" "" None None None (-1) (-1))
    (DriverParam.mk_decoder_param (DriverParam.mk_transform_param f_zero f_zero f_zero f_zero f_zero f_zero) 1 true true true f_zero false false false 0
       (-1) (-1) "" 262144) "".

Lemma init_ros_buffer_size_witness :
  Init_start (S := Z) (C := list (list Z)) (P := LidarPointXYZI) (G := Udp1_4.Udp1_4Parser) 4 ros_param Lidar_new = Err NullPointer.
Proof. apply (init_ros_buffer_size 4 ros_param); done. Defined.

Lemma save_correction_truncates_witness :
  (exists o', SaveCorrectionFile true (demo_obj new_Lidar WaitParser (Some [[0xEE; 0xFF; 1; 0; 5]])) = Ok (0, Some (string_of [0xEE; 0xFF; 1]), o') /\
    correction_string_ o' = [0xEE; 0xFF; 1; 0; 5]) /\
  SaveCorrectionFile true (demo_obj new_Lidar WaitParser (Some [[49; 44; 50]])) = Err OutOfBounds.
Proof.
  split.
  - apply (save_correction_truncates (demo_obj new_Lidar WaitParser (Some [[0xEE; 0xFF; 1; 0; 5]])) [[0xEE; 0xFF; 1; 0; 5]] [0xEE; 0xFF; 1] [5] []);
      [done|repeat constructor; lia| |done|done]. rewrite !not_elem_of_cons. repeat split; try done. apply not_elem_of_nil.
  - apply (save_correction_truncates (demo_obj new_Lidar WaitParser (Some [[49; 44; 50]])) [[49; 44; 50]] [49; 44; 50] [] []);
      [done|repeat constructor; lia| |done|done]. rewrite !not_elem_of_cons. repeat split; try done. apply not_elem_of_nil.
Defined.

Definition lidar_param : DriverParam.DriverParam :=
  DriverParam.mk_driver_param
    (DriverParam.mk_input_param PtcOpen.mode_tcp 1 "192.168.1.201" "" 0 0 2368 9347 "" "" "" None None None 1 600)
    DriverParam.default_decoder_param "".

(** A calibration of a header line only, from the lidar. *)
Lemma init_calibration_from_lidar_witness :
  let l := set_parsed (set_parser (Some (Udp1_4.demo_parser true)) new_UdpParser) Udp1_4.demo_frame new_Lidar in
  exists o', init_turn (D := demo_decoder) (fun _ => Udp1_4.demo_parser true) (fun _ => None) lidar_param 1 (fun _ => 0)
      (demo_obj l LoadCorrection (Some [[76; 0]])) = Ok o' /\ init_at o' = LoadFiretimes /\ correction_string_ o' = [76; 0].
Proof.
  intros l. rewrite (init_calibration_from_lidar (D := demo_decoder) (T := demo_typed) (fun _ => Udp1_4.demo_parser true) (fun _ => None)
    lidar_param 1 (fun _ => 0) (demo_obj l LoadCorrection (Some [[76; 0]])) [[76; 0]] [76; 0] [] (Udp1_4.demo_parser true)); try reflexivity; [|done].
  vm_compute. eexists. split; [reflexivity|]. split; reflexivity.
Defined.
