(* ===== verification/LidarEnd.v ===== *)
(** * LidarEnd: the destructor of a lidar under its threads

    [Lidar::~Lidar] (Lidar/lidar.cc) while the threads of the lidar still run:
    [RecieveUdpThread], [ParserThread], the [HandleThread]s and [InitSetPtc].
    What the threads do to the queues and frames is in Lidar.v and LidarInit.v;
    here a turn of a thread says which of the lidar's objects it touches (the
    parser, the source, the PTC client, the array of mutexes) and where its loop
    looks at [running_], and the destructor joins the threads and deletes the
    objects.  An access to a deleted object is the fault [UseAfterFree].  The
    destructors of the parser (with its recorder), of the PTC client and of the
    source, and [Logger::Stop], are calls that the destructor is inside of until they
    return, which takes a turn of its own and may never come: the one of the PTC
    client joins a thread (PtcOpen.v), and [Logger::Stop] can wait for ever
    (Logger.v, [stop_can_hang]).

    [ParserThread] may run several times: [SetThreadNum] makes a new one without
    joining the one before, and [parser_thread_ptr_] knows only the last. *)

From S2P Require Import Prelude.
From stdpp Require Import relations.
Local Open Scope Z_scope.

Module LidarEnd.

(** Where the threads stand. *)
Inductive receive_pc : Set :=
| RTop      (* while (running_) *)
| RReceive  (* if (source_ == nullptr) continue, source_->Receive *)
| RFull     (* while (origin_packets_buffer_.full() && running_), if (running_ == false) break *)
| RPut      (* the packet is put into the queue, and recorded *)
| REnd.

Inductive parser_pc : Set :=
| PTop      (* while (running_) *)
| PPop      (* try_pop_front, which gives up after 500 ms *)
| PWork     (* ComputeXYZI, or into the buffer of a handle thread *)
| PEnd.

Inductive handle_pc : Set :=
| HTop      (* while (running_) *)
| HLock     (* mutex_list_[nThreadNum].lock() *)
| HLocked   (* ComputeXYZI if there is something, unlock() *)
| HEnd.

Inductive set_ptc_pc : Set :=
| STop      (* while (running_), and the sleep *)
| SAsk      (* ptc_client_->IsOpen() *)
| SSend     (* SetStandbyMode, SetSpinSpeed *)
| SEnd.

(** The calls of the destructor that may take their time. *)
Inductive ending_call : Set :=
| CParser   (* delete udp_parser_ *)
| CPtc      (* delete ptc_client_ *)
| CSource   (* delete source_ *)
| CLogger.  (* Logger::GetInstance().Stop() *)

Inductive delete_pc : Set :=
| DNone           (* not called yet *)
| DReceive | DParser | DSetPtc      (* before the joins *)
| DHandle (i : nat)                 (* before the join of the i-th handle thread *)
| DDelParser | DDelPtc | DDelSource | DDelMutex | DLogger
| DIn (c : ending_call)             (* inside the call *)
| DDone.

#[export] Instance handle_pc_eq_dec : EqDecision handle_pc.
Proof. solve_decision. Defined.
#[export] Instance parser_pc_eq_dec : EqDecision parser_pc.
Proof. solve_decision. Defined.

(** [source_]: null when the packets come from ROS. *)
Inductive pointer : Set := Null | Live | Deleted.

(** The threads, with [nUDPCount] of each parser thread, the last of which is the
    one [parser_thread_ptr_] knows; the objects that are still there; and the
    destructor. *)
Record ending : Type := mk_ending {
  running_ : bool;
  receiver : option receive_pc;
  parsers : list (parser_pc * nat);
  handles : list handle_pc;
  set_ptc : option set_ptc_pc;
  has_parser : bool;
  has_ptc : bool;
  has_source : pointer;
  has_mutexes : bool;
  is_record_pcap_ : bool;
  deleting : delete_pc;
}.

Definition set_receiver (r : receive_pc) (s : ending) : ending :=
  mk_ending (running_ s) (Some r) (parsers s) (handles s) (set_ptc s) (has_parser s) (has_ptc s) (has_source s)
    (has_mutexes s) (is_record_pcap_ s) (deleting s).
Definition set_parser (i : nat) (p : parser_pc * nat) (s : ending) : ending :=
  mk_ending (running_ s) (receiver s) (<[i := p]> (parsers s)) (handles s) (set_ptc s) (has_parser s) (has_ptc s)
    (has_source s) (has_mutexes s) (is_record_pcap_ s) (deleting s).
Definition set_handle (i : nat) (h : handle_pc) (s : ending) : ending :=
  mk_ending (running_ s) (receiver s) (parsers s) (<[i := h]> (handles s)) (set_ptc s) (has_parser s) (has_ptc s)
    (has_source s) (has_mutexes s) (is_record_pcap_ s) (deleting s).
Definition set_set_ptc (p : set_ptc_pc) (s : ending) : ending :=
  mk_ending (running_ s) (receiver s) (parsers s) (handles s) (Some p) (has_parser s) (has_ptc s) (has_source s)
    (has_mutexes s) (is_record_pcap_ s) (deleting s).
Definition goto (d : delete_pc) (s : ending) : ending :=
  mk_ending (running_ s) (receiver s) (parsers s) (handles s) (set_ptc s) (has_parser s) (has_ptc s) (has_source s)
    (has_mutexes s) (is_record_pcap_ s) d.

(** An access through a pointer to an object. *)
Definition touch (alive : bool) : result unit := if alive then Ok tt else Err UseAfterFree.

(** Whether the other side answers: a packet arrived, a packet index was there, the
    connection is open. *)
Definition answer : Type := bool.

(** A turn of [RecieveUdpThread]; [full] says whether the queue is full. *)
Definition receive_turn (got full : answer) (r : receive_pc) (s : ending) : option (result ending) :=
  match r with
  | RTop => Some (Ok (set_receiver (if running_ s then RReceive else REnd) s))
  | RReceive =>
      Some match has_source s with
           | Null => Ok (set_receiver RTop s)
           | Live => Ok (set_receiver (if got then RFull else RTop) s)
           | Deleted => Err UseAfterFree
           end
  | RFull => Some (Ok (set_receiver (if running_ s then (if full then RFull else RPut) else REnd) s))
  | RPut => Some (_ ← (if is_record_pcap_ s then touch (has_parser s) else Ok tt); Ok (set_receiver RTop s))
  | REnd => None
  end.

(** A turn of the [i]-th [ParserThread]: the index goes to the parser itself when
    there are fewer than two handle threads, else to one of them. *)
Definition parser_turn (got : answer) (i : nat) (p : parser_pc) (nUDPCount : nat) (s : ending) : option (result ending) :=
  match p with
  | PTop => Some (Ok (set_parser i (if running_ s then PPop else PEnd, nUDPCount) s))
  | PPop => Some (Ok (set_parser i (if got then PWork else PTop, nUDPCount) s))
  | PWork =>
      if decide (length (handles s) < 2)%nat then
        Some (_ ← touch (has_parser s); Ok (set_parser i (PTop, nUDPCount) s))
      else
        let k := (nUDPCount mod length (handles s))%nat in
        if decide (handles s !! k = Some HLocked) then None
        else Some (_ ← touch (has_mutexes s); Ok (set_parser i (PTop, S k) s))
  | PEnd => None
  end.

(** A turn of the [i]-th [HandleThread]; only the parser threads take its mutex
    beside it, and they give it back within a turn. *)
Definition handle_turn (got : answer) (i : nat) (h : handle_pc) (s : ending) : option (result ending) :=
  match h with
  | HTop => Some (Ok (set_handle i (if running_ s then HLock else HEnd) s))
  | HLock => Some (_ ← touch (has_mutexes s); Ok (set_handle i HLocked s))
  | HLocked => Some (_ ← (if got then touch (has_parser s) else Ok tt); _ ← touch (has_mutexes s);
                     Ok (set_handle i HTop s))
  | HEnd => None
  end.

(** A turn of [InitSetPtc]. *)
Definition set_ptc_turn (open : answer) (p : set_ptc_pc) (s : ending) : option (result ending) :=
  match p with
  | STop => Some (Ok (set_set_ptc (if running_ s then SAsk else SEnd) s))
  | SAsk => Some (_ ← touch (has_ptc s); Ok (set_set_ptc (if open then SSend else STop) s))
  | SSend => Some (_ ← touch (has_ptc s); Ok (set_set_ptc SEnd s))
  | SEnd => None
  end.

(** A pointer is deleted once and then null. *)
Definition delete_objects (parser ptc source mutexes : bool) (s : ending) : ending :=
  mk_ending (running_ s) (receiver s) (parsers s) (handles s) (set_ptc s) (has_parser s && negb parser)
    (has_ptc s && negb ptc) (match has_source s with Live => if source then Deleted else Live | p => p end) (has_mutexes s && negb mutexes) (is_record_pcap_ s)
    (deleting s).

(** The next statement of [~Lidar]; a join waits for the thread it names.  The
    handle threads are only joined when there are more than one, which is when
    [SetThreadNum] makes any.  An object whose destructor has begun is gone for the
    threads; a null pointer is skipped. *)
Definition delete_turn (s : ending) : option ending :=
  match deleting s with
  | DNone => Some (goto DReceive (mk_ending false (receiver s) (parsers s) (handles s) (set_ptc s) (has_parser s)
                                    (has_ptc s) (has_source s) (has_mutexes s) (is_record_pcap_ s) DNone))
  | DReceive => match receiver s with None | Some REnd => Some (goto DParser s) | _ => None end
  | DParser => match last (parsers s) with None | Some (PEnd, _) => Some (goto DSetPtc s) | _ => None end
  | DSetPtc =>
      match set_ptc s with
      | None | Some SEnd => Some (goto (if decide (1 < length (handles s))%nat then DHandle 0 else DDelParser) s)
      | _ => None
      end
  | DHandle i =>
      match handles s !! i with
      | None => Some (goto DDelParser s)
      | Some HEnd => Some (goto (DHandle (S i)) s)
      | _ => None
      end
  | DDelParser => Some (goto (if has_parser s then DIn CParser else DDelPtc) (delete_objects true false false false s))
  | DDelPtc => Some (goto (if has_ptc s then DIn CPtc else DDelSource) (delete_objects false true false false s))
  | DDelSource =>
      Some (goto (match has_source s with Live => DIn CSource | _ => DDelMutex end) (delete_objects false false true false s))
  | DDelMutex => Some (goto DLogger (delete_objects false false false true s))
  | DLogger => Some (goto (DIn CLogger) s)
  | DIn _ | DDone => None
  end.

(** The call returns. *)
Definition return_turn (s : ending) : option ending :=
  match deleting s with
  | DIn CParser => Some (goto DDelPtc s)
  | DIn CPtc => Some (goto DDelSource s)
  | DIn CSource => Some (goto DDelMutex s)
  | DIn CLogger => Some (goto DDone s)
  | _ => None
  end.

Inductive actor : Type :=
| Receiver (got full : answer)
| Parser (i : nat) (got : answer)
| Handle (i : nat) (got : answer)
| SetPtc (open : answer)
| Deleter
| Returns.   (* the call the destructor is inside of *)

Definition turn (a : actor) (s : ending) : option (result ending) :=
  match a with
  | Receiver got full => match receiver s with Some r => receive_turn got full r s | None => None end
  | Parser i got => match parsers s !! i with Some (p, n) => parser_turn got i p n s | None => None end
  | Handle i got => match handles s !! i with Some h => handle_turn got i h s | None => None end
  | SetPtc open => match set_ptc s with Some p => set_ptc_turn open p s | None => None end
  | Deleter => Ok <$> delete_turn s
  | Returns => Ok <$> return_turn s
  end.

Fixpoint run (es : list actor) (s : ending) : option (result ending) :=
  match es with
  | [] => Some (Ok s)
  | a :: es => match turn a s with Some (Ok s') => run es s' | o => o end
  end.

(** A lidar in use: [SetThreadNum] has made the receiver, [n] parser threads so far
    and, for a thread number above one, that many handle threads; with a socket
    there are a client and the thread that sends the settings, and with packets from
    ROS there is no source. *)
Definition in_use (n threads : nat) (from_lidar ros record : bool) : ending :=
  mk_ending true (Some RTop) (replicate n (PTop, 0%nat)) (if decide (1 < threads)%nat then replicate threads HTop else [])
    (if from_lidar then Some STop else None) true from_lidar
    (if ros then Null else Live) true record DNone.

(** ** What is promised *)

(** How far the destructor is. *)
Definition stage (d : delete_pc) : nat :=
  match d with
  | DNone => 0 | DReceive => 1 | DParser => 2 | DSetPtc => 3 | DHandle _ => 4 | DDelParser => 5
  | DIn CParser | DDelPtc => 6 | DIn CPtc | DDelSource => 7 | DIn CSource | DDelMutex => 8 | DLogger | DIn CLogger => 9
  | DDone => 10
  end.

Record end_inv (s : ending) : Prop := {
  e_running : (1 <= stage (deleting s))%nat -> running_ s = false;
  e_receiver : (2 <= stage (deleting s))%nat -> receiver s = None \/ receiver s = Some REnd;
  e_parsers : (3 <= stage (deleting s))%nat -> Forall (fun p => p.1 = PEnd) (parsers s);
  e_set_ptc : (4 <= stage (deleting s))%nat -> set_ptc s = None \/ set_ptc s = Some SEnd;
  e_handles : (5 <= stage (deleting s))%nat -> Forall (fun h => h = HEnd) (handles s);
  e_handle : forall i, deleting s = DHandle i -> Forall (fun h => h = HEnd) (take i (handles s));
  e_has_parser : has_parser s = false -> (6 <= stage (deleting s))%nat;
  e_has_ptc : has_ptc s = false -> set_ptc s = None \/ (7 <= stage (deleting s))%nat;
  e_has_source : has_source s = Deleted -> (8 <= stage (deleting s))%nat;
  e_has_mutexes : has_mutexes s = false -> (9 <= stage (deleting s))%nat;
  e_no_parser : (6 <= stage (deleting s))%nat -> has_parser s = false;
  e_no_ptc : (7 <= stage (deleting s))%nat -> has_ptc s = false;
  e_no_source : (8 <= stage (deleting s))%nat -> has_source s <> Live;
  e_no_mutexes : (9 <= stage (deleting s))%nat -> has_mutexes s = false;
  e_one_parser : (length (parsers s) <= 1)%nat;
  e_some_handles : handles s = [] \/ (1 < length (handles s))%nat;
}.

(** Once [running_] is false every thread has only so many turns left. *)
Definition receive_rank (r : receive_pc) : nat :=
  match r with REnd => 0 | RTop | RFull => 1 | RReceive | RPut => 2 end.
Definition parser_rank (p : parser_pc * nat) : nat :=
  match p.1 with PEnd => 0 | PTop => 1 | PWork => 2 | PPop => 3 end.
Definition handle_rank (h : handle_pc) : nat :=
  match h with HEnd => 0 | HTop => 1 | HLocked => 2 | HLock => 3 end.
Definition set_ptc_rank (p : set_ptc_pc) : nat :=
  match p with SEnd => 0 | STop | SSend => 1 | SAsk => 2 end.
Definition delete_rank (handles : nat) (d : delete_pc) : nat :=
  match d with
  | DNone | DReceive => 13 + handles | DParser => 12 + handles | DSetPtc => 11 + handles
  | DHandle i => 10 + (handles - i) | DDelParser => 9 | DIn CParser => 8 | DDelPtc => 7 | DIn CPtc => 6
  | DDelSource => 5 | DIn CSource => 4 | DDelMutex => 3 | DLogger => 2 | DIn CLogger => 1 | DDone => 0
  end.

Definition turns_left (s : ending) : nat :=
  (from_option receive_rank 0 (receiver s) + sum_list_with parser_rank (parsers s)
   + sum_list_with handle_rank (handles s) + from_option set_ptc_rank 0 (set_ptc s)
   + delete_rank (length (handles s)) (deleting s))%nat.

(** The threads have left their loops. *)
Definition threads_over (s : ending) : Prop :=
  (receiver s = None \/ receiver s = Some REnd) /\ Forall (fun p => p.1 = PEnd) (parsers s) /\
  (set_ptc s = None \/ set_ptc s = Some SEnd) /\ Forall (fun h => h = HEnd) (handles s).

(** ** Lemmas *)

Lemma sum_insert {A} (f : A -> nat) i x y l :
  l !! i = Some x -> (sum_list_with f (<[i := y]> l) + f x = sum_list_with f l + f y)%nat.
Proof.
  revert i. induction l as [|z l IH]; intros [|i] H; try done; csimpl in *.
  - injection H as ->. lia.
  - specialize (IH i H). lia.
Qed.

Lemma in_use_inv n threads from_lidar ros record : (n <= 1)%nat -> end_inv (in_use n threads from_lidar ros record).
Proof.
  intros Hn. split; cbn; try lia; try done.
  - by destruct from_lidar; [|left].
  - by destruct ros.
  - by rewrite length_replicate.
  - case_decide; [right; by rewrite length_replicate|by left].
Qed.

(** A thread that the destructor has waited for does not move any more; so a turn of
    a thread finds its objects there and leaves what was waited for. *)
Lemma receive_turn_ok got full r s x :
  end_inv s -> receiver s = Some r -> receive_turn got full r s = Some x ->
  exists r', x = Ok (set_receiver r' s) /\ end_inv (set_receiver r' s) /\
    (running_ s = false -> (receive_rank r' < receive_rank r)%nat).
Proof.
  intros [] Hr H. destruct (decide (2 <= stage (deleting s))%nat) as [Hd|Hd].
  { destruct (e_receiver0 Hd) as [E|E]; [congruence|]. rewrite Hr in E. by injection E as ->. }
  assert (has_source s <> Deleted) as Hs by (intros E; specialize (e_has_source0 E); lia).
  assert (has_parser s = true) as Hp by (destruct (has_parser s); [done|specialize (e_has_parser0 eq_refl); lia]).
  assert (forall r', end_inv (set_receiver r' s)) as Hi by (intros r'; split; cbn; try done; intros; lia).
  unfold receive_turn in H. rewrite Hp in H.
  destruct r; cbn in H; try done; try (destruct (is_record_pcap_ s); cbn in H);
    try (destruct (has_source s); [| |done]);
    (injection H as <-; eexists; split; [reflexivity|]; split; [apply Hi|]; intros Hrun; rewrite ?Hrun; repeat case_match; cbn; lia).
Qed.

Lemma set_parser_inv s i p' : end_inv s -> (stage (deleting s) < 3)%nat -> end_inv (set_parser i p' s).
Proof. intros [] Hd. split; cbn; try done; try (intros; lia). by rewrite length_insert. Qed.

Lemma parser_turn_ok got i p n s x :
  end_inv s -> parsers s !! i = Some (p, n) -> parser_turn got i p n s = Some x ->
  exists p', x = Ok (set_parser i p' s) /\ end_inv (set_parser i p' s) /\
    (running_ s = false -> (parser_rank p' < parser_rank (p, n))%nat).
Proof.
  intros Hi Hp H. destruct (decide (3 <= stage (deleting s))%nat) as [Hd|Hd].
  { pose proof (e_parsers s Hi Hd) as Hf. eapply Forall_lookup_1 in Hf; [|done]. cbn in Hf. by subst. }
  assert (forall p', end_inv (set_parser i p' s)) as Hi' by (intros; apply set_parser_inv; [done|lia]).
  destruct Hi.
  assert (has_parser s = true) as Hs by (destruct (has_parser s); [done|specialize (e_has_parser0 eq_refl); lia]).
  assert (has_mutexes s = true) as Hm by (destruct (has_mutexes s); [done|specialize (e_has_mutexes0 eq_refl); lia]).
  unfold parser_turn in H. rewrite Hs, Hm in H.
  destruct p; cbn in H; try done; repeat case_decide; try done;
    (injection H as <-; eexists; split; [reflexivity|]; split; [apply Hi'|]; intros Hrun; rewrite ?Hrun; destruct got; cbn; lia).
Qed.

Lemma handle_turn_ok got i h s x :
  end_inv s -> handles s !! i = Some h -> handle_turn got i h s = Some x ->
  exists h', x = Ok (set_handle i h' s) /\ end_inv (set_handle i h' s) /\
    (running_ s = false -> (handle_rank h' < handle_rank h)%nat).
Proof.
  intros [] Hh H. destruct (decide (5 <= stage (deleting s))%nat) as [Hd|Hd].
  { pose proof (e_handles0 Hd) as Hf. eapply Forall_lookup_1 in Hf; [|done]. cbn in Hf. by subst. }
  destruct (decide (h = HEnd)) as [->|Hne]; [done|].
  assert (has_parser s = true) as Hs by (destruct (has_parser s); [done|specialize (e_has_parser0 eq_refl); lia]).
  assert (has_mutexes s = true) as Hm by (destruct (has_mutexes s); [done|specialize (e_has_mutexes0 eq_refl); lia]).
  assert (forall h', end_inv (set_handle i h' s)) as Hi.
  { intros h'. split; cbn; try done; try (intros; lia).
    - intros j Hj. pose proof (e_handle0 j Hj) as Hf.
      assert (j <= i)%nat as Hji.
      { destruct (decide (j <= i)%nat); [done|]. exfalso. apply Hne.
        assert (take j (handles s) !! i = Some h) as Ht by (rewrite lookup_take_lt by lia; done).
        eapply Forall_lookup_1 in Hf; [|exact Ht]. done. }
      by rewrite take_insert_ge.
    - rewrite length_insert. destruct e_some_handles0 as [E|]; [by rewrite E in Hh|auto]. }
  unfold handle_turn in H. rewrite Hs, Hm in H.
  destruct h; cbn in H; try done; try (destruct got; cbn in H);
    (injection H as <-; eexists; split; [reflexivity|]; split; [apply Hi|]; intros Hrun; rewrite ?Hrun; cbn; lia).
Qed.

Lemma set_ptc_turn_ok open p s x :
  end_inv s -> set_ptc s = Some p -> set_ptc_turn open p s = Some x ->
  exists p', x = Ok (set_set_ptc p' s) /\ end_inv (set_set_ptc p' s) /\
    (running_ s = false -> (set_ptc_rank p' < set_ptc_rank p)%nat).
Proof.
  intros [] Hp H. destruct (decide (4 <= stage (deleting s))%nat) as [Hd|Hd].
  { destruct (e_set_ptc0 Hd) as [E|E]; [congruence|]. rewrite Hp in E. by injection E as ->. }
  assert (has_ptc s = true) as Hc.
  { destruct (has_ptc s); [done|]. destruct (e_has_ptc0 eq_refl); [congruence|lia]. }
  assert (forall p', end_inv (set_set_ptc p' s)) as Hi by (intros p'; split; cbn; try done; try (intros; lia); intros; congruence).
  unfold set_ptc_turn in H. rewrite Hc in H.
  destruct p; cbn in H; try done;
    (injection H as <-; eexists; split; [reflexivity|]; split; [apply Hi|]; intros Hrun; rewrite ?Hrun; destruct open; cbn; lia).
Qed.

Lemma last_parser s : (length (parsers s) <= 1)%nat ->
  parsers s = [] \/ exists p, parsers s = [p].
Proof. destruct (parsers s) as [|p [|q l]]; cbn; [by left|by right; exists p|lia]. Qed.

Lemma goto_inv d s :
  end_inv s -> (stage (deleting s) <= stage d)%nat ->
  ((1 <= stage d)%nat -> running_ s = false) ->
  ((2 <= stage d)%nat -> receiver s = None \/ receiver s = Some REnd) ->
  ((3 <= stage d)%nat -> Forall (fun p => p.1 = PEnd) (parsers s)) ->
  ((4 <= stage d)%nat -> set_ptc s = None \/ set_ptc s = Some SEnd) ->
  ((5 <= stage d)%nat -> Forall (fun h => h = HEnd) (handles s)) ->
  (forall i, d = DHandle i -> Forall (fun h => h = HEnd) (take i (handles s))) ->
  (stage d <= 5 \/ stage d = stage (deleting s) \/ stage (deleting s) = 9)%nat ->
  end_inv (goto d s).
Proof.
  intros [] Hd H1 H2 H3 H4 H5 H6 H7. split; cbn; try done; try (intros; destruct H7 as [|[|]]; [lia|auto with lia..]).
  - intros E. specialize (e_has_parser0 E). lia.
  - intros E. destruct (e_has_ptc0 E); [auto|right; lia].
  - intros E. specialize (e_has_source0 E). lia.
  - intros E. specialize (e_has_mutexes0 E). lia.
Qed.

(** From the sixth statement on each deletes one object. *)
Lemma delete_objects_inv p c o m d s :
  end_inv s -> (5 <= stage (deleting s))%nat -> stage d = S (stage (deleting s)) ->
  p = (stage d =? 6)%nat -> c = (stage d =? 7)%nat -> o = (stage d =? 8)%nat -> m = (stage d =? 9)%nat ->
  end_inv (goto d (delete_objects p c o m s)).
Proof.
  intros [] Hs Hd -> -> -> ->. rewrite Hd. split; cbn [goto delete_objects deleting running_ receiver parsers handles
    set_ptc has_parser has_ptc has_source has_mutexes]; rewrite ?Hd; auto with lia.
  - intros i ->. cbn in Hd. lia.
  - intros [E|E]%andb_false_iff; [destruct (e_has_ptc0 E); [auto|right; lia]|apply negb_false_iff, Nat.eqb_eq in E; right; lia].
  - destruct (has_source s); [done| |intros _; specialize (e_has_source0 eq_refl); lia].
    destruct (Nat.eqb_spec (S (stage (deleting s))) 8); [lia|done].
  - intros [E|E]%andb_false_iff; [specialize (e_has_mutexes0 E); lia|apply negb_false_iff, Nat.eqb_eq in E; lia].
  - intros H. destruct (Nat.eqb_spec (S (stage (deleting s))) 6); [apply andb_false_r|]. by rewrite e_no_parser0 by lia.
  - intros H. destruct (Nat.eqb_spec (S (stage (deleting s))) 7); [apply andb_false_r|]. by rewrite e_no_ptc0 by lia.
  - intros H. destruct (has_source s) eqn:E; [done| |done].
    destruct (Nat.eqb_spec (S (stage (deleting s))) 8); [done|]. by destruct e_no_source0; [lia|].
  - intros H. destruct (Nat.eqb_spec (S (stage (deleting s))) 9); [apply andb_false_r|]. by rewrite e_no_mutexes0 by lia.
Qed.

Lemma take_S_end (l : list handle_pc) i h :
  l !! i = Some h -> h = HEnd -> Forall (fun h => h = HEnd) (take i l) -> Forall (fun h => h = HEnd) (take (S i) l).
Proof. intros Hi -> Hf. erewrite take_S_r by done. apply Forall_app. auto. Qed.

(** The conditions of [goto_inv] that were true before. *)
Ltac keep_inv :=
  apply goto_inv; repeat match goal with E : deleting _ = _ |- _ => rewrite E end; cbn; try done; try lia;
  try (intros _; match goal with H : _ -> ?P |- ?P => apply H; lia end); try (intros _; by auto).

(** The statements that delete. *)
Ltac delete_case Ed H1 :=
  split_and!; [|by apply H1; lia|done|intros _; unfold turns_left; cbn; rewrite Ed; cbn; lia];
  apply delete_objects_inv; rewrite ?Ed; cbn; try done; lia.

Lemma delete_turn_ok s s' :
  end_inv s -> delete_turn s = Some s' ->
  end_inv s' /\ running_ s' = false /\ deleting s' <> DNone /\
  (deleting s <> DNone -> (turns_left s' < turns_left s)%nat).
Proof.
  intros Hi H. pose proof Hi as [H1 H2 H3 H4 H5 H6 _ _ _ _ _ _ _ _ H11 H12]. unfold delete_turn in H.
  destruct (deleting s) eqn:Ed; cbn [stage] in *.
  - injection H as <-. split_and!; try done. apply goto_inv; cbn; try done; try (intros; lia); try (left; lia).
    destruct Hi. rewrite Ed in *. split; cbn; try done.
  - destruct (receiver s) as [[]|] eqn:Er; try done; injection H as <-;
      (split_and!; [|by apply H1; lia|done|intros _; unfold turns_left; cbn; rewrite Ed, Er; cbn; lia]);
      keep_inv.
  - destruct (last_parser s H11) as [El|[[p n] El]]; rewrite El in H; cbn in H; [|destruct p; try done];
      injection H as <-;
      (split_and!; [|by apply H1; lia|done|intros _; unfold turns_left; cbn; rewrite Ed, El; cbn; lia]);
      apply goto_inv; rewrite ?Ed, ?El; cbn; try done; auto; try (intros; lia); intros _; by repeat constructor.
  - assert (set_ptc s = None \/ set_ptc s = Some SEnd) as Hp by (destruct (set_ptc s) as [[]|]; auto; done).
    assert (s' = goto (if decide (1 < length (handles s))%nat then DHandle 0 else DDelParser) s) as ->
      by (destruct Hp as [E|E]; rewrite E in H; by injection H).
    case_decide.
    + split_and!; [|by apply H1; lia|done|intros _; unfold turns_left; cbn; rewrite Ed; cbn; lia].
      apply goto_inv; rewrite ?Ed; cbn; try done; auto; try (intros; lia); try (intros; by apply H3; lia).
      intros i [= <-]. constructor.
    + split_and!; [|by apply H1; lia|done|intros _; unfold turns_left; cbn; rewrite Ed; cbn; lia].
      destruct H12 as [En|]; [|lia].
      apply goto_inv; rewrite ?Ed, ?En; cbn; try done; auto; try (intros; lia).
  - destruct (handles s !! i) as [h|] eqn:Eh.
    + destruct h; try done. injection H as <-.
      assert (i < length (handles s))%nat by (by eapply lookup_lt_Some).
      split_and!; [|by apply H1; lia|done|intros _; unfold turns_left; cbn; rewrite Ed; cbn; lia].
      apply goto_inv; rewrite ?Ed; cbn; try done; auto; try (intros; lia).
      intros j [= <-]. eapply take_S_end; eauto.
    + injection H as <-.
      split_and!; [|by apply H1; lia|done|intros _; unfold turns_left; cbn; rewrite Ed; cbn; lia].
      apply goto_inv; rewrite ?Ed; cbn; try done; auto; try (intros; lia). intros _.
      pose proof (H6 i eq_refl) as Hf. rewrite take_ge in Hf; [done|]. by apply lookup_ge_None.
  - injection H as <-. destruct (has_parser s); delete_case Ed H1.
  - injection H as <-. destruct (has_ptc s); delete_case Ed H1.
  - injection H as <-. destruct (has_source s); delete_case Ed H1.
  - injection H as <-. delete_case Ed H1.
  - injection H as <-. split_and!; [|by apply H1; lia|done|intros _; unfold turns_left; cbn; rewrite Ed; cbn; lia].
    keep_inv.
  - done.
  - done.
Qed.

Lemma return_turn_ok s s' :
  end_inv s -> return_turn s = Some s' ->
  end_inv s' /\ deleting s' <> DNone /\ (turns_left s' < turns_left s)%nat.
Proof.
  intros Hi H. pose proof Hi as [H1 H2 H3 H4 H5 H6 _ _ _ _ _ _ _ _ _ _]. unfold return_turn in H.
  destruct (deleting s) as [| | | | | | | | | |[]|] eqn:Ed; try done; cbn [stage] in *; injection H as <-;
    (split_and!; [keep_inv|done|unfold turns_left; cbn; rewrite Ed; cbn; lia]).
Qed.

Lemma turn_ok a s x :
  end_inv s -> turn a s = Some x ->
  exists s', x = Ok s' /\ end_inv s' /\ (deleting s <> DNone -> deleting s' <> DNone /\ (turns_left s' < turns_left s)%nat).
Proof.
  intros Hi H.
  assert (deleting s <> DNone -> running_ s = false) as Hrun.
  { intros Hd. apply (e_running s Hi). destruct (deleting s) as [| | | | | | | | | |[]|]; cbn; try done; lia. }
  destruct a as [got full|i got|i got|open| |]; cbn in H.
  - destruct (receiver s) as [r|] eqn:Er; [|done].
    destruct (receive_turn_ok got full r s x Hi Er H) as (r' & -> & Hi' & Hm). eexists. split; [done|]. split; [done|].
    intros Hd. specialize (Hm (Hrun Hd)). split; [done|]. unfold turns_left. cbn. rewrite Er. cbn. lia.
  - destruct (parsers s !! i) as [[p n]|] eqn:Ep; [|done].
    destruct (parser_turn_ok got i p n s x Hi Ep H) as (p' & -> & Hi' & Hm). eexists. split; [done|]. split; [done|].
    intros Hd. specialize (Hm (Hrun Hd)). split; [done|]. unfold turns_left. cbn.
    pose proof (sum_insert parser_rank i (p, n) p' (parsers s) Ep). lia.
  - destruct (handles s !! i) as [h|] eqn:Eh; [|done].
    destruct (handle_turn_ok got i h s x Hi Eh H) as (h' & -> & Hi' & Hm). eexists. split; [done|]. split; [done|].
    intros Hd. specialize (Hm (Hrun Hd)). split; [done|]. unfold turns_left. cbn. rewrite length_insert.
    pose proof (sum_insert handle_rank i h h' (handles s) Eh). lia.
  - destruct (set_ptc s) as [p|] eqn:Ep; [|done].
    destruct (set_ptc_turn_ok open p s x Hi Ep H) as (p' & -> & Hi' & Hm). eexists. split; [done|]. split; [done|].
    intros Hd. specialize (Hm (Hrun Hd)). split; [done|]. unfold turns_left. cbn. rewrite Ep. cbn. lia.
  - destruct (delete_turn s) as [s'|] eqn:Ed; [|done]. injection H as <-.
    destruct (delete_turn_ok s s' Hi Ed) as (Hi' & _ & Hn & Hm). eauto 7.
  - destruct (return_turn s) as [s'|] eqn:Ed; [|done]. injection H as <-.
    destruct (return_turn_ok s s' Hi Ed) as (Hi' & Hn & Hm). eauto 7.
Qed.

Lemma run_ok es : forall s x, end_inv s -> run es s = Some x ->
  exists s', x = Ok s' /\ end_inv s' /\
    (deleting s <> DNone -> deleting s' <> DNone /\ (length es + turns_left s' <= turns_left s)%nat).
Proof.
  induction es as [|a es IH]; cbn [run length]; intros s x Hi H; [injection H as <-; eauto 7|].
  destruct (turn a s) as [y|] eqn:Et; [|done].
  destruct (turn_ok a s y Hi Et) as (s2 & -> & Hi2 & Hm).
  destruct (IH s2 x Hi2 H) as (s' & -> & Hi' & Hm'). exists s'. split; [done|]. split; [done|].
  intros Hd. destruct (Hm Hd) as [Hd2 Hl]. destruct (Hm' Hd2) as [Hd' Hl']. split; [done|]. lia.
Qed.

(** Whatever the destructor waits for can move, unless it is inside a call. *)
Lemma someone_moves s : end_inv s -> deleting s <> DDone -> (forall c, deleting s <> DIn c) -> exists a, a <> Returns /\ turn a s <> None.
Proof.
  intros Hi Hd Hc. destruct (delete_turn s) as [s'|] eqn:Ed; [exists Deleter; cbn; by rewrite Ed|].
  assert (forall i h, handles s !! i = Some h -> h <> HEnd -> exists a, a <> Returns /\ turn a s <> None) as Hh.
  { intros i h Hl Hne. exists (Handle i false). cbn. rewrite Hl. destruct h; done. }
  unfold delete_turn in Ed. destruct (deleting s) eqn:Ede; try done.
  - exists (Receiver false false). cbn. destruct (receiver s) as [[]|]; done.
  - destruct (last_parser s (e_one_parser s Hi)) as [El|[[p n] El]]; rewrite El in Ed; [done|]. cbn in Ed.
    destruct (decide (p = PWork /\ ~ (length (handles s) < 2)%nat /\
      handles s !! (n mod length (handles s))%nat = Some HLocked)) as [(-> & _ & Hl)|Hno]; [by eapply Hh|].
    exists (Parser 0 false). split; [done|]. cbn. rewrite El. cbn. unfold parser_turn. destruct p; try done.
    case_decide; [done|]. cbv zeta. case_decide; [|done]. exfalso. naive_solver.
  - exists (SetPtc false). cbn. destruct (set_ptc s) as [[]|]; done.
  - destruct (handles s !! i) as [h|] eqn:Eh; [|done]. eapply Hh; [done|]. by intros ->.
  - by destruct (Hc c).
Qed.

(** What is over when the destructor is inside a call, or done. *)
Lemma ended_in_order s : end_inv s -> (6 <= stage (deleting s))%nat ->
  threads_over s /\ has_parser s = false /\ ((7 <= stage (deleting s))%nat -> has_ptc s = false) /\
  ((8 <= stage (deleting s))%nat -> has_source s <> Live) /\ ((9 <= stage (deleting s))%nat -> has_mutexes s = false).
Proof. intros [] H. split; [split_and!; auto with lia|]. auto with lia. Qed.

(** ** Properties *)

(** C23: with one parser thread the destructor is safe: in whatever order the threads of
    the lidar and the destructor move, from a lidar in use, no thread reaches an
    object that has been deleted. *)
Theorem destructor_safe n threads from_lidar ros record es :
  (n <= 1)%nat ->
  match run es (in_use n threads from_lidar ros record) with
  | Some (Err _) => False
  | _ => True
  end.
Proof.
  intros Hn. destruct (run es _) as [x|] eqn:E; [|done].
  destruct (run_ok es _ x (in_use_inv n threads from_lidar ros record Hn) E) as (s' & -> & _). done.
Qed.

(** C24: how it ends, with at most one parser thread: once it has begun, the threads
    and the destructor have only [turns_left] turns.  When neither the threads nor the
    destructor can move, the threads have left their loops, and the destructor either
    is done, with every object gone, or is inside one of the four calls it makes, the
    destructors of the parser, of the PTC client and of the source and
    [Logger::Stop], with the objects before it gone: it stays there exactly as long
    as the call does, [Logger::Stop] possibly for ever.  If every call returns, the
    destructor is done. *)
Theorem destructor_ends n threads from_lidar ros record es s es' s' :
  (n <= 1)%nat -> run es (in_use n threads from_lidar ros record) = Some (Ok s) -> deleting s <> DNone ->
  run es' s = Some (Ok s') ->
  (length es' <= turns_left s)%nat /\
  ((forall a, a <> Returns -> turn a s' = None) ->
   threads_over s' /\ has_parser s' = false /\
   match deleting s' with
   | DDone => has_ptc s' = false /\ has_source s' <> Live /\ has_mutexes s' = false
   | DIn c =>
       turn Returns s' <> None /\ (c <> CParser -> has_ptc s' = false) /\
       (c = CSource \/ c = CLogger -> has_source s' <> Live) /\ (c = CLogger -> has_mutexes s' = false)
   | _ => False
   end) /\
  ((forall a, turn a s' = None) -> deleting s' = DDone).
Proof.
  intros Hn Hr Hd Hr'.
  destruct (run_ok es _ _ (in_use_inv n threads from_lidar ros record Hn) Hr) as (s0 & E & Hi & _). injection E as <-.
  destruct (run_ok es' _ _ Hi Hr') as (s1 & E & Hi' & Hm). injection E as <-. destruct (Hm Hd) as [_ Hl].
  split; [lia|].
  assert ((forall a, a <> Returns -> turn a s' = None) -> deleting s' = DDone \/ exists c, deleting s' = DIn c) as Hq.
  { intros Hs. destruct (deleting s') eqn:Ed; eauto;
      (destruct (someone_moves s' Hi') as (a & Ha & Ha'); [by rewrite Ed|by rewrite Ed|]; by destruct Ha'; apply Hs). }
  split.
  - intros Hs. destruct (Hq Hs) as [Ed|[c Ed]].
    + destruct (ended_in_order s' Hi') as (H1 & H2 & H3 & H4 & H5); rewrite Ed in *; cbn [stage] in *; [lia|]. auto 8 with lia.
    + destruct (ended_in_order s' Hi') as (H1 & H2 & H3 & H4 & H5); rewrite Ed in *; [destruct c; cbn; lia|].
      split; [done|]. split; [done|]. cbn [turn]. unfold return_turn. rewrite Ed.
      destruct c; cbn [stage] in *; split_and!; auto with lia; try done; by intros [].
  - intros Hs. destruct Hq as [?|[c Ed]]; [auto|done|]. specialize (Hs Returns). cbn in Hs. unfold return_turn in Hs.
    rewrite Ed in Hs. by destruct c.
Qed.

(** A second call of [SetThreadNum] leaves two parser threads, of which the
    destructor knows the last: it deletes the parser under the first. *)
Theorem two_parser_threads_fault :
  exists es, run es (in_use 2 0 false false false) = Some (Err UseAfterFree).
Proof.
  by exists [Parser 0 true; Deleter; Receiver true false; Deleter; Parser 1 true; Deleter; Deleter; Deleter;
    Parser 0 true; Parser 0 true].
Qed.

(** ** Witnesses *)

(** One parser thread, two handle threads, a lidar on the network: the destructor
    begins while a packet is being handled. *)
Definition demo_busy : list actor :=
  [Receiver true false; Receiver true false; Receiver true false; Parser 0 true; Parser 0 true; Parser 0 true;
   Handle 0 true; Handle 0 true; SetPtc true; Deleter].
Definition demo_ending : list actor :=
  [Receiver true false; Receiver true false; Deleter; Parser 0 true; Deleter; SetPtc true; SetPtc true; Deleter;
   Handle 0 true; Handle 0 true; Deleter; Handle 1 true; Deleter; Deleter;
   Deleter; Returns; Deleter; Returns; Deleter; Returns; Deleter; Deleter].

Lemma destructor_safe_witness :
  match run (demo_busy ++ demo_ending) (in_use 1 2 true false false) with Some (Err _) => False | _ => True end.
Proof. apply (destructor_safe 1 2 true false false (demo_busy ++ demo_ending)). lia. Defined.

Definition state_of (r : option (result ending)) : ending :=
  match r with Some (Ok s) => s | _ => in_use 0 0 false false false end.
Definition demo_begun : ending := state_of (run demo_busy (in_use 1 2 true false false)).
Definition demo_over : ending := state_of (run demo_ending demo_begun).

(** The destructor has come to [Logger::Stop]; when that returns it is done. *)
Lemma destructor_ends_witness :
  deleting demo_over = DIn CLogger /\ (length demo_ending <= turns_left demo_begun)%nat /\ has_mutexes demo_over = false /\
  deleting (state_of (run [Returns] demo_over)) = DDone.
Proof.
  split; [by vm_compute|].
  destruct (destructor_ends 1 2 true false false demo_busy demo_begun demo_ending demo_over) as (H1 & H2 & _);
    [lia|by vm_compute|by vm_compute|by vm_compute|].
  split; [exact H1|]. split; [|by vm_compute].
  destruct H2 as (_ & _ & H3).
  - intros [| i got | i got | | |] Ha; try done; cbn.
    + change (parsers demo_over) with [(PEnd, 1%nat)]. by destruct i as [|[]].
    + change (handles demo_over) with [HEnd; HEnd]. by destruct i as [|[|[]]].
  - change (deleting demo_over) with (DIn CLogger) in H3. by apply H3.
Defined.

End LidarEnd.
