(* ===== verification/Sdk.v ===== *)
(** * Sdk: the application's loop

    driver/hesai_lidar_sdk.hpp.  [Run] takes packets from the lidar's queue,
    decodes them into the frame, hands each to the computing threads, and
    publishes the frame when a packet completes it.  One pass of the loop is a
    turn of the main thread; between the split and the publication it waits, so
    the wait is a place of its own ([Waiting]).  The turns of the other threads
    are those of Lidar.v, and any order of turns is a run. *)

From S2P Require Import Prelude Bytes Floats LidarTypes GeneralParser PacketLoss Decoder UdpParser SocketSource Lidar Calendar.
Local Open Scope Z_scope.

Definition INADDR_NONE : Z := 0xffffffff.

(** [Init]: a port filter is on for a port of the user range, when the lidar's
    address is a valid one; 0 is off. *)
Definition port_filter (ip port : Z) : Z :=
  if (1024 <=? port) && (port <=? 65535) && negb (ip =? INADDR_NONE) then port else 0.

(** The filters, the callbacks that are registered, whether the point-cloud part
    is initialised and whether there is a PTC connection. *)
Record SdkConfig : Type := mk_config {
  device_ip_address_ : Z;
  device_udp_port_ : Z;
  device_fault_port_ : Z;
  has_point_cloud_cb : bool;
  has_pkt_cb : bool;
  has_pkt_loss_cb : bool;
  has_ptp_cb : bool;
  has_correction_cb : bool;
  has_fault_message_cb : bool;
  point_cloud_parse : bool;
  has_ptc_client : bool;
  (* whether the lidar answers both PTP queries of the frame with this index *)
  ptp_answers : Z -> bool;
}.

(** The callbacks made. *)
Inductive callback (P : Type) : Type :=
| PointCloud (f : LidarDecodedFrame P)
| Packets (ps : list UdpPacket)
| PacketLoss_ (total_packet_count total_packet_loss_count : Z)
| Ptp
| Correction
| FaultMessage (p : UdpPacket).
Arguments PointCloud {P}.
Arguments Packets {P}.
Arguments PacketLoss_ {P}.
Arguments Ptp {P}.
Arguments Correction {P}.
Arguments FaultMessage {P}.

Inductive place : Type := Loop | Waiting (p : UdpPacket) (last_packet_is_valid : bool).

(** How a list of packets left the current frame. *)
Inductive closing : Set := Completed | Overflowed.

(** [accepted] and [closed] are ghosts: the packets decoded into frames and the
    frames that were ended, oldest first. *)
Record Sdk (P G S : Type) : Type := mk_sdk {
  lidar : Lidar P G S;
  packet_index : Z;
  udp_packet_frame : list UdpPacket;
  where_ : place;
  nUDPCount : Z;
  callbacks : list (callback P);
  accepted : list UdpPacket;
  closed : list (closing * list UdpPacket);
}.
Arguments mk_sdk {P G S}.
Arguments lidar {P G S}.
Arguments packet_index {P G S}.
Arguments udp_packet_frame {P G S}.
Arguments where_ {P G S}.
Arguments nUDPCount {P G S}.
Arguments callbacks {P G S}.
Arguments accepted {P G S}.
Arguments closed {P G S}.

Section SdkOps.
Context {P G S : Type} {D : Decoder P G}.
Variable new_parser : parser_kind -> G.
Variable cfg : SdkConfig.

Definition set_lidar (l : Lidar P G S) (st : Sdk P G S) : Sdk P G S :=
  mk_sdk l (packet_index st) (udp_packet_frame st) (where_ st) (nUDPCount st) (callbacks st) (accepted st) (closed st).
Definition set_where (w : place) (st : Sdk P G S) : Sdk P G S :=
  mk_sdk (lidar st) (packet_index st) (udp_packet_frame st) w (nUDPCount st) (callbacks st) (accepted st) (closed st).
Definition set_count (n : Z) (st : Sdk P G S) : Sdk P G S :=
  mk_sdk (lidar st) (packet_index st) (udp_packet_frame st) (where_ st) n (callbacks st) (accepted st) (closed st).
Definition call (cs : list (callback P)) (st : Sdk P G S) : Sdk P G S :=
  mk_sdk (lidar st) (packet_index st) (udp_packet_frame st) (where_ st) (nUDPCount st) (callbacks st ++ cs)
    (accepted st) (closed st).
Definition accept (p : UdpPacket) (st : Sdk P G S) : Sdk P G S :=
  mk_sdk (lidar st) (packet_index st) (udp_packet_frame st) (where_ st) (nUDPCount st) (callbacks st)
    (accepted st ++ [p]) (closed st).

Definition set_frame (f : LidarDecodedFrame P) (l : Lidar P G S) : Lidar P G S := set_parsed (Lidar.udp_parser_ l) f l.

(** frame_.packet_num = n *)
Definition set_packet_num (n : Z) (l : Lidar P G S) : Lidar P G S :=
  set_frame (set_counts n (points_num (frame_ l)) (frame_ l)) l.

(** The packet becomes one of the frame: ComputeXYZI(packet_index), points_num +=
    per_points_num, emplace_back, packet_index++. *)
Definition add_packet (p : UdpPacket) (st : Sdk P G S) : result (Sdk P G S) :=
  l ← Lidar.ComputeXYZI (packet_index st) (lidar st);
  let f := frame_ l in
  let l := set_frame (set_counts (packet_num f) (u32 (points_num f + per_points_num f)) f) l in
  Ok (mk_sdk l (u32 (packet_index st + 1)) (udp_packet_frame st ++ [p]) (where_ st) (nUDPCount st)
        (callbacks st) (accepted st) (closed st)).

(** frame_.Update(), udp_packet_frame.clear(), packet_index = 0. *)
Definition next_frame (how : closing) (st : Sdk P G S) : Sdk P G S :=
  mk_sdk (set_frame (Update (frame_ (lidar st))) (lidar st)) 0 [] (where_ st) (nUDPCount st) (callbacks st)
    (accepted st) (closed st ++ [(how, udp_packet_frame st)]).

(** The packet is one of another device. *)
Definition filtered (port : Z) (p : UdpPacket) : bool :=
  negb (port =? 0) && (negb (device_ip_address_ cfg =? packet_ip p) || negb (port =? packet_port p)).

(** The callbacks of a complete frame of more than [kMinPointsOfOneFrame]
    points. *)
Definition publish (st : Sdk P G S) : result (Sdk P G S) :=
  let f := frame_ (lidar st) in
  if negb (kMinPointsOfOneFrame <? points_num f) then Ok st
  else
    let c1 := if has_point_cloud_cb cfg then [PointCloud f] else [] in
    let c2 := if has_pkt_cb cfg then [Packets (udp_packet_frame st)] else [] in
    c3 ← (if has_pkt_loss_cb cfg then
            match parser_ (Lidar.udp_parser_ (lidar st)) with
            | Some g => let s := loss_ (general g) in
                Ok [PacketLoss_ (total_packet_count_ s) (total_loss_count (seqnum_loss_message_ s))]
            | None => Err NullPointer
            end
          else Ok []);
    c4 ← (if has_ptp_cb cfg && (Z.rem (frame_index f) 100 =? 1)
          then if has_ptc_client cfg then Ok (if ptp_answers cfg (frame_index f) then [Ptp] else []) else Err NullPointer
          else Ok []);
    let c5 := if has_correction_cb cfg && (Z.rem (frame_index f) 1000 =? 1) then [Correction] else [] in
    Ok (call (c1 ++ c2 ++ c3 ++ c4 ++ c5) st).

(** The rest of a pass, for a packet that was decoded. *)
Definition decoded (p : UdpPacket) (st : Sdk P G S) : result (Sdk P G S) :=
  let f := frame_ (lidar st) in
  if scan_complete f then
    let valid := negb (packet_num f =? packet_index st) in
    Ok (set_where (Waiting p valid) (set_lidar (set_packet_num (packet_index st) (lidar st)) st))
  else
    st ← (if negb (packet_num f =? packet_index st) then add_packet p st else Ok st);
    if kMaxPacketNumPerFrame <=? packet_index st then
      l ← ClearPacketBuffer (lidar st);
      Ok (next_frame Overflowed (set_lidar l st))
    else Ok st.

(** A pass that begins by taking a packet.  A packet that [DecodePacket] accepts
    and that is a new one goes into the ghost [accepted]. *)
Definition loop_turn (host : Z) (now : nat -> Z) (st : Sdk P G S) : result (Sdk P G S) :=
  let '(o, l) := GetOnePacket (lidar st) in
  let st := set_lidar l st in
  match o with
  | None => Ok st
  | Some p =>
      if packet_len p =? kFaultMessageLength then
        if filtered (device_fault_port_ cfg) p then Ok st
        else match parser_ (Lidar.udp_parser_ l) with
             | Some _ => Ok (if has_fault_message_cb cfg then call [FaultMessage p] st else st)
             | None => Ok st
             end
      else if negb (point_cloud_parse cfg) then Ok st
      else if (negb (is_timeout p) || (packet_index st =? 0)) && filtered (device_udp_port_ cfg) p then Ok st
      else
        '(r, _, l) ← DecodePacket new_parser host now p l;
        let st := set_lidar l st in
        if negb (r =? 0) then Ok st
        else
          let st := if negb (packet_num (frame_ l) =? packet_index st) then accept p st else st in
          decoded p st
  end.

(** A look at the counter while the frame waits for its points. *)
Definition wait_turn (host : Z) (now : nat -> Z) (p : UdpPacket) (valid : bool) (st : Sdk P G S) : result (Sdk P G S) :=
  let '(b, l) := ComputeXYZIComplete (packet_index st) (lidar st) in
  let st := set_lidar l st in
  if negb b then Ok st
  else
    st ← publish st;
    let st := set_where Loop (next_frame Completed st) in
    if valid then
      '(_, _, l) ← DecodePacket new_parser host now p (lidar st);
      add_packet p (set_lidar l st)
    else Ok st.

Definition main_turn (host : Z) (now : nat -> Z) (st : Sdk P G S) : result (Sdk P G S) :=
  match where_ st with
  | Loop => loop_turn host now st
  | Waiting p valid => wait_turn host now p valid st
  end.

(** ** Runs *)

Inductive turn : Type :=
| TMain (host : Z) (now : nat -> Z)
| TParser
| THandle (nThreadNum : Z)
| TArrive (p : UdpPacket).

Definition sdk_step (t : turn) (st : Sdk P G S) : result (Sdk P G S) :=
  match t with
  | TMain host now => main_turn host now st
  | TParser =>
      '(n, l, _) ← parser_turn (nUDPCount st) (lidar st);
      Ok (set_count n (set_lidar l st))
  | THandle i => '(l, _) ← handle_turn i (lidar st); Ok (set_lidar l st)
  | TArrive p =>
      let l := lidar st in
      Ok (set_lidar (set_origin (source_ l) (origin_packets_buffer_ l ++ [p]) (is_timeout_ l) l) st)
  end.

Definition sdk_run (ts : list turn) (st : Sdk P G S) : result (Sdk P G S) :=
  foldM (fun st t => sdk_step t st) st ts.

End SdkOps.

(** ** The invariant *)

Section Invariant.
Context {P G S : Type} {D : Decoder P G} {L : DecoderLaws P G}.
Variable new_parser : parser_kind -> G.
Variable cfg : SdkConfig.
Implicit Types st : Sdk P G S.

(** The packet a waiting frame is ended by. *)
Definition carried (w : place) : list UdpPacket :=
  match w with Waiting p true => [p] | _ => [] end.

(** [g] has decoded [p] as its last packet. *)
Definition just_decoded (p : UdpPacket) (g : G) : Prop :=
  6 <= packet_len p /\ exists host now g0 f0 g1 f1, v_DecodePacket host now g0 f0 p = Ok (0, g1, f1) /\ alike g1 g.

(** The state between two turns; [leak] is how many computed packets the counter
    has in excess of the current frame. *)
Record Inv (leak : Z) (st : Sdk P G S) : Prop := {
  inv_parser : exists g, parser_ (Lidar.udp_parser_ (lidar st)) = Some g /\
    match where_ st with Waiting p valid => valid = true /\ just_decoded p g | Loop => True end;
  inv_index : 0 <= packet_index st < kMaxPacketNumPerFrame;
  inv_length : Z.of_nat (length (udp_packet_frame st)) = packet_index st;
  inv_packet_num : packet_num (frame_ (lidar st)) = packet_index st;
  inv_counter : 0 <= computed_num (lidar st) /\
    computed_num (lidar st) + Z.of_nat (length (pending (lidar st))) = leak + packet_index st;
  inv_accepted : accepted st = concat (snd <$> closed st) ++ udp_packet_frame st ++ carried (where_ st);
}.

(** The counter does not wrap and the queues have room. *)
Definition small_leak (leak : Z) : Prop := 0 <= leak /\ leak + kMaxPacketNumPerFrame < kPacketBufferSize.

(** A turn of a computing thread. *)
Lemma compute_turn_inv leak st l o n :
  Inv leak st -> small_leak leak ->
  pending (lidar st) ≡ₚ option_list o ++ pending l -> step_frame (lidar st) l o ->
  Inv leak (set_count n (set_lidar l st)).
Proof.
  intros [Hp Hi Hl Hn [Hc0 Hc] Ha] [Hs0 Hs] Hperm ((g0 & g1 & Hg0 & Hg1 & Hal) & Hcn & Hf & Ho & _).
  destruct Hp as (g & Hg & Hw). rewrite Hg in Hg0. injection Hg0 as <-.
  split; cbn [lidar packet_index udp_packet_frame where_ accepted closed set_count set_lidar]; try done.
  - exists g1. split; [done|]. destruct (where_ st) as [|p valid]; [done|].
    destruct Hw as [Hv (H6 & host & now & a & f0 & b & f1 & E & Hb)]. split; [done|]. split; [done|].
    exists host, now, a, f0, b, f1. split; [done|]. by transitivity g.
  - rewrite Hf. exact Hn.
  - assert (length (pending (lidar st)) = length (option_list o) + length (pending l))%nat as Hlen.
    { by rewrite Hperm, length_app. }
    rewrite Hcn. destruct o as [i|]; cbn [option_list from_option length] in Hlen.
    + change (length (option_list (Some i))) with 1%nat in Hlen.
      unfold u32. unfold kPacketBufferSize, kMaxPacketNumPerFrame in *. rewrite Z.mod_small by lia. lia.
    + change (length (option_list None)) with 0%nat in Hlen. lia.
Qed.

Lemma room_of_inv leak st : Inv leak st -> small_leak leak -> room (lidar st).
Proof. intros [_ Hi _ _ [Hc0 Hc] _] [Hs0 Hs]. unfold room. lia. Qed.

(** A packet becomes one of the frame, once it is decoded. *)
Lemma add_packet_spec leak p st :
  small_leak leak -> 0 <= packet_index st < kMaxPacketNumPerFrame ->
  0 <= computed_num (lidar st) ->
  computed_num (lidar st) + Z.of_nat (length (pending (lidar st))) = leak + packet_index st ->
  exists st', add_packet p st = Ok st' /\ packet_index st' = packet_index st + 1 /\
    udp_packet_frame st' = udp_packet_frame st ++ [p] /\ where_ st' = where_ st /\
    accepted st' = accepted st /\ closed st' = closed st /\ callbacks st' = callbacks st /\
    Lidar.udp_parser_ (lidar st') = Lidar.udp_parser_ (lidar st) /\
    packet_num (frame_ (lidar st')) = packet_num (frame_ (lidar st)) /\
    pending (lidar st') = pending (lidar st) ++ [packet_index st] /\
    handle_thread_count_ (lidar st') = handle_thread_count_ (lidar st) /\
    handle_thread_packet_buffer_ (lidar st') = handle_thread_packet_buffer_ (lidar st).
Proof.
  intros [Hs0 Hs] Hi Hc0 Hc. unfold add_packet, Lidar.ComputeXYZI.
  assert (length (decoded_packets_buffer_ (lidar st)) <= length (pending (lidar st)))%nat.
  { unfold pending. rewrite length_app. lia. }
  destruct (Z.ltb_spec (Z.of_nat (length (decoded_packets_buffer_ (lidar st)))) kPacketBufferSize); [|lia].
  cbn [mbind result_bind]. eexists. split; [reflexivity|].
  cbn [packet_index udp_packet_frame where_ accepted closed callbacks lidar].
  split; [unfold u32; unfold kMaxPacketNumPerFrame in Hi; rewrite Z.mod_small; lia|].
  repeat (split; [done|]). split; [|done]. unfold pending. cbn. by rewrite app_assoc.
Qed.

Lemma decode_lidar host now p (l : Lidar P G S) g r w l' :
  parser_ (Lidar.udp_parser_ l) = Some g -> DecodePacket new_parser host now p l = Ok (r, w, l') ->
  exists g', parser_ (Lidar.udp_parser_ l') = Some g' /\
    pending l' = pending l /\ origin_packets_buffer_ l' = origin_packets_buffer_ l /\
    handle_thread_count_ l' = handle_thread_count_ l /\
    handle_thread_packet_buffer_ l' = handle_thread_packet_buffer_ l /\
    computed_num l' = computed_num l /\
    ((packet_len p < 6 /\ r = -1 /\ packet_num (frame_ l') = packet_num (frame_ l)) \/
     (6 <= packet_len p /\ v_DecodePacket host now g (frame_ l) p = Ok (r, g', frame_ l') /\
      packet_num (frame_ l') = if r =? 0 then u32 (packet_num (frame_ l) + 1) else packet_num (frame_ l))).
Proof.
  intros Hg. unfold DecodePacket.
  destruct (UdpParser.DecodePacket _ _ _ _ _ _) as [[[[r0 w0] u] f]|] eqn:E; cbn [mbind result_bind]; [|done].
  intros H. apply (inj Ok) in H as [= <- <- <-].
  assert (computed_num l = compute_packet_num (general g)) as Hcn.
  { unfold computed_num, getComputePacketNum. by rewrite Hg. }
  destruct (wrapper_decodes new_parser host now _ _ _ g _ _ _ _ Hg E) as [(-> & H6 & Hu & ->)|(g' & H6 & Ed & Hu)].
  - exists g. split; [done|]. repeat (split; [done|]). split; [|by left].
    unfold computed_num, getComputePacketNum. cbn [Lidar.udp_parser_ set_parsed]. by rewrite Hu, Hg.
  - exists g'. split; [done|]. repeat (split; [done|]).
    assert (computed_num (set_parsed u f l) = compute_packet_num (general g')) as ->.
    { unfold computed_num, getComputePacketNum. cbn [Lidar.udp_parser_ set_parsed]. by rewrite Hu. }
    rewrite Hcn. destruct (Z.eqb_spec r0 0) as [->|Hr].
    + destruct (decode_counts _ _ _ _ _ _ _ Ed) as (Hn & _ & _ & _ & Hc). split; [done|]. right. done.
    + destruct (decode_refused _ _ _ _ _ _ _ _ Ed Hr) as (Hn & _ & Hc). split; [done|]. by right.
Qed.

(** How a step ends: the invariant goes on, with frames completed; or the frame
    overflowed and the counter is what it was. *)
Definition step_outcome (leak : Z) (st st' : Sdk P G S) : Prop :=
  (Inv leak st' /\ exists xs, closed st' = closed st ++ xs /\ Forall (fun x => fst x = Completed) xs) \/
  (exists ps leak', closed st' = closed st ++ [(Overflowed, ps)] /\ Inv leak' st').

Lemma step_outcome_same leak st st' : Inv leak st' -> closed st' = closed st -> step_outcome leak st st'.
Proof. intros Hi Hc. left. split; [done|]. exists []. by rewrite app_nil_r. Qed.

Lemma inv_call leak st cs : Inv leak st -> Inv leak (call cs st).
Proof. by intros [Hp Hi Hl Hn Hc Ha]. Qed.

(** A pass that ends with the frame as it was. *)
Lemma inv_lidar leak st l g g' :
  Inv leak st -> where_ st = Loop -> parser_ (Lidar.udp_parser_ (lidar st)) = Some g ->
  parser_ (Lidar.udp_parser_ l) = Some g' -> pending l = pending (lidar st) ->
  computed_num l = computed_num (lidar st) -> packet_num (frame_ l) = packet_num (frame_ (lidar st)) ->
  Inv leak (set_lidar l st).
Proof.
  intros [Hp Hi Hl Hn [Hc0 Hc] Ha] Hw Hg Hg' Hpe Hcn Hpn.
  split; cbn [lidar packet_index udp_packet_frame where_ accepted closed set_lidar]; try done.
  - exists g'. by rewrite Hw.
  - by rewrite Hpn.
  - by rewrite Hcn, Hpe.
Qed.

(** The rest of a pass, after a new packet was decoded. *)
Lemma decoded_outcome leak p st st' st0 g :
  small_leak leak -> where_ st = Loop -> parser_ (Lidar.udp_parser_ (lidar st)) = Some g -> just_decoded p g ->
  0 <= packet_index st < kMaxPacketNumPerFrame -> Z.of_nat (length (udp_packet_frame st)) = packet_index st ->
  packet_num (frame_ (lidar st)) = packet_index st + 1 ->
  0 <= computed_num (lidar st) ->
  computed_num (lidar st) + Z.of_nat (length (pending (lidar st))) = leak + packet_index st ->
  accepted st = concat (snd <$> closed st) ++ udp_packet_frame st ++ [p] ->
  closed st = closed st0 ->
  decoded p st = Ok st' -> step_outcome leak st0 st'.
Proof.
  intros Hs Hw Hg Hj Hi Hl Hn Hc0 Hc Ha Hcl. unfold decoded.
  assert ((packet_num (frame_ (lidar st)) =? packet_index st) = false) as -> by lia. cbn [negb].
  destruct (scan_complete (frame_ (lidar st))).
  - intros H. apply (inj Ok) in H as <-. apply step_outcome_same; [|done].
    split; cbn [lidar packet_index udp_packet_frame where_ accepted closed set_lidar set_where]; try done.
    exists g. done.
  - destruct (add_packet_spec leak p st Hs Hi Hc0 Hc) as (st1 & -> & E1 & E2 & E3 & E4 & E5 & E6 & E7 & E8 & E9 & E10 & E11).
    cbn [mbind result_bind].
    assert (computed_num (lidar st1) = computed_num (lidar st)) as Ec by (unfold computed_num; by rewrite E7).
    destruct (Z.leb_spec kMaxPacketNumPerFrame (packet_index st1)).
    + destruct (ClearPacketBuffer (lidar st1)) as [l|] eqn:El; cbn [mbind result_bind]; [|done].
      intros H1. apply (inj Ok) in H1 as <-. right.
      assert (Lidar.udp_parser_ l = Lidar.udp_parser_ (lidar st1)) as Eu.
      { unfold ClearPacketBuffer in El. destruct (_ <? _); inv_ok; [destruct (foldM _ _ _); inv_ok|]; done. }
      exists (udp_packet_frame st1), (computed_num l + Z.of_nat (length (pending l))).
      cbn [closed next_frame set_lidar udp_packet_frame]. rewrite E5, Hcl. split; [done|].
      split; cbn [lidar packet_index udp_packet_frame where_ accepted closed set_lidar next_frame]; try done.
      * exists g. cbn [Lidar.udp_parser_ set_frame set_parsed]. rewrite Eu, E7, E3, Hw. done.
      * change (computed_num (set_frame (Update (frame_ l)) l)) with (computed_num l).
        change (pending (set_frame (Update (frame_ l)) l)) with (pending l).
        split; [|lia]. assert (computed_num l = computed_num (lidar st1)) as -> by (unfold computed_num; by rewrite Eu).
        by rewrite Ec.
      * rewrite E4, E5, Ha, E2, E3, Hw, fmap_app, concat_app. cbn. by rewrite !app_nil_r.
    + intros H1. apply (inj Ok) in H1 as <-. apply step_outcome_same; [|by rewrite E5].
      split.
      * exists g. by rewrite E7, E3, Hw.
      * lia.
      * rewrite E2, E1, length_app. cbn [length]. lia.
      * rewrite E8, E1. lia.
      * rewrite Ec, E9, E1, length_app. cbn [length]. lia.
      * by rewrite E4, E5, E2, E3, Hw, Ha, app_nil_r.
Qed.

Lemma loop_turn_outcome leak host now st st' :
  Inv leak st -> small_leak leak -> where_ st = Loop ->
  loop_turn new_parser cfg host now st = Ok st' -> step_outcome leak st st'.
Proof.
  intros Hinv Hs Hw. pose proof Hinv as [(g & Hg & _) Hi Hl Hn [Hc0 Hc] Ha]. rewrite Hw in Ha.
  assert (forall l o, GetOnePacket (lidar st) = (o, l) ->
    Inv leak (set_lidar l st) /\ parser_ (Lidar.udp_parser_ l) = Some g /\ pending l = pending (lidar st) /\
    computed_num l = computed_num (lidar st) /\ packet_num (frame_ l) = packet_num (frame_ (lidar st))) as Hget.
  { intros l o E.
    assert (parser_ (Lidar.udp_parser_ l) = Some g /\ pending l = pending (lidar st) /\
      computed_num l = computed_num (lidar st) /\ packet_num (frame_ l) = packet_num (frame_ (lidar st))) as (H1 & H2 & H3 & H4).
    { unfold GetOnePacket in E. destruct (origin_packets_buffer_ (lidar st)); by injection E as <- <-. }
    split; [|done]. by apply (inv_lidar leak st l g g). }
  unfold loop_turn. destruct (GetOnePacket (lidar st)) as [o l] eqn:Eo.
  destruct (Hget l o eq_refl) as (Hinv1 & Hg1 & Hp1 & Hc1 & Hn1).
  destruct o as [p|]; [|intros H; apply (inj Ok) in H as <-; by apply step_outcome_same].
  destruct (_ =? kFaultMessageLength).
  { destruct (filtered cfg (device_fault_port_ cfg) p); [intros H; apply (inj Ok) in H as <-; by apply step_outcome_same|].
    rewrite Hg1. intros H; apply (inj Ok) in H as <-.
    apply step_outcome_same; destruct (has_fault_message_cb cfg); done || by apply inv_call. }
  destruct (negb (point_cloud_parse cfg)); [intros H; apply (inj Ok) in H as <-; by apply step_outcome_same|].
  destruct (_ && _); [intros H; apply (inj Ok) in H as <-; by apply step_outcome_same|].
  destruct (DecodePacket new_parser host now p l) as [[[r w] l2]|] eqn:Ed; cbn [mbind result_bind]; [|done].
  destruct (decode_lidar host now p l g r w l2 Hg1 Ed) as (g2 & Hg2 & Hp2 & _ & _ & _ & Hc2 & Hr).
  rewrite Hp1 in Hp2. rewrite Hc1 in Hc2.
  destruct (Z.eqb_spec r 0) as [->|Hr0]; cbn [negb].
  2: { intros H. apply (inj Ok) in H as <-. apply step_outcome_same; [|done].
    apply (inv_lidar leak st l2 g g2); try done. destruct Hr as [(_ & _ & E)|(_ & _ & E)]; rewrite E; done. }
  destruct Hr as [(_ & ? & _)|(H6 & Ev & E)]; [done|]. rewrite Hn1, Hn in E.
  assert (packet_num (frame_ l2) = packet_index st + 1) as En.
  { rewrite E. unfold u32. unfold kMaxPacketNumPerFrame in Hi. apply Z.mod_small. lia. }
  cbn [packet_index set_lidar].
  assert ((packet_num (frame_ l2) =? packet_index st) = false) as -> by lia. cbn [negb].
  apply (decoded_outcome leak p _ st' st g2); try done;
    cbn [lidar packet_index udp_packet_frame where_ accepted closed set_lidar accept]; try done.
  - split; [done|]. exists host, now, g, (frame_ l), g2, (frame_ l2). split; [done|]. reflexivity.
  - lia.
  - by rewrite Hc2, Hp2.
  - rewrite Ha. cbn [carried]. by rewrite app_nil_r, app_assoc.
Qed.

Lemma publish_keeps st st' : publish cfg st = Ok st' -> exists cs, st' = call cs st.
Proof.
  unfold publish. destruct (negb _).
  { intros H. apply (inj Ok) in H as <-. exists []. destruct st. unfold call. cbn. by rewrite app_nil_r. }
  intros H. inv_ok. eauto.
Qed.

(** The counter is taken when it shows the frame's packets. *)
Lemma complete_true n (l l' : Lidar P G S) g :
  parser_ (Lidar.udp_parser_ l) = Some g -> ComputeXYZIComplete n l = (true, l') ->
  computed_num l = n /\ computed_num l' = 0 /\ pending l' = pending l /\
  frame_ l' = frame_ l /\ origin_packets_buffer_ l' = origin_packets_buffer_ l /\
  exists g', parser_ (Lidar.udp_parser_ l') = Some g' /\ alike g g'.
Proof.
  intros Hg. unfold ComputeXYZIComplete, computed_num.
  destruct (Z.eqb_spec (getComputePacketNum (Lidar.udp_parser_ l)) n) as [E|]; [|done].
  intros [= <-]. split; [done|]. unfold setComputePacketNumToZero, on_general, getComputePacketNum. rewrite Hg.
  cbn [Lidar.udp_parser_ set_parsed parser_ set_parser]. split; [by rewrite general_with|].
  split; [done|]. split; [done|]. split; [done|]. eexists. split; [done|]. apply reset_alike.
Qed.

Lemma wait_turn_outcome leak host now p valid st st' :
  Inv leak st -> small_leak leak -> where_ st = Waiting p valid ->
  wait_turn new_parser cfg host now p valid st = Ok st' -> step_outcome leak st st'.
Proof.
  intros Hinv Hs Hw. pose proof Hinv as [(g & Hg & Hj) Hi Hl Hn [Hc0 Hc] Ha]. rewrite Hw in Ha, Hj.
  destruct Hj as [-> (H6 & h0 & n0 & g0 & f0 & g1 & f1 & Ev & Hal)]. cbn [carried] in Ha.
  unfold wait_turn. destruct (ComputeXYZIComplete (packet_index st) (lidar st)) as [b l] eqn:Eb.
  destruct b; cbn [negb].
  2: { intros H. apply (inj Ok) in H as <-. apply step_outcome_same; [|done].
    assert (l = lidar st) as ->. { unfold ComputeXYZIComplete in Eb. destruct (_ =? _); by injection Eb. }
    by destruct st. }
  destruct (complete_true _ _ _ g Hg Eb) as (Hcn & Hc1 & Hp1 & Hf1 & Ho1 & g2 & Hg2 & Hal2).
  destruct (publish cfg (set_lidar l st)) as [stp|] eqn:Ep; cbn [mbind result_bind]; [|done].
  apply publish_keeps in Ep as [cs ->].
  set (stn := set_where Loop (next_frame Completed (call cs (set_lidar l st)))).
  destruct (DecodePacket new_parser host now p (lidar stn)) as [[[r w] l2]|] eqn:Ed; cbn [mbind result_bind]; [|done].
  destruct (decode_lidar host now p (lidar stn) g2 r w l2 Hg2 Ed)
    as (g3 & Hg3 & Hp3 & _ & _ & _ & Hc3 & [(? & _)|(_ & Ev2 & En)]); [lia|].
  destruct (decode_again _ _ _ _ _ _ _ _ _ _ _ _ _ _ Ev (transitivity Hal Hal2) Ev2) as [-> _].
  change (packet_num (frame_ (lidar stn))) with 0 in En. cbn [Z.eqb] in En.
  change (u32 (0 + 1)) with 1 in En.
  change (pending (lidar stn)) with (pending l) in Hp3. change (computed_num (lidar stn)) with (computed_num l) in Hc3.
  intros H.
  destruct (add_packet_spec leak p (set_lidar l2 stn)) as (st1 & E & E1 & E2 & E3 & E4 & E5 & E6 & E7 & E8 & E9 & _);
    try done; cbn [packet_index lidar set_lidar set_where next_frame stn].
  { rewrite Hc3, Hc1. done. }
  { rewrite Hc3, Hc1, Hp3, Hp1. lia. }
  rewrite E in H. apply (inj Ok) in H as <-. cbn [packet_index udp_packet_frame where_ accepted closed
    set_lidar set_where next_frame stn call] in E1, E2, E3, E4, E5. unfold stn in E1, E2, E3, E4, E5.
  left. split.
  - split.
    + exists g3. rewrite E7. split; [done|]. rewrite E3. done.
    + rewrite E1. done.
    + rewrite E2, E1. done.
    + rewrite E8, E1. exact En.
    + assert (computed_num (lidar st1) = 0) as ->.
      { unfold computed_num. rewrite E7. change (computed_num l2 = 0). by rewrite Hc3, Hc1. }
      rewrite E9, E1, length_app. change (pending (lidar (set_lidar l2 stn))) with (pending l2).
      rewrite Hp3, Hp1. cbn. lia.
    + rewrite E4, E5, E2, E3, Ha. cbn. rewrite fmap_app, concat_app. cbn. by rewrite !app_nil_r, <-app_assoc.
  - exists [(Completed, udp_packet_frame st)]. rewrite E5. split; [done|]. by repeat constructor.
Qed.

(** Every turn. *)
Lemma sdk_step_outcome leak t st st' :
  Inv leak st -> small_leak leak -> sdk_step new_parser cfg t st = Ok st' -> step_outcome leak st st'.
Proof.
  intros Hinv Hs. pose proof Hinv as [(g & Hg & Hj) Hi Hl Hn [Hc0 Hc] Ha].
  destruct t as [host now| |i|p]; cbn [sdk_step].
  - unfold main_turn. destruct (where_ st) as [|p valid] eqn:Hw.
    + by apply loop_turn_outcome.
    + by apply wait_turn_outcome.
  - destruct (parser_turn (nUDPCount st) (lidar st)) as [[[n l] o]|] eqn:E; cbn [mbind result_bind]; [|done].
    intros H. apply (inj Ok) in H as <-. apply step_outcome_same; [|done].
    destruct (parser_turn_spec _ _ _ _ _ g Hg (room_of_inv leak st Hinv Hs) E) as [Hp Hf].
    by apply (compute_turn_inv leak st l o n).
  - destruct (handle_turn i (lidar st)) as [[l o]|] eqn:E; cbn [mbind result_bind]; [|done].
    intros H. apply (inj Ok) in H as <-. apply step_outcome_same; [|done].
    destruct (handle_turn_spec _ _ _ _ g Hg E) as [Hp Hf].
    exact (compute_turn_inv leak st l o (nUDPCount st) Hinv Hs Hp Hf).
  - intros H. apply (inj Ok) in H as <-. apply step_outcome_same; [|done]. split; try done. by exists g.
Qed.

(** The state in which [Run] begins. *)
Definition fresh st : Prop :=
  (exists g, parser_ (Lidar.udp_parser_ (lidar st)) = Some g) /\ where_ st = Loop /\ packet_index st = 0 /\
  udp_packet_frame st = [] /\ packet_num (frame_ (lidar st)) = 0 /\ computed_num (lidar st) = 0 /\
  pending (lidar st) = [] /\ accepted st = [] /\ closed st = [].

Lemma fresh_inv st : fresh st -> Inv 0 st.
Proof.
  intros ((g & Hg) & Hw & Hi & Hf & Hn & Hc & Hp & Ha & Hcl). split.
  - exists g. by rewrite Hw.
  - by rewrite Hi.
  - by rewrite Hf, Hi.
  - by rewrite Hn, Hi.
  - by rewrite Hc, Hp, Hi.
  - by rewrite Ha, Hcl, Hf, Hw.
Qed.

Lemma closed_same st st' : closed st' = closed st -> exists xs, closed st' = closed st ++ xs.
Proof. intros E. exists []. by rewrite app_nil_r. Qed.

Lemma add_packet_closed p st st' : add_packet p st = Ok st' -> closed st' = closed st.
Proof. unfold add_packet. intros H. by inv_ok. Qed.

(** Closed frames stay closed. *)
Lemma sdk_step_closed t st st' : sdk_step new_parser cfg t st = Ok st' -> exists xs, closed st' = closed st ++ xs.
Proof.
  destruct t as [host now| |i|p]; cbn [sdk_step].
  - unfold main_turn. destruct (where_ st) as [|p valid].
    + unfold loop_turn. destruct (GetOnePacket (lidar st)) as [[p|] l].
      2: { intros H. apply (inj Ok) in H as <-. by apply closed_same. }
      destruct (_ =? _).
      { destruct (filtered _ _ _); [|destruct (parser_ _); [destruct (has_fault_message_cb cfg)|]];
          intros H; apply (inj Ok) in H as <-; by apply closed_same. }
      destruct (negb _); [intros H; apply (inj Ok) in H as <-; by apply closed_same|].
      destruct (_ && _); [intros H; apply (inj Ok) in H as <-; by apply closed_same|].
      destruct (DecodePacket _ _ _ _ _) as [[[r w] l2]|]; cbn [mbind result_bind]; [|done].
      destruct (negb (r =? 0)); [intros H; apply (inj Ok) in H as <-; by apply closed_same|].
      match goal with |- decoded _ ?s = _ -> _ => set (s1 := s) end.
      assert (closed s1 = closed st) as <- by (unfold s1; by repeat match goal with |- context [if ?b then _ else _] => destruct b end).
      unfold decoded. destruct (scan_complete _); [intros H; apply (inj Ok) in H as <-; by apply closed_same|].
      match goal with |- (?x ≫= _) = _ -> _ => set (m := x) end.
      assert (forall s2, m = Ok s2 -> closed s2 = closed s1) as Hm.
      { unfold m. intros s2. match goal with |- (if ?b then _ else _) = _ -> _ => destruct b end;
          [apply add_packet_closed|by intros [= <-]]. }
      destruct m as [s2|]; cbn [mbind result_bind]; [|done]. rewrite <-(Hm s2 eq_refl).
      destruct (_ <=? _); [|intros H; apply (inj Ok) in H as <-; by apply closed_same].
      destruct (ClearPacketBuffer _); cbn [mbind result_bind]; [|done]. intros H. apply (inj Ok) in H as <-.
      eexists. reflexivity.
    + unfold wait_turn. destruct (ComputeXYZIComplete _ _) as [b l].
      destruct (negb b); [intros H; apply (inj Ok) in H as <-; by apply closed_same|].
      destruct (publish cfg _) as [s1|] eqn:Ep; cbn [mbind result_bind]; [|done].
      apply publish_keeps in Ep as [cs ->].
      destruct valid; [|intros H; apply (inj Ok) in H as <-; eexists; reflexivity].
      destruct (DecodePacket _ _ _ _ _) as [[[r w] l2]|]; cbn [mbind result_bind]; [|done].
      intros H. apply add_packet_closed in H. rewrite H. eexists. reflexivity.
  - destruct (parser_turn _ _) as [[[n l] o]|]; cbn [mbind result_bind]; [|done].
    intros H. apply (inj Ok) in H as <-. by apply closed_same.
  - destruct (handle_turn _ _) as [[l o]|]; cbn [mbind result_bind]; [|done].
    intros H. apply (inj Ok) in H as <-. by apply closed_same.
  - intros H. apply (inj Ok) in H as <-. by apply closed_same.
Qed.

Lemma sdk_run_closed ts : forall st st', sdk_run new_parser cfg ts st = Ok st' -> exists xs, closed st' = closed st ++ xs.
Proof.
  induction ts as [|t ts IH]; intros st st' H; unfold sdk_run in H; cbn [foldM] in H.
  { apply (inj Ok) in H as <-. by apply closed_same. }
  destruct (sdk_step new_parser cfg t st) as [st1|] eqn:E; cbn [mbind result_bind] in H; [|done].
  destruct (sdk_step_closed _ _ _ E) as [xs E1]. destruct (IH _ _ H) as [ys E2].
  exists (xs ++ ys). by rewrite E2, E1, app_assoc.
Qed.

Lemma sdk_run_inv ts : forall st st', Inv 0 st -> sdk_run new_parser cfg ts st = Ok st' ->
  Forall (fun x => fst x = Completed) (closed st') -> Inv 0 st'.
Proof.
  assert (small_leak 0) as Hs by done.
  induction ts as [|t ts IH]; intros st st' Hinv Hr Hc; unfold sdk_run in Hr; cbn [foldM] in Hr.
  { by apply (inj Ok) in Hr as <-. }
  destruct (sdk_step new_parser cfg t st) as [st1|] eqn:E; cbn [mbind result_bind] in Hr; [|done].
  apply (IH st1 st'); [|exact Hr|exact Hc].
  destruct (sdk_step_outcome 0 t st st1 Hinv Hs E) as [[H _]|(ps & leak & Ec & _)]; [exact H|].
  destruct (sdk_run_closed ts st1 st' Hr) as [xs Ex]. rewrite Ex, Ec in Hc.
  apply Forall_app in Hc as [Hc _]. apply Forall_app in Hc as [_ Hc]. by apply Forall_cons in Hc as [? _].
Qed.

Lemma complete_iff (l : Lidar P G S) n : fst (ComputeXYZIComplete n l) = true <-> computed_num l = n.
Proof.
  unfold ComputeXYZIComplete, computed_num. destruct (Z.eqb_spec (getComputePacketNum (Lidar.udp_parser_ l)) n); done.
Qed.

(** One turn of the parser thread that computes by itself. *)
Lemma parser_turn_drains st st' :
  sdk_step new_parser cfg TParser st = Ok st' -> handle_thread_count_ (lidar st) < 2 ->
  concat (handle_thread_packet_buffer_ (lidar st)) = [] -> (exists g, parser_ (Lidar.udp_parser_ (lidar st)) = Some g) ->
  pending (lidar st') = tail (pending (lidar st)) /\ handle_thread_count_ (lidar st') < 2 /\
  concat (handle_thread_packet_buffer_ (lidar st')) = [] /\ where_ st' = where_ st /\
  frame_ (lidar st') = set_points (points (frame_ (lidar st'))) (frame_ (lidar st)) /\
  packet_index st' = packet_index st /\ udp_packet_frame st' = udp_packet_frame st /\
  callbacks st' = callbacks st /\ closed st' = closed st /\ same_parser (lidar st) (lidar st').
Proof.
  cbn [sdk_step]. intros H Hc Hb [g Hg]. unfold parser_turn in H. unfold pending. rewrite Hb, app_nil_l.
  destruct (decoded_packets_buffer_ (lidar st)) as [|index q] eqn:Eq; cbn [mbind result_bind] in H.
  { apply (inj Ok) in H as <-. cbn. rewrite Eq, Hb. repeat split; try done; [by destruct (lidar st) as [? []]|].
    by apply (same_parser_refl _ g). }
  cbn [handle_thread_count_ set_queue] in H. destruct (Z.ltb_spec (handle_thread_count_ (lidar st)) 2); [|lia].
  destruct (compute _ _) as [l1|] eqn:Ec; cbn [mbind result_bind] in H; [|done]. apply (inj Ok) in H as <-.
  destruct (compute_spec index (set_queue q (handle_thread_packet_buffer_ (lidar st)) (lidar st)) l1 g Hg Ec) as (H1 & _ & H3 & H4).
  cbn [lidar set_lidar set_count where_ packet_index udp_packet_frame callbacks closed].
  rewrite H4. cbn. rewrite Hb. repeat split; try done.
Qed.

Lemma same_parser_ready (l l' : Lidar P G S) g : same_parser l l' -> parser_ (Lidar.udp_parser_ l) = Some g -> ready g ->
  exists g', parser_ (Lidar.udp_parser_ l') = Some g' /\ ready g'.
Proof.
  intros (a & b & Ha & Hb & Hal) Hg Hr. rewrite Ha in Hg. injection Hg as ->. exists b. split; [done|]. by rewrite <-Hal.
Qed.

(** The parser thread empties the queue. *)
Lemma drain_run n : forall st st', sdk_run new_parser cfg (replicate n TParser) st = Ok st' ->
  handle_thread_count_ (lidar st) < 2 -> concat (handle_thread_packet_buffer_ (lidar st)) = [] ->
  (exists g, parser_ (Lidar.udp_parser_ (lidar st)) = Some g) ->
  pending (lidar st') = drop n (pending (lidar st)) /\ where_ st' = where_ st /\
  frame_ (lidar st') = set_points (points (frame_ (lidar st'))) (frame_ (lidar st)) /\
  packet_index st' = packet_index st /\ udp_packet_frame st' = udp_packet_frame st /\
  callbacks st' = callbacks st /\ closed st' = closed st /\ same_parser (lidar st) (lidar st').
Proof.
  induction n as [|n IH]; intros st st' H Hc Hb [g Hg]; unfold sdk_run in H; cbn [replicate foldM] in H.
  { apply (inj Ok) in H as <-. rewrite drop_0. repeat (split; [done|]). split; [by destruct (frame_ (lidar st))|].
    repeat (split; [done|]). by apply (same_parser_refl _ g). }
  destruct (sdk_step new_parser cfg TParser st) as [st1|] eqn:E; cbn [mbind result_bind] in H; [|done].
  destruct (parser_turn_drains st st1 E Hc Hb) as (E1 & Hc1 & Hb1 & E2 & E3 & E4 & E5 & E6 & E7 & E8); [by exists g|].
  destruct E8 as (a & b & Ha & Hb' & Hal).
  destruct (IH st1 st' H Hc1 Hb1) as (F1 & F2 & F3 & F4 & F5 & F6 & F7 & F8); [by exists b|].
  split; [rewrite F1, E1; destruct (pending (lidar st)); [by destruct n|done]|].
  split; [congruence|]. split; [by rewrite F3, E3|]. repeat (split; [congruence|]).
  apply (same_parser_trans _ (lidar st1)); [|done]. by exists a, b.
Qed.

(** What [publish] hands out. *)
Definition published st : list (callback P) :=
  if kMinPointsOfOneFrame <? points_num (frame_ (lidar st)) then
    (if has_point_cloud_cb cfg then [PointCloud (frame_ (lidar st))] else []) ++
    (if has_pkt_cb cfg then [Packets (udp_packet_frame st)] else [])
  else [].

Lemma publish_ok st g :
  parser_ (Lidar.udp_parser_ (lidar st)) = Some g -> has_ptp_cb cfg = false \/ has_ptc_client cfg = true ->
  exists cs, publish cfg st = Ok (call (published st ++ cs) st) /\
    (points_num (frame_ (lidar st)) <= kMinPointsOfOneFrame -> cs = []).
Proof.
  intros Hg Hptp. unfold publish, published. destruct (Z.ltb_spec kMinPointsOfOneFrame (points_num (frame_ (lidar st)))); cbn [negb].
  2: { exists []. split; [|done]. destruct st. unfold call. cbn. by rewrite !app_nil_r. }
  rewrite Hg.
  assert (exists c, (if has_ptp_cb cfg && (Z.rem (frame_index (frame_ (lidar st))) 100 =? 1)
    then if has_ptc_client cfg then Ok (if ptp_answers cfg (frame_index (frame_ (lidar st))) then [Ptp] else []) else Err NullPointer
    else Ok []) = Ok c :> result (list (callback P))) as [c ->].
  { destruct Hptp as [->| ->]; cbn [andb]; [eauto|]. destruct (_ && _); eauto. }
  destruct (has_pkt_loss_cb cfg); cbn [mbind result_bind]; (eexists; split; [|lia]); rewrite <-!app_assoc; reflexivity.
Qed.

Lemma parser_run_inv leak n : small_leak leak -> forall st st', Inv leak st ->
  sdk_run new_parser cfg (replicate n TParser) st = Ok st' -> Inv leak st'.
Proof.
  intros Hs. induction n as [|n IH]; intros st st' Hinv H; unfold sdk_run in H; cbn [replicate foldM] in H.
  { by apply (inj Ok) in H as <-. }
  destruct (sdk_step new_parser cfg TParser st) as [st1|] eqn:E; cbn [mbind result_bind] in H; [|done].
  apply (IH st1 st'); [|exact H]. cbn [sdk_step] in E.
  destruct (parser_turn (nUDPCount st) (lidar st)) as [[[k l] o]|] eqn:Et; cbn [mbind result_bind] in E; [|done].
  apply (inj Ok) in E as <-. pose proof Hinv as [(g & Hg & _) _ _ _ _ _].
  destruct (parser_turn_spec _ _ _ _ _ g Hg (room_of_inv leak st Hinv Hs) Et) as [Hp Hf].
  by apply (compute_turn_inv leak st l o k).
Qed.

(** The end of a wait, seen from a state in which everything is computed. *)
Lemma wait_turn_ends leak host now p st g :
  Inv leak st -> small_leak leak -> leak = 0 -> where_ st = Waiting p true -> pending (lidar st) = [] ->
  parser_ (Lidar.udp_parser_ (lidar st)) = Some g -> ready g -> readable (G := G) p ->
  has_ptp_cb cfg = false \/ has_ptc_client cfg = true ->
  exists st' cs, wait_turn new_parser cfg host now p true st = Ok st' /\ where_ st' = Loop /\
    closed st' = closed st ++ [(Completed, udp_packet_frame st)] /\ udp_packet_frame st' = [p] /\ packet_index st' = 1 /\
    callbacks st' = callbacks st ++ published st ++ cs /\
    (points_num (frame_ (lidar st)) <= kMinPointsOfOneFrame -> cs = []).
Proof.
  intros Hinv Hs -> Hw Hpe Hg Hr Hp Hptp. pose proof Hinv as [(g0 & Hg0 & Hj) Hi Hl Hn [Hc0 Hc] Ha].
  rewrite Hg in Hg0. injection Hg0 as <-. rewrite Hw in Hj. destruct Hj as [_ [H6 _]].
  rewrite Hpe in Hc. cbn [length Z.of_nat] in Hc. rewrite Z.add_0_r in Hc.
  unfold wait_turn. destruct (ComputeXYZIComplete (packet_index st) (lidar st)) as [b l] eqn:Eb.
  assert (b = true) as ->.
  { change b with (fst (b, l)). rewrite <-Eb. by apply complete_iff. }
  cbn [negb].
  destruct (complete_true _ _ _ g Hg Eb) as (_ & Hc1 & Hp1 & Hf1 & _ & g1 & Hg1 & Hal1).
  destruct (publish_ok (set_lidar l st) g1 Hg1 Hptp) as (cs & -> & Hcs). cbn [mbind result_bind].
  set (stn := set_where Loop (next_frame Completed (call _ (set_lidar l st)))).
  assert (ready g1) as Hr1 by (by rewrite <-Hal1).
  destruct (wrapper_total new_parser host now (frame_ (lidar stn)) p (Lidar.udp_parser_ (lidar stn)) g1)
    as (w & u & f & Ed); try done.
  assert (DecodePacket new_parser host now p (lidar stn) = Ok (0, w, set_parsed u f (lidar stn))) as El.
  { unfold DecodePacket. by rewrite Ed. }
  rewrite El. cbn [mbind result_bind].
  destruct (decode_lidar host now p (lidar stn) g1 0 w _ Hg1 El) as (g3 & Hg3 & Hp3 & _ & _ & _ & Hc3 & _).
  change (pending (lidar stn)) with (pending l) in Hp3. change (computed_num (lidar stn)) with (computed_num l) in Hc3.
  destruct (add_packet_spec 0 p (set_lidar (set_parsed u f (lidar stn)) stn)) as (st1 & E & E1 & E2 & E3 & E4 & E5 & E6 & _);
    try done.
  { change (0 <= computed_num (set_parsed u f (lidar stn))). by rewrite Hc3, Hc1. }
  { change (computed_num (set_parsed u f (lidar stn)) + Z.of_nat (length (pending (set_parsed u f (lidar stn)))) = 0).
    by rewrite Hc3, Hc1, Hp3, Hp1, Hpe. }
  exists st1, cs. split; [exact E|]. unfold published. rewrite <-Hf1. unfold published in E6.
  split; [exact E3|]. split; [exact E5|]. split; [exact E2|]. split; [exact E1|]. split; [|exact Hcs].
  rewrite E6. cbn. done.
Qed.

(** A frame that waits for a counter nobody will advance. *)
Definition stuck st : Prop :=
  pending (lidar st) = [] /\ computed_num (lidar st) <> packet_index st /\ exists p valid, where_ st = Waiting p valid.

Lemma concat_nil_in {A} (bs : list (list A)) i b : concat bs = [] -> bs !! i = Some b -> b = [].
Proof. intros Hc Hi. pose proof (concat_length_in bs i b Hi) as H. rewrite Hc in H. by destruct b; [|cbn in H; lia]. Qed.

Lemma stuck_step t st st' : stuck st -> sdk_step new_parser cfg t st = Ok st' ->
  stuck st' /\ callbacks st' = callbacks st /\ closed st' = closed st.
Proof.
  intros (Hp & Hc & p & valid & Hw). pose proof Hp as [Hb Hq]%app_nil.
  destruct t as [host now| |i|q]; cbn [sdk_step].
  - unfold main_turn. rewrite Hw. unfold wait_turn, ComputeXYZIComplete.
    destruct (Z.eqb_spec (getComputePacketNum (Lidar.udp_parser_ (lidar st))) (packet_index st)) as [E|_]; [done|].
    intros H. apply (inj Ok) in H as <-. split; [|done]. split; [done|]. split; [done|]. by exists p, valid.
  - unfold parser_turn. rewrite Hq. cbn [mbind result_bind]. intros H. apply (inj Ok) in H as <-.
    split; [|done]. split; [done|]. split; [done|]. by exists p, valid.
  - unfold handle_turn. destruct (arr_get _ i) as [b|] eqn:E; cbn [mbind result_bind]; [|done].
    apply arr_get_ok in E as [_ E]. apply concat_nil_in in E as ->; [|done]. cbn [mbind result_bind].
    intros H. apply (inj Ok) in H as <-. split; [|done]. split; [done|]. split; [done|]. by exists p, valid.
  - intros H. apply (inj Ok) in H as <-. split; [|done]. split; [done|]. split; [done|]. by exists p, valid.
Qed.

Lemma stuck_run ts : forall st st', stuck st -> sdk_run new_parser cfg ts st = Ok st' ->
  stuck st' /\ callbacks st' = callbacks st /\ closed st' = closed st.
Proof.
  induction ts as [|t ts IH]; intros st st' Hs H; unfold sdk_run in H; cbn [foldM] in H.
  { by apply (inj Ok) in H as <-. }
  destruct (sdk_step new_parser cfg t st) as [st1|] eqn:E; cbn [mbind result_bind] in H; [|done].
  destruct (stuck_step t st st1 Hs E) as (Hs1 & Hc1 & Hd1). destruct (IH st1 st' Hs1 H) as (? & ? & ?).
  split; [done|]. split; congruence.
Qed.

End Invariant.

(** ** Properties *)

Section Properties.
Context {P G S : Type} {D : Decoder P G} {L : DecoderLaws P G}.
Variable new_parser : parser_kind -> G.
Variable cfg : SdkConfig.
Implicit Types st : Sdk P G S.

(** C1: as long as no frame has overflowed, whatever the order in which packets
    arrive and the threads take their turns: the packets decoded so far are, in
    order and without loss or repetition, those of the completed frames, then
    those of the current one, then the one a waiting frame was ended by; the
    frame counts its packets, fewer than 5000; every packet is computed or
    queued; and the frame is reported complete exactly when nothing is queued. *)
Theorem sdk_conserves ts st st' :
  fresh st -> sdk_run new_parser cfg ts st = Ok st' -> Forall (fun x => fst x = Completed) (closed st') ->
  accepted st' = concat (snd <$> closed st') ++ udp_packet_frame st' ++ carried (where_ st') /\
  Z.of_nat (length (udp_packet_frame st')) = packet_index st' /\ packet_index st' < kMaxPacketNumPerFrame /\
  packet_num (frame_ (lidar st')) = packet_index st' /\
  computed_num (lidar st') + Z.of_nat (length (pending (lidar st'))) = packet_index st' /\
  (fst (ComputeXYZIComplete (packet_index st') (lidar st')) = true <-> pending (lidar st') = []).
Proof.
  intros Hf Hr Hc. destruct (sdk_run_inv new_parser cfg ts st st' (fresh_inv st Hf) Hr Hc) as [_ Hi Hl Hn [Hc0 Hcn] Ha].
  split; [done|]. split; [done|]. split; [lia|]. split; [done|]. split; [done|].
  rewrite complete_iff. split; intros H; [|rewrite H in Hcn; cbn in Hcn; lia].
  destruct (pending (lidar st')); [done|]. cbn [length] in Hcn. lia.
Qed.

(** C22: the wait of a split frame, once the parser thread has taken its turns (no
    handle threads).  When the counter of computed packets has nothing in excess of
    the frame, which C1 shows as long as no frame has overflowed, the wait ends: the
    next look publishes the frame with all its packets, when it has more than 1000
    points, and begins the next frame with the packet that ended this one.  When the
    counter kept the packets of a frame that overflowed, the wait never ends:
    whatever the threads do and whatever arrives, the frame is still waiting and no
    callback is made. *)
Theorem wait_ends leak host now p st st1 g :
  Inv leak st -> small_leak leak -> where_ st = Waiting p true ->
  parser_ (Lidar.udp_parser_ (lidar st)) = Some g -> ready g -> readable (G := G) p ->
  handle_thread_count_ (lidar st) < 2 -> concat (handle_thread_packet_buffer_ (lidar st)) = [] ->
  has_ptp_cb cfg = false \/ has_ptc_client cfg = true ->
  sdk_run new_parser cfg (replicate (length (pending (lidar st))) TParser) st = Ok st1 ->
  (leak = 0 -> exists st' cs, sdk_step new_parser cfg (TMain host now) st1 = Ok st' /\ where_ st' = Loop /\
    closed st' = closed st ++ [(Completed, udp_packet_frame st)] /\ udp_packet_frame st' = [p] /\ packet_index st' = 1 /\
    callbacks st' = callbacks st ++ published cfg st1 ++ cs /\
    (points_num (frame_ (lidar st)) <= kMinPointsOfOneFrame -> cs = [])) /\
  (leak <> 0 -> forall ts st', sdk_run new_parser cfg ts st1 = Ok st' ->
    (exists p valid, where_ st' = Waiting p valid) /\ callbacks st' = callbacks st /\ closed st' = closed st).
Proof.
  intros Hinv Hsm Hw Hg Hr Hp Hc Hb Hptp Hrun.
  destruct (drain_run new_parser cfg _ _ _ Hrun Hc Hb) as (E1 & E2 & E3 & E4 & E5 & E6 & E7 & E8); [by exists g|].
  rewrite drop_all in E1. destruct E8 as (g0 & g1 & Hg0 & Hg1 & Hal). rewrite Hg in Hg0. injection Hg0 as <-.
  assert (Inv leak st1) as Hinv1 by (by eapply (parser_run_inv new_parser cfg leak); [|exact Hinv|exact Hrun]).
  split; intros Hleak.
  - subst leak. destruct (wait_turn_ends new_parser cfg 0 host now p st1 g1) as (st' & cs & F & F1 & F2 & F3 & F4 & F5 & F6); try done.
    { by rewrite E2. }
    { by rewrite <-Hal. }
    exists st', cs. cbn [sdk_step]. unfold main_turn. rewrite E2, Hw. split; [exact F|]. split; [done|].
    rewrite F2, E7, E5, F5, E6. repeat (split; [done|]). intros Hle. apply F6. by rewrite E3.
  - intros ts st' Hts. destruct Hinv1 as [_ _ _ _ [_ Hcn] _]. rewrite E1 in Hcn. cbn [length Z.of_nat] in Hcn.
    destruct (stuck_run new_parser cfg ts st1 st') as ((_ & _ & H) & H1 & H2); [|exact Hts|].
    + split; [exact E1|]. split; [lia|]. exists p, true. by rewrite E2.
    + split; [exact H|]. split; congruence.
Qed.

(** The frame that reaches 5000 packets without a split is dropped: the queue
    of indices is emptied, but the counter of computed packets keeps what was
    counted for the dropped frame. *)
Theorem overflow_keeps_counter p st :
  packet_index st = kMaxPacketNumPerFrame - 1 -> packet_num (frame_ (lidar st)) = kMaxPacketNumPerFrame ->
  scan_complete (frame_ (lidar st)) = false -> handle_thread_count_ (lidar st) < 2 ->
  Z.of_nat (length (decoded_packets_buffer_ (lidar st))) < kPacketBufferSize ->
  exists st', decoded p st = Ok st' /\ closed st' = closed st ++ [(Overflowed, udp_packet_frame st ++ [p])] /\
    packet_index st' = 0 /\ udp_packet_frame st' = [] /\ decoded_packets_buffer_ (lidar st') = [] /\
    packet_num (frame_ (lidar st')) = 0 /\ where_ st' = where_ st /\ callbacks st' = callbacks st /\
    computed_num (lidar st') = computed_num (lidar st).
Proof.
  intros Hi Hn Hs Hc Hq. unfold decoded. rewrite Hs, Hn, Hi.
  replace (negb (kMaxPacketNumPerFrame =? kMaxPacketNumPerFrame - 1)) with true by done.
  unfold add_packet, Lidar.ComputeXYZI.
  destruct (Z.ltb_spec (Z.of_nat (length (decoded_packets_buffer_ (lidar st)))) kPacketBufferSize); [|lia].
  cbn [mbind result_bind packet_index]. rewrite Hi.
  replace (kMaxPacketNumPerFrame <=? u32 (kMaxPacketNumPerFrame - 1 + 1)) with true by done.
  unfold ClearPacketBuffer. cbn [lidar handle_thread_count_ set_frame set_parsed set_queue].
  destruct (Z.ltb_spec 1 (handle_thread_count_ (lidar st))); [lia|]. cbn [mbind result_bind].
  eexists. split; [reflexivity|]. done.
Qed.

(** And a frame that waits while nothing is queued and the counter is not the
    number of its packets waits for ever: no turn of any thread, and no packet
    that arrives, ends the wait or leads to a callback. *)
Theorem stale_counter_hangs ts p valid st st' :
  where_ st = Waiting p valid -> pending (lidar st) = [] -> computed_num (lidar st) <> packet_index st ->
  sdk_run new_parser cfg ts st = Ok st' ->
  (exists p valid, where_ st' = Waiting p valid) /\ callbacks st' = callbacks st /\ closed st' = closed st.
Proof.
  intros Hw Hp Hc Hr. destruct (stuck_run new_parser cfg ts st st') as ((_ & _ & H) & ? & ?); [|done|done].
  split; [done|]. split; [done|]. by exists p, valid.
Qed.

(** With a lidar address and port configured, a data packet from elsewhere
    does nothing but leave the queue, and so does a fault message with the fault
    port; a timeout is let through while a frame is open. *)
Theorem other_device_ignored host now p q st :
  where_ st = Loop -> origin_packets_buffer_ (lidar st) = p :: q ->
  (packet_len p = kFaultMessageLength /\ device_fault_port_ cfg <> 0 /\
     (packet_ip p <> device_ip_address_ cfg \/ packet_port p <> device_fault_port_ cfg)) \/
  (packet_len p <> kFaultMessageLength /\ device_udp_port_ cfg <> 0 /\
     (is_timeout p = false \/ packet_index st = 0) /\
     (packet_ip p <> device_ip_address_ cfg \/ packet_port p <> device_udp_port_ cfg)) ->
  sdk_step new_parser cfg (TMain host now) st =
    Ok (set_lidar (set_origin (source_ (lidar st)) q (is_timeout_ (lidar st)) (lidar st)) st).
Proof.
  intros Hw Ho H. cbn [sdk_step]. unfold main_turn. rewrite Hw. unfold loop_turn, GetOnePacket. rewrite Ho.
  assert (forall port, port <> 0 -> packet_ip p <> device_ip_address_ cfg \/ packet_port p <> port ->
    filtered cfg port p = true) as Hf.
  { intros port H0 Hd. unfold filtered. destruct (Z.eqb_spec port 0); [done|].
    destruct (Z.eqb_spec (device_ip_address_ cfg) (packet_ip p)), (Z.eqb_spec port (packet_port p)); try done. lia. }
  destruct H as [(Hl & H0 & Hd)|(Hl & H0 & Ht & Hd)].
  - rewrite Hl, Z.eqb_refl, (Hf _ H0 Hd). done.
  - destruct (Z.eqb_spec (packet_len p) kFaultMessageLength); [done|].
    destruct (point_cloud_parse cfg); cbn [negb]; [|done]. rewrite (Hf _ H0 Hd). cbn [packet_index set_lidar].
    destruct Ht as [-> | ->]; cbn [negb orb andb]; [done|]. by rewrite orb_true_r.
Qed.

End Properties.

(** ** Witnesses *)

(** A lidar of two channels with a calibration of zeros; azimuths in hundredths of
    a degree. *)
Definition demo_config : SdkConfig := mk_config INADDR_NONE 0 0 true true true false false false true false (fun _ => false).
Definition demo_at (azimuth : Z) : UdpPacket :=
  mk_packet (<[22%nat := Z.land azimuth 0xff]> (<[23%nat := Z.shiftr azimuth 8]> Udp1_4.demo_buffer)) 70 false 0 0 2368.
Definition demo_parser : Udp1_4.Udp1_4Parser :=
  Udp1_4.set_base (set_azimuths 100 60 1 f_zero
    (set_corrections [f_zero; f_zero] [f_zero; f_zero] (Udp1_4.demo_general true))) (Udp1_4.demo_parser true).
Definition demo_frame : LidarDecodedFrame LidarPointXYZI := set_counts 0 2000 Udp1_4.demo_frame.
Definition demo_sdk : Sdk LidarPointXYZI Udp1_4.Udp1_4Parser unit :=
  mk_sdk (mk_lidar (set_parser (Some demo_parser) new_UdpParser) demo_frame None [] [] 1 [] [] true 1 false false)
    0 [] Loop 0 [] [] [].
Definition demo_laws := Udp1_4.udp1_4_laws 0 (fun _ => f_zero) (fun _ => f_zero) id id id id (P := LidarPointXYZI).
Definition demo_main : turn := TMain 1 (fun _ => 0).
(** A turn of three packets and the packet of the next one. *)
Definition demo_turns : list turn :=
  (TArrive <$> [demo_at 140; demo_at 15000; demo_at 30000; demo_at 140]) ++ replicate 4 demo_main.

Lemma demo_fresh : fresh (D := demo_decoder) demo_sdk.
Proof. split; [by eexists|]. done. Qed.

Definition demo_run (ts : list turn) : result (Sdk LidarPointXYZI Udp1_4.Udp1_4Parser unit) :=
  sdk_run (D := demo_decoder) demo_new demo_config ts demo_sdk.

Lemma demo_run_sdk ts st : demo_run ts = Ok st -> sdk_run (D := demo_decoder) demo_new demo_config ts demo_sdk = Ok st.
Proof. done. Qed.

(** What is seen of the state at the end of a run. *)
Lemma demo_seen {A} (f : Sdk LidarPointXYZI Udp1_4.Udp1_4Parser unit -> A) ts st x :
  demo_run ts = Ok st -> match demo_run ts with Ok s => Some (f s) | Err _ => None end = Some x -> f st = x.
Proof. by intros -> [= ->]. Qed.

Lemma demo_run_ok ts : is_ok (demo_run ts) = true -> exists st, demo_run ts = Ok st.
Proof. destruct (demo_run ts) as [st|]; [by exists st|done]. Qed.

Lemma demo_run_app ts ts' st st' : demo_run ts = Ok st -> demo_run (ts ++ ts') = Ok st' ->
  sdk_run (D := demo_decoder) demo_new demo_config ts' st = Ok st'.
Proof. unfold demo_run, sdk_run. rewrite foldM_app. by intros ->. Qed.

Lemma demo_readable : readable (DecoderLaws := demo_laws) (demo_at 140).
Proof.
  exists Udp1_4.demo_header. unfold Udp1_4.packet_fits. repeat split; try reflexivity; try (vm_compute; congruence).
  by apply byte_list_check.
Qed.

Lemma sdk_conserves_witness :
  exists st', demo_run demo_turns = Ok st' /\
    map packet_len (accepted st') = [70; 70; 70; 70] /\ length (udp_packet_frame st') = 3%nat /\
    fst (ComputeXYZIComplete (D := demo_decoder) (packet_index st') (lidar st')) = false.
Proof.
  destruct (demo_run_ok demo_turns) as [st' E]; [vm_compute; reflexivity|].
  exists st'. split; [exact E|].
  assert (closed st' = []) as Hcl by (apply (demo_seen closed demo_turns st' [] E); vm_compute; reflexivity).
  destruct (sdk_conserves (D := demo_decoder) (L := demo_laws) demo_new demo_config demo_turns demo_sdk st')
    as (H1 & H2 & _ & _ & _ & H6); [exact demo_fresh|apply demo_run_sdk, E|rewrite Hcl; by constructor|].
  split; [apply (demo_seen (fun s => map packet_len (accepted s)) demo_turns st' _ E); vm_compute; reflexivity|].
  split; [apply (demo_seen (fun s => length (udp_packet_frame s)) demo_turns st' _ E); vm_compute; reflexivity|].
  assert (pending (lidar st') = [0; 1; 2]) as Hp.
  { apply (demo_seen (fun s => pending (lidar s)) demo_turns st' _ E). vm_compute. reflexivity. }
  destruct (fst _); [|reflexivity]. destruct H6 as [H6 _]. specialize (H6 eq_refl). rewrite Hp in H6. discriminate.
Defined.

Definition demo_ready (st : Sdk LidarPointXYZI Udp1_4.Udp1_4Parser unit) : option (bool * bool * f32) :=
  (fun g => (get_correction_file_ (Udp1_4.base g), get_firetime_file_ (Udp1_4.base g),
             frame_start_azimuth_ (Udp1_4.base g))) <$> parser_ (Lidar.udp_parser_ (lidar st)).

Lemma demo_ready_ok st : demo_ready st = Some (true, false, f_zero) ->
  exists g, parser_ (Lidar.udp_parser_ (lidar st)) = Some g /\ ready (DecoderLaws := demo_laws) g.
Proof.
  unfold demo_ready. destruct (parser_ _) as [g|]; [|done]. cbn. intros [= H1 H2 H3]. exists g. split; [done|].
  split; [done|]. split; [done|]. intros az. unfold Udp1_4.IsNeedFrameSplit. rewrite H3.
  change (to_u16 _) with (Ok 0 : result Z). cbn [mbind result_bind]. by destruct (Udp1_4.split_rule _ _ _ _ az).
Qed.

(** The packets of an overflowed frame, still counted. *)
Definition keep_count (n : Z) (st : Sdk LidarPointXYZI Udp1_4.Udp1_4Parser unit) : Sdk LidarPointXYZI Udp1_4.Udp1_4Parser unit :=
  let bump g := with_general (Decoder := demo_decoder)
    (set_transform (transform_ (Udp1_4.base g)) (compute_packet_num (Udp1_4.base g) + n) (Udp1_4.base g)) g in
  set_lidar (set_parsed (set_parser (bump <$> parser_ (Lidar.udp_parser_ (lidar st))) (Lidar.udp_parser_ (lidar st)))
    (frame_ (lidar st)) (lidar st)) st.

Lemma keep_count_inv n st : 0 <= n -> Inv (D := demo_decoder) (L := demo_laws) 0 st -> Inv (D := demo_decoder) (L := demo_laws) n (keep_count n st).
Proof.
  intros Hn [(g & Hg & Hw) Hi Hl Hpn [Hc0 Hc] Ha]. unfold keep_count. rewrite Hg.
  assert (computed_num (D := demo_decoder) (lidar st) = compute_packet_num (Udp1_4.base g)) as Hcn.
  { unfold computed_num, getComputePacketNum. by rewrite Hg. }
  split; try done.
  - eexists. split; [reflexivity|]. cbn [where_ set_lidar]. destruct (where_ st); [done|].
    destruct Hw as [Hv (H6 & host & now & g0 & f0 & g1 & f1 & E & Hal)]. split; [done|]. split; [done|].
    exists host, now, g0, f0, g1, f1. split; [exact E|]. etransitivity; [exact Hal|]. unfold alike. cbn.
    unfold Udp1_4.udp1_4_alike. by destruct g as [[]].
  - rewrite Hcn in Hc0, Hc. split; unfold computed_num, getComputePacketNum; cbn; [lia|].
    change (pending (lidar (keep_count n st))) with (pending (lidar st)). cbn in Hc. unfold pending in *. cbn in *. lia.
Qed.

Lemma demo_inv ts st : demo_run ts = Ok st -> match demo_run ts with Ok s => Some (closed s) | Err _ => None end = Some [] ->
  Inv (D := demo_decoder) (L := demo_laws) 0 st.
Proof.
  intros E Hcl. apply (sdk_run_inv (D := demo_decoder) (L := demo_laws) demo_new demo_config ts demo_sdk);
    [apply (fresh_inv (L := demo_laws)), demo_fresh|apply demo_run_sdk, E|].
  rewrite (demo_seen closed ts st [] E Hcl). by constructor.
Qed.

Lemma small_leaks : small_leak 0 /\ small_leak 4.
Proof. unfold small_leak, kMaxPacketNumPerFrame, kPacketBufferSize. lia. Qed.

Definition demo_wait (s : Sdk LidarPointXYZI Udp1_4.Udp1_4Parser unit) :=
  (where_ s, handle_thread_count_ (lidar s), concat (handle_thread_packet_buffer_ (lidar s)), callbacks s).

(** A frame of three packets is published; with four packets of a dropped frame
    still counted, it waits for ever. *)
Lemma wait_ends_witness :
  exists st1, demo_run (demo_turns ++ [TParser; TParser; TParser]) = Ok st1 /\ length (udp_packet_frame st1) = 3%nat /\
    (exists st' cs, sdk_step (D := demo_decoder) demo_new demo_config demo_main st1 = Ok st' /\
       callbacks st' = PointCloud (frame_ (lidar st1)) :: Packets (udp_packet_frame st1) :: cs) /\
    forall ts st', sdk_run (D := demo_decoder) demo_new demo_config ts (keep_count 4 st1) = Ok st' -> callbacks st' = [].
Proof.
  destruct (demo_run_ok demo_turns) as [st E]; [vm_compute; reflexivity|].
  destruct (demo_run_ok (demo_turns ++ [TParser; TParser; TParser])) as [st1 E1]; [vm_compute; reflexivity|].
  pose proof (demo_run_app _ _ _ _ E E1) as E2. exists st1. split; [exact E1|].
  assert (forall s, demo_wait s = (Waiting (demo_at 140) true, 1, [], []) -> where_ s = Waiting (demo_at 140) true /\ handle_thread_count_ (lidar s) < 2 /\
    concat (handle_thread_packet_buffer_ (lidar s)) = [] /\ callbacks s = []) as Hseen.
  { intros s [[[H1 H2]%pair_equal_spec H3]%pair_equal_spec H4]%pair_equal_spec. rewrite H2. split; [exact H1|].
    split; [lia|]. split; [exact H3|exact H4]. }
  split; [apply (demo_seen (fun s => length (udp_packet_frame s)) _ st1 _ E1); vm_compute; reflexivity|]. split.
  - destruct (demo_ready_ok st) as (g & Hg & Hr); [apply (demo_seen demo_ready demo_turns st _ E); vm_compute; reflexivity|].
    destruct (Hseen st) as (H1 & H2 & H3 & H4); [apply (demo_seen demo_wait demo_turns st _ E); vm_compute; reflexivity|].
    destruct (wait_ends (D := demo_decoder) (L := demo_laws) demo_new demo_config 0 1 (fun _ => 0) (demo_at 140) st st1 g)
      as [Hend _].
    + apply (demo_inv demo_turns st E). vm_compute. reflexivity.
    + exact (proj1 small_leaks).
    + exact H1.
    + exact Hg.
    + exact Hr.
    + exact demo_readable.
    + exact H2.
    + exact H3.
    + by left.
    + assert (length (pending (lidar st)) = 3%nat) as ->; [|exact E2].
      apply (demo_seen (fun s => length (pending (lidar s))) demo_turns st _ E). vm_compute. reflexivity.
    + destruct (Hend eq_refl) as (st' & cs & F & _ & _ & _ & _ & Hc & _).
      exists st', cs. split; [exact F|].
      assert (points_num (frame_ (lidar st1)) = 2012) as Hn.
      { apply (demo_seen (fun s => points_num (frame_ (lidar s))) _ st1 _ E1). vm_compute. reflexivity. }
      rewrite Hc, H4. unfold published. by rewrite Hn.
  - destruct (Hseen st1) as (H1 & H2 & H3 & H4); [apply (demo_seen demo_wait _ st1 _ E1); vm_compute; reflexivity|].
    destruct (demo_ready_ok (keep_count 4 st1)) as (g & Hg & Hr).
    { apply (demo_seen (fun s => demo_ready (keep_count 4 s)) _ st1 _ E1). vm_compute. reflexivity. }
    assert (length (pending (lidar st1)) = 0%nat) as Hpe.
    { apply (demo_seen (fun s => length (pending (lidar s))) _ st1 _ E1). vm_compute. reflexivity. }
    destruct (wait_ends (D := demo_decoder) (L := demo_laws) demo_new demo_config 4 1 (fun _ => 0) (demo_at 140) (keep_count 4 st1) (keep_count 4 st1) g)
      as (_ & Hstuck); [apply keep_count_inv; [lia|]; apply (demo_inv _ _ E1); vm_compute; reflexivity|exact (proj2 small_leaks)|exact H1|exact Hg|exact Hr
                       |exact demo_readable|exact H2|exact H3|by left| |].
    + change (pending (lidar (keep_count 4 st1))) with (pending (lidar st1)). rewrite Hpe. reflexivity.
    + intros ts st' Hts. destruct (Hstuck ltac:(lia) ts st' Hts) as (_ & -> & _). exact H4.
Defined.

Definition demo_late : Sdk LidarPointXYZI Udp1_4.Udp1_4Parser unit :=
  mk_sdk (mk_lidar (set_parser (Some (with_general (Decoder := demo_decoder)
             (set_transform (transform_ (Udp1_4.base demo_parser)) 4000 (Udp1_4.base demo_parser)) demo_parser)) new_UdpParser)
           (set_counts 5000 0 demo_frame) None [] (seqZ 4000 999) 1 [] [] true 1 false false)
    4999 (replicate 4999 (demo_at 140)) Loop 0 [] [] [].

Lemma overflow_keeps_counter_witness :
  exists st', decoded (demo_at 140) demo_late = Ok st' /\ packet_index st' = 0 /\
    computed_num (D := demo_decoder) (lidar st') = 4000.
Proof.
  destruct (overflow_keeps_counter (D := demo_decoder) (demo_at 140) demo_late)
    as (st' & E & _ & Hi & _ & _ & _ & _ & _ & Hn); [done|done|done|done|done|].
  exists st'. split; [exact E|]. split; [exact Hi|]. rewrite Hn. reflexivity.
Defined.

Definition demo_stuck : Sdk LidarPointXYZI Udp1_4.Udp1_4Parser unit :=
  mk_sdk (mk_lidar (set_parser (Some (with_general (Decoder := demo_decoder)
             (set_transform (transform_ (Udp1_4.base demo_parser)) 4003 (Udp1_4.base demo_parser)) demo_parser)) new_UdpParser)
           (set_counts 3 0 demo_frame) None [] [] 1 [] [] true 1 false false)
    3 (replicate 3 (demo_at 140)) (Waiting (demo_at 140) true) 0 [] [] [].

Lemma stale_counter_hangs_witness :
  exists st', sdk_run (D := demo_decoder) demo_new demo_config [demo_main; TParser; TArrive (demo_at 0); demo_main] demo_stuck = Ok st' /\
    callbacks st' = [].
Proof.
  destruct (sdk_run (D := demo_decoder) demo_new demo_config [demo_main; TParser; TArrive (demo_at 0); demo_main] demo_stuck)
    as [st'|] eqn:E; [|discriminate (f_equal is_ok E)].
  exists st'. split; [reflexivity|].
  destruct (stale_counter_hangs (D := demo_decoder) demo_new demo_config _ (demo_at 140) true demo_stuck st'
    eq_refl eq_refl ltac:(vm_compute; discriminate) E) as (_ & -> & _). reflexivity.
Defined.

Definition demo_filter : SdkConfig := mk_config 0x0201A8C0 10000 0 true true true false false false true false (fun _ => false).

Lemma other_device_ignored_witness :
  sdk_step (D := demo_decoder) demo_new demo_filter demo_main
    (set_lidar (set_origin None [demo_at 140] false (lidar demo_sdk)) demo_sdk) =
  Ok (set_lidar (set_origin None [] false (lidar demo_sdk)) demo_sdk).
Proof.
  apply (other_device_ignored (D := demo_decoder) demo_new demo_filter 1 (fun _ => 0) (demo_at 140) []
    (set_lidar (set_origin None [demo_at 140] false (lidar demo_sdk)) demo_sdk)); [done|done|].
  right. repeat split; try done; by left.
Defined.
