(* ===== verification/Gpu.v ===== *)
(** * Gpu: what the decoders for CUDA devices share

    UdpParserGpu/src/buffer.cu, general_parser_gpu.cu and their headers, and the
    skeleton that [ComputeXYZI] has in every udp*_parser_gpu.cu: the decoded data
    of a frame go to the device, one thread per point computes it, the points come
    back.  The CUDA library is an argument ([Cuda]): which of the calls a function
    makes succeed, which launches are accepted, and in which order the threads of a
    launch run.  A thread writes its own point only, so a thread is one step and a
    launch is a fold over the threads in the order of the device; [launch_order]
    shows that the order does not matter.  Buffers are counted in elements.  No
    caller passes a stream, so every copy is complete when its call returns.
    Floating-point operations round one by one, as with [-fmad=false]; the device's
    [sin], [cos], [tan], [atan] and [asin] are arguments. *)

From Stdlib Require Import SpecFloat Permutation.
From S2P Require Import Prelude Bytes Text Streams Floats LidarTypes GeneralParser Firetimes1_4 Udp1_4 Points Walk.
Local Open Scope Z_scope.

(** ** The device *)

(** [call_ok k]: whether the [k]-th call a function makes answers [cudaSuccess];
    [launch_ok grid block]: whether it does after a launch of [grid] blocks of
    [block] threads; [schedule grid block]: the threads of such a launch as pairs
    of [blockIdx.x] and [threadIdx.x], in the order in which they run. *)
Record Cuda : Type := mk_cuda {
  call_ok : nat -> bool;
  launch_ok : Z -> Z -> bool;
  schedule : Z -> Z -> list (Z * Z);
}.

Definition threads (grid block : Z) : list (Z * Z) :=
  flat_map (fun p => map (pair p) (seqZ 0 block)) (seqZ 0 grid).

(** A launch runs every thread of the grid once. *)
Definition runs_all (cu : Cuda) : Prop := forall grid block, Permutation (schedule cu grid block) (threads grid block).

(** [CUDACheck] leaves the program when a call fails. *)
Definition CUDACheck (cu : Cuda) (k : nat) : result unit := if call_ok cu k then Ok tt else Err Exited.
Definition CUDAChecks (cu : Cuda) (n : nat) : result unit := foldM (fun _ k => CUDACheck cu k) tt (seq 0 n).

Inductive ReturnCode : Set :=
| Default | CorrectionsUnloaded | ConfigJsonUnloaded | LiDAR2SpeedometerCalibrationUnloaded
| LiDAR2GroundCalibrationUnloaded | CudaMemcpyHostToDeviceError | CudaMemcpyDeviceToHostError | LiDARPacketInvalid
| LiDARPacketExpired | LiDARPacketNewFrame | LiDARPacketPreFrame | LiDARPacketPostFrame | PerceptionHistoryReset
| WaitForNextFrame | LiDARRawFrameNotReady | FrameScansTooFew | CudaXYZComputingError.

(** [int(code)]; the codes behind [CudaXYZComputingError] are not used. *)
Definition code (r : ReturnCode) : Z :=
  match r with
  | Default => 0 | CorrectionsUnloaded => 1 | ConfigJsonUnloaded => 2 | LiDAR2SpeedometerCalibrationUnloaded => 3
  | LiDAR2GroundCalibrationUnloaded => 4 | CudaMemcpyHostToDeviceError => 5 | CudaMemcpyDeviceToHostError => 6
  | LiDARPacketInvalid => 7 | LiDARPacketExpired => 8 | LiDARPacketNewFrame => 9 | LiDARPacketPreFrame => 10
  | LiDARPacketPostFrame => 11 | PerceptionHistoryReset => 12 | WaitForNextFrame => 13 | LiDARRawFrameNotReady => 14
  | FrameScansTooFew => 15 | CudaXYZComputingError => 16
  end.

(** ** Buffers *)

(** The elements [start .. start + n) of [src] over those of [dst]. *)
Definition copy_range {A} (start n : Z) (src dst : gmap Z A) : gmap Z A :=
  filter (fun p => start <= p.1 < start + n) src ∪ filter (fun p => ~ (start <= p.1 < start + n)) dst.

(** [MemBufferGPU]: the same block of memory on both sides. *)
Record MemBuffer (A : Type) : Type := mk_buffer { size_ : Z; cpuPtr : gmap Z A; gpuPtr : gmap Z A }.
Arguments mk_buffer {A}.
Arguments size_ {A}.
Arguments cpuPtr {A}.
Arguments gpuPtr {A}.

Definition inside {A} (b : MemBuffer A) (start n : Z) : bool := (0 <=? start) && (0 <=? n) && (start + n <=? size_ b).

(** [MemBuffer::Init] with [MemBufferGPU::OnInit]: [None] stands for [false].  The
    memory has no value yet: an element is in the map once it was written. *)
Definition MemBuffer_Init {A} (cu : Cuda) (k : nat) (size : Z) : option (MemBuffer A) :=
  if call_ok cu k then Some (mk_buffer size ∅ ∅) else None.

(** The constructor of [MemBufferArray] and of [MemBufferClass]. *)
Definition MemBufferClass_new {A} (cu : Cuda) (k : nat) (size : Z) : result (MemBuffer A) :=
  of_option Exited (MemBuffer_Init cu k size).

Definition HostToDevice {A} (cu : Cuda) (k : nat) (start n : Z) (b : MemBuffer A) : result (MemBuffer A) :=
  if inside b start n then
    _ ← CUDACheck cu k;
    Ok (mk_buffer (size_ b) (cpuPtr b) (copy_range start n (cpuPtr b) (gpuPtr b)))
  else Err OutOfBounds.

(** The answer of this copy is not looked at. *)
Definition DeviceToHost {A} (cu : Cuda) (k : nat) (start n : Z) (b : MemBuffer A) : result (MemBuffer A) :=
  if inside b start n then
    Ok (if call_ok cu k then mk_buffer (size_ b) (copy_range start n (gpuPtr b) (cpuPtr b)) (gpuPtr b) else b)
  else Err OutOfBounds.

(** [MemBufferSub]: the constructor initialises [start_] with itself. *)
Record MemBufferSub (A : Type) : Type := mk_sub { ptr_ : MemBuffer A; start_ : option Z; sub_size_ : Z }.
Arguments mk_sub {A}.
Arguments ptr_ {A}.
Arguments start_ {A}.
Arguments sub_size_ {A}.
Definition MemBufferSub_new {A} (ptr : MemBuffer A) (start size : Z) : MemBufferSub A := mk_sub ptr None size.
Definition Sub_HostToDevice {A} (cu : Cuda) (k : nat) (b : MemBufferSub A) : result (MemBufferSub A) :=
  s ← of_option Uninitialised (start_ b);
  p ← HostToDevice cu k s (sub_size_ b) (ptr_ b); Ok (mk_sub p (start_ b) (sub_size_ b)).
Definition Sub_DeviceToHost {A} (cu : Cuda) (k : nat) (b : MemBufferSub A) : result (MemBufferSub A) :=
  s ← of_option Uninitialised (start_ b);
  p ← DeviceToHost cu k s (sub_size_ b) (ptr_ b); Ok (mk_sub p (start_ b) (sub_size_ b)).

(** [cudaMalloc] of an array, and the copy to it of the first [n] elements of an
    array of the host, both with room for [cap]; [None] is a pointer that was never
    set.  The boolean says whether the copy was made. *)
Definition to_device {A} (cu : Cuda) (k : nat) (cap n : Z) (src : gmap Z A) (dst : option (gmap Z A))
    : result (bool * gmap Z A) :=
  dst ← of_option Uninitialised dst;
  if call_ok cu k then
    if n <=? cap then Ok (true, copy_range 0 n src dst) else Err OutOfBounds
  else Ok (false, dst).

(** ** The base class *)

Record GeneralParserGpu (P : Type) : Type := mk_gpu {
  g_transform_ : Transform;
  g_optical_center : LidarOpticalCenter;
  xt_spot_correction : bool;
  g_firetime_correction_ : list (option f64);
  frame_ : MemBuffer P;
  point_data_cu_ : option (gmap Z PointDecodeData);
  sensor_timestamp_cu_ : option (gmap Z Z);
}.
Arguments mk_gpu {P}.
Arguments g_transform_ {P}.
Arguments g_optical_center {P}.
Arguments xt_spot_correction {P}.
Arguments g_firetime_correction_ {P}.
Arguments frame_ {P}.
Arguments point_data_cu_ {P}.
Arguments sensor_timestamp_cu_ {P}.

(** The constructors of the base class and of a decoder; [transform_] is not
    initialised.  A failed [cudaMalloc] ends the constructor of the decoder. *)
Definition GeneralParserGpu_new {P} (cu : Cuda) (junk : Transform) : result (GeneralParserGpu P) :=
  b ← MemBufferClass_new cu 0 kMaxPointsNumPerFrame;
  Ok (mk_gpu junk (mk_optical f_zero f_zero f_zero) false (replicate (Z.to_nat kMaxPointsNumPerPacket) None) b
        (if call_ok cu 1 then Some ∅ else None)
        (if call_ok cu 1 && call_ok cu 2 then Some ∅ else None)).

Section Setters.
Context {P : Type}.
Implicit Types g : GeneralParserGpu P.

Definition g_set_transform (t : Transform) g : GeneralParserGpu P :=
  mk_gpu t (g_optical_center g) (xt_spot_correction g) (g_firetime_correction_ g) (frame_ g) (point_data_cu_ g) (sensor_timestamp_cu_ g).
Definition g_set_optics (oc : LidarOpticalCenter) (spot : bool) g : GeneralParserGpu P :=
  mk_gpu (g_transform_ g) oc spot (g_firetime_correction_ g) (frame_ g) (point_data_cu_ g) (sensor_timestamp_cu_ g).
Definition g_set_firetimes (ft : list (option f64)) g : GeneralParserGpu P :=
  mk_gpu (g_transform_ g) (g_optical_center g) (xt_spot_correction g) ft (frame_ g) (point_data_cu_ g) (sensor_timestamp_cu_ g).
Definition set_memory (b : MemBuffer P) (pd : option (gmap Z PointDecodeData)) (ts : option (gmap Z Z)) g : GeneralParserGpu P :=
  mk_gpu (g_transform_ g) (g_optical_center g) (xt_spot_correction g) (g_firetime_correction_ g) b pd ts.

Definition Gpu_SetTransformPara (x y z roll pitch yaw : f32) g : GeneralParserGpu P :=
  g_set_transform (mk_transform x y z roll pitch yaw) g.

(** The coordinates of the base class of the other decoders. *)
Definition Gpu_SetOpticalCenterCoordinates (lidar_type : string) g : GeneralParserGpu P :=
  match optical_table lidar_type with
  | Some (x, y) => g_set_optics (mk_optical (mm x 2) (mm y 2) (mm 0 0)) (xt_spot_correction g) g
  | None => g
  end.

Definition Gpu_SetXtSpotCorrecion (lidar_type : string) g : Z * GeneralParserGpu P :=
  if bool_decide (lidar_type = "PandarXT32M1"%string) || bool_decide (lidar_type = "PandarXT16M1"%string)
  then (0, g_set_optics (g_optical_center g) true g) else (-1, g).

(** A row "index,time": firetime_correction_[stoi(index) - 1] = stod(deltTime). *)
Definition gpu_firetime_row (ft : list (option f64)) (line : string) : result (list (option f64)) :=
  let '(index, ss) := getline comma (mk_stream line true) EmptyString in
  let '(deltTime, _) := getline comma ss EmptyString in
  t ← stod deltTime;
  i ← stoi index;
  arr_set ft (i - 1) (Some t).

Definition Gpu_LoadFiretimesFile (fs : string -> option string) (path : string) g : result (GeneralParserGpu P) :=
  match fs path with
  | Some content =>
      ft ← foldM gpu_firetime_row (g_firetime_correction_ g) (drop 1 (tokens newline content));
      Ok (g_set_firetimes ft g)
  | None => Ok g
  end.

(** Nothing is loaded from a string. *)
Definition Gpu_LoadFiretimesString (content : string) g : Z * GeneralParserGpu P := (0, g).

End Setters.

(** ** Kernels

    The body of a thread: from the packet, the channel, the index of the point and
    what is in its place to the new point, [None] for a thread that returns without
    writing. *)
Definition kernel (P : Type) : Type :=
  gmap Z PointDecodeData -> gmap Z Z -> Z -> Z -> Z -> option P -> result (option P).

(** ichannel % lasernum, the channel of a point. *)
Definition by_laser (lasernum ichannel : Z) (d : PointDecodeData) : result Z := Ok (Z.rem ichannel lasernum).

(** [iscan * blocknum * lasernum + ichannel % (lasernum * blocknum)], an unsigned
    value stored in an [int]; [per] is the number of points of a packet. *)
Definition thread_index (per iscan ichannel : Z) : Z := i32 (u32 (iscan * per + Z.rem ichannel per)).

Definition run_thread {P} (body : Z -> Z -> Z -> option P -> result (option P)) (packets per : Z) (pts : gmap Z P)
    (t : Z * Z) : result (gmap Z P) :=
  let '(iscan, ichannel) := t in
  if (packets <=? iscan) || (per <=? ichannel) then Ok pts
  else
    let i := thread_index per iscan ichannel in
    x ← body iscan ichannel i (pts !! i);
    match x with Some pt => array_put kMaxPointsNumPerFrame i pt pts | None => Ok pts end.

(** [frame.packet_num] becomes a [uint16_t] on the way. *)
Definition launch {P} (body : Z -> Z -> Z -> option P -> result (option P)) (packets per : Z) (order : list (Z * Z))
    (pts : gmap Z P) : result (gmap Z P) :=
  foldM (run_thread body (u16 packets) per) pts order.

(** An element of an array on the device that must have been written. *)
Definition dev_read {A} (l : list (option A)) (i : Z) : result A := x ← arr_get l i; of_option Uninitialised x.

(** The end of every kernel: the point moved by the transform, member by member. *)
Section Store.
Context {P : Type} {PT : PointType P}.
Variables (sin32 cos32 : f32 -> f32).

Definition store_point (tf : Transform) (conf : bool) (ring ts : Z) (d : PointDecodeData) (xyz : f32 * f32 * f32)
    (old : option P) : P :=
  let '(x, y, z) := xyz in
  let '(x_, y_, z_) := TransformPoint sin32 cos32 tf x y z in
  let pt := setIntensity (pd_reflectivities d) (setZ z_ (setY y_ (setX x_ (default zero_point old)))) in
  let pt := setRing ring (setTimestamp (div64 (of_Z64 ts) (of_Z64 1000000)) pt) in
  if conf then setConfidence (pd_confidence d) pt else pt.

End Store.

(** ** The skeleton of [ComputeXYZI]

    [per] is the number of points of a packet, [k] the kernel that is launched with
    its arguments, if one is. *)
Section Compute.
Context {P : Type}.
Implicit Types (g : GeneralParserGpu P) (frame : LidarDecodedFrame P).

Definition copy_back (cu : Cuda) (n : Z) (pts : gmap Z P) g frame : result (Z * GeneralParserGpu P * LidarDecodedFrame P) :=
  b ← DeviceToHost cu 2 0 n (mk_buffer (size_ (frame_ g)) (cpuPtr (frame_ g)) pts);
  Ok (code Default, set_memory b (point_data_cu_ g) (sensor_timestamp_cu_ g) g,
      set_points (copy_range 0 n (cpuPtr b) (points frame)) frame).

(** The two copies to the device; [None] when one of them fails. *)
Definition send_frame (cu : Cuda) (n : Z) g frame
    : result (option (gmap Z PointDecodeData * gmap Z Z) * GeneralParserGpu P) :=
  '(copied, pd) ← to_device cu 0 kMaxPointsNumPerFrame n (pointData frame) (point_data_cu_ g);
  let g := set_memory (frame_ g) (Some pd) (sensor_timestamp_cu_ g) g in
  if negb copied then Ok (None, g)
  else
    '(copied, ts) ← to_device cu 1 kMaxPacketNumPerFrame (packet_num frame) (sensor_timestamp frame) (sensor_timestamp_cu_ g);
    let g := set_memory (frame_ g) (Some pd) (Some ts) g in
    Ok (if copied : bool then Some (pd, ts) else None, g).

Definition Gpu_ComputeXYZI (cu : Cuda) (corrections_loaded_ : bool) (per : Z) (k : result (option (kernel P))) g frame
    : result (Z * GeneralParserGpu P * LidarDecodedFrame P) :=
  if negb corrections_loaded_ then Ok (code CorrectionsUnloaded, g, frame)
  else
    let n := u32 (per * packet_num frame) in
    '(sent, g) ← send_frame cu n g frame;
    match sent with
    | None => Ok (code CudaMemcpyHostToDeviceError, g, frame)
    | Some (pd, ts) =>
        k ← k;
        match k with
        | None => copy_back cu n (gpuPtr (frame_ g)) g frame
        | Some body =>
            if launch_ok cu (packet_num frame) per then
              pts ← launch (body pd ts) (packet_num frame) per (schedule cu (packet_num frame) per) (gpuPtr (frame_ g));
              copy_back cu n pts g frame
            else Ok (code CudaXYZComputingError, g, frame)
        end
    end.

End Compute.

(** The decoders: the base class, and the flag and the tables of their own. *)
Record ParserGpu (P C : Type) : Type := mk_parser_gpu {
  gpu_base : GeneralParserGpu P;
  corrections_loaded_ : bool;
  tables : C;
}.
Arguments mk_parser_gpu {P C}.
Arguments gpu_base {P C}.
Arguments corrections_loaded_ {P C}.
Arguments tables {P C}.

Definition set_gpu_base {P C} (g : GeneralParserGpu P) (u : ParserGpu P C) : ParserGpu P C :=
  mk_parser_gpu g (corrections_loaded_ u) (tables u).
Definition ParserGpu_new {P C} (cu : Cuda) (junk : Transform) (c : C) : result (ParserGpu P C) :=
  g ← GeneralParserGpu_new cu junk; Ok (mk_parser_gpu g false c).

(** [LoadCorrectionFile], which is the same in every decoder: the buffer has the
    length of the file. *)
Definition Gpu_LoadCorrectionFile {U} (load : string -> U -> result (Z * U)) (fs : string -> option string) (path : string)
    (u : U) : result (Z * U) :=
  match fs path with
  | Some buffer => '(ret, u) ← load buffer u; Ok (if ret =? 0 then 0 else -1, u)
  | None => Ok (-1, u)
  end.

(** ** Points up to their coordinates

    The coordinates of the two families of decoders are computed by different
    functions; the points are compared by the other members. *)
Section Attributes.
Context {P : Type} {PT : PointType P}.

Definition with_xyz (x y z : f32) (p : P) : P := setZ z (setY y (setX x p)).

(** The same point but for the coordinates. *)
Definition same_attributes (p q : P) : Prop := forall x y z, with_xyz x y z p = with_xyz x y z q.

(** The members besides the coordinates that a point gets. *)
Definition stamped (conf : bool) (ring ts : Z) (d : PointDecodeData) (p : P) : P :=
  let pt := setRing ring (setTimestamp (div64 (of_Z64 ts) (of_Z64 1000000)) (setIntensity (pd_reflectivities d) p)) in
  if conf then setConfidence (pd_confidence d) pt else pt.

End Attributes.

(** What the setters of a point type promise. *)
Class PointLaws (P : Type) {PT : PointType P} : Prop := {
  with_xyz_twice x y z x' y' z' (p : P) : with_xyz x y z (with_xyz x' y' z' p) = with_xyz x y z p;
  with_xyz_intensity x y z v (p : P) : with_xyz x y z (setIntensity v p) = setIntensity v (with_xyz x y z p);
  with_xyz_ring x y z v (p : P) : with_xyz x y z (setRing v p) = setRing v (with_xyz x y z p);
  with_xyz_timestamp x y z v (p : P) : with_xyz x y z (setTimestamp v p) = setTimestamp v (with_xyz x y z p);
  with_xyz_confidence x y z v (p : P) : with_xyz x y z (setConfidence v p) = setConfidence v (with_xyz x y z p);
  ring_confidence r c (p : P) : setConfidence c (setRing r p) = setRing r (setConfidence c p);
  timestamp_confidence t c (p : P) : setConfidence c (setTimestamp t p) = setTimestamp t (setConfidence c p);
}.

#[export] Instance xyzi_laws : PointLaws LidarPointXYZI.
Proof. by split. Qed.
#[export] Instance xyzirt_laws : PointLaws LidarPointXYZIRT.
Proof. by split. Qed.
#[export] Instance xyzicrt_laws : PointLaws LidarPointXYZICRT.
Proof. by split. Qed.

#[export] Instance same_attributes_equivalence {P} {PT : PointType P} : Equivalence (same_attributes (P := P)).
Proof.
  split.
  - by intros p x y z.
  - by intros p q H x y z; rewrite H.
  - by intros p q r H1 H2 x y z; rewrite H1, H2.
Qed.

#[export] Instance setIntensity_proper {P} {PT : PointType P} {L : PointLaws P} v :
  Proper (same_attributes ==> same_attributes) (setIntensity (P := P) v).
Proof. intros p q H x y z. by rewrite !with_xyz_intensity, H. Qed.
#[export] Instance setRing_proper {P} {PT : PointType P} {L : PointLaws P} v :
  Proper (same_attributes ==> same_attributes) (setRing (P := P) v).
Proof. intros p q H x y z. by rewrite !with_xyz_ring, H. Qed.
#[export] Instance setTimestamp_proper {P} {PT : PointType P} {L : PointLaws P} v :
  Proper (same_attributes ==> same_attributes) (setTimestamp (P := P) v).
Proof. intros p q H x y z. by rewrite !with_xyz_timestamp, H. Qed.
#[export] Instance setConfidence_proper {P} {PT : PointType P} {L : PointLaws P} v :
  Proper (same_attributes ==> same_attributes) (setConfidence (P := P) v).
Proof. intros p q H x y z. by rewrite !with_xyz_confidence, H. Qed.

#[export] Instance stamped_proper {P} {PT : PointType P} {L : PointLaws P} conf ring ts d :
  Proper (same_attributes ==> same_attributes) (stamped (P := P) conf ring ts d).
Proof. intros p q H. unfold stamped. destruct conf; by rewrite H. Qed.

(** ** Lemmas: the members of a point *)

Section Stamps.
Context {P : Type} {PT : PointType P} {L : PointLaws P}.

Lemma with_xyz_same x y z (p : P) : same_attributes (with_xyz x y z p) p.
Proof. intros x' y' z'. apply with_xyz_twice. Qed.

(** A kernel stores the members of its point. *)
Lemma store_point_attributes s32 c32 tf conf ring ts d xyz (old : option P) :
  same_attributes (store_point s32 c32 tf conf ring ts d xyz old) (stamped conf ring ts d (default zero_point old)).
Proof.
  unfold store_point, stamped. destruct xyz as [[x y] z]. destruct (TransformPoint _ _ _ _ _ _) as [[x' y'] z'].
  change (setZ z' (setY y' (setX x' (default zero_point old)))) with (with_xyz x' y' z' (default zero_point old)).
  destruct conf; by rewrite with_xyz_same.
Qed.

(** So does the end of the loops of the other decoders, inside the field of view. *)
Lemma place_point_attributes sinT cosT s32 c32 tf conf frame n ring az el dist d (old : option P) pt :
  outside_fov (fov_start frame) (fov_end frame) az = false ->
  place_point sinT cosT s32 c32 tf conf frame n ring az el dist d old = Ok pt ->
  exists ts, array_at kMaxPacketNumPerFrame n (sensor_timestamp frame) = Ok ts /\
    same_attributes pt (stamped conf ring ts d (default zero_point old)).
Proof.
  unfold place_point. intros ->. intros H. inv_ok. destruct (match tf with Some _ => _ | None => _ end) as [[x y] z].
  inv_ok. eexists. split; [done|]. unfold stamped.
  change (setZ z (setY y (setX x (default zero_point old)))) with (with_xyz x y z (default zero_point old)).
  destruct conf; rewrite ?ring_confidence, ?timestamp_confidence; by rewrite with_xyz_same.
Qed.

End Stamps.

(** ** Lemmas: copies *)

Lemma copy_range_lookup {A} start n (src dst : gmap Z A) i :
  copy_range start n src dst !! i = if decide (start <= i < start + n) then src !! i else dst !! i.
Proof.
  unfold copy_range. destruct (decide (start <= i < start + n)) as [H|H].
  - destruct (src !! i) as [x|] eqn:Es.
    + apply lookup_union_Some_l, map_lookup_filter_Some_2; done.
    + apply lookup_union_None_2; apply map_lookup_filter_None_2; [by left|right]. by intros x _ [].
  - rewrite lookup_union_r by (apply map_lookup_filter_None_2; right; by intros x _ ?).
    destruct (dst !! i) as [x|] eqn:Ed; [by apply map_lookup_filter_Some_2|].
    apply map_lookup_filter_None_2. by left.
Qed.

Lemma copy_range_in {A} start n (src dst : gmap Z A) i :
  start <= i < start + n -> copy_range start n src dst !! i = src !! i.
Proof. intros. rewrite copy_range_lookup. by rewrite decide_True. Qed.

Lemma copy_range_out {A} start n (src dst : gmap Z A) i :
  ~ (start <= i < start + n) -> copy_range start n src dst !! i = dst !! i.
Proof. intros. rewrite copy_range_lookup. by rewrite decide_False. Qed.

(** A part of a buffer cannot be copied: where it starts is never set. *)
Lemma sub_buffer_useless {A} cu k (ptr : MemBuffer A) start size :
  Sub_HostToDevice cu k (MemBufferSub_new ptr start size) = Err Uninitialised /\
  Sub_DeviceToHost cu k (MemBufferSub_new ptr start size) = Err Uninitialised.
Proof. done. Qed.

(** ** Lemmas: the threads of a launch *)

Lemma elem_of_threads grid block p c : (p, c) ∈ threads grid block <-> 0 <= p < grid /\ 0 <= c < block.
Proof.
  unfold threads. rewrite list_elem_of_In, in_flat_map. split.
  - intros (q & Hq & Hc). apply list_elem_of_In, elem_of_seqZ in Hq.
    apply in_map_iff in Hc as (d & [= <- <-] & Hd). apply list_elem_of_In, elem_of_seqZ in Hd. lia.
  - intros [Hp Hc]. exists p. split; [apply list_elem_of_In, elem_of_seqZ; lia|].
    apply in_map. apply list_elem_of_In, elem_of_seqZ. lia.
Qed.

Lemma threads_NoDup grid block : NoDup (threads grid block).
Proof.
  unfold threads. assert (forall l, NoDup l -> NoDup (flat_map (fun p => map (@pair Z Z p) (seqZ 0 block)) l)) as H.
  { induction 1 as [|p l Hp Hl IH]; cbn [flat_map]; [constructor|]. apply NoDup_app. split; [|split; [|done]].
    - apply (NoDup_fmap_2 (@pair Z Z p)), NoDup_seqZ.
    - intros [q c] Hq Hr. apply list_elem_of_In in Hq, Hr. apply in_map_iff in Hq as (? & [= <- <-] & _).
      apply in_flat_map in Hr as (r & Hr & Hc). apply in_map_iff in Hc as (? & [= -> _] & _).
      apply Hp. by apply list_elem_of_In. }
  apply H, NoDup_seqZ.
Qed.

(** The index of a thread's point. *)
Lemma thread_index_eq grid per p c : 0 <= p < grid -> 0 <= c < per -> grid * per <= kMaxPointsNumPerFrame ->
  thread_index per p c = p * per + c /\ 0 <= p * per + c < grid * per.
Proof.
  intros Hp Hc Hm. assert (0 <= p * per + c < grid * per) as Hr by nia. split; [|done].
  unfold thread_index, i32, u32, kMaxPointsNumPerFrame, kMaxPointsNumPerPacket, kMaxPacketNumPerFrame in *.
  rewrite Z.rem_mod_nonneg by lia. rewrite (Z.mod_small c per) by lia. rewrite (Z.mod_small (p * per + c) (2 ^ 32)) by lia.
  rewrite Z.mod_small by lia. lia.
Qed.

Section Launch.
Context {P : Type}.
Variable body : Z -> Z -> Z -> option P -> result (option P).
Variables packets per : Z.
Hypothesis Hmax : packets * per <= kMaxPointsNumPerFrame.
Hypothesis Hpackets : 0 <= packets < 2 ^ 16.

(** The threads of the grid. *)
Definition in_grid (t : Z * Z) : Prop := 0 <= t.1 < packets /\ 0 <= t.2 < per.
Definition index_of (t : Z * Z) : Z := t.1 * per + t.2.

Lemma index_of_inj t u : in_grid t -> in_grid u -> index_of t = index_of u -> t = u.
Proof.
  destruct t as [p c], u as [q d]. unfold in_grid, index_of. cbn. intros [Hp Hc] [Hq Hd] E.
  assert (p = q) as -> by nia. f_equal. lia.
Qed.

(** What a thread does to the points: it writes its own, if any. *)
Definition after (t : Z * Z) (x : option P) (pts : gmap Z P) : gmap Z P :=
  match x with Some pt => <[index_of t := pt]> pts | None => pts end.

Lemma run_thread_eq pts t : in_grid t ->
  run_thread body packets per pts t = (x ← body t.1 t.2 (index_of t) (pts !! index_of t); Ok (after t x pts)).
Proof.
  destruct t as [p c]. intros [Hp Hc]. cbn in Hp, Hc. destruct (thread_index_eq packets per p c Hp Hc Hmax) as [E Hr].
  unfold run_thread. destruct (Z.leb_spec packets p), (Z.leb_spec per c); try lia. cbn [orb]. rewrite E.
  unfold index_of. cbn [fst snd]. destruct (body p c _ _) as [[pt|]|]; cbn [mbind result_bind]; [|done..].
  rewrite array_put_ok by lia. done.
Qed.

Lemma after_other t x pts i : i <> index_of t -> after t x pts !! i = pts !! i.
Proof. intros H. destruct x; [|done]. cbn. by rewrite lookup_insert_ne by done. Qed.

Lemma after_own t x pts : after t x pts !! index_of t = match x with Some pt => Some pt | None => pts !! index_of t end.
Proof. destruct x; [|done]. cbn. by rewrite lookup_insert_eq. Qed.

(** What a run of threads leaves: the point of each of them is what its body makes
    of what was there, and nothing else changes. *)
Lemma run_threads_spec ts pts pts' : Forall in_grid ts -> NoDup ts ->
  foldM (run_thread body packets per) pts ts = Ok pts' <->
  (forall t, t ∈ ts -> exists x, body t.1 t.2 (index_of t) (pts !! index_of t) = Ok x /\
     pts' !! index_of t = after t x pts !! index_of t) /\
  (forall i, (forall t, t ∈ ts -> i <> index_of t) -> pts' !! i = pts !! i).
Proof.
  revert pts. induction ts as [|t ts IH]; intros pts Hg Hn.
  { cbn. split; [intros [= <-]; split; [intros t Ht; by apply not_elem_of_nil in Ht|done]|].
    intros [_ H]. f_equal. apply map_eq. intros i. symmetry. apply H. intros t Ht. by apply not_elem_of_nil in Ht. }
  apply Forall_cons in Hg as [Ht Hg]. apply NoDup_cons in Hn as [Hni Hn]. cbn [foldM]. rewrite run_thread_eq by done.
  assert (forall u, u ∈ ts -> index_of u <> index_of t) as Hne.
  { intros u Hu E. apply Hni. rewrite Forall_forall in Hg. by rewrite <-(index_of_inj u t (Hg u Hu) Ht E). }
  destruct (body t.1 t.2 _ _) as [x|] eqn:Eb; cbn [mbind result_bind].
  2: { split; [done|]. intros [H _]. destruct (H t ltac:(by left)) as (x & E & _). congruence. }
  rewrite IH by done. split; intros [H1 H2].
  - split.
    + intros u [->|Hu]%elem_of_cons.
      * exists x. split; [done|]. apply H2. intros u Hu. by apply not_eq_sym, Hne.
      * destruct (H1 u Hu) as (y & Ey & Ep). rewrite after_other in Ey by by apply Hne. exists y. split; [done|].
        rewrite Ep, !after_own, (after_other t) by by apply Hne. done.
    + intros i Hi. rewrite H2 by (intros u Hu; apply Hi; by right). apply after_other. apply Hi. by left.
  - split.
    + intros u Hu. destruct (H1 u ltac:(by right)) as (y & Ey & Ep). exists y.
      rewrite after_other by by apply Hne. split; [done|]. rewrite Ep, !after_own, (after_other t) by by apply Hne. done.
    + intros i Hi. destruct (decide (i = index_of t)) as [->|Hit].
      * destruct (H1 t ltac:(by left)) as (y & Ey & Ep). congruence.
      * rewrite after_other by done. apply H2. intros u [->|Hu]%elem_of_cons; [done|by apply Hi].
Qed.

(** It ends when each of the bodies does. *)
Lemma run_threads_total ts pts : Forall in_grid ts -> NoDup ts ->
  (forall t, t ∈ ts -> is_ok (body t.1 t.2 (index_of t) (pts !! index_of t)) = true) ->
  is_ok (foldM (run_thread body packets per) pts ts) = true.
Proof.
  revert pts. induction ts as [|t ts IH]; intros pts Hg Hn Hb; [done|]. apply Forall_cons in Hg as [Hgt Hg].
  apply NoDup_cons in Hn as [Hni Hn]. cbn [foldM]. rewrite run_thread_eq by done.
  pose proof (Hb t ltac:(by left)) as Ht. destruct (body t.1 t.2 _ _) as [x|]; [|done]. cbn [mbind result_bind].
  apply IH; [done..|]. intros u Hu. rewrite after_other; [apply Hb; by right|]. intros E. apply Hni.
  rewrite Forall_forall in Hg. by rewrite <-(index_of_inj _ _ (Hg u Hu) Hgt E).
Qed.

Variable order : list (Z * Z).
Hypothesis Horder : Permutation order (threads packets per).

Lemma order_in_grid : Forall in_grid order /\ NoDup order.
Proof.
  split; [|rewrite Horder; apply threads_NoDup]. apply Forall_forall. intros [p c] Hx. rewrite Horder in Hx.
  by apply elem_of_threads in Hx.
Qed.

Lemma launch_eq pts : launch body packets per order pts = foldM (run_thread body packets per) pts order.
Proof. unfold launch, u16. by rewrite Z.mod_small by done. Qed.

(** What a launch leaves, whatever the order of the threads. *)
Lemma launch_spec pts pts' : launch body packets per order pts = Ok pts' <->
  (forall p c, 0 <= p < packets -> 0 <= c < per -> exists x, body p c (p * per + c) (pts !! (p * per + c)) = Ok x /\
     pts' !! (p * per + c) = match x with Some pt => Some pt | None => pts !! (p * per + c) end) /\
  (forall i, ~ (0 <= i < packets * per) -> pts' !! i = pts !! i).
Proof.
  destruct order_in_grid as [Hg Hn]. rewrite launch_eq, run_threads_spec by done. unfold index_of. split; intros [H1 H2]; split.
  - intros p c Hp Hc. destruct (H1 (p, c)) as (x & E & Ep); [rewrite Horder; by apply elem_of_threads|].
    cbn [fst snd] in Ep. exists x. split; [done|]. rewrite Ep. apply (after_own (p, c) x pts).
  - intros i Hi. apply H2. intros [p c] Hx ->. rewrite Horder in Hx. apply elem_of_threads in Hx. cbn in Hi. nia.
  - intros [p c] Hx. rewrite Horder in Hx. apply elem_of_threads in Hx as [Hp Hc]. cbn [fst snd].
    destruct (H1 p c Hp Hc) as (x & E & Ep). exists x. split; [done|]. rewrite Ep. symmetry. apply (after_own (p, c) x pts).
  - intros i Hi. apply H2. intros Hr. assert (0 < per) by nia.
    apply (Hi (i / per, i mod per)); [rewrite Horder; apply elem_of_threads|cbn; pose proof (Z.div_mod i per ltac:(lia)); lia].
    split; [|by apply Z.mod_pos_bound]. split; [by apply Z.div_pos; lia|apply Z.div_lt_upper_bound; lia].
Qed.

Lemma launch_total pts : (forall p c, 0 <= p < packets -> 0 <= c < per -> is_ok (body p c (p * per + c) (pts !! (p * per + c))) = true) ->
  is_ok (launch body packets per order pts) = true.
Proof.
  destruct order_in_grid as [Hg Hn]. intros Hb. rewrite launch_eq. apply run_threads_total; [done..|].
  intros [p c] Hx. rewrite Forall_forall in Hg. destruct (Hg _ Hx). by apply Hb.
Qed.

End Launch.

(** ** What a frame becomes *)

(** The calls succeed, the launch is accepted and runs every thread; the frame is
    inside the arrays; the object was constructed. *)
Record ready {P} (cu : Cuda) (per : Z) (frame : LidarDecodedFrame P) (g : GeneralParserGpu P) : Prop := {
  ready_calls : call_ok cu 0 = true /\ call_ok cu 1 = true /\ call_ok cu 2 = true;
  ready_launch : launch_ok cu (packet_num frame) per = true;
  ready_threads : runs_all cu;
  ready_per : 0 <= per;
  ready_packets : 0 <= packet_num frame <= kMaxPacketNumPerFrame;
  ready_points : packet_num frame * per <= kMaxPointsNumPerFrame;
  ready_buffer : size_ (frame_ g) = kMaxPointsNumPerFrame;
  ready_data : is_Some (point_data_cu_ g) /\ is_Some (sensor_timestamp_cu_ g);
}.

(** What the device has of the frame. *)
Definition sent_data {P} (per : Z) (frame : LidarDecodedFrame P) (g : GeneralParserGpu P) : gmap Z PointDecodeData :=
  copy_range 0 (packet_num frame * per) (pointData frame) (default ∅ (point_data_cu_ g)).
Definition sent_times {P} (frame : LidarDecodedFrame P) (g : GeneralParserGpu P) : gmap Z Z :=
  copy_range 0 (packet_num frame) (sensor_timestamp frame) (default ∅ (sensor_timestamp_cu_ g)).

(** The number of points of the frame does not wrap. *)
Lemma frame_points_u32 per packets : 0 <= per -> 0 <= packets <= kMaxPacketNumPerFrame ->
  packets * per <= kMaxPointsNumPerFrame -> u32 (per * packets) = packets * per.
Proof.
  unfold u32, kMaxPointsNumPerFrame, kMaxPointsNumPerPacket, kMaxPacketNumPerFrame. intros. rewrite Z.mod_small by nia. lia.
Qed.

Section Points.
Context {P : Type} (cu : Cuda) (per : Z) (frame : LidarDecodedFrame P) (g : GeneralParserGpu P).
Hypothesis R : ready cu per frame g.

Lemma ready_grid : 0 <= packet_num frame < 2 ^ 16.
Proof. pose proof (ready_packets _ _ _ _ R). unfold kMaxPacketNumPerFrame in *. lia. Qed.

Lemma sent_data_at p c : 0 <= p < packet_num frame -> 0 <= c < per ->
  sent_data per frame g !! (p * per + c) = pointData frame !! (p * per + c).
Proof. intros Hp Hc. apply copy_range_in. nia. Qed.

Lemma sent_times_at p : 0 <= p < packet_num frame -> sent_times frame g !! p = sensor_timestamp frame !! p.
Proof. intros Hp. apply copy_range_in. lia. Qed.

(** The launch in the middle of [ComputeXYZI]. *)
Definition launched (k : kernel P) : result (gmap Z P) :=
  launch (k (sent_data per frame g) (sent_times frame g)) (packet_num frame) per (schedule cu (packet_num frame) per)
    (gpuPtr (frame_ g)).

Lemma gpu_compute_eq (k : kernel P) : Gpu_ComputeXYZI cu true per (Ok (Some k)) g frame =
  (pts ← launched k;
   copy_back cu (packet_num frame * per) pts
     (set_memory (frame_ g) (Some (sent_data per frame g)) (Some (sent_times frame g)) g) frame).
Proof.
  destruct R as [(C0 & C1 & C2) Hl _ Hper Hpk Hpt _ [[pd Ed] [ts Et]]].
  unfold Gpu_ComputeXYZI, launched, send_frame, to_device, sent_data, sent_times. cbn [negb].
  rewrite frame_points_u32, C0, C1, Ed, Et by done.
  cbn [of_option mbind result_bind default]. rewrite !(proj2 (Z.leb_le _ _)) by lia.
  cbn [mbind result_bind negb set_memory frame_]. by rewrite Hl.
Qed.

(** What an answer says of the points. *)
Definition computed (k : kernel P) (g' : GeneralParserGpu P) (f' : LidarDecodedFrame P) : Prop :=
  f' = set_points (points f') frame /\
  (forall p c, 0 <= p < packet_num frame -> 0 <= c < per -> let i := p * per + c in
     exists x, k (sent_data per frame g) (sent_times frame g) p c i (gpuPtr (frame_ g) !! i) = Ok x /\
       points f' !! i = match x with Some pt => Some pt | None => gpuPtr (frame_ g) !! i end /\
       gpuPtr (frame_ g') !! i = points f' !! i) /\
  (forall i, ~ (0 <= i < packet_num frame * per) -> points f' !! i = points frame !! i /\
     gpuPtr (frame_ g') !! i = gpuPtr (frame_ g) !! i).

Lemma copied_back k pts : launched k = Ok pts -> exists g' f',
  copy_back cu (packet_num frame * per) pts
    (set_memory (frame_ g) (Some (sent_data per frame g)) (Some (sent_times frame g)) g) frame = Ok (0, g', f') /\ computed k g' f'.
Proof.
  intros Epts. pose proof ready_grid as Hgrid. destruct R as [(C0 & C1 & C2) Hl Ht Hper Hpk Hpt Hsz Hd].
  apply launch_spec in Epts as [H1 H2]; [|done..|by apply Ht].
  unfold copy_back, DeviceToHost, inside. cbn [size_ set_memory frame_ cpuPtr].
  rewrite Hsz, C2. assert (0 <= packet_num frame * per) by (apply Z.mul_nonneg_nonneg; lia).
  rewrite !Z.leb_refl, !(proj2 (Z.leb_le _ _)) by lia.
  cbn [andb mbind result_bind gpuPtr cpuPtr]. eexists _, _. split; [done|]. split; [done|].
  cbn [points set_points frame_ set_memory gpuPtr]. split.
  - intros p c Hp Hc. cbv zeta. destruct (H1 p c Hp Hc) as (x & E & Ep). exists x. split; [done|].
    rewrite !(copy_range_in 0) by nia. done.
  - intros i Hi. split; [by rewrite copy_range_out by lia|by apply H2].
Qed.

Lemma gpu_compute_inv (k : kernel P) r g' f' :
  Gpu_ComputeXYZI cu true per (Ok (Some k)) g frame = Ok (r, g', f') -> r = 0 /\ computed k g' f'.
Proof.
  rewrite gpu_compute_eq. rewrite bind_ok. intros (pts & Epts & H). destruct (copied_back k pts Epts) as (g1 & f1 & E & Hc).
  rewrite E in H. by apply (inj Ok) in H as [= <- <- <-].
Qed.

(** The answer, and the points of the frame, when every thread does its work. *)
Lemma gpu_compute_points (k : kernel P) :
  (forall p c, 0 <= p < packet_num frame -> 0 <= c < per ->
     is_ok (k (sent_data per frame g) (sent_times frame g) p c (p * per + c) (gpuPtr (frame_ g) !! (p * per + c))) = true) ->
  exists g' f', Gpu_ComputeXYZI cu true per (Ok (Some k)) g frame = Ok (0, g', f') /\ computed k g' f'.
Proof.
  intros Hk. pose proof ready_grid as Hgrid. destruct R as [_ _ Ht Hper Hpk Hpt _ _].
  pose proof (launch_total (k (sent_data per frame g) (sent_times frame g)) _ _ Hpt Hgrid _ (Ht _ _) _ Hk) as Hok.
  rewrite gpu_compute_eq. fold (launched k) in Hok. destruct (launched k) as [pts|] eqn:Epts; [|done].
  by apply copied_back.
Qed.

End Points.

(** ** The members of the points of a frame *)

Section Members.
Context {P : Type} {PT : PointType P} {L : PointLaws P}.

(** The data of a frame that a thread reads. *)
Lemma sent_data_array_at per (frame : LidarDecodedFrame P) g p c : 0 <= p < packet_num frame -> 0 <= c < per ->
  array_at kMaxPointsNumPerFrame (p * per + c) (sent_data per frame g) =
  array_at kMaxPointsNumPerFrame (p * per + c) (pointData frame).
Proof. intros Hp Hc. unfold array_at. rewrite (sent_data_at per frame g p c) by done. done. Qed.

Lemma sent_times_array_at (frame : LidarDecodedFrame P) g p : 0 <= p < packet_num frame ->
  array_at kMaxPacketNumPerFrame p (sent_times frame g) = array_at kMaxPacketNumPerFrame p (sensor_timestamp frame).
Proof. intros Hp. unfold array_at. by rewrite (sent_times_at frame g p). Qed.

(** Every point of the frame was decoded. *)
Definition decoded_frame (per : Z) (frame : LidarDecodedFrame P) : Prop := forall p c, 0 <= p < packet_num frame -> 0 <= c < per ->
  is_Some (pointData frame !! (p * per + c)) /\ is_Some (sensor_timestamp frame !! p).

Lemma decoded_frame_at per (frame : LidarDecodedFrame P) p c : decoded_frame per frame ->
  packet_num frame <= kMaxPacketNumPerFrame -> packet_num frame * per <= kMaxPointsNumPerFrame ->
  0 <= p < packet_num frame -> 0 <= c < per ->
  exists d t, array_at kMaxPointsNumPerFrame (p * per + c) (pointData frame) = Ok d /\
    array_at kMaxPacketNumPerFrame p (sensor_timestamp frame) = Ok t.
Proof.
  intros Hd Hm Hn Hp Hc. destruct (Hd p c Hp Hc) as [[d Ed] [t Et]]. exists d, t.
  split; apply array_at_ok; [nia|done|lia|done].
Qed.

(** Every thread of a kernel writes its point, with the members of its datum; [ring]
    is what it takes the channel for. *)
Definition stamps (conf : bool) (ring : Z -> PointDecodeData -> result Z) (k : kernel P) : Prop :=
  forall pd ts p c i (old : option P) x, k pd ts p c i old = Ok x ->
    exists d t r pt, array_at kMaxPointsNumPerFrame i pd = Ok d /\ array_at kMaxPacketNumPerFrame p ts = Ok t /\
      ring c d = Ok r /\ x = Some pt /\ same_attributes pt (stamped conf r t d (default zero_point old)).

Lemma computed_stamps per (frame : LidarDecodedFrame P) g k g' f' conf ring : stamps conf ring k ->
  computed per frame g k g' f' -> forall p c, 0 <= p < packet_num frame -> 0 <= c < per -> let i := p * per + c in
  exists d t r pt, array_at kMaxPointsNumPerFrame i (pointData frame) = Ok d /\
    array_at kMaxPacketNumPerFrame p (sensor_timestamp frame) = Ok t /\ ring c d = Ok r /\ points f' !! i = Some pt /\
    same_attributes pt (stamped conf r t d (default zero_point (gpuPtr (frame_ g) !! i))).
Proof.
  intros Hs (_ & Hin & _) p c Hp Hc i. destruct (Hin p c Hp Hc) as (x & Ex & Ei & _).
  apply Hs in Ex as (d & t & r & pt & Ed & Et & Er & -> & Hsame). exists d, t, r, pt.
  rewrite sent_data_array_at in Ed by done. rewrite sent_times_array_at in Et by done. done.
Qed.

(** Points of a packet that a loop over blocks and channels wrote, and points of a
    device, with the members of the same data, agree. *)
Lemma each_point_agrees (cu : Cuda) per (frame : LidarDecodedFrame P) (g : GeneralParserGpu P) conf n f (pts pts' : gmap Z P) :
  ready cu per frame g -> 0 < laser_num frame -> 0 <= n < packet_num frame -> 0 <= block_num frame ->
  per_points_num frame = per -> per = block_num frame * laser_num frame -> each_point frame n f = Ok pts ->
  (forall i, same_attributes (default zero_point (gpuPtr (frame_ g) !! i)) (default zero_point (points frame !! i))) ->
  (forall b i j old pt, f b i j old = Ok pt -> exists d t, array_at kMaxPointsNumPerFrame j (pointData frame) = Ok d /\
     array_at kMaxPacketNumPerFrame n (sensor_timestamp frame) = Ok t /\
     same_attributes pt (stamped conf i t d (default zero_point old))) ->
  (forall c, 0 <= c < per -> exists d t pt, array_at kMaxPointsNumPerFrame (n * per + c) (pointData frame) = Ok d /\
     array_at kMaxPacketNumPerFrame n (sensor_timestamp frame) = Ok t /\ pts' !! (n * per + c) = Some pt /\
     same_attributes pt (stamped conf (Z.rem c (laser_num frame)) t d (default zero_point (gpuPtr (frame_ g) !! (n * per + c))))) ->
  forall i, n * per <= i < (n + 1) * per -> exists a b, pts !! i = Some a /\ pts' !! i = Some b /\ same_attributes a b.
Proof.
  intros R Hlas Hn Hb Hpp Hper E Hold Hf Hg i Hi. destruct R as [_ _ _ _ [_ Hpk] Hpt _ _].
  destruct (each_point_spec frame n f (proj1 Hn) Hb ltac:(lia) ltac:(lia) ltac:(nia) _ E) as [_ Hcpu].
  set (c := i - n * per). assert (0 <= c < per) as Hc by (unfold c; lia).
  assert (0 <= c / laser_num frame < block_num frame) as Hq.
  { split; [apply Z.div_pos; lia|apply Z.div_lt_upper_bound; lia]. }
  pose proof (Z.mod_pos_bound c (laser_num frame) Hlas) as Hm.
  destruct (Hcpu _ _ Hq Hm) as (a & Ea & Hpa). pose proof (Z.div_mod c (laser_num frame) ltac:(lia)) as Hcm.
  replace (n * per_points_num frame + c / laser_num frame * laser_num frame + c mod laser_num frame) with i in Ea, Hpa
    by (rewrite Hpp; unfold c in *; lia).
  apply Hf in Hpa as (d & t & Ed & Et & Hsa). destruct (Hg c Hc) as (d' & t' & b & Ed' & Et' & Eb & Hsb).
  replace (n * per + c) with i in Ed', Eb, Hsb by (unfold c; lia). rewrite Ed in Ed'. rewrite Et in Et'.
  apply (inj Ok) in Ed' as <-. apply (inj Ok) in Et' as <-. exists a, b. split; [done|]. split; [done|].
  rewrite Hsa, Hsb. rewrite Z.rem_mod_nonneg by lia. by rewrite Hold.
Qed.

End Members.

(** Sending a frame changes neither the frame nor the points; it fails for a copy
    that fails. *)
Lemma to_device_answer {A} cu k cap n (src : gmap Z A) dst b m : to_device cu k cap n src dst = Ok (b, m) -> b = call_ok cu k.
Proof.
  unfold to_device. intros H. inv_ok. destruct (call_ok cu k); [|by inv_ok]. destruct (_ <=? _); by inv_ok.
Qed.

Lemma send_frame_spec {P} cu n (g : GeneralParserGpu P) frame o g' : send_frame cu n g frame = Ok (o, g') ->
  frame_ g' = frame_ g /\ (o = None -> call_ok cu 0 = false \/ call_ok cu 1 = false).
Proof.
  unfold send_frame. intros H. inv_ok. destruct a as [b pd]. apply to_device_answer in E as ->.
  destruct (call_ok cu 0); cbn [negb] in H; [|inv_ok; by auto]. inv_ok. destruct a as [b ts].
  apply to_device_answer in E as ->. destruct (call_ok cu 1); inv_ok; by auto.
Qed.

(** How a frame is answered: refused, or copied back, from an object with the same
    points. *)
Lemma gpu_compute_cases {P} cu loaded per k (g : GeneralParserGpu P) frame r g' f' :
  Gpu_ComputeXYZI cu loaded per k g frame = Ok (r, g', f') ->
  (f' = frame /\ frame_ g' = frame_ g /\
    (r = 1 /\ loaded = false \/ r = 5 /\ (call_ok cu 0 = false \/ call_ok cu 1 = false) \/
     r = 16 /\ launch_ok cu (packet_num frame) per = false)) \/
  exists pts h, frame_ h = frame_ g /\ copy_back cu (u32 (per * packet_num frame)) pts h frame = Ok (r, g', f').
Proof.
  unfold Gpu_ComputeXYZI. destruct loaded; cbn [negb]; [|intros; inv_ok; left; split_and!; tauto].
  destruct (send_frame _ _ _ _) as [[o h]|] eqn:Es; cbn [mbind result_bind]; [|done].
  destruct (send_frame_spec _ _ _ _ _ _ Es) as [Hh Ho]. destruct o as [[pd ts]|]; [|intros; inv_ok; left; split_and!; tauto].
  destruct k as [[body|]|]; cbn [mbind result_bind]; [|eauto|done]. destruct (launch_ok _ _ _) eqn:El; [|intros; inv_ok; left; split_and!; tauto].
  destruct (launch _ _ _ _ _); cbn [mbind result_bind]; [|done]. eauto.
Qed.

(** ** Theorems

    A device that runs every thread, and a frame inside the arrays. *)

Section Device.
Context {P : Type}.
Variables (per : Z) (frame : LidarDecodedFrame P).
Hypothesis Hper : 0 <= per.
Hypothesis Hpackets : 0 <= packet_num frame <= kMaxPacketNumPerFrame.
Hypothesis Hpoints : packet_num frame * per <= kMaxPointsNumPerFrame.

(** C3: two devices that answer the calls alike and run every thread, each in an order
    of its own, leave the same object and the same frame. *)
Theorem gpu_order_irrelevant cu1 cu2 loaded k (g : GeneralParserGpu P) r :
  runs_all cu1 -> runs_all cu2 -> (forall i, call_ok cu1 i = call_ok cu2 i) -> (forall x y, launch_ok cu1 x y = launch_ok cu2 x y) ->
  Gpu_ComputeXYZI cu1 loaded per k g frame = Ok r -> Gpu_ComputeXYZI cu2 loaded per k g frame = Ok r.
Proof.
  intros H1 H2 Hc Hl. assert (0 <= packet_num frame < 2 ^ 16) as Hgrid by (unfold kMaxPacketNumPerFrame in *; lia).
  assert (forall n pts h, copy_back cu1 n pts h frame = copy_back cu2 n pts h frame) as Hb.
  { intros n pts h. unfold copy_back, DeviceToHost. by rewrite Hc. }
  assert (forall n, send_frame cu1 n g frame = send_frame cu2 n g frame) as Hs.
  { intros n. unfold send_frame, to_device. by rewrite !Hc. }
  unfold Gpu_ComputeXYZI. rewrite Hs, Hl. destruct loaded; [|done]. cbn [negb].
  destruct (send_frame _ _ _ _) as [[[[pd ts]|] h]|]; cbn [mbind result_bind]; [|done..].
  destruct k as [[body|]|]; cbn [mbind result_bind]; [|by rewrite Hb|done]. destruct (launch_ok _ _ _); [|done].
  destruct (launch _ _ _ (schedule cu1 _ _) _) as [pts|] eqn:E; [|done].
  apply (launch_spec _ _ _ Hpoints Hgrid _ (H1 _ _)) in E. apply (launch_spec _ _ _ Hpoints Hgrid _ (H2 _ _)) in E.
  rewrite E. cbn [mbind result_bind]. by rewrite Hb.
Qed.

(** A frame that is refused is left as it was, on both sides: the calibration is
    not loaded, or a copy to the device fails, or the launch does. *)
Theorem gpu_refused cu loaded k (g : GeneralParserGpu P) r g' f' :
  Gpu_ComputeXYZI cu loaded per k g frame = Ok (r, g', f') -> r <> 0 ->
  f' = frame /\ frame_ g' = frame_ g /\
  (r = 1 /\ loaded = false \/ r = 5 /\ (call_ok cu 0 = false \/ call_ok cu 1 = false) \/
   r = 16 /\ launch_ok cu (packet_num frame) per = false).
Proof.
  intros H Hr. destruct (gpu_compute_cases _ _ _ _ _ _ _ _ _ H) as [?|(pts & h & _ & Hc)]; [done|].
  unfold copy_back in Hc. destruct (DeviceToHost _ _ _ _ _); cbn [mbind result_bind] in Hc; inv_ok; done.
Qed.

(** The copy of the points from the device may fail: the answer is still 0, and the
    frame gets what the buffer of the host held, the points of an earlier frame. *)
Theorem gpu_stale_points cu loaded k (g : GeneralParserGpu P) g' f' :
  call_ok cu 2 = false -> Gpu_ComputeXYZI cu loaded per k g frame = Ok (0, g', f') ->
  cpuPtr (frame_ g') = cpuPtr (frame_ g) /\
  forall i, 0 <= i < packet_num frame * per -> points f' !! i = cpuPtr (frame_ g) !! i.
Proof.
  intros C2 H. destruct (gpu_compute_cases _ _ _ _ _ _ _ _ _ H) as [(_ & _ & [[? _]|[[? _]|[? _]]])|(pts & h & Hh & Hc)]; [done..|].
  unfold copy_back, DeviceToHost in Hc. rewrite C2, frame_points_u32 in Hc by done.
  destruct (inside _ _ _); cbn [mbind result_bind] in Hc; [|done]. apply (inj Ok) in Hc as [= <- <-].
  cbn [frame_ set_memory cpuPtr points set_points]. rewrite Hh. split; [done|]. intros i Hi. by apply copy_range_in.
Qed.

End Device.

(** ** Witnesses: a device that runs the threads in order, one that runs them
    backwards, and a frame of one packet of one block of two channels *)

Definition working : Cuda := mk_cuda (fun _ => true) (fun _ _ => true) threads.
Definition backwards : Cuda := mk_cuda (fun _ => true) (fun _ _ => true) (fun grid block => rev (threads grid block)).

Lemma working_all : runs_all working.
Proof. by intros grid block. Qed.
Lemma backwards_all : runs_all backwards.
Proof. intros grid block. symmetry. apply Permutation_rev. Qed.

Definition demo_datum (v : Z) : PointDecodeData := mk_pdd (of_Z32 (100 * v)) f_zero (7 * v) v (Some 1) (Some 0) (Some 0).
Definition demo_gpu_frame : LidarDecodedFrame LidarPointXYZI :=
  set_counts 1 2 (set_pointData (<[0 := demo_datum 1]> (<[1 := demo_datum 2]> ∅))
    (set_packet_info 7 0 0 0 1 2 (of_Z64 1)
       (mk_frame 0 (<[0 := 5]> ∅) 0 0 0 0 0 0 ∅ ∅ 0 0 0 false f_zero 0 (-1) (-1) 0 (-1) (-1)))).
Definition demo_transform : Transform := mk_transform f_zero f_zero f_zero f_zero f_zero f_zero.
Definition demo_gpu : GeneralParserGpu LidarPointXYZI :=
  mk_gpu demo_transform (mk_optical f_zero f_zero f_zero) false [] (mk_buffer kMaxPointsNumPerFrame ∅ ∅) (Some ∅) (Some ∅).

Lemma demo_gpu_ready : Gpu.ready working 2 demo_gpu_frame demo_gpu.
Proof. split; try done; try exact working_all; try (split; by eexists). Qed.

Lemma demo_decoded : decoded_frame 2 demo_gpu_frame.
Proof.
  intros p c Hp Hc. change (packet_num demo_gpu_frame) with 1 in Hp. assert (p = 0) as -> by lia.
  assert (c = 0 \/ c = 1) as [-> | ->] by lia; (split; eexists; vm_compute; reflexivity).
Qed.

Definition demo_kernel : kernel LidarPointXYZI := fun pd ts p c i old =>
  d ← array_at kMaxPointsNumPerFrame i pd; Ok (Some (setIntensity (pd_reflectivities d) zero_point)).

Lemma gpu_order_irrelevant_witness : exists g' f',
  Gpu_ComputeXYZI working true 2 (Ok (Some demo_kernel)) demo_gpu demo_gpu_frame = Ok (0, g', f') /\
  Gpu_ComputeXYZI backwards true 2 (Ok (Some demo_kernel)) demo_gpu demo_gpu_frame = Ok (0, g', f').
Proof.
  destruct (Gpu_ComputeXYZI working true 2 (Ok (Some demo_kernel)) demo_gpu demo_gpu_frame) as [[[r g'] f']|] eqn:E;
    [|vm_compute in E; discriminate E].
  assert (r = 0) as -> by (assert (match Gpu_ComputeXYZI working true 2 (Ok (Some demo_kernel)) demo_gpu demo_gpu_frame with
    Ok (r, _, _) => r | Err _ => 1 end = 0) as H by (vm_compute; reflexivity); by rewrite E in H).
  exists g', f'. split; [done|].
  revert E. apply gpu_order_irrelevant; [done|done|exact working_all|exact backwards_all|done|done].
Defined.

(** A device that refuses the second copy. *)
Definition broken : Cuda := mk_cuda (fun k => negb (k =? 1)%nat) (fun _ _ => true) threads.

Lemma gpu_refused_witness : exists g', 
  Gpu_ComputeXYZI broken true 2 (Ok (Some demo_kernel)) demo_gpu demo_gpu_frame = Ok (5, g', demo_gpu_frame) /\
  frame_ g' = frame_ demo_gpu.
Proof.
  destruct (Gpu_ComputeXYZI broken true 2 (Ok (Some demo_kernel)) demo_gpu demo_gpu_frame) as [[[r g'] f']|] eqn:E;
    [|vm_compute in E; discriminate E].
  assert (r = 5) as -> by (assert (match Gpu_ComputeXYZI broken true 2 (Ok (Some demo_kernel)) demo_gpu demo_gpu_frame with
    Ok (r, _, _) => r | Err _ => 1 end = 5) as H by (vm_compute; reflexivity); by rewrite E in H).
  destruct (gpu_refused 2 demo_gpu_frame broken true _ demo_gpu 5 g' f' E ltac:(done)) as (-> & Hf & _). by exists g'.
Defined.
