(* ===== verification/GpuSpinning.v ===== *)
(** * GpuSpinning: the CUDA decoders of the spinning lidars

    UdpParserGpu/src/udp1_4_parser_gpu.cu, udp3_1_parser_gpu.cu,
    udp3_2_parser_gpu.cu, udp6_1_parser_gpu.cu, udp_p40_parser_gpu.cu and
    udp_p64_parser_gpu.cu with their headers.  The six files have the same loader
    and the same kernel but for the confidence, which three of them copy, and the
    spot correction of 6.1; [kHalfCircleFloat] and [HALF_CIRCLE], and
    [kResolutionFloat] and [kResolutionInt], are the same values.  The theorems
    compare the loader and the points with those of Spinning.v and Udp1_4.v. *)

From Stdlib Require Import SpecFloat.
From S2P Require Import Spinning Prelude Bytes Text Streams Floats LidarTypes GeneralParser Udp1_4 Points Walk Udp3_2 Gpu.
Local Open Scope Z_scope.

Inductive gpu_spinning : Set := Gpu1_4 | Gpu3_1 | Gpu3_2 | Gpu6_1 | GpuP40 | GpuP64.

(** [channel_azimuths_cu_], [channel_elevations_cu_] and, in 6.1,
    [spot_correction_angle_cu_], which the constructor fills. *)
Record Angles : Type := mk_angles {
  channel_azimuths_cu_ : list (option f32);
  channel_elevations_cu_ : list (option f32);
  spot_correction_angle_cu_ : option (list Z);
}.

(** ** Construction *)

Definition spinning_new {P} (cu : Cuda) (junk : Transform) : result (ParserGpu P Angles) :=
  ParserGpu_new cu junk (mk_angles unset_list unset_list None).
Definition Gpu1_4_new {P} : Cuda -> Transform -> result (ParserGpu P Angles) := spinning_new.
Definition Gpu3_1_new {P} : Cuda -> Transform -> result (ParserGpu P Angles) := spinning_new.
Definition Gpu3_2_new {P} : Cuda -> Transform -> result (ParserGpu P Angles) := spinning_new.
Definition GpuP40_new {P} : Cuda -> Transform -> result (ParserGpu P Angles) := spinning_new.
Definition GpuP64_new {P} : Cuda -> Transform -> result (ParserGpu P Angles) := spinning_new.

(** The table of 6.1 is allocated and copied behind the two other buffers. *)
Definition Gpu6_1_new {P} (cu : Cuda) (junk : Transform) : result (ParserGpu P Angles) :=
  u ← spinning_new cu junk;
  if call_ok cu 1 && call_ok cu 2 && call_ok cu 3 then
    _ ← CUDACheck cu 4;
    Ok (mk_parser_gpu (gpu_base u) false (mk_angles unset_list unset_list (Some spot_correction_angle)))
  else Ok u.

(** ** The correction file

    The rows are those of the base class of the other decoders; the two lists are
    copied to the device whole, also the elements no row has set.  A second file is
    not read. *)
Definition text_rows (content : string) : result (list string) :=
  let ls := tokens newline content in
  match tokens comma (default EmptyString (head ls)) with
  | [] => Err OutOfBounds
  | t :: _ => Ok (if bool_decide (t = "EEFF"%string) || bool_decide (t = "eeff"%string) then drop 2 ls else drop 1 ls)
  end.

Definition LoadCorrectionString_text {P} (cu : Cuda) (block : string) (u : ParserGpu P Angles) : result (Z * ParserGpu P Angles) :=
  if corrections_loaded_ u then Ok (0, u)
  else
    content ← c_string block;
    rows ← text_rows content;
    let '(_, (elevation_list, azimuth_list)) := foldl correction_step (0, (unset_list, unset_list)) rows in
    _ ← CUDAChecks cu 4;
    Ok (0, mk_parser_gpu (gpu_base u) true (mk_angles azimuth_list elevation_list (spot_correction_angle_cu_ (tables u)))).

Definition Gpu1_4_LoadCorrectionString {P} : Cuda -> string -> ParserGpu P Angles -> _ := LoadCorrectionString_text.
Definition Gpu3_1_LoadCorrectionString {P} : Cuda -> string -> ParserGpu P Angles -> _ := LoadCorrectionString_text.
Definition Gpu3_2_LoadCorrectionString {P} : Cuda -> string -> ParserGpu P Angles -> _ := LoadCorrectionString_text.
Definition Gpu6_1_LoadCorrectionString {P} : Cuda -> string -> ParserGpu P Angles -> _ := LoadCorrectionString_text.
Definition GpuP40_LoadCorrectionString {P} : Cuda -> string -> ParserGpu P Angles -> _ := LoadCorrectionString_text.
Definition GpuP64_LoadCorrectionString {P} : Cuda -> string -> ParserGpu P Angles -> _ := LoadCorrectionString_text.

Definition Gpu1_4_LoadCorrectionFile {P} (cu : Cuda) := Gpu_LoadCorrectionFile (Gpu1_4_LoadCorrectionString (P := P) cu).
Definition Gpu3_1_LoadCorrectionFile {P} (cu : Cuda) := Gpu_LoadCorrectionFile (Gpu3_1_LoadCorrectionString (P := P) cu).
Definition Gpu3_2_LoadCorrectionFile {P} (cu : Cuda) := Gpu_LoadCorrectionFile (Gpu3_2_LoadCorrectionString (P := P) cu).
Definition Gpu6_1_LoadCorrectionFile {P} (cu : Cuda) := Gpu_LoadCorrectionFile (Gpu6_1_LoadCorrectionString (P := P) cu).
Definition GpuP40_LoadCorrectionFile {P} (cu : Cuda) := Gpu_LoadCorrectionFile (GpuP40_LoadCorrectionString (P := P) cu).
Definition GpuP64_LoadCorrectionFile {P} (cu : Cuda) := Gpu_LoadCorrectionFile (GpuP64_LoadCorrectionString (P := P) cu).

(** ** The kernels *)

Section Kernel.
Context {P : Type} {PT : PointType P}.
Variables (sin32 cos32 atan32 asin32 : f32 -> f32).

(** a / kHalfCircleFloat * M_PI, as a [float] *)
Definition half_circle (a : f32) : f32 := to32 (mul64 (div32 a (of_Z32 kHalfCircleInt)) M_PI).

(** The angle of a channel, from degrees. *)
Definition channel_angle (l : list (option f32)) (i : Z) : result f32 :=
  a ← dev_read l i; Ok (half_circle (mul32 a (of_Z32 kResolutionInt))).

(** (theta, phi) behind the correction for the optical centre, which is made for
    the points that are not near. *)
Definition optical_angles (oc : LidarOpticalCenter) (azimuth theta phi rho : f32) : f32 * f32 :=
  if SFltb (lit64 9 2) rho && negb (SFeqb (oc_x oc) f_zero) then
    let two := of_Z32 2 in
    let tx := mul32 (cos32 phi) (sin32 theta) in
    let ty := mul32 (cos32 phi) (cos32 theta) in
    let tz := sin32 phi in
    let B := add32 (add32 (mul32 (mul32 two tx) (oc_x oc)) (mul32 (mul32 two ty) (oc_y oc))) (mul32 (mul32 two tz) (oc_z oc)) in
    let C := sub32 (add32 (add32 (mul32 (oc_x oc) (oc_x oc)) (mul32 (oc_y oc) (oc_y oc))) (mul32 (oc_z oc) (oc_z oc)))
               (mul32 rho rho) in
    let d_opitcal := sub32 (sqrt32 (sub32 (div32 (mul32 B B) (of_Z32 4)) C)) (div32 B two) in
    let x := add32 (mul32 d_opitcal tx) (oc_x oc) in
    let y := add32 (mul32 d_opitcal ty) (oc_y oc) in
    let z := add32 (mul32 d_opitcal tz) (oc_z oc) in
    (add32 azimuth (atan32 (div32 x y)), asin32 (div32 z rho))
  else (add32 theta azimuth, phi).

(** theta -= spot_correction_angle[index < 8 ? index : 7] / kHalfCircleFloat * M_PI *)
Definition spot_angle (spot : bool) (table : option (list Z)) (theta rho : f32) : result f32 :=
  if spot && SFleb (lit64 25 2) rho && SFltb rho (lit64 425 2) then
    index ← to_int (div64 (sub64 rho (lit64 25 2)) (lit64 5 1));
    table ← of_option Uninitialised table;
    a ← arr_get table (if index <? 8 then index else 7);
    Ok (to32 (sub64 theta (mul64 (div32 (of_Z32 a) (of_Z32 kHalfCircleInt)) M_PI)))
  else Ok theta.

Definition spherical (rho phi theta : f32) : f32 * f32 * f32 :=
  let z := mul32 rho (sin32 phi) in
  let r := mul32 rho (cos32 phi) in
  (mul32 r (sin32 theta), mul32 r (cos32 theta), z).

(** Which kernels copy the confidence. *)
Definition copies_confidence (k : gpu_spinning) : bool := match k with Gpu1_4 | Gpu6_1 => true | _ => false end.

Definition spinning_kernel (k : gpu_spinning) (c : Angles) (g : GeneralParserGpu P) (lasernum : Z) (raw_distance_unit : f64)
    : kernel P := fun point_data sensor_timestamp iscan ichannel point_index old =>
  d ← array_at kMaxPointsNumPerFrame point_index point_data;
  let azimuth := half_circle (pd_azimuth d) in
  theta ← channel_angle (channel_azimuths_cu_ c) (Z.rem ichannel lasernum);
  phi ← channel_angle (channel_elevations_cu_ c) (Z.rem ichannel lasernum);
  let rho := point_distance d raw_distance_unit in
  let '(theta, phi) := optical_angles (g_optical_center g) azimuth theta phi rho in
  theta ← (match k with Gpu6_1 => spot_angle (xt_spot_correction g) (spot_correction_angle_cu_ c) theta rho | _ => Ok theta end);
  ts ← array_at kMaxPacketNumPerFrame iscan sensor_timestamp;
  Ok (Some (store_point sin32 cos32 (g_transform_ g) (copies_confidence k) (Z.rem ichannel lasernum) ts d
              (spherical rho phi theta) old)).

Definition compute_xyzs_1_4_impl := spinning_kernel Gpu1_4.
Definition compute_xyzs_3_1_impl := spinning_kernel Gpu3_1.
Definition compute_xyzs_3_2_impl := spinning_kernel Gpu3_2.
Definition compute_xyzs_6_1_impl := spinning_kernel Gpu6_1.
Definition compute_xyzs_p40_impl := spinning_kernel GpuP40.
Definition compute_xyzs_p64_impl := spinning_kernel GpuP64.

Definition spinning_ComputeXYZI (k : gpu_spinning) (cu : Cuda) (u : ParserGpu P Angles) (frame : LidarDecodedFrame P)
    : result (Z * ParserGpu P Angles * LidarDecodedFrame P) :=
  '(r, g, f) ← Gpu_ComputeXYZI cu (corrections_loaded_ u) (block_num frame * laser_num frame)
    (Ok (Some (spinning_kernel k (tables u) (gpu_base u) (laser_num frame) (distance_unit frame)))) (gpu_base u) frame;
  Ok (r, set_gpu_base g u, f).

Definition Gpu1_4_ComputeXYZI := spinning_ComputeXYZI Gpu1_4.
Definition Gpu3_1_ComputeXYZI := spinning_ComputeXYZI Gpu3_1.
Definition Gpu3_2_ComputeXYZI := spinning_ComputeXYZI Gpu3_2.
Definition Gpu6_1_ComputeXYZI := spinning_ComputeXYZI Gpu6_1.
Definition GpuP40_ComputeXYZI := spinning_ComputeXYZI GpuP40.
Definition GpuP64_ComputeXYZI := spinning_ComputeXYZI GpuP64.

End Kernel.

(** ** Lemmas: the correction file *)

(** What was copied out of a list is what the list holds. *)
Lemma copy_list_inv n l vs : copy_list (Z.of_nat n) l = Ok vs ->
  length vs = n /\ forall i, (i < n)%nat -> exists v, vs !! i = Some v /\ dev_read l (Z.of_nat i) = Ok v.
Proof.
  revert vs. induction n as [|n IH]; intros vs.
  - intros [= <-]. split; [done|lia].
  - rewrite Nat2Z.inj_succ, <-Z.add_1_r, copy_list_snoc by lia. intros H. inv_ok.
    destruct (IH _ eq_refl) as [Hl Hv]. unfold f64, f32 in *. rewrite length_app, Hl. split; [cbn; lia|].
    intros i Hi. destruct (Nat.eq_dec i n) as [->|].
    + exists a1. rewrite lookup_app_r by (rewrite Hl; lia). rewrite Hl, Nat.sub_diag. split; [done|].
      unfold dev_read. by rewrite E0.
    + destruct (Hv i ltac:(lia)) as (v & Ev & Er). exists v. by rewrite lookup_app_l by (rewrite Hl; lia).
Qed.

Lemma correction_rows_count rows st : 0 <= st.1 -> 0 <= (foldl correction_step st rows).1.
Proof.
  revert st. induction rows as [|x rows IH]; intros [m [e a]] Hm; [done|]. apply IH. cbn [fst] in Hm. unfold correction_step.
  destruct (parse_row x) as [[[id e'] a']|]; [|done]. cbv zeta.
  destruct (_ || _); [cbn [fst]; lia|]. destruct (negb _); cbn [fst]; lia.
Qed.

(** The rows both loaders read are the same: a file that gives the other decoders
    their two tables gives the device the same angles, laser by laser. *)
Theorem gpu_text_same_angles {P} cu block s (u : ParserGpu P Angles) (p : GeneralParser) r p' :
  (forall i, call_ok cu i = true) -> corrections_loaded_ u = false -> c_string block = Ok s ->
  GeneralParser.LoadCorrectionString s p = Ok (r, p') ->
  exists u', LoadCorrectionString_text cu block u = Ok (0, u') /\ corrections_loaded_ u' = true /\ gpu_base u' = gpu_base u /\
    length (elevation_correction_ p') = length (azimuth_collection_ p') /\
    forall i, (i < length (elevation_correction_ p'))%nat ->
      (exists v, elevation_correction_ p' !! i = Some v /\ dev_read (channel_elevations_cu_ (tables u')) (Z.of_nat i) = Ok v) /\
      (exists v, azimuth_collection_ p' !! i = Some v /\ dev_read (channel_azimuths_cu_ (tables u')) (Z.of_nat i) = Ok v).
Proof.
  intros Hc Hl Hs Hp. unfold LoadCorrectionString_text. rewrite Hl, Hs. cbn [mbind result_bind].
  unfold GeneralParser.LoadCorrectionString in Hp. unfold text_rows. destruct (tokens comma _) as [|t ts]; [done|].
  cbn [mbind result_bind]. set (rows := if _ || _ then _ else _) in *. inv_ok. unfold load_rows in E.
  destruct (foldl correction_step _ rows) as [n [el az]] eqn:Ef. inv_ok.
  assert (0 <= n) as Hn by (pose proof (correction_rows_count rows (0, (unset_list, unset_list)) ltac:(done)) as H; by rewrite Ef in H).
  rewrite <-(Z2Nat.id n) in E0, E1 by done. apply copy_list_inv in E0 as [Hle He]. apply copy_list_inv in E1 as [Hla Ha].
  assert (CUDAChecks cu 4 = Ok tt) as ->.
  { unfold CUDAChecks, CUDACheck. cbn. by rewrite !Hc. }
  cbn [mbind result_bind]. eexists. split; [done|]. cbn. split; [done|]. split; [done|]. split; [by rewrite Hle, Hla|].
  rewrite Hle. intros i Hi. split; [by apply He|by apply Ha].
Qed.

(** ** Lemmas: the points *)

Section Agreement.
Context {P : Type} {PT : PointType P} {L : PointLaws P}.
Variables (s32 c32 at32 as32 : f32 -> f32).

(** The decoder of [Spinning.v] for the same lidar. *)
Definition gpu_of (k : spinning) : gpu_spinning :=
  match k with P40 => GpuP40 | P64 => GpuP64 | QT64 => Gpu3_1 | XT32 => Gpu6_1 end.

(** The angles of the channels are set. *)
Definition angles_set (lasers : Z) (c : Angles) : Prop := forall i, 0 <= i < lasers ->
  is_ok (dev_read (channel_azimuths_cu_ c) i) = true /\ is_ok (dev_read (channel_elevations_cu_ c) i) = true.

(** The spot correction is not made, or finds its table. *)
Definition spot_ready (k : gpu_spinning) (g : GeneralParserGpu P) (c : Angles) : Prop :=
  k = Gpu6_1 -> forall theta rho, is_ok (spot_angle (xt_spot_correction g) (spot_correction_angle_cu_ c) theta rho) = true.

Lemma spot_off k (g : GeneralParserGpu P) c : xt_spot_correction g = false -> spot_ready k g c.
Proof. intros H _ theta rho. unfold spot_angle. by rewrite H. Qed.

(** A thread whose point was decoded writes it. *)
Lemma spinning_kernel_total k c g lasers unit_ pd ts p ch i old d t :
  0 < lasers -> 0 <= ch -> angles_set lasers c -> spot_ready k g c ->
  array_at kMaxPointsNumPerFrame i pd = Ok d -> array_at kMaxPacketNumPerFrame p ts = Ok t ->
  is_ok (spinning_kernel s32 c32 at32 as32 k c g lasers unit_ pd ts p ch i old) = true.
Proof.
  intros Hl Hc Ha Hs Hd Ht. unfold spinning_kernel, channel_angle. rewrite Hd. cbn [mbind result_bind].
  destruct (Ha (Z.rem ch lasers)) as [H1 H2]; [by apply Z.rem_bound_pos|].
  destruct (dev_read (channel_azimuths_cu_ c) _); [|done]. cbn [mbind result_bind].
  destruct (dev_read (channel_elevations_cu_ c) _); [|done]. cbn [mbind result_bind].
  destruct (optical_angles _ _ _ _ _ _ _ _ _) as [th ph].
  destruct k; cbn [mbind result_bind]; rewrite ?Ht; try done.
  specialize (Hs eq_refl th (point_distance d unit_)). by destruct (spot_angle _ _ _ _).
Qed.

(** What it writes. *)
Lemma spinning_kernel_attributes k c g lasers unit_ :
  stamps (copies_confidence k) (fun ch _ => Ok (Z.rem ch lasers)) (spinning_kernel s32 c32 at32 as32 k c g lasers unit_).
Proof.
  intros pd ts p ch i old x. unfold spinning_kernel. rewrite bind_ok. intros (d & Hd & H). rewrite bind_ok in H.
  destruct H as (th & _ & H). rewrite bind_ok in H. destruct H as (ph & _ & H).
  destruct (optical_angles _ _ _ _ _ _ _ _ _) as [th' ph'].
  rewrite bind_ok in H. destruct H as (th2 & _ & H). rewrite bind_ok in H. destruct H as (t & Ht & H). apply (inj Ok) in H as <-.
  exists d, t, (Z.rem ch lasers). eexists. split; [done|]. split; [done|]. split; [done|]. split; [reflexivity|].
  apply store_point_attributes.
Qed.

(** What the other decoders write. *)
Lemma spinning_point_attributes k sinT cosT u (frame : LidarDecodedFrame P) n i j (old : option P) pt : fov_start frame = -1 ->
  Spinning.compute_point k sinT cosT s32 c32 at32 as32 u frame n i j old = Ok pt ->
  exists d t, array_at kMaxPointsNumPerFrame j (pointData frame) = Ok d /\
    array_at kMaxPacketNumPerFrame n (sensor_timestamp frame) = Ok t /\
    same_attributes pt (stamped (copies_confidence (gpu_of k)) i t d (default zero_point old)).
Proof.
  intros Hf. unfold Spinning.compute_point. rewrite bind_ok. intros (d & Hd & H). cbv zeta in H. rewrite bind_ok in H.
  destruct H as (Az & _ & H). rewrite bind_ok in H. destruct H as ([[az el] dist] & _ & H).
  apply place_point_attributes in H as (t & Ht & H); [|unfold outside_fov; by rewrite Hf]. exists d, t.
  split; [done|]. split; [done|]. by destruct k.
Qed.

End Agreement.

(** ** Theorems *)

Section Theorems.
Context {P : Type} {PT : PointType P} {L : PointLaws P}.
Variables (sinT cosT : Z -> f32) (s32 c32 at32 as32 : f32 -> f32).

(** A frame on a device that works: the answer is 0, every point is written, each
    with the members of its own decoded datum and of its own packet, and the rest of
    the frame is as it was. *)
Theorem gpu_spinning_points k cu (u : ParserGpu P Angles) frame :
  let per := block_num frame * laser_num frame in
  ready cu per frame (gpu_base u) -> corrections_loaded_ u = true -> 0 < laser_num frame ->
  angles_set (laser_num frame) (tables u) -> spot_ready k (gpu_base u) (tables u) -> decoded_frame per frame ->
  exists u' f', spinning_ComputeXYZI s32 c32 at32 as32 k cu u frame = Ok (0, u', f') /\ f' = set_points (points f') frame /\
    tables u' = tables u /\ corrections_loaded_ u' = true /\
    (forall p c, 0 <= p < packet_num frame -> 0 <= c < per -> let i := p * per + c in
       exists d t pt, array_at kMaxPointsNumPerFrame i (pointData frame) = Ok d /\
         array_at kMaxPacketNumPerFrame p (sensor_timestamp frame) = Ok t /\ points f' !! i = Some pt /\
         same_attributes pt (stamped (copies_confidence k) (Z.rem c (laser_num frame)) t d
                               (default zero_point (gpuPtr (frame_ (gpu_base u)) !! i)))) /\
    (forall i, ~ (0 <= i < packet_num frame * per) -> points f' !! i = points frame !! i).
Proof.
  intros per R Hl Hlas Ha Hs Hd. unfold spinning_ComputeXYZI. rewrite Hl. fold per.
  set (body := spinning_kernel _ _ _ _ _ _ _ _ _). pose proof R as [_ _ _ Hper [_ Hpk] Hpt _ _].
  destruct (gpu_compute_points cu per frame (gpu_base u) R body) as (g' & f' & -> & Hf & Hin & Hout).
  { intros p c Hp Hc. destruct (decoded_frame_at per frame p c Hd Hpk Hpt Hp Hc) as (d & t & Ed & Et).
    apply (spinning_kernel_total s32 c32 at32 as32 _ _ _ _ _ _ _ _ _ _ _ d t); [done|lia|done|done| |].
    - by rewrite sent_data_array_at.
    - by rewrite sent_times_array_at. }
  cbn [mbind result_bind]. eexists _, f'. split; [done|]. split; [done|]. split; [done|]. split; [done|]. split.
  - intros p c Hp Hc.
    destruct (computed_stamps _ _ _ _ g' f' _ _ (spinning_kernel_attributes _ _ _ _ _ _ _ _ _) (conj Hf (conj Hin Hout)) p c Hp Hc)
      as (d & t & ring & pt & Ed & Et & Er & Ept & Hsame). apply (inj Ok) in Er as <-. by exists d, t, pt.
  - intros i Hi. by apply Hout.
Qed.


End Theorems.

(** ** Witnesses *)

Definition demo_angles : ParserGpu LidarPointXYZI Angles :=
  mk_parser_gpu demo_gpu true (mk_angles [Some f_zero; Some f_zero] [Some f_zero; Some f_zero] None).

Lemma demo_angles_set : angles_set 2 (tables demo_angles).
Proof. intros i Hi. assert (i = 0 \/ i = 1) as [-> | ->] by lia; done. Qed.

Lemma gpu_spinning_points_witness : exists u' f' pt, GpuP64_ComputeXYZI id id id id working demo_angles demo_gpu_frame = Ok (0, u', f') /\
  points f' !! 1 = Some pt /\ same_attributes pt (stamped false 1 5 (demo_datum 2) zero_point).
Proof.
  destruct (gpu_spinning_points id id id id GpuP64 working demo_angles demo_gpu_frame)
    as (u' & f' & E & _ & _ & _ & Hin & _); [exact demo_gpu_ready|done|done|exact demo_angles_set|done|exact demo_decoded|].
  destruct (Hin 0 1) as (d & t & pt & Ed & Et & Ep & Hs); [vm_compute; split; congruence..|].
  exists u', f', pt. split; [exact E|]. split; [exact Ep|]. vm_compute in Ed, Et. apply (inj Ok) in Ed as <-. apply (inj Ok) in Et as <-.
  exact Hs.
Defined.

Definition demo_spinning : SpinningParser P40 := mk_spinning (demo_general false) "".
Definition demo_cpu := Spinning.ComputeXYZI P40 (fun _ => f_zero) (fun _ => f_zero) id id id id demo_spinning demo_gpu_frame 0.


(** A file of two rows. *)
Definition demo_rows : string :=
  String.append "Channel,Elevation,Azimuth" (String newline (String.append "1,1.5,0.5" (String newline "2,-2,0.25"))).

Lemma gpu_text_same_angles_witness : exists u', 
  Gpu1_4_LoadCorrectionString working (String.append demo_rows (String Ascii.zero EmptyString))
    (mk_parser_gpu demo_gpu false (tables demo_angles)) = Ok (0, u') /\ corrections_loaded_ u' = true /\
  is_ok (dev_read (channel_elevations_cu_ (tables u')) 1) = true.
Proof.
  destruct (GeneralParser.LoadCorrectionString demo_rows (demo_general false)) as [[r p']|] eqn:E; [|vm_compute in E; discriminate E].
  destruct (gpu_text_same_angles (P := LidarPointXYZI) working (String.append demo_rows (String Ascii.zero EmptyString)) demo_rows
    (mk_parser_gpu demo_gpu false (tables demo_angles)) (demo_general false) r p' (fun _ => eq_refl) eq_refl eq_refl E)
    as (u' & Eu & Hl & _ & _ & Hin).
  exists u'. split; [exact Eu|]. split; [exact Hl|]. destruct (Hin 1%nat) as [(v & _ & Hv) _]; [|change (Z.of_nat 1) with 1 in Hv; by rewrite Hv].
  assert (match GeneralParser.LoadCorrectionString demo_rows (demo_general false) with
    Ok (_, p) => length (elevation_correction_ p) | Err _ => 0%nat end = 2%nat) as H by (vm_compute; reflexivity).
  rewrite E in H. unfold f64, f32 in *. rewrite H. lia.
Defined.
