(* ===== verification/GpuEt.v ===== *)
(** * GpuEt: the CUDA decoders of the ET lidars

    UdpParserGpu/src/udp2_4_parser_gpu.cu, udp2_5_parser_gpu.cu and
    udp2_6_parser_gpu.cu with their headers.  The calibration is that of
    EtCorrections.v, sent to the device; the adjustment tables are divided when
    they are loaded, not when they are used.  Nothing includes the files of 2.4 and
    2.6; the copies of 2.4 name a [std::array], which is read as its elements
    here. *)

From Stdlib Require Import SpecFloat.
From S2P Require Import Spinning Prelude Bytes Text Streams Floats LidarTypes GeneralParser Firetimes1_4 Udp1_4 Points.
From S2P Require Import Udp4_3 EtCorrections Udp2_4 Udp2_5 Gpu GpuSpinning.
Local Open Scope Z_scope.

(** [corrections_] with the two members only these decoders use, and the arrays on
    the device, [None] before they are allocated. *)
Record EtGpu : Type := mk_et_gpu {
  corr : ETCorrections;
  azimuth_adjust_f : list (option f32);
  elevation_adjust_f : list (option f32);
  d_azimuths : option (list (option f32));
  d_elevations : option (list (option f32));
  d_azimuths_adjust : option (list (option f32));
  d_elevations_adjust : option (list (option f32));
  d_gamma : option (list (option f32));
  d_elevation_offset_delta : option (list (option f32));
  d_azimuth_offset_delta : option (list (option f32));
}.
Definition EtGpu_new : EtGpu :=
  mk_et_gpu ETCorrections_new (unset ADJUST_MAX) (unset ADJUST_MAX) None None None None None None None.

Definition Gpu2_4_new {P} (cu : Cuda) (junk : Transform) : result (ParserGpu P EtGpu) := ParserGpu_new cu junk EtGpu_new.
Definition Gpu2_5_new {P} (cu : Cuda) (junk : Transform) : result (ParserGpu P EtGpu) := ParserGpu_new cu junk EtGpu_new.
Definition Gpu2_6_new {P} (cu : Cuda) (junk : Transform) : result (ParserGpu P EtGpu) := ParserGpu_new cu junk EtGpu_new.

Definition set_corr (c : ETCorrections) (t : EtGpu) : EtGpu :=
  mk_et_gpu c (azimuth_adjust_f t) (elevation_adjust_f t) (d_azimuths t) (d_elevations t) (d_azimuths_adjust t)
    (d_elevations_adjust t) (d_gamma t) (d_elevation_offset_delta t) (d_azimuth_offset_delta t).

(** The arrays of the channels go to the device. *)
Definition send_channels (t : EtGpu) : EtGpu :=
  mk_et_gpu (corr t) (azimuth_adjust_f t) (elevation_adjust_f t) (Some (et_azimuths (corr t))) (Some (et_elevations (corr t)))
    (d_azimuths_adjust t) (d_elevations_adjust t) (d_gamma t) (d_elevation_offset_delta t) (d_azimuth_offset_delta t).
(** The tables of adjustments, and those that are allocated only. *)
Definition send_adjust (t : EtGpu) : EtGpu :=
  mk_et_gpu (corr t) (azimuth_adjust_f t) (elevation_adjust_f t) (d_azimuths t) (d_elevations t) (Some (azimuth_adjust_f t))
    (Some (elevation_adjust_f t)) (d_gamma t) (d_elevation_offset_delta t) (d_azimuth_offset_delta t).
Definition alloc_adjust (t : EtGpu) : EtGpu :=
  mk_et_gpu (corr t) (azimuth_adjust_f t) (elevation_adjust_f t) (d_azimuths t) (d_elevations t) (Some (unset ADJUST_MAX))
    (Some (unset ADJUST_MAX)) (d_gamma t) (d_elevation_offset_delta t) (d_azimuth_offset_delta t).
(** The angles of the mirrors. *)
Definition send_mirrors (t : EtGpu) : EtGpu :=
  mk_et_gpu (corr t) (azimuth_adjust_f t) (elevation_adjust_f t) (d_azimuths t) (d_elevations t) (d_azimuths_adjust t)
    (d_elevations_adjust t) (Some (gamma_f (corr t))) (Some (elevation_offset_delta_f (corr t)))
    (Some (azimuth_offset_delta_f (corr t))).

(** ** The binary file *)

(** azimuth_adjust_f[i] = 1.f * azimuth_adjust[i] / angle_division, for the elements
    of the file. *)
Definition divide_adjust (v : Z) (h : et_header) (t : EtGpu) : result EtGpu :=
  let c := corr t in
  ia ← of_option Uninitialised (azimuth_adjust_interval c);
  ie ← of_option Uninitialised (elevation_adjust_interval c);
  len ← angle_offset_len v h ia ie;
  let divided l := map (fun x => x ≫= by_division h) (take (Z.to_nat len) l) in
  Ok (mk_et_gpu c (overlay (divided (azimuth_adjust c)) (azimuth_adjust_f t))
        (overlay (divided (elevation_adjust c)) (elevation_adjust_f t)) (d_azimuths t) (d_elevations t)
        (d_azimuths_adjust t) (d_elevations_adjust t) (d_gamma t) (d_elevation_offset_delta t) (d_azimuth_offset_delta t)).

Definition no_intervals (c : ETCorrections) : ETCorrections :=
  mk_et (header_min_version c) (header_angle_division c) (et_min_version c) (gamma_f c) (et_azimuths c) (et_elevations c)
    (azimuth_adjust c) (elevation_adjust c) (azimuth_offset_delta_f c) (elevation_offset_delta_f c) (Some 0) (Some 0).

(** Case 1: behind the elevations the pointer moves on by four bytes a channel, so
    that the checksum is looked for behind its place. *)
Definition load_version_1 (h : et_header) (block : list Z) (t : EtGpu) : result EtGpu :=
  '(p, c) ← load_channels h block (corr t);
  _ ← arr_slice block (p + 2 * h_channels h) 32;
  Ok (set_corr (no_intervals c) t).

(** Cases 2, 3 and 4. *)
Definition load_version_n (v : Z) (h : et_header) (block : list Z) (t : EtGpu) : result EtGpu :=
  '(p, c) ← (if v =? 4 then load_mirrors h block (corr t) else load_channels h block (corr t));
  c ← load_adjust v h block p c;
  divide_adjust v h (set_corr c t).

(** [LoadCorrectionDatData] of 2.5 and 2.6: the versions, whether the version is
    stored, whether version 1 allocates the tables of adjustments. *)
Definition et_LoadDat {P} (versions : list Z) (stores allocs : bool) (cu : Cuda) (block : list Z) (u : ParserGpu P EtGpu)
    : result (Z * ParserGpu P EtGpu) :=
  header ← arr_slice block 0 17;
  d0 ← rd8 header 0; d1 ← rd8 header 1; v ← rd8 header 3;
  if (d0 =? 0xee) && (d1 =? 0xff) && bool_decide (v ∈ versions) then
    h ← read_header v block;
    let t := tables u in
    let t := set_corr (set_et_header v (h_division h) (if stores then Some v else et_min_version (corr t)) (corr t)) t in
    if (ET_MAX_CHANNEL_NUM - 3 <? h_channels h) || (h_division h =? 0) || (8 <? h_mirrors h)
    then Ok (-1, mk_parser_gpu (gpu_base u) (corrections_loaded_ u) t)
    else
      t ← (if v =? 1 then load_version_1 h block t else load_version_n v h block t);
      _ ← CUDAChecks cu (if v =? 1 then if allocs then 6 else 4 else if v =? 4 then 14 else 8);
      let t := send_channels t in
      let t := if v =? 1 then if allocs then alloc_adjust t else t else send_adjust t in
      Ok (0, mk_parser_gpu (gpu_base u) true (if v =? 4 then send_mirrors t else t))
  else Ok (-1, u).

Definition Gpu2_5_LoadCorrectionDatData {P} := et_LoadDat (P := P) [1; 2; 3; 4] true false.
Definition Gpu2_6_LoadCorrectionDatData {P} := et_LoadDat (P := P) [1; 2] false true.

(** That of 2.4 is the one of [Udp2_4Parser], with the copies. *)
Definition Gpu2_4_LoadCorrectionDatData {P} (cu : Cuda) (block : list Z) (u : ParserGpu P EtGpu) : result (Z * ParserGpu P EtGpu) :=
  '(r, c) ← LoadCorrectionDatData 16 [1] false block (corr (tables u));
  let t := set_corr c (tables u) in
  if r =? 0 then _ ← CUDAChecks cu 4; Ok (0, mk_parser_gpu (gpu_base u) true (send_channels t))
  else Ok (r, mk_parser_gpu (gpu_base u) (corrections_loaded_ u) t).

(** ** The text file *)

Definition et_LoadCsv {P} (cu : Cuda) (content : string) (u : ParserGpu P EtGpu) : result (Z * ParserGpu P EtGpu) :=
  c ← LoadCorrectionCsvData content (corr (tables u));
  _ ← CUDAChecks cu 4;
  Ok (0, mk_parser_gpu (gpu_base u) true (send_channels (set_corr c (tables u)))).

Definition Gpu2_5_LoadCorrectionCsvData {P} := et_LoadCsv (P := P).
Definition Gpu2_6_LoadCorrectionCsvData {P} := et_LoadCsv (P := P).

(** The argument is the content of a file, and is taken for the name of one. *)
Definition Gpu2_4_LoadCorrectionCsvData {P} (fs : string -> option string) (cu : Cuda) (correction_string : string)
    (u : ParserGpu P EtGpu) : result (Z * ParserGpu P EtGpu) :=
  match fs correction_string with
  | None => Ok (0, u)
  | Some content =>
      rows ← foldM csv_row [] (drop 1 (tokens newline content));
      let rows := take (Z.to_nat ET_MAX_CHANNEL_NUM) rows in
      let c := corr (tables u) in
      let c := set_angles (overlay (map (fun r => Some r.2) rows) (et_azimuths c))
                 (overlay (map (fun r => Some r.1) rows) (et_elevations c)) (set_et_header 1 1 (et_min_version c) c) in
      _ ← CUDAChecks cu 4;
      Ok (0, mk_parser_gpu (gpu_base u) true (send_channels (set_corr c (tables u))))
  end.

(** A binary file, or else a text. *)
Definition et_LoadString {U} (dat : list Z -> U -> result (Z * U)) (csv : string -> U -> result (Z * U)) (block : string) (u : U)
    : result (Z * U) :=
  '(r, u) ← dat (bytes_of block) u;
  if r =? 0 then Ok (0, u) else s ← c_string block; csv s u.

Definition Gpu2_4_LoadCorrectionString {P} fs (cu : Cuda) :=
  et_LoadString (Gpu2_4_LoadCorrectionDatData (P := P) cu) (Gpu2_4_LoadCorrectionCsvData fs cu).
Definition Gpu2_5_LoadCorrectionString {P} (cu : Cuda) :=
  et_LoadString (Gpu2_5_LoadCorrectionDatData (P := P) cu) (Gpu2_5_LoadCorrectionCsvData cu).
Definition Gpu2_6_LoadCorrectionString {P} (cu : Cuda) :=
  et_LoadString (Gpu2_6_LoadCorrectionDatData (P := P) cu) (Gpu2_6_LoadCorrectionCsvData cu).

Definition Gpu2_4_LoadCorrectionFile {P} (cu : Cuda) (fs : string -> option string) :=
  Gpu_LoadCorrectionFile (Gpu2_4_LoadCorrectionString (P := P) fs cu) fs.
Definition Gpu2_5_LoadCorrectionFile {P} (cu : Cuda) := Gpu_LoadCorrectionFile (Gpu2_5_LoadCorrectionString (P := P) cu).
Definition Gpu2_6_LoadCorrectionFile {P} (cu : Cuda) := Gpu_LoadCorrectionFile (Gpu2_6_LoadCorrectionString (P := P) cu).

(** ** The kernels *)

(** The weighted mean of two values, and the dimensions of a table of adjustments. *)
Definition between (k x y : f32) : f32 := add32 (mul32 k x) (mul32 (sub32 (of_Z32 1) k) y).

Record grid : Type := mk_grid { g_da : f32; g_de : f32; azimuth_offset_num : Z; elevation_offset_num : Z; elevation_fov : f32 }.

Definition adjust_grid (elevation_fov adjust_interval_resolution : f32) (ia ie : Z) : result grid :=
  let da := mul32 (of_Z32 ia) adjust_interval_resolution in
  let de := mul32 (of_Z32 ie) adjust_interval_resolution in
  na ← to_int (add32 (div32 (of_Z32 120) da) (of_Z32 1));
  ne ← to_int (add32 (div32 elevation_fov de) (of_Z32 1));
  Ok (mk_grid da de na ne elevation_fov).

Definition half_fov (fov : f32) : f32 := div32 fov (of_Z32 2).
Definition offset_index (x fov d : f32) : result Z := to_int (div32 (add32 x (half_fov fov)) d).
Definition coefficient (i : Z) (d x fov : f32) : f32 :=
  div32 (sub32 (sub32 (mul32 (of_Z32 (i + 1)) d) x) (half_fov fov)) d.

(** The value added to an angle; outside the table nothing is added. *)
Definition table_offset (g : grid) (table : option (list (option f32))) (turn_index : Z) (azi_a elv_h : f32) (i1 i2 : Z)
    : result (option f32) :=
  if (0 <=? i1) && (i1 <? azimuth_offset_num g - 1) && (0 <=? i2) && (i2 <? elevation_offset_num g - 1) then
    let coefficient1 := coefficient i1 (g_da g) azi_a (of_Z32 120) in
    let coefficient2 := coefficient i2 (g_de g) elv_h (elevation_fov g) in
    let mr_offset := azimuth_offset_num g * elevation_offset_num g * turn_index in
    let index1 := i1 + i2 * azimuth_offset_num g + mr_offset in
    let index2 := i1 + (i2 + 1) * azimuth_offset_num g + mr_offset in
    table ← of_option Uninitialised table;
    a ← dev_read table index1; b ← dev_read table (index1 + 1);
    d ← dev_read table index2; e ← dev_read table (index2 + 1);
    Ok (Some (between coefficient2 (between coefficient1 a b) (between coefficient1 d e)))
  else Ok None.

Definition plus (x : f32) (o : option f32) : f32 := match o with Some y => add32 x y | None => x end.

(** (azi_h, elv_h) behind the adjustments: the azimuth first, then the elevation at
    the new azimuth; the row of the table is that of the elevation before. *)
Definition gpu_adjusted (elevation_fov adjust_interval_resolution : f32) (azimuth_adjust elevation_adjust : option (list (option f32)))
    (ia ie turn_index : Z) (angles : f32 * f32) : result (f32 * f32) :=
  let '(azi_h, elv_h) := angles in
  g ← adjust_grid elevation_fov adjust_interval_resolution ia ie;
  let azi_a := sub32 azi_h (of_Z32 90) in
  i1 ← offset_index azi_a (of_Z32 120) (g_da g);
  i2 ← offset_index elv_h elevation_fov (g_de g);
  a ← table_offset g azimuth_adjust turn_index azi_a elv_h i1 i2;
  let azi_h := plus azi_h a in
  let azi_a := sub32 azi_h (of_Z32 90) in
  i1 ← offset_index azi_a (of_Z32 120) (g_da g);
  e ← table_offset g elevation_adjust turn_index azi_a elv_h i1 i2;
  Ok (azi_h, plus elv_h e).

Section Kernel.
Context {P : Type} {PT : PointType P}.
Variables (sin32 cos32 : f32 -> f32) (sin64 cos64 tan64 : f64 -> f64) (tan32 : f32 -> f32).

Definition dev_array (a : option (list (option f32))) (i : Z) : result f32 := a ← of_option Uninitialised a; dev_read a i.

(** The end of the kernels, in [double]. *)
Definition et_xyz (d : PointDecodeData) (unit_ : f64) (angles : f32 * f32) : f32 * f32 * f32 :=
  let '(azi_h, elv_h) := angles in
  let rho := mul64 (of_Z64 (pd_distances d)) unit_ in
  let z := to32 (mul64 rho (sin64 (rad elv_h))) in
  let r := mul64 rho (cos64 (rad elv_h)) in
  (to32 (mul64 r (sin64 (rad azi_h))), to32 (mul64 r (cos64 (rad azi_h))), z).

(** What the kernels have in common: [channel] is the channel of the point, [gamma]
    its gamma, [adjust] what becomes of the angles. *)
Definition et_kernel (conf : bool) (t : EtGpu) (tf : Transform) (unit_ : f64)
    (channel : Z -> PointDecodeData -> result Z) (gamma : PointDecodeData -> result f32)
    (adjust : PointDecodeData -> f32 * f32 -> result (f32 * f32)) : kernel P :=
  fun point_data sensor_timestamp iscan ichannel point_index old =>
    apha ← dev_array (d_elevations t) 0;
    beta ← dev_array (d_elevations t) 1;
    d ← array_at kMaxPointsNumPerFrame point_index point_data;
    gamma ← gamma d;
    ch ← channel ichannel d;
    phi ← dev_array (d_azimuths t) (ch + 3);
    theta ← dev_array (d_elevations t) (ch + 3);
    angles ← adjust d (et_angles sin64 cos64 tan64 tan32 apha beta gamma phi theta (pd_azimuth d) (pd_elevation d));
    ts ← array_at kMaxPacketNumPerFrame iscan sensor_timestamp;
    Ok (Some (store_point sin32 cos32 tf conf ch ts d (et_xyz d unit_ angles) old)).

(** The member of the point, for the channel. *)
Definition by_chn_index (ichannel : Z) (d : PointDecodeData) : result Z := of_option Uninitialised (pd_chn_index d).
Definition common_gamma (t : EtGpu) (d : PointDecodeData) : result f32 := dev_array (d_elevations t) 2.
Definition unadjusted (d : PointDecodeData) (a : f32 * f32) : result (f32 * f32) := Ok a.

Definition compute_xyzs_2_4_impl (t : EtGpu) (tf : Transform) (lasernum : Z) (unit_ : f64) : kernel P :=
  et_kernel true t tf unit_ (by_laser lasernum) (common_gamma t) unadjusted.

Definition compute_xyzs_2_5_impl_v1 (t : EtGpu) (tf : Transform) (lasernum : Z) (unit_ : f64) : kernel P :=
  et_kernel false t tf unit_ (by_laser lasernum) (common_gamma t) unadjusted.

Definition compute_xyzs_2_5_impl_v2_v3 (t : EtGpu) (ia ie : Z) (tf : Transform) (lasernum : Z) (unit_ : f64) : kernel P :=
  et_kernel false t tf unit_ (by_laser lasernum) (common_gamma t)
    (fun d => gpu_adjusted (of_Z32 25) (lit32 5 1) (d_azimuths_adjust t) (d_elevations_adjust t) ia ie 0).

(** The upper half of the mirror index numbers the mirror, the lower one the turn. *)
Definition mirror_i (d : PointDecodeData) : result Z := m ← of_option Uninitialised (pd_mirror_index d); Ok (Z.quot m 0x10).
Definition turn_index_of (d : PointDecodeData) : result Z := m ← of_option Uninitialised (pd_mirror_index d); Ok (Z.land m 0x0F).

Definition compute_xyzs_2_5_impl_v4 (t : EtGpu) (ia ie : Z) (tf : Transform) (lasernum : Z) (unit_ : f64) : kernel P :=
  et_kernel false t tf unit_ (by_laser lasernum) (fun d => m ← mirror_i d; dev_array (d_gamma t) m)
    (fun d angles =>
       turn ← turn_index_of d;
       '(azi_h, elv_h) ← gpu_adjusted (lit32 32 1) (lit32 1 1) (d_azimuths_adjust t) (d_elevations_adjust t) ia ie turn angles;
       m ← mirror_i d;
       a ← dev_array (d_azimuth_offset_delta t) m;
       e ← dev_array (d_elevation_offset_delta t) m;
       Ok (add32 azi_h a, add32 elv_h e)).

Definition compute_xyzs_2_6_impl (t : EtGpu) (ia ie : Z) (tf : Transform) (unit_ : f64) : kernel P :=
  et_kernel false t tf unit_ by_chn_index (common_gamma t)
    (fun d => if negb (ia =? 0) && negb (ie =? 0)
              then gpu_adjusted (of_Z32 25) (lit32 5 1) (d_azimuths_adjust t) (d_elevations_adjust t) ia ie 0 else unadjusted d).

(** ** [ComputeXYZI] *)

Definition et_ComputeXYZI (cu : Cuda) (per : Z) (k : result (option (kernel P))) (u : ParserGpu P EtGpu)
    (frame : LidarDecodedFrame P) : result (Z * ParserGpu P EtGpu * LidarDecodedFrame P) :=
  '(r, g, f) ← Gpu_ComputeXYZI cu (corrections_loaded_ u) per k (gpu_base u) frame;
  Ok (r, set_gpu_base g u, f).

Definition Gpu2_4_ComputeXYZI (cu : Cuda) (u : ParserGpu P EtGpu) (frame : LidarDecodedFrame P) :=
  et_ComputeXYZI cu (block_num frame * laser_num frame)
    (Ok (Some (compute_xyzs_2_4_impl (tables u) (g_transform_ (gpu_base u)) (laser_num frame) (distance_unit frame)))) u frame.

(** The intervals, which are arguments of the launch. *)
Definition intervals (t : EtGpu) : result (Z * Z) :=
  ia ← of_option Uninitialised (azimuth_adjust_interval (corr t));
  ie ← of_option Uninitialised (elevation_adjust_interval (corr t));
  Ok (ia, ie).

(** No kernel is launched for another version than those of the files. *)
Definition kernel_2_5 (t : EtGpu) (tf : Transform) (frame : LidarDecodedFrame P) : result (option (kernel P)) :=
  v ← of_option Uninitialised (et_min_version (corr t));
  if v =? 1 then Ok (Some (compute_xyzs_2_5_impl_v1 t tf (laser_num frame) (distance_unit frame)))
  else if (v =? 2) || (v =? 3) then
    '(ia, ie) ← intervals t; Ok (Some (compute_xyzs_2_5_impl_v2_v3 t ia ie tf (laser_num frame) (distance_unit frame)))
  else if v =? 4 then
    '(ia, ie) ← intervals t; Ok (Some (compute_xyzs_2_5_impl_v4 t ia ie tf (laser_num frame) (distance_unit frame)))
  else Ok None.

Definition Gpu2_5_ComputeXYZI (cu : Cuda) (u : ParserGpu P EtGpu) (frame : LidarDecodedFrame P) :=
  et_ComputeXYZI cu (block_num frame * laser_num frame) (kernel_2_5 (tables u) (g_transform_ (gpu_base u)) frame) u frame.

Definition Gpu2_6_ComputeXYZI (cu : Cuda) (u : ParserGpu P EtGpu) (frame : LidarDecodedFrame P) :=
  et_ComputeXYZI cu (per_points_num frame)
    ('(ia, ie) ← intervals (tables u);
     Ok (Some (compute_xyzs_2_6_impl (tables u) ia ie (g_transform_ (gpu_base u)) (distance_unit frame)))) u frame.

End Kernel.

(** ** Lemmas: the adjustments *)

(** [f] is the table of raw values divided. *)
Definition table_divided (division : Z) (raw : list (option Z)) (f : list (option f32)) : Prop :=
  forall i x, fetch raw i = Ok x -> dev_read f i = Ok (div32 (of_Z32 x) (of_Z32 division)).

(** The mean of four values, and of four values divided. *)
Definition mean4 (c1 c2 : f32) (v : Z -> f32) (w x y z : Z) : f32 := between c2 (between c1 (v w) (v x)) (between c1 (v y) (v z)).

(** Both kinds of decoders use the same four values with the same weights; the one
    divides the mean, the other takes the mean of the values divided. *)
Lemma offset_same_neighbours fov res (c : ETCorrections) raw f turn azi ele a ia ie g i1 i2 :
  azimuth_adjust_interval c = Some ia -> elevation_adjust_interval c = Some ie ->
  adjust_grid fov res ia ie = Ok g -> offset_index azi (of_Z32 120) (g_da g) = Ok i1 -> offset_index ele fov (g_de g) = Ok i2 ->
  table_divided (header_angle_division c) raw f ->
  get_adjust fov res raw c azi ele turn = Ok a ->
  let division := of_Z32 (header_angle_division c) in
  (a = f_zero /\ table_offset g (Some f) turn azi ele i1 i2 = Ok None) \/
  exists c1 c2 w x y z, a = div32 (mean4 c1 c2 of_Z32 w x y z) division /\
    table_offset g (Some f) turn azi ele i1 i2 = Ok (Some (mean4 c1 c2 (fun v => div32 (of_Z32 v) division) w x y z)).
Proof.
  intros Hia Hie Hg Hi1 Hi2 Hdiv H division. unfold adjust_grid in Hg. unfold get_adjust in H. rewrite Hia, Hie in H.
  cbn [of_option mbind result_bind] in H. destruct (to_int (add32 (div32 (of_Z32 120) _) _)) as [na|]; [|done].
  cbn [mbind result_bind] in H, Hg. destruct (to_int (add32 (div32 fov _) _)) as [ne|]; [|done].
  cbn [mbind result_bind] in H, Hg. apply (inj Ok) in Hg as <-. unfold offset_index, half_fov in Hi1, Hi2. cbn [g_da g_de] in Hi1, Hi2.
  rewrite Hi1, Hi2 in H. cbn [mbind result_bind] in H.
  unfold table_offset. cbn [azimuth_offset_num elevation_offset_num elevation_fov g_da g_de of_option mbind result_bind].
  destruct (Z.leb_spec (na - 1) i1), (Z.leb_spec (ne - 1) i2), (Z.ltb_spec i1 0), (Z.ltb_spec i2 0), (Z.leb_spec 0 i1), (Z.leb_spec 0 i2),
    (Z.ltb_spec i1 (na - 1)), (Z.ltb_spec i2 (ne - 1)); try lia; cbn [orb andb] in H |- *;
    try (left; split; [by apply (inj Ok) in H as <-|done]).
  right. do 4 (rewrite bind_ok in H; let x := fresh "v" in let E := fresh "Ev" in destruct H as (x & E & H); apply Hdiv in E).
  apply (inj Ok) in H as <-. eexists _, _, _, _, _, _. split; [reflexivity|]. rewrite Ev. cbn [mbind result_bind].
  rewrite Ev0. cbn [mbind result_bind]. rewrite Ev1. cbn [mbind result_bind]. rewrite Ev2. reflexivity.
Qed.

(** ** Lemmas: the tables of a file *)

Lemma load_adjust_inv v h block p c c' : load_adjust v h block p c = Ok c' ->
  exists ia ie len aa ea, azimuth_adjust_interval c' = Some ia /\ elevation_adjust_interval c' = Some ie /\
    angle_offset_len v h ia ie = Ok len /\ length aa = Z.to_nat len /\ length ea = Z.to_nat len /\
    azimuth_adjust c' = overlay (map (Some ∘ i16) aa) (azimuth_adjust c) /\
    elevation_adjust c' = overlay (map (Some ∘ i16) ea) (elevation_adjust c) /\
    header_angle_division c' = header_angle_division c /\ et_min_version c' = et_min_version c.
Proof.
  unfold load_adjust. intros H. inv_ok. destruct (Z.leb_spec 0 a1); [|done]. cbn [andb] in H.
  destruct (a1 <=? ADJUST_MAX); [|done]. inv_ok.
  apply read_words_length in E2, E3; [|done..]. exists a, a0, a1, a2, a3. do 3 (split; [done|]). split; [lia|]. split; [lia|]. done.
Qed.

(** The values of a table that was empty, divided. *)
Lemma fresh_table_divided h (words : list Z) n : length words = n ->
  table_divided (h_division h) (overlay (map (Some ∘ i16) words) (unset ADJUST_MAX))
    (overlay (map (fun x => x ≫= by_division h) (take n (overlay (map (Some ∘ i16) words) (unset ADJUST_MAX)))) (unset ADJUST_MAX)).
Proof.
  intros Hn i x. unfold fetch, dev_read. rewrite !bind_ok. intros (o & Ho & Hx). destruct o as [y|]; [|done].
  apply (inj Ok) in Hx as ->. apply arr_get_ok in Ho as [Hi Ho]. unfold overlay in *.
  rewrite !length_map in Ho |- *.
  assert (take n (map (Some ∘ i16) words ++ drop (length words) (unset ADJUST_MAX)) = map (Some ∘ i16) words) as ->.
  { rewrite <-Hn. rewrite <-(length_map (Some ∘ i16) words) at 1. apply take_app_length. }
  rewrite !length_map. assert (Z.to_nat i < length words)%nat as Hlt.
  { apply lookup_lt_Some in Ho as Hl. destruct (decide (Z.to_nat i < length words)%nat); [done|].
    rewrite lookup_app_r in Ho by (rewrite length_map; lia). rewrite lookup_drop in Ho.
    unfold unset in Ho. by apply lookup_replicate in Ho as [[=] _]. }
  rewrite lookup_app_l in Ho by by rewrite length_map. rewrite list_lookup_fmap in Ho.
  destruct (words !! Z.to_nat i) as [w|] eqn:Ew; [|done]. cbn in Ho. injection Ho as <-.
  exists (by_division h (i16 w)). split; [|done]. apply arr_get_ok. split; [done|].
  rewrite lookup_app_l by by rewrite !length_map. by rewrite !list_lookup_fmap, Ew.
Qed.

(** What the tables are after a file of version 2, 3 or 4, from an object that has
    loaded nothing. *)
Lemma load_version_n_tables v h block c t' :
  azimuth_adjust c = unset ADJUST_MAX -> elevation_adjust c = unset ADJUST_MAX -> header_angle_division c = h_division h ->
  load_version_n v h block (set_corr c EtGpu_new) = Ok t' ->
  ('(p, c) ← (if v =? 4 then load_mirrors h block c else load_channels h block c); load_adjust v h block p c) = Ok (corr t') /\
  header_angle_division (corr t') = h_division h /\
  table_divided (h_division h) (azimuth_adjust (corr t')) (azimuth_adjust_f t') /\
  table_divided (h_division h) (elevation_adjust (corr t')) (elevation_adjust_f t').
Proof.
  intros Ha He Hd. unfold load_version_n. cbn [corr set_corr]. rewrite bind_ok. intros ([p c1] & E1 & H). rewrite bind_ok in H.
  destruct H as (c2 & E2 & H). unfold divide_adjust in H. cbn [corr set_corr azimuth_adjust_f elevation_adjust_f] in H.
  assert (azimuth_adjust c1 = azimuth_adjust c /\ elevation_adjust c1 = elevation_adjust c /\
    header_angle_division c1 = header_angle_division c) as (Ha1 & He1 & Hd1).
  { destruct (v =? 4); [unfold load_mirrors in E1|unfold load_channels in E1]; inv_ok; done. }
  destruct (load_adjust_inv _ _ _ _ _ _ E2) as (ia & ie & len & aa & ea & Eia & Eie & El & Hla & Hle & Eaa & Eea & Ed & _).
  rewrite Eia, Eie in H. cbn [of_option mbind result_bind] in H. rewrite El in H. cbn [mbind result_bind] in H.
  apply (inj Ok) in H as <-. cbn [corr azimuth_adjust_f elevation_adjust_f]. rewrite E1. cbn [mbind result_bind].
  split; [done|]. split; [congruence|]. rewrite Eaa, Eea, Ha1, He1, Ha, He.
  split; by apply fresh_table_divided.
Qed.

(** ** Theorems *)

(** A table of adjustments on the device answers as the one of [Udp2_5Parser]: the
    same values of the table with the same weights. *)
Definition offsets_agree (c : ETCorrections) (raw : list (option Z)) (table : option (list (option f32))) : Prop :=
  forall fov res azi ele turn a ia ie g i1 i2,
    azimuth_adjust_interval c = Some ia -> elevation_adjust_interval c = Some ie ->
    adjust_grid fov res ia ie = Ok g -> offset_index azi (of_Z32 120) (g_da g) = Ok i1 -> offset_index ele fov (g_de g) = Ok i2 ->
    get_adjust fov res raw c azi ele turn = Ok a ->
    let division := of_Z32 (header_angle_division c) in
    (a = f_zero /\ table_offset g table turn azi ele i1 i2 = Ok None) \/
    exists c1 c2 w x y z, a = div32 (mean4 c1 c2 of_Z32 w x y z) division /\
      table_offset g table turn azi ele i1 i2 = Ok (Some (mean4 c1 c2 (fun v => div32 (of_Z32 v) division) w x y z)).

(** C17: a binary file of version 2, 3 or 4 gives the decoder of the device the
    calibration it gives [Udp2_5Parser]: the same numbers for the channels and the
    mirrors, and adjustments from the same values of the tables; they differ in
    where the division rounds only. *)
Theorem gpu_et_same_calibration {P} cu block (u u' : ParserGpu P EtGpu) :
  tables u = EtGpu_new -> Gpu2_5_LoadCorrectionDatData cu block u = Ok (0, u') ->
  let t := tables u' in let c := corr t in
  et_min_version c <> Some 1 ->
  LoadCorrectionDatData 17 [1; 2; 3; 4] true block ETCorrections_new = Ok (0, c) /\
  corrections_loaded_ u' = true /\ d_azimuths t = Some (et_azimuths c) /\ d_elevations t = Some (et_elevations c) /\
  (et_min_version c = Some 4 -> d_gamma t = Some (gamma_f c) /\ d_azimuth_offset_delta t = Some (azimuth_offset_delta_f c) /\
     d_elevation_offset_delta t = Some (elevation_offset_delta_f c)) /\
  offsets_agree c (azimuth_adjust c) (d_azimuths_adjust t) /\ offsets_agree c (elevation_adjust c) (d_elevations_adjust t).
Proof.
  intros Hu H t c Hv. unfold Gpu2_5_LoadCorrectionDatData, et_LoadDat in H. unfold LoadCorrectionDatData.
  rewrite bind_ok in H. destruct H as (hd & -> & H). cbn [mbind result_bind].
  rewrite bind_ok in H. destruct H as (d0 & -> & H). rewrite bind_ok in H. destruct H as (d1 & -> & H).
  rewrite bind_ok in H. destruct H as (v & Ev & H). rewrite Ev. cbn [mbind result_bind].
  destruct ((d0 =? 0xee) && (d1 =? 0xff) && bool_decide (v ∈ [1; 2; 3; 4])) eqn:Eb; [|done].
  rewrite bind_ok in H. destruct H as (h & -> & H). cbn [mbind result_bind]. cbv zeta in H |- *. rewrite Hu in H.
  destruct (_ || _ || _); [done|]. rewrite bind_ok in H. destruct H as (t1 & Et & H). rewrite bind_ok in H. destruct H as ([] & _ & H).
  apply (inj Ok) in H. injection H as <-. unfold t in *. cbn [tables] in *. destruct (Z.eqb_spec v 1) as [->|Hv1].
  - destruct Hv. unfold c. cbn [Z.eqb]. unfold load_version_1 in Et. inv_ok. destruct a as [p c1]. inv_ok.
    unfold load_channels in E. inv_ok. done.
  - destruct (load_version_n_tables v h block (set_et_header v (h_division h) (Some v) ETCorrections_new) t1 eq_refl eq_refl eq_refl Et) as (Hc & Hdiv & Hta & Hte).
    rewrite bind_ok in Hc. destruct Hc as ([p c1] & Hc1 & Hc2).
    assert (c = corr t1) as Ec by (unfold c; by destruct (v =? 4)).
    assert (et_min_version (corr t1) = Some v) as Emv.
    { apply load_adjust_inv in Hc2 as (? & ? & ? & ? & ? & _ & _ & _ & _ & _ & _ & _ & _ & ->).
      destruct (v =? 4); [unfold load_mirrors in Hc1|unfold load_channels in Hc1]; inv_ok; done. }
    rewrite Ec. split; [|split; [done|split; [by destruct (v =? 4)|split; [by destruct (v =? 4)|split]]]].
    + cbn [corr EtGpu_new] in Hc1. rewrite Hc1. cbn [mbind result_bind]. by rewrite Hc2.
    + rewrite Emv. intros [= ->]. done.
    + rewrite <-Hdiv in Hta, Hte. split; intros fov res azi ele turn a ia ie g i1 i2 Hia Hie Hg Hi1 Hi2 Ha.
      * replace (d_azimuths_adjust _) with (Some (azimuth_adjust_f t1)) by by destruct (v =? 4).
        by eapply offset_same_neighbours.
      * replace (d_elevations_adjust _) with (Some (elevation_adjust_f t1)) by by destruct (v =? 4).
        by eapply offset_same_neighbours.
Qed.

(** A version-1 file of exactly its length, which [Udp2_5Parser] loads, makes the
    decoder of the device read behind the end of the file. *)
Theorem gpu_et_version_1_overrun {P} cu block (u : ParserGpu P EtGpu) h c :
  LoadCorrectionDatData 17 [1; 2; 3; 4] true block (corr (tables u)) = Ok (0, c) -> et_min_version c = Some 1 ->
  read_header 1 block = Ok h -> 0 < h_channels h ->
  Z.of_nat (length block) = h_size h + 4 * h_channels h + 32 ->
  Gpu2_5_LoadCorrectionDatData cu block u = Err OutOfBounds.
Proof.
  intros H Hv Hh Hn Hlen. unfold LoadCorrectionDatData in H. unfold Gpu2_5_LoadCorrectionDatData, et_LoadDat.
  rewrite bind_ok in H. destruct H as (hd & -> & H). cbn [mbind result_bind].
  rewrite bind_ok in H. destruct H as (d0 & -> & H). rewrite bind_ok in H. destruct H as (d1 & -> & H).
  rewrite bind_ok in H. destruct H as (v & Ev & H). rewrite Ev. cbn [mbind result_bind]. 
  destruct ((d0 =? 0xee) && (d1 =? 0xff) && bool_decide (v ∈ [1; 2; 3; 4])) eqn:Eb; [|done].
  rewrite bind_ok in H. destruct H as (h' & Eh & H). rewrite Eh. cbn [mbind result_bind]. cbv zeta in H |- *.
  destruct (_ || _ || _); [done|]. rewrite bind_ok in H. destruct H as ([p c1] & Ec1 & H). rewrite bind_ok in H. destruct H as (c2 & Ec2 & H).
  apply (inj Ok) in H as [= ->].
  assert (v = 1) as ->.
  { destruct (Z.eqb_spec v 1) as [|Hne]; [done|]. exfalso. assert (et_min_version c1 = Some v) as E1.
    { destruct (v =? 4); [unfold load_mirrors in Ec1|unfold load_channels in Ec1]; inv_ok; done. }
    apply load_adjust_inv in Ec2 as (? & ? & ? & ? & ? & _ & _ & _ & _ & _ & _ & _ & _ & E2). congruence. }
  rewrite Hh in Eh. apply (inj Ok) in Eh as <-. cbn [Z.eqb Pos.eqb] in Ec1 |- *. unfold load_version_1. cbn [corr set_corr].
  rewrite Ec1. cbn [mbind result_bind]. assert (p = h_size h + 4 * h_channels h) as ->.
  { unfold load_channels in Ec1. inv_ok. lia. }
  unfold arr_slice. rewrite decide_False; [done|]. intros (_ & _ & ?). lia.
Qed.

(** A text is not loaded by the decoder of 2.4: its content is taken for the name of
    a file; when there is no such file the answer is 0 and nothing has changed. *)
Theorem gpu2_4_text_not_loaded {P} cu (fs : string -> option string) path content s (u : ParserGpu P EtGpu) :
  fs path = Some content -> c_string content = Ok s -> fs s = None ->
  Gpu2_4_LoadCorrectionDatData cu (bytes_of content) u = Ok (-1, u) ->
  Gpu2_4_LoadCorrectionFile cu fs path u = Ok (0, u).
Proof.
  intros Hp Hs Hn Hd. unfold Gpu2_4_LoadCorrectionFile, Gpu_LoadCorrectionFile. rewrite Hp.
  unfold Gpu2_4_LoadCorrectionString, et_LoadString. rewrite Hd. cbn [mbind result_bind]. cbn [Z.eqb]. rewrite Hs.
  cbn [mbind result_bind]. unfold Gpu2_4_LoadCorrectionCsvData. by rewrite Hn.
Qed.

(** ** The points *)

Section Points.
Context {P : Type} {PT : PointType P} {L : PointLaws P}.
Variables (s32 c32 : f32 -> f32) (s64 c64 t64 : f64 -> f64) (t32 : f32 -> f32).

Lemma et_kernel_stamps conf t tf unit_ channel gamma adjust :
  stamps conf channel (et_kernel (P := P) s32 c32 s64 c64 t64 t32 conf t tf unit_ channel gamma adjust).
Proof.
  intros pd ts p c i old x. unfold et_kernel.
  do 2 (rewrite bind_ok; intros (? & _ & H); revert H). rewrite bind_ok. intros (d & Hd & H). revert H.
  rewrite bind_ok. intros (ga & _ & H). revert H. rewrite bind_ok. intros (ch & Hch & H). revert H.
  do 3 (rewrite bind_ok; intros (? & _ & H); revert H). rewrite bind_ok. intros (tm & Ht & H). apply (inj Ok) in H as <-.
  exists d, tm, ch. eexists. split; [done|]. split; [done|]. split; [done|]. split; [reflexivity|]. apply store_point_attributes.
Qed.

Lemma kernel_2_5_stamps t tf (frame : LidarDecodedFrame P) k : kernel_2_5 s32 c32 s64 c64 t64 t32 t tf frame = Ok (Some k) ->
  stamps false (by_laser (laser_num frame)) k.
Proof.
  unfold kernel_2_5. rewrite bind_ok. intros (v & _ & H). destruct (v =? 1); [apply (inj Ok) in H as [= <-]; apply et_kernel_stamps|].
  destruct (_ || _); [rewrite bind_ok in H; destruct H as ([ia ie] & _ & H); apply (inj Ok) in H as [= <-]; apply et_kernel_stamps|].
  destruct (v =? 4); [|done]. rewrite bind_ok in H. destruct H as ([ia ie] & _ & H). apply (inj Ok) in H as [= <-]. apply et_kernel_stamps.
Qed.

(** The version of the calibration is one that has a kernel. *)
Definition has_kernel (t : EtGpu) : bool := match et_min_version (corr t) with Some v => (1 <=? v) && (v <=? 4) | None => false end.

Lemma kernel_2_5_some t tf (frame : LidarDecodedFrame P) o : has_kernel t = true ->
  kernel_2_5 s32 c32 s64 c64 t64 t32 t tf frame = Ok o -> exists k, o = Some k.
Proof.
  unfold has_kernel, kernel_2_5. destruct (et_min_version (corr t)) as [v|]; [|done]. cbn [of_option mbind result_bind]. intros Hv H.
  destruct (Z.eqb_spec v 1); [apply (inj Ok) in H as <-; eauto|].
  destruct (Z.eqb_spec v 2), (Z.eqb_spec v 3), (Z.eqb_spec v 4); cbn [orb] in H; try lia;
    rewrite bind_ok in H; destruct H as ([ia ie] & _ & H); apply (inj Ok) in H as <-; eauto.
Qed.

Lemma et5_point_attributes sinT cosT (c : ETCorrections) apha beta gamma mi ti (frame : LidarDecodedFrame P) n i j (old : option P) pt :
  fov_start frame = -1 ->
  Udp2_5.compute_point sinT cosT s64 c64 t64 t32 c apha beta gamma mi ti frame n i j old = Ok pt ->
  exists d t, array_at kMaxPointsNumPerFrame j (pointData frame) = Ok d /\
    array_at kMaxPacketNumPerFrame n (sensor_timestamp frame) = Ok t /\
    same_attributes pt (stamped false i t d (default zero_point old)).
Proof.
  intros Hf. unfold Udp2_5.compute_point. rewrite bind_ok. intros (d & Hd & H). revert H.
  do 3 (rewrite bind_ok; intros (? & _ & H); revert H). unfold EtPackets.et_place. rewrite bind_ok. intros (az & _ & H).
  apply place_point_attributes in H as (t & Ht & H); [|unfold outside_fov; by rewrite Hf]. by exists d, t.
Qed.

(** Of the decoders of 2.5, too, the one of the device and the other agree up to the
    coordinates, in every version of the calibration. *)
Theorem gpu_et_agrees_with_cpu sinT cosT cu (u : ParserGpu P EtGpu) (v : Udp2_5Parser) frame n r v' f r' u' f' :
  let per := block_num frame * laser_num frame in
  ready cu per frame (gpu_base u) -> corrections_loaded_ u = true -> has_kernel (tables u) = true -> 0 < laser_num frame ->
  0 <= n < packet_num frame -> 0 <= block_num frame -> per_points_num frame = per -> fov_start frame = -1 ->
  (forall i, same_attributes (default zero_point (gpuPtr (frame_ (gpu_base u)) !! i)) (default zero_point (points frame !! i))) ->
  Udp2_5.ComputeXYZI sinT cosT s64 c64 t64 t32 v frame n = Ok (r, v', f) ->
  Gpu2_5_ComputeXYZI s32 c32 s64 c64 t64 t32 cu u frame = Ok (r', u', f') ->
  r' = 0 /\ forall i, n * per <= i < (n + 1) * per ->
    exists a b, points f !! i = Some a /\ points f' !! i = Some b /\ same_attributes a b.
Proof.
  intros per R Hl Hk Hlas Hn Hb Hper Hfov Hold E G. unfold Gpu2_5_ComputeXYZI, et_ComputeXYZI in G. rewrite Hl in G. fold per in G.
  rewrite bind_ok in G. destruct G as ([[r1 g1] f1] & G & Hr). apply (inj Ok) in Hr as [= <- _ <-].
  destruct (kernel_2_5 _ _ _ _ _ _ _ _ _) as [o|] eqn:Ek.
  2: { exfalso. revert G. unfold Gpu_ComputeXYZI. cbn [negb]. rewrite bind_ok. intros ([o g2] & Eo & H).
       destruct (send_frame_spec _ _ _ _ _ _ Eo) as [_ Ho]. pose proof (ready_calls _ _ _ _ R) as (C0 & C1 & _).
       destruct o as [[pd ts]|]; [done|]. destruct (Ho eq_refl); congruence. }
  destruct (kernel_2_5_some _ _ _ _ Hk Ek) as [k ->]. destruct (gpu_compute_inv cu per frame (gpu_base u) R k _ _ _ G) as [-> Hc].
  split; [done|]. unfold Udp2_5.ComputeXYZI in E. revert E. do 6 (rewrite bind_ok; intros (? & _ & E); revert E).
  rewrite bind_ok. intros (pts & E & Ef). apply (inj Ok) in Ef as [= _ _ <-]. cbn [points set_points].
  apply (each_point_agrees cu _ frame (gpu_base u) false _ _ _ _ R Hlas Hn Hb Hper eq_refl E Hold).
  - intros b i j old pt. by apply et5_point_attributes.
  - intros c Hcr. destruct (computed_stamps _ _ _ _ _ _ _ _ (kernel_2_5_stamps _ _ _ _ Ek) Hc n c Hn Hcr) as (d & t & ring & pt & Ed & Et & Er & Ep & Hs).
    apply (inj Ok) in Er as <-. by exists d, t, pt.
Qed.

(** A mirror the calibration has no angles for makes a thread of version 4 read
    behind the arrays. *)
Theorem gpu_et_mirror_bounds t ia ie tf lasers unit_ pd ts p c i (old : option P) d m b a :
  d_gamma t = Some (gamma_f (corr t)) -> length (gamma_f (corr t)) = 8%nat ->
  array_at kMaxPointsNumPerFrame i pd = Ok d -> pd_mirror_index d = Some m -> 0x80 <= m < 0x100 ->
  dev_array (d_elevations t) 0 = Ok a -> dev_array (d_elevations t) 1 = Ok b ->
  compute_xyzs_2_5_impl_v4 s32 c32 s64 c64 t64 t32 t ia ie tf lasers unit_ pd ts p c i old = Err OutOfBounds.
Proof.
  intros Hg Hlen Hd Hm Hr Ha Hb. unfold compute_xyzs_2_5_impl_v4, et_kernel. rewrite Ha, Hb, Hd. cbn [mbind result_bind].
  assert (dev_array (d_gamma t) (Z.quot m 0x10) = Err OutOfBounds) as Eg.
  { unfold dev_array, dev_read. rewrite Hg. cbn [of_option mbind result_bind]. rewrite arr_get_out; [done|]. rewrite Hlen.
    pose proof (Z.quot_le_lower_bound m 0x10 8). lia. }
  unfold mirror_i. rewrite Hm. cbn [of_option mbind result_bind]. by rewrite Eg.
Qed.

End Points.

(** ** Witnesses: the files of EtCorrections.v *)

Definition demo_et_gpu : ParserGpu LidarPointXYZI EtGpu := mk_parser_gpu demo_gpu false EtGpu_new.
Definition demo_et_file (v : Z) : list Z := et_file v demo_header demo_raw (replicate 32 0).

Lemma gpu_et_same_calibration_witness : exists u', Gpu2_5_LoadCorrectionDatData working (demo_et_file 2) demo_et_gpu = Ok (0, u') /\
  corrections_loaded_ u' = true /\
  LoadCorrectionDatData 17 [1; 2; 3; 4] true (demo_et_file 2) ETCorrections_new = Ok (0, corr (tables u')).
Proof.
  assert (match Gpu2_5_LoadCorrectionDatData working (demo_et_file 2) demo_et_gpu with
    Ok (r, u) => (r, et_min_version (corr (tables u))) | Err _ => (1, None) end = (0, Some 2)) as Hok by (vm_compute; reflexivity).
  destruct (Gpu2_5_LoadCorrectionDatData working (demo_et_file 2) demo_et_gpu) as [[r u']|] eqn:E; [|done].
  injection Hok as -> Hv. exists u'. split; [reflexivity|].
  assert (et_min_version (corr (tables u')) <> Some 1) as Hne by by rewrite Hv.
  destruct (gpu_et_same_calibration working (demo_et_file 2) demo_et_gpu u' eq_refl E Hne) as (H1 & H2 & _). split; [exact H2|exact H1].
Defined.

Lemma gpu_et_version_1_overrun_witness :
  Gpu2_5_LoadCorrectionDatData working (demo_et_file 1) demo_et_gpu = Err OutOfBounds.
Proof.
  assert (match LoadCorrectionDatData 17 [1; 2; 3; 4] true (demo_et_file 1) (corr (tables demo_et_gpu)) with
    Ok (r, c) => (r, et_min_version c) | Err _ => (1, None) end = (0, Some 1)) as Hok by (vm_compute; reflexivity).
  destruct (LoadCorrectionDatData 17 [1; 2; 3; 4] true (demo_et_file 1) (corr (tables demo_et_gpu))) as [[r c]|] eqn:E; [|done].
  injection Hok as -> Hv.
  apply (gpu_et_version_1_overrun working (demo_et_file 1) demo_et_gpu demo_header c E Hv); vm_compute; reflexivity.
Defined.
