(* ===== verification/GpuAt.v ===== *)
(** * GpuAt: the CUDA decoders of PandarAT128, ATX and PandarFT120

    UdpParserGpu/src/udp4_3_parser_gpu.cu, udp4_7_parser_gpu.cu and
    udp7_2_parser_gpu.cu with their headers.  Each of them has a calibration of its
    own, that of the decoder of the same lidar in Udp4_3.v, Udp4_7.v and Udp7_2.v,
    and arrays on the device that are set when a file is loaded.  The elements of
    these arrays are as the host had them at that time; the header of the host is
    read again at every launch. *)

From Stdlib Require Import SpecFloat.
From S2P Require Import Prelude Bytes Text Streams Floats LidarTypes GeneralParser Firetimes1_4 Udp1_4 Points Walk.
From S2P Require Import Udp7_2 Udp4_3 Udp4_7 Gpu GpuSpinning.
Local Open Scope Z_scope.

(** The angles of a point in [double], its distance in [double]; the cosine of the
    elevation is that of a [float]. *)
Definition xyz64 (cos32 : f32 -> f32) (sin64 cos64 : f64 -> f64) (rho phi theta : f64) : f32 * f32 * f32 :=
  let z := to32 (mul64 rho (sin64 phi)) in
  let r := mul64 rho (cos32 (to32 phi)) in
  (to32 (mul64 r (sin64 theta)), to32 (mul64 r (cos64 theta)), z).

(** degrees * 100 / kHalfCircleFloat * M_PI, in [double] from the product on *)
Definition half_circle64 (a : f32) : f64 := mul64 (div32 a (of_Z32 kHalfCircleInt)) M_PI.

Definition raw_distance (d : PointDecodeData) (unit_ : f64) : f64 := mul64 (of_Z64 (pd_distances d)) unit_.

(** ** PandarAT128 *)

Module At128.

(** The calibration of the host, and what the six arrays of the device were copied
    from. *)
Record AtGpu : Set := mk_at_gpu { m_PandarAT_corrections : PandarATCorrections; device : option PandarATCorrections }.

Definition Gpu4_3_new {P} (cu : Cuda) (junk : Transform) : result (ParserGpu P AtGpu) :=
  ParserGpu_new cu junk (mk_at_gpu PandarATCorrections_new None).

(** The body of case 5: of the angles, only the begins and the ends of the fields
    are multiplied by the resolution. *)
Definition load_raw (block : list Z) (h : PandarATCorrectionsHeader) (c : PandarATCorrections) : result PandarATCorrections :=
  let frame_num := frame_number h in
  let channel_num := channel_number h in
  let adjust_length := channel_num * CORRECTION_AZIMUTH_NUM in
  let p := 16 in
  st ← read_words 4 block p frame_num;
  let p := p + 4 * frame_num in
  en ← read_words 4 block p frame_num;
  let p := p + 4 * frame_num in
  az ← read_words 4 block p channel_num;
  let p := p + 4 * channel_num in
  el ← read_words 4 block p channel_num;
  let p := p + 4 * channel_num in
  ao ← arr_slice block p adjust_length;
  let p := p + adjust_length in
  eo ← arr_slice block p adjust_length;
  let p := p + adjust_length in
  _ ← arr_slice block p 32;
  let scaled := map (fun x => u32 (x * resolution h)) in
  Ok (mk_at h (overlay (scaled st) (l_start_frame c)) (overlay (scaled en) (l_end_frame c))
        (overlay (map i32 az) (l_azimuth c)) (overlay (map i32 el) (l_elevation c))
        (overlay (map i8 ao) (azimuth_offset c)) (overlay (map i8 eo) (elevation_offset c))).

Definition LoadCorrectionString {P} (cu : Cuda) (block : list Z) (u : ParserGpu P AtGpu) : result (Z * ParserGpu P AtGpu) :=
  header ← arr_slice block 0 16;
  d0 ← rd8 header 0; d1 ← rd8 header 1; v1 ← rd8 header 3;
  ch ← rd8 header 4; fr ← rd8 header 6; res ← rd8 header 15;
  let t := tables u in
  if (d0 =? 0xee) && (d1 =? 0xff) && (v1 =? 5) then
    let h := mk_at_header ch fr res in
    if (8 <? fr) || (AT128_LASER_NUM <? ch)
    then Ok (-1, mk_parser_gpu (gpu_base u) (corrections_loaded_ u)
                   (mk_at_gpu (set_header h (m_PandarAT_corrections t)) (device t)))
    else
      c ← load_raw block h (m_PandarAT_corrections t);
      _ ← CUDAChecks cu 12;
      Ok (0, mk_parser_gpu (gpu_base u) true (mk_at_gpu c (Some c)))
  else Ok (-1, u).

Definition Gpu4_3_LoadCorrectionString {P} (cu : Cuda) (block : string) : ParserGpu P AtGpu -> result (Z * ParserGpu P AtGpu) :=
  LoadCorrectionString cu (bytes_of block).
Definition Gpu4_3_LoadCorrectionFile {P} (cu : Cuda) := Gpu_LoadCorrectionFile (Gpu4_3_LoadCorrectionString (P := P) cu).

(** The field of a point: three fields are tried, whatever the header says. *)
Definition gpu_field (c : PandarATCorrections) (Azimuth : Z) : result (option Z) :=
  _ ← int_ok (Azimuth + CIRCLE);
  foldM (fun found field =>
    match found with
    | Some _ => Ok found
    | None =>
        start ← arr_get (l_start_frame c) field;
        end_ ← arr_get (l_end_frame c) field;
        Ok (if in_field Azimuth start end_ then Some field else None)
    end) None [0; 1; 2].

(** The interpolated element of a table of offsets: index of the left neighbour, and
    the weight of the right one. *)
Definition gpu_offset (offset : list Z) (ch i : Z) (alpha : f32) : result f32 :=
  let beta := sub32 (of_Z32 1) alpha in
  a ← arr_get offset (ch * CORRECTION_AZIMUTH_NUM + i);
  b ← arr_get offset (ch * CORRECTION_AZIMUTH_NUM + (i + 1));
  Ok (add32 (mul32 beta (of_Z32 a)) (mul32 alpha (of_Z32 b))).

(** m = azimuth / 200.f and int(m) *)
Definition offset_step (azimuth : f32) : f32 := div32 azimuth (of_Z32 CORRECTION_AZIMUTH_STEP).
Definition offset_row (azimuth : f32) : result Z := to_int (offset_step azimuth).

(** (theta, phi) *)
Definition at_angles (c : PandarATCorrections) (res field ch : Z) (azimuth : f32) : result (f64 * f64) :=
  i ← offset_row azimuth;
  let alpha := sub32 (offset_step azimuth) (of_Z32 i) in
  let fine x := div32 (of_Z32 x) (of_Z32 kFineResolutionInt) in
  dazi ← gpu_offset (azimuth_offset c) ch i alpha;
  start ← arr_get (l_start_frame c) field;
  la ← arr_get (l_azimuth c) ch;
  la ← int_ok (la * res);
  dele ← gpu_offset (elevation_offset c) ch i alpha;
  le ← arr_get (l_elevation c) ch;
  let turned := mul32 (sub32 (add32 azimuth (of_Z32 kCircle)) (fine start)) (of_Z32 2) in
  Ok (half_circle64 (add32 (sub32 turned (fine la)) (mul32 dazi (of_Z32 res))),
      half_circle64 (mul32 (add32 (fine le) dele) (of_Z32 res))).

Section Kernel.
Context {P : Type} {PT : PointType P}.
Variables (sin32 cos32 : f32 -> f32) (sin64 cos64 : f64 -> f64).

(** A point in none of the fields is not written. *)
Definition compute_xyzs_v4_3_impl (t : AtGpu) (tf : Transform) (lasernum : Z) (unit_ : f64) : kernel P :=
  fun point_data sensor_timestamp iscan ichannel point_index old =>
    c ← of_option Uninitialised (device t);
    d ← array_at kMaxPointsNumPerFrame point_index point_data;
    let azimuth := div32 (pd_azimuth d) (of_Z32 kFineResolutionInt) in
    Azimuth ← to_int (pd_azimuth d);
    field ← gpu_field c Azimuth;
    match field with
    | None => Ok None
    | Some field =>
        let ch := Z.rem ichannel lasernum in
        '(theta, phi) ← at_angles c (resolution (at_header (m_PandarAT_corrections t))) field ch azimuth;
        ts ← array_at kMaxPacketNumPerFrame iscan sensor_timestamp;
        Ok (Some (store_point sin32 cos32 tf true ch ts d (xyz64 cos32 sin64 cos64 (raw_distance d unit_) phi theta) old))
    end.

Definition Gpu4_3_ComputeXYZI (cu : Cuda) (u : ParserGpu P AtGpu) (frame : LidarDecodedFrame P)
    : result (Z * ParserGpu P AtGpu * LidarDecodedFrame P) :=
  '(r, g, f) ← Gpu_ComputeXYZI cu (corrections_loaded_ u) (block_num frame * laser_num frame)
    (Ok (Some (compute_xyzs_v4_3_impl (tables u) (g_transform_ (gpu_base u)) (laser_num frame) (distance_unit frame))))
    (gpu_base u) frame;
  Ok (r, set_gpu_base g u, f).

End Kernel.
End At128.

(** ** ATX *)

Module Atx.

Record AtxGpu : Type := mk_atx_gpu {
  m_ATX_corrections : ATXCorrections;
  channel_elevations_cu_ : option (list f32);
  deles_cu : option (list f32);
}.

Definition Gpu4_7_new {P} (cu : Cuda) (junk : Transform) : result (ParserGpu P AtxGpu) :=
  ParserGpu_new cu junk (mk_atx_gpu ATXCorrections_new None None).

Definition LoadCorrectionString {P} (cu : Cuda) (block : list Z) (u : ParserGpu P AtxGpu) : result (Z * ParserGpu P AtxGpu) :=
  '(d0, d1, h) ← read_ATXHeader block;
  let t := tables u in
  let v := atx_version h in
  if (d0 =? 0xee) && (d1 =? 0xff) && ((v =? 1) || (v =? 2) || (v =? 3)) then
    if (ATX_LASER_NUM <? atx_channel_number h) || (angle_division h =? 0)
    then Ok (-1, mk_parser_gpu (gpu_base u) (corrections_loaded_ u)
                   (mk_atx_gpu (set_atx_header h (m_ATX_corrections t)) (channel_elevations_cu_ t) (deles_cu t)))
    else
      c ← (if v =? 1 then load_version_1 block h (m_ATX_corrections t) else load_version_2_3 block h (m_ATX_corrections t));
      _ ← CUDAChecks cu (if v =? 3 then 4 else 2);
      Ok (0, mk_parser_gpu (gpu_base u) true
               (mk_atx_gpu c (Some (atx_elevation c)) (if v =? 3 then Some (elevation_adjust c) else deles_cu t)))
  else Ok (-1, u).

Definition Gpu4_7_LoadCorrectionString {P} (cu : Cuda) (block : string) : ParserGpu P AtxGpu -> result (Z * ParserGpu P AtxGpu) :=
  LoadCorrectionString cu (bytes_of block).
Definition Gpu4_7_LoadCorrectionFile {P} (cu : Cuda) := Gpu_LoadCorrectionFile (Gpu4_7_LoadCorrectionString (P := P) cu).

Definition BegElevationAdjust : f32 := of_Z32 20.
Definition StepElevationAdjust : f32 := of_Z32 2.
Definition EndElevationAdjust : f32 := of_Z32 158.

(** int((azimuth - BegElevationAdjust) / StepElevationAdjust) *)
Definition adjust_index (azimuth : f32) : result Z := to_int (div32 (sub32 azimuth BegElevationAdjust) StepElevationAdjust).

(** The elevation behind its adjustment, which starts at [StepElevationAdjust]. *)
Definition adjusted_elevation (version : Z) (adjust : option (list f32)) (azimuth elevation : f32) : result f32 :=
  if (version =? 3) && SFleb StepElevationAdjust azimuth && SFleb azimuth EndElevationAdjust then
    index ← adjust_index azimuth;
    let left_percent := div32 (sub32 (sub32 azimuth BegElevationAdjust) (mul32 (of_Z32 index) StepElevationAdjust))
                          StepElevationAdjust in
    adjust ← of_option Uninitialised adjust;
    a ← arr_get (A := f32) adjust index;
    b ← arr_get (A := f32) adjust (index + 1);
    Ok (add32 elevation (add32 (mul32 a (sub32 (of_Z32 1) left_percent)) (mul32 b left_percent)))
  else Ok elevation.

Section Kernel.
Context {P : Type} {PT : PointType P}.
Variables (sin32 cos32 : f32 -> f32) (sin64 cos64 : f64 -> f64).

Definition compute_xyzs_v4_7_impl (t : AtxGpu) (tf : Transform) (lasernum : Z) (unit_ : f64) : kernel P :=
  fun point_data sensor_timestamp iscan ichannel point_index old =>
    d ← array_at kMaxPointsNumPerFrame point_index point_data;
    let azimuth := div32 (pd_azimuth d) (of_Z32 kAllFineResolution) in
    let ch := Z.rem ichannel lasernum in
    elevations ← of_option Uninitialised (channel_elevations_cu_ t);
    elevation ← arr_get (A := f32) elevations ch;
    elevation ← adjusted_elevation (atx_version (atx_header (m_ATX_corrections t))) (deles_cu t) azimuth elevation;
    let phi := half_circle64 (mul32 elevation (of_Z32 kResolutionInt)) in
    let theta := half_circle64 (mul32 azimuth (of_Z32 kResolutionInt)) in
    ts ← array_at kMaxPacketNumPerFrame iscan sensor_timestamp;
    Ok (Some (store_point sin32 cos32 tf true ch ts d (xyz64 cos32 sin64 cos64 (raw_distance d unit_) phi theta) old)).

Definition Gpu4_7_ComputeXYZI (cu : Cuda) (u : ParserGpu P AtxGpu) (frame : LidarDecodedFrame P)
    : result (Z * ParserGpu P AtxGpu * LidarDecodedFrame P) :=
  '(r, g, f) ← Gpu_ComputeXYZI cu (corrections_loaded_ u) (block_num frame * laser_num frame)
    (Ok (Some (compute_xyzs_v4_7_impl (tables u) (g_transform_ (gpu_base u)) (laser_num frame) (distance_unit frame))))
    (gpu_base u) frame;
  Ok (r, set_gpu_base g u, f).

End Kernel.
End Atx.

(** ** PandarFT120 *)

Module Ft120.

(** (elevations, azimuths) by channel and column; what the arrays of the device were
    copied from.  The kernel does not read them. *)
Definition ft_table : Type := gmap (Z * Z) f32 * gmap (Z * Z) f32.
Definition FtGpu : Type := option ft_table.

Definition Gpu7_2_new {P} (cu : Cuda) (junk : Transform) : result (ParserGpu P FtGpu) := ParserGpu_new cu junk None.

(** The arrays are local: what a file does not set is undefined.  [None]: a short
    line ended the loop. *)
Fixpoint gpu_csv_rows (rows : list string) (t : ft_table) : result (option ft_table) :=
  match rows with
  | [] => Ok (Some t)
  | line :: rows =>
      if (String.length line <? 7)%nat then Ok None
      else
        let '(lineId, columnId, elev, azimuth) := csv_row line in
        if (CHANNEL_MAX <? lineId) || (lineId <=? 0) || (COLUMN_MAX <? columnId) || (columnId <=? 0)
        then gpu_csv_rows rows t
        else
          e ← of_option Uninitialised elev;
          a ← of_option Uninitialised azimuth;
          let hundred x := mul32 x (of_Z32 kResolutionInt) in
          gpu_csv_rows rows (<[(lineId - 1, columnId - 1) := hundred e]> t.1, <[(lineId - 1, columnId - 1) := hundred a]> t.2)
  end.

Definition loaded {P} (cu : Cuda) (t : ft_table) (u : ParserGpu P FtGpu) : result (Z * ParserGpu P FtGpu) :=
  _ ← CUDAChecks cu 4; Ok (0, mk_parser_gpu (gpu_base u) true (Some t)).

Definition LoadCorrectionCsvData {P} (cu : Cuda) (correction_string : string) (u : ParserGpu P FtGpu)
    : result (Z * ParserGpu P FtGpu) :=
  t ← gpu_csv_rows (drop 1 (tokens newline correction_string)) (∅, ∅);
  match t with Some t => loaded cu t u | None => Ok (-1, u) end.

Definition gpu_dat_angles (width : nat) (sign : Z -> Z) (off : Z) (block : list Z) (columns channels resolution : Z)
    : result ft_table :=
  let angleNum := columns * channels in
  let readLen := Z.of_nat width * (angleNum * 2) in
  angles ← arr_slice block off readLen;
  _ ← arr_slice block (off + readLen) 32;
  let angle idx := v ← rd_le width angles (Z.of_nat width * idx); Ok (sign v) in
  az ← dat_fill angle 0 columns channels resolution ∅;
  el ← dat_fill angle angleNum columns channels resolution ∅;
  Ok (el, az).

Definition LoadCorrectionDatData {P} (cu : Cuda) (block : list Z) (u : ParserGpu P FtGpu) : result (Z * ParserGpu P FtGpu) :=
  header ← arr_slice block 0 sizeof_FTCorrectionsHeader;
  match header with
  | [p0; p1; v0; v1; _; _; column_number; channel_number; resolution] =>
      if (p0 =? 0xee) && (p1 =? 0xff) then
        if v1 =? 0 then t ← gpu_dat_angles 2 i16 0 block column_number channel_number resolution; loaded cu t u
        else if v1 =? 1 then
          t ← gpu_dat_angles 4 i32 sizeof_FTCorrectionsHeader block column_number channel_number resolution; loaded cu t u
        else Ok (-1, u)
      else Ok (-1, u)
  | _ => Err OutOfBounds
  end.

(** The test takes every answer but 0 for a success. *)
Definition Gpu7_2_LoadCorrectionString {P} (cu : Cuda) (data : string) (u : ParserGpu P FtGpu) : result (Z * ParserGpu P FtGpu) :=
  '(r, u) ← LoadCorrectionDatData cu (bytes_of data) u;
  if negb (r =? 0) then Ok (0, u) else s ← c_string data; LoadCorrectionCsvData cu s u.

Definition Gpu7_2_LoadCorrectionFile {P} (cu : Cuda) := Gpu_LoadCorrectionFile (Gpu7_2_LoadCorrectionString (P := P) cu).

Section Kernel.
Context {P : Type} {PT : PointType P}.
Variables (sin32 cos32 : f32 -> f32).

(** The angles are those of the point. *)
Definition compute_xyzs_7_2_impl (tf : Transform) (lasernum : Z) (unit_ : f64) : kernel P :=
  fun point_data sensor_timestamp iscan ichannel point_index old =>
    d ← array_at kMaxPointsNumPerFrame point_index point_data;
    let azimuth := half_circle (pd_azimuth d) in
    let elevation := half_circle (pd_elevation d) in
    let rho := raw_distance d unit_ in
    let z := to32 (mul64 rho (sin32 elevation)) in
    let r := mul64 rho (cos32 elevation) in
    let x := to32 (mul64 r (sin32 azimuth)) in
    let y := to32 (mul64 r (cos32 azimuth)) in
    ts ← array_at kMaxPacketNumPerFrame iscan sensor_timestamp;
    Ok (Some (store_point sin32 cos32 tf false (Z.rem ichannel lasernum) ts d (x, y, z) old)).

Definition Gpu7_2_ComputeXYZI (cu : Cuda) (u : ParserGpu P FtGpu) (frame : LidarDecodedFrame P)
    : result (Z * ParserGpu P FtGpu * LidarDecodedFrame P) :=
  '(r, g, f) ← Gpu_ComputeXYZI cu (corrections_loaded_ u) (block_num frame * laser_num frame)
    (Ok (Some (compute_xyzs_7_2_impl (g_transform_ (gpu_base u)) (laser_num frame) (distance_unit frame)))) (gpu_base u) frame;
  Ok (r, set_gpu_base g u, f).

End Kernel.
End Ft120.

(** ** Lemmas and theorems: PandarAT128 *)

Module At128Facts.
Import At128.

(** The arrays have their lengths. *)
Record at_shape (c : PandarATCorrections) : Prop := {
  shape_start : Z.of_nat (length (l_start_frame c)) = 8;
  shape_end : Z.of_nat (length (l_end_frame c)) = 8;
  shape_azimuth : Z.of_nat (length (l_azimuth c)) = AT128_LASER_NUM;
  shape_elevation : Z.of_nat (length (l_elevation c)) = AT128_LASER_NUM;
  shape_azimuth_offset : Z.of_nat (length (azimuth_offset c)) = CIRCLE_ANGLE;
  shape_elevation_offset : Z.of_nat (length (elevation_offset c)) = CIRCLE_ANGLE;
}.

(** A decoder that has loaded a calibration has it on the device. *)
Definition at_well_formed {P} (u : ParserGpu P AtGpu) : Prop :=
  at_shape (m_PandarAT_corrections (tables u)) /\
  (forall c, device (tables u) = Some c -> at_shape c) /\ (corrections_loaded_ u = true -> is_Some (device (tables u))).

Lemma zeros_length n : 0 <= n -> Z.of_nat (length (zeros n)) = n.
Proof. intros. unfold zeros. rewrite length_replicate. lia. Qed.

Lemma at_shape_new : at_shape PandarATCorrections_new.
Proof. by split; apply zeros_length. Qed.

Lemma slice_length {A} (l : list A) off n x : arr_slice l off n = Ok x -> Z.of_nat (length x) = n.
Proof. unfold arr_slice. case_decide; [|done]. intros [= <-]. rewrite length_take, length_drop. lia. Qed.

(** A part of a file over an array leaves its length. *)
Lemma overlay_keeps {A} (src old : list A) k n : Z.of_nat (length src) = k -> k <= n -> Z.of_nat (length old) = n ->
  Z.of_nat (length (overlay src old)) = n.
Proof. intros. rewrite overlay_length; lia. Qed.

Lemma load_raw_shape block h c c' : 0 <= frame_number h <= 8 -> 0 <= channel_number h <= AT128_LASER_NUM ->
  at_shape c -> load_raw block h c = Ok c' -> at_shape c' /\ at_header c' = h.
Proof.
  intros Hf Hc [H1 H2 H3 H4 H5 H6] H. unfold load_raw in H. inv_ok.
  apply read_words_length in E, E0, E1, E2; [|lia..]. apply slice_length in E3, E4.
  unfold AT128_LASER_NUM, CIRCLE_ANGLE, CORRECTION_AZIMUTH_NUM in *.
  split; [|done]. split; (eapply overlay_keeps; [rewrite length_map; eassumption|unfold AT128_LASER_NUM, CIRCLE_ANGLE; lia|done]).
Qed.

(** C16: loading keeps the arrays in shape, whatever the file is: a decoder that is well
    formed stays so, and an answer of 0 means that the device has the calibration. *)
Theorem gpu_at_load_well_formed {P} cu block (u : ParserGpu P AtGpu) r u' :
  byte_list block -> at_well_formed u -> LoadCorrectionString cu block u = Ok (r, u') ->
  at_well_formed u' /\ gpu_base u' = gpu_base u /\
  (r = 0 -> corrections_loaded_ u' = true /\ device (tables u') = Some (m_PandarAT_corrections (tables u'))) /\
  (r <> 0 -> corrections_loaded_ u' = corrections_loaded_ u /\ device (tables u') = device (tables u)).
Proof.
  intros Hb (Hh & Hd & Hl) H. unfold LoadCorrectionString in H. rewrite bind_ok in H. destruct H as (hd & Ehd & H).
  apply (arr_slice_byte_list _ _ _ _ Hb) in Ehd. inv_ok. destruct (_ && _ && _); [|by inv_ok].
  destruct (Z.ltb_spec 8 a3), (Z.ltb_spec AT128_LASER_NUM a2); cbn [orb] in H.
  1-3: inv_ok; cbn; split_and!; [split; [by destruct Hh|done]|done..].
  inv_ok. apply (rd8_range _ _ _ Ehd) in E2, E3. unfold is_u8 in *.
  apply load_raw_shape in E5 as [Hs _]; [|cbn [frame_number channel_number]; lia..|done]. cbn. split; [|done].
  split; [done|]. split; [by intros ? [= <-]|eauto].
Qed.

(** The three fields that are tried are those of a lidar with three fields. *)
Theorem gpu_same_field c Azimuth : at_shape c -> frame_number (at_header c) = 3 -> - 2 ^ 31 <= Azimuth + CIRCLE < 2 ^ 31 ->
  gpu_field c Azimuth = find_field 4 c Azimuth 0 0.
Proof.
  intros [H1 H2 _ _ _ _] Hn Ha. unfold gpu_field, int_ok. destruct (Z.leb_spec (- 2 ^ 31) (Azimuth + CIRCLE)); [|lia].
  destruct (Z.ltb_spec (Azimuth + CIRCLE) (2 ^ 31)); [|lia]. cbn [andb mbind result_bind foldM].
  cbn [find_field]. rewrite Hn. change (0 <? 3) with true. change ((0 + 1) mod 3) with 1. change (0 + 1 <? 3) with true.
  change ((1 + 1) mod 3) with 2. change (0 + 1 + 1 <? 3) with true. change (0 + 1 + 1 + 1 <? 3) with false. cbv iota.
  do 3 (match goal with |- context [arr_get (l_start_frame c) ?i] =>
    let s := fresh "s" in let e := fresh "e" in
    destruct (arr_get_in (l_start_frame c) i ltac:(lia)) as [s ->]; destruct (arr_get_in (l_end_frame c) i ltac:(lia)) as [e ->];
    cbn [mbind result_bind]; destruct (in_field Azimuth s e); cbn [mbind result_bind]; [done|] end).
  done.
Qed.

(** *** The points *)

(** What a thread computes in integers is in range. *)
Definition at_datum_ok (c : PandarATCorrections) (res : Z) (d : PointDecodeData) : Prop :=
  (exists A, to_int (pd_azimuth d) = Ok A /\ - 2 ^ 31 <= A + CIRCLE < 2 ^ 31) /\
  (exists i, offset_row (div32 (pd_azimuth d) (of_Z32 kFineResolutionInt)) = Ok i /\ 0 <= i <= 180) /\
  (forall la, la ∈ l_azimuth c -> - 2 ^ 31 <= la * res < 2 ^ 31).

(** The field of a datum. *)
Definition datum_field (c : PandarATCorrections) (d : PointDecodeData) : result (option Z) :=
  A ← to_int (pd_azimuth d); gpu_field c A.

Lemma gpu_field_total c A : at_shape c -> - 2 ^ 31 <= A + CIRCLE < 2 ^ 31 ->
  exists o, gpu_field c A = Ok o /\ forall f, o = Some f -> 0 <= f < 3.
Proof.
  intros [H1 H2 _ _ _ _] Ha. unfold gpu_field, int_ok. destruct (Z.leb_spec (- 2 ^ 31) (A + CIRCLE)); [|lia].
  destruct (Z.ltb_spec (A + CIRCLE) (2 ^ 31)); [|lia]. cbn [andb mbind result_bind foldM].
  do 3 (match goal with |- context [arr_get (l_start_frame c) ?i] =>
    let s := fresh "s" in let e := fresh "e" in
    destruct (arr_get_in (l_start_frame c) i ltac:(lia)) as [s ->]; destruct (arr_get_in (l_end_frame c) i ltac:(lia)) as [e ->];
    cbn [mbind result_bind]; destruct (in_field A s e); cbn [mbind result_bind];
    [eexists; split; [done|]; intros ? [= <-]; lia|] end).
  by exists None.
Qed.

Lemma gpu_offset_total l ch i alpha : Z.of_nat (length l) = CIRCLE_ANGLE -> 0 <= ch < AT128_LASER_NUM -> 0 <= i <= 180 ->
  is_ok (gpu_offset l ch i alpha) = true.
Proof.
  unfold CIRCLE_ANGLE, AT128_LASER_NUM. intros Hl Hc Hi. unfold gpu_offset, CORRECTION_AZIMUTH_NUM.
  destruct (arr_get_in l (ch * 180 + i)) as [a ->]; [lia|]. destruct (arr_get_in l (ch * 180 + (i + 1))) as [b ->]; [lia|]. done.
Qed.

Lemma at_angles_total c res field ch d : at_shape c -> at_datum_ok c res d -> 0 <= field < 3 -> 0 <= ch < AT128_LASER_NUM ->
  is_ok (at_angles c res field ch (div32 (pd_azimuth d) (of_Z32 kFineResolutionInt))) = true.
Proof.
  intros [H1 H2 H3 H4 H5 H6] (_ & (i & Ei & Hi) & Hla) Hf Hc. unfold at_angles. rewrite Ei. cbn [mbind result_bind].
  set (alpha := sub32 _ _). pose proof (gpu_offset_total _ ch i alpha H5 Hc Hi) as Ha.
  pose proof (gpu_offset_total _ ch i alpha H6 Hc Hi) as He. destruct (gpu_offset (azimuth_offset c) _ _ _); [|done].
  destruct (gpu_offset (elevation_offset c) _ _ _); [|done]. cbn [mbind result_bind].
  destruct (arr_get_in (l_start_frame c) field) as [s ->]; [lia|]. cbn [mbind result_bind].
  destruct (arr_get_in (l_azimuth c) ch) as [la E]; [by rewrite H3|]. rewrite E. apply arr_get_ok in E as [_ E].
  apply list_elem_of_lookup_2, Hla in E. destruct (arr_get_in (l_elevation c) ch) as [le ->]; [by rewrite H4|].
  cbn [mbind result_bind]. unfold int_ok. destruct (Z.leb_spec (- 2 ^ 31) (la * res)); [|lia].
  by destruct (Z.ltb_spec (la * res) (2 ^ 31)); [|lia].
Qed.

Section Points.
Context {P : Type} {PT : PointType P} {L : PointLaws P}.
Variables (s32 c32 : f32 -> f32) (s64 c64 : f64 -> f64).

(** What a thread does: a datum in a field is stored, another one is passed over. *)
Lemma at_kernel_spec t tf lasers unit_ c pd ts p ch i (old : option P) d tm :
  device t = Some c -> at_shape c -> at_datum_ok c (resolution (at_header (m_PandarAT_corrections t))) d ->
  0 < lasers <= AT128_LASER_NUM -> 0 <= ch ->
  array_at kMaxPointsNumPerFrame i pd = Ok d -> array_at kMaxPacketNumPerFrame p ts = Ok tm ->
  exists o x, datum_field c d = Ok o /\ compute_xyzs_v4_3_impl s32 c32 s64 c64 t tf lasers unit_ pd ts p ch i old = Ok x /\
    match o with
    | None => x = None
    | Some _ => exists pt, x = Some pt /\ same_attributes pt (stamped true (Z.rem ch lasers) tm d (default zero_point old))
    end.
Proof.
  intros Hd Hs Hok Hl Hc Ed Et. unfold compute_xyzs_v4_3_impl, datum_field. rewrite Hd, Ed. cbn [of_option mbind result_bind].
  pose proof Hok as ((A & EA & HA) & _ & _). rewrite EA. cbn [mbind result_bind].
  destruct (gpu_field_total c A Hs HA) as (o & -> & Ho). cbn [mbind result_bind]. exists o. destruct o as [field|]; [|by exists None].
  pose proof (Z.rem_bound_pos ch lasers Hc ltac:(lia)) as Hr.
  pose proof (at_angles_total c _ field (Z.rem ch lasers) d Hs Hok (Ho _ eq_refl) ltac:(lia)) as Ha.
  destruct (at_angles _ _ _ _ _) as [[theta phi]|]; [|done]. cbn [mbind result_bind]. rewrite Et. cbn [mbind result_bind].
  eexists. split; [done|]. split; [done|]. eexists. split; [done|]. apply store_point_attributes.
Qed.

(** A frame of PandarAT128 on a device that works: the answer is 0; the point of a
    datum in one of the three fields is written with the members of that datum, and
    the point of any other datum is the one an earlier frame left on the device. *)
Theorem gpu_at_points cu (u : ParserGpu P AtGpu) c frame :
  let per := block_num frame * laser_num frame in
  let res := resolution (at_header (m_PandarAT_corrections (tables u))) in
  ready cu per frame (gpu_base u) -> corrections_loaded_ u = true -> device (tables u) = Some c -> at_shape c ->
  0 < laser_num frame <= AT128_LASER_NUM -> decoded_frame per frame ->
  (forall i d, pointData frame !! i = Some d -> at_datum_ok c res d) ->
  exists u' f', Gpu4_3_ComputeXYZI s32 c32 s64 c64 cu u frame = Ok (0, u', f') /\ f' = set_points (points f') frame /\
    tables u' = tables u /\
    forall p ch, 0 <= p < packet_num frame -> 0 <= ch < per -> let i := p * per + ch in
      exists d t o, pointData frame !! i = Some d /\ sensor_timestamp frame !! p = Some t /\ datum_field c d = Ok o /\
        match o with
        | None => points f' !! i = gpuPtr (frame_ (gpu_base u)) !! i
        | Some _ => exists pt, points f' !! i = Some pt /\
            same_attributes pt (stamped true (Z.rem ch (laser_num frame)) t d
                                  (default zero_point (gpuPtr (frame_ (gpu_base u)) !! i)))
        end.
Proof.
  intros per res R Hl Hdev Hs Hlas Hd Hok. unfold Gpu4_3_ComputeXYZI. rewrite Hl. fold per.
  set (body := compute_xyzs_v4_3_impl _ _ _ _ _ _ _ _). pose proof R as [_ _ _ Hper [_ Hpk] Hpt _ _].
  assert (forall p ch, 0 <= p < packet_num frame -> 0 <= ch < per -> exists d t o x,
    pointData frame !! (p * per + ch) = Some d /\ sensor_timestamp frame !! p = Some t /\ datum_field c d = Ok o /\
    body (sent_data per frame (gpu_base u)) (sent_times frame (gpu_base u)) p ch (p * per + ch)
      (gpuPtr (frame_ (gpu_base u)) !! (p * per + ch)) = Ok x /\
    match o with None => x = None | Some _ => exists pt, x = Some pt /\ same_attributes pt
      (stamped true (Z.rem ch (laser_num frame)) t d (default zero_point (gpuPtr (frame_ (gpu_base u)) !! (p * per + ch)))) end) as Hbody.
  { intros p ch Hp Hch. destruct (Hd p ch Hp Hch) as [[d Ed] [t Et]]. pose proof (Hok _ _ Ed) as Hdok.
    assert (0 <= p * per + ch < packet_num frame * per) as Hi by nia.
    destruct (at_kernel_spec (tables u) (g_transform_ (gpu_base u)) (laser_num frame) (distance_unit frame) c
      (sent_data per frame (gpu_base u)) (sent_times frame (gpu_base u)) p ch (p * per + ch)
      (gpuPtr (frame_ (gpu_base u)) !! (p * per + ch)) d t Hdev Hs Hdok Hlas (proj1 Hch)) as (o & x & Ho & Ex & Hx).
    - rewrite sent_data_array_at by done. apply array_at_ok; [lia|done].
    - rewrite sent_times_array_at by done. apply array_at_ok; [lia|done].
    - by exists d, t, o, x. }
  destruct (gpu_compute_points cu per frame (gpu_base u) R body) as (g' & f' & -> & Hf & Hin & _).
  { intros p ch Hp Hch. destruct (Hbody p ch Hp Hch) as (d & t & o & x & _ & _ & _ & -> & _). done. }
  cbn [mbind result_bind]. eexists _, f'. split; [done|]. split; [done|]. split; [done|]. intros p ch Hp Hch.
  destruct (Hbody p ch Hp Hch) as (d & t & o & x & Ed & Et & Ho & Ex & Hx). exists d, t, o. do 3 (split; [done|]).
  destruct (Hin p ch Hp Hch) as (x' & Ex' & Ei & _). rewrite Ex in Ex'. apply (inj Ok) in Ex' as <-.
  destruct o; [destruct Hx as (pt & -> & Hsame); by exists pt|]. subst x. exact Ei.
Qed.

End Points.
End At128Facts.

(** ** Theorems: ATX *)

Module AtxFacts.
Import Atx.

Section Points.
Context {P : Type} {PT : PointType P} {L : PointLaws P}.
Variables (s32 c32 : f32 -> f32) (s64 c64 : f64 -> f64).

Lemma atx_kernel_stamps t tf lasers unit_ :
  stamps true (by_laser lasers) (compute_xyzs_v4_7_impl (P := P) s32 c32 s64 c64 t tf lasers unit_).
Proof.
  intros pd ts p c i old x. unfold compute_xyzs_v4_7_impl. rewrite bind_ok. intros (d & Hd & H). cbv zeta in H. revert H.
  do 3 (rewrite bind_ok; intros (? & _ & H); revert H). rewrite bind_ok. intros (tm & Ht & H). apply (inj Ok) in H as <-.
  exists d, tm, (Z.rem c lasers). eexists. split; [done|]. split; [done|]. split; [done|]. split; [reflexivity|].
  apply store_point_attributes.
Qed.

(** The decoder of the device and [Udp4_7Parser] agree on a packet, up to the
    coordinates. *)
Theorem gpu_atx_agrees_with_cpu sinT cosT cu (u : ParserGpu P AtxGpu) (v : Udp4_7Parser) frame n r v' f r' u' f' :
  let per := block_num frame * laser_num frame in
  ready cu per frame (gpu_base u) -> corrections_loaded_ u = true -> 0 < laser_num frame ->
  0 <= n < packet_num frame -> 0 <= block_num frame -> per_points_num frame = per -> fov_start frame = -1 ->
  (forall i, same_attributes (default zero_point (gpuPtr (frame_ (gpu_base u)) !! i)) (default zero_point (points frame !! i))) ->
  Udp4_7.ComputeXYZI sinT cosT s32 c32 v frame n = Ok (r, v', f) ->
  Gpu4_7_ComputeXYZI s32 c32 s64 c64 cu u frame = Ok (r', u', f') ->
  r' = 0 /\ forall i, n * per <= i < (n + 1) * per ->
    exists a b, points f !! i = Some a /\ points f' !! i = Some b /\ same_attributes a b.
Proof.
  intros per R Hl Hlas Hn Hb Hper Hfov Hold E G. unfold Gpu4_7_ComputeXYZI in G. rewrite Hl in G. fold per in G.
  rewrite bind_ok in G. destruct G as ([[r1 g1] f1] & G & Hr). apply (inj Ok) in Hr as [= <- _ <-].
  destruct (gpu_compute_inv cu per frame (gpu_base u) R _ _ _ _ G) as [-> Hc]. split; [done|].
  unfold Udp4_7.ComputeXYZI in E. rewrite bind_ok in E. destruct E as (pts & E & Ef). apply (inj Ok) in Ef as [= _ _ <-].
  cbn [points set_points].
  apply (each_point_agrees cu _ frame (gpu_base u) true _ _ _ _ R Hlas Hn Hb Hper eq_refl E Hold).
  - intros b i j old pt. unfold Udp4_7.compute_point. rewrite bind_ok. intros (d & Hd & H). revert H.
    rewrite bind_ok. intros (A & _ & H). revert H. rewrite bind_ok. intros ([az el] & _ & H).
    apply place_point_attributes in H as (t & Ht & H); [|unfold outside_fov; by rewrite Hfov]. by exists d, t.
  - intros c Hcr. destruct (computed_stamps _ _ _ _ _ _ _ _ (atx_kernel_stamps _ _ _ _) Hc n c Hn Hcr)
      as (d & t & ring & pt & Ed & Et & Er & Ep & Hs). apply (inj Ok) in Er as <-. by exists d, t, pt.
Qed.

(** With a calibration of version 3, a thread between 2 and 18 degrees reads in
    front of the adjustments: the test has the step in place of the begin. *)
Theorem gpu_atx_reads_before_table t tf lasers unit_ pd ts p c i (old : option P) d elevations elevation adjust index :
  atx_version (atx_header (m_ATX_corrections t)) = 3 -> deles_cu t = Some adjust ->
  channel_elevations_cu_ t = Some elevations -> arr_get (A := f32) elevations (Z.rem c lasers) = Ok elevation ->
  array_at kMaxPointsNumPerFrame i pd = Ok d ->
  let azimuth := div32 (pd_azimuth d) (of_Z32 kAllFineResolution) in
  SFleb StepElevationAdjust azimuth = true -> SFleb azimuth EndElevationAdjust = true ->
  adjust_index azimuth = Ok index -> index < 0 ->
  compute_xyzs_v4_7_impl s32 c32 s64 c64 t tf lasers unit_ pd ts p c i old = Err OutOfBounds.
Proof.
  intros Hv Ha Hes He Hd azimuth H1 H2 Hi Hn. unfold compute_xyzs_v4_7_impl. rewrite Hd. cbn [mbind result_bind]. fold azimuth.
  rewrite Hes. cbn [of_option mbind result_bind]. rewrite He. cbn [mbind result_bind]. unfold adjusted_elevation. rewrite Hv, H1, H2.
  cbn [Z.eqb Pos.eqb andb]. rewrite Hi, Ha. cbn [of_option mbind result_bind]. rewrite (arr_get_out (A := f32) adjust index) by lia. done.
Qed.

End Points.
End AtxFacts.

(** ** Theorems: PandarFT120 *)

Module FtFacts.
Import Ft120.

(** The answer of the loader is inverted: a file that is not a binary one is
    answered with 0 and loads nothing, and every frame is refused afterwards; a
    binary file is read again as a text. *)
Theorem gpu_ft_text_never_loads {P} cu (fs : string -> option string) path content (u u1 : ParserGpu P FtGpu) r :
  fs path = Some content -> LoadCorrectionDatData cu (bytes_of content) u = Ok (r, u1) ->
  (r <> 0 -> u1 = u /\ Gpu7_2_LoadCorrectionFile cu fs path u = Ok (0, u) /\
     forall (PT : PointType P) s32 c32 frame, corrections_loaded_ u = false ->
       Gpu7_2_ComputeXYZI s32 c32 cu u frame = Ok (code CorrectionsUnloaded, u, frame)) /\
  (r = 0 -> Gpu7_2_LoadCorrectionFile cu fs path u =
     (s ← c_string content; '(ret, u2) ← LoadCorrectionCsvData cu s u1; Ok (if ret =? 0 then 0 else -1, u2))).
Proof.
  intros Hp Hd. unfold Gpu7_2_LoadCorrectionFile, Gpu_LoadCorrectionFile, Gpu7_2_LoadCorrectionString. rewrite Hp, Hd.
  cbn [mbind result_bind]. split.
  - intros Hr. assert (u1 = u) as ->.
    { unfold LoadCorrectionDatData, loaded in Hd. inv_ok.
      destruct a as [|p0 [|p1 [|v0 [|v1 [|a [|b [|cn [|ch [|rs [|]]]]]]]]]]; try done.
      destruct (_ && _); [|by inv_ok]. destruct (v1 =? 0); [by inv_ok|]. destruct (v1 =? 1); by inv_ok. }
    split; [done|]. destruct (Z.eqb_spec r 0); [done|]. split; [done|]. intros PT s32 c32 frame Hl.
    unfold Gpu7_2_ComputeXYZI, Gpu_ComputeXYZI. rewrite Hl. cbn. unfold set_gpu_base. destruct u; cbn in *. by subst.
  - intros ->. cbn [Z.eqb negb]. destruct (c_string content); cbn [mbind result_bind]; [|done]. done.
Qed.

Section Points.
Context {P : Type} {PT : PointType P} {L : PointLaws P}.
Variables (s32 c32 : f32 -> f32).

Lemma ft_kernel_stamps tf lasers unit_ : stamps false (by_laser lasers) (compute_xyzs_7_2_impl (P := P) s32 c32 tf lasers unit_).
Proof.
  intros pd ts p c i old x. unfold compute_xyzs_7_2_impl. rewrite bind_ok. intros (d & Hd & H). cbv zeta in H.
  rewrite bind_ok in H. destruct H as (tm & Ht & H). apply (inj Ok) in H as <-.
  exists d, tm, (Z.rem c lasers). eexists. split; [done|]. split; [done|]. split; [done|]. split; [reflexivity|].
  apply store_point_attributes.
Qed.

(** Every decoded frame of PandarFT120 is computed, each point with the members of
    its datum. *)
Theorem gpu_ft_points cu (u : ParserGpu P FtGpu) frame :
  let per := block_num frame * laser_num frame in
  ready cu per frame (gpu_base u) -> corrections_loaded_ u = true -> decoded_frame per frame ->
  exists u' f', Gpu7_2_ComputeXYZI s32 c32 cu u frame = Ok (0, u', f') /\ f' = set_points (points f') frame /\
    forall p c, 0 <= p < packet_num frame -> 0 <= c < per -> let i := p * per + c in
      exists d t pt, array_at kMaxPointsNumPerFrame i (pointData frame) = Ok d /\
        array_at kMaxPacketNumPerFrame p (sensor_timestamp frame) = Ok t /\ points f' !! i = Some pt /\
        same_attributes pt (stamped false (Z.rem c (laser_num frame)) t d
                              (default zero_point (gpuPtr (frame_ (gpu_base u)) !! i))).
Proof.
  intros per R Hl Hd. unfold Gpu7_2_ComputeXYZI. rewrite Hl. fold per. set (body := compute_xyzs_7_2_impl _ _ _ _ _).
  pose proof R as [_ _ _ _ [_ Hpk] Hpt _ _].
  destruct (gpu_compute_points cu per frame (gpu_base u) R body) as (g' & f' & -> & Hc).
  { intros p c Hp Hcr. destruct (decoded_frame_at per frame p c Hd Hpk Hpt Hp Hcr) as (d & t & Ed & Et).
    unfold body, compute_xyzs_7_2_impl. rewrite sent_data_array_at by done. rewrite Ed. cbn [mbind result_bind].
    rewrite sent_times_array_at by done. by rewrite Et. }
  cbn [mbind result_bind]. eexists _, f'. split; [done|]. split; [apply Hc|]. intros p c Hp Hcr.
  destruct (computed_stamps _ _ _ _ _ _ _ _ (ft_kernel_stamps _ _ _) Hc p c Hp Hcr) as (d & t & ring & pt & Ed & Et & Er & Ep & Hs).
  apply (inj Ok) in Er as <-. by exists d, t, pt.
Qed.

End Points.
End FtFacts.

(** ** Witnesses *)

Module GpuAtWitnesses.
Import At128 At128Facts FtFacts Ft120.

(** A file of PandarAT128 with three fields and one channel. *)
Definition demo_at_block : list Z :=
  [0xee; 0xff; 1; 5; 1; 0; 3] ++ replicate 8 0 ++ [1] ++
  [0; 0; 0; 0; 0; 0x80; 0; 0; 0; 0; 1; 0] ++ [0; 0x70; 0; 0; 0; 0xf0; 0; 0; 0; 0x70; 1; 0] ++
  [0; 0; 0; 0] ++ [0; 0; 0; 0] ++ replicate 360 1 ++ replicate 32 0.
Definition demo_at_gpu : ParserGpu LidarPointXYZI AtGpu := mk_parser_gpu demo_gpu false (mk_at_gpu PandarATCorrections_new None).

Lemma demo_at_well_formed : at_well_formed demo_at_gpu.
Proof. split; [exact at_shape_new|]. done. Qed.

Lemma gpu_at_load_well_formed_witness : exists u', At128.LoadCorrectionString working demo_at_block demo_at_gpu = Ok (0, u') /\
  at_well_formed u' /\ corrections_loaded_ u' = true.
Proof.
  assert (match At128.LoadCorrectionString working demo_at_block demo_at_gpu with Ok (r, _) => r | Err _ => 1 end = 0) as Hok
    by (vm_compute; reflexivity).
  destruct (At128.LoadCorrectionString working demo_at_block demo_at_gpu) as [[r u']|] eqn:E; [|done]. subst r. exists u'.
  assert (byte_list demo_at_block) as Hb by by apply byte_list_check.
  destruct (gpu_at_load_well_formed working demo_at_block demo_at_gpu 0 u' Hb demo_at_well_formed E) as (H1 & _ & H2 & _).
  split; [done|]. split; [done|]. by apply H2.
Defined.

(** The first of two points is in a field, the second is not. *)
Definition demo_at_fields : PandarATCorrections :=
  mk_at (mk_at_header 2 3 1) [0; 51200; 102400; 0; 0; 0; 0; 0] [5120; 56320; 107520; 0; 0; 0; 0; 0] (zeros AT128_LASER_NUM)
    (zeros AT128_LASER_NUM) (zeros CIRCLE_ANGLE) (zeros CIRCLE_ANGLE).
Definition demo_at_loaded : ParserGpu LidarPointXYZI AtGpu := mk_parser_gpu demo_gpu true (mk_at_gpu demo_at_fields (Some demo_at_fields)).
Definition demo_at_datum (az v : Z) : PointDecodeData := mk_pdd (of_Z32 az) f_zero v v (Some 1) None None.
Definition demo_at_frame : LidarDecodedFrame LidarPointXYZI :=
  set_pointData (<[0 := demo_at_datum 2560 7]> (<[1 := demo_at_datum 20480 8]> ∅)) demo_gpu_frame.

Lemma demo_at_shape : at_shape demo_at_fields.
Proof. split; first [by apply zeros_length|done]. Qed.

Lemma demo_at_frame_ready : Gpu.ready working 2 demo_at_frame demo_gpu.
Proof. destruct demo_gpu_ready as [H1 H2 H3 H4 H5 H6 H7 H8]. by split. Qed.

Lemma demo_at_frame_decoded : decoded_frame 2 demo_at_frame.
Proof.
  intros p c Hp Hc. change (packet_num demo_at_frame) with 1 in Hp. assert (p = 0) as -> by lia.
  assert (c = 0 \/ c = 1) as [-> | ->] by lia; (split; eexists; vm_compute; reflexivity).
Qed.

Lemma demo_at_data_ok i d : pointData demo_at_frame !! i = Some d -> at_datum_ok demo_at_fields 1 d.
Proof.
  assert (forall la, la ∈ l_azimuth demo_at_fields -> - 2 ^ 31 <= la * 1 < 2 ^ 31) as Hla.
  { intros la Hla. cbn [l_azimuth demo_at_fields] in Hla. unfold zeros in Hla. apply list_elem_of_lookup in Hla as [k Hk].
    apply lookup_replicate in Hk as [-> _]. lia. }
  cbn [pointData demo_at_frame set_pointData].
  intros H. apply lookup_insert_Some in H as [[_ <-]|[_ H]]; [|apply lookup_insert_Some in H as [[_ <-]|[_ H]]; [|by rewrite lookup_empty in H]].
  - split; [exists 2560; split; [vm_compute; reflexivity|unfold CIRCLE; lia]|]. split; [exists 0; split; [vm_compute; reflexivity|lia]|done].
  - split; [exists 20480; split; [vm_compute; reflexivity|unfold CIRCLE; lia]|]. split; [exists 0; split; [vm_compute; reflexivity|lia]|done].
Qed.

Lemma gpu_at_points_witness : exists u' f' pt, Gpu4_3_ComputeXYZI id id id id working demo_at_loaded demo_at_frame = Ok (0, u', f') /\
  points f' !! 0 = Some pt /\ same_attributes pt (stamped true 0 5 (demo_at_datum 2560 7) zero_point) /\
  points f' !! 1 = gpuPtr (frame_ demo_gpu) !! 1.
Proof.
  destruct (gpu_at_points id id id id working demo_at_loaded demo_at_fields demo_at_frame) as (u' & f' & E & _ & _ & Hin);
    [exact demo_at_frame_ready|done|done|exact demo_at_shape|done|exact demo_at_frame_decoded|exact demo_at_data_ok|].
  destruct (Hin 0 0) as (d & t & o & Ed & Et & Eo & Ho); [vm_compute; split; congruence..|].
  destruct (Hin 0 1) as (d1 & t1 & o1 & Ed1 & Et1 & Eo1 & Ho1); [vm_compute; split; congruence..|].
  assert (d = demo_at_datum 2560 7) as -> by (apply (inj Some); rewrite <-Ed; vm_compute; reflexivity).
  assert (d1 = demo_at_datum 20480 8) as -> by (apply (inj Some); rewrite <-Ed1; vm_compute; reflexivity).
  assert (t = 5) as -> by (apply (inj Some); rewrite <-Et; vm_compute; reflexivity).
  assert (o = Some 0) as -> by (apply (inj Ok); rewrite <-Eo; vm_compute; reflexivity).
  assert (o1 = None) as -> by (apply (inj Ok); rewrite <-Eo1; vm_compute; reflexivity).
  destruct Ho as (pt & Ep & Hs). exists u', f', pt. split; [exact E|]. split; [exact Ep|]. split; [exact Hs|exact Ho1].
Defined.

(** A text file of PandarFT120. *)
Definition demo_ft_gpu : ParserGpu LidarPointXYZI FtGpu := mk_parser_gpu demo_gpu false None.
Definition demo_ft_text : string :=
  String.append "Laser,Column,Elevation,Azimuth" (String newline (String.append "1,1,2.5,1.5" (String Ascii.zero EmptyString))).

Lemma gpu_ft_text_never_loads_witness :
  Gpu7_2_LoadCorrectionFile working (fun _ => Some demo_ft_text) "angles.csv" demo_ft_gpu = Ok (0, demo_ft_gpu) /\
  Gpu7_2_ComputeXYZI id id working demo_ft_gpu demo_gpu_frame = Ok (1, demo_ft_gpu, demo_gpu_frame).
Proof.
  assert (LoadCorrectionDatData working (bytes_of demo_ft_text) demo_ft_gpu = Ok (-1, demo_ft_gpu)) as E by (vm_compute; reflexivity).
  destruct (gpu_ft_text_never_loads working (fun _ => Some demo_ft_text) "angles.csv" demo_ft_text demo_ft_gpu demo_ft_gpu (-1) eq_refl E)
    as [H _]. destruct (H ltac:(done)) as (_ & H1 & H2). split; [exact H1|]. by apply H2.
Defined.

End GpuAtWitnesses.
