(* ===== verification/GpuParser.v ===== *)
(** * GpuParser: the object that chooses a decoder for the CUDA device

    UdpParserGpu/udp_parser_gpu.cu and udp_parser_gpu.h.  A decoder is made from
    the lidar's name or, when a frame is computed without one, from the version
    of the protocol; every call is handed to it.  The decoders are those of
    GpuSpinning.v, GpuEt.v and GpuAt.v; their virtual functions are functions by
    cases here. *)

From S2P Require Import Prelude Bytes Text Streams Floats LidarTypes GeneralParser Decoder UdpParser Udp1_4 Points Walk.
From S2P Require Import Gpu GpuSpinning GpuEt GpuAt.
Local Open Scope Z_scope.

(** A class that derives from [GeneralParserGpu]. *)
Inductive gpu_kind : Set := KSpinning (k : gpu_spinning) | K2_5 | K4_3 | K4_7 | K7_2.

#[export] Instance gpu_spinning_eq_dec : EqDecision gpu_spinning.
Proof. solve_decision. Defined.
#[export] Instance gpu_kind_eq_dec : EqDecision gpu_kind.
Proof. solve_decision. Defined.

(** An object of such a class. *)
Inductive GpuDecoder (P : Type) : Type :=
| DSpinning (k : gpu_spinning) (u : ParserGpu P Angles)
| D2_5 (u : ParserGpu P EtGpu)
| D4_3 (u : ParserGpu P At128.AtGpu)
| D4_7 (u : ParserGpu P Atx.AtxGpu)
| D7_2 (u : ParserGpu P Ft120.FtGpu).
Arguments DSpinning {P}.
Arguments D2_5 {P}.
Arguments D4_3 {P}.
Arguments D4_7 {P}.
Arguments D7_2 {P}.

(** ** Which decoder *)

Definition gpu_kind_of_version (major minor : Z) : option gpu_kind :=
  match major, minor with
  | 4, 1 | 4, 3 => Some K4_3
  | 1, 1 | 1, 4 => Some (KSpinning Gpu1_4)
  | 2, 5 => Some K2_5
  | 3, 1 => Some (KSpinning Gpu3_1)
  | 3, 2 => Some (KSpinning Gpu3_2)
  | 6, 1 => Some (KSpinning Gpu6_1)
  | 7, 2 => Some K7_2
  | _, _ => None
  end.

(** The tests of [SetLidarType] one after the other; no name is in two of them. *)
Definition gpu_names : list (list string * gpu_kind) := [
  (["Pandar40"; "Pandar40P"]%string, KSpinning GpuP40);
  (["Pandar64"]%string, KSpinning GpuP64);
  (["AT128"; "AT128E2X"; "AT128E3X"]%string, K4_3);
  (["ATX"]%string, K4_7);
  (["Pandar128E3X"; "Pandar128"]%string, KSpinning Gpu1_4);
  (["Pandar90"; "Pandar90E3X"]%string, KSpinning Gpu1_4);
  (["Pandar64S"; "Pandar64E3X"]%string, KSpinning Gpu1_4);
  (["Pandar40S"; "Pandar40E3X"]%string, KSpinning Gpu1_4);
  (["PandarQT"]%string, KSpinning Gpu3_1);
  (["PandarQT128"; "QT128C2X"]%string, KSpinning Gpu3_2);
  (["PandarXT"]%string, KSpinning Gpu6_1);
  (["PandarXT16"; "PandarXT-16"]%string, KSpinning Gpu6_1);
  (["PandarXT32"; "PandarXT-32"]%string, KSpinning Gpu6_1);
  (["PandarXTM"; "XT32M2X"]%string, KSpinning Gpu6_1);
  (["PandarFT120"; "FT120C1X"]%string, K7_2);
  (["ET"; "ET25"; "ET25-E2X"]%string, K2_5)].

Definition gpu_kind_of_name (lidar_type : string) : option gpu_kind :=
  snd <$> find (fun e => bool_decide (lidar_type ∈ e.1)) gpu_names.

Section GpuParser.
Context {P : Type} {PT : PointType P}.
Variables (sin32 cos32 atan32 asin32 tan32 : f32 -> f32) (sin64 cos64 tan64 : f64 -> f64).
(** The CUDA device, and what an uninitialised transform holds. *)
Variables (cu : Cuda) (junk : Transform).

Definition new_decoder (k : gpu_kind) : result (GpuDecoder P) :=
  match k with
  | KSpinning Gpu6_1 => u ← Gpu6_1_new cu junk; Ok (DSpinning Gpu6_1 u)
  | KSpinning k => u ← spinning_new cu junk; Ok (DSpinning k u)
  | K2_5 => u ← Gpu2_5_new cu junk; Ok (D2_5 u)
  | K4_3 => u ← At128.Gpu4_3_new cu junk; Ok (D4_3 u)
  | K4_7 => u ← Atx.Gpu4_7_new cu junk; Ok (D4_7 u)
  | K7_2 => u ← Ft120.Gpu7_2_new cu junk; Ok (D7_2 u)
  end.

(** ** The virtual functions *)

Definition v_ComputeXYZI (g : GpuDecoder P) (frame : LidarDecodedFrame P) : result (Z * GpuDecoder P * LidarDecodedFrame P) :=
  match g with
  | DSpinning k u => '(r, u, f) ← spinning_ComputeXYZI sin32 cos32 atan32 asin32 k cu u frame; Ok (r, DSpinning k u, f)
  | D2_5 u => '(r, u, f) ← Gpu2_5_ComputeXYZI sin32 cos32 sin64 cos64 tan64 tan32 cu u frame; Ok (r, D2_5 u, f)
  | D4_3 u => '(r, u, f) ← At128.Gpu4_3_ComputeXYZI sin32 cos32 sin64 cos64 cu u frame; Ok (r, D4_3 u, f)
  | D4_7 u => '(r, u, f) ← Atx.Gpu4_7_ComputeXYZI sin32 cos32 sin64 cos64 cu u frame; Ok (r, D4_7 u, f)
  | D7_2 u => '(r, u, f) ← Ft120.Gpu7_2_ComputeXYZI sin32 cos32 cu u frame; Ok (r, D7_2 u, f)
  end.

Definition v_LoadCorrectionString (block : string) (g : GpuDecoder P) : result (Z * GpuDecoder P) :=
  match g with
  | DSpinning k u => '(r, u) ← LoadCorrectionString_text cu block u; Ok (r, DSpinning k u)
  | D2_5 u => '(r, u) ← Gpu2_5_LoadCorrectionString cu block u; Ok (r, D2_5 u)
  | D4_3 u => '(r, u) ← At128.Gpu4_3_LoadCorrectionString cu block u; Ok (r, D4_3 u)
  | D4_7 u => '(r, u) ← Atx.Gpu4_7_LoadCorrectionString cu block u; Ok (r, D4_7 u)
  | D7_2 u => '(r, u) ← Ft120.Gpu7_2_LoadCorrectionString cu block u; Ok (r, D7_2 u)
  end.

Definition v_LoadCorrectionFile (fs : string -> option string) (path : string) (g : GpuDecoder P) : result (Z * GpuDecoder P) :=
  Gpu_LoadCorrectionFile v_LoadCorrectionString fs path g.

(** The members of the base class. *)
Definition base_of (g : GpuDecoder P) : GeneralParserGpu P :=
  match g with
  | DSpinning _ u => gpu_base u | D2_5 u => gpu_base u | D4_3 u => gpu_base u | D4_7 u => gpu_base u | D7_2 u => gpu_base u
  end.
Definition with_base (b : GeneralParserGpu P) (g : GpuDecoder P) : GpuDecoder P :=
  match g with
  | DSpinning k u => DSpinning k (set_gpu_base b u)
  | D2_5 u => D2_5 (set_gpu_base b u)
  | D4_3 u => D4_3 (set_gpu_base b u)
  | D4_7 u => D4_7 (set_gpu_base b u)
  | D7_2 u => D7_2 (set_gpu_base b u)
  end.
Definition loaded_ (g : GpuDecoder P) : bool :=
  match g with
  | DSpinning _ u => corrections_loaded_ u | D2_5 u => corrections_loaded_ u | D4_3 u => corrections_loaded_ u
  | D4_7 u => corrections_loaded_ u | D7_2 u => corrections_loaded_ u
  end.

(** ** The object *)

Record UdpParserGpu : Type := mk_udp_parser_gpu { m_generalParserGpu : option (GpuDecoder P) }.
Definition UdpParserGpu_new : UdpParserGpu := mk_udp_parser_gpu None.

(** An existing decoder is kept. *)
Definition create_decoder (k : option gpu_kind) (u : UdpParserGpu) : result UdpParserGpu :=
  match m_generalParserGpu u, k with
  | None, Some k => g ← new_decoder k; Ok (mk_udp_parser_gpu (Some g))
  | _, _ => Ok u
  end.
Definition gpu_CreatGeneralParser (major minor : Z) (u : UdpParserGpu) : result UdpParserGpu :=
  create_decoder (gpu_kind_of_version major minor) u.
Definition gpu_SetLidarType (lidar_type : string) (u : UdpParserGpu) : result UdpParserGpu :=
  create_decoder (gpu_kind_of_name lidar_type) u.

Definition gpu_LoadCorrectionString (block : string) (u : UdpParserGpu) : result (Z * UdpParserGpu) :=
  match m_generalParserGpu u with
  | Some g => '(r, g) ← v_LoadCorrectionString block g; Ok (r, mk_udp_parser_gpu (Some g))
  | None => Ok (-1, u)
  end.
Definition gpu_LoadCorrectionFile (fs : string -> option string) (path : string) (u : UdpParserGpu) : result (Z * UdpParserGpu) :=
  match m_generalParserGpu u with
  | Some g => '(r, g) ← v_LoadCorrectionFile fs path g; Ok (r, mk_udp_parser_gpu (Some g))
  | None => Ok (-1, u)
  end.

(** A call of a member of the base class. *)
Definition on_base (k : GeneralParserGpu P -> GeneralParserGpu P) (u : UdpParserGpu) : Z * UdpParserGpu :=
  match m_generalParserGpu u with
  | Some g => (0, mk_udp_parser_gpu (Some (with_base (k (base_of g)) g)))
  | None => (-1, u)
  end.

(** The answer of the member is dropped. *)
Definition gpu_LoadFiretimesString (content : string) : UdpParserGpu -> Z * UdpParserGpu :=
  on_base (fun b => snd (Gpu_LoadFiretimesString content b)).
Definition gpu_LoadFiretimesFile (fs : string -> option string) (path : string) (u : UdpParserGpu) : result UdpParserGpu :=
  match m_generalParserGpu u with
  | Some g => b ← Gpu_LoadFiretimesFile fs path (base_of g); Ok (mk_udp_parser_gpu (Some (with_base b g)))
  | None => Ok u
  end.
Definition gpu_SetTransformPara (x y z roll pitch yaw : f32) : UdpParserGpu -> Z * UdpParserGpu :=
  on_base (Gpu_SetTransformPara x y z roll pitch yaw).
Definition gpu_SetOpticalCenterCoordinates (lidar_type : string) : UdpParserGpu -> Z * UdpParserGpu :=
  on_base (Gpu_SetOpticalCenterCoordinates lidar_type).
Definition gpu_SetXtSpotCorrecion (lidar_type : string) (u : UdpParserGpu) : Z * UdpParserGpu :=
  match m_generalParserGpu u with
  | Some g => let '(r, b) := Gpu_SetXtSpotCorrecion lidar_type (base_of g) in (r, mk_udp_parser_gpu (Some (with_base b g)))
  | None => (-1, u)
  end.

(** A decoder is made when there is none, and called whether or not one was made;
    what it answers is dropped. *)
Definition gpu_ComputeXYZI (u : UdpParserGpu) (frame : LidarDecodedFrame P) : result (Z * UdpParserGpu * LidarDecodedFrame P) :=
  u ← (match m_generalParserGpu u with
       | None => gpu_CreatGeneralParser (major_version frame) (minor_version frame) u
       | Some _ => Ok u
       end);
  g ← of_option NullPointer (m_generalParserGpu u);
  '(_, g, f) ← v_ComputeXYZI g frame;
  Ok (0, mk_udp_parser_gpu (Some g), f).

End GpuParser.
Arguments UdpParserGpu : clear implicits.

(** ** Lemmas: what a decoder does to a frame *)

(** A frame is refused whole, or only its points change. *)
Lemma gpu_compute_frame {P} cu loaded per k (g : GeneralParserGpu P) frame r g' f' :
  Gpu_ComputeXYZI cu loaded per k g frame = Ok (r, g', f') ->
  f' = set_points (points f') frame /\ (r <> 0 -> f' = frame).
Proof.
  intros H. destruct (gpu_compute_cases _ _ _ _ _ _ _ _ _ H) as [(-> & _)|(pts & h & _ & Hc)]; [by destruct frame|].
  unfold copy_back in Hc. destruct (DeviceToHost _ _ _ _ _); cbn [mbind result_bind] in Hc; [|done].
  apply (inj Ok) in Hc as [= <- _ <-]. done.
Qed.

Lemma gpu_compute_unloaded {P} cu per k (g : GeneralParserGpu P) frame :
  Gpu_ComputeXYZI cu false per k g frame = Ok (code CorrectionsUnloaded, g, frame).
Proof. done. Qed.

Lemma set_gpu_base_same {P C} (u : ParserGpu P C) : set_gpu_base (gpu_base u) u = u.
Proof. by destruct u. Qed.

Section Decoders.
Context {P : Type} {PT : PointType P}.
Variables (s32 c32 at32 as32 t32 : f32 -> f32) (s64 c64 t64 : f64 -> f64) (cu : Cuda) (junk : Transform).
Notation v_Compute := (v_ComputeXYZI s32 c32 at32 as32 t32 s64 c64 t64 cu).
Notation new := (new_decoder cu junk).

Lemma v_compute_frame (g : GpuDecoder P) frame r g' f' : v_Compute g frame = Ok (r, g', f') ->
  f' = set_points (points f') frame /\ (r <> 0 -> f' = frame) /\ loaded_ g' = loaded_ g.
Proof.
  destruct g as [k u|u|u|u|u]; cbn [v_ComputeXYZI]; rewrite bind_ok; intros ([[r1 u1] f1] & E & H);
    apply (inj Ok) in H as [= <- <- <-]; [unfold spinning_ComputeXYZI in E|unfold Gpu2_5_ComputeXYZI, et_ComputeXYZI in E
      |unfold At128.Gpu4_3_ComputeXYZI in E|unfold Atx.Gpu4_7_ComputeXYZI in E|unfold Ft120.Gpu7_2_ComputeXYZI in E];
    rewrite bind_ok in E; destruct E as ([[r2 g2] f2] & E & H); apply (inj Ok) in H as [= <- <- <-];
    apply gpu_compute_frame in E as [H1 H2]; done.
Qed.

(** A decoder without its calibration answers 1 and does nothing. *)
Lemma v_compute_unloaded (g : GpuDecoder P) frame : loaded_ g = false -> v_Compute g frame = Ok (code CorrectionsUnloaded, g, frame).
Proof.
  destruct g as [k u|u|u|u|u]; cbn [v_ComputeXYZI loaded_]; intros Hl;
    [unfold spinning_ComputeXYZI|unfold Gpu2_5_ComputeXYZI, et_ComputeXYZI
      |unfold At128.Gpu4_3_ComputeXYZI|unfold Atx.Gpu4_7_ComputeXYZI|unfold Ft120.Gpu7_2_ComputeXYZI];
    rewrite Hl, gpu_compute_unloaded; cbn [mbind result_bind]; by rewrite set_gpu_base_same.
Qed.

Lemma new_decoder_unloaded k (g : GpuDecoder P) : new k = Ok g -> loaded_ g = false.
Proof.
  assert (forall C (c : C) (u : ParserGpu P C), ParserGpu_new cu junk c = Ok u -> corrections_loaded_ u = false) as Hn.
  { intros C c u. unfold ParserGpu_new. rewrite bind_ok. intros (g0 & _ & H). by apply (inj Ok) in H as <-. }
  intros H. destruct k as [[]| | | |]; cbn [new_decoder] in H; rewrite bind_ok in H; destruct H as (u & E & H);
    apply (inj Ok) in H as <-; cbn [loaded_]; try by eapply Hn.
  unfold Gpu6_1_new in E. rewrite bind_ok in E. destruct E as (u1 & E1 & E). apply Hn in E1.
  destruct (_ && _ && _); [|by apply (inj Ok) in E as <-]. rewrite bind_ok in E. destruct E as ([] & _ & E).
  by apply (inj Ok) in E as <-.
Qed.

Lemma base_of_with b (g : GpuDecoder P) : base_of (with_base b g) = b.
Proof. by destruct g. Qed.

(** *** The object *)

Notation Compute_ := (gpu_ComputeXYZI s32 c32 at32 as32 t32 s64 c64 t64 cu junk).

(** C39: the answer is always 0, also for a frame the decoder refused, whose points are
    then those of an earlier frame; a decoder made for the frame itself has no
    calibration and refuses it, and where the version has no decoder a null
    pointer is used. *)
Theorem gpu_refusal_hidden (u : UdpParserGpu P) frame :
  (forall g r g' f', m_generalParserGpu u = Some g -> v_Compute g frame = Ok (r, g', f') ->
     Compute_ u frame = Ok (0, mk_udp_parser_gpu (Some g'), f') /\ (r <> 0 -> f' = frame)) /\
  (m_generalParserGpu u = None ->
     match gpu_kind_of_version (major_version frame) (minor_version frame) with
     | None => Compute_ u frame = Err NullPointer
     | Some k => forall g, new k = Ok g -> Compute_ u frame = Ok (0, mk_udp_parser_gpu (Some g), frame)
     end).
Proof.
  split.
  - intros g r g' f' Hg E. unfold gpu_ComputeXYZI. rewrite Hg. cbn [mbind result_bind]. rewrite Hg. cbn [of_option mbind result_bind].
    rewrite E. cbn [mbind result_bind]. split; [done|]. by apply v_compute_frame in E as (_ & ? & _).
  - intros Hn. unfold gpu_ComputeXYZI, gpu_CreatGeneralParser, create_decoder. rewrite Hn.
    destruct (gpu_kind_of_version _ _) as [k|]; [|cbn [mbind result_bind]; by rewrite Hn].
    intros g Eg. rewrite Eg. cbn [mbind result_bind m_generalParserGpu of_option].
    rewrite v_compute_unloaded by by eapply new_decoder_unloaded. done.
Qed.

(** A frame changes in its points only. *)
Lemma gpu_compute_same_frame (u : UdpParserGpu P) frame r u' f' : Compute_ u frame = Ok (r, u', f') ->
  r = 0 /\ f' = set_points (points f') frame.
Proof.
  unfold gpu_ComputeXYZI. rewrite bind_ok. intros (u1 & _ & H). rewrite bind_ok in H. destruct H as (g & _ & H).
  rewrite bind_ok in H. destruct H as ([[r1 g1] f1] & E & H). apply (inj Ok) in H as [= <- _ <-].
  by apply v_compute_frame in E as (? & _ & _).
Qed.

End Decoders.

(** ** Which decoder a lidar gets

    The decoder for the device is chosen by the type that the parser of the other
    side has reported. *)

(** The decoder of the same protocol; none of 2.4 is compiled, nor of 2.6. *)
Definition counterpart (k : parser_kind) : option gpu_kind :=
  match k with
  | Udp1_4 => Some (KSpinning Gpu1_4) | Udp2_4 => None | Udp2_5 => Some K2_5 | Udp2_6 => None
  | Udp3_1 => Some (KSpinning Gpu3_1) | Udp3_2 => Some (KSpinning Gpu3_2) | Udp4_3 => Some K4_3 | Udp4_7 => Some K4_7
  | Udp6_1 => Some (KSpinning Gpu6_1) | Udp7_2 => Some K7_2 | UdpP40 => Some (KSpinning GpuP40) | UdpP64 => Some (KSpinning GpuP64)
  end.

Lemma kind_of_version_cases major minor k ty : kind_of_version major minor = Some (k, ty) ->
  In (k, ty) [(Udp1_4, "Pandar128"); (Udp2_4, "ET25-E1X"); (Udp2_5, "ET25-E2X"); (Udp2_6, "ET25"); (Udp3_1, "PandarQT");
    (Udp3_2, "PandarQT128"); (Udp4_3, "AT128"); (Udp4_7, "ATX"); (Udp6_1, "PandarXT"); (Udp7_2, "PandarFT120")]%string.
Proof.
  unfold kind_of_version. destruct major as [|p|p]; [done| |done].
  repeat (destruct p as [p|p|]; try done); destruct minor as [|q|q]; try done;
    repeat (destruct q as [q|q|]; try done); intros [= <- <-]; cbn; tauto.
Qed.

(** The lidar of a packet gets the decoder of its own protocol, with two exceptions:
    one of protocol 2.6 gets the decoder of 2.5, and one of protocol 2.4 gets none,
    so that its first frame uses a null pointer. *)
Theorem gpu_decoder_of_lidar {P} {PT : PointType P} pkt k ty : kind_of_packet pkt = Ok (Some (k, ty)) ->
  gpu_kind_of_name ty = (if decide (k = Udp2_6) then Some K2_5 else counterpart k) /\
  (k = Udp2_4 -> forall s32 c32 at32 as32 t32 s64 c64 t64 cu junk (frame : LidarDecodedFrame P),
     major_version frame = 0 -> minor_version frame = 0 ->
     ('u ← gpu_SetLidarType cu junk ty UdpParserGpu_new; gpu_ComputeXYZI s32 c32 at32 as32 t32 s64 c64 t64 cu junk u frame)
       = Err NullPointer).
Proof.
  intros H. assert (In (k, ty) [(UdpP40, "Pandar40"); (UdpP64, "Pandar64"); (Udp1_4, "Pandar128"); (Udp2_4, "ET25-E1X");
    (Udp2_5, "ET25-E2X"); (Udp2_6, "ET25"); (Udp3_1, "PandarQT"); (Udp3_2, "PandarQT128"); (Udp4_3, "AT128"); (Udp4_7, "ATX");
    (Udp6_1, "PandarXT"); (Udp7_2, "PandarFT120")]%string) as Hin.
  { unfold kind_of_packet in H. destruct (size_is _ _); [apply (inj Ok) in H as [= <- <-]; cbn; tauto|].
    destruct (size_is _ _); [apply (inj Ok) in H as [= <- <-]; cbn; tauto|].
    rewrite bind_ok in H. destruct H as (b0 & _ & H). rewrite bind_ok in H. destruct H as (b1 & _ & H).
    destruct (_ || _); [done|]. rewrite bind_ok in H. destruct H as (mj & _ & H). rewrite bind_ok in H. destruct H as (mn & _ & H).
    apply (inj Ok), kind_of_version_cases in H. by do 2 right. }
  split.
  - cbn [In] in Hin. repeat (destruct Hin as [[= <- <-]|Hin]; [vm_compute; reflexivity|]). done.
  - intros ->. cbn [In] in Hin. assert (ty = "ET25-E1X"%string) as ->.
    { repeat (destruct Hin as [Hin|Hin]; [first [discriminate|by injection Hin]|]). done. }
    intros s32 c32 at32 as32 t32 s64 c64 t64 cu junk frame Hmj Hmn. unfold gpu_SetLidarType, create_decoder.
    replace (gpu_kind_of_name "ET25-E1X"%string) with (@None gpu_kind) by reflexivity. cbn [m_generalParserGpu UdpParserGpu_new mbind result_bind].
    unfold gpu_ComputeXYZI, gpu_CreatGeneralParser, create_decoder. cbn [m_generalParserGpu UdpParserGpu_new].
    by rewrite Hmj, Hmn.
Qed.

(** ** Witnesses *)

Definition demo_et_datagram : UdpPacket := mk_packet ([0xEE; 0xFF; 2; 6; 0; 0] ++ replicate 1494 0) 600 false 0 0 2368.

Lemma gpu_decoder_of_lidar_witness :
  kind_of_packet demo_et_datagram = Ok (Some (Udp2_6, "ET25"%string)) /\ gpu_kind_of_name "ET25" = Some K2_5.
Proof.
  assert (kind_of_packet demo_et_datagram = Ok (Some (Udp2_6, "ET25"%string))) as E by (vm_compute; reflexivity).
  split; [exact E|]. exact (proj1 (gpu_decoder_of_lidar (P := LidarPointXYZI) demo_et_datagram Udp2_6 "ET25" E)).
Defined.

Definition demo_unloaded : UdpParserGpu LidarPointXYZI := mk_udp_parser_gpu (Some (D7_2 (mk_parser_gpu demo_gpu false None))).

Lemma gpu_refusal_hidden_witness :
  gpu_ComputeXYZI id id id id id id id id working demo_transform demo_unloaded demo_gpu_frame = Ok (0, demo_unloaded, demo_gpu_frame).
Proof.
  destruct (gpu_refusal_hidden id id id id id id id id working demo_transform demo_unloaded demo_gpu_frame) as [H _].
  refine (proj1 (H (D7_2 (mk_parser_gpu demo_gpu false None)) 1 _ demo_gpu_frame eq_refl _)). by apply v_compute_unloaded.
Defined.
