(* ===== verification/SdkGpu.v ===== *)
(** * SdkGpu: the application's loop with a CUDA device

    driver/hesai_lidar_sdk_gpu.cuh.  The class has the members of [HesaiLidarSdk]
    (Sdk.v) and an [UdpParserGpu].  Its loop does not hand packets to the
    computing threads: the points of a frame are computed on the device when the
    frame is complete, in the loop's own thread, so a pass never waits and
    [where_] stays [Loop]. *)

From S2P Require Import Udp1_4 Points Gpu GpuParser Calendar.
From S2P Require Import Prelude Bytes Floats LidarTypes GeneralParser PacketLoss Decoder UdpParser SocketSource Lidar Sdk.
Local Open Scope Z_scope.

Record SdkGpu (P G S : Type) : Type := mk_sdk_gpu { sdk : Sdk P G S; gpu_parser_ptr_ : UdpParserGpu P }.
Arguments mk_sdk_gpu {P G S}.
Arguments sdk {P G S}.
Arguments gpu_parser_ptr_ {P G S}.

Section SdkGpuOps.
Context {P G S : Type} {D : Decoder P G} {PT : PointType P}.
Variable new_parser : parser_kind -> G.
Variable cfg : SdkConfig.
Variables (sin32 cos32 atan32 asin32 tan32 : f32 -> f32) (sin64 cos64 tan64 : f64 -> f64).
Variables (cu : Cuda) (junk : Transform).

Definition set_sdk (s : Sdk P G S) (st : SdkGpu P G S) : SdkGpu P G S := mk_sdk_gpu s (gpu_parser_ptr_ st).

(** emplace_back, points_num += per_points_num, packet_index++ *)
Definition count_packet (p : UdpPacket) (s : Sdk P G S) : result (Sdk P G S) :=
  i ← int_ok (packet_index s + 1);
  let f := frame_ (lidar s) in
  Ok (mk_sdk (set_frame (set_counts (packet_num f) (u32 (points_num f + per_points_num f)) f) (lidar s)) i
        (udp_packet_frame s ++ [p]) (where_ s) (nUDPCount s) (callbacks s) (accepted s) (closed s)).

(** A complete frame is computed and published; the packet that completed it, when
    it is a new one, is decoded again as the first of the next frame. *)
Definition frame_end (host : Z) (now : nat -> Z) (p : UdpPacket) (st : SdkGpu P G S) : result (SdkGpu P G S) :=
  let s := sdk st in
  let valid := negb (packet_num (frame_ (lidar s)) =? packet_index s) in
  let l := set_packet_num (packet_index s) (lidar s) in
  '(ret, u, f) ← gpu_ComputeXYZI sin32 cos32 atan32 asin32 tan32 sin64 cos64 tan64 cu junk (gpu_parser_ptr_ st) (frame_ l);
  let s := set_lidar (set_frame f l) s in
  s ← (if ret =? 0 then publish cfg s else Ok s);
  let s := next_frame Completed s in
  s ← (if valid then
         '(_, _, l) ← DecodePacket new_parser host now p (lidar s);
         count_packet p (set_lidar l s)
       else Ok s);
  Ok (mk_sdk_gpu s u).

(** The rest of a pass, for a packet that was decoded. *)
Definition gpu_decoded (host : Z) (now : nat -> Z) (p : UdpPacket) (st : SdkGpu P G S) : result (SdkGpu P G S) :=
  let s := sdk st in
  let f := frame_ (lidar s) in
  if scan_complete f then frame_end host now p st
  else
    s ← (if negb (packet_num f =? packet_index s) then count_packet p s else Ok s);
    Ok (set_sdk (if kMaxPacketNumPerFrame <=? packet_index s then next_frame Overflowed s else s) st).

(** One pass of [Run]. *)
Definition gpu_loop_turn (host : Z) (now : nat -> Z) (st : SdkGpu P G S) : result (SdkGpu P G S) :=
  let s := sdk st in
  let '(o, l) := GetOnePacket (lidar s) in
  let s := set_lidar l s in
  match o with
  | None => Ok (set_sdk s st)
  | Some p =>
      if packet_len p =? kFaultMessageLength then
        if filtered cfg (device_fault_port_ cfg) p then Ok (set_sdk s st)
        else match parser_ (Lidar.udp_parser_ l) with
             | Some _ => Ok (set_sdk (if has_fault_message_cb cfg then call [FaultMessage p] s else s) st)
             | None => Ok (set_sdk s st)
             end
      else if (negb (is_timeout p) || (packet_index s =? 0)) && filtered cfg (device_udp_port_ cfg) p then Ok (set_sdk s st)
      else
        '(r, _, l) ← DecodePacket new_parser host now p l;
        let s := set_lidar l s in
        if negb (r =? 0) then Ok (set_sdk s st)
        else
          let s := if negb (packet_num (frame_ l) =? packet_index s) then accept p s else s in
          gpu_decoded host now p (set_sdk s st)
  end.

(** The loop's thread and the receiving thread. *)
Inductive gpu_turn : Type := GMain (host : Z) (now : nat -> Z) | GArrive (p : UdpPacket).

Definition gpu_step (t : gpu_turn) (st : SdkGpu P G S) : result (SdkGpu P G S) :=
  match t with
  | GMain host now => gpu_loop_turn host now st
  | GArrive p =>
      let l := lidar (sdk st) in
      Ok (set_sdk (set_lidar (set_origin (source_ l) (origin_packets_buffer_ l ++ [p]) (is_timeout_ l) l) (sdk st)) st)
  end.

Definition gpu_run (ts : list gpu_turn) (st : SdkGpu P G S) : result (SdkGpu P G S) := foldM (fun st t => gpu_step t st) st ts.

(** ** The invariant *)

Context {L : DecoderLaws P G}.

(** The state between two passes. *)
Record GInv (s : Sdk P G S) : Prop := {
  ginv_parser : is_Some (parser_ (Lidar.udp_parser_ (lidar s)));
  ginv_index : 0 <= packet_index s < kMaxPacketNumPerFrame;
  ginv_length : Z.of_nat (length (udp_packet_frame s)) = packet_index s;
  ginv_packet_num : packet_num (frame_ (lidar s)) = packet_index s;
  ginv_accepted : accepted s = concat (snd <$> closed s) ++ udp_packet_frame s;
}.

Lemma ginv_lidar s l : GInv s -> is_Some (parser_ (Lidar.udp_parser_ l)) ->
  packet_num (frame_ l) = packet_num (frame_ (lidar s)) -> GInv (set_lidar l s).
Proof. intros [H1 H2 H3 H4 H5] Hp Hn. split; cbn; try done. by rewrite Hn. Qed.

Lemma ginv_call s cs : GInv s -> GInv (call cs s).
Proof. by intros [H1 H2 H3 H4 H5]. Qed.

Lemma get_packet_same (l l' : Lidar P G S) o : GetOnePacket l = (o, l') ->
  Lidar.udp_parser_ l' = Lidar.udp_parser_ l /\ frame_ l' = frame_ l.
Proof. unfold GetOnePacket. destruct (origin_packets_buffer_ l); by intros [= <- <-]. Qed.

(** A packet is counted. *)
Lemma count_packet_spec p s : 0 <= packet_index s < kMaxPacketNumPerFrame -> exists s', count_packet p s = Ok s' /\
  packet_index s' = packet_index s + 1 /\ udp_packet_frame s' = udp_packet_frame s ++ [p] /\ accepted s' = accepted s /\
  closed s' = closed s /\ callbacks s' = callbacks s /\ Lidar.udp_parser_ (lidar s') = Lidar.udp_parser_ (lidar s) /\
  packet_num (frame_ (lidar s')) = packet_num (frame_ (lidar s)).
Proof.
  intros Hi. unfold count_packet, int_ok. unfold kMaxPacketNumPerFrame in Hi.
  destruct (Z.leb_spec (- 2 ^ 31) (packet_index s + 1)); [|lia]. destruct (Z.ltb_spec (packet_index s + 1) (2 ^ 31)); [|lia].
  cbn [andb mbind result_bind]. by eexists.
Qed.

(** How a frame ends. *)
Lemma frame_end_inv host now p st st' g :
  let s := sdk st in
  parser_ (Lidar.udp_parser_ (lidar s)) = Some g -> just_decoded p g ->
  0 <= packet_index s < kMaxPacketNumPerFrame -> Z.of_nat (length (udp_packet_frame s)) = packet_index s ->
  packet_num (frame_ (lidar s)) = packet_index s + 1 ->
  accepted s = concat (snd <$> closed s) ++ udp_packet_frame s ++ [p] ->
  frame_end host now p st = Ok st' ->
  GInv (sdk st') /\ closed (sdk st') = closed s ++ [(Completed, udp_packet_frame s)] /\ udp_packet_frame (sdk st') = [p].
Proof.
  intros s Hg (H6 & h0 & n0 & g0 & f0 & g1 & f1 & Ev & Hal) Hi Hl Hn Ha. unfold frame_end. fold s.
  assert ((packet_num (frame_ (lidar s)) =? packet_index s) = false) as -> by lia. cbn [negb].
  rewrite bind_ok. intros ([[ret u] f] & Ec & H). apply gpu_compute_same_frame in Ec as [-> Hf].
  cbn [Z.eqb] in H. rewrite bind_ok in H. destruct H as (s1 & Ep & H). apply publish_keeps in Ep as [cs ->].
  set (sn := next_frame Completed _) in H. rewrite bind_ok in H. destruct H as (s2 & Ed & H). apply (inj Ok) in H as <-.
  cbn [sdk]. rewrite bind_ok in Ed. destruct Ed as ([[r w] l2] & Ed & Ec2).
  destruct (decode_lidar new_parser host now p (lidar sn) g r w l2 Hg Ed)
    as (g3 & Hg3 & _ & _ & _ & _ & _ & [(? & _)|(_ & Ev2 & En)]); [lia|].
  destruct (decode_again _ _ _ _ _ _ _ _ _ _ _ _ _ _ Ev Hal Ev2) as [-> _].
  change (packet_num (frame_ (lidar sn))) with 0 in En. cbn [Z.eqb] in En. change (u32 (0 + 1)) with 1 in En.
  destruct (count_packet_spec p (set_lidar l2 sn)) as (s3 & E3 & E1 & E2 & E4 & E5 & _ & E6 & E7); [done|].
  rewrite E3 in Ec2. apply (inj Ok) in Ec2 as <-.
  cbn [packet_index udp_packet_frame accepted closed lidar set_lidar] in E1, E2, E4, E5, E6, E7.
  assert (closed s3 = closed s ++ [(Completed, udp_packet_frame s)]) as Hcl by (rewrite E5; reflexivity).
  assert (udp_packet_frame s3 = [p]) as Hu by (rewrite E2; reflexivity).
  split; [|done]. split.
  - rewrite E6, Hg3. done.
  - rewrite E1. done.
  - rewrite Hu, E1. done.
  - rewrite E7, E1. exact En.
  - rewrite E4, Hcl, Hu, fmap_app, concat_app. cbn. change (accepted sn) with (accepted s). rewrite Ha.
    by rewrite app_nil_r, <-app_assoc.
Qed.

Lemma gpu_step_inv t st st' : GInv (sdk st) -> gpu_step t st = Ok st' ->
  GInv (sdk st') /\ exists xs, closed (sdk st') = closed (sdk st) ++ xs.
Proof.
  intros Hinv. pose proof Hinv as [[g Hg] Hi Hl Hn Ha].
  assert (forall s', GInv s' -> closed s' = closed (sdk st) -> forall st', Ok (set_sdk s' st) = Ok st' ->
    GInv (sdk st') /\ exists xs, closed (sdk st') = closed (sdk st) ++ xs) as Hsame.
  { intros s' Hs Hc st1 H. apply (inj Ok) in H as <-. cbn. split; [done|]. exists []. by rewrite app_nil_r. }
  destruct t as [host now|p]; cbn [gpu_step]; [|by apply Hsame; [by apply ginv_lidar|]].
  unfold gpu_loop_turn. destruct (GetOnePacket (lidar (sdk st))) as [o l] eqn:Eo. apply get_packet_same in Eo as [Eu Ef].
  assert (GInv (set_lidar l (sdk st))) as Hinv1 by (apply ginv_lidar; [done|by rewrite Eu|by rewrite Ef]).
  destruct o as [p|]; [|by apply Hsame]. destruct (_ =? kFaultMessageLength).
  { destruct (filtered cfg (device_fault_port_ cfg) p); [by apply Hsame|]. rewrite Eu, Hg.
    destruct (has_fault_message_cb cfg); [apply Hsame; [by apply ginv_call|done]|by apply Hsame]. }
  destruct (_ && _); [by apply Hsame|]. rewrite bind_ok. intros ([[r w] l2] & Ed & H).
  assert (parser_ (Lidar.udp_parser_ l) = Some g) as Hg1 by by rewrite Eu.
  destruct (decode_lidar new_parser host now p l g r w l2 Hg1 Ed) as (g2 & Hg2 & _ & _ & _ & _ & _ & Hr).
  destruct (Z.eqb_spec r 0) as [->|Hr0]; cbn [negb] in H.
  2: { revert H. apply Hsame; [|done]. apply (ginv_lidar (sdk st)); [done|by rewrite Hg2|].
       destruct Hr as [(_ & _ & E)|(_ & _ & E)]; by rewrite E, Ef. }
  destruct Hr as [(_ & ? & _)|(H6 & Ev & E)]; [done|]. rewrite Ef, Hn in E. cbn [Z.eqb] in E.
  assert (packet_num (frame_ l2) = packet_index (sdk st) + 1) as En.
  { rewrite E. unfold u32. unfold kMaxPacketNumPerFrame in Hi. apply Z.mod_small. lia. }
  cbn [packet_index set_lidar] in H. assert ((packet_num (frame_ l2) =? packet_index (sdk st)) = false) as Hne by lia.
  rewrite Hne in H. cbn [negb] in H. unfold gpu_decoded in H. cbn [sdk set_sdk lidar accept set_lidar packet_index] in H.
  destruct (scan_complete (frame_ l2)).
  - assert (just_decoded p g2) as Hj.
    { split; [done|]. exists host, now, g, (frame_ l), g2, (frame_ l2). split; [done|]. reflexivity. }
    apply (frame_end_inv _ _ _ _ _ g2) in H; cbn [sdk set_sdk lidar accept set_lidar packet_index udp_packet_frame accepted closed] in *;
      try done; [|by rewrite Ha, app_assoc]. destruct H as (H1 & H2 & _). split; [done|]. by eexists.
  - rewrite Hne in H. cbn [negb] in H. rewrite bind_ok in H. destruct H as (s3 & E3 & H). apply (inj Ok) in H as <-.
    destruct (count_packet_spec p (accept p (set_lidar l2 (sdk st)))) as (s4 & E4 & F1 & F2 & F3 & F4 & _ & F5 & F6); [done|].
    cbn [accept set_lidar lidar packet_index udp_packet_frame accepted closed] in F1, F2, F3, F4, F5, F6.
    assert (s3 = s4) as -> by (apply (inj Ok); rewrite <-E3, <-E4; reflexivity). cbn [sdk set_sdk].
    destruct (Z.leb_spec kMaxPacketNumPerFrame (packet_index s4)).
    + split; [|eexists; cbn [closed next_frame]; by rewrite F4]. split; cbn; try done.
      * by rewrite F5, Hg2.
      * rewrite F3, F4, F2, Ha, fmap_app, concat_app. cbn. by rewrite !app_nil_r, <-app_assoc.
    + split; [|exists []; by rewrite F4, app_nil_r]. split.
      * by rewrite F5, Hg2.
      * lia.
      * rewrite F2, F1, length_app. cbn. lia.
      * lia.
      * by rewrite F3, F4, F2, Ha, app_assoc.
Qed.

(** The state in which [Run] begins. *)
Definition gpu_fresh (st : SdkGpu P G S) : Prop :=
  is_Some (parser_ (Lidar.udp_parser_ (lidar (sdk st)))) /\ packet_index (sdk st) = 0 /\ udp_packet_frame (sdk st) = [] /\
  packet_num (frame_ (lidar (sdk st))) = 0 /\ accepted (sdk st) = [] /\ closed (sdk st) = [].

Lemma gpu_fresh_inv st : gpu_fresh st -> GInv (sdk st).
Proof. intros (H1 & H2 & H3 & H4 & H5 & H6). split; rewrite ?H2, ?H3, ?H4, ?H5, ?H6; done. Qed.

(** C4: whatever the order of arrivals and passes, every packet that was accepted is in
    exactly one frame, in the order of arrival, and a frame has fewer packets than
    there is room for; an overflow costs no packet of the next frame. *)
Theorem gpu_packets_partitioned ts st st' : gpu_fresh st -> gpu_run ts st = Ok st' ->
  accepted (sdk st') = concat (snd <$> closed (sdk st')) ++ udp_packet_frame (sdk st') /\
  Z.of_nat (length (udp_packet_frame (sdk st'))) = packet_num (frame_ (lidar (sdk st'))) /\
  packet_num (frame_ (lidar (sdk st'))) < kMaxPacketNumPerFrame.
Proof.
  intros Hf H. apply gpu_fresh_inv in Hf. unfold gpu_run in H.
  assert (GInv (sdk st')) as [_ Hi Hl Hn Ha].
  { revert H. apply (foldM_invariant (fun st => GInv (sdk st))); [|done]. intros st1 t st2 _ H1 H2.
    by apply (gpu_step_inv _ _ _ H1) in H2 as [? _]. }
  split; [done|]. lia.
Qed.

(** A decoder that has no calibration computes nothing, and the frame is published
    all the same, with the points it had before. *)
Theorem gpu_publishes_uncomputed host now p st st' g :
  let s := sdk st in
  let f := frame_ (lidar s) in
  m_generalParserGpu (gpu_parser_ptr_ st) = Some g -> loaded_ g = false ->
  kMinPointsOfOneFrame < points_num f -> has_point_cloud_cb cfg = true ->
  frame_end host now p st = Ok st' ->
  exists cs, callbacks (sdk st') = callbacks s ++ PointCloud (set_counts (packet_index s) (points_num f) f) :: cs.
Proof.
  intros s f Hg Hl Hm Hcb. unfold frame_end. fold s. fold f. unfold gpu_ComputeXYZI. rewrite Hg. cbn [mbind result_bind].
  rewrite Hg. cbn [of_option mbind result_bind]. rewrite v_compute_unloaded by done. cbn [mbind result_bind Z.eqb].
  unfold publish. cbn [lidar set_lidar frame_ set_frame set_parsed set_packet_num points_num set_counts]. fold f.
  destruct (Z.ltb_spec kMinPointsOfOneFrame (points_num f)) as [_|]; [|lia]. cbn [negb]. rewrite Hcb.
  rewrite bind_ok. intros (s1 & Ep & H). rewrite bind_ok in Ep. destruct Ep as (c3 & _ & Ep). rewrite bind_ok in Ep.
  destruct Ep as (c4 & _ & Ep). apply (inj Ok) in Ep as <-. rewrite bind_ok in H. destruct H as (s2 & E2 & H).
  apply (inj Ok) in H as <-. cbn [sdk]. assert (forall q s3 s4, count_packet q s3 = Ok s4 -> callbacks s4 = callbacks s3) as Hc.
  { intros q s3 s4 E. unfold count_packet in E. rewrite bind_ok in E. destruct E as (i & _ & E). by apply (inj Ok) in E as <-. }
  match type of E2 with (if ?b then _ else _) = _ => destruct b end.
  - rewrite bind_ok in E2. destruct E2 as ([[r w] l2] & _ & E2). apply Hc in E2 as ->. eexists. reflexivity.
  - apply (inj Ok) in E2 as <-. eexists. reflexivity.
Qed.

End SdkGpuOps.

(** ** Witnesses: the lidar of Sdk.v, with a decoder for the device that has no
    calibration *)

Definition demo_gpu_sdk : SdkGpu LidarPointXYZI Udp1_4.Udp1_4Parser unit :=
  mk_sdk_gpu demo_sdk (mk_udp_parser_gpu (Some (DSpinning GpuSpinning.Gpu1_4 (mk_parser_gpu demo_gpu false (tables GpuSpinning.demo_angles))))).
Definition demo_gpu_turns : list gpu_turn :=
  (GArrive <$> [demo_at 140; demo_at 15000; demo_at 30000; demo_at 140]) ++ replicate 4 (GMain 1 (fun _ => 0)).
Definition demo_gpu_run (ts : list gpu_turn) : result (SdkGpu LidarPointXYZI Udp1_4.Udp1_4Parser unit) :=
  gpu_run (D := demo_decoder) demo_new demo_config id id id id id id id id working demo_transform ts demo_gpu_sdk.

Lemma demo_gpu_fresh : gpu_fresh demo_gpu_sdk.
Proof. split; [by eexists|]. done. Qed.

Lemma demo_gpu_run_eq ts st : demo_gpu_run ts = Ok st ->
  gpu_run (D := demo_decoder) demo_new demo_config id id id id id id id id working demo_transform ts demo_gpu_sdk = Ok st.
Proof. done. Qed.

Lemma demo_gpu_seen {A} (f : SdkGpu LidarPointXYZI Udp1_4.Udp1_4Parser unit -> A) ts st x :
  demo_gpu_run ts = Ok st -> match demo_gpu_run ts with Ok s => Some (f s) | Err _ => None end = Some x -> f st = x.
Proof. by intros -> [= ->]. Qed.

Lemma gpu_packets_partitioned_witness : exists st', demo_gpu_run demo_gpu_turns = Ok st' /\
  accepted (sdk st') = concat (snd <$> closed (sdk st')) ++ udp_packet_frame (sdk st') /\
  length (closed (sdk st')) = 1%nat /\ length (udp_packet_frame (sdk st')) = 1%nat.
Proof.
  assert (is_ok (demo_gpu_run demo_gpu_turns) = true) as Hok by (vm_compute; reflexivity).
  destruct (demo_gpu_run demo_gpu_turns) as [st'|] eqn:E; [|done]. exists st'. split; [done|].
  destruct (gpu_packets_partitioned (D := demo_decoder) (L := demo_laws) demo_new demo_config id id id id id id id id working
    demo_transform demo_gpu_turns demo_gpu_sdk st') as (H & _); [exact demo_gpu_fresh|apply demo_gpu_run_eq, E|]. split; [exact H|].
  split; [apply (demo_gpu_seen (fun s => length (closed (sdk s))) demo_gpu_turns st' _ E); vm_compute; reflexivity|].
  apply (demo_gpu_seen (fun s => length (udp_packet_frame (sdk s))) demo_gpu_turns st' _ E). vm_compute. reflexivity.
Defined.

Definition demo_frame_end :=
  frame_end (D := demo_decoder) demo_new demo_config id id id id id id id id working demo_transform 1 (fun _ => 0) (demo_at 140) demo_gpu_sdk.

Lemma gpu_publishes_uncomputed_witness : exists st' cs, demo_frame_end = Ok st' /\ callbacks (sdk st') = PointCloud demo_frame :: cs.
Proof.
  assert (is_ok demo_frame_end = true) as Hok by (vm_compute; reflexivity). destruct demo_frame_end as [st'|] eqn:E; [|done].
  destruct (gpu_publishes_uncomputed (D := demo_decoder) demo_new demo_config id id id id id id id id working demo_transform 1 (fun _ => 0)
    (demo_at 140) demo_gpu_sdk st' (DSpinning GpuSpinning.Gpu1_4 (mk_parser_gpu demo_gpu false (tables GpuSpinning.demo_angles)))
    eq_refl eq_refl eq_refl eq_refl E) as [cs H]. by exists st', cs.
Defined.
