(* ===== verification/SdkLife.v ===== *)
(** * SdkLife: starting and stopping the SDK

    The constructor, [Init], [Init_thread], [Start], [Stop] and the destructor of
    driver/hesai_lidar_sdk.hpp, and [Init] and [Stop] of
    driver/hesai_lidar_sdk_gpu.cuh.  [Init] makes the lidar and a thread that
    initialises it, [Start] waits for the flags of the lidar and makes the thread
    of [Run], [Stop] joins that thread, deletes the lidar and joins the first
    thread.  The lidar is an object on the heap: [lidar_heap] is what is there,
    and [lidar_ptr_] tells whether the member still points to it.  The turns of
    the initialising thread are those of LidarInit.v; what [Run] does is in Sdk.v.
    [Stop] goes one statement at a time, and the thread that initialises and the one
    of [Run] take their turns between any two of them; the lidar's own threads, which
    its destructor joins, are in LidarEnd.v. *)

From S2P Require Import Prelude Bytes Floats LidarTypes GeneralParser Streams Decoder UdpParser SocketSource Lidar LidarInit Sdk.
From S2P Require DriverParam Gpu GpuParser.
Local Open Scope Z_scope.

(** The thread behind [init_thread_ptr_], which the constructor does not set: not
    begun, past the test of [lidar_ptr_], inside [Lidar::Init], at its end. *)
Inductive init_thread : Set := NeverSet | Joined | Beginning | Tested | Initialising | Ended.

#[export] Instance init_thread_eq_dec : EqDecision init_thread.
Proof. solve_decision. Defined.

(** The thread of [Run]: not made, made, past its first statements, at its end. *)
Inductive run_thread : Set := NoRun | RunMade | RunLooping | RunEnded.

#[export] Instance run_thread_eq_dec : EqDecision run_thread.
Proof. solve_decision. Defined.

Record SdkObj (P G S C : Type) : Type := mk_sdk_obj {
  lidar_ptr_ : bool;
  lidar_heap : option (LidarObj P G S C);
  init_thread_ptr_ : init_thread;
  runing_thread_ptr_ : run_thread;
  is_thread_runing_ : bool;
  packet_loss_tool_ : bool;
  source_type_ : Z;
  sdk_ip_address_ : Z;
  sdk_udp_port_ : Z;
  sdk_fault_port_ : Z;
}.
Arguments mk_sdk_obj {P G S C}.
Arguments lidar_ptr_ {P G S C}.
Arguments lidar_heap {P G S C}.
Arguments init_thread_ptr_ {P G S C}.
Arguments runing_thread_ptr_ {P G S C}.
Arguments is_thread_runing_ {P G S C}.
Arguments packet_loss_tool_ {P G S C}.
Arguments source_type_ {P G S C}.
Arguments sdk_ip_address_ {P G S C}.
Arguments sdk_udp_port_ {P G S C}.
Arguments sdk_fault_port_ {P G S C}.

Section Life.
Context {P G S C : Type} {D : Decoder P G} {T : TypedDecoder P G} {F : SourceFactory S} {PC : PtcPort C}.
Variable new_parser : parser_kind -> G.
Variable cpus : Z.
Variable fs : string -> option string.
Variable inet_addr : string -> Z.
Variable param : DriverParam.DriverParam.
Implicit Types s : SdkObj P G S C.

(** [HesaiLidarSdk::HesaiLidarSdk]; the addresses have no value yet, which nothing
    below reads before [Init]. *)
Definition Sdk_new : SdkObj P G S C :=
  mk_sdk_obj false None NeverSet NoRun false false DriverParam.DATA_FROM_PCAP 0 0 0.

Definition set_heap (o : LidarObj P G S C) s : SdkObj P G S C :=
  mk_sdk_obj (lidar_ptr_ s) (Some o) (init_thread_ptr_ s) (runing_thread_ptr_ s) (is_thread_runing_ s) (packet_loss_tool_ s)
    (source_type_ s) (sdk_ip_address_ s) (sdk_udp_port_ s) (sdk_fault_port_ s).
Definition set_init_thread (t : init_thread) (tool : bool) s : SdkObj P G S C :=
  mk_sdk_obj (lidar_ptr_ s) (lidar_heap s) t (runing_thread_ptr_ s) (is_thread_runing_ s) tool
    (source_type_ s) (sdk_ip_address_ s) (sdk_udp_port_ s) (sdk_fault_port_ s).
Definition set_run (ptr : run_thread) (running : bool) s : SdkObj P G S C :=
  mk_sdk_obj (lidar_ptr_ s) (lidar_heap s) (init_thread_ptr_ s) ptr running (packet_loss_tool_ s)
    (source_type_ s) (sdk_ip_address_ s) (sdk_udp_port_ s) (sdk_fault_port_ s).
Definition free_lidar s : SdkObj P G S C :=
  mk_sdk_obj (lidar_ptr_ s) None (init_thread_ptr_ s) (runing_thread_ptr_ s) (is_thread_runing_ s) (packet_loss_tool_ s)
    (source_type_ s) (sdk_ip_address_ s) (sdk_udp_port_ s) (sdk_fault_port_ s).
(** lidar_ptr_ = nullptr *)
Definition null_lidar s : SdkObj P G S C :=
  mk_sdk_obj false (lidar_heap s) (init_thread_ptr_ s) (runing_thread_ptr_ s) (is_thread_runing_ s) (packet_loss_tool_ s)
    (source_type_ s) (sdk_ip_address_ s) (sdk_udp_port_ s) (sdk_fault_port_ s).

(** The object behind [lidar_ptr_]. *)
Definition lidar_of s : result (LidarObj P G S C) :=
  if lidar_ptr_ s then of_option UseAfterFree (lidar_heap s) else Err NullPointer.

(** [Init] of an object that was not initialised before. *)
Definition Init s : SdkObj P G S C :=
  let i := DriverParam.input_param param in
  let ip := inet_addr (DriverParam.device_ip_address i) in
  mk_sdk_obj true (Some Lidar_new) Beginning (runing_thread_ptr_ s) (is_thread_runing_ s) (packet_loss_tool_ s)
    (DriverParam.source_type i) ip (port_filter ip (DriverParam.device_udp_src_port i)) (port_filter ip (DriverParam.device_fault_port i)).

(** A turn of [Init_thread].  [Lidar::Init] runs on the object it was called on,
    whatever has become of [lidar_ptr_]. *)
Definition init_thread_turn (host : Z) (now : nat -> Z) s : result (SdkObj P G S C) :=
  match init_thread_ptr_ s with
  | Beginning =>
      let tool := DriverParam.enable_packet_loss_tool (DriverParam.decoder_param param) in
      Ok (set_init_thread (if lidar_ptr_ s then Tested else Ended) tool s)
  | Tested =>
      o ← lidar_of s;
      o ← Init_start cpus param o;
      Ok (set_init_thread Initialising (packet_loss_tool_ s) (set_heap o s))
  | Initialising =>
      o ← of_option UseAfterFree (lidar_heap s);
      match init_at o with
      | Returned _ =>
          o ← lidar_of s;
          Ok (set_init_thread Ended (packet_loss_tool_ s) (set_heap (finish AllInitFinish o) s))
      | _ => o ← init_turn new_parser fs param host now o; Ok (set_heap o s)
      end
  | _ => Ok s
  end.

(** A look of [Start] at the flags, and whether it made the thread of [Run]. *)
Definition start_turn s : result (bool * SdkObj P G S C) :=
  o ← lidar_of s;
  if ((source_type_ s =? DriverParam.DATA_FROM_LIDAR) && finished FaultMessParse o) || finished AllInitFinish o
  then Ok (true, set_run RunMade (is_thread_runing_ s) s) else Ok (false, s).

(** A turn of [Run]: what it copies into the frame first, then the test of its
    loop, whose passes are those of Sdk.v. *)
Definition run_turn s : result (SdkObj P G S C) :=
  match runing_thread_ptr_ s with
  | RunMade =>
      o ← lidar_of s;
      let f := set_config (fov_start_ o) (fov_end_ o) (set_timestamp_type (use_timestamp_type_ o) (frame_ (core o))) in
      Ok (set_run RunLooping true (set_heap (set_core (set_parsed (udp_parser_ (core o)) f (core o)) o) s))
  | RunLooping => Ok (if is_thread_runing_ s then s else set_run RunEnded false s)
  | _ => Ok s
  end.

Definition onRelease s : SdkObj P G S C := set_run (runing_thread_ptr_ s) false s.

(** ** The turns of [Stop] *)

(** The statement [Stop] has come to; those from [StopThreads] to [StopFree] are
    inside [~Lidar]. *)
Inductive stop_pc : Set :=
| StopRun       (* if (nullptr != runing_thread_ptr_) is_thread_runing_ = false *)
| StopJoinRun   (* runing_thread_ptr_->join() *)
| StopLidar     (* if (nullptr != lidar_ptr_) delete lidar_ptr_: running_ = false *)
| StopThreads   (* the lidar's own threads are joined *)
| StopDeleting  (* the objects of the lidar are being deleted *)
| StopFree      (* their pointers are null; Logger::Stop, and the memory is freed *)
| StopNull      (* lidar_ptr_ = nullptr *)
| StopJoinInit  (* if (nullptr != init_thread_ptr_) init_thread_ptr_->join() *)
| StopDone.

#[export] Instance stop_pc_eq_dec : EqDecision stop_pc.
Proof. solve_decision. Defined.

(** A turn of [Stop]; a join waits for its thread. *)
Definition stop_turn (pc : stop_pc) s : option (result (stop_pc * SdkObj P G S C)) :=
  match pc with
  | StopRun =>
      Some (Ok match runing_thread_ptr_ s with NoRun => (StopLidar, s) | t => (StopJoinRun, set_run t false s) end)
  | StopJoinRun =>
      match runing_thread_ptr_ s with
      | NoRun | RunEnded => Some (Ok (StopLidar, set_run NoRun (is_thread_runing_ s) s))
      | _ => None
      end
  | StopLidar =>
      Some (if lidar_ptr_ s then o ← of_option UseAfterFree (lidar_heap s); Ok (StopThreads, set_heap (set_running false (init_set_ptc o) o) s)
            else Ok (StopJoinInit, s))
  | StopThreads => Some (Ok (StopDeleting, s))
  | StopDeleting => Some (Ok (StopFree, s))
  | StopFree => Some (Ok (StopNull, free_lidar s))
  | StopNull => Some (Ok (StopJoinInit, null_lidar s))
  | StopJoinInit =>
      match init_thread_ptr_ s with
      | NeverSet => Some (Err Uninitialised)
      | Joined | Ended => Some (Ok (StopDone, set_init_thread Joined (packet_loss_tool_ s) s))
      | _ => None
      end
  | StopDone => None
  end.

(** What [Lidar::Init] does once the objects of the lidar are being deleted: it goes
    on as long as it does not touch them.  The loading of a file is skipped when the
    pointer is null. *)
Definition dying_turn (nulled : bool) (o : LidarObj P G S C) : result (LidarObj P G S C) :=
  let gone := if nulled then Err NullPointer else Err UseAfterFree in
  match init_at o with
  | WaitParser | WaitPtc => gone
  | LoadCorrection =>
      let source_type := DriverParam.source_type (DriverParam.input_param param) in
      if source_type =? 1 then gone
      else if nulled || negb ((source_type =? 2) || (source_type =? 3)) then Ok (set_place LoadFiretimes o) else gone
  | LoadFiretimes => if nulled then Ok (set_place (Returned 0) (finish PointCloudParse o)) else gone
  | Returned _ => Ok o
  end.

(** A turn of the initialising thread while [Stop] is at [pc]. *)
Definition init_turn_stopping (pc : stop_pc) (host : Z) (now : nat -> Z) s : result (SdkObj P G S C) :=
  match init_thread_ptr_ s, lidar_heap s with
  | Initialising, Some o =>
      match init_at o, pc with
      | Returned _, _ => init_thread_turn host now s
      | _, StopDeleting => o ← dying_turn false o; Ok (set_heap o s)
      | _, StopFree => o ← dying_turn true o; Ok (set_heap o s)
      | _, _ => init_thread_turn host now s
      end
  | _, _ => init_thread_turn host now s
  end.

Inductive stop_event : Type :=
| Stopping
| TurnInit (host : Z) (now : nat -> Z)   (* the initialising thread *)
| TurnRun.                               (* the thread of [Run] *)

Definition stop_step (x : stop_pc * SdkObj P G S C) (e : stop_event) : option (result (stop_pc * SdkObj P G S C)) :=
  match e with
  | Stopping => stop_turn x.1 x.2
  | TurnInit host now => Some (s ← init_turn_stopping x.1 host now x.2; Ok (x.1, s))
  | TurnRun => Some (s ← run_turn x.2; Ok (x.1, s))
  end.

(** A schedule of turns from a state of [Stop] on. *)
Fixpoint stop_run (es : list stop_event) (x : stop_pc * SdkObj P G S C) : option (result (stop_pc * SdkObj P G S C)) :=
  match es with
  | [] => Some (Ok x)
  | e :: es => match stop_step x e with Some (Ok x) => stop_run es x | r => r end
  end.

(** [Stop], and the destructor, which calls it. *)
Definition Stop s : stop_pc * SdkObj P G S C := (StopRun, s).
Definition Sdk_delete := Stop.

(** ** The turns of the SDK before [Stop] *)

Inductive life_event : Type :=
| LifeInit (host : Z) (now : nat -> Z)   (* the initialising thread *)
| LifeLidar (e : init_event)             (* the other threads of the lidar *)
| LifeStart                              (* [Start] looks at the flags *)
| LifeRun.                               (* the thread of [Run] *)

Definition life_step s (e : life_event) : result (SdkObj P G S C) :=
  match e with
  | LifeInit host now => init_thread_turn host now s
  | LifeLidar e =>
      match e with
      | EvInit _ _ | EvStop => Ok s
      | _ => o ← lidar_of s; o ← init_step new_parser fs param o e; Ok (set_heap o s)
      end
  | LifeStart => match runing_thread_ptr_ s with NoRun => '(_, s) ← start_turn s; Ok s | _ => Ok s end
  | LifeRun => run_turn s
  end.

Definition life_run (es : list life_event) s : result (SdkObj P G S C) := foldM life_step s es.

End Life.

(** ** The SDK with a device *)

Section GpuLife.
Context {P G S C : Type} {PT : LidarTypes.PointType P} {PC : PtcPort C}.
Variables (cu : Gpu.Cuda) (junk : Transform).
Variable fs : string -> option string.
Variable param : DriverParam.DriverParam.
Notation input := (DriverParam.input_param param).
Notation decoder := (DriverParam.decoder_param param).
Implicit Types (o : LidarObj P G S C) (u : GpuParser.UdpParserGpu P).

(** The loop that loads the calibration from the lidar: after each failure the file
    is loaded, and the query is made again, [n] times in all. *)
Fixpoint gpu_load_tries (n : nat) o u : result (GpuParser.UdpParserGpu P * LidarObj P G S C) :=
  match n with
  | O => Ok (u, o)
  | Datatypes.S n =>
      c ← client_of o;
      '(ret, sData, c) ← GetCorrectionInfo c;
      let o := set_ptc (Some c) (correction_string_ o) o in
      '(r, u) ← (if negb (ret =? 0) then Ok (-1, u) else GpuParser.gpu_LoadCorrectionString cu (string_of sData) u);
      if r =? 0 then Ok (u, o)
      else
        '(_, u) ← GpuParser.gpu_LoadCorrectionFile cu fs (DriverParam.correction_file_path input) u;
        gpu_load_tries n o u
  end.

(** [HesaiLidarSdkGpu::Init] after [Lidar::Init]: a decoder of the name the lidar
    reports, with the settings of the parameters and a calibration of its own. *)
Definition gpu_Init o : result (GpuParser.UdpParserGpu P * LidarObj P G S C) :=
  u ← GpuParser.gpu_SetLidarType cu junk (GetLidarType o) GpuParser.UdpParserGpu_new;
  let u := (GpuParser.gpu_SetOpticalCenterCoordinates (DriverParam.distance_correction_lidar_type decoder) u).2 in
  let u := (GpuParser.gpu_SetXtSpotCorrecion (DriverParam.lidar_type param) u).2 in
  let t := DriverParam.transform_param decoder in
  let u := (GpuParser.gpu_SetTransformPara (DriverParam.x t) (DriverParam.y t) (DriverParam.z t)
              (DriverParam.roll t) (DriverParam.pitch t) (DriverParam.yaw t) u).2 in
  if DriverParam.source_type input =? 1 then gpu_load_tries 3 o u
  else '(_, u) ← GpuParser.gpu_LoadCorrectionFile cu fs (DriverParam.correction_file_path input) u; Ok (u, o).

End GpuLife.

(** ** The state between the turns *)

Section LifeInv.
Context {P G S C : Type} {D : Decoder P G} {T : TypedDecoder P G} {F : SourceFactory S} {PC : PtcPort C}.
Variable new_parser : parser_kind -> G.
Variable cpus : Z.
Variable fs : string -> option string.
Variable param : DriverParam.DriverParam.
Implicit Types (s : SdkObj P G S C) (o : LidarObj P G S C).
Notation step := (life_step new_parser cpus fs param).

(** The lidar as its own thread has left it. *)
Definition heap_inv (t : init_thread) o : Prop :=
  match t with
  | Beginning | Tested => o = Lidar_new
  | Initialising => init_inv o /\ running_ o = true /\ finished AllInitFinish o = false
  | Ended => init_inv o /\ running_ o = true /\ init_at o = Returned 0
  | _ => False
  end.

(** [Run] was made only once [Start] had seen the flags it waits for. *)
Definition life_inv s : Prop :=
  lidar_ptr_ s = true /\ source_type_ s = DriverParam.source_type (DriverParam.input_param param) /\
  exists o, lidar_heap s = Some o /\ heap_inv (init_thread_ptr_ s) o /\
    (runing_thread_ptr_ s <> NoRun -> finished FaultMessParse o = true /\
       (source_type_ s = DriverParam.DATA_FROM_LIDAR \/ init_thread_ptr_ s = Ended)).

Lemma Lidar_new_inv : init_inv (Lidar_new : LidarObj P G S C).
Proof. done. Qed.

Lemma heap_inv_init t o : heap_inv t o -> init_inv o.
Proof. destruct t; cbn; try done; [by intros ->..|by intros [? _]|by intros [? _]]. Qed.

(** A turn of one of the lidar's own threads. *)
Lemma heap_step t o e o' : heap_inv t o -> t <> Beginning -> t <> Tested -> match e with EvInit _ _ | EvStop => False | _ => True end ->
  init_step new_parser fs param o e = Ok o' -> heap_inv t o' /\ later o o'.
Proof.
  intros Hi Ht Ht' He E. assert (e <> EvStop) as Hs by by intros ->.
  pose proof (init_step_later new_parser fs param o e o' Hs E) as Hl. split; [|done]. destruct Hl as (Hr & Ha & _).
  pose proof (heap_inv_init t o Hi) as Hi0. assert (length (init_finish_ o) = TotalStatus) as Hlen by apply Hi0.
  pose proof (init_step_inv new_parser fs param o e o' Hi0 E) as Hi'.
  destruct t; cbn in *; try done.
  - destruct Hi as (_ & Hr1 & Ha1). by rewrite Hr, Ha.
  - destruct Hi as (_ & Hr1 & Hat). rewrite Hr. split; [done|]. split; [done|].
    destruct e; cbn [init_step] in E; try done.
    + apply (set_ptc_turn_keeps param) in E as (_ & Ea & _); [|done]. by rewrite Ea.
    + destruct (ptc_client_ o); [|by injection E as <-]. rewrite bind_ok in E. by destruct E as (c' & _ & [= <-]).
    + injection E as <-. by destruct (receiving o).
Qed.

(** The same, of the thread that initialises. *)
Lemma init_thread_step host now s s' : life_inv s -> init_thread_turn new_parser cpus fs param host now s = Ok s' -> life_inv s'.
Proof.
  intros (Hp & Hs & o & Ho & Hi & Hr). unfold init_thread_turn. destruct (init_thread_ptr_ s) eqn:Et; try done.
  - intros [= <-]. rewrite Hp. split; [done|]. split; [done|]. exists o. cbn. split; [done|]. split; [done|].
    intros Hn. split; [by apply Hr|]. destruct (Hr Hn) as [H0 _]. cbn [heap_inv] in Hi. by subst o.
  - cbn [heap_inv] in Hi. subst o. unfold lidar_of. rewrite Hp, Ho. cbn [of_option mbind result_bind].
    rewrite bind_ok. intros (o & E & [= <-]). destruct (init_start_inv cpus param o E) as [Hi _].
    destruct (init_start_later cpus param o E) as [Hrun Hall]. split; [done|]. split; [done|].
    exists o. split; [done|]. split; [done|]. intros Hn. destruct (Hr Hn) as [? _]. done.
  - rewrite Ho. cbn [of_option mbind result_bind]. destruct Hi as (Hi & Hrun & Hall).
    assert (forall o', init_inv o' -> later o o' ->
      life_inv (set_heap o' s)) as Hkeep.
    { intros o' Hi' (Hr' & Ha' & Hl' & Hm). split; [done|]. split; [done|]. exists o'. split; [done|]. cbn. rewrite Et.
      split; [cbn [heap_inv]; by rewrite Hr', Ha'|]. intros Hn. destruct (Hr Hn) as [H0 H1]. split; [by apply Hm|done]. }
    destruct (init_at o) eqn:Ea; try (rewrite bind_ok; intros (o' & E & [= <-]);
      apply Hkeep; [by eapply init_turn_inv|by eapply init_turn_later]).
    unfold lidar_of. rewrite Hp, Ho. cbn [of_option mbind result_bind]. intros [= <-].
    destruct Hi as (Hl & Hd & Hpl). rewrite Ea in Hpl. destruct Hpl as [(-> & H0 & Hpar)|(_ & _ & _ & Hfalse)]; [|congruence].
    assert (forall i, i <> AllInitFinish -> finished i (finish AllInitFinish o) = finished i o) as Hf.
    { intros i Hi. unfold finished. cbn. by rewrite list_lookup_insert_ne. }
    split; [done|]. split; [done|]. exists (finish AllInitFinish o). split; [done|]. split.
    + split; [|done]. split; [by cbn; rewrite length_insert|]. rewrite !Hf by done. cbn [init_at finish]. split; [exact Hd|].
      rewrite Ea. left. split; [done|]. split; [done|exact Hpar].
    + intros Hn. rewrite Hf by done. split; [done|by right].
  - intros [= <-]. split; [done|]. split; [done|]. exists o. by rewrite Et.
Qed.

Lemma run_turn_inv s s' : life_inv s -> run_turn s = Ok s' -> life_inv s'.
Proof.
  intros (Hp & Hs & o & Ho & Hi & Hr). unfold run_turn. destruct (runing_thread_ptr_ s) eqn:Et.
  - intros [= <-]. split; [done|]. split; [done|]. exists o. by rewrite Et.
  - unfold lidar_of. rewrite Hp, Ho. cbn [of_option mbind result_bind]. intros [= <-]. split; [done|]. split; [done|].
    eexists. split; [reflexivity|]. split; [|intros _; by apply Hr].
    cbn [init_thread_ptr_ set_run set_heap]. destruct (Hr ltac:(done)) as [H0 _].
    destruct (init_thread_ptr_ s); cbn [heap_inv] in *; try done; by subst o.
  - intros [= <-]. destruct (is_thread_runing_ s); (split; [done|]; split; [done|]); exists o; rewrite ?Et; [done|].
    split; [done|]. split; [done|]. intros _. by apply Hr.
  - intros [= <-]. split; [done|]. split; [done|]. exists o. by rewrite Et.
Qed.

(** A turn of one of the lidar's other threads. *)
Lemma lidar_step_inv s o e o' : life_inv s -> lidar_of s = Ok o -> match e with EvInit _ _ | EvStop => False | _ => True end ->
  init_step new_parser fs param o e = Ok o' -> life_inv (set_heap o' s).
Proof.
  intros (Hp & Hs & o1 & Ho & Hi & Hr) Eo He E. unfold lidar_of in Eo. rewrite Hp, Ho in Eo. injection Eo as <-.
  split; [done|]. split; [done|]. exists o'. split; [done|]. cbn [init_thread_ptr_ set_heap].
  destruct (decide (init_thread_ptr_ s = Beginning \/ init_thread_ptr_ s = Tested)) as [Hb|Hb].
  - assert (o1 = Lidar_new) as -> by (by destruct Hb as [Hb|Hb]; rewrite Hb in Hi).
    assert (o' = Lidar_new) as -> by (destruct e; try done; cbn in E; by injection E as <-). split; [exact Hi|exact Hr].
  - destruct (heap_step _ _ _ _ Hi ltac:(tauto) ltac:(tauto) He E) as [Hi' (_ & _ & _ & Hm)]. split; [done|].
    intros Hn. destruct (Hr Hn) as [H0 H1]. split; [by apply Hm|done].
Qed.

Lemma life_step_inv s e s' : life_inv s -> step s e = Ok s' -> life_inv s'.
Proof.
  intros Hi. destruct e as [host now|e| |]; cbn [life_step].
  - by apply init_thread_step.
  - destruct e as [host now| | |p|]; try (by intros [= <-]); rewrite bind_ok; intros (o & Eo & H);
      rewrite bind_ok in H; destruct H as (o' & E & [= <-]); by refine (lidar_step_inv s o _ o' Hi Eo _ E).
  - destruct (runing_thread_ptr_ s) eqn:Et; try (by intros [= <-]). rewrite bind_ok. intros ([b s1] & E & [= <-]).
    unfold start_turn in E. destruct Hi as (Hp & Hs & o & Ho & Hi & Hr). unfold lidar_of in E. rewrite Hp, Ho in E.
    cbn [of_option mbind result_bind] in E. destruct (_ || _) eqn:Ef; injection E as <- <-.
    + split; [done|]. split; [done|]. exists o. split; [done|]. split; [done|]. intros _.
      cbn [source_type_ set_run init_thread_ptr_].
      apply orb_prop in Ef as [Ef|Ef].
      * apply andb_prop in Ef as [E1%Z.eqb_eq E2]. split; [done|by left].
      * destruct (init_thread_ptr_ s); cbn [heap_inv] in Hi; try done; [by subst o..|destruct Hi as (_ & _ & Hall); congruence|].
        destruct Hi as (Hi & Hrun & Ha). split; [|by right]. destruct Hi as (_ & _ & Hp'). rewrite Ha in Hp'.
        by destruct Hp' as [(_ & ? & _)|(? & _)].
    + split; [done|]. split; [done|]. exists o. by rewrite Et.
  - by apply run_turn_inv.
Qed.

Lemma life_init_inv inet s : runing_thread_ptr_ s = NoRun -> life_inv (Init inet param s).
Proof. intros Hn. split; [done|]. split; [done|]. exists Lidar_new. split; [done|]. split; [done|]. cbn. by rewrite Hn. Qed.

(** *** Stopping *)

Notation stop := (stop_run new_parser cpus fs param).

Lemma stop_run_app es es' x : stop (es ++ es') x = match stop es x with Some (Ok x) => stop es' x | r => r end.
Proof.
  revert x. induction es as [|e es IH]; intros x; cbn; [done|]. destruct (stop_step _ _ _ _ x e) as [[y|]|]; [apply IH|done..].
Qed.

(** What holds of every state a schedule reaches. *)
Lemma stop_run_invariant (I : stop_pc * SdkObj P G S C -> Prop) es : forall x,
  (forall x e y, I x -> stop_step new_parser cpus fs param x e = Some (Ok y) -> I y) ->
  forall y, I x -> stop es x = Some (Ok y) -> I y.
Proof.
  induction es as [|e es IH]; intros x Hs y Hx; cbn; [by intros [= <-]|].
  destruct (stop_step _ _ _ _ x e) as [[z|]|] eqn:E; try done. apply IH; [done|by eapply Hs].
Qed.

(** The order to stop was undone, or will be. *)
Definition undone s : Prop := runing_thread_ptr_ s = RunMade \/ runing_thread_ptr_ s = RunLooping /\ is_thread_runing_ s = true.

Definition same_run s s' : Prop := runing_thread_ptr_ s' = runing_thread_ptr_ s /\ is_thread_runing_ s' = is_thread_runing_ s.

Lemma init_thread_same_run host now s s' : init_thread_turn new_parser cpus fs param host now s = Ok s' -> same_run s s'.
Proof.
  unfold init_thread_turn. destruct (init_thread_ptr_ s); try (by intros [= <-]).
  - rewrite bind_ok. intros (o & _ & H). rewrite bind_ok in H. by destruct H as (o' & _ & [= <-]).
  - rewrite bind_ok. intros (o & _ & H). destruct (init_at o); rewrite bind_ok in H; by destruct H as (o' & _ & [= <-]).
Qed.

Lemma init_stopping_same_run pc host now s s' : init_turn_stopping new_parser cpus fs param pc host now s = Ok s' -> same_run s s'.
Proof.
  unfold init_turn_stopping. destruct (init_thread_ptr_ s), (lidar_heap s) as [o|]; try apply init_thread_same_run.
  destruct (init_at o), pc; try apply init_thread_same_run; rewrite bind_ok; by intros (o' & _ & [= <-]).
Qed.

Lemma undone_stays x e y : x.1 = StopJoinRun /\ undone x.2 -> stop_step new_parser cpus fs param x e = Some (Ok y) ->
  y.1 = StopJoinRun /\ undone y.2.
Proof.
  destruct x as [pc s], y as [pc' s']. cbn [fst snd]. intros [-> Hu]. destruct e; cbn [stop_step stop_turn fst snd].
  - by destruct Hu as [->|[-> _]].
  - intros [= H]. rewrite bind_ok in H. destruct H as (s1 & E & [= <- <-]). split; [done|].
    apply init_stopping_same_run in E as [E1 E2]. unfold undone. by rewrite E1, E2.
  - intros [= H]. rewrite bind_ok in H. destruct H as (s1 & E & [= <- <-]). split; [done|]. unfold run_turn in E.
    destruct Hu as [Hu|[Hu Hf]]; rewrite Hu in E.
    + rewrite bind_ok in E. destruct E as (o & _ & [= <-]). by right.
    + rewrite Hf in E. injection E as <-. by right.
Qed.

(** The lidar was freed under the thread that works on it. *)
Definition freed (x : stop_pc * SdkObj P G S C) : Prop :=
  (x.1 = StopNull \/ x.1 = StopJoinInit) /\ lidar_heap x.2 = None /\
  (init_thread_ptr_ x.2 = Tested \/ init_thread_ptr_ x.2 = Initialising).

Lemma freed_step x e y : freed x -> stop_step new_parser cpus fs param x e = Some (Ok y) ->
  freed y /\ match e with TurnInit _ _ => False | _ => True end.
Proof.
  destruct x as [pc s], y as [pc' s']. unfold freed. cbn [fst snd]. intros (Hpc & Hh & Ht). destruct e; cbn [stop_step fst snd].
  - destruct Hpc as [-> | ->]; cbn; [intros [= <- <-]; by auto|]. by destruct Ht as [-> | ->].
  - unfold init_turn_stopping, init_thread_turn, lidar_of. destruct Ht as [Ht|Ht]; rewrite Ht, Hh; [by destruct (lidar_ptr_ s)|done].
  - intros [= H]. rewrite bind_ok in H. destruct H as (s1 & E & [= <- <-]). split; [|done]. unfold run_turn, lidar_of in E.
    destruct (runing_thread_ptr_ s); [by injection E as <-|..|by injection E as <-].
    + rewrite Hh in E. by destruct (lidar_ptr_ s).
    + injection E as <-. by destruct (is_thread_runing_ s).
Qed.

Lemma freed_never_done x es y : freed x -> stop es x = Some (Ok y) -> y.1 <> StopDone /\ Forall (fun e => match e with TurnInit _ _ => False | _ => True end) es.
Proof.
  revert x. induction es as [|e es IH]; intros x Hx; cbn.
  { intros [= <-]. split; [|done]. by destruct Hx as [[-> | ->] _]. }
  destruct (stop_step _ _ _ _ x e) as [[z|]|] eqn:E; try done. destruct (freed_step x e z Hx E) as [Hz He].
  intros H. destruct (IH z Hz H). split; [done|by constructor].
Qed.

(** Stopping an SDK whose initialisation is over. *)
Definition alive s : Prop := lidar_ptr_ s = true /\ is_Some (lidar_heap s).
Definition all_gone s : Prop :=
  lidar_ptr_ s = false /\ lidar_heap s = None /\ runing_thread_ptr_ s = NoRun /\ init_thread_ptr_ s = Joined.

Definition orderly (x : stop_pc * SdkObj P G S C) : Prop :=
  match x.1 with
  | StopRun => init_thread_ptr_ x.2 = Ended /\ alive x.2 /\ runing_thread_ptr_ x.2 <> RunMade
  | StopJoinRun => init_thread_ptr_ x.2 = Ended /\ alive x.2 /\ is_thread_runing_ x.2 = false /\
      (runing_thread_ptr_ x.2 = RunLooping \/ runing_thread_ptr_ x.2 = RunEnded)
  | StopLidar | StopThreads | StopDeleting | StopFree => init_thread_ptr_ x.2 = Ended /\ alive x.2 /\ runing_thread_ptr_ x.2 = NoRun
  | StopNull => init_thread_ptr_ x.2 = Ended /\ lidar_heap x.2 = None /\ runing_thread_ptr_ x.2 = NoRun
  | StopJoinInit => init_thread_ptr_ x.2 = Ended /\ lidar_ptr_ x.2 = false /\ lidar_heap x.2 = None /\ runing_thread_ptr_ x.2 = NoRun
  | StopDone => all_gone x.2
  end.

Definition stop_left (pc : stop_pc) : nat :=
  match pc with
  | StopRun => 8 | StopJoinRun => 7 | StopLidar => 6 | StopThreads => 5 | StopDeleting => 4 | StopFree => 3 | StopNull => 2
  | StopJoinInit => 1 | StopDone => 0
  end.
Definition is_stopping (e : stop_event) : bool := match e with Stopping => true | _ => false end.
Definition stoppings (es : list stop_event) : nat := length (filter is_stopping es).

Lemma orderly_stopping pc s : orderly (pc, s) ->
  match stop_turn pc s with
  | Some (Ok y) => orderly y /\ (stop_left y.1 < stop_left pc)%nat
  | Some (Err _) => False
  | None => pc = StopDone \/ pc = StopJoinRun /\ runing_thread_ptr_ s = RunLooping /\ is_thread_runing_ s = false
  end.
Proof.
  unfold orderly, alive. destruct pc; cbn [fst snd stop_turn].
  - intros (Hi & Ha & Hr). destruct (runing_thread_ptr_ s) eqn:Er; try done; cbn; (split; [|lia]); cbn; rewrite ?Er; auto.
  - intros (Hi & Ha & Hf & [Hr|Hr]); rewrite Hr; cbn; [by right|]. split; [done|lia].
  - intros (Hi & [Hp [o Ho]] & Hr). rewrite Hp, Ho. cbn. split; [|lia]. rewrite Hp. by eauto.
  - intros H. cbn. split; [done|lia].
  - intros H. cbn. split; [done|lia].
  - intros (Hi & [Hp Ho] & Hr). cbn. split; [done|lia].
  - intros (Hi & Hh & Hr). cbn. split; [done|lia].
  - intros (Hi & Hp & Hh & Hr). rewrite Hi. cbn. split; [done|lia].
  - intros _. by left.
Qed.

Lemma orderly_others pc s e : orderly (pc, s) -> e <> Stopping ->
  exists s', stop_step new_parser cpus fs param (pc, s) e = Some (Ok (pc, s')) /\ orderly (pc, s') /\
    (e = TurnRun -> runing_thread_ptr_ s' <> RunLooping \/ is_thread_runing_ s' = true).
Proof.
  intros H He. destruct e as [|host now|]; [done|..].
  - exists s. split; [|done]. cbn [stop_step fst snd]. unfold init_turn_stopping, init_thread_turn.
    assert (init_thread_ptr_ s = Ended \/ init_thread_ptr_ s = Joined) as [Hi|Hi] by (destruct pc; cbn in H; try tauto; right; apply H);
      by rewrite Hi.
  - cbn [stop_step fst snd]. unfold run_turn. destruct (runing_thread_ptr_ s) eqn:Er.
    + exists s. rewrite Er. auto.
    + exfalso. destruct pc; cbn in H; unfold all_gone in *; rewrite Er in H; naive_solver.
    + destruct (is_thread_runing_ s) eqn:Ef.
      * exists s. rewrite Er, Ef. auto.
      * exists (set_run RunEnded false s). split; [done|]. split; [|by left].
        destruct pc; cbn in H |- *; unfold all_gone, alive in *; rewrite ?Er in H; cbn; naive_solver.
    + exists s. rewrite Er. auto.
Qed.

Lemma orderly_run es : forall x, orderly x ->
  match stop es x with
  | Some (Ok y) => orderly y /\ (stoppings es + stop_left y.1 <= stop_left x.1)%nat
  | Some (Err _) => False
  | None => True
  end.
Proof.
  induction es as [|e es IH]; intros [pc s] Hx; cbn [stop_run]; [split; [done|cbn; lia]|].
  destruct (is_stopping e) eqn:He; [destruct e; try done|].
  - pose proof (orderly_stopping pc s Hx) as H. cbn [stop_step fst snd]. destruct (stop_turn pc s) as [[y|]|]; [|done..].
    destruct H as [Hy Hl]. specialize (IH y Hy). destruct (stop es y) as [[z|]|]; [|done..]. destruct IH as [? Hl'].
    split; [done|]. unfold stoppings in *. rewrite filter_cons_True by exact I. cbn [length fst] in *. lia.
  - destruct (orderly_others pc s e Hx) as (s' & -> & Hy & _); [by intros ->|]. specialize (IH (pc, s') Hy).
    destruct (stop es (pc, s')) as [[z|]|]; [|done..]. unfold stoppings in *. rewrite filter_cons_False; [exact IH|]. rewrite He. by intros [].
Qed.

(** A turn of [Run], if one is due, lets [Stop] go on. *)
Lemma orderly_goes_on pc s : orderly (pc, s) -> pc <> StopDone -> exists y, stop [TurnRun; Stopping] (pc, s) = Some (Ok y).
Proof.
  intros Hx Hn. destruct (orderly_others pc s TurnRun Hx) as (s' & E & Hy & Hr); [done|]. cbn [stop_run]. rewrite E.
  pose proof (orderly_stopping pc s' Hy) as H. cbn [stop_step fst snd]. destruct (stop_turn pc s') as [[y|]|]; [by exists y|done|].
  exfalso. destruct H as [?|(-> & H1 & H2)]; [done|]. destruct (Hr eq_refl); congruence.
Qed.

(** Up to the deletion of the lidar, without a turn of the initialising thread. *)
Lemma reach_free s : alive s -> runing_thread_ptr_ s <> RunMade ->
  exists es s', stop es (Stop s) = Some (Ok (StopNull, s')) /\ lidar_ptr_ s' = true /\ lidar_heap s' = None /\
    runing_thread_ptr_ s' = NoRun /\ init_thread_ptr_ s' = init_thread_ptr_ s /\
    Forall (fun e => match e with TurnInit _ _ => False | _ => True end) es.
Proof.
  intros [Hp [o Ho]] Hr.
  assert (exists es b, stop es (Stop s) = Some (Ok (StopLidar, set_run NoRun b s)) /\
    Forall (fun e => match e with TurnInit _ _ => False | _ => True end) es) as (es & b & E & Hes).
  { destruct s as [p h i run f t st ip up fp]. cbn in *. destruct run; try done.
    - exists [Stopping], f. split; [done|by repeat constructor].
    - exists [Stopping; TurnRun; Stopping], false. split; [done|by repeat constructor].
    - exists [Stopping; TurnRun; Stopping], false. split; [done|by repeat constructor]. }
  exists (es ++ [Stopping; Stopping; Stopping; Stopping]). eexists. split.
  - rewrite stop_run_app, E. cbn [stop_run stop_step fst snd stop_turn lidar_ptr_ lidar_heap set_run]. rewrite Hp, Ho.
    cbn [of_option mbind result_bind stop_run stop_step fst snd stop_turn]. reflexivity.
  - cbn. split; [done|]. split; [done|]. split; [done|]. split; [done|]. apply Forall_app. split; [done|by repeat constructor].
Qed.

End LifeInv.

(** ** Properties *)

Section LifeProperties.
Context {P G S C : Type} {D : Decoder P G} {T : TypedDecoder P G} {F : SourceFactory S} {PC : PtcPort C}.
Variable new_parser : parser_kind -> G.
Variable cpus : Z.
Variable fs : string -> option string.
Variable inet_addr : string -> Z.
Variable param : DriverParam.DriverParam.
Implicit Types (s : SdkObj P G S C).

(** C5: whatever the order in which the initialising thread, the lidar's threads,
    [Start] and [Run] take their turns: when the thread of [Run] exists the lidar
    exists and has a parser, and unless the packets come from a lidar its [Init]
    has returned 0 and the calibration has been dealt with. *)
Theorem run_has_parser es s :
  life_run new_parser cpus fs param es (Init inet_addr param Sdk_new) = Ok s -> runing_thread_ptr_ s <> NoRun ->
  exists o, lidar_of s = Ok o /\ has_parser (core o) /\
    (DriverParam.source_type (DriverParam.input_param param) <> DriverParam.DATA_FROM_LIDAR ->
     init_at o = Returned 0 /\ finished PointCloudParse o = true).
Proof.
  intros Hr Hn. assert (life_inv param s) as (Hp & Hs & o & Ho & Hi & Hrun).
  { revert Hr. apply (foldM_invariant (life_inv param)); [intros s1 e s2 _; apply life_step_inv|by apply life_init_inv]. }
  destruct (Hrun Hn) as [H0 H1]. exists o. unfold lidar_of. rewrite Hp, Ho. split; [done|].
  split; [by apply init_inv_parser; [by eapply heap_inv_init|]|]. intros Hne. destruct H1 as [H1|H1]; [congruence|].
  rewrite H1 in Hi. destruct Hi as ((_ & Hd & _) & _ & Ha). split; [done|by apply Hd].
Qed.

Notation stop := (stop_run new_parser cpus fs param).


End LifeProperties.

(** When the lidar does not answer the query for its calibration, the device's
    decoder loads the file three times over. *)
Theorem gpu_loads_file_three_times {P G S C : Type} {PT : LidarTypes.PointType P} {PC : PtcPort C} (cu : Gpu.Cuda) fs param
    (o : LidarObj P G S C) (u : GpuParser.UdpParserGpu P) c :
  (forall c, exists c', ptc_QueryCommand [] PtcClient.kPTCGetLidarCalibration c = Ok (-1, [], c')) -> ptc_client_ o = Some c ->
  let load u := GpuParser.gpu_LoadCorrectionFile cu fs (DriverParam.correction_file_path (DriverParam.input_param param)) u in
  exists o', gpu_load_tries cu fs param 3 o u =
    ('(_, u) ← load u; '(_, u) ← load u; '(_, u) ← load u; Ok (u, o')).
Proof.
  intros Hq Hc load.
  assert (forall n (o : LidarObj P G S C) c, ptc_client_ o = Some c -> exists c', forall u, gpu_load_tries cu fs param (Datatypes.S n) o u =
    ('(_, u) ← load u; gpu_load_tries cu fs param n (set_ptc (Some c') (correction_string_ o) o) u)) as Hstep.
  { intros n o1 c1 H1. destruct (Hq c1) as [c2 E]. exists c2. intros u1. cbn [gpu_load_tries]. unfold client_of, GetCorrectionInfo.
    rewrite H1. cbn [of_option mbind result_bind]. by rewrite E. }
  destruct (Hstep 2%nat o c Hc) as [c1 E1]. destruct (Hstep 1%nat (set_ptc (Some c1) (correction_string_ o) o) c1 eq_refl) as [c2 E2].
  destruct (Hstep 0%nat _ c2 (eq_refl : ptc_client_ (set_ptc (Some c2) (correction_string_ o) (set_ptc (Some c1) (correction_string_ o) o)) = _)) as [c3 E3].
  eexists. rewrite E1. destruct (load u) as [[r1 u1]|]; cbn [mbind result_bind]; [|done]. rewrite E2.
  destruct (load u1) as [[r2 u2]|]; cbn [mbind result_bind]; [|done]. cbn [correction_string_ set_ptc] in *. rewrite E3.
  by destruct (load u2) as [[r3 u3]|].
Qed.

(** ** Witnesses, with the source and the client of LidarInit.v *)

#[local] Existing Instance demo_factory.
#[local] Existing Instance demo_port.
#[local] Existing Instance demo_typed.

(** From the file: [Init] ends, [Start] sees it, and [Run] begins. *)
Definition demo_life : list life_event :=
  replicate 3 (LifeInit 1 (fun _ => 0)) ++ [LifeLidar (EvArrive (demo_first [0xEE; 0xFF; 1; 4])); LifeStart] ++
  replicate 6 (LifeInit 1 (fun _ => 0)) ++ [LifeStart; LifeRun].

Notation demo_life_run es :=
  (life_run (P := LidarPointXYZI) (S := Z) (C := list (list Z)) (D := demo_decoder) (fun _ => Udp1_4.demo_parser true) 4 (fun _ => None)
    DriverParam.default_param es (SdkLife.Init (fun _ => 0) DriverParam.default_param Sdk_new)).

(** What a run that succeeds shows. *)
Lemma seen {A B} (r : result A) (f : A -> B) s v : r = Ok s -> (match r with Ok s => Some (f s) | Err _ => None end) = Some v -> f s = v.
Proof. intros ->. by intros [= <-]. Qed.

Lemma succeeds {A} (r : result A) : is_ok r = true -> exists s, r = Ok s.
Proof. destruct r; [eauto|done]. Qed.

Lemma run_has_parser_witness : exists s o, demo_life_run demo_life = Ok s /\
  lidar_of s = Ok o /\ has_parser (core o) /\ init_at o = Returned 0 /\ finished PointCloudParse o = true.
Proof.
  destruct (succeeds (demo_life_run demo_life)) as [s E]; [vm_compute; reflexivity|].
  destruct (run_has_parser (D := demo_decoder) (T := demo_typed) (fun _ => Udp1_4.demo_parser true) 4 (fun _ => None) (fun _ => 0) DriverParam.default_param
    demo_life s E) as (o & Ho & Hp & Hd).
  - rewrite (seen _ runing_thread_ptr_ s RunLooping E); [done|vm_compute; reflexivity].
  - exists s, o. destruct Hd as [Ha Hf]; [done|]. auto.
Defined.

Notation demo_stop es := (stop_run (D := demo_decoder) (fun _ => Udp1_4.demo_parser true) 4 (fun _ => None) DriverParam.default_param es).


(** A client whose queries fail, before a decoder was chosen. *)
#[local] Instance silent_port : PtcPort unit := {|
  new_PtcClient a := tt;
  ptc_IsOpen c := Ok true;
  ptc_QueryCommand _ _ c := Ok (-1, [], c);
  ptc_thread c := Ok c;
|}.

Lemma gpu_loads_file_three_times_witness :
  let o : LidarObj LidarPointXYZI unit Z unit := mk_lidar_obj new_Lidar (Some tt) (replicate 4 false) true true true 0 (-1) (-1) [] 0 false WaitParser in
  exists o', gpu_load_tries Gpu.working (fun _ => None) lidar_param 3 o GpuParser.UdpParserGpu_new = Ok (GpuParser.UdpParserGpu_new, o').
Proof.
  intros o. destruct (gpu_loads_file_three_times Gpu.working (fun _ => None) lidar_param o GpuParser.UdpParserGpu_new tt) as [o' E];
    [intros []; by exists tt|done|]. exists o'. rewrite E. reflexivity.
Defined.
